(* ===== verification/_CoqProject ===== *)
-Q . S2P
Prelude.v
Wire.v
SocketFilter.v
Messages.v
Broker.v
TransportState.v
DeDuplication.v
Interfaces.v
Fragmentation.v
Forwarding.v
LocalBus.v
Strings.v
Streams.v
EventLoop.v
Hostapd.v
Fsm.v
Channels.v
WifiChannel.v
TaskPool.v
AgentEnv.v
SwitchChannel.v
CoordinatedCac.v
AgentTasks.v
CacDatabase.v
ScanReport.v
ChannelScan.v
ScanSafety.v
ScanFlow.v
Tlvf.v
TlvClasses1905.v
TlvClassesMap.v
CmduMessage.v
CmduTx.v
CmduUtils.v
VendorMessage.v
VendorClassesAgent.v
VendorClassesController.v
BrokerClient.v
ClientDelivery.v
VendorTx.v
WscClasses.v
WscAttrList.v
WscTx.v
WscExamples.v
AssocClasses.v
AssocFrame.v
PhyRates.v
AssocExamples.v
VendorClasses.v
ControllerConnectivity.v
ControllerTask.v
Examples.v
AgentExamples.v
TlvExamples.v
ControllerExamples.v
ClientExamples.v
VendorExamples.v
ScanExamples.v
