(* ===== verification/Prelude.v ===== *)
(** * prplMesh

    A model of the parts of prplMesh that decide: the IEEE 1905.1 transport
    process, the common libraries every process is built on, tasks of the agent,
    the task framework of the controller, and the messages of the network. Every
    definition is executable and follows the C++ source under [src/]; names are
    the source's where the language allows it.

    ** The program

    prplMesh is an implementation of Wi-Fi Multi-AP. On every device runs a
    transport process ([framework/transport/ieee1905_transport]) that sends,
    receives, fragments, relays and de-duplicates CMDUs (the messages of IEEE
    1905.1) and hands them to local processes through a publish/subscribe
    broker. The agent ([agent/]) runs the radios of the device, the controller
    ([controller/]) the network. They share an event loop, timers, stream
    framings, string utilities, channel tables and a library of state machines
    ([common/beerocks/bcl]), a client of the broker ([common/beerocks/btl]) and
    an editor of hostapd's configuration ([common/beerocks/hostapd]).

    ** Files

    Transport process ([framework/transport/ieee1905_transport]):
    - [Wire]: MAC addresses, CMDU header accessors, TLV headers, [Packet],
      [verify_packet] ([ieee1905_transport.h]).
    - [SocketFilter]: the classic BPF program of
      [attach_interface_socket_filter], its interpreter, and the acceptance
      rule the source states in words.
    - [Messages]: layouts of the internal messages, framing, reading, sending
      ([ieee1905_transport_messages.*]).
    - [Broker]: [BrokerServer]; the class [Publisher] is what the transport
      uses of it, and the broker is an instance.
    - [TransportState]: the members of [Ieee1905Transport], the operating
      system's side (descriptors, filters, frames written), the environment
      [Env] with the answers of the kernel and clocks.
    - [DeDuplication], [Interfaces], [Fragmentation], [Forwarding], [LocalBus]:
      the methods of [ieee1905_transport_packet_processing.cpp],
      [ieee1905_transport_network.cpp] and [ieee1905_transport_local_bus.cpp].
      [LocalBus] closes with the transport as a whole: its events as a step
      function, reachable states, and their invariant.

    Common libraries:
    - [Strings]: [beerocks_string_utils.cpp], MAC address strings of
      [tlvftypes.cpp].
    - [Streams]: [BufferImpl], the parsers and serializers of the three stream
      framings, the read handlers that drain the buffer.
    - [EventLoop]: [EventLoopImpl], [TimerManagerImpl], the connections of
      [CmduServerImpl]. A callback is the list of loop operations it performs.
    - [Hostapd]: [prplmesh::hostapd::Configuration].
    - [Fsm]: [beerocks_fsm], state machines configured by tables.
    - [Channels]: [son_wireless_utils.cpp], tables and conversions of channels.
    - [WifiChannel]: the class [WifiChannel].
    - [PhyRates]: the rate tables of [son_wireless_utils.cpp] and the estimates
      of rate and signal strength built on them.
    - [CmduUtils]: [verify_cmdu] ([beerocks_cmdu_utils.cpp]).
    - [BrokerClient]: [BrokerClientImpl], the processes' side of the broker;
      [ClientDelivery]: how published CMDUs reach the observers of a client.

    Agent:
    - [TaskPool]: the tasks' event queue and messages.
    - [AgentEnv]: radios, answers of the backhaul manager, messages sent.
    - [SwitchChannel], [CoordinatedCac]: the two channel tasks, each a state
      machine in [Fsm], in a module of its own because both name their states
      alike.
    - [AgentTasks]: both tasks in the pool.
    - [CacDatabase]: the CAC databases and the reports made from them.
    - [ScanReport], [ChannelScan]: the channel scan task, its report and its
      requests, scans and periodic work, with the radio look-ups of the agent's
      database; [ScanSafety], [ScanFlow]: that a running scan has its request,
      and the course of a scan.
    - [ControllerConnectivity]: the task that watches over the controller; its
      heartbeats are built with [CmduTx].

    Controller:
    - [ControllerTask]: the base class of the tasks and their pool ([task.cpp],
      [task_pool.cpp]). The methods of a derived class are programs that call
      back into the base class and the pool ([prog]).

    Messages of the network ([framework/tlvf]):
    - [Tlvf]: the scheme all generated TLV classes follow. A [Layout] lists the
      steps of a class's [init()]; [init_parse] runs them on received bytes.
    - [TlvClasses1905], [TlvClassesMap]: the layouts of the generated classes.
    - [CmduMessage]: [ClassList] and [CmduMessageRx], with the choice of the
      class for a type.
    - [CmduTx]: [CmduMessageTx] for classes of fixed fields with at most a list
      of bytes.
    - [WscClasses], [WscAttrList]: the attributes of Wi-Fi Simple Configuration,
      their lists ([AttrList.h], [WscAttrList.h]) and the messages M1, M2, M8 and
      the decrypted settings as they are received; [WscTx]: as they are created.

    - [AssocClasses], [AssocFrame]: the elements of association and
      reassociation requests and their parsing ([AssocReqFrame.cpp]).

    Messages between the processes ([common/beerocks/tlvf]):
    - [VendorMessage]: received vendor specific messages with the class list
      inside of their TLV; [VendorTx]: those that are sent, [message_com].
    - [VendorClassesAgent], [VendorClassesController]: the generated message
      classes; [VendorClasses]: what holds for all of them.

    [Examples], [AgentExamples], [TlvExamples], [ControllerExamples],
    [ClientExamples], [VendorExamples], [WscExamples], [ScanExamples] and [AssocExamples]
    apply the theorems at concrete inputs.

    ** State, errors and the environment

    A method that changes members is a function in the fault and state monad
    [faultM]: [None] stands for undefined behaviour (an access outside a buffer,
    a null pointer, an uncaught exception), so that a result [Some] is also a
    proof that there was none. Failures the code reports are values: [bool],
    [option] or an enumeration. What the kernel, drivers, clocks and other
    processes answer is in the records [Env], [EpollEnv], [AgentEnv] and [ScanEnv], which
    the theorems quantify over. Integers are [Z] with the wrap-around of their
    width written out ([u8], [u16], [u32], [u64]); buffers are lists of bytes.

    ** Theorems

    - The transport: its invariant holds in every reachable state and every event
      but two messages of local clients, which do end the process, is handled
      inside of its buffer; fragments reassemble to the CMDU;
      relaying floods without loops; a message is accepted once within the
      age limit; the socket filter accepts what its rule says; interfaces own
      their sockets; the broker's two tables implement one relation, and
      publishing writes to exactly the subscribers.
    - The framings deliver every message of a stream once and in order,
      however the stream is cut; the messages and metadata survive
      serialisation; MAC addresses survive printing.
    - The event loop keeps the kernel's interest list equal to its handlers
      whatever the callbacks do; timers and server connections are consistent.
    - Configuration files survive storing and loading; a value set is read.
    - The channel tables are maps of disjoint channels, the routines that
      compute from them agree with each other, and the operating class of a
      channel of the 5 and 6 GHz tables gives back its band, bandwidth and 20
      MHz channels. The modulation of a rate is that of the nearest rate.
    - The channel tasks: their event queue empties unless it comes to one of
      two undefined events; a switch asked of the driver is under way until a
      notification ends it and is reported; a coordinated CAC always ends; which events can
      be undefined, and what a request leads to.
    - The channel scan task: a requested scan is carried out and answered with
      the monitor's results, a silent monitor is reported, and only two messages
      can leave a running scan without its request.
    - The watch over the controller: silence is noticed, a controller that
      answers is kept, heartbeats keep their pace.
    - The controller's tasks: each runs at most once per iteration, an iteration
      ends, a task that waits resumes at its event or time-out.
    - Parsing arbitrary bytes as a CMDU ends, inside the buffer but for the
      cases the theorem names; swapping undoes it; what [CmduMessageTx] builds
      is what [CmduMessageRx] finds. [verify_cmdu] accepts exactly the CMDUs
      whose TLVs are complete.
    - The client of the broker: a CMDU that is sent reaches the transport as it
      was composed, published CMDUs reach the observers once and in order,
      up to the length the broker takes; subscriptions take effect, handlers are registered exactly while the
      connection is open.
    - Vendor specific messages: the objects parsed from one lie one behind the
      other in the payload of its TLV, and swapping undoes the parsing; a message that is composed is found by its receiver
      with the values of its fields; all 371 classes are well-formed and told
      apart by the header.
    - The messages of Wi-Fi Simple Configuration: parsing arbitrary bytes
      faults exactly for the payloads the theorem names, what parsing accepts can be
      read, and the messages that are created are parsed to their configuration.
    - Association requests: the fields of a frame are found with their bytes.
    - The CAC status report of a radio lists exactly the channels of its
      database while its CAC runs.
    - Where the code does not do what it means to, a theorem shows it: the
      lines of source are named in its comment.

    ** Bounds and fuel

    Loops whose recursion is not structural take fuel computed from their
    input: a TLV walk the length of the buffer, the parsing loop of a stream
    the number of bytes in its buffer, the fragmentation loop 256 (the width of
    the fragment counter), the loops over TLVs and over the inner objects of a
    TLV the bytes that are left (each takes at least one), [verify_cmdu] the
    bytes of the CMDU, the loop over attributes the bytes of the payload (each
    takes at least four), the loop over the elements of an association frame
    the bytes of the frame (each takes at least two), [run_queue] a number
    of turns that [event_queue_drains] bounds by [agent_measure], the loop of the
    channel scan report one turn for every neighbour and result, [channels_from]
    64 steps where the widest channel has 16. The controller's pool takes fuel
    for its loop and a depth for programs that call each other. The theorems
    show that the fuel is enough: the walks end, the queue empties, the results
    are complete.

    ** Not modelled

    Start-up and signal handling, log messages and printing, and everything
    that only calls the kernel, a driver, a platform service or a library
    outside [src/]: BPL, BWL, the northbound data model, logging, encryption.
    Of the generated TLV classes the accessors are left out, of [CmduMessageTx]
    messages with inner objects, of the WSC messages the TLV around their
    attributes, of the association frames the capabilities of a station made
    from them, of the vendor messages that are sent those with lists, of
    [son_wireless_utils.cpp] the conversions from and to strings, of the agent's task pool the counters of its log message. The slave
    thread, the backhaul manager, the monitor, the other tasks of the agent,
    and the database and derived tasks of the controller are not modelled. *)

From stdpp Require Export base tactics list gmap sets strings sorting.
From Stdlib Require Export ZArith Lia.

#[global] Open Scope Z_scope.

(** ** Machine integers *)

(** Unsigned wrap-around at the widths the C++ code uses. *)
Definition u8 (z : Z) : Z := z mod 2 ^ 8.
Definition u16 (z : Z) : Z := z mod 2 ^ 16.
Definition u32 (z : Z) : Z := z mod 2 ^ 32.
Definition u64 (z : Z) : Z := z mod 2 ^ 64.

(** A byte of a buffer is a [Z] in range; buffers are [list Z]. *)
Definition byte_ok (b : Z) : Prop := 0 ≤ b < 256.
Definition bytes_ok (l : list Z) : Prop := Forall byte_ok l.

(** The two bytes of a 16-bit field in network order, and back
    ([htons]/[ntohs] around a [uint16_t] stored in a packed struct). *)
Definition be16 (hi lo : Z) : Z := Z.lor (Z.shiftl hi 8) lo.
Definition be32 (a b c d : Z) : Z :=
  Z.lor (Z.lor (Z.lor (Z.shiftl a 24) (Z.shiftl b 16)) (Z.shiftl c 8)) d.
Definition be16_bytes (v : Z) : list Z := [u8 (Z.shiftr v 8); u8 v].

(** [flags & mask] used as a condition, and the set/clear idiom
    [flags = (flags & ~mask) | (value ? mask : 0)] on a [uint8_t]. *)
Definition has_flag (flags mask : Z) : bool := negb (Z.land flags mask =? 0).
Definition put_flag (flags mask : Z) (value : bool) : Z :=
  u8 (Z.lor (Z.ldiff flags mask) (if value then mask else 0)).

(** [a[i]] on a buffer whose bounds were checked before. *)
Definition at_ (l : list Z) (i : nat) : Z := default 0 (l !! i).

(** ** Record update *)

Class Setter {R T : Type} (proj : R → T) := set_field : (T → T) → R → R.
Arguments set_field {R T} proj {_} _ _.

Declare Scope prpl_scope.
Delimit Scope prpl_scope with prpl.
Notation "s <| f := v |>" := (set_field f (λ _, v) s)
  (at level 1, f constr at level 0, v constr at level 200, left associativity,
   format "s <|  f  :=  v  |>") : prpl_scope.
Notation "s <| f ::= g |>" := (set_field f g s)
  (at level 1, f constr at level 0, g constr at level 200, left associativity,
   format "s <|  f  ::=  g  |>") : prpl_scope.
#[global] Open Scope prpl_scope.

(** ** State passing *)

(** A method of an object with state [S]: the state before gives the result
    and the state after. *)
Definition stM (S A : Type) : Type := S → A * S.
#[global] Instance stM_ret S : MRet (stM S) := λ A x s, (x, s).
#[global] Instance stM_bind S : MBind (stM S) := λ A B f m s, let '(x, s') := m s in f x s'.
Definition gets {S A} (f : S → A) : stM S A := λ s, (f s, s).
Definition modify {S} (f : S → S) : stM S unit := λ s, (tt, f s).

(** [for (auto &x : l) body(x)] where the body returns [false] to leave the
    function that contains the loop. *)
Fixpoint for_until {S A} (body : A → stM S bool) (l : list A) : stM S bool :=
  match l with
  | [] => mret true
  | x :: l' => ok ← body x; if (ok : bool) then for_until body l' else mret false
  end.

(** The same loop with a body that never leaves it. *)
Fixpoint for_each {S A} (body : A → stM S unit) (l : list A) : stM S unit :=
  match l with
  | [] => mret tt
  | x :: l' => body x ;; for_each body l'
  end.

(** A method that may read outside of a buffer: [None] is undefined
    behaviour, which ends the run. *)
Notation faultM S A := (stM S (option A)).
Definition fret {S A} (x : A) : faultM S A := mret (Some x).
Definition fault {S A} : faultM S A := mret None.
Definition fbind {S A C} (m : faultM S A) (f : A → faultM S C) : faultM S C :=
  r ← m; match r with Some x => f x | None => fault end.
Notation "x <- m ;; k" := (fbind m (λ x, k))
  (at level 100, m at next level, right associativity) : prpl_scope.

(** ** Ordered maps *)

(** A [std::map<std::string, V>] iterates its entries in the lexicographic
    order of the keys; [gmap] has the contents, [in_key_order] the order. *)
Definition key_le {V} (x y : string * V) : Prop := String.leb x.1 y.1 = true.
#[global] Instance key_le_dec {V} : RelDecision (@key_le V).
Proof. intros x y. unfold key_le. apply _. Defined.
Definition in_key_order {V} (m : gmap string V) : list (string * V) :=
  merge_sort key_le (map_to_list m).

(** ** Automation *)

Create HintDb prpl.
Create Rewrite HintDb prpl_rw.

(** Turns boolean comparisons of the context and goal into propositions. *)
Ltac bool_to_prop :=
  repeat match goal with
  | H : (_ && _)%bool = true |- _ => apply andb_true_iff in H; destruct H
  | H : (_ || _)%bool = false |- _ => apply orb_false_iff in H; destruct H
  | H : negb _ = true |- _ => apply negb_true_iff in H
  | H : negb _ = false |- _ => apply negb_false_iff in H
  | H : (_ <? _) = true |- _ => apply Z.ltb_lt in H
  | H : (_ <? _) = false |- _ => apply Z.ltb_ge in H
  | H : (_ <=? _) = true |- _ => apply Z.leb_le in H
  | H : (_ <=? _) = false |- _ => apply Z.leb_gt in H
  | H : (_ =? _) = true |- _ => apply Z.eqb_eq in H
  | H : (_ =? _) = false |- _ => apply Z.eqb_neq in H
  | H : bool_decide _ = true |- _ => apply bool_decide_eq_true in H
  | H : bool_decide _ = false |- _ => apply bool_decide_eq_false in H
  end.

(** Runs a state-passing program: one equation per combinator. *)
Create Rewrite HintDb st.
Ltac st_run := repeat (progress (autorewrite with st; cbn [fst snd])).
Tactic Notation "st_run" "in" hyp(H) :=
  repeat (progress (autorewrite with st in H; cbn [fst snd] in H)).

(** Proves [bytes_ok] of an explicit list from the facts on its bytes. *)
Ltac solve_bytes :=
  unfold bytes_ok;
  repeat (apply Forall_cons_2; [first [assumption | unfold byte_ok in *; lia]|]);
  first [apply Forall_nil_2 | assumption].

(** Case split on the innermost [match] scrutinee of the goal. *)
Ltac split_match := case_match; bool_to_prop; simplify_eq/=.

(** ** Lemmas shared by the components *)

Lemma stM_bind_run {S A C} (m : stM S A) (f : A → stM S C) s :
  (m ≫= f) s = f (m s).1 (m s).2.
Proof. unfold mbind, stM_bind. by destruct (m s). Qed.
Lemma stM_ret_run {S A} (x : A) (s : S) : (mret x : stM S A) s = (x, s).
Proof. done. Qed.
Lemma gets_run {S A} (f : S → A) s : gets f s = (f s, s).
Proof. done. Qed.
Lemma modify_run {S} (f : S → S) s : modify f s = (tt, f s).
Proof. done. Qed.
Lemma fret_run {S A} (x : A) (s : S) : fret x s = (Some x, s).
Proof. done. Qed.
Lemma fault_run {S A} (s : S) : (fault : faultM S A) s = (None, s).
Proof. done. Qed.
Lemma fbind_run {S A C} (m : faultM S A) (f : A → faultM S C) s :
  fbind m f s = match (m s).1 with Some x => f x (m s).2 | None => (None, (m s).2) end.
Proof. unfold fbind. rewrite stM_bind_run. by destruct (m s) as [[] ?]. Qed.
Lemma fbind_Some {S A C} (m : faultM S A) (f : A → faultM S C) s x s' :
  fbind m f s = (Some x, s') → ∃ y s1, m s = (Some y, s1) ∧ f y s1 = (Some x, s').
Proof. rewrite fbind_run. destruct (m s) as [[y|] s1]; cbn; [eauto|done]. Qed.
Lemma fbind_ok {S A B} (m : faultM S A) (f : A → faultM S B) s a s' : m s = (Some a, s') → fbind m f s = f a s'.
Proof. intros H. by rewrite fbind_run, H. Qed.
#[export] Hint Rewrite @stM_bind_run @stM_ret_run @gets_run @modify_run
  @fret_run @fault_run @fbind_run : st.

(** Programs that keep a property of the state. *)
Definition preserves {S A} (P : S → Prop) (m : faultM S A) : Prop := ∀ s, P s → P (m s).2.

Lemma preserves_ret {S A} (P : S → Prop) (x : A) : preserves P (fret x).
Proof. by intros s. Qed.
Lemma preserves_bind {S A C} (P : S → Prop) (m : faultM S A) (f : A → faultM S C) :
  preserves P m → (∀ x, preserves P (f x)) → preserves P (x <- m ;; f x).
Proof.
  intros Hm Hf s Hs. rewrite fbind_run. specialize (Hm s Hs).
  destruct (m s) as [[x|] s']; cbn in *; [by apply Hf|done].
Qed.

(** Programs that do not fault, keep a property of the state and give a value
    with a property. *)
Definition runs {S A} (P : S → Prop) (m : faultM S A) (Q : A → Prop) : Prop :=
  ∀ s, P s → ∃ x s', m s = (Some x, s') ∧ P s' ∧ Q x.

Lemma runs_ret {S A} (P : S → Prop) (Q : A → Prop) x : Q x → runs P (fret x) Q.
Proof. intros HQ s Hs. by exists x, s. Qed.
Lemma runs_bind {S A C} (P : S → Prop) (R : A → Prop) (Q : C → Prop) (m : faultM S A) (f : A → faultM S C) :
  runs P m R → (∀ x, R x → runs P (f x) Q) → runs P (x <- m ;; f x) Q.
Proof.
  intros Hm Hf s Hs. destruct (Hm s Hs) as (x & s1 & H1 & Hs1 & Hx). rewrite (fbind_ok _ _ _ _ _ H1). by apply (Hf x Hx).
Qed.
Lemma runs_weaken {S A} (P : S → Prop) (R Q : A → Prop) (m : faultM S A) : runs P m R → (∀ x, R x → Q x) → runs P m Q.
Proof. intros Hm HQ s Hs. destruct (Hm s Hs) as (x & s' & H1 & H2 & H3). exists x, s'. eauto. Qed.

Lemma in_key_order_Permutation {V} (m : gmap string V) :
  in_key_order m ≡ₚ map_to_list m.
Proof. apply merge_sort_Permutation. Qed.

Lemma elem_of_in_key_order {V} (m : gmap string V) k v :
  (k, v) ∈ in_key_order m ↔ m !! k = Some v.
Proof. by rewrite in_key_order_Permutation, elem_of_map_to_list. Qed.
#[export] Hint Rewrite @elem_of_in_key_order : prpl_rw.

Lemma in_key_order_empty {V} : in_key_order (∅ : gmap string V) = [].
Proof. apply Permutation_nil_r. by rewrite in_key_order_Permutation, map_to_list_empty. Qed.
Lemma in_key_order_singleton {V} k (v : V) : in_key_order {[k := v]} = [(k, v)].
Proof. apply Permutation_singleton_r. by rewrite in_key_order_Permutation, map_to_list_singleton. Qed.
#[export] Hint Rewrite @in_key_order_empty @in_key_order_singleton : prpl_rw.

Lemma list_filter_iff_in {A} (P Q : A → Prop) `{∀ x, Decision (P x), ∀ x, Decision (Q x)} (l : list A) :
  (∀ x, x ∈ l → P x ↔ Q x) → filter P l = filter Q l.
Proof.
  induction l as [|x l IH]; intros Hl; [done|]. rewrite !filter_cons.
  rewrite IH by (intros; apply Hl; by right). pose proof (Hl x ltac:(by left)) as Hx.
  destruct (decide (P x)), (decide (Q x)); tauto.
Qed.

(** The bits of a byte are its low eight ones. *)
Lemma byte_testbit_high m n : byte_ok m → 8 ≤ n → Z.testbit m n = false.
Proof.
  intros [Hm0 Hm] Hn. destruct (decide (m = 0)) as [->|]; [apply Z.bits_0|].
  apply Z.bits_above_log2; [lia|]. apply Z.log2_lt_pow2; [lia|].
  apply Z.lt_le_trans with (2 ^ 8); [lia|]. apply Z.pow_le_mono_r; lia.
Qed.

Lemma byte_testbit_lt m n : byte_ok m → Z.testbit m n = true → n < 8.
Proof.
  intros Hm Hb. destruct (Z.lt_ge_cases n 8); [done|].
  by rewrite (byte_testbit_high m n) in Hb.
Qed.

Lemma u8_range z : byte_ok (u8 z).
Proof. unfold byte_ok, u8. apply Z.mod_pos_bound. lia. Qed.
Lemma u16_range z : 0 ≤ u16 z < 65536.
Proof. unfold u16. apply Z.mod_pos_bound. lia. Qed.
#[export] Hint Resolve u8_range u16_range : prpl.

(** A shifted word or-ed with a word that fits below it is their sum. *)
Lemma lor_shiftl_add n a b : 0 ≤ n → 0 ≤ a < 2 ^ n → Z.lor (Z.shiftl b n) a = b * 2 ^ n + a.
Proof.
  intros Hn Ha. rewrite Z.shiftl_mul_pow2 by lia. rewrite <- Z.add_lor_land.
  enough (Z.land (b * 2 ^ n) a = 0) by lia.
  apply Z.bits_inj'. intros i Hi. rewrite Z.land_spec, Z.bits_0.
  destruct (Z.lt_ge_cases i n); [by rewrite Z.mul_pow2_bits_low by lia|].
  apply andb_false_intro2. destruct (decide (a = 0)) as [->|]; [apply Z.bits_0|].
  apply Z.bits_above_log2; [lia|]. apply Z.log2_lt_pow2; [lia|].
  apply Z.lt_le_trans with (2 ^ n); [lia|]. apply Z.pow_le_mono_r; lia.
Qed.

Lemma be16_add hi lo : byte_ok lo → be16 hi lo = hi * 256 + lo.
Proof. intros. unfold be16. by rewrite lor_shiftl_add. Qed.

Lemma be16_range hi lo : byte_ok hi → byte_ok lo → 0 ≤ be16 hi lo < 65536.
Proof. intros Hh Hl. rewrite be16_add by done. unfold byte_ok in *. lia. Qed.

Lemma be32_add a b c d : byte_ok b → byte_ok c → byte_ok d →
  be32 a b c d = ((a * 256 + b) * 256 + c) * 256 + d.
Proof.
  intros Hb Hc Hd.
  rewrite <- (be16_add _ d), <- (be16_add _ c), <- (be16_add _ b) by done.
  unfold be32, be16. rewrite !Z.shiftl_lor, !Z.shiftl_shiftl by lia. done.
Qed.

Lemma be32_range a b c d : byte_ok a → byte_ok b → byte_ok c → byte_ok d → 0 ≤ be32 a b c d < 2 ^ 32.
Proof. intros Ha Hb Hc Hd. rewrite be32_add by done. unfold byte_ok in *. lia. Qed.

(** [htons] then [ntohs] of a value that fits. *)
Lemma be16_bytes_roundtrip v : 0 ≤ v < 65536 →
  be16 (u8 (Z.shiftr v 8)) (u8 v) = v.
Proof.
  intros Hv. rewrite be16_add by auto with prpl. unfold u8.
  rewrite Z.shiftr_div_pow2 by lia. change (2 ^ 8) with 256.
  rewrite (Z.mod_small (v / 256)); [|split; [apply Z.div_pos; lia|apply Z.div_lt_upper_bound; lia]].
  rewrite (Z.div_mod v 256) at 3 by lia. lia.
Qed.
