(* ===== verification/Wire.v ===== *)
(** * Wire formats of the IEEE 1905.1 transport

    MAC addresses, the packed CMDU header, TLVs and the internal [Packet]
    structure of [framework/transport/ieee1905_transport/ieee1905_transport.h].
    A buffer is a list of bytes; a [Tlv *] is the suffix of the buffer it
    points to. *)

From S2P Require Import Prelude.

(** ** MAC addresses *)

Definition ETH_ALEN : nat := 6.

(** [sMacAddr]: six octets. *)
Notation sMacAddr := (list Z) (only parsing).

Definition mac_ok (m : sMacAddr) : Prop := length m = ETH_ALEN ∧ bytes_ok m.

(** [ETHER_IS_MULTICAST(addr)]: the group bit of the first octet. *)
Definition ETHER_IS_MULTICAST (addr : sMacAddr) : bool := has_flag (at_ addr 0) 0x01.

(** [ETHER_IS_SAME]: [memcmp] over [ETH_ALEN] bytes is zero. *)
Definition ETHER_IS_SAME (a b : sMacAddr) : bool :=
  bool_decide (take ETH_ALEN a = take ETH_ALEN b).

(** [memcmp] of two buffers of the same length, as its sign. *)
Fixpoint memcmp (a b : list Z) : comparison :=
  match a, b with
  | x :: a', y :: b' => match x ?= y with Eq => memcmp a' b' | c => c end
  | _, _ => Eq
  end.

Definition ieee1905_multicast_addr : sMacAddr := [0x01; 0x80; 0xc2; 0x00; 0x00; 0x13].

(** ** EtherTypes and interface types *)

Definition ETH_P_1905_1 : Z := 0x893a.
Definition ETH_P_LLDP : Z := 0x88CC.

(** [CmduXxMessage::InterfaceType]; packets carry it as a [uint8_t]. *)
Definition IF_TYPE_NONE : Z := 0.
Definition IF_TYPE_NET : Z := 1.
Definition IF_TYPE_LOCAL_BUS : Z := 2.
Definition IF_TYPE_TUNNEL : Z := 3.

(** ** The CMDU header *)

(** [sizeof(Ieee1905CmduHeader)] of the packed struct: version, reserved,
    type (2), id (2), fragment id, flags. *)
Definition sizeof_Ieee1905CmduHeader : nat := 8.

Definition messageVersion (p : list Z) : Z := at_ p 0.
(** The 16-bit fields after [ntohs]. *)
Definition messageType (p : list Z) : Z := be16 (at_ p 2) (at_ p 3).
Definition messageId (p : list Z) : Z := be16 (at_ p 4) (at_ p 5).
Definition fragmentId (p : list Z) : Z := at_ p 6.
Definition flags (p : list Z) : Z := at_ p 7.

Definition GetLastFragmentIndicator (p : list Z) : bool := has_flag (flags p) 0x80.
Definition GetRelayIndicator (p : list Z) : bool := has_flag (flags p) 0x40.

(** The setters write through the header pointer into the buffer. *)
Definition SetLastFragmentIndicator (value : bool) (p : list Z) : list Z :=
  <[7%nat := put_flag (flags p) 0x80 value]> p.
Definition SetRelayIndicator (value : bool) (p : list Z) : list Z :=
  <[7%nat := put_flag (flags p) 0x40 value]> p.
Definition set_fragmentId (v : Z) (p : list Z) : list Z := <[6%nat := u8 v]> p.
Definition set_messageId (v : Z) (p : list Z) : list Z :=
  <[4%nat := u8 (Z.shiftr v 8)]> (<[5%nat := u8 v]> p).

(** ** TLVs *)

(** [sizeof(Tlv)]: type (1) and big-endian length (2). *)
Definition sizeof_Tlv : nat := 3.

(** Reads through a [Tlv *]; [None] is a read outside of the buffer. *)
Definition tlv_type (tlv : list Z) : option Z := head tlv.
Definition tlv_size (tlv : list Z) : option nat :=
  match tlv with
  | _ :: hi :: lo :: _ => Some (sizeof_Tlv + Z.to_nat (be16 hi lo))%nat
  | _ => None
  end.
Definition tlv_next (tlv : list Z) : option (list Z) := (λ n, drop n tlv) <$> tlv_size tlv.

(** ** Packets *)

(** [Ieee1905Transport::Packet]; the payload iovec is the list of its bytes.
    The header iovec is scratch space of [send_packet_to_network_interface],
    which rebuilds it before each write, and is left out. *)
Record Packet := mkPacket {
  dst_if_type : Z;
  dst_if_index : Z;
  src_if_type : Z;
  src_if_index : Z;
  dst : sMacAddr;
  src : sMacAddr;
  ether_type : Z;
  payload : list Z;
}.

#[export] Instance set_dst : Setter dst := λ f p,
  mkPacket (dst_if_type p) (dst_if_index p) (src_if_type p) (src_if_index p)
    (f (dst p)) (src p) (ether_type p) (payload p).
#[export] Instance set_payload : Setter payload := λ f p,
  mkPacket (dst_if_type p) (dst_if_index p) (src_if_type p) (src_if_index p)
    (dst p) (src p) (ether_type p) (f (payload p)).

#[export] Instance Packet_eq_dec : EqDecision Packet.
Proof. solve_decision. Defined.

(** [Packet::reliable_multicast_msg_types]: TOPOLOGY_NOTIFICATION_MESSAGE and
    ASSOCIATION_STATUS_NOTIFICATION_MESSAGE. *)
Definition reliable_multicast_msg_types : list Z := [0x0001; 0x8025].

Definition is_reliable_multicast (p : Packet) : bool :=
  bool_decide (messageType (payload p) ∈ reliable_multicast_msg_types).

Definition ieee1905_max_message_version : Z := 0x00.

(** [Ieee1905Transport::verify_packet]: basic sanity checks; the reserved
    fields only give debug prints. *)
Definition verify_packet (p : Packet) : bool :=
  if ether_type p =? ETH_P_1905_1 then
    if (length (payload p) <? sizeof_Ieee1905CmduHeader + 3)%nat then false
    else if ieee1905_max_message_version <? messageVersion (payload p) then false
    else true
  else if ether_type p =? ETH_P_LLDP then
    if (length (payload p) <? 3)%nat then false else true
  else false.

(** ** Lemmas *)

Lemma verify_packet_1905 p :
  verify_packet p = true → ether_type p = ETH_P_1905_1 → (11 ≤ length (payload p))%nat.
Proof.
  unfold verify_packet. intros H He. rewrite He, Z.eqb_refl in H.
  destruct (Nat.ltb_spec (length (payload p)) (sizeof_Ieee1905CmduHeader + 3)); [done|].
  unfold sizeof_Ieee1905CmduHeader in *; lia.
Qed.

(** Bit [n] of the flags after [put_flag] on a byte-wide mask. *)
Lemma put_flag_testbit f m v n : 0 ≤ n < 8 →
  Z.testbit (put_flag f m v) n
  = (Z.testbit f n && negb (Z.testbit m n) || (v && Z.testbit m n))%bool.
Proof.
  intros Hn. unfold put_flag, u8.
  rewrite Z.mod_pow2_bits_low, Z.lor_spec, Z.ldiff_spec by lia.
  by destruct v; rewrite ?Z.bits_0.
Qed.

(** Writing one flag leaves the others as they were. *)
Lemma flag_other f m m' v :
  Z.land m m' = 0 → byte_ok m' → has_flag (put_flag f m v) m' = has_flag f m'.
Proof.
  intros Hd Hm'. unfold has_flag. do 2 f_equal.
  apply Z.bits_inj'. intros n Hn. rewrite !Z.land_spec.
  destruct (Z.testbit m' n) eqn:Hb; [|by rewrite !andb_false_r].
  rewrite put_flag_testbit by (split; [done|by apply (byte_testbit_lt m')]).
  assert (Z.testbit (Z.land m m') n = false) as Hl by (by rewrite Hd, Z.bits_0).
  rewrite Z.land_spec, Hb, andb_true_r in Hl. rewrite Hl.
  by rewrite !andb_true_r, andb_false_r, orb_false_r.
Qed.

(** A flag reads back as it was written. *)
Lemma flag_same f m v : byte_ok m → m ≠ 0 → has_flag (put_flag f m v) m = v.
Proof.
  intros Hm Hm0. unfold has_flag.
  assert (Z.land (put_flag f m v) m = if v then m else 0) as ->.
  { apply Z.bits_inj'. intros n Hn. rewrite Z.land_spec.
    destruct (Z.testbit m n) eqn:Hb.
    - rewrite put_flag_testbit, Hb by (split; [done|by apply (byte_testbit_lt m)]).
      destruct v; rewrite ?Hb, ?Z.bits_0; simpl; by rewrite ?andb_false_r.
    - rewrite andb_false_r. destruct v; by rewrite ?Hb, ?Z.bits_0. }
  destruct v; [|done]. by destruct (Z.eqb_spec m 0).
Qed.

Lemma length_SetLastFragmentIndicator v p :
  length (SetLastFragmentIndicator v p) = length p.
Proof. apply length_insert. Qed.
Lemma length_SetRelayIndicator v p : length (SetRelayIndicator v p) = length p.
Proof. apply length_insert. Qed.
#[export] Hint Rewrite length_SetLastFragmentIndicator length_SetRelayIndicator : prpl_rw.
