(* ===== verification/SocketFilter.v ===== *)
(** * The packet filter of the transport's raw sockets

    [Ieee1905Transport::attach_interface_socket_filter] patches a classic BPF
    program with the AL MAC address and the interface's address. The file
    models the program as the code builds it, the four classic BPF
    instructions it uses, and compares the result with the acceptance rule
    the source states in words. *)

From S2P Require Import Prelude Wire.

(** ** Classic BPF *)

(** [struct sock_filter]. *)
Record sock_filter := BPF { code : Z; jt : nat; jf : nat; k : Z }.

Definition BPF_LD_H_ABS : Z := 0x28.
Definition BPF_LD_W_ABS : Z := 0x20.
Definition BPF_JEQ_K : Z := 0x15.
Definition BPF_RET_K : Z := 0x06.

(** Absolute loads in network order; [None] is a load past the frame, which
    makes the filter return 0. *)
Definition ld_h (frame : list Z) (off : nat) : option Z :=
  hi ← frame !! off; lo ← frame !! S off; Some (be16 hi lo).
Definition ld_w (frame : list Z) (off : nat) : option Z :=
  a ← frame !! off; b ← frame !! S off; c ← frame !! S (S off); d ← frame !! S (S (S off));
  Some (be32 a b c d).

(** Runs the instructions from the current one on; the result is the number
    of bytes to accept. Jumps only go forward, so the length of the program
    bounds the number of steps. *)
Fixpoint bpf_run (fuel : nat) (prog : list sock_filter) (A : Z) (frame : list Z) : Z :=
  match fuel, prog with
  | S fuel', i :: rest =>
      if code i =? BPF_LD_H_ABS then
        match ld_h frame (Z.to_nat (k i)) with
        | Some v => bpf_run fuel' rest v frame | None => 0 end
      else if code i =? BPF_LD_W_ABS then
        match ld_w frame (Z.to_nat (k i)) with
        | Some v => bpf_run fuel' rest v frame | None => 0 end
      else if code i =? BPF_JEQ_K then
        bpf_run fuel' (drop (if A =? k i then jt i else jf i) rest) A frame
      else if code i =? BPF_RET_K then k i
      else 0
  | _, _ => 0
  end.

(** ** The program *)

(** The template of the source with [code[4]], [code[6]], [code[7]] and
    [code[9]] replaced. *)
Definition socket_filter (al_mac_addr addr : sMacAddr) : list sock_filter :=
  [ BPF 0x28 0 0 0x0000000c; BPF 0x15 0 8 0x0000893a; BPF 0x20 0 0 0x00000002;
    BPF 0x15 9 0 0xc2000013;
    BPF 0x15 0 2 (be32 (at_ al_mac_addr 2) (at_ al_mac_addr 3)
                       (at_ al_mac_addr 4) (at_ al_mac_addr 5));
    BPF 0x28 0 0 0x00000000;
    BPF 0x15 8 9 (be16 (at_ al_mac_addr 0) (at_ al_mac_addr 1));
    BPF 0x15 0 8 (be32 (at_ addr 2) (at_ addr 3) (at_ addr 4) (at_ addr 5));
    BPF 0x28 0 0 0x00000000;
    BPF 0x15 5 6 (be16 (at_ addr 0) (at_ addr 1));
    BPF 0x15 0 5 0x000088cc; BPF 0x20 0 0 0x00000002; BPF 0x15 0 3 0xc200000e;
    BPF 0x28 0 0 0x00000000; BPF 0x15 0 1 0x00000180; BPF 0x6 0 0 0x0000ffff;
    BPF 0x6 0 0 0x00000000 ].

Definition filter_accepts (al_mac_addr addr : sMacAddr) (frame : list Z) : bool :=
  negb (bpf_run 17 (socket_filter al_mac_addr addr) 0 frame =? 0).

(** ** The acceptance rule of the source's comment *)

Definition lldp_multicast_addr : sMacAddr := [0x01; 0x80; 0xc2; 0x00; 0x00; 0x0e].

Definition frame_dst (frame : list Z) : sMacAddr := take 6 frame.
Definition frame_ether_type (frame : list Z) : Z := be16 (at_ frame 12) (at_ frame 13).

Definition filter_spec (al_mac_addr addr : sMacAddr) (frame : list Z) : Prop :=
  (frame_ether_type frame = ETH_P_1905_1 ∧
     (frame_dst frame = ieee1905_multicast_addr ∨ frame_dst frame = al_mac_addr
      ∨ frame_dst frame = addr))
  ∨ (frame_ether_type frame = ETH_P_LLDP ∧ frame_dst frame = lldp_multicast_addr).

(** The four low octets, which the program compares first. *)
Definition mac_tail (m : sMacAddr) : list Z := drop 2 m.

(** ** Lemmas *)

Lemma be32_inj a b c d a' b' c' d' :
  bytes_ok [a; b; c; d] → bytes_ok [a'; b'; c'; d'] →
  be32 a b c d = be32 a' b' c' d' ↔ [a; b; c; d] = [a'; b'; c'; d'].
Proof.
  unfold bytes_ok. rewrite !Forall_cons. intros (?&?&?&?&_) (?&?&?&?&_).
  rewrite !be32_add by done. unfold byte_ok in *.
  split; [intros ?; repeat f_equal; lia|by intros [= -> -> -> ->]].
Qed.

Lemma be16_inj a b a' b' :
  bytes_ok [a; b] → bytes_ok [a'; b'] →
  be16 a b = be16 a' b' ↔ [a; b] = [a'; b'].
Proof.
  unfold bytes_ok. rewrite !Forall_cons. intros (?&?&_) (?&?&_).
  rewrite !be16_add by done. unfold byte_ok in *.
  split; [intros ?; repeat f_equal; lia|by intros [= -> ->]].
Qed.

(** A MAC address is its two head octets and its four tail octets. *)
Lemma mac_ok_inv m : mac_ok m →
  ∃ a b c d e f, m = [a; b; c; d; e; f] ∧ bytes_ok [a; b] ∧ bytes_ok [c; d; e; f].
Proof.
  intros [Hl Hb]. do 6 (destruct m as [|? m]; [done|]). destruct m; [|done].
  unfold bytes_ok in *. rewrite !Forall_cons in Hb. destruct Hb as (?&?&?&?&?&?&_).
  eexists _, _, _, _, _, _. split; [done|]. split; solve_bytes.
Qed.

Lemma frame_inv frame : (14 ≤ length frame)%nat → bytes_ok frame →
  ∃ m s t t' rest, frame = m ++ s ++ [t; t'] ++ rest ∧ mac_ok m ∧ length s = 6%nat
                   ∧ byte_ok t ∧ byte_ok t'.
Proof.
  intros Hl Hb.
  do 14 (destruct frame as [|? frame]; [simpl in Hl; lia|]).
  unfold bytes_ok in Hb. rewrite !Forall_cons in Hb.
  destruct Hb as (?&?&?&?&?&?&?&?&?&?&?&?&?&?&_).
  eexists [_;_;_;_;_;_], [_;_;_;_;_;_], _, _, frame. split; [reflexivity|].
  split; [split; [done|solve_bytes]|done].
Qed.

(** One lemma per instruction. *)
Lemma bpf_ld_h n t f o rest A frame : bpf_run (S n) (BPF 0x28 t f o :: rest) A frame =
  match ld_h frame (Z.to_nat o) with Some v => bpf_run n rest v frame | None => 0 end.
Proof. done. Qed.
Lemma bpf_ld_w n t f o rest A frame : bpf_run (S n) (BPF 0x20 t f o :: rest) A frame =
  match ld_w frame (Z.to_nat o) with Some v => bpf_run n rest v frame | None => 0 end.
Proof. done. Qed.
Lemma bpf_jeq n t f o rest A frame : bpf_run (S n) (BPF 0x15 t f o :: rest) A frame =
  if A =? o then bpf_run n (drop t rest) A frame else bpf_run n (drop f rest) A frame.
Proof. cbn. by destruct (A =? o). Qed.
Lemma bpf_ret n t f o rest A frame : bpf_run (S n) (BPF 0x6 t f o :: rest) A frame = o.
Proof. done. Qed.
Create Rewrite HintDb bpf.
#[export] Hint Rewrite bpf_ld_h bpf_ld_w bpf_jeq bpf_ret : bpf.

Lemma be16_eqb a b a' b' : bytes_ok [a; b] → bytes_ok [a'; b'] →
  (be16 a b =? be16 a' b') = bool_decide ([a; b] = [a'; b']).
Proof.
  intros. apply eq_bool_prop_intro.
  by rewrite Is_true_true, Z.eqb_eq, be16_inj, bool_decide_spec by done.
Qed.
Lemma be32_eqb a b c d a' b' c' d' : bytes_ok [a; b; c; d] → bytes_ok [a'; b'; c'; d'] →
  (be32 a b c d =? be32 a' b' c' d') = bool_decide ([a; b; c; d] = [a'; b'; c'; d']).
Proof.
  intros. apply eq_bool_prop_intro.
  by rewrite Is_true_true, Z.eqb_eq, be32_inj, bool_decide_spec by done.
Qed.

Lemma negb_if (b : bool) (x y : Z) :
  negb ((if b then x else y) =? 0) = if b then negb (x =? 0) else negb (y =? 0).
Proof. by destruct b. Qed.

(** The program as a decision tree on the words it loads. *)
Lemma filter_accepts_tree al addr m s t t' rest :
  mac_ok al → mac_ok addr → mac_ok m → length s = 6%nat →
  filter_accepts al addr (m ++ s ++ [t; t'] ++ rest) =
    if be16 t t' =? 0x893a then
      if bool_decide (mac_tail m = mac_tail ieee1905_multicast_addr) then
        bool_decide (take 2 m = [0x01; 0x80])
      else if bool_decide (mac_tail m = mac_tail al) then bool_decide (take 2 m = take 2 al)
      else if bool_decide (mac_tail m = mac_tail addr) then bool_decide (take 2 m = take 2 addr)
      else false
    else if be16 t t' =? 0x88cc then
      bool_decide (mac_tail m = mac_tail lldp_multicast_addr) && bool_decide (take 2 m = [0x01; 0x80])
    else false.
Proof.
  intros Ha Hi Hm Hs.
  destruct (mac_ok_inv _ Ha) as (a0&a1&a2&a3&a4&a5&->&Hah&Hat).
  destruct (mac_ok_inv _ Hi) as (i0&i1&i2&i3&i4&i5&->&Hih&Hit).
  destruct (mac_ok_inv _ Hm) as (m0&m1&m2&m3&m4&m5&->&Hmh&Hmt).
  do 6 (destruct s as [|? s]; [done|]). destruct s; [|done].
  unfold filter_accepts, socket_filter.
  change 0xc2000013 with (be32 0xc2 0 0 0x13). change 0xc200000e with (be32 0xc2 0 0 0x0e).
  change 0x00000180 with (be16 0x01 0x80).
  set (fr := [m0; m1; m2; m3; m4; m5] ++ _).
  assert (ld_h fr (Z.to_nat 0xc) = Some (be16 t t')) as Het by done.
  assert (ld_w fr (Z.to_nat 2) = Some (be32 m2 m3 m4 m5)) as Htail by done.
  assert (ld_h fr (Z.to_nat 0) = Some (be16 m0 m1)) as Hhead by done.
  repeat (progress (autorewrite with bpf; cbn [drop]; rewrite ?Het, ?Htail, ?Hhead)).
  rewrite !negb_if. cbn [at_ lookup list_lookup default mac_tail drop take].
  rewrite !be16_eqb, !be32_eqb by (done || solve_bytes).
  unfold id. change (mac_tail ieee1905_multicast_addr) with [0xc2; 0; 0; 0x13].
  change (mac_tail lldp_multicast_addr) with [0xc2; 0; 0; 0x0e].
  repeat match goal with |- context [bool_decide ?P] => destruct (bool_decide P) end;
    by destruct (be16 t t' =? 0x893a), (be16 t t' =? 0x88cc).
Qed.

(** An address is determined by its tail and its head. *)
Lemma mac_split_eq m m' : mac_tail m = mac_tail m' → take 2 m = take 2 m' → m = m'.
Proof.
  unfold mac_tail. intros Ht Hh. by rewrite <- (take_drop 2 m), <- (take_drop 2 m'), Ht, Hh.
Qed.

Lemma frame_parts m s t t' rest : mac_ok m → length s = 6%nat →
  frame_dst (m ++ s ++ [t; t'] ++ rest) = m
  ∧ frame_ether_type (m ++ s ++ [t; t'] ++ rest) = be16 t t'.
Proof.
  intros Hm Hs. destruct (mac_ok_inv _ Hm) as (?&?&?&?&?&?&->&_).
  do 6 (destruct s as [|? s]; [done|]). by destruct s.
Qed.

(** ** Theorems *)

(** C9: Filter soundness: for any AL MAC and interface address, a frame the
    installed program accepts satisfies the rule of the source's comment. *)
Theorem filter_sound al addr frame :
  mac_ok al → mac_ok addr → (14 ≤ length frame)%nat → bytes_ok frame →
  filter_accepts al addr frame = true → filter_spec al addr frame.
Proof.
  intros Ha Hi Hl Hb. destruct (frame_inv frame) as (m&s&t&t'&rest&->&Hm&Hs&Ht&Ht'); [done..|].
  rewrite filter_accepts_tree by done. unfold filter_spec.
  destruct (frame_parts m s t t' rest) as [-> ->]; [done..|].
  intros H. repeat split_match.
  - left. split; [done|]. left. by apply mac_split_eq.
  - left. split; [done|]. right; left. by apply mac_split_eq.
  - left. split; [done|]. do 2 right. by apply mac_split_eq.
  - right. split; [done|]. by apply mac_split_eq.
Qed.

(** C10: Filter completeness: when the last four octets of the AL MAC, of the
    interface's address and of the 1905 multicast address are pairwise
    different, every frame the rule allows is accepted. *)
Theorem filter_complete al addr frame :
  mac_ok al → mac_ok addr → (14 ≤ length frame)%nat → bytes_ok frame →
  mac_tail al ≠ mac_tail addr →
  mac_tail al ≠ mac_tail ieee1905_multicast_addr →
  mac_tail addr ≠ mac_tail ieee1905_multicast_addr →
  filter_spec al addr frame → filter_accepts al addr frame = true.
Proof.
  intros Ha Hi Hl Hb Hai Ham Him.
  destruct (frame_inv frame) as (m&s&t&t'&rest&->&Hm&Hs&Ht&Ht'); [done..|].
  rewrite filter_accepts_tree by done. unfold filter_spec.
  destruct (frame_parts m s t t' rest) as [-> ->]; [done..|].
  unfold ETH_P_1905_1, ETH_P_LLDP.
  intros [[-> Hd]|[-> ->]]; [|done].
  change (0x893a =? 0x893a) with true. cbn [negb].
  destruct Hd as [->|[->| ->]]; repeat (case_bool_decide; try done).
Qed.

(** an interface whose address ends in the same four octets as the AL MAC
    (the usual way to derive a locally administered AL MAC changes only the
    first octet) never receives the 1905 unicast frames sent to its own
    address, although the rule of the comment allows them. *)
Theorem filter_shared_tail_rejects al addr frame :
  mac_ok al → mac_ok addr → (14 ≤ length frame)%nat → bytes_ok frame →
  al ≠ addr → mac_tail al = mac_tail addr →
  mac_tail al ≠ mac_tail ieee1905_multicast_addr →
  frame_ether_type frame = ETH_P_1905_1 → frame_dst frame = addr →
  filter_spec al addr frame ∧ filter_accepts al addr frame = false.
Proof.
  intros Ha Hi Hl Hb Hne Ht Hmc He Hd.
  split; [left; split; [done|]; by do 2 right|].
  destruct (frame_inv frame) as (m&s&t&t'&rest&->&Hm&Hs&Hbt&Hbt'); [done..|].
  destruct (frame_parts m s t t' rest) as [Hp1 Hp2]; [done..|].
  rewrite Hp1 in Hd. rewrite Hp2 in He. subst m.
  rewrite filter_accepts_tree, He by done.
  change (ETH_P_1905_1 =? 0x893a) with true. cbn [negb].
  repeat (case_bool_decide; try done); try congruence.
  by destruct Hne; apply mac_split_eq.
Qed.

(** ** Witnesses *)

Definition example_al : sMacAddr := [0x02; 0x10; 0x18; 0xaa; 0xbb; 0x01].
Definition example_if : sMacAddr := [0x00; 0x10; 0x18; 0xaa; 0xbb; 0x01].
Definition example_if2 : sMacAddr := [0x00; 0x10; 0x18; 0xaa; 0xbb; 0x02].
Definition example_frame (d : sMacAddr) : list Z :=
  d ++ [0x00; 0x50; 0x43; 0x01; 0x02; 0x03] ++ [0x89; 0x3a] ++ [0; 0; 0].
