(* ===== verification/Messages.v ===== *)
(** * Internal messages of the transport

    The messages exchanged between the transport process and its local
    clients ([ieee1905_transport_messages.h] and [.cpp]): the frame layout of
    the metadata structs, the framing on a stream socket and its reader. *)

From S2P Require Import Prelude Wire.

(** ** Little-endian fields of a frame (host order of the supported ABIs) *)

Definition le16 (f : list Z) (i : nat) : Z := be16 (at_ f (S i)) (at_ f i).
Definition le32 (f : list Z) (i : nat) : Z :=
  Z.lor (le16 f i) (Z.shiftl (le16 f (S (S i))) 16).
Definition le16_bytes (v : Z) : list Z := [u8 v; u8 (Z.shiftr v 8)].
Definition le32_bytes (v : Z) : list Z := le16_bytes v ++ le16_bytes (Z.shiftr v 16).

(** [std::vector::resize]. *)
Definition resize (n : nat) (f : list Z) : list Z := take n f ++ replicate (n - length f) 0.

(** ** Messages *)

(** [messages::Type]. *)
Definition Type_Invalid : Z := 0.
Definition Type_CmduRxMessage : Z := 1.
Definition Type_CmduTxMessage : Z := 2.
Definition Type_SubscribeMessage : Z := 3.
Definition Type_CmduTxConfirmationMessage : Z := 4.
Definition Type_InterfaceConfigurationRequestMessage : Z := 5.
Definition Type_AlMacAddressConfigurationMessage : Z := 6.
Definition Type_VlanConfigurationRequestMessage : Z := 7.

Definition kMessageMagic : Z := 0xB8C16F47.
Definition kMaxFrameLength : Z := 8192.

(** [Message]: its type and its single frame. *)
Record Message := mkMessage { m_type : Z; frame : list Z }.

#[export] Instance Message_eq_dec : EqDecision Message.
Proof. solve_decision. Defined.

(** [sizeof(Metadata)] of each message class. *)
Definition sizeof_Metadata (type : Z) : option nat :=
  if (type =? Type_CmduRxMessage) || (type =? Type_CmduTxMessage) then Some 40%nat
  else if type =? Type_SubscribeMessage then Some 260%nat
  else if type =? Type_CmduTxConfirmationMessage then Some 10%nat
  else if type =? Type_InterfaceConfigurationRequestMessage then Some 35%nat
  else if type =? Type_AlMacAddressConfigurationMessage then Some 7%nat
  else if type =? Type_VlanConfigurationRequestMessage then Some 6%nat
  else None.

(** [create_transport_message]: the constructor of the message class grows
    the frame to hold the metadata; an unknown type gives [Type::Invalid]. *)
Definition create_transport_message (type : Z) (f : list Z) : Message :=
  match sizeof_Metadata type with
  | Some n => mkMessage type (if (length f <? n)%nat then resize n f else f)
  | None => mkMessage Type_Invalid f
  end.

(** ** Framing on a stream socket *)

(** [Message::Header]: magic, type, length. *)
Definition sizeof_Header : nat := 12.
Definition header_bytes (m : Message) : list Z :=
  le32_bytes kMessageMagic ++ le32_bytes (m_type m) ++ le32_bytes (Z.of_nat (length (frame m))).

(** The bytes [send_transport_message] hands to [writev]. *)
Definition message_bytes (m : Message) : list Z := header_bytes m ++ frame m.

(** [send_transport_message] with the result [n] of [writev] on the bytes. *)
Definition send_transport_message (writev : list Z → Z) (m : Message) : bool :=
  if writev (message_bytes m) <? 0 then false else true.

(** What [read_transport_message] does with the bytes pending on the socket:
    a message or a null pointer, with the bytes left, or a blocking [recv]
    that waits for more. *)
Inductive read_outcome :=
  | ReadMsg (m : Message) (rest : list Z)
  | ReadNull (rest : list Z)
  | ReadBlocks (rest : list Z).

(** The [discard_pending_bytes] lambda: [sizeof(header)] bytes at most. *)
Definition discard_pending_bytes (pending : list Z) : list Z := drop sizeof_Header pending.

Definition read_transport_message (pending : list Z) : read_outcome :=
  let bytes_ready := length pending in
  let header := take sizeof_Header pending in
  let rest := drop sizeof_Header pending in
  if negb (length header =? sizeof_Header)%nat then ReadNull rest
  else
    let magic := le32 header 0 in
    let type := le32 header 4 in
    let len := le32 header 8 in
    if negb (magic =? kMessageMagic) then ReadNull (discard_pending_bytes rest)
    else if u32 (Z.of_nat bytes_ready) <=? len then ReadNull rest
    else if kMaxFrameLength <? len then ReadNull (discard_pending_bytes rest)
    else if len =? 0 then ReadMsg (create_transport_message type []) rest
    else
      let n := Z.to_nat len in
      match rest with
      | [] => ReadBlocks rest
      | _ =>
          let received := take n rest in
          if negb (length received =? n)%nat then ReadNull (drop n rest)
          else ReadMsg (create_transport_message type received) (drop n rest)
      end.

(** ** Typed metadata *)

(** [CmduXxMessage::Metadata]. *)
Record CmduMetadata := mkCmduMetadata {
  md_cookie : Z; md_dst : sMacAddr; md_src : sMacAddr; md_ether_type : Z; md_msg_type : Z;
  md_relay : bool; md_preset_message_id : bool; md_if_type : Z; md_if_index : Z;
  md_length : Z; md_received_time : Z;
}.

(** The struct image: version 0, then the fields at their ABI offsets. *)
Definition encode_cmdu_metadata (m : CmduMetadata) : list Z :=
  [0; 0] ++ le16_bytes (md_cookie m) ++ md_dst m ++ md_src m
  ++ le16_bytes (md_ether_type m) ++ le16_bytes (md_msg_type m)
  ++ [put_flag (put_flag 0 1 (md_relay m)) 2 (md_preset_message_id m); u8 (md_if_type m)]
  ++ [0; 0] ++ le32_bytes (md_if_index m) ++ le16_bytes (md_length m) ++ [0; 0]
  ++ le32_bytes (md_received_time m) ++ le32_bytes (Z.shiftr (md_received_time m) 32).

Definition decode_cmdu_metadata (f : list Z) : CmduMetadata :=
  {| md_cookie := le16 f 2; md_dst := take 6 (drop 4 f); md_src := take 6 (drop 10 f);
     md_ether_type := le16 f 16; md_msg_type := le16 f 18;
     md_relay := has_flag (at_ f 20) 1; md_preset_message_id := has_flag (at_ f 20) 2;
     md_if_type := at_ f 21; md_if_index := le32 f 24; md_length := le16 f 28;
     md_received_time := Z.lor (le32 f 32) (Z.shiftl (le32 f 36) 32) |}.

(** [CmduXxMessage::data()]: resizes the frame to the metadata's length and
    points behind the metadata. *)
Definition cmdu_data (f : list Z) : list Z :=
  drop 40 (resize (40 + Z.to_nat (md_length (decode_cmdu_metadata f))) f).

Definition mkCmduMessage (type : Z) (m : CmduMetadata) (data : list Z) : Message :=
  mkMessage type (encode_cmdu_metadata m ++ data).

(** [CmduTxConfirmationMessage]. *)
Definition mkCmduTxConfirmationMessage (cookie ether_type msg_type msg_id : Z) : Message :=
  mkMessage Type_CmduTxConfirmationMessage
    ([0; 0] ++ le16_bytes cookie ++ le16_bytes ether_type ++ le16_bytes msg_type
     ++ le16_bytes msg_id).

(** [SubscribeMessage::Metadata]: request type, count, opcodes. *)
Definition MAX_SUBSCRIBE_TYPES : nat := 64.
Definition ReqType_INVALID : Z := 0.
Definition ReqType_SUBSCRIBE : Z := 1.
Definition ReqType_UNSUBSCRIBE : Z := 2.
Definition sub_type (f : list Z) : Z := at_ f 1.
Definition sub_msg_types_count (f : list Z) : Z := at_ f 2.
(** [msg_types[i].value]; [None] is a read past the end of the frame. *)
Definition sub_msg_type (f : list Z) (i : nat) : option Z :=
  if (4 + 4 * i + 4 <=? length f)%nat then Some (le32 f (4 + 4 * i)) else None.

(** [MsgType.value] from its bit fields. *)
Definition MsgType_value (internal vendor_specific type : Z) : Z :=
  Z.lor (Z.lor (Z.land internal 1) (Z.shiftl (Z.land vendor_specific 1) 1))
        (Z.shiftl (u16 type) 16).

(** [InterfaceConfigurationRequestMessage::Metadata]; a [char[]] field read
    as a C string runs to the first NUL. *)
Fixpoint c_string (l : list Z) : string :=
  match l with
  | [] => EmptyString
  | b :: l' => if b =? 0 then EmptyString
               else String (Ascii.ascii_of_N (Z.to_N b)) (c_string l')
  end.
(** Whether such a string ends inside of the frame. *)
Definition c_string_ends (l : list Z) : bool := existsb (Z.eqb 0) l.
Definition ifc_bridge_name (f : list Z) : string := c_string (drop 1 f).
Definition ifc_iface_name (f : list Z) : string := c_string (drop 17 f).
Definition ifc_is_bridge (f : list Z) : bool := negb (at_ f 33 =? 0).
Definition ifc_add (f : list Z) : bool := negb (at_ f 34 =? 0).

(** [AlMacAddressConfigurationMessage] and [VlanConfigurationRequestMessage]. *)
Definition alm_al_mac (f : list Z) : sMacAddr := take 6 (drop 1 f).
Definition vlan_vlan_id (f : list Z) : Z := le16 f 2.
Definition vlan_add (f : list Z) : bool := negb (at_ f 4 =? 0).

(** ** Lemmas *)

Lemma le32_value v : 0 ≤ v < 2 ^ 32 →
  Z.lor (be16 (u8 (Z.shiftr v 8)) (u8 v))
        (Z.shiftl (be16 (u8 (Z.shiftr (Z.shiftr v 16) 8)) (u8 (Z.shiftr v 16))) 16) = v.
Proof.
  intros Hv. rewrite Z.lor_comm, lor_shiftl_add; [|lia|apply be16_range; apply u8_range].
  rewrite !be16_add by apply u8_range. unfold u8.
  rewrite !Z.shiftr_div_pow2 by lia. change (2 ^ 8) with 256. change (2 ^ 16) with 65536.
  change (2 ^ 32) with 4294967296 in Hv. Z.div_mod_to_equations. lia.
Qed.

Lemma le16_value v : 0 ≤ v < 65536 → be16 (u8 (Z.shiftr v 8)) (u8 v) = v.
Proof. apply be16_bytes_roundtrip. Qed.

Lemma length_header_bytes m : length (header_bytes m) = sizeof_Header.
Proof. done. Qed.

(** A message object the classes can hold: a known type, a frame that holds
    the metadata, and a length the reader takes. *)
Definition message_ok (m : Message) : Prop :=
  (∃ n, sizeof_Metadata (m_type m) = Some n ∧ (n ≤ length (frame m))%nat)
  ∧ Z.of_nat (length (frame m)) ≤ kMaxFrameLength.

Lemma sizeof_Metadata_pos type n : sizeof_Metadata type = Some n → (0 < n)%nat.
Proof. unfold sizeof_Metadata. intros H. repeat (case_match; simplify_eq/=); lia. Qed.

Lemma sizeof_Metadata_type type n : sizeof_Metadata type = Some n → 0 ≤ type < 2 ^ 32.
Proof.
  unfold sizeof_Metadata, Type_CmduRxMessage, Type_CmduTxMessage, Type_SubscribeMessage,
    Type_CmduTxConfirmationMessage, Type_InterfaceConfigurationRequestMessage,
    Type_AlMacAddressConfigurationMessage, Type_VlanConfigurationRequestMessage.
  intros H. repeat (case_match; simplify_eq/=); lia.
Qed.

Lemma create_transport_message_id m : message_ok m →
  create_transport_message (m_type m) (frame m) = m.
Proof.
  intros [(n & Hn & Hl) _]. unfold create_transport_message. rewrite Hn.
  destruct (Nat.ltb_spec (length (frame m)) n); [lia|]. by destruct m.
Qed.

(** The reader on a buffer that starts with a message header. *)
Lemma read_transport_message_header m pending : message_ok m →
  read_transport_message (header_bytes m ++ pending) =
    let len := length (frame m) in
    if u32 (Z.of_nat (12 + length pending)) <=? Z.of_nat len then ReadNull pending
    else match pending with
         | [] => ReadBlocks []
         | _ => if (length pending <? len)%nat then ReadNull []
                else ReadMsg (create_transport_message (m_type m) (take len pending))
                             (drop len pending)
         end.
Proof.
  intros [(n & Hn & Hl) Hmax].
  pose proof (sizeof_Metadata_pos _ _ Hn). pose proof (sizeof_Metadata_type _ _ Hn) as Ht.
  unfold read_transport_message, sizeof_Header.
  change (take 12 (header_bytes m ++ pending)) with (header_bytes m).
  change (drop 12 (header_bytes m ++ pending)) with pending.
  rewrite length_app, length_header_bytes. unfold sizeof_Header.
  change (12 =? 12)%nat with true. cbn [negb].
  assert (le32 (header_bytes m) 0 = kMessageMagic) as -> by done.
  assert (le32 (header_bytes m) 4 = m_type m) as -> by (apply le32_value; done).
  assert (le32 (header_bytes m) 8 = Z.of_nat (length (frame m))) as ->.
  { apply le32_value. unfold kMaxFrameLength in Hmax. lia. }
  rewrite Z.eqb_refl. cbn [negb]. unfold kMaxFrameLength in *.
  destruct (_ <=? _); [done|].
  destruct (Z.ltb_spec 8192 (Z.of_nat (length (frame m)))); [lia|].
  destruct (Z.eqb_spec (Z.of_nat (length (frame m))) 0); [lia|].
  rewrite Nat2Z.id. destruct pending as [|b pending]; [done|].
  rewrite length_take.
  destruct (Nat.ltb_spec (length (b :: pending)) (length (frame m))) as [Hlt|Hge].
  - rewrite (proj2 (Nat.eqb_neq _ _)) by lia. cbn [negb]. by rewrite drop_ge by lia.
  - by rewrite (proj2 (Nat.eqb_eq _ _)) by lia.
Qed.

(** ** Theorems *)

(** framing round trip: from a socket buffer that starts with the bytes
    the sender wrote for a message, the reader gives back exactly that
    message and leaves the bytes of the following messages. *)
Theorem read_send_roundtrip m rest : message_ok m →
  Z.of_nat (length (message_bytes m ++ rest)) < 2 ^ 32 →
  read_transport_message (message_bytes m ++ rest) = ReadMsg m rest.
Proof.
  intros Hok Hlen. unfold message_bytes in *. rewrite <- app_assoc in *.
  rewrite read_transport_message_header by done. cbn zeta.
  rewrite !length_app in *. rewrite length_header_bytes in Hlen. unfold sizeof_Header in Hlen.
  unfold u32. rewrite Z.mod_small by lia.
  destruct (Z.leb_spec (Z.of_nat (12 + (length (frame m) + length rest)))
              (Z.of_nat (length (frame m)))); [lia|].
  destruct Hok as [(n & Hn & Hl) Hmax]. pose proof (sizeof_Metadata_pos _ _ Hn).
  destruct (frame m ++ rest) eqn:He.
  { apply (f_equal length) in He. rewrite length_app in He. simpl in He. lia. }
  rewrite <- He, ?length_app.
  destruct (Nat.ltb_spec (length (frame m) + length rest) (length (frame m))); [lia|].
  rewrite take_app_length, drop_app_length, create_transport_message_id; [done|].
  split; eauto.
Qed.

(** a message that is not complete when the socket is polled is lost: the
    header is consumed (the comment calls it a peek) and the reader returns a
    null pointer, so the rest of the message is later parsed as a header. *)
Theorem read_partial_loses_header m n : message_ok m →
  (12 < n < 12 + length (frame m))%nat →
  read_transport_message (take n (message_bytes m)) =
    ReadNull (if (n <=? length (frame m))%nat then take (n - 12) (frame m) else []).
Proof.
  intros Hok Hn. unfold message_bytes. destruct Hok as [Hty Hmax].
  rewrite take_app_ge by (rewrite length_header_bytes; unfold sizeof_Header; lia).
  rewrite length_header_bytes. unfold sizeof_Header.
  rewrite read_transport_message_header by (split; done). cbn zeta.
  unfold kMaxFrameLength in Hmax. rewrite length_take. unfold u32.
  rewrite Z.mod_small by lia.
  destruct (Z.leb_spec (Z.of_nat (12 + (n - 12) `min` length (frame m)))
              (Z.of_nat (length (frame m)))); destruct (Nat.leb_spec n (length (frame m))); try lia.
  - done.
  - destruct (take (n - 12) (frame m)) eqn:He.
    { apply (f_equal length) in He. rewrite length_take in He. simpl in He. lia. }
    by rewrite (proj2 (Nat.ltb_lt _ _)) by lia.
Qed.

(** ** Typed metadata round trip *)

(** Field ranges of a [CmduXxMessage::Metadata]. *)
Definition cmdu_metadata_ok (m : CmduMetadata) : Prop :=
  0 ≤ md_cookie m < 65536 ∧ mac_ok (md_dst m) ∧ mac_ok (md_src m) ∧
  0 ≤ md_ether_type m < 65536 ∧ 0 ≤ md_msg_type m < 65536 ∧ byte_ok (md_if_type m) ∧
  0 ≤ md_if_index m < 2 ^ 32 ∧ 0 ≤ md_length m < 65536 ∧ 0 ≤ md_received_time m < 2 ^ 64.

(** A MAC address field spelt out. *)
Lemma mac_list6 m : mac_ok m → ∃ a b c d e f, m = [a; b; c; d; e; f].
Proof.
  intros [Hl _]. do 6 (destruct m as [|? m]; [done|]). destruct m; [|done]. eauto 10.
Qed.

Lemma le64_value v : 0 ≤ v < 2 ^ 64 →
  ∃ lo hi, lo = v mod 2 ^ 32 ∧ hi = Z.shiftr v 32 ∧ 0 ≤ hi < 2 ^ 32
           ∧ Z.lor lo (Z.shiftl hi 32) = v.
Proof.
  intros Hv. eexists _, _. split; [done|]. split; [done|].
  rewrite Z.shiftr_div_pow2 by lia. split.
  - split; [apply Z.div_pos; lia|apply Z.div_lt_upper_bound; lia].
  - rewrite Z.lor_comm, lor_shiftl_add by (try apply Z.mod_pos_bound; lia).
    rewrite (Z.div_mod v (2 ^ 32)) at 3 by lia. lia.
Qed.

Lemma u8_shiftr_mod v i : 0 ≤ i → i + 8 ≤ 32 →
  u8 (Z.shiftr (v mod 2 ^ 32) i) = u8 (Z.shiftr v i).
Proof.
  intros Hi Hi'. unfold u8. apply Z.bits_inj'. intros n Hn.
  destruct (Z.lt_ge_cases n 8); [|by rewrite !Z.mod_pow2_bits_high by lia].
  rewrite !(Z.mod_pow2_bits_low _ 8 n), !Z.shiftr_spec by lia.
  by rewrite Z.mod_pow2_bits_low by lia.
Qed.

Lemma le32_bytes_mod v : le32_bytes (v mod 2 ^ 32) = le32_bytes v.
Proof.
  unfold le32_bytes, le16_bytes. rewrite !Z.shiftr_shiftr by lia.
  rewrite <- (Z.shiftr_0_r (v mod 2 ^ 32)) at 1. rewrite !u8_shiftr_mod by lia.
  by rewrite Z.shiftr_0_r.
Qed.

(** the metadata of a CMDU message written through [metadata()] and read
    back by the receiver of the frame is the same, whatever the payload
    behind it is, and [data()] gives the payload when the length field tells
    its size. *)
Theorem cmdu_metadata_roundtrip m data : cmdu_metadata_ok m →
  decode_cmdu_metadata (frame (mkCmduMessage Type_CmduRxMessage m data)) = m
  ∧ (md_length m = Z.of_nat (length data) →
     cmdu_data (frame (mkCmduMessage Type_CmduRxMessage m data)) = data).
Proof.
  intros (Hc & Hd & Hs & He & Ht & Hi & Hix & Hl & Hr). cbn [frame mkCmduMessage].
  destruct (mac_list6 _ Hd) as (d0&d1&d2&d3&d4&d5&Ed).
  destruct (mac_list6 _ Hs) as (s0&s1&s2&s3&s4&s5&Es).
  assert (decode_cmdu_metadata (encode_cmdu_metadata m ++ data) = m) as Hdec.
  { destruct (le64_value _ Hr) as (lo & hi & -> & -> & Hhi & Heq).
    destruct m as [cookie mdst msrc et mt relay preset ift ifx len rt].
    unfold decode_cmdu_metadata, encode_cmdu_metadata. cbn [md_cookie md_dst md_src md_ether_type
      md_msg_type md_relay md_preset_message_id md_if_type md_if_index md_length
      md_received_time] in *. subst mdst msrc.
    rewrite <- (le32_bytes_mod rt). f_equal.
    - apply le16_value, Hc.
    - apply le16_value, He.
    - apply le16_value, Ht.
    - cbn [at_]. change (has_flag (put_flag (put_flag 0 1 relay) 2 preset) 1 = relay).
      rewrite flag_other by (done || unfold byte_ok; lia). by apply flag_same.
    - change (has_flag (put_flag (put_flag 0 1 relay) 2 preset) 2 = preset). by apply flag_same.
    - change (u8 ift = ift). unfold u8. by rewrite Z.mod_small.
    - apply le32_value, Hix.
    - apply le16_value, Hl.
    - transitivity (Z.lor (rt mod 2 ^ 32) (Z.shiftl (Z.shiftr rt 32) 32)); [|exact Heq].
      apply f_equal2; [apply le32_value, Z.mod_pos_bound; lia|].
      apply f_equal2; [apply le32_value, Hhi|done]. }
  split; [exact Hdec|]. intros Hlen. unfold cmdu_data. rewrite Hdec, Hlen, Nat2Z.id.
  assert (length (encode_cmdu_metadata m) = 40%nat) as H40.
  { unfold encode_cmdu_metadata. by rewrite Ed, Es. }
  unfold resize. rewrite length_app, H40, Nat.sub_diag, app_nil_r.
  rewrite take_ge by (rewrite length_app, H40; lia).
  by rewrite drop_app_length' by done.
Qed.
