(* ===== verification/Broker.v ===== *)
(** * The message broker

    [BrokerServer] of [ieee1905_transport_broker.cpp]: the two subscription
    tables, publishing, and the handling of the messages local clients send.
    The abstract view is one relation between sockets and opcodes; the two
    tables implement it. *)

From S2P Require Import Prelude Wire Messages.

(** ** What the transport uses of a broker *)

(** [publish] and the messages handed to it so far. *)
Class Publisher (B : Type) := {
  publish : Message → B → bool * B;
  published : B → list Message;
  publish_result m b : (publish m b).1 = true;
  publish_log m b : published (publish m b).2 = published b ++ [m];
}.

(** ** State *)

(** Sockets ([std::shared_ptr<Socket>]) are identified by a number; [pending]
    are the bytes that wait on a socket, [sent] what was written to the
    sockets and [history] the messages given to [publish]. *)
Record BrokerServer := mkBroker {
  m_soc_to_type : gmap Z (gset Z);
  m_type_to_soc : gmap Z (gset Z);
  pending : gmap Z (list Z);
  sent : list (Z * list Z);
  history : list Message;
}.

#[export] Instance set_m_soc_to_type : Setter m_soc_to_type := λ f b,
  mkBroker (f (m_soc_to_type b)) (m_type_to_soc b) (pending b) (sent b) (history b).
#[export] Instance set_m_type_to_soc : Setter m_type_to_soc := λ f b,
  mkBroker (m_soc_to_type b) (f (m_type_to_soc b)) (pending b) (sent b) (history b).
#[export] Instance set_pending : Setter pending := λ f b,
  mkBroker (m_soc_to_type b) (m_type_to_soc b) (f (pending b)) (sent b) (history b).
#[export] Instance set_sent : Setter sent := λ f b,
  mkBroker (m_soc_to_type b) (m_type_to_soc b) (pending b) (f (sent b)) (history b).
#[export] Instance set_history : Setter history := λ f b,
  mkBroker (m_soc_to_type b) (m_type_to_soc b) (pending b) (sent b) (f (history b)).

(** [table[key]] of an [unordered_map] of sets. *)
Definition entry (t : gmap Z (gset Z)) (key : Z) : gset Z := default ∅ (t !! key).

(** ** Operations *)

(** The opcode of a message: the IEEE 1905 message type of a received CMDU,
    the internal type of any other message. *)
Definition msg_opcode (m : Message) : Z :=
  if m_type m =? Type_CmduRxMessage
  then MsgType_value 0 0 (md_msg_type (decode_cmdu_metadata (frame m)))
  else MsgType_value 1 0 (u16 (m_type m)).

(** The bytes that reach the socket: as many as [writev] says it wrote. *)
Definition bytes_written (writev : Z → list Z → Z) (soc : Z) (m : Message) : list Z :=
  take (Z.to_nat (writev soc (message_bytes m))) (message_bytes m).

(** One iteration of the publishing loop; a failed write is only logged, and a
    write of a part of the message counts as done. *)
Definition publish_to (writev : Z → list Z → Z) (m : Message) (soc : Z) (b : BrokerServer) :
    BrokerServer :=
  if send_transport_message (writev soc) m
  then b <| sent ::= λ l, l ++ [(soc, bytes_written writev soc m)] |> else b.

Definition broker_publish (writev : Z → list Z → Z) (m : Message) (b : BrokerServer) :
    bool * BrokerServer :=
  let b := b <| history ::= λ h, h ++ [m] |> in
  match m_type_to_soc b !! msg_opcode m with
  | None => (true, b)
  | Some socs => (true, foldl (λ b soc, publish_to writev m soc b) b (elements socs))
  end.

(** [is_restricted_type]: nothing is restricted yet. *)
Definition is_restricted_type (type : Z) : bool := false.

(** The body of the loop of [handle_subscribe] for one opcode. *)
Definition subscribe_one (subscribe : bool) (sd type : Z) (b : BrokerServer) : BrokerServer :=
  if is_restricted_type type then b
  else if subscribe then
    b <| m_soc_to_type ::= λ t, <[sd := entry t sd ∪ {[type]}]> t |>
      <| m_type_to_soc ::= λ t, <[type := entry t type ∪ {[sd]}]> t |>
  else
    b <| m_soc_to_type ::= λ t, <[sd := entry t sd ∖ {[type]}]> t |>
      <| m_type_to_soc ::= λ t, <[type := entry t type ∖ {[sd]}]> t |>.

(** The loop over [msg_types[0 .. count-1]]; [None] is a read past the frame. *)
Fixpoint subscribe_loop (subscribe : bool) (sd : Z) (f : list Z) (i n : nat) (b : BrokerServer) :
    option BrokerServer :=
  match n with
  | O => Some b
  | S n' => type ← sub_msg_type f i;
            subscribe_loop subscribe sd f (S i) n' (subscribe_one subscribe sd type b)
  end.

Definition handle_subscribe (sd : Z) (m : Message) (b : BrokerServer) :
    option (bool * BrokerServer) :=
  if sub_type (frame m) =? ReqType_INVALID then Some (false, b)
  else if sub_msg_types_count (frame m) =? 0 then Some (false, b)
  else
    let subscribe := sub_type (frame m) =? ReqType_SUBSCRIBE in
    b' ← subscribe_loop subscribe sd (frame m) 0 (Z.to_nat (sub_msg_types_count (frame m))) b;
    Some (true, b').

(** [socket_disconnected]: drops every subscription of the socket. *)
Definition socket_disconnected (sd : Z) (b : BrokerServer) : bool * BrokerServer :=
  let types := entry (m_soc_to_type b) sd in
  let b := b <| m_type_to_soc ::= λ t,
                foldr (λ type t, <[type := entry t type ∖ {[sd]}]> t) t (elements types) |> in
  (true, b <| m_soc_to_type ::= delete sd |>).

(** [handle_msg], with the handlers the transport registered. The result is
    [None] when the process reads past a frame or blocks in [recv]. *)
Definition MessageHandler (W : Type) : Type := Message → stM (W * BrokerServer) bool.

Definition handle_msg {W} (external internal : option (MessageHandler W)) (sd : Z)
    (s : W * BrokerServer) : option (bool * (W * BrokerServer)) :=
  let '(w, b) := s in
  let bytes := default [] (pending b !! sd) in
  if (length bytes <? sizeof_Header)%nat then Some (true, s)
  else
    match read_transport_message bytes with
    | ReadBlocks _ => None
    | ReadNull rest => Some (false, (w, b <| pending ::= <[sd := rest]> |>))
    | ReadMsg m rest =>
        let b := b <| pending ::= <[sd := rest]> |> in
        if m_type m =? Type_SubscribeMessage then
          r ← handle_subscribe sd m b; Some (r.1, (w, r.2))
        else if m_type m =? Type_CmduTxMessage then
          match external with
          | None => Some (false, (w, b))
          | Some h => Some (h m (w, b))
          end
        else
          match internal with
          | None => Some (false, (w, b))
          | Some h => Some (h m (w, b))
          end
    end.

(** ** Abstract specification *)

(** The subscriptions as one relation. *)
Definition subscribed (b : BrokerServer) (sd type : Z) : Prop :=
  type ∈ entry (m_soc_to_type b) sd.

(** The two tables are each other's converse. *)
Definition broker_inv (b : BrokerServer) : Prop :=
  ∀ sd type, type ∈ entry (m_soc_to_type b) sd ↔ sd ∈ entry (m_type_to_soc b) type.

(** ** Lemmas *)

Lemma entry_insert t k s k' :
  entry (<[k := s]> t) k' = if decide (k = k') then s else entry t k'.
Proof. unfold entry. rewrite lookup_insert. by case_decide. Qed.
Lemma entry_delete t k k' :
  entry (delete k t) k' = if decide (k = k') then ∅ else entry t k'.
Proof. unfold entry. rewrite lookup_delete. by case_decide. Qed.
#[export] Hint Rewrite entry_insert entry_delete : prpl_rw.

(** Case analysis on the key comparisons an update introduces. *)
Ltac entry_cases :=
  autorewrite with prpl_rw; repeat case_decide; subst; set_solver.

Lemma subscribe_one_subscribed subscribe sd type b sd' type' :
  subscribed (subscribe_one subscribe sd type b) sd' type' ↔
    if subscribe then (sd' = sd ∧ type' = type) ∨ subscribed b sd' type'
    else ¬ (sd' = sd ∧ type' = type) ∧ subscribed b sd' type'.
Proof.
  unfold subscribed, subscribe_one. simpl. destruct subscribe; cbn; entry_cases.
Qed.

Lemma subscribe_one_inv subscribe sd type b :
  broker_inv b → broker_inv (subscribe_one subscribe sd type b).
Proof.
  unfold broker_inv, subscribe_one. simpl. intros Hb sd' type'.
  specialize (Hb sd' type'). destruct subscribe; cbn; entry_cases.
Qed.

(** The opcodes a subscribe message carries. *)
Definition sub_types (f : list Z) (i n : nat) : list Z :=
  (λ j, le32 f (4 + 4 * j)) <$> seq i n.

Lemma subscribe_loop_spec subscribe sd f n : ∀ i b,
  (4 + 4 * (i + n) ≤ length f)%nat →
  ∃ b', subscribe_loop subscribe sd f i n b = Some b' ∧ (broker_inv b → broker_inv b') ∧
    ∀ sd' type', subscribed b' sd' type' ↔
      if subscribe then (sd' = sd ∧ type' ∈ sub_types f i n) ∨ subscribed b sd' type'
      else ¬ (sd' = sd ∧ type' ∈ sub_types f i n) ∧ subscribed b sd' type'.
Proof.
  induction n as [|n IH]; intros i b Hl.
  { exists b. split; [done|]. split; [done|]. intros. cbn. destruct subscribe; set_solver. }
  cbn [subscribe_loop]. unfold sub_msg_type.
  rewrite (proj2 (Nat.leb_le _ _)) by lia. cbn [mbind option_bind].
  destruct (IH (S i) (subscribe_one subscribe sd (le32 f (4 + 4 * i)) b)) as (b' & He & Hi & Hs);
    [lia|].
  exists b'. split; [done|]. split; [eauto using subscribe_one_inv|].
  intros sd' type'.
  pose proof (subscribe_one_subscribed subscribe sd (le32 f (4 + 4 * i)) b sd' type') as H1.
  specialize (Hs sd' type').
  change (sub_types f i (S n)) with (le32 f (4 + 4 * i) :: sub_types f (S i) n).
  destruct subscribe; rewrite Hs, H1, elem_of_cons; tauto.
Qed.

(** Removing a socket from the entries of a list of opcodes. *)
Lemma entry_foldr_remove sd ts t type :
  entry (foldr (λ type t, <[type := entry t type ∖ {[sd]}]> t) t ts) type
  = if decide (type ∈ ts) then entry t type ∖ {[sd]} else entry t type.
Proof.
  induction ts as [|x ts IH]; cbn [foldr]; [by rewrite decide_False by set_solver|].
  rewrite entry_insert. destruct (decide (x = type)) as [->|Hne].
  - rewrite IH, (decide_True (P := type ∈ type :: ts)) by set_solver.
    case_decide; set_solver.
  - rewrite IH. repeat case_decide; set_solver.
Qed.

Lemma socket_disconnected_subscribed sd b sd' type : broker_inv b →
  (subscribed (socket_disconnected sd b).2 sd' type ↔ sd' ≠ sd ∧ subscribed b sd' type)
  ∧ broker_inv (socket_disconnected sd b).2.
Proof.
  intros Hb. unfold subscribed, broker_inv. cbn. split.
  - rewrite entry_delete. case_decide; set_solver.
  - intros sd'' type''. specialize (Hb sd'' type'').
    rewrite entry_delete, entry_foldr_remove. repeat case_decide; set_solver.
Qed.

(** The writes of the publishing loop. *)
Lemma publish_loop_spec writev m socs b :
  foldl (λ b soc, publish_to writev m soc b) b socs =
    b <| sent ::= λ l, l ++ ((λ soc, (soc, bytes_written writev soc m)) <$>
                             filter (λ soc, 0 ≤ writev soc (message_bytes m)) socs) |>.
Proof.
  revert b. induction socs as [|soc socs IH]; intros b; cbn [foldl].
  { destruct b. unfold set_field, set_sent. cbn. by rewrite app_nil_r. }
  rewrite IH. unfold publish_to, send_transport_message. rewrite filter_cons.
  destruct (Z.ltb_spec (writev soc (message_bytes m)) 0); case_decide; try lia; [done|].
  destruct b. unfold set_field, set_sent. cbn. by rewrite <- app_assoc.
Qed.

Lemma broker_publish_tables writev m b :
  m_soc_to_type (broker_publish writev m b).2 = m_soc_to_type b
  ∧ m_type_to_soc (broker_publish writev m b).2 = m_type_to_soc b.
Proof.
  unfold broker_publish. destruct (_ !! _); [|done]. cbn [snd]. by rewrite publish_loop_spec.
Qed.

#[export] Instance broker_publisher (writev : Z → list Z → Z) : Publisher BrokerServer.
Proof.
  refine {| publish := broker_publish writev; published := history |}.
  - intros m b. unfold broker_publish. by destruct (_ !! _).
  - intros m b. unfold broker_publish. destruct (_ !! _); [|done].
    cbn [snd]. by rewrite publish_loop_spec.
Defined.

Lemma broker_publish_spec writev m b : broker_inv b →
  ∃ deliveries,
    sent (broker_publish writev m b).2 = sent b ++ deliveries
    ∧ NoDup deliveries.*1
    ∧ (∀ soc bytes, (soc, bytes) ∈ deliveries ↔
         subscribed b soc (msg_opcode m) ∧ 0 ≤ writev soc (message_bytes m)
         ∧ bytes = bytes_written writev soc m)
    ∧ (broker_publish writev m b).1 = true.
Proof.
  intros Hb. unfold broker_publish. cbn [m_type_to_soc set_field set_history].
  assert (∀ soc, subscribed b soc (msg_opcode m) ↔
                 soc ∈ entry (m_type_to_soc b) (msg_opcode m)) as Hs by (intros; apply Hb).
  unfold entry in Hs. destruct (m_type_to_soc b !! msg_opcode m) as [socs|] eqn:E; cbn in Hs.
  - eexists. rewrite publish_loop_spec. split; [done|]. split; [|split; [|done]].
    + rewrite <- list_fmap_compose. cbn [compose fst]. change (fst ∘ _) with (λ soc : Z, soc).
      rewrite list_fmap_id. apply NoDup_filter, NoDup_elements.
    + intros soc bytes. rewrite Hs, list_elem_of_fmap.
      setoid_rewrite list_elem_of_filter. setoid_rewrite elem_of_elements. naive_solver.
  - exists []. cbn. rewrite app_nil_r. split; [done|]. split; [constructor|].
    split; [|done]. intros soc bytes. rewrite Hs. set_solver.
Qed.

(** ** Theorems *)

(** C11: publishing writes once to each socket that is subscribed to the
    message's opcode and on which [writev] does not fail, and to no other; the
    bytes that reach the socket are the framed message up to the number of bytes
    that [writev] wrote, so all of it unless the write was short. It always
    reports success. *)
Theorem publish_reaches_subscribers writev m b : broker_inv b →
  ∃ deliveries,
    sent (broker_publish writev m b).2 = sent b ++ deliveries
    ∧ NoDup deliveries.*1
    ∧ (∀ soc bytes, (soc, bytes) ∈ deliveries ↔
         subscribed b soc (msg_opcode m) ∧ 0 ≤ writev soc (message_bytes m)
         ∧ bytes = take (Z.to_nat (writev soc (message_bytes m))) (message_bytes m))
    ∧ (broker_publish writev m b).1 = true.
Proof. apply broker_publish_spec. Qed.

(** a subscribe request within the documented limit of types never reads
    past its frame, adds (or removes) exactly the requested opcodes of that
    socket and keeps the two tables converse to each other. *)
Theorem handle_subscribe_refines sd m b :
  broker_inv b → (260 ≤ length (frame m))%nat →
  sub_type (frame m) ≠ ReqType_INVALID →
  0 < sub_msg_types_count (frame m) ≤ Z.of_nat MAX_SUBSCRIBE_TYPES →
  let types := sub_types (frame m) 0 (Z.to_nat (sub_msg_types_count (frame m))) in
  ∃ b', handle_subscribe sd m b = Some (true, b') ∧ broker_inv b' ∧
    ∀ sd' type', subscribed b' sd' type' ↔
      if sub_type (frame m) =? ReqType_SUBSCRIBE
      then (sd' = sd ∧ type' ∈ types) ∨ subscribed b sd' type'
      else ¬ (sd' = sd ∧ type' ∈ types) ∧ subscribed b sd' type'.
Proof.
  intros Hb Hl Ht Hc types. unfold MAX_SUBSCRIBE_TYPES in Hc. unfold handle_subscribe.
  destruct (Z.eqb_spec (sub_type (frame m)) ReqType_INVALID); [done|].
  destruct (Z.eqb_spec (sub_msg_types_count (frame m)) 0); [lia|].
  destruct (subscribe_loop_spec (sub_type (frame m) =? ReqType_SUBSCRIBE) sd (frame m)
              (Z.to_nat (sub_msg_types_count (frame m))) 0 b) as (b' & He & Hi & Hs); [lia|].
  exists b'. rewrite He. split; [done|]. split; [by apply Hi|]. exact Hs.
Qed.

Lemma subscribe_loop_overread subscribe sd f n : ∀ i b,
  (length f < 4 + 4 * (i + n))%nat → (0 < n)%nat → subscribe_loop subscribe sd f i n b = None.
Proof.
  induction n as [|n IH]; intros i b Hl Hn; [lia|]. cbn [subscribe_loop]. unfold sub_msg_type.
  destruct (Nat.leb_spec (4 + 4 * i + 4) (length f)); cbn; [|done].
  destruct n; [lia|]. apply IH; lia.
Qed.

(** the handler does not check the number of types against
    [MAX_SUBSCRIBE_TYPES]: a request that announces more than 64 types in a
    frame of the size of the metadata makes it read past the frame. *)
Theorem handle_subscribe_overread sd m b :
  length (frame m) = 260%nat → sub_type (frame m) ≠ ReqType_INVALID →
  Z.of_nat MAX_SUBSCRIBE_TYPES < sub_msg_types_count (frame m) →
  handle_subscribe sd m b = None.
Proof.
  intros Hl Ht Hc. unfold MAX_SUBSCRIBE_TYPES in Hc. unfold handle_subscribe.
  destruct (Z.eqb_spec (sub_type (frame m)) ReqType_INVALID); [done|].
  destruct (Z.eqb_spec (sub_msg_types_count (frame m)) 0); [lia|].
  by rewrite subscribe_loop_overread by lia.
Qed.

(** ** Reachable states *)

(** The events that change the broker: a subscribe message on a connected
    socket, a disconnection, a publication, bytes that arrive. *)
Inductive broker_step (writev : Z → list Z → Z) : BrokerServer → BrokerServer → Prop :=
  | step_subscribe sd m b r b' :
      handle_subscribe sd m b = Some (r, b') → broker_step writev b b'
  | step_disconnect sd b : broker_step writev b (socket_disconnected sd b).2
  | step_publish m b : broker_step writev b (broker_publish writev m b).2
  | step_receive sd bytes b :
      broker_step writev b (b <| pending ::= λ p, <[sd := default [] (p !! sd) ++ bytes]> p |>).

Definition broker_init : BrokerServer := mkBroker ∅ ∅ ∅ [] [].

Lemma subscribe_loop_inv subscribe sd f n : ∀ i b b',
  subscribe_loop subscribe sd f i n b = Some b' → broker_inv b → broker_inv b'.
Proof.
  induction n as [|n IH]; intros i b b' H Hb; cbn in H; [by simplify_eq|].
  destruct (sub_msg_type f i); simplify_eq/=.
  eapply IH; [done|]. by apply subscribe_one_inv.
Qed.

Lemma handle_subscribe_inv sd m b r b' :
  handle_subscribe sd m b = Some (r, b') → broker_inv b → broker_inv b'.
Proof.
  unfold handle_subscribe. intros H Hb. repeat (case_match; simplify_eq/=; try done).
  destruct (subscribe_loop _ _ _ _ _ _) eqn:E; simplify_eq/=. eauto using subscribe_loop_inv.
Qed.

Lemma broker_reachable_inv writev b : rtc (broker_step writev) broker_init b → broker_inv b.
Proof.
  intros H. assert (broker_inv broker_init) as H0.
  { intros sd type. unfold entry. cbn. by rewrite !lookup_empty. }
  revert H0. induction H as [b|b b1 b2 Hs _ IH]; [done|]. intros Hb. apply IH.
  destruct Hs as [sd m b r b' E|sd b|m b|sd bytes b].
  - by eapply handle_subscribe_inv.
  - by apply (socket_disconnected_subscribed sd b sd 0).
  - unfold broker_inv. destruct (broker_publish_tables writev m b) as [-> ->]. exact Hb.
  - exact Hb.
Qed.

(** in every reachable state, a message published after a socket was
    disconnected is not written to that socket. *)
Theorem disconnected_gets_nothing writev b sd m :
  rtc (broker_step writev) broker_init b →
  let b1 := (socket_disconnected sd b).2 in
  ∃ deliveries, sent (broker_publish writev m b1).2 = sent b ++ deliveries
    ∧ ∀ soc bytes, (soc, bytes) ∈ deliveries → soc ≠ sd ∧ subscribed b soc (msg_opcode m).
Proof.
  intros Hr b1. pose proof (broker_reachable_inv _ _ Hr) as Hb.
  destruct (broker_publish_spec writev m b1) as (d & Hd & _ & Hin & _).
  { apply (socket_disconnected_subscribed sd b sd 0 Hb). }
  exists d. split; [exact Hd|]. intros soc bytes Hel. apply Hin in Hel as [Hsub _].
  by apply (socket_disconnected_subscribed sd b soc (msg_opcode m) Hb).
Qed.
