(* ===== verification/TransportState.v ===== *)
(** * State of the IEEE 1905.1 transport

    The members of [Ieee1905Transport] ([ieee1905_transport.h]) and the part
    of the operating system the methods act on: open descriptors, the
    descriptors registered with the event loop, attached packet filters and
    the frames written to the network. Results of system calls come from an
    environment [Env]. *)

From S2P Require Import Prelude Wire SocketFilter Messages Broker.

(** ** Environment *)

(** What the methods read from the outside: the steady clock (nanoseconds,
    one value per reading), the wall clock (seconds), the kernel's interface
    tables, the results of system calls, and the state managers.
    [writev] may depend on everything written before. *)
Record Env := mkEnv {
  clock : nat → Z;
  wall_clock : nat → Z;
  if_nametoindex : string → Z;
  if_indextoname : Z → option string;
  writev : list (Z * list Z) → Z → list Z → Z;
  socket_call : gset Z → Z;
  setsockopt_call : Z → nat → bool;
  bind_call : Z → string → bool;
  epoll_ctl_add : Z → bool;
  ioctl_hwaddr : string → option sMacAddr;
  interface_read_state : string → option bool;
  bridge_read_state : string → option (gset string);
  management_mode_not_multiap : bool;
}.

(** [if_index2name]: the empty string for an unknown index. *)
Definition if_index2name (e : Env) (index : Z) : string :=
  default EmptyString (if_indextoname e index).

(** ** Data *)

Record NetworkInterface := mkNetworkInterface {
  fd : option Z;
  addr : sMacAddr;
  ifname : string;
  bridge_name : string;
  is_bridge : bool;
}.

#[export] Instance set_fd : Setter fd := λ f i,
  mkNetworkInterface (f (fd i)) (addr i) (ifname i) (bridge_name i) (is_bridge i).

(** A default-constructed [NetworkInterface]. *)
Definition NetworkInterface_default : NetworkInterface :=
  mkNetworkInterface None (replicate 6 0) EmptyString EmptyString false.

(** Statistics counters. *)
Inductive CounterId :=
  | MESSAGE_ID_WRAPAROUND
  | INCOMMING_NETWORK_PACKETS
  | OUTGOING_NETWORK_PACKETS
  | INCOMMING_LOCAL_BUS_PACKETS
  | OUTGOING_LOCAL_BUS_PACKETS
  | DUPLICATE_PACKETS
  | DEFRAGMENTATION_FAILURE.

#[export] Instance CounterId_eq_dec : EqDecision CounterId.
Proof. solve_decision. Defined.

Definition CounterId_index (c : CounterId) : nat :=
  match c with
  | MESSAGE_ID_WRAPAROUND => 0 | INCOMMING_NETWORK_PACKETS => 1
  | OUTGOING_NETWORK_PACKETS => 2 | INCOMMING_LOCAL_BUS_PACKETS => 3
  | OUTGOING_LOCAL_BUS_PACKETS => 4 | DUPLICATE_PACKETS => 5 | DEFRAGMENTATION_FAILURE => 6
  end.
Definition CounterId_of_index (n : nat) : CounterId :=
  match n with
  | 0 => MESSAGE_ID_WRAPAROUND | 1 => INCOMMING_NETWORK_PACKETS
  | 2 => OUTGOING_NETWORK_PACKETS | 3 => INCOMMING_LOCAL_BUS_PACKETS
  | 4 => OUTGOING_LOCAL_BUS_PACKETS | 5 => DUPLICATE_PACKETS | _ => DEFRAGMENTATION_FAILURE
  end%nat.
#[export] Instance CounterId_countable : Countable CounterId.
Proof. refine (inj_countable' CounterId_index CounterId_of_index _). by intros []. Defined.

Record ieee1905_neighbor := mkNeighbor {
  al_mac : sMacAddr;
  if_index : Z;
  last_seen : Z;
}.

Record DeDuplicationKey := mkDeDuplicationKey {
  ddk_src : sMacAddr; ddk_dst : sMacAddr; ddk_messageType : Z; ddk_messageId : Z;
  ddk_fragmentId : Z;
}.
#[export] Instance DeDuplicationKey_eq_dec : EqDecision DeDuplicationKey.
Proof. solve_decision. Defined.
#[export] Instance DeDuplicationKey_countable : Countable DeDuplicationKey.
Proof.
  refine (inj_countable'
    (λ k, (ddk_src k, ddk_dst k, ddk_messageType k, ddk_messageId k, ddk_fragmentId k))
    (λ '(s, d, t, i, f), mkDeDuplicationKey s d t i f) _). by intros [].
Defined.

Record DeFragmentationKey := mkDeFragmentationKey {
  dfk_src : sMacAddr; dfk_messageType : Z; dfk_messageId : Z;
}.
#[export] Instance DeFragmentationKey_eq_dec : EqDecision DeFragmentationKey.
Proof. solve_decision. Defined.
#[export] Instance DeFragmentationKey_countable : Countable DeFragmentationKey.
Proof.
  refine (inj_countable' (λ k, (dfk_src k, dfk_messageType k, dfk_messageId k))
    (λ '(s, t, i), mkDeFragmentationKey s t i) _). by intros [].
Defined.

(** [buf] is the array up to [bufIndex]. *)
Record DeFragmentationValue := mkDeFragmentationValue {
  dfv_time : Z;
  numFragments : Z;
  buf : list Z;
  complete : bool;
}.
Definition DeFragmentationValue_default : DeFragmentationValue :=
  mkDeFragmentationValue 0 0 [] false.

(** ** Constants *)

(** Durations in nanoseconds of the steady clock. *)
Definition one_second : Z := 1000000000.
Definition kMaximumNeighbourAge : Z := 70.
Definition REMOVE_AGED_NEIGHBORS_CYCLES_SEC : Z := 1.
Definition kMaximumDeDuplicationAge : Z := one_second.
Definition kMaximumDeDuplicationThreads : Z := 1024.
Definition kMaximumDeFragmentationAge : Z := one_second.
Definition kMaximumDeFragmentationThreads : Z := 16.
Definition kMaximumDeFragmentionSize : Z := 64 * 1024.
(** [tlvf::MAX_TLV_SIZE]: the MTU of 1500 less the CMDU header. *)
Definition kIeee1905FragmentationThreashold : nat := 1492.
Definition ieee_8021q_protocol_id : Z := 0x8100.

(** ** The object *)

Record Transport (B : Type) := mkTransport {
  network_interfaces_ : gmap string NetworkInterface;
  pending_network_interfaces_ : list string;
  message_id_ : Z;
  al_mac_addr_ : sMacAddr;
  primary_vlan_id_ : Z;
  traffic_separation_enabled_ : bool;
  bridge_name_ : string;
  counters_ : gmap CounterId Z;
  neighbors_map_ : gmap sMacAddr ieee1905_neighbor;
  removed_aged_neighbors_timeout_ : Z;
  de_duplication_map_ : gmap DeDuplicationKey Z;
  de_fragmentation_map_ : gmap DeFragmentationKey DeFragmentationValue;
  m_broker : B;
  handlers : gset Z;
  open_fds : gset Z;
  filters : gmap Z (list sock_filter);
  wire : list (Z * list Z);
  clock_reads : nat;
}.
Arguments mkTransport {B}.
Arguments network_interfaces_ {B}.
Arguments pending_network_interfaces_ {B}.
Arguments message_id_ {B}.
Arguments al_mac_addr_ {B}.
Arguments primary_vlan_id_ {B}.
Arguments traffic_separation_enabled_ {B}.
Arguments bridge_name_ {B}.
Arguments counters_ {B}.
Arguments neighbors_map_ {B}.
Arguments removed_aged_neighbors_timeout_ {B}.
Arguments de_duplication_map_ {B}.
Arguments de_fragmentation_map_ {B}.
Arguments m_broker {B}.
Arguments handlers {B}.
Arguments open_fds {B}.
Arguments filters {B}.
Arguments wire {B}.
Arguments clock_reads {B}.

Section Setters.
Context {B : Type}.
#[export] Instance set_network_interfaces_ : Setter (@network_interfaces_ B) := λ g s,
  mkTransport
    (g (network_interfaces_ s)) (pending_network_interfaces_ s) (message_id_ s)
    (al_mac_addr_ s) (primary_vlan_id_ s) (traffic_separation_enabled_ s) (bridge_name_ s)
    (counters_ s) (neighbors_map_ s) (removed_aged_neighbors_timeout_ s)
    (de_duplication_map_ s) (de_fragmentation_map_ s) (m_broker s) (handlers s) (open_fds s)
    (filters s) (wire s) (clock_reads s).
#[export] Instance set_pending_network_interfaces_ : Setter (@pending_network_interfaces_ B) := λ g s,
  mkTransport
    (network_interfaces_ s) (g (pending_network_interfaces_ s)) (message_id_ s)
    (al_mac_addr_ s) (primary_vlan_id_ s) (traffic_separation_enabled_ s) (bridge_name_ s)
    (counters_ s) (neighbors_map_ s) (removed_aged_neighbors_timeout_ s)
    (de_duplication_map_ s) (de_fragmentation_map_ s) (m_broker s) (handlers s) (open_fds s)
    (filters s) (wire s) (clock_reads s).
#[export] Instance set_message_id_ : Setter (@message_id_ B) := λ g s,
  mkTransport
    (network_interfaces_ s) (pending_network_interfaces_ s) (g (message_id_ s))
    (al_mac_addr_ s) (primary_vlan_id_ s) (traffic_separation_enabled_ s) (bridge_name_ s)
    (counters_ s) (neighbors_map_ s) (removed_aged_neighbors_timeout_ s)
    (de_duplication_map_ s) (de_fragmentation_map_ s) (m_broker s) (handlers s) (open_fds s)
    (filters s) (wire s) (clock_reads s).
#[export] Instance set_al_mac_addr_ : Setter (@al_mac_addr_ B) := λ g s,
  mkTransport
    (network_interfaces_ s) (pending_network_interfaces_ s) (message_id_ s) (g (al_mac_addr_
    s)) (primary_vlan_id_ s) (traffic_separation_enabled_ s) (bridge_name_ s) (counters_ s)
    (neighbors_map_ s) (removed_aged_neighbors_timeout_ s) (de_duplication_map_ s)
    (de_fragmentation_map_ s) (m_broker s) (handlers s) (open_fds s) (filters s) (wire s)
    (clock_reads s).
#[export] Instance set_primary_vlan_id_ : Setter (@primary_vlan_id_ B) := λ g s,
  mkTransport
    (network_interfaces_ s) (pending_network_interfaces_ s) (message_id_ s) (al_mac_addr_ s)
    (g (primary_vlan_id_ s)) (traffic_separation_enabled_ s) (bridge_name_ s) (counters_ s)
    (neighbors_map_ s) (removed_aged_neighbors_timeout_ s) (de_duplication_map_ s)
    (de_fragmentation_map_ s) (m_broker s) (handlers s) (open_fds s) (filters s) (wire s)
    (clock_reads s).
#[export] Instance set_traffic_separation_enabled_ : Setter (@traffic_separation_enabled_ B) := λ g s,
  mkTransport
    (network_interfaces_ s) (pending_network_interfaces_ s) (message_id_ s) (al_mac_addr_ s)
    (primary_vlan_id_ s) (g (traffic_separation_enabled_ s)) (bridge_name_ s) (counters_ s)
    (neighbors_map_ s) (removed_aged_neighbors_timeout_ s) (de_duplication_map_ s)
    (de_fragmentation_map_ s) (m_broker s) (handlers s) (open_fds s) (filters s) (wire s)
    (clock_reads s).
#[export] Instance set_bridge_name_ : Setter (@bridge_name_ B) := λ g s,
  mkTransport
    (network_interfaces_ s) (pending_network_interfaces_ s) (message_id_ s) (al_mac_addr_ s)
    (primary_vlan_id_ s) (traffic_separation_enabled_ s) (g (bridge_name_ s)) (counters_ s)
    (neighbors_map_ s) (removed_aged_neighbors_timeout_ s) (de_duplication_map_ s)
    (de_fragmentation_map_ s) (m_broker s) (handlers s) (open_fds s) (filters s) (wire s)
    (clock_reads s).
#[export] Instance set_counters_ : Setter (@counters_ B) := λ g s,
  mkTransport
    (network_interfaces_ s) (pending_network_interfaces_ s) (message_id_ s) (al_mac_addr_ s)
    (primary_vlan_id_ s) (traffic_separation_enabled_ s) (bridge_name_ s) (g (counters_ s))
    (neighbors_map_ s) (removed_aged_neighbors_timeout_ s) (de_duplication_map_ s)
    (de_fragmentation_map_ s) (m_broker s) (handlers s) (open_fds s) (filters s) (wire s)
    (clock_reads s).
#[export] Instance set_neighbors_map_ : Setter (@neighbors_map_ B) := λ g s,
  mkTransport
    (network_interfaces_ s) (pending_network_interfaces_ s) (message_id_ s) (al_mac_addr_ s)
    (primary_vlan_id_ s) (traffic_separation_enabled_ s) (bridge_name_ s) (counters_ s) (g
    (neighbors_map_ s)) (removed_aged_neighbors_timeout_ s) (de_duplication_map_ s)
    (de_fragmentation_map_ s) (m_broker s) (handlers s) (open_fds s) (filters s) (wire s)
    (clock_reads s).
#[export] Instance set_removed_aged_neighbors_timeout_ : Setter (@removed_aged_neighbors_timeout_ B) := λ g s,
  mkTransport
    (network_interfaces_ s) (pending_network_interfaces_ s) (message_id_ s) (al_mac_addr_ s)
    (primary_vlan_id_ s) (traffic_separation_enabled_ s) (bridge_name_ s) (counters_ s)
    (neighbors_map_ s) (g (removed_aged_neighbors_timeout_ s)) (de_duplication_map_ s)
    (de_fragmentation_map_ s) (m_broker s) (handlers s) (open_fds s) (filters s) (wire s)
    (clock_reads s).
#[export] Instance set_de_duplication_map_ : Setter (@de_duplication_map_ B) := λ g s,
  mkTransport
    (network_interfaces_ s) (pending_network_interfaces_ s) (message_id_ s) (al_mac_addr_ s)
    (primary_vlan_id_ s) (traffic_separation_enabled_ s) (bridge_name_ s) (counters_ s)
    (neighbors_map_ s) (removed_aged_neighbors_timeout_ s) (g (de_duplication_map_ s))
    (de_fragmentation_map_ s) (m_broker s) (handlers s) (open_fds s) (filters s) (wire s)
    (clock_reads s).
#[export] Instance set_de_fragmentation_map_ : Setter (@de_fragmentation_map_ B) := λ g s,
  mkTransport
    (network_interfaces_ s) (pending_network_interfaces_ s) (message_id_ s) (al_mac_addr_ s)
    (primary_vlan_id_ s) (traffic_separation_enabled_ s) (bridge_name_ s) (counters_ s)
    (neighbors_map_ s) (removed_aged_neighbors_timeout_ s) (de_duplication_map_ s) (g
    (de_fragmentation_map_ s)) (m_broker s) (handlers s) (open_fds s) (filters s) (wire s)
    (clock_reads s).
#[export] Instance set_m_broker : Setter (@m_broker B) := λ g s,
  mkTransport
    (network_interfaces_ s) (pending_network_interfaces_ s) (message_id_ s) (al_mac_addr_ s)
    (primary_vlan_id_ s) (traffic_separation_enabled_ s) (bridge_name_ s) (counters_ s)
    (neighbors_map_ s) (removed_aged_neighbors_timeout_ s) (de_duplication_map_ s)
    (de_fragmentation_map_ s) (g (m_broker s)) (handlers s) (open_fds s) (filters s) (wire
    s) (clock_reads s).
#[export] Instance set_handlers : Setter (@handlers B) := λ g s,
  mkTransport
    (network_interfaces_ s) (pending_network_interfaces_ s) (message_id_ s) (al_mac_addr_ s)
    (primary_vlan_id_ s) (traffic_separation_enabled_ s) (bridge_name_ s) (counters_ s)
    (neighbors_map_ s) (removed_aged_neighbors_timeout_ s) (de_duplication_map_ s)
    (de_fragmentation_map_ s) (m_broker s) (g (handlers s)) (open_fds s) (filters s) (wire
    s) (clock_reads s).
#[export] Instance set_open_fds : Setter (@open_fds B) := λ g s,
  mkTransport
    (network_interfaces_ s) (pending_network_interfaces_ s) (message_id_ s) (al_mac_addr_ s)
    (primary_vlan_id_ s) (traffic_separation_enabled_ s) (bridge_name_ s) (counters_ s)
    (neighbors_map_ s) (removed_aged_neighbors_timeout_ s) (de_duplication_map_ s)
    (de_fragmentation_map_ s) (m_broker s) (handlers s) (g (open_fds s)) (filters s) (wire
    s) (clock_reads s).
#[export] Instance set_filters : Setter (@filters B) := λ g s,
  mkTransport
    (network_interfaces_ s) (pending_network_interfaces_ s) (message_id_ s) (al_mac_addr_ s)
    (primary_vlan_id_ s) (traffic_separation_enabled_ s) (bridge_name_ s) (counters_ s)
    (neighbors_map_ s) (removed_aged_neighbors_timeout_ s) (de_duplication_map_ s)
    (de_fragmentation_map_ s) (m_broker s) (handlers s) (open_fds s) (g (filters s)) (wire
    s) (clock_reads s).
#[export] Instance set_wire : Setter (@wire B) := λ g s,
  mkTransport
    (network_interfaces_ s) (pending_network_interfaces_ s) (message_id_ s) (al_mac_addr_ s)
    (primary_vlan_id_ s) (traffic_separation_enabled_ s) (bridge_name_ s) (counters_ s)
    (neighbors_map_ s) (removed_aged_neighbors_timeout_ s) (de_duplication_map_ s)
    (de_fragmentation_map_ s) (m_broker s) (handlers s) (open_fds s) (filters s) (g (wire
    s)) (clock_reads s).
#[export] Instance set_clock_reads : Setter (@clock_reads B) := λ g s,
  mkTransport
    (network_interfaces_ s) (pending_network_interfaces_ s) (message_id_ s) (al_mac_addr_ s)
    (primary_vlan_id_ s) (traffic_separation_enabled_ s) (bridge_name_ s) (counters_ s)
    (neighbors_map_ s) (removed_aged_neighbors_timeout_ s) (de_duplication_map_ s)
    (de_fragmentation_map_ s) (m_broker s) (handlers s) (open_fds s) (filters s) (wire s) (g
    (clock_reads s)).
End Setters.

(** Transport methods pass the object and the system state along. *)
Notation transportM B := (stM (Transport B)).

(** ** Small operations *)

(** [std::chrono::steady_clock::now()]. *)
Definition steady_now {B} (e : Env) : transportM B Z := λ s,
  (clock e (clock_reads s), s <| clock_reads ::= S |>).

(** [counters_[id]++] on an [unsigned long]. *)
Definition count {B} (id : CounterId) : transportM B unit :=
  modify (λ s, s <| counters_ ::= λ c, <[id := u64 (default 0 (c !! id) + 1)]> c |>).

(** The object as constructed, before any configuration message. *)
Definition Transport_init {B} (b : B) (now : Z) : Transport B :=
  mkTransport ∅ [] 0 (replicate 6 0) 0 false EmptyString ∅ ∅ now ∅ ∅ b ∅ ∅ ∅ [] 0.

Lemma steady_now_run {B} e (s : Transport B) :
  steady_now e s = (clock e (clock_reads s), s <| clock_reads ::= S |>).
Proof. done. Qed.
Lemma count_run {B} id (s : Transport B) :
  count id s = (tt, s <| counters_ ::= λ c, <[id := u64 (default 0 (c !! id) + 1)]> c |>).
Proof. done. Qed.
#[export] Hint Rewrite @steady_now_run @count_run : st.
