(* ===== verification/DeDuplication.v ===== *)
(** * Neighbours and de-duplication

    [update_neighbours], [de_duplicate_packet] and
    [remove_packet_from_de_duplication_map] of
    [ieee1905_transport_packet_processing.cpp], with the orders of the
    ordered maps of [ieee1905_transport.h]. *)

From S2P Require Import Prelude Wire SocketFilter Messages Broker TransportState.

(** ** Key orders *)

(** [DeDuplicationKeyCompare]. *)
Definition DeDuplicationKeyCompare (lhs rhs : DeDuplicationKey) : bool :=
  match memcmp (ddk_src lhs) (ddk_src rhs) with
  | Lt => true | Gt => false
  | Eq =>
    match memcmp (ddk_dst lhs) (ddk_dst rhs) with
    | Lt => true | Gt => false
    | Eq =>
      if negb (ddk_messageType lhs =? ddk_messageType rhs)
      then ddk_messageType lhs <? ddk_messageType rhs
      else if negb (ddk_messageId lhs =? ddk_messageId rhs)
      then ddk_messageId lhs <? ddk_messageId rhs
      else ddk_fragmentId lhs <? ddk_fragmentId rhs
    end
  end.

(** [DeFragmentationKeyCompare]. *)
Definition DeFragmentationKeyCompare (lhs rhs : DeFragmentationKey) : bool :=
  match memcmp (dfk_src lhs) (dfk_src rhs) with
  | Lt => true | Gt => false
  | Eq =>
    if negb (dfk_messageType lhs =? dfk_messageType rhs)
    then dfk_messageType lhs <? dfk_messageType rhs
    else dfk_messageId lhs <? dfk_messageId rhs
  end.

(** ** Neighbours *)

(** [duration_cast<seconds>(now - last_seen)]. *)
Definition neighbour_age (now : Z) (n : ieee1905_neighbor) : Z :=
  Z.quot (now - last_seen n) one_second.

(** One iteration of the aging loop on the map and [oldest_neighbor_wait_sec]. *)
Definition age_out_neighbour (now : Z) (packet_src : sMacAddr)
    (acc : gmap sMacAddr ieee1905_neighbor * Z) (neigh : sMacAddr * ieee1905_neighbor) :
    gmap sMacAddr ieee1905_neighbor * Z :=
  let '(m, oldest_neighbor_wait_sec) := acc in
  if bool_decide (neigh.1 ≠ packet_src) then
    let age := neighbour_age now neigh.2 in
    if kMaximumNeighbourAge <? age then (delete neigh.1 m, oldest_neighbor_wait_sec)
    else (m, Z.min oldest_neighbor_wait_sec (kMaximumNeighbourAge - age))
  else (m, oldest_neighbor_wait_sec).

Definition age_out_neighbours (now : Z) (packet_src : sMacAddr)
    (m : gmap sMacAddr ieee1905_neighbor) : gmap sMacAddr ieee1905_neighbor * Z :=
  foldl (age_out_neighbour now packet_src) (m, kMaximumNeighbourAge) (map_to_list m).

Section Methods.
Context {B : Type} (e : Env).

Definition update_neighbours (packet : Packet) : transportM B unit :=
  if negb (ether_type packet =? ETH_P_1905_1) then mret tt
  else if negb (src_if_type packet =? IF_TYPE_NET) then mret tt
  else
    now ← steady_now e;
    modify (λ s,
      if removed_aged_neighbors_timeout_ s <? now then
        let '(m, oldest) := age_out_neighbours now (src packet) (neighbors_map_ s) in
        s <| neighbors_map_ := m |>
          <| removed_aged_neighbors_timeout_ :=
               now + Z.max oldest REMOVE_AGED_NEIGHBORS_CYCLES_SEC * one_second |>
      else s) ;;
    modify (λ s,
      match neighbors_map_ s !! src packet with
      | None => s <| neighbors_map_ ::=
                      <[src packet := mkNeighbor (src packet) (src_if_index packet) now]> |>
      | Some n => s <| neighbors_map_ ::=
                        <[src packet := mkNeighbor (al_mac n) (src_if_index packet) now]> |>
      end).

(** ** De-duplication *)

(** The key the methods build from a packet. *)
Definition dedup_key (packet : Packet) : DeDuplicationKey :=
  {| ddk_src := src packet; ddk_dst := dst packet;
     ddk_messageType := messageType (payload packet);
     ddk_messageId := messageId (payload packet);
     ddk_fragmentId := fragmentId (payload packet) |}.

Definition remove_packet_from_de_duplication_map (packet : Packet) : transportM B unit :=
  modify (λ s, s <| de_duplication_map_ ::= delete (dedup_key packet) |>).

(** The other destination under which a reliable multicast may arrive. *)
Definition swap_destination (al : sMacAddr) (key : DeDuplicationKey) : DeDuplicationKey :=
  let d :=
    if ETHER_IS_SAME al (ddk_dst key) then ieee1905_multicast_addr
    else if ETHER_IS_SAME ieee1905_multicast_addr (ddk_dst key) then al
    else ddk_dst key in
  mkDeDuplicationKey (ddk_src key) d (ddk_messageType key) (ddk_messageId key)
    (ddk_fragmentId key).

(** Returns [false] iff the packet is dropped as a duplicate. *)
Definition de_duplicate_packet (packet : Packet) : transportM B bool :=
  if negb (ether_type packet =? ETH_P_1905_1) then mret true
  else
    now ← steady_now e;
    modify (λ s, s <| de_duplication_map_ ::=
                      filter (λ kv, ¬ (kv.2 + kMaximumDeDuplicationAge < now)) |>) ;;
    m ← gets de_duplication_map_;
    al ← gets al_mac_addr_;
    let key := dedup_key packet in
    let is_duplicate := bool_decide (is_Some (m !! key)) in
    let key :=
      if (negb is_duplicate && (src_if_type packet =? IF_TYPE_NET)
          && is_reliable_multicast packet)%bool
      then swap_destination al key else key in
    let is_duplicate := bool_decide (is_Some (m !! key)) in
    if is_duplicate then
      count DUPLICATE_PACKETS ;;
      modify (λ s, s <| de_duplication_map_ ::= <[key := now]> |>) ;;
      mret false
    else if kMaximumDeDuplicationThreads <=? Z.of_nat (size m) then mret false
    else
      modify (λ s, s <| de_duplication_map_ ::= <[key := now]> |>) ;;
      mret true.

End Methods.

(** ** Lemmas: orders *)

Lemma memcmp_refl a : memcmp a a = Eq.
Proof. induction a as [|x a IH]; cbn; [done|]. by rewrite Z.compare_refl. Qed.

Lemma memcmp_eq a b : length a = length b → memcmp a b = Eq → a = b.
Proof.
  revert b. induction a as [|x a IH]; intros [|y b] Hl; try done. cbn.
  destruct (Z.compare_spec x y) as [->| |]; try done. intros H. f_equal. apply IH; auto.
Qed.

Lemma memcmp_antisym a b : memcmp a b = CompOpp (memcmp b a).
Proof.
  revert b. induction a as [|x a IH]; intros [|y b]; try done. cbn.
  rewrite Z.compare_antisym. destruct (y ?= x); cbn; auto.
Qed.

Lemma memcmp_lt_trans a b c : length a = length b → length b = length c →
  memcmp a b = Lt → memcmp b c = Lt → memcmp a c = Lt.
Proof.
  revert b c. induction a as [|x a IH]; intros [|y b] [|z c] H1 H2; try done. cbn.
  destruct (Z.compare_spec x y), (Z.compare_spec y z), (Z.compare_spec x z);
    try lia; try done; subst. apply IH; auto.
Qed.

(** A strict total order on the elements that satisfy [ok]. *)
Record strict_total {A} (ok : A → Prop) (lt : A → A → bool) : Prop := {
  st_irrefl a : ok a → lt a a = false;
  st_trans a b c : ok a → ok b → ok c → lt a b = true → lt b c = true → lt a c = true;
  st_total a b : ok a → ok b → lt a b = false → lt b a = false → a = b;
}.

(** Keys whose addresses have the length of a MAC address. *)
Definition dedup_key_ok (k : DeDuplicationKey) : Prop :=
  length (ddk_src k) = ETH_ALEN ∧ length (ddk_dst k) = ETH_ALEN.
Definition defrag_key_ok (k : DeFragmentationKey) : Prop := length (dfk_src k) = ETH_ALEN.

(** Splits the comparison of two addresses of the goal and its premises. *)
Ltac memcmp_cases a b :=
  let H := fresh "Hcmp" in
  destruct (memcmp a b) eqn:H;
  [apply memcmp_eq in H; [|congruence]| |].

Lemma DeDuplicationKeyCompare_total : strict_total dedup_key_ok DeDuplicationKeyCompare.
Proof.
  split.
  - intros [s d t i f] _. unfold DeDuplicationKeyCompare. cbn.
    by rewrite !memcmp_refl, !Z.eqb_refl, !Z.ltb_irrefl.
  - intros [s1 d1 t1 i1 f1] [s2 d2 t2 i2 f2] [s3 d3 t3 i3 f3] [??] [??] [??].
    unfold DeDuplicationKeyCompare. cbn in *.
    memcmp_cases s1 s2; try done; memcmp_cases s2 s3; try done; subst;
      rewrite ?memcmp_refl, ?Hcmp, ?Hcmp0; try done;
      try (by rewrite (memcmp_lt_trans s1 s2 s3) by congruence).
    memcmp_cases d1 d2; try done; memcmp_cases d2 d3; try done; subst;
      rewrite ?memcmp_refl, ?Hcmp, ?Hcmp0; try done;
      try (by rewrite (memcmp_lt_trans d1 d2 d3) by congruence).
    intros. repeat case_match; bool_to_prop; try done;
      rewrite ?Z.ltb_lt; try lia.
  - intros [s1 d1 t1 i1 f1] [s2 d2 t2 i2 f2] [??] [??].
    unfold DeDuplicationKeyCompare. cbn in *.
    rewrite (memcmp_antisym s2 s1), (memcmp_antisym d2 d1).
    memcmp_cases s1 s2; try done. memcmp_cases d1 d2; try done. subst. cbn. intros.
    repeat case_match; bool_to_prop; try lia; f_equal; lia.
Qed.

Lemma DeFragmentationKeyCompare_total : strict_total defrag_key_ok DeFragmentationKeyCompare.
Proof.
  split.
  - intros [s t i] _. unfold DeFragmentationKeyCompare. cbn.
    by rewrite !memcmp_refl, !Z.eqb_refl, !Z.ltb_irrefl.
  - intros [s1 t1 i1] [s2 t2 i2] [s3 t3 i3] ???.
    unfold DeFragmentationKeyCompare, defrag_key_ok in *. cbn in *.
    memcmp_cases s1 s2; try done; memcmp_cases s2 s3; try done; subst;
      rewrite ?memcmp_refl, ?Hcmp, ?Hcmp0; try done;
      try (by rewrite (memcmp_lt_trans s1 s2 s3) by congruence).
    intros. repeat case_match; bool_to_prop; try done; rewrite ?Z.ltb_lt; try lia.
  - intros [s1 t1 i1] [s2 t2 i2] ??.
    unfold DeFragmentationKeyCompare, defrag_key_ok in *. cbn in *.
    rewrite (memcmp_antisym s2 s1). memcmp_cases s1 s2; try done. subst. cbn. intros.
    repeat case_match; bool_to_prop; try lia; f_equal; lia.
Qed.

(** ** Lemmas: neighbours *)

(** The entries the aging loop erases. *)
Definition aged (now : Z) (packet_src : sMacAddr) (kn : sMacAddr * ieee1905_neighbor) : Prop :=
  kn.1 ≠ packet_src ∧ kMaximumNeighbourAge < neighbour_age now kn.2.
#[export] Instance aged_dec now packet_src kn : Decision (aged now packet_src kn).
Proof. unfold aged. apply _. Defined.

Lemma age_out_fold now packet_src l m o k :
  (foldl (age_out_neighbour now packet_src) (m, o) l).1 !! k =
    if decide (k ∈ (filter (aged now packet_src) l).*1) then None else m !! k.
Proof.
  revert m o. induction l as [|[k' n] l IH]; intros m o; cbn [foldl].
  { by rewrite decide_False by set_solver. }
  rewrite filter_cons. destruct (decide (aged now packet_src (k', n))) as [Ha|Ha];
    unfold aged in Ha; cbn [fst snd] in Ha; unfold age_out_neighbour at 2; cbn [fst snd].
  - destruct Ha as [Hk Ha]. rewrite bool_decide_true, (proj2 (Z.ltb_lt _ _)), IH by done.
    rewrite lookup_delete. cbn [fmap list_fmap fst]. repeat case_decide; set_solver.
  - case_bool_decide; [|by rewrite IH].
    rewrite (proj2 (Z.ltb_ge _ _)), IH; [done|]. apply Z.nlt_ge. tauto.
Qed.

Lemma age_out_lookup now packet_src m k n :
  (age_out_neighbours now packet_src m).1 !! k = Some n ↔
    m !! k = Some n ∧ (k = packet_src ∨ neighbour_age now n ≤ kMaximumNeighbourAge).
Proof.
  unfold age_out_neighbours. rewrite age_out_fold.
  assert (k ∈ (filter (aged now packet_src) (map_to_list m)).*1 ↔
          ∃ n', m !! k = Some n' ∧ aged now packet_src (k, n')) as Hk.
  { rewrite list_elem_of_fmap. setoid_rewrite list_elem_of_filter. split.
    - intros ([k' n'] & -> & Ha & Hin). apply elem_of_map_to_list in Hin. eauto.
    - intros (n' & Hm & Ha). exists (k, n'). by rewrite elem_of_map_to_list. }
  unfold aged in Hk. cbn in Hk. case_decide as Hd; rewrite Hk in Hd; split.
  - done.
  - intros [Hm Ho]. destruct Hd as (n' & Hm' & ? & ?). simplify_eq. destruct Ho; [done|lia].
  - intros Hm. split; [done|]. destruct (decide (k = packet_src)); [by left|right].
    apply Z.nlt_ge. intros ?. apply Hd. eauto.
  - by intros [? _].
Qed.

Lemma age_out_oldest_fold now packet_src l : ∀ m o,
  0 ≤ o ≤ kMaximumNeighbourAge →
  let o' := (foldl (age_out_neighbour now packet_src) (m, o) l).2 in
  0 ≤ o' ≤ o ∧
  ∀ k n, (k, n) ∈ l → k ≠ packet_src → neighbour_age now n ≤ kMaximumNeighbourAge →
         o' ≤ kMaximumNeighbourAge - neighbour_age now n.
Proof.
  induction l as [|[k' n'] l IH]; intros m o Ho; cbn [foldl].
  { split; [cbn; lia|]. set_solver. }
  destruct (age_out_neighbour now packet_src (m, o) (k', n')) as [m1 o1] eqn:E.
  assert (0 ≤ o1 ≤ o ∧ (k' ≠ packet_src → neighbour_age now n' ≤ kMaximumNeighbourAge →
            o1 ≤ kMaximumNeighbourAge - neighbour_age now n')) as [Ho1 Hk'].
  { unfold age_out_neighbour in E. cbn in E.
    repeat (case_match; simplify_eq/=); bool_to_prop; split; try lia; done. }
  destruct (IH m1 o1) as [H1 H2]; [lia|]. split; [lia|].
  intros k n [[= -> ->]|Hin]%elem_of_cons Hk Ha; [|eauto]. specialize (Hk' Hk Ha). lia.
Qed.

(** What [update_neighbours] does with a 1905 packet from the network. *)
Lemma update_neighbours_run {B} e (packet : Packet) (s : Transport B) :
  ether_type packet = ETH_P_1905_1 → src_if_type packet = IF_TYPE_NET →
  let now := clock e (clock_reads s) in
  let aging := removed_aged_neighbors_timeout_ s <? now in
  let s' := (update_neighbours e packet s).2 in
  neighbors_map_ s' =
    <[src packet := mkNeighbor
        (default (src packet)
           (al_mac <$> ((if aging then (age_out_neighbours now (src packet) (neighbors_map_ s)).1
                         else neighbors_map_ s) !! src packet)))
        (src_if_index packet) now]>
      (if aging then (age_out_neighbours now (src packet) (neighbors_map_ s)).1
       else neighbors_map_ s)
  ∧ removed_aged_neighbors_timeout_ s' =
      (if aging then now + Z.max (age_out_neighbours now (src packet) (neighbors_map_ s)).2
                             REMOVE_AGED_NEIGHBORS_CYCLES_SEC * one_second
       else removed_aged_neighbors_timeout_ s).
Proof.
  intros He Hs now aging s'. subst s'. unfold update_neighbours. rewrite He, Hs.
  cbn [negb Z.eqb Pos.eqb]. change (ETH_P_1905_1 =? ETH_P_1905_1) with true.
  change (IF_TYPE_NET =? IF_TYPE_NET) with true. cbn [negb]. st_run. fold now.
  change (removed_aged_neighbors_timeout_ (s <| clock_reads ::= S |>) <? now) with aging.
  destruct aging.
  - change (neighbors_map_ (s <| clock_reads ::= S |>)) with (neighbors_map_ s).
    destruct (age_out_neighbours now (src packet) (neighbors_map_ s)) as [m o] eqn:E.
    cbn -[one_second]. by destruct (m !! src packet).
  - cbn -[one_second]. by destruct (neighbors_map_ s !! src packet).
Qed.

(** ** Theorems: neighbours *)

(** neighbour aging. After a 1905 packet from the network its sender is a
    neighbour seen now; when the aging runs, exactly the other neighbours not
    seen for more than 70 seconds are gone, and the next run is due between
    1 and 70 seconds later, no later than the next neighbour expires (or one
    second, if that is sooner). *)
Theorem update_neighbours_correct {B} e (packet : Packet) (s : Transport B) :
  ether_type packet = ETH_P_1905_1 → src_if_type packet = IF_TYPE_NET →
  let now := clock e (clock_reads s) in
  let s' := (update_neighbours e packet s).2 in
  (∃ n, neighbors_map_ s' !! src packet = Some n
        ∧ last_seen n = now ∧ if_index n = src_if_index packet)
  ∧ (removed_aged_neighbors_timeout_ s < now →
     (∀ k n, k ≠ src packet →
        (neighbors_map_ s' !! k = Some n ↔
         neighbors_map_ s !! k = Some n ∧ neighbour_age now n ≤ kMaximumNeighbourAge))
     ∧ now + one_second ≤ removed_aged_neighbors_timeout_ s' ≤ now + 70 * one_second
     ∧ ∀ k n, k ≠ src packet → neighbors_map_ s' !! k = Some n →
         removed_aged_neighbors_timeout_ s' ≤
           now + Z.max 1 (kMaximumNeighbourAge - neighbour_age now n) * one_second)
  ∧ (now ≤ removed_aged_neighbors_timeout_ s →
     ∀ k, k ≠ src packet → neighbors_map_ s' !! k = neighbors_map_ s !! k).
Proof.
  intros He Hs now s'. destruct (update_neighbours_run e packet s He Hs) as [Hm Ht].
  fold now s' in Hm, Ht. rewrite Hm, Ht. split; [eexists; by rewrite lookup_insert_eq|]. split.
  - intros Hlt. rewrite (proj2 (Z.ltb_lt _ _)) by done.
    destruct (age_out_oldest_fold now (src packet) (map_to_list (neighbors_map_ s))
                (neighbors_map_ s) kMaximumNeighbourAge) as [Ho Hk]; [done|].
    fold (age_out_neighbours now (src packet) (neighbors_map_ s)) in Ho, Hk.
    unfold one_second, kMaximumNeighbourAge, REMOVE_AGED_NEIGHBORS_CYCLES_SEC in *.
    split; [|split; [lia|]].
    + intros k n Hne. rewrite lookup_insert_ne, age_out_lookup by done. naive_solver.
    + intros k n Hne. rewrite lookup_insert_ne, age_out_lookup by done.
      intros [Hl [?|Ha]]; [done|].
      specialize (Hk k n (proj2 (elem_of_map_to_list _ _ _) Hl) Hne Ha). lia.
  - intros Hge k Hne. rewrite (proj2 (Z.ltb_ge _ _)) by done. by rewrite lookup_insert_ne.
Qed.

(** ** Lemmas: de-duplication *)

(** A packet that may arrive twice, as multicast and as unicast. *)
Definition has_twin (packet : Packet) : bool :=
  (src_if_type packet =? IF_TYPE_NET) && is_reliable_multicast packet.

(** The keys under which the method looks for a packet, and the one under
    which it records a new packet. *)
Definition lookup_keys (al : sMacAddr) (packet : Packet) : list DeDuplicationKey :=
  dedup_key packet ::
    (if has_twin packet then [swap_destination al (dedup_key packet)] else []).
Definition stored_key (al : sMacAddr) (packet : Packet) : DeDuplicationKey :=
  if has_twin packet then swap_destination al (dedup_key packet) else dedup_key packet.

(** The map after its aging. *)
Definition dedup_aged (now : Z) (m : gmap DeDuplicationKey Z) : gmap DeDuplicationKey Z :=
  filter (λ kv, ¬ (kv.2 + kMaximumDeDuplicationAge < now)) m.

Lemma dedup_aged_lookup now m k t :
  dedup_aged now m !! k = Some t ↔ m !! k = Some t ∧ now ≤ t + kMaximumDeDuplicationAge.
Proof.
  unfold dedup_aged. rewrite map_lookup_filter_Some. cbn. by rewrite Z.nlt_ge.
Qed.

(** The three outcomes on a 1905 packet: a known key is refreshed, a full map
    drops the packet, a new key is recorded. *)
Lemma de_duplicate_cases {B} e packet (s : Transport B) :
  ether_type packet = ETH_P_1905_1 →
  let now := clock e (clock_reads s) in
  let m := dedup_aged now (de_duplication_map_ s) in
  let al := al_mac_addr_ s in
  let '(accepted, s') := de_duplicate_packet e packet s in
  al_mac_addr_ s' = al ∧ clock_reads s' = S (clock_reads s) ∧
  ( (∃ k, accepted = false ∧ k ∈ lookup_keys al packet ∧ is_Some (m !! k)
          ∧ de_duplication_map_ s' = <[k := now]> m)
  ∨ (accepted = false ∧ (∀ k, k ∈ lookup_keys al packet → m !! k = None)
     ∧ kMaximumDeDuplicationThreads ≤ Z.of_nat (size m) ∧ de_duplication_map_ s' = m)
  ∨ (accepted = true ∧ (∀ k, k ∈ lookup_keys al packet → m !! k = None)
     ∧ Z.of_nat (size m) < kMaximumDeDuplicationThreads
     ∧ de_duplication_map_ s' = <[stored_key al packet := now]> m) ).
Proof.
  intros He now m al. unfold de_duplicate_packet. rewrite He, Z.eqb_refl. cbn [negb].
  st_run. fold now.
  set (s1 := set_field de_duplication_map_ _ _).
  change (de_duplication_map_ s1) with m. change (al_mac_addr_ s1) with al.
  unfold lookup_keys, stored_key. fold (has_twin packet).
  rewrite <- (andb_assoc _ (src_if_type packet =? IF_TYPE_NET)). fold (has_twin packet).
  set (k1 := dedup_key packet). set (k2 := swap_destination al k1).
  destruct (decide (is_Some (m !! k1))) as [H1|H1].
  { rewrite (bool_decide_true (is_Some (m !! k1))) by done. cbn [negb andb].
    rewrite (bool_decide_true (is_Some (m !! k1))) by done. st_run.
    split; [done|]. split; [done|]. left. exists k1. split; [done|]. split; [set_solver|].
    split; [done|]. done. }
  rewrite (bool_decide_false (is_Some (m !! k1))) by done. cbn [negb andb].
  apply eq_None_not_Some in H1.
  set (k := if has_twin packet then k2 else k1).
  destruct (decide (is_Some (m !! k))) as [H2|H2].
  { rewrite (bool_decide_true (is_Some (m !! k))) by done. st_run.
    split; [done|]. split; [done|]. left. exists k. split; [done|]. split; [|done].
    subst k. destruct (has_twin packet); set_solver. }
  rewrite (bool_decide_false (is_Some (m !! k))) by done.
  apply eq_None_not_Some in H2.
  assert (∀ k', k' ∈ k1 :: (if has_twin packet then [k2] else []) → m !! k' = None) as Hnone.
  { subst k. intros k'. destruct (has_twin packet); set_solver. }
  destruct (Z.leb_spec kMaximumDeDuplicationThreads (Z.of_nat (size m))); st_run;
    (split; [done|]; split; [done|]; right); [left|right]; auto.
Qed.

Lemma stored_key_looked_up al p : stored_key al p ∈ lookup_keys al p.
Proof. unfold stored_key, lookup_keys. destruct (has_twin p); set_solver. Qed.

(** A sequence of packets given to [de_duplicate_packet]. *)
Fixpoint de_duplicate_all {B} (e : Env) (ps : list Packet) (s : Transport B) : Transport B :=
  match ps with
  | [] => s
  | p :: ps' => de_duplicate_all e ps' (de_duplicate_packet e p s).2
  end.

(** [p'] carries the same message fragment as [p]: same source, type, id and
    fragment, and either the same destination and kind of origin, or one of
    the two destinations of a reliable multicast from the network. *)
Definition same_message (al : sMacAddr) (p p' : Packet) : Prop :=
  src p' = src p ∧ messageType (payload p') = messageType (payload p)
  ∧ messageId (payload p') = messageId (payload p)
  ∧ fragmentId (payload p') = fragmentId (payload p)
  ∧ ( (dst p' = dst p ∧ src_if_type p' = src_if_type p)
    ∨ (has_twin p = true ∧ src_if_type p' = IF_TYPE_NET
       ∧ ((dst p = ieee1905_multicast_addr ∧ dst p' = al)
          ∨ (dst p = al ∧ dst p' = ieee1905_multicast_addr))) ).

Lemma same_message_key al p p' : length al = ETH_ALEN → same_message al p p' →
  stored_key al p ∈ lookup_keys al p'.
Proof.
  intros Hal (Hs & Ht & Hi & Hf & Hd).
  assert (is_reliable_multicast p' = is_reliable_multicast p) as Hr.
  { unfold is_reliable_multicast. by rewrite Ht. }
  destruct Hd as [[Hd Ho]|(Htw & Ho & Hd)].
  - assert (dedup_key p' = dedup_key p) as Hk by (unfold dedup_key; congruence).
    assert (has_twin p' = has_twin p) as Htw by (unfold has_twin; congruence).
    unfold stored_key, lookup_keys. rewrite Hk, Htw. destruct (has_twin p); set_solver.
  - unfold stored_key, lookup_keys. rewrite Htw.
    assert (swap_destination al (dedup_key p) = dedup_key p') as ->; [|set_solver].
    unfold swap_destination, dedup_key. cbn [ddk_src ddk_dst ddk_messageType ddk_messageId
      ddk_fragmentId]. rewrite Hs, Ht, Hi, Hf. f_equal. unfold ETHER_IS_SAME.
    destruct Hd as [[-> ->]|[-> ->]].
    + case_bool_decide as Heq.
      * rewrite take_ge in Heq by (unfold ETH_ALEN in *; lia). symmetry. exact Heq.
      * by rewrite bool_decide_true.
    + by rewrite bool_decide_true.
Qed.

(** A key recorded at [t1] or later stays known while the clock is within the
    de-duplication age of [t1]. *)
Lemma de_duplicate_keeps {B} e p (s : Transport B) k t t1 :
  t1 ≤ clock e (clock_reads s) ≤ t1 + kMaximumDeDuplicationAge →
  de_duplication_map_ s !! k = Some t → t1 ≤ t →
  ∃ t', de_duplication_map_ (de_duplicate_packet e p s).2 !! k = Some t' ∧ t1 ≤ t'.
Proof.
  intros Hc Hk Ht. destruct (decide (ether_type p = ETH_P_1905_1)) as [He|He].
  - pose proof (de_duplicate_cases e p s He) as Hcases. cbn zeta in Hcases.
    destruct (de_duplicate_packet e p s) as [a s']. cbn [snd].
    destruct Hcases as (_ & _ & Hcases).
    set (m := dedup_aged _ _) in *.
    assert (m !! k = Some t) as Hm by (apply dedup_aged_lookup; split; [done|lia]).
    destruct Hcases as [(k' & _ & _ & _ & ->)|[(_ & _ & _ & ->)|(_ & _ & _ & ->)]];
      rewrite ?lookup_insert; repeat case_decide; eauto with lia.
  - unfold de_duplicate_packet. rewrite (proj2 (Z.eqb_neq _ _) He). cbn. eauto.
Qed.

(** What the method leaves alone, and that it only moves the clock on. *)
Lemma de_duplicate_frame {B} e p (s : Transport B) :
  al_mac_addr_ (de_duplicate_packet e p s).2 = al_mac_addr_ s
  ∧ (clock_reads s ≤ clock_reads (de_duplicate_packet e p s).2)%nat.
Proof.
  destruct (decide (ether_type p = ETH_P_1905_1)) as [He|He].
  - pose proof (de_duplicate_cases e p s He) as H. cbn zeta in H.
    destruct (de_duplicate_packet e p s) as [a s']. destruct H as (? & ? & _). cbn. auto with lia.
  - unfold de_duplicate_packet. by rewrite (proj2 (Z.eqb_neq _ _) He).
Qed.

Lemma de_duplicate_all_frame {B} e ps : ∀ s : Transport B,
  al_mac_addr_ (de_duplicate_all e ps s) = al_mac_addr_ s
  ∧ (clock_reads s ≤ clock_reads (de_duplicate_all e ps s))%nat.
Proof.
  induction ps as [|p ps IH]; intros s; cbn [de_duplicate_all]; [done|].
  destruct (IH (de_duplicate_packet e p s).2), (de_duplicate_frame e p s).
  split; [congruence|lia].
Qed.

(** The clock readings from [n] on are within the age of [t1]. *)
Definition clock_within (e : Env) (n : nat) (t1 : Z) : Prop :=
  ∀ i, (n ≤ i)%nat → t1 ≤ clock e i ≤ t1 + kMaximumDeDuplicationAge.

Lemma de_duplicate_all_keeps {B} e ps k t1 : ∀ (s : Transport B) t,
  clock_within e (clock_reads s) t1 → de_duplication_map_ s !! k = Some t → t1 ≤ t →
  ∃ t', de_duplication_map_ (de_duplicate_all e ps s) !! k = Some t' ∧ t1 ≤ t'.
Proof.
  induction ps as [|p ps IH]; intros s t Hc Hk Ht; cbn [de_duplicate_all]; [eauto|].
  destruct (de_duplicate_keeps e p s k t t1) as (t' & Hk' & Ht'); [by apply Hc|done..|].
  eapply IH; [|done..]. intros i Hi. apply Hc. destruct (de_duplicate_frame e p s). lia.
Qed.

(** Acceptance records the key. *)
Lemma de_duplicate_records {B} e p (s : Transport B) : ether_type p = ETH_P_1905_1 →
  (de_duplicate_packet e p s).1 = true →
  de_duplication_map_ (de_duplicate_packet e p s).2 !! stored_key (al_mac_addr_ s) p
  = Some (clock e (clock_reads s)).
Proof.
  intros He Hacc. pose proof (de_duplicate_cases e p s He) as H. cbn zeta in H.
  destruct (de_duplicate_packet e p s) as [a s']. cbn [fst snd] in *. subst a.
  destruct H as (_ & _ & [(?&?&_)|[(?&_)|(_&_&_& ->)]]); [done..|]. by rewrite lookup_insert_eq.
Qed.

(** A recent entry under a key of the packet drops it. *)
Lemma de_duplicate_drops {B} e p (s : Transport B) k t : ether_type p = ETH_P_1905_1 →
  k ∈ lookup_keys (al_mac_addr_ s) p → de_duplication_map_ s !! k = Some t →
  clock e (clock_reads s) ≤ t + kMaximumDeDuplicationAge → (de_duplicate_packet e p s).1 = false.
Proof.
  intros He Hin Hk Ht. pose proof (de_duplicate_cases e p s He) as H. cbn zeta in H.
  destruct (de_duplicate_packet e p s) as [a s']. cbn [fst].
  destruct H as (_ & _ & [(?&->&_)|[(->&_)|(_&Hnone&_)]]); [done..|exfalso].
  specialize (Hnone k Hin). by rewrite (proj2 (dedup_aged_lookup _ _ _ t)) in Hnone.
Qed.

(** ** Theorems: de-duplication *)

(** C6: at most one acceptance. Once a 1905 packet was accepted, a copy of it
    (and, for a reliable multicast, its twin with the other destination) that
    arrives within the de-duplication age is dropped, whatever packets were
    processed in between. *)
Theorem de_duplicate_at_most_once {B} e p p' ps (s : Transport B) :
  ether_type p = ETH_P_1905_1 → ether_type p' = ETH_P_1905_1 →
  length (al_mac_addr_ s) = ETH_ALEN → same_message (al_mac_addr_ s) p p' →
  clock_within e (clock_reads s) (clock e (clock_reads s)) →
  (de_duplicate_packet e p s).1 = true →
  (de_duplicate_packet e p' (de_duplicate_all e ps (de_duplicate_packet e p s).2)).1 = false.
Proof.
  intros He He' Hal Hsame Hclock Hacc. set (t1 := clock e (clock_reads s)) in *.
  pose proof (de_duplicate_records e p s He Hacc) as Hk. fold t1 in Hk.
  destruct (de_duplicate_frame e p s) as [Hal1 Hr1].
  set (s1 := (de_duplicate_packet e p s).2) in *.
  destruct (de_duplicate_all_frame e ps s1) as [Hal2 Hr2].
  destruct (de_duplicate_all_keeps e ps (stored_key (al_mac_addr_ s) p) t1 s1 t1) as (t' & Hk' & Ht'); [|done..|].
  { intros i Hi. apply Hclock. lia. }
  eapply de_duplicate_drops; [done| |exact Hk'|].
  - rewrite Hal2, Hal1. by apply same_message_key.
  - specialize (Hclock (clock_reads (de_duplicate_all e ps s1))). lia.
Qed.

(** C7: a packet with a new key is accepted unless the map is full: the method
    returns [true] iff neither of the packet's keys was recorded within the
    de-duplication age and fewer than 1024 recent keys are tracked. *)
Theorem de_duplicate_accepts_iff {B} e p (s : Transport B) :
  ether_type p = ETH_P_1905_1 →
  let now := clock e (clock_reads s) in
  (de_duplicate_packet e p s).1 = true ↔
    (∀ k t, k ∈ lookup_keys (al_mac_addr_ s) p → de_duplication_map_ s !! k = Some t →
            t + kMaximumDeDuplicationAge < now)
    ∧ Z.of_nat (size (dedup_aged now (de_duplication_map_ s))) < kMaximumDeDuplicationThreads.
Proof.
  intros He now. pose proof (de_duplicate_cases e p s He) as H. cbn zeta in H.
  fold now in H. set (m := dedup_aged now _) in *.
  assert (∀ k, m !! k = None ↔ ∀ t, de_duplication_map_ s !! k = Some t →
                 t + kMaximumDeDuplicationAge < now) as Hnone.
  { intros k. rewrite eq_None_not_Some. unfold is_Some. unfold m.
    setoid_rewrite dedup_aged_lookup. split.
    - intros Hn t Hk. apply Z.nle_gt. intros Hle. apply Hn. eauto.
    - intros Hn (t & Hk & Ht). specialize (Hn t Hk). lia. }
  destruct (de_duplicate_packet e p s) as [a s']. cbn [fst].
  destruct H as (_ & _ & [(k&->&Hin&Hk&_)|[(->&_&Hfull&_)|(->&Hn&Hsz&_)]]).
  - split; [done|]. intros [Hold _]. destruct Hk as [t Hk].
    apply dedup_aged_lookup in Hk as [Hk Ht]. specialize (Hold k t Hin Hk). lia.
  - split; [done|]. lia.
  - split; [|done]. intros _. split; [|done]. intros k t Hin Hk. by apply (Hnone k); [apply Hn|].
Qed.

(** The de-duplication map never outgrows its limit. *)
Lemma de_duplicate_bound {B} e p (s : Transport B) :
  Z.of_nat (size (de_duplication_map_ s)) ≤ kMaximumDeDuplicationThreads →
  Z.of_nat (size (de_duplication_map_ (de_duplicate_packet e p s).2))
    ≤ kMaximumDeDuplicationThreads.
Proof.
  intros Hs. destruct (decide (ether_type p = ETH_P_1905_1)) as [He|He];
    [|unfold de_duplicate_packet; by rewrite (proj2 (Z.eqb_neq _ _) He)].
  pose proof (de_duplicate_cases e p s He) as H. cbn zeta in H.
  destruct (de_duplicate_packet e p s) as [a s']. cbn [snd].
  set (m := dedup_aged _ _) in *.
  assert (size m ≤ size (de_duplication_map_ s))%nat as Hm.
  { apply map_subseteq_size, map_filter_subseteq. }
  destruct H as (_ & _ & [(k&_&_&[t Hk]& ->)|[(_&_&_& ->)|(_&Hn&Hsz& ->)]]).
  - rewrite map_size_insert_Some by eauto. lia.
  - lia.
  - rewrite map_size_insert_None by auto using stored_key_looked_up. lia.
Qed.
