(* ===== verification/Interfaces.v ===== *)
(** * Network interfaces of the transport

    [ieee1905_transport_network.cpp]: the table of tracked interfaces, their
    raw sockets, the reaction to interface and bridge events, and the frame
    written for an outgoing packet. *)

From S2P Require Import Prelude Wire SocketFilter Messages Broker TransportState.

(** [build_tci]: PCP, DEI and VLAN id of an 802.1Q tag. *)
Definition build_tci (vid dei pcp : Z) : Z :=
  u16 (Z.lor (Z.lor (Z.shiftl (Z.land pcp 0x7) 13) (Z.shiftl (Z.land dei 0x1) 12))
             (Z.land vid 0x0FFF)).

(** The Ethernet header of an outgoing packet: tagged with the primary VLAN
    for multicast packets under traffic separation. *)
Definition ether_header {B} (s : Transport B) (packet : Packet) : list Z :=
  if ETHER_IS_MULTICAST (dst packet) && traffic_separation_enabled_ s then
    dst packet ++ src packet ++ be16_bytes ieee_8021q_protocol_id
    ++ be16_bytes (build_tci (primary_vlan_id_ s) 0 0) ++ be16_bytes (ether_type packet)
  else dst packet ++ src packet ++ be16_bytes (ether_type packet).

(** The event loop's [register_handlers] refuses a known descriptor, and
    fails when [epoll_ctl] does; [remove_handlers] forgets the descriptor. *)
Definition register_handlers {B} (e : Env) (f : Z) : transportM B bool := λ s,
  if (f =? -1) || bool_decide (f ∈ handlers s) then (false, s)
  else if negb (epoll_ctl_add e f) then (false, s)
  else (true, s <| handlers ::= union {[f]} |>).
Definition remove_handlers {B} (f : Z) : transportM B bool := λ s,
  if (f =? -1) || bool_decide (f ∉ handlers s) then (false, s)
  else (true, s <| handlers ::= (.∖ {[f]}) |>).

(** [close(fd)]: the kernel also drops the socket's filter. *)
Definition close_fd {B} (f : Z) : transportM B unit :=
  modify (λ s, s <| open_fds ::= (.∖ {[f]}) |> <| filters ::= delete f |>).

Section Methods.
Context {B : Type} (e : Env).
Local Notation M := (transportM B).

(** ** Sending *)

Definition send_packet_to_network_interface (index : Z) (packet : Packet) : M bool :=
  let name := if_index2name e index in
  if bool_decide (name = EmptyString) then mret false
  else
    iface ← gets (λ s, network_interfaces_ s !! name);
    match iface with
    | None => mret false
    | Some i =>
        match fd i with
        | None => mret false
        | Some f =>
            count OUTGOING_NETWORK_PACKETS ;;
            s ← gets id;
            let frame := ether_header s packet ++ payload packet in
            let n := writev e (wire s) f frame in
            modify (λ s, if n <? 0 then s
                         else s <| wire ::= λ w, w ++ [(f, take (Z.to_nat n) frame)] |>) ;;
            mret (n =? Z.of_nat (length frame))
        end
    end.

(** ** Sockets *)

(** [attach_interface_socket_filter]: promiscuous mode (call 2), an empty
    filter while the receive queue is drained (call 3), the filter (call 4). *)
Definition zero_bytecode : list sock_filter := [BPF 0x6 0 0 0].

Definition attach_interface_socket_filter (i : NetworkInterface) : M bool :=
  match fd i with
  | None => mret false
  | Some f =>
      if (negb (management_mode_not_multiap e) && negb (setsockopt_call e f 2))%bool
      then mret false
      else if negb (setsockopt_call e f 3) then mret false
      else
        modify (λ s, s <| filters ::= <[f := zero_bytecode]> |>) ;;
        if negb (setsockopt_call e f 4) then mret false
        else
          modify (λ s, s <| filters ::= <[f := socket_filter (al_mac_addr_ s) (addr i)]> |>) ;;
          mret true
  end.

(** [open_interface_socket]; the interface comes back with its descriptor. *)
Definition open_interface_socket (i : NetworkInterface) : M (bool * NetworkInterface) :=
  let i := i <| fd := None |> in
  sockfd ← gets (λ s, socket_call e (open_fds s));
  if sockfd <? 0 then mret (false, i)
  else
    modify (λ s, s <| open_fds ::= union {[sockfd]} |>) ;;
    if negb (setsockopt_call e sockfd 0) then close_fd sockfd ;; mret (false, i)
    else if negb (setsockopt_call e sockfd 1) then close_fd sockfd ;; mret (false, i)
    else if negb (bind_call e sockfd (ifname i)) then close_fd sockfd ;; mret (false, i)
    else
      let i := i <| fd := Some sockfd |> in
      attach_interface_socket_filter i ;; mret (true, i).

Definition activate_interface (i : NetworkInterface) : M NetworkInterface :=
  match fd i with
  | Some _ => mret i
  | None =>
      r ← open_interface_socket i;
      if (r : bool * NetworkInterface).1 then
        match is_bridge r.2, fd r.2 with
        | false, Some f => register_handlers e f ;; mret r.2
        | _, _ => mret r.2
        end
      else mret r.2
  end.

Definition deactivate_interface (i : NetworkInterface) (remove : bool) : M NetworkInterface :=
  match fd i with
  | None => mret i
  | Some f =>
      (if (negb (is_bridge i) && remove)%bool then remove_handlers f ;; mret tt else mret tt) ;;
      close_fd f ;; mret (i <| fd := None |>)
  end.

(** [get_interface_mac_addr]: needs a socket, the name and the ioctl. *)
Definition get_interface_mac_addr (index : Z) : M (option sMacAddr) := λ s,
  (if socket_call e (open_fds s) =? -1 then None
   else name ← if_indextoname e index; ioctl_hwaddr e name, s).

(** ** The table *)

Definition remove_network_interface (name : string) : M bool :=
  iface ← gets (λ s, network_interfaces_ s !! name);
  match iface with
  | None => mret false
  | Some i =>
      deactivate_interface i true ;;
      modify (λ s, s <| network_interfaces_ ::= delete name |>) ;;
      mret true
  end.

Definition push_pending (name : string) : M unit :=
  modify (λ s, s <| pending_network_interfaces_ ::= λ l, l ++ [name] |>).

Definition update_network_interface (bridge : string) (name : string)
    (iface_added is_bridge_ : bool) : M bool :=
  if iface_added then
    let index := if_nametoindex e name in
    if index =? 0 then
      remove_network_interface name ;; push_pending name ;; mret false
    else
      old ← gets (λ s, default NetworkInterface_default (network_interfaces_ s !! name));
      let i := mkNetworkInterface (fd old) (addr old) name bridge is_bridge_ in
      modify (λ s, s <| network_interfaces_ ::= <[name := i]> |>) ;;
      mac ← get_interface_mac_addr index;
      match mac with
      | None => remove_network_interface name ;; push_pending name ;; mret false
      | Some a =>
          let i := mkNetworkInterface (fd i) a name bridge is_bridge_ in
          modify (λ s, s <| network_interfaces_ ::= <[name := i]> |>) ;;
          match interface_read_state e name with
          | None => remove_network_interface name ;; mret false
          | Some false => mret true
          | Some true =>
              i' ← activate_interface i;
              modify (λ s, s <| network_interfaces_ ::= <[name := i']> |>) ;;
              mret true
          end
      end
  else remove_network_interface name ;; mret true.

(** The loop body for a removed interface. *)
Definition update_removed (entry : string * NetworkInterface) : M unit :=
  let name := ifname entry.2 in
  iface ← gets (λ s, network_interfaces_ s !! name);
  match iface with
  | None => mret tt
  | Some i =>
      (match fd i with
       | None => mret tt
       | Some f =>
           remove_handlers f ;;
           modify (λ s, s <| network_interfaces_ ::= <[name := i <| fd := None |>]> |>)
       end) ;;
      update_network_interface (bridge_name i) (ifname i) false false ;; mret tt
  end.

Definition update_network_interfaces
    (added_updated removed : gmap string NetworkInterface) : M unit :=
  for_each update_removed (in_key_order removed) ;;
  for_each (λ entry : string * NetworkInterface,
              update_network_interface (bridge_name entry.2) (ifname entry.2) true
                (is_bridge entry.2) ;; mret tt)
    (in_key_order added_updated).

(** ** Events *)

Fixpoint erase_first (name : string) (l : list string) : list string :=
  match l with
  | [] => []
  | x :: l' => if decide (x = name) then l' else x :: erase_first name l'
  end.

Definition handle_interface_state_change (name : string) (is_active : bool) : M unit :=
  iface ← gets (λ s, network_interfaces_ s !! name);
  match iface with
  | None =>
      pend ← gets pending_network_interfaces_;
      if bool_decide (pend = []) then mret tt
      else if (bool_decide (name ∈ pend) && is_active)%bool then
        bridge ← gets bridge_name_;
        ok ← update_network_interface bridge name true false;
        if (ok : bool) then
          modify (λ s, s <| pending_network_interfaces_ ::= erase_first name |>)
        else mret tt
      else mret tt
  | Some i =>
      i' ← (if is_active then activate_interface i else deactivate_interface i true);
      modify (λ s, s <| network_interfaces_ ::= <[name := i']> |>)
  end.

Definition handle_bridge_state_change (bridge name : string) (iface_added : bool) : M unit :=
  update_network_interface bridge name iface_added false ;; mret tt.

(** The [on_error] handler of an interface's socket. *)
Definition handle_interface_error (name : string) : M unit :=
  iface ← gets (λ s, network_interfaces_ s !! name);
  match iface with
  | None => mret tt
  | Some i =>
      i' ← deactivate_interface i false;
      modify (λ s, s <| network_interfaces_ ::= <[name := i']> |>)
  end.

(** ** Configuration *)

Definition set_al_mac_addr (a : sMacAddr) : M unit :=
  modify (λ s, s <| al_mac_addr_ := take ETH_ALEN a |>) ;;
  ifaces ← gets (λ s, in_key_order (network_interfaces_ s));
  for_each (λ entry : string * NetworkInterface,
              match fd entry.2 with
              | Some _ => attach_interface_socket_filter entry.2 ;; mret tt
              | None => mret tt
              end) ifaces.

Definition set_primary_vlan_id (vlan_id : Z) (add : bool) : M unit :=
  if add then
    if vlan_id =? 0 then mret tt
    else modify (λ s, s <| traffic_separation_enabled_ := true |> <| primary_vlan_id_ := vlan_id |>)
  else modify (λ s, s <| traffic_separation_enabled_ := false |> <| primary_vlan_id_ := 0 |>).

End Methods.

(** ** The descriptor invariant *)

(** Keys are the interfaces' own names, the descriptor of an active interface
    is open, and no two interfaces share one. *)
Record table_inv (ni : gmap string NetworkInterface) (fds : gset Z) : Prop := {
  ti_name name i : ni !! name = Some i → ifname i = name;
  ti_open name i f : ni !! name = Some i → fd i = Some f → f ∈ fds;
  ti_inj n1 n2 i1 i2 f : ni !! n1 = Some i1 → ni !! n2 = Some i2 →
    fd i1 = Some f → fd i2 = Some f → n1 = n2;
}.

Definition iface_inv {B} (s : Transport B) : Prop :=
  table_inv (network_interfaces_ s) (open_fds s).

(** The kernel never hands out a descriptor that is open. *)
Definition fresh_sockets (e : Env) : Prop := ∀ fds : gset Z, socket_call e fds ∉ fds.

(** What happens to the descriptors when the entry of one name changes: its
    new descriptor is the old one or a fresh one, and only the old one may
    have been closed. *)
Lemma table_inv_update ni fds name i i' fds' :
  table_inv ni fds → ifname i' = name →
  (ni !! name = Some i ∨ (ni !! name = None ∧ fd i = None)) →
  (∀ f, f ∈ fds → fd i ≠ Some f → f ∈ fds') →
  match fd i' with
  | None => True
  | Some f => f ∈ fds' ∧ (fd i = Some f ∨ f ∉ fds)
  end →
  table_inv (<[name := i']> ni) fds'.
Proof.
  intros [Hn Ho Hi] Hname Hold Hkeep Hnew.
  assert (∀ n j f, ni !! n = Some j → n ≠ name → fd j = Some f → fd i ≠ Some f) as Hother.
  { intros n j f Hj Hne Hf Hif. destruct Hold as [Hold|[_ Hold]]; [|congruence].
    by apply Hne, (Hi n name j i f). }
  assert (∀ n j f, ni !! n = Some j → n ≠ name → fd j = Some f → fd i' = Some f → False) as Hnew'.
  { intros n j f Hj Hne Hf Hif. rewrite Hif in Hnew. destruct Hnew as [_ [?|Hfr]].
    - by eapply Hother. - by apply Hfr, (Ho n j f). }
  split.
  - intros n j. rewrite lookup_insert. case_decide; [naive_solver|eauto].
  - intros n j f. rewrite lookup_insert. case_decide.
    + intros [= <-] Hf. rewrite Hf in Hnew. tauto.
    + intros Hj Hf. apply Hkeep; [eauto|]. by eapply Hother.
  - intros n1 n2 i1 i2 f. rewrite !lookup_insert.
    repeat case_decide; intros; simplify_eq; try done; [exfalso; eauto..|eauto].
Qed.

Lemma table_inv_delete ni fds name i fds' :
  table_inv ni fds → ni !! name = Some i →
  (∀ f, f ∈ fds → fd i ≠ Some f → f ∈ fds') → table_inv (delete name ni) fds'.
Proof.
  intros [Hn Ho Hi] Hold Hkeep. split.
  - intros n j [? ?]%lookup_delete_Some. eauto.
  - intros n j f [Hne Hj]%lookup_delete_Some Hf. apply Hkeep; [eauto|].
    intros Hif. by apply Hne, (Hi name n i j f).
  - intros n1 n2 i1 i2 f [? ?]%lookup_delete_Some [? ?]%lookup_delete_Some. eauto.
Qed.

(** ** Lemmas: what the methods do to the table and the descriptors *)

Section Frame.
Context {B : Type} (e : Env).
Implicit Types (s : Transport B) (i : NetworkInterface).

Definition same_table s s' : Prop :=
  network_interfaces_ s' = network_interfaces_ s ∧ open_fds s' = open_fds s.

Lemma same_table_inv s s' : same_table s s' → iface_inv s → iface_inv s'.
Proof. unfold iface_inv. by intros [-> ->]. Qed.

Lemma same_table_trans s1 s2 s3 : same_table s1 s2 → same_table s2 s3 → same_table s1 s3.
Proof. unfold same_table. naive_solver congruence. Qed.

Lemma attach_same i s : same_table s (attach_interface_socket_filter e i s).2.
Proof. unfold attach_interface_socket_filter. repeat case_match; st_run; done. Qed.

Lemma register_same f s : same_table s (register_handlers e f s).2.
Proof. unfold register_handlers. repeat case_match; done. Qed.
Lemma remove_handlers_same f s : same_table s (remove_handlers f s).2.
Proof. unfold remove_handlers. repeat case_match; done. Qed.

Lemma send_same index packet s :
  same_table s (send_packet_to_network_interface e index packet s).2.
Proof. unfold send_packet_to_network_interface. repeat (case_match; st_run); done. Qed.

(** Opening a socket: a fresh descriptor, or the descriptors as before. *)
Lemma open_interface_socket_spec i s : fresh_sockets e →
  let r := (open_interface_socket e i s).1 in
  let s' := (open_interface_socket e i s).2 in
  network_interfaces_ s' = network_interfaces_ s ∧ ifname r.2 = ifname i ∧
  is_bridge r.2 = is_bridge i ∧
  if r.1 then ∃ f, fd r.2 = Some f ∧ f ∉ open_fds s ∧ open_fds s' = {[f]} ∪ open_fds s
  else fd r.2 = None ∧ open_fds s' = open_fds s.
Proof.
  intros Hf. specialize (Hf (open_fds s)). unfold open_interface_socket. st_run.
  set (sockfd := socket_call e (open_fds s)) in *.
  destruct (sockfd <? 0); [done|]. st_run.
  assert (({[sockfd]} ∪ open_fds s) ∖ {[sockfd]} = open_fds s) as Hclose by set_solver.
  destruct (setsockopt_call e sockfd 0), (setsockopt_call e sockfd 1); cbn [negb];
    try (by unfold close_fd; st_run).
  change (ifname (i <| fd := None |>)) with (ifname i).
  destruct (bind_call e sockfd (ifname i)); cbn [negb]; [|by unfold close_fd; st_run].
  st_run. destruct (attach_same (i <| fd := None |> <| fd := Some sockfd |>)
                      (s <| open_fds ::= union {[sockfd]} |>)) as [-> ->].
  split; [done|]. split; [done|]. split; [done|]. by exists sockfd.
Qed.

Lemma activate_interface_spec i s : fresh_sockets e →
  let i' := (activate_interface e i s).1 in
  let s' := (activate_interface e i s).2 in
  network_interfaces_ s' = network_interfaces_ s ∧ ifname i' = ifname i ∧
  open_fds s ⊆ open_fds s' ∧
  match fd i with
  | Some f => i' = i
  | None => match fd i' with Some f => f ∈ open_fds s' ∧ f ∉ open_fds s | None => True end
  end.
Proof.
  intros Hf. unfold activate_interface. destruct (fd i) as [f|]; [done|]. st_run.
  destruct (open_interface_socket_spec i s Hf) as (Hn & Hi & Hb & Hr).
  destruct (open_interface_socket e i s) as [[ok j] s1]. cbn [fst snd] in *.
  destruct ok; [|destruct Hr as [Hj Ho]; st_run; rewrite Hj, Ho; set_solver].
  destruct Hr as (f & Hj & Hfr & Ho). rewrite Hj.
  destruct (is_bridge j); st_run; [rewrite Hj, Ho; set_solver|].
  destruct (register_same f s1) as [-> ->]. rewrite Hj, Ho. set_solver.
Qed.

Lemma deactivate_interface_spec i remove s :
  let i' := (deactivate_interface i remove s).1 in
  let s' := (deactivate_interface i remove s).2 in
  network_interfaces_ s' = network_interfaces_ s ∧ ifname i' = ifname i ∧ fd i' = None ∧
  (∀ f, f ∈ open_fds s' ↔ f ∈ open_fds s ∧ fd i ≠ Some f).
Proof.
  unfold deactivate_interface. destruct (fd i) as [f|] eqn:E; [|st_run; rewrite E; naive_solver].
  unfold close_fd. destruct (negb (is_bridge i) && remove)%bool; st_run.
  - destruct (remove_handlers_same f s) as [Hn Ho].
    split; [exact Hn|]. split; [done|]. split; [done|].
    intros f'. change (f' ∈ open_fds (remove_handlers f s).2 ∖ {[f]} ↔ f' ∈ open_fds s ∧ Some f ≠ Some f').
    rewrite Ho. set_solver.
  - split; [done|]. split; [done|]. split; [done|].
    intros f'. change (f' ∈ open_fds s ∖ {[f]} ↔ f' ∈ open_fds s ∧ Some f ≠ Some f'). set_solver.
Qed.

(** ** Preservation *)

Lemma remove_network_interface_inv name s :
  iface_inv s → iface_inv (remove_network_interface name s).2.
Proof.
  intros Hinv. unfold remove_network_interface. st_run.
  destruct (network_interfaces_ s !! name) as [i|] eqn:E; st_run; [|done].
  destruct (deactivate_interface_spec i true s) as (Hn & _ & _ & Ho).
  unfold iface_inv. set (s1 := (deactivate_interface i true s).2) in *.
  change (table_inv (delete name (network_interfaces_ s1)) (open_fds s1)). rewrite Hn.
  eapply table_inv_delete; [exact Hinv|exact E|]. intros f Hf Hne. by apply Ho.
Qed.

(** Storing an interface under its name after a step that left the table. *)
Lemma store_inv name i i' s s1 : iface_inv s → network_interfaces_ s1 = network_interfaces_ s →
  ifname i' = name →
  (network_interfaces_ s !! name = Some i ∨ (network_interfaces_ s !! name = None ∧ fd i = None)) →
  (∀ f, f ∈ open_fds s → fd i ≠ Some f → f ∈ open_fds s1) →
  match fd i' with
  | None => True
  | Some f => f ∈ open_fds s1 ∧ (fd i = Some f ∨ f ∉ open_fds s)
  end →
  iface_inv (s1 <| network_interfaces_ ::= <[name := i']> |>).
Proof.
  intros Hinv Hn Hname Hold Hkeep Hnew. unfold iface_inv.
  change (table_inv (<[name := i']> (network_interfaces_ s1)) (open_fds s1)). rewrite Hn.
  by eapply table_inv_update.
Qed.

Lemma update_network_interface_inv bridge name added br s : fresh_sockets e →
  iface_inv s → iface_inv (update_network_interface e bridge name added br s).2.
Proof.
  intros Hf Hinv. unfold update_network_interface. destruct added; [|st_run; by apply remove_network_interface_inv].
  destruct (if_nametoindex e name =? 0).
  { st_run. eapply same_table_inv; [|by apply (remove_network_interface_inv name)]. done. }
  st_run. set (old := default NetworkInterface_default (network_interfaces_ s !! name)).
  set (i0 := mkNetworkInterface (fd old) (addr old) name bridge br).
  assert (network_interfaces_ s !! name = Some old
          ∨ (network_interfaces_ s !! name = None ∧ fd old = None)) as Hold.
  { unfold old. destruct (network_interfaces_ s !! name); [by left|by right]. }
  assert (∀ f, fd old = Some f → f ∈ open_fds s) as Hopen.
  { intros f Hof. destruct Hold as [Hold|[_ ?]]; [|congruence]. by eapply (ti_open _ _ Hinv). }
  (* Any object for [name] that keeps the descriptor may be stored. *)
  assert (∀ a, iface_inv (s <| network_interfaces_ ::= <[name := mkNetworkInterface (fd old) a name bridge br]> |>)) as Hst.
  { intros a. eapply store_inv; [done..|exact Hold|by auto|]. cbn. destruct (fd old) eqn:E; [|done]. auto. }
  set (s1 := s <| network_interfaces_ ::= <[name := i0]> |>).
  change (network_interfaces_ (s <| network_interfaces_ ::= <[name := i0]> |>)) with (network_interfaces_ s1).
  destruct (get_interface_mac_addr e (if_nametoindex e name) s1) as [mac s2] eqn:E.
  assert (s2 = s1) as -> by (unfold get_interface_mac_addr in E; by simplify_eq).
  cbn [fst snd]. destruct mac as [a|]; st_run.
  2:{ eapply same_table_inv; [|by apply (remove_network_interface_inv name), Hst]. done. }
  set (i1 := mkNetworkInterface (fd i0) a name bridge br).
  set (s3 := s1 <| network_interfaces_ ::= <[name := i1]> |>).
  assert (network_interfaces_ s3 = <[name := i1]> (network_interfaces_ s)) as Hs3.
  { change (network_interfaces_ s3) with (<[name := i1]> (<[name := i0]> (network_interfaces_ s))).
    by rewrite insert_insert_eq. }
  assert (iface_inv s3) as Hinv3.
  { unfold iface_inv. rewrite Hs3. exact (Hst a). }
  destruct (interface_read_state e name) as [[]|]; st_run; [|done|].
  - destruct (activate_interface_spec i1 s3 Hf) as (Hn & Hi & Ho & Hfd).
    destruct (activate_interface e i1 s3) as [i' s4]. cbn [fst snd] in *.
    eapply (store_inv name i1); [exact Hinv3|done|done| |by auto|].
    { left. by rewrite Hs3, lookup_insert_eq. }
    assert (fd i1 = fd old) as Hio by done. rewrite Hio in Hfd |- *.
    destruct (fd old) as [g|] eqn:Eg.
    + rewrite Hfd, Hio. split; [by apply Ho, Hopen|by left].
    + destruct (fd i'); naive_solver.
  - by apply remove_network_interface_inv.
Qed.

Lemma for_each_inv {A} (P : Transport B → Prop) (body : A → transportM B unit) l s :
  (∀ x s, x ∈ l → P s → P (body x s).2) → P s → P (for_each body l s).2.
Proof.
  revert s. induction l as [|x l IH]; intros s Hb HP; [done|]. cbn [for_each]. st_run.
  apply IH; [|apply Hb; [set_solver|done]]. intros y s' Hy. apply Hb. set_solver.
Qed.

(** Changing the object of a tracked interface. *)
Lemma store_tracked_inv name i i' s s1 : iface_inv s →
  network_interfaces_ s !! name = Some i → network_interfaces_ s1 = network_interfaces_ s →
  ifname i' = ifname i → (∀ f, f ∈ open_fds s → fd i ≠ Some f → f ∈ open_fds s1) →
  match fd i' with
  | None => True
  | Some f => f ∈ open_fds s1 ∧ (fd i = Some f ∨ f ∉ open_fds s)
  end →
  iface_inv (s1 <| network_interfaces_ ::= <[name := i']> |>).
Proof.
  intros Hinv Hi Hn Hname Hkeep Hnew. eapply store_inv; eauto.
  rewrite Hname. by eapply (ti_name _ _ Hinv).
Qed.

Lemma deactivate_store_inv name i remove s : iface_inv s →
  network_interfaces_ s !! name = Some i →
  iface_inv ((deactivate_interface i remove s).2
               <| network_interfaces_ ::= <[name := (deactivate_interface i remove s).1]> |>).
Proof.
  intros Hinv Hi. destruct (deactivate_interface_spec i remove s) as (Hn & Hname & Hfd & Ho).
  eapply store_tracked_inv; [done..| |by rewrite Hfd]. intros f Hf Hne. by apply Ho.
Qed.

Lemma activate_store_inv name i s : fresh_sockets e → iface_inv s →
  network_interfaces_ s !! name = Some i →
  iface_inv ((activate_interface e i s).2
               <| network_interfaces_ ::= <[name := (activate_interface e i s).1]> |>).
Proof.
  intros Hf Hinv Hi. destruct (activate_interface_spec i s Hf) as (Hn & Hname & Ho & Hfd).
  destruct (activate_interface e i s) as [i' s1]. cbn [fst snd] in *.
  eapply store_tracked_inv; [done..|by auto|]. destruct (fd i) as [g|] eqn:Eg.
  - rewrite Hfd, Eg. split; [|by left]. apply Ho. by eapply (ti_open _ _ Hinv).
  - destruct (fd i'); naive_solver.
Qed.

Lemma handle_interface_state_change_inv name up s : fresh_sockets e → iface_inv s →
  iface_inv (handle_interface_state_change e name up s).2.
Proof.
  intros Hf Hinv. unfold handle_interface_state_change. st_run.
  destruct (network_interfaces_ s !! name) as [i|] eqn:Hi; st_run.
  - destruct up; st_run; [by apply activate_store_inv|by apply deactivate_store_inv].
  - case_bool_decide; [done|]. destruct (_ && _)%bool; [|done]. st_run.
    pose proof (update_network_interface_inv (bridge_name_ s) name true false s Hf Hinv) as Hu.
    destruct (update_network_interface _ _ _ _ _ s) as [[] s']; cbn [fst snd]; [|exact Hu].
    st_run. by eapply same_table_inv.
Qed.

Lemma handle_interface_error_inv name s : iface_inv s →
  iface_inv (handle_interface_error name s).2.
Proof.
  intros Hinv. unfold handle_interface_error. st_run.
  destruct (network_interfaces_ s !! name) as [i|] eqn:Hi; st_run; [|done].
  by apply deactivate_store_inv.
Qed.

Lemma update_removed_inv entry s : fresh_sockets e → iface_inv s →
  iface_inv (update_removed e entry s).2.
Proof.
  intros Hf Hinv. unfold update_removed. st_run.
  destruct (network_interfaces_ s !! ifname entry.2) as [i|] eqn:Hi; [|done].
  destruct (fd i) as [f|] eqn:E; st_run; apply update_network_interface_inv; [done| |done..].
  destruct (remove_handlers_same f s) as [Hn Ho].
  eapply store_tracked_inv; [exact Hinv|exact Hi|done|done| |done]. by rewrite Ho.
Qed.

Lemma update_network_interfaces_inv added removed s : fresh_sockets e → iface_inv s →
  iface_inv (update_network_interfaces e added removed s).2.
Proof.
  intros Hf Hinv. unfold update_network_interfaces. st_run.
  apply for_each_inv; [intros; st_run; by apply update_network_interface_inv|].
  apply for_each_inv; [|done]. intros. by apply update_removed_inv.
Qed.

Lemma set_al_mac_addr_inv a s : iface_inv s → iface_inv (set_al_mac_addr e a s).2.
Proof.
  intros Hinv. unfold set_al_mac_addr. st_run. apply for_each_inv; [|by eapply same_table_inv].
  intros [n i] s1 _ H1. cbn [snd]. destruct (fd i); st_run; [|done].
  eapply same_table_inv; [apply attach_same|done].
Qed.

Lemma set_primary_vlan_id_inv vid add s : iface_inv s → iface_inv (set_primary_vlan_id vid add s).2.
Proof. intros. unfold set_primary_vlan_id. destruct add, (vid =? 0); st_run; done. Qed.
End Frame.

(** ** Events of the interface table *)

Inductive iface_event :=
  | EvConfigure (added removed : gmap string NetworkInterface)
  | EvInterfaceState (name : string) (is_active : bool)
  | EvBridgeState (bridge name : string) (iface_added : bool)
  | EvSocketError (name : string)
  | EvAlMac (a : sMacAddr)
  | EvVlan (vlan_id : Z) (add : bool)
  | EvSend (index : Z) (packet : Packet).

Definition iface_step {B} (e : Env) (ev : iface_event) (s : Transport B) : Transport B :=
  match ev with
  | EvConfigure added removed => (update_network_interfaces e added removed s).2
  | EvInterfaceState name is_active => (handle_interface_state_change e name is_active s).2
  | EvBridgeState bridge name added => (handle_bridge_state_change e bridge name added s).2
  | EvSocketError name => (handle_interface_error name s).2
  | EvAlMac a => (set_al_mac_addr e a s).2
  | EvVlan vid add => (set_primary_vlan_id vid add s).2
  | EvSend index packet => (send_packet_to_network_interface e index packet s).2
  end.

(** Every event finds an environment of its own. *)
Inductive iface_reachable {B} (b : B) (now : Z) : Transport B → Prop :=
  | ir_init : iface_reachable b now (Transport_init b now)
  | ir_step s e ev : iface_reachable b now s → fresh_sockets e →
      iface_reachable b now (iface_step e ev s).

Lemma iface_step_inv {B} e ev (s : Transport B) : fresh_sockets e →
  iface_inv s → iface_inv (iface_step e ev s).
Proof.
  intros Hf Hinv. destruct ev; cbn [iface_step].
  - by apply update_network_interfaces_inv.
  - by apply handle_interface_state_change_inv.
  - unfold handle_bridge_state_change. st_run. by apply update_network_interface_inv.
  - by apply handle_interface_error_inv.
  - by apply set_al_mac_addr_inv.
  - by apply set_primary_vlan_id_inv.
  - eapply same_table_inv; [apply send_same|done].
Qed.

(** C8: In every state the interface events can reach, an interface is stored
    under its own name, the socket of an active interface is an open
    descriptor, and no two interfaces share a socket: a frame is never sent
    on a closed descriptor nor on another interface's one. *)
Theorem interfaces_own_their_sockets {B} (b : B) now s : iface_reachable b now s → iface_inv s.
Proof.
  induction 1 as [|s e ev _ IH Hf]; [|by apply iface_step_inv].
  split; cbn; intros; simplify_map_eq.
Qed.

(** Removing an active interface through a configuration request leaks
    its socket: after [update_network_interfaces] the interface is gone from
    the table, but the descriptor is still open, owned by no interface and
    no longer registered with the event loop. *)
Theorem reconfiguration_leaks_socket {B} e (s : Transport B) name i f :
  iface_inv s → network_interfaces_ s !! name = Some i → fd i = Some f → 0 ≤ f →
  let s' := (update_network_interfaces e ∅ {[name := i]} s).2 in
  network_interfaces_ s' = delete name (network_interfaces_ s)
  ∧ open_fds s' = open_fds s ∧ f ∈ open_fds s' ∧ f ∉ handlers s'.
Proof.
  intros Hinv Hi Hfd Hf. pose proof (ti_name _ _ Hinv _ _ Hi) as Hname.
  pose proof (ti_open _ _ Hinv _ _ _ Hi Hfd) as Hopen.
  unfold update_network_interfaces. rewrite in_key_order_empty, in_key_order_singleton.
  cbn [for_each]. st_run. unfold update_removed. cbn [snd]. rewrite Hname. st_run.
  rewrite Hi, Hfd. st_run.
  destruct (remove_handlers_same f s) as [Hn Ho].
  set (s1 := (remove_handlers f s).2) in *.
  assert (f ∉ handlers s1) as Hh.
  { unfold s1, remove_handlers. rewrite (proj2 (Z.eqb_neq f (-1))) by lia. cbn [orb].
    case_bool_decide; [done|]. unfold set_field, set_handlers. cbn. set_solver. }
  unfold update_network_interface. rewrite Hname. st_run. unfold remove_network_interface. st_run.
  set (s2 := s1 <| network_interfaces_ ::= <[name := i <| fd := None |>]> |>).
  assert (network_interfaces_ s2 = <[name := i <| fd := None |>]> (network_interfaces_ s1)) as Hs2 by done.
  rewrite Hs2, lookup_insert_eq. st_run. change (deactivate_interface (i <| fd := None |>) true s2)
    with (i <| fd := None |>, s2). cbn [fst snd].
  change (network_interfaces_ (s2 <| network_interfaces_ ::= delete name |>))
    with (delete name (<[name := i <| fd := None |>]> (network_interfaces_ s1))).
  rewrite delete_insert_eq, Hn. split; [done|].
  change (open_fds s1 = open_fds s ∧ f ∈ open_fds s1 ∧ f ∉ handlers s1). by rewrite Ho.
Qed.

Lemma activate_pending {B} e i (s : Transport B) :
  pending_network_interfaces_ (activate_interface e i s).2 = pending_network_interfaces_ s.
Proof.
  unfold activate_interface, open_interface_socket, attach_interface_socket_filter,
    register_handlers, close_fd.
  repeat (first [case_match; simplify_eq | progress st_run]); done.
Qed.

(** A successful addition: the interface is tracked, the pending list as it was. *)
Lemma update_network_interface_ok {B} e bridge name br a up (s : Transport B) :
  if_nametoindex e name ≠ 0 → socket_call e (open_fds s) ≠ -1 →
  if_indextoname e (if_nametoindex e name) = Some name → ioctl_hwaddr e name = Some a →
  interface_read_state e name = Some up →
  let r := update_network_interface e bridge name true br s in
  r.1 = true ∧ is_Some (network_interfaces_ r.2 !! name)
  ∧ pending_network_interfaces_ r.2 = pending_network_interfaces_ s.
Proof.
  intros H2 Hs Hin Ha Hup. unfold update_network_interface.
  rewrite (proj2 (Z.eqb_neq _ _)) by done. st_run.
  set (s1 := s <| network_interfaces_ ::= <[name := _]> |>).
  assert (get_interface_mac_addr e (if_nametoindex e name) s1 = (Some a, s1)) as ->.
  { unfold get_interface_mac_addr. change (open_fds s1) with (open_fds s).
    rewrite (proj2 (Z.eqb_neq _ _)) by done. rewrite Hin. cbn. by rewrite Ha. }
  cbn [fst snd]. st_run. rewrite Hup. set (i1 := mkNetworkInterface _ a name bridge br).
  set (s2 := s1 <| network_interfaces_ ::= <[name := i1]> |>).
  assert (network_interfaces_ s2 = <[name := i1]> (network_interfaces_ s1)) as Hs2 by done.
  destruct up; st_run; (split; [done|]).
  - set (s3 := (activate_interface e i1 s2).2). set (i3 := (activate_interface e i1 s2).1).
    change (network_interfaces_ (s3 <| network_interfaces_ ::= <[name := i3]> |>))
      with (<[name := i3]> (network_interfaces_ s3)).
    rewrite lookup_insert_eq. split; [done|]. exact (activate_pending e i1 s2).
  - rewrite Hs2, lookup_insert_eq. done.
Qed.

Lemma length_erase_first name l : name ∈ l → length l = S (length (erase_first name l)).
Proof.
  induction l as [|x l IH]; [by intros ?%not_elem_of_nil|]. cbn. case_decide; [done|].
  intros [->|Hl]%elem_of_cons; [done|]. cbn. by rewrite <- IH.
Qed.

Lemma elem_of_erase_first_app name l : name ∈ l → name ∈ erase_first name (l ++ [name]).
Proof.
  induction l as [|x l IH]; [by intros ?%not_elem_of_nil|]. cbn. case_decide; [set_solver|].
  intros [->|Hl]%elem_of_cons; [done|]. set_solver.
Qed.

(** A pending interface whose activation fails once and succeeds at the
    next "up" event is tracked and yet still pending: the failed attempt
    appends its name a second time and the success erases one occurrence. *)
Theorem retry_leaves_tracked_pending {B} e1 e2 (s : Transport B) name a up :
  network_interfaces_ s !! name = None → name ∈ pending_network_interfaces_ s →
  if_nametoindex e1 name = 0 →
  if_nametoindex e2 name ≠ 0 → socket_call e2 (open_fds s) ≠ -1 →
  if_indextoname e2 (if_nametoindex e2 name) = Some name → ioctl_hwaddr e2 name = Some a →
  interface_read_state e2 name = Some up →
  let s1 := (handle_interface_state_change e1 name true s).2 in
  let s2 := (handle_interface_state_change e2 name true s1).2 in
  is_Some (network_interfaces_ s2 !! name)
  ∧ length (pending_network_interfaces_ s2) = length (pending_network_interfaces_ s)
  ∧ name ∈ pending_network_interfaces_ s2.
Proof.
  intros Hn Hp H1 H2 Hs Hin Ha Hup s1 s2.
  assert (s1 = s <| pending_network_interfaces_ ::= λ l, l ++ [name] |>) as E1.
  { unfold s1, handle_interface_state_change. st_run. rewrite Hn. st_run.
    rewrite bool_decide_false by (by intros E; rewrite E in Hp; apply not_elem_of_nil in Hp).
    rewrite bool_decide_true by done. cbn [andb]. st_run.
    unfold update_network_interface. rewrite H1. cbn [Z.eqb]. st_run.
    unfold remove_network_interface. st_run. rewrite Hn. st_run. done. }
  clearbody s1. subst s1.
  set (s1 := s <| pending_network_interfaces_ ::= λ l, l ++ [name] |>) in *.
  assert (pending_network_interfaces_ s1 = pending_network_interfaces_ s ++ [name]) as Hps by done.
  unfold s2, handle_interface_state_change. st_run.
  change (network_interfaces_ s1) with (network_interfaces_ s). rewrite Hn. st_run. rewrite Hps.
  rewrite bool_decide_false by (destruct (pending_network_interfaces_ s); done).
  rewrite bool_decide_true by set_solver. cbn [andb]. st_run.
  destruct (update_network_interface_ok e2 (bridge_name_ s1) name false a up s1) as (Hr & Ht & Hp3);
    [done..|].
  destruct (update_network_interface e2 _ _ _ _ s1) as [r s3]. cbn [fst snd] in *. subst r. st_run.
  split; [exact Ht|].
  change (pending_network_interfaces_ (s3 <| pending_network_interfaces_ ::= erase_first name |>))
    with (erase_first name (pending_network_interfaces_ s3)).
  rewrite Hp3, Hps. split; [|by apply elem_of_erase_first_app].
  pose proof (length_erase_first name (pending_network_interfaces_ s ++ [name])) as Hl.
  rewrite length_app in Hl. cbn in Hl. rewrite Nat.add_1_r in Hl. apply (inj S).
  rewrite <- Hl; [done|set_solver].
Qed.
