(* ===== verification/Fragmentation.v ===== *)
(** * Fragmentation and reassembly of CMDUs

    [de_fragment_packet] and [fragment_and_send_packet_to_network_interface]
    of [ieee1905_transport_packet_processing.cpp]. Both walk over the TLVs of
    a CMDU; a [Tlv *] is the suffix of the payload it points to, and a read
    past the end of the payload is a fault. *)

From S2P Require Import Prelude Wire SocketFilter Messages Broker TransportState DeDuplication.
From S2P Require Import Interfaces.

(** ** Reassembly *)

(** The search for the end-of-message TLV in a fragment that is not the last:
    the number of trailing bytes to drop. *)
Inductive eom_search :=
  | EomLeft (tlvsLength : nat)
  | EomCorrupt
  | EomOutOfBounds.

Fixpoint find_eom (fuel : nat) (tlv : list Z) (tlvsLength : nat) : eom_search :=
  match fuel, tlv_type tlv with
  | S fuel, Some type =>
      if type =? 0 then EomLeft tlvsLength
      else
        match tlv_size tlv with
        | None => EomOutOfBounds
        | Some n =>
            if (tlvsLength <? n)%nat then EomCorrupt
            else
              let tlvsLength := (tlvsLength - n)%nat in
              if (tlvsLength <? sizeof_Tlv)%nat then EomLeft tlvsLength
              else find_eom fuel (drop n tlv) tlvsLength
        end
  | _, _ => EomOutOfBounds
  end.

(** One entry of the map on the arrival of a fragment, after the size check:
    whether the packet is complete, and the entry. *)
Definition add_fragment (now : Z) (ch : list Z) (val : DeFragmentationValue) :
    option (bool * DeFragmentationValue) :=
  let val := mkDeFragmentationValue now (numFragments val) (buf val) (complete val) in
  if negb (numFragments val =? fragmentId ch) then Some (false, val)
  else
    let val :=
      if fragmentId ch =? 0 then
        mkDeFragmentationValue (dfv_time val) (numFragments val)
          (SetLastFragmentIndicator true (take sizeof_Ieee1905CmduHeader ch)) (complete val)
      else val in
    let body := drop sizeof_Ieee1905CmduHeader ch in
    let fragmentTlvsLength := length body in
    if kMaximumDeFragmentionSize <=? Z.of_nat (length (buf val) + fragmentTlvsLength)
    then Some (false, val)
    else
      let add n :=
        Some (GetLastFragmentIndicator ch,
              mkDeFragmentationValue (dfv_time val) (u8 (numFragments val + 1))
                (buf val ++ take n body) (GetLastFragmentIndicator ch || complete val)) in
      if GetLastFragmentIndicator ch then add fragmentTlvsLength
      else
        match find_eom (S fragmentTlvsLength) body fragmentTlvsLength with
        | EomOutOfBounds => None
        | EomCorrupt => Some (false, val)
        | EomLeft tlvsLength => add (fragmentTlvsLength - tlvsLength)%nat
        end.

(** The cleanup loop: complete entries go, aged ones go and are counted. *)
Definition defrag_aged (now : Z) (v : DeFragmentationValue) : Prop :=
  complete v = false ∧ dfv_time v + kMaximumDeFragmentationAge < now.
#[export] Instance defrag_aged_dec now v : Decision (defrag_aged now v).
Proof. unfold defrag_aged. apply _. Defined.
Definition defrag_keep (now : Z) (v : DeFragmentationValue) : Prop :=
  complete v = false ∧ ¬ (dfv_time v + kMaximumDeFragmentationAge < now).
#[export] Instance defrag_keep_dec now v : Decision (defrag_keep now v).
Proof. unfold defrag_keep. apply _. Defined.

Definition defrag_key (packet : Packet) : DeFragmentationKey :=
  {| dfk_src := src packet; dfk_messageType := messageType (payload packet);
     dfk_messageId := messageId (payload packet) |}.

Section Methods.
Context {B : Type} (e : Env).
Local Notation M A := (faultM (Transport B) A).

Definition defrag_cleanup (now : Z) : transportM B unit :=
  modify (λ s,
    let m := de_fragmentation_map_ s in
    let aged := Z.of_nat (size (filter (λ kv, defrag_aged now kv.2) m)) in
    s <| de_fragmentation_map_ := filter (λ kv, defrag_keep now kv.2) m |>
      <| counters_ ::= λ c,
           if aged =? 0 then c
           else <[DEFRAGMENTATION_FAILURE := u64 (default 0 (c !! DEFRAGMENTATION_FAILURE) + aged)]> c |>).

(** Returns whether the CMDU is complete, with the packet as modified. *)
Definition de_fragment_packet (packet : Packet) : M (bool * Packet) :=
  if negb (ether_type packet =? ETH_P_1905_1) then fret (true, packet)
  else if (length (payload packet) <? sizeof_Ieee1905CmduHeader)%nat then fault
  else
    let ch := payload packet in
    if ((fragmentId ch =? 0) && GetLastFragmentIndicator ch)%bool then fret (true, packet)
    else
      now ← steady_now e;
      defrag_cleanup now ;;
      let key := defrag_key packet in
      m ← gets de_fragmentation_map_;
      let val := default DeFragmentationValue_default (m !! key) in
      if kMaximumDeFragmentationThreads <? Z.of_nat (size (<[key := val]> m)) then
        modify (λ s, s <| de_fragmentation_map_ ::= delete key |>) ;;
        fret (false, packet)
      else
        match add_fragment now ch val with
        | None => fault
        | Some (is_complete, val') =>
            modify (λ s, s <| de_fragmentation_map_ ::= <[key := val']> |>) ;;
            fret (is_complete, if is_complete then packet <| payload := buf val' |> else packet)
        end.

(** ** Fragmentation *)

(** The search for the boundary of a fragment: the length of its TLVs, the
    first TLV behind it and the packet length that remains. *)
Inductive boundary_search :=
  | Boundary (fragmentTlvsLength : nat) (nextTlv : list Z) (remainingPacketLength : nat)
  | BadPacket
  | BoundaryOutOfBounds.

Fixpoint find_boundary (fuel : nat) (nextTlv : list Z)
    (fragmentTlvsLength remainingPacketLength : nat) : boundary_search :=
  match fuel with
  | O => BoundaryOutOfBounds
  | S fuel =>
      if (remainingPacketLength =? 0)%nat
      then Boundary fragmentTlvsLength nextTlv remainingPacketLength
      else if (remainingPacketLength <? sizeof_Tlv)%nat then BadPacket
      else
        match tlv_type nextTlv, tlv_size nextTlv with
        | Some type, Some n =>
            if ((type =? 0) && (n <? remainingPacketLength)%nat)%bool then BadPacket
            else if (kIeee1905FragmentationThreashold <? n)%nat then BadPacket
            else if (remainingPacketLength <? n)%nat then BadPacket
            else if (kIeee1905FragmentationThreashold <=? fragmentTlvsLength + n)%nat
            then Boundary fragmentTlvsLength nextTlv remainingPacketLength
            else find_boundary fuel (drop n nextTlv) (fragmentTlvsLength + n)
                   (remainingPacketLength - n)
        | _, _ => BoundaryOutOfBounds
        end
  end.

(** The loop over the fragments; [todo] iterations are left of the 256, and
    [hdr] is the header at the start of [buf]. *)
Fixpoint send_fragments (index : Z) (packet : Packet) (todo : nat) (hdr : list Z)
    (firstTlvInFragment : list Z) (remainingPacketLength : nat) : M bool :=
  match todo with
  | O => fret true
  | S todo =>
      if (remainingPacketLength =? 0)%nat then fret true
      else
        match find_boundary (S remainingPacketLength) firstTlvInFragment 0 remainingPacketLength with
        | BoundaryOutOfBounds => fault
        | BadPacket => fret false
        | Boundary fragmentTlvsLength nextTlv remainingPacketLength =>
            let hdr := set_fragmentId (255 - Z.of_nat todo) hdr in
            let hdr := SetLastFragmentIndicator (remainingPacketLength =? 0)%nat hdr in
            let fragment_packet :=
              packet <| payload := hdr ++ take fragmentTlvsLength firstTlvInFragment |> in
            ok ← send_packet_to_network_interface e index fragment_packet;
            if negb ok then fret false
            else send_fragments index packet todo hdr nextTlv remainingPacketLength
        end
  end.

Definition fragment_and_send_packet_to_network_interface (index : Z) (packet : Packet) : M bool :=
  if (negb (ether_type packet =? ETH_P_1905_1)
      || (length (payload packet) <=? kIeee1905FragmentationThreashold + sizeof_Ieee1905CmduHeader)%nat
      || negb (src_if_type packet =? IF_TYPE_LOCAL_BUS))%bool
  then ok ← send_packet_to_network_interface e index packet; fret ok
  else
    send_fragments index packet 256 (take sizeof_Ieee1905CmduHeader (payload packet))
      (drop sizeof_Ieee1905CmduHeader (payload packet))
      (length (payload packet) - sizeof_Ieee1905CmduHeader).

End Methods.

(** ** Lemmas: the TLV walks stay inside the buffer *)

Lemma tlv_size_Some tlv : (sizeof_Tlv ≤ length tlv)%nat →
  ∃ type n, tlv_type tlv = Some type ∧ tlv_size tlv = Some n ∧ (sizeof_Tlv ≤ n)%nat.
Proof.
  unfold sizeof_Tlv. intros Hl. destruct tlv as [|t [|hi [|lo tl]]]; cbn in Hl; try lia.
  cbn. eexists _, _. split; [done|]. split; [done|]. unfold sizeof_Tlv. lia.
Qed.

Lemma find_eom_safe fuel tlv len : (len < fuel)%nat → length tlv = len → (sizeof_Tlv ≤ len)%nat →
  match find_eom fuel tlv len with
  | EomLeft n => (n ≤ len)%nat
  | EomCorrupt => True
  | EomOutOfBounds => False
  end.
Proof.
  revert tlv len. induction fuel as [|fuel IH]; intros tlv len Hf Hl H3; [lia|]. cbn [find_eom].
  destruct (tlv_size_Some tlv) as (type & n & -> & -> & Hn); [lia|].
  unfold sizeof_Tlv in *. destruct (type =? 0); [lia|].
  destruct (Nat.ltb_spec len n); [done|]. destruct (Nat.ltb_spec (len - n) 3); [lia|].
  specialize (IH (drop n tlv) (len - n)%nat). destruct find_eom; [|done|].
  - enough (tlvsLength ≤ len - n)%nat by lia. apply IH; rewrite ?length_drop; lia.
  - apply IH; rewrite ?length_drop; lia.
Qed.

(** What the boundary search answers, on any packet. *)
Lemma find_boundary_safe fuel tlv len rem : (rem < fuel)%nat → length tlv = rem →
  match find_boundary fuel tlv len rem with
  | Boundary l nextTlv r =>
      ∃ k, l = (len + k)%nat ∧ (k + r = rem)%nat ∧ nextTlv = drop k tlv
           ∧ (k = 0 ∨ l < kIeee1905FragmentationThreashold)%nat
  | BadPacket => True
  | BoundaryOutOfBounds => False
  end.
Proof.
  revert tlv len rem. induction fuel as [|fuel IH]; intros tlv len rem Hf Hl; [lia|].
  cbn [find_boundary].
  destruct (Nat.eqb_spec rem 0) as [->|Hr0]; [exists 0%nat; rewrite drop_0; repeat split; [lia..|by left]|].
  unfold sizeof_Tlv in *. destruct (Nat.ltb_spec rem 3); [done|].
  destruct (tlv_size_Some tlv) as (type & n & -> & -> & Hn); [unfold sizeof_Tlv; lia|].
  unfold sizeof_Tlv in *. destruct (_ && _)%bool; [done|].
  destruct (_ <? _)%nat; [done|]. destruct (Nat.ltb_spec rem n); [done|].
  destruct (Nat.leb_spec kIeee1905FragmentationThreashold (len + n)%nat) as [|Hlt];
    [exists 0%nat; rewrite drop_0; repeat split; [lia..|by left]|].
  specialize (IH (drop n tlv) (len + n)%nat (rem - n)%nat).
  destruct find_boundary as [l nt r| |]; [|done|apply IH; rewrite ?length_drop; lia].
  destruct IH as (k & -> & Hr & -> & Hk); [lia|rewrite length_drop; lia|].
  exists (n + k)%nat. rewrite drop_drop. split; [lia|]. split; [lia|]. split; [done|]. right.
  destruct Hk as [->|Hk]; [|done]. rewrite Nat.add_0_r. exact Hlt.
Qed.

(** The payloads of the frames of a run of the fragment loop. *)
Lemma send_fragments_safe {B} e index packet todo hdr tlv rem (s : Transport B) :
  length tlv = rem →
  (send_fragments e index packet todo hdr tlv rem s).1 ≠ None.
Proof.
  revert hdr tlv rem s. induction todo as [|todo IH]; intros hdr tlv rem s Hl; [done|].
  cbn [send_fragments]. destruct (rem =? 0)%nat; [done|].
  pose proof (find_boundary_safe (S rem) tlv 0 rem) as Hb.
  destruct (find_boundary (S rem) tlv 0 rem) as [l nt r| |]; [|done|by destruct Hb; [lia|]].
  destruct Hb as (k & _ & Hr & -> & _); [lia|done|]. st_run.
  destruct (send_packet_to_network_interface _ _ _ _) as [[] s']; cbn [fst snd negb]; [|done].
  apply IH. rewrite length_drop. lia.
Qed.

Lemma fragment_and_send_safe {B} e index packet (s : Transport B) :
  (fragment_and_send_packet_to_network_interface e index packet s).1 ≠ None.
Proof.
  unfold fragment_and_send_packet_to_network_interface. destruct (_ || _)%bool; st_run; [done|].
  apply send_fragments_safe. by rewrite length_drop.
Qed.

Lemma add_fragment_safe now ch val : (sizeof_Ieee1905CmduHeader + sizeof_Tlv ≤ length ch)%nat →
  add_fragment now ch val ≠ None.
Proof.
  intros Hl. unfold add_fragment. destruct (negb _); [done|].
  destruct (_ <=? _); [done|]. destruct (GetLastFragmentIndicator ch); [done|].
  set (body := drop _ ch).
  pose proof (find_eom_safe (S (length body)) body (length body)) as Hs.
  destruct find_eom; try done. destruct Hs; [lia|done|]. unfold body. rewrite length_drop. lia.
Qed.

Lemma de_fragment_safe {B} e packet (s : Transport B) :
  (sizeof_Ieee1905CmduHeader + sizeof_Tlv ≤ length (payload packet))%nat →
  (de_fragment_packet e packet s).1 ≠ None.
Proof.
  intros Hl. unfold de_fragment_packet. destruct (negb _); [done|].
  destruct (Nat.ltb_spec (length (payload packet)) sizeof_Ieee1905CmduHeader); [lia|].
  destruct (_ && _)%bool; [done|]. st_run. destruct (_ <? _); st_run; [done|].
  pose proof (add_fragment_safe (clock e (clock_reads s)) (payload packet)) as Hs.
  destruct add_fragment as [[[] ?]|] eqn:E; st_run; [done..|]. by destruct (Hs _ Hl E).
Qed.

(** ** Bounds of the reassembly state *)

(** The bytes of an entry fit its array, and they start with a header once a
    fragment was accepted. *)
Definition defrag_value_ok (v : DeFragmentationValue) : Prop :=
  Z.of_nat (length (buf v)) < kMaximumDeFragmentionSize
  ∧ (numFragments v ≠ 0 → (sizeof_Ieee1905CmduHeader ≤ length (buf v))%nat).

(** At most [kMaximumDeFragmentationThreads] CMDUs are under reassembly and
    the bytes of each stay inside its 64 KB array. *)
Record defrag_inv {B} (s : Transport B) : Prop := {
  di_size : Z.of_nat (size (de_fragmentation_map_ s)) ≤ kMaximumDeFragmentationThreads;
  di_buf k v : de_fragmentation_map_ s !! k = Some v → defrag_value_ok v;
}.

Lemma size_filter_le {K V} `{Countable K} (P : K * V → Prop) `{∀ x, Decision (P x)} (m : gmap K V) :
  (size (filter P m) ≤ size m)%nat.
Proof. apply map_subseteq_size, map_filter_subseteq. Qed.

Lemma add_fragment_ok now ch val b val' :
  (sizeof_Ieee1905CmduHeader ≤ length ch)%nat → defrag_value_ok val →
  add_fragment now ch val = Some (b, val') →
  defrag_value_ok val' ∧ (b = true → (sizeof_Ieee1905CmduHeader ≤ length (buf val'))%nat).
Proof.
  unfold add_fragment, defrag_value_ok, kMaximumDeFragmentionSize, sizeof_Ieee1905CmduHeader.
  intros Hch [Hv Hn]. destruct (negb _) eqn:E; [by intros [= <- <-]|]. bool_to_prop.
  cbn [numFragments buf dfv_time complete] in E.
  set (v1 := if fragmentId ch =? 0 then _ else _).
  assert (Z.of_nat (length (buf v1)) < 65536 ∧ (8 ≤ length (buf v1))%nat) as [Hv1 Hv8].
  { unfold v1. destruct (Z.eqb_spec (fragmentId ch) 0); cbn [buf].
    - rewrite length_SetLastFragmentIndicator, length_take. lia.
    - split; [done|]. apply Hn. congruence. }
  destruct (Z.leb_spec (64 * 1024) (Z.of_nat (length (buf v1) + length (drop 8 ch)))) as [|Hlt];
    [by intros [= <- <-]|].
  assert (∀ n, Z.of_nat (length (buf v1 ++ take n (drop 8 ch))) < 64 * 1024
               ∧ (8 ≤ length (buf v1 ++ take n (drop 8 ch)))%nat) as Hadd.
  { intros n. rewrite length_app, length_take. lia. }
  destruct (GetLastFragmentIndicator ch).
  - intros [= <- <-]. destruct (Hadd (length (drop 8 ch))). by repeat split.
  - destruct find_eom as [n| |]; try done; intros [= <- <-]; [|done].
    destruct (Hadd (length (drop 8 ch) - n)%nat). by repeat split.
Qed.

(** The result and the map after a packet that is a fragment. *)
Lemma de_fragment_run {B} e packet (s : Transport B) :
  ether_type packet = ETH_P_1905_1 → (sizeof_Ieee1905CmduHeader ≤ length (payload packet))%nat →
  ((fragmentId (payload packet) =? 0) && GetLastFragmentIndicator (payload packet))%bool = false →
  let now := clock e (clock_reads s) in
  let m := filter (λ kv, defrag_keep now kv.2) (de_fragmentation_map_ s) in
  let key := defrag_key packet in
  let val := default DeFragmentationValue_default (m !! key) in
  let r := de_fragment_packet e packet s in
  clock_reads r.2 = S (clock_reads s) ∧
  (r.1, de_fragmentation_map_ r.2) =
    if kMaximumDeFragmentationThreads <? Z.of_nat (size (<[key := val]> m))
    then (Some (false, packet), delete key m)
    else match add_fragment now (payload packet) val with
         | None => (None, m)
         | Some (b, val') =>
             (Some (b, if b then packet <| payload := buf val' |> else packet), <[key := val']> m)
         end.
Proof.
  intros He Hl Hnf. unfold de_fragment_packet. rewrite He, Z.eqb_refl, Hnf. cbn [negb].
  destruct (Nat.ltb_spec (length (payload packet)) sizeof_Ieee1905CmduHeader); [lia|].
  st_run. unfold defrag_cleanup. st_run. cbv zeta.
  set (s1 := set_field counters_ _ _).
  assert (de_fragmentation_map_ s1 = filter (λ kv, defrag_keep (clock e (clock_reads s)) kv.2)
            (de_fragmentation_map_ s)) as -> by done.
  set (m := filter _ _). destruct (_ <? _); st_run; [done|].
  destruct add_fragment as [[b v']|]; st_run; done.
Qed.

Lemma de_fragment_inv {B} e packet (s : Transport B) :
  defrag_inv s → defrag_inv (de_fragment_packet e packet s).2.
Proof.
  intros Hinv. destruct (decide (ether_type packet = ETH_P_1905_1)) as [He|He].
  2:{ unfold de_fragment_packet. rewrite (proj2 (Z.eqb_neq _ _)) by done. done. }
  destruct (decide (sizeof_Ieee1905CmduHeader ≤ length (payload packet))%nat) as [Hl|Hl].
  2:{ unfold de_fragment_packet. rewrite (proj2 (Nat.ltb_lt _ _)) by lia. by destruct (negb _). }
  destruct ((fragmentId (payload packet) =? 0) && GetLastFragmentIndicator (payload packet))%bool
    eqn:Hnf.
  { unfold de_fragment_packet. rewrite Hnf. by repeat case_match. }
  destruct (de_fragment_run e packet s He Hl Hnf) as [_ Hr]. revert Hr.
  destruct Hinv as [Hs Hb]. set (now := clock e (clock_reads s)).
  set (m := filter _ (de_fragmentation_map_ s)). set (val := default _ _).
  pose proof (size_filter_le (λ kv, defrag_keep now kv.2) (de_fragmentation_map_ s)) as Hms.
  fold m in Hms.
  assert (∀ k v, m !! k = Some v → defrag_value_ok v) as Hm.
  { intros k v [? _]%map_lookup_filter_Some. eauto. }
  destruct (Z.ltb_spec kMaximumDeFragmentationThreads
              (Z.of_nat (size (<[defrag_key packet := val]> m)))) as [|Hle].
  - intros [= _ Hd]. split; rewrite Hd.
    + assert (size (delete (defrag_key packet) m) ≤ size m)%nat; [|lia].
      apply map_subseteq_size, delete_subseteq.
    + intros k v [_ ?]%lookup_delete_Some. eauto.
  - destruct add_fragment as [[b v']|] eqn:E; intros [= _ Hd]; split; rewrite Hd.
    + rewrite map_size_insert in Hle |- *. destruct (m !! _); lia.
    + intros k v. rewrite lookup_insert. case_decide; [|eauto]. intros [= <-].
      eapply add_fragment_ok; [exact Hl| |exact E].
      unfold val. destruct (m !! defrag_key packet) eqn:Ek; cbn; [eauto|done].
    + lia.
    + eauto.
Qed.

(** ** CMDUs as lists of TLVs *)

Record tlv := mkTlv { t_type : Z; t_value : list Z }.

Definition tlv_len (t : tlv) : nat := sizeof_Tlv + length (t_value t).
Definition tlv_bytes (t : tlv) : list Z :=
  t_type t :: be16_bytes (Z.of_nat (length (t_value t))) ++ t_value t.
Definition tlvs_bytes (l : list tlv) : list Z := concat (tlv_bytes <$> l).

Definition EndOfMessage : tlv := mkTlv 0 [].

(** A TLV that may precede the end of message and fits into a fragment. *)
Definition fits (t : tlv) : Prop :=
  t_type t ≠ 0 ∧ (tlv_len t < kIeee1905FragmentationThreashold)%nat.

(** What is left of a message while it is walked over. *)
Definition message_tail (l : list tlv) : Prop :=
  l = [] ∨ ∃ ts, Forall fits ts ∧ l = ts ++ [EndOfMessage].

Lemma length_tlv_bytes t : length (tlv_bytes t) = tlv_len t.
Proof. done. Qed.
Lemma tlvs_bytes_cons t l : tlvs_bytes (t :: l) = tlv_bytes t ++ tlvs_bytes l.
Proof. done. Qed.
Lemma tlvs_bytes_app l1 l2 : tlvs_bytes (l1 ++ l2) = tlvs_bytes l1 ++ tlvs_bytes l2.
Proof. unfold tlvs_bytes. by rewrite fmap_app, concat_app. Qed.

(** Reading the TLV at the front of a buffer. *)
Lemma tlv_type_bytes t rest : tlv_type (tlv_bytes t ++ rest) = Some (t_type t).
Proof. done. Qed.
Lemma tlv_size_bytes t rest : Z.of_nat (tlv_len t) < 65536 →
  tlv_size (tlv_bytes t ++ rest) = Some (tlv_len t).
Proof.
  unfold tlv_len, sizeof_Tlv. intros Hl. cbn. rewrite be16_bytes_roundtrip by lia.
  by rewrite Nat2Z.id.
Qed.
Lemma drop_tlv_bytes t rest : drop (tlv_len t) (tlv_bytes t ++ rest) = rest.
Proof. by rewrite <- length_tlv_bytes, drop_app_length. Qed.
Lemma tlv_len_ge t : (3 ≤ tlv_len t)%nat.
Proof. unfold tlv_len, sizeof_Tlv. lia. Qed.

Lemma fits_small t : fits t → Z.of_nat (tlv_len t) < 65536.
Proof. intros [_ Ht]. unfold kIeee1905FragmentationThreashold in Ht. lia. Qed.

Lemma message_tail_cons t l : message_tail (t :: l) →
  (fits t ∧ l ≠ [] ∨ t = EndOfMessage ∧ l = []) ∧ message_tail l.
Proof.
  intros [?|(ts & Hts & E)]; [done|]. destruct ts as [|t' ts]; cbn in E; simplify_eq.
  - split; [by right|by left].
  - apply Forall_cons in Hts as [Ht Hts]. split; [left; split; [done|]|].
    + by destruct ts.
    + right. eauto.
Qed.

Lemma message_tail_len t l : message_tail (t :: l) →
  (tlv_len t < kIeee1905FragmentationThreashold)%nat ∧ Z.of_nat (tlv_len t) < 65536.
Proof.
  intros [[[Ht _]|[-> _]] _]%message_tail_cons; [by split; [destruct Ht|apply fits_small]|].
  unfold kIeee1905FragmentationThreashold, tlv_len, sizeof_Tlv. cbn. lia.
Qed.

(** The walk over a fragment that consists of TLVs finds nothing to drop. *)
Lemma find_eom_tlvs g fuel : g ≠ [] → Forall fits g → (length (tlvs_bytes g) < fuel)%nat →
  find_eom fuel (tlvs_bytes g) (length (tlvs_bytes g)) = EomLeft 0.
Proof.
  revert fuel. induction g as [|t g IH]; intros fuel Hne Hg Hf; [done|].
  apply Forall_cons in Hg as [Ht Hg]. destruct fuel as [|fuel]; [lia|].
  rewrite tlvs_bytes_cons, length_app, length_tlv_bytes in *. cbn [find_eom].
  rewrite tlv_type_bytes, tlv_size_bytes by (by apply fits_small).
  rewrite (proj2 (Z.eqb_neq _ _)) by (by destruct Ht).
  rewrite (proj2 (Nat.ltb_ge _ _)) by lia.
  replace (tlv_len t + length (tlvs_bytes g) - tlv_len t)%nat with (length (tlvs_bytes g)) by lia.
  rewrite drop_tlv_bytes. destruct g as [|t' g].
  - done.
  - rewrite (proj2 (Nat.ltb_ge _ _)).
    + pose proof (tlv_len_ge t). apply IH; [done|done|]. cbn -[tlvs_bytes] in *. lia.
    + rewrite tlvs_bytes_cons, length_app, length_tlv_bytes. pose proof (tlv_len_ge t').
      unfold sizeof_Tlv. lia.
Qed.

(** The boundary search on TLVs: a maximal group of TLVs under the threshold. *)
Lemma find_boundary_tlvs fuel l len : message_tail l → (length (tlvs_bytes l) < fuel)%nat →
  (len < kIeee1905FragmentationThreashold)%nat →
  ∃ g l', l = g ++ l' ∧ message_tail l' ∧
    find_boundary fuel (tlvs_bytes l) len (length (tlvs_bytes l))
      = Boundary (len + length (tlvs_bytes g)) (tlvs_bytes l') (length (tlvs_bytes l'))
    ∧ (len + length (tlvs_bytes g) < kIeee1905FragmentationThreashold)%nat
    ∧ match l' with
      | [] => True
      | t :: _ => Forall fits g
          ∧ (kIeee1905FragmentationThreashold ≤ len + length (tlvs_bytes g) + tlv_len t)%nat
      end.
Proof.
  revert l len. induction fuel as [|fuel IH]; intros l len Hl Hf Hlen; [lia|].
  cbn [find_boundary]. destruct l as [|t l].
  { exists [], []. cbn. rewrite Nat.add_0_r. repeat split; auto. }
  pose proof (message_tail_cons _ _ Hl) as [Ht Hl']. destruct (message_tail_len _ _ Hl) as [Hsz Hsm].
  pose proof (tlv_len_ge t). rewrite tlvs_bytes_cons, length_app, length_tlv_bytes in *.
  rewrite (proj2 (Nat.eqb_neq _ _)) by lia. unfold sizeof_Tlv.
  rewrite (proj2 (Nat.ltb_ge _ 3)) by lia. rewrite tlv_type_bytes, tlv_size_bytes by done.
  rewrite (proj2 (Nat.ltb_ge _ (tlv_len t))) by lia.
  rewrite (proj2 (Nat.ltb_ge (tlv_len t + length (tlvs_bytes l)) (tlv_len t))) by lia.
  assert (((t_type t =? 0) && (tlv_len t <? tlv_len t + length (tlvs_bytes l))%nat)%bool = false) as ->.
  { destruct Ht as [[[Ht _] _]|[-> ->]].
    - by rewrite (proj2 (Z.eqb_neq _ _)).
    - cbn [tlvs_bytes fmap list_fmap concat length]. by rewrite (proj2 (Nat.ltb_ge _ _)) by (cbn; lia). }
  destruct (Nat.leb_spec kIeee1905FragmentationThreashold (len + tlv_len t)) as [Hge|Hlt].
  { exists [], (t :: l). rewrite tlvs_bytes_cons, length_app, length_tlv_bytes.
    cbn [tlvs_bytes fmap list_fmap concat length]. rewrite Nat.add_0_r. repeat split; auto. }
  destruct (IH l (len + tlv_len t)%nat) as (g & l' & -> & Htl & Hb & Hlt' & Hm); [done|lia|done|].
  exists (t :: g), l'. rewrite tlvs_bytes_cons, length_app, length_tlv_bytes, Nat.add_assoc.
  split; [done|]. split; [done|]. split; [|split; [done|]].
  - rewrite drop_tlv_bytes, <- Hb. f_equal. lia.
  - destruct l' as [|t' l']; [done|]. destruct Hm as [Hg Hm]. split; [|done].
    apply Forall_cons. split; [|done]. destruct Ht as [[Ht _]|[_ E]]; [done|].
    by destruct g.
Qed.

(** ** The header of a fragment *)

Definition fragment_header (k : Z) (last : bool) (hdr : list Z) : list Z :=
  SetLastFragmentIndicator last (set_fragmentId k hdr).

Lemma put_flag_twice f m v v' : put_flag (put_flag f m v) m v' = put_flag f m v'.
Proof.
  apply Z.bits_inj'. intros n Hn. destruct (Z.lt_ge_cases n 8) as [Hn8|Hn8].
  - rewrite !put_flag_testbit by lia. destruct (Z.testbit m n), (Z.testbit f n), v, v'; done.
  - by rewrite !byte_testbit_high by (try apply u8_range; lia).
Qed.

Lemma length_fragment_header k b hdr : length (fragment_header k b hdr) = length hdr.
Proof. unfold fragment_header, SetLastFragmentIndicator, set_fragmentId. by rewrite !length_insert. Qed.

(** The header buffer is reused: the last writes count. *)
Lemma fragment_header_twice k k' b b' hdr : length hdr = sizeof_Ieee1905CmduHeader →
  fragment_header k b (fragment_header k' b' hdr) = fragment_header k b hdr.
Proof.
  unfold sizeof_Ieee1905CmduHeader. intros Hl.
  destruct hdr as [|h0 [|h1 [|h2 [|h3 [|h4 [|h5 [|h6 [|h7 [|]]]]]]]]]; try done.
  unfold fragment_header, SetLastFragmentIndicator, set_fragmentId, flags, at_. cbn.
  by rewrite put_flag_twice.
Qed.

Lemma SetLast_fragment_header k b hdr : length hdr = sizeof_Ieee1905CmduHeader →
  SetLastFragmentIndicator true (fragment_header k b hdr) = fragment_header k true hdr.
Proof.
  unfold sizeof_Ieee1905CmduHeader. intros Hl.
  destruct hdr as [|h0 [|h1 [|h2 [|h3 [|h4 [|h5 [|h6 [|h7 [|]]]]]]]]]; try done.
  unfold fragment_header, SetLastFragmentIndicator, set_fragmentId, flags, at_. cbn.
  by rewrite put_flag_twice.
Qed.

(** Reading a fragment's header back. *)
Lemma fragment_fields k b hdr body : length hdr = sizeof_Ieee1905CmduHeader → 0 ≤ k < 256 →
  let p := fragment_header k b hdr ++ body in
  fragmentId p = k ∧ GetLastFragmentIndicator p = b ∧ messageType p = messageType hdr
  ∧ messageId p = messageId hdr ∧ take sizeof_Ieee1905CmduHeader p = fragment_header k b hdr
  ∧ drop sizeof_Ieee1905CmduHeader p = body.
Proof.
  unfold sizeof_Ieee1905CmduHeader. intros Hl Hk.
  destruct hdr as [|h0 [|h1 [|h2 [|h3 [|h4 [|h5 [|h6 [|h7 [|]]]]]]]]]; try done.
  cbn. repeat split.
  - unfold fragmentId, at_. cbn. unfold u8. by apply Z.mod_small.
  - unfold GetLastFragmentIndicator, flags, at_. cbn. by apply flag_same.
Qed.

(** ** The frames of a message *)

(** [frags] are the payloads of the fragments from number [k] on for the
    TLVs [l]: whole TLVs, the last one alone flagged as such. *)
Inductive fragments_of (hdr : list Z) : Z → list tlv → list (list Z) → Prop :=
  | fo_last k g :
      (length (tlvs_bytes g) < kIeee1905FragmentationThreashold)%nat →
      fragments_of hdr k g [fragment_header k true hdr ++ tlvs_bytes g]
  | fo_more k g l frags :
      Forall fits g → g ≠ [] → (length (tlvs_bytes g) < kIeee1905FragmentationThreashold)%nat →
      fragments_of hdr (k + 1) l frags →
      fragments_of hdr k (g ++ l) ((fragment_header k false hdr ++ tlvs_bytes g) :: frags).

(** An interface that is tracked, active and accepts every frame. *)
Record link_up {B} (e : Env) (s : Transport B) (index f : Z) : Prop := {
  lu_name : if_index2name e index ≠ EmptyString;
  lu_fd : (network_interfaces_ s !! if_index2name e index) ≫= fd = Some f;
  lu_write w frame : writev e w f frame = Z.of_nat (length frame);
}.

Lemma send_link_up {B} e (s : Transport B) index f packet : link_up e s index f →
  let r := send_packet_to_network_interface e index packet s in
  r.1 = true ∧ wire r.2 = wire s ++ [(f, ether_header s packet ++ payload packet)]
  ∧ (∀ p, ether_header r.2 p = ether_header s p) ∧ link_up e r.2 index f.
Proof.
  intros [Hn Hf Hw]. unfold send_packet_to_network_interface.
  rewrite bool_decide_false by done. st_run.
  destruct (network_interfaces_ s !! if_index2name e index) as [i|] eqn:Ei; [|done].
  cbn in Hf. rewrite Hf. st_run. rewrite Hw.
  set (s1 := set_field counters_ _ s). change (ether_header (id s1) packet) with (ether_header s packet).
  set (frame := ether_header s packet ++ payload packet).
  rewrite (proj2 (Z.ltb_ge _ _)) by lia. rewrite Z.eqb_refl. split; [done|].
  split; [|split; [done|]].
  - change (wire s ++ [(f, take (Z.to_nat (Z.of_nat (length frame))) frame)] = wire s ++ [(f, frame)]).
    by rewrite Nat2Z.id, firstn_all.
  - split; [done| |done]. change (network_interfaces_ (set_field wire _ s1)) with (network_interfaces_ s).
    by rewrite Ei.
Qed.

(** Twice the bytes to send, less the first TLV: every fragment lowers it by
    the threshold, so 256 fragments are more than enough for 64 KB. *)
Definition send_measure (l : list tlv) : nat :=
  match l with [] => 0 | t :: _ => 2 * length (tlvs_bytes l) - tlv_len t end.

Lemma send_measure_next g l t l' : message_tail (g ++ l) → l = t :: l' → g ≠ [] →
  (kIeee1905FragmentationThreashold ≤ length (tlvs_bytes g) + tlv_len t)%nat →
  (send_measure l + kIeee1905FragmentationThreashold ≤ send_measure (g ++ l))%nat.
Proof.
  intros _ -> Hg Hge. destruct g as [|t0 g]; [done|]. cbn [app send_measure].
  rewrite !tlvs_bytes_cons, tlvs_bytes_app, tlvs_bytes_cons, !length_app, !length_tlv_bytes.
  rewrite tlvs_bytes_cons, length_app, length_tlv_bytes in Hge. lia.
Qed.

Lemma send_fragments_run {B} e index f packet todo hdr hdr' l (s : Transport B) :
  link_up e s index f → message_tail l → l ≠ [] → (todo ≤ 256)%nat →
  length hdr = sizeof_Ieee1905CmduHeader →
  (hdr' = hdr ∨ ∃ k b, hdr' = fragment_header k b hdr) →
  (send_measure l < kIeee1905FragmentationThreashold * todo)%nat →
  ∃ frags, fragments_of hdr (256 - Z.of_nat todo) l frags ∧ (length frags ≤ todo)%nat ∧
    let r := send_fragments e index packet todo hdr' (tlvs_bytes l) (length (tlvs_bytes l)) s in
    r.1 = Some true ∧
    wire r.2 = wire s ++ ((λ p, (f, ether_header s packet ++ p)) <$> frags).
Proof.
  revert hdr' l s. induction todo as [|todo IH]; intros hdr' l s Hup Htl Hne Ht Hl Hh Hm; [lia|].
  destruct l as [|t0 l0]; [done|]. set (l := t0 :: l0) in *.
  assert (0 < length (tlvs_bytes l))%nat as Hpos.
  { unfold l. rewrite tlvs_bytes_cons, length_app, length_tlv_bytes. pose proof (tlv_len_ge t0). lia. }
  cbn [send_fragments]. rewrite (proj2 (Nat.eqb_neq _ _)) by lia.
  destruct (find_boundary_tlvs (S (length (tlvs_bytes l))) l 0) as (g & l' & El & Htl' & -> & Hlt & Hnext);
    [done|lia|unfold kIeee1905FragmentationThreashold; lia|].
  cbn [Nat.add] in *. replace (256 - Z.of_nat (S todo)) with (255 - Z.of_nat todo) by lia.
  set (k := 255 - Z.of_nat todo). fold (fragment_header k (length (tlvs_bytes l') =? 0)%nat hdr').
  assert (∀ b, fragment_header k b hdr' = fragment_header k b hdr) as Hhdr.
  { intros b. destruct Hh as [->|(k' & b' & ->)]; [done|]. by apply fragment_header_twice. }
  rewrite Hhdr, El, tlvs_bytes_app, take_app_length. st_run.
  set (b := (length (tlvs_bytes l') =? 0)%nat).
  destruct (send_link_up e s index f (packet <| payload := fragment_header k b hdr ++ tlvs_bytes g |>) Hup)
    as (Hr1 & Hr2 & Hr3 & Hr4).
  destruct (send_packet_to_network_interface e index _ s) as [ok s']. cbn [fst snd] in *. subst ok.
  cbn [negb]. destruct l' as [|t l'].
  - exists [fragment_header k true hdr ++ tlvs_bytes g]. rewrite app_nil_r.
    split; [by apply fo_last|]. split; [cbn; lia|]. destruct todo; st_run; done.
  - destruct Hnext as [Hg Hge]. assert (g ≠ []) as Hgne.
    { intros ->. change (length (tlvs_bytes [])) with 0%nat in Hge. destruct (message_tail_len _ _ Htl'). lia. }
    assert (b = false) as ->.
    { unfold b. rewrite tlvs_bytes_cons, length_app, length_tlv_bytes. pose proof (tlv_len_ge t).
      by apply Nat.eqb_neq; lia. }
    pose proof (send_measure_next g (t :: l') t l') as Hmn. rewrite <- El in Hmn.
    destruct (IH (fragment_header k false hdr) (t :: l') s') as (frags & Hfr & Hlen & Hr & Hw);
      [done|done|done|lia|done|by eauto| |].
    { specialize (Hmn Htl eq_refl Hgne Hge). lia. }
    exists ((fragment_header k false hdr ++ tlvs_bytes g) :: frags).
    split; [|split; [cbn; lia|split; [exact Hr|]]].
    + apply fo_more; [done|done|done|]. unfold k.
      by replace (255 - Z.of_nat todo + 1) with (256 - Z.of_nat todo) by lia.
    + rewrite Hw, Hr2, <- app_assoc. cbn [fmap list_fmap app]. do 2 f_equal.
      apply list_fmap_ext. intros ???. by rewrite Hr3.
Qed.

(** ** The receiver *)

(** Fragments of one message arriving one after the other. *)
Fixpoint de_fragment_all {B} (e : Env) (ps : list Packet) :
    transportM B (list (option (bool * Packet))) :=
  match ps with
  | [] => mret []
  | p :: ps => r ← de_fragment_packet e p; rs ← de_fragment_all e ps; mret (r :: rs)
  end.

(** A frame of [packet] with payload [p] as received on interface [i]. *)
Definition received (packet : Packet) (i : Z) (p : list Z) : Packet :=
  mkPacket IF_TYPE_NONE 0 IF_TYPE_NET i (dst packet) (src packet) (ether_type packet) p.

(** The receiver waits for fragment [k] of [key], with [acc] reassembled. *)
Definition awaits {B} (e : Env) (r : Transport B) (key : DeFragmentationKey) (k : Z)
    (acc : list Z) : Prop :=
  Z.of_nat (size (de_fragmentation_map_ r)) ≤ kMaximumDeFragmentationThreads ∧
  ∃ t, de_fragmentation_map_ r !! key = Some (mkDeFragmentationValue t k acc false)
       ∧ clock e (clock_reads r) ≤ t + kMaximumDeFragmentationAge.

(** The receiver has room and nothing of the message yet. *)
Definition ready {B} (r : Transport B) (key : DeFragmentationKey) : Prop :=
  Z.of_nat (size (de_fragmentation_map_ r)) < kMaximumDeFragmentationThreads ∧
  de_fragmentation_map_ r !! key = None.

(** Successive clock readings are at most a reassembly age apart. *)
Definition clock_steps (e : Env) : Prop :=
  ∀ n, clock e (S n) ≤ clock e n + kMaximumDeFragmentationAge.

(** The entry of the map a fragment finds. *)
Definition entry_found (r_acc : list Z) (k : Z) (v : DeFragmentationValue) : Prop :=
  numFragments v = k ∧ complete v = false ∧ (k = 0 ∨ buf v = r_acc).

Lemma add_fragment_run now k last hdr body acc v : length hdr = sizeof_Ieee1905CmduHeader →
  0 ≤ k < 256 → entry_found acc k v → (k = 0 → acc = fragment_header 0 true hdr) →
  Z.of_nat (length acc + length body) < kMaximumDeFragmentionSize →
  (last = false → find_eom (S (length body)) body (length body) = EomLeft 0) →
  add_fragment now (fragment_header k last hdr ++ body) v
  = Some (last, mkDeFragmentationValue now (u8 (k + 1)) (acc ++ body) last).
Proof.
  intros Hl Hk (Hn & Hc & Hb) Hacc Hsz Heom. unfold add_fragment.
  destruct (fragment_fields k last hdr body Hl Hk) as (-> & -> & _ & _ & -> & ->).
  cbn [numFragments dfv_time buf complete]. rewrite Hn, Z.eqb_refl, Hc. cbn [negb].
  set (v1 := if k =? 0 then _ else _).
  assert (v1 = mkDeFragmentationValue now k acc false) as ->.
  { unfold v1. destruct (Z.eqb_spec k 0) as [->|Hk0].
    - by rewrite SetLast_fragment_header, Hacc.
    - destruct Hb as [Hz|Hz]; [done|]. by rewrite Hz. }
  cbn [numFragments dfv_time buf complete]. rewrite (proj2 (Z.leb_gt _ _)) by done.
  destruct last.
  - by rewrite firstn_all.
  - rewrite Heom by done. by rewrite Nat.sub_0_r, firstn_all.
Qed.

Lemma awaits_entry {B} e (r : Transport B) key k acc :
  (k = 0 ∧ ready r key) ∨ (0 < k ∧ awaits e r key k acc) →
  let now := clock e (clock_reads r) in
  let m := filter (λ kv, defrag_keep now kv.2) (de_fragmentation_map_ r) in
  let val := default DeFragmentationValue_default (m !! key) in
  entry_found acc k val ∧
  Z.of_nat (size (<[key := val]> m)) ≤ kMaximumDeFragmentationThreads.
Proof.
  intros Hst now m val.
  pose proof (size_filter_le (λ kv, defrag_keep now kv.2) (de_fragmentation_map_ r)) as Hms.
  fold m in Hms. rewrite map_size_insert.
  destruct Hst as [(-> & Hs & Hn)|(Hk & Hs & t & Hv & Ht)].
  - assert (m !! key = None) as E by (apply map_lookup_filter_None; by left).
    unfold val. rewrite E. split; [by split; [|split; [|left]]|]. cbn. lia.
  - assert (m !! key = Some (mkDeFragmentationValue t k acc false)) as E.
    { apply map_lookup_filter_Some. split; [done|]. split; [done|]. cbn. fold now in Ht. lia. }
    unfold val. rewrite E. split; [by split; [|split; [|right]]|]. cbn. lia.
Qed.

(** One fragment on a receiver that waits for it. *)
Lemma de_fragment_step {B} e (r : Transport B) packet i k last hdr body acc :
  ether_type packet = ETH_P_1905_1 → length hdr = sizeof_Ieee1905CmduHeader → 0 ≤ k < 256 →
  (k = 0 → last = false) → (k = 0 → acc = fragment_header 0 true hdr) →
  Z.of_nat (length acc + length body) < kMaximumDeFragmentionSize →
  (last = false → find_eom (S (length body)) body (length body) = EomLeft 0) →
  let p := fragment_header k last hdr ++ body in
  let key := defrag_key (received packet i (fragment_header k last hdr ++ body)) in
  (k = 0 ∧ ready r key) ∨ (0 < k ∧ awaits e r key k acc) → clock_steps e →
  let res := de_fragment_packet e (received packet i p) r in
  res.1 = Some (last, received packet i (if last then acc ++ body else p))
  ∧ (last = false → k < 255 → awaits e res.2 key (k + 1) (acc ++ body)).
Proof.
  intros He Hl Hk Hk0 Hacc Hsz Heom p key Hst Hclk.
  destruct (fragment_fields k last hdr body Hl Hk) as (Hid & Hlast & _).
  destruct (de_fragment_run e (received packet i p) r) as [Hcr Hr]; [done| | |].
  { cbn. unfold p. rewrite length_app, length_fragment_header. lia. }
  { cbn [received payload]. unfold p. rewrite Hid, Hlast.
    destruct (Z.eqb_spec k 0); [by rewrite Hk0|done]. }
  revert Hr. cbv zeta. destruct (awaits_entry e r key k acc Hst) as [Hv Hsize].
  cbn [received payload]. fold (received packet i p). change (defrag_key (received packet i p)) with key.
  set (m := filter _ _) in *. set (val := default _ _) in *.
  rewrite (proj2 (Z.ltb_ge _ _)) by done. unfold p.
  rewrite (add_fragment_run _ k last hdr body acc) by done. fold p.
  intros [= Hr1 Hr2]. rewrite Hr1. split; [by destruct last|]. intros -> Hk255. split.
  - rewrite Hr2, map_size_insert in *. done.
  - exists (clock e (clock_reads r)). rewrite Hr2, lookup_insert_eq, Hcr. split; [|apply Hclk].
    unfold u8. by rewrite Z.mod_small by lia.
Qed.

(** A whole message on a receiver that is ready for it. *)
Lemma de_fragment_all_run {B} e (r : Transport B) packet i hdr k l frags acc :
  fragments_of hdr k l frags → ether_type packet = ETH_P_1905_1 →
  length hdr = sizeof_Ieee1905CmduHeader → 0 ≤ k → k + Z.of_nat (length frags) ≤ 256 →
  (k = 0 → acc = fragment_header 0 true hdr) → (k = 0 → (1 < length frags)%nat) →
  Z.of_nat (length acc + length (tlvs_bytes l)) < kMaximumDeFragmentionSize →
  let key := mkDeFragmentationKey (src packet) (messageType hdr) (messageId hdr) in
  (k = 0 ∧ ready r key) ∨ (0 < k ∧ awaits e r key k acc) → clock_steps e →
  (de_fragment_all e (received packet i <$> frags) r).1
  = ((λ p, Some (false, received packet i p)) <$> removelast frags)
    ++ [Some (true, received packet i (acc ++ tlvs_bytes l))].
Proof.
  intros Hfr He Hl. revert r acc.
  induction Hfr as [k g Hlen|k g l frags Hg Hgne Hlen Hfr IH];
    intros r acc Hk Hn Hacc Hn2 Hsz key Hst Hclk; cbn [fmap list_fmap de_fragment_all]; st_run.
  - cbn [length] in *.
    destruct (de_fragment_step e r packet i k true hdr (tlvs_bytes g) acc) as [Hr _]; try done; [lia| | |].
    { intros ->. specialize (Hn2 eq_refl). lia. }
    { unfold defrag_key. cbn [received payload]. by destruct (fragment_fields k true hdr (tlvs_bytes g) Hl ltac:(lia)) as (_ & _ & -> & -> & _). }
    by rewrite Hr.
  - cbn [length] in *. rewrite tlvs_bytes_app, length_app in *.
    assert (frags ≠ []) as Hne by (by inversion Hfr).
    assert (0 < length frags)%nat as Hnpos by (by destruct frags; [|cbn; lia]).
    destruct (fragment_fields k false hdr (tlvs_bytes g) Hl ltac:(lia)) as (_ & _ & Et & Ei & _).
    destruct (de_fragment_step e r packet i k false hdr (tlvs_bytes g) acc) as [Hr Hnext];
      try done; [lia|lia| | |].
    { intros _. apply find_eom_tlvs; [done..|lia]. }
    { unfold defrag_key. cbn [received payload src]. by rewrite Et, Ei. }
    rewrite Hr. cbn [fst snd]. rewrite IH with (acc := acc ++ tlvs_bytes g); [|lia|lia|lia|lia| | |done].
    + rewrite <- app_assoc. by destruct frags.
    + rewrite length_app. lia.
    + right. split; [lia|]. unfold defrag_key in Hnext. cbn [received payload src] in Hnext.
      rewrite Et, Ei in Hnext. apply Hnext; [done|lia].
Qed.

Lemma fragments_of_length hdr k l frags : fragments_of hdr k l frags →
  length hdr = sizeof_Ieee1905CmduHeader →
  Forall (λ p, (length p < 1500)%nat) frags ∧ frags ≠ [] ∧
  (kIeee1905FragmentationThreashold ≤ length (tlvs_bytes l) → 1 < length frags)%nat.
Proof.
  intros Hfr Hl. unfold kIeee1905FragmentationThreashold, sizeof_Ieee1905CmduHeader in *.
  assert (∀ k b g, length (tlvs_bytes g) < kIeee1905FragmentationThreashold →
    length (fragment_header k b hdr ++ tlvs_bytes g) < 1500)%nat as Hlen.
  { intros k' b g. unfold kIeee1905FragmentationThreashold.
    rewrite length_app, length_fragment_header. lia. }
  induction Hfr as [k g Hg|k g l frags ? ? Hg Hfr (IH1 & IH2 & _)].
  - split; [|split; [done|]].
    + apply Forall_singleton. by apply Hlen.
    + unfold kIeee1905FragmentationThreashold in Hg. lia.
  - split; [|split; [done|]].
    + apply Forall_cons. split; [by apply Hlen|done].
    + destruct frags; [done|cbn; lia].
Qed.

(** A CMDU: header, TLVs, end of message. *)
Definition cmdu_bytes (hdr : list Z) (ts : list tlv) : list Z :=
  hdr ++ tlvs_bytes (ts ++ [EndOfMessage]).

Lemma cmdu_sends {B} e (s : Transport B) index f packet hdr ts :
  link_up e s index f → ether_type packet = ETH_P_1905_1 →
  src_if_type packet = IF_TYPE_LOCAL_BUS → payload packet = cmdu_bytes hdr ts →
  length hdr = sizeof_Ieee1905CmduHeader → Forall fits ts →
  1500 < Z.of_nat (length (cmdu_bytes hdr ts)) < 65536 →
  ∃ frags, fragments_of hdr 0 (ts ++ [EndOfMessage]) frags ∧ (length frags ≤ 256)%nat ∧
    let r := fragment_and_send_packet_to_network_interface e index packet s in
    r.1 = Some true
    ∧ wire r.2 = wire s ++ ((λ p, (f, ether_header s packet ++ p)) <$> frags).
Proof.
  intros Hup He Hsrc Hp Hl Hts Hlen. unfold fragment_and_send_packet_to_network_interface.
  rewrite He, Hsrc, !Z.eqb_refl, Hp. unfold cmdu_bytes in *. rewrite length_app, Hl in *.
  unfold sizeof_Ieee1905CmduHeader in *.
  rewrite (proj2 (Nat.leb_gt _ _)) by (unfold kIeee1905FragmentationThreashold; lia). cbn [negb orb].
  rewrite take_app_length', drop_app_length' by done. rewrite (Nat.add_comm 8), Nat.add_sub.
  change 0 with (256 - Z.of_nat 256) at 1.
  apply send_fragments_run; [done|by right; eauto|by destruct ts|lia|done|by left|].
  unfold kIeee1905FragmentationThreashold. unfold send_measure.
  assert (∀ l : list tlv, Z.of_nat (length (tlvs_bytes l)) < 65536 →
    (match l with [] => 0 | t :: _ => 2 * length (tlvs_bytes l) - tlv_len t end < 1492 * 256)%nat) as Hm.
  { intros [|t l] Hb; lia. }
  apply Hm. lia.
Qed.

(** C2: Fragmentation and reassembly are inverse. A CMDU from the local bus of
    more than 1500 bytes and less than 64 KB, whose TLVs before the end of
    message have a nonzero type and are each smaller than the threshold of a
    fragment, is sent on a working link as frames below 1500 bytes, cut at TLV
    boundaries and never more than 256 of them; a receiver with a free
    reassembly slot that gets these frames in order, before the slot is too
    old, reports every one but the last as incomplete and with the last
    delivers the original CMDU, its header normalised to an unfragmented one. *)
Theorem fragment_reassemble {B B'} e e' (s : Transport B) (r : Transport B') index f i packet hdr ts :
  link_up e s index f → ether_type packet = ETH_P_1905_1 →
  src_if_type packet = IF_TYPE_LOCAL_BUS → payload packet = cmdu_bytes hdr ts →
  length hdr = sizeof_Ieee1905CmduHeader → Forall fits ts →
  1500 < Z.of_nat (length (cmdu_bytes hdr ts)) < 65536 →
  ready r (mkDeFragmentationKey (src packet) (messageType hdr) (messageId hdr)) →
  clock_steps e' →
  ∃ frags,
    (fragment_and_send_packet_to_network_interface e index packet s).1 = Some true
    ∧ wire (fragment_and_send_packet_to_network_interface e index packet s).2
      = wire s ++ ((λ p, (f, ether_header s packet ++ p)) <$> frags)
    ∧ Forall (λ p, (length p < 1500)%nat) frags ∧ (length frags ≤ 256)%nat
    ∧ (de_fragment_all e' (received packet i <$> frags) r).1
      = ((λ p, Some (false, received packet i p)) <$> removelast frags)
        ++ [Some (true, received packet i (cmdu_bytes (fragment_header 0 true hdr) ts))].
Proof.
  intros Hup He Hsrc Hp Hl Hts Hlen Hready Hclk.
  destruct (cmdu_sends e s index f packet hdr ts) as (frags & Hfr & Hn & Hr & Hw); try done.
  destruct (fragments_of_length _ _ _ _ Hfr Hl) as (H1500 & Hne & Hn2).
  exists frags. split; [done|]. split; [done|]. split; [done|]. split; [done|].
  unfold cmdu_bytes in *. rewrite length_app, Hl in Hlen. unfold sizeof_Ieee1905CmduHeader in *.
  apply de_fragment_all_run with (hdr := hdr) (k := 0); [done..|lia|lia|done| | | |done].
  - intros _. apply Hn2. unfold kIeee1905FragmentationThreashold. lia.
  - rewrite length_fragment_header, Hl. unfold kMaximumDeFragmentionSize. lia.
  - by left.
Qed.

(** The reassembly map is bounded whatever arrives: every call keeps at
    most 16 CMDUs under reassembly and no reassembly buffer grows to the
    64 KB of its array. *)
Theorem de_fragment_bounded {B} e (s : Transport B) packets :
  defrag_inv s → defrag_inv (de_fragment_all e packets s).2.
Proof.
  revert s. induction packets as [|p packets IH]; intros s Hs; [done|]. cbn [de_fragment_all].
  st_run. by apply IH, de_fragment_inv.
Qed.

(** C12: The TLV walks are memory-safe. Whatever the bytes of a packet that
    passed [verify_packet], neither reassembly nor fragmentation reads a TLV
    outside of the packet, and the walks terminate. *)
Theorem tlv_walks_in_bounds {B} e (s : Transport B) index packet :
  verify_packet packet = true →
  is_Some (de_fragment_packet e packet s).1
  ∧ is_Some (fragment_and_send_packet_to_network_interface e index packet s).1.
Proof.
  intros Hv. rewrite <- !not_eq_None_Some. split; [|apply fragment_and_send_safe].
  destruct (decide (ether_type packet = ETH_P_1905_1)) as [He|He].
  - apply de_fragment_safe. pose proof (verify_packet_1905 _ Hv He).
    unfold sizeof_Ieee1905CmduHeader, sizeof_Tlv. lia.
  - unfold de_fragment_packet. by rewrite (proj2 (Z.eqb_neq _ _)).
Qed.

(** The loop on a message whose first TLV has the threshold's size. *)
Lemma send_fragments_stuck {B} e index f packet todo hdr hdr' t rest (s : Transport B) :
  link_up e s index f → length hdr = sizeof_Ieee1905CmduHeader →
  (hdr' = hdr ∨ ∃ k b, hdr' = fragment_header k b hdr) →
  tlv_len t = kIeee1905FragmentationThreashold → t_type t ≠ 0 →
  let bytes := tlv_bytes t ++ rest in
  let r := send_fragments e index packet todo hdr' bytes (length bytes) s in
  r.1 = Some true ∧
  wire r.2 = wire s ++ ((λ k, (f, ether_header s packet ++ fragment_header k false hdr))
                         <$> seqZ (256 - Z.of_nat todo) (Z.of_nat todo)).
Proof.
  intros Hup Hl Hh Ht Hty bytes. revert hdr' s Hup Hh.
  assert (length bytes = kIeee1905FragmentationThreashold + length rest)%nat as Hlb.
  { unfold bytes. by rewrite length_app, length_tlv_bytes, Ht. }
  assert (find_boundary (S (length bytes)) bytes 0 (length bytes) = Boundary 0 bytes (length bytes)) as Hb.
  { cbn [find_boundary]. unfold kIeee1905FragmentationThreashold, sizeof_Tlv in *.
    rewrite (proj2 (Nat.eqb_neq _ _)) by lia. rewrite (proj2 (Nat.ltb_ge _ 3)) by lia.
    unfold bytes at 1 2. rewrite tlv_type_bytes, tlv_size_bytes by lia.
    rewrite (proj2 (Z.eqb_neq _ _)) by done. cbn [andb Nat.add].
    rewrite Ht, Nat.ltb_irrefl, Nat.leb_refl, (proj2 (Nat.ltb_ge _ _)) by lia. done. }
  induction todo as [|todo IH]; intros hdr' s Hup Hh; cbn [send_fragments].
  { change (Z.of_nat 0) with 0. rewrite seqZ_nil by lia. cbn. by rewrite app_nil_r. }
  assert ((length bytes =? 0)%nat = false) as Hz.
  { apply Nat.eqb_neq. unfold kIeee1905FragmentationThreashold in *. lia. }
  rewrite Hb, Hz. set (k := 255 - Z.of_nat todo). fold (fragment_header k false hdr').
  assert (fragment_header k false hdr' = fragment_header k false hdr) as ->.
  { destruct Hh as [->|(k' & b' & ->)]; [done|]. by apply fragment_header_twice. }
  rewrite take_0, app_nil_r. st_run.
  destruct (send_link_up e s index f (packet <| payload := fragment_header k false hdr |>) Hup)
    as (Hr1 & Hr2 & Hr3 & Hr4).
  destruct (send_packet_to_network_interface e index _ s) as [ok s']. cbn [fst snd] in *. subst ok.
  cbn [negb]. destruct (IH (fragment_header k false hdr) s' Hr4) as [-> Hw]; [by eauto|].
  split; [done|]. rewrite Hw, Hr2, <- app_assoc. rewrite (seqZ_cons (256 - Z.of_nat (S todo))) by lia.
  cbn [fmap list_fmap app]. unfold k.
  replace (256 - Z.of_nat (S todo)) with (255 - Z.of_nat todo) by lia.
  replace (Z.succ (255 - Z.of_nat todo)) with (256 - Z.of_nat todo) by lia.
  replace (Z.pred (Z.of_nat (S todo))) with (Z.of_nat todo) by lia.
  do 2 f_equal. apply list_fmap_ext. intros ???. by rewrite Hr3.
Qed.

(** A TLV whose size is exactly the fragmentation threshold is accepted
    and never sent: the boundary search stops in front of it without having
    taken anything, so 256 fragments with an empty body go out and the
    method reports success. *)
Theorem full_size_tlv_is_never_sent {B} e (s : Transport B) index f packet hdr t rest :
  link_up e s index f → ether_type packet = ETH_P_1905_1 →
  src_if_type packet = IF_TYPE_LOCAL_BUS → payload packet = hdr ++ tlv_bytes t ++ rest →
  length hdr = sizeof_Ieee1905CmduHeader → t_type t ≠ 0 →
  tlv_len t = kIeee1905FragmentationThreashold → rest ≠ [] →
  let r := fragment_and_send_packet_to_network_interface e index packet s in
  r.1 = Some true
  ∧ wire r.2 = wire s ++ ((λ k, (f, ether_header s packet ++ fragment_header k false hdr))
                          <$> seqZ 0 256).
Proof.
  intros Hup He Hsrc Hp Hl Hty Ht Hrest. unfold fragment_and_send_packet_to_network_interface.
  assert (0 < length rest)%nat by (destruct rest; [done|cbn; lia]).
  rewrite He, Hsrc, !Z.eqb_refl, Hp, !length_app, length_tlv_bytes, Ht, Hl.
  unfold sizeof_Ieee1905CmduHeader in *.
  rewrite (proj2 (Nat.leb_gt _ _)) by lia. cbn [negb orb].
  rewrite take_app_length', drop_app_length' by done. rewrite (Nat.add_comm 8), Nat.add_sub.
  rewrite <- Ht, <- length_tlv_bytes, <- length_app.
  apply (send_fragments_stuck e index f packet 256 hdr hdr t rest s); by auto.
Qed.

(** ** Frames of the methods *)

(** The part of the state that sending and reassembling leave alone. *)
Definition core {B} (s : Transport B) :=
  (network_interfaces_ s, pending_network_interfaces_ s, (open_fds s, handlers s),
   (traffic_separation_enabled_ s, primary_vlan_id_ s, al_mac_addr_ s, message_id_ s),
   neighbors_map_ s, de_duplication_map_ s).

(** From [s] to [s'] frames were written to descriptors in [P] only. *)
Definition emits {B} (P : Z → Prop) (s s' : Transport B) : Prop :=
  core s' = core s ∧ ∃ new, wire s' = wire s ++ new ∧ Forall (λ fr : Z * list Z, P fr.1) new.

Lemma emits_refl {B} P (s : Transport B) : emits P s s.
Proof. split; [done|]. exists []. by rewrite app_nil_r. Qed.

Lemma emits_none {B} P (s s' : Transport B) : core s' = core s → wire s' = wire s → emits P s s'.
Proof. intros Hc Hw. split; [done|]. exists []. by rewrite app_nil_r. Qed.

Lemma emits_trans {B} P (s1 s2 s3 : Transport B) : emits P s1 s2 → emits P s2 s3 → emits P s1 s3.
Proof.
  intros [Hc1 (n1 & Hw1 & Hp1)] [Hc2 (n2 & Hw2 & Hp2)]. split; [congruence|].
  exists (n1 ++ n2). rewrite Hw2, Hw1, app_assoc. split; [done|]. by apply Forall_app.
Qed.

Lemma emits_weaken {B} (P Q : Z → Prop) (s1 s2 : Transport B) :
  (∀ f, P f → Q f) → emits P s1 s2 → emits Q s1 s2.
Proof.
  intros HPQ [Hc (n & Hw & Hn)]. split; [done|]. exists n. split; [done|].
  eapply Forall_impl; [done|]. eauto.
Qed.

(** [f] is the socket of the interface with this index. *)
Definition socket_of {B} (e : Env) (s : Transport B) (index f : Z) : Prop :=
  if_index2name e index ≠ EmptyString ∧
  (network_interfaces_ s !! if_index2name e index) ≫= fd = Some f.

Lemma socket_of_core {B} e (s s' : Transport B) index f : core s' = core s →
  socket_of e s' index f → socket_of e s index f.
Proof. unfold socket_of. intros Hc. injection Hc as -> _. done. Qed.

Lemma send_emits {B} e index packet (s : Transport B) :
  let s' := (send_packet_to_network_interface e index packet s).2 in
  emits (socket_of e s index) s s' ∧ de_fragmentation_map_ s' = de_fragmentation_map_ s.
Proof.
  unfold send_packet_to_network_interface. case_bool_decide; [by split; [apply emits_refl|]|].
  st_run. destruct (network_interfaces_ s !! _) as [i|] eqn:Ei; [|by split; [apply emits_refl|]].
  destruct (fd i) as [f|] eqn:Ef; [|by split; [apply emits_refl|]]. st_run.
  set (n := writev _ _ _ _). destruct (n <? 0); [by split; [apply emits_none|]|]. split; [|done].
  split; [done|]. eexists [_]. split; [done|]. apply Forall_singleton. cbn.
  split; [done|]. by rewrite Ei.
Qed.

Lemma send_fragments_emits {B} e index packet todo hdr tlv rem (s : Transport B) :
  let s' := (send_fragments e index packet todo hdr tlv rem s).2 in
  emits (socket_of e s index) s s' ∧ de_fragmentation_map_ s' = de_fragmentation_map_ s.
Proof.
  revert hdr tlv rem s. induction todo as [|todo IH]; intros hdr tlv rem s; cbn [send_fragments].
  { by split; [apply emits_refl|]. }
  destruct (rem =? 0)%nat; [by split; [apply emits_refl|]|].
  destruct find_boundary as [l nt r| |]; st_run; try (by split; [apply emits_refl|]).
  set (p := packet <| payload := _ |>). destruct (send_emits e index p s) as [He Hd].
  destruct (send_packet_to_network_interface e index p s) as [[] s1]; cbn [fst snd negb] in *; [|done].
  set (h := SetLastFragmentIndicator _ _).
  destruct (IH h nt r s1) as [IH1 IH2]. split; [|congruence].
  eapply emits_trans; [exact He|]. eapply emits_weaken; [|exact IH1].
  intros f. apply socket_of_core. apply He.
Qed.

Lemma fragment_and_send_emits {B} e index packet (s : Transport B) :
  let s' := (fragment_and_send_packet_to_network_interface e index packet s).2 in
  emits (socket_of e s index) s s' ∧ de_fragmentation_map_ s' = de_fragmentation_map_ s.
Proof.
  unfold fragment_and_send_packet_to_network_interface. destruct (_ || _)%bool; st_run.
  - apply send_emits. - apply send_fragments_emits.
Qed.

Lemma de_fragment_view {B} e packet (s : Transport B) :
  let s' := (de_fragment_packet e packet s).2 in core s' = core s ∧ wire s' = wire s.
Proof.
  unfold de_fragment_packet, defrag_cleanup.
  repeat (first [case_match; simplify_eq | progress st_run]); done.
Qed.

(** What a packet reported as complete looks like. *)
Lemma de_fragment_complete {B} e packet (s : Transport B) p' : defrag_inv s →
  (sizeof_Ieee1905CmduHeader ≤ length (payload packet))%nat →
  Z.of_nat (length (payload packet)) < 65536 →
  (de_fragment_packet e packet s).1 = Some (true, p') →
  (sizeof_Ieee1905CmduHeader ≤ length (payload p'))%nat
  ∧ Z.of_nat (length (payload p')) < 65536.
Proof.
  intros Hinv Hl Hmax. destruct (decide (ether_type packet = ETH_P_1905_1)) as [He|He].
  2:{ unfold de_fragment_packet. rewrite (proj2 (Z.eqb_neq _ _)) by done. by intros [= <-]. }
  destruct ((fragmentId (payload packet) =? 0) && GetLastFragmentIndicator (payload packet))%bool
    eqn:Hnf.
  { unfold de_fragment_packet. rewrite Hnf, He. cbn [negb Z.eqb].
    destruct (_ <? _)%nat eqn:E; [done|]. by intros [= <-]. }
  destruct (de_fragment_run e packet s He Hl Hnf) as [_ Hr]. revert Hr.
  set (m := filter _ (de_fragmentation_map_ s)). set (val := default _ _).
  assert (defrag_value_ok val) as Hval.
  { unfold val. destruct (m !! defrag_key packet) as [v|] eqn:E; [|done].
    apply map_lookup_filter_Some in E as [E _]. by eapply (di_buf _ Hinv). }
  destruct (_ <? _); [by intros [= -> _]|].
  destruct add_fragment as [[b v']|] eqn:E; intros [= -> _]; [|done]. intros [= -> <-].
  destruct (add_fragment_ok _ _ _ _ _ Hl Hval E) as [[Hb _] H8]. cbn. split; [by apply H8|].
  exact Hb.
Qed.
