(* ===== verification/Forwarding.v ===== *)
(** * Forwarding

    [forward_packet_single], [forward_packet], [handle_packet]
    ([ieee1905_transport_packet_processing.cpp]), [send_packet_to_broker]
    ([ieee1905_transport_local_bus.cpp]) and [handle_interface_pollin_event]
    ([ieee1905_transport_network.cpp]). The broker is used through
    [Publisher]. *)

From S2P Require Import Prelude Wire SocketFilter Messages Broker TransportState DeDuplication.
From S2P Require Import Interfaces Fragmentation.

Section Methods.
Context {B : Type} `{!Publisher B} (e : Env).
Local Notation M A := (faultM (Transport B) A).

(** ** The local bus *)

(** The metadata [send_packet_to_broker] fills in. *)
Definition rx_metadata (received_time : Z) (packet : Packet) : CmduMetadata :=
  let is_1905 := ether_type packet =? ETH_P_1905_1 in
  {| md_cookie := 0; md_dst := dst packet; md_src := src packet;
     md_ether_type := ether_type packet;
     md_msg_type := if is_1905 then messageType (payload packet) else 0;
     md_relay := is_1905 && GetRelayIndicator (payload packet);
     md_preset_message_id := false;
     md_if_type := src_if_type packet; md_if_index := src_if_index packet;
     md_length := u16 (Z.of_nat (length (payload packet)));
     md_received_time := received_time |}.

Definition rx_message (received_time : Z) (packet : Packet) : Message :=
  mkCmduMessage Type_CmduRxMessage (rx_metadata received_time packet) (payload packet).

(** [m_broker->publish(msg)]. *)
Definition broker_call (m : Message) : transportM B bool := λ s,
  ((publish m (m_broker s)).1, s <| m_broker := (publish m (m_broker s)).2 |>).

(** The frame is sized by the 16-bit [length]; a longer payload would be
    copied past its end, and a short one read past its header. *)
Definition send_packet_to_broker (packet : Packet) : M bool :=
  if 65536 <=? Z.of_nat (length (payload packet)) then fault
  else if ((ether_type packet =? ETH_P_1905_1)
           && (length (payload packet) <? sizeof_Ieee1905CmduHeader)%nat)%bool then fault
  else
    count INCOMMING_LOCAL_BUS_PACKETS ;;
    now ← gets (λ s, wall_clock e (clock_reads s));
    ok ← broker_call (rx_message now packet);
    if negb ok then fret false else fret true.

(** ** Deciding on the sinks *)

Record sinks := mkSinks {
  forward_to_broker : bool;
  forward_to_bridge : bool;
  forward_to_network_interfaces : bool;
}.

(** "Unicast to local device": the AL MAC or the address of an interface. *)
Definition addressed_to_this_device (s : Transport B) (packet : Packet) : bool :=
  if ETHER_IS_SAME (al_mac_addr_ s) (dst packet) then true
  else existsb (λ entry, ETHER_IS_SAME (addr entry.2) (dst packet))
         (in_key_order (network_interfaces_ s)).

(** Step 1 of [forward_packet_single]. *)
Definition decide_sinks (s : Transport B) (packet : Packet) : sinks :=
  if ETHER_IS_MULTICAST (dst packet) then
    let local := src_if_type packet =? IF_TYPE_LOCAL_BUS in
    let to_net :=
      if ether_type packet =? ETH_P_1905_1
      then if GetRelayIndicator (payload packet) then true else local
      else local in
    mkSinks true false to_net
  else if addressed_to_this_device s packet then mkSinks true false false
  else if src_if_type packet =? IF_TYPE_LOCAL_BUS then mkSinks false true false
  else mkSinks false false false.

(** ** Forwarding to the sinks *)

(** The condition on a candidate interface in the loop of step 2. *)
Definition forwards_on (k : sinks) (packet : Packet) (i : NetworkInterface) (index : Z) : bool :=
  (((forward_to_bridge k && is_bridge i) || (forward_to_network_interfaces k && negb (is_bridge i)))
   && bool_decide (is_Some (fd i))
   && ((dst_if_index packet =? 0) || (dst_if_index packet =? index))
   && negb ((src_if_type packet =? IF_TYPE_NET) && (src_if_index packet =? index)))%bool.

Fixpoint forward_to_interfaces (k : sinks) (packet : Packet)
    (l : list (string * NetworkInterface)) : M bool :=
  match l with
  | [] => fret true
  | (_, i) :: l =>
      let index := if_nametoindex e (ifname i) in
      ok <- (if forwards_on k packet i index
             then fragment_and_send_packet_to_network_interface e index packet
             else fret true) ;;
      if negb ok then fret false
      else if (is_bridge i && forward_to_bridge k && negb (forward_to_network_interfaces k))%bool
      then fret true
      else forward_to_interfaces k packet l
  end.

Definition forward_packet_single (packet : Packet) : M bool :=
  if dst_if_type packet =? IF_TYPE_LOCAL_BUS then send_packet_to_broker packet
  else if ((dst_if_type packet =? IF_TYPE_NET) && negb (dst_if_index packet =? 0))%bool then
    let name := if_index2name e (dst_if_index packet) in
    if bool_decide (name = EmptyString) then fret false
    else
      tracked ← gets (λ s, bool_decide (is_Some (network_interfaces_ s !! name)));
      if negb tracked then fret false
      else fragment_and_send_packet_to_network_interface e (dst_if_index packet) packet
  else
    k ← gets (λ s, decide_sinks s packet);
    if negb (forward_to_broker k || forward_to_bridge k || forward_to_network_interfaces k)
    then fret false
    else
      ok <- (if forward_to_broker k then
               r <- de_fragment_packet e packet ;;
               if (r : bool * Packet).1 then send_packet_to_broker r.2 else fret true
             else fret true) ;;
      if negb ok then fret false
      else if (forward_to_network_interfaces k || forward_to_bridge k)%bool then
        l ← gets (λ s, in_key_order (network_interfaces_ s));
        forward_to_interfaces k packet l
      else fret true.

(** The reliable multicast loop over the neighbours (in the order of the
    [unordered_map]): the packet object is reused for every copy. *)
Fixpoint forward_to_neighbours (packet : Packet) (success : bool) (l : list ieee1905_neighbor) :
    M (bool * Packet) :=
  match l with
  | [] => fret (success, packet)
  | n :: l =>
      let packet := packet <| dst := al_mac n |> in
      ok <- forward_packet_single packet ;;
      forward_to_neighbours packet (if ok then success else false) l
  end.

(** The packet comes back as the method leaves it. *)
Definition forward_packet (packet : Packet) : M (bool * Packet) :=
  if negb (ether_type packet =? ETH_P_1905_1) then fret (false, packet)
  else
    success <- forward_packet_single packet ;;
    if negb success then fret (false, packet)
    else if negb (ETHER_IS_MULTICAST (dst packet)) then fret (true, packet)
    else if negb (GetRelayIndicator (payload packet)) then fret (true, packet)
    else if negb (is_reliable_multicast packet) then fret (true, packet)
    else if negb (src_if_type packet =? IF_TYPE_LOCAL_BUS) then fret (true, packet)
    else
      neighbours ← gets (λ s, (map_to_list (neighbors_map_ s)).*2);
      forward_to_neighbours (packet <| payload ::= SetRelayIndicator false |>) success neighbours.

(** ** Packets *)

Definition handle_packet (packet : Packet) : M unit :=
  if negb (verify_packet packet) then fret tt
  else if negb (ether_type packet =? ETH_P_1905_1) then fret tt
  else
    update_neighbours e packet ;;
    fresh ← de_duplicate_packet e packet;
    if negb fresh then fret tt
    else
      r <- forward_packet packet ;;
      if negb (r : bool * Packet).1
      then remove_packet_from_de_duplication_map r.2 ;; fret tt
      else fret tt.

(** [sizeof(struct ether_header)] and [ETH_FRAME_LEN], the receive buffer. *)
Definition sizeof_ether_header : nat := 14.
Definition ETH_FRAME_LEN : nat := 1514.

(** The packet of a received frame. *)
Definition packet_of_frame (ifindex : Z) (frame : list Z) : Packet :=
  mkPacket IF_TYPE_NONE 0 IF_TYPE_NET ifindex (take 6 frame) (take 6 (drop 6 frame))
    (be16 (at_ frame 12) (at_ frame 13)) (drop sizeof_ether_header frame).

(** [handle_interface_pollin_event]: [recv] is what [recvfrom] finds, a frame
    with the index of its interface; [MSG_TRUNC] gives the full length. *)
Definition handle_interface_pollin_event (f : Z) (recv : option (Z * list Z)) : M unit :=
  if f <? 0 then fret tt
  else
    match recv with
    | None => fret tt
    | Some (ifindex, frame) =>
        if (length frame <? sizeof_ether_header)%nat then fret tt
        else
          count INCOMMING_NETWORK_PACKETS ;;
          handle_packet (packet_of_frame ifindex (take ETH_FRAME_LEN frame))
    end.

End Methods.

(** ** Lemmas: effects of the methods *)

(** What every method keeps: the device's tables, the reassembly bounds, and
    frames only where [P] allows them. *)
Record step_ok {B} (P : Z → Prop) (s s' : Transport B) : Prop := {
  so_emits : emits P s s';
  so_defrag : defrag_inv s → defrag_inv s';
}.

Lemma step_ok_refl {B} P (s : Transport B) : step_ok P s s.
Proof. split; [apply emits_refl|done]. Qed.
Lemma step_ok_trans {B} P (s1 s2 s3 : Transport B) :
  step_ok P s1 s2 → step_ok P s2 s3 → step_ok P s1 s3.
Proof. intros [? ?] [? ?]. split; [by eapply emits_trans|auto]. Qed.
Lemma step_ok_weaken {B} (P Q : Z → Prop) (s1 s2 : Transport B) :
  (∀ f, P f → Q f) → step_ok P s1 s2 → step_ok Q s1 s2.
Proof. intros HPQ [? ?]. split; [by eapply emits_weaken|done]. Qed.
#[export] Hint Resolve step_ok_refl : prpl.

Lemma defrag_inv_same {B} (s s' : Transport B) :
  de_fragmentation_map_ s' = de_fragmentation_map_ s → defrag_inv s → defrag_inv s'.
Proof. intros E [H1 H2]. by split; rewrite E. Qed.

Section Effects.
Context {B : Type} `{!Publisher B} (e : Env).
Implicit Types (s : Transport B) (packet : Packet).

Lemma fragment_and_send_step index packet s :
  step_ok (socket_of e s index) s
    (fragment_and_send_packet_to_network_interface e index packet s).2.
Proof.
  destruct (fragment_and_send_emits e index packet s) as [? ?].
  split; [done|by apply defrag_inv_same].
Qed.

Lemma de_fragment_step_ok P packet s : step_ok P s (de_fragment_packet e packet s).2.
Proof.
  destruct (de_fragment_view e packet s) as [? ?].
  split; [by apply emits_none|apply de_fragment_inv].
Qed.

Lemma send_packet_to_broker_step P packet s : step_ok P s (send_packet_to_broker e packet s).2.
Proof.
  unfold send_packet_to_broker, broker_call.
  repeat (first [case_match; simplify_eq | progress st_run]);
    try apply step_ok_refl; (split; [by apply emits_none|by apply defrag_inv_same]).
Qed.

(** The result of publishing: always accepted, and the message is recorded. *)
Lemma send_packet_to_broker_run packet s :
  (sizeof_Ieee1905CmduHeader ≤ length (payload packet))%nat →
  Z.of_nat (length (payload packet)) < 65536 →
  let r := send_packet_to_broker e packet s in
  r.1 = Some true ∧
  published (m_broker r.2)
  = published (m_broker s) ++ [rx_message (wall_clock e (clock_reads s)) packet].
Proof.
  intros Hl Hmax. unfold send_packet_to_broker. rewrite (proj2 (Z.leb_gt _ _)) by lia.
  rewrite (proj2 (Nat.ltb_ge _ _)) by done. rewrite andb_false_r. st_run.
  set (s1 := set_field counters_ _ s). unfold broker_call. cbn [fst snd].
  rewrite publish_result. cbn [negb]. st_run. split; [done|]. apply publish_log.
Qed.

(** The interfaces the loop of step 2 may send on. *)
Definition sink_socket (k : sinks) packet s (f : Z) : Prop :=
  ∃ name i, network_interfaces_ s !! name = Some i
    ∧ forwards_on k packet i (if_nametoindex e (ifname i)) = true
    ∧ socket_of e s (if_nametoindex e (ifname i)) f.

Lemma sink_socket_core k packet s s' f : core s' = core s →
  sink_socket k packet s' f → sink_socket k packet s f.
Proof.
  intros Hc (name & i & Hi & Hf & Hs). exists name, i. split; [|split; [done|]].
  - injection Hc as Hc _. by rewrite <- Hc. - by eapply socket_of_core.
Qed.

Lemma forward_to_interfaces_step k packet l s :
  (∀ x, x ∈ l → network_interfaces_ s !! x.1 = Some x.2) →
  step_ok (sink_socket k packet s) s (forward_to_interfaces e k packet l s).2.
Proof.
  revert s. induction l as [|[name i] l IH]; intros s Hl; cbn [forward_to_interfaces];
    [apply step_ok_refl|]. st_run.
  assert (network_interfaces_ s !! name = Some i) as Hi.
  { apply (Hl (name, i)). by left. }
  set (index := if_nametoindex e (ifname i)).
  set (act := if forwards_on k packet i index then _ else _).
  assert (step_ok (sink_socket k packet s) s (act s).2) as Hact.
  { unfold act. destruct (forwards_on k packet i index) eqn:Hf; [|apply step_ok_refl].
    eapply step_ok_weaken; [|apply fragment_and_send_step]. intros f Hs. exists name, i. eauto. }
  destruct (act s) as [[[]|] s1]; cbn [fst snd negb] in *; [|done|done].
  destruct (_ && _)%bool; [done|]. eapply step_ok_trans; [exact Hact|].
  assert (core s1 = core s) as Hc by apply Hact.
  eapply step_ok_weaken; [|apply IH].
  - intros f. by apply sink_socket_core.
  - intros x Hx. injection Hc as -> _. apply Hl. by right.
Qed.

(** The sockets a packet may go out on. *)
Definition packet_socket packet s (f : Z) : Prop :=
  if ((dst_if_type packet =? IF_TYPE_NET) && negb (dst_if_index packet =? 0))%bool
  then socket_of e s (dst_if_index packet) f
  else sink_socket (decide_sinks s packet) packet s f.

Lemma forward_packet_single_step packet s :
  step_ok (packet_socket packet s) s (forward_packet_single e packet s).2.
Proof.
  unfold forward_packet_single, packet_socket.
  destruct (_ =? IF_TYPE_LOCAL_BUS); [apply send_packet_to_broker_step|].
  destruct (_ && _)%bool.
  { case_bool_decide; [apply step_ok_refl|]. st_run. destruct (negb _); [apply step_ok_refl|].
    apply fragment_and_send_step. }
  st_run. set (k := decide_sinks s packet). destruct (negb _); [apply step_ok_refl|]. st_run.
  set (act := if forward_to_broker k then _ else _).
  assert (step_ok (sink_socket k packet s) s (act s).2) as Hact.
  { unfold act. destruct (forward_to_broker k); [|apply step_ok_refl]. st_run.
    pose proof (de_fragment_step_ok (sink_socket k packet s) packet s) as Hd.
    destruct (de_fragment_packet e packet s) as [[[[] p']|] s1]; cbn [fst snd] in *; [|done|done].
    eapply step_ok_trans; [exact Hd|apply send_packet_to_broker_step]. }
  destruct (act s) as [[[]|] s1]; cbn [fst snd negb] in *; [|done|done].
  destruct (_ || _)%bool; [|done]. st_run. eapply step_ok_trans; [exact Hact|].
  eapply step_ok_weaken; [|apply forward_to_interfaces_step].
  - intros f. apply sink_socket_core, Hact.
  - intros [n i] Hx. by apply elem_of_in_key_order.
Qed.
End Effects.

(** ** Invariants of packet handling *)

Section Handling.
Context {B : Type} `{!Publisher B} (e : Env).
Implicit Types (s : Transport B) (packet : Packet).

(** Neighbour tracking and de-duplication act on their own maps only. *)
Definition outside_maps s :=
  (network_interfaces_ s, open_fds s, wire s, de_fragmentation_map_ s,
   (al_mac_addr_ s, traffic_separation_enabled_ s, primary_vlan_id_ s, message_id_ s), m_broker s).

Lemma update_neighbours_outside packet s :
  let s' := (update_neighbours e packet s).2 in
  outside_maps s' = outside_maps s ∧ de_duplication_map_ s' = de_duplication_map_ s.
Proof.
  unfold update_neighbours.
  repeat (first [case_match; simplify_eq | progress st_run]); done.
Qed.

Lemma de_duplicate_outside packet s :
  let s' := (de_duplicate_packet e packet s).2 in
  outside_maps s' = outside_maps s ∧ neighbors_map_ s' = neighbors_map_ s.
Proof.
  unfold de_duplicate_packet.
  repeat (first [case_match; simplify_eq | progress st_run]); done.
Qed.

(** No out-of-bounds access in the methods below [handle_packet]. *)
Lemma send_packet_to_broker_safe packet s :
  (sizeof_Ieee1905CmduHeader ≤ length (payload packet))%nat →
  Z.of_nat (length (payload packet)) < 65536 → (send_packet_to_broker e packet s).1 ≠ None.
Proof. intros Hl Hm. by destruct (send_packet_to_broker_run e packet s Hl Hm) as [-> _]. Qed.

Lemma forward_to_interfaces_safe k packet l s : (forward_to_interfaces e k packet l s).1 ≠ None.
Proof.
  revert s. induction l as [|[name i] l IH]; intros s; cbn [forward_to_interfaces]; [done|]. st_run.
  set (act := if forwards_on _ _ _ _ then _ else _).
  assert ((act s).1 ≠ None) as Ha.
  { unfold act. destruct (forwards_on _ _ _ _); [apply fragment_and_send_safe|done]. }
  destruct (act s) as [[[]|] s1]; cbn [fst snd negb] in *; [|done|done].
  destruct (_ && _)%bool; [done|apply IH].
Qed.

Lemma forward_packet_single_safe packet s : defrag_inv s →
  (sizeof_Ieee1905CmduHeader + sizeof_Tlv ≤ length (payload packet))%nat →
  Z.of_nat (length (payload packet)) < 65536 → (forward_packet_single e packet s).1 ≠ None.
Proof.
  intros Hinv Hl Hm. unfold sizeof_Ieee1905CmduHeader, sizeof_Tlv in *. unfold forward_packet_single.
  assert (8 ≤ length (payload packet))%nat as Hl8 by lia.
  destruct (_ =? IF_TYPE_LOCAL_BUS); [by apply send_packet_to_broker_safe|].
  destruct (_ && _)%bool.
  { case_bool_decide; [done|]. st_run. destruct (negb _); [done|]. apply fragment_and_send_safe. }
  st_run. set (k := decide_sinks s packet). destruct (negb _); [done|]. st_run.
  set (act := if forward_to_broker k then _ else _).
  assert ((act s).1 ≠ None) as Ha.
  { unfold act. destruct (forward_to_broker k); [|done]. st_run.
    pose proof (de_fragment_safe e packet s Hl) as Hd.
    pose proof (de_fragment_complete e packet s) as Hc.
    destruct (de_fragment_packet e packet s) as [[[[] p']|] s1]; cbn [fst snd] in *; [|done|done].
    destruct (Hc p' Hinv) as [? ?]; [done..|]. by apply send_packet_to_broker_safe. }
  destruct (act s) as [[[]|] s1]; cbn [fst snd negb] in *; [|done|done].
  destruct (_ || _)%bool; [|done]. st_run. apply forward_to_interfaces_safe.
Qed.

Lemma forward_to_neighbours_ok packet b l s : defrag_inv s →
  (sizeof_Ieee1905CmduHeader + sizeof_Tlv ≤ length (payload packet))%nat →
  Z.of_nat (length (payload packet)) < 65536 →
  let r := forward_to_neighbours e packet b l s in r.1 ≠ None ∧ step_ok (λ _, True) s r.2.
Proof.
  revert packet b s. induction l as [|n l IH]; intros packet b s Hinv Hl Hm; cbn [forward_to_neighbours].
  { split; [done|apply step_ok_refl]. }
  st_run. set (p := packet <| dst := al_mac n |>).
  pose proof (forward_packet_single_safe p s Hinv Hl Hm) as Hs.
  pose proof (forward_packet_single_step e p s) as Hst.
  destruct (forward_packet_single e p s) as [[ok|] s1]; cbn [fst snd] in *; [|done].
  destruct (IH p (if ok then b else false) s1) as [IH1 IH2]; [by apply Hst|done..|].
  split; [done|]. eapply step_ok_trans; [|exact IH2]. by eapply step_ok_weaken; [|exact Hst].
Qed.

Lemma forward_packet_ok packet s : defrag_inv s →
  (sizeof_Ieee1905CmduHeader + sizeof_Tlv ≤ length (payload packet))%nat →
  Z.of_nat (length (payload packet)) < 65536 →
  let r := forward_packet e packet s in r.1 ≠ None ∧ step_ok (λ _, True) s r.2.
Proof.
  intros Hinv Hl Hm. unfold forward_packet. destruct (negb _); [by split; [|apply step_ok_refl]|].
  st_run. pose proof (forward_packet_single_safe packet s Hinv Hl Hm) as Hs.
  pose proof (forward_packet_single_step e packet s) as Hst.
  destruct (forward_packet_single e packet s) as [[ok|] s1]; cbn [fst snd] in *; [|done].
  assert (step_ok (λ _, True) s s1) as Hst1 by (by eapply step_ok_weaken; [|exact Hst]).
  destruct (negb ok); [done|]. destruct (negb _); [done|]. destruct (negb _); [done|].
  destruct (negb _); [done|]. destruct (negb _); [done|]. st_run.
  set (p := packet <| payload ::= SetRelayIndicator false |>).
  destruct (forward_to_neighbours_ok p ok (map_to_list (neighbors_map_ s1)).*2 s1) as [H1 H2].
  - by apply Hst.
  - cbn. by rewrite length_SetRelayIndicator.
  - cbn. by rewrite length_SetRelayIndicator.
  - split; [done|]. by eapply step_ok_trans.
Qed.
End Handling.

(** The whole invariant of the transport object. *)
Record transport_inv {B} (s : Transport B) : Prop := {
  tr_iface : iface_inv s;
  tr_defrag : defrag_inv s;
  tr_dedup : Z.of_nat (size (de_duplication_map_ s)) ≤ kMaximumDeDuplicationThreads;
}.

Section Main.
Context {B : Type} `{!Publisher B} (e : Env).
Implicit Types (s : Transport B) (packet : Packet).

(** The state [handle_packet] forwards in. *)
Lemma admitted_inv packet s : transport_inv s →
  transport_inv (de_duplicate_packet e packet (update_neighbours e packet s).2).2.
Proof.
  intros [Hi Hf Hd]. destruct (update_neighbours_outside e packet s) as [Hu Hud].
  set (s1 := (update_neighbours e packet s).2) in *.
  destruct (de_duplicate_outside e packet s1) as [Hv _].
  pose proof (de_duplicate_bound e packet s1) as Hb. rewrite Hud in Hb. specialize (Hb Hd).
  set (s2 := (de_duplicate_packet e packet s1).2) in *. rewrite Hu in Hv.
  injection Hv as Hn Ho _ Hdf _ _ _ _ _. split; [|by apply (defrag_inv_same s)|done].
  unfold iface_inv. by rewrite Hn, Ho.
Qed.

Lemma step_ok_inv P s s' : step_ok P s s' → transport_inv s → transport_inv s'.
Proof.
  intros [[Hc _] Hd] [Hi Hf Hb]. injection Hc as Hn _ Ho _ _ _ _ _ _ Hdd.
  split; [unfold iface_inv; by rewrite Hn, Ho|auto|by rewrite Hdd].
Qed.

Lemma handle_packet_ok packet s : transport_inv s → Z.of_nat (length (payload packet)) < 65536 →
  let r := handle_packet e packet s in r.1 = Some tt ∧ transport_inv r.2.
Proof.
  intros Hinv Hm. unfold handle_packet. destruct (verify_packet packet) eqn:Hv; [|done]. cbn [negb].
  destruct (Z.eqb_spec (ether_type packet) ETH_P_1905_1) as [He|]; [|done]. cbn [negb].
  pose proof (verify_packet_1905 _ Hv He) as Hl. st_run. pose proof (admitted_inv packet s Hinv) as Ha.
  destruct (de_duplicate_packet e packet _) as [[] s2]; cbn [fst snd negb] in *; [|done]. st_run.
  destruct (forward_packet_ok e packet s2) as [Hs Hst]; [apply Ha|exact Hl|done|].
  pose proof (step_ok_inv _ _ _ Hst Ha) as Hinv3.
  destruct (forward_packet e packet s2) as [[[ok p']|] s3]; cbn [fst snd] in *; [|done].
  destruct (negb ok); st_run; (split; [done|]); [|done].
  destruct Hinv3 as [Hi3 Hf3 Hd3]. split; [done|by apply (defrag_inv_same s3)|].
  change (Z.of_nat (size (delete (dedup_key p') (de_duplication_map_ s3))) ≤ kMaximumDeDuplicationThreads).
  assert (size (delete (dedup_key p') (de_duplication_map_ s3)) ≤ size (de_duplication_map_ s3))%nat; [|lia].
  apply map_subseteq_size, delete_subseteq.
Qed.

Lemma handle_interface_pollin_event_ok f recv s : transport_inv s →
  let r := handle_interface_pollin_event e f recv s in r.1 = Some tt ∧ transport_inv r.2.
Proof.
  intros Hinv. unfold handle_interface_pollin_event. destruct (f <? 0); [done|].
  destruct recv as [[ifindex frame]|]; [|done]. destruct (_ <? _)%nat; [done|]. st_run.
  apply handle_packet_ok.
  - destruct Hinv as [? ? ?]. split; [done|by apply (defrag_inv_same s)|done].
  - cbn. rewrite length_drop, length_take. unfold ETH_FRAME_LEN. lia.
Qed.

(** The kernel's interface names and indices agree, and 0 is no index. *)
Definition kernel_names : Prop :=
  if_indextoname e 0 = None ∧
  ∀ name, if_nametoindex e name ≠ 0 → if_indextoname e (if_nametoindex e name) = Some name.

(** Under the kernel's naming, a frame of the interface loop goes to the
    interface the loop is at. *)
Lemma sink_socket_interface k packet s f : kernel_names → iface_inv s →
  sink_socket e k packet s f →
  ∃ name i, network_interfaces_ s !! name = Some i ∧ fd i = Some f
    ∧ forwards_on k packet i (if_nametoindex e name) = true.
Proof.
  intros [H0 Hk] Hinv (name & i & Hi & Hf & Hne & Hs).
  pose proof (ti_name _ _ Hinv _ _ Hi) as Hname. rewrite Hname in *.
  unfold if_index2name in *. destruct (decide (if_nametoindex e name = 0)) as [Hz|Hz].
  { by rewrite Hz, H0 in Hne. }
  rewrite (Hk name Hz) in Hs. cbn in Hs. rewrite Hi in Hs. cbn in Hs. eauto.
Qed.

(** C4: What a received frame may cause on the network. Whatever the frame
    and the state, each frame the transport writes in response belongs to a
    multicast with the relay bit set and goes out on an active interface
    that is neither a bridge nor the interface it was received on. *)
Theorem received_frame_never_loops_back f ifindex frame s :
  kernel_names → iface_inv s →
  let p := packet_of_frame ifindex (take ETH_FRAME_LEN frame) in
  ∃ new, wire (handle_interface_pollin_event e f (Some (ifindex, frame)) s).2 = wire s ++ new
    ∧ Forall (λ fr : Z * list Z,
        ETHER_IS_MULTICAST (dst p) = true ∧ GetRelayIndicator (payload p) = true
        ∧ ∃ name i, network_interfaces_ s !! name = Some i ∧ fd i = Some fr.1
            ∧ is_bridge i = false ∧ if_nametoindex e name ≠ ifindex) new.
Proof.
  intros Hk Hinv p. unfold handle_interface_pollin_event.
  assert (∀ w : list (Z * list Z), w = w ++ []) as Hnil by (intros; by rewrite app_nil_r).
  destruct (f <? 0); [by exists []|]. destruct (_ <? _)%nat; [by exists []|]. st_run. fold p.
  set (s0 := set_field counters_ _ s). unfold handle_packet.
  destruct (negb _); [by exists []|].
  destruct (Z.eqb_spec (ether_type p) ETH_P_1905_1) as [He|]; [|by exists []]. cbn [negb]. st_run.
  destruct (update_neighbours_outside e p s0) as [Hu _].
  set (s1 := (update_neighbours e p s0).2) in *.
  destruct (de_duplicate_outside e p s1) as [Hd _].
  destruct (de_duplicate_packet e p s1) as [fresh s2]. cbn [fst snd] in *. rewrite Hu in Hd.
  injection Hd as Hn Ho Hw _ _ _ _ _ _. change (wire s0) with (wire s) in Hw.
  change (network_interfaces_ s0) with (network_interfaces_ s) in Hn.
  change (open_fds s0) with (open_fds s) in Ho.
  destruct (negb fresh); [exists []; by rewrite app_nil_r|]. st_run.
  assert (step_ok (packet_socket e p s2) s2 (forward_packet e p s2).2) as Hst.
  { unfold forward_packet. rewrite He, Z.eqb_refl. cbn [negb]. st_run.
    pose proof (forward_packet_single_step e p s2) as H.
    destruct (forward_packet_single e p s2) as [[[]|] s3]; cbn [fst snd negb] in *; try done.
    change (src_if_type p =? IF_TYPE_LOCAL_BUS) with false. by do 3 (destruct (negb _); [done|]). }
  destruct Hst as [[_ (new & Hnew & Hall)] _].
  exists new. split.
  { destruct (forward_packet e p s2) as [[[ok p']|] s3]; cbn [fst snd] in *; [|congruence].
    destruct (negb ok); st_run; [|congruence]. by rewrite <- Hw, <- Hnew. }
  eapply Forall_impl; [exact Hall|]. intros [g fr] Hg. cbn [fst] in *.
  unfold packet_socket in Hg. cbn [p packet_of_frame dst_if_type] in Hg.
  change (IF_TYPE_NONE =? IF_TYPE_NET) with false in Hg. cbn [andb] in Hg.
  apply sink_socket_interface in Hg as (name & i & Hi & Hg & Hfw); [|done|].
  2:{ unfold iface_inv. by rewrite Hn, Ho. }
  unfold forwards_on, decide_sinks in Hfw. rewrite He, Z.eqb_refl in Hfw.
  change (src_if_type p) with IF_TYPE_NET in Hfw. change (src_if_index p) with ifindex in Hfw.
  change (IF_TYPE_NET =? IF_TYPE_LOCAL_BUS) with false in Hfw.
  change (IF_TYPE_NET =? IF_TYPE_NET) with true in Hfw.
  destruct (ETHER_IS_MULTICAST (dst p)); [|by destruct (addressed_to_this_device s2 p), (is_bridge i)].
  destruct (GetRelayIndicator (payload p)); [|by destruct (is_bridge i)].
  cbn in Hfw. split; [done|]. split; [done|]. exists name, i. rewrite Hn in Hi.
  destruct (is_bridge i); [done|]. cbn in Hfw. bool_to_prop.
  by repeat split.
Qed.
End Main.

(** ** Exact runs on a working network *)

Section Runs.
Context {B : Type} `{!Publisher B} (e : Env).
Implicit Types (s : Transport B) (packet : Packet).

(** Every frame is written completely. *)
Definition writes_ok : Prop := ∀ w f frame, writev e w f frame = Z.of_nat (length frame).

(** The names of the active interfaces resolve. *)
Definition names_resolve s : Prop :=
  ∀ name i, network_interfaces_ s !! name = Some i → is_Some (fd i) →
    name ≠ EmptyString ∧ if_nametoindex e name ≠ 0.

(** A packet that is sent as it is. *)
Definition single_frame packet : Prop :=
  src_if_type packet ≠ IF_TYPE_LOCAL_BUS ∨ (length (payload packet) ≤ 1500)%nat.

Definition socket_id (i : NetworkInterface) : Z := default (-1) (fd i).

Lemma ether_header_core s s' packet : core s' = core s → ether_header s' packet = ether_header s packet.
Proof. intros Hc. injection Hc as _ _ _ _ Ht Hv _ _ _ _. unfold ether_header. by rewrite Ht, Hv. Qed.

Lemma network_interfaces_core s s' : core s' = core s → network_interfaces_ s' = network_interfaces_ s.
Proof. intros Hc. by injection Hc. Qed.

(** Sending on an interface of the table. *)
Lemma fragment_and_send_run name i packet s : kernel_names e → writes_ok → iface_inv s →
  names_resolve s → network_interfaces_ s !! name = Some i → is_Some (fd i) → single_frame packet →
  let r := fragment_and_send_packet_to_network_interface e (if_nametoindex e (ifname i)) packet s in
  r.1 = Some true ∧ core r.2 = core s
  ∧ wire r.2 = wire s ++ [(socket_id i, ether_header s packet ++ payload packet)].
Proof.
  intros [_ Hk] Hw Hinv Hn Hi [f Hf] Hsf. destruct (Hn name i Hi) as [Hne Hz]; [by eauto|].
  rewrite (ti_name _ _ Hinv _ _ Hi). set (index := if_nametoindex e name).
  assert (if_index2name e index = name) as Hname.
  { unfold if_index2name, index. by rewrite (Hk name Hz). }
  assert (link_up e s index f) as Hup.
  { split; rewrite ?Hname; [done| |done]. by rewrite Hi. }
  pose proof (fragment_and_send_emits e index packet s) as [[Hc _] _].
  split; [|split; [done|]]; clear Hc; unfold fragment_and_send_packet_to_network_interface;
    (rewrite (proj2 (orb_true_iff _ _)); [|destruct Hsf as [Hs|Hl];
       [right; by rewrite (proj2 (Z.eqb_neq _ _))
       |left; apply orb_true_iff; right; by apply Nat.leb_le]]); st_run;
    destruct (send_link_up e s index f packet Hup) as (H1 & H2 & _).
  - by rewrite H1.
  - rewrite H2. unfold socket_id. by rewrite Hf.
Qed.

(** The loop over the interfaces, when it does not stop at the bridge. *)
Lemma forward_to_interfaces_run k packet l s : kernel_names e → writes_ok → iface_inv s →
  names_resolve s → single_frame packet → forward_to_network_interfaces k = true →
  (∀ x, x ∈ l → network_interfaces_ s !! x.1 = Some x.2) →
  let r := forward_to_interfaces e k packet l s in
  r.1 = Some true ∧ core r.2 = core s
  ∧ wire r.2 = wire s ++
      ((λ x : string * NetworkInterface, (socket_id x.2, ether_header s packet ++ payload packet))
       <$> filter (λ x, forwards_on k packet x.2 (if_nametoindex e (ifname x.2)) = true) l).
Proof.
  intros Hk Hw Hinv Hn Hsf Hnet. revert s Hinv Hn.
  induction l as [|[name i] l IH]; intros s Hinv Hn Hl; cbn [forward_to_interfaces].
  { rewrite filter_nil. by rewrite app_nil_r. }
  assert (network_interfaces_ s !! name = Some i) as Hi by (apply (Hl (name, i)); by left).
  assert (∀ x, x ∈ l → network_interfaces_ s !! x.1 = Some x.2) as Hl' by (intros; apply Hl; by right).
  st_run. rewrite filter_cons. cbn [snd].
  destruct (forwards_on k packet i (if_nametoindex e (ifname i))) eqn:Hfw.
  - assert (is_Some (fd i)) as Hf by (unfold forwards_on in Hfw; bool_to_prop; done).
    destruct (fragment_and_send_run name i packet s) as (H1 & H2 & H3); [done..|].
    destruct (fragment_and_send_packet_to_network_interface e _ packet s) as [r1 s1].
    cbn [fst snd] in *. subst r1. cbn [negb]. rewrite Hnet. cbn [negb]. rewrite andb_false_r.
    rewrite decide_True by done.
    destruct (IH s1) as (IH1 & IH2 & IH3).
    + unfold iface_inv. injection H2 as -> _ -> _ _ _ _ _ _ _. done.
    + unfold names_resolve. by rewrite (network_interfaces_core _ _ H2).
    + by rewrite (network_interfaces_core _ _ H2).
    + rewrite IH3, H3, <- app_assoc. split; [done|]. split; [congruence|]. cbn [fmap list_fmap app].
      by rewrite (ether_header_core _ _ packet H2).
  - st_run. rewrite Hnet. cbn [negb]. rewrite andb_false_r. rewrite decide_False by done.
    by apply IH.
Qed.

(** The loop, when only the bridge is wanted: the first bridge ends it. *)
Lemma forward_to_bridge_run packet s pre bname br post :
  kernel_names e → writes_ok → iface_inv s → names_resolve s → single_frame packet →
  network_interfaces_ s !! bname = Some br → is_bridge br = true → is_Some (fd br) →
  Forall (λ x : string * NetworkInterface, is_bridge x.2 = false) pre →
  forwards_on (mkSinks false true false) packet br (if_nametoindex e (ifname br)) = true →
  let r := forward_to_interfaces e (mkSinks false true false) packet (pre ++ (bname, br) :: post) s in
  r.1 = Some true ∧ core r.2 = core s
  ∧ wire r.2 = wire s ++ [(socket_id br, ether_header s packet ++ payload packet)].
Proof.
  intros Hk Hw Hinv Hn Hsf Hi Hbr Hf Hpre Hfw. induction Hpre as [|[n i] pre Hnb _ IH];
    cbn [app forward_to_interfaces]; st_run.
  - rewrite Hfw. destruct (fragment_and_send_run bname br packet s) as (H1 & H2 & H3); [done..|].
    destruct (fragment_and_send_packet_to_network_interface e _ packet s) as [r1 s1].
    cbn [fst snd] in *. subst r1. cbn [negb]. by rewrite Hbr.
  - cbn [snd] in Hnb. assert (∀ index, forwards_on (mkSinks false true false) packet i index = false) as ->.
    { intros index. unfold forwards_on. by rewrite Hnb. }
    st_run. rewrite Hnb. exact IH.
Qed.

(** Handing a packet to the broker succeeds, once it is complete. *)
Lemma to_broker_run packet s : defrag_inv s →
  (sizeof_Ieee1905CmduHeader + sizeof_Tlv ≤ length (payload packet))%nat →
  Z.of_nat (length (payload packet)) < 65536 →
  let act := r <- de_fragment_packet e packet ;;
             if (r : bool * Packet).1 then send_packet_to_broker e r.2 else fret true in
  (act s).1 = Some true ∧ core (act s).2 = core s ∧ wire (act s).2 = wire s
  ∧ (fragmentId (payload packet) = 0 → GetLastFragmentIndicator (payload packet) = true →
     published (m_broker (act s).2)
     = published (m_broker s) ++ [rx_message (wall_clock e (clock_reads s)) packet]).
Proof.
  unfold sizeof_Ieee1905CmduHeader, sizeof_Tlv. intros Hinv Hl Hm. cbv zeta. st_run.
  pose proof (de_fragment_safe e packet s) as Hs. pose proof (de_fragment_complete e packet s) as Hc.
  pose proof (de_fragment_view e packet s) as [Hv1 Hv2].
  assert (fragmentId (payload packet) = 0 → GetLastFragmentIndicator (payload packet) = true →
          de_fragment_packet e packet s = (Some (true, packet), s)) as Hwhole.
  { intros H1 H2. unfold de_fragment_packet. rewrite H1, H2.
    destruct (negb _); [done|]. by rewrite (proj2 (Nat.ltb_ge _ _)) by (unfold sizeof_Ieee1905CmduHeader; lia). }
  destruct (de_fragment_packet e packet s) as [[[[] p']|] s1]; cbn [fst snd] in *; st_run.
  - destruct (Hc p' Hinv) as [H8 Hmx]; [unfold sizeof_Ieee1905CmduHeader; lia|done..|].
    pose proof (send_packet_to_broker_step e (λ _, False) p' s1) as [[Hb1 (new & Hb2 & Hb3)] _].
    destruct (send_packet_to_broker_run e p' s1 H8 Hmx) as [-> Hp].
    assert (new = []) as -> by (destruct new; [done|by apply Forall_cons in Hb3 as [? _]]).
    rewrite app_nil_r in Hb2. split; [done|]. split; [congruence|]. split; [congruence|].
    intros H1 H2. specialize (Hwhole H1 H2). by simplify_eq.
  - split; [done|]. split; [done|]. split; [done|]. intros H1 H2. by specialize (Hwhole H1 H2).
  - by destruct (Hs Hl).
Qed.

(** The interfaces a multicast is sent on: active, not a bridge, not the one
    it came from. *)
Definition flooded packet (x : string * NetworkInterface) : Prop :=
  is_bridge x.2 = false ∧ is_Some (fd x.2)
  ∧ ¬ (src_if_type packet = IF_TYPE_NET ∧ src_if_index packet = if_nametoindex e x.1).
#[local] Instance flooded_dec packet x : Decision (flooded packet x).
Proof. unfold flooded. apply _. Defined.

Definition flood s packet : list (Z * list Z) :=
  (λ x : string * NetworkInterface, (socket_id x.2, ether_header s packet ++ payload packet))
  <$> filter (flooded packet) (in_key_order (network_interfaces_ s)).

Lemma multicast_run packet s : kernel_names e → writes_ok → transport_inv s → names_resolve s →
  ether_type packet = ETH_P_1905_1 → ETHER_IS_MULTICAST (dst packet) = true →
  src_if_type packet = IF_TYPE_LOCAL_BUS ∨ GetRelayIndicator (payload packet) = true →
  dst_if_type packet ≠ IF_TYPE_LOCAL_BUS → dst_if_index packet = 0 →
  (sizeof_Ieee1905CmduHeader + sizeof_Tlv ≤ length (payload packet) ≤ 1500)%nat →
  let r := forward_packet_single e packet s in
  r.1 = Some true ∧ core r.2 = core s ∧ wire r.2 = wire s ++ flood s packet.
Proof.
  intros Hk Hw Hinv Hn He Hmc Hor Hdt Hdi [Hl Hl2]. unfold forward_packet_single.
  rewrite (proj2 (Z.eqb_neq _ _)) by done. rewrite Hdi. cbn [Z.eqb negb]. rewrite andb_false_r. st_run.
  assert (decide_sinks s packet = mkSinks true false true) as ->.
  { unfold decide_sinks. rewrite Hmc, He, Z.eqb_refl.
    destruct Hor as [-> | ->]; [|done]. by destruct (GetRelayIndicator _). }
  cbn [forward_to_broker forward_to_bridge forward_to_network_interfaces negb orb].
  rewrite fbind_run.
  destruct (to_broker_run packet s) as (H1 & H2 & H3 & _); [apply Hinv|done|lia|].
  destruct (fbind _ _ s) as [r1 s1]. cbn [fst snd] in *. subst r1. cbn [negb]. st_run.
  destruct (forward_to_interfaces_run (mkSinks true false true) packet
              (in_key_order (network_interfaces_ s1)) s1) as (G1 & G2 & G3); try done.
  - unfold iface_inv. injection H2 as -> _ -> _ _ _ _ _ _ _. apply Hinv.
  - unfold names_resolve. by rewrite (network_interfaces_core _ _ H2).
  - by right.
  - intros [n i] Hx. by apply elem_of_in_key_order.
  - split; [done|]. split; [congruence|]. rewrite G3, H3. unfold flood.
    rewrite (network_interfaces_core _ _ H2), (ether_header_core _ _ packet H2). do 2 f_equal.
    apply list_filter_iff_in. intros [n i] Hx%elem_of_in_key_order. cbn [snd].
    rewrite (ti_name _ _ (tr_iface _ Hinv) _ _ Hx). unfold forwards_on, flooded. cbn [fst snd].
    rewrite Hdi. cbn [forward_to_bridge forward_to_network_interfaces andb orb Z.eqb].
    rewrite !andb_true_r, !andb_true_iff, bool_decide_eq_true, !negb_true_iff, andb_false_iff,
      !Z.eqb_neq. destruct (decide (src_if_type packet = IF_TYPE_NET)); tauto.
Qed.

(** The one bridge of the device, active. *)
Definition the_bridge s (bname : string) (br : NetworkInterface) : Prop :=
  network_interfaces_ s !! bname = Some br ∧ is_bridge br = true ∧ is_Some (fd br)
  ∧ ∀ name i, network_interfaces_ s !! name = Some i → is_bridge i = true → name = bname.

Lemma the_bridge_first s bname br : the_bridge s bname br →
  ∃ pre post, in_key_order (network_interfaces_ s) = pre ++ (bname, br) :: post
    ∧ Forall (λ x : string * NetworkInterface, is_bridge x.2 = false) pre.
Proof.
  intros (Hi & Hb & _ & Hu).
  destruct (list_elem_of_split (in_key_order (network_interfaces_ s)) (bname, br)) as (pre & post & E).
  { by apply elem_of_in_key_order. }
  exists pre, post. split; [done|]. apply Forall_forall. intros [n i] Hx. cbn.
  destruct (is_bridge i) eqn:Hbi; [|done]. exfalso.
  assert (network_interfaces_ s !! n = Some i) as Hn.
  { apply elem_of_in_key_order. rewrite E. set_solver. }
  pose proof (Hu n i Hn Hbi) as ->. simplify_eq.
  assert (NoDup (in_key_order (network_interfaces_ s))) as Hnd.
  { rewrite in_key_order_Permutation. apply NoDup_map_to_list. }
  rewrite E in Hnd. apply NoDup_app in Hnd as (_ & Hnd & _). apply (Hnd _ Hx). by left.
Qed.

(** A neighbour the local device is not. *)
Definition remote s (n : ieee1905_neighbor) : Prop :=
  ETHER_IS_MULTICAST (al_mac n) = false
  ∧ ETHER_IS_SAME (al_mac_addr_ s) (al_mac n) = false
  ∧ ∀ name i, network_interfaces_ s !! name = Some i → ETHER_IS_SAME (addr i) (al_mac n) = false.

(** The unicast frame of a packet for a neighbour. *)
Definition unicast_frame packet (n : ieee1905_neighbor) : list Z :=
  (al_mac n ++ src packet ++ be16_bytes (ether_type packet)) ++ payload packet.

Lemma unicast_run packet n s bname br : kernel_names e → writes_ok → iface_inv s →
  names_resolve s → the_bridge s bname br → remote s n →
  src_if_type packet = IF_TYPE_LOCAL_BUS →
  dst_if_type packet ≠ IF_TYPE_LOCAL_BUS → dst_if_index packet = 0 →
  (length (payload packet) ≤ 1500)%nat →
  let r := forward_packet_single e (packet <| dst := al_mac n |>) s in
  r.1 = Some true ∧ core r.2 = core s
  ∧ wire r.2 = wire s ++ [(socket_id br, unicast_frame packet n)].
Proof.
  intros Hk Hw Hinv Hn Hbr (Hr1 & Hr2 & Hr3) Hsrc Hdt Hdi Hl. unfold forward_packet_single.
  set (p := packet <| dst := al_mac n |>).
  change (dst_if_type p) with (dst_if_type packet). change (dst_if_index p) with (dst_if_index packet).
  rewrite (proj2 (Z.eqb_neq _ _)) by done. rewrite Hdi. cbn [Z.eqb negb]. rewrite andb_false_r. st_run.
  assert (decide_sinks s p = mkSinks false true false) as ->.
  { unfold decide_sinks, addressed_to_this_device. change (dst p) with (al_mac n). rewrite Hr1, Hr2.
    destruct (existsb _ _) eqn:E.
    - apply existsb_exists in E as ([name i] & Hx & Hs). apply list_elem_of_In in Hx.
      apply elem_of_in_key_order in Hx. cbn in Hs. by rewrite (Hr3 name i Hx) in Hs.
    - change (src_if_type p) with (src_if_type packet). by rewrite Hsrc. }
  cbn [forward_to_broker forward_to_bridge forward_to_network_interfaces negb orb]. st_run.
  cbn [negb orb]. st_run.
  destruct (the_bridge_first s bname br Hbr) as (pre & post & -> & Hpre).
  destruct Hbr as (Hi & Hb & Hf & _).
  destruct (forward_to_bridge_run p s pre bname br post) as (G1 & G2 & G3); try done.
  - by right.
  - unfold forwards_on. cbn [forward_to_bridge forward_to_network_interfaces].
    change (dst_if_index p) with (dst_if_index packet). change (src_if_type p) with (src_if_type packet).
    rewrite Hb, Hdi, Hsrc, bool_decide_true by done. done.
  - split; [done|]. split; [done|]. rewrite G3. unfold ether_header. change (dst p) with (al_mac n).
    by rewrite Hr1.
Qed.

Lemma forward_to_neighbours_run packet l s bname br : kernel_names e → writes_ok → iface_inv s →
  names_resolve s → the_bridge s bname br → Forall (remote s) l →
  src_if_type packet = IF_TYPE_LOCAL_BUS →
  dst_if_type packet ≠ IF_TYPE_LOCAL_BUS → dst_if_index packet = 0 →
  (length (payload packet) ≤ 1500)%nat →
  let r := forward_to_neighbours e packet true l s in
  fst <$> r.1 = Some true
  ∧ wire r.2 = wire s ++ ((λ n, (socket_id br, unicast_frame packet n)) <$> l).
Proof.
  intros Hk Hw Hinv Hn Hbr Hl. revert packet s Hinv Hn Hbr Hl.
  induction l as [|n l IH]; intros packet s Hinv Hn Hbr Hl Hsrc Hdt Hdi Hlen; cbn [forward_to_neighbours].
  { by rewrite app_nil_r. }
  apply Forall_cons in Hl as [Hrn Hl]. st_run.
  destruct (unicast_run packet n s bname br) as (H1 & H2 & H3); [done..|].
  destruct (forward_packet_single e _ s) as [r1 s1]. cbn [fst snd] in *. subst r1.
  pose proof (network_interfaces_core _ _ H2) as Hni.
  destruct (IH (packet <| dst := al_mac n |>) s1) as [IH1 IH2]; try done.
  - unfold iface_inv. injection H2 as -> _ -> _ _ _ _ _ _ _. done.
  - unfold names_resolve. by rewrite Hni.
  - unfold the_bridge. by rewrite Hni.
  - eapply Forall_impl; [exact Hl|]. intros n' Hr. unfold remote. rewrite Hni.
    assert (al_mac_addr_ s1 = al_mac_addr_ s) as -> by (by injection H2). exact Hr.
  - split; [done|]. rewrite IH2, H3, <- app_assoc. done.
Qed.

(** C3: Reliable multicast. A relayed multicast of a reliable type from the
    local bus, which fits into one frame, is written once to every active
    interface of the device but the bridge, and after that, through the bridge,
    once to every known neighbour as a unicast whose relay bit is cleared;
    nothing else is written. The names of the interfaces resolve, there is one
    bridge, and all writes succeed. The comment above [forward_packet_single]
    has the unicasts first; the code sends them last. *)
Theorem reliable_multicast_reaches_neighbours packet s bname br : kernel_names e → writes_ok →
  transport_inv s → names_resolve s → the_bridge s bname br →
  Forall (remote s) (map_to_list (neighbors_map_ s)).*2 →
  ether_type packet = ETH_P_1905_1 → src_if_type packet = IF_TYPE_LOCAL_BUS →
  ETHER_IS_MULTICAST (dst packet) = true → GetRelayIndicator (payload packet) = true →
  is_reliable_multicast packet = true →
  dst_if_type packet ≠ IF_TYPE_LOCAL_BUS → dst_if_index packet = 0 →
  (sizeof_Ieee1905CmduHeader + sizeof_Tlv ≤ length (payload packet) ≤ 1500)%nat →
  let r := forward_packet e packet s in
  fst <$> r.1 = Some true
  ∧ wire r.2 = wire s ++ flood s packet
      ++ ((λ n, (socket_id br,
                 unicast_frame (packet <| payload ::= SetRelayIndicator false |>) n))
          <$> (map_to_list (neighbors_map_ s)).*2).
Proof.
  intros Hk Hw Hinv Hn Hbr Hnb He Hsrc Hmc Hrel Hreli Hdt Hdi Hl. unfold forward_packet.
  rewrite He, Z.eqb_refl. cbn [negb]. st_run.
  destruct (multicast_run packet s) as (H1 & H2 & H3); try done; [by left|].
  destruct (forward_packet_single e packet s) as [r1 s1]. cbn [fst snd] in *. subst r1.
  rewrite Hmc, Hrel, Hreli, Hsrc, Z.eqb_refl. cbn [negb]. st_run.
  pose proof (network_interfaces_core _ _ H2) as Hni.
  assert (neighbors_map_ s1 = neighbors_map_ s) as -> by (by injection H2).
  set (p := packet <| payload ::= SetRelayIndicator false |>).
  destruct (forward_to_neighbours_run p (map_to_list (neighbors_map_ s)).*2 s1 bname br) as [G1 G2]; try done.
  - unfold iface_inv. injection H2 as -> _ -> _ _ _ _ _ _ _. apply Hinv.
  - unfold names_resolve. by rewrite Hni.
  - unfold the_bridge. by rewrite Hni.
  - eapply Forall_impl; [exact Hnb|]. intros n' Hr. unfold remote. rewrite Hni.
    assert (al_mac_addr_ s1 = al_mac_addr_ s) as -> by (by injection H2). exact Hr.
  - unfold p. cbn. rewrite length_SetRelayIndicator. apply Hl.
  - split; [done|]. by rewrite G2, H3, <- app_assoc.
Qed.

(** C5: Relaying. A relayed multicast received from the network is written,
    unchanged, exactly once to every active interface except the bridge and
    the interface it came from. *)
Theorem relayed_multicast_floods packet s : kernel_names e → writes_ok → transport_inv s →
  names_resolve s → ether_type packet = ETH_P_1905_1 → ETHER_IS_MULTICAST (dst packet) = true →
  src_if_type packet = IF_TYPE_NET → GetRelayIndicator (payload packet) = true →
  dst_if_type packet = IF_TYPE_NONE → dst_if_index packet = 0 →
  (sizeof_Ieee1905CmduHeader + sizeof_Tlv ≤ length (payload packet) ≤ 1500)%nat →
  let r := forward_packet e packet s in
  r.1 = Some (true, packet) ∧ wire r.2 = wire s ++ flood s packet.
Proof.
  intros Hk Hw Hinv Hn He Hmc Hsrc Hrel Hdt Hdi Hl. unfold forward_packet.
  rewrite He, Z.eqb_refl. cbn [negb]. st_run.
  destruct (multicast_run packet s) as (H1 & H2 & H3); try done; [by right|by rewrite Hdt|].
  destruct (forward_packet_single e packet s) as [r1 s1]. cbn [fst snd] in *. subst r1.
  rewrite Hmc, Hrel, Hsrc. cbn [negb]. change (IF_TYPE_NET =? IF_TYPE_LOCAL_BUS) with false.
  cbn [negb]. destruct (is_reliable_multicast packet); st_run; done.
Qed.
End Runs.

(** ** De-duplication and failed forwarding *)

Section Failures.
Context {B : Type} `{!Publisher B} (e : Env).
Implicit Types (s : Transport B) (packet : Packet).

(** The state in which a packet is forwarded, after the checks before it. *)
Definition admission packet s : bool * Transport B :=
  de_duplicate_packet e packet (update_neighbours e packet s).2.

Lemma handle_packet_failed packet p' s : verify_packet packet = true →
  ether_type packet = ETH_P_1905_1 → (admission packet s).1 = true →
  (forward_packet e packet (admission packet s).2).1 = Some (false, p') →
  core (forward_packet e packet (admission packet s).2).2 = core (admission packet s).2 →
  let s' := (handle_packet e packet s).2 in
  de_duplication_map_ s' = delete (dedup_key p') (de_duplication_map_ (admission packet s).2)
  ∧ al_mac_addr_ s' = al_mac_addr_ (admission packet s).2.
Proof.
  unfold admission. intros Hv He Ha Hf Hc. unfold handle_packet. rewrite Hv, He, Z.eqb_refl. cbn [negb].
  st_run. rewrite Ha. cbn [negb]. st_run.
  set (s2 := (de_duplicate_packet e packet _).2) in *.
  destruct (forward_packet e packet s2) as [r s3]. cbn [fst snd] in *. subst r. cbn [fst snd negb].
  st_run. injection Hc as _ _ _ _ _ _ Hal _ _ Hd.
  change (delete (dedup_key p') (de_duplication_map_ s3) = delete (dedup_key p') (de_duplication_map_ s2)
          ∧ al_mac_addr_ s3 = al_mac_addr_ s2). by rewrite Hd, Hal.
Qed.

(** A packet from the network whose forwarding fails is forgotten by the
    de-duplication, so that its retransmission is taken as new, when it is
    not a reliable multicast. *)
Theorem failed_forward_is_forgotten packet s : transport_inv s → verify_packet packet = true →
  ether_type packet = ETH_P_1905_1 → Z.of_nat (length (payload packet)) < 65536 →
  has_twin packet = false → (admission packet s).1 = true →
  (forward_packet e packet (admission packet s).2).1 = Some (false, packet) →
  de_duplication_map_ (handle_packet e packet s).2 !! dedup_key packet = None.
Proof.
  intros Hinv Hv He Hm Ht Ha Hf.
  destruct (forward_packet_ok e packet (admission packet s).2) as [_ [[Hc _] _]];
    [by apply admitted_inv|by apply verify_packet_1905|done|].
  destruct (handle_packet_failed packet packet s Hv He Ha Hf Hc) as [-> _].
  apply lookup_delete_eq.
Qed.

(** A reliable multicast from the network whose forwarding fails is not
    forgotten: it was recorded under the key with the device's own address,
    the clean-up erases the key with the multicast address, and the
    retransmission within the de-duplication age is dropped. *)
Theorem failed_reliable_multicast_is_lost packet s : transport_inv s →
  verify_packet packet = true → ether_type packet = ETH_P_1905_1 →
  Z.of_nat (length (payload packet)) < 65536 → has_twin packet = true →
  dst packet = ieee1905_multicast_addr → length (al_mac_addr_ s) = ETH_ALEN →
  al_mac_addr_ s ≠ ieee1905_multicast_addr → (admission packet s).1 = true →
  (forward_packet e packet (admission packet s).2).1 = Some (false, packet) →
  (∀ i j, clock e i ≤ clock e j + kMaximumDeDuplicationAge) →
  (admission packet (handle_packet e packet s).2).1 = false.
Proof.
  intros Hinv Hv He Hm Ht Hdst Hal Hne Ha Hf Hclk.
  destruct (forward_packet_ok e packet (admission packet s).2) as [_ [[Hc _] _]];
    [by apply admitted_inv|by apply verify_packet_1905|done|].
  destruct (handle_packet_failed packet packet s Hv He Ha Hf Hc) as [Hd Hal'].
  destruct (update_neighbours_outside e packet s) as [Hu Hud].
  set (s1 := (update_neighbours e packet s).2) in *.
  assert (al_mac_addr_ s1 = al_mac_addr_ s) as Hal1 by (by injection Hu as _ _ _ _ ? _ _ _ _).
  pose proof (de_duplicate_records e packet s1 He Ha) as Hk. rewrite Hal1 in Hk.
  destruct (de_duplicate_frame e packet s1) as [Hal2 _].
  set (s' := (handle_packet e packet s).2) in *.
  destruct (update_neighbours_outside e packet s') as [Hu' Hud'].
  unfold admission. set (s3 := (update_neighbours e packet s').2) in *.
  assert (al_mac_addr_ s3 = al_mac_addr_ s) as Hal3.
  { transitivity (al_mac_addr_ s'); [by injection Hu' as _ _ _ _ ? _ _ _ _|]. rewrite Hal'. unfold admission.
    fold s1. by rewrite Hal2, Hal1. }
  eapply (de_duplicate_drops e packet s3 (stored_key (al_mac_addr_ s) packet));
    [done|by rewrite Hal3; apply stored_key_looked_up| |apply Hclk].
  rewrite Hud', Hd. apply lookup_delete_Some. split; [|exact Hk].
  unfold stored_key. rewrite Ht. unfold swap_destination. cbn [dedup_key ddk_dst].
  rewrite Hdst. unfold ETHER_IS_SAME.
  rewrite (firstn_all2 (al_mac_addr_ s)) by (by rewrite Hal).
  rewrite bool_decide_false by (cbn; done). cbn. intros Heq. apply Hne.
  injection Heq as Heq. by rewrite <- Heq, Hdst.
Qed.
End Failures.
