(* ===== verification/LocalBus.v ===== *)
(** * Local bus

    The handlers of [ieee1905_transport_local_bus.cpp] for the messages that
    local processes send through the broker, and the transport as a whole: its
    events, the states they reach and what holds in all of them. *)

From S2P Require Import Prelude Wire SocketFilter Messages Broker TransportState DeDuplication.
From S2P Require Import Interfaces Fragmentation Forwarding.

Section Methods.
Context {B : Type} `{!Publisher B} (e : Env).
Local Notation M A := (faultM (Transport B) A).

(** ** Transmitting a CMDU *)

(** [message_id_] is a [uint16_t]. *)
Definition get_next_message_id : transportM B Z :=
  modify (λ s, s <| message_id_ ::= λ i, u16 (i + 1) |>) ;;
  id ← gets message_id_;
  (if id =? 0 then count MESSAGE_ID_WRAPAROUND else mret tt) ;;
  mret id.

(** The packet of a [CmduTxMessage]. *)
Definition packet_of_cmdu_tx (f : list Z) : Packet :=
  let md := decode_cmdu_metadata f in
  mkPacket (md_if_type md) (md_if_index md) IF_TYPE_LOCAL_BUS 0 (md_dst md) (md_src md)
    (md_ether_type md) (cmdu_data f).

(** A failed [mapf_assert] ends the process. *)
Definition handle_broker_cmdu_tx_message (f : list Z) : M unit :=
  let md := decode_cmdu_metadata f in
  let packet := packet_of_cmdu_tx f in
  packet <-
    (if ether_type packet =? ETH_P_1905_1 then
       if (length (payload packet) <? sizeof_Ieee1905CmduHeader)%nat then fault
       else
         packet ← (if negb (md_preset_message_id md) then
                     messageId ← get_next_message_id;
                     mret (packet <| payload ::= set_messageId messageId |>)
                   else mret packet);
         (if negb (md_cookie md =? 0) then
            broker_call (mkCmduTxConfirmationMessage (md_cookie md) (md_ether_type md)
                           (md_msg_type md) (messageId (payload packet))) ;; mret tt
          else mret tt) ;;
         fret packet
     else fret packet) ;;
  count OUTGOING_LOCAL_BUS_PACKETS ;;
  handle_packet e packet.

(** ** Configuration *)

(** [added_updated_network_interfaces[name]] with its three fields set. *)
Definition configured (name bridge : string) (is_bridge : bool) : NetworkInterface :=
  mkNetworkInterface None (replicate 6 0) name bridge is_bridge.

(** Both names are read as C strings. The interface's name is read first and
    comes last in the message, so that a message in which it ends also ends the
    bridge's name. *)
Definition handle_broker_interface_configuration_request_message (f : list Z) : M unit :=
  if negb (c_string_ends (drop 17 f)) then fault
  else if ifc_is_bridge f then
    let bridge := ifc_iface_name f in
    modify (λ s, s <| bridge_name_ := bridge |>) ;;
    match bridge_read_state e bridge, ifc_add f with
    | Some bridge_state, true =>
        let added := {[bridge := configured bridge EmptyString true]} in
        let added :=
          foldl (λ added name,
                   if if_nametoindex e name =? 0 then added
                   else <[name := configured name bridge false]> added)
            added (elements bridge_state) in
        update_network_interfaces e added ∅ ;; fret tt
    | _, _ =>
        removed ← gets network_interfaces_;
        update_network_interfaces e ∅ removed ;; fret tt
    end
  else
    let name := ifc_iface_name f in
    let bridge := ifc_bridge_name f in
    if ifc_add f then
      update_network_interfaces e {[name := configured name bridge false]} ∅ ;; fret tt
    else
      update_network_interfaces e ∅ {[name := configured name bridge false]} ;; fret tt.

Definition handle_al_mac_addr_configuration_message (f : list Z) : transportM B unit :=
  set_al_mac_addr e (alm_al_mac f).

Definition handle_vlan_configuration_request_message (f : list Z) : transportM B unit :=
  set_primary_vlan_id (vlan_vlan_id f) (vlan_add f).

(** ** Dispatch *)

Definition handle_broker_pollin_event (m : Message) : M unit :=
  if m_type m =? Type_CmduTxMessage then handle_broker_cmdu_tx_message (frame m)
  else if m_type m =? Type_InterfaceConfigurationRequestMessage then
    handle_broker_interface_configuration_request_message (frame m)
  else if m_type m =? Type_AlMacAddressConfigurationMessage then
    handle_al_mac_addr_configuration_message (frame m) ;; fret tt
  else if m_type m =? Type_VlanConfigurationRequestMessage then
    handle_vlan_configuration_request_message (frame m) ;; fret tt
  else fret tt.

End Methods.

(** ** The transport as a state machine *)

Inductive transport_event :=
  | EvBrokerMessage (m : Message)
  | EvFrame (f : Z) (recv : option (Z * list Z))
  | EvIface (ev : iface_event).

Definition transport_step {B} `{!Publisher B} (e : Env) (ev : transport_event) :
    faultM (Transport B) unit :=
  match ev with
  | EvBrokerMessage m => handle_broker_pollin_event e m
  | EvFrame f recv => handle_interface_pollin_event e f recv
  | EvIface ev => modify (iface_step e ev) ;; fret tt
  end.

(** The messages the broker hands to the transport: bytes, and no request to
    subscribe, which the broker handles itself. *)
Definition event_ok (ev : transport_event) : Prop :=
  match ev with
  | EvBrokerMessage m => bytes_ok (frame m) ∧ m_type m ≠ Type_SubscribeMessage
  | _ => True
  end.

(** The two messages the transport does not survive: a 1905 CMDU announced
    shorter than its header, on which the assertion ends the process, and a
    configuration of an interface whose name does not end inside of the
    message, which is read past its end. *)
Definition short_cmdu (m : Message) : Prop :=
  m_type m = Type_CmduTxMessage
  ∧ md_ether_type (decode_cmdu_metadata (frame m)) = ETH_P_1905_1
  ∧ md_length (decode_cmdu_metadata (frame m)) < Z.of_nat sizeof_Ieee1905CmduHeader.

Definition endless_name (m : Message) : Prop :=
  m_type m = Type_InterfaceConfigurationRequestMessage ∧ c_string_ends (drop 17 (frame m)) = false.

Definition fatal_event (ev : transport_event) : Prop :=
  match ev with
  | EvBrokerMessage m => short_cmdu m ∨ endless_name m
  | _ => False
  end.

(** Every event finds an environment of its own: the kernel's tables and the
    results of its calls change from one event to the next. Events follow only
    on an event that was handled to its end. *)
Inductive transport_reachable {B} `{!Publisher B} (b : B) (now : Z) : Transport B → Prop :=
  | tr_init : transport_reachable b now (Transport_init b now)
  | tr_step s e ev : transport_reachable b now s → fresh_sockets e → event_ok ev →
      (transport_step e ev s).1 = Some tt →
      transport_reachable b now (transport_step e ev s).2.

(** ** Lemmas: interface events leave the packet maps alone *)

Section Maps.
Context {B : Type} (e : Env).
Implicit Types (s : Transport B).

Definition packet_maps s := (de_fragmentation_map_ s, de_duplication_map_ s).

(** Runs a method on every branch. *)
Ltac run_branches := repeat (first [progress case_match; simplify_eq | progress st_run]); try done.

Lemma attach_maps i s : packet_maps (attach_interface_socket_filter e i s).2 = packet_maps s.
Proof. unfold attach_interface_socket_filter. run_branches. Qed.

Lemma activate_maps i s : packet_maps (activate_interface e i s).2 = packet_maps s.
Proof.
  unfold activate_interface, open_interface_socket, register_handlers, close_fd.
  destruct (fd i); [done|]. st_run. destruct (_ <? 0); [done|]. st_run.
  destruct (negb _); [done|]. destruct (negb _); [done|]. destruct (negb _); [done|]. st_run.
  set (j := _ <| fd := Some _ |>). set (s1 := s <| open_fds ::= _ |>).
  pose proof (attach_maps j s1) as Ha. destruct (is_bridge j); st_run; [exact Ha|].
  change (fd j) with (Some (socket_call e (open_fds s))). st_run.
  destruct (_ || _)%bool; [exact Ha|]. destruct (negb _); exact Ha.
Qed.

Lemma deactivate_maps i b s : packet_maps (deactivate_interface i b s).2 = packet_maps s.
Proof. unfold deactivate_interface, close_fd, remove_handlers. run_branches. Qed.

Lemma remove_network_interface_maps name s :
  packet_maps (remove_network_interface name s).2 = packet_maps s.
Proof.
  unfold remove_network_interface. st_run. destruct (network_interfaces_ s !! name); [|done]. st_run.
  etrans; [|apply (deactivate_maps n true)]. done.
Qed.

Lemma update_network_interface_maps bridge name added br s :
  packet_maps (update_network_interface e bridge name added br s).2 = packet_maps s.
Proof.
  unfold update_network_interface, get_interface_mac_addr, push_pending.
  destruct added; [|st_run; apply remove_network_interface_maps].
  destruct (_ =? 0); st_run; [etrans; [|apply (remove_network_interface_maps name)]; done|].
  set (s1 := s <| network_interfaces_ ::= _ |>).
  destruct (if _ =? -1 then _ else _); st_run; cbn [fst snd].
  - destruct (interface_read_state e name) as [[]|]; st_run; [|done|].
    + etrans; [exact (activate_maps _ _)|]. done.
    + etrans; [apply remove_network_interface_maps|]. done.
  - etrans; [exact (remove_network_interface_maps name s1)|]. done.
Qed.

Lemma update_network_interfaces_maps added removed s :
  packet_maps (update_network_interfaces e added removed s).2 = packet_maps s.
Proof.
  unfold update_network_interfaces. st_run.
  apply (for_each_inv (λ s', packet_maps s' = packet_maps s)).
  { intros x s1 _ <-. st_run. apply update_network_interface_maps. }
  apply (for_each_inv (λ s', packet_maps s' = packet_maps s)); [|done].
  intros x s1 _ <-. unfold update_removed. st_run.
  destruct (network_interfaces_ s1 !! _) as [i|]; [|done]. st_run.
  rewrite update_network_interface_maps. unfold remove_handlers. run_branches.
Qed.

Lemma iface_step_maps ev s : packet_maps (iface_step e ev s) = packet_maps s.
Proof.
  destruct ev; cbn [iface_step].
  - apply update_network_interfaces_maps.
  - unfold handle_interface_state_change. st_run.
    destruct (network_interfaces_ s !! name) as [i|]; st_run.
    + destruct is_active; st_run; [exact (activate_maps i s)|exact (deactivate_maps i true s)].
    + case_bool_decide; [done|]. destruct (_ && _)%bool; [|done]. st_run.
      pose proof (update_network_interface_maps (bridge_name_ s) name true false s).
      destruct (update_network_interface _ _ _ _ _ s) as [[] s1]; st_run; done.
  - unfold handle_bridge_state_change. st_run. apply update_network_interface_maps.
  - unfold handle_interface_error. st_run.
    destruct (network_interfaces_ s !! name) as [i|]; st_run; [|done].
    etrans; [|apply (deactivate_maps i false)]. done.
  - unfold set_al_mac_addr. st_run. apply (for_each_inv (λ s', packet_maps s' = packet_maps s)); [|done].
    intros x s1 _ <-. destruct (fd x.2); st_run; [apply attach_maps|done].
  - unfold set_primary_vlan_id. run_branches.
  - unfold send_packet_to_network_interface. run_branches.
Qed.

Lemma iface_step_transport_inv ev s : fresh_sockets e → transport_inv s →
  transport_inv (iface_step e ev s).
Proof.
  intros Hf [Hi Hd Hn]. pose proof (iface_step_maps ev s) as Hm. injection Hm as Hm1 Hm2.
  split; [by apply iface_step_inv|by apply (defrag_inv_same s)|by rewrite Hm2].
Qed.
End Maps.

(** ** Lemmas: the local bus handlers *)

Lemma length_resize n f : length (resize n f) = n.
Proof. unfold resize. rewrite length_app, length_take, length_replicate. lia. Qed.

Lemma length_cmdu_data f : length (cmdu_data f) = Z.to_nat (md_length (decode_cmdu_metadata f)).
Proof. unfold cmdu_data. rewrite length_drop, length_resize. lia. Qed.

Lemma at_byte l i : bytes_ok l → byte_ok (at_ l i).
Proof.
  intros Hl. unfold at_. destruct (l !! i) as [x|] eqn:E; cbn; [|unfold byte_ok; lia].
  by eapply Forall_lookup_1.
Qed.

Lemma cmdu_data_small f : bytes_ok f → Z.of_nat (length (cmdu_data f)) < 65536.
Proof.
  intros Hf. rewrite length_cmdu_data. cbn [decode_cmdu_metadata md_length].
  pose proof (be16_range (at_ f 29) (at_ f 28) (at_byte f 29 Hf) (at_byte f 28 Hf)).
  unfold le16. lia.
Qed.

Lemma length_set_messageId v p : length (set_messageId v p) = length p.
Proof. unfold set_messageId. by rewrite !length_insert. Qed.

Section Handlers.
Context {B : Type} `{!Publisher B} (e : Env).
Implicit Types (s : Transport B).

(** The message identifier drawn next. *)
Lemma get_next_message_id_run s :
  let r := get_next_message_id s in
  r.1 = u16 (message_id_ s + 1) ∧ message_id_ r.2 = r.1 ∧ m_broker r.2 = m_broker s
  ∧ (transport_inv s → transport_inv r.2).
Proof.
  unfold get_next_message_id. st_run. set (s1 := set_field message_id_ _ s).
  change (message_id_ s1) with (u16 (message_id_ s + 1)).
  destruct (_ =? 0); st_run; (split; [done|]; split; [done|]; split; [done|]);
    intros [? ? ?]; (split; [done|by apply (defrag_inv_same s)|done]).
Qed.

(** The packet that is handed to [handle_packet], and the state there. *)
Lemma cmdu_tx_run f s : bytes_ok f → transport_inv s →
  let md := decode_cmdu_metadata f in
  (md_ether_type md = ETH_P_1905_1 → Z.of_nat sizeof_Ieee1905CmduHeader ≤ md_length md) →
  ∃ p s1, handle_broker_cmdu_tx_message e f s = handle_packet e p s1
    ∧ transport_inv s1 ∧ length (payload p) = length (cmdu_data f).
Proof.
  intros Hf Hinv md Hlen. unfold handle_broker_cmdu_tx_message. fold md.
  set (p0 := packet_of_cmdu_tx f). st_run.
  change (ether_type p0) with (md_ether_type md).
  assert (∀ s1, transport_inv s1 →
    transport_inv (s1 <| counters_ ::= λ c, <[OUTGOING_LOCAL_BUS_PACKETS := u64 (default 0 (c !! OUTGOING_LOCAL_BUS_PACKETS) + 1)]> c |>)) as Hcount.
  { intros s1 [? ? ?]. split; [done|by apply (defrag_inv_same s1)|done]. }
  destruct (Z.eqb_spec (md_ether_type md) ETH_P_1905_1) as [He|He]; st_run.
  2:{ exists p0, (s <| counters_ ::= λ c, <[OUTGOING_LOCAL_BUS_PACKETS := u64 (default 0 (c !! OUTGOING_LOCAL_BUS_PACKETS) + 1)]> c |>).
      eauto. }
  rewrite (proj2 (Nat.ltb_ge _ _)).
  2:{ cbn [p0 packet_of_cmdu_tx payload]. rewrite length_cmdu_data. specialize (Hlen He). fold md. lia. }
  st_run.
  set (draw := if negb (md_preset_message_id md) then _ else _).
  assert (∃ p1 s1, draw s = (p1, s1) ∧ transport_inv s1 ∧ length (payload p1) = length (cmdu_data f))
    as (p1 & s1 & -> & Hinv1 & Hl1).
  { unfold draw. destruct (negb _); [|by exists p0, s]. st_run.
    destruct (get_next_message_id_run s) as (_ & _ & _ & Hi). eexists _, _. split; [done|].
    split; [by apply Hi|]. cbn. apply length_set_messageId. }
  cbn [fst snd]. set (conf := if negb (md_cookie md =? 0) then _ else _).
  assert (transport_inv (conf s1).2) as Hinv2.
  { unfold conf. destruct (negb (md_cookie md =? 0)); [|exact Hinv1]. st_run. unfold broker_call. cbn [snd].
    destruct Hinv1 as [? ? ?]. split; [done|by apply (defrag_inv_same s1)|done]. }
  st_run. eexists p1, _. split; [done|]. split; [by apply Hcount|done].
Qed.

(** The two fatal messages end the handler. *)
Lemma fatal_event_faults ev s : fatal_event ev → (transport_step e ev s).1 = None.
Proof.
  destruct ev as [m| |]; cbn [fatal_event transport_step]; [|done|done].
  unfold handle_broker_pollin_event. intros [(Ht & He & Hl)|[Ht Hn]]; rewrite Ht; cbn [Z.eqb Pos.eqb Type_CmduTxMessage Type_InterfaceConfigurationRequestMessage].
  - unfold handle_broker_cmdu_tx_message. cbn [packet_of_cmdu_tx ether_type payload].
    rewrite He. cbn [Z.eqb Pos.eqb ETH_P_1905_1].
    rewrite (proj2 (Nat.ltb_lt _ _)); [done|]. rewrite length_cmdu_data. unfold sizeof_Ieee1905CmduHeader in *. lia.
  - unfold handle_broker_interface_configuration_request_message. by rewrite Hn.
Qed.

Lemma interface_configuration_ok f s : fresh_sockets e → c_string_ends (drop 17 f) = true →
  transport_inv s →
  let r := handle_broker_interface_configuration_request_message e f s in
  r.1 = Some tt ∧ transport_inv r.2.
Proof.
  intros Hfr Hn Hinv. unfold handle_broker_interface_configuration_request_message.
  rewrite Hn. cbn [negb].
  assert (∀ s' : Transport B, transport_inv s' → ∀ added removed,
    transport_inv (update_network_interfaces e added removed s').2) as Hupd.
  { intros s' Hs' added removed. exact (iface_step_transport_inv e (EvConfigure added removed) s' Hfr Hs'). }
  destruct (ifc_is_bridge f); [|destruct (ifc_add f); st_run; auto]. st_run.
  assert (transport_inv (s <| bridge_name_ := ifc_iface_name f |>)) as Hbr.
  { destruct Hinv as [? ? ?]. split; [done|by apply (defrag_inv_same s)|done]. }
  destruct (bridge_read_state e _), (ifc_add f); st_run; auto.
Qed.

Lemma broker_pollin_ok m s : fresh_sockets e → event_ok (EvBrokerMessage m) →
  ¬ fatal_event (EvBrokerMessage m) → transport_inv s →
  let r := handle_broker_pollin_event e m s in r.1 = Some tt ∧ transport_inv r.2.
Proof.
  intros Hfr [Hb _] Hfatal Hinv. cbn [fatal_event] in Hfatal. unfold handle_broker_pollin_event.
  destruct (Z.eqb_spec (m_type m) Type_CmduTxMessage) as [Ht|_].
  { destruct (cmdu_tx_run (frame m) s) as (p & s1 & -> & Hi & Hl); [done|done| |].
    { intros He. destruct (Z.le_gt_cases (Z.of_nat sizeof_Ieee1905CmduHeader)
        (md_length (decode_cmdu_metadata (frame m)))); [done|]. destruct Hfatal. left. split_and!; [done|done|lia]. }
    apply handle_packet_ok; [done|]. rewrite Hl. by apply cmdu_data_small. }
  destruct (Z.eqb_spec (m_type m) Type_InterfaceConfigurationRequestMessage) as [Ht|_].
  { apply interface_configuration_ok; [done| |done].
    destruct (c_string_ends _) eqn:E; [done|]. destruct Hfatal. by right. }
  destruct (m_type m =? _); st_run.
  { split; [done|]. exact (iface_step_transport_inv e (EvAlMac (alm_al_mac (frame m))) s Hfr Hinv). }
  destruct (m_type m =? _); st_run; [|done]. split; [done|].
  exact (iface_step_transport_inv e (EvVlan (vlan_vlan_id (frame m)) (vlan_add (frame m))) s Hfr Hinv).
Qed.

Lemma transport_step_ok ev s : fresh_sockets e → event_ok ev → ¬ fatal_event ev → transport_inv s →
  (transport_step e ev s).1 = Some tt ∧ transport_inv (transport_step e ev s).2.
Proof.
  intros Hf Hev Hfatal Hinv. destruct ev; cbn [transport_step].
  - by apply broker_pollin_ok.
  - by apply handle_interface_pollin_event_ok.
  - st_run. split; [done|]. by apply iface_step_transport_inv.
Qed.

Lemma transport_init_inv (b : B) now : transport_inv (Transport_init b now).
Proof.
  split.
  - split; cbn; intros; simplify_map_eq.
  - split; cbn; [done|]. intros; simplify_map_eq.
  - done.
Qed.

End Handlers.

(** C1: The transport as a whole. In every state reached by messages the
    broker handed on, received frames and interface events, whatever the
    frames and messages contain: the interface table and its sockets are
    consistent, at most 16 reassemblies of less than 64 KB and at most 1024
    de-duplication keys are kept; and the next event is handled to its end,
    without an access outside of the buffer of its packet or message, unless it
    is one of the two fatal messages of a local client, a CMDU shorter than its
    header or an interface name without an end, which do end the process. What
    the handlers only write to the log is not part of them. *)
Theorem transport_safe {B} `{!Publisher B} (b : B) now s : transport_reachable b now s →
  transport_inv s
  ∧ ∀ e ev, fresh_sockets e → event_ok ev →
      (transport_step e ev s).1 = Some tt ∧ ¬ fatal_event ev
      ∨ (transport_step e ev s).1 = None ∧ fatal_event ev.
Proof.
  assert (∀ ev, Decision (fatal_event ev)) as Hdec.
  { intros []; cbn; unfold short_cmdu, endless_name; apply _. }
  intros Hr. assert (transport_inv s) as Hinv.
  { induction Hr as [|s e ev _ IH Hf Hev Hs]; [apply transport_init_inv|].
    apply transport_step_ok; [done|done| |done]. intros Hfatal.
    by rewrite fatal_event_faults in Hs. }
  split; [done|]. intros e ev Hf Hev. destruct (Hdec ev) as [Hfatal|Hfatal].
  - right. split; [by apply fatal_event_faults|done].
  - left. split; [by apply transport_step_ok|done].
Qed.

(** ** Message identifiers *)

(** The identifiers of [n] successive draws. *)
Fixpoint draw_ids {B} (n : nat) (s : Transport B) : list Z :=
  match n with
  | O => []
  | S n => let '(i, s') := get_next_message_id s in i :: draw_ids n s'
  end.

Lemma draw_ids_values {B} n (s : Transport B) : 0 ≤ message_id_ s < 65536 →
  draw_ids n s = (λ i, u16 (message_id_ s + i)) <$> seqZ 1 (Z.of_nat n).
Proof.
  revert s. induction n as [|n IH]; intros s Hs; [done|]. cbn [draw_ids].
  destruct (get_next_message_id_run s) as (H1 & H2 & _).
  destruct (get_next_message_id s) as [i s1]. cbn [fst snd] in *. subst i.
  rewrite IH by (rewrite H2; apply u16_range). rewrite (seqZ_cons 1 (Z.of_nat (S n))) by lia. cbn [fmap list_fmap].
  f_equal. replace (Z.pred (Z.of_nat (S n))) with (Z.of_nat n) by lia.
  rewrite H2. change (Z.succ 1) with (1 + 1). rewrite <- fmap_add_seqZ. rewrite <- list_fmap_compose.
  apply list_fmap_ext. intros _ i _. unfold u16. cbn. rewrite Z.add_mod_idemp_l by lia. f_equal. lia.
Qed.

(** Message identifiers do not repeat: any 65536 successive draws, from
    whatever state, give distinct 16-bit identifiers. *)
Theorem message_ids_distinct {B} (s : Transport B) n : 0 ≤ message_id_ s < 65536 →
  Z.of_nat n ≤ 65536 → NoDup (draw_ids n s) ∧ Forall (λ i, 0 ≤ i < 65536) (draw_ids n s).
Proof.
  intros Hs Hn. rewrite draw_ids_values by done. split.
  - apply NoDup_fmap_2_strong; [|apply NoDup_seqZ]. intros i j Hi%elem_of_seqZ Hj%elem_of_seqZ.
    unfold u16. change (2 ^ 16) with 65536. intros Heq.
    assert ((i - j) mod 65536 = 0) as Hd.
    { replace (i - j) with ((message_id_ s + i) - (message_id_ s + j)) by lia.
      rewrite Zminus_mod, Heq, Z.sub_diag. done. }
    apply Z.mod_divide in Hd as [q Hq]; [|lia]. nia.
  - apply Forall_fmap, Forall_forall. intros i _. apply u16_range.
Qed.
