(* ===== verification/Strings.v ===== *)
(** * Strings

    [string_utils] ([beerocks_string_utils.cpp]) and the MAC address strings
    of [tlvftypes.cpp]. A [std::string] is the list of its bytes. *)

From S2P Require Import Prelude Wire.

(** Literals. *)
Definition str (s : string) : list Z :=
  (λ c, Z.of_N (Ascii.N_of_ascii c)) <$> String.list_ascii_of_string s.

(** ** Searching *)

Definition in_set (c : Z) (set : list Z) : bool := existsb (Z.eqb c) set.

(** [find_first_not_of] and [find_last_not_of]; [None] is [npos]. *)
Fixpoint find_first_not_of (set l : list Z) : option nat :=
  match l with
  | [] => None
  | c :: l' => if in_set c set then S <$> find_first_not_of set l' else Some 0%nat
  end.
Fixpoint find_last_not_of (set l : list Z) : option nat :=
  match l with
  | [] => None
  | c :: l' => match find_last_not_of set l' with
               | Some i => Some (S i)
               | None => if in_set c set then None else Some 0%nat
               end
  end.

Module string_utils.

(** " \t\n\r\f\v" *)
Definition WHITESPACE_CHARS : list Z := [32; 9; 10; 13; 12; 11].

(** [erase(0, npos)] and [erase(npos + 1)] erase the whole string. *)
Definition ltrim (s additional_chars : list Z) : list Z :=
  match find_first_not_of (WHITESPACE_CHARS ++ additional_chars) s with
  | Some i => drop i s
  | None => []
  end.
Definition rtrim (s additional_chars : list Z) : list Z :=
  match find_last_not_of (WHITESPACE_CHARS ++ additional_chars) s with
  | Some i => take (i + 1) s
  | None => []
  end.
Definition trim (s additional_chars : list Z) : list Z :=
  rtrim (ltrim s additional_chars) additional_chars.

Definition ltrimmed_substr (s : list Z) : list Z :=
  match find_first_not_of WHITESPACE_CHARS s with
  | Some start => drop start s
  | None => []
  end.
Definition rtrimmed_substr (s : list Z) : list Z :=
  match find_last_not_of WHITESPACE_CHARS s with
  | Some end_ => take (end_ + 1) s
  | None => []
  end.
Definition trimmed_substr (s : list Z) : list Z :=
  match find_first_not_of WHITESPACE_CHARS s, find_last_not_of WHITESPACE_CHARS s with
  | Some start, Some end_ => take (end_ - start + 1) (drop start s)
  | _, _ => []
  end.

Definition is_empty (s : list Z) : bool :=
  match find_first_not_of WHITESPACE_CHARS s with None => true | Some _ => false end.

Definition bool_str (val : bool) : list Z := if val then str "true" else str "false".

(** [getline] until the stream is empty: the last line needs no delimiter,
    and a delimiter at the end starts no further line. *)
Fixpoint getlines (delim : Z) (item l : list Z) : list (list Z) :=
  match l with
  | [] => match item with [] => [] | _ => [item] end
  | c :: l' => if c =? delim then item :: getlines delim [] l'
               else getlines delim (item ++ [c]) l'
  end.
Definition str_split (s : list Z) (delim : Z) : list (list Z) := getlines delim [] s.

(** *** Numbers *)

Definition is_digit (c : Z) : bool := (48 <=? c) && (c <=? 57).

(** The value of the leading decimal digits, if any. *)
Fixpoint digits_value (acc : Z) (l : list Z) : Z :=
  match l with
  | c :: l' => if is_digit c then digits_value (acc * 10 + (c - 48)) l' else acc
  | [] => acc
  end.

(** [val_s >> val] for an [int64_t] on a string of digits and minus signs:
    [None] is a failed stream (no digits, or out of range). *)
Definition read_int64 (s : list Z) : option Z :=
  let '(neg, l) := match s with c :: l => if c =? 45 then (true, l) else (false, s) | [] => (false, s) end in
  match l with
  | c :: _ =>
      if is_digit c then
        let v := digits_value 0 l in
        let v := if neg then - v else v in
        if (- 2 ^ 63 <=? v) && (v <=? 2 ^ 63 - 1) then Some v else None
      else None
  | [] => None
  end.

Definition stoi (s : list Z) : Z :=
  match s with
  | [] => 0
  | _ =>
      let trimmed_str := trim s [] in
      match find_first_not_of (str "-0123456789") trimmed_str with
      | Some _ => 0
      | None => default 0 (read_int64 trimmed_str)
      end
  end.

(** [std::hex]: lower-case digits, most significant first; an [unsigned int]
    has at most eight. *)
Definition hex_digit (d : Z) : Z := if d <? 10 then 48 + d else 87 + d.
Fixpoint hex_digits (fuel : nat) (n : Z) : list Z :=
  match fuel with
  | O => []
  | S fuel => (if n <? 16 then [] else hex_digits fuel (n / 16)) ++ [hex_digit (n mod 16)]
  end.

(** [setw] pads, it never truncates. *)
Definition int_to_hex_string (integer : Z) (number_of_digits : nat) : list Z :=
  let digits := hex_digits 8 integer in
  replicate (number_of_digits - length digits) 48 ++ digits.

(** The value of a hexadecimal digit, either case. *)
Definition hex_value (c : Z) : option Z :=
  if is_digit c then Some (c - 48)
  else if (97 <=? c) && (c <=? 102) then Some (c - 87)
  else if (65 <=? c) && (c <=? 70) then Some (c - 55)
  else None.

(** The leading hexadecimal digits: their value and number. *)
Fixpoint hex_prefix (acc : Z) (n : nat) (l : list Z) : Z * nat :=
  match l with
  | c :: l' => match hex_value c with Some d => hex_prefix (acc * 16 + d) (S n) l' | None => (acc, n) end
  | [] => (acc, n)
  end.

(** [strtoul]/[strtoull] in base 16 on 64 bits: leading white space, a sign, a
    "0x" in front of digits; the result and the number of bytes consumed
    (0 when there is no number). Out of range gives the largest value, and a
    minus sign negates modulo 2^64. *)
Fixpoint skip_spaces (l : list Z) : nat * list Z :=
  match l with
  | c :: l' => if in_set c WHITESPACE_CHARS then let '(n, r) := skip_spaces l' in (S n, r) else (0%nat, l)
  | [] => (0%nat, [])
  end.
Definition strtoull16 (s : list Z) : Z * nat :=
  let '(spaces, l) := skip_spaces s in
  let '(neg, sign, l) :=
    match l with
    | c :: l' => if c =? 45 then (true, 1%nat, l') else if c =? 43 then (false, 1%nat, l')
                 else (false, 0%nat, l)
    | [] => (false, 0%nat, l)
    end in
  let '(prefix, l) :=
    match l with
    | z :: x :: d :: l' =>
        if ((z =? 48) && ((x =? 120) || (x =? 88)) && bool_decide (is_Some (hex_value d)))%bool
        then (2%nat, d :: l') else (0%nat, l)
    | _ => (0%nat, l)
    end in
  let '(v, n) := hex_prefix 0 0 l in
  match n with
  | O => (0, 0%nat)
  | _ => let v := if 2 ^ 64 <=? v then 2 ^ 64 - 1 else if neg then u64 (- v) else v in
         (v, spaces + sign + prefix + n)%nat
  end.

(** The loop over pairs of characters; a [substr] at the end may be one. *)
Fixpoint bytes_of_pairs (s : list Z) : list Z :=
  match s with
  | a :: b :: s' => u8 (strtoull16 [a; b]).1 :: bytes_of_pairs s'
  | [a] => [u8 (strtoull16 [a]).1]
  | [] => []
  end.
Definition bytes_string_to_string (bytes_string : list Z) : list Z := bytes_of_pairs bytes_string.

(** *** C strings *)

(** The bytes of [src] up to its NUL, at most [n] of them. *)
Fixpoint c_prefix (n : nat) (src : list Z) : list Z :=
  match n, src with
  | S n, c :: src => if c =? 0 then [] else c :: c_prefix n src
  | _, _ => []
  end.

(** [copy_string] into an array of [dst_len] bytes; [None] is the write to
    [dst[-1]] that an empty array gets. *)
Definition copy_string (dst src : list Z) (dst_len : nat) : option (list Z) :=
  let p := c_prefix dst_len src in
  let dst := p ++ drop (length p) dst in
  if (length p <? dst_len)%nat then Some (<[length p := 0]> dst)
  else match dst_len with
       | O => None
       | S n => Some (<[n := 0]> dst)
       end.

Definition tolower (c : Z) : Z := if (65 <=? c) && (c <=? 90) then c + 32 else c.
Definition case_insensitive_compare (lstr rstr : list Z) : bool :=
  (length lstr =? length rstr)%nat && bool_decide (tolower <$> lstr = tolower <$> rstr).

Definition endswith (s suffix : list Z) : bool :=
  (length suffix <=? length s)%nat && bool_decide (drop (length s - length suffix) s = suffix).

End string_utils.

(** ** MAC address strings *)

Module tlvf.

Definition mac_bytes_separator : Z := 58.

Definition mac_to_string (m : sMacAddr) : list Z :=
  match m with
  | [] => []
  | o :: m' => string_utils.int_to_hex_string o 2
      ++ concat ((λ o, mac_bytes_separator :: string_utils.int_to_hex_string o 2) <$> m')
  end.

(** The six octets of the low 48 bits, the most significant first. *)
Definition octets_of (mac : Z) : sMacAddr :=
  [u8 (Z.shiftr mac 40); u8 (Z.shiftr mac 32); u8 (Z.shiftr mac 24);
   u8 (Z.shiftr mac 16); u8 (Z.shiftr mac 8); u8 mac].

(** [mac_to_string(uint64_t)]. *)
Definition mac_to_string_u64 (mac : Z) : list Z := mac_to_string (octets_of mac).

(** The result and the buffer, zeroed first. *)
Definition mac_from_string_buf (mac : list Z) : bool * sMacAddr :=
  let zero := replicate 6 0 in
  match mac with
  | [] => (true, zero)
  | _ =>
      let stripped_mac :=
        if (length mac =? 3 * ETH_ALEN - 1)%nat
        then filter (λ c, c ≠ mac_bytes_separator) mac
        else if ((length mac =? 2 * ETH_ALEN + 2)%nat && bool_decide (take 2 mac = str "0x"))%bool
        then drop 2 mac else mac in
      if negb (length stripped_mac =? 2 * ETH_ALEN)%nat then (false, zero)
      else
        let '(mac_int, consumed) := string_utils.strtoull16 stripped_mac in
        if negb (consumed =? 2 * ETH_ALEN)%nat then (false, zero)
        else (true, octets_of mac_int)
  end.

Definition mac_from_string (mac : list Z) : sMacAddr := (mac_from_string_buf mac).2.

Definition mac_to_array (mac : sMacAddr) : list Z := take ETH_ALEN mac.
Definition mac_from_array (a : list Z) : sMacAddr := take ETH_ALEN a.

End tlvf.

(** ** Lemmas *)

Import string_utils.

(** What the parser needs to know about the digits the printer writes. *)
Lemma hex_digit_facts d : 0 ≤ d < 16 →
  hex_value (hex_digit d) = Some d ∧ hex_digit d ≠ 58 ∧ in_set (hex_digit d) WHITESPACE_CHARS = false
  ∧ hex_digit d ≠ 45 ∧ hex_digit d ≠ 43 ∧ hex_digit d ≠ 120 ∧ hex_digit d ≠ 88.
Proof.
  intros Hd.
  assert (∃ n, (n < 16)%nat ∧ d = Z.of_nat n) as (n & Hn & ->) by (exists (Z.to_nat d); lia).
  do 16 (destruct n as [|n]; [vm_compute; repeat split; congruence|]). lia.
Qed.

Lemma int_to_hex_string_byte o : byte_ok o →
  int_to_hex_string o 2 = [hex_digit (o / 16); hex_digit (o mod 16)].
Proof.
  intros Ho. unfold byte_ok in Ho. unfold int_to_hex_string. cbn [hex_digits].
  destruct (Z.ltb_spec o 16).
  - rewrite (Z.div_small o 16) by lia. done.
  - assert (o / 16 < 16) by (apply Z.div_lt_upper_bound; lia).
    rewrite (proj2 (Z.ltb_lt (o / 16) 16)) by lia.
    assert (0 ≤ o / 16) by (apply Z.div_pos; lia). by rewrite (Z.mod_small (o / 16)) by lia.
Qed.

Lemma nibbles o : byte_ok o → 0 ≤ o / 16 < 16 ∧ 0 ≤ o mod 16 < 16 ∧ o / 16 * 16 + o mod 16 = o.
Proof. unfold byte_ok. intros. Z.div_mod_to_equations. lia. Qed.

(** Reading digits that were written. *)
Lemma hex_prefix_digits ds : Forall (λ d, 0 ≤ d < 16) ds → ∀ acc n,
  hex_prefix acc n (hex_digit <$> ds) = (foldl (λ a d, a * 16 + d) acc ds, (n + length ds)%nat).
Proof.
  induction 1 as [|d ds Hd _ IH]; intros acc n; cbn; [by rewrite Nat.add_0_r|].
  destruct (hex_digit_facts d Hd) as [-> _]. rewrite IH. f_equal. lia.
Qed.

Lemma strtoull16_digits d1 d2 ds : Forall (λ d, 0 ≤ d < 16) (d1 :: d2 :: ds) →
  foldl (λ a d, a * 16 + d) 0 (d1 :: d2 :: ds) < 2 ^ 64 →
  strtoull16 (hex_digit <$> d1 :: d2 :: ds)
  = (foldl (λ a d, a * 16 + d) 0 (d1 :: d2 :: ds), length (d1 :: d2 :: ds)).
Proof.
  intros Hds Hlt. pose proof (hex_prefix_digits _ Hds 0 0) as Hp.
  apply Forall_cons in Hds as [H1 Hds]. apply Forall_cons in Hds as [H2 _].
  destruct (hex_digit_facts d1 H1) as (_ & _ & Hw & Hm & Hpl & _ & _).
  destruct (hex_digit_facts d2 H2) as (_ & _ & _ & _ & _ & Hx & HX).
  unfold strtoull16. cbn [fmap list_fmap skip_spaces] in *. rewrite Hw.
  rewrite (proj2 (Z.eqb_neq _ 45)), (proj2 (Z.eqb_neq _ 43)) by done.
  rewrite (proj2 (Z.eqb_neq _ 120)), (proj2 (Z.eqb_neq _ 88)) by done.
  cbn [orb andb]. rewrite andb_false_r. cbn [andb].
  assert (∀ (X : list Z) (Y : nat * list Z), match X with [] => Y | _ :: _ => Y end = Y) as Hred by (by intros []).
  rewrite Hred, Hp. cbn [Nat.add length]. rewrite (proj2 (Z.leb_gt _ _)) by done. done.
Qed.

(** The octets of the number the digits of an address denote. *)
Lemma octets_of_value a b c d e f : bytes_ok [a; b; c; d; e; f] →
  tlvf.octets_of (((((a * 256 + b) * 256 + c) * 256 + d) * 256 + e) * 256 + f) = [a; b; c; d; e; f].
Proof.
  unfold bytes_ok, byte_ok. rewrite !Forall_cons. intros (Ha & Hb & Hc & Hd & He & Hf & _).
  assert (∀ x y, 0 ≤ y < 256 → (x * 256 + y) / 256 = x) as Hdiv.
  { intros x y Hy. rewrite Z.div_add_l by lia. rewrite Z.div_small by lia. lia. }
  assert (∀ x y, 0 ≤ y < 256 → (x * 256 + y) mod 256 = y) as Hmod.
  { intros x y Hy. rewrite Z.add_comm, Z.mod_add by lia. apply Z.mod_small. lia. }
  unfold tlvf.octets_of, u8. rewrite !Z.shiftr_div_pow2 by lia. change (2 ^ 8) with 256.
  change (2 ^ 16) with (256 * 256). change (2 ^ 24) with (256 * 256 * 256).
  change (2 ^ 32) with (256 * 256 * 256 * 256). change (2 ^ 40) with (256 * 256 * 256 * 256 * 256).
  rewrite <- !Z.div_div by lia. rewrite !Hdiv by lia. rewrite !Hmod by lia.
  by rewrite (Z.mod_small a) by lia.
Qed.

(** ** Theorems *)

(** MAC addresses survive printing: parsing what [mac_to_string] prints
    for any address succeeds and gives the address back. *)
Theorem mac_string_roundtrip m : mac_ok m → tlvf.mac_from_string_buf (tlvf.mac_to_string m) = (true, m).
Proof.
  intros [Hl Hb]. unfold ETH_ALEN in Hl. destruct m as [|a [|b [|c [|d [|e [|f [|]]]]]]]; try done.
  pose proof Hb as Hb'. unfold bytes_ok in Hb'. rewrite !Forall_cons in Hb'.
  destruct Hb' as (Ha & Hb1 & Hc & Hd & He & Hf & _).
  unfold tlvf.mac_to_string. cbn [fmap list_fmap concat].
  rewrite !int_to_hex_string_byte by done. cbn [app].
  destruct (nibbles a Ha) as (Ha1 & Ha2 & Ha3), (nibbles b Hb1) as (Hb1' & Hb2 & Hb3),
    (nibbles c Hc) as (Hc1 & Hc2 & Hc3), (nibbles d Hd) as (Hd1 & Hd2 & Hd3),
    (nibbles e He) as (He1 & He2 & He3), (nibbles f Hf) as (Hf1 & Hf2 & Hf3).
  set (ds := [a / 16; a mod 16; b / 16; b mod 16; c / 16; c mod 16; d / 16; d mod 16; e / 16;
              e mod 16; f / 16; f mod 16]).
  assert (Forall (λ x, 0 ≤ x < 16) ds) as Hds by (unfold ds; rewrite !Forall_cons; auto 20).
  assert (foldl (λ a d, a * 16 + d) 0 ds = ((((a * 256 + b) * 256 + c) * 256 + d) * 256 + e) * 256 + f) as Hv.
  { cbn. lia. }
  unfold tlvf.mac_from_string_buf. cbn [length Nat.eqb Nat.mul Nat.add Nat.sub ETH_ALEN].
  assert (∀ x l, 0 ≤ x < 16 → filter (λ c, c ≠ tlvf.mac_bytes_separator) (hex_digit x :: l)
            = hex_digit x :: filter (λ c, c ≠ tlvf.mac_bytes_separator) l) as Hkeep.
  { intros x l Hx. destruct (hex_digit_facts x Hx) as (_ & Hne & _). by rewrite filter_cons_True. }
  assert (∀ l, filter (λ c, c ≠ tlvf.mac_bytes_separator) (tlvf.mac_bytes_separator :: l)
            = filter (λ c, c ≠ tlvf.mac_bytes_separator) l) as Hdrop.
  { intros l. rewrite filter_cons_False; [done|]. intros H. by apply H. }
  repeat first [rewrite Hkeep by assumption | rewrite Hdrop]. rewrite filter_nil.
  cbn [length Nat.eqb negb].
  change (strtoull16 _) with (strtoull16 (hex_digit <$> ds)). unfold ds.
  unfold byte_ok in *. rewrite strtoull16_digits; [|exact Hds|].
  - fold ds. rewrite Hv. cbn [length Nat.eqb negb]. by rewrite octets_of_value.
  - fold ds. rewrite Hv. lia.
Qed.

(** [mac_from_string] takes strings that are not twelve hexadecimal
    digits, against the check's comment: the number parser it uses also
    consumes a sign or leading blanks, so that "-00000000001" is read as the
    broadcast address. *)
Theorem mac_from_string_takes_signs :
  tlvf.mac_from_string_buf (str "-00000000001") = (true, replicate 6 255).
Proof. reflexivity. Qed.

(** The last kept position of a string, seen from its first kept one. *)
Lemma find_last_drop set s i : find_first_not_of set s = Some i →
  ∃ j, find_last_not_of set s = Some (i + j)%nat ∧ find_last_not_of set (drop i s) = Some j.
Proof.
  revert i. induction s as [|c s IH]; intros i; [done|]. cbn [find_first_not_of find_last_not_of].
  destruct (in_set c set) eqn:Hc.
  - destruct (find_first_not_of set s) as [k|]; [|done]. intros [= <-].
    destruct (IH k eq_refl) as (j & -> & Hj). exists j. split; [done|]. exact Hj.
  - intros [= <-]. cbn. rewrite Hc. destruct (find_last_not_of set s) as [k|]; eauto.
Qed.

Lemma find_first_None_last set s : find_first_not_of set s = None → find_last_not_of set s = None.
Proof.
  induction s as [|c s IH]; [done|]. cbn. destruct (in_set c set); [|done].
  destruct (find_first_not_of set s); [done|]. intros _. by rewrite IH.
Qed.

(** The two trimming routines agree: [trim] in place, which trims the
    left and then the right end, and [trimmed_substr], which searches both
    ends of the original string, give the same string, and it has no white
    space at either end. *)
Theorem trim_is_trimmed_substr s :
  trim s [] = trimmed_substr s ∧
  (trim s [] = [] ∨ ∃ i j, find_first_not_of WHITESPACE_CHARS s = Some i
     ∧ find_last_not_of WHITESPACE_CHARS s = Some j ∧ trim s [] = take (j - i + 1) (drop i s)).
Proof.
  unfold trim, ltrim, rtrim, trimmed_substr. rewrite app_nil_r.
  destruct (find_first_not_of WHITESPACE_CHARS s) as [i|] eqn:Hi; [|by split; [|left]].
  destruct (find_last_drop _ _ _ Hi) as (j & Hj & ->). rewrite Hj.
  replace (i + j - i)%nat with j by lia. split; [done|]. right. exists i, (i + j)%nat.
  by replace (i + j - i)%nat with j by lia.
Qed.

(** Lines joined with a delimiter between them. *)
Fixpoint join (delim : Z) (items : list (list Z)) : list Z :=
  match items with
  | [] => []
  | [item] => item
  | item :: items => item ++ delim :: join delim items
  end.

Lemma getlines_join delim l : ∀ item, last l ≠ Some delim → (l = [] → item ≠ []) →
  join delim (getlines delim item l) = item ++ l ∧ getlines delim item l ≠ [].
Proof.
  induction l as [|c l IH]; intros item Hl Hne; cbn [getlines].
  { destruct item; [by destruct Hne|]. split; [by rewrite app_nil_r|done]. }
  destruct (Z.eqb_spec c delim) as [->|Hc].
  - destruct l as [|c' l]; [by destruct Hl|].
    destruct (IH [] Hl) as [IH1 IH2]; [done|]. split; [|done].
    cbn [join]. destruct (getlines delim [] (c' :: l)) eqn:E; [done|]. by rewrite IH1.
  - destruct (IH (item ++ [c])) as [IH1 IH2].
    + intros E. apply Hl. by destruct l.
    + intros _. by destruct item.
    + split; [|done]. by rewrite IH1, <- app_assoc.
Qed.

(** Splitting loses nothing: for a string that does not end with the
    delimiter, joining the items of [str_split] gives the string back, and
    no item contains the delimiter. *)
Theorem str_split_join s delim : last s ≠ Some delim →
  join delim (str_split s delim) = s ∧ Forall (λ item, delim ∉ item) (str_split s delim).
Proof.
  intros Hl. unfold str_split. split.
  - destruct s as [|c s]; [done|]. by destruct (getlines_join delim (c :: s) [] Hl) as [-> _].
  - clear Hl. assert (∀ item, delim ∉ item → Forall (λ i, delim ∉ i) (getlines delim item s)) as H;
      [|apply H; by intros ?%not_elem_of_nil].
    induction s as [|c s IH]; intros item Hi; cbn [getlines].
    + destruct item; [done|]. by apply Forall_singleton.
    + destruct (Z.eqb_spec c delim) as [->|Hc].
      * apply Forall_cons. split; [done|]. apply IH. by intros ?%not_elem_of_nil.
      * apply IH. set_solver.
Qed.

Lemma length_c_prefix n src : (length (c_prefix n src) ≤ n)%nat.
Proof.
  revert src. induction n as [|n IH]; intros [|c src]; cbn; try lia. destruct (c =? 0); cbn; [lia|].
  specialize (IH src). lia.
Qed.

Lemma c_prefix_nonzero n src : Forall (λ c, c ≠ 0) (c_prefix n src).
Proof.
  revert src. induction n as [|n IH]; intros [|c src]; cbn; try done.
  destruct (Z.eqb_spec c 0); [done|]. by apply Forall_cons.
Qed.

(** A C string read from an array that holds [p] and then a NUL. *)
Lemma c_prefix_app n p rest : Forall (λ c, c ≠ 0) p → (length p < n)%nat →
  c_prefix n (p ++ 0 :: rest) = p.
Proof.
  revert n. induction p as [|c p IH]; intros n Hp Hn; (destruct n as [|n]; [cbn in Hn; lia|]); [done|].
  apply Forall_cons in Hp as [Hc Hp]. cbn in *. rewrite (proj2 (Z.eqb_neq _ _)) by done.
  f_equal. apply IH; [done|lia].
Qed.

Lemma c_prefix_S n src : c_prefix n src = take n (c_prefix (S n) src).
Proof.
  revert src. induction n as [|n IH]; intros [|c src]; try done.
  cbn [c_prefix]. destruct (c =? 0); [done|]. cbn [take]. f_equal. apply IH.
Qed.

(** [copy_string] into an array of at least one byte stays inside the
    array and leaves a terminated copy of the source, cut to the array's
    size less the terminator. *)
Theorem copy_string_terminates dst src n : length dst = S n →
  ∃ d, copy_string dst src (S n) = Some d ∧ length d = S n ∧ c_prefix (S n) d = c_prefix n src.
Proof.
  intros Hd. unfold copy_string. set (p := c_prefix (S n) src).
  pose proof (length_c_prefix (S n) src) as Hp. fold p in Hp.
  pose proof (c_prefix_nonzero (S n) src) as Hnz. fold p in Hnz.
  assert (length (p ++ drop (length p) dst) = S n) as Hl.
  { rewrite length_app, length_drop. lia. }
  rewrite c_prefix_S. fold p. destruct (Nat.ltb_spec (length p) (S n)) as [Hlt|Hge].
  - eexists. split; [done|]. rewrite length_insert. split; [done|].
    assert (∃ x rest, drop (length p) dst = x :: rest) as (x & rest & ->).
    { destruct (drop (length p) dst) eqn:E; [|eauto]. apply (f_equal length) in E.
      rewrite length_drop in E. change (length (@nil Z)) with 0%nat in E. lia. }
    rewrite insert_app_r_alt, Nat.sub_diag by lia. cbn [insert list_insert].
    rewrite c_prefix_app by done.
    by rewrite firstn_all2 by lia.
  - assert (length p = S n) as Hpn by lia. eexists. split; [done|]. rewrite length_insert.
    split; [done|]. rewrite Hpn, drop_ge, app_nil_r by lia.
    assert (∃ q x, p = q ++ [x] ∧ length q = n) as (q & x & Hq & Hqn).
    { destruct (exists_last (l := p)) as (q & x & E); [by destruct p|]. exists q, x. split; [done|].
      apply (f_equal length) in E. rewrite length_app in E. change (length [x]) with 1%nat in E. lia. }
    rewrite Hq, insert_app_r_alt, Hqn, Nat.sub_diag by lia.
    cbn [insert list_insert].
    rewrite c_prefix_app; [|by rewrite Hq, Forall_app in Hnz; destruct Hnz|lia].
    by rewrite take_app_length'.
Qed.
