(* ===== verification/Streams.v ===== *)
(** * Message streams

    The receive buffer ([buffer_impl.h]) and the three framings that processes
    use on stream sockets: UCC commands ([beerocks_ucc_parser_stream_impl.cpp],
    [beerocks_ucc_serializer_stream_impl.cpp]), CMDUs between the processes of
    a device ([cmdu_parser_stream_impl.cpp], [cmdu_serializer_stream_impl.cpp])
    and transport messages ([message_parser_stream_impl.cpp],
    [message_serializer_stream_impl.cpp]); and the read handlers that drain the
    buffer ([beerocks_cmdu_peer.cpp], [beerocks_ucc_server_impl.cpp],
    [broker_client_impl.cpp]). *)

From S2P Require Import Prelude Wire SocketFilter Messages Broker TransportState Forwarding.
From S2P Require Import Strings.

(** ** [BufferImpl<Size>] *)

(** [b_data] are the first [m_length] bytes of the array. *)
Record Buffer := mkBuffer { b_size : nat; b_data : list Z }.

Definition b_length (b : Buffer) : nat := length (b_data b).

Definition clear (b : Buffer) : Buffer := mkBuffer (b_size b) [].

Definition append (data : list Z) (b : Buffer) : bool * Buffer :=
  if (b_size b <? b_length b + length data)%nat then (false, b)
  else (true, mkBuffer (b_size b) (b_data b ++ data)).

Definition shift (count : nat) (b : Buffer) : bool * Buffer :=
  if (b_length b <? count)%nat then (false, b)
  else (true, mkBuffer (b_size b) (drop count (b_data b))).

(** [SocketConnectionImpl::receive]: [n] is how much [recv] would give of the
    bytes waiting in the kernel. The result, the bytes left there, the buffer. *)
Definition receive (n : nat) (pending : list Z) (b : Buffer) : Z * list Z * Buffer :=
  if (b_size b <=? b_length b)%nat then (-1, pending, b)
  else
    let got := take (n `min` (b_size b - b_length b)) pending in
    match got with
    | [] => (-1, pending, b)
    | _ => (Z.of_nat (length got), drop (length got) pending,
            mkBuffer (b_size b) (b_data b ++ got))
    end.

(** ** UCC commands *)

Definition LF : Z := 10.

(** [std::find(data, last, '\n')]. *)
Fixpoint find_char (c : Z) (l : list Z) : option nat :=
  match l with
  | [] => None
  | x :: l' => if x =? c then Some 0%nat else S <$> find_char c l'
  end.

Definition parse_command (b : Buffer) : option (list Z) * Buffer :=
  match find_char LF (b_data b) with
  | None => (None, if (b_length b =? b_size b)%nat then clear b else b)
  | Some trailer =>
      let command := string_utils.trim (take trailer (b_data b)) [] in
      (Some command, (shift (trailer + 1) b).2)
  end.

Definition serialize_reply (reply : list Z) (b : Buffer) : bool * Buffer :=
  if (0 <? b_length b)%nat then (false, b)
  else
    let frame := reply ++ [LF] in
    if (b_size b <? length frame)%nat then (false, b) else append frame b.

(** ** CMDUs between processes *)

(** [sUdsHeader], packed: interface index, two addresses, length. *)
Definition sizeof_sUdsHeader : nat := 18.
Definition MESSAGE_BUFFER_LENGTH : Z := 8192.

Record UdsCmdu := mkUdsCmdu {
  iface_index : Z; dst_mac : sMacAddr; src_mac : sMacAddr; cmdu : list Z;
}.

Section Cmdu.
(** [CmduUtils::verify_cmdu] and [CmduMessageRx::parse] on the bytes of a CMDU. *)
Context (verify_cmdu : list Z → bool) (cmdu_parse : list Z → bool).

Definition parse_cmdu (b : Buffer) : option UdsCmdu * Buffer :=
  if (b_length b <? sizeof_sUdsHeader)%nat then (None, b)
  else
    let data := b_data b in
    let cmdu_length := Z.to_nat (le16 data 16) in
    let message_length := (sizeof_sUdsHeader + cmdu_length)%nat in
    if (b_length b <? message_length)%nat then (None, b)
    else
      let cmdu_data := take cmdu_length (drop sizeof_sUdsHeader data) in
      let result :=
        if negb (verify_cmdu cmdu_data) then None
        else if MESSAGE_BUFFER_LENGTH <? Z.of_nat cmdu_length then None
        else if negb (cmdu_parse cmdu_data) then None
        else Some (mkUdsCmdu (le32 data 0) (take 6 (drop 4 data)) (take 6 (drop 10 data)) cmdu_data) in
      (result, (shift message_length b).2).
End Cmdu.

Definition ZERO_MAC : sMacAddr := replicate 6 0.

Definition uds_header (m : UdsCmdu) : list Z :=
  le32_bytes (iface_index m) ++ dst_mac m ++ src_mac m
  ++ le16_bytes (Z.of_nat (length (cmdu m))).

Definition serialize_cmdu (m : UdsCmdu) (b : Buffer) : bool * Buffer :=
  if (bool_decide (dst_mac m ≠ ZERO_MAC) && bool_decide (src_mac m = ZERO_MAC))%bool then (false, b)
  else if (0 <? b_length b)%nat then (false, b)
  else if (b_size b <? sizeof_sUdsHeader + length (cmdu m))%nat then (false, b)
  else
    let '(ok, b1) := append (uds_header m) b in
    if negb ok then (false, b1)
    else
      let '(ok, b2) := append (cmdu m) b1 in
      if negb ok then (false, b2) else (true, b2).

(** ** Transport messages *)

Definition parse_message (b : Buffer) : option Message * Buffer :=
  if (b_length b <? sizeof_Header)%nat then (None, b)
  else
    let data := b_data b in
    if negb (le32 data 0 =? kMessageMagic) then (None, (shift sizeof_Header b).2)
    else
      let payload_length := le32 data 8 in
      if kMaxFrameLength <? payload_length then (None, (shift sizeof_Header b).2)
      else
        let message_length := (sizeof_Header + Z.to_nat payload_length)%nat in
        if (b_length b <? message_length)%nat then (None, b)
        else
          (Some (create_transport_message (le32 data 4)
                   (take (Z.to_nat payload_length) (drop sizeof_Header data))),
           (shift message_length b).2).

Definition serialize_message (m : Message) (b : Buffer) : bool * Buffer :=
  if (0 <? b_length b)%nat then (false, b)
  else if (b_size b <? sizeof_Header + length (frame m))%nat then (false, b)
  else
    let '(ok, b1) := append (header_bytes m) b in
    if negb ok then (false, b1)
    else
      let '(ok, b2) := append (frame m) b1 in
      if negb ok then (false, b2) else (true, b2).

(** ** Read handlers *)

(** The parsing loop of [receive_cmdus], [UccServerImpl::handle_read] and
    [BrokerClientImpl::handle_read]. [M] stands for the messages; [handler] is
    what the handler of a message answers, [false] ends the loop (only
    [receive_cmdus] looks at it). A parsed message is never empty, so the
    number of bytes bounds the iterations. *)
Fixpoint drain {M} (parse : Buffer → option M * Buffer) (handler : M → bool) (fuel : nat)
    (b : Buffer) : list M * Buffer :=
  match fuel with
  | O => ([], b)
  | S fuel =>
      if (b_length b =? 0)%nat then ([], b)
      else
        match parse b with
        | (Some m, b') =>
            if negb (handler m) then ([m], b')
            else let '(ms, b'') := drain parse handler fuel b' in (m :: ms, b'')
        | (None, b') => ([], b')
        end
  end.

(** One readiness event: what is delivered, the bytes left in the kernel. *)
Definition handle_read {M} (parse : Buffer → option M * Buffer) (handler : M → bool) (n : nat)
    (s : list Z * Buffer) : list M * (list Z * Buffer) :=
  let '(result, pending, b) := receive n s.1 s.2 in
  if result <=? 0 then ([], (pending, b))
  else
    let '(ms, b') := drain parse handler (S (b_length b)) b in (ms, (pending, b')).

Fixpoint handle_reads {M} (parse : Buffer → option M * Buffer) (handler : M → bool)
    (ns : list nat) (s : list Z * Buffer) : list M * (list Z * Buffer) :=
  match ns with
  | [] => ([], s)
  | n :: ns => let '(ms, s1) := handle_read parse handler n s in
               let '(ms', s2) := handle_reads parse handler ns s1 in (ms ++ ms', s2)
  end.

(** ** The contract of a framing *)

(** Messages that satisfy [ok] are encoded by [enc] and fit the buffer; the
    parser takes one off the front, and waits on a proper prefix. *)
Class Framing {M} (size : nat) (parse : Buffer → option M * Buffer) (enc : M → list Z)
    (ok : M → Prop) := {
  framing_message m rest : ok m → parse (mkBuffer size (enc m ++ rest)) = (Some m, mkBuffer size rest);
  framing_prefix m p q : ok m → enc m = p ++ q → q ≠ [] →
    parse (mkBuffer size p) = (None, mkBuffer size p);
  framing_nonempty m : ok m → enc m ≠ [];
  framing_fits m : ok m → (length (enc m) ≤ size)%nat;
}.

Section Delivery.
Context {M : Type} (size : nat) (parse : Buffer → option M * Buffer) (enc : M → list Z)
  (ok : M → Prop) `{!Framing size parse enc ok}.

Definition encode_all (ms : list M) : list Z := concat (enc <$> ms).

(** The buffer holds less than the next message. *)
Definition waiting (p : list Z) (ms : list M) : Prop :=
  match ms with
  | [] => p = []
  | m :: _ => ∃ q, q ≠ [] ∧ enc m = p ++ q
  end.

(** Draining a buffer that starts at a message boundary. *)
Lemma drain_spec fuel : ∀ data pending ms, Forall ok ms → data ++ pending = encode_all ms →
  (length data < fuel)%nat →
  ∃ ms1 ms2 p, ms = ms1 ++ ms2 ∧ p ++ pending = encode_all ms2 ∧ waiting p ms2
    ∧ drain parse (λ _, true) fuel (mkBuffer size data) = (ms1, mkBuffer size p).
Proof.
  induction fuel as [|fuel IH]; intros data pending ms Hok Hdata Hf; [lia|]. cbn [drain].
  unfold b_length. cbn [b_data]. destruct (Nat.eqb_spec (length data) 0) as [H0|H0].
  { apply nil_length_inv in H0 as ->. exists [], ms, []. split; [done|]. split; [done|].
    split; [|done]. destruct ms as [|m ms]; [done|]. exists (enc m). split; [|done].
    apply Forall_cons in Hok as [Hm _]. by apply framing_nonempty. }
  destruct ms as [|m ms].
  { apply app_eq_nil in Hdata as [-> _]. done. }
  apply Forall_cons in Hok as [Hm Hok]. unfold encode_all in Hdata. cbn in Hdata.
  fold (encode_all ms) in Hdata.
  destruct (le_lt_dec (length (enc m)) (length data)) as [Hle|Hlt].
  - assert (data = enc m ++ drop (length (enc m)) data) as Hd.
    { rewrite <- (take_drop (length (enc m)) data) at 1. f_equal.
      apply (f_equal (take (length (enc m)))) in Hdata.
      by rewrite take_app_le, take_app_length in Hdata by lia. }
    set (data' := drop (length (enc m)) data) in *. rewrite Hd, framing_message by done. cbn [negb].
    assert (0 < length (enc m))%nat as Hpos.
    { pose proof (framing_nonempty m Hm). destruct (enc m); [done|cbn; lia]. }
    destruct (IH data' pending ms) as (ms1 & ms2 & p & -> & Hp & Hw & ->); [done| |rewrite Hd, length_app in Hf; lia|].
    + rewrite Hd, <- app_assoc in Hdata. by apply app_inv_head in Hdata.
    + by exists (m :: ms1), ms2, p.
  - assert (enc m = data ++ drop (length data) (enc m)) as He.
    { rewrite <- (take_drop (length data) (enc m)) at 1. f_equal.
      apply (f_equal (take (length data))) in Hdata.
      by rewrite take_app_length, take_app_le in Hdata by lia. }
    assert (drop (length data) (enc m) ≠ []) as Hq.
    { intros E. apply (f_equal length) in E. rewrite length_drop in E. cbn in E. lia. }
    rewrite (framing_prefix m data _ Hm He Hq).
    exists [], (m :: ms), data. split; [done|]. split; [done|]. split; [|done].
    by exists (drop (length data) (enc m)).
Qed.

(** One event between two waiting states. *)
Lemma handle_read_spec n p pending ms : Forall ok ms → p ++ pending = encode_all ms →
  waiting p ms →
  ∃ ms1 ms2 p' pending', ms = ms1 ++ ms2 ∧ p' ++ pending' = encode_all ms2 ∧ waiting p' ms2
    ∧ handle_read parse (λ _, true) n (pending, mkBuffer size p) = (ms1, (pending', mkBuffer size p'))
    ∧ (0 < n → pending ≠ [] → length pending' < length pending)%nat
    ∧ (length pending' ≤ length pending)%nat.
Proof.
  intros Hok Hp Hw. unfold handle_read, receive. cbn [fst snd b_size b_length b_data]. unfold b_length.
  cbn [b_data]. destruct (Nat.leb_spec size (length p)) as [Hfull|Hroom].
  { exists [], ms, p, pending. split_and!; try done. intros _ Hne.
    destruct ms as [|m ms]; cbn in Hw.
    - subst p. by rewrite app_nil_l in Hp; subst pending.
    - exfalso. destruct Hw as (q & Hq & He). apply Forall_cons in Hok as [Hm _].
      pose proof (framing_fits m Hm) as Hfit. rewrite He, length_app in Hfit.
      destruct q; [done|]. cbn in Hfit. lia. }
  set (got := take _ pending). assert (got ++ drop (length got) pending = pending) as Hgot.
  { unfold got. rewrite length_take. destruct (Nat.le_ge_cases (n `min` (size - length p)) (length pending)).
    - rewrite (Nat.min_l _ (length pending)) by done. apply take_drop.
    - rewrite (Nat.min_r _ (length pending)), firstn_all2, drop_all by done. apply app_nil_r. }
  assert (length got = n `min` (size - length p) `min` length pending)%nat as Hlen by apply length_take.
  clearbody got. destruct got as [|g got].
  { exists [], ms, p, pending. split_and!; try done. intros Hn Hne. cbn in Hlen.
    destruct pending; [done|cbn in Hlen; lia]. }
  rewrite (proj2 (Z.leb_gt _ _)) by (cbn [length]; lia). unfold b_length. cbn [b_data].
  destruct (drain_spec (S (length (p ++ g :: got))) (p ++ g :: got)
              (drop (length (g :: got)) pending) ms) as (ms1 & ms2 & p' & -> & Hp' & Hw' & ->);
    [done|by rewrite <- app_assoc, Hgot|lia|].
  exists ms1, ms2, p', (drop (length (g :: got)) pending). split_and!; try done.
  - intros _ Hne. rewrite length_drop. destruct pending; [done|cbn; lia].
  - rewrite length_drop. lia.
Qed.

Lemma handle_reads_spec ns : ∀ p pending ms, Forall ok ms → p ++ pending = encode_all ms →
  waiting p ms →
  ∃ ms1 ms2 p' pending', ms = ms1 ++ ms2 ∧ p' ++ pending' = encode_all ms2 ∧ waiting p' ms2
    ∧ handle_reads parse (λ _, true) ns (pending, mkBuffer size p) = (ms1, (pending', mkBuffer size p'))
    ∧ (Forall (λ n, 0 < n) ns → length pending ≤ length ns → pending' = [])%nat.
Proof.
  induction ns as [|n ns IH]; intros p pending ms Hok Hp Hw; cbn [handle_reads].
  { exists [], ms, p, pending. split_and!; try done. intros _ Hl. destruct pending; [done|cbn in Hl; lia]. }
  destruct (handle_read_spec n p pending ms) as (ms1 & ms2 & p1 & pe1 & -> & Hp1 & Hw1 & -> & Hlt & Hle); [done..|].
  apply Forall_app in Hok as [_ Hok2].
  destruct (IH p1 pe1 ms2) as (ms3 & ms4 & p2 & pe2 & -> & Hp2 & Hw2 & -> & Hdone); [done..|].
  exists (ms1 ++ ms3), ms4, p2, pe2. split_and!; try done; [by rewrite app_assoc|].
  intros Hns Hl. apply Forall_cons in Hns as [Hn Hns]. apply Hdone; [done|]. cbn in Hl.
  destruct pending as [|c pending]; [cbn in Hle; lia|].
  specialize (Hlt Hn ltac:(done)). cbn in *. lia.
Qed.

(** Everything arrives, in order and once, however the stream is cut. *)
Lemma delivery ms ns : Forall ok ms → Forall (λ n, 0 < n)%nat ns →
  (length (encode_all ms) ≤ length ns)%nat →
  handle_reads parse (λ _, true) ns (encode_all ms, mkBuffer size []) = (ms, ([], mkBuffer size [])).
Proof.
  intros Hok Hns Hl.
  destruct (handle_reads_spec ns [] (encode_all ms) ms) as (ms1 & ms2 & p & pe & -> & Hp & Hw & -> & Hd);
    [done|done| |].
  { destruct ms as [|m ms]; [done|]. exists (enc m). split; [|done].
    apply Forall_cons in Hok as [Hm _]. by apply framing_nonempty. }
  rewrite Hd in * by done. rewrite app_nil_r in Hp. destruct ms2 as [|m ms2].
  - cbn in Hw. subst p. by rewrite app_nil_r.
  - exfalso. destruct Hw as (q & Hq & He). unfold encode_all in Hp. cbn in Hp. rewrite Hp in He.
    rewrite <- app_assoc in He. rewrite <- (app_nil_r (enc m)) in He at 1.
    apply app_inv_head in He. symmetry in He. apply app_eq_nil in He as [_ ?]. done.
Qed.
End Delivery.

(** ** The framings meet the contract *)

Lemma shift_front size a rest : (shift (length a) (mkBuffer size (a ++ rest))).2 = mkBuffer size rest.
Proof.
  unfold shift, b_length. cbn [b_data b_size]. rewrite length_app.
  rewrite (proj2 (Nat.ltb_ge _ _)) by lia. cbn. by rewrite drop_app_length.
Qed.

Lemma prefix_shorter {A} (p q e : list A) : e = p ++ q → q ≠ [] → (length p < length e)%nat.
Proof. intros -> Hq. rewrite length_app. destruct q; [done|cbn; lia]. Qed.

Lemma find_char_app c l rest : c ∉ l → find_char c (l ++ c :: rest) = Some (length l).
Proof.
  induction l as [|x l IH]; intros Hl; cbn; [by rewrite Z.eqb_refl|].
  apply not_elem_of_cons in Hl as [Hx Hl]. rewrite (proj2 (Z.eqb_neq _ _)) by done. by rewrite IH.
Qed.

Lemma find_char_None c l : c ∉ l → find_char c l = None.
Proof.
  induction l as [|x l IH]; intros Hl; cbn; [done|].
  apply not_elem_of_cons in Hl as [Hx Hl]. rewrite (proj2 (Z.eqb_neq _ _)) by done. by rewrite IH.
Qed.

(** A command line: no line feed, nothing to trim, and it fits. *)
Definition command_ok (size : nat) (c : list Z) : Prop :=
  LF ∉ c ∧ string_utils.trim c [] = c ∧ (length c + 1 ≤ size)%nat.
Definition command_bytes (c : list Z) : list Z := c ++ [LF].

#[export] Instance ucc_framing size : Framing size parse_command command_bytes (command_ok size).
Proof.
  split.
  - intros c rest (Hlf & Htrim & _). unfold parse_command, command_bytes. cbn [b_data].
    rewrite <- app_assoc. cbn [app]. rewrite find_char_app by done. rewrite take_app_length, Htrim.
    f_equal. change (c ++ LF :: rest) with (c ++ [LF] ++ rest). rewrite app_assoc.
    replace (length c + 1)%nat with (length (c ++ [LF])) by (rewrite length_app; cbn; lia).
    apply shift_front.
  - intros c p q (Hlf & _ & Hfit) He Hq. unfold parse_command, b_length. cbn [b_data b_size].
    pose proof (prefix_shorter _ _ _ He Hq) as Hp. unfold command_bytes in *.
    rewrite length_app in Hp. cbn in Hp.
    assert (p = take (length p) c) as Ep.
    { apply (f_equal (take (length p))) in He. rewrite take_app_length, take_app_le in He by lia. done. }
    rewrite find_char_None. { by rewrite (proj2 (Nat.eqb_neq _ _)) by lia. }
    intros Hin. apply Hlf. rewrite Ep in Hin. by eapply elem_of_take in Hin as (i & Hi & _); apply list_elem_of_lookup_2 in Hi.
  - intros c _. unfold command_bytes. by destruct c.
  - intros c (_ & _ & Hfit). unfold command_bytes. rewrite length_app. cbn. lia.
Qed.

(** A CMDU that passes the checks of the receiver. *)
Definition uds_ok (verify_cmdu cmdu_parse : list Z → bool) (size : nat) (m : UdsCmdu) : Prop :=
  length (dst_mac m) = 6%nat ∧ length (src_mac m) = 6%nat ∧ 0 ≤ iface_index m < 2 ^ 32
  ∧ Z.of_nat (length (cmdu m)) ≤ MESSAGE_BUFFER_LENGTH
  ∧ verify_cmdu (cmdu m) = true ∧ cmdu_parse (cmdu m) = true
  ∧ (sizeof_sUdsHeader + length (cmdu m) ≤ size)%nat.
Definition uds_bytes (m : UdsCmdu) : list Z := uds_header m ++ cmdu m.

(** Reading the header of a CMDU back, whatever follows it. *)
Lemma uds_header_fields m rest : length (dst_mac m) = 6%nat → length (src_mac m) = 6%nat →
  0 ≤ iface_index m < 2 ^ 32 → Z.of_nat (length (cmdu m)) < 65536 →
  let data := uds_header m ++ rest in
  length (uds_header m) = sizeof_sUdsHeader ∧ le16 data 16 = Z.of_nat (length (cmdu m))
  ∧ le32 data 0 = iface_index m ∧ take 6 (drop 4 data) = dst_mac m
  ∧ take 6 (drop 10 data) = src_mac m ∧ drop sizeof_sUdsHeader data = rest.
Proof.
  intros Hd Hs Hi Hl. destruct m as [i d s c]. cbn [dst_mac src_mac iface_index cmdu] in *.
  destruct d as [|d0 [|d1 [|d2 [|d3 [|d4 [|d5 [|]]]]]]]; try done.
  destruct s as [|s0 [|s1 [|s2 [|s3 [|s4 [|s5 [|]]]]]]]; try done.
  cbn [uds_header dst_mac src_mac iface_index cmdu]. split_and!; try done.
  - by apply le16_value; lia.
  - by apply le32_value.
Qed.

#[export] Instance cmdu_framing verify_cmdu cmdu_parse size :
  Framing size (parse_cmdu verify_cmdu cmdu_parse) uds_bytes (uds_ok verify_cmdu cmdu_parse size).
Proof.
  split.
  - intros m rest (Hd & Hs & Hi & Hl & Hv & Hp & Hfit). unfold parse_cmdu, b_length, uds_bytes.
    cbn [b_data]. unfold MESSAGE_BUFFER_LENGTH in *. rewrite <- app_assoc.
    destruct (uds_header_fields m (cmdu m ++ rest)) as (H18 & Hlen & Hif & Hdst & Hsrc & Hdrop); [done..|lia|].
    rewrite Hlen, Hif, Hdst, Hsrc, Hdrop, Nat2Z.id, !length_app, H18.
    rewrite !(proj2 (Nat.ltb_ge _ _)) by lia. rewrite take_app_length, Hv, Hp.
    rewrite (proj2 (Z.ltb_ge _ _)) by lia. cbn [negb]. f_equal; [by destruct m|].
    rewrite app_assoc. rewrite <- H18, <- length_app. apply shift_front.
  - intros m p q (Hd & Hs & Hi & Hl & Hv & Hp & Hfit) He Hq. unfold parse_cmdu, b_length.
    cbn [b_data]. pose proof (prefix_shorter _ _ _ He Hq) as Hlt. unfold uds_bytes, MESSAGE_BUFFER_LENGTH in *.
    destruct (uds_header_fields m (cmdu m)) as (H18 & Hlen & _); [done..|lia|].
    rewrite length_app, H18 in Hlt.
    destruct (Nat.ltb_spec (length p) sizeof_sUdsHeader) as [|Hge]; [done|].
    assert (le16 p 16 = Z.of_nat (length (cmdu m))) as ->.
    { rewrite He in Hlen. rewrite <- Hlen. unfold le16, at_, sizeof_sUdsHeader in *.
      by rewrite !lookup_app_l by lia. }
    rewrite Nat2Z.id, (proj2 (Nat.ltb_lt _ _)) by lia. done.
  - intros m _. done.
  - intros m (Hd & Hs & Hi & Hl & _ & _ & Hfit). unfold uds_bytes, MESSAGE_BUFFER_LENGTH in *.
    destruct (uds_header_fields m []) as (H18 & _); [done..|lia|]. rewrite length_app. lia.
Qed.

Definition transport_message_ok (size : nat) (m : Message) : Prop :=
  message_ok m ∧ (sizeof_Header + length (frame m) ≤ size)%nat.

Lemma message_header_fields m rest : message_ok m →
  let data := header_bytes m ++ rest in
  le32 data 0 = kMessageMagic ∧ le32 data 4 = m_type m
  ∧ le32 data 8 = Z.of_nat (length (frame m)) ∧ drop sizeof_Header data = rest.
Proof.
  intros [(n & Hn & _) Hmax]. pose proof (sizeof_Metadata_type _ _ Hn).
  unfold kMaxFrameLength in Hmax. split_and!; try done.
  - by apply le32_value. - apply le32_value. lia.
Qed.

#[export] Instance message_framing size :
  Framing size parse_message message_bytes (transport_message_ok size).
Proof.
  split.
  - intros m rest [Hok Hfit]. unfold parse_message, b_length, message_bytes. cbn [b_data].
    rewrite <- app_assoc. destruct (message_header_fields m (frame m ++ rest) Hok) as (Hmg & Hty & Hlen & Hdrop).
    rewrite Hmg, Hty, Hlen, Hdrop, Nat2Z.id, !length_app, length_header_bytes, Z.eqb_refl. cbn [negb].
    destruct Hok as [Hok1 Hok2]. rewrite (proj2 (Z.ltb_ge _ _)) by done.
    rewrite !(proj2 (Nat.ltb_ge _ _)) by lia. rewrite take_app_length.
    rewrite create_transport_message_id by done. f_equal.
    rewrite app_assoc, <- (length_header_bytes m), <- length_app. apply shift_front.
  - intros m p q [Hok Hfit] He Hq. unfold parse_message, b_length. cbn [b_data].
    pose proof (prefix_shorter _ _ _ He Hq) as Hlt. unfold message_bytes in *.
    destruct (message_header_fields m (frame m) Hok) as (Hmg & _ & Hlen & _). rewrite He in Hmg, Hlen.
    rewrite length_app, length_header_bytes in Hlt.
    destruct (Nat.ltb_spec (length p) sizeof_Header) as [|Hge]; [done|].
    assert (∀ i, (i + 3 < length p)%nat → le32 (p ++ q) i = le32 p i) as Hread.
    { intros i Hi. unfold le32, le16, at_. by rewrite !lookup_app_l by lia. }
    unfold sizeof_Header in *. rewrite !Hread in * by lia. rewrite Hmg, Hlen, Z.eqb_refl. cbn [negb].
    destruct Hok as [_ Hmax]. rewrite (proj2 (Z.ltb_ge _ _)) by done.
    by rewrite Nat2Z.id, (proj2 (Nat.ltb_lt _ _)) by lia.
  - intros m _. done.
  - intros m [_ Hfit]. unfold message_bytes. by rewrite length_app, length_header_bytes.
Qed.

(** ** Theorems *)

(** The serializers write the encoding of the contract. *)
Lemma append_empty size data : (length data ≤ size)%nat →
  append data (mkBuffer size []) = (true, mkBuffer size data).
Proof. intros. unfold append, b_length. cbn [b_data b_size length app Nat.add]. by rewrite (proj2 (Nat.ltb_ge _ _)) by lia. Qed.

Lemma append_after size a data : (length a + length data ≤ size)%nat →
  append data (mkBuffer size a) = (true, mkBuffer size (a ++ data)).
Proof. intros. unfold append, b_length. cbn [b_data b_size]. by rewrite (proj2 (Nat.ltb_ge _ _)) by lia. Qed.

(** UCC commands arrive. Replies and commands written by
    [serialize_reply] and sent one after the other are delivered by the
    reading side each exactly once, in order and unchanged, in whatever
    pieces the stream hands them over. *)
Theorem ucc_stream_delivers size cs ns : Forall (command_ok size) cs →
  Forall (λ n, 0 < n)%nat ns → (length (encode_all command_bytes cs) ≤ length ns)%nat →
  Forall (λ c, serialize_reply c (mkBuffer size []) = (true, mkBuffer size (command_bytes c))) cs
  ∧ handle_reads parse_command (λ _, true) ns (encode_all command_bytes cs, mkBuffer size [])
    = (cs, ([], mkBuffer size [])).
Proof.
  intros Hok Hns Hl. split; [|by apply (delivery size _ _ (command_ok size))]. eapply Forall_impl; [exact Hok|].
  intros c (_ & _ & Hfit). unfold serialize_reply, b_length. cbn [b_data b_size].
  assert (length (c ++ [LF]) ≤ size)%nat by (rewrite length_app; cbn; lia).
  rewrite (proj2 (Nat.ltb_ge size _)) by done. by apply append_empty.
Qed.

(** CMDUs between the processes of a device arrive. What
    [serialize_cmdu] writes for a list of CMDUs, sent over a stream socket
    and read in arbitrary pieces, is parsed by the peer into exactly these
    CMDUs with their interface and addresses, in order, each once, and the
    receive buffer ends empty. *)
Theorem cmdu_stream_delivers verify_cmdu cmdu_parse size ms ns :
  Forall (uds_ok verify_cmdu cmdu_parse size) ms →
  Forall (λ m, dst_mac m ≠ ZERO_MAC → src_mac m ≠ ZERO_MAC) ms →
  Forall (λ n, 0 < n)%nat ns → (length (encode_all uds_bytes ms) ≤ length ns)%nat →
  Forall (λ m, serialize_cmdu m (mkBuffer size []) = (true, mkBuffer size (uds_bytes m))) ms
  ∧ handle_reads (parse_cmdu verify_cmdu cmdu_parse) (λ _, true) ns
      (encode_all uds_bytes ms, mkBuffer size []) = (ms, ([], mkBuffer size [])).
Proof.
  intros Hok Hmac Hns Hl. split; [|by apply (delivery size _ _ (uds_ok verify_cmdu cmdu_parse size))].
  eapply Forall_impl; [apply Forall_and; split; [exact Hok|exact Hmac]|].
  intros m [(Hd & Hs & Hi & Hm & _ & _ & Hfit) Hz]. unfold serialize_cmdu, b_length. cbn [b_data b_size].
  unfold MESSAGE_BUFFER_LENGTH in Hm.
  destruct (uds_header_fields m []) as (H18 & _); [done..|lia|].
  destruct (bool_decide (dst_mac m ≠ ZERO_MAC)) eqn:E1; bool_to_prop.
  - rewrite (bool_decide_false (src_mac m = ZERO_MAC)) by auto. cbn [andb length]. change (0 <? 0)%nat with false. cbn [andb].
    rewrite (proj2 (Nat.ltb_ge size _)) by done. rewrite append_empty by lia. cbn [negb].
    by rewrite append_after by lia.
  - cbn [andb length]. change (0 <? 0)%nat with false. cbn [andb]. rewrite (proj2 (Nat.ltb_ge size _)) by done.
    rewrite append_empty by lia. cbn [negb]. by rewrite append_after by lia.
Qed.

Lemma serialize_message_run size m : (sizeof_Header + length (frame m) ≤ size)%nat →
  serialize_message m (mkBuffer size []) = (true, mkBuffer size (message_bytes m)).
Proof.
  intros Hfit. unfold serialize_message, b_length. cbn [b_data b_size length].
  change (0 <? 0)%nat with false. cbv iota.
  rewrite (proj2 (Nat.ltb_ge size _)) by done. rewrite append_empty by (rewrite length_header_bytes; lia).
  cbn [negb]. by rewrite append_after by (rewrite length_header_bytes; lia).
Qed.

(** Transport messages arrive at the local clients: the same for what
    [serialize_message] writes, which is also what the broker's
    [send_transport_message] writes. *)
Theorem message_stream_delivers size ms ns : Forall (transport_message_ok size) ms →
  Forall (λ n, 0 < n)%nat ns → (length (encode_all message_bytes ms) ≤ length ns)%nat →
  Forall (λ m, serialize_message m (mkBuffer size []) = (true, mkBuffer size (message_bytes m))) ms
  ∧ handle_reads parse_message (λ _, true) ns (encode_all message_bytes ms, mkBuffer size [])
    = (ms, ([], mkBuffer size [])).
Proof.
  intros Hok Hns Hl. split; [|by apply (delivery size _ _ (transport_message_ok size))]. eapply Forall_impl; [exact Hok|].
  intros m [_ Hfit]. by apply serialize_message_run.
Qed.

(** A CMDU the transport may reassemble and publish can be too long for
    its clients: from 8153 bytes on, the client's parser rejects the
    message, skips the twelve bytes of the header only and goes on parsing
    inside the CMDU. *)
Theorem long_cmdu_desynchronises_client size now packet rest :
  8152 < Z.of_nat (length (payload packet)) < 65536 → length (dst packet) = 6%nat →
  length (src packet) = 6%nat →
  let m := rx_message now packet in
  parse_message (mkBuffer size (message_bytes m ++ rest)) = (None, mkBuffer size (frame m ++ rest)).
Proof.
  intros Hl Hd Hs m.
  assert (length (frame m) = 40 + length (payload packet))%nat as Hlen.
  { unfold m, rx_message, mkCmduMessage. cbn [frame]. rewrite length_app. f_equal.
    unfold encode_cmdu_metadata, rx_metadata. cbn [md_dst md_src]. rewrite !length_app, Hd, Hs. done. }
  unfold parse_message, b_length, message_bytes. cbn [b_data]. rewrite <- app_assoc.
  rewrite length_app, length_header_bytes, (proj2 (Nat.ltb_ge _ _)) by lia.
  assert (le32 (header_bytes m ++ frame m ++ rest) 0 = kMessageMagic) as -> by done.
  assert (le32 (header_bytes m ++ frame m ++ rest) 8 = Z.of_nat (length (frame m))) as ->.
  { apply le32_value. lia. }
  rewrite Z.eqb_refl. cbn [negb]. rewrite (proj2 (Z.ltb_lt _ _)) by (unfold kMaxFrameLength; lia).
  by rewrite <- (length_header_bytes m), shift_front.
Qed.

(** A CMDU the parser rejects holds back the ones behind it: although the
    next CMDU is completely received, the read event delivers nothing and
    leaves it in the buffer. *)
Theorem rejected_cmdu_delays_followers verify_cmdu cmdu_parse size bad good n :
  uds_ok (λ _, true) (λ _, true) size bad → uds_ok verify_cmdu cmdu_parse size good →
  verify_cmdu (cmdu bad) = false → (length (uds_bytes bad ++ uds_bytes good) ≤ size)%nat →
  (length (uds_bytes bad ++ uds_bytes good) ≤ n)%nat →
  handle_read (parse_cmdu verify_cmdu cmdu_parse) (λ _, true) n
    (uds_bytes bad ++ uds_bytes good, mkBuffer size []) = ([], ([], mkBuffer size (uds_bytes good))).
Proof.
  intros Hbad Hgood Hv Hsz Hn.
  assert (parse_cmdu verify_cmdu cmdu_parse (mkBuffer size (uds_bytes bad ++ uds_bytes good))
          = (None, mkBuffer size (uds_bytes good))) as Hparse.
  { destruct Hbad as (Hd & Hs & Hi & Hl & _ & _ & _). unfold MESSAGE_BUFFER_LENGTH in Hl.
    unfold parse_cmdu, uds_bytes, b_length. cbn [b_data]. rewrite <- app_assoc.
    destruct (uds_header_fields bad (cmdu bad ++ uds_header good ++ cmdu good))
      as (H18 & Hlen & Hif & Hdst & Hsrc & Hdrop); [done..|lia|].
    rewrite Hlen, Hif, Hdst, Hsrc, Hdrop, Nat2Z.id, !length_app, H18.
    rewrite !(proj2 (Nat.ltb_ge _ _)) by lia. rewrite take_app_length, Hv. cbn [negb].
    f_equal. rewrite app_assoc, <- H18, <- length_app. apply shift_front. }
  unfold handle_read, receive. cbn [fst snd b_size b_data b_length]. unfold b_length. cbn [b_data].
  set (data := uds_bytes bad ++ uds_bytes good) in *.
  assert (0 < length data)%nat as Hpos by (unfold data; rewrite length_app; cbn; lia).
  rewrite (proj2 (Nat.leb_gt _ _)) by (cbn; lia). cbn [length]. rewrite Nat.sub_0_r.
  rewrite firstn_all2 by lia. destruct data as [|c data'] eqn:Ed; [cbn in Hpos; lia|]. rewrite <- Ed in *.
  rewrite (proj2 (Z.leb_gt _ _)) by lia. cbn [app drain]. unfold b_length. cbn [b_data].
  rewrite (proj2 (Nat.eqb_neq _ _)) by lia. rewrite Hparse. by rewrite drop_all.
Qed.
