(* ===== verification/EventLoop.v ===== *)
(** * Event loop, timers and CMDU server connections

    [EventLoopImpl] ([beerocks_event_loop_impl.cpp]), [TimerManagerImpl]
    ([beerocks_timer_manager_impl.cpp]) and the connection table of
    [CmduServerImpl] ([beerocks_cmdu_server_impl.cpp]). A callback is an
    identifier; what it does to the loop is the list of the loop's operations
    it calls. *)

From S2P Require Import Prelude.

(** ** Data *)

(** Results of the system calls on the epoll descriptor. *)
Record EpollEnv := mkEpollEnv {
  epoll_add_ok : Z → bool;
  epoll_del_ok : Z → bool;
}.

Definition EPOLLIN : Z := 0x001.
Definition EPOLLOUT : Z := 0x004.
Definition EPOLLERR : Z := 0x008.
Definition EPOLLHUP : Z := 0x010.
Definition EPOLLRDHUP : Z := 0x2000.

(** [EventLoop::EventHandlers]; an empty [std::function] is [None]. *)
Record EventHandlers (H : Type) := mkEventHandlers {
  hname : string;
  on_read : option H;
  on_write : option H;
  on_disconnect : option H;
  on_error : option H;
}.
Arguments mkEventHandlers {H}.
Arguments hname {H}.
Arguments on_read {H}.
Arguments on_write {H}.
Arguments on_disconnect {H}.
Arguments on_error {H}.

(** The map of the object and, in the kernel, the descriptors of the epoll
    instance with the events asked for. *)
Record EventLoop (H : Type) := mkEventLoop {
  m_fd_to_event_handlers : gmap Z (EventHandlers H);
  epoll_set : gmap Z Z;
}.
Arguments mkEventLoop {H}.
Arguments m_fd_to_event_handlers {H}.
Arguments epoll_set {H}.

Section Loop.
Context {H W : Type} (e : EpollEnv).
Implicit Types (l : EventLoop H) (hs : EventHandlers H).

(** ** Registration *)

Definition interest hs : Z :=
  let events := Z.lor (Z.lor EPOLLRDHUP EPOLLERR) EPOLLHUP in
  let events := if on_read hs then Z.lor events EPOLLIN else events in
  if on_write hs then Z.lor events EPOLLOUT else events.

Definition loop_register_handlers (fd : Z) hs : stM (EventLoop H) bool := λ l,
  if fd =? -1 then (false, l)
  else if bool_decide (is_Some (m_fd_to_event_handlers l !! fd)) then (false, l)
  else if negb (epoll_add_ok e fd) then (false, l)
  else (true, mkEventLoop (<[fd := hs]> (m_fd_to_event_handlers l))
                (<[fd := interest hs]> (epoll_set l))).

Definition loop_remove_handlers (fd : Z) : stM (EventLoop H) bool := λ l,
  if fd =? -1 then (false, l)
  else if bool_decide (m_fd_to_event_handlers l !! fd = None) then (false, l)
  else
    let ok := epoll_del_ok e fd in
    (ok, mkEventLoop (delete fd (m_fd_to_event_handlers l))
           (if ok then delete fd (epoll_set l) else epoll_set l)).

Definition set_handler_name (fd : Z) (name : string) : stM (EventLoop H) bool := λ l,
  match m_fd_to_event_handlers l !! fd with
  | None => (false, l)
  | Some hs =>
      (true, mkEventLoop (<[fd := mkEventHandlers name (on_read hs) (on_write hs)
                                    (on_disconnect hs) (on_error hs)]> (m_fd_to_event_handlers l))
               (epoll_set l))
  end.

(** ** Callbacks *)

Inductive loop_op :=
  | OpRegister (fd : Z) hs
  | OpRemove (fd : Z)
  | OpName (fd : Z) (name : string).

Definition apply_op (o : loop_op) l : EventLoop H :=
  match o with
  | OpRegister fd hs => (loop_register_handlers fd hs l).2
  | OpRemove fd => (loop_remove_handlers fd l).2
  | OpName fd name => (set_handler_name fd name l).2
  end.

(** What a callback does on a descriptor in a world: the operations on the
    loop, the world after, and its result. *)
Context (invoke : H → Z → W → list loop_op * W * bool).

(** The world, the loop, and the calls made so far. *)
Record LoopState := mkLoopState {
  ls_loop : EventLoop H; ls_world : W; ls_calls : list (Z * H);
}.

Definition call (h : option H) (fd : Z) : stM LoopState bool := λ s,
  match h with
  | None => (true, s)
  | Some h =>
      let '(ops, w, ok) := invoke h fd (ls_world s) in
      (ok, mkLoopState (foldl (λ l o, apply_op o l) (ls_loop s) ops) w (ls_calls s ++ [(fd, h)]))
  end.

(** ** [run] *)

(** The body of the loop over the events; [false] is the early [return -1]. *)
Definition dispatch (ev : Z * Z) : stM LoopState bool := λ s,
  let '(fd, events) := ev in
  match m_fd_to_event_handlers (ls_loop s) !! fd with
  | None => (true, s)
  | Some hs =>
      if has_flag events EPOLLERR then
        let s := mkLoopState (loop_remove_handlers fd (ls_loop s)).2 (ls_world s) (ls_calls s) in
        call (on_error hs) fd s
      else if (has_flag events EPOLLRDHUP || has_flag events EPOLLHUP)%bool then
        let s := mkLoopState (loop_remove_handlers fd (ls_loop s)).2 (ls_world s) (ls_calls s) in
        call (on_disconnect hs) fd s
      else if has_flag events EPOLLIN then call (on_read hs) fd s
      else if has_flag events EPOLLOUT then call (on_write hs) fd s
      else (true, s)
  end.

(** What [epoll_wait] gives: an error (interrupted or not) or the events. *)
Inductive wait_result :=
  | WaitError (interrupted : bool)
  | WaitEvents (events : list (Z * Z)).

Definition run (r : wait_result) : stM LoopState Z :=
  match r with
  | WaitError true => mret 0
  | WaitError false => mret (-1)
  | WaitEvents [] => mret 0
  | WaitEvents events =>
      ok ← for_until dispatch events;
      mret (if (ok : bool) then Z.of_nat (length events) else -1)
  end.

(** ** Lemmas *)

(** The map and the epoll instance agree. *)
Definition loop_inv l : Prop :=
  m_fd_to_event_handlers l !! (-1) = None ∧
  ∀ fd, epoll_set l !! fd = interest <$> m_fd_to_event_handlers l !! fd.

(** Removing a registered descriptor from the epoll instance works. *)
Definition del_works : Prop := ∀ fd, epoll_del_ok e fd = true.

Lemma loop_register_inv fd hs l : loop_inv l → loop_inv (loop_register_handlers fd hs l).2.
Proof.
  intros [Hm1 Heq]. unfold loop_register_handlers. destruct (Z.eqb_spec fd (-1)); [done|].
  case_bool_decide; [done|]. destruct (negb _); [done|]. split; cbn.
  - by rewrite lookup_insert_ne.
  - intros fd'. rewrite !lookup_insert. by case_decide.
Qed.

Lemma loop_remove_inv fd l : del_works → loop_inv l → loop_inv (loop_remove_handlers fd l).2.
Proof.
  intros Hdel [Hm1 Heq]. unfold loop_remove_handlers. destruct (Z.eqb_spec fd (-1)); [done|].
  case_bool_decide; [done|]. rewrite Hdel. split; cbn.
  - by rewrite lookup_delete_ne.
  - intros fd'. rewrite !lookup_delete. by case_decide.
Qed.

Lemma set_handler_name_inv fd name l : loop_inv l → loop_inv (set_handler_name fd name l).2.
Proof.
  intros [Hm1 Heq]. unfold set_handler_name.
  destruct (m_fd_to_event_handlers l !! fd) as [hs|] eqn:E; [|done]. split; cbn.
  - rewrite lookup_insert_ne; [done|]. intros ->. by rewrite Hm1 in E.
  - intros fd'. rewrite lookup_insert. case_decide as Hfd; [|done]. subst fd'. rewrite Heq, E. done.
Qed.

Lemma apply_ops_inv ops l : del_works → loop_inv l → loop_inv (foldl (λ l o, apply_op o l) l ops).
Proof.
  intros Hdel. revert l. induction ops as [|o ops IH]; intros l Hl; [done|]. cbn. apply IH.
  destruct o; [by apply loop_register_inv|by apply loop_remove_inv|by apply set_handler_name_inv].
Qed.

Lemma call_inv h fd s : del_works → loop_inv (ls_loop s) → loop_inv (ls_loop (call h fd s).2).
Proof.
  intros Hdel Hs. unfold call. destruct h as [h|]; [|done].
  destruct (invoke h fd (ls_world s)) as [[ops w] ok]. cbn. by apply apply_ops_inv.
Qed.

Lemma dispatch_inv ev s : del_works → loop_inv (ls_loop s) → loop_inv (ls_loop (dispatch ev s).2).
Proof.
  intros Hdel Hs. unfold dispatch. destruct ev as [fd events]. destruct (_ !! fd); [|done].
  destruct (has_flag events EPOLLERR); [apply call_inv; [done|by apply loop_remove_inv]|].
  destruct (_ || _)%bool; [apply call_inv; [done|by apply loop_remove_inv]|].
  destruct (has_flag _ _); [by apply call_inv|]. destruct (has_flag _ _); [by apply call_inv|done].
Qed.

Lemma for_until_inv {S A} (P : S → Prop) (body : A → stM S bool) xs s :
  (∀ x s, x ∈ xs → P s → P (body x s).2) → P s → P (for_until body xs s).2.
Proof.
  revert s. induction xs as [|x xs IH]; intros s Hb HP; [done|]. cbn [for_until]. st_run.
  pose proof (Hb x s ltac:(by left) HP). destruct (body x s) as [[] s1]; cbn [fst snd] in *; [|done].
  apply IH; [|done]. intros y s' Hy. apply Hb. by right.
Qed.

(** C13: The loop's table and the kernel's agree. Whatever events arrive and
    whatever the callbacks register and remove while they are handled, after
    a run the descriptors the epoll instance watches are exactly those with
    handlers, each for the events its handlers need. *)
Theorem run_keeps_epoll_consistent r s : del_works → loop_inv (ls_loop s) →
  loop_inv (ls_loop (run r s).2).
Proof.
  intros Hdel Hs. unfold run. destruct r as [[]|[|ev evs]]; try done. st_run.
  apply (for_until_inv (λ s, loop_inv (ls_loop s))); [|done]. intros x s' _ Hs'. by apply dispatch_inv.
Qed.

(** No callback registers the descriptor. *)
Definition never_registers (fd : Z) : Prop :=
  ∀ h fd' w hs, OpRegister fd hs ∉ (invoke h fd' w).1.1.

Lemma apply_ops_absent fd ops l : (∀ hs, OpRegister fd hs ∉ ops) →
  m_fd_to_event_handlers l !! fd = None →
  m_fd_to_event_handlers (foldl (λ l o, apply_op o l) l ops) !! fd = None.
Proof.
  revert l. induction ops as [|o ops IH]; intros l Hops Hl; [done|]. cbn. apply IH.
  { intros hs Hin. by apply (Hops hs); right. }
  destruct o as [fd' hs|fd'|fd' name]; cbn.
  - unfold loop_register_handlers. destruct (fd' =? -1); [done|]. case_bool_decide; [done|].
    destruct (negb _); [done|]. cbn. rewrite lookup_insert_ne; [done|]. intros ->.
    apply (Hops hs). by left.
  - unfold loop_remove_handlers. destruct (fd' =? -1); [done|]. case_bool_decide; [done|]. cbn.
    by apply lookup_delete_None; right.
  - unfold set_handler_name. destruct (m_fd_to_event_handlers l !! fd') eqn:E; [|done]. cbn.
    rewrite lookup_insert_ne; [done|]. congruence.
Qed.

(** A descriptor without handlers, on which no call was made since. *)
Definition absent_from (fd : Z) (n : nat) (s : LoopState) : Prop :=
  m_fd_to_event_handlers (ls_loop s) !! fd = None ∧ fd ∉ (drop n (ls_calls s)).*1
  ∧ (n ≤ length (ls_calls s))%nat.

Lemma call_absent fd n h fd' s : never_registers fd → fd' ≠ fd → absent_from fd n s →
  absent_from fd n (call h fd' s).2.
Proof.
  intros Hnr Hne (Hm & Hc & Hn). unfold call. destruct h as [h|]; [|done].
  specialize (Hnr h fd' (ls_world s)). destruct (invoke h fd' (ls_world s)) as [[ops w] ok].
  cbn [fst snd] in *. split; [|split]; cbn.
  - by apply apply_ops_absent.
  - rewrite drop_app_le by done. rewrite fmap_app. cbn. set_solver.
  - rewrite length_app. lia.
Qed.

Lemma dispatch_absent fd n ev s : never_registers fd → absent_from fd n s →
  absent_from fd n (dispatch ev s).2.
Proof.
  intros Hnr Hs. pose proof Hs as (Hm & Hc & Hn). unfold dispatch. destruct ev as [fd' events].
  destruct (m_fd_to_event_handlers (ls_loop s) !! fd') as [hs|] eqn:E; [|done].
  assert (fd' ≠ fd) as Hne by congruence.
  assert (absent_from fd n
    (mkLoopState (loop_remove_handlers fd' (ls_loop s)).2 (ls_world s) (ls_calls s))) as Hrm.
  { split; [|done]. cbn. unfold loop_remove_handlers. destruct (_ =? -1); [done|].
    case_bool_decide; [done|]. cbn. by apply lookup_delete_None; right. }
  destruct (has_flag events EPOLLERR); [by apply call_absent|].
  destruct (_ || _)%bool; [by apply call_absent|].
  destruct (has_flag _ _); [by apply call_absent|]. destruct (has_flag _ _); [by apply call_absent|done].
Qed.

(** No stale callbacks. Once a descriptor has no handlers, because an
    earlier event of the same batch removed them or it disconnected, further
    events on it in the batch call nothing, unless a callback registers it
    again. *)
Theorem removed_descriptor_is_not_called events fd s : never_registers fd →
  m_fd_to_event_handlers (ls_loop s) !! fd = None →
  let s' := (for_until dispatch events s).2 in
  m_fd_to_event_handlers (ls_loop s') !! fd = None
  ∧ fd ∉ (drop (length (ls_calls s)) (ls_calls s')).*1.
Proof.
  intros Hnr Hm. assert (absent_from fd (length (ls_calls s)) (for_until dispatch events s).2) as (H1 & H2 & _).
  { apply for_until_inv; [intros; by apply dispatch_absent|]. split; [done|]. split; [|lia].
    rewrite drop_all. by intros ?%not_elem_of_nil. }
  done.
Qed.

(** What one event does: an error takes precedence over a hang-up, a
    hang-up over input and input over output; on an error or a hang-up the
    handlers are removed before the callback runs, which is called once. *)
Theorem dispatch_priority fd events hs s : del_works → fd ≠ -1 →
  m_fd_to_event_handlers (ls_loop s) !! fd = Some hs →
  let h := if has_flag events EPOLLERR then on_error hs
           else if has_flag events EPOLLRDHUP then on_disconnect hs
           else if has_flag events EPOLLHUP then on_disconnect hs
           else if has_flag events EPOLLIN then on_read hs
           else if has_flag events EPOLLOUT then on_write hs else None in
  let removed := (has_flag events EPOLLERR || has_flag events EPOLLRDHUP
                  || has_flag events EPOLLHUP)%bool in
  let l := if removed then mkEventLoop (delete fd (m_fd_to_event_handlers (ls_loop s)))
                             (delete fd (epoll_set (ls_loop s))) else ls_loop s in
  dispatch (fd, events) s = call h fd (mkLoopState l (ls_world s) (ls_calls s)).
Proof.
  intros Hdel Hne Hhs. unfold dispatch. rewrite Hhs.
  assert (loop_remove_handlers fd (ls_loop s)
          = (true, mkEventLoop (delete fd (m_fd_to_event_handlers (ls_loop s)))
                     (delete fd (epoll_set (ls_loop s))))) as Hrm.
  { unfold loop_remove_handlers. rewrite (proj2 (Z.eqb_neq _ _)) by done.
    rewrite bool_decide_false by (by rewrite Hhs). by rewrite Hdel. }
  rewrite Hrm. destruct s as [lp w c]. cbn.
  destruct (has_flag events EPOLLERR), (has_flag events EPOLLRDHUP), (has_flag events EPOLLHUP);
    try done; destruct (has_flag events EPOLLIN), (has_flag events EPOLLOUT); done.
Qed.
End Loop.

(** ** Timers *)

Section Timers.
Context {H : Type} (e : EpollEnv).

(** The managed timers, the loop, and the timer descriptors open in the
    kernel; destroying a timer object closes its descriptor. *)
Record TimerManager := mkTimerManager {
  m_timers : gset Z;
  tm_loop : EventLoop H;
  timer_fds : gset Z;
}.

Definition invalid_descriptor : Z := -1.

(** [created] is the descriptor of the new timer object, [schedule_ok] what
    [timer->schedule(delay, period)] answers; [on_timer h] is the read
    callback built around the handler [h]. *)
Definition add_timer (on_timer : H → H) (name : string) (created : option Z) (schedule_ok : bool)
    (h : H) : stM TimerManager Z := λ t,
  match created with
  | None => (invalid_descriptor, t)
  | Some fd =>
      if fd =? invalid_descriptor then (invalid_descriptor, t)
      else
        let handlers := mkEventHandlers name (Some (on_timer h)) None None None in
        let '(ok, l) := loop_register_handlers e fd handlers (tm_loop t) in
        if negb ok then (invalid_descriptor, t)
        else if negb schedule_ok then
          (invalid_descriptor,
           mkTimerManager (m_timers t) (loop_remove_handlers e fd l).2 (timer_fds t))
        else (fd, mkTimerManager ({[fd]} ∪ m_timers t) l ({[fd]} ∪ timer_fds t))
  end.

(** The result, and the caller's descriptor variable. *)
Definition remove_timer (fd : Z) : stM TimerManager (bool * Z) := λ t,
  if bool_decide (fd ∉ m_timers t) then ((false, fd), t)
  else
    ((true, invalid_descriptor),
     mkTimerManager (m_timers t ∖ {[fd]}) (loop_remove_handlers e fd (tm_loop t)).2
       (timer_fds t ∖ {[fd]})).

(** [expirations] is what reading the descriptor gives. *)
Definition timer_handle_read (fd : Z) (expirations : option Z) (t : TimerManager) : bool :=
  if bool_decide (fd ∉ m_timers t) then false
  else match expirations with None => false | Some _ => true end.

(** The destructor removes what is left. *)
Definition timer_manager_destroy (t : TimerManager) : TimerManager :=
  foldl (λ t fd, (remove_timer fd t).2) t (elements (m_timers t)).

(** Every managed timer is open and has its handlers in the loop; nothing
    else is open. *)
Definition timers_inv (t : TimerManager) : Prop :=
  loop_inv (tm_loop t) ∧ timer_fds t = m_timers t ∧ -1 ∉ m_timers t
  ∧ ∀ fd, fd ∈ m_timers t → is_Some (m_fd_to_event_handlers (tm_loop t) !! fd).

Lemma register_then_remove fd hs (l : EventLoop H) : del_works e → loop_inv l →
  (loop_register_handlers e fd hs l).1 = true →
  (loop_remove_handlers e fd (loop_register_handlers e fd hs l).2).2 = l.
Proof.
  intros Hdel [_ Heq]. unfold loop_register_handlers. destruct (Z.eqb_spec fd (-1)); [done|].
  case_bool_decide as Hn; [done|]. destruct (negb _); [done|]. intros _. cbn.
  unfold loop_remove_handlers. rewrite (proj2 (Z.eqb_neq _ _)) by done. cbn.
  rewrite lookup_insert_eq, bool_decide_false by done. rewrite Hdel. cbn.
  apply eq_None_not_Some in Hn. rewrite !delete_insert_id; [by destruct l| |done].
  by rewrite Heq, Hn.
Qed.

(** Adding a timer is all or nothing. On success the descriptor returned
    is managed, open and has handlers in the loop; on any failure - no timer,
    no registration, no schedule - the result is -1 and the manager, the loop
    and the open descriptors are exactly as before. *)
Theorem add_timer_all_or_nothing on_timer name created schedule_ok h t :
  del_works e → timers_inv t → match created with Some fd => fd ∉ timer_fds t | None => True end →
  let r := add_timer on_timer name created schedule_ok h t in
  timers_inv r.2 ∧
  ((r.1 = invalid_descriptor ∧ r.2 = t) ∨
   (created = Some r.1 ∧ r.1 ≠ invalid_descriptor ∧ m_timers r.2 = {[r.1]} ∪ m_timers t
    ∧ m_fd_to_event_handlers (tm_loop r.2) !! r.1
      = Some (mkEventHandlers name (Some (on_timer h)) None None None))).
Proof.
  intros Hdel Hinv Hfresh. unfold add_timer. destruct created as [fd|]; [|by split; [|left]].
  destruct (Z.eqb_spec fd invalid_descriptor) as [|Hne]; [by split; [|left]|].
  set (hs := mkEventHandlers name _ None None None).
  pose proof (register_then_remove fd hs (tm_loop t) Hdel (proj1 Hinv)) as Hrr.
  pose proof (loop_register_inv e fd hs (tm_loop t) (proj1 Hinv)) as Hli.
  destruct (loop_register_handlers e fd hs (tm_loop t)) as [ok l] eqn:E. cbn [fst snd] in *.
  destruct ok; cbn [negb]; [|by split; [|left]]. destruct schedule_ok; cbn [negb].
  - unfold loop_register_handlers in E. rewrite (proj2 (Z.eqb_neq _ _)) in E by done.
    case_bool_decide; [done|]. destruct (negb _); [done|]. injection E as <-.
    destruct Hinv as (Hl & Hfds & Hm1 & Hreg). split.
    + split; [exact Hli|]. split; [cbn; by rewrite Hfds|]. split; [cbn; set_solver|].
      cbn. intros fd' Hfd'. rewrite lookup_insert. case_decide; [done|]. apply Hreg. set_solver.
    + right. cbn. by rewrite lookup_insert_eq.
  - rewrite Hrr by done. destruct t. split; [exact Hinv|by left].
Qed.

Lemma remove_timer_inv fd t : del_works e → timers_inv t → timers_inv (remove_timer fd t).2.
Proof.
  intros Hdel (Hl & Hfds & Hm1 & Hreg). unfold remove_timer. case_bool_decide; [done|].
  split; [by apply loop_remove_inv|]. split; [cbn; by rewrite Hfds|]. split; [cbn; set_solver|].
  cbn. intros fd' Hfd'. unfold loop_remove_handlers. destruct (_ =? -1); [apply Hreg; set_solver|].
  case_bool_decide; [apply Hreg; set_solver|]. cbn.
  rewrite lookup_delete_ne by set_solver. apply Hreg. set_solver.
Qed.

(** Removing a managed timer closes it, takes its handlers out of the
    loop and invalidates the caller's descriptor; removing anything else
    changes nothing; and the destructor leaves no timer and no handlers of
    one behind. *)
Theorem remove_timer_correct fd t : del_works e → timers_inv t →
  let r := remove_timer fd t in
  timers_inv r.2 ∧
  (if decide (fd ∈ m_timers t)
   then r.1 = (true, invalid_descriptor) ∧ m_timers r.2 = m_timers t ∖ {[fd]}
        ∧ m_fd_to_event_handlers (tm_loop r.2) !! fd = None ∧ fd ∉ timer_fds r.2
   else r = ((false, fd), t))
  ∧ m_timers (timer_manager_destroy t) = ∅ ∧ timer_fds (timer_manager_destroy t) = ∅.
Proof.
  intros Hdel Hinv. split; [by apply remove_timer_inv|]. split.
  - unfold remove_timer. destruct Hinv as (_ & _ & Hm1 & Hreg). case_decide as Hin.
    + rewrite bool_decide_false by tauto. split_and!; try done; [|cbn; set_solver].
      cbn. unfold loop_remove_handlers. rewrite (proj2 (Z.eqb_neq _ _)) by (by intros ->).
      rewrite bool_decide_false by (intros E; by destruct (Hreg fd Hin); simplify_eq).
      cbn. apply lookup_delete_eq.
    + by rewrite bool_decide_true.
  - unfold timer_manager_destroy.
    assert (∀ fds t, timers_inv t → m_timers t ⊆ list_to_set fds →
      m_timers (foldl (λ t fd, (remove_timer fd t).2) t fds) = ∅
      ∧ timers_inv (foldl (λ t fd, (remove_timer fd t).2) t fds)) as Hd.
    { intros fds. induction fds as [|fd' fds IH]; intros t' Ht' Hsub; cbn in *.
      - split; [set_solver|done].
      - apply IH; [by apply remove_timer_inv|]. unfold remove_timer. case_bool_decide; cbn; set_solver. }
    destruct (Hd (elements (m_timers t)) t Hinv) as [-> (_ & -> & _)]; [set_solver|].
    split; [done|]. destruct (Hd (elements (m_timers t)) t Hinv) as [-> _]; set_solver.
Qed.
End Timers.

(** ** CMDU server connections *)

Section Server.
Context {H : Type} (e : EpollEnv) (client_handlers : EventHandlers H).

(** The connection table, the loop and the notifications: [true] for a client
    that connected, [false] for one that disconnected. *)
Record CmduServer := mkCmduServer {
  m_connections : gset Z;
  sv_loop : EventLoop H;
  notified : list (bool * Z);
}.

(** [None] is the [FATAL] log of a descriptor already in the table. *)
Definition add_connection (fd : Z) (s : CmduServer) : option (bool * CmduServer) :=
  let '(ok, l) := loop_register_handlers e fd client_handlers (sv_loop s) in
  if negb ok then Some (false, s)
  else if bool_decide (fd ∈ m_connections s) then None
  else Some (true, mkCmduServer ({[fd]} ∪ m_connections s) l (notified s ++ [(true, fd)])).

Definition remove_connection (fd : Z) (remove_handlers : bool) (s : CmduServer) : bool * CmduServer :=
  if bool_decide (fd ∉ m_connections s) then (false, s)
  else
    let '(ok, l) := if remove_handlers then loop_remove_handlers e fd (sv_loop s) else (true, sv_loop s) in
    if negb ok then (false, mkCmduServer (m_connections s) l (notified s))
    else (true, mkCmduServer (m_connections s ∖ {[fd]}) l (notified s ++ [(false, fd)])).

Definition server_disconnect (fd : Z) (s : CmduServer) : bool * CmduServer :=
  if bool_decide (fd ∉ m_connections s) then (false, s) else remove_connection fd true s.

(** [handle_connect] with the descriptor of the accepted connection. *)
Definition handle_connect (accepted : option Z) (s : CmduServer) : option CmduServer :=
  match accepted with
  | None => Some s
  | Some fd => snd <$> add_connection fd s
  end.

Definition handle_close (fd : Z) (s : CmduServer) : CmduServer := (remove_connection fd false s).2.

(** The loop reports an error or a hang-up of a client's descriptor. *)
Definition client_hangup (fd : Z) (s : CmduServer) : CmduServer :=
  match m_fd_to_event_handlers (sv_loop s) !! fd with
  | None => s
  | Some _ => handle_close fd (mkCmduServer (m_connections s)
                                 (loop_remove_handlers e fd (sv_loop s)).2 (notified s))
  end.

Inductive server_event :=
  | EvAccept (accepted : option Z)
  | EvHangup (fd : Z)
  | EvDisconnect (fd : Z).

Definition server_step (ev : server_event) (s : CmduServer) : option CmduServer :=
  match ev with
  | EvAccept a => handle_connect a s
  | EvHangup fd => Some (client_hangup fd s)
  | EvDisconnect fd => Some (server_disconnect fd s).2
  end.

(** Who is connected according to the notifications. *)
Definition connected_by (log : list (bool * Z)) : gset Z :=
  foldl (λ (c : gset Z) (n : bool * Z), if n.1 then {[n.2]} ∪ c else c ∖ {[n.2]}) ∅ log.

Lemma connected_by_snoc log n :
  connected_by (log ++ [n]) = if n.1 then {[n.2]} ∪ connected_by log else connected_by log ∖ {[n.2]}.
Proof. unfold connected_by. by rewrite foldl_app. Qed.

(** The table is what the observers were told, and every connection has its
    handlers in the loop, which agrees with the epoll instance. *)
Definition server_inv (s : CmduServer) : Prop :=
  loop_inv (sv_loop s) ∧ m_connections s = connected_by (notified s)
  ∧ ∀ fd, fd ∈ m_connections s → m_fd_to_event_handlers (sv_loop s) !! fd = Some client_handlers.

Lemma remove_connection_inv fd (s : CmduServer) : del_works e → server_inv s →
  server_inv (remove_connection fd true s).2.
Proof.
  intros Hdel (Hl & Hc & Hr). unfold remove_connection. case_bool_decide as Hin; [done|].
  pose proof (Hr fd Hin) as Hreg. pose proof (loop_remove_inv e fd (sv_loop s) Hdel Hl) as Hli.
  assert (fd ≠ -1) as Hne by (intros ->; destruct Hl as [Hl _]; congruence).
  revert Hli. unfold loop_remove_handlers. rewrite (proj2 (Z.eqb_neq _ _)) by done.
  rewrite bool_decide_false by (by rewrite Hreg). rewrite Hdel. cbn [negb snd]. intros Hli.
  split; [exact Hli|]. split; [cbn; by rewrite connected_by_snoc, Hc|].
  cbn. intros fd' Hfd'. rewrite lookup_delete_ne by set_solver. apply Hr. set_solver.
Qed.

Lemma client_hangup_inv fd (s : CmduServer) : del_works e → server_inv s →
  server_inv (client_hangup fd s).
Proof.
  intros Hdel (Hl & Hc & Hr). unfold client_hangup, handle_close, remove_connection.
  destruct (m_fd_to_event_handlers (sv_loop s) !! fd) as [hs|] eqn:E; [|done].
  pose proof (loop_remove_inv e fd (sv_loop s) Hdel Hl) as Hli.
  assert (fd ≠ -1) as Hne by (intros ->; destruct Hl as [Hl _]; congruence).
  assert (m_fd_to_event_handlers (loop_remove_handlers e fd (sv_loop s)).2
          = delete fd (m_fd_to_event_handlers (sv_loop s))) as Hmap.
  { unfold loop_remove_handlers. rewrite (proj2 (Z.eqb_neq _ _)) by done.
    rewrite bool_decide_false by (by rewrite E). done. }
  cbn [m_connections]. case_bool_decide as Hin; cbn [negb snd].
  - split; [exact Hli|]. split; [done|]. cbn. intros fd' Hfd'. rewrite Hmap.
    rewrite lookup_delete_ne by (by intros ->). by apply Hr.
  - split; [exact Hli|]. split; [cbn; by rewrite connected_by_snoc, Hc|]. cbn. intros fd' Hfd'.
    rewrite Hmap, lookup_delete_ne by set_solver. apply Hr. set_solver.
Qed.

(** C14: Connections and notifications agree. Through any sequence of accepted
    connections, hang-ups and disconnections the server never aborts, its
    table holds exactly the clients whose last notification was "connected",
    and each of them has its handlers in the event loop. *)
Theorem server_connections_consistent evs s : del_works e → server_inv s →
  ∃ s', foldl (λ os ev, s ← os; server_step ev s) (Some s) evs = Some s' ∧ server_inv s'.
Proof.
  intros Hdel. revert s. induction evs as [|ev evs IH]; intros s Hs; cbn; [eauto|].
  assert (∃ s1, server_step ev s = Some s1 ∧ server_inv s1) as (s1 & -> & Hs1); [|by apply IH].
  destruct ev as [[fd|]|fd|fd]; cbn [server_step handle_connect].
  - unfold add_connection. pose proof Hs as (Hl & Hc & Hr).
    pose proof (loop_register_inv e fd client_handlers (sv_loop s) Hl) as Hli.
    unfold loop_register_handlers in *. destruct (fd =? -1); [by exists s|].
    case_bool_decide as Hreg; [by exists s|]. destruct (negb _); [by exists s|]. cbn [negb].
    rewrite bool_decide_false. 2:{ intros Hin. apply Hreg. rewrite (Hr fd Hin). done. }
    eexists. split; [done|]. split; [exact Hli|]. split; [cbn; by rewrite connected_by_snoc, Hc|].
    cbn. intros fd' Hfd'. rewrite lookup_insert. case_decide; [done|]. apply Hr. set_solver.
  - by exists s.
  - eexists. split; [done|]. by apply client_hangup_inv.
  - eexists. split; [done|]. unfold server_disconnect. case_bool_decide; [done|].
    by apply remove_connection_inv.
Qed.
End Server.
