(* ===== verification/Hostapd.v ===== *)
(** * The hostapd configuration file

    [prplmesh::hostapd::Configuration] ([common/beerocks/hostapd/source/
    configuration.cpp]): reading, editing and writing the configuration of an
    access point. Lines are lists of bytes; the text of [m_last_message], which
    is only printed, is left out. *)

From S2P Require Import Prelude Wire Strings.

(** ** String operations of the class *)

Definition HASH : Z := 35.
Definition EQUALS : Z := 61.
Definition NEWLINE : Z := 10.

(** [find_first_of(c)]; [None] is [npos]. *)
Fixpoint find_first_of (c : Z) (l : list Z) : option nat :=
  match l with
  | [] => None
  | x :: l' => if x =? c then Some 0%nat else S <$> find_first_of c l'
  end.

(** [npos + 1] is 0. *)
Definition after (pos : option nat) : nat := match pos with Some i => S i | None => 0 end.

(** [std::string(s, pos, len)]; [None] is the [out_of_range] exception. *)
Definition substring (s : list Z) (pos : option nat) (len : nat) : option (list Z) :=
  match pos with
  | None => None
  | Some i => if (length s <? i)%nat then None else Some (take len (drop i s))
  end.

Definition starts_with (p s : list Z) : bool := bool_decide (take (length p) s = p).

(** [rfind]: the last position at which [p] occurs. *)
Fixpoint rfind (p s : list Z) : option nat :=
  match (match s with [] => None | _ :: s' => rfind p s' end) with
  | Some i => Some (S i)
  | None => if starts_with p s then Some 0%nat else None
  end.

Definition is_key_in_line (line key : list Z) : bool :=
  match rfind key line with
  | None => false
  | Some O => true
  | Some (S i) => at_ line i =? HASH
  end.

(** ** The object *)

Record Configuration := mkConfiguration {
  m_ok : bool;
  m_update_required : bool;
  m_hostapd_config_head : list (list Z);
  m_hostapd_config_vaps : list (list Z * list (list Z));
}.

#[export] Instance set_m_ok : Setter m_ok := λ f c,
  mkConfiguration (f (m_ok c)) (m_update_required c) (m_hostapd_config_head c) (m_hostapd_config_vaps c).
#[export] Instance set_m_update_required : Setter m_update_required := λ f c,
  mkConfiguration (m_ok c) (f (m_update_required c)) (m_hostapd_config_head c) (m_hostapd_config_vaps c).
#[export] Instance set_head : Setter m_hostapd_config_head := λ f c,
  mkConfiguration (m_ok c) (m_update_required c) (f (m_hostapd_config_head c)) (m_hostapd_config_vaps c).
#[export] Instance set_vaps : Setter m_hostapd_config_vaps := λ f c,
  mkConfiguration (m_ok c) (m_update_required c) (m_hostapd_config_head c) (f (m_hostapd_config_vaps c)).

(** ** Reading *)

Definition is_blank (line : list Z) : bool :=
  forallb (λ c, in_set c string_utils.WHITESPACE_CHARS) line.

(** The part of a line compared with the indications of a vap. *)
Definition line_key (line : list Z) : option (list Z) :=
  substring line (find_first_not_of [HASH] line) (after (find_first_of EQUALS line)).

(** [m_hostapd_config_vaps.back().second.push_back(line)]. *)
Fixpoint push_to_last (line : list Z) (vaps : list (list Z * list (list Z))) :
    list (list Z * list (list Z)) :=
  match vaps with
  | [] => []
  | [(n, ls)] => [(n, ls ++ [line])]
  | v :: vaps => v :: push_to_last line vaps
  end.

(** The loop over the lines; [None] is the exception of a line of hashes. *)
Fixpoint load_lines (vap_indications : list (list Z)) (lines : list (list Z)) (parsing_vaps : bool)
    (head : list (list Z)) (vaps : list (list Z * list (list Z))) :
    option (bool * list (list Z) * list (list Z * list (list Z))) :=
  match lines with
  | [] => Some (parsing_vaps, head, vaps)
  | line :: lines =>
      if is_blank line then load_lines vap_indications lines parsing_vaps head vaps
      else
        key ← line_key line;
        let is_vap := bool_decide (key ∈ vap_indications) in
        let parsing_vaps := parsing_vaps || is_vap in
        let vaps := if is_vap then vaps ++ [(drop (after (find_first_of EQUALS line)) line, [])] else vaps in
        if negb parsing_vaps
        then load_lines vap_indications lines parsing_vaps (head ++ [line]) vaps
        else load_lines vap_indications lines parsing_vaps head (push_to_last line vaps)
  end.

(** [contents] is the file, [bad] the stream's state at its end. *)
Definition load (vap_indications : list (list Z)) (contents : list Z) (bad : bool) :
    option Configuration :=
  '(parsing_vaps, head, vaps) ←
    load_lines vap_indications (string_utils.str_split contents NEWLINE) false [] [];
  Some (mkConfiguration (parsing_vaps && negb bad) false head vaps).

(** ** Writing *)

Definition config_id_prefix : list Z := str "config_id=".

Section Store.
(** The SHA-256 digest of [mapf::encryption]. *)
Context (digest : list Z → option (list Z)).

(** The bytes of a vap; [None] when no digest can be computed. *)
Definition store_vap (vap : list Z * list (list Z)) : option (list Z) :=
  let kept := filter (λ l, starts_with config_id_prefix l = false) vap.2 in
  let bss_conf := concat ((λ l, l ++ [NEWLINE]) <$> kept) in
  if bool_decide (length kept = length vap.2) then Some ([NEWLINE] ++ bss_conf)
  else
    config_id ← digest bss_conf;
    Some ([NEWLINE] ++ bss_conf ++ config_id_prefix
          ++ concat ((λ c, string_utils.int_to_hex_string c 2) <$> config_id) ++ [NEWLINE]).

Fixpoint store_vaps (vaps : list (list Z * list (list Z))) : option (list Z) :=
  match vaps with
  | [] => Some []
  | v :: vaps => b ← store_vap v; bs ← store_vaps vaps; Some (b ++ bs)
  end.

(** The result, the object and what the file holds; [write_ok] is whether
    closing the file reported no failure. Without a digest the function
    returns before it touches the object. *)
Definition store (write_ok : bool) (c : Configuration) : bool * Configuration * option (list Z) :=
  let head := concat ((λ l, l ++ [NEWLINE]) <$> m_hostapd_config_head c) in
  match store_vaps (m_hostapd_config_vaps c) with
  | None => (false, c, None)
  | Some bytes =>
      (write_ok,
       c <| m_ok := write_ok |> <| m_update_required := negb write_ok |>,
       Some (head ++ bytes))
  end.
End Store.

(** ** Editing *)

(** Erases the first line that matches and, unless the value is empty,
    appends the new line. *)
Fixpoint erase_key (key_eq : list Z) (lines : list (list Z)) : list (list Z) :=
  match lines with
  | [] => []
  | l :: lines => if is_key_in_line l key_eq then lines else l :: erase_key key_eq lines
  end.

Definition set_line (commented : bool) (key value : list Z) (lines : list (list Z)) : list (list Z) :=
  let key_eq := key ++ [EQUALS] in
  let lines := erase_key key_eq lines in
  match value with
  | [] => lines
  | _ => lines ++ [if commented then HASH :: key_eq ++ value else key_eq ++ value]
  end.

(** The value of the first line that matches. *)
Definition get_line (key : list Z) (lines : list (list Z)) : list Z :=
  match list_find (λ l, is_key_in_line l (key ++ [EQUALS]) = true) lines with
  | None => []
  | Some (_, l) => drop (after (find_first_of EQUALS l)) l
  end.

Definition set_create_head_value (key value : list Z) (c : Configuration) : bool * Configuration :=
  (true, c <| m_hostapd_config_head ::= set_line false key value |> <| m_ok := true |>).

Definition get_head_value (key : list Z) (c : Configuration) : list Z :=
  get_line key (m_hostapd_config_head c).

(** [get_vap]: the first vap whose name contains the requested one. *)
Definition get_vap (vap : list Z) (c : Configuration) : option nat :=
  fst <$> list_find (λ v : list Z * list (list Z), is_Some (rfind vap v.1)) (m_hostapd_config_vaps c).

(** [None] is the access to the first line of a vap without lines. *)
Definition set_create_vap_value (vap key value : list Z) (c : Configuration) :
    option (bool * Configuration) :=
  match get_vap vap c with
  | None => Some (false, c <| m_ok := false |>)
  | Some i =>
      match m_hostapd_config_vaps c !! i with
      | Some (name, (first :: _) as lines) =>
          let commented := at_ first 0 =? HASH in
          Some (true, c <| m_hostapd_config_vaps ::= <[i := (name, set_line commented key value lines)]> |>
                        <| m_ok := true |> <| m_update_required := true |>)
      | _ => None
      end
  end.

Definition get_vap_value (vap key : list Z) (c : Configuration) : list Z * Configuration :=
  match get_vap vap c with
  | None => ([], c <| m_ok := false |>)
  | Some i =>
      (match m_hostapd_config_vaps c !! i with
       | Some (_, lines) => get_line key lines
       | None => []
       end, c <| m_ok := true |>)
  end.

Definition set_create_value (vap key value : list Z) (c : Configuration) : option (bool * Configuration) :=
  match vap with
  | [] => Some (set_create_head_value key value c)
  | _ => set_create_vap_value vap key value c
  end.

(** The five settings of [disable_vap], up to the first that fails. *)
Fixpoint set_all (vap : list Z) (kvs : list (list Z * list Z)) (c : Configuration) :
    option (bool * Configuration) :=
  match kvs with
  | [] => Some (true, c)
  | (k, v) :: kvs =>
      '(ok, c') ← set_create_vap_value vap k v c;
      if (ok : bool) then set_all vap kvs c' else Some (false, c')
  end.
Definition disable_vap (vap : list Z) (c : Configuration) : option (bool * Configuration) :=
  set_all vap
    [(str "start_disabled", str "1"); (str "ssid", []); (str "multi_ap", str "0");
     (str "multi_ap_backhaul_ssid", []); (str "multi_ap_backhaul_wpa_passphrase", [])] c.

(** A line "bssid=..." with the given address. *)
Definition bssid_matches (bssid line : list Z) : bool :=
  match string_utils.str_split line EQUALS with
  | k :: v :: _ => bool_decide (k = str "bssid") && string_utils.case_insensitive_compare v bssid
  | _ => false
  end.
Definition get_vap_by_bssid (bssid : list Z) (c : Configuration) : list Z :=
  match list_find (λ v : list Z * list (list Z), existsb (bssid_matches bssid) v.2 = true)
          (m_hostapd_config_vaps c) with
  | None => []
  | Some (_, v) => v.1
  end.

(** ** Lemmas: searching lines *)

Lemma starts_with_app p s : starts_with p (p ++ s) = true.
Proof. apply bool_decide_eq_true. by rewrite take_app_length. Qed.

Lemma rfind_None_iff p s : rfind p s = None ↔ ∀ i, (i ≤ length s)%nat → starts_with p (drop i s) = false.
Proof.
  induction s as [|c s IH]; cbn [rfind].
  - split.
    + intros H i Hi. cbn in Hi. assert (i = 0)%nat as -> by lia. cbn. by destruct (starts_with p []).
    + intros H. specialize (H 0%nat ltac:(lia)). cbn [drop] in H. by rewrite H.
  - destruct (rfind p s) as [j|] eqn:E.
    + split; [done|]. intros H. exfalso. enough (Some j = None) by done.
      apply IH. intros i Hi. apply (H (S i)). cbn. lia.
    + destruct (starts_with p (c :: s)) eqn:Es.
      * split; [done|]. intros H. specialize (H 0%nat ltac:(lia)). cbn in H. congruence.
      * split; [|done]. intros _ [|i] Hi; [done|]. cbn. apply IH; [done|]. cbn in Hi. lia.
Qed.

(** An occurrence with none behind it is the last one. *)
Lemma rfind_last p t : starts_with p t = true →
  (∀ i, (0 < i ≤ length t)%nat → starts_with p (drop i t) = false) → rfind p t = Some 0%nat.
Proof.
  intros Hs Hno. destruct t as [|c t]; cbn [rfind]; [by rewrite Hs|].
  rewrite (proj2 (rfind_None_iff p t)); [by rewrite Hs|].
  intros i Hi. apply (Hno (S i)). cbn. lia.
Qed.

(** The key of a line occurs at its start, when the value does not repeat it. *)
Lemma key_occurs_first (key value : list Z) : EQUALS ∉ key → rfind (key ++ [EQUALS]) value = None →
  rfind (key ++ [EQUALS]) ((key ++ [EQUALS]) ++ value) = Some 0%nat.
Proof.
  intros Hk Hv. apply rfind_last; [apply starts_with_app|].
  intros i [Hi Hle]. destruct (starts_with _ (drop i _)) eqn:E; [|done]. exfalso.
  unfold starts_with in E. apply bool_decide_eq_true in E.
  destruct (decide (i ≤ length key)%nat) as [Hin|Hout].
  - (* the '=' of the line would be a byte of the key *)
    assert (((key ++ [EQUALS]) ++ value) !! length key = Some EQUALS) as Heq.
    { by rewrite lookup_app_l, lookup_app_r, Nat.sub_diag by (rewrite ?length_app; cbn; lia). }
    assert ((key ++ [EQUALS]) !! (length key - i)%nat = Some EQUALS) as Hat.
    { rewrite <- E, lookup_take_lt by (rewrite length_app; cbn; lia).
      rewrite lookup_drop. by replace (i + (length key - i))%nat with (length key) by lia. }
    rewrite lookup_app_l in Hat by lia. by apply list_elem_of_lookup_2 in Hat.
  - pose proof (proj1 (rfind_None_iff _ _) Hv) as Hno.
    assert (starts_with (key ++ [EQUALS]) (drop (i - length (key ++ [EQUALS])) value) = true) as Ht.
    { apply bool_decide_eq_true. rewrite drop_app_ge in E; [done|]. rewrite length_app. cbn. lia. }
    rewrite Hno in Ht; [done|]. rewrite !length_app in *. cbn in *. lia.
Qed.

Lemma find_first_of_app (c : Z) (l rest : list Z) : c ∉ l → find_first_of c (l ++ c :: rest) = Some (length l).
Proof.
  induction l as [|x l IH]; intros Hl; cbn; [by rewrite Z.eqb_refl|].
  apply not_elem_of_cons in Hl as [Hx Hl]. rewrite (proj2 (Z.eqb_neq _ _)) by done. by rewrite IH.
Qed.

Lemma set_line_found (commented : bool) (key value : list Z) : EQUALS ∉ key → rfind (key ++ [EQUALS]) value = None →
  let line := if commented then HASH :: (key ++ [EQUALS]) ++ value else (key ++ [EQUALS]) ++ value in
  is_key_in_line line (key ++ [EQUALS]) = true ∧ drop (after (find_first_of EQUALS line)) line = value.
Proof.
  intros Hk Hv line. pose proof (key_occurs_first key value Hk Hv) as Hr.
  assert (find_first_of EQUALS ((key ++ [EQUALS]) ++ value) = Some (length key)) as Hf.
  { rewrite <- app_assoc. by apply find_first_of_app. }
  assert (drop (S (length key)) ((key ++ [EQUALS]) ++ value) = value) as Hd.
  { apply drop_app_length'. rewrite length_app. cbn. lia. }
  unfold line. destruct commented.
  - split.
    + unfold is_key_in_line. cbn [rfind]. by rewrite Hr.
    + cbn [find_first_of]. change (HASH =? EQUALS) with false. cbv iota. rewrite Hf. cbn. exact Hd.
  - split; [unfold is_key_in_line; by rewrite Hr|]. rewrite Hf. exact Hd.
Qed.

(** No line of the section matches the key any more after the first was
    erased: keys are not repeated. *)
Definition key_once (key : list Z) (lines : list (list Z)) : Prop :=
  Forall (λ l, is_key_in_line l (key ++ [EQUALS]) = false) (erase_key (key ++ [EQUALS]) lines).

Lemma get_line_none key lines : Forall (λ l, is_key_in_line l (key ++ [EQUALS]) = false) lines →
  get_line key lines = [].
Proof.
  intros Hl. unfold get_line. assert (list_find (λ l, is_key_in_line l (key ++ [EQUALS]) = true) lines = None) as ->; [|done].
  apply list_find_None. eapply Forall_impl; [exact Hl|]. cbn. intros l ->. done.
Qed.

Lemma get_line_last key lines l : Forall (λ l, is_key_in_line l (key ++ [EQUALS]) = false) lines →
  is_key_in_line l (key ++ [EQUALS]) = true →
  get_line key (lines ++ [l]) = drop (after (find_first_of EQUALS l)) l.
Proof.
  intros Hl Hm. unfold get_line.
  assert (list_find (λ l, is_key_in_line l (key ++ [EQUALS]) = true) (lines ++ [l]) = Some (length lines, l)) as ->; [|done].
  apply list_find_Some. split.
  - by rewrite lookup_app_r, Nat.sub_diag by lia.
  - split; [done|]. intros j y Hj Hlt. rewrite lookup_app_l in Hj by done.
    pose proof (Forall_lookup_1 _ _ _ _ Hl Hj) as Hn. cbn in Hn. congruence.
Qed.

Lemma get_set_line commented key value lines : key_once key lines → EQUALS ∉ key →
  rfind (key ++ [EQUALS]) value = None → get_line key (set_line commented key value lines) = value.
Proof.
  intros Ho Hk Hv. unfold set_line. destruct value as [|v value]; [by apply get_line_none|].
  destruct (set_line_found commented key (v :: value) Hk Hv) as [Hm Hd].
  rewrite get_line_last; [exact Hd|exact Ho|exact Hm].
Qed.

Lemma get_vap_names vap (c c' : Configuration) :
  (m_hostapd_config_vaps c').*1 = (m_hostapd_config_vaps c).*1 → get_vap vap c' = get_vap vap c.
Proof.
  unfold get_vap. generalize (m_hostapd_config_vaps c) (m_hostapd_config_vaps c').
  intros l. induction l as [|[n ls] l IH]; intros [|[n' ls'] l'] Hn; cbn in Hn; simplify_eq; [done|].
  cbn. destruct (decide (is_Some (rfind vap n))); [done|].
  specialize (IH l' ltac:(done)).
  destruct (list_find _ l) as [[]|], (list_find _ l') as [[]|]; cbn in *; simplify_eq; done.
Qed.

(** ** Theorems *)

(** Editing a vap. Setting a key of a vap that is found, whose keys are
    not repeated, to a value that does not itself contain "key=" succeeds;
    reading the key then gives that value (and nothing after it was set to
    the empty string), the change is flagged, and the head and all other
    vaps stay as they are. *)
Theorem set_then_get_vap_value vap key value c i name first lines :
  get_vap vap c = Some i → m_hostapd_config_vaps c !! i = Some (name, first :: lines) →
  key_once key (first :: lines) → EQUALS ∉ key → rfind (key ++ [EQUALS]) value = None →
  ∃ c', set_create_vap_value vap key value c = Some (true, c')
    ∧ (get_vap_value vap key c').1 = value ∧ m_update_required c' = true
    ∧ m_hostapd_config_head c' = m_hostapd_config_head c
    ∧ ∀ j, j ≠ i → m_hostapd_config_vaps c' !! j = m_hostapd_config_vaps c !! j.
Proof.
  intros Hg Hi Ho Hk Hv. unfold set_create_vap_value. rewrite Hg, Hi.
  set (commented := at_ first 0 =? HASH). set (lines' := set_line commented key value (first :: lines)).
  eexists. split; [done|]. set (c' := _ <| m_update_required := true |>).
  assert (m_hostapd_config_vaps c' = <[i := (name, lines')]> (m_hostapd_config_vaps c)) as Hvaps by done.
  assert (i < length (m_hostapd_config_vaps c))%nat as Hlt by (by eapply lookup_lt_Some).
  split_and!; try done.
  - unfold get_vap_value. rewrite (get_vap_names vap c c'), Hg.
    + rewrite Hvaps, list_lookup_insert_eq by done. cbn [fst]. by apply get_set_line.
    + rewrite Hvaps, list_fmap_insert. apply list_insert_id. by rewrite list_lookup_fmap, Hi.
  - intros j Hj. rewrite Hvaps. by apply list_lookup_insert_ne.
Qed.

(** *** Storing and loading *)

Lemma getlines_line l rest : NEWLINE ∉ l → ∀ item,
  string_utils.getlines NEWLINE item (l ++ NEWLINE :: rest)
  = (item ++ l) :: string_utils.getlines NEWLINE [] rest.
Proof.
  induction l as [|x l IH]; intros Hl item; cbn [app string_utils.getlines].
  - by rewrite Z.eqb_refl, app_nil_r.
  - apply not_elem_of_cons in Hl as [Hx Hl]. rewrite (proj2 (Z.eqb_neq _ _)) by done.
    by rewrite IH, <- app_assoc.
Qed.

(** The lines of a file written line by line. *)
Lemma split_lines ls rest : Forall (λ l, NEWLINE ∉ l) ls →
  string_utils.str_split (concat ((λ l, l ++ [NEWLINE]) <$> ls) ++ rest) NEWLINE
  = ls ++ string_utils.str_split rest NEWLINE.
Proof.
  intros Hls. unfold string_utils.str_split. induction Hls as [|l ls Hl _ IH]; [done|].
  cbn [fmap list_fmap concat]. rewrite <- !app_assoc. cbn [app]. rewrite getlines_line by done.
  by rewrite IH.
Qed.

(** A line [load] takes as it is, with or without opening a vap. *)
Definition plain_line (ind : list (list Z)) (l : list Z) : Prop :=
  NEWLINE ∉ l ∧ is_blank l = false ∧ ∃ k, line_key l = Some k ∧ k ∉ ind.
Definition vap_line (ind : list (list Z)) (name l : list Z) : Prop :=
  NEWLINE ∉ l ∧ is_blank l = false ∧ (∃ k, line_key l = Some k ∧ k ∈ ind)
  ∧ name = drop (after (find_first_of EQUALS l)) l.

(** A configuration as [load] leaves it: the vaps open with their own line,
    and there are no generated lines. *)
Definition vap_ok (ind : list (list Z)) (v : list Z * list (list Z)) : Prop :=
  ∃ first rest, v.2 = first :: rest ∧ vap_line ind v.1 first ∧ Forall (plain_line ind) rest
    ∧ Forall (λ l, starts_with config_id_prefix l = false) v.2.
Definition configuration_ok (ind : list (list Z)) (c : Configuration) : Prop :=
  Forall (plain_line ind) (m_hostapd_config_head c)
  ∧ Forall (vap_ok ind) (m_hostapd_config_vaps c) ∧ m_hostapd_config_vaps c ≠ [].

Lemma load_head ind ls rest head vaps : Forall (plain_line ind) ls →
  load_lines ind (ls ++ rest) false head vaps = load_lines ind rest false (head ++ ls) vaps.
Proof.
  intros Hls. revert head. induction Hls as [|l ls (_ & Hb & k & Hk & Hn) _ IH]; intros head;
    [by rewrite app_nil_r|].
  cbn [app load_lines]. rewrite Hb, Hk. cbn [mbind option_bind].
  rewrite bool_decide_false by done. cbn [orb negb]. rewrite IH. by rewrite <- app_assoc.
Qed.

Lemma push_to_last_snoc line (vs : list (list Z * list (list Z))) n ls :
  push_to_last line (vs ++ [(n, ls)]) = vs ++ [(n, ls ++ [line])].
Proof.
  induction vs as [|v vs IH]; [done|]. cbn [app push_to_last]. rewrite IH.
  destruct v, vs; done.
Qed.

Lemma load_vap_lines ind ls rest head vaps n ls0 : Forall (plain_line ind) ls →
  load_lines ind (ls ++ rest) true head (vaps ++ [(n, ls0)])
  = load_lines ind rest true head (vaps ++ [(n, ls0 ++ ls)]).
Proof.
  intros Hls. revert ls0. induction Hls as [|l ls (_ & Hb & k & Hk & Hn) _ IH]; intros ls0;
    [by rewrite app_nil_r|].
  cbn [app load_lines]. rewrite Hb, Hk. cbn [mbind option_bind].
  rewrite bool_decide_false by done. cbn [orb negb]. rewrite push_to_last_snoc, IH.
  by rewrite <- app_assoc.
Qed.

(** The lines the file holds for the vaps: an empty one before each. *)
Definition vap_lines (vs : list (list Z * list (list Z))) : list (list Z) :=
  concat ((λ v : list Z * list (list Z), [] :: v.2) <$> vs).

Lemma load_vaps ind vs : Forall (vap_ok ind) vs → ∀ b head vaps,
  load_lines ind (vap_lines vs) b head vaps
  = Some (b || negb (bool_decide (vs = [])), head, vaps ++ vs).
Proof.
  induction 1 as [|[n ls] vs (first & rest & Hls & (_ & Hb & (k & Hk & Hin) & Hn) & Hrest & _) _ IH];
    intros b head vaps.
  { cbn. by rewrite orb_false_r, app_nil_r. }
  cbn [fst snd] in *. subst ls. unfold vap_lines. cbn [fmap list_fmap concat app load_lines snd].
  change (is_blank []) with true. cbv iota. rewrite Hb, Hk. cbn [mbind option_bind].
  rewrite bool_decide_true by done. rewrite orb_true_r. cbn [negb]. rewrite <- Hn, push_to_last_snoc.
  cbn [app]. rewrite load_vap_lines by done. fold (vap_lines vs). rewrite IH. cbn [app].
  rewrite <- app_assoc. by rewrite orb_true_r.
Qed.

Lemma store_vaps_plain digest ind vs : Forall (vap_ok ind) vs →
  store_vaps digest vs = Some (concat ((λ l, l ++ [NEWLINE]) <$> vap_lines vs)).
Proof.
  induction 1 as [|[n ls] vs (first & rest & Hls & _ & _ & Hid) _ IH]; [done|]. cbn [store_vaps].
  unfold store_vap. cbn [snd] in *.
  assert (filter (λ l, starts_with config_id_prefix l = false) ls = ls) as ->.
  { clear Hls. induction Hid as [|l ls Hl _ IHl]; [done|]. by rewrite filter_cons_True, IHl. }
  rewrite bool_decide_true by done. cbn [mbind option_bind]. rewrite IH. cbn [mbind option_bind].
  unfold vap_lines. cbn [fmap list_fmap concat]. f_equal.
  rewrite fmap_app, concat_app. by rewrite <- app_assoc.
Qed.

Lemma vap_lines_no_newline ind vs : Forall (vap_ok ind) vs → Forall (λ l, NEWLINE ∉ l) (vap_lines vs).
Proof.
  induction 1 as [|[n ls] vs (first & rest & Hls & (Hf & _) & Hrest & _) _ IH]; [done|].
  cbn [snd] in Hls. subst ls. unfold vap_lines. cbn [fmap list_fmap concat app snd].
  apply Forall_cons. split; [by intros ?%not_elem_of_nil|]. apply Forall_cons. split; [done|].
  apply Forall_app. split; [|exact IH]. eapply Forall_impl; [exact Hrest|]. by intros l [? _].
Qed.

(** C20: The configuration file round trip, for a configuration with at least
    one vap that [load] could have made: its lines have a key, no line break
    and are not blank, each vap opens with its own interface line, which no
    other line is, and there are no [config_id] lines. Loading what [store]
    wrote gives the same head and the same vaps, line by line, marked as valid
    and not in need of an update. *)
Theorem store_load_roundtrip digest ind c : configuration_ok ind c →
  ∃ bytes, store digest true c = (true, c <| m_ok := true |> <| m_update_required := false |>, Some bytes)
    ∧ load ind bytes false
      = Some (mkConfiguration true false (m_hostapd_config_head c) (m_hostapd_config_vaps c)).
Proof.
  intros (Hh & Hv & Hne). unfold store. rewrite (store_vaps_plain digest ind) by done.
  eexists. split; [done|]. unfold load.
  rewrite split_lines by (eapply Forall_impl; [exact Hh|]; by intros l [? _]).
  rewrite <- (app_nil_r (concat _)) at 1. rewrite split_lines by (by eapply vap_lines_no_newline).
  rewrite app_nil_r, load_head, load_vaps by done. cbn. by rewrite bool_decide_false.
Qed.

(** *** What goes wrong *)

(** A line of hashes ends the process: [load] builds a substring from the
    first byte that is not a hash, there is none, and the exception is not
    caught. *)
Theorem load_fails_on_hash_line ind l rest head vaps b : l ≠ [] → Forall (λ c, c = HASH) l →
  load_lines ind (l :: rest) b head vaps = None.
Proof.
  intros Hne Hl. cbn [load_lines].
  assert (is_blank l = false) as ->.
  { destruct l as [|c l]; [done|]. apply Forall_cons in Hl as [-> _]. done. }
  unfold line_key. assert (find_first_not_of [HASH] l = None) as ->; [|done].
  clear Hne. induction Hl as [|c l -> _ IH]; [done|]. cbn. by rewrite IH.
Qed.

(** Commented vaps, which the documentation expects in the file, are not
    recognised: the key of the line "#bss=name" is computed with the length
    up to the equal sign of the whole line and so takes one byte of the name
    along, and is no indication. *)
Theorem commented_vap_is_not_recognised key x name : HASH ∉ key → EQUALS ∉ key → key ≠ [] →
  line_key (HASH :: key ++ EQUALS :: x :: name) = Some (key ++ [EQUALS; x]).
Proof.
  intros Hh He Hne. unfold line_key, substring. destruct key as [|c key]; [done|].
  apply not_elem_of_cons in Hh as [Hc _].
  assert (find_first_not_of [HASH] (HASH :: (c :: key) ++ EQUALS :: x :: name) = Some 1%nat) as ->.
  { cbn. rewrite (proj2 (Z.eqb_neq c HASH)) by done. done. }
  cbn [length Nat.ltb Nat.leb]. 
  assert (find_first_of EQUALS (HASH :: (c :: key) ++ EQUALS :: x :: name)
          = Some (S (length (c :: key)))) as ->.
  { cbn [find_first_of]. change (HASH =? EQUALS) with false. cbv iota.
    by rewrite find_first_of_app. }
  cbn [after drop]. f_equal.
  change ((c :: key) ++ EQUALS :: x :: name) with ((c :: key) ++ [EQUALS; x] ++ name).
  rewrite app_assoc. apply take_app_length'. rewrite length_app. cbn. lia.
Qed.

(** A vap is looked up by a part of its name: with "wlan0-1" in front of
    "wlan0", setting a key of "wlan0" changes "wlan0-1". *)
Theorem vap_lookup_takes_substring :
  let c := mkConfiguration true false []
    [(str "wlan0-1", [str "bss=wlan0-1"]); (str "wlan0", [str "bss=wlan0"])] in
  set_create_vap_value (str "wlan0") (str "ssid") (str "x") c
  = Some (true, mkConfiguration true true []
      [(str "wlan0-1", [str "bss=wlan0-1"; str "ssid=x"]); (str "wlan0", [str "bss=wlan0"])]).
Proof. reflexivity. Qed.

(** A value that contains its own key and an equal sign is lost: the key
    is searched from the end of the line. *)
Theorem value_with_key_is_lost :
  let c := mkConfiguration true false [] [(str "wlan0", [str "bss=wlan0"])] in
  ∃ c', set_create_vap_value (str "wlan0") (str "ssid") (str "my_ssid=1") c = Some (true, c')
    ∧ (get_vap_value (str "wlan0") (str "ssid") c').1 = [].
Proof. eexists. split; reflexivity. Qed.
