(* ===== verification/Fsm.v ===== *)
(** * Finite state machines

    [beerocks_fsm] ([bcl/beerocks_state_machine.h]): a table of states with
    entry and exit actions and event handlers, and [fire]. The actions work on
    the members of the object that derives from it, of type [W]; the argument
    an event is fired with has type [A]. An action that dereferences a null
    pointer, or casts the argument to a type it does not have, faults. *)

From S2P Require Import Prelude.

Section Fsm.
Context {TState TEvent A W : Type} `{EqDecision TState, EqDecision TEvent}.

(** ** Configuration *)

(** [TCondition]: gets the destination of the transition and the argument;
    gives its result and the destination as it leaves it. An empty
    [std::function] is [None]. *)
Definition TCondition : Type := TState → A → faultM W (bool * TState).
Definition TAction : Type := A → faultM W bool.

(** [beerocks_fsm_event]. *)
Record EventHandler := mkEventHandler {
  m_event : TEvent;
  m_allowed_states : list TState;
  m_cond : option TCondition;
}.

(** [beerocks_fsm_state]. *)
Record StateHandler := mkStateHandler {
  m_state : TState;
  m_entry_action : option TAction;
  m_exit_action : option TAction;
  m_events : list EventHandler;
}.

(** [beerocks_fsm_config]: the states in the order of their configuration. *)
Definition fsm_config : Type := list StateHandler.

(** The conditions the builder checks; it ends the process when one fails:
    a state is configured once, an event once per state, and every event has
    a target. *)
Definition config_ok (c : fsm_config) : bool :=
  bool_decide (NoDup (m_state <$> c)) &&
  forallb (λ h, bool_decide (NoDup (m_event <$> m_events h))
                && forallb (λ ev, bool_decide (m_allowed_states ev ≠ [])) (m_events h)) c.

Definition find_state (c : fsm_config) (q : TState) : option StateHandler :=
  snd <$> list_find (λ h, m_state h = q) c.
Definition find_event (h : StateHandler) (e : TEvent) : option EventHandler :=
  snd <$> list_find (λ ev, m_event ev = e) (m_events h).

(** ** Running *)

(** [m_curr_state], [m_started], and the members of the derived object. *)
Record Fsm := mkFsm { m_curr_state : TState; m_started : bool; fsm_obj : W }.

(** An action of the derived object. *)
Definition on_obj {R} (m : faultM W R) : faultM Fsm R := λ f,
  let '(r, w) := m (fsm_obj f) in (r, mkFsm (m_curr_state f) (m_started f) w).

(** [check_condition]: whether the transition is taken, and its destination. *)
Definition check_condition (ev : EventHandler) (dest : TState) (args : A) :
    faultM W (bool * TState) :=
  match m_cond ev with
  | None => fret (true, dest)
  | Some cond =>
      r <- cond dest args ;;
      let '(ok, dest') := r in
      if negb ok then fret (false, dest')
      else if (negb (bool_decide (dest = dest'))
               && negb (bool_decide (dest' ∈ m_allowed_states ev)))%bool
      then fret (false, dest')
      else fret (true, dest')
  end.

(** [beerocks_fsm_state::handle]: the next state. *)
Definition handle (h : StateHandler) (e : TEvent) (args : A) : faultM W TState :=
  match find_event h e with
  | None => fret (m_state h)
  | Some ev =>
      match m_allowed_states ev with
      | [] => fault
      | target :: _ =>
          r <- check_condition ev target args ;;
          fret (if fst r then snd r else m_state h)
      end
  end.

Definition run_action (a : option TAction) (args : A) : faultM W bool :=
  match a with None => fret true | Some f => f args end.

Definition fsm_start (c : fsm_config) (args : A) : faultM Fsm bool := λ f,
  if m_started f then (Some true, f)
  else match find_state c (m_curr_state f) with
       | None => (None, f)
       | Some h => on_obj (run_action (m_entry_action h) args)
                     (mkFsm (m_curr_state f) true (fsm_obj f))
       end.

(** [fire]: whether the current state handled the event. A current state that
    is not configured is a [FATAL] log. *)
Definition fire (c : fsm_config) (e : TEvent) (args : A) : faultM Fsm bool := λ f,
  if negb (m_started f) then (Some false, f)
  else match find_state c (m_curr_state f) with
       | None => (None, f)
       | Some h =>
           match find_event h e with
           | None => (Some false, f)
           | Some _ =>
               (new_state <- on_obj (handle h e args) ;;
                if bool_decide (new_state = m_curr_state f) then fret true
                else
                  _ <- on_obj (run_action (m_exit_action h) args) ;;
                  match find_state c new_state with
                  | None => fret false
                  | Some h' =>
                      _ <- on_obj (run_action (m_entry_action h') args) ;;
                      modify (λ f, mkFsm new_state (m_started f) (fsm_obj f)) ;;
                      fret true
                  end) f
           end
       end.

(** ** Lemmas *)

Lemma on_obj_run {R} (m : faultM W R) f :
  on_obj m f = ((m (fsm_obj f)).1, mkFsm (m_curr_state f) (m_started f) (m (fsm_obj f)).2).
Proof. unfold on_obj. by destruct (m (fsm_obj f)). Qed.

Lemma check_condition_allowed ev target args w r w' :
  check_condition ev target args w = (Some (true, r), w') →
  target ∈ m_allowed_states ev → r ∈ m_allowed_states ev.
Proof.
  unfold check_condition. destruct (m_cond ev) as [cond|]; st_run; [|naive_solver].
  destruct (cond target args w) as [[[ok dest]|] w1]; cbn [fst snd]; [|naive_solver].
  destruct ok; cbn [negb]; st_run; [|naive_solver].
  case_bool_decide as Hd; cbn [negb andb]; st_run; [naive_solver|].
  case_bool_decide as Hin; cbn [negb andb]; st_run; naive_solver.
Qed.

Lemma handle_allowed h e ev args w q w' : find_event h e = Some ev →
  handle h e args w = (Some q, w') → q = m_state h ∨ q ∈ m_allowed_states ev.
Proof.
  intros He. unfold handle. rewrite He. destruct (m_allowed_states ev) as [|t ts] eqn:Ht; [naive_solver|].
  st_run. destruct (check_condition ev t args w) as [[[ok dest]|] w1] eqn:Hc; cbn [fst snd]; [|naive_solver].
  st_run. intros [= <- <-]. destruct ok; [right|by left]. rewrite <- Ht.
  eapply check_condition_allowed; [exact Hc|]. rewrite Ht. by left.
Qed.

Lemma find_state_Some c q h : find_state c q = Some h → h ∈ c ∧ m_state h = q.
Proof.
  unfold find_state. destruct (list_find _ c) as [[i h']|] eqn:E; [|done]. intros [= <-].
  apply list_find_Some in E as (? & ? & ?). split; [by eapply list_elem_of_lookup_2|done].
Qed.

Lemma find_event_Some h e ev : find_event h e = Some ev → ev ∈ m_events h ∧ m_event ev = e.
Proof.
  unfold find_event. destruct (list_find _ (m_events h)) as [[i ev']|] eqn:E; [|done]. intros [= <-].
  apply list_find_Some in E as (? & ? & ?). split; [by eapply list_elem_of_lookup_2|done].
Qed.

(** The equations of [fire] on a started machine, by what the handler of the
    event gives. *)
Lemma fire_unhandled c e args q o h : find_state c q = Some h → find_event h e = None →
  fire c e args (mkFsm q true o) = (Some false, mkFsm q true o).
Proof. intros Hh He. unfold fire. cbn. by rewrite Hh, He. Qed.

Lemma fire_fault c e args q o h ev target rest cond o' :
  find_state c q = Some h → find_event h e = Some ev → m_allowed_states ev = target :: rest →
  m_cond ev = Some cond → cond target args o = (None, o') →
  fire c e args (mkFsm q true o) = (None, mkFsm q true o').
Proof.
  intros Hh He Ht Hc Hr. unfold fire. cbn [m_started negb m_curr_state]. rewrite Hh, He. st_run.
  rewrite on_obj_run. unfold handle. rewrite He, Ht. st_run. unfold check_condition. rewrite Hc.
  st_run. cbn [fsm_obj]. by rewrite Hr.
Qed.

(** The state after an event whose handler gives [(ok, dest)]. *)
Definition after_event (c : fsm_config) (h : StateHandler) (args : A) (q dest : TState) (ok : bool)
    (o : W) : option bool * Fsm :=
  if (negb ok || bool_decide (dest = q))%bool then (Some true, mkFsm q true o)
  else
    match run_action (m_exit_action h) args o with
    | (None, o1) => (None, mkFsm q true o1)
    | (Some _, o1) =>
        match find_state c dest with
        | None => (Some false, mkFsm q true o1)
        | Some h' =>
            match run_action (m_entry_action h') args o1 with
            | (None, o2) => (None, mkFsm q true o2)
            | (Some _, o2) => (Some true, mkFsm dest true o2)
            end
        end
    end.

(** A destination that is not a target of the event is refused. *)
Lemma fire_handled c e args q o h ev target rest cond ok dest o' :
  find_state c q = Some h → find_event h e = Some ev → m_allowed_states ev = target :: rest →
  m_cond ev = Some cond → cond target args o = (Some (ok, dest), o') →
  fire c e args (mkFsm q true o)
    = after_event c h args q dest (ok && bool_decide (dest ∈ target :: rest)) o'.
Proof.
  intros Hh He Ht Hc Hr. unfold fire. cbn [m_started negb m_curr_state]. rewrite Hh, He. st_run.
  rewrite on_obj_run. unfold handle. rewrite He, Ht. st_run. unfold check_condition. rewrite Hc.
  st_run. cbn [fsm_obj]. rewrite Hr. cbn [fst snd]. rewrite Ht.
  destruct (find_state_Some _ _ _ Hh) as [_ Hm]. unfold after_event.
  destruct ok; cbn [negb orb andb]; st_run; cbn [fst snd].
  2:{ rewrite Hm, bool_decide_true by done. by st_run. }
  destruct (bool_decide (dest ∈ target :: rest)) eqn:Hin; cbn [negb orb]; bool_to_prop.
  2:{ rewrite (bool_decide_false (target = dest)) by (intros <-; apply Hin; left). cbn [negb andb].
      st_run. cbn [fst snd]. rewrite Hm, bool_decide_true by done. by st_run. }
  rewrite andb_false_r. st_run. cbn [fst snd].
  case_bool_decide as Hd; st_run; [done|]. rewrite on_obj_run. cbn [m_curr_state m_started fsm_obj].
  destruct (run_action (m_exit_action h) args o') as [[b1|] o1]; cbn [fst snd]; [|done].
  destruct (find_state c dest) as [h'|]; st_run; [|done].
  rewrite on_obj_run. cbn [m_curr_state m_started fsm_obj].
  by destruct (run_action (m_entry_action h') args o1) as [[b2|] o2]; cbn [fst snd]; st_run.
Qed.

(** An event without a condition goes to its first target. *)
Lemma fire_plain c e args q o h ev target rest :
  find_state c q = Some h → find_event h e = Some ev → m_allowed_states ev = target :: rest →
  m_cond ev = None → fire c e args (mkFsm q true o) = after_event c h args q target true o.
Proof.
  intros Hh He Ht Hc. unfold fire. cbn [m_started negb m_curr_state]. rewrite Hh, He. st_run.
  rewrite on_obj_run. unfold handle. rewrite He, Ht. st_run. unfold check_condition. rewrite Hc.
  st_run. cbn [fst snd fsm_obj m_curr_state m_started]. unfold after_event. cbn [negb orb].
  case_bool_decide as Hd; st_run; [done|]. rewrite on_obj_run. cbn [m_curr_state m_started fsm_obj].
  destruct (run_action (m_exit_action h) args o) as [[b1|] o1]; cbn [fst snd]; [|done].
  destruct (find_state c target) as [h'|]; st_run; [|done].
  rewrite on_obj_run. cbn [m_curr_state m_started fsm_obj].
  by destruct (run_action (m_entry_action h') args o1) as [[b2|] o2]; cbn [fst snd]; st_run.
Qed.

(** A machine only takes transitions it was configured with: after any
    event, whatever the handlers do with the destination, the current state
    is the one before, or a configured state that the handler of the event
    lists as a target. An event without a handler changes nothing. *)
Theorem fire_stays_in_table c e args f b f' : fire c e args f = (Some b, f') →
  m_started f' = m_started f ∧
  (m_curr_state f' = m_curr_state f ∨
   ∃ h ev, find_state c (m_curr_state f) = Some h ∧ find_event h e = Some ev
     ∧ m_curr_state f' ∈ m_allowed_states ev ∧ is_Some (find_state c (m_curr_state f')))
  ∧ ((∀ h, find_state c (m_curr_state f) = Some h → find_event h e = None) → f' = f ∧ b = false).
Proof.
  unfold fire. destruct (m_started f) eqn:Hs; cbn [negb]; [|naive_solver].
  destruct (find_state c (m_curr_state f)) as [h|] eqn:Hh; [|naive_solver].
  destruct (find_event h e) as [ev|] eqn:He; [|naive_solver].
  st_run. rewrite on_obj_run. cbn [fst snd].
  destruct (handle h e args (fsm_obj f)) as [[q|] w] eqn:Hq; cbn [fst snd]; [|naive_solver].
  intros Hr. assert (∀ X, (∀ h0, Some h = Some h0 → find_event h0 e = None) → X) as Hno.
  { intros X HX. specialize (HX h eq_refl). congruence. }
  revert Hr. case_bool_decide as Hne; st_run.
  { intros [= <- <-]. cbn. split; [done|]. split; [by left|apply Hno]. }
  rewrite on_obj_run. cbn [fst snd fsm_obj m_curr_state m_started].
  destruct (run_action (m_exit_action h) args w) as [[b1|] w1]; cbn [fst snd]; [|naive_solver].
  destruct (find_state c q) as [h'|] eqn:Hh'; st_run.
  2:{ intros [= <- <-]. cbn. split; [done|]. split; [by left|apply Hno]. }
  rewrite on_obj_run. cbn [fst snd fsm_obj m_curr_state m_started].
  destruct (run_action (m_entry_action h') args w1) as [[b2|] w2]; cbn [fst snd]; [|naive_solver].
  st_run. intros [= <- <-]. cbn. split; [done|]. split; [|apply Hno]. right. exists h, ev.
  destruct (handle_allowed _ _ _ _ _ _ _ He Hq) as [Hd|Hin].
  - destruct (find_state_Some _ _ _ Hh) as [_ Hm]. congruence.
  - rewrite Hh'. naive_solver.
Qed.

End Fsm.
Arguments EventHandler : clear implicits.
Arguments StateHandler : clear implicits.
Arguments fsm_config : clear implicits.
Arguments Fsm : clear implicits.
Arguments TCondition : clear implicits.
Arguments TAction : clear implicits.
