(* ===== verification/Channels.v ===== *)
(** * Channels

    The channel tables and conversions of [son_wireless_utils.cpp]: operating
    classes, the channel tables of the three bands, channel and frequency,
    centre channels and the 20 MHz beacon channels under a wider channel.
    A [std::map] is the list of its entries in key order. *)

From S2P Require Import Prelude.

(** ** Enumerations ([beerocks_defines.h]) *)

Inductive eWiFiBandwidth :=
  | BANDWIDTH_UNKNOWN | BANDWIDTH_20 | BANDWIDTH_40 | BANDWIDTH_80 | BANDWIDTH_80_80
  | BANDWIDTH_160 | BANDWIDTH_320_1 | BANDWIDTH_320_2 | BANDWIDTH_320 | BANDWIDTH_MAX.
#[global] Instance eWiFiBandwidth_eq_dec : EqDecision eWiFiBandwidth.
Proof. solve_decision. Defined.

(** The value of an enumerator, for the comparisons [bw >= BANDWIDTH_80]. *)
Definition bw_val (bw : eWiFiBandwidth) : Z :=
  match bw with
  | BANDWIDTH_UNKNOWN => 0 | BANDWIDTH_20 => 1 | BANDWIDTH_40 => 2 | BANDWIDTH_80 => 3
  | BANDWIDTH_80_80 => 4 | BANDWIDTH_160 => 5 | BANDWIDTH_320_1 => 6 | BANDWIDTH_320_2 => 7
  | BANDWIDTH_320 => 8 | BANDWIDTH_MAX => 9
  end.

Definition all_bandwidths : list eWiFiBandwidth :=
  [BANDWIDTH_UNKNOWN; BANDWIDTH_20; BANDWIDTH_40; BANDWIDTH_80; BANDWIDTH_80_80;
   BANDWIDTH_160; BANDWIDTH_320_1; BANDWIDTH_320_2; BANDWIDTH_320; BANDWIDTH_MAX].

Inductive eFreqType :=
  | FREQ_DISABLED | FREQ_24G | FREQ_5G | FREQ_58G | FREQ_24G_5G | FREQ_6G | FREQ_AUTO
  | FREQ_UNKNOWN.
#[global] Instance eFreqType_eq_dec : EqDecision eFreqType.
Proof. solve_decision. Defined.

Definition all_freq_types : list eFreqType :=
  [FREQ_DISABLED; FREQ_24G; FREQ_5G; FREQ_58G; FREQ_24G_5G; FREQ_6G; FREQ_AUTO; FREQ_UNKNOWN].

(** [==] on enumerators. *)
Definition bw_eq (a b : eWiFiBandwidth) : bool := bool_decide (a = b).
Definition freq_eq (a b : eFreqType) : bool := bool_decide (a = b).

Inductive eSubbandType :=
  | LOW_SUBBAND | LOW_SUBBAND_NON_DFS | LOW_SUBBAND_DFS
  | HIGH_SUBBAND | HIGH_SUBBAND_NON_DFS | HIGH_SUBBAND_DFS
  | ANY_SUBBAND | SUBBAND_UNKNOWN.
#[global] Instance eSubbandType_eq_dec : EqDecision eSubbandType.
Proof. solve_decision. Defined.

(** ** Maps *)

Section Map.
Context {K V : Type} `{EqDecision K}.

Definition map_find (k : K) (m : list (K * V)) : option V :=
  snd <$> head (filter (λ e, e.1 = k) m).

(** [insert]: an entry of a key that is present is kept. *)
Fixpoint map_insert (val : K → Z) (k : K) (v : V) (m : list (K * V)) : list (K * V) :=
  match m with
  | [] => [(k, v)]
  | (k', v') :: m' =>
      if bool_decide (k = k') then m
      else if val k <? val k' then (k, v) :: m
      else (k', v') :: map_insert val k v m'
  end.

(** [m[k] = v]. *)
Fixpoint map_assign (val : K → Z) (k : K) (v : V) (m : list (K * V)) : list (K * V) :=
  match m with
  | [] => [(k, v)]
  | (k', v') :: m' =>
      if bool_decide (k = k') then (k, v) :: m'
      else if val k <? val k' then (k, v) :: m
      else (k', v') :: map_assign val k v m'
  end.
End Map.

(** ** Tables *)

Record sOperatingClass := mkOperatingClass { oc_channels : list Z; oc_band : eWiFiBandwidth }.

Record sChannel := mkChannel {
  center_channel : Z;
  overlap_beacon_channels_range : Z * Z;
}.
#[global] Instance sChannel_eq_dec : EqDecision sChannel.
Proof. solve_decision. Defined.

Definition channels_table : Type := list (Z * list (eWiFiBandwidth * sChannel)).

Definition operating_classes_list : list (Z * sOperatingClass) := [
  (81, mkOperatingClass [1; 2; 3; 4; 5; 6; 7; 8; 9; 10; 11; 12; 13] BANDWIDTH_20);
  (82, mkOperatingClass [14] BANDWIDTH_20);
  (83, mkOperatingClass [1; 2; 3; 4; 5; 6; 7; 8; 9] BANDWIDTH_40);
  (84, mkOperatingClass [5; 6; 7; 8; 9; 10; 11; 12; 13] BANDWIDTH_40);
  (115, mkOperatingClass [36; 40; 44; 48] BANDWIDTH_20);
  (116, mkOperatingClass [36; 44] BANDWIDTH_40);
  (117, mkOperatingClass [40; 48] BANDWIDTH_40);
  (118, mkOperatingClass [52; 56; 60; 64] BANDWIDTH_20);
  (119, mkOperatingClass [52; 60] BANDWIDTH_40);
  (120, mkOperatingClass [56; 64] BANDWIDTH_40);
  (121, mkOperatingClass [100; 104; 108; 112; 116; 120; 124; 128; 132; 136; 140; 144]
     BANDWIDTH_20);
  (122, mkOperatingClass [100; 108; 116; 124; 132; 140] BANDWIDTH_40);
  (123, mkOperatingClass [104; 112; 120; 128; 136; 144] BANDWIDTH_40);
  (124, mkOperatingClass [149; 153; 157; 161] BANDWIDTH_20);
  (125, mkOperatingClass [149; 153; 157; 161; 165; 169; 173; 177] BANDWIDTH_20);
  (126, mkOperatingClass [149; 157; 165; 173] BANDWIDTH_40);
  (127, mkOperatingClass [153; 161; 169; 177] BANDWIDTH_40);
  (128, mkOperatingClass [42; 58; 106; 122; 138; 155; 171] BANDWIDTH_80);
  (129, mkOperatingClass [50; 114; 163] BANDWIDTH_160);
  (130, mkOperatingClass [42; 58; 106; 122; 138; 155; 171] BANDWIDTH_80_80);
  (131, mkOperatingClass [1; 5; 9; 13; 17; 21; 25; 29; 33; 37; 41; 45; 49; 53; 57; 61; 65; 69;
     73; 77; 81; 85; 89; 93; 97; 101; 105; 109; 113; 117; 121; 125; 129; 133; 137; 141; 145; 149;
     153; 157; 161; 165; 169; 173; 177; 181; 185; 189; 193; 197; 201; 205; 209; 213; 217; 221;
     225; 229; 233] BANDWIDTH_20);
  (132, mkOperatingClass [3; 11; 19; 27; 35; 43; 51; 59; 67; 75; 83; 91; 99; 107; 115; 123;
     131; 139; 147; 155; 163; 171; 179; 187; 195; 203; 211; 219; 227] BANDWIDTH_40);
  (133, mkOperatingClass [7; 23; 39; 55; 71; 87; 103; 119; 135; 151; 167; 183; 199; 215]
     BANDWIDTH_80);
  (134, mkOperatingClass [15; 47; 79; 111; 143; 175; 207] BANDWIDTH_160);
  (135, mkOperatingClass [7; 23; 39; 55; 71; 87; 103; 119; 135; 151; 167; 183; 199; 215]
     BANDWIDTH_80_80);
  (136, mkOperatingClass [2] BANDWIDTH_20);
  (137, mkOperatingClass [31; 63; 95; 127; 159; 191] BANDWIDTH_320)].

Definition channels_table_24g : list (Z * list (Z * Z)) := [
  (1, [(81, 1); (83, 3)]);
  (2, [(81, 2); (83, 4)]);
  (3, [(81, 3); (83, 5)]);
  (4, [(81, 4); (83, 6)]);
  (5, [(81, 5); (83, 7); (84, 3)]);
  (6, [(81, 6); (83, 8); (84, 4)]);
  (7, [(81, 7); (83, 9); (84, 5)]);
  (8, [(81, 8); (83, 10); (84, 6)]);
  (9, [(81, 9); (83, 11); (84, 7)]);
  (10, [(81, 10); (84, 8)]);
  (11, [(81, 11); (84, 9)]);
  (12, [(81, 12); (84, 10)]);
  (13, [(81, 13); (84, 11)]);
  (14, [(82, 14)])].

Definition channels_table_5g : channels_table := [
  (36, [(BANDWIDTH_20, mkChannel 36 (36, 36));
        (BANDWIDTH_40, mkChannel 38 (36, 40));
        (BANDWIDTH_80, mkChannel 42 (36, 48));
        (BANDWIDTH_160, mkChannel 50 (36, 64))]);
  (40, [(BANDWIDTH_20, mkChannel 40 (40, 40));
        (BANDWIDTH_40, mkChannel 38 (36, 40));
        (BANDWIDTH_80, mkChannel 42 (36, 48));
        (BANDWIDTH_160, mkChannel 50 (36, 64))]);
  (44, [(BANDWIDTH_20, mkChannel 44 (44, 44));
        (BANDWIDTH_40, mkChannel 46 (44, 48));
        (BANDWIDTH_80, mkChannel 42 (36, 48));
        (BANDWIDTH_160, mkChannel 50 (36, 64))]);
  (48, [(BANDWIDTH_20, mkChannel 48 (48, 48));
        (BANDWIDTH_40, mkChannel 46 (44, 48));
        (BANDWIDTH_80, mkChannel 42 (36, 48));
        (BANDWIDTH_160, mkChannel 50 (36, 64))]);
  (52, [(BANDWIDTH_20, mkChannel 52 (52, 52));
        (BANDWIDTH_40, mkChannel 54 (52, 56));
        (BANDWIDTH_80, mkChannel 58 (52, 64));
        (BANDWIDTH_160, mkChannel 50 (36, 64))]);
  (56, [(BANDWIDTH_20, mkChannel 56 (56, 56));
        (BANDWIDTH_40, mkChannel 54 (52, 56));
        (BANDWIDTH_80, mkChannel 58 (52, 64));
        (BANDWIDTH_160, mkChannel 50 (36, 64))]);
  (60, [(BANDWIDTH_20, mkChannel 60 (60, 60));
        (BANDWIDTH_40, mkChannel 62 (60, 64));
        (BANDWIDTH_80, mkChannel 58 (52, 64));
        (BANDWIDTH_160, mkChannel 50 (36, 64))]);
  (64, [(BANDWIDTH_20, mkChannel 64 (64, 64));
        (BANDWIDTH_40, mkChannel 62 (60, 64));
        (BANDWIDTH_80, mkChannel 58 (52, 64));
        (BANDWIDTH_160, mkChannel 50 (36, 64))]);
  (100, [(BANDWIDTH_20, mkChannel 100 (100, 100));
        (BANDWIDTH_40, mkChannel 102 (100, 104));
        (BANDWIDTH_80, mkChannel 106 (100, 112));
        (BANDWIDTH_160, mkChannel 114 (100, 128))]);
  (104, [(BANDWIDTH_20, mkChannel 104 (104, 104));
        (BANDWIDTH_40, mkChannel 102 (100, 104));
        (BANDWIDTH_80, mkChannel 106 (100, 112));
        (BANDWIDTH_160, mkChannel 114 (100, 128))]);
  (108, [(BANDWIDTH_20, mkChannel 108 (108, 108));
        (BANDWIDTH_40, mkChannel 110 (108, 112));
        (BANDWIDTH_80, mkChannel 106 (100, 112));
        (BANDWIDTH_160, mkChannel 114 (100, 128))]);
  (112, [(BANDWIDTH_20, mkChannel 112 (112, 112));
        (BANDWIDTH_40, mkChannel 110 (108, 112));
        (BANDWIDTH_80, mkChannel 106 (100, 112));
        (BANDWIDTH_160, mkChannel 114 (100, 128))]);
  (116, [(BANDWIDTH_20, mkChannel 116 (116, 116));
        (BANDWIDTH_40, mkChannel 118 (116, 120));
        (BANDWIDTH_80, mkChannel 122 (116, 128));
        (BANDWIDTH_160, mkChannel 114 (100, 128))]);
  (120, [(BANDWIDTH_20, mkChannel 120 (120, 120));
        (BANDWIDTH_40, mkChannel 118 (116, 120));
        (BANDWIDTH_80, mkChannel 122 (116, 128));
        (BANDWIDTH_160, mkChannel 114 (100, 128))]);
  (124, [(BANDWIDTH_20, mkChannel 124 (124, 124));
        (BANDWIDTH_40, mkChannel 126 (124, 128));
        (BANDWIDTH_80, mkChannel 122 (116, 128));
        (BANDWIDTH_160, mkChannel 114 (100, 128))]);
  (128, [(BANDWIDTH_20, mkChannel 128 (128, 128));
        (BANDWIDTH_40, mkChannel 126 (124, 128));
        (BANDWIDTH_80, mkChannel 122 (116, 128));
        (BANDWIDTH_160, mkChannel 114 (100, 128))]);
  (132, [(BANDWIDTH_20, mkChannel 132 (132, 132));
        (BANDWIDTH_40, mkChannel 134 (132, 136));
        (BANDWIDTH_80, mkChannel 138 (132, 144))]);
  (136, [(BANDWIDTH_20, mkChannel 136 (136, 136));
        (BANDWIDTH_40, mkChannel 134 (132, 136));
        (BANDWIDTH_80, mkChannel 138 (132, 144))]);
  (140, [(BANDWIDTH_20, mkChannel 140 (140, 140));
        (BANDWIDTH_40, mkChannel 142 (140, 144));
        (BANDWIDTH_80, mkChannel 138 (132, 144))]);
  (144, [(BANDWIDTH_20, mkChannel 144 (144, 144));
        (BANDWIDTH_40, mkChannel 142 (140, 144));
        (BANDWIDTH_80, mkChannel 138 (132, 144))]);
  (149, [(BANDWIDTH_20, mkChannel 149 (149, 149));
        (BANDWIDTH_40, mkChannel 151 (149, 153));
        (BANDWIDTH_80, mkChannel 155 (149, 161));
        (BANDWIDTH_160, mkChannel 163 (149, 177))]);
  (153, [(BANDWIDTH_20, mkChannel 153 (153, 153));
        (BANDWIDTH_40, mkChannel 151 (149, 153));
        (BANDWIDTH_80, mkChannel 155 (149, 161));
        (BANDWIDTH_160, mkChannel 163 (149, 177))]);
  (157, [(BANDWIDTH_20, mkChannel 157 (157, 157));
        (BANDWIDTH_40, mkChannel 159 (157, 161));
        (BANDWIDTH_80, mkChannel 155 (149, 161));
        (BANDWIDTH_160, mkChannel 163 (149, 177))]);
  (161, [(BANDWIDTH_20, mkChannel 161 (161, 161));
        (BANDWIDTH_40, mkChannel 159 (157, 161));
        (BANDWIDTH_80, mkChannel 155 (149, 161));
        (BANDWIDTH_160, mkChannel 163 (149, 177))]);
  (165, [(BANDWIDTH_20, mkChannel 165 (165, 165));
        (BANDWIDTH_40, mkChannel 167 (165, 169));
        (BANDWIDTH_80, mkChannel 171 (165, 177));
        (BANDWIDTH_160, mkChannel 163 (149, 177))]);
  (169, [(BANDWIDTH_20, mkChannel 169 (169, 169));
        (BANDWIDTH_40, mkChannel 167 (165, 169));
        (BANDWIDTH_80, mkChannel 171 (165, 177));
        (BANDWIDTH_160, mkChannel 163 (149, 177))]);
  (173, [(BANDWIDTH_20, mkChannel 173 (173, 173));
        (BANDWIDTH_40, mkChannel 175 (165, 169));
        (BANDWIDTH_80, mkChannel 171 (165, 177));
        (BANDWIDTH_160, mkChannel 163 (149, 177))]);
  (177, [(BANDWIDTH_20, mkChannel 177 (177, 177));
        (BANDWIDTH_40, mkChannel 175 (173, 177));
        (BANDWIDTH_80, mkChannel 171 (165, 177));
        (BANDWIDTH_160, mkChannel 163 (149, 177))])].

Definition channels_table_6g_pattern : channels_table := [
  (1, [(BANDWIDTH_20, mkChannel 1 (1, 1));
        (BANDWIDTH_40, mkChannel 3 (1, 5));
        (BANDWIDTH_80, mkChannel 7 (1, 13));
        (BANDWIDTH_160, mkChannel 15 (1, 29))]);
  (5, [(BANDWIDTH_20, mkChannel 5 (5, 5));
        (BANDWIDTH_40, mkChannel 3 (1, 5));
        (BANDWIDTH_80, mkChannel 7 (1, 13));
        (BANDWIDTH_160, mkChannel 15 (1, 29))]);
  (9, [(BANDWIDTH_20, mkChannel 9 (9, 9));
        (BANDWIDTH_40, mkChannel 11 (9, 13));
        (BANDWIDTH_80, mkChannel 7 (1, 13));
        (BANDWIDTH_160, mkChannel 15 (1, 29))]);
  (13, [(BANDWIDTH_20, mkChannel 13 (13, 13));
        (BANDWIDTH_40, mkChannel 11 (9, 13));
        (BANDWIDTH_80, mkChannel 7 (1, 13));
        (BANDWIDTH_160, mkChannel 15 (1, 29))]);
  (17, [(BANDWIDTH_20, mkChannel 17 (17, 17));
        (BANDWIDTH_40, mkChannel 19 (17, 21));
        (BANDWIDTH_80, mkChannel 23 (17, 29));
        (BANDWIDTH_160, mkChannel 15 (1, 29))]);
  (21, [(BANDWIDTH_20, mkChannel 21 (21, 21));
        (BANDWIDTH_40, mkChannel 19 (17, 21));
        (BANDWIDTH_80, mkChannel 23 (17, 29));
        (BANDWIDTH_160, mkChannel 15 (1, 29))]);
  (25, [(BANDWIDTH_20, mkChannel 25 (25, 25));
        (BANDWIDTH_40, mkChannel 27 (25, 29));
        (BANDWIDTH_80, mkChannel 23 (17, 29));
        (BANDWIDTH_160, mkChannel 15 (1, 29))]);
  (29, [(BANDWIDTH_20, mkChannel 29 (29, 29));
        (BANDWIDTH_40, mkChannel 27 (25, 29));
        (BANDWIDTH_80, mkChannel 23 (17, 29));
        (BANDWIDTH_160, mkChannel 15 (1, 29))])].

Definition channels_table_320bw_pattern : channels_table := [
  (0, [(BANDWIDTH_320_1, mkChannel 31 (1, 61))]);
  (1, [(BANDWIDTH_320_1, mkChannel 31 (1, 61));
        (BANDWIDTH_320_2, mkChannel 63 (33, 93))]);
  (2, [(BANDWIDTH_320_1, mkChannel 95 (65, 125));
        (BANDWIDTH_320_2, mkChannel 63 (33, 93))]);
  (3, [(BANDWIDTH_320_1, mkChannel 95 (65, 125));
        (BANDWIDTH_320_2, mkChannel 127 (97, 157))]);
  (4, [(BANDWIDTH_320_1, mkChannel 159 (129, 189));
        (BANDWIDTH_320_2, mkChannel 127 (97, 157))]);
  (5, [(BANDWIDTH_320_1, mkChannel 159 (129, 189));
        (BANDWIDTH_320_2, mkChannel 191 (161, 221))]);
  (6, [(BANDWIDTH_320_2, mkChannel 191 (161, 221))])].

(** One chunk of 160 MHz: the pattern moved by [offset], with the 320 MHz
    channels of chunk [i] added before the move, which leaves them out. *)
Definition shift_entry (offset : Z) (e : eWiFiBandwidth * sChannel) : eWiFiBandwidth * sChannel :=
  let '(bw, c) := e in
  if bw_eq bw BANDWIDTH_320_1 || bw_eq bw BANDWIDTH_320_2 then (bw, c)
  else (bw, mkChannel (u8 (center_channel c + offset))
              (u8 ((overlap_beacon_channels_range c).1 + offset),
               u8 ((overlap_beacon_channels_range c).2 + offset))).

Definition chunk_entry (i offset : Z) (e : Z * list (eWiFiBandwidth * sChannel)) :
    option (Z * list (eWiFiBandwidth * sChannel)) :=
  wide ← map_find i channels_table_320bw_pattern;
  let bws := foldl (λ m v, map_insert bw_val v.1 v.2 m) e.2 wide in
  Some (u8 (e.1 + offset), map (shift_entry offset) bws).

(** [std::map::at] throws on a missing key. *)
Fixpoint insert_chunk (i offset : Z) (pattern table : channels_table) : option channels_table :=
  match pattern with
  | [] => Some table
  | e :: pattern' =>
      e' ← chunk_entry i offset e;
      insert_chunk i offset pattern' (map_insert id e'.1 e'.2 table)
  end.

Fixpoint insert_chunks (n : nat) (i offset : Z) (table : channels_table) : option channels_table :=
  match n with
  | O => Some table
  | S n' =>
      table' ← insert_chunk i offset channels_table_6g_pattern table;
      insert_chunks n' (i + 1) (offset + 32) table'
  end.

Definition num_of_6g_160mhz_chunks : nat := 7.

Definition initialize_channels_table_6g : option channels_table :=
  table ← insert_chunks num_of_6g_160mhz_chunks 0 0 [];
  Some (map_assign id 233 [(BANDWIDTH_20, mkChannel 233 (233, 233))]
       (map_assign id 229 [(BANDWIDTH_20, mkChannel 229 (229, 229));
                           (BANDWIDTH_40, mkChannel 227 (225, 229))]
       (map_assign id 225 [(BANDWIDTH_20, mkChannel 225 (225, 225));
                           (BANDWIDTH_40, mkChannel 227 (225, 229))] table))).

Definition channels_table_6g : channels_table := default [] initialize_channels_table_6g.

(** ** Channel and frequency *)

Definition BAND_24G_MIN_FREQ : Z := 2401.
Definition BAND_24G_MAX_FREQ : Z := 2473.
Definition BAND_5G_MIN_FREQ : Z := 5150.
Definition BAND_5G_MAX_FREQ : Z := 5895.
Definition BAND_6G_MIN_FREQ : Z := 5945.
Definition BAND_6G_MAX_FREQ : Z := 7125.

Definition between (lo x hi : Z) : bool := (lo <=? x) && (x <=? hi).

(** [channel_to_freq(int)]. *)
Definition channel_to_freq1 (channel : Z) : Z :=
  if channel =? 14 then 2484
  else if channel <? 14 then channel * 5 + 2407
  else (channel + 1000) * 5.

(** [channel_to_freq(int, eFreqType)]. *)
Definition channel_to_freq (channel : Z) (freq_type : eFreqType) : Z :=
  match freq_type with
  | FREQ_24G =>
      if (channel <? 1) || (14 <? channel) then 0
      else if channel =? 14 then 2484
      else u16 (channel * 5 + 2407)
  | FREQ_5G => if (channel <? 7) || (196 <? channel) then 0 else u16 ((channel + 1000) * 5)
  | FREQ_6G =>
      if (channel <? 1) || (233 <? channel) then 0
      else u16 (BAND_6G_MIN_FREQ + 5 + channel * 5)
  | _ => 0
  end.

(** Subtraction on [uint32_t] wraps. *)
Definition freq_to_channel (center_freq : Z) : Z :=
  if center_freq =? 2484 then 14
  else if center_freq <? 2484 then u32 (center_freq - 2407) / 5
  else if between 4910 center_freq 4980 then (center_freq - 4000) / 5
  else if between BAND_5G_MIN_FREQ center_freq BAND_5G_MAX_FREQ then (center_freq - 5000) / 5
  else if between BAND_6G_MIN_FREQ center_freq BAND_6G_MAX_FREQ then
    u32 (u32 (center_freq - (BAND_6G_MIN_FREQ + 10)) / 5 + 1)
  else if center_freq <=? 45000 then u32 (center_freq - 5000) / 5
  else if between 58320 center_freq 64800 then (center_freq - 56160) / 2160
  else 0.

(** [channel_to_vht_center_freq(int, eWiFiBandwidth, bool)]. *)
Definition channel_to_vht_center_freq1 (channel : Z) (bandwidth : eWiFiBandwidth)
    (channel_ext_above_secondary : bool) : Z :=
  let freq := channel_to_freq1 channel in
  let moved d := u16 (if channel_ext_above_secondary then freq + d else freq - d) in
  match bandwidth with
  | BANDWIDTH_20 => u16 freq
  | BANDWIDTH_40 => moved 10
  | BANDWIDTH_80 | BANDWIDTH_80_80 => moved 30
  | BANDWIDTH_160 => moved 70
  | BANDWIDTH_320_1 | BANDWIDTH_320_2 => moved 150
  | _ => -1
  end.

Definition table_find (table : channels_table) (channel : Z) (bandwidth : eWiFiBandwidth) :
    option sChannel :=
  bws ← map_find channel table; map_find bandwidth bws.

(** 80+80 MHz is treated as 80 MHz. *)
Definition as_80 (bandwidth : eWiFiBandwidth) : eWiFiBandwidth :=
  if bw_eq bandwidth BANDWIDTH_80_80 then BANDWIDTH_80 else bandwidth.

(** [channel_to_vht_center_freq(int, eFreqType, eWiFiBandwidth, bool)]. *)
Definition channel_to_vht_center_freq (channel : Z) (freq_type : eFreqType)
    (bandwidth : eWiFiBandwidth) (channel_ext_above_secondary : bool) : Z :=
  match freq_type with
  | FREQ_24G =>
      match map_find channel channels_table_24g with
      | None => 0
      | Some _ =>
          if bw_eq bandwidth BANDWIDTH_20 then channel_to_freq channel freq_type
          else if bw_eq bandwidth BANDWIDTH_40 then
            if between 1 channel 4 then channel_to_freq (channel + 2) freq_type
            else if between 5 channel 9 then
              if channel_ext_above_secondary then channel_to_freq (channel + 2) freq_type
              else channel_to_freq (channel - 2) freq_type
            else channel_to_freq (channel - 2) freq_type
          else 0
      end
  | FREQ_5G =>
      match table_find channels_table_5g channel (as_80 bandwidth) with
      | None => 0
      | Some c => channel_to_freq (center_channel c) freq_type
      end
  | FREQ_6G =>
      match table_find channels_table_6g channel bandwidth with
      | None => 0
      | Some c => channel_to_freq (center_channel c) freq_type
      end
  | _ => 0
  end.

(** ** Bands *)

Definition which_freq_op_cls (op_cls : Z) : eFreqType :=
  if between 81 op_cls 84 then FREQ_24G
  else if between 115 op_cls 130 then FREQ_5G
  else if between 131 op_cls 137 then FREQ_6G
  else FREQ_UNKNOWN.

Definition which_freq (chn : Z) : eFreqType :=
  if between 1 chn 14 then FREQ_24G
  else if 36 <=? chn then FREQ_5G
  else FREQ_UNKNOWN.

Definition which_freq_type (freq : Z) : eFreqType :=
  if between BAND_24G_MIN_FREQ freq BAND_24G_MAX_FREQ then FREQ_24G
  else if between BAND_5G_MIN_FREQ freq BAND_5G_MAX_FREQ then FREQ_5G
  else if between BAND_6G_MIN_FREQ freq BAND_6G_MAX_FREQ then FREQ_6G
  else FREQ_UNKNOWN.

Definition is_same_freq_band (chn1 chn2 : Z) : bool :=
  freq_eq (which_freq (u32 chn1)) (which_freq (u32 chn2))
  && negb (freq_eq (which_freq (u32 chn1)) FREQ_UNKNOWN).

Definition which_subband (chn : Z) : eSubbandType :=
  if between 36 chn 64 then LOW_SUBBAND
  else if between 100 chn 165 then HIGH_SUBBAND
  else SUBBAND_UNKNOWN.

Definition is_low_subband (chn : Z) : bool := bool_decide (which_subband chn = LOW_SUBBAND).
Definition is_high_subband (chn : Z) : bool := bool_decide (which_subband chn = HIGH_SUBBAND).

Definition is_dfs_channel (chn : Z) (freq_type : eFreqType) : bool :=
  freq_eq freq_type FREQ_5G && (between 52 chn 64 || between 100 chn 144).

(** ** Channels under a wide channel *)

Definition get_5g_20MHz_channels (bw : eWiFiBandwidth) (vht_center_frequency : Z) : list Z :=
  let at_ d := u8 (freq_to_channel (u32 (vht_center_frequency + d))) in
  match bw with
  | BANDWIDTH_20 => [at_ 0]
  | BANDWIDTH_40 => map at_ [-10; 10]
  | BANDWIDTH_80 => map at_ [-30; -10; 10; 30]
  | BANDWIDTH_80_80 | BANDWIDTH_160 => map at_ [-70; -50; -30; -10; 10; 30; 50; 70]
  | _ => []
  end.

Definition channel_step_multiply (above_secondary above_primary : bool) : Z :=
  if negb above_secondary && negb above_primary then 3
  else if negb above_secondary && above_primary then 2
  else if above_secondary && negb above_primary then 1
  else 0.

(** [std::set_difference] of two sorted ranges. *)
Fixpoint set_difference (fuel : nat) (l1 l2 : list Z) : list Z :=
  match fuel, l1, l2 with
  | O, _, _ => []
  | _, [], _ => []
  | _, _, [] => l1
  | S n, x :: l1', y :: l2' =>
      if x <? y then x :: set_difference n l1' l2
      else if y <? x then set_difference n l1 l2'
      else set_difference n l1' l2'
  end.

Definition calc_5g_20MHz_subband_channels (prev_bw : eWiFiBandwidth) (prev_freq : Z)
    (bw : eWiFiBandwidth) (freq : Z) : list Z :=
  if bw_val bw <? bw_val prev_bw then
    let prev := get_5g_20MHz_channels prev_bw prev_freq in
    let cur := get_5g_20MHz_channels bw freq in
    set_difference (length prev + length cur) prev cur
  else get_5g_20MHz_channels prev_bw prev_freq.

Definition get_5g_center_channel (channel : Z) (bandwidth : eWiFiBandwidth) : Z :=
  match table_find channels_table_5g channel (as_80 bandwidth) with
  | None => 0
  | Some c => center_channel c
  end.

(** The table of a band; the functions that use it leave on other bands. *)
Definition table_of (freq_type : eFreqType) : option channels_table :=
  match freq_type with
  | FREQ_5G => Some channels_table_5g
  | FREQ_6G => Some channels_table_6g
  | _ => None
  end.

Definition get_center_channel (channel : Z) (freq_type : eFreqType) (bandwidth : eWiFiBandwidth) : Z :=
  match table_of freq_type with
  | None => 0
  | Some table =>
      if freq_eq freq_type FREQ_5G
         && (between 132 channel 144 && bw_eq bandwidth BANDWIDTH_160) then 0
      else if freq_eq freq_type FREQ_6G
         && ((channel <=? 29) && bw_eq bandwidth BANDWIDTH_320_2
             || (193 <=? channel) && bw_eq bandwidth BANDWIDTH_320_1) then 0
      else match table_find table channel (as_80 bandwidth) with
           | None => 0
           | Some c => center_channel c
           end
  end.

(** [for (uint8_t ch = first; ch <= last; ch += 4)]: the channels it visits.
    [None] is a loop that does not end: [ch] wraps before it passes [last]. *)
Fixpoint channels_from (fuel : nat) (ch last : Z) : option (list Z) :=
  if last <? ch then Some []
  else match fuel with
       | O => None
       | S n => rest ← channels_from n (u8 (ch + 4)) last; Some (ch :: rest)
       end.

Definition channel_range (r : Z * Z) : option (list Z) := channels_from 64 r.1 r.2.

Definition get_overlapping_channels (source_channel : Z) (freq_type : eFreqType) :
    list (Z * eWiFiBandwidth) :=
  match table_of freq_type with
  | None => []
  | Some table =>
      match map_find source_channel table with
      | None => []
      | Some _ =>
          flat_map (λ row,
            flat_map (λ e,
              let r := overlap_beacon_channels_range e.2 in
              if between r.1 source_channel r.2 then [(row.1, e.1)] else []) row.2) table
      end
  end.

(** [get_overlapping_5g_channels] is the same on the 5 GHz table. *)
Definition get_overlapping_5g_channels (source_channel : Z) : list (Z * eWiFiBandwidth) :=
  match map_find source_channel channels_table_5g with
  | None => []
  | Some _ =>
      flat_map (λ row,
        flat_map (λ e,
          let r := overlap_beacon_channels_range e.2 in
          if (r.1 <=? source_channel) && (source_channel <=? r.2) then [(row.1, e.1)] else [])
          row.2) channels_table_5g
  end.

Definition get_overlapping_beacon_channels (beacon_channel : Z) (freq_type : eFreqType)
    (bw : eWiFiBandwidth) : option (list Z) :=
  match table_of freq_type with
  | None => Some []
  | Some table =>
      match table_find table beacon_channel bw with
      | None => Some []
      | Some c => channel_range (overlap_beacon_channels_range c)
      end
  end.

Definition get_overlapping_5g_beacon_channels (beacon_channel : Z) (bw : eWiFiBandwidth) :
    option (list Z) :=
  match table_find channels_table_5g beacon_channel bw with
  | None => Some []
  | Some c => channel_range (overlap_beacon_channels_range c)
  end.

(** [count] channels of 20 MHz from [beacon_channel] on. *)
Fixpoint push_channels (count : nat) (beacon_channel : Z) : list Z :=
  match count with
  | O => []
  | S n => beacon_channel :: push_channels n (u8 (beacon_channel + 4))
  end.

Definition center_channel_to_beacon_channels (center : Z) (bw : eWiFiBandwidth)
    (freq_type : eFreqType) : list Z :=
  if negb (freq_eq freq_type FREQ_5G) && negb (freq_eq freq_type FREQ_6G) then []
  else match bw with
       | BANDWIDTH_20 => [center]
       | BANDWIDTH_40 => push_channels 2 (u8 (center - 2))
       | BANDWIDTH_80 | BANDWIDTH_80_80 => push_channels 4 (u8 (center - 6))
       | BANDWIDTH_160 => push_channels 8 (u8 (center - 14))
       | BANDWIDTH_320_1 | BANDWIDTH_320_2 => push_channels 16 (u8 (center - 30))
       | _ => []
       end.

Definition center_channel_5g_to_beacon_channels (center : Z) (bw : eWiFiBandwidth) : list Z :=
  if center <? 36 then []
  else match bw with
       | BANDWIDTH_20 => [center]
       | BANDWIDTH_40 => push_channels 2 (u8 (center - 2))
       | BANDWIDTH_80 | BANDWIDTH_80_80 => push_channels 4 (u8 (center - 6))
       | BANDWIDTH_160 => push_channels 8 (u8 (center - 14))
       | _ => []
       end.

(** ** Operating classes *)

Definition in_list (x : Z) (l : list Z) : bool := bool_decide (x ∈ l).

Definition operating_class_to_channel_set (operating_class : Z) : list Z :=
  match map_find operating_class operating_classes_list with
  | None => []
  | Some c => oc_channels c
  end.

Definition operating_class_to_bandwidth (operating_class : Z) : eWiFiBandwidth :=
  match map_find operating_class operating_classes_list with
  | None => BANDWIDTH_UNKNOWN
  | Some c => oc_band c
  end.

Definition is_channel_in_operating_class (operating_class channel : Z) : bool :=
  in_list channel (operating_class_to_channel_set operating_class).

Definition is_operating_class_using_central_channel (operating_class : Z) : bool :=
  between 128 operating_class 130
  || between 132 operating_class 137 && negb (operating_class =? 136).

(** The first class of the list with the bandwidth and the channel. *)
Fixpoint first_class (bw : eWiFiBandwidth) (ch : Z) (l : list (Z * sOperatingClass)) : Z :=
  match l with
  | [] => 0
  | (op, c) :: l' =>
      if bw_eq (oc_band c) bw && in_list ch (oc_channels c) then op else first_class bw ch l'
  end.

(** [get_operating_class_by_channel(sWifiChannel)]. *)
Definition get_operating_class_by_channel1 (channel : Z) (channel_bandwidth : eWiFiBandwidth) : Z :=
  let ch := if bw_val BANDWIDTH_80 <=? bw_val channel_bandwidth
            then get_5g_center_channel channel channel_bandwidth else channel in
  first_class channel_bandwidth ch operating_classes_list.

Definition get_bandwidth_from_op_class (op_class : Z) : eWiFiBandwidth :=
  match map_find op_class operating_classes_list with
  | None => BANDWIDTH_UNKNOWN
  | Some c => oc_band c
  end.

Definition get_bandwidth_from_channel_and_op_class (channel op_class : Z) : eWiFiBandwidth :=
  let ret_bw := get_bandwidth_from_op_class op_class in
  if negb (bw_eq ret_bw BANDWIDTH_320) then ret_bw
  else if in_list channel [31; 95; 159] then BANDWIDTH_320_1
  else if in_list channel [63; 127; 191] then BANDWIDTH_320_2
  else BANDWIDTH_UNKNOWN.

(** The first row whose channel of that bandwidth has that centre. *)
Fixpoint find_center (center : Z) (bw : eWiFiBandwidth) (table : channels_table) : option sChannel :=
  match table with
  | [] => None
  | (_, bws) :: table' =>
      match map_find bw bws with
      | Some c => if center_channel c =? center then Some c else find_center center bw table'
      | None => find_center center bw table'
      end
  end.

(** [get_subset_20MHz_channels]: whether it succeeded and the channels it
    inserts; [None] is a loop that does not end. *)
Definition get_subset_20MHz_channels (channel_number operating_class : Z)
    (operating_bandwidth : eWiFiBandwidth) : option (bool * list Z) :=
  if bw_eq operating_bandwidth BANDWIDTH_20 then Some (true, [channel_number])
  else if operating_class <? 115 then Some (true, [channel_number])
  else if between 116 operating_class 137 then
    let table := if operating_class <=? 130 then channels_table_5g else channels_table_6g in
    match find_center channel_number operating_bandwidth table with
    | Some c => r ← channel_range (overlap_beacon_channels_range c); Some (true, r)
    | None => Some (false, [])
    end
  else Some (false, []).

Definition is_320MHz_channelization (freq_type : eFreqType) (bandwidth : eWiFiBandwidth) : bool :=
  freq_eq freq_type FREQ_6G
  && (bw_eq bandwidth BANDWIDTH_320_1 || bw_eq bandwidth BANDWIDTH_320_2).

(** ** Signal strength *)

Definition RCPI_MIN : Z := 0.
Definition RCPI_MAX : Z := 220.
Definition RSSI_INVALID : Z := -127.

Definition convert_rcpi_from_rssi (rssi : Z) : Z :=
  if rssi <? -109 then RCPI_MIN
  else if (-109 <=? rssi) && (rssi <? 0) then u8 (2 * (rssi + 110))
  else RCPI_MAX.

(** The division is on [int], of a value that is not negative. *)
Definition convert_rssi_from_rcpi (rcpi : Z) : Z :=
  if RCPI_MAX <? rcpi then RSSI_INVALID else rcpi / 2 - 110.

(** ** Finite checks

    The tables and the 8-bit arguments are finite: a boolean that holds on
    every entry, or on every byte, is evaluated and reflected. *)

Definition all_bytes : list Z := Z.of_nat <$> seq 0 256.

Lemma byte_forall (P : Z → bool) : forallb P all_bytes = true → ∀ b, byte_ok b → P b = true.
Proof.
  intros HP b Hb. rewrite forallb_forall in HP. apply HP. apply list_elem_of_In, list_elem_of_fmap.
  exists (Z.to_nat b). unfold byte_ok in Hb. rewrite elem_of_seq. lia.
Qed.

Lemma bandwidth_forall (P : eWiFiBandwidth → bool) :
  forallb P all_bandwidths = true → ∀ bw, P bw = true.
Proof. intros HP bw. rewrite forallb_forall in HP. apply HP. destruct bw; cbn; tauto. Qed.

Lemma freq_type_forall (P : eFreqType → bool) :
  forallb P all_freq_types = true → ∀ ft, P ft = true.
Proof. intros HP ft. rewrite forallb_forall in HP. apply HP. destruct ft; cbn; tauto. Qed.

Lemma map_find_elem {K V} `{EqDecision K} (k : K) (m : list (K * V)) v :
  map_find k m = Some v → (k, v) ∈ m.
Proof.
  unfold map_find. destruct (filter _ m) as [|[k' v'] l] eqn:E; cbn; [done|]. intros [= ->].
  assert ((k', v) ∈ filter (λ e, e.1 = k) m) as Hin by (rewrite E; left).
  apply list_elem_of_filter in Hin as [Hk ?]. cbn in Hk. by subst.
Qed.

(** [P] on every entry of a table. *)
Definition forall_entries (P : Z → eWiFiBandwidth → sChannel → bool) (t : channels_table) : bool :=
  forallb (λ row, forallb (λ e, P row.1 e.1 e.2) row.2) t.

Lemma table_forall P t : forall_entries P t = true →
  ∀ ch bw c, table_find t ch bw = Some c → P ch bw c = true.
Proof.
  unfold forall_entries, table_find. intros HP ch bw c.
  destruct (map_find ch t) as [bws|] eqn:Hrow; cbn; [|done]. intros He.
  apply map_find_elem, list_elem_of_In in Hrow, He.
  rewrite forallb_forall in HP. specialize (HP _ Hrow). cbn in HP.
  rewrite forallb_forall in HP. by specialize (HP _ He).
Qed.

Lemma table_of_forall P : forall_entries (P FREQ_5G) channels_table_5g = true →
  forall_entries (P FREQ_6G) channels_table_6g = true →
  ∀ ft t ch bw c, table_of ft = Some t → table_find t ch bw = Some c → P ft ch bw c = true.
Proof.
  intros H5 H6 ft t ch bw c Ht Hc. destruct ft; cbn in Ht; simplify_eq; by eapply table_forall.
Qed.

(** ** Theorems *)

Lemma table_sorted ft t : table_of ft = Some t →
  StronglySorted Z.lt t.*1 ∧
  ∀ ch bws, (ch, bws) ∈ t → StronglySorted Z.lt (bw_val <$> bws.*1) ∧
    ∀ bw c, (bw, c) ∈ bws → table_find t ch bw = Some c.
Proof.
  intros Ht.
  assert (bool_decide (Sorted Z.lt t.*1) && forallb (λ row, bool_decide (Sorted Z.lt (bw_val <$> row.2.*1))
    && forallb (λ e, bool_decide (table_find t row.1 e.1 = Some e.2)) row.2) t = true) as HP.
  { destruct ft; cbn in Ht; simplify_eq; by vm_compute. }
  bool_to_prop. match goal with H : forallb _ _ = true |- _ => rename H into HP end.
  split; [by apply Sorted_StronglySorted; [apply _|]|]. intros ch bws Hin.
  rewrite forallb_forall in HP. apply list_elem_of_In in Hin. specialize (HP _ Hin). cbn in HP.
  bool_to_prop. split; [by apply Sorted_StronglySorted; [apply _|]|]. intros bw c He.
  match goal with H : forallb _ _ = true |- _ => rewrite forallb_forall in H; rename H into HE end.
  apply list_elem_of_In in He. specialize (HE _ He). cbn in HE. by bool_to_prop.
Qed.

(** An entry is found under its keys, and only there. *)
Lemma table_find_iff ft t ch bw c : table_of ft = Some t →
  (∃ bws, (ch, bws) ∈ t ∧ (bw, c) ∈ bws) ↔ table_find t ch bw = Some c.
Proof.
  intros Ht. split.
  - intros (bws & Hrow & He). destruct (table_sorted _ _ Ht) as [_ Hr].
    destruct (Hr _ _ Hrow) as [_ Hf]. by apply Hf.
  - unfold table_find. destruct (map_find ch t) as [bws|] eqn:Hrow; cbn; [|done].
    intros He. exists bws. by split; apply map_find_elem.
Qed.

(** The 6 GHz table is built without an exception, and both tables are
    maps: the channels, and the bandwidths of each channel, are in strictly
    increasing order, so that every entry is found under its key. *)
Theorem channels_tables_are_maps :
  is_Some initialize_channels_table_6g ∧
  ∀ ft t, table_of ft = Some t →
    StronglySorted Z.lt t.*1 ∧
    ∀ ch bws, (ch, bws) ∈ t → StronglySorted Z.lt (bw_val <$> bws.*1) ∧
      ∀ bw c, (bw, c) ∈ bws → table_find t ch bw = Some c.
Proof. split; [eexists; vm_compute; reflexivity|exact table_sorted]. Qed.

(** Channel and frequency are inverse to each other: on the channels 1 to
    14 of the 2.4 GHz band, 7 to 188 of the 5 GHz one and 1 to 233 of the
    6 GHz one, [freq_to_channel] gives back the channel whose frequency
    [channel_to_freq] computed, and [which_freq_type] gives back the band for
    every channel but 14 whose frequency is within the band's limits. *)
Theorem channel_freq_roundtrip ft ch :
  (ft = FREQ_24G ∧ 1 ≤ ch ≤ 14) ∨ (ft = FREQ_5G ∧ 7 ≤ ch ≤ 188) ∨ (ft = FREQ_6G ∧ 1 ≤ ch ≤ 233) →
  freq_to_channel (channel_to_freq ch ft) = ch ∧
  ((ft = FREQ_24G → ch ≠ 14) → (ft = FREQ_5G → 30 ≤ ch ≤ 179) →
   which_freq_type (channel_to_freq ch ft) = ft).
Proof.
  intros Hch.
  pose (P := λ ft ch, bool_decide (freq_to_channel (channel_to_freq ch ft) = ch)
    && (freq_eq ft FREQ_24G && (ch =? 14) || freq_eq ft FREQ_5G && negb (between 30 ch 179)
        || freq_eq (which_freq_type (channel_to_freq ch ft)) ft)).
  assert (P ft ch = true) as HP.
  { assert (∀ lo n, forallb (λ c, P ft (lo + Z.of_nat c)) (seq 0 n) = true →
      lo ≤ ch < lo + Z.of_nat n → P ft ch = true) as Hall.
    { intros lo n HF Hr. rewrite forallb_forall in HF. specialize (HF (Z.to_nat (ch - lo))).
      rewrite Z2Nat.id, Zplus_minus in HF by lia.
      apply HF, list_elem_of_In, elem_of_seq. lia. }
    destruct Hch as [[-> ?]|[[-> ?]|[-> ?]]];
      [apply (Hall 1 14%nat)|apply (Hall 7 182%nat)|apply (Hall 1 233%nat)]; (lia || by vm_compute). }
  unfold P in HP. apply andb_true_iff in HP as [Hr Hb]. bool_to_prop. split; [done|]. intros H14 H30.
  unfold freq_eq in Hb. rewrite !orb_true_iff in Hb. destruct Hb as [[Hb|Hb]|Hb]; bool_to_prop;
    [by destruct H14| |done].
  match goal with H : between _ _ _ = false |- _ => unfold between in H; rename H into Hb end.
  apply andb_false_iff in Hb as [?|?]; bool_to_prop; specialize (H30 ltac:(done)); lia.
Qed.

(** The two entries of the 40 MHz channel 175: see
    [channel_173_overlaps_another_channel]. *)
Definition in_channel_175 (ft : eFreqType) (ch : Z) (bw : eWiFiBandwidth) : bool :=
  freq_eq ft FREQ_5G && bw_eq bw BANDWIDTH_40 && (between 173 ch 177).

(** The beacon channels read from the tables are those computed from the
    centre channel: for every entry of the 5 and 6 GHz tables outside the
    40 MHz channel 175, both routines give the same list, the channel is on
    it, and every channel on it has the same entry, so that the channels of a
    bandwidth are disjoint blocks. *)
Theorem beacon_channels_agree ft t ch bw c :
  table_of ft = Some t → table_find t ch bw = Some c → in_channel_175 ft ch bw = false →
  get_overlapping_beacon_channels ch ft bw
    = Some (center_channel_to_beacon_channels (center_channel c) bw ft) ∧
  ch ∈ center_channel_to_beacon_channels (center_channel c) bw ft ∧
  ∀ ch', ch' ∈ center_channel_to_beacon_channels (center_channel c) bw ft →
    table_find t ch' bw = Some c.
Proof.
  intros Ht Hc H175.
  pose (P := λ ft ch bw c, let l := center_channel_to_beacon_channels (center_channel c) bw ft in
    in_channel_175 ft ch bw
    || bool_decide (get_overlapping_beacon_channels ch ft bw = Some l)
       && bool_decide (ch ∈ l) && forallb (λ ch',
            bool_decide ((t' ← table_of ft; table_find t' ch' bw) = Some c)) l).
  assert (P ft ch bw c = true) as HP.
  { eapply (table_of_forall P); [by vm_compute|by vm_compute|done|done]. }
  unfold P in HP. rewrite H175 in HP. cbn [orb] in HP. bool_to_prop.
  match goal with H : forallb _ _ = true |- _ => rename H into HF end.
  split_and!; [done|done|]. intros ch' Hin. rewrite forallb_forall in HF.
  apply list_elem_of_In in Hin. specialize (HF _ Hin). cbn beta in HF. bool_to_prop.
  by rewrite Ht in HF.
Qed.

(** Channel 173 at 40 MHz is listed with centre 175 but with the beacon
    channels of the neighbouring channel 167: the 20 MHz channels the table
    gives for it do not contain it, and its own block is left out. *)
Theorem channel_173_overlaps_another_channel :
  table_find channels_table_5g 173 BANDWIDTH_40 = Some (mkChannel 175 (165, 169)) ∧
  get_overlapping_beacon_channels 173 FREQ_5G BANDWIDTH_40 = Some [165; 169] ∧
  center_channel_to_beacon_channels 175 BANDWIDTH_40 FREQ_5G = [173; 177].
Proof. by vm_compute. Qed.

Lemma elem_of_get_overlapping_channels s ft t ch bw :
  table_of ft = Some t → is_Some (map_find s t) →
  (ch, bw) ∈ get_overlapping_channels s ft ↔
  ∃ bws c, (ch, bws) ∈ t ∧ (bw, c) ∈ bws ∧
    (overlap_beacon_channels_range c).1 ≤ s ≤ (overlap_beacon_channels_range c).2.
Proof.
  intros Ht [r Hs]. unfold get_overlapping_channels. rewrite Ht, Hs, list_elem_of_In, in_flat_map.
  setoid_rewrite in_flat_map. setoid_rewrite <- list_elem_of_In. split.
  - intros [[ch' bws] [Hrow [[bw' c] [He Hin]]]]. cbn [fst snd] in *. unfold between in Hin.
    destruct (_ && _)%bool eqn:Hb; [|by apply elem_of_nil in Hin].
    apply list_elem_of_singleton in Hin as [= -> ->]. bool_to_prop. exists bws, c. naive_solver.
  - intros (bws & c & Hrow & He & Hr). exists (ch, bws). split; [done|]. exists (bw, c).
    split; [done|]. cbn [fst snd]. unfold between.
    rewrite (proj2 (Z.leb_le _ _)), (proj2 (Z.leb_le _ _)) by lia. by left.
Qed.

(** [get_overlapping_channels] and [get_overlapping_beacon_channels] are
    inverse relations: a channel of the table overlaps the channel and
    bandwidth of an entry exactly when it is one of that entry's beacon
    channels. *)
Theorem overlapping_channels_iff ft t s ch bw :
  table_of ft = Some t → is_Some (map_find s t) →
  (ch, bw) ∈ get_overlapping_channels s ft ↔
  ∃ l, get_overlapping_beacon_channels ch ft bw = Some l ∧ s ∈ l.
Proof.
  intros Ht Hs. rewrite (elem_of_get_overlapping_channels s ft t ch bw Ht Hs).
  pose (P := λ (ft : eFreqType) (_ : Z) (_ : eWiFiBandwidth) c, forallb (λ row, bool_decide
    (between (overlap_beacon_channels_range c).1 row.1 (overlap_beacon_channels_range c).2
     = in_list row.1 (default [] (channel_range (overlap_beacon_channels_range c))))) (default [] (table_of ft))
    && bool_decide (channel_range (overlap_beacon_channels_range c) ≠ None)).
  assert (∀ c, table_find t ch bw = Some c → P ft ch bw c = true) as HP.
  { intros c. by eapply (table_of_forall P); [vm_compute|vm_compute|]. }
  pose proof (λ c, table_find_iff ft t ch bw c Ht) as Hfind.
  assert (∀ c, table_find t ch bw = Some c → ∃ l,
    channel_range (overlap_beacon_channels_range c) = Some l ∧
    ((overlap_beacon_channels_range c).1 ≤ s ≤ (overlap_beacon_channels_range c).2 ↔ s ∈ l)) as Hl.
  { intros c Hc. specialize (HP c Hc). unfold P in HP. rewrite Ht in HP. cbn [default] in HP.
    bool_to_prop. destruct (channel_range _) as [l|]; [|done]. exists l. split; [done|].
    match goal with H : forallb _ _ = true |- _ => rewrite forallb_forall in H; rename H into HF end.
    destruct Hs as [r Hs]. apply map_find_elem, list_elem_of_In in Hs. specialize (HF _ Hs).
    cbn in HF. bool_to_prop. unfold between, in_list in HF.
    rewrite <- (bool_decide_eq_true (s ∈ l)), <- HF, andb_true_iff, !Z.leb_le. lia. }
  unfold get_overlapping_beacon_channels. rewrite Ht. split.
  - intros (bws & c & Hrow & He & Hr). assert (table_find t ch bw = Some c) as Hc by (apply Hfind; eauto).
    rewrite Hc. destruct (Hl c Hc) as (l & -> & Hiff). exists l. naive_solver.
  - destruct (table_find t ch bw) as [c|] eqn:Hc.
    + destruct (Hl c eq_refl) as (l & -> & Hiff). intros (l' & [= <-] & Hin).
      destruct (proj2 (Hfind c) eq_refl) as (bws & ? & ?). exists bws, c. naive_solver.
    + intros (l & [= <-] & Hin). by apply elem_of_nil in Hin.
Qed.

(** The 20 MHz channels computed from the centre frequency are those
    computed from the centre channel, for every entry of the 5 GHz table; and
    when the bandwidth of a channel is narrowed,
    [calc_5g_20MHz_subband_channels] gives exactly the 20 MHz channels that
    are no longer used. *)
Theorem narrowed_channels_are_released ch bw c bw' c' :
  table_find channels_table_5g ch bw = Some c → table_find channels_table_5g ch bw' = Some c' →
  get_5g_20MHz_channels bw (channel_to_freq (center_channel c) FREQ_5G)
    = center_channel_5g_to_beacon_channels (center_channel c) bw ∧
  (bw_val bw' < bw_val bw →
   calc_5g_20MHz_subband_channels bw (channel_to_freq (center_channel c) FREQ_5G)
     bw' (channel_to_freq (center_channel c') FREQ_5G)
   = filter (.∉ center_channel_5g_to_beacon_channels (center_channel c') bw')
       (center_channel_5g_to_beacon_channels (center_channel c) bw)).
Proof.
  intros Hc Hc'.
  pose (P := λ ch bw c,
    bool_decide (get_5g_20MHz_channels bw (channel_to_freq (center_channel c) FREQ_5G)
      = center_channel_5g_to_beacon_channels (center_channel c) bw)
    && forallb (λ bw', match table_find channels_table_5g ch bw' with
         | None => true
         | Some c' => (bw_val bw <=? bw_val bw') || bool_decide
             (calc_5g_20MHz_subband_channels bw (channel_to_freq (center_channel c) FREQ_5G)
                bw' (channel_to_freq (center_channel c') FREQ_5G)
              = filter (.∉ center_channel_5g_to_beacon_channels (center_channel c') bw')
                  (center_channel_5g_to_beacon_channels (center_channel c) bw))
         end) all_bandwidths).
  assert (P ch bw c = true) as HP.
  { refine (table_forall P channels_table_5g _ ch bw c Hc). vm_compute. reflexivity. }
  unfold P in HP. apply andb_true_iff in HP as [H1 H2]. bool_to_prop. split; [done|]. intros Hlt.
  pose proof (bandwidth_forall _ H2 bw') as H3. cbn beta in H3. rewrite Hc' in H3.
  apply orb_true_iff in H3 as [H3|H3]; bool_to_prop; [lia|done].
Qed.

(** RSSI survives the conversion to RCPI and back for -109 to 0 dBm; the
    RCPI is at most 220 and grows with the RSSI, and the reserved RCPI values
    give [RSSI_INVALID]. *)
Theorem rssi_rcpi_roundtrip r r' : -128 ≤ r ≤ r' → r' ≤ 127 →
  (-109 ≤ r → r ≤ 0 → convert_rssi_from_rcpi (convert_rcpi_from_rssi r) = r) ∧
  RCPI_MIN ≤ convert_rcpi_from_rssi r ≤ convert_rcpi_from_rssi r' ∧
  convert_rcpi_from_rssi r' ≤ RCPI_MAX ∧
  (∀ rcpi, RCPI_MAX < rcpi → convert_rssi_from_rcpi rcpi = RSSI_INVALID).
Proof.
  intros Hr Hr'. unfold convert_rssi_from_rcpi, convert_rcpi_from_rssi, RCPI_MIN, RCPI_MAX, RSSI_INVALID.
  assert (∀ x, -109 ≤ x < 0 → u8 (2 * (x + 110)) = 2 * (x + 110)) as Hu.
  { intros x Hx. unfold u8. rewrite Z.mod_small; lia. }
  split_and!.
  - intros Hlo Hhi. destruct (Z.ltb_spec r (-109)); [lia|]. destruct (Z.leb_spec (-109) r); [|lia].
    destruct (Z.ltb_spec r 0); cbn [andb].
    + rewrite Hu by lia. destruct (Z.ltb_spec 220 (2 * (r + 110))); [lia|].
      rewrite Z.mul_comm, Z.div_mul by lia. lia.
    + change (220 / 2 - 110) with 0. by replace r with 0 by lia.
  - repeat case_match; bool_to_prop; rewrite ?Hu; lia.
  - repeat case_match; bool_to_prop; rewrite ?Hu; try lia.
    all: try (match goal with H : (_ && _)%bool = false |- _ => apply andb_false_iff in H as [?|?] end; bool_to_prop; lia).
  - repeat case_match; bool_to_prop; rewrite ?Hu; lia.
  - intros rcpi Hlt. by destruct (Z.ltb_spec 220 rcpi); [|lia].
Qed.
