(* ===== verification/WifiChannel.v ===== *)
(** * Wi-Fi channels

    [WifiChannel] ([beerocks_wifi_channel.cpp]): a channel with its band,
    bandwidth and centre frequencies, how it is constructed and changed, and
    the functions of [son_wireless_utils.cpp] that take one. A constructor
    gives [None] where it would dereference the end of a map. *)

From S2P Require Import Prelude Channels.

Record WifiChannel := mkWifiChannel {
  m_channel : Z;
  m_center_frequency : Z;
  m_center_frequency_2 : Z;
  m_bandwidth : eWiFiBandwidth;
  m_freq_type : eFreqType;
  m_is_dfs : bool;
  m_ext_above_primary : Z;
  m_ext_above_secondary : bool;
  m_tx_power : Z;
  m_radar_affected : Z;
}.

(** ** Construction *)

Definition initialize_empty_wifi_channel_members : WifiChannel :=
  mkWifiChannel 0 0 0 BANDWIDTH_UNKNOWN FREQ_UNKNOWN false 0 false 0 0.

Definition initialize_wifi_channel_members (channel : Z) (freq_type : eFreqType)
    (center_frequency center_frequency_2 : Z) (bandwidth : eWiFiBandwidth)
    (ext_above_secondary : bool) : WifiChannel :=
  let center_channel := u32 (freq_to_channel center_frequency) in
  let ext := if channel <? center_channel then 1
             else if center_channel <? channel then -1 else 0 in
  mkWifiChannel channel center_frequency center_frequency_2 bandwidth freq_type
    (is_dfs_channel channel freq_type) ext ext_above_secondary 0 0.

(** The first operating class with the bandwidth and the channel decides. *)
Definition is_central_channel (channel : Z) (bandwidth : eWiFiBandwidth) (freq_type : eFreqType) : bool :=
  if freq_eq freq_type FREQ_5G && (bw_val BANDWIDTH_80 <=? bw_val bandwidth)
     || freq_eq freq_type FREQ_6G && (bw_val BANDWIDTH_40 <=? bw_val bandwidth) then
    let bandwidth := if is_320MHz_channelization freq_type bandwidth then BANDWIDTH_320 else bandwidth in
    match first_class bandwidth channel operating_classes_list with
    | 0 => false
    | op => is_operating_class_using_central_channel op
    end
  else false.

Definition are_params_valid (channel : Z) (freq_type : eFreqType) (center_frequency : Z)
    (bandwidth : eWiFiBandwidth) : bool :=
  if bw_eq bandwidth BANDWIDTH_UNKNOWN || bw_eq bandwidth BANDWIDTH_MAX then false
  else if center_frequency <? BAND_24G_MIN_FREQ then false
  else if BAND_6G_MAX_FREQ <? center_frequency then false
  else match freq_type with
       | FREQ_24G => bool_decide (is_Some (map_find channel channels_table_24g))
       | FREQ_5G =>
           is_central_channel channel bandwidth freq_type
           || match map_find channel channels_table_5g with
              | None => false
              | Some bws => bool_decide (is_Some (map_find bandwidth bws))
              end
       | FREQ_6G =>
           is_central_channel channel bandwidth freq_type
           || match map_find channel channels_table_6g with
              | None => false
              | Some bws =>
                  bool_decide (is_Some (map_find bandwidth bws))
                  && (negb (bw_eq bandwidth BANDWIDTH_160)
                      || bool_decide (is_Some (map_find BANDWIDTH_80 bws)))
              end
       | _ => false
       end.

(** The centre frequency of the primary 80 MHz channel of a 6 GHz channel. *)
Definition primary_80mhz_center_frequency (channel : Z) : option Z :=
  bws ← map_find channel channels_table_6g;
  c ← map_find BANDWIDTH_80 bws;
  Some (channel_to_freq (center_channel c) FREQ_6G).

(** [WifiChannel(uint8_t, uint16_t center_frequency, eWiFiBandwidth, bool)]. *)
Definition WifiChannel_of_frequency (channel center_frequency : Z) (bandwidth : eWiFiBandwidth)
    (ext_above_secondary : bool) : option WifiChannel :=
  let freq_type := which_freq_type center_frequency in
  if negb (are_params_valid channel freq_type center_frequency bandwidth) then
    Some initialize_empty_wifi_channel_members
  else if freq_eq freq_type FREQ_6G && bw_eq bandwidth BANDWIDTH_160 then
    if negb (is_central_channel channel bandwidth freq_type) then
      primary ← primary_80mhz_center_frequency channel;
      Some (initialize_wifi_channel_members channel freq_type primary center_frequency
              bandwidth ext_above_secondary)
    else Some (initialize_wifi_channel_members channel freq_type center_frequency center_frequency
                 bandwidth ext_above_secondary)
  else Some (initialize_wifi_channel_members channel freq_type center_frequency 0
               bandwidth ext_above_secondary).

(** [WifiChannel(uint8_t, eFreqType, eWiFiBandwidth, bool)]. *)
Definition WifiChannel_of_band (channel : Z) (freq_type : eFreqType) (bandwidth : eWiFiBandwidth)
    (ext_above_secondary : bool) : option WifiChannel :=
  let center_frequency :=
    u16 (channel_to_vht_center_freq channel freq_type bandwidth ext_above_secondary) in
  if negb (are_params_valid channel freq_type center_frequency bandwidth) then
    Some initialize_empty_wifi_channel_members
  else if freq_eq freq_type FREQ_6G && bw_eq bandwidth BANDWIDTH_160 then
    primary ← primary_80mhz_center_frequency channel;
    Some (initialize_wifi_channel_members channel freq_type primary center_frequency
            bandwidth ext_above_secondary)
  else Some (initialize_wifi_channel_members channel freq_type center_frequency 0
               bandwidth ext_above_secondary).

Definition is_empty (wc : WifiChannel) : bool := freq_eq (m_freq_type wc) FREQ_UNKNOWN.

(** ** Changes *)

(** [set_channel] leaves the extension and DFS members as they are. *)
Definition set_channel (channel : Z) (wc : WifiChannel) : WifiChannel :=
  let known := match m_freq_type wc with
               | FREQ_24G => bool_decide (is_Some (map_find channel channels_table_24g))
               | FREQ_5G => bool_decide (is_Some (map_find channel channels_table_5g))
               | FREQ_6G => bool_decide (is_Some (map_find channel channels_table_6g))
               | _ => false
               end in
  if negb known then wc
  else
    let vht bw := u16 (channel_to_vht_center_freq channel (m_freq_type wc) bw
                         (m_ext_above_secondary wc)) in
    let '(cf, cf2) :=
      if freq_eq (m_freq_type wc) FREQ_6G && bw_eq (m_bandwidth wc) BANDWIDTH_160
      then (vht BANDWIDTH_80, vht BANDWIDTH_160)
      else (vht (m_bandwidth wc), 0) in
    mkWifiChannel channel cf cf2 (m_bandwidth wc) (m_freq_type wc) (m_is_dfs wc)
      (m_ext_above_primary wc) (m_ext_above_secondary wc) (m_tx_power wc) (m_radar_affected wc).

(** [set_bandwidth] takes the side of the extension from the move of the
    centre frequency, and leaves the second centre frequency as it is. *)
Definition set_bandwidth (bw : eWiFiBandwidth) (wc : WifiChannel) : WifiChannel :=
  if bw_eq bw BANDWIDTH_UNKNOWN then wc
  else
    let new_center_frequency :=
      channel_to_vht_center_freq (m_channel wc) (m_freq_type wc) bw (m_ext_above_secondary wc) in
    let '(ext_p, ext_s) :=
      if new_center_frequency <? m_center_frequency wc then (-1, false)
      else if m_center_frequency wc <? new_center_frequency then (1, true)
      else (0, false) in
    mkWifiChannel (m_channel wc) (u16 new_center_frequency) (m_center_frequency_2 wc) bw
      (m_freq_type wc) (m_is_dfs wc) ext_p ext_s (m_tx_power wc) (m_radar_affected wc).

(** ** Functions of a channel *)

(** The classes up to 130, or from 131 on: [operating_classes_list] from
    [find(first)] up to [find(last)]. *)
Definition classes_between (first last : Z) : list (Z * sOperatingClass) :=
  filter (λ e, first ≤ e.1 ∧ e.1 < last) operating_classes_list.

(** [get_operating_class_by_channel(WifiChannel)]. *)
Definition get_operating_class_by_channel (wc : WifiChannel) : Z :=
  let bw := m_bandwidth wc in
  let ch :=
    if freq_eq (m_freq_type wc) FREQ_5G && (bw_val BANDWIDTH_80 <=? bw_val bw) then
      u8 (freq_to_channel (m_center_frequency wc))
    else if freq_eq (m_freq_type wc) FREQ_6G && (bw_val BANDWIDTH_40 <=? bw_val bw) then
      if bw_eq bw BANDWIDTH_160 then u8 (freq_to_channel (m_center_frequency_2 wc))
      else u8 (freq_to_channel (m_center_frequency wc))
    else m_channel wc in
  let bw' := if is_320MHz_channelization (m_freq_type wc) bw then BANDWIDTH_320 else bw in
  match m_freq_type wc with
  | FREQ_24G | FREQ_5G => first_class bw' ch (classes_between 81 131)
  | FREQ_6G => first_class bw' ch (classes_between 131 256)
  | _ => 0
  end.

(** [get_vht_central_frequency(uint8_t, eWiFiBandwidth)]. *)
Definition get_vht_central_frequency1 (channel : Z) (bandwidth : eWiFiBandwidth) : option Z :=
  match which_freq channel with
  | FREQ_5G =>
      Some (match table_find channels_table_5g channel (as_80 bandwidth) with
            | None => 0
            | Some c => u16 (channel_to_freq1 (center_channel c))
            end)
  | FREQ_24G =>
      match map_find channel channels_table_24g with
      | None => Some 0
      | Some chan_info =>
          wc ← WifiChannel_of_band channel FREQ_24G bandwidth false;
          Some (match map_find (get_operating_class_by_channel wc) chan_info with
                | None => 0
                | Some center => u16 (channel_to_freq1 center)
                end)
      end
  | _ => Some 0
  end.

(** [get_vht_central_frequency(uint8_t, eWiFiBandwidth, eFreqType)]. *)
Definition get_vht_central_frequency (channel : Z) (bandwidth : eWiFiBandwidth)
    (freq_type : eFreqType) : Z :=
  match freq_type with
  | FREQ_6G =>
      match table_find channels_table_6g channel bandwidth with
      | None => 0
      | Some c => channel_to_freq (center_channel c) freq_type
      end
  | FREQ_5G =>
      match table_find channels_table_5g channel (as_80 bandwidth) with
      | None => 0
      | Some c => channel_to_freq (center_channel c) freq_type
      end
  | FREQ_24G =>
      match map_find channel channels_table_24g with
      | None => 0
      | Some chan_info =>
          match map_find (get_operating_class_by_channel1 channel bandwidth) chan_info with
          | None => 0
          | Some center => channel_to_freq center freq_type
          end
      end
  | _ => 0
  end.

Inductive eWifiChannelType := CH_PRIMARY | CH_SECONDARY.
#[global] Instance eWifiChannelType_eq_dec : EqDecision eWifiChannelType.
Proof. solve_decision. Defined.

(** [split_channel_to_20MHz(WifiChannel)]. [None]: a null table, or a loop
    that does not end. *)
Definition split_channel_to_20MHz (wc : WifiChannel) : option (list (Z * eWifiChannelType)) :=
  if is_empty wc then Some []
  else
    let channel := m_channel wc in
    if freq_eq (m_freq_type wc) FREQ_24G then
      if negb (channel =? 1) && negb (channel =? 6) && negb (channel =? 11) then Some []
      else if bw_eq (m_bandwidth wc) BANDWIDTH_40 then
        Some ((channel, CH_PRIMARY) ::
              if channel =? 1 then [(channel + 5, CH_SECONDARY)]
              else if channel =? 11 then [(channel - 5, CH_SECONDARY)]
              else if m_ext_above_secondary wc then [(channel + 5, CH_SECONDARY)]
              else [(channel - 5, CH_SECONDARY)])
      else Some [(channel, CH_PRIMARY)]
    else
      table ← table_of (m_freq_type wc);
      match table_find table channel (m_bandwidth wc) with
      | None => Some []
      | Some c =>
          chs ← channel_range (overlap_beacon_channels_range c);
          Some (map (λ ch, (ch, if ch =? channel then CH_PRIMARY else CH_SECONDARY)) chs)
      end.

(** ** Theorems *)

(** The centre frequency of the whole channel: the second one for 160 MHz
    channels of the 6 GHz band. *)
Definition whole_center_frequency (wc : WifiChannel) : Z :=
  if freq_eq (m_freq_type wc) FREQ_6G && bw_eq (m_bandwidth wc) BANDWIDTH_160
  then m_center_frequency_2 wc else m_center_frequency wc.

(** What a constructed channel is: empty when the table has no such channel
    and bandwidth, otherwise with these members. *)
Definition built_from (channel : Z) (ft : eFreqType) (bw : eWiFiBandwidth) (c : sChannel)
    (wc : WifiChannel) : bool :=
  (m_channel wc =? channel) && freq_eq (m_freq_type wc) ft && bw_eq (m_bandwidth wc) bw
  && (freq_to_channel (whole_center_frequency wc) =? center_channel c)
  && bool_decide (m_is_dfs wc = is_dfs_channel channel ft)
  && (m_ext_above_primary wc =? Z.sgn (freq_to_channel (m_center_frequency wc) - channel)).

Lemma WifiChannel_of_band_checked ft ch bw ext : byte_ok ch →
  match WifiChannel_of_band ch ft bw ext with
  | None => false
  | Some wc =>
      match (t ← table_of ft; table_find t ch bw) with
      | Some c => built_from ch ft bw c wc
      | None => freq_eq ft FREQ_24G || is_empty wc
      end
  end = true.
Proof.
  revert ch. apply byte_forall. revert bw. apply bandwidth_forall. revert ft. apply freq_type_forall.
  destruct ext; vm_compute; reflexivity.
Qed.

(** Constructing a channel from its band never dereferences the end of a
    table. On the 5 and 6 GHz bands the result is the channel asked for, with
    the centre the table gives, the DFS flag of its range and the extension on
    the side of the centre, exactly when the table has the channel with that
    bandwidth; otherwise, and on unknown bands, it is the empty channel. *)
Theorem WifiChannel_of_band_correct ft ch bw ext : byte_ok ch → ft ≠ FREQ_24G →
  ∃ wc, WifiChannel_of_band ch ft bw ext = Some wc ∧
    (∀ t c, table_of ft = Some t → table_find t ch bw = Some c →
       m_channel wc = ch ∧ m_freq_type wc = ft ∧ m_bandwidth wc = bw ∧
       freq_to_channel (whole_center_frequency wc) = center_channel c ∧
       m_is_dfs wc = is_dfs_channel ch ft ∧
       m_ext_above_primary wc = Z.sgn (freq_to_channel (m_center_frequency wc) - ch)) ∧
    ((t ← table_of ft; table_find t ch bw) = None → is_empty wc = true).
Proof.
  intros Hb Hft. pose proof (WifiChannel_of_band_checked ft ch bw ext Hb) as H.
  destruct (WifiChannel_of_band ch ft bw ext) as [wc|]; [|done]. exists wc. split; [done|]. split.
  - intros t c Ht Hc. rewrite Ht in H. cbn [mbind option_bind] in H. rewrite Hc in H.
    unfold built_from, freq_eq, bw_eq in H. bool_to_prop. done.
  - intros Hn. rewrite Hn in H. apply orb_true_iff in H as [H|H]; [|done].
    unfold freq_eq in H. by bool_to_prop.
Qed.

(** C39: Channels of the 5 and 6 GHz tables and their operating classes. The
    class of a channel built from an entry of the table gives back its band; with
    the number by which the class names its channels (the centre channel where
    the class uses centre channels, the channel itself elsewhere) it gives back
    the bandwidth, and the number is a channel of the class; and for the centre
    channel of the entry, which [get_subset_20MHz_channels] asks for in all
    classes, that function gives the 20 MHz channels the channel occupies, except
    for the 40 MHz channel 175. *)
Theorem operating_class_roundtrip ft t ch bw c ext wc :
  table_of ft = Some t → table_find t ch bw = Some c →
  WifiChannel_of_band ch ft bw ext = Some wc →
  let op := get_operating_class_by_channel wc in
  let number := if is_operating_class_using_central_channel op then center_channel c else ch in
  which_freq_op_cls op = ft ∧
  get_bandwidth_from_channel_and_op_class number op = bw ∧
  is_channel_in_operating_class op number = true ∧
  (in_channel_175 ft ch bw = false →
   get_subset_20MHz_channels (center_channel c) op bw
     = Some (true, center_channel_to_beacon_channels (center_channel c) bw ft)).
Proof.
  intros Ht Hc Hwc.
  pose (P := λ ft ch bw c, forallb (λ ext, match WifiChannel_of_band ch ft bw ext with
    | None => true
    | Some wc =>
        let op := get_operating_class_by_channel wc in
        let number := if is_operating_class_using_central_channel op then center_channel c else ch in
        freq_eq (which_freq_op_cls op) ft
        && bw_eq (get_bandwidth_from_channel_and_op_class number op) bw
        && is_channel_in_operating_class op number
        && (in_channel_175 ft ch bw || bool_decide (get_subset_20MHz_channels (center_channel c) op bw
              = Some (true, center_channel_to_beacon_channels (center_channel c) bw ft)))
    end) [true; false]).
  assert (P ft ch bw c = true) as HP.
  { refine (table_of_forall P _ _ ft t ch bw c Ht Hc); vm_compute; reflexivity. }
  unfold P in HP. rewrite forallb_forall in HP. specialize (HP ext ltac:(destruct ext; cbn; tauto)).
  cbn beta in HP. rewrite Hwc in HP. intros op number. fold op in HP. fold number in HP.
  unfold freq_eq, bw_eq in HP. bool_to_prop. split_and!; [done..|]. intros H175.
  rewrite H175 in *. match goal with H : (false || _)%bool = true |- _ => cbn [orb] in H end.
  by bool_to_prop.
Qed.

(** With the number of a class that does not name centre channels, the 40 MHz
    classes of 5 GHz, there is no subset: the scan task calls it so. *)
Lemma primary_channel_has_no_subset :
  is_operating_class_using_central_channel 116 = false ∧ is_channel_in_operating_class 116 36 = true ∧
  get_subset_20MHz_channels 36 116 BANDWIDTH_40 = Some (false, []).
Proof. vm_compute. done. Qed.

(** Splitting a channel of the 5 or 6 GHz tables into 20 MHz channels
    gives its beacon channels, and the channel itself is the only primary
    one. *)
Theorem split_channel_has_one_primary ft t ch bw c ext wc :
  table_of ft = Some t → table_find t ch bw = Some c → in_channel_175 ft ch bw = false →
  WifiChannel_of_band ch ft bw ext = Some wc →
  ∃ l, split_channel_to_20MHz wc = Some l ∧
    l.*1 = center_channel_to_beacon_channels (center_channel c) bw ft ∧
    filter (λ e, e.2 = CH_PRIMARY) l = [(ch, CH_PRIMARY)].
Proof.
  intros Ht Hc H175 Hwc.
  pose (P := λ ft ch bw c, forallb (λ ext, match WifiChannel_of_band ch ft bw ext with
    | None => true
    | Some wc => in_channel_175 ft ch bw || match split_channel_to_20MHz wc with
        | None => false
        | Some l => bool_decide (l.*1 = center_channel_to_beacon_channels (center_channel c) bw ft)
                    && bool_decide (filter (λ e, e.2 = CH_PRIMARY) l = [(ch, CH_PRIMARY)])
        end
    end) [true; false]).
  assert (P ft ch bw c = true) as HP.
  { refine (table_of_forall P _ _ ft t ch bw c Ht Hc); vm_compute; reflexivity. }
  unfold P in HP. rewrite forallb_forall in HP. specialize (HP ext ltac:(destruct ext; cbn; tauto)).
  cbn beta in HP. rewrite Hwc, H175 in HP. cbn [orb] in HP.
  destruct (split_channel_to_20MHz wc) as [l|]; [|done]. bool_to_prop. by exists l.
Qed.

(** The three routines for the centre frequency agree: for every channel
    number and bandwidth but channel 14 at 40 MHz, both forms of
    [get_vht_central_frequency] give what [channel_to_vht_center_freq] gives
    with the extension above. *)
Theorem central_frequency_agrees ch bw : byte_ok ch → (ch, bw) ≠ (14, BANDWIDTH_40) →
  get_vht_central_frequency1 ch bw = Some (get_vht_central_frequency ch bw (which_freq ch)) ∧
  get_vht_central_frequency ch bw (which_freq ch)
    = channel_to_vht_center_freq ch (which_freq ch) bw true.
Proof.
  intros Hb Hne.
  assert (∀ ch, byte_ok ch → (ch =? 14) && bw_eq bw BANDWIDTH_40 || bool_decide
    (get_vht_central_frequency1 ch bw = Some (get_vht_central_frequency ch bw (which_freq ch)))
    && (get_vht_central_frequency ch bw (which_freq ch)
        =? channel_to_vht_center_freq ch (which_freq ch) bw true) = true) as HP.
  { apply byte_forall. clear. revert bw. apply bandwidth_forall. vm_compute. reflexivity. }
  specialize (HP ch Hb). apply orb_true_iff in HP as [HP|HP]; unfold bw_eq in HP; bool_to_prop; [|done].
  by subst.
Qed.

(** After [set_bandwidth] a channel has the operating class of a channel
    constructed with that bandwidth, except that a 6 GHz channel widened to
    160 MHz has none: its second centre frequency stays 0. *)
Theorem set_bandwidth_operating_class ft t ch bw c bw' c' ext wc wc' :
  table_of ft = Some t → table_find t ch bw = Some c → table_find t ch bw' = Some c' →
  WifiChannel_of_band ch ft bw ext = Some wc → WifiChannel_of_band ch ft bw' ext = Some wc' →
  get_operating_class_by_channel (set_bandwidth bw' wc)
    = if bool_decide (ft = FREQ_6G ∧ bw' = BANDWIDTH_160 ∧ bw ≠ BANDWIDTH_160) then 0
      else get_operating_class_by_channel wc'.
Proof.
  intros Ht Hc Hc' Hwc Hwc'.
  pose (P := λ ft ch bw (_ : sChannel), forallb (λ ext, forallb (λ bw',
    match (t ← table_of ft; table_find t ch bw'), WifiChannel_of_band ch ft bw ext,
          WifiChannel_of_band ch ft bw' ext with
    | Some _, Some wc, Some wc' => get_operating_class_by_channel (set_bandwidth bw' wc)
        =? if bool_decide (ft = FREQ_6G ∧ bw' = BANDWIDTH_160 ∧ bw ≠ BANDWIDTH_160) then 0
           else get_operating_class_by_channel wc'
    | _, _, _ => true
    end) all_bandwidths) [true; false]).
  assert (P ft ch bw c = true) as HP.
  { refine (table_of_forall P _ _ ft t ch bw c Ht Hc); vm_compute; reflexivity. }
  unfold P in HP. rewrite forallb_forall in HP. specialize (HP ext ltac:(destruct ext; cbn; tauto)).
  cbn beta in HP. pose proof (bandwidth_forall _ HP bw') as Hb. cbn beta in Hb.
  rewrite Hwc, Hwc', Ht in Hb. cbn [mbind option_bind] in Hb. rewrite Hc' in Hb. by apply Z.eqb_eq.
Qed.

(** Channels that cannot be constructed from their frequency: channel 14,
    whose frequency lies above [BAND_24G_MAX_FREQ], and the 40 MHz centre
    channels 3 and 11 of the 6 GHz band, which [is_central_channel] finds in a
    2.4 GHz class; every other centre channel of the 6 GHz table can be. *)
Theorem channels_rejected_by_frequency :
  WifiChannel_of_frequency 14 (channel_to_freq 14 FREQ_24G) BANDWIDTH_20 false
    = Some initialize_empty_wifi_channel_members ∧
  ∀ ch bw c, table_find channels_table_6g ch bw = Some c → bw ≠ BANDWIDTH_20 →
    ∃ wc, WifiChannel_of_frequency (center_channel c) (channel_to_freq (center_channel c) FREQ_6G) bw false
          = Some wc ∧
      (is_empty wc = true ↔ bw = BANDWIDTH_40 ∧ (center_channel c = 3 ∨ center_channel c = 11)).
Proof.
  split; [by vm_compute|]. intros ch bw c Hc Hbw.
  pose (P := λ (_ : Z) bw c, bw_eq bw BANDWIDTH_20 || match WifiChannel_of_frequency (center_channel c)
      (channel_to_freq (center_channel c) FREQ_6G) bw false with
    | None => false
    | Some wc => bool_decide (is_empty wc = true ↔
        bw = BANDWIDTH_40 ∧ (center_channel c = 3 ∨ center_channel c = 11))
    end).
  assert (P ch bw c = true) as HP.
  { refine (table_forall P channels_table_6g _ ch bw c Hc). vm_compute. reflexivity. }
  unfold P, bw_eq in HP. rewrite (bool_decide_false (bw = BANDWIDTH_20)) in HP by done. cbn [orb] in HP.
  destruct (WifiChannel_of_frequency _ _ _ _) as [wc|]; [|done]. bool_to_prop. by exists wc.
Qed.
