(* ===== verification/TaskPool.v ===== *)
(** * The agent's task pool

    [TaskPool] ([agent/src/beerocks/slave/tasks/task_pool.cpp]): the tasks, the
    queue of events they send to each other, and [run_tasks]; with the
    messages of [task_messages.h]. The tasks are methods on a state [S] that
    holds the queue; they may send further events while they handle one. *)

From S2P Require Import Prelude Channels.

(** ** Task messages *)

Inductive eTaskEvent :=
  | CAC_STARTED_NOTIFICATION | CAC_COMPLETED_NOTIFICATION | SWITCH_CHANNEL_NOTIFICATION_EVENT
  | SWITCH_CHANNEL_DURATION_TIME | SWITCH_CHANNEL_REQUEST | SWITCH_CHANNEL_REPORT.
#[global] Instance eTaskEvent_eq_dec : EqDecision eTaskEvent.
Proof. solve_decision. Defined.

Record sSwitchChannelDurationTime := mkDurationTime { dt_ifname : string; duration_sec : Z }.

(** [ap_channel_switch] is copied along and not looked at. *)
Record sSwitchChannelNotification := mkNotification {
  scn_ifname : string; ap_channel_switch : list Z; switched : bool }.

Record sCacStartedNotification := mkCacStarted { csn_ifname : string; cac_duration_sec : Z }.

Record sCacCompletedNotification := mkCacCompleted { ccn_ifname : string; cac_success : Z }.

Record sSwitchChannelRequest := mkRequest {
  scr_ifname : string; scr_channel : Z; scr_freq_type : eFreqType; scr_bandwidth : eWiFiBandwidth }.

Inductive eSwitchChannelReportStatus :=
  | SUCCESS | GENERAL_FAIL | NO_SWITCH_CHANNEL_NOTIFICATION | ANOTHER_SWITCH_IN_PROGRESS
  | CAC_FAILED | CSA_FAILED | NOT_COMPUTED.
#[global] Instance eSwitchChannelReportStatus_eq_dec : EqDecision eSwitchChannelReportStatus.
Proof. solve_decision. Defined.

Record sSwitchChannelReport := mkReport {
  cac_happened : bool;
  original_request : option sSwitchChannelRequest;
  switch_channel_notification : option sSwitchChannelNotification;
  cac_started_notification : option sCacStartedNotification;
  cac_completed_notification : option sCacCompletedNotification;
  report_status : eSwitchChannelReportStatus;
}.

Definition compute_switch_channel_report_status (r : sSwitchChannelReport) :
    eSwitchChannelReportStatus :=
  if negb (bool_decide (report_status r = NOT_COMPUTED)) then report_status r
  else match switch_channel_notification r, cac_started_notification r,
             cac_completed_notification r with
       | None, None, None => NOT_COMPUTED
       | n, _, c =>
           if cac_happened r then
             match c with
             | None => NOT_COMPUTED
             | Some c => if negb (cac_success c =? 1) then CAC_FAILED else SUCCESS
             end
           else
             match n with
             | None => NO_SWITCH_CHANNEL_NOTIFICATION
             | Some n => if negb (switched n) then CSA_FAILED else SUCCESS
             end
       end.

(** What the [std::shared_ptr<void>] of an event points to. *)
Inductive event_obj :=
  | ObjDuration (d : sSwitchChannelDurationTime)
  | ObjNotification (n : sSwitchChannelNotification)
  | ObjCacStarted (c : sCacStartedNotification)
  | ObjCacCompleted (c : sCacCompletedNotification)
  | ObjRequest (r : sSwitchChannelRequest)
  | ObjReport (r : sSwitchChannelReport).

(** ** The pool *)

Inductive eTaskType :=
  | AP_AUTOCONFIGURATION | CAC_MANAGEMENT_TASK | CAC_TASK | CAPABILITY_REPORTING | CHANNEL_SCAN
  | CHANNEL_SELECTION | LINK_METRICS_COLLECTION | SWITCH_CHANNEL | TOPOLOGY | TRAFFIC_SEPARATION
  | SERVICE_PRIORITIZATION | PROXY_AGENT_DPP | CONTROLLER_CONNECTIVITY | VBSS | SPECTRUM_INQUIRY.
#[global] Instance eTaskType_eq_dec : EqDecision eTaskType.
Proof. solve_decision. Defined.

Notation queued := (eTaskEvent * option event_obj)%type.

(** The state the tasks work on holds [m_event_queue]. *)
Class EventQueue (S : Type) := {
  m_event_queue : S → list queued;
  set_event_queue : list queued → S → S;
  event_queue_set : ∀ q s, m_event_queue (set_event_queue q s) = q;
}.

(** [send_event(eTaskEvent, std::shared_ptr<void>)]. *)
Definition send_event {S} `{EventQueue S} (event : eTaskEvent) (obj : option event_obj) : stM S unit :=
  modify (λ s, set_event_queue (m_event_queue s ++ [(event, obj)]) s).

Section Pool.
Context {S M : Type} `{!EventQueue S}.

Record Task := mkTask {
  get_task_type : eTaskType;
  get_task_event_list : list eTaskEvent;
  work : faultM S unit;
  handle_event : eTaskEvent → option event_obj → faultM S unit;
  task_handle_cmdu : M → faultM S bool;
}.

(** Both members are hash tables: the lists give their iteration order. *)
Record TaskPool := mkTaskPool {
  m_task_pool : list (eTaskType * Task);
  m_event_to_tasks_map : list (eTaskEvent * Task);
}.

Definition add_task_no_events (t : Task) (p : TaskPool) : TaskPool :=
  mkTaskPool (filter (λ e, e.1 ≠ get_task_type t) (m_task_pool p) ++ [(get_task_type t, t)])
    (m_event_to_tasks_map p).

Definition add_task (t : Task) (p : TaskPool) : TaskPool :=
  add_task_no_events t
    (mkTaskPool (m_task_pool p)
       (m_event_to_tasks_map p ++ ((λ e, (e, t)) <$> get_task_event_list t))).

(** [equal_range]. *)
Definition tasks_of (p : TaskPool) (event : eTaskEvent) : list Task :=
  snd <$> filter (λ e, e.1 = event) (m_event_to_tasks_map p).

Fixpoint deliver (tasks : list Task) (event : eTaskEvent) (obj : option event_obj) :
    faultM S unit :=
  match tasks with
  | [] => fret tt
  | t :: tasks' => _ <- handle_event t event obj ;; deliver tasks' event obj
  end.

(** One turn of the loop that empties the queue. *)
Definition dispatch (p : TaskPool) (event : eTaskEvent) (obj : option event_obj) :
    faultM S unit :=
  _ <- deliver (tasks_of p event) event obj ;;
  modify (λ s, set_event_queue (tail (m_event_queue s)) s) ;; fret tt.

(** How a loop ends: with the queue empty, with undefined behaviour, or not
    within the turns given. *)
Inductive outcome := Emptied (s : S) | Faulted (s : S) | Running (s : S).

Fixpoint run_queue (turns : nat) (p : TaskPool) (s : S) : outcome :=
  match m_event_queue s with
  | [] => Emptied s
  | (event, obj) :: _ =>
      match turns with
      | O => Running s
      | Datatypes.S n =>
          match dispatch p event obj s with
          | (Some _, s') => run_queue n p s'
          | (None, s') => Faulted s'
          end
      end
  end.

(** The second part of [run_tasks]: [expired] answers whether the deadline
    has passed, once before each task. *)
Fixpoint run_work (tasks : list (eTaskType * Task)) (expired : nat → bool) : faultM S nat :=
  match tasks with
  | [] => fret 0%nat
  | (_, t) :: tasks' =>
      if expired 0%nat then fret 0%nat
      else _ <- work t ;;
           n <- run_work tasks' (λ i, expired (Datatypes.S i)) ;;
           fret (Datatypes.S n)
  end.

(** [run_tasks]: the number of tasks whose [work] ran. *)
Definition run_tasks (turns : nat) (expired : nat → bool) (p : TaskPool) (s : S) : outcome * nat :=
  match run_queue turns p s with
  | Emptied s' =>
      match run_work (m_task_pool p) expired s' with
      | (Some n, s'') => (Emptied s'', n)
      | (None, s'') => (Faulted s'', 0%nat)
      end
  | r => (r, 0%nat)
  end.

(** [handle_cmdu]: the first task that handles the message takes it. *)
Fixpoint cmdu_tasks (tasks : list (eTaskType * Task)) (msg : M) : faultM S bool :=
  match tasks with
  | [] => fret false
  | (_, t) :: tasks' =>
      b <- task_handle_cmdu t msg ;;
      if (b : bool) then fret true else cmdu_tasks tasks' msg
  end.

Definition pool_handle_cmdu (p : TaskPool) (msg : M) : faultM S bool :=
  cmdu_tasks (m_task_pool p) msg.

(** ** Lemmas *)

Lemma deliver_app l1 l2 event obj s : deliver (l1 ++ l2) event obj s =
  match deliver l1 event obj s with (Some _, s1) => deliver l2 event obj s1 | (None, s1) => (None, s1) end.
Proof.
  revert s. induction l1 as [|t l1 IH]; intros s; cbn [app deliver]; st_run; [done|].
  destruct (handle_event t event obj s) as [[[]|] s1]; cbn [fst snd]; [apply IH|done].
Qed.

Lemma deliver_one t event obj s : deliver [t] event obj s =
  match handle_event t event obj s with (Some _, s1) => (Some tt, s1) | (None, s1) => (None, s1) end.
Proof. cbn [deliver]. st_run. by destruct (handle_event t event obj s) as [[[]|] s1]; cbn; st_run. Qed.

Lemma run_queue_Emptied turns p s s' : run_queue turns p s = Emptied s' → m_event_queue s' = [].
Proof.
  revert s. induction turns as [|n IH]; intros s; cbn;
    destruct (m_event_queue s) as [|[ev o] q] eqn:Hq; try (by intros [= <-]).
  destruct (dispatch p ev o s) as [[[]|] s1]; [apply IH|done].
Qed.

(** A measure that every turn decreases bounds the number of turns. *)
Lemma run_queue_measure p (I : S → Prop) (mu : S → nat) :
  (∀ s event obj q s', I s → m_event_queue s = (event, obj) :: q →
     dispatch p event obj s = (Some tt, s') → I s' ∧ (mu s' < mu s)%nat) →
  (∀ s, m_event_queue s ≠ [] → 0 < mu s)%nat →
  ∀ turns s, I s → (mu s ≤ turns)%nat →
  (∃ s', run_queue turns p s = Emptied s' ∧ I s') ∨ (∃ s', run_queue turns p s = Faulted s').
Proof.
  intros Hstep Hpos. induction turns as [|n IH]; intros s HI Hmu; cbn;
    destruct (m_event_queue s) as [|[ev o] q] eqn:Hq; try (left; by exists s).
  - specialize (Hpos s). rewrite Hq in Hpos. specialize (Hpos ltac:(done)). lia.
  - destruct (dispatch p ev o s) as [[[]|] s'] eqn:Hd; [|right; by exists s'].
    destruct (Hstep s ev o q s' HI Hq Hd) as [HI' Hlt]. apply IH; [done|]. lia.
Qed.

Lemma run_work_count tasks expired s n s' :
  run_work tasks expired s = (Some n, s') →
  n = length (take n tasks) ∧ (∀ i, (i < n)%nat → expired i = false) ∧
  ((n < length tasks)%nat → expired n = true).
Proof.
  revert expired s n s'. induction tasks as [|[ty t] tasks IH]; intros expired s n s'; cbn [run_work].
  { st_run. intros [= <- <-]. split_and!; [done|lia|cbn; lia]. }
  destruct (expired 0%nat) eqn:H0; st_run.
  { intros [= <- <-]. split_and!; [done|lia|done]. }
  destruct (work t s) as [[[]|] s1]; cbn [fst snd]; [|done].
  destruct (run_work tasks _ s1) as [[m|] s2] eqn:Hr; cbn [fst snd]; st_run; [|done].
  intros [= <- <-]. apply IH in Hr as (Hl & Hlt & Hge). split_and!.
  - cbn. by f_equal.
  - intros [|i] Hi; [done|]. apply Hlt. lia.
  - cbn. intros Hm. apply Hge. lia.
Qed.

(** [run_tasks] runs the tasks in the order of the pool up to the first
    check that finds the deadline passed, and no other: whatever the previous
    call left undone, the next one starts with the same task again. *)
Theorem run_tasks_starts_over turns expired p s s' n :
  run_tasks turns expired p s = (Emptied s', n) →
  (n ≤ length (m_task_pool p))%nat ∧ (∀ i, (i < n)%nat → expired i = false) ∧
  ((n < length (m_task_pool p))%nat → expired n = true).
Proof.
  unfold run_tasks. destruct (run_queue turns p s) as [s1| |]; [|done..].
  destruct (run_work (m_task_pool p) expired s1) as [[m|] s2] eqn:Hr; [|done]. intros [= <- <-].
  apply run_work_count in Hr as (Hl & Hlt & Hge). split; [|done].
  rewrite Hl, length_take. lia.
Qed.

End Pool.
Arguments Task : clear implicits.
Arguments TaskPool : clear implicits.
Arguments outcome : clear implicits.

(** The status of a report: one that was set is kept; otherwise it is a
    success exactly when the CAC that happened completed with success, or
    the switch without a CAC was notified as done; a missing notification is
    never a success. *)
Theorem report_success_iff r : report_status r = NOT_COMPUTED →
  compute_switch_channel_report_status r = SUCCESS ↔
  (cac_happened r = true ∧ ∃ c, cac_completed_notification r = Some c ∧ cac_success c = 1) ∨
  (cac_happened r = false ∧ ∃ n, switch_channel_notification r = Some n ∧ switched n = true).
Proof.
  intros Hst. unfold compute_switch_channel_report_status.
  rewrite (bool_decide_true (report_status r = NOT_COMPUTED)) by done. cbn [negb].
  destruct (cac_happened r).
  - transitivity (∃ c, cac_completed_notification r = Some c ∧ cac_success c = 1); [|naive_solver].
    destruct (switch_channel_notification r), (cac_started_notification r),
      (cac_completed_notification r) as [cc|]; try destruct (Z.eqb_spec (cac_success cc) 1);
      (split; [intros; simplify_eq/=; eauto|intros (? & ? & ?); simplify_eq/=; congruence]).
  - transitivity (∃ n, switch_channel_notification r = Some n ∧ switched n = true); [|naive_solver].
    destruct (switch_channel_notification r) as [nt|], (cac_started_notification r),
      (cac_completed_notification r); try destruct (switched nt) eqn:Hsw;
      (split; [intros; simplify_eq/=; eauto|intros (? & ? & ?); simplify_eq/=; congruence]).
Qed.
