(* ===== verification/AgentEnv.v ===== *)
(** * What the agent's tasks share

    The radio records of the agent database the tasks read, the answers of the
    backhaul manager, the messages the tasks send towards the driver, and the
    queue of the task pool. *)

From S2P Require Import Prelude Wire Channels WifiChannel TaskPool.

(** The members of [AgentDB::sRadio] the tasks use. *)
Record sRadio := mkRadio {
  front_iface_name : string;
  front_iface_mac : sMacAddr;
  channels_list : list Z;
  radio_wifi_channel : WifiChannel;
}.

(** What a task finds while it handles one event: the time, in nanoseconds,
    whether the socket to the agent exists, whether a message can be built in
    the transmit buffer and sent, and the radios of the database. *)
Record AgentEnv := mkAgentEnv {
  now : Z;
  agent_fd_valid : bool;
  create_vs_message : bool;
  send_cmdu : bool;
  radio : string → option sRadio;
  get_radio_by_mac : sMacAddr → option sRadio;
}.

Definition seconds (n : Z) : Z := n * 1000000000.

(** [cs_params] of the switch and cancel requests. *)
Record cs_params := mkCsParams {
  cs_channel : Z; cs_bandwidth : eWiFiBandwidth; cs_vht_center_frequency : Z; cs_ext_above_primary : Z }.

Inductive driver_msg :=
  | HOSTAP_CHANNEL_SWITCH_ACS_START (radio_mac : sMacAddr) (p : cs_params)
  | HOSTAP_CANCEL_ACTIVE_CAC_REQUEST (radio_mac : sMacAddr) (p : cs_params)
  | CHANNELS_LIST_REQUEST (radio_mac : sMacAddr)
  | ACK_TO_CONTROLLER (mid : Z).

(** The event queue, the messages sent, and the [last_switch_channel_request]
    of each radio. *)
Record Bus := mkBus {
  bus_queue : list queued;
  bus_driver : list driver_msg;
  last_switch_channel_request : gmap string sSwitchChannelRequest;
}.

#[global] Instance bus_event_queue : EventQueue Bus := {
  m_event_queue := bus_queue;
  set_event_queue q b := mkBus q (bus_driver b) (last_switch_channel_request b);
  event_queue_set _ _ := eq_refl;
}.

Definition push_driver (m : driver_msg) (b : Bus) : Bus :=
  mkBus (bus_queue b) (bus_driver b ++ [m]) (last_switch_channel_request b).

Definition push_event (ev : eTaskEvent) (obj : event_obj) (b : Bus) : Bus :=
  mkBus (bus_queue b ++ [(ev, Some obj)]) (bus_driver b) (last_switch_channel_request b).
