(* ===== verification/SwitchChannel.v ===== *)
(** * The switch channel task

    [SwitchChannelFsm] and [SwitchChannelTask]
    ([agent/src/beerocks/slave/tasks/switch_channel_task.cpp]): one state
    machine per interface that asks the driver for a channel switch, follows
    the channel switch announcement (CSA) and channel availability check (CAC)
    notifications, and reports the outcome to the other tasks. *)

From S2P Require Import Prelude Wire Channels WifiChannel TaskPool AgentEnv Fsm.

Module switch_channel.

Inductive fsm_state := IDLE | WAIT_FOR_SWITCH_CHANNEL_NOTIFICATION | WAIT_FOR_CAC_COMPLETED | ERROR.
#[global] Instance fsm_state_eq_dec : EqDecision fsm_state.
Proof. solve_decision. Defined.
Inductive fsm_event := SWITCH_CHANNEL_REQUEST | CSA | CAC_STARTED | CAC_COMPLETED | PERIODIC.
#[global] Instance fsm_event_eq_dec : EqDecision fsm_event.
Proof. solve_decision. Defined.

(** What the [const void *] of an event points to: a shared pointer of one of
    these types, or nothing. *)
Inductive fsm_args :=
  | NoArgs
  | ArgRequest (r : option sSwitchChannelRequest)
  | ArgNotification (n : option sSwitchChannelNotification)
  | ArgCacStarted (c : option sCacStartedNotification)
  | ArgCacCompleted (c : option sCacCompletedNotification).

(** The members of [SwitchChannelFsm]. *)
Record Members := mkMembers {
  m_ifname : string;
  m_switch_channel_request : option sSwitchChannelRequest;
  m_switch_channel_notification : option sSwitchChannelNotification;
  m_cac_started_notification : option sCacStartedNotification;
  m_cac_completed_notification : option sCacCompletedNotification;
  m_max_wait_for_switch_channel_notification_sec : Z;
  m_wait_for_switch_channel_notification_time_point : Z;
  m_max_wait_for_cac_completed_sec : Z;
  m_cac_started_time_point : Z;
}.

Definition DEFAULT_WAIT_FOR_SWITCH_CHANNEL_NOTIFICATION : Z := 2.

(** The machine's members and what it shares with the other tasks. *)
Record Obj := mkObj { members : Members; bus : Bus }.

Definition on_members (f : Members → Members) : faultM Obj unit :=
  modify (λ o, mkObj (f (members o)) (bus o)) ;; fret tt.
Definition on_bus (f : Bus → Bus) : faultM Obj unit :=
  modify (λ o, mkObj (members o) (f (bus o))) ;; fret tt.
Definition get {A} (f : Members → A) : faultM Obj A := λ o, (Some (f (members o)), o).

Definition set_request r (m : Members) : Members :=
  mkMembers (m_ifname m) r (m_switch_channel_notification m) (m_cac_started_notification m)
    (m_cac_completed_notification m) (m_max_wait_for_switch_channel_notification_sec m)
    (m_wait_for_switch_channel_notification_time_point m) (m_max_wait_for_cac_completed_sec m)
    (m_cac_started_time_point m).
Definition set_notification n (m : Members) : Members :=
  mkMembers (m_ifname m) (m_switch_channel_request m) n (m_cac_started_notification m)
    (m_cac_completed_notification m) (m_max_wait_for_switch_channel_notification_sec m)
    (m_wait_for_switch_channel_notification_time_point m) (m_max_wait_for_cac_completed_sec m)
    (m_cac_started_time_point m).
Definition set_cac_started c (m : Members) : Members :=
  mkMembers (m_ifname m) (m_switch_channel_request m) (m_switch_channel_notification m) c
    (m_cac_completed_notification m) (m_max_wait_for_switch_channel_notification_sec m)
    (m_wait_for_switch_channel_notification_time_point m) (m_max_wait_for_cac_completed_sec m)
    (m_cac_started_time_point m).
Definition set_cac_completed c (m : Members) : Members :=
  mkMembers (m_ifname m) (m_switch_channel_request m) (m_switch_channel_notification m)
    (m_cac_started_notification m) c (m_max_wait_for_switch_channel_notification_sec m)
    (m_wait_for_switch_channel_notification_time_point m) (m_max_wait_for_cac_completed_sec m)
    (m_cac_started_time_point m).
Definition set_wait_start t (m : Members) : Members :=
  mkMembers (m_ifname m) (m_switch_channel_request m) (m_switch_channel_notification m)
    (m_cac_started_notification m) (m_cac_completed_notification m)
    (m_max_wait_for_switch_channel_notification_sec m) t (m_max_wait_for_cac_completed_sec m)
    (m_cac_started_time_point m).
Definition set_max_cac d (m : Members) : Members :=
  mkMembers (m_ifname m) (m_switch_channel_request m) (m_switch_channel_notification m)
    (m_cac_started_notification m) (m_cac_completed_notification m)
    (m_max_wait_for_switch_channel_notification_sec m)
    (m_wait_for_switch_channel_notification_time_point m) d (m_cac_started_time_point m).
Definition set_cac_start t (m : Members) : Members :=
  mkMembers (m_ifname m) (m_switch_channel_request m) (m_switch_channel_notification m)
    (m_cac_started_notification m) (m_cac_completed_notification m)
    (m_max_wait_for_switch_channel_notification_sec m)
    (m_wait_for_switch_channel_notification_time_point m) (m_max_wait_for_cac_completed_sec m) t.

Definition reset (m : Members) : Members :=
  mkMembers (m_ifname m) None None None None DEFAULT_WAIT_FOR_SWITCH_CHANNEL_NOTIFICATION
    (m_wait_for_switch_channel_notification_time_point m) (m_max_wait_for_cac_completed_sec m)
    (m_cac_started_time_point m).

(** [m_task_pool.send_event(SWITCH_CHANNEL_REPORT, ...)]. *)
Definition send_report (r : sSwitchChannelReport) : faultM Obj unit :=
  on_bus (push_event TaskPool.SWITCH_CHANNEL_REPORT (ObjReport r)).

(** ** Handlers *)

(** The parameters written to the request, or a failure. *)
Definition load_switch_channel_request_to_cmdu_tx (e : AgentEnv) (r : sSwitchChannelRequest) :
    option cs_params :=
  if negb (create_vs_message e) then None
  else match table_of (scr_freq_type r) with
       | None => None
       | Some table =>
           let center := match table_find table (scr_channel r) (scr_bandwidth r) with
                         | None => 0
                         | Some c => center_channel c
                         end in
           Some (mkCsParams (scr_channel r) (scr_bandwidth r)
                   (channel_to_freq center (scr_freq_type r)) 0)
       end.

Definition idle_on_request (e : AgentEnv) (dest : fsm_state) (args : fsm_args) :
    faultM Obj (bool * fsm_state) :=
  match args with
  | ArgRequest req =>
      _ <- on_members (set_request req) ;;
      match req with
      | None => fret (true, ERROR)
      | Some r =>
          match load_switch_channel_request_to_cmdu_tx e r with
          | None => fret (true, ERROR)
          | Some p =>
              if negb (agent_fd_valid e) then fret (true, ERROR)
              else
                ifname <- get m_ifname ;;
                match radio e ifname with
                | None => fret (false, dest)
                | Some rd =>
                    if negb (send_cmdu e) then fret (true, ERROR)
                    else
                      _ <- on_bus (push_driver (HOSTAP_CHANNEL_SWITCH_ACS_START (front_iface_mac rd) p)) ;;
                      _ <- on_members (set_wait_start (now e)) ;;
                      fret (true, dest)
                end
          end
      end
  | _ => fault
  end.

Definition idle_on_csa (dest : fsm_state) (args : fsm_args) : faultM Obj (bool * fsm_state) :=
  match args with
  | ArgNotification n =>
      _ <- send_report (mkReport false None n None None NOT_COMPUTED) ;;
      fret (false, dest)
  | _ => fault
  end.

Definition wait_on_csa (dest : fsm_state) (args : fsm_args) : faultM Obj (bool * fsm_state) :=
  match args with
  | ArgNotification n =>
      _ <- on_members (set_notification n) ;;
      m <- get id ;;
      _ <- send_report (mkReport false (m_switch_channel_request m) (m_switch_channel_notification m)
                          (m_cac_started_notification m) (m_cac_completed_notification m) NOT_COMPUTED) ;;
      _ <- on_members reset ;;
      fret (true, dest)
  | _ => fault
  end.

(** [uint16_t(duration * 1.2f)]. The product in single precision, truncated,
    is 6/5 of the 16-bit duration rounded down; a value above 65535 does not
    convert to [uint16_t]. *)
Definition cac_timeout_sec (duration : Z) : option Z :=
  let d := 6 * duration / 5 in if d <? 65536 then Some d else None.

Definition wait_on_cac_started (e : AgentEnv) (dest : fsm_state) (args : fsm_args) :
    faultM Obj (bool * fsm_state) :=
  match args with
  | ArgCacStarted c =>
      _ <- on_members (set_cac_started c) ;;
      match c with
      | None => fret (true, ERROR)
      | Some c =>
          match cac_timeout_sec (cac_duration_sec c) with
          | None => fault
          | Some d =>
              _ <- on_members (set_max_cac d) ;;
              ifname <- get m_ifname ;;
              _ <- on_bus (push_event SWITCH_CHANNEL_DURATION_TIME (ObjDuration (mkDurationTime ifname d))) ;;
              _ <- on_members (set_cac_start (now e)) ;;
              fret (true, dest)
          end
      end
  | _ => fault
  end.

Definition report_switch_channel_in_progress (dest : fsm_state) (args : fsm_args) :
    faultM Obj (bool * fsm_state) :=
  match args with
  | ArgRequest req =>
      _ <- send_report (mkReport false req None None None ANOTHER_SWITCH_IN_PROGRESS) ;;
      fret (false, dest)
  | _ => fault
  end.

Definition cac_on_completed (dest : fsm_state) (args : fsm_args) : faultM Obj (bool * fsm_state) :=
  match args with
  | ArgCacCompleted c =>
      _ <- on_members (set_cac_completed c) ;;
      m <- get id ;;
      _ <- send_report (mkReport true (m_switch_channel_request m) (m_switch_channel_notification m)
                          (m_cac_started_notification m) (m_cac_completed_notification m) NOT_COMPUTED) ;;
      fret (true, dest)
  | _ => fault
  end.

Definition cac_on_periodic (e : AgentEnv) (dest : fsm_state) (_ : fsm_args) :
    faultM Obj (bool * fsm_state) :=
  m <- get id ;;
  if seconds (m_max_wait_for_cac_completed_sec m) <? now e - m_cac_started_time_point m
  then fret (true, ERROR) else fret (false, dest).

(** The notification is kept in a local variable here. *)
Definition cac_on_csa (dest : fsm_state) (args : fsm_args) : faultM Obj (bool * fsm_state) :=
  match args with
  | ArgNotification n =>
      m <- get id ;;
      _ <- send_report (mkReport false (m_switch_channel_request m) n None None NOT_COMPUTED) ;;
      _ <- on_members reset ;;
      fret (true, dest)
  | _ => fault
  end.

Definition error_on_periodic (dest : fsm_state) (_ : fsm_args) : faultM Obj (bool * fsm_state) :=
  m <- get id ;;
  _ <- send_report (mkReport false (m_switch_channel_request m) (m_switch_channel_notification m)
                      (m_cac_started_notification m) (m_cac_completed_notification m) NOT_COMPUTED) ;;
  fret (true, dest).

Definition entry_reset (_ : fsm_args) : faultM Obj bool :=
  _ <- on_members reset ;; fret true.

Definition state_handler (e : AgentEnv) (q : fsm_state) :
    StateHandler fsm_state fsm_event fsm_args Obj :=
  match q with
  | IDLE => mkStateHandler IDLE (Some entry_reset) None [
      mkEventHandler SWITCH_CHANNEL_REQUEST [WAIT_FOR_SWITCH_CHANNEL_NOTIFICATION; ERROR]
        (Some (idle_on_request e));
      mkEventHandler CSA [ERROR] (Some idle_on_csa);
      mkEventHandler PERIODIC [IDLE] None]
  | WAIT_FOR_SWITCH_CHANNEL_NOTIFICATION =>
      mkStateHandler WAIT_FOR_SWITCH_CHANNEL_NOTIFICATION (Some entry_reset) None [
      mkEventHandler CSA [IDLE; ERROR] (Some wait_on_csa);
      mkEventHandler CAC_STARTED [WAIT_FOR_CAC_COMPLETED; ERROR] (Some (wait_on_cac_started e));
      mkEventHandler SWITCH_CHANNEL_REQUEST [WAIT_FOR_SWITCH_CHANNEL_NOTIFICATION]
        (Some report_switch_channel_in_progress);
      mkEventHandler PERIODIC [WAIT_FOR_SWITCH_CHANNEL_NOTIFICATION] None]
  | WAIT_FOR_CAC_COMPLETED => mkStateHandler WAIT_FOR_CAC_COMPLETED None None [
      mkEventHandler CAC_COMPLETED [IDLE; ERROR] (Some cac_on_completed);
      mkEventHandler SWITCH_CHANNEL_REQUEST [WAIT_FOR_SWITCH_CHANNEL_NOTIFICATION]
        (Some report_switch_channel_in_progress);
      mkEventHandler PERIODIC [ERROR] (Some (cac_on_periodic e));
      mkEventHandler CSA [IDLE; ERROR] (Some cac_on_csa)]
  | ERROR => mkStateHandler ERROR None None [
      mkEventHandler PERIODIC [WAIT_FOR_SWITCH_CHANNEL_NOTIFICATION] (Some error_on_periodic)]
  end.

Definition config_fsm (e : AgentEnv) : fsm_config fsm_state fsm_event fsm_args Obj :=
  state_handler e <$> [IDLE; WAIT_FOR_SWITCH_CHANNEL_NOTIFICATION; WAIT_FOR_CAC_COMPLETED; ERROR].

(** ** The task *)

(** [m_fsms] holds a machine per interface; each works on the shared bus. *)
Record TaskState := mkTaskState {
  m_fsms : gmap string (Fsm fsm_state Members);
  task_bus : Bus;
}.

(** [SwitchChannelFsm::SwitchChannelFsm]: [start] runs the entry of [IDLE]. *)
Definition new_fsm (ifname : string) : Fsm fsm_state Members :=
  mkFsm IDLE true (mkMembers ifname None None None None DEFAULT_WAIT_FOR_SWITCH_CHANNEL_NOTIFICATION
                     0 0 0).

Definition get_fsm_by_ifname (ifname : string) (t : TaskState) : Fsm fsm_state Members :=
  default (new_fsm ifname) (m_fsms t !! ifname).

Definition fire_fsm (e : AgentEnv) (ifname : string) (ev : fsm_event) (args : fsm_args) :
    faultM TaskState bool := λ t,
  let f := get_fsm_by_ifname ifname t in
  let '(r, f') := fire (config_fsm e) ev args
                    (mkFsm (m_curr_state f) (m_started f) (mkObj (fsm_obj f) (task_bus t))) in
  (r, mkTaskState
        (<[ifname := mkFsm (m_curr_state f') (m_started f') (members (fsm_obj f'))]> (m_fsms t))
        (bus (fsm_obj f'))).

Fixpoint fire_all (e : AgentEnv) (names : list string) : faultM TaskState unit :=
  match names with
  | [] => fret tt
  | n :: names' => _ <- fire_fsm e n PERIODIC NoArgs ;; fire_all e names'
  end.

Definition work (e : AgentEnv) : faultM TaskState unit := λ t,
  fire_all e ((in_key_order (m_fsms t)).*1) t.

(** A cast to the wrong type is undefined; a null object is only logged. *)
Definition handle_event (e : AgentEnv) (event : eTaskEvent) (obj : option event_obj) :
    faultM TaskState unit :=
  match obj with
  | None => fret tt
  | Some obj =>
      match event with
      | TaskPool.SWITCH_CHANNEL_REQUEST =>
          match obj with
          | ObjRequest r =>
              _ <- fire_fsm e (scr_ifname r) SWITCH_CHANNEL_REQUEST (ArgRequest (Some r)) ;; fret tt
          | _ => fault
          end
      | SWITCH_CHANNEL_NOTIFICATION_EVENT =>
          match obj with
          | ObjNotification n =>
              _ <- fire_fsm e (scn_ifname n) CSA (ArgNotification (Some n)) ;; fret tt
          | _ => fault
          end
      | CAC_STARTED_NOTIFICATION =>
          match obj with
          | ObjCacStarted c =>
              _ <- fire_fsm e (csn_ifname c) CAC_STARTED (ArgCacStarted (Some c)) ;; fret tt
          | _ => fault
          end
      | CAC_COMPLETED_NOTIFICATION =>
          match obj with
          | ObjCacCompleted c =>
              _ <- fire_fsm e (ccn_ifname c) CAC_COMPLETED (ArgCacCompleted (Some c)) ;; fret tt
          | _ => fault
          end
      | _ => fret tt
      end
  end.

Definition get_task_event_list : list eTaskEvent :=
  [TaskPool.SWITCH_CHANNEL_REQUEST; CAC_STARTED_NOTIFICATION; CAC_COMPLETED_NOTIFICATION;
   SWITCH_CHANNEL_NOTIFICATION_EVENT].

(** ** The machine as a table *)

(** Entering [IDLE] and [WAIT_FOR_SWITCH_CHANNEL_NOTIFICATION] resets. *)
Definition enter (d : fsm_state) (o : Obj) : Obj :=
  match d with
  | IDLE | WAIT_FOR_SWITCH_CHANNEL_NOTIFICATION => mkObj (reset (members o)) (bus o)
  | _ => o
  end.

Definition via (q : fsm_state) (r : option (bool * fsm_state) * Obj) :
    option bool * Fsm fsm_state Obj :=
  match r with
  | (None, o) => (None, mkFsm q true o)
  | (Some (ok, d), o) =>
      (Some true, if ok && negb (bool_decide (d = q)) then mkFsm d true (enter d o) else mkFsm q true o)
  end%bool.

Definition react (e : AgentEnv) (q : fsm_state) (ev : fsm_event) (args : fsm_args) (o : Obj) :
    option bool * Fsm fsm_state Obj :=
  match q, ev with
  | IDLE, SWITCH_CHANNEL_REQUEST =>
      via q (idle_on_request e WAIT_FOR_SWITCH_CHANNEL_NOTIFICATION args o)
  | IDLE, CSA => via q (idle_on_csa ERROR args o)
  | IDLE, PERIODIC | WAIT_FOR_SWITCH_CHANNEL_NOTIFICATION, PERIODIC => (Some true, mkFsm q true o)
  | WAIT_FOR_SWITCH_CHANNEL_NOTIFICATION, CSA => via q (wait_on_csa IDLE args o)
  | WAIT_FOR_SWITCH_CHANNEL_NOTIFICATION, CAC_STARTED =>
      via q (wait_on_cac_started e WAIT_FOR_CAC_COMPLETED args o)
  | WAIT_FOR_SWITCH_CHANNEL_NOTIFICATION, SWITCH_CHANNEL_REQUEST
  | WAIT_FOR_CAC_COMPLETED, SWITCH_CHANNEL_REQUEST =>
      via q (report_switch_channel_in_progress WAIT_FOR_SWITCH_CHANNEL_NOTIFICATION args o)
  | WAIT_FOR_CAC_COMPLETED, CAC_COMPLETED => via q (cac_on_completed IDLE args o)
  | WAIT_FOR_CAC_COMPLETED, PERIODIC => via q (cac_on_periodic e ERROR args o)
  | WAIT_FOR_CAC_COMPLETED, CSA => via q (cac_on_csa IDLE args o)
  | ERROR, PERIODIC => via q (error_on_periodic WAIT_FOR_SWITCH_CHANNEL_NOTIFICATION args o)
  | _, _ => (Some false, mkFsm q true o)
  end.

Lemma switch_after_event e q args d ok o :
  after_event (config_fsm e) (state_handler e q) args q d ok o = via q (Some (ok, d), o).
Proof.
  unfold after_event, via. destruct ok; cbn [negb orb andb]; [|done].
  case_bool_decide; [done|]. by destruct q, d.
Qed.

Lemma switch_fire_cond e q ev args o eh target rest cond :
  find_event (state_handler e q) ev = Some eh → m_allowed_states eh = target :: rest →
  m_cond eh = Some cond →
  (∀ ok d o', cond target args o = (Some (ok, d), o') → ok = true → d ∈ target :: rest) →
  fire (config_fsm e) ev args (mkFsm q true o) = via q (cond target args o).
Proof.
  intros He Ht Hc Hal. assert (find_state (config_fsm e) q = Some (state_handler e q)) as Hh
    by (by destruct q).
  destruct (cond target args o) as [[[ok d]|] o'] eqn:Hr.
  - rewrite (fire_handled _ _ _ _ _ _ eh target rest cond ok d o' Hh He Ht Hc Hr), switch_after_event.
    destruct ok; [|done]. by rewrite (bool_decide_true (d ∈ target :: rest)) by by eapply Hal.
  - by rewrite (fire_fault _ _ _ _ _ _ eh target rest cond o' Hh He Ht Hc Hr).
Qed.

Ltac unfold_handlers :=
  unfold idle_on_request, idle_on_csa, wait_on_csa, wait_on_cac_started,
    report_switch_channel_in_progress, cac_on_completed, cac_on_periodic, cac_on_csa,
    error_on_periodic, send_report, on_members, on_bus, get.

(** Case split on a condition that contains no other one. *)
Ltac split_env :=
  match goal with
  | |- context [match ?x with _ => _ end] =>
      lazymatch x with
      | context [match _ with _ => _ end] => fail
      | _ => lazymatch type of x with prod _ _ => fail | _ => destruct x eqn:? end
      end
  end.

(** What the destination of a handler may be. *)
Ltac run_handler :=
  let ok := fresh in let d := fresh in let o' := fresh in let Hr := fresh in
  intros ok d o' Hr; revert Hr; unfold_handlers; st_run; repeat (case_match; st_run);
  intros; simplify_eq; first [left | right; left].

Lemma switch_fire_react e q ev args o :
  fire (config_fsm e) ev args (mkFsm q true o) = react e q ev args o.
Proof.
  destruct q, ev;
    try (rewrite (fire_unhandled _ _ _ _ _ (state_handler e _)) by reflexivity; reflexivity);
    try (erewrite (fire_plain _ _ _ _ _ (state_handler e _)) by reflexivity; apply switch_after_event);
    (etransitivity; [eapply switch_fire_cond; [reflexivity|reflexivity|reflexivity|run_handler]|reflexivity]).
Qed.

(** ** Theorems *)

(** What one event adds to the queue and to the messages for the driver. *)
Definition effects (q : fsm_state) (ev : fsm_event) (args : fsm_args) (q' : fsm_state)
    (evs : list queued) (msgs : list driver_msg) : Prop :=
  (length evs ≤ 1)%nat ∧ (length msgs ≤ 1)%nat ∧
  (∀ x, x ∈ evs → (∃ r, x = (TaskPool.SWITCH_CHANNEL_REPORT, Some (ObjReport r))) ∨
                  (∃ d, x = (SWITCH_CHANNEL_DURATION_TIME, Some (ObjDuration d)))) ∧
  (msgs ≠ [] ↔ q = IDLE ∧ q' = WAIT_FOR_SWITCH_CHANNEL_NOTIFICATION) ∧
  (q ≠ IDLE → q' = IDLE → ∃ r, evs = [(TaskPool.SWITCH_CHANNEL_REPORT, Some (ObjReport r))]
     ∧ report_status r = NOT_COMPUTED) ∧
  (ev = SWITCH_CHANNEL_REQUEST → q = WAIT_FOR_SWITCH_CHANNEL_NOTIFICATION ∨ q = WAIT_FOR_CAC_COMPLETED →
     q' = q ∧ ∃ r, args = ArgRequest r ∧ evs = [(TaskPool.SWITCH_CHANNEL_REPORT,
       Some (ObjReport (mkReport false r None None None ANOTHER_SWITCH_IN_PROGRESS)))]).

Ltac solve_effects :=
  unfold effects; cbn [length]; split_and!;
    [lia|lia|intros x Hx; rewrite ?elem_of_nil, ?list_elem_of_singleton in Hx; naive_solver
    |split; intros; naive_solver|naive_solver|naive_solver].

Lemma switch_react_effects e q ev args o r f' : react e q ev args o = (r, f') →
  m_started f' = true ∧
  last_switch_channel_request (bus (fsm_obj f')) = last_switch_channel_request (bus o) ∧
  ∃ evs msgs, bus_queue (bus (fsm_obj f')) = bus_queue (bus o) ++ evs ∧
    bus_driver (bus (fsm_obj f')) = bus_driver (bus o) ++ msgs ∧
    (r ≠ None → effects q ev args (m_curr_state f') evs msgs).
Proof.
  destruct o as [m b]. unfold react.
  destruct q, ev; try (destruct args as [|[r1|]|[n1|]|[c1|]|[c1|]]); unfold_handlers; st_run;
    repeat (split_env; st_run); cbn; intros; simplify_eq/=.
  all: split; [reflexivity|]; split; [reflexivity|]; eexists _, _;
    (split; [first [reflexivity | symmetry; apply app_nil_r]|]);
    (split; [first [reflexivity | symmetry; apply app_nil_r]|]); intros Hr;
    first [by destruct Hr | solve_effects].
Qed.

(** What makes an event undefined, other than an argument of another type. *)
Lemma switch_react_fault e q ev args o f' : react e q ev args o = (None, f') →
  match ev, args with
  | SWITCH_CHANNEL_REQUEST, ArgRequest _ | CSA, ArgNotification _ | CAC_STARTED, ArgCacStarted None
  | CAC_COMPLETED, ArgCacCompleted _ | PERIODIC, _ => False
  | CAC_STARTED, ArgCacStarted (Some c) => cac_timeout_sec (cac_duration_sec c) = None
  | _, _ => True
  end.
Proof.
  destruct o as [m b]. unfold react.
  destruct q, ev; try (destruct args as [|[r1|]|[n1|]|[c1|]|[c1|]]); auto;
    unfold_handlers; st_run; repeat (split_env; st_run); cbn; intros; by simplify_eq/=.
Qed.

Lemma cac_timeout_sec_defined d : 0 ≤ d < 54614 → cac_timeout_sec d = Some (6 * d / 5).
Proof.
  intros Hd. unfold cac_timeout_sec. destruct (Z.ltb_spec (6 * d / 5) 65536) as [|Hge]; [done|].
  exfalso. assert (6 * d / 5 < 65536); [|lia]. apply Z.div_lt_upper_bound; lia.
Qed.

(** What one event does: at most one event is queued and at most one
    message sent. The driver is asked for a switch exactly when the machine
    goes from [IDLE] to waiting for the notification; going back to [IDLE]
    queues exactly one report of the outcome; and a request that arrives while
    a switch is under way is refused with a report that carries it and leaves
    the state as it is. *)
Theorem switch_channel_step e ev args q m b r f' :
  fire (config_fsm e) ev args (mkFsm q true (mkObj m b)) = (Some r, f') →
  ∃ evs msgs, bus_queue (bus (fsm_obj f')) = bus_queue b ++ evs ∧
    bus_driver (bus (fsm_obj f')) = bus_driver b ++ msgs ∧
    effects q ev args (m_curr_state f') evs msgs.
Proof.
  rewrite switch_fire_react. intros Hr. apply switch_react_effects in Hr as (_ & _ & evs & msgs & ? & ? & Heff).
  exists evs, msgs. split_and!; [done..|]. by apply Heff.
Qed.

(** A sequence of events, until one is undefined. *)
Fixpoint run_events (l : list (AgentEnv * fsm_event * fsm_args)) (f : Fsm fsm_state Obj) :
    option (Fsm fsm_state Obj) :=
  match l with
  | [] => Some f
  | (e, ev, args) :: l' =>
      match fire (config_fsm e) ev args f with
      | (Some _, f') => run_events l' f'
      | (None, _) => None
      end
  end.

Definition new_machine (ifname : string) : Fsm fsm_state Obj :=
  mkFsm IDLE true (mkObj (fsm_obj (new_fsm ifname)) (mkBus [] [] ∅)).

(** One event of a run: the state it found and left, what it was, and what it
    queued for the other tasks and sent to the driver. *)
Record step := mkStep {
  st_from : fsm_state; st_to : fsm_state; st_event : fsm_event; st_args : fsm_args;
  st_queued : list queued; st_sent : list driver_msg }.

Definition step_of (f : Fsm fsm_state Obj) (ev : fsm_event) (args : fsm_args) (f' : Fsm fsm_state Obj) : step :=
  let b := bus (fsm_obj f) in let b' := bus (fsm_obj f') in
  mkStep (m_curr_state f) (m_curr_state f') ev args
    (drop (length (bus_queue b)) (bus_queue b')) (drop (length (bus_driver b)) (bus_driver b')).

Fixpoint history (l : list (AgentEnv * fsm_event * fsm_args)) (f : Fsm fsm_state Obj) : list step :=
  match l with
  | [] => []
  | (e, ev, args) :: l' =>
      let f' := (fire (config_fsm e) ev args f).2 in step_of f ev args f' :: history l' f'
  end.

(** The event that ends the switch under way: a notification of the driver
    takes the machine back to [IDLE], and the one event that is queued is a
    report that carries the notification. *)
Definition settles (s : step) : Prop :=
  st_from s ≠ IDLE ∧ st_to s = IDLE ∧ ∃ r,
    st_queued s = [(TaskPool.SWITCH_CHANNEL_REPORT, Some (ObjReport r))] ∧ report_status r = NOT_COMPUTED ∧
    (st_event s = CSA ∧ st_args s = ArgNotification (switch_channel_notification r) ∧ cac_happened r = false ∨
     st_event s = CAC_COMPLETED ∧ st_args s = ArgCacCompleted (cac_completed_notification r) ∧
       cac_happened r = true).

(** An event during a switch: the machine does not leave it and asks the driver
    for no other one. *)
Definition continues (s : step) : Prop := st_from s ≠ IDLE ∧ st_to s ≠ IDLE ∧ st_sent s = [].

(** The event that begins one. *)
Definition asks (s : step) : Prop :=
  st_from s = IDLE ∧ st_to s = WAIT_FOR_SWITCH_CHANNEL_NOTIFICATION ∧ st_event s = SWITCH_CHANNEL_REQUEST ∧
  ∃ mac p, st_sent s = [HOSTAP_CHANNEL_SWITCH_ACS_START mac p].

Lemma react_step e q ev args o r f' : react e q ev args o = (Some r, f') →
  let s := step_of (mkFsm q true o) ev args f' in
  m_started f' = true ∧ (st_sent s = [] ∨ asks s) ∧ (q ≠ IDLE → continues s ∨ settles s).
Proof.
  destruct o as [m b]. unfold react.
  destruct q, ev; try (destruct args as [|[r1|]|[n1|]|[c1|]|[c1|]]); unfold_handlers; st_run;
    repeat (split_env; st_run); cbn; intros; simplify_eq/=;
    (split; [reflexivity|]); unfold step_of, asks, continues, settles; cbn; rewrite ?drop_app_length, ?drop_all;
    (split; [first [left; reflexivity | right; repeat split; by eexists _, _]|]);
    intros Hq; first [by destruct Hq | left; by repeat split
      | right; split; [done|]; split; [done|]; eexists; split; [reflexivity|]; cbn; naive_solver].
Qed.

Lemma history_cons e ev args l f f' : m_started f = true → run_events ((e, ev, args) :: l) f = Some f' →
  ∃ s f1, history ((e, ev, args) :: l) f = s :: history l f1 ∧ run_events l f1 = Some f' ∧
    st_from s = m_curr_state f ∧ st_to s = m_curr_state f1 ∧ m_started f1 = true ∧
    (st_sent s = [] ∨ asks s) ∧ (m_curr_state f ≠ IDLE → continues s ∨ settles s).
Proof.
  intros Hst Hrun. destruct f as [q st o]. cbn in Hst. subst st. cbn [run_events history] in *.
  rewrite switch_fire_react in *. destruct (react e q ev args o) as [[r|] f1] eqn:Hr; [|done].
  destruct (react_step _ _ _ _ _ _ _ Hr) as (H1 & H2 & H3). cbn [snd]. eexists _, f1. by split_and!.
Qed.

(** The first end of a switch that is under way. *)
Definition settled_at (h : list step) (j : nat) : Prop :=
  (∃ t, h !! j = Some t ∧ settles t) ∧ ∀ k s, (k < j)%nat → h !! k = Some s → continues s.

Lemma under_way l : ∀ f f', m_started f = true → m_curr_state f ≠ IDLE → run_events l f = Some f' →
  (∃ j, settled_at (history l f) j) ∨ m_curr_state f' ≠ IDLE ∧ Forall continues (history l f).
Proof.
  induction l as [|[[e ev] args] l IH]; intros f f' Hst Hq Hrun.
  { right. cbn in *. by simplify_eq. }
  destruct (history_cons _ _ _ _ _ _ Hst Hrun) as (s & f1 & -> & Hrun1 & _ & Hto & Hst1 & _ & Hcase).
  destruct (Hcase Hq) as [Hc|Hs].
  - destruct (IH f1 f' Hst1 ltac:(rewrite <- Hto; apply Hc) Hrun1) as [(j & Hj & Hbefore)|[H1 H2]].
    + left. exists (S j). split; [done|]. intros [|k] x Hk Hx; [by injection Hx as <-|]. apply (Hbefore k x); [lia|done].
    + right. split; [done|]. by constructor.
  - left. exists 0%nat. split; [by exists s|]. lia.
Qed.

Lemma drop_history l : ∀ i f f' s, m_started f = true → run_events l f = Some f' → history l f !! i = Some s →
  st_sent s ≠ [] → asks s ∧ ∃ f1 l1, m_started f1 = true ∧ m_curr_state f1 = st_to s ∧
    drop (S i) (history l f) = history l1 f1 ∧ run_events l1 f1 = Some f'.
Proof.
  induction l as [|[[e ev] args] l IH]; intros i f f' s Hst Hrun Hi Hsent; [done|].
  destruct (history_cons _ _ _ _ _ _ Hst Hrun) as (s0 & f1 & Heq & Hrun1 & _ & Hto & Hst1 & Hs & _).
  rewrite Heq in Hi |- *. destruct i as [|i].
  - injection Hi as ->. destruct Hs as [?|Hs]; [done|]. split; [done|]. by exists f1, l.
  - exact (IH i f1 f' s Hst1 Hrun1 Hi Hsent).
Qed.

(** C36: Every switch is followed by the report of its outcome. In any run of a
    new machine, with any events and answers of the environment, an event that
    sends anything to the driver is a request in [IDLE] and sends one command for
    a switch; and of the events after it, either all leave the switch under way,
    with no other command, up to the end of the run, or they do so up to a first
    one at which a notification of the driver, a CSA or the completion of a CAC,
    takes the machine back to [IDLE] and the report that carries this notification
    is queued. A report queued in [IDLE] or in [ERROR], or the refusal of another
    request, does not count as an end. *)
Theorem switches_are_reported l ifname f i s : run_events l (new_machine ifname) = Some f →
  history l (new_machine ifname) !! i = Some s → st_sent s ≠ [] →
  let after := drop (S i) (history l (new_machine ifname)) in
  asks s ∧ ((∃ j, settled_at after j) ∨ m_curr_state f ≠ IDLE ∧ Forall continues after).
Proof.
  intros Hrun Hi Hs after.
  destruct (drop_history l i (new_machine ifname) f s eq_refl Hrun Hi Hs) as (Ha & f1 & l1 & Hst1 & Hq & Hd & Hrun1).
  split; [done|]. unfold after. rewrite Hd. apply under_way; [done| |done].
  rewrite Hq. destruct Ha as (_ & -> & _). done.
Qed.

(** A switch to a channel that needs a CAC: the driver gets the centre
    frequency of the table entry, the other tasks are told to wait 6/5 of the
    announced duration, and the completion is reported with both CAC
    notifications, the status being [SUCCESS] exactly when the CAC succeeded,
    after which the machine is [IDLE] and empty again. The report does not
    carry the request: entering the wait forgets it. *)
Theorem switch_with_cac e1 e2 e3 r t c rd m b cs cc :
  table_of (scr_freq_type r) = Some t → table_find t (scr_channel r) (scr_bandwidth r) = Some c →
  create_vs_message e1 = true → agent_fd_valid e1 = true → send_cmdu e1 = true →
  radio e1 (m_ifname m) = Some rd → 0 ≤ cac_duration_sec cs < 54614 →
  let d := 6 * cac_duration_sec cs / 5 in
  let report := mkReport true None None (Some cs) (Some cc) NOT_COMPUTED in
  ∃ m', run_events [(e1, SWITCH_CHANNEL_REQUEST, ArgRequest (Some r)); (e2, CAC_STARTED, ArgCacStarted (Some cs));
              (e3, CAC_COMPLETED, ArgCacCompleted (Some cc))] (mkFsm IDLE true (mkObj m b))
  = Some (mkFsm IDLE true (mkObj (reset m')
      (mkBus (bus_queue b ++ [(SWITCH_CHANNEL_DURATION_TIME, Some (ObjDuration (mkDurationTime (m_ifname m) d)));
                              (TaskPool.SWITCH_CHANNEL_REPORT, Some (ObjReport report))])
             (bus_driver b ++ [HOSTAP_CHANNEL_SWITCH_ACS_START (front_iface_mac rd)
                (mkCsParams (scr_channel r) (scr_bandwidth r)
                   (channel_to_freq (center_channel c) (scr_freq_type r)) 0)])
             (last_switch_channel_request b))))
  ∧ compute_switch_channel_report_status report = (if cac_success cc =? 1 then SUCCESS else CAC_FAILED).
Proof.
  intros Ht Hc Hv Hfd Hs Hrd Hd d report. unfold run_events. rewrite switch_fire_react. cbn [react].
  assert (idle_on_request e1 WAIT_FOR_SWITCH_CHANNEL_NOTIFICATION (ArgRequest (Some r)) (mkObj m b)
    = (Some (true, WAIT_FOR_SWITCH_CHANNEL_NOTIFICATION),
       mkObj (set_wait_start (now e1) (set_request (Some r) m)) (push_driver
         (HOSTAP_CHANNEL_SWITCH_ACS_START (front_iface_mac rd)
           (mkCsParams (scr_channel r) (scr_bandwidth r)
              (channel_to_freq (center_channel c) (scr_freq_type r)) 0)) b))) as ->.
  { unfold_handlers. unfold load_switch_channel_request_to_cmdu_tx. rewrite Hv, Ht, Hc, Hfd. cbn [negb].
    st_run. cbn [members m_ifname set_request]. rewrite Hrd, Hs. by st_run. }
  unfold via. cbn [andb negb]. rewrite bool_decide_false by done. cbn [negb enter members bus].
  rewrite switch_fire_react. cbn [react].
  pose proof (cac_timeout_sec_defined _ Hd) as Htm.
  unfold wait_on_cac_started, on_members, on_bus, get. rewrite Htm. st_run.
  unfold via. cbn [andb]. rewrite bool_decide_false by done. cbn [negb enter].
  rewrite switch_fire_react. cbn [react]. unfold cac_on_completed, send_report, on_members, on_bus, get. st_run.
  unfold via. cbn [andb]. rewrite bool_decide_false by done. cbn [negb enter].
  eexists (set_cac_completed (Some cc) _). split.
  - unfold push_event, push_driver. cbn [bus members bus_queue bus_driver last_switch_channel_request].
    rewrite <- app_assoc. reflexivity.
  - unfold compute_switch_channel_report_status, report. cbn [report_status].
    rewrite bool_decide_true by done. cbn. by destruct (cac_success cc =? 1).
Qed.

Lemma run_events_periodic es f : m_started f = true →
  m_curr_state f = WAIT_FOR_SWITCH_CHANNEL_NOTIFICATION →
  run_events ((λ e, (e, PERIODIC, NoArgs)) <$> es) f = Some f.
Proof.
  intros Hst Hq. destruct f as [q st o]. cbn in Hst, Hq. subst. induction es as [|e es IH]; [done|].
  cbn [fmap list_fmap run_events]. rewrite switch_fire_react. exact IH.
Qed.

(** A driver that does not answer blocks the interface: once the machine
    waits for the notification, no amount of time ends the wait, and every
    later request is refused. A CAC that times out leads there too: after the
    error is reported the machine waits for a notification again instead of
    being [IDLE]. *)
Theorem silent_driver_blocks_interface es e r m b :
  (let f := mkFsm WAIT_FOR_SWITCH_CHANNEL_NOTIFICATION true (mkObj m b) in
   run_events ((λ e, (e, PERIODIC, NoArgs)) <$> es) f = Some f ∧
   ∃ b', run_events (((λ e, (e, PERIODIC, NoArgs)) <$> es) ++ [(e, SWITCH_CHANNEL_REQUEST, ArgRequest r)]) f
     = Some (mkFsm WAIT_FOR_SWITCH_CHANNEL_NOTIFICATION true (mkObj m b')) ∧
     bus_driver b' = bus_driver b) ∧
  (seconds (m_max_wait_for_cac_completed_sec m) < now e - m_cac_started_time_point m →
   ∃ b', run_events [(e, PERIODIC, NoArgs); (e, PERIODIC, NoArgs)]
           (mkFsm WAIT_FOR_CAC_COMPLETED true (mkObj m b))
     = Some (mkFsm WAIT_FOR_SWITCH_CHANNEL_NOTIFICATION true (mkObj (reset m) b'))).
Proof.
  split.
  - intros f. split; [by apply run_events_periodic|]. eexists. split.
    + assert (∀ l1 l2 f0 f1, run_events l1 f0 = Some f1 → run_events (l1 ++ l2) f0 = run_events l2 f1) as Happ.
      { induction l1 as [|[[e0 ev0] a0] l1 IH]; intros l2 f0 f1; cbn [run_events app]; [by intros [= ->]|].
        destruct (fire _ _ _ f0) as [[?|] ?]; [apply IH|done]. }
      rewrite (Happ _ _ f f); [|by apply run_events_periodic]. unfold f. cbn [run_events].
      rewrite switch_fire_react. reflexivity.
    + reflexivity.
  - intros Hlt. cbn [run_events]. rewrite switch_fire_react. cbn [react]. unfold cac_on_periodic, get. st_run.
    cbn [members id]. rewrite (proj2 (Z.ltb_lt _ _)) by done. st_run. unfold via. cbn [andb].
    rewrite bool_decide_false by done. cbn [negb enter]. rewrite switch_fire_react. eexists. reflexivity.
Qed.

End switch_channel.
