(* ===== verification/CoordinatedCac.v ===== *)
(** * The coordinated CAC task

    [CacFsm] and [CoordinatedCacTask]
    ([agent/src/beerocks/slave/tasks/coordinated_cac_task.cpp]): on a CAC
    request of the controller the machine asks the switch channel task for the
    channel, waits for its report, and, when told to, switches back to the
    original channel; the controller can terminate the CAC. *)

From S2P Require Import Prelude Wire Channels WifiChannel TaskPool AgentEnv Fsm.

Module coordinated_cac.

Inductive fsm_state :=
  | IDLE | WAIT_FOR_SWITCH_CHANNEL_REPORT | WAIT_FOR_SWITCH_BACK_TO_ORIGINAL_CHANNEL_REPORT
  | WAIT_FOR_CAC_TERMINATION | ERROR.
#[global] Instance fsm_state_eq_dec : EqDecision fsm_state.
Proof. solve_decision. Defined.
Inductive fsm_event :=
  | CAC_REQUEST | CAC_TERMINATION_REQUEST | CAC_TERMINATION_RESPONSE | SWITCH_CHANNEL_REPORT
  | SWITCH_CHANNEL_DURATION_TIME | PERIODIC | CAC_COMPLETED_NOTIFICATION | CAC_STARTED_NOTIFICATION.
#[global] Instance fsm_event_eq_dec : EqDecision fsm_event.
Proof. solve_decision. Defined.

(** ** TLVs of the requests *)

(** [tlvProfile2CacRequest::sCacRequestRadio]; the completion action is a
    field of two bits. *)
Record sCacRequestRadio := mkCacRequestRadio {
  radio_uid : sMacAddr;
  operating_class : Z;
  cac_channel : Z;
  cac_method : Z;
  cac_completion_action : Z;
}.
Definition CONTINUOUS_CAC : Z := 0.
Definition REMAIN_ON_CHANNEL : Z := 0.
Definition RETURN_PREVIOUS_CHANNEL : Z := 1.

Record sCacTerminationRadio := mkCacTerminationRadio {
  term_radio_uid : sMacAddr; term_operating_class : Z; term_channel : Z }.

Inductive fsm_args :=
  | NoArgs
  | ArgCacRequest (cac_radios : option (list sCacRequestRadio))
  | ArgCacTermination (cac_radios : option (list sCacTerminationRadio))
  | ArgSuccess (success : option Z)
  | ArgReport (r : sSwitchChannelReport)
  | ArgDuration (d : sSwitchChannelDurationTime)
  | ArgCacStarted (c : sCacStartedNotification)
  | ArgCacCompleted (c : sCacCompletedNotification).

(** ** Members *)

Record Members := mkMembers {
  m_first_switch_channel_request : option sSwitchChannelRequest;
  m_ifname : string;
  m_cac_request_radio : sCacRequestRadio;
  m_original_channel : Z;
  m_original_bandwidth : eWiFiBandwidth;
  m_original_center_frequency : Z;
  m_original_secondary_channel_offset : Z;
  m_wait_for_switch_channel_report : Z;
  m_switch_channel_start_time_point : Z;
  m_terminate_cac_start_time_point : Z;
}.

#[export] Instance set_first_request : Setter m_first_switch_channel_request := λ g m,
  mkMembers (g (m_first_switch_channel_request m)) (m_ifname m) (m_cac_request_radio m)
    (m_original_channel m) (m_original_bandwidth m) (m_original_center_frequency m)
    (m_original_secondary_channel_offset m) (m_wait_for_switch_channel_report m)
    (m_switch_channel_start_time_point m) (m_terminate_cac_start_time_point m).
#[export] Instance set_ifname : Setter m_ifname := λ g m,
  mkMembers (m_first_switch_channel_request m) (g (m_ifname m)) (m_cac_request_radio m)
    (m_original_channel m) (m_original_bandwidth m) (m_original_center_frequency m)
    (m_original_secondary_channel_offset m) (m_wait_for_switch_channel_report m)
    (m_switch_channel_start_time_point m) (m_terminate_cac_start_time_point m).
#[export] Instance set_request_radio : Setter m_cac_request_radio := λ g m,
  mkMembers (m_first_switch_channel_request m) (m_ifname m) (g (m_cac_request_radio m))
    (m_original_channel m) (m_original_bandwidth m) (m_original_center_frequency m)
    (m_original_secondary_channel_offset m) (m_wait_for_switch_channel_report m)
    (m_switch_channel_start_time_point m) (m_terminate_cac_start_time_point m).
#[export] Instance set_wait_for_report : Setter m_wait_for_switch_channel_report := λ g m,
  mkMembers (m_first_switch_channel_request m) (m_ifname m) (m_cac_request_radio m)
    (m_original_channel m) (m_original_bandwidth m) (m_original_center_frequency m)
    (m_original_secondary_channel_offset m) (g (m_wait_for_switch_channel_report m))
    (m_switch_channel_start_time_point m) (m_terminate_cac_start_time_point m).
#[export] Instance set_switch_start : Setter m_switch_channel_start_time_point := λ g m,
  mkMembers (m_first_switch_channel_request m) (m_ifname m) (m_cac_request_radio m)
    (m_original_channel m) (m_original_bandwidth m) (m_original_center_frequency m)
    (m_original_secondary_channel_offset m) (m_wait_for_switch_channel_report m)
    (g (m_switch_channel_start_time_point m)) (m_terminate_cac_start_time_point m).
#[export] Instance set_terminate_start : Setter m_terminate_cac_start_time_point := λ g m,
  mkMembers (m_first_switch_channel_request m) (m_ifname m) (m_cac_request_radio m)
    (m_original_channel m) (m_original_bandwidth m) (m_original_center_frequency m)
    (m_original_secondary_channel_offset m) (m_wait_for_switch_channel_report m)
    (m_switch_channel_start_time_point m) (g (m_terminate_cac_start_time_point m)).

(** The four members that remember where to switch back to. *)
Definition set_original (ch : Z) (bw : eWiFiBandwidth) (cf offset : Z) (m : Members) : Members :=
  mkMembers (m_first_switch_channel_request m) (m_ifname m) (m_cac_request_radio m) ch bw cf offset
    (m_wait_for_switch_channel_report m) (m_switch_channel_start_time_point m)
    (m_terminate_cac_start_time_point m).

Definition DEFAULT_WAIT_FOR_SWITCH_CHANNEL_REPORT : Z := 5.
Definition DEFAULT_MAX_WAIT_FOR_CAC_TERMINATION : Z := 10.
Definition ZERO_MAC : sMacAddr := [0; 0; 0; 0; 0; 0].
Definition no_radio : sCacRequestRadio := mkCacRequestRadio ZERO_MAC 0 0 0 0.

Definition reset (m : Members) : Members :=
  mkMembers None (m_ifname m) no_radio 0 BANDWIDTH_UNKNOWN 0 0
    DEFAULT_WAIT_FOR_SWITCH_CHANNEL_REPORT (m_switch_channel_start_time_point m)
    (m_terminate_cac_start_time_point m).

Record Obj := mkObj { members : Members; bus : Bus }.

Definition on_members (f : Members → Members) : faultM Obj unit :=
  modify (λ o, mkObj (f (members o)) (bus o)) ;; fret tt.
Definition on_bus (f : Bus → Bus) : faultM Obj unit :=
  modify (λ o, mkObj (members o) (f (bus o))) ;; fret tt.
Definition get {A} (f : Members → A) : faultM Obj A := λ o, (Some (f (members o)), o).

(** ** Methods *)

Definition is_timeout_waiting_for_switch_channel_report (e : AgentEnv) (m : Members) : bool :=
  seconds (m_wait_for_switch_channel_report m) <? now e - m_switch_channel_start_time_point m.

Definition is_timeout_waiting_for_cac_termination (e : AgentEnv) (m : Members) : bool :=
  seconds DEFAULT_MAX_WAIT_FOR_CAC_TERMINATION <? now e - m_terminate_cac_start_time_point m.

(** A message that could not be built is only logged; its header is null. *)
Definition send_preference_report (e : AgentEnv) : faultM Obj bool :=
  if negb (agent_fd_valid e) then fret false
  else
    ifname <- get m_ifname ;;
    match radio e ifname with
    | None => fret false
    | Some rd =>
        if negb (create_vs_message e) then fault
        else
          _ <- on_bus (λ b, if send_cmdu e then push_driver (CHANNELS_LIST_REQUEST (front_iface_mac rd)) b
                            else b) ;;
          fret true
    end.

Definition send_switch_channel_request (channel : Z) (bandwidth : eWiFiBandwidth) :
    faultM Obj sSwitchChannelRequest :=
  ifname <- get m_ifname ;;
  let r := mkRequest ifname channel FREQ_5G bandwidth in
  _ <- on_bus (push_event TaskPool.SWITCH_CHANNEL_REQUEST (ObjRequest r)) ;;
  fret r.

Definition send_cac_request (e : AgentEnv) (db_radio : sRadio) : faultM Obj bool :=
  req <- get m_cac_request_radio ;;
  if negb (in_list (cac_channel req) (channels_list db_radio)) then fret false
  else
    let bandwidth := operating_class_to_bandwidth (operating_class req) in
    let wc := radio_wifi_channel db_radio in
    let offset := if bw_eq (m_bandwidth wc) BANDWIDTH_20 then 0
                  else if negb (m_ext_above_primary wc =? 0) then 1 else -1 in
    _ <- on_members (set_original (m_channel wc) (m_bandwidth wc) (m_center_frequency wc) offset) ;;
    _ <- on_members (λ m, m <| m_switch_channel_start_time_point := now e |>) ;;
    r <- send_switch_channel_request (cac_channel req) bandwidth ;;
    _ <- on_members (λ m, m <| m_first_switch_channel_request := Some r |>) ;;
    _ <- on_bus (λ b, mkBus (bus_queue b) (bus_driver b)
                        (<[front_iface_name db_radio := r]> (last_switch_channel_request b))) ;;
    fret true.

(** ** Handlers *)

Definition idle_on_cac_request (e : AgentEnv) (dest : fsm_state) (args : fsm_args) :
    faultM Obj (bool * fsm_state) :=
  cur <- get m_cac_request_radio ;;
  if negb (bool_decide (radio_uid cur = ZERO_MAC)) then fret (true, ERROR)
  else
    match args with
    | ArgCacRequest None => fret (true, ERROR)
    | ArgCacRequest (Some [req]) =>
        _ <- on_members (λ m, m <| m_cac_request_radio := req |>) ;;
        if negb (cac_method req =? CONTINUOUS_CAC) then fret (true, ERROR)
        else
          match get_radio_by_mac e (radio_uid req) with
          | None => fret (true, ERROR)
          | Some rd =>
              _ <- on_members (λ m, m <| m_ifname := front_iface_name rd |>) ;;
              ok <- send_cac_request e rd ;;
              if negb ok then fret (true, ERROR) else fret (true, dest)
          end
    | ArgCacRequest (Some _) => fret (true, ERROR)
    | _ => fault
    end.

(** The notification of the report is dereferenced unchecked. *)
Definition idle_on_report (e : AgentEnv) (dest : fsm_state) (args : fsm_args) :
    faultM Obj (bool * fsm_state) :=
  match args with
  | ArgReport r =>
      match switch_channel_notification r with
      | None => fault
      | Some n =>
          _ <- on_members (λ m, m <| m_ifname := scn_ifname n |>) ;;
          _ <- send_preference_report e ;;
          fret (false, dest)
      end
  | _ => fault
  end.

Definition on_duration (dest : fsm_state) (args : fsm_args) : faultM Obj (bool * fsm_state) :=
  match args with
  | ArgDuration d =>
      _ <- on_members (λ m, m <| m_wait_for_switch_channel_report := duration_sec d |>) ;;
      fret (true, dest)
  | _ => fault
  end.

Definition wait_on_report (e : AgentEnv) (dest : fsm_state) (args : fsm_args) :
    faultM Obj (bool * fsm_state) :=
  match args with
  | ArgReport r =>
      _ <- send_preference_report e ;;
      m <- get id ;;
      if cac_completion_action (m_cac_request_radio m) =? REMAIN_ON_CHANNEL then fret (true, IDLE)
      else if cac_completion_action (m_cac_request_radio m) =? RETURN_PREVIOUS_CHANNEL then
        _ <- on_members (λ m, m <| m_switch_channel_start_time_point := now e |>) ;;
        _ <- on_members (λ m, m <| m_wait_for_switch_channel_report :=
                                     DEFAULT_WAIT_FOR_SWITCH_CHANNEL_REPORT |>) ;;
        _ <- send_switch_channel_request (m_original_channel m) (m_original_bandwidth m) ;;
        fret (true, dest)
      else fret (true, ERROR)
  | _ => fault
  end.

Definition on_cac_started (dest : fsm_state) (args : fsm_args) : faultM Obj (bool * fsm_state) :=
  match args with ArgCacStarted _ => fret (true, dest) | _ => fault end.

Definition on_cac_completed (dest : fsm_state) (args : fsm_args) : faultM Obj (bool * fsm_state) :=
  match args with ArgCacCompleted _ => fret (true, dest) | _ => fault end.

(** The same condition in the two states that wait for a report. *)
Definition report_on_periodic (e : AgentEnv) (dest : fsm_state) (_ : fsm_args) :
    faultM Obj (bool * fsm_state) :=
  m <- get id ;;
  if is_timeout_waiting_for_switch_channel_report e m then fret (true, ERROR) else fret (false, dest).

Definition wait_on_termination_request (e : AgentEnv) (dest : fsm_state) (args : fsm_args) :
    faultM Obj (bool * fsm_state) :=
  match args with
  | ArgCacTermination None => fret (false, dest)
  | ArgCacTermination (Some []) => fret (false, dest)
  | ArgCacTermination (Some (t :: _)) =>
      m <- get id ;;
      if negb ((term_operating_class t =? operating_class (m_cac_request_radio m))
               && (term_channel t =? cac_channel (m_cac_request_radio m))) then fret (false, dest)
      else
        _ <- on_members (λ m, m <| m_terminate_cac_start_time_point := now e |>) ;;
        if negb (create_vs_message e) then fret (false, dest)
        else if negb (agent_fd_valid e) then fret (true, ERROR)
        else match radio e (m_ifname m) with
             | None => fret (false, dest)
             | Some rd =>
                 if negb (send_cmdu e) then fret (true, ERROR)
                 else
                   _ <- on_bus (push_driver (HOSTAP_CANCEL_ACTIVE_CAC_REQUEST (front_iface_mac rd)
                          (mkCsParams (m_original_channel m) (m_original_bandwidth m)
                             (m_original_center_frequency m) (m_original_secondary_channel_offset m)))) ;;
                   fret (true, dest)
             end
  | _ => fault
  end.

Definition back_on_report (dest : fsm_state) (_ : fsm_args) : faultM Obj (bool * fsm_state) :=
  fret (true, dest).

Definition termination_on_response (dest : fsm_state) (args : fsm_args) :
    faultM Obj (bool * fsm_state) :=
  match args with
  | ArgSuccess None => fret (true, ERROR)
  | ArgSuccess (Some _) => fret (true, dest)
  | _ => fault
  end.

Definition termination_on_periodic (e : AgentEnv) (dest : fsm_state) (_ : fsm_args) :
    faultM Obj (bool * fsm_state) :=
  m <- get id ;;
  if is_timeout_waiting_for_cac_termination e m then fret (true, ERROR) else fret (false, dest).

Definition entry_reset (_ : fsm_args) : faultM Obj bool := _ <- on_members reset ;; fret true.

Definition state_handler (e : AgentEnv) (q : fsm_state) :
    StateHandler fsm_state fsm_event fsm_args Obj :=
  match q with
  | IDLE => mkStateHandler IDLE (Some entry_reset) None [
      mkEventHandler CAC_REQUEST [WAIT_FOR_SWITCH_CHANNEL_REPORT; ERROR] (Some (idle_on_cac_request e));
      mkEventHandler PERIODIC [IDLE] None;
      mkEventHandler CAC_TERMINATION_REQUEST [IDLE] None;
      mkEventHandler SWITCH_CHANNEL_REPORT [IDLE] (Some (idle_on_report e))]
  | WAIT_FOR_SWITCH_CHANNEL_REPORT =>
      mkStateHandler WAIT_FOR_SWITCH_CHANNEL_REPORT None None [
      mkEventHandler SWITCH_CHANNEL_DURATION_TIME [WAIT_FOR_SWITCH_CHANNEL_REPORT] (Some on_duration);
      mkEventHandler SWITCH_CHANNEL_REPORT
        [WAIT_FOR_SWITCH_BACK_TO_ORIGINAL_CHANNEL_REPORT; IDLE; ERROR] (Some (wait_on_report e));
      mkEventHandler CAC_STARTED_NOTIFICATION [WAIT_FOR_SWITCH_CHANNEL_REPORT] (Some on_cac_started);
      mkEventHandler CAC_COMPLETED_NOTIFICATION [WAIT_FOR_SWITCH_CHANNEL_REPORT] (Some on_cac_completed);
      mkEventHandler PERIODIC [WAIT_FOR_SWITCH_CHANNEL_REPORT; ERROR] (Some (report_on_periodic e));
      mkEventHandler CAC_TERMINATION_REQUEST [WAIT_FOR_CAC_TERMINATION]
        (Some (wait_on_termination_request e))]
  | WAIT_FOR_SWITCH_BACK_TO_ORIGINAL_CHANNEL_REPORT =>
      mkStateHandler WAIT_FOR_SWITCH_BACK_TO_ORIGINAL_CHANNEL_REPORT None None [
      mkEventHandler SWITCH_CHANNEL_DURATION_TIME [WAIT_FOR_SWITCH_BACK_TO_ORIGINAL_CHANNEL_REPORT]
        (Some on_duration);
      mkEventHandler SWITCH_CHANNEL_REPORT [IDLE] (Some back_on_report);
      mkEventHandler PERIODIC [WAIT_FOR_SWITCH_BACK_TO_ORIGINAL_CHANNEL_REPORT; ERROR]
        (Some (report_on_periodic e));
      mkEventHandler CAC_TERMINATION_REQUEST [WAIT_FOR_SWITCH_BACK_TO_ORIGINAL_CHANNEL_REPORT] None]
  | WAIT_FOR_CAC_TERMINATION => mkStateHandler WAIT_FOR_CAC_TERMINATION None None [
      mkEventHandler CAC_TERMINATION_RESPONSE [IDLE; ERROR] (Some termination_on_response);
      mkEventHandler PERIODIC [WAIT_FOR_SWITCH_BACK_TO_ORIGINAL_CHANNEL_REPORT; ERROR]
        (Some (termination_on_periodic e))]
  | ERROR => mkStateHandler ERROR None None [
      mkEventHandler PERIODIC [IDLE] None;
      mkEventHandler CAC_TERMINATION_REQUEST [ERROR] None]
  end.

Definition config_fsm (e : AgentEnv) : fsm_config fsm_state fsm_event fsm_args Obj :=
  state_handler e <$> [IDLE; WAIT_FOR_SWITCH_CHANNEL_REPORT;
    WAIT_FOR_SWITCH_BACK_TO_ORIGINAL_CHANNEL_REPORT; WAIT_FOR_CAC_TERMINATION; ERROR].

Definition new_fsm : Fsm fsm_state Members :=
  mkFsm IDLE true (mkMembers None "" no_radio 0 BANDWIDTH_UNKNOWN 0 0
                     DEFAULT_WAIT_FOR_SWITCH_CHANNEL_REPORT 0 0).

(** ** The task *)

Record TaskState := mkTaskState { m_fsm : Fsm fsm_state Members; task_bus : Bus }.

Definition fire_fsm (e : AgentEnv) (ev : fsm_event) (args : fsm_args) : faultM TaskState bool := λ t,
  let f := m_fsm t in
  let '(r, f') := fire (config_fsm e) ev args
                    (mkFsm (m_curr_state f) (m_started f) (mkObj (fsm_obj f) (task_bus t))) in
  (r, mkTaskState (mkFsm (m_curr_state f') (m_started f') (members (fsm_obj f'))) (bus (fsm_obj f'))).

Definition work (e : AgentEnv) : faultM TaskState unit :=
  _ <- fire_fsm e PERIODIC NoArgs ;; fret tt.

Definition handle_event (e : AgentEnv) (event : eTaskEvent) (obj : option event_obj) :
    faultM TaskState unit :=
  match event with
  | TaskPool.SWITCH_CHANNEL_DURATION_TIME =>
      match obj with
      | None => fret tt
      | Some (ObjDuration d) => _ <- fire_fsm e SWITCH_CHANNEL_DURATION_TIME (ArgDuration d) ;; fret tt
      | Some _ => fault
      end
  | TaskPool.SWITCH_CHANNEL_REPORT =>
      match obj with
      | None => fret tt
      | Some (ObjReport r) => _ <- fire_fsm e SWITCH_CHANNEL_REPORT (ArgReport r) ;; fret tt
      | Some _ => fault
      end
  | TaskPool.CAC_STARTED_NOTIFICATION =>
      match obj with
      | None => fret tt
      | Some (ObjCacStarted c) => _ <- fire_fsm e CAC_STARTED_NOTIFICATION (ArgCacStarted c) ;; fret tt
      | Some _ => fault
      end
  | TaskPool.CAC_COMPLETED_NOTIFICATION =>
      match obj with
      | None => fret tt
      | Some (ObjCacCompleted c) => _ <- fire_fsm e CAC_COMPLETED_NOTIFICATION (ArgCacCompleted c) ;; fret tt
      | Some _ => fault
      end
  | _ => fret tt
  end.

Definition get_task_event_list : list eTaskEvent :=
  [TaskPool.SWITCH_CHANNEL_DURATION_TIME; TaskPool.SWITCH_CHANNEL_REPORT;
   TaskPool.CAC_STARTED_NOTIFICATION; TaskPool.CAC_COMPLETED_NOTIFICATION].

(** The messages [handle_cmdu] tells apart, with the TLV or action found in
    them. *)
Inductive cmdu_rx :=
  | CAC_REQUEST_MESSAGE (mid : Z) (tlv : option (list sCacRequestRadio))
  | CAC_TERMINATION_MESSAGE (mid : Z) (tlv : option (list sCacTerminationRadio))
  | CANCEL_ACTIVE_CAC_RESPONSE (success : Z)
  | OTHER_MESSAGE.

Definition send_ack_to_controller (e : AgentEnv) (mid : Z) : faultM TaskState unit :=
  modify (λ t, if send_cmdu e then mkTaskState (m_fsm t) (push_driver (ACK_TO_CONTROLLER mid) (task_bus t))
               else t) ;; fret tt.

Definition handle_cmdu (e : AgentEnv) (msg : cmdu_rx) : faultM TaskState bool :=
  match msg with
  | CAC_REQUEST_MESSAGE _ None | CAC_TERMINATION_MESSAGE _ None => fret true
  | CAC_REQUEST_MESSAGE mid tlv =>
      _ <- send_ack_to_controller e mid ;;
      _ <- fire_fsm e CAC_REQUEST (ArgCacRequest tlv) ;; fret true
  | CAC_TERMINATION_MESSAGE mid tlv =>
      _ <- send_ack_to_controller e mid ;;
      _ <- fire_fsm e CAC_TERMINATION_REQUEST (ArgCacTermination tlv) ;; fret true
  | CANCEL_ACTIVE_CAC_RESPONSE success =>
      _ <- fire_fsm e CAC_TERMINATION_RESPONSE (ArgSuccess (Some success)) ;; fret true
  | OTHER_MESSAGE => fret false
  end.

(** ** The machine as a table *)

Definition enter (d : fsm_state) (o : Obj) : Obj :=
  match d with IDLE => mkObj (reset (members o)) (bus o) | _ => o end.

(** The state after a handler; a destination outside [allowed] is refused. *)
Definition via (q : fsm_state) (allowed : list fsm_state) (r : option (bool * fsm_state) * Obj) :
    option bool * Fsm fsm_state Obj :=
  match r with
  | (None, o) => (None, mkFsm q true o)
  | (Some (ok, d), o) =>
      (Some true, if ok && bool_decide (d ∈ allowed) && negb (bool_decide (d = q))
                  then mkFsm d true (enter d o) else mkFsm q true o)
  end%bool.

Definition react (e : AgentEnv) (q : fsm_state) (ev : fsm_event) (args : fsm_args) (o : Obj) :
    option bool * Fsm fsm_state Obj :=
  match q, ev with
  | IDLE, CAC_REQUEST =>
      via q [WAIT_FOR_SWITCH_CHANNEL_REPORT; ERROR]
        (idle_on_cac_request e WAIT_FOR_SWITCH_CHANNEL_REPORT args o)
  | IDLE, SWITCH_CHANNEL_REPORT => via q [IDLE] (idle_on_report e IDLE args o)
  | IDLE, (PERIODIC | CAC_TERMINATION_REQUEST) => (Some true, mkFsm q true o)
  | WAIT_FOR_SWITCH_CHANNEL_REPORT, SWITCH_CHANNEL_DURATION_TIME
  | WAIT_FOR_SWITCH_BACK_TO_ORIGINAL_CHANNEL_REPORT, SWITCH_CHANNEL_DURATION_TIME =>
      via q [q] (on_duration q args o)
  | WAIT_FOR_SWITCH_CHANNEL_REPORT, SWITCH_CHANNEL_REPORT =>
      via q [WAIT_FOR_SWITCH_BACK_TO_ORIGINAL_CHANNEL_REPORT; IDLE; ERROR]
        (wait_on_report e WAIT_FOR_SWITCH_BACK_TO_ORIGINAL_CHANNEL_REPORT args o)
  | WAIT_FOR_SWITCH_CHANNEL_REPORT, CAC_STARTED_NOTIFICATION => via q [q] (on_cac_started q args o)
  | WAIT_FOR_SWITCH_CHANNEL_REPORT, CAC_COMPLETED_NOTIFICATION => via q [q] (on_cac_completed q args o)
  | WAIT_FOR_SWITCH_CHANNEL_REPORT, PERIODIC
  | WAIT_FOR_SWITCH_BACK_TO_ORIGINAL_CHANNEL_REPORT, PERIODIC =>
      via q [q; ERROR] (report_on_periodic e q args o)
  | WAIT_FOR_SWITCH_CHANNEL_REPORT, CAC_TERMINATION_REQUEST =>
      via q [WAIT_FOR_CAC_TERMINATION] (wait_on_termination_request e WAIT_FOR_CAC_TERMINATION args o)
  | WAIT_FOR_SWITCH_BACK_TO_ORIGINAL_CHANNEL_REPORT, SWITCH_CHANNEL_REPORT =>
      via q [IDLE] (back_on_report IDLE args o)
  | WAIT_FOR_SWITCH_BACK_TO_ORIGINAL_CHANNEL_REPORT, CAC_TERMINATION_REQUEST
  | ERROR, CAC_TERMINATION_REQUEST => (Some true, mkFsm q true o)
  | WAIT_FOR_CAC_TERMINATION, CAC_TERMINATION_RESPONSE =>
      via q [IDLE; ERROR] (termination_on_response IDLE args o)
  | WAIT_FOR_CAC_TERMINATION, PERIODIC =>
      via q [WAIT_FOR_SWITCH_BACK_TO_ORIGINAL_CHANNEL_REPORT; ERROR]
        (termination_on_periodic e WAIT_FOR_SWITCH_BACK_TO_ORIGINAL_CHANNEL_REPORT args o)
  | ERROR, PERIODIC => (Some true, mkFsm IDLE true (enter IDLE o))
  | _, _ => (Some false, mkFsm q true o)
  end.

Lemma cac_after_event e q allowed args d ok o :
  after_event (config_fsm e) (state_handler e q) args q d (ok && bool_decide (d ∈ allowed)) o
    = via q allowed (Some (ok, d), o).
Proof.
  unfold after_event, via. destruct (ok && bool_decide (d ∈ allowed)); cbn [negb orb andb]; [|done].
  case_bool_decide; [done|]. by destruct q, d.
Qed.

Lemma cac_fire_cond e q ev args o eh target rest cond :
  find_event (state_handler e q) ev = Some eh → m_allowed_states eh = target :: rest →
  m_cond eh = Some cond →
  fire (config_fsm e) ev args (mkFsm q true o) = via q (target :: rest) (cond target args o).
Proof.
  intros He Ht Hc. assert (find_state (config_fsm e) q = Some (state_handler e q)) as Hh
    by (by destruct q).
  destruct (cond target args o) as [[[ok d]|] o'] eqn:Hr.
  - rewrite (fire_handled _ _ _ _ _ _ eh target rest cond ok d o' Hh He Ht Hc Hr). apply cac_after_event.
  - by rewrite (fire_fault _ _ _ _ _ _ eh target rest cond o' Hh He Ht Hc Hr).
Qed.

Lemma cac_fire_react e q ev args o :
  fire (config_fsm e) ev args (mkFsm q true o) = react e q ev args o.
Proof.
  destruct q, ev;
    try (rewrite (fire_unhandled _ _ _ _ _ (state_handler e _)) by reflexivity; reflexivity);
    try (erewrite (fire_plain _ _ _ _ _ (state_handler e _)) by reflexivity; reflexivity);
    (etransitivity; [eapply cac_fire_cond; reflexivity|reflexivity]).
Qed.

(** ** Theorems *)

Fixpoint run_events (l : list (AgentEnv * fsm_event * fsm_args)) (f : Fsm fsm_state Obj) :
    option (Fsm fsm_state Obj) :=
  match l with
  | [] => Some f
  | (e, ev, args) :: l' =>
      match fire (config_fsm e) ev args f with
      | (Some _, f') => run_events l' f'
      | (None, _) => None
      end
  end.

(** Every deadline of the machine has passed. *)
Definition deadlines_passed (e : AgentEnv) (m : Members) : Prop :=
  is_timeout_waiting_for_switch_channel_report e m = true ∧
  is_timeout_waiting_for_cac_termination e m = true.

(** C37: Every coordinated CAC ends: once the deadlines have passed, two
    periodic events bring the machine from any state back to [IDLE], with
    nothing sent, and unless it was [IDLE] before with its members reset. *)
Theorem cac_times_out e1 e2 q m b : deadlines_passed e1 m →
  ∃ m', run_events [(e1, PERIODIC, NoArgs); (e2, PERIODIC, NoArgs)] (mkFsm q true (mkObj m b))
    = Some (mkFsm IDLE true (mkObj m' b)) ∧ (q ≠ IDLE → m' = reset m).
Proof.
  intros [Hr Ht]. cbn [run_events]. rewrite cac_fire_react.
  destruct q; cbn [react]; unfold report_on_periodic, termination_on_periodic, get; st_run;
    cbn [members id]; rewrite ?Hr, ?Ht; st_run; unfold via;
    rewrite ?(bool_decide_true (ERROR ∈ _)) by set_solver; cbn [andb negb];
    rewrite ?(bool_decide_false (ERROR = _)) by done; cbn [negb enter];
    rewrite cac_fire_react; cbn [react enter members bus]; eexists; split; by try reflexivity.
Qed.

Ltac unfold_handlers :=
  unfold idle_on_cac_request, idle_on_report, on_duration, wait_on_report, on_cac_started,
    on_cac_completed, report_on_periodic, wait_on_termination_request, back_on_report,
    termination_on_response, termination_on_periodic, send_cac_request,
    send_switch_channel_request, send_preference_report, on_members, on_bus, get.

(** Case split on a condition that contains no other one. *)
Ltac split_env :=
  match goal with
  | |- context [match ?x with _ => _ end] =>
      lazymatch x with
      | context [match _ with _ => _ end] => fail
      | _ => lazymatch type of x with prod _ _ => fail | _ => destruct x eqn:? end
      end
  end.

(** An event other than a request of the controller queues at most one switch
    request, and only when it ends the wait for the first report. *)
Definition queues_at_most (q q' : fsm_state) (evs : list queued) : Prop :=
  (evs = [] ∧ (q' = WAIT_FOR_SWITCH_CHANNEL_REPORT → q = WAIT_FOR_SWITCH_CHANNEL_REPORT)) ∨
  (q = WAIT_FOR_SWITCH_CHANNEL_REPORT ∧ q' ≠ WAIT_FOR_SWITCH_CHANNEL_REPORT ∧
   ∃ r, evs = [(TaskPool.SWITCH_CHANNEL_REQUEST, Some (ObjRequest r))]).

Lemma cac_react_queue e q ev args o r f' : ev ≠ CAC_REQUEST → react e q ev args o = (r, f') →
  m_started f' = true ∧
  ∃ evs, bus_queue (bus (fsm_obj f')) = bus_queue (bus o) ++ evs ∧
    queues_at_most q (m_curr_state f') evs.
Proof.
  intros Hev. destruct o as [m b]. unfold queues_at_most.
  destruct q, ev; try done; cbn [react];
    try (intros Hr; apply pair_equal_spec in Hr as [<- <-]; split; [reflexivity|]; exists [];
         rewrite app_nil_r; split; [reflexivity|]; left; split; [reflexivity|];
         cbn; intros; first [reflexivity | discriminate]);
    try (destruct args as [|l1|[[|t1 ts]|]|[s1|]|r1|d1|c1|c1]);
    unfold_handlers; st_run; repeat (split_env; st_run); cbn; intros; simplify_eq/=;
    (split; [reflexivity|]); eexists;
    (split; [first [reflexivity | symmetry; apply app_nil_r]|]);
    first [left; split; [reflexivity|]; cbn; intros; first [reflexivity | discriminate]
          |right; split; [reflexivity|]; split; [discriminate|]; eexists; reflexivity].
Qed.

(** What makes an event undefined, other than an argument of another type. *)
Lemma cac_react_fault e q ev args o f' : react e q ev args o = (None, f') →
  (q = IDLE ∧ ∃ r, args = ArgReport r ∧ switch_channel_notification r = None) ∨
  create_vs_message e = false ∨
  match ev, args with
  | CAC_REQUEST, ArgCacRequest _ | CAC_TERMINATION_REQUEST, ArgCacTermination _
  | CAC_TERMINATION_RESPONSE, ArgSuccess _ | SWITCH_CHANNEL_REPORT, ArgReport _
  | SWITCH_CHANNEL_DURATION_TIME, ArgDuration _ | CAC_STARTED_NOTIFICATION, ArgCacStarted _
  | CAC_COMPLETED_NOTIFICATION, ArgCacCompleted _ | PERIODIC, _ => False
  | _, _ => True
  end.
Proof.
  destruct o as [m b]. destruct q, ev; cbn [react];
    try (intros Hr; apply pair_equal_spec in Hr as [Hn _]; discriminate Hn);
    try (destruct args as [|[[|r1 [|r2 rs]]|]|[[|t1 ts]|]|[s1|]|r1|d1|c1|c1]); auto;
    unfold_handlers; st_run; repeat (split_env; st_run); cbn; intros; simplify_eq/=; bool_to_prop; try tauto.
  left. split; [done|]. by exists r1.
Qed.

(** [IDLE] is clean: no request is remembered. *)
Definition idle_clean (f : Fsm fsm_state Obj) : Prop :=
  m_started f = true ∧
  (m_curr_state f = IDLE → m_cac_request_radio (members (fsm_obj f)) = no_radio).

Lemma react_idle_clean e q ev args o r f' :
  (q = IDLE → m_cac_request_radio (members o) = no_radio) →
  react e q ev args o = (Some r, f') → idle_clean f'.
Proof.
  intros Hcl. destruct o as [m b]. unfold idle_clean.
  destruct q, ev; cbn [react];
    try (intros Hr; apply pair_equal_spec in Hr as [_ <-]; split; [reflexivity|]; cbn; intros;
         first [discriminate | by apply Hcl | reflexivity]);
    try (destruct args as [|[[|r1 [|r2 rs]]|]|[[|t1 ts]|]|[s1|]|r1|d1|c1|c1]);
    unfold_handlers; st_run;
    repeat (split_env; st_run); cbn; intros; simplify_eq/=; cbn in *;
    (split; [reflexivity|]); intros; try discriminate; auto.
Qed.

(** The machine remembers a request only while it works on it: after any
    sequence of events, with any answers of the environment, a machine that is
    [IDLE] has forgotten the request, so that the next one is never refused as
    already in progress. *)
Theorem idle_machine_is_clean l f b :
  run_events l (mkFsm IDLE true (mkObj (fsm_obj new_fsm) b)) = Some f → idle_clean f.
Proof.
  assert (∀ f0, idle_clean f0 → run_events l f0 = Some f → idle_clean f) as Hgen.
  2:{ apply Hgen. by split. }
  induction l as [|[[e ev] args] l IH]; intros f0 Hf0; cbn [run_events]; [by intros [= <-]|].
  destruct f0 as [q st o], Hf0 as [Hst Hcl]. cbn in Hst, Hcl. subst st. rewrite cac_fire_react.
  destruct (react e q ev args o) as [[r|] f1] eqn:Hr; [|done]. apply IH.
  by eapply react_idle_clean.
Qed.

(** The course of a coordinated CAC: an [IDLE] machine that gets a request
    for a supported channel asks the switch channel task for it with the
    bandwidth of the operating class and remembers it in the database; the
    report, whatever it says, makes it ask for the channel preferences, and
    then either ends in [IDLE] or asks for the switch back to the channel and
    bandwidth the radio had before. *)
Theorem cac_request_flow e1 e2 req rd rd' m b r :
  m_cac_request_radio m = no_radio → cac_method req = CONTINUOUS_CAC →
  get_radio_by_mac e1 (radio_uid req) = Some rd →
  in_list (cac_channel req) (channels_list rd) = true →
  cac_completion_action req = REMAIN_ON_CHANNEL ∨ cac_completion_action req = RETURN_PREVIOUS_CHANNEL →
  agent_fd_valid e2 = true → create_vs_message e2 = true → send_cmdu e2 = true →
  radio e2 (front_iface_name rd) = Some rd' →
  let back := cac_completion_action req =? RETURN_PREVIOUS_CHANNEL in
  let switch ch bw := mkRequest (front_iface_name rd) ch FREQ_5G bw in
  let r1 := switch (cac_channel req) (operating_class_to_bandwidth (operating_class req)) in
  let r2 := switch (m_channel (radio_wifi_channel rd)) (m_bandwidth (radio_wifi_channel rd)) in
  ∃ m', run_events [(e1, CAC_REQUEST, ArgCacRequest (Some [req])); (e2, SWITCH_CHANNEL_REPORT, ArgReport r)]
    (mkFsm IDLE true (mkObj m b))
  = Some (mkFsm (if back then WAIT_FOR_SWITCH_BACK_TO_ORIGINAL_CHANNEL_REPORT else IDLE) true
      (mkObj m' (mkBus
        (bus_queue b ++ (TaskPool.SWITCH_CHANNEL_REQUEST, Some (ObjRequest r1)) ::
           if back then [(TaskPool.SWITCH_CHANNEL_REQUEST, Some (ObjRequest r2))] else [])
        (bus_driver b ++ [CHANNELS_LIST_REQUEST (front_iface_mac rd')])
        (<[front_iface_name rd := r1]> (last_switch_channel_request b))))).
Proof.
  intros Hcl Hm Hrd Hch Hact Hfd Hv Hs Hrd' back switch r1 r2. cbn [run_events]. rewrite cac_fire_react.
  cbn [react]. unfold idle_on_cac_request, send_cac_request, send_switch_channel_request,
    on_members, on_bus, get. st_run. cbn [members]. rewrite Hcl.
  rewrite bool_decide_true by done. cbn [negb]. st_run. rewrite Hm, Z.eqb_refl. cbn [negb]. rewrite Hrd.
  st_run. cbn [members m_cac_request_radio set_field set_request_radio set_ifname]. rewrite Hch. cbn [negb].
  st_run. cbn [negb]. st_run. unfold via at 1. rewrite (bool_decide_true (_ ∈ _)) by left.
  rewrite bool_decide_false by done. cbn [andb negb enter]. rewrite cac_fire_react. cbn [react].
  unfold wait_on_report, send_preference_report, send_switch_channel_request, on_members, on_bus, get.
  rewrite Hfd. cbn [negb]. st_run. cbn. rewrite Hrd', Hv, Hs. cbn [negb]. st_run. cbn.
  unfold back. destruct Hact as [Ha|Ha]; rewrite Ha; unfold REMAIN_ON_CHANNEL, RETURN_PREVIOUS_CHANNEL;
    cbn [Z.eqb Pos.eqb]; st_run; unfold via; rewrite (bool_decide_true (_ ∈ _)) by set_solver;
    rewrite bool_decide_false by done; cbn [andb negb]; eexists; unfold push_event, push_driver;
    cbn [enter members bus bus_queue bus_driver last_switch_channel_request];
    rewrite <- ?app_assoc; reflexivity.
Qed.

(** The report of a switch without a channel switch notification, as the
    switch channel task sends it after a CAC or a timeout, is undefined
    behaviour when the machine is [IDLE]: the notification is dereferenced. *)
Theorem idle_report_without_notification e r m b : switch_channel_notification r = None →
  fire (config_fsm e) SWITCH_CHANNEL_REPORT (ArgReport r) (mkFsm IDLE true (mkObj m b))
  = (None, mkFsm IDLE true (mkObj m b)).
Proof. intros Hn. rewrite cac_fire_react. cbn [react]. unfold idle_on_report. by rewrite Hn. Qed.

(** The side of the original secondary channel is lost: whenever the radio
    uses more than 20 MHz and its centre is not on the primary channel, the
    offset remembered for the cancel request is 1, also when the secondary
    channel is below. *)
Theorem secondary_offset_is_always_above e rd m b o' :
  send_cac_request e rd (mkObj m b) = (Some true, o') →
  m_bandwidth (radio_wifi_channel rd) ≠ BANDWIDTH_20 → m_ext_above_primary (radio_wifi_channel rd) ≠ 0 →
  m_original_secondary_channel_offset (members o') = 1.
Proof.
  unfold send_cac_request, send_switch_channel_request, on_members, on_bus, get. st_run.
  destruct (in_list _ _); cbn [negb]; st_run; [|done]. intros [= <-] Hbw Hext. cbn.
  unfold bw_eq. rewrite bool_decide_false by done. by destruct (Z.eqb_spec (m_ext_above_primary (radio_wifi_channel rd)) 0).
Qed.

End coordinated_cac.
