(* ===== verification/AgentTasks.v ===== *)
(** * The channel tasks together

    The switch channel task and the coordinated CAC task in the pool of the
    backhaul manager ([backhaul_manager.cpp], [task_pool.cpp]): they talk to
    each other through the event queue only. *)

From S2P Require Import Prelude Wire Channels WifiChannel TaskPool AgentEnv Fsm SwitchChannel CoordinatedCac.

Record Agent := mkAgent {
  a_fsms : gmap string (Fsm switch_channel.fsm_state switch_channel.Members);
  a_cac : Fsm coordinated_cac.fsm_state coordinated_cac.Members;
  a_bus : Bus;
}.

#[global] Instance agent_event_queue : EventQueue Agent := {
  m_event_queue a := bus_queue (a_bus a);
  set_event_queue q a := mkAgent (a_fsms a) (a_cac a)
    (mkBus q (bus_driver (a_bus a)) (last_switch_channel_request (a_bus a)));
  event_queue_set _ _ := eq_refl;
}.

Definition on_switch_channel {A} (f : faultM switch_channel.TaskState A) : faultM Agent A := λ a,
  let '(r, t) := f (switch_channel.mkTaskState (a_fsms a) (a_bus a)) in
  (r, mkAgent (switch_channel.m_fsms t) (a_cac a) (switch_channel.task_bus t)).

Definition on_cac {A} (f : faultM coordinated_cac.TaskState A) : faultM Agent A := λ a,
  let '(r, t) := f (coordinated_cac.mkTaskState (a_cac a) (a_bus a)) in
  (r, mkAgent (a_fsms a) (coordinated_cac.m_fsm t) (coordinated_cac.task_bus t)).

(** [handle_cmdu] of the switch channel task handles nothing. *)
Definition SwitchChannelTask (e : AgentEnv) : Task Agent coordinated_cac.cmdu_rx :=
  mkTask SWITCH_CHANNEL switch_channel.get_task_event_list (on_switch_channel (switch_channel.work e))
    (λ ev obj, on_switch_channel (switch_channel.handle_event e ev obj)) (λ _, fret false).

Definition CoordinatedCacTask (e : AgentEnv) : Task Agent coordinated_cac.cmdu_rx :=
  mkTask CAC_TASK coordinated_cac.get_task_event_list (on_cac (coordinated_cac.work e))
    (λ ev obj, on_cac (coordinated_cac.handle_event e ev obj))
    (λ msg, on_cac (coordinated_cac.handle_cmdu e msg)).

(** The pool, with the answers the environment gives in one call. *)
Definition agent_pool (e : AgentEnv) : TaskPool Agent coordinated_cac.cmdu_rx :=
  add_task (CoordinatedCacTask e) (add_task (SwitchChannelTask e) (mkTaskPool [] [])).

Definition new_agent : Agent :=
  mkAgent ∅ coordinated_cac.new_fsm (mkBus [] [] ∅).

(** ** Invariant *)

(** An event of the queue carries an object of its type. *)
Definition typed (x : queued) : Prop :=
  match x with
  | (_, None) => True
  | (SWITCH_CHANNEL_DURATION_TIME, Some (ObjDuration _))
  | (SWITCH_CHANNEL_NOTIFICATION_EVENT, Some (ObjNotification _))
  | (SWITCH_CHANNEL_REQUEST, Some (ObjRequest _))
  | (SWITCH_CHANNEL_REPORT, Some (ObjReport _)) => True
  | (CAC_STARTED_NOTIFICATION, Some (ObjCacStarted c)) => 0 ≤ cac_duration_sec c < 54614
  | (CAC_COMPLETED_NOTIFICATION, Some (ObjCacCompleted _)) => True
  | _ => False
  end.

(** The machines are started and the queue is typed. *)
Definition agent_inv (a : Agent) : Prop :=
  map_Forall (λ _ f, m_started f = true) (a_fsms a) ∧ m_started (a_cac a) = true ∧
  Forall typed (m_event_queue a).

(** How many events can still come from an event, and from the state. *)
Definition weight (x : queued) : nat :=
  match x.1 with SWITCH_CHANNEL_DURATION_TIME | SWITCH_CHANNEL_REPORT => 1 | _ => 2 end.
Fixpoint weights (l : list queued) : nat :=
  match l with [] => 0 | x :: l' => weight x + weights l' end.
Definition potential (a : Agent) : nat :=
  if bool_decide (m_curr_state (a_cac a) = coordinated_cac.WAIT_FOR_SWITCH_CHANNEL_REPORT) then 2 else 0.
Definition agent_measure (a : Agent) : nat := weights (m_event_queue a) + potential a.

Lemma weights_app l k : weights (l ++ k) = (weights l + weights k)%nat.
Proof. induction l as [|x l IH]; cbn; [done|]. rewrite IH. lia. Qed.

(** ** The tasks handle an event *)

Definition started (fsms : gmap string (Fsm switch_channel.fsm_state switch_channel.Members)) : Prop :=
  map_Forall (λ _ f, m_started f = true) fsms.

(** What firing an event in a machine of the switch channel task leaves. *)
Lemma switch_fire e ifname ev args t r t' : started (switch_channel.m_fsms t) →
  switch_channel.fire_fsm e ifname ev args t = (r, t') →
  started (switch_channel.m_fsms t') ∧
  ∃ evs, bus_queue (switch_channel.task_bus t') = bus_queue (switch_channel.task_bus t) ++ evs ∧
    (r ≠ None → (weights evs ≤ 1)%nat ∧ Forall typed evs) ∧
    (r = None → ∃ q o f', switch_channel.react e q ev args o = (None, f')).
Proof.
  intros Hst. unfold switch_channel.fire_fsm. destruct t as [fsms b]. cbn [switch_channel.m_fsms switch_channel.task_bus].
  set (f := switch_channel.get_fsm_by_ifname ifname _).
  assert (m_started f = true) as Hf.
  { unfold f, switch_channel.get_fsm_by_ifname. cbn. destruct (fsms !! ifname) eqn:Hl; [|done].
    by apply (Hst _ _ Hl). }
  rewrite Hf, switch_channel.switch_fire_react.
  destruct (switch_channel.react _ _ _ _ _) as [r1 f1] eqn:Hr. intros [= <- <-].
  pose proof (switch_channel.switch_react_effects _ _ _ _ _ _ _ Hr) as (Hst1 & _ & evs & msgs & Hq & _ & Heff).
  cbn. split; [by apply map_Forall_insert_2|]. exists evs. split_and!; [done| |].
  - intros Hne. destruct (Heff Hne) as (Hl & _ & Hty & _). split.
    + destruct evs as [|x [|]]; cbn in *; [lia| |lia]. destruct (Hty x) as [[? ->]|[? ->]]; [left|cbn; lia..].
    + apply Forall_forall. intros x Hx. by destruct (Hty x Hx) as [[? ->]|[? ->]].
  - intros ->. eauto.
Qed.

Lemma cac_fire e ev args t r t' : ev ≠ coordinated_cac.CAC_REQUEST →
  m_started (coordinated_cac.m_fsm t) = true →
  coordinated_cac.fire_fsm e ev args t = (r, t') →
  m_started (coordinated_cac.m_fsm t') = true ∧
  ∃ evs, bus_queue (coordinated_cac.task_bus t') = bus_queue (coordinated_cac.task_bus t) ++ evs ∧
    coordinated_cac.queues_at_most (m_curr_state (coordinated_cac.m_fsm t))
      (m_curr_state (coordinated_cac.m_fsm t')) evs ∧
    (r = None → ∃ o f', coordinated_cac.react e (m_curr_state (coordinated_cac.m_fsm t)) ev args o = (None, f')).
Proof.
  intros Hev Hst. unfold coordinated_cac.fire_fsm. rewrite Hst, coordinated_cac.cac_fire_react.
  destruct (coordinated_cac.react _ _ _ _ _) as [r1 f1] eqn:Hr. intros [= <- <-].
  pose proof (coordinated_cac.cac_react_queue _ _ _ _ _ _ _ Hev Hr) as (Hst1 & evs & Hq & Hqm).
  cbn. split; [done|]. exists evs. split_and!; [done|done|]. intros ->. eauto.
Qed.

Lemma switch_handle e event obj a r a' : started (a_fsms a) → typed (event, obj) →
  event ∈ switch_channel.get_task_event_list →
  on_switch_channel (switch_channel.handle_event e event obj) a = (r, a') →
  r = Some tt ∧ started (a_fsms a') ∧ a_cac a' = a_cac a ∧
  ∃ evs, m_event_queue a' = m_event_queue a ++ evs ∧ Forall typed evs ∧
    (weights evs + 1 ≤ weight (event, obj))%nat.
Proof.
  intros Hst Hty Hin. unfold on_switch_channel.
  destruct (switch_channel.handle_event _ _ _ _) as [r1 t'] eqn:Hh. intros [= <- <-]. cbn.
  assert (∀ ifname ev args, switch_channel.handle_event e event obj (switch_channel.mkTaskState (a_fsms a) (a_bus a))
      = (_ <- switch_channel.fire_fsm e ifname ev args ;; fret tt) (switch_channel.mkTaskState (a_fsms a) (a_bus a)) →
    (∀ q o f', switch_channel.react e q ev args o ≠ (None, f')) →
    r1 = Some tt ∧ started (switch_channel.m_fsms t') ∧ a_cac a = a_cac a ∧
    ∃ evs, bus_queue (switch_channel.task_bus t') = bus_queue (a_bus a) ++ evs ∧ Forall typed evs ∧
      (weights evs + 1 ≤ 2)%nat) as Hfire.
  { intros ifname ev args Heq Hno. rewrite Heq in Hh. revert Hh. st_run.
    destruct (switch_channel.fire_fsm _ _ _ _ _) as [[b|] t1] eqn:Hf; cbn [fst snd]; st_run;
      apply switch_fire in Hf as (Hst1 & evs & Hq & Hsome & Hnone); try done; intros [= <- <-].
    - destruct (Hsome ltac:(done)) as [Hw Ht]. split_and!; [done..|]. exists evs. split_and!; [done..|lia].
    - destruct (Hnone eq_refl) as (q & o & f' & Hr). by destruct (Hno q o f'). }
  assert (obj = None → r1 = Some tt ∧ started (switch_channel.m_fsms t') ∧ a_cac a = a_cac a ∧
    ∃ evs, bus_queue (switch_channel.task_bus t') = bus_queue (a_bus a) ++ evs ∧ Forall typed evs ∧
      (weights evs + 1 ≤ weight (event, obj))%nat) as Hnull.
  { intros ->. cbn in Hh. injection Hh as <- <-. split_and!; [done..|]. exists []. rewrite app_nil_r.
    split_and!; [done..|]. cbn. unfold weight. cbn. destruct event; lia. }
  destruct obj as [obj|]; [|by apply Hnull]. clear Hnull.
  destruct event, obj; cbn in Hty; try done; try set_solver; (eapply Hfire; [reflexivity|]);
    intros q o f' Hr; apply switch_channel.switch_react_fault in Hr; try done.
  by rewrite switch_channel.cac_timeout_sec_defined in Hr.
Qed.

Lemma cac_handle e event obj a r a' : m_started (a_cac a) = true → typed (event, obj) →
  event ∈ coordinated_cac.get_task_event_list →
  on_cac (coordinated_cac.handle_event e event obj) a = (r, a') →
  m_started (a_cac a') = true ∧ a_fsms a' = a_fsms a ∧
  (∃ evs, m_event_queue a' = m_event_queue a ++ evs ∧ Forall typed evs ∧
     (weights evs + potential a' ≤ potential a)%nat) ∧
  (r = None → create_vs_message e = false ∨
     (m_curr_state (a_cac a) = coordinated_cac.IDLE ∧
      ∃ rep, obj = Some (ObjReport rep) ∧ switch_channel_notification rep = None)).
Proof.
  intros Hst Hty Hin. unfold on_cac.
  destruct (coordinated_cac.handle_event _ _ _ _) as [r1 t'] eqn:Hh. intros [= <- <-]. cbn.
  set (concl := m_started _ = true ∧ _).
  assert (∀ ev args, coordinated_cac.handle_event e event obj (coordinated_cac.mkTaskState (a_cac a) (a_bus a))
      = (_ <- coordinated_cac.fire_fsm e ev args ;; fret tt) (coordinated_cac.mkTaskState (a_cac a) (a_bus a)) →
    ev ≠ coordinated_cac.CAC_REQUEST →
    (∀ o f', coordinated_cac.react e (m_curr_state (a_cac a)) ev args o = (None, f') →
       create_vs_message e = false ∨ (m_curr_state (a_cac a) = coordinated_cac.IDLE ∧
         ∃ rep, obj = Some (ObjReport rep) ∧ switch_channel_notification rep = None)) → concl) as Hfire.
  { intros ev args Heq Hev Hfault. rewrite Heq in Hh. revert Hh. st_run.
    destruct (coordinated_cac.fire_fsm _ _ _ _) as [rb t1] eqn:Hf.
    apply cac_fire in Hf as (Hst1 & evs & Hq & Hqm & Hnone); [|done..]. cbn in Hq, Hqm, Hnone.
    intros Hrun. assert (t' = t1 ∧ (r1 = None → rb = None)) as [-> Hr1].
    { destruct rb as [b|]; cbn [fst snd] in Hrun; st_run in Hrun; by injection Hrun as <- <-. }
    unfold concl. split_and!; [done|done| |].
    - exists evs. split; [done|]. unfold potential. cbn. destruct Hqm as [[-> Hw]|(Hw & Hw' & r & ->)].
      + split; [done|]. cbn. repeat case_bool_decide; naive_solver lia.
      + split; [by repeat constructor|]. cbn. rewrite (bool_decide_true (m_curr_state (a_cac a) = _)) by done.
        by rewrite bool_decide_false.
    - intros Hn. destruct (Hnone (Hr1 Hn)) as (o & f' & Hr). by apply (Hfault o f'). }
  assert (obj = None → concl) as Hnull.
  { intros ->. assert (r1 = Some tt ∧ t' = coordinated_cac.mkTaskState (a_cac a) (a_bus a)) as [-> ->]
      by (destruct event; cbn in Hh; by injection Hh as <- <-).
    unfold concl. cbn. split_and!; [done..| |done]. exists []. rewrite app_nil_r. split_and!; [done..|].
    unfold potential. cbn. lia. }
  destruct obj as [obj|]; [|by apply Hnull]. clear Hnull.
  destruct event, obj; cbn in Hty; try done; try set_solver; (eapply Hfire; [reflexivity|done|]);
    intros o f' Hr; apply coordinated_cac.cac_react_fault in Hr; naive_solver.
Qed.

Definition switch_tasks (e : AgentEnv) (event : eTaskEvent) : list (Task Agent coordinated_cac.cmdu_rx) :=
  if bool_decide (event ∈ switch_channel.get_task_event_list) then [SwitchChannelTask e] else [].
Definition cac_tasks (e : AgentEnv) (event : eTaskEvent) : list (Task Agent coordinated_cac.cmdu_rx) :=
  if bool_decide (event ∈ coordinated_cac.get_task_event_list) then [CoordinatedCacTask e] else [].

Lemma tasks_of_agent_pool e event :
  tasks_of (agent_pool e) event = switch_tasks e event ++ cac_tasks e event.
Proof. by destruct event. Qed.

Lemma deliver_switch e event obj a : started (a_fsms a) → typed (event, obj) →
  ∃ a1 evs, deliver (switch_tasks e event) event obj a = (Some tt, a1) ∧ started (a_fsms a1) ∧
    a_cac a1 = a_cac a ∧ m_event_queue a1 = m_event_queue a ++ evs ∧ Forall typed evs ∧
    (weights evs + 1 ≤ weight (event, obj))%nat.
Proof.
  intros Hst Hty. unfold switch_tasks. case_bool_decide as Hin.
  - rewrite deliver_one. cbn [TaskPool.handle_event SwitchChannelTask].
    destruct (on_switch_channel (switch_channel.handle_event e event obj) a) as [r1 a1] eqn:Hh.
    apply switch_handle in Hh as (-> & ? & ? & evs & ? & ? & ?); [|done..]. by exists a1, evs.
  - exists a, []. rewrite app_nil_r. split_and!; try done. unfold weight. destruct event; cbn; lia.
Qed.

Definition null_report (a : Agent) (obj : option event_obj) : Prop :=
  m_curr_state (a_cac a) = coordinated_cac.IDLE ∧
  ∃ rep, obj = Some (ObjReport rep) ∧ switch_channel_notification rep = None.

Lemma deliver_cac e event obj a : m_started (a_cac a) = true → typed (event, obj) →
  ∃ r a1 evs, deliver (cac_tasks e event) event obj a = (r, a1) ∧ m_started (a_cac a1) = true ∧
    a_fsms a1 = a_fsms a ∧ m_event_queue a1 = m_event_queue a ++ evs ∧ Forall typed evs ∧
    (weights evs + potential a1 ≤ potential a)%nat ∧
    (r = None → create_vs_message e = false ∨ null_report a obj).
Proof.
  intros Hst Hty. unfold cac_tasks. case_bool_decide as Hin.
  - rewrite deliver_one. cbn [TaskPool.handle_event CoordinatedCacTask].
    destruct (on_cac (coordinated_cac.handle_event e event obj) a) as [r1 a1] eqn:Hh.
    apply cac_handle in Hh as (? & Hf & (evs & ? & ? & ?) & ?); [|done..].
    destruct r1 as [[]|]; [exists (Some tt), a1, evs|exists None, a1, evs]; split_and!; done.
  - exists (Some tt), a, []. by rewrite app_nil_r.
Qed.

(** One turn of the queue: the event is removed, what it queued is at the end,
    and the measure decreases. *)
Lemma dispatch_agent e event obj q a r a' : agent_inv a → m_event_queue a = (event, obj) :: q →
  dispatch (agent_pool e) event obj a = (r, a') →
  (r = Some tt → agent_inv a' ∧ (agent_measure a' < agent_measure a)%nat) ∧
  (r = None → create_vs_message e = false ∨ null_report a obj).
Proof.
  intros (Hfs & Hst & Hty) Hq. unfold dispatch. st_run. rewrite tasks_of_agent_pool, deliver_app.
  rewrite Hq in Hty. apply Forall_cons in Hty as [Htx Htq].
  destruct (deliver_switch e event obj a Hfs Htx) as (a1 & evs1 & -> & Hfs1 & Hc1 & Hq1 & Hty1 & Hw1).
  rewrite <- Hc1 in Hst.
  destruct (deliver_cac e event obj a1 Hst Htx) as (r2 & a2 & evs2 & -> & Hst2 & Hf2 & Hq2 & Hty2 & Hw2 & Hn2).
  unfold null_report in *. rewrite Hc1 in Hn2. destruct r2 as [[]|]; cbn [fst snd]; st_run; [|by intros [= <- <-]].
  rewrite Hq2, Hq1, Hq. cbn [app tail]. intros Hrun. apply pair_equal_spec in Hrun as [<- <-].
  split; [|done]. intros _.
  assert (potential a1 = potential a) as Hp by (unfold potential; by rewrite Hc1).
  unfold agent_inv, agent_measure. rewrite event_queue_set. split.
  - split_and!; [cbn; by rewrite Hf2|done|]. by rewrite !Forall_app.
  - rewrite !weights_app, Hq. cbn [weights].
    change (potential (set_event_queue ((q ++ evs1) ++ evs2) a2)) with (potential a2). lia.
Qed.

(** ** Theorems *)

(** The events that are undefined: the message for the preference report cannot
    be built, or a report without a channel switch notification reaches the CAC
    task while it is [IDLE]. *)
Definition undefined_event (e : AgentEnv) (obj : option event_obj) (a : Agent) : Prop :=
  create_vs_message e = false ∨
  (m_curr_state (a_cac a) = coordinated_cac.IDLE ∧
   ∃ rep, obj = Some (ObjReport rep) ∧ switch_channel_notification rep = None).

(** A run that is undefined is so at an event it has come to. *)
Lemma run_queue_Faulted e turns : ∀ a a', agent_inv a → run_queue turns (agent_pool e) a = Faulted a' →
  ∃ n a0 event obj q, run_queue n (agent_pool e) a = Running a0 ∧ m_event_queue a0 = (event, obj) :: q ∧
    undefined_event e obj a0.
Proof.
  induction turns as [|turns IH]; intros a a' Hi; cbn [run_queue]; destruct (m_event_queue a) as [|[event obj] q] eqn:Hq; [done..|].
  destruct (dispatch (agent_pool e) event obj a) as [[[]|] a1] eqn:Hd; intros Hf.
  - destruct (dispatch_agent e event obj q a (Some tt) a1 Hi Hq Hd) as [Hi1 _].
    destruct (IH a1 a' (proj1 (Hi1 eq_refl)) Hf) as (n & a0 & ev & o & q0 & Hn & H). exists (S n), a0, ev, o, q0. split; [|done].
    cbn [run_queue]. by rewrite Hq, Hd.
  - exists 0%nat, a, event, obj, q. cbn [run_queue]. rewrite Hq. split_and!; [done..|].
    by apply (dispatch_agent e event obj q a None a1 Hi Hq Hd).
Qed.



(** ** Runs *)

(** What happens to the tasks from outside: a message, an event sent by another
    task, or a call of [run_tasks], with enough turns and without a deadline. *)
Inductive agent_input :=
  | Cmdu (e : AgentEnv) (msg : coordinated_cac.cmdu_rx)
  | Event (ev : eTaskEvent) (obj : event_obj)
  | Run (e : AgentEnv).

Fixpoint agent_run (l : list agent_input) (a : Agent) : outcome Agent :=
  match l with
  | [] => Emptied a
  | Cmdu e msg :: l' =>
      match pool_handle_cmdu (agent_pool e) msg a with
      | (Some _, a') => agent_run l' a'
      | (None, a') => Faulted a'
      end
  | Event ev obj :: l' => agent_run l' (send_event ev (Some obj) a).2
  | Run e :: l' =>
      match run_tasks (agent_measure a) (λ _, false) (agent_pool e) a with
      | (Emptied a', _) => agent_run l' a'
      | (r, _) => r
      end
  end.
