(* ===== verification/CacDatabase.v ===== *)
(** * CAC status of the radios

    [CacStatusDatabase] ([cac_status_database.cpp]): the channels of a radio by
    the state of their availability check, and the report TLVs filled from
    them; with the list operations of [tlvProfile2CacStatusReport] and the loop
    of [ChannelSelectionTask::create_cac_status_report_tlv] over the radios; and
    [CacCapabilitiesDatabase] ([cac_capabilities_database.cpp]). *)

From S2P Require Import Prelude Wire Channels WifiChannel.

Module cac.

(** ** Data *)

(** [eDfsState]; the driver may report another value. *)
Inductive eDfsState := USABLE | UNAVAILABLE | AVAILABLE | NOT_DFS | DFS_UNDEFINED.
#[export] Instance eDfsState_eq_dec : EqDecision eDfsState.
Proof. solve_decision. Defined.

Record sChannelInfo := mkChannelInfo { supported_bw_list : list eWiFiBandwidth; dfs_state : eDfsState }.

(** The members of [AgentDB::sRadio] that are used; [channels_list] in the order
    in which the unordered map is walked. Times are in nanoseconds. *)
Record sRadio := mkRadio {
  iface_mac : sMacAddr;
  wifi_channel : WifiChannel;
  channels_list : list (Z * sChannelInfo);
  cac_completion_time : Z;
  last_switch_channel_request : option (Z * eWiFiBandwidth);
}.

(** [sCacStatus]; the duration is in seconds. *)
Record sCacStatus := mkCacStatus { operating_class : Z; channel : Z; duration : Z }.
#[export] Instance sCacStatus_eq_dec : EqDecision sCacStatus.
Proof. solve_decision. Defined.

(** [operator<], as the order [std::sort] establishes. *)
Definition status_le (a b : sCacStatus) : Prop :=
  operating_class a < operating_class b ∨ (operating_class a = operating_class b ∧ channel a ≤ channel b).
#[export] Instance status_le_dec : RelDecision status_le.
Proof. intros a b. unfold status_le. apply _. Defined.

Record CacStatusDatabase := mkCacStatusDatabase {
  m_available_channels : gmap sMacAddr (list sCacStatus);
  m_non_occupancy_channels : gmap sMacAddr (list sCacStatus);
  m_active_channels : gmap sMacAddr (list sCacStatus);
}.
Definition CacStatusDatabase_init : CacStatusDatabase := mkCacStatusDatabase ∅ ∅ ∅.

(** ** Reading the database *)

Definition get_available_channels (mac : sMacAddr) (db : CacStatusDatabase) : list sCacStatus :=
  default [] (m_available_channels db !! mac).
Definition get_non_occupancy_channels (mac : sMacAddr) (db : CacStatusDatabase) : list sCacStatus :=
  default [] (m_non_occupancy_channels db !! mac).
Definition get_active_channels (mac : sMacAddr) (db : CacStatusDatabase) : list sCacStatus :=
  default [] (m_active_channels db !! mac).

(** ** Updating it *)

Definition radio_freq_type (radio : sRadio) : eFreqType :=
  if is_empty (wifi_channel radio) then FREQ_5G else m_freq_type (wifi_channel radio).

(** The operating class of a channel at a bandwidth; a fault of the channel
    tables is [None]. *)
Definition class_of (ch : Z) (ft : eFreqType) (bw : eWiFiBandwidth) : option Z :=
  wc ← WifiChannel_of_band ch ft bw false; Some (get_operating_class_by_channel wc).

(** One pass over the supported bandwidths of a channel. [entry] gives the
    duration to record, or nothing when the bandwidth is skipped; it gets the
    number of the next reading of the clock, of which each entry has two to
    itself. *)
Fixpoint collect (ch : Z) (ft : eFreqType) (entry : nat → option Z) (k : nat) (bws : list eWiFiBandwidth) :
    option (list sCacStatus * nat) :=
  match bws with
  | [] => Some ([], k)
  | bw :: bws =>
    op ← class_of ch ft bw;
    if op =? 0 then collect ch ft entry k bws
    else
      r ← collect ch ft entry (k + 2) bws;
      Some (match entry k with Some d => mkCacStatus op ch d :: r.1 | None => r.1 end, r.2)
  end.

(** The remaining time of a CAC, from two readings of the clock; none when the
    completion time has passed. *)
Definition remaining (clock : nat → Z) (radio : sRadio) (k : nat) : option Z :=
  if cac_completion_time radio <? clock k then None
  else Some (Z.quot (cac_completion_time radio - clock (S k)) 1000000000).

Record lists := mkLists { l_available : list sCacStatus; l_non_occupancy : list sCacStatus; l_active : list sCacStatus }.

Fixpoint collect_channels (clock : nat → Z) (radio : sRadio) (k : nat) (cl : list (Z * sChannelInfo)) :
    option lists :=
  match cl with
  | [] => Some (mkLists [] [] [])
  | (ch, info) :: cl =>
    let ft := radio_freq_type radio in
    match dfs_state info with
    | AVAILABLE =>
      r ← collect ch ft (λ _, Some 0) k (supported_bw_list info);
      l ← collect_channels clock radio r.2 cl;
      Some (mkLists (r.1 ++ l_available l) (l_non_occupancy l) (l_active l))
    | UNAVAILABLE =>
      r ← collect ch ft (λ _, Some 0) k (supported_bw_list info);
      l ← collect_channels clock radio r.2 cl;
      Some (mkLists (l_available l) (r.1 ++ l_non_occupancy l) (l_active l))
    | USABLE =>
      r ← collect ch ft (remaining clock radio) k (supported_bw_list info);
      l ← collect_channels clock radio r.2 cl;
      Some (mkLists (l_available l) (l_non_occupancy l) (r.1 ++ l_active l))
    | NOT_DFS | DFS_UNDEFINED => collect_channels clock radio k cl
    end
  end.

(** [emplace] of a sorted list that is not empty: an entry that exists stays. *)
Definition emplace_sorted (mac : sMacAddr) (l : list sCacStatus) (m : gmap sMacAddr (list sCacStatus)) :
    gmap sMacAddr (list sCacStatus) :=
  match l with
  | [] => m
  | _ => if m !! mac then m else <[mac := merge_sort status_le l]> m
  end.

(** [update_cac_status_db]; a null pointer is refused. *)
Definition update_cac_status_db (clock : nat → Z) (radio : option sRadio) : faultM CacStatusDatabase bool := λ db,
  match radio with
  | None => (Some false, db)
  | Some radio =>
    match collect_channels clock radio 0 (channels_list radio) with
    | None => (None, db)
    | Some (mkLists [] [] []) => (Some false, db)
    | Some (mkLists a n c) =>
      let mac := iface_mac radio in
      (Some true, mkCacStatusDatabase (emplace_sorted mac a (m_available_channels db))
                    (emplace_sorted mac n (m_non_occupancy_channels db)) (emplace_sorted mac c (m_active_channels db)))
    end
  end.

(** ** The status report *)

(** [sAvailableChannels], [sDetectedPairs], [sActiveCacPairs]: class, channel and
    the third field in host order; the countdown is three bytes. *)
Definition entry3 : Type := Z * Z * Z.
Definition entry_active : Type := Z * Z * list Z.

(** A [tlvProfile2CacStatusReport] under construction: its lists, the lock
    order counter and the bytes left in the buffer. *)
Record StatusReport := mkStatusReport {
  sr_available : list entry3;
  sr_detected : list entry3;
  sr_active : list entry_active;
  m_lock_order_counter : nat;
  sr_room : nat;
}.

(** The number of entries on the wire is a [uint8_t] to which each allocation
    adds its count: the length of the list modulo 256. *)
Definition wire_count {A} (l : list A) : Z := u8 (Z.of_nat (length l)).

(** The list after [alloc_x(count)]. The bytes behind the first [wire_count]
    entries are copied [count] entries further up, and the last [count] entries
    initialized; this appends them unless the count has wrapped. *)
Definition grow_list {A} (zero : A) (count : nat) (l : list A) : list A :=
  let n := Z.to_nat (wire_count l) in
  take (n + count) l ++ take (length l - (n + count)) (drop n l) ++ replicate count zero.

(** [alloc_x(count)]. *)
Definition alloc_available_channels (count : nat) : faultM StatusReport bool := λ r,
  if (0 <? m_lock_order_counter r)%nat then (Some false, r)
  else if (sr_room r <? 4 * count)%nat then (Some false, r)
  else (Some true, mkStatusReport (grow_list (0, 0, 0) count (sr_available r)) (sr_detected r) (sr_active r) 0
                     (sr_room r - 4 * count)).
Definition alloc_detected_pairs (count : nat) : faultM StatusReport bool := λ r,
  if (1 <? m_lock_order_counter r)%nat then (Some false, r)
  else if (sr_room r <? 4 * count)%nat then (Some false, r)
  else (Some true, mkStatusReport (sr_available r) (grow_list (0, 0, 0) count (sr_detected r)) (sr_active r) 1
                     (sr_room r - 4 * count)).
Definition alloc_active_cac_pairs (count : nat) : faultM StatusReport bool := λ r,
  if (2 <? m_lock_order_counter r)%nat then (Some false, r)
  else if (sr_room r <? 5 * count)%nat then (Some false, r)
  else (Some true, mkStatusReport (sr_available r) (sr_detected r) (grow_list (0, 0, [0; 0; 0]) count (sr_active r)) 2
                     (sr_room r - 5 * count)).

(** Writing through [std::get<1>(x(i))]: an index out of range gives the first
    element, and of an empty list a reference outside of it. *)
Definition put_entry {A} (i : nat) (v : A) (l : list A) : option (list A) :=
  match l with
  | [] => None
  | _ => Some (<[(if (i <? length l)%nat then i else 0%nat) := v]> l)
  end.

Fixpoint put_entries {A} (i : nat) (vs : list A) (l : list A) : option (list A) :=
  match vs with
  | [] => Some l
  | v :: vs => l ← put_entry i v l; put_entries (S i) vs l
  end.

Definition available_entry (ft : eFreqType) (s : sCacStatus) : entry3 :=
  (operating_class s, channel s, if is_dfs_channel (channel s) ft then u16 (Z.quot (duration s) 60) else 0).
Definition detected_entry (s : sCacStatus) : entry3 := (operating_class s, channel s, u16 (duration s)).
(** The low three bytes of the countdown, in the order of the host. *)
Definition active_entry (s : sCacStatus) : entry_active :=
  (operating_class s, channel s,
   [u8 (duration s); u8 (Z.shiftr (duration s) 8); u8 (Z.shiftr (duration s) 16)]).

(** One list of the report: a failed allocation is only logged. *)
Definition fill {A} (alloc : nat → faultM StatusReport bool) (entry : sCacStatus → A)
    (get : StatusReport → list A) (set : list A → StatusReport → StatusReport) (l : list sCacStatus) :
    faultM StatusReport unit :=
  _ <- (match l with [] => fret true | _ => alloc (length l) end) ;;
  λ r, match put_entries 0 (entry <$> l) (get r) with
       | None => (None, r)
       | Some es => (Some tt, set es r)
       end.

Definition set_available l r := mkStatusReport l (sr_detected r) (sr_active r) (m_lock_order_counter r) (sr_room r).
Definition set_detected l r := mkStatusReport (sr_available r) l (sr_active r) (m_lock_order_counter r) (sr_room r).
Definition set_active l r := mkStatusReport (sr_available r) (sr_detected r) l (m_lock_order_counter r) (sr_room r).

Definition fill_report (radio : sRadio) (db : CacStatusDatabase) : faultM StatusReport unit :=
  let mac := iface_mac radio in
  _ <- fill alloc_available_channels (available_entry (m_freq_type (wifi_channel radio))) sr_available set_available
         (get_available_channels mac db) ;;
  _ <- fill alloc_detected_pairs detected_entry sr_detected set_detected (get_non_occupancy_channels mac db) ;;
  fill alloc_active_cac_pairs active_entry sr_active set_active (get_active_channels mac db).

Definition add_cac_status_report_tlv (clock : nat → Z) (radio : option sRadio) :
    faultM (CacStatusDatabase * StatusReport) bool := λ s,
  match radio with
  | None => (Some false, s)
  | Some rd =>
    match update_cac_status_db clock radio s.1 with
    | (None, db) => (None, (db, s.2))
    | (Some false, db) => (Some false, (db, s.2))
    | (Some true, db) => let '(r, report) := fill_report rd db s.2 in ((λ _, true) <$> r, (db, report))
    end
  end.

(** [create_cac_status_report_tlv]: the radios whose preferences are ready, by
    address; the first that fails ends the loop. *)
Fixpoint report_radios (clock : nat → Z) (get_radio_by_mac : sMacAddr → option sRadio) (macs : list sMacAddr) :
    faultM (CacStatusDatabase * StatusReport) bool :=
  match macs with
  | [] => fret true
  | mac :: macs =>
    match get_radio_by_mac mac with
    | None => fret false
    | Some radio =>
      ok <- add_cac_status_report_tlv clock (Some radio) ;;
      if negb ok then fret false else report_radios clock get_radio_by_mac macs
    end
  end.

Definition create_cac_status_report_tlv (clock : nat → Z) (get_radio_by_mac : sMacAddr → option sRadio)
    (macs : list sMacAddr) (room : nat) : option bool * StatusReport :=
  let '(r, (_, report)) :=
    report_radios clock get_radio_by_mac macs (CacStatusDatabase_init, mkStatusReport [] [] [] 0 room) in
  (r, report).

(** ** The completion report *)

Inductive eCacCompletionStatus :=
  | SUCCESSFUL | RADAR_DETECTED | CAC_NOT_SUPPORTED | RADIO_TOO_BUSY | NOT_UNDER_REGULATION | OTHER_ERROR | NOT_PERFORMED.

Record sCacCompletionStatus := mkCompletionStatus {
  cs_operating_class : Z; cs_channel : Z; completion_status : eCacCompletionStatus;
  overlapping_channels : list (Z * Z);
}.
Definition no_completion : sCacCompletionStatus := mkCompletionStatus 0 0 NOT_PERFORMED [].

Fixpoint classes_of (ft : eFreqType) (l : list (Z * eWiFiBandwidth)) : option (list (Z * Z)) :=
  match l with
  | [] => Some []
  | (ch, bw) :: l => op ← class_of ch ft bw; r ← classes_of ft l; Some ((op, ch) :: r)
  end.

Definition get_completion_status (radio : option sRadio) : option sCacCompletionStatus :=
  match radio with
  | None => Some no_completion
  | Some radio =>
    let ft := radio_freq_type radio in
    match last_switch_channel_request radio with
    | None => Some no_completion
    | Some (main_channel, bandwidth) =>
      match snd <$> (snd <$> list_find (λ c, c.1 = main_channel) (channels_list radio)) with
      | None => Some no_completion
      | Some info =>
        op ← class_of main_channel ft bandwidth;
        if decide (dfs_state info = UNAVAILABLE) then
          l ← classes_of ft (get_overlapping_5g_channels main_channel);
          Some (mkCompletionStatus op main_channel RADAR_DETECTED l)
        else Some (mkCompletionStatus op main_channel SUCCESSFUL [])
      end
    end
  end.

(** [cCacCompletionReportRadio] as [add_cac_completion_report_tlv] fills it:
    [created] and [alloc_ok] are the results of [create_cac_radios] and
    [alloc_detected_pairs]. *)
Record CompletionRadio := mkCompletionRadio {
  cr_radio_uid : sMacAddr; cr_status : sCacCompletionStatus; cr_detected_pairs : list (Z * Z);
}.
Definition add_cac_completion_report_tlv (created alloc_ok : bool) (radio : option sRadio) :
    faultM (list CompletionRadio) bool := λ l,
  match radio with
  | None => (Some false, l)
  | Some rd =>
    if negb created then (Some false, l)
    else
      match get_completion_status radio with
      | None => (None, l)
      | Some s => (Some true, l ++ [mkCompletionRadio (iface_mac rd) s
                                      (if alloc_ok then overlapping_channels s else [])])
      end
  end.

(** [create_cac_completion_report_tlv]: whether the TLV takes another radio and
    its pairs depends on what it holds. *)
Fixpoint create_cac_completion_report_tlv (created alloc_ok : list CompletionRadio → bool)
    (get_radio_by_mac : sMacAddr → option sRadio) (macs : list sMacAddr) : faultM (list CompletionRadio) bool := λ l,
  match macs with
  | [] => (Some true, l)
  | mac :: macs =>
    match get_radio_by_mac mac with
    | None => (Some false, l)
    | Some radio =>
      (ok <- add_cac_completion_report_tlv (created l) (alloc_ok l) (Some radio) ;;
       if negb ok then fret false
       else create_cac_completion_report_tlv created alloc_ok get_radio_by_mac macs) l
    end
  end.

(** ** Capabilities *)

Inductive eCacMethod := CONTINUOUS_CAC | CONTINUOUS_CAC_WITH_DEDICATED_RADIO | MIMO_DIMENSION_REDUCED | TIME_SLICED.
#[export] Instance eCacMethod_eq_dec : EqDecision eCacMethod.
Proof. solve_decision. Defined.

(** The agent's database as far as it is read: the radios (a pointer may be
    null), the capabilities of a radio by method, the dedicated radio flag. *)
Record CapabilitiesDb := mkCapabilitiesDb {
  cd_radios : list (option sRadio);
  cd_radio_by_mac : sMacAddr → option sRadio;
  cd_methods : sMacAddr → list (eCacMethod * (Z * list (Z * list Z)));
  cd_zwdfs_flag : Z;
}.

Fixpoint radios_5g (l : list (option sRadio)) : option (list sRadio) :=
  match l with
  | [] => Some []
  | None :: _ => None
  | Some r :: l =>
    rs ← radios_5g l; Some (if freq_eq (m_freq_type (wifi_channel r)) FREQ_5G then r :: rs else rs)
  end.
Definition get_cac_radios (d : CapabilitiesDb) : list sMacAddr :=
  match radios_5g (cd_radios d) with None => [] | Some l => iface_mac <$> l end.

Definition is_cac_method_supported (d : CapabilitiesDb) (mac : sMacAddr) (method : eCacMethod) : bool :=
  match cd_radio_by_mac d mac with
  | None => false
  | Some radio =>
    if negb (freq_eq (m_freq_type (wifi_channel radio)) FREQ_5G) then false
    else match method with
         | CONTINUOUS_CAC => true
         | CONTINUOUS_CAC_WITH_DEDICATED_RADIO => 0 <? cd_zwdfs_flag d
         | _ => false
         end
  end.

Definition method_capabilities (d : CapabilitiesDb) (mac : sMacAddr) (method : eCacMethod) :
    option (Z * list (Z * list Z)) :=
  snd <$> (snd <$> list_find (λ c, c.1 = method) (cd_methods d mac)).
Definition get_cac_completion_duration (d : CapabilitiesDb) (mac : sMacAddr) (method : eCacMethod) : Z :=
  match cd_radio_by_mac d mac with
  | None => 0
  | Some _ => match method_capabilities d mac method with None => 0 | Some c => c.1 end
  end.
Definition get_cac_operating_classes (d : CapabilitiesDb) (mac : sMacAddr) (method : eCacMethod) : list (Z * list Z) :=
  match cd_radio_by_mac d mac with
  | None => []
  | Some _ => match method_capabilities d mac method with None => [] | Some c => c.2 end
  end.

(** [get_radio_cac_methods]: the first member of the pair is never set. *)
Definition get_radio_cac_methods (d : CapabilitiesDb) (radio : sMacAddr) : list eCacMethod :=
  filter (λ m, is_cac_method_supported d radio m = true)
    [CONTINUOUS_CAC; CONTINUOUS_CAC_WITH_DEDICATED_RADIO; MIMO_DIMENSION_REDUCED; TIME_SLICED].

End cac.

Import cac.

(** ** Lemmas *)

(** The constructor of [WifiChannel] always finds its tables. *)
Lemma class_of_total ch ft bw : byte_ok ch → is_Some (class_of ch ft bw).
Proof.
  intros Hb. unfold class_of. pose proof (WifiChannel_of_band_checked ft ch bw false Hb) as Hc.
  destruct (WifiChannel_of_band ch ft bw false); [by eexists|]. done.
Qed.

(** The operating classes of a channel at the bandwidths it supports. *)
Definition classes_at (ft : eFreqType) (c : Z * sChannelInfo) : list (Z * Z) :=
  (λ op, (op, c.1)) <$> filter (λ op, op ≠ 0) (default 0 <$> (class_of c.1 ft <$> supported_bw_list c.2)).

(** What a radio has to report of the channels in a state. *)
Definition in_state (st : eDfsState) (radio : sRadio) : list (Z * Z) :=
  concat (classes_at (radio_freq_type radio) <$> filter (λ c, dfs_state c.2 = st) (channels_list radio)).

Definition pair_of (s : sCacStatus) : Z * Z := (operating_class s, channel s).

Definition channels_ok (radio : sRadio) : Prop := Forall (λ c, byte_ok c.1) (channels_list radio).

(** [collect] when every entry is recorded. *)
Lemma collect_run ch ft info entry : byte_ok ch → (∀ k, is_Some (entry k)) → ∀ k, ∃ l k',
  collect ch ft entry k (supported_bw_list info) = Some (l, k') ∧ pair_of <$> l = classes_at ft (ch, info) ∧
  Forall (λ s, ∃ j, entry j = Some (duration s)) l.
Proof.
  intros Hb He. unfold classes_at. cbn [fst snd]. induction (supported_bw_list info) as [|bw bws IH]; intros k; cbn [collect].
  { by exists [], k. }
  destruct (class_of_total ch ft bw Hb) as [op Hop]. rewrite Hop. cbn [mbind option_bind fmap list_fmap].
  rewrite Hop, filter_cons. cbn [default]. destruct (Z.eqb_spec op 0) as [->|Hne].
  { rewrite decide_False by (by intros []). apply IH. }
  rewrite decide_True by done. destruct (IH (k + 2)%nat) as (l & k' & -> & Hl & Hd). cbn [mbind option_bind fst snd].
  destruct (He k) as [d Hdk]. rewrite Hdk. exists (mkCacStatus op ch d :: l), k'. split; [done|]. split.
  - cbn. by rewrite Hl.
  - constructor; [by exists k|done].
Qed.

(** The CAC has not passed its estimated completion at any reading. *)
Definition cac_running (clock : nat → Z) (radio : sRadio) : Prop := ∀ k, clock k ≤ cac_completion_time radio.

(** The list that is kept for a state. *)
Definition kept (st : eDfsState) (ls : lists) : list sCacStatus :=
  match st with AVAILABLE => l_available ls | UNAVAILABLE => l_non_occupancy ls | USABLE => l_active ls | _ => [] end.
Definition reported_state (st : eDfsState) : Prop := st ∈ [AVAILABLE; UNAVAILABLE; USABLE].

(** No time is recorded but the rest of a running CAC. *)
Definition duration_ok (clock : nat → Z) (radio : sRadio) (st : eDfsState) (s : sCacStatus) : Prop :=
  match st with
  | USABLE => ∃ j, duration s = Z.quot (cac_completion_time radio - clock j) 1000000000
  | _ => duration s = 0
  end.

Lemma collect_state clock radio ch info k : cac_running clock radio → byte_ok ch → ∃ l k',
  collect ch (radio_freq_type radio)
    (match dfs_state info with USABLE => remaining clock radio | _ => λ _, Some 0 end) k (supported_bw_list info)
    = Some (l, k') ∧
  pair_of <$> l = classes_at (radio_freq_type radio) (ch, info) ∧ Forall (duration_ok clock radio (dfs_state info)) l.
Proof.
  intros Hrun Hb. destruct (collect_run ch (radio_freq_type radio) info
    (match dfs_state info with USABLE => remaining clock radio | _ => λ _, Some 0 end) Hb) with (k := k) as (l & k' & Hc & Hp & Hd).
  { intros j. destruct (dfs_state info); try by eexists. unfold remaining. rewrite (proj2 (Z.ltb_ge _ _)) by apply Hrun. by eexists. }
  exists l, k'. split; [done|]. split; [done|]. eapply Forall_impl; [exact Hd|]. intros s [j Hj].
  unfold duration_ok. destruct (dfs_state info); try by simplify_eq.
  unfold remaining in Hj. destruct (_ <? _); [done|]. exists (S j). by simplify_eq.
Qed.

Lemma collect_channels_run clock radio cl : cac_running clock radio → Forall (λ c, byte_ok c.1) cl → ∀ k, ∃ ls,
  collect_channels clock radio k cl = Some ls ∧
  ∀ st, reported_state st →
    pair_of <$> kept st ls = concat (classes_at (radio_freq_type radio) <$> filter (λ c, dfs_state c.2 = st) cl) ∧
    Forall (duration_ok clock radio st) (kept st ls).
Proof.
  intros Hrun Hcl. induction Hcl as [|[ch info] cl Hb _ IH]; intros k; cbn [collect_channels].
  { exists (mkLists [] [] []). split; [done|]. intros st _. by destruct st. }
  cbn in Hb. destruct (collect_state clock radio ch info k Hrun Hb) as (l & k' & Hc & Hp & Hd).
  destruct (dfs_state info) eqn:Hst; cbn [mbind option_bind];
    [rewrite Hc; cbn [mbind option_bind fst snd]; destruct (IH k') as (ls & -> & Hls)..|destruct (IH k) as (ls & -> & Hls)|destruct (IH k) as (ls & -> & Hls)].
  all: eexists; split; [done|]; intros st Hr; specialize (Hls st Hr) as [H1 H2]; rewrite filter_cons; cbn [snd]; rewrite Hst;
    destruct st; cbn [kept l_available l_non_occupancy l_active] in *; try (rewrite decide_False by done; by split); try (rewrite decide_True by done).
  all: try (cbn [fmap list_fmap concat]; rewrite fmap_app, Hp, H1; split; [done|by apply Forall_app]).
  all: exfalso; revert Hr; unfold reported_state; set_solver.
Qed.

(** ** Theorems *)

Lemma pair_sorted l : Sorted status_le (merge_sort status_le l).
Proof.
  apply Sorted_merge_sort. intros a b. unfold status_le. lia.
Qed.

Lemma emplace_new mac l m : m !! mac = None →
  default [] (emplace_sorted mac l m !! mac) = merge_sort status_le l.
Proof.
  intros Hm. unfold emplace_sorted. destruct l as [|s l]; [by rewrite Hm|]. by rewrite Hm, lookup_insert_eq.
Qed.

Lemma update_run clock radio db a n c :
  collect_channels clock radio 0 (channels_list radio) = Some (mkLists a n c) →
  update_cac_status_db clock (Some radio) db
  = (Some (negb (bool_decide ((pair_of <$> a) ++ (pair_of <$> n) ++ (pair_of <$> c) = []))),
     mkCacStatusDatabase (emplace_sorted (iface_mac radio) a (m_available_channels db))
       (emplace_sorted (iface_mac radio) n (m_non_occupancy_channels db))
       (emplace_sorted (iface_mac radio) c (m_active_channels db))).
Proof. intros Hc. unfold update_cac_status_db. rewrite Hc. by destruct a, n, c, db. Qed.

Lemma sorted_pairs st clock radio l : Forall (duration_ok clock radio st) l →
  pair_of <$> merge_sort status_le l ≡ₚ pair_of <$> l ∧ Sorted status_le (merge_sort status_le l) ∧
  Forall (duration_ok clock radio st) (merge_sort status_le l).
Proof.
  intros Hd. split; [by rewrite merge_sort_Permutation|]. split; [apply pair_sorted|]. by rewrite merge_sort_Permutation.
Qed.

(** For a radio that is new to the database, [update_cac_status_db] records
    under its address, for each of the three states, exactly the operating
    classes and channels of the channels in that state at the bandwidths they
    support, sorted; without a time but the rest of the running CAC. It reports
    whether there was anything to record, and never leaves the channel tables. *)
Theorem cac_status_recorded clock radio db : channels_ok radio → cac_running clock radio →
  let mac := iface_mac radio in
  m_available_channels db !! mac = None → m_non_occupancy_channels db !! mac = None → m_active_channels db !! mac = None →
  ∃ db', update_cac_status_db clock (Some radio) db
    = (Some (negb (bool_decide (in_state AVAILABLE radio ++ in_state UNAVAILABLE radio ++ in_state USABLE radio = []))), db') ∧
  ∀ st l, (st, l) ∈ [(AVAILABLE, get_available_channels mac db'); (UNAVAILABLE, get_non_occupancy_channels mac db');
                     (USABLE, get_active_channels mac db')] →
    pair_of <$> l ≡ₚ in_state st radio ∧ Sorted status_le l ∧ Forall (duration_ok clock radio st) l.
Proof.
  intros Hch Hrun mac Ha Hn Hc.
  destruct (collect_channels_run clock radio (channels_list radio) Hrun Hch 0) as ([a n c] & Hcol & Hls).
  destruct (Hls AVAILABLE ltac:(unfold reported_state; set_solver)) as [H1 D1].
  destruct (Hls UNAVAILABLE ltac:(unfold reported_state; set_solver)) as [H2 D2].
  destruct (Hls USABLE ltac:(unfold reported_state; set_solver)) as [H3 D3].
  unfold in_state. rewrite (update_run _ _ _ _ _ _ Hcol), <- H1, <- H2, <- H3. eexists. split; [done|].
  intros st l Hin. unfold get_available_channels, get_non_occupancy_channels, get_active_channels in Hin.
  cbn [m_available_channels m_non_occupancy_channels m_active_channels] in Hin. fold mac in Hin.
  rewrite !emplace_new in Hin by done. rewrite !elem_of_cons, elem_of_nil in Hin.
  destruct Hin as [Hin|[Hin|[Hin|[]]]]; simplify_eq; [rewrite <- H1|rewrite <- H2|rewrite <- H3]; by apply sorted_pairs.
Qed.

(** What was recorded for a radio is never replaced, whatever its channels
    have become. *)
Theorem recorded_channels_stay clock radio db l : m_available_channels db !! iface_mac radio = Some l →
  get_available_channels (iface_mac radio) (update_cac_status_db clock (Some radio) db).2 = l.
Proof.
  intros Hl. unfold update_cac_status_db. destruct (collect_channels _ _ _ _) as [[a n c]|].
  2: { unfold get_available_channels. cbn [snd]. by rewrite Hl. }
  assert (default [] (emplace_sorted (iface_mac radio) a (m_available_channels db) !! iface_mac radio) = l) as He.
  { unfold emplace_sorted. destruct a; [by rewrite Hl|]. rewrite Hl. by rewrite Hl. }
  unfold get_available_channels. destruct a, n, c; cbn [snd m_available_channels]; exact He.
Qed.

(** ** The report *)

Lemma put_entries_run {A} (vs l : list A) : ∀ pre, (length vs ≤ length l)%nat →
  put_entries (length pre) vs (pre ++ l) = Some (pre ++ vs ++ drop (length vs) l).
Proof.
  revert l. induction vs as [|v vs IH]; intros l pre Hl; [done|]. cbn [length] in Hl.
  destruct l as [|x l]; [cbn in Hl; lia|]. cbn [put_entries]. unfold put_entry.
  destruct (pre ++ x :: l) as [|y l'] eqn:E; [by destruct pre|]. rewrite <- E.
  rewrite (proj2 (Nat.ltb_lt _ _)) by (rewrite length_app; cbn; lia).
  rewrite insert_app_r_alt, Nat.sub_diag by lia. cbn [insert list_insert mbind option_bind].
  pose proof (IH l (pre ++ [v]) ltac:(cbn in Hl; lia)) as H. rewrite length_app, <- !app_assoc in H. cbn in H.
  rewrite Nat.add_1_r in H. exact H.
Qed.

Lemma grow_list_append {A} (zero : A) count l : (length l ≤ 255)%nat → grow_list zero count l = l ++ replicate count zero.
Proof.
  intros Hl. unfold grow_list, wire_count, u8. rewrite Z.mod_small, Nat2Z.id by lia.
  rewrite take_ge, drop_all, take_nil by lia. done.
Qed.

(** Room for what a radio has to report, when no count of the report has
    wrapped yet. *)
Definition fits (radio : sRadio) (db : CacStatusDatabase) (r : StatusReport) : Prop :=
  let mac := iface_mac radio in
  (length (sr_available r) ≤ 255)%nat ∧ (length (sr_detected r) ≤ 255)%nat ∧ (length (sr_active r) ≤ 255)%nat ∧
  (4 * length (get_available_channels mac db) + 4 * length (get_non_occupancy_channels mac db)
   + 5 * length (get_active_channels mac db) ≤ sr_room r)%nat.

(** A list that is allocated and filled: the entries are written from the
    beginning of the list, not behind those that were there. *)
Definition overwrite {A} (zero : A) (old new : list A) : list A := new ++ drop (length new) (old ++ replicate (length new) zero).

(** One list of the report, when its allocation [alloc] succeeds. *)
Lemma fill_list_run {A} alloc (entry : sCacStatus → A) get set l zero r lock room :
  (∀ x r, get (set x r) = x) → set (get r) r = r →
  (l ≠ [] → ∃ r1, alloc (length l) r = (Some true, r1) ∧ get r1 = get r ++ replicate (length l) zero ∧
     ∀ es, set es r1 = set es (mkStatusReport (sr_available r) (sr_detected r) (sr_active r) lock room)) →
  ∃ r', fill alloc entry get set l r = (Some tt, r') ∧
  r' = match l with
       | [] => r
       | _ => set (overwrite zero (get r) (entry <$> l))
                (mkStatusReport (sr_available r) (sr_detected r) (sr_active r) lock room)
       end.
Proof.
  intros Hgs Hsg Hal. unfold fill. destruct l as [|s l].
  { rewrite fbind_run, fret_run. cbn [fst snd fmap list_fmap put_entries]. rewrite Hsg. by eexists. }
  destruct (Hal ltac:(done)) as (r1 & Hr1 & Hg & Hs). rewrite fbind_run, Hr1. cbn [fst snd]. rewrite Hg.
  pose proof (put_entries_run (entry <$> s :: l) (get r ++ replicate (length (s :: l)) zero) []) as Hp.
  rewrite !app_nil_l in Hp. change (length (@nil A)) with 0%nat in Hp. rewrite Hp by (rewrite length_app, length_replicate, length_fmap; cbn; lia).
  rewrite Hs. unfold overwrite. rewrite !length_fmap. by eexists.
Qed.

Lemma overwrite_nil {A} (zero : A) old : overwrite zero old [] = old.
Proof. unfold overwrite. cbn. by rewrite app_nil_r. Qed.

Lemma fill_available entry l a d c room : (length a ≤ 255)%nat → (4 * length l ≤ room)%nat →
  fill alloc_available_channels entry sr_available set_available l (mkStatusReport a d c 0 room)
  = (Some tt, mkStatusReport (overwrite (0, 0, 0) a (entry <$> l)) d c 0 (room - 4 * length l)).
Proof.
  intros Hl Hroom.
  destruct (fill_list_run alloc_available_channels entry sr_available set_available l (0, 0, 0) (mkStatusReport a d c 0 room)
    0%nat (room - 4 * length l)) as (r' & -> & ->); [done|done| |].
  - intros _. unfold alloc_available_channels. cbn [m_lock_order_counter sr_room sr_available].
    rewrite (proj2 (Nat.ltb_ge _ _) Hroom), grow_list_append by done. by eexists.
  - destruct l; [|done]. cbn [fmap list_fmap length]. by rewrite overwrite_nil, Nat.mul_0_r, Nat.sub_0_r.
Qed.

Lemma fill_detected entry l a d c lock room : (lock ≤ 1)%nat → (length d ≤ 255)%nat → (4 * length l ≤ room)%nat →
  ∃ lock', (lock' ≤ 1)%nat ∧
  fill alloc_detected_pairs entry sr_detected set_detected l (mkStatusReport a d c lock room)
  = (Some tt, mkStatusReport a (overwrite (0, 0, 0) d (entry <$> l)) c lock' (room - 4 * length l)).
Proof.
  intros Hk Hl Hroom.
  destruct (fill_list_run alloc_detected_pairs entry sr_detected set_detected l (0, 0, 0) (mkStatusReport a d c lock room)
    1%nat (room - 4 * length l)) as (r' & -> & ->); [done|done| |].
  - intros _. unfold alloc_detected_pairs. cbn [m_lock_order_counter sr_room sr_detected].
    rewrite (proj2 (Nat.ltb_ge _ _) Hk), (proj2 (Nat.ltb_ge _ _) Hroom), grow_list_append by done. by eexists.
  - destruct l; [exists lock|by exists 1%nat]. cbn [fmap list_fmap length].
    by rewrite overwrite_nil, Nat.mul_0_r, Nat.sub_0_r.
Qed.

Lemma fill_active entry l a d c lock room : (lock ≤ 2)%nat → (length c ≤ 255)%nat → (5 * length l ≤ room)%nat →
  ∃ r', fill alloc_active_cac_pairs entry sr_active set_active l (mkStatusReport a d c lock room) = (Some tt, r') ∧
  sr_available r' = a ∧ sr_detected r' = d ∧ sr_active r' = overwrite (0, 0, [0; 0; 0]) c (entry <$> l).
Proof.
  intros Hk Hl Hroom.
  destruct (fill_list_run alloc_active_cac_pairs entry sr_active set_active l (0, 0, [0; 0; 0]) (mkStatusReport a d c lock room)
    2%nat (room - 5 * length l)) as (r' & -> & ->); [done|done| |].
  - intros _. unfold alloc_active_cac_pairs. cbn [m_lock_order_counter sr_room sr_active].
    rewrite (proj2 (Nat.ltb_ge _ _) Hk), (proj2 (Nat.ltb_ge _ _) Hroom), grow_list_append by done. by eexists.
  - eexists. split; [done|]. destruct l; [|done]. cbn [sr_available sr_detected sr_active fmap list_fmap]. by rewrite overwrite_nil.
Qed.

Lemma fill_report_run radio db r : m_lock_order_counter r = 0%nat → fits radio db r →
  let mac := iface_mac radio in
  ∃ r', fill_report radio db r = (Some tt, r') ∧
  sr_available r' = overwrite (0, 0, 0) (sr_available r)
    (available_entry (m_freq_type (wifi_channel radio)) <$> get_available_channels mac db) ∧
  sr_detected r' = overwrite (0, 0, 0) (sr_detected r) (detected_entry <$> get_non_occupancy_channels mac db) ∧
  sr_active r' = overwrite (0, 0, [0; 0; 0]) (sr_active r) (active_entry <$> get_active_channels mac db).
Proof.
  destruct r as [a d c lock room]. intros Hlock (Ha & Hd & Hc & Hroom) mac. unfold fill_report. fold mac.
  cbn [m_lock_order_counter sr_available sr_detected sr_active sr_room] in *. subst lock. fold mac in Ha, Hd, Hc, Hroom.
  rewrite fbind_run, fill_available by lia. cbn [fst snd]. rewrite fbind_run.
  destruct (fill_detected detected_entry (get_non_occupancy_channels mac db)
    (overwrite (0, 0, 0) a (available_entry (m_freq_type (wifi_channel radio)) <$> get_available_channels mac db))
    d c 0 (room - 4 * length (get_available_channels mac db))) as (lock & Hlock & ->); [lia..|]. cbn [fst snd].
  apply fill_active; lia.
Qed.

(** The entries of a radio are written over those of the radios before it: the
    list grows by as many entries, and ends with what was not overwritten and
    with zeros. *)
Theorem later_radio_overwrites clock radio db db' r : let mac := iface_mac radio in
  update_cac_status_db clock (Some radio) db = (Some true, db') → m_lock_order_counter r = 0%nat → fits radio db' r →
  ∃ r', add_cac_status_report_tlv clock (Some radio) (db, r) = (Some true, (db', r')) ∧
  sr_available r' = overwrite (0, 0, 0) (sr_available r)
    (available_entry (m_freq_type (wifi_channel radio)) <$> get_available_channels mac db') ∧
  sr_detected r' = overwrite (0, 0, 0) (sr_detected r) (detected_entry <$> get_non_occupancy_channels mac db') ∧
  sr_active r' = overwrite (0, 0, [0; 0; 0]) (sr_active r) (active_entry <$> get_active_channels mac db').
Proof.
  intros mac Hup Hlock Hfit. unfold add_cac_status_report_tlv. cbn [fst snd]. rewrite Hup.
  destruct (fill_report_run radio db' r Hlock Hfit) as (r' & -> & Hr). by exists r'.
Qed.

Lemma overwrite_new {A} (zero : A) new : overwrite zero [] new = new.
Proof. unfold overwrite. rewrite app_nil_l, drop_replicate, Nat.sub_diag. apply app_nil_r. Qed.

Lemma report_one clock get mac radio room db' : get mac = Some radio →
  update_cac_status_db clock (Some radio) CacStatusDatabase_init = (Some true, db') →
  fits radio db' (mkStatusReport [] [] [] 0 room) →
  ∃ report, create_cac_status_report_tlv clock get [mac] room = (Some true, report) ∧
  sr_available report = available_entry (m_freq_type (wifi_channel radio)) <$> get_available_channels (iface_mac radio) db' ∧
  sr_detected report = detected_entry <$> get_non_occupancy_channels (iface_mac radio) db' ∧
  sr_active report = active_entry <$> get_active_channels (iface_mac radio) db'.
Proof.
  intros Hget Hup Hfit. destruct (later_radio_overwrites clock radio _ _ (mkStatusReport [] [] [] 0 room) Hup eq_refl Hfit) as (r' & Hadd & Hr).
  cbn [sr_available sr_detected sr_active] in Hr. rewrite !overwrite_new in Hr.
  unfold create_cac_status_report_tlv. cbn [report_radios]. rewrite Hget, fbind_run, Hadd. by exists r'.
Qed.

(** The class and the channel of the entries of a list. *)
Definition entry_pairs {A} (l : list (Z * Z * A)) : list (Z * Z) := fst <$> l.

Lemma entries_in_state {A} (entry : sCacStatus → Z * Z * A) st clock radio l :
  (∀ s, (entry s).1 = pair_of s) →
  pair_of <$> l ≡ₚ in_state st radio ∧ Sorted status_le l ∧ Forall (duration_ok clock radio st) l →
  entry_pairs (entry <$> l) ≡ₚ in_state st radio.
Proof.
  intros He [<- _]. unfold entry_pairs. rewrite <- list_fmap_compose. by rewrite (list_fmap_ext (fst ∘ entry) pair_of l) by (intros ? s _; apply He).
Qed.

(** The counts follow from the entries. *)
Lemma counted_entries (f : StatusReport → Prop) la ln lc :
  (∃ report, f report ∧ entry_pairs (sr_available report) ≡ₚ la ∧ entry_pairs (sr_detected report) ≡ₚ ln ∧
     entry_pairs (sr_active report) ≡ₚ lc) →
  ∃ report, f report ∧ entry_pairs (sr_available report) ≡ₚ la ∧ entry_pairs (sr_detected report) ≡ₚ ln ∧
     entry_pairs (sr_active report) ≡ₚ lc ∧ wire_count (sr_available report) = u8 (Z.of_nat (length la)) ∧
     wire_count (sr_detected report) = u8 (Z.of_nat (length ln)) ∧ wire_count (sr_active report) = u8 (Z.of_nat (length lc)).
Proof.
  intros (report & Hf & Ha & Hn & Hc). exists report. split_and!; try done;
    unfold wire_count; do 2 f_equal; (etransitivity; [symmetry; apply (length_fmap fst)|by apply Permutation_length]).
Qed.

(** C19: The status report of one radio while its CAC has not completed, that
    is, when every reading of the clock is before the completion time. When the
    TLV has room for them and there is at least one, it lists, for each of the
    three states, exactly the operating classes and channels of the channels in
    that state at the bandwidths they support, each count being their number
    modulo 256; without one the report stays empty and the function fails. *)
Theorem cac_report_complete clock get mac radio room : get mac = Some radio → channels_ok radio → cac_running clock radio →
  let n st := length (in_state st radio) in
  (4 * n AVAILABLE + 4 * n UNAVAILABLE + 5 * n USABLE ≤ room)%nat →
  ∃ report, create_cac_status_report_tlv clock get [mac] room
    = (Some (negb (bool_decide (in_state AVAILABLE radio ++ in_state UNAVAILABLE radio ++ in_state USABLE radio = []))), report) ∧
  entry_pairs (sr_available report) ≡ₚ in_state AVAILABLE radio ∧
  entry_pairs (sr_detected report) ≡ₚ in_state UNAVAILABLE radio ∧
  entry_pairs (sr_active report) ≡ₚ in_state USABLE radio ∧
  wire_count (sr_available report) = u8 (Z.of_nat (n AVAILABLE)) ∧
  wire_count (sr_detected report) = u8 (Z.of_nat (n UNAVAILABLE)) ∧
  wire_count (sr_active report) = u8 (Z.of_nat (n USABLE)).
Proof.
  intros Hget Hch Hrun n Hroom. apply counted_entries.
  destruct (cac_status_recorded clock radio CacStatusDatabase_init Hch Hrun) as (db' & Hup & Hst); [done..|].
  pose proof (Hst AVAILABLE (get_available_channels (iface_mac radio) db') ltac:(rewrite !elem_of_cons; tauto)) as H1. pose proof (Hst UNAVAILABLE (get_non_occupancy_channels (iface_mac radio) db') ltac:(rewrite !elem_of_cons; tauto)) as H2.
  pose proof (Hst USABLE (get_active_channels (iface_mac radio) db') ltac:(rewrite !elem_of_cons; tauto)) as H3. clear Hst.
  case_bool_decide as Hemp; cbn [negb] in *.
  - exists (mkStatusReport [] [] [] 0 room). unfold create_cac_status_report_tlv. cbn [report_radios].
    rewrite Hget, fbind_run. unfold add_cac_status_report_tlv. cbn [fst snd]. rewrite Hup. cbn [fst snd negb].
    rewrite fret_run. apply app_eq_nil in Hemp as [-> [-> ->]%app_eq_nil]. done.
  - assert (Hlen : ∀ st l, pair_of <$> l ≡ₚ in_state st radio → length l = n st).
    { intros st l Hl. unfold n. by rewrite <- Hl, length_fmap. }
    destruct (report_one clock get mac radio room db' Hget Hup) as (report & Hrep & Hra & Hrd & Hrc).
    { unfold fits. cbn [sr_available sr_detected sr_active sr_room length].
      rewrite (Hlen _ _ (proj1 H1)), (Hlen _ _ (proj1 H2)), (Hlen _ _ (proj1 H3)). lia. }
    exists report. split; [done|]. rewrite Hra, Hrd, Hrc.
    split; [|split]; by eapply entries_in_state.
Qed.

(** A radio with nothing to report ends the report: the radios behind it are
    left out. *)
Theorem radio_without_cac_ends_report clock get mac macs radio room :
  get mac = Some radio → channels_ok radio → cac_running clock radio →
  in_state AVAILABLE radio ++ in_state UNAVAILABLE radio ++ in_state USABLE radio = [] →
  create_cac_status_report_tlv clock get (mac :: macs) room = (Some false, mkStatusReport [] [] [] 0 room).
Proof.
  intros Hget Hch Hrun Hemp.
  destruct (cac_status_recorded clock radio CacStatusDatabase_init Hch Hrun) as (db' & Hup & _); [done..|].
  rewrite bool_decide_true in Hup by done. unfold create_cac_status_report_tlv. cbn [report_radios].
  rewrite Hget, fbind_run. unfold add_cac_status_report_tlv. cbn [fst snd]. by rewrite Hup.
Qed.

(** ** The completion report *)

Lemma class_list_total ft l : Forall (λ c, byte_ok c.1) l → is_Some (classes_of ft l).
Proof.
  induction 1 as [|[ch bw] l Hb _ [r Hr]]; [by eexists|]. cbn [classes_of]. destruct (class_of_total ch ft bw Hb) as [op ->].
  rewrite Hr. by eexists.
Qed.

Lemma overlapping_bytes ch : Forall (λ c, byte_ok c.1) (get_overlapping_5g_channels ch).
Proof.
  unfold get_overlapping_5g_channels. destruct (map_find _ _); [|constructor].
  assert (Forall (λ r : Z * list (eWiFiBandwidth * sChannel), byte_ok r.1) channels_table_5g) as Ht
    by (apply (bool_decide_unpack _); by vm_compute).
  apply Forall_forall. intros c Hc. apply list_elem_of_In, in_flat_map in Hc as (row & Hr & (e & _ & Hc)%in_flat_map).
  destruct (_ && _); [|done]. destruct Hc as [<-|[]]. cbn. rewrite Forall_forall in Ht. by apply Ht, list_elem_of_In.
Qed.

Definition request_ok (radio : sRadio) : Prop :=
  match last_switch_channel_request radio with Some (ch, _) => byte_ok ch | None => True end.

Lemma completion_status_total radio : request_ok radio → is_Some (get_completion_status (Some radio)).
Proof.
  unfold request_ok, get_completion_status. intros Hr. destruct (last_switch_channel_request radio) as [[ch bw]|]; [|by eexists].
  destruct (snd <$> (snd <$> list_find _ _)) as [info|]; [|by eexists].
  destruct (class_of_total ch (radio_freq_type radio) bw Hr) as [op ->]. cbn [mbind option_bind].
  destruct (decide _); [|by eexists]. destruct (class_list_total (radio_freq_type radio) _ (overlapping_bytes ch)) as [l ->].
  by eexists.
Qed.

(** The completion report has one entry for every radio, in order: the channel
    of its last switch, whether radar was detected on it and then the classes
    and channels that overlap it. *)
Theorem completion_report_complete get macs radios l :
  get <$> macs = Some <$> radios → Forall request_ok radios →
  ∃ l', create_cac_completion_report_tlv (λ _, true) (λ _, true) get macs l = (Some true, l ++ l') ∧
  Forall2 (λ radio r, cr_radio_uid r = iface_mac radio ∧ get_completion_status (Some radio) = Some (cr_status r) ∧
             cr_detected_pairs r = overlapping_channels (cr_status r)) radios l'.
Proof.
  revert radios l. induction macs as [|mac macs IH]; intros [|radio radios] l Hget Hok; try done.
  { exists []. cbn. by rewrite app_nil_r. }
  cbn in Hget. injection Hget as Hmac Hget. apply Forall_cons in Hok as [Hr Hok].
  cbn [create_cac_completion_report_tlv]. rewrite Hmac, fbind_run.
  destruct (completion_status_total radio Hr) as [s Hs]. cbn [add_cac_completion_report_tlv negb]. rewrite Hs. cbn [fst snd negb].
  destruct (IH radios (l ++ [mkCompletionRadio (iface_mac radio) s (overlapping_channels s)]) Hget Hok) as (l' & -> & Hl).
  eexists. rewrite <- app_assoc. split; [done|]. by constructor.
Qed.
