(* ===== verification/ScanReport.v ===== *)
(** * The channel scan report of the agent

    [send_channel_scan_report_to_controller] and
    [get_scan_results_for_request] of [channel_scan_task.cpp]: the results the
    agent has stored for a request, and the CMDUs that carry them, split by an
    estimate of the size of a neighbour. The requests themselves are in
    [ChannelScan]. *)

From S2P Require Import Prelude Wire Channels.

(** ** Data *)

(** [tlvProfile2ChannelScanResult::eScanStatus]. *)
Inductive eScanStatus :=
  | SUCCESS
  | SCAN_NOT_SUPPORTED
  | REQUEST_TOO_SOON_AFTER_LAST_SCAN
  | RADIO_TOO_BUSY_TO_PERFORM_SCAN
  | SCAN_NOT_COMPLETED
  | SCAN_STATUS_ABORTED
  | FRESH_SCAN_NOT_SUPPORTED.
#[global] Instance eScanStatus_eq_dec : EqDecision eScanStatus.
Proof. solve_decision. Defined.

(** The members of [sChannelScanResults] that are used; [r_ssid] is the
    [char ssid[36]]. *)
Record sChannelScanResults := mkScanResults {
  r_ssid : list Z;
  r_bssid : sMacAddr;
  r_channel : Z;
  r_utilization : Z;
  r_signal_strength_dBm : Z;
  r_operating_channel_bandwidth : Z;
  r_noise_dBm : Z;
  r_channel_utilization : Z;
  r_station_count : Z;
  r_load_bss_ie_present : Z;
  r_spectrum_info_present : Z;
}.

(** A value of [channel_scan_results]. *)
Definition ScanEntry : Type := eScanStatus * Z * list sChannelScanResults.

(** [ChannelScanTask::sChannel] and [sOperatingClass]. *)
Record ScanChannel := mkScanChannel { channel_number : Z; scan_status : eScanStatus }.
Record ScanClass := mkScanClass { operating_class : Z; bw : eWiFiBandwidth; channel_list : list ScanChannel }.

Record sStoredScanResults := mkStored {
  ss_ruid : sMacAddr;
  ss_operating_class : Z;
  ss_channel : Z;
  ss_status : eScanStatus;
  ss_timestamp : Z;
  ss_dwell_time : Z;
  ss_utilization : Z;
  ss_noise : Z;
  ss_results : list sChannelScanResults;
}.

(** ** The results of a request *)

(** [time_point::min()], in nanoseconds. *)
Definition time_point_min : Z := -2 ^ 63.

(** [results.erase(find_if(...))] of the element with spectrum information. *)
Fixpoint take_spectrum (l : list sChannelScanResults) : option sChannelScanResults * list sChannelScanResults :=
  match l with
  | [] => (None, [])
  | r :: l => if negb (r_spectrum_info_present r =? 0) then (Some r, l)
              else let '(s, l) := take_spectrum l in (s, r :: l)
  end.

Definition noise_value (noise_dBm : Z) : Z := u8 (if noise_dBm <? 0 then (noise_dBm + 110) * 2 else 220).

(** The lambda [add_scan_result], on [final_results] and [appended_channels]. *)
Definition add_scan_result (fresh : bool) (ruid : sMacAddr) (dwell_time operating_class channel : Z)
    (status : eScanStatus) (request_timestamp results_timestamp : Z) (results : list sChannelScanResults)
    (acc : list sStoredScanResults * list Z) : list sStoredScanResults * list Z :=
  let '(final_results, appended) := acc in
  if negb fresh || (results_timestamp =? request_timestamp) || (results_timestamp =? time_point_min) then
    let '(spectrum, results) := take_spectrum results in
    let utilization := match spectrum with Some r => u8 (r_utilization r) | None => 0 end in
    let noise := match spectrum with Some r => noise_value (r_noise_dBm r) | None => 0 end in
    let entry := mkStored ruid operating_class channel status results_timestamp dwell_time utilization noise in
    if bool_decide (channel ∈ appended) then (final_results ++ [entry []], appended)
    else (final_results ++ [entry results], appended ++ [channel])
  else acc.

(** The lambda [get_results_for_channel_list]. *)
Definition add_channel (fresh : bool) (ruid : sMacAddr) (dwell_time operating_class request_timestamp : Z)
    (stored : gmap Z ScanEntry) (acc : list sStoredScanResults * list Z) (c : ScanChannel)
    : list sStoredScanResults * list Z :=
  let add := add_scan_result fresh ruid dwell_time operating_class (channel_number c) (scan_status c) request_timestamp in
  if bool_decide (scan_status c = SUCCESS) then
    match stored !! channel_number c with
    | None => add time_point_min [] acc
    | Some (_, timestamp, results) => add timestamp results acc
    end
  else add time_point_min [] acc.

(** [get_scan_results_for_request], for the radio that was found. *)
Definition get_scan_results (fresh : bool) (radio_mac : sMacAddr) (dwell_time request_timestamp : Z)
    (classes : list ScanClass) (stored : gmap Z ScanEntry) : list sStoredScanResults :=
  fst (foldl (λ acc c,
    foldl (add_channel fresh radio_mac dwell_time (operating_class c) request_timestamp stored) acc (channel_list c))
    ([], []) classes).

(** ** The CMDUs of the report *)

(** [std::string(ssid).length()]: [None] when the array has no terminator. *)
Fixpoint c_string (l : list Z) : option (list Z) :=
  match l with
  | [] => None
  | c :: l => if c =? 0 then Some [] else s ← c_string l; Some (c :: s)
  end.

(** [eChannelScanResultChannelBandwidth_toString]: the characters. *)
Definition bandwidth_string (bw : Z) : list Z :=
  let MHz := [77; 72; 122] in
  if bw =? 2 then [52; 48] ++ MHz
  else if bw =? 3 then [56; 48] ++ MHz
  else if bw =? 5 then [56; 48; 43; 56; 48] ++ MHz
  else if bw =? 4 then [49; 54; 48] ++ MHz
  else if bw =? 6 then [51; 50; 48] ++ MHz
  else [50; 48] ++ MHz.

(** What a [cNeighbors] holds. *)
Record Neighbor := mkNeighbor {
  nb_bssid : sMacAddr; nb_ssid : list Z; nb_signal_strength : Z; nb_bandwidth : list Z; nb_load : option (Z * Z) }.
Definition neighbor_size (n : Neighbor) : nat :=
  10 + length (nb_ssid n) + length (nb_bandwidth n) + match nb_load n with Some _ => 3 | None => 0 end.

(** The TLVs of the report. *)
Record ScanBody := mkBody {
  sb_timestamp : list Z; sb_utilization : Z; sb_noise : Z; sb_neighbors : list Neighbor; sb_duration : Z }.
Inductive ReportTlv :=
  | TimestampTlv (timestamp : list Z)
  | ResultTlv (ruid : sMacAddr) (operating_class channel : Z) (status : eScanStatus) (body : option ScanBody)
  | ReportDoneTlv (done : bool).

Definition neighbors_size (l : list Neighbor) : nat := sum_list_with neighbor_size l.
Definition body_size (b : ScanBody) : nat := 10 + length (sb_timestamp b) + neighbors_size (sb_neighbors b).
Definition report_tlv_size (t : ReportTlv) : nat :=
  match t with
  | TimestampTlv ts => 4 + length ts
  | ResultTlv _ _ _ _ body => 12 + match body with Some b => body_size b | None => 0 end
  | ReportDoneTlv _ => 26
  end.

(** The CMDU under construction, what was sent, and the calls made to the
    broker. *)
Record Report := mkReport { rp_tlvs : list ReportTlv; rp_sent : list (sMacAddr * list ReportTlv); rp_calls : nat }.
Definition rp_length (r : Report) : nat := 8 + sum_list_with report_tlv_size (rp_tlvs r).

(** The size of the buffer, whether the controller is prplMesh's, the answers
    of the broker client, and the part of a time stamp that [strftime] gives
    (empty when it fails). *)
Record ReportEnv := mkReportEnv {
  buffer_size : nat; prplmesh_controller : bool; broker_send : nat → bool; strftime : Z → list Z }.

Fixpoint decimal_digits (fuel : nat) (n : Z) : list Z :=
  match fuel with
  | O => []
  | S fuel => (if n <? 10 then [] else decimal_digits fuel (n / 10)) ++ [48 + n mod 10]
  end.

(** [get_ISO_8601_timestamp_string]; [std::to_string] of the nanoseconds. *)
Definition get_ISO_8601_timestamp_string (e : ReportEnv) (timestamp : Z) : list Z :=
  let seconds := Z.quot timestamp 1000000000 in
  match strftime e seconds with
  | [] => []
  | s =>
    let rest := timestamp - seconds * 1000000000 in
    s ++ (if rest <? 0 then 45 :: decimal_digits 20 (- rest) else decimal_digits 20 rest) ++ [90]
  end.

Lemma decimal_digits_length fuel n : ∀ k, 0 ≤ n < 10 ^ Z.of_nat (S k) → (length (decimal_digits fuel n) ≤ S k)%nat.
Proof.
  revert n. induction fuel as [|fuel IH]; intros n k Hn; [cbn; lia|]. cbn [decimal_digits]. rewrite length_app. cbn [length].
  destruct (Z.ltb_spec n 10); [cbn; lia|]. destruct k as [|k]; [cbn in Hn; lia|].
  rewrite Nat2Z.inj_succ, Z.pow_succ_r in Hn by lia.
  enough (length (decimal_digits fuel (n / 10)) ≤ S k)%nat by lia. apply IH. Z.div_mod_to_equations. lia.
Qed.

(** A time stamp of a time after the epoch, of which [strftime] gives the 20
    characters of a date with a year of four digits, takes at most 30 bytes. *)
Lemma timestamp_length e t : 0 ≤ t → length (strftime e (Z.quot t 1000000000)) = 20%nat →
  get_ISO_8601_timestamp_string e t ≠ [] ∧ (length (get_ISO_8601_timestamp_string e t) ≤ 30)%nat.
Proof.
  intros Ht Hs. unfold get_ISO_8601_timestamp_string. destruct (strftime _ _) as [|c s]; [done|]. split; [done|].
  rewrite Z.quot_div_nonneg by lia. set (rest := t - _).
  assert (0 ≤ rest < 10 ^ Z.of_nat 9) as Hr by (unfold rest; change (10 ^ Z.of_nat 9) with 1000000000; Z.div_mod_to_equations; lia).
  rewrite (proj2 (Z.ltb_ge _ _)) by lia. pose proof (decimal_digits_length 20 rest 8 Hr).
  rewrite !length_app. cbn [length] in *. lia.
Qed.

Definition MAX_NEIGHBOR_SIZE : Z := 50.
Definition BASE_RESULTS_TLV_SIZE : Z := 49.
Definition MIN_RESULTS_TLV_SIZE : Z := BASE_RESULTS_TLV_SIZE + MAX_NEIGHBOR_SIZE.
Definition MAX_TLV_FRAGMENT_SIZE : Z := 1500.

(** [create_channel_scan_report_message] and [add_timestamp_tlv_to_report]. *)
Definition new_report (e : ReportEnv) (timestamp : list Z) : faultM Report bool := λ r,
  let r0 := mkReport [] (rp_sent r) (rp_calls r) in
  if (buffer_size e <? 8)%nat then (Some false, r0)
  else if (buffer_size e <? 8 + 4 + length timestamp)%nat then (Some false, r0)
  else (Some true, mkReport [TimestampTlv timestamp] (rp_sent r) (rp_calls r)).

(** [set_neighbor_in_scan_results_tlv]. *)
Definition to_neighbor (n : sChannelScanResults) (ssid : list Z) : Neighbor :=
  mkNeighbor (r_bssid n) ssid (u8 (r_signal_strength_dBm n)) (bandwidth_string (r_operating_channel_bandwidth n))
    (if r_load_bss_ie_present n =? 0 then None else Some (u8 (r_channel_utilization n), u16 (r_station_count n))).

(** The loop over the neighbours, with [room] bytes left for them. *)
Fixpoint add_neighbors (room : nat) (l : list sChannelScanResults) : option (option (list Neighbor)) :=
  match l with
  | [] => Some (Some [])
  | n :: l =>
    if (room <? 10)%nat then Some None
    else
      match c_string (r_ssid n) with
      | None => None
      | Some ssid =>
        let x := to_neighbor n ssid in
        if (room <? neighbor_size x)%nat then Some None
        else
          match add_neighbors (room - neighbor_size x) l with
          | Some (Some xs) => Some (Some (x :: xs))
          | r => r
          end
      end
  end.

(** [add_scan_results_tlv_to_report]; the object of [create_scan_result] is
    used without a check. *)
Definition add_scan_results_tlv (e : ReportEnv) (s : sStoredScanResults) (results : list sChannelScanResults)
    : faultM Report bool := λ r,
  let room := (buffer_size e - rp_length r)%nat in
  let put body := mkReport (rp_tlvs r ++ [ResultTlv (ss_ruid s) (ss_operating_class s) (ss_channel s) (ss_status s) body])
                    (rp_sent r) (rp_calls r) in
  if (room <? 12)%nat then (Some false, r)
  else if negb (bool_decide (ss_status s = SUCCESS)) then (Some true, put None)
  else
    match get_ISO_8601_timestamp_string e (ss_timestamp s) with
    | [] => (Some false, r)
    | ts =>
      if (room <? 22)%nat then (None, r)
      else if (room <? 22 + length ts)%nat then (Some false, r)
      else
        match add_neighbors (room - 22 - length ts) results with
        | None => (None, r)
        | Some None => (Some false, r)
        | Some (Some neighbors) =>
          let utilization := if ss_utilization s =? 0 then 10 else ss_utilization s in
          (Some true, put (Some (mkBody ts utilization (ss_noise s) neighbors (u32 (ss_dwell_time s)))))
        end
    end.

(** [send_channel_scan_report_cmdu]: the done TLV, the end of message TLV and
    the call to the broker client. *)
Definition send_report (e : ReportEnv) (dst : sMacAddr) (done : bool) : faultM Report bool := λ r,
  let fits := if prplmesh_controller e then (rp_length r + 29 <=? buffer_size e)%nat
              else (rp_length r + 3 <=? buffer_size e)%nat in
  let tlvs := rp_tlvs r ++ (if prplmesh_controller e then [ReportDoneTlv done] else []) in
  if negb fits then (Some false, r)
  else if broker_send e (rp_calls r)
  then (Some true, mkReport tlvs (rp_sent r ++ [(dst, tlvs)]) (S (rp_calls r)))
  else (Some false, mkReport tlvs (rp_sent r) (S (rp_calls r))).

(** [calculate_remaining_buffer_size]. *)
Definition remaining_buffer_size (e : ReportEnv) (r : Report) : Z :=
  u64 (Z.of_nat (buffer_size e) - Z.of_nat (rp_length r) - 3 - (if prplmesh_controller e then 26 else 0)).

(** The number of neighbours that fit by the estimate. *)
Definition max_neighbors (remaining : Z) : Z :=
  u64 (Z.min remaining MAX_TLV_FRAGMENT_SIZE - BASE_RESULTS_TLV_SIZE) / MAX_NEIGHBOR_SIZE.

(** The loop over the results: [l] are those that are left, [neighbors] what
    is left of the first one. *)
Fixpoint report_loop (fuel : nat) (e : ReportEnv) (dst : sMacAddr) (timestamp : list Z)
    (l : list sStoredScanResults) (neighbors : list sChannelScanResults) : faultM Report bool :=
  match l, fuel with
  | [], _ => fret true
  | _, O => fault
  | s :: l', S fuel => λ r,
    (ok <- (if remaining_buffer_size e r <? MIN_RESULTS_TLV_SIZE
            then ok <- send_report e dst false ;; if (ok : bool) then new_report e timestamp else fret false
            else fret true) ;;
     if negb ok then fret false
     else λ r,
       let n := Z.to_nat (Z.min (max_neighbors (remaining_buffer_size e r)) (Z.of_nat (length neighbors))) in
       (ok <- add_scan_results_tlv e s (take n neighbors) ;;
        if negb ok then fret false
        else match drop n neighbors with
             | [] => report_loop fuel e dst timestamp l' (match l' with s' :: _ => ss_results s' | [] => [] end)
             | rest => report_loop fuel e dst timestamp l rest
             end) r) r
  end.

(** Every turn takes a neighbour or ends a result. *)
Definition report_fuel (l : list sStoredScanResults) : nat := sum_list_with (λ s, S (length (ss_results s))) l.

(** [send_channel_scan_report_to_controller], with the results of the request
    and the time of the report. *)
Definition send_channel_scan_report (e : ReportEnv) (dst : sMacAddr) (now : Z) (results : list sStoredScanResults)
    : faultM Report bool :=
  match get_ISO_8601_timestamp_string e now with
  | [] => fret false
  | timestamp =>
    ok <- new_report e timestamp ;;
    if negb ok then fret false
    else match results with
         | [] => send_report e dst true
         | s :: _ =>
           ok <- report_loop (report_fuel results) e dst timestamp results (ss_results s) ;;
           if negb ok then fret false else send_report e dst true
         end
  end.

(** ** What a report carries *)

(** The TLV for a part of the neighbours of a result. *)
Definition result_tlv (e : ReportEnv) (s : sStoredScanResults) (part : list sChannelScanResults) : option ReportTlv :=
  let tlv := ResultTlv (ss_ruid s) (ss_operating_class s) (ss_channel s) (ss_status s) in
  if bool_decide (ss_status s = SUCCESS) then
    neighbors ← mapM (λ n, to_neighbor n <$> c_string (r_ssid n)) part;
    Some (tlv (Some (mkBody (get_ISO_8601_timestamp_string e (ss_timestamp s))
                       (if ss_utilization s =? 0 then 10 else ss_utilization s) (ss_noise s) neighbors (u32 (ss_dwell_time s)))))
  else Some (tlv None).

(** A result in one or more TLVs that together have all its neighbours, in
    order. *)
Definition carries_result (e : ReportEnv) (s : sStoredScanResults) (neighbors : list sChannelScanResults)
    (tlvs : list ReportTlv) : Prop :=
  tlvs ≠ [] ∧ ∃ parts, concat parts = neighbors ∧ Forall2 (λ part t, result_tlv e s part = Some t) parts tlvs.

Definition carries_results (e : ReportEnv) (l : list sStoredScanResults) (tlvs : list ReportTlv) : Prop :=
  ∃ groups, tlvs = concat groups ∧ Forall2 (λ s g, carries_result e s (ss_results s) g) l groups.

(** The CMDUs: the time stamp, results, and for prplMesh's controller whether
    this is the last one. *)
Definition report_cmdu (e : ReportEnv) (dst : sMacAddr) (timestamp : list Z) (done : bool) (tlvs : list ReportTlv)
    : sMacAddr * list ReportTlv :=
  (dst, TimestampTlv timestamp :: tlvs ++ (if prplmesh_controller e then [ReportDoneTlv done] else [])).

(** The report under way: full CMDUs were sent, and the one under construction
    has the rest of the TLVs. *)
Definition collected (e : ReportEnv) (dst : sMacAddr) (timestamp : list Z) (sent : list (sMacAddr * list ReportTlv))
    (r : Report) (tlvs : list ReportTlv) : Prop :=
  ∃ chunks cur, rp_sent r = sent ++ (report_cmdu e dst timestamp false <$> chunks) ∧
    rp_tlvs r = TimestampTlv timestamp :: cur ∧ tlvs = concat chunks ++ cur.

Lemma add_neighbors_mapM l : ∀ room ns, add_neighbors room l = Some (Some ns) →
  mapM (λ n, to_neighbor n <$> c_string (r_ssid n)) l = Some ns ∧ (neighbors_size ns ≤ room)%nat.
Proof.
  induction l as [|n l IH]; intros room ns; cbn [add_neighbors]; [intros [= <-]; split; [done|cbn; lia]|].
  destruct (_ <? 10)%nat; [done|]. destruct (c_string (r_ssid n)) as [ssid|] eqn:Hs; [|done].
  destruct (room <? _)%nat eqn:Hr; [done|]. apply Nat.ltb_ge in Hr.
  destruct (add_neighbors _ l) as [[xs|]|] eqn:Ha; [|done..]. intros [= <-]. destruct (IH _ _ Ha) as [Hm Hsz].
  split; [cbn; rewrite Hs; cbn; by rewrite Hm|]. unfold neighbors_size in *. cbn [sum_list_with]. lia.
Qed.

Lemma add_neighbors_fits l : ∀ ns room, mapM (λ n, to_neighbor n <$> c_string (r_ssid n)) l = Some ns →
  (neighbors_size ns ≤ room)%nat → add_neighbors room l = Some (Some ns).
Proof.
  induction l as [|n l IH]; intros ns room Hm Hr; [by injection Hm as <-|]. cbn in Hm. cbn [add_neighbors].
  destruct (c_string (r_ssid n)) as [ssid|] eqn:Hs; [|done]. cbn in Hm.
  destruct (mapM _ l) as [xs|] eqn:Hl; [|done]. cbn in Hm. injection Hm as <-. unfold neighbors_size in *. cbn [sum_list_with] in Hr.
  destruct (_ <? 10)%nat eqn:H10; [apply Nat.ltb_lt in H10; unfold neighbor_size in Hr at 1; lia|].
  destruct (_ <? neighbor_size _)%nat eqn:Hsz; [apply Nat.ltb_lt in Hsz; lia|].
  rewrite (IH xs) by (done || lia). done.
Qed.

Definition put_tlv (t : ReportTlv) (r : Report) : Report := mkReport (rp_tlvs r ++ [t]) (rp_sent r) (rp_calls r).

(** An added TLV is the one of the result, and fits the buffer. *)
Lemma add_scan_results_tlv_true e s part r r' : add_scan_results_tlv e s part r = (Some true, r') →
  ∃ t, result_tlv e s part = Some t ∧ r' = put_tlv t r ∧ (rp_length r + report_tlv_size t ≤ Nat.max (rp_length r) (buffer_size e))%nat.
Proof.
  unfold add_scan_results_tlv, result_tlv. destruct (_ <? 12)%nat eqn:H12; [done|]. apply Nat.ltb_ge in H12.
  destruct (bool_decide (ss_status s = SUCCESS)) eqn:Hst; cbn [negb].
  - destruct (get_ISO_8601_timestamp_string e (ss_timestamp s)) as [|c ts] eqn:Hts; [done|]. rewrite <- Hts.
    destruct (_ <? 22)%nat; [done|]. destruct (_ <? 22 + _)%nat eqn:H22; [done|]. apply Nat.ltb_ge in H22.
    destruct (add_neighbors _ part) as [[ns|]|] eqn:Ha; [|done..]. intros [= <-].
    destruct (add_neighbors_mapM _ _ _ Ha) as [-> Hsz]. eexists. split; [done|]. split; [done|].
    cbn [report_tlv_size]. unfold body_size. cbn [sb_timestamp sb_neighbors]. lia.
  - intros [= <-]. eexists. split; [done|]. split; [done|]. cbn [report_tlv_size]. lia.
Qed.

(** A TLV that fits is added. *)
Lemma add_scan_results_tlv_fits e s part r t : result_tlv e s part = Some t →
  (ss_status s = SUCCESS → get_ISO_8601_timestamp_string e (ss_timestamp s) ≠ []) →
  (rp_length r + report_tlv_size t ≤ buffer_size e)%nat →
  add_scan_results_tlv e s part r = (Some true, put_tlv t r).
Proof.
  unfold add_scan_results_tlv, result_tlv. intros Ht Hne Hfit.
  destruct (bool_decide (ss_status s = SUCCESS)) eqn:Hst; cbn [negb]; [apply bool_decide_eq_true in Hst; specialize (Hne Hst)|].
  - destruct (mapM _ part) as [ns|] eqn:Hm; [|done]. cbn in Ht. injection Ht as <-.
    cbn [report_tlv_size] in Hfit. unfold body_size in Hfit. cbn [sb_timestamp sb_neighbors] in Hfit.
    destruct (_ <? 12)%nat eqn:H12; [apply Nat.ltb_lt in H12; lia|].
    destruct (get_ISO_8601_timestamp_string e (ss_timestamp s)) as [|c ts] eqn:Hts; [done|].
    destruct (_ <? 22)%nat eqn:H22; [apply Nat.ltb_lt in H22; cbn [length] in Hfit; lia|].
    destruct (_ <? 22 + _)%nat eqn:H23; [apply Nat.ltb_lt in H23; lia|].
    rewrite (add_neighbors_fits _ _ _ Hm) by lia. done.
  - injection Ht as <-. cbn [report_tlv_size] in Hfit. destruct (_ <? 12)%nat eqn:H12; [apply Nat.ltb_lt in H12; lia|]. done.
Qed.

Lemma collected_put e dst ts sent r tlvs t : collected e dst ts sent r tlvs → collected e dst ts sent (put_tlv t r) (tlvs ++ [t]).
Proof.
  intros (chunks & cur & Hs & Ht & ->). exists chunks, (cur ++ [t]). split; [done|]. cbn. rewrite Ht. split; [done|]. by rewrite app_assoc.
Qed.

Lemma send_report_true e dst done r r' : send_report e dst done r = (Some true, r') →
  rp_sent r' = rp_sent r ++ [(dst, rp_tlvs r ++ (if prplmesh_controller e then [ReportDoneTlv done] else []))].
Proof.
  unfold send_report. destruct (negb _); [done|]. destruct (broker_send _ _); [|done]. by intros [= <-].
Qed.

Lemma new_report_true e ts r r' : new_report e ts r = (Some true, r') →
  rp_sent r' = rp_sent r ∧ rp_tlvs r' = [TimestampTlv ts] ∧ (12 + length ts ≤ buffer_size e)%nat.
Proof.
  unfold new_report. destruct (_ <? 8)%nat; [done|]. destruct (_ <? _)%nat eqn:H; [done|]. apply Nat.ltb_ge in H.
  intros [= <-]. cbn. split_and!; [done..|lia].
Qed.

(** The message is sent and another one begun. *)
Lemma collected_turn e dst ts sent r tlvs r' : collected e dst ts sent r tlvs →
  (ok <- send_report e dst false ;; if (ok : bool) then new_report e ts else fret false) r = (Some true, r') →
  collected e dst ts sent r' tlvs ∧ rp_tlvs r' = [TimestampTlv ts].
Proof.
  intros (chunks & cur & Hs & Ht & ->) (ok & r1 & Hsend & Hnew)%fbind_Some. destruct ok; [|by rewrite fret_run in Hnew].
  apply send_report_true in Hsend. apply new_report_true in Hnew as (Hn1 & Hn2 & _). split; [|done].
  exists (chunks ++ [cur]), []. split_and!; [|done|].
  - rewrite Hn1, Hsend, Hs, Ht, fmap_app. cbn [fmap list_fmap]. unfold report_cmdu. by rewrite <- app_assoc.
  - by rewrite concat_app; cbn; rewrite !app_nil_r.
Qed.

(** ** The loop *)

(** What is left of the results, of the first of which [neighbors] are left. *)
Definition rest_carried (e : ReportEnv) (l : list sStoredScanResults) (neighbors : list sChannelScanResults)
    (tlvs : list ReportTlv) : Prop :=
  match l with
  | [] => tlvs = []
  | s :: l => ∃ g rest, tlvs = g ++ rest ∧ carries_result e s neighbors g ∧ carries_results e l rest
  end.

Lemma rest_carried_all e l : ∀ tlvs,
  rest_carried e l (match l with s :: _ => ss_results s | [] => [] end) tlvs → carries_results e l tlvs.
Proof.
  destruct l as [|s l]; intros tlvs; cbn [rest_carried]; [intros ->; by exists []|].
  intros (g & rest & -> & Hg & groups & -> & Hgs). exists (g :: groups). split; [done|]. by constructor.
Qed.

Lemma carries_result_one e s part t : result_tlv e s part = Some t → carries_result e s part [t].
Proof. intros H. split; [done|]. exists [part]. split; [apply app_nil_r|]. by repeat constructor. Qed.

Lemma carries_result_cons e s part rest t g : result_tlv e s part = Some t → carries_result e s rest g →
  carries_result e s (part ++ rest) (t :: g).
Proof. intros H (_ & parts & <- & Hp). split; [done|]. exists (part :: parts). split; [done|]. by constructor. Qed.

Section Loop.
Context (e : ReportEnv) (dst : sMacAddr) (ts : list Z) (sent : list (sMacAddr * list ReportTlv)).

Lemma report_loop_true fuel : ∀ l neighbors r tlvs r', collected e dst ts sent r tlvs →
  report_loop fuel e dst ts l neighbors r = (Some true, r') →
  ∃ more, collected e dst ts sent r' (tlvs ++ more) ∧ rest_carried e l neighbors more.
Proof.
  induction fuel as [|fuel IH]; intros [|s l] neighbors r tlvs r' Hr; cbn [report_loop];
    [intros [= <-]; exists []; by rewrite app_nil_r|done|intros [= <-]; exists []; by rewrite app_nil_r|].
  intros (ok & r1 & H1 & H2)%fbind_Some. destruct ok; cbn [negb] in H2; [|by rewrite fret_run in H2].
  assert (collected e dst ts sent r1 tlvs) as Hr1.
  { destruct (_ <? MIN_RESULTS_TLV_SIZE); [by eapply collected_turn|]. rewrite fret_run in H1. by injection H1 as <-. }
  set (n := Z.to_nat _) in H2. apply fbind_Some in H2 as (ok & r2 & H2 & H3).
  destruct ok; cbn [negb] in H3; [|by rewrite fret_run in H3].
  apply add_scan_results_tlv_true in H2 as (t & Ht & -> & _). pose proof (collected_put _ _ _ _ _ _ t Hr1) as Hr2.
  rewrite <- (take_drop n neighbors). destruct (drop n neighbors) as [|x rest] eqn:Hd.
  - destruct (IH _ _ _ _ _ Hr2 H3) as (more & Hm & Hc). exists (t :: more). rewrite <- app_assoc in Hm. split; [done|].
    exists [t], more. split; [done|]. rewrite app_nil_r. split; [by apply carries_result_one|]. by apply rest_carried_all.
  - destruct (IH _ _ _ _ _ Hr2 H3) as (more & Hm & g & rest' & -> & Hg & Hrest).
    exists (t :: g ++ rest'). rewrite <- app_assoc in Hm. split; [done|].
    exists (t :: g), rest'. split; [done|]. split; [by apply carries_result_cons|done].
Qed.

(** ** The estimate *)

(** The space kept for the done and the end of message TLVs. *)
Definition reserve : nat := if prplmesh_controller e then 29 else 3.

(** The buffer has room for the time stamp, a result with one neighbour and
    the end of the CMDU. *)
Hypothesis Hbuffer : (8 + 4 + length ts + 99 + reserve ≤ buffer_size e)%nat.
Hypothesis Hwidth : Z.of_nat (buffer_size e) < 2 ^ 64.

Lemma remaining_eq r : (rp_length r + reserve ≤ buffer_size e)%nat →
  remaining_buffer_size e r = Z.of_nat (buffer_size e - rp_length r - reserve).
Proof.
  intros H. unfold remaining_buffer_size, u64, reserve in *. destruct (prplmesh_controller e).
  all: rewrite Z.mod_small; lia.
Qed.

Lemma max_neighbors_bounds x : (99 ≤ x)%nat → Z.of_nat x < 2 ^ 64 →
  1 ≤ max_neighbors (Z.of_nat x) ∧ 49 + 50 * max_neighbors (Z.of_nat x) ≤ Z.min (Z.of_nat x) 1500.
Proof.
  intros H1 H2. unfold max_neighbors, u64, MAX_TLV_FRAGMENT_SIZE, BASE_RESULTS_TLV_SIZE, MAX_NEIGHBOR_SIZE.
  rewrite Z.mod_small by lia. Z.div_mod_to_equations. lia.
Qed.

(** A result whose neighbours have names that end, with a time stamp of at most
    30 bytes (20 characters of [strftime], nine digits and a letter). The
    estimate allows for 27 bytes of it and 50 of a neighbour: what the time stamp
    takes more, each neighbour has to take less. *)
Definition fits_beside (stamp : nat) (n : sChannelScanResults) : Prop :=
  ∃ ssid, c_string (r_ssid n) = Some ssid ∧ (neighbor_size (to_neighbor n ssid) ≤ 50)%nat ∧
    (stamp + neighbor_size (to_neighbor n ssid) ≤ 77)%nat.
Record fits_estimate (s : sStoredScanResults) : Prop := {
  fe_timestamp : ss_status s = SUCCESS → get_ISO_8601_timestamp_string e (ss_timestamp s) ≠ [] ∧
    (length (get_ISO_8601_timestamp_string e (ss_timestamp s)) ≤ 30)%nat;
  fe_neighbors : ss_status s = SUCCESS →
    Forall (fits_beside (length (get_ISO_8601_timestamp_string e (ss_timestamp s)))) (ss_results s);
}.

Lemma neighbors_fit stamp l : (stamp ≤ 30)%nat → Forall (fits_beside stamp) l →
  ∃ ns, mapM (λ n, to_neighbor n <$> c_string (r_ssid n)) l = Some ns ∧
    (22 + stamp + neighbors_size ns ≤ Nat.max 99 (49 + 50 * length l))%nat ∧ (neighbors_size ns ≤ 50 * length l)%nat.
Proof.
  unfold neighbors_size. intros Hst. induction 1 as [|n l (ssid & Hs & Hn & Hn') _ (ns & Hm & Hsz & Hsz')].
  { exists []. split; [done|]. cbn. lia. }
  exists (to_neighbor n ssid :: ns). split; [cbn; rewrite Hs; cbn; by rewrite Hm|]. cbn [sum_list_with length]. lia.
Qed.

Lemma result_fits s part : fits_estimate s → Forall (λ n, n ∈ ss_results s) part → ∃ t,
  result_tlv e s part = Some t ∧ (report_tlv_size t ≤ Nat.max 99 (49 + 50 * length part))%nat.
Proof.
  intros [Hts Hn] Hp. unfold result_tlv.
  destruct (bool_decide _) eqn:Hst; [|eexists; split; [done|cbn [report_tlv_size]; lia]].
  apply bool_decide_eq_true in Hst. destruct (Hts Hst) as [_ Hlen]. specialize (Hn Hst).
  destruct (neighbors_fit (length (get_ISO_8601_timestamp_string e (ss_timestamp s))) part Hlen) as (ns & -> & Hsz & _).
  { rewrite Forall_forall in Hn, Hp |- *. eauto. }
  eexists. split; [done|]. cbn [report_tlv_size]. unfold body_size. cbn [sb_timestamp sb_neighbors]. lia.
Qed.

(** The CMDU under construction has room for its end. *)
Definition has_room (r : Report) : Prop := (rp_length r + reserve ≤ buffer_size e)%nat.

(** No TLV is too long to be sent in a fragment of its own. *)
Definition short_tlvs (tlvs : list ReportTlv) : Prop := Forall (λ t, Z.of_nat (report_tlv_size t) ≤ MAX_TLV_FRAGMENT_SIZE) tlvs.
Definition short_report (r : Report) : Prop := short_tlvs (rp_tlvs r) ∧ Forall (λ m, short_tlvs m.2) (rp_sent r).
Hypothesis Hstamp : (length ts ≤ 30)%nat.

Lemma put_tlv_length t r : rp_length (put_tlv t r) = (rp_length r + report_tlv_size t)%nat.
Proof. unfold rp_length, put_tlv. cbn [rp_tlvs]. rewrite sum_list_with_app. cbn [sum_list_with]. lia. Qed.

Hypothesis Hsend : ∀ n, broker_send e n = true.

Lemma send_report_runs done r : has_room r → short_report r → ∃ r', send_report e dst done r = (Some true, r') ∧ short_report r'.
Proof.
  intros Hr [Hsh Hse]. unfold send_report, has_room, reserve in *. rewrite Hsend.
  assert (∀ l, short_tlvs l → short_tlvs (rp_tlvs r ++ l)) as Happ by (intros l Hl; by apply Forall_app).
  destruct (prplmesh_controller e); rewrite (proj2 (Nat.leb_le _ _)) by lia; cbn [negb]; eexists; (split; [done|]).
  all: assert (short_tlvs (rp_tlvs r ++ [ReportDoneTlv done]) ∧ short_tlvs (rp_tlvs r ++ [])) as [Hd Hd']
    by (split; apply Happ; repeat constructor; done).
  all: split; cbn [rp_tlvs rp_sent]; [done|]; apply Forall_app; split; [done|]; by repeat constructor.
Qed.

Lemma new_report_runs r : short_report r → ∃ r',
  new_report e ts r = (Some true, r') ∧ rp_tlvs r' = [TimestampTlv ts] ∧ short_report r'.
Proof.
  intros [_ Hse]. unfold new_report. rewrite (proj2 (Nat.ltb_ge _ _)), (proj2 (Nat.ltb_ge _ _)) by lia.
  eexists. split; [done|]. split; [done|]. split; [|done]. repeat constructor. unfold MAX_TLV_FRAGMENT_SIZE. cbn [report_tlv_size]. lia.
Qed.

Lemma fresh_remaining r : rp_tlvs r = [TimestampTlv ts] → (rp_length r + 99 + reserve ≤ buffer_size e)%nat.
Proof. intros H. unfold rp_length. rewrite H. cbn [sum_list_with report_tlv_size]. lia. Qed.

(** Before a TLV is added there is room for one neighbour. *)
Lemma turn_runs r : has_room r → short_report r → ∃ r1,
  (if remaining_buffer_size e r <? MIN_RESULTS_TLV_SIZE
   then ok <- send_report e dst false ;; if (ok : bool) then new_report e ts else fret false
   else fret true) r = (Some true, r1) ∧ (rp_length r1 + 99 + reserve ≤ buffer_size e)%nat ∧ short_report r1.
Proof.
  intros Hr Hsh. rewrite remaining_eq by done. destruct (_ <? _) eqn:Hlt.
  - destruct (send_report_runs false r Hr Hsh) as (r1 & H1 & Hsh1). destruct (new_report_runs r1 Hsh1) as (r2 & H2 & H3 & Hsh2).
    exists r2. rewrite (fbind_ok _ _ _ _ _ H1). split; [done|]. split; [by apply fresh_remaining|done].
  - exists r. split; [done|]. split; [|done]. unfold has_room, MIN_RESULTS_TLV_SIZE, BASE_RESULTS_TLV_SIZE, MAX_NEIGHBOR_SIZE in *.
    apply Z.ltb_ge in Hlt. lia.
Qed.

(** The loop ends, with room for the end of the CMDU; each turn takes a
    neighbour or ends a result. *)
Lemma report_loop_runs fuel : ∀ l neighbors r, has_room r → short_report r → Forall fits_estimate l →
  (∀ s l', l = s :: l' → Forall (λ n, n ∈ ss_results s) neighbors) →
  (match l with [] => 0 | _ :: l' => S (length neighbors) + report_fuel l' end ≤ fuel)%nat →
  ∃ r', report_loop fuel e dst ts l neighbors r = (Some true, r') ∧ has_room r' ∧ short_report r'.
Proof.
  induction fuel as [|fuel IH]; intros [|s l] neighbors r Hr Hsh Hl Hn Hf; cbn [report_loop]; [by exists r|lia|by exists r|].
  apply Forall_cons in Hl as [Hs Hl]. specialize (Hn s l eq_refl).
  destruct (turn_runs r Hr Hsh) as (r1 & H1 & Hroom & Hsh1). rewrite (fbind_ok _ _ _ _ _ H1). cbn [negb].
  rewrite remaining_eq by lia. set (x := (buffer_size e - rp_length r1 - reserve)%nat).
  destruct (max_neighbors_bounds x) as [Hm1 Hm2]; [lia|lia|].
  set (n := Z.to_nat (Z.min (max_neighbors (Z.of_nat x)) (Z.of_nat (length neighbors)))).
  destruct (result_fits s (take n neighbors) Hs) as (t & Ht & Hsz); [by apply Forall_take|].
  assert (length (take n neighbors) ≤ n)%nat as Hlen by (rewrite length_take; lia).
  assert (report_tlv_size t ≤ x)%nat as Hx by lia.
  rewrite (fbind_ok _ _ _ _ _ (add_scan_results_tlv_fits e s _ r1 t Ht (λ Hst, proj1 (fe_timestamp _ Hs Hst)) ltac:(lia))).
  assert (has_room (put_tlv t r1)) as Hr2 by (unfold has_room; rewrite put_tlv_length; lia).
  assert (short_report (put_tlv t r1)) as Hsh2.
  { destruct Hsh1 as [Ha Hb]. split; [|done]. apply Forall_app. split; [done|]. repeat constructor. unfold MAX_TLV_FRAGMENT_SIZE. lia. }
  cbn [negb]. destruct (drop n neighbors) as [|y rest] eqn:Hd.
  - apply IH; [done|done|done| |].
    + intros s' l' ->. by apply Forall_forall.
    + destruct l as [|s' l']; [lia|]. unfold report_fuel in Hf |- *. cbn [sum_list_with] in Hf. lia.
  - apply (IH (s :: l)); [done|done|by constructor| |].
    + intros s' l' [= <- <-]. rewrite <- Hd. by apply Forall_drop.
    + apply (f_equal length) in Hd. rewrite length_drop in Hd. cbn [length] in Hd |- *. lia.
Qed.
End Loop.

(** A report that was sent: full CMDUs, the last of them marked. *)
Definition report_sent (e : ReportEnv) (dst : sMacAddr) (timestamp : list Z) (results : list sStoredScanResults)
    (sent : list (sMacAddr * list ReportTlv)) : Prop :=
  ∃ chunks final, sent = (report_cmdu e dst timestamp false <$> chunks) ++ [report_cmdu e dst timestamp true final] ∧
    carries_results e results (concat chunks ++ final).

(** When the function reports success, everything was sent. *)
Lemma send_channel_scan_report_true e dst now results calls r' :
  send_channel_scan_report e dst now results (mkReport [] [] calls) = (Some true, r') →
  report_sent e dst (get_ISO_8601_timestamp_string e now) results (rp_sent r').
Proof.
  unfold send_channel_scan_report. destruct (get_ISO_8601_timestamp_string e now) as [|c ts0] eqn:Hts; [done|]. rewrite <- Hts.
  set (ts := get_ISO_8601_timestamp_string e now). intros (ok & r1 & H1 & H2)%fbind_Some. destruct ok; cbn [negb] in H2; [|done].
  apply new_report_true in H1 as (Hs1 & Ht1 & _). cbn in Hs1.
  assert (collected e dst ts [] r1 []) as Hr1 by (exists [], []; by rewrite Hs1, Ht1).
  assert (∀ r2 tlvs, collected e dst ts [] r2 tlvs → carries_results e results tlvs →
    send_report e dst true r2 = (Some true, r') → report_sent e dst ts results (rp_sent r')) as Hlast.
  { intros r2 tlvs (chunks & cur & Hs & Ht & ->) Hc Hsend%send_report_true. exists chunks, cur. split; [|done].
    rewrite Hsend, Hs, Ht. done. }
  destruct results as [|s results]; [by eapply Hlast; [exact Hr1|exists []|exact H2]|].
  apply fbind_Some in H2 as (ok & r2 & H2 & H3). destruct ok; cbn [negb] in H3; [|done].
  destruct (report_loop_true _ _ _ _ _ _ _ _ _ _ Hr1 H2) as (more & Hm & Hc).
  eapply Hlast; [exact Hm| |exact H3]. by apply (rest_carried_all e (s :: results)).
Qed.

(** The report is sent when everything fits. *)
Lemma send_channel_scan_report_runs e dst now results calls :
  let ts := get_ISO_8601_timestamp_string e now in
  ts ≠ [] → (length ts ≤ 30)%nat → (8 + 4 + length ts + 99 + reserve e ≤ buffer_size e)%nat →
  Z.of_nat (buffer_size e) < 2 ^ 64 → (∀ n, broker_send e n = true) → Forall (fits_estimate e) results → ∃ r',
  send_channel_scan_report e dst now results (mkReport [] [] calls) = (Some true, r') ∧ short_report r'.
Proof.
  intros ts Hts Hstamp Hbuf Hw Hsend Hres.
  unfold send_channel_scan_report. fold ts. destruct ts as [|c ts0] eqn:E; [done|]. rewrite <- E in *.
  destruct (new_report_runs e ts Hbuf Hstamp (mkReport [] [] calls)) as (r1 & H1 & Ht1 & Hsh1); [by repeat constructor|].
  rewrite (fbind_ok _ _ _ _ _ H1). cbn [negb]. pose proof (fresh_remaining e ts Hbuf Hstamp r1 Ht1) as Hroom.
  destruct results as [|s results].
  { eapply (send_report_runs e dst ts); [done..| |done]. unfold has_room. lia. }
  destruct (report_loop_runs e dst ts Hbuf Hw Hstamp Hsend (report_fuel (s :: results)) (s :: results) (ss_results s) r1)
    as (r2 & H2 & Hroom2 & Hsh2).
  { unfold has_room. lia. }
  { done. }
  { done. }
  { intros s' l' [= <- <-]. by apply Forall_forall. }
  { done. }
  rewrite (fbind_ok _ _ _ _ _ H2). cbn [negb]. by eapply (send_report_runs e dst ts).
Qed.

(** The channel scan report: when a neighbour and the time stamp together take
    at most what the code assumes, the buffer has room for one neighbour and
    the broker takes the messages, the report is sent as CMDUs that fit the
    buffer and that together hold, for every result in order, all its
    neighbours in order; every CMDU but the last is marked as not the last,
    and no TLV is longer than what the transport can send in a fragment. *)
Theorem scan_report_complete e dst now results calls :
  let ts := get_ISO_8601_timestamp_string e now in
  ts ≠ [] → (length ts ≤ 30)%nat → (8 + 4 + length ts + 99 + reserve e ≤ buffer_size e)%nat →
  Z.of_nat (buffer_size e) < 2 ^ 64 → (∀ n, broker_send e n = true) → Forall (fits_estimate e) results → ∃ r',
  send_channel_scan_report e dst now results (mkReport [] [] calls) = (Some true, r') ∧
  report_sent e dst ts results (rp_sent r') ∧ Forall (λ m, short_tlvs m.2) (rp_sent r').
Proof.
  intros ts Hts Hstamp Hbuf Hw Hsend Hres.
  destruct (send_channel_scan_report_runs e dst now results calls Hts Hstamp Hbuf Hw Hsend Hres) as (r' & Hr & Hsh).
  exists r'. split; [done|]. split; [by eapply send_channel_scan_report_true|apply Hsh].
Qed.

(** ** The results that are listed *)

Section Listed.
Context (fresh : bool) (ruid : sMacAddr) (dwell_time request_timestamp : Z) (stored : gmap Z ScanEntry).

(** The requested channels with their classes, in order. *)
Definition requested (classes : list ScanClass) : list (Z * ScanChannel) :=
  c ← classes; pair (operating_class c) <$> channel_list c.

(** A channel is left out when its stored results are not those of this
    request. *)
Definition is_listed (x : Z * ScanChannel) : bool :=
  negb fresh || negb (bool_decide (scan_status x.2 = SUCCESS)) ||
  match stored !! channel_number x.2 with
  | None => true
  | Some (_, timestamp, _) => (timestamp =? request_timestamp) || (timestamp =? time_point_min)
  end.

(** The neighbours that are stored for a channel. *)
Definition stored_neighbors (x : Z * ScanChannel) : list sChannelScanResults :=
  if bool_decide (scan_status x.2 = SUCCESS)
  then match stored !! channel_number x.2 with Some (_, _, results) => (take_spectrum results).2 | None => [] end
  else [].

Definition key_of (s : sStoredScanResults) : Z * Z * eScanStatus := (ss_operating_class s, ss_channel s, ss_status s).
Definition neighbors_of (ch : Z) (l : list sStoredScanResults) : list sChannelScanResults :=
  concat (ss_results <$> filter (λ s, ss_channel s = ch) l).

Definition add_requested (acc : list sStoredScanResults * list Z) (x : Z * ScanChannel) :=
  add_channel fresh ruid dwell_time x.1 request_timestamp stored acc x.2.

Lemma get_scan_results_flat classes :
  get_scan_results fresh ruid dwell_time request_timestamp classes stored
  = fst (foldl add_requested ([], []) (requested classes)).
Proof.
  unfold get_scan_results. f_equal. generalize (@nil sStoredScanResults, @nil Z) as acc.
  unfold requested. induction classes as [|c classes IH]; intros acc; [done|]. cbn [foldl mbind list_bind].
  rewrite foldl_app, IH. f_equal. clear. revert acc. induction (channel_list c) as [|x l IH]; intros acc; [done|]. cbn. by rewrite IH.
Qed.


Lemma add_requested_listed f a x : is_listed x = true → ∃ s,
  key_of s = (x.1, channel_number x.2, scan_status x.2) ∧
  ss_results s = (if bool_decide (channel_number x.2 ∈ a) then [] else stored_neighbors x) ∧
  add_requested (f, a) x = (f ++ [s], if bool_decide (channel_number x.2 ∈ a) then a else a ++ [channel_number x.2]).
Proof.
  destruct x as [cls [ch st]]. unfold is_listed, add_requested, add_channel, stored_neighbors. cbn [fst snd channel_number scan_status].
  intros Hl. set (a' := if bool_decide (ch ∈ a) then a else a ++ [ch]).
  assert (∀ t res, negb fresh || (t =? request_timestamp) || (t =? time_point_min) = true → ∃ s,
    key_of s = (cls, ch, st) ∧ ss_results s = (if bool_decide (ch ∈ a) then [] else (take_spectrum res).2) ∧
    add_scan_result fresh ruid dwell_time cls ch st request_timestamp t res (f, a) = (f ++ [s], a')) as Hadd.
  { intros t res Ht. unfold add_scan_result, a'. rewrite Ht. destruct (take_spectrum res) as [sp l]. cbn [snd].
    destruct (bool_decide (ch ∈ a)); eexists; (split; [|split; [|reflexivity]]); done. }
  assert (negb fresh || (time_point_min =? request_timestamp) || (time_point_min =? time_point_min) = true) as Hmin
    by (rewrite Z.eqb_refl; by destruct (negb fresh), (_ =? request_timestamp)).
  destruct (bool_decide (st = SUCCESS)); [|exact (Hadd _ [] Hmin)].
  destruct (stored !! ch) as [[[st' t] res]|]; [|exact (Hadd _ [] Hmin)]. cbn [negb] in Hl.
  apply Hadd. rewrite orb_false_r in Hl. by rewrite <- orb_assoc.
Qed.

Lemma add_requested_skipped f a x : is_listed x = false → add_requested (f, a) x = (f, a).
Proof.
  destruct x as [cls [ch st]]. unfold is_listed, add_requested, add_channel. cbn [fst snd channel_number scan_status].
  destruct (bool_decide (st = SUCCESS)); cbn [negb]; [|by destruct fresh].
  destruct (stored !! ch) as [[[st' t] res]|]; [|by destruct fresh]. unfold add_scan_result. intros Hl.
  rewrite orb_false_r in Hl. apply orb_false_iff in Hl as [-> Hl]. by rewrite orb_false_l, Hl.
Qed.

(** The entry whose neighbours are listed for a channel. *)
Definition first_listed (ch : Z) (l : list (Z * ScanChannel)) : option (Z * ScanChannel) :=
  head (filter (λ x, channel_number x.2 = ch) (filter is_listed l)).

Lemma first_listed_snoc ch l x : first_listed ch (l ++ [x]) =
  match first_listed ch l with
  | Some y => Some y
  | None => if is_listed x && (channel_number x.2 =? ch) then Some x else None
  end.
Proof.
  unfold first_listed. rewrite !filter_app. destruct (filter _ (filter is_listed l)) as [|y l']; [|done]. cbn [app head].
  rewrite filter_cons, filter_nil. destruct (is_listed x); [|done].
  rewrite decide_True by done. cbn [andb]. rewrite filter_cons, filter_nil.
  destruct (decide (channel_number x.2 = ch)) as [Hc|Hc]; [by rewrite (proj2 (Z.eqb_eq _ _) Hc)|by rewrite (proj2 (Z.eqb_neq _ _) Hc)].
Qed.

(** Entries so far: one per listed channel, the channels that were appended,
    and the neighbours of a channel with its first entry. *)
Record listed_inv (l : list (Z * ScanChannel)) (f : list sStoredScanResults) (a : list Z) : Prop := {
  li_keys : key_of <$> f = (λ x, (x.1, channel_number x.2, scan_status x.2)) <$> filter is_listed l;
  li_appended ch : ch ∈ a ↔ is_Some (first_listed ch l);
  li_neighbors ch : neighbors_of ch f = from_option stored_neighbors [] (first_listed ch l);
}.

Lemma neighbors_of_snoc ch f s : neighbors_of ch (f ++ [s]) = neighbors_of ch f ++ (if ss_channel s =? ch then ss_results s else []).
Proof.
  unfold neighbors_of. rewrite filter_app, fmap_app, concat_app. f_equal. rewrite filter_cons, filter_nil.
  destruct (decide (ss_channel s = ch)) as [Hc|Hc]; [rewrite (proj2 (Z.eqb_eq _ _) Hc)|rewrite (proj2 (Z.eqb_neq _ _) Hc)]; [|done].
  cbn. apply app_nil_r.
Qed.

Lemma listed_step l f a x : listed_inv l f a → listed_inv (l ++ [x]) (add_requested (f, a) x).1 (add_requested (f, a) x).2.
Proof.
  intros [Hk Ha Hn]. destruct (is_listed x) eqn:Hx.
  - destruct (add_requested_listed f a x Hx) as (s & Hs & Hr & ->). cbn [fst snd].
    assert (ss_channel s = channel_number x.2) as Hc by (by injection Hs). split.
    + rewrite fmap_app, filter_app, fmap_app, filter_cons, filter_nil, Hk. cbn. rewrite Hx. cbn. by rewrite Hs.
    + intros ch. rewrite first_listed_snoc, Hx. cbn [andb]. specialize (Ha ch). destruct (first_listed ch l) as [y|] eqn:Hf.
      * split; [by eexists|]. intros _. destruct (bool_decide _); [by apply Ha|apply elem_of_app; left; by apply Ha].
      * assert (ch ∉ a) as Hna by (intros Hin; apply Ha in Hin as [? ?]; done).
        destruct (channel_number x.2 =? ch) eqn:He; bool_to_prop.
        -- split; [by eexists|]. intros _. rewrite bool_decide_eq_false_2 by congruence. apply elem_of_app. right. rewrite He. set_solver.
        -- split; [|by intros []]. destruct (bool_decide _); [done|]. rewrite elem_of_app, list_elem_of_singleton. intros [?|?]; [done|congruence].
    + intros ch. rewrite neighbors_of_snoc, first_listed_snoc, Hx, Hn, Hr, Hc. cbn [andb].
      specialize (Ha (channel_number x.2)). destruct (channel_number x.2 =? ch) eqn:He; bool_to_prop; [|destruct (first_listed ch l); apply app_nil_r].
      subst ch. destruct (first_listed _ l) as [y|] eqn:Hf; cbn.
      * rewrite bool_decide_eq_true_2 by (apply Ha; by eexists). apply app_nil_r.
      * by rewrite bool_decide_eq_false_2 by (intros Hin; apply Ha in Hin as [? ?]; done).
  - rewrite (add_requested_skipped f a x Hx). cbn [fst snd]. split.
    + rewrite filter_app, fmap_app, filter_cons, filter_nil, Hk. cbn. rewrite Hx. cbn. by rewrite app_nil_r.
    + intros ch. rewrite first_listed_snoc, Hx. cbn. rewrite (Ha ch). by destruct (first_listed ch l).
    + intros ch. rewrite first_listed_snoc, Hx, (Hn ch). cbn. by destruct (first_listed ch l).
Qed.

Lemma listed_all l : listed_inv l (foldl add_requested ([], []) l).1 (foldl add_requested ([], []) l).2.
Proof.
  induction l as [|x l IH] using rev_ind.
  - split; [done| |done]. intros ch. split; [by intros ?%elem_of_nil|by intros []].
  - rewrite foldl_app. cbn [foldl]. destruct (foldl add_requested ([], []) l) as [f a]. by apply listed_step.
Qed.
End Listed.

(** The results of a request: one entry for every requested channel whose
    results are those of this request or are missing, in the order of the
    request; the stored neighbours of a channel are listed once. *)
Lemma scan_results_listed fresh ruid dwell ts classes stored :
  let l := get_scan_results fresh ruid dwell ts classes stored in
  key_of <$> l = (λ x, (x.1, channel_number x.2, scan_status x.2)) <$> filter (is_listed fresh ts stored) (requested classes) ∧
  ∀ ch, neighbors_of ch l = from_option (stored_neighbors stored) [] (first_listed fresh ts stored ch (requested classes)).
Proof.
  rewrite get_scan_results_flat. destruct (listed_all fresh ruid dwell ts stored (requested classes)) as [Hk _ Hn]. done.
Qed.
