(* ===== verification/ChannelScan.v ===== *)
(** * The channel scan task of the agent

    [ChannelScanTask] ([channel_scan_task.cpp]): requests of the controller,
    the scan that runs on each radio, the notifications of the monitor, the
    periodic work. The report is in [ScanReport]. A pending request and the
    scan of the radio that runs it are one object; [m_current_scan_info] holds
    pointers to both, set and cleared together. *)

From S2P Require Import Prelude Wire Streams Channels ScanReport.

Module channel_scan.

(** ** State *)

Inductive eState :=
  | PENDING_TRIGGER | WAIT_FOR_SCAN_TRIGGERED | WAIT_FOR_RESULTS_READY | WAIT_FOR_RESULTS_DUMP
  | SCAN_DONE | SCAN_ABORTED | SCAN_FAILED | SCAN_IGNORED.
#[global] Instance eState_eq_dec : EqDecision eState.
Proof. solve_decision. Defined.

Record sRadioScan := mkRadioScan {
  rs_radio_mac : sMacAddr;
  rs_operating_classes : list ScanClass;
  rs_current_state : eState;
  rs_timeout : Z;
  rs_dwell_time : Z;
  rs_cached_results : gmap Z (list sChannelScanResults);
}.

(** [perform_fresh_scan] is the value of the enumeration. *)
Record sScanRequest := mkScanRequest {
  rq_src_mac : sMacAddr;
  rq_perform_fresh_scan : Z;
  rq_scan_start_timestamp : Z;
  rq_radio_scans : sRadioScan;
  rq_ready_to_send_report : bool;
}.

(** [scan_request] and its [radio_scan], or null pointers. *)
Record sCurrentScan := mkCurrentScan { is_scan_currently_running : bool; cur_request : option sScanRequest }.
Definition no_scan : sCurrentScan := mkCurrentScan false None.

(** The members of [AgentDB::sRadio] that are used. *)
Record ScanRadio := mkScanRadio {
  front_iface_name : string;
  back_iface_name : string;
  front_iface_mac : sMacAddr;
  back_iface_mac : sMacAddr;
  front_bssids : list sMacAddr;
  associated_clients : list sMacAddr;
  freq_type : eFreqType;
  channels_list : gmap Z (list eWiFiBandwidth);
  channel_scan_results : gmap Z ScanEntry;
  channel_scan_in_progress : bool;
}.

(** What the task sends. *)
Inductive ScanMessage :=
  | TRIGGER_SCAN_REQUEST (header_mac radio_mac : sMacAddr) (dwell_time_ms : Z) (channel_pool : gset Z) (cert_mode : Z)
  | DUMP_RESULTS_REQUEST (header_mac : sMacAddr)
  | ABORT_REQUEST (header_mac : sMacAddr)
  | ACK_MESSAGE (dst : sMacAddr) (mid : Z)
  | CHANNEL_SCAN_REPORT_MESSAGE (dst : sMacAddr) (tlvs : list ReportTlv).

(** The radios of the database with the list of those in use, the members of
    the task, how often the clock was read and a fallible call was made, and
    the messages sent. *)
Record ScanTask := mkScanTask {
  m_radios : list ScanRadio;
  m_radios_list : list nat;
  m_prev_scan_timestamps : gmap string Z;
  m_previous_scans : gmap Z (gset Z);
  m_current_scan_info : gmap string sCurrentScan;
  m_pending_requests : gmap string sScanRequest;
  clock_reads : nat;
  calls : nat;
  sent : list ScanMessage;
}.

#[global] Instance set_radios : Setter m_radios := λ f s, mkScanTask (f (m_radios s)) (m_radios_list s)
  (m_prev_scan_timestamps s) (m_previous_scans s) (m_current_scan_info s) (m_pending_requests s) (clock_reads s) (calls s) (sent s).
#[global] Instance set_prev_timestamps : Setter m_prev_scan_timestamps := λ f s, mkScanTask (m_radios s) (m_radios_list s)
  (f (m_prev_scan_timestamps s)) (m_previous_scans s) (m_current_scan_info s) (m_pending_requests s) (clock_reads s) (calls s) (sent s).
#[global] Instance set_previous_scans : Setter m_previous_scans := λ f s, mkScanTask (m_radios s) (m_radios_list s)
  (m_prev_scan_timestamps s) (f (m_previous_scans s)) (m_current_scan_info s) (m_pending_requests s) (clock_reads s) (calls s) (sent s).
#[global] Instance set_current : Setter m_current_scan_info := λ f s, mkScanTask (m_radios s) (m_radios_list s)
  (m_prev_scan_timestamps s) (m_previous_scans s) (f (m_current_scan_info s)) (m_pending_requests s) (clock_reads s) (calls s) (sent s).
#[global] Instance set_pending : Setter m_pending_requests := λ f s, mkScanTask (m_radios s) (m_radios_list s)
  (m_prev_scan_timestamps s) (m_previous_scans s) (m_current_scan_info s) (f (m_pending_requests s)) (clock_reads s) (calls s) (sent s).
#[global] Instance set_clock_reads : Setter clock_reads := λ f s, mkScanTask (m_radios s) (m_radios_list s)
  (m_prev_scan_timestamps s) (m_previous_scans s) (m_current_scan_info s) (m_pending_requests s) (f (clock_reads s)) (calls s) (sent s).
#[global] Instance set_calls : Setter calls := λ f s, mkScanTask (m_radios s) (m_radios_list s)
  (m_prev_scan_timestamps s) (m_previous_scans s) (m_current_scan_info s) (m_pending_requests s) (clock_reads s) (f (calls s)) (sent s).
#[global] Instance set_sent : Setter sent := λ f s, mkScanTask (m_radios s) (m_radios_list s)
  (m_prev_scan_timestamps s) (m_previous_scans s) (m_current_scan_info s) (m_pending_requests s) (clock_reads s) (calls s) (f (sent s)).

(** The configuration, the clock, and the answers of the calls: whether the
    socket to the agent is there, a message can be built and can be sent. *)
Record ScanEnv := mkScanEnv {
  report_env : ReportEnv;
  m_on_boot_scan_enabled : bool;
  m_preferred_dwell_time_ms : Z;
  certification_mode : Z;
  system_clock : nat → Z;
  agent_fd_valid : nat → bool;
  create_message : nat → bool;
  send_message : nat → bool;
}.

Definition PREFERRED_DWELLTIME_MS : Z := 103.
Definition dwell_time_of (dwell_time : Z) : Z := if dwell_time =? 0 then PREFERRED_DWELLTIME_MS else dwell_time.
Definition seconds (n : Z) : Z := n * 1000000000.
Definition SCAN_TRIGGERED_WAIT_TIME : Z := seconds 20.
Definition SCAN_RESULTS_DUMP_WAIT_TIME : Z := seconds 210.
Definition SCAN_REQUEST_TIMEOUT_SEC : Z := seconds 300.
Definition MINIMUM_SCAN_INTERVAL_SEC : Z := seconds 2.

Section Task.
Context (e : ScanEnv).
Notation M A := (faultM ScanTask A).

Definition get_now : M Z := λ s, (Some (system_clock e (clock_reads s)), s <| clock_reads ::= S |>).
Definition ask (answers : nat → bool) : M bool := λ s, (Some (answers (calls s)), s <| calls ::= S |>).
Definition get {A} (f : ScanTask → A) : M A := λ s, (Some (f s), s).
Definition put (f : ScanTask → ScanTask) : M unit := λ s, (Some tt, f s).
Definition push (m : ScanMessage) : M unit := put (λ s, s <| sent ::= (λ l, l ++ [m]) |>).

(** ** The database *)

(** [get_radio_by_mac(mac, eMacType::RADIO)] and with [eMacType::ALL]: the
    position of the radio. *)
Definition has_radio_mac (mac : sMacAddr) (r : ScanRadio) : bool :=
  bool_decide (front_iface_mac r = mac) || bool_decide (back_iface_mac r = mac).
Definition has_mac (mac : sMacAddr) (r : ScanRadio) : bool :=
  has_radio_mac mac r || bool_decide (mac ∈ front_bssids r) || bool_decide (mac ∈ associated_clients r).
Definition find_radio (p : ScanRadio → bool) (s : ScanTask) : option (nat * ScanRadio) := list_find p (m_radios s).
Definition get_radio_by_mac (mac : sMacAddr) : M (option (nat * ScanRadio)) := get (find_radio (has_mac mac)).
Definition get_radio_by_radio_mac (mac : sMacAddr) : M (option (nat * ScanRadio)) := get (find_radio (has_radio_mac mac)).
Definition radio (iface_name : string) : M (option (nat * ScanRadio)) :=
  get (find_radio (λ r, negb (bool_decide (iface_name = "")) &&
    (bool_decide (iface_name = front_iface_name r) || bool_decide (iface_name = back_iface_name r)))).

Definition update_radio (i : nat) (f : ScanRadio → ScanRadio) : M unit := put (λ s, s <| m_radios ::= alter f i |>).
Definition with_results (f : gmap Z ScanEntry → gmap Z ScanEntry) (r : ScanRadio) : ScanRadio :=
  mkScanRadio (front_iface_name r) (back_iface_name r) (front_iface_mac r) (back_iface_mac r) (front_bssids r)
    (associated_clients r) (freq_type r) (channels_list r) (f (channel_scan_results r)) (channel_scan_in_progress r).
Definition not_in_progress (r : ScanRadio) : ScanRadio :=
  mkScanRadio (front_iface_name r) (back_iface_name r) (front_iface_mac r) (back_iface_mac r) (front_bssids r)
    (associated_clients r) (freq_type r) (channels_list r) (channel_scan_results r) false.

(** [m_current_scan_info[ifname]]. *)
Definition current (ifname : string) (s : ScanTask) : sCurrentScan := default no_scan (m_current_scan_info s !! ifname).
Definition set_current_scan (ifname : string) (c : sCurrentScan) : M unit :=
  put (λ s, s <| m_current_scan_info ::= insert ifname c |>).

(** ** Updates of a scan *)

Definition with_scan (f : sRadioScan → sRadioScan) (q : sScanRequest) : sScanRequest :=
  mkScanRequest (rq_src_mac q) (rq_perform_fresh_scan q) (rq_scan_start_timestamp q) (f (rq_radio_scans q)) (rq_ready_to_send_report q).
Definition set_ready (q : sScanRequest) : sScanRequest :=
  mkScanRequest (rq_src_mac q) (rq_perform_fresh_scan q) (rq_scan_start_timestamp q) (rq_radio_scans q) true.

Definition move_state (st : eState) (r : sRadioScan) : sRadioScan :=
  mkRadioScan (rs_radio_mac r) (rs_operating_classes r) st (rs_timeout r) (rs_dwell_time r) (rs_cached_results r).
Definition move_timeout_state (st : eState) (timeout : Z) (r : sRadioScan) : sRadioScan :=
  mkRadioScan (rs_radio_mac r) (rs_operating_classes r) st timeout (rs_dwell_time r) (rs_cached_results r).
Definition set_radio_scan_status (status : eScanStatus) (r : sRadioScan) : sRadioScan :=
  mkRadioScan (rs_radio_mac r)
    ((λ c, mkScanClass (operating_class c) (bw c) ((λ ch, mkScanChannel (channel_number ch) status) <$> channel_list c))
       <$> rs_operating_classes r)
    (rs_current_state r) (rs_timeout r) (rs_dwell_time r) (rs_cached_results r).
Definition with_cached (f : gmap Z (list sChannelScanResults) → gmap Z (list sChannelScanResults)) (r : sRadioScan) : sRadioScan :=
  mkRadioScan (rs_radio_mac r) (rs_operating_classes r) (rs_current_state r) (rs_timeout r) (rs_dwell_time r) (f (rs_cached_results r)).
Definition with_dwell_time (d : Z) (r : sRadioScan) : sRadioScan :=
  mkRadioScan (rs_radio_mac r) (rs_operating_classes r) (rs_current_state r) (rs_timeout r) d (rs_cached_results r).

(** ** Requests to the monitor *)

Definition abort_scan_request (q : sScanRequest) : M bool :=
  r <- get_radio_by_radio_mac (rs_radio_mac (rq_radio_scans q)) ;;
  match r with
  | None => fret false
  | Some (_, r) =>
    fd <- ask (agent_fd_valid e) ;;
    if negb fd then fret false
    else
      ok <- ask (create_message e) ;;
      if negb ok then fret false
      else
        ok <- ask (send_message e) ;;
        if negb ok then fret false else _ <- push (ABORT_REQUEST (front_iface_mac r)) ;; fret true
  end.

(** The 20 MHz channels to scan for a channel of a class; [None] is a loop that
    does not end. *)
Definition channels_of (c : ScanClass) (ch : ScanChannel) : option (gset Z) :=
  if bool_decide (scan_status ch = SCAN_NOT_SUPPORTED) then Some ∅
  else if bw_val BANDWIDTH_80 <=? bw_val (bw c) then
    r ← get_subset_20MHz_channels (channel_number ch) (operating_class c) (bw c); Some (list_to_set r.2)
  else Some {[ channel_number ch ]}.
Definition channels_to_scan (r : sRadioScan) : option (gset Z) :=
  union_list <$> mapM (λ x : ScanClass * ScanChannel, channels_of x.1 x.2)
    (c ← rs_operating_classes r; pair c <$> channel_list c).

(** [trigger_radio_scan], with the scan it leaves. *)
Definition trigger_radio_scan (radio_iface : string) (scan : sRadioScan) : M (bool * sRadioScan) :=
  let failed := set_radio_scan_status SCAN_NOT_COMPLETED scan in
  fd <- ask (agent_fd_valid e) ;;
  if negb fd then fret (false, scan)
  else
    r <- radio radio_iface ;;
    match r with
    | None => fret (false, failed)
    | Some (_, r) =>
      ok <- ask (create_message e) ;;
      if negb ok then fret (false, failed)
      else if rs_dwell_time scan =? 0 then
        ok <- ask (send_message e) ;;
        if negb ok then fret (false, failed)
        else _ <- push (DUMP_RESULTS_REQUEST (front_iface_mac r)) ;; fret (true, scan)
      else
        match channels_to_scan scan with
        | None => fault
        | Some pool =>
          if bool_decide (pool = ∅) then fret (true, move_state SCAN_DONE scan)
          else
            ok <- ask (send_message e) ;;
            if negb ok then fret (false, failed)
            else
              _ <- push (TRIGGER_SCAN_REQUEST (front_iface_mac r) (rs_radio_mac scan) (u32 (rs_dwell_time scan)) pool
                           (certification_mode e)) ;;
              fret (true, scan)
        end
    end.

Definition trigger_next_radio_scan (ifname : string) (q : sScanRequest) : M bool :=
  let st := rs_current_state (rq_radio_scans q) in
  if negb (bool_decide (st = PENDING_TRIGGER)) && negb (bool_decide (st = SCAN_IGNORED)) then fret false
  else
    r <- trigger_radio_scan ifname (rq_radio_scans q) ;;
    if (r.1 : bool)
    then _ <- set_current_scan ifname (mkCurrentScan true (Some (with_scan (λ _, r.2) q))) ;; fret true
    else fret false.

(** ** The report *)

Definition PERFORM_A_FRESH_SCAN : Z := 0x80.

(** [send_channel_scan_report_to_controller] with [get_scan_results_for_request];
    a radio that is not found is a null pointer. *)
Definition send_channel_scan_report_to_controller (q : sScanRequest) : M bool :=
  t <- get_now ;;
  match get_ISO_8601_timestamp_string (report_env e) t with
  | [] => fret false
  | _ =>
    r <- get_radio_by_radio_mac (rs_radio_mac (rq_radio_scans q)) ;;
    match r with
    | None => fault
    | Some (_, r) => λ s,
      let results := get_scan_results (rq_perform_fresh_scan q =? PERFORM_A_FRESH_SCAN) (rs_radio_mac (rq_radio_scans q))
                       (rs_dwell_time (rq_radio_scans q)) (rq_scan_start_timestamp q)
                       (rs_operating_classes (rq_radio_scans q)) (channel_scan_results r) in
      let '(ok, rp) := send_channel_scan_report (report_env e) (rq_src_mac q) t results (mkReport [] [] (calls s)) in
      (ok, s <| calls := rp_calls rp |> <| sent ::= (λ l, l ++ ((λ m, CHANNEL_SCAN_REPORT_MESSAGE m.1 m.2) <$> rp_sent rp)) |>)
    end
  end.

(** ** Periodic work *)

(** The results of a scan that is done, for every requested channel. *)
Definition sync_results (q : sScanRequest) (results : gmap Z ScanEntry) : gmap Z ScanEntry :=
  foldl (λ m ch, <[ch := (SUCCESS, rq_scan_start_timestamp q, default [] (rs_cached_results (rq_radio_scans q) !! ch))]> m)
    results (c ← rs_operating_classes (rq_radio_scans q); channel_number <$> channel_list c).

Definition ready_unless_on_boot (q : sScanRequest) : sScanRequest := if m_on_boot_scan_enabled e then q else set_ready q.

(** The timeout of a state that waits. *)
Definition check_timeout (q : sScanRequest) : M sScanRequest :=
  t <- get_now ;;
  fret (if rs_timeout (rq_radio_scans q) <? t
        then with_scan (λ r, move_state SCAN_FAILED (set_radio_scan_status SCAN_NOT_COMPLETED r)) q else q).

(** The [switch] on the state of the scan on radio [i]: the request after it,
    and whether the scan still runs. *)
Definition handle_scan_state (i : nat) (q : sScanRequest) : M (sScanRequest * bool) :=
  match rs_current_state (rq_radio_scans q) with
  | PENDING_TRIGGER => fret (q, true)
  | WAIT_FOR_SCAN_TRIGGERED | WAIT_FOR_RESULTS_READY | WAIT_FOR_RESULTS_DUMP => q <- check_timeout q ;; fret (q, true)
  | SCAN_DONE =>
    _ <- update_radio i (with_results (sync_results q)) ;;
    fret (if m_on_boot_scan_enabled e then (q, false) else (set_ready q, true))
  | SCAN_FAILED | SCAN_ABORTED => fret (ready_unless_on_boot q, true)
  | SCAN_IGNORED => fret (ready_unless_on_boot (with_scan (set_radio_scan_status REQUEST_TOO_SOON_AFTER_LAST_SCAN) q), true)
  end.

(** The body of the loop of [work()] for the radio at [i]: [false] leaves the
    function. *)
Definition work_radio (i : nat) : M bool := λ s,
  match m_radios s !! i with
  | None => (Some true, s)
  | Some r =>
    let name := front_iface_name r in
    if is_scan_currently_running (current name s) then
      match cur_request (current name s) with
      | None => (None, s)
      | Some q =>
        (t <- get_now ;;
         _ <- (if rq_scan_start_timestamp q + SCAN_REQUEST_TIMEOUT_SEC <? t then abort_scan_request q else fret true) ;;
         x <- handle_scan_state i q ;;
         _ <- set_current_scan name (mkCurrentScan x.2 (Some x.1)) ;;
         if negb (m_on_boot_scan_enabled e) && rq_ready_to_send_report x.1
         then _ <- set_current_scan name no_scan ;; send_channel_scan_report_to_controller x.1
         else fret true) s
      end
    else
      match m_pending_requests s !! name with
      | None => (Some true, s)
      | Some q =>
        (_ <- trigger_next_radio_scan name q ;;
         _ <- put (λ s, s <| m_pending_requests ::= delete name |>) ;;
         fret true) s
      end
  end.

Fixpoint work_radios (l : list nat) : M unit :=
  match l with
  | [] => fret tt
  | i :: l => ok <- work_radio i ;; if (ok : bool) then work_radios l else fret tt
  end.
Definition work : M unit := λ s, work_radios (m_radios_list s) s.

(** ** Notifications of the monitor *)

(** Vendor specific messages; [NOT_HANDLED] is an operation of another task or
    a message whose class cannot be added. *)
Inductive Notification :=
  | TRIGGER_ON_BOOT_SCAN (radio_mac : sMacAddr)
  | TRIGGER_SCAN_RESPONSE (success : bool)
  | TRIGGERED_NOTIFICATION
  | RESULTS_NOTIFICATION (is_dump : bool) (scan_results : sChannelScanResults)
  | FINISHED_NOTIFICATION
  | ABORTED_NOTIFICATION
  | DUMP_RESULTS_RESPONSE (success : bool)
  | ABORT_RESPONSE (success : bool)
  | NOT_HANDLED.

(** The lambdas [does_current_scan_match_incoming_src] and
    [is_current_scan_in_state] dereference the scan. *)
Definition deref (c : sCurrentScan) : M sScanRequest :=
  match cur_request c with None => fault | Some q => fret q end.
Definition matches_src (src_mac : sMacAddr) (q : sScanRequest) : bool := bool_decide (rs_radio_mac (rq_radio_scans q) = src_mac).
Definition in_state (st : eState) (q : sScanRequest) : bool := bool_decide (rs_current_state (rq_radio_scans q) = st).

Definition move_scan (ifname : string) (running : bool) (f : sRadioScan → sRadioScan) (q : sScanRequest) : M bool :=
  _ <- set_current_scan ifname (mkCurrentScan running (Some (with_scan f q))) ;; fret true.
Definition move_scan_timeout (ifname : string) (st : eState) (wait : Z) (q : sScanRequest) : M bool :=
  t <- get_now ;; move_scan ifname true (move_timeout_state st (t + wait)) q.

(** The element of the cached results for a channel of the request, unless the
    same result is there. *)
Definition same_result (a b : sChannelScanResults) : bool :=
  bool_decide (r_bssid a = r_bssid b) && (r_spectrum_info_present a =? r_spectrum_info_present b).
Definition add_result (r : sChannelScanResults) (l : list sChannelScanResults) : list sChannelScanResults :=
  if existsb (λ x, same_result x r) l then l else l ++ [r].

(** The key that [find] gets: the channel as an 8-bit number. *)
Definition result_channel (r : sChannelScanResults) : Z := u8 (r_channel r).

(** The loop over the channels of a class, which ends at the first channel the
    result belongs to; [None] is a loop that does not end. *)
Fixpoint store_in_class (r : sChannelScanResults) (c : ScanClass) (l : list ScanChannel)
    (cache : gmap Z (list sChannelScanResults)) : option (gmap Z (list sChannelScanResults)) :=
  match l with
  | [] => Some cache
  | ch :: l =>
    x ← get_subset_20MHz_channels (channel_number ch) (operating_class c) (bw c);
    if in_list (result_channel r) x.2
    then Some (<[channel_number ch := add_result r (default [] (cache !! channel_number ch))]> cache)
    else store_in_class r c l cache
  end.
Fixpoint store_result (r : sChannelScanResults) (l : list ScanClass) (cache : gmap Z (list sChannelScanResults))
    : option (gmap Z (list sChannelScanResults)) :=
  match l with
  | [] => Some cache
  | c :: l => cache ← store_in_class r c (channel_list c) cache; store_result r l cache
  end.

Definition store_radio_scan_result (src_mac : sMacAddr) (r : sChannelScanResults) (q : sScanRequest) : M (option sScanRequest) :=
  radio <- get_radio_by_mac src_mac ;;
  match radio with
  | None => fret None
  | Some _ =>
    match store_result r (rs_operating_classes (rq_radio_scans q)) (rs_cached_results (rq_radio_scans q)) with
    | None => fault
    | Some cache => fret (Some (with_scan (with_cached (λ _, cache)) q))
    end
  end.

(** ** Scan requests *)

(** The acknowledgement to the originator of a request. *)
Definition send_ack (mid : Z) (src_mac : sMacAddr) : M bool :=
  ok <- ask (create_message e) ;;
  if negb ok then fret false
  else
    ok <- ask (send_message e) ;;
    if negb ok then fret false else _ <- push (ACK_MESSAGE src_mac mid) ;; fret true.

(** [tlvProfile2ChannelScanRequest]: entries that cannot be read are [None]. *)
Record RadioEntry := mkRadioEntry { radio_uid : sMacAddr; operating_classes_list : list (option (Z * list Z)) }.
Record ChannelScanRequestTlv := mkRequestTlv { perform_fresh_scan : Z; radio_list : list (option RadioEntry) }.

(** The lambda [create_channel_vector], with the channels it adds to
    [m_previous_scans]. *)
Definition scan_channel (supported : bool) (ch : Z) : ScanChannel :=
  mkScanChannel ch (if supported then SUCCESS else SCAN_NOT_SUPPORTED).
Definition is_supported (r : ScanRadio) (ch : Z) : bool := bool_decide (is_Some (channels_list r !! ch)).

Definition subset_entries (cls : Z) (band : eWiFiBandwidth) (r : ScanRadio) (ch : Z) : option (list ScanChannel) :=
  x ← get_subset_20MHz_channels ch cls band; Some (scan_channel (is_supported r ch) <$> (x.2 : list Z)).
Definition create_channel_vector (channels : list Z) (cls : Z) (band : eWiFiBandwidth) (r : ScanRadio) : option (list ScanChannel) :=
  match channels with
  | [] =>
    l ← mapM (subset_entries cls band r) (operating_class_to_channel_set cls);
    Some (concat l)
  | _ => Some ((λ ch, scan_channel (is_channel_in_operating_class cls ch && is_supported r ch) ch) <$> channels)
  end.

Definition remember (cls : Z) (l : list ScanChannel) : M unit :=
  put (λ s, s <| m_previous_scans ::= (λ m, foldl (λ m ch,
    if bool_decide (scan_status ch = SUCCESS) then <[cls := {[channel_number ch]} ∪ default ∅ (m !! cls)]> m else m) m l) |>).

Definition create_class (channels : list Z) (cls : Z) (r : ScanRadio) : M ScanClass :=
  let band := operating_class_to_bandwidth cls in
  match create_channel_vector channels cls band r with
  | None => fault
  | Some l => _ <- remember cls l ;; fret (mkScanClass cls band l)
  end.

(** The lambda [create_fresh_operating_class]. *)
Fixpoint create_fresh_operating_class (entries : list (Z * list Z)) (r : ScanRadio) : M (list ScanClass) :=
  match entries with
  | [] => fret []
  | (cls, channels) :: l =>
    c <- create_class channels cls r ;; rest <- create_fresh_operating_class l r ;; fret (c :: rest)
  end.

(** [get_operating_classes_of_freq_type]: the classes from the first key to the
    one before the second. *)
Definition classes_between (first : Z) (last : option Z) : list Z :=
  fst <$> filter (λ x, (first <=? x.1) && (match last with Some l => x.1 <? l | None => true end) = true)
    Channels.operating_classes_list.
Definition get_operating_classes_of_freq_type (f : eFreqType) : list Z :=
  match f with
  | FREQ_24G => classes_between 81 (Some 115)
  | FREQ_5G => classes_between 115 (Some 131)
  | FREQ_6G => classes_between 131 None
  | _ => []
  end.

(** Whether an entry of the radio's channels makes a channel of the class
    operable: the loop over its bandwidths; [None] is a loop that does not end. *)
Definition matches_band (class_band b : eWiFiBandwidth) : bool :=
  bw_eq class_band b || (bw_eq b BANDWIDTH_320_1 || bw_eq b BANDWIDTH_320_2) && bw_eq class_band BANDWIDTH_320.
Definition unavailable (channels : gmap Z (list eWiFiBandwidth)) (cls ch : Z) (b : eWiFiBandwidth) : option bool :=
  if freq_eq (which_freq_op_cls cls) FREQ_24G then Some false
  else
    overlapping ← get_overlapping_beacon_channels ch (which_freq_op_cls cls) b;
    Some (existsb (λ o, bool_decide (channels !! o = None)) overlapping).
Definition class_channel_of (cls ch : Z) (b : eWiFiBandwidth) : Z :=
  if is_operating_class_using_central_channel cls then get_center_channel ch (which_freq_op_cls cls) b else ch.
Fixpoint entry_operable (channels : gmap Z (list eWiFiBandwidth)) (cls class_channel ch : Z) (bands : list eWiFiBandwidth)
    : option bool :=
  match bands with
  | [] => Some false
  | b :: bands =>
    if negb (matches_band (operating_class_to_bandwidth cls) b) then entry_operable channels cls class_channel ch bands
    else
      u ← unavailable channels cls ch b;
      if (u : bool) then Some false
      else if class_channel =? class_channel_of cls ch b then Some true
      else entry_operable channels cls class_channel ch bands
  end.
Fixpoint any_operable (channels : gmap Z (list eWiFiBandwidth)) (cls class_channel : Z) (l : list (Z * list eWiFiBandwidth))
    : option bool :=
  match l with
  | [] => Some false
  | (ch, bands) :: l =>
    found ← entry_operable channels cls class_channel ch bands;
    if (found : bool) then Some true else any_operable channels cls class_channel l
  end.
Definition channel_operable (channels : gmap Z (list eWiFiBandwidth)) (cls class_channel : Z) : option bool :=
  any_operable channels cls class_channel (map_to_list channels).
Definition get_operating_class_non_oper_channels (channels : gmap Z (list eWiFiBandwidth)) (cls : Z) : option (list Z) :=
  (λ l, snd <$> filter (λ x : bool * Z, x.1 = false) l)
    <$> mapM (λ ch, b ← channel_operable channels cls ch; Some (b, ch)) (operating_class_to_channel_set cls).

(** [tlvf_utils::get_channel_scan_map], in the order of the map. *)
Definition get_channel_scan_map (r : ScanRadio) : option (list (Z * list Z)) :=
  omap id <$> mapM (λ cls,
    if negb (bw_eq (operating_class_to_bandwidth cls) BANDWIDTH_20) then Some None
    else
      non_oper ← get_operating_class_non_oper_channels (channels_list r) cls;
      let all := operating_class_to_channel_set cls in
      Some (if (length non_oper =? length all)%nat then None
            else Some (cls, set_difference (length all + length non_oper) all non_oper)))
    (get_operating_classes_of_freq_type (freq_type r)).

(** The lambda [create_stored_operating_classes] of a request. *)
Definition stored_status (r : ScanRadio) (ch : Z) : eScanStatus :=
  match channel_scan_results r !! ch with Some (st, _, _) => st | None => SCAN_NOT_COMPLETED end.
Definition create_stored_operating_classes (entries : list (Z * list Z)) (r : ScanRadio) : option (list ScanClass) :=
  (λ scan_map : list (Z * list Z),
     (λ x : Z * list Z, mkScanClass x.1 BANDWIDTH_20 ((λ ch, mkScanChannel ch (stored_status r ch)) <$> x.2))
       <$> filter (λ x : Z * list Z, entries = [] ∨ x.1 ∈ entries.*1) scan_map) <$> get_channel_scan_map r.

(** [handle_scan_request_extension_tlv]: the dwell time of the radio, from a TLV
    that [parse_intel_vs_message] swaps at every call. *)
Definition bswap32 (v : Z) : Z :=
  u8 v * 2 ^ 24 + u8 (Z.shiftr v 8) * 2 ^ 16 + u8 (Z.shiftr v 16) * 2 ^ 8 + u8 (Z.shiftr v 24).
Fixpoint apply_extension (swapped : bool) (l : list (option (sMacAddr * Z))) (scan : sRadioScan) : M sRadioScan :=
  match l with
  | [] => fret scan
  | None :: l => apply_extension swapped l scan
  | Some (mac, dwell) :: l =>
    r <- get_radio_by_mac mac ;;
    match r with
    | None => fret scan
    | Some _ =>
      apply_extension swapped l
        (if bool_decide (rs_radio_mac scan = mac) then with_dwell_time (if swapped then bswap32 dwell else dwell) scan else scan)
    end
  end.

(** The body of the loop over the radios of a request; [parses] is how often the
    extension TLV was parsed before. [inl] leaves the function. *)
Definition request_radio (src_mac : sMacAddr) (start fresh : Z) (extension : option (list (option (sMacAddr * Z))))
    (parses : nat) (entry : RadioEntry) : M (bool + unit) :=
  if (length (operating_classes_list entry) =? 0)%nat && negb (fresh =? 0) then fret (inl false)
  else
    r <- get_radio_by_mac (radio_uid entry) ;;
    match r with
    | None => fret (inl false)
    | Some (_, r) =>
      let name := front_iface_name r in
      last_scan <- get (λ s, m_prev_scan_timestamps s !! name) ;;
      aborted <- (match last_scan with
                  | Some last =>
                    if negb (fresh =? 0) then
                      t <- get_now ;;
                      c <- get (current name) ;;
                      if (last + MINIMUM_SCAN_INTERVAL_SEC <? t) && is_scan_currently_running c
                      then q <- deref c ;; abort_scan_request q
                      else fret true
                    else fret true
                  | None => fret true
                  end) ;;
      if negb aborted then fret (inl false)
      else
        let entries := omap id (operating_classes_list entry) in
        classes <- (if fresh =? 0
                    then match create_stored_operating_classes entries r with None => fault | Some l => fret l end
                    else create_fresh_operating_class entries r) ;;
        let scan := mkRadioScan (radio_uid entry) classes PENDING_TRIGGER 0 (m_preferred_dwell_time_ms e) ∅ in
        scan <- (if prplmesh_controller (report_env e)
                 then match extension with None => fret scan | Some l => apply_extension (Nat.odd parses) l scan end
                 else fret scan) ;;
        scan <- (match last_scan with
                 | Some last =>
                   if negb (fresh =? 0)
                   then t <- get_now ;; fret (if t <? last + MINIMUM_SCAN_INTERVAL_SEC then move_state SCAN_IGNORED scan else scan)
                   else fret scan
                 | None => fret scan
                 end) ;;
        let q := mkScanRequest src_mac fresh start scan false in
        if fresh =? 0
        then ok <- send_channel_scan_report_to_controller (set_ready q) ;; fret (inl ok)
        else
          _ <- put (λ s, s <| m_prev_scan_timestamps ::= insert name start |> <| m_pending_requests ::= insert name q |>) ;;
          fret (inr tt)
    end.

Fixpoint request_radios (src_mac : sMacAddr) (start fresh : Z) (extension : option (list (option (sMacAddr * Z))))
    (parses : nat) (l : list (option RadioEntry)) : M bool :=
  match l with
  | [] => fret true
  | None :: l => request_radios src_mac start fresh extension parses l
  | Some entry :: l =>
    r <- request_radio src_mac start fresh extension parses entry ;;
    match r with inl ok => fret ok | inr _ => request_radios src_mac start fresh extension (S parses) l end
  end.

(** [handle_channel_scan_request]; [tlv] and [extension] are [None] when the
    message does not have them. *)
Definition handle_channel_scan_request (tlv : option ChannelScanRequestTlv) (extension : option (list (option (sMacAddr * Z))))
    (mid : Z) (src_mac : sMacAddr) : M bool :=
  start <- get_now ;;
  match tlv with
  | None => fret false
  | Some tlv =>
    ok <- send_ack mid src_mac ;;
    if negb ok then fret false else request_radios src_mac start (perform_fresh_scan tlv) extension 0 (radio_list tlv)
  end.

(** ** On boot scans *)

(** [get_operating_class_oper_channels]: the channels of the class that the
    radio supports with its bandwidth. *)
Definition supports_channel (cls class_channel : Z) (x : Z * list eWiFiBandwidth) : bool :=
  existsb (λ b, bw_eq (operating_class_to_bandwidth cls) b && (class_channel =? class_channel_of cls x.1 b)) x.2.
Definition get_operating_class_oper_channels (channels : gmap Z (list eWiFiBandwidth)) (cls : Z) : list Z :=
  filter (λ c, existsb (supports_channel cls c) (map_to_list channels) = true) (operating_class_to_channel_set cls).

(** The lambdas [create_stored_operating_classes] and
    [create_fresh_operating_class] of an on boot scan. *)
Definition create_previous_operating_classes (s : ScanTask) : list ScanClass :=
  (λ x : Z * gset Z, mkScanClass x.1 (operating_class_to_bandwidth x.1) (scan_channel true <$> elements x.2))
    <$> map_to_list (m_previous_scans s).
Fixpoint create_on_boot_operating_classes (l : list Z) (r : ScanRadio) : M (list ScanClass) :=
  match l with
  | [] => fret []
  | cls :: l =>
    c <- create_class (get_operating_class_oper_channels (channels_list r) cls) cls r ;;
    rest <- create_on_boot_operating_classes l r ;; fret (c :: rest)
  end.

Definition on_boot_classes (f : eFreqType) : option (list Z) :=
  match f with FREQ_5G => Some [115; 118; 121; 124] | FREQ_24G => Some [81] | _ => None end.

(** [handle_on_boot_scan_request]. *)
Definition handle_on_boot_scan_request (mid : Z) (src_mac radio_mac : sMacAddr) (send_results : bool) : M bool :=
  ok <- (if send_results then send_ack mid src_mac else fret true) ;;
  if negb ok then fret false
  else
    start <- get_now ;;
    r <- get_radio_by_mac radio_mac ;;
    match r with
    | None => fret false
    | Some (_, r) =>
      match on_boot_classes (freq_type r) with
      | None => fret false
      | Some l =>
        classes <- (if send_results then get create_previous_operating_classes else create_on_boot_operating_classes l r) ;;
        let q := mkScanRequest src_mac 0 start
                   (mkRadioScan radio_mac classes PENDING_TRIGGER 0 (m_preferred_dwell_time_ms e) ∅) false in
        if send_results then
          running <- get (λ s, is_scan_currently_running (current (front_iface_name r) s)) ;;
          _ <- set_current_scan (front_iface_name r) (mkCurrentScan running None) ;;
          send_channel_scan_report_to_controller q
        else
          _ <- put (λ s, s <| m_pending_requests ::= insert (front_iface_name r) q |>) ;; fret true
      end
    end.

(** ** Events and messages *)

Definition not_completed (now : Z) (results : gmap Z ScanEntry) (l : list (Z * list Z)) : gmap Z ScanEntry :=
  foldl (λ m ch, <[ch := (SCAN_NOT_COMPLETED, now, [])]> m) results (x ← l; x.2).
Fixpoint init_results (now : Z) (l : list nat) : M unit :=
  match l with
  | [] => fret tt
  | i :: l =>
    r <- get (λ s, m_radios s !! i) ;;
    match r with
    | None => fault
    | Some r =>
      match get_channel_scan_map r with
      | None => fault
      | Some scan_map => _ <- update_radio i (with_results (λ m, not_completed now m scan_map)) ;; init_results now l
      end
    end
  end.
Definition handle_backhaul_enable_event : M unit :=
  now <- get_now ;; l <- get m_radios_list ;; init_results now l.

Inductive eEvent := INDEPENDENT_SCAN_REQUEST | BACKHAUL_MANAGER_ENABLE | OTHER_EVENT.
Definition handle_event (ev : eEvent) : M unit :=
  match ev with BACKHAUL_MANAGER_ENABLE => handle_backhaul_enable_event | _ => fret tt end.

(** [get_on_boot_scan_radio_mac]: the first radio of a request for stored
    results that lists no class. *)
Definition get_on_boot_scan_radio_mac (tlv : option ChannelScanRequestTlv) : sMacAddr :=
  match tlv with
  | None => ZERO_MAC
  | Some tlv =>
    from_option radio_uid ZERO_MAC
      (head (filter (λ x, operating_classes_list x = [] ∧ perform_fresh_scan tlv = 0) (omap id (radio_list tlv))))
  end.

(** The [switch] of [handle_vendor_specific] for the radio at [i]. *)
Definition set_running (ifname : string) (b : bool) : M unit :=
  put (λ s, s <| m_current_scan_info ::= insert ifname (mkCurrentScan b (cur_request (current ifname s))) |>).

Definition failed_scan (st : eState) (status : eScanStatus) (r : sRadioScan) : sRadioScan :=
  move_state st (set_radio_scan_status status r).

(** A running scan of the radio in the expected state, when there is one. *)
Definition expected_scan (c : sCurrentScan) (src_mac : sMacAddr) (st : option eState) : M (option sScanRequest) :=
  q <- deref c ;;
  fret (if matches_src src_mac q && from_option (λ st, in_state st q) true st then Some q else None).

Definition handle_results_notification (ifname : string) (src_mac : sMacAddr) (is_dump : bool) (r : sChannelScanResults)
    (c : sCurrentScan) : M bool :=
  x <- expected_scan c src_mac (Some (if is_dump then WAIT_FOR_RESULTS_DUMP else WAIT_FOR_RESULTS_READY)) ;;
  match x with
  | None => fret false
  | Some q =>
    x <- (if is_dump then store_radio_scan_result src_mac r q else fret (Some q)) ;;
    match x with
    | None => fret false
    | Some q =>
      t <- get_now ;;
      move_scan ifname true (λ r, set_radio_scan_status SUCCESS
        (move_timeout_state WAIT_FOR_RESULTS_DUMP (t + SCAN_RESULTS_DUMP_WAIT_TIME) r)) q
    end
  end.

Definition handle_notification (mid : Z) (i : nat) (ifname : string) (src_mac : sMacAddr) (n : Notification) : M bool :=
  c <- get (current ifname) ;;
  let expect st (not_running : bool) (k : sScanRequest → M bool) : M bool :=
    if negb (is_scan_currently_running c) then fret not_running
    else x <- expected_scan c src_mac st ;; match x with None => fret false | Some q => k q end in
  match n with
  | TRIGGER_ON_BOOT_SCAN radio_mac => handle_on_boot_scan_request mid src_mac radio_mac false
  | TRIGGER_SCAN_RESPONSE success =>
    expect (Some PENDING_TRIGGER) false (λ q,
      if success then move_scan_timeout ifname WAIT_FOR_SCAN_TRIGGERED SCAN_TRIGGERED_WAIT_TIME q
      else move_scan ifname false (failed_scan SCAN_FAILED SCAN_NOT_COMPLETED) q)
  | TRIGGERED_NOTIFICATION =>
    expect (Some WAIT_FOR_SCAN_TRIGGERED) true (move_scan_timeout ifname WAIT_FOR_RESULTS_READY SCAN_RESULTS_DUMP_WAIT_TIME)
  | RESULTS_NOTIFICATION is_dump r =>
    if negb (is_scan_currently_running c) then fret true else handle_results_notification ifname src_mac is_dump r c
  | FINISHED_NOTIFICATION =>
    _ <- update_radio i not_in_progress ;;
    expect (Some WAIT_FOR_RESULTS_DUMP) true (move_scan ifname true (move_state SCAN_DONE))
  | ABORTED_NOTIFICATION =>
    _ <- update_radio i not_in_progress ;;
    expect None false (move_scan ifname false (failed_scan SCAN_ABORTED SCAN_STATUS_ABORTED))
  | DUMP_RESULTS_RESPONSE success =>
    expect (Some PENDING_TRIGGER) false (λ q,
      if success then move_scan_timeout ifname WAIT_FOR_RESULTS_READY SCAN_RESULTS_DUMP_WAIT_TIME q
      else move_scan ifname true (failed_scan SCAN_FAILED SCAN_NOT_COMPLETED) q)
  | ABORT_RESPONSE success => _ <- set_running ifname success ;; fret true
  | NOT_HANDLED => fret false
  end.

Definition handle_vendor_specific (mid : Z) (src_mac : sMacAddr) (n : Notification) : M bool :=
  r <- get_radio_by_mac src_mac ;;
  match r with
  | None => fret false
  | Some (i, r) => handle_notification mid i (front_iface_name r) src_mac n
  end.

(** The messages of [handle_cmdu]; a vendor specific message has the radio's
    address in its header, or no header. *)
Inductive ScanCmdu :=
  | CHANNEL_SCAN_REQUEST_MESSAGE (mid : Z) (src_mac : sMacAddr) (tlv : option ChannelScanRequestTlv)
      (extension : option (list (option (sMacAddr * Z))))
  | VENDOR_SPECIFIC_MESSAGE (mid : Z) (header : option (sMacAddr * Notification))
  | OTHER_MESSAGE.

Definition handle_cmdu (m : ScanCmdu) : M bool :=
  match m with
  | CHANNEL_SCAN_REQUEST_MESSAGE mid src_mac tlv extension =>
    if negb (m_on_boot_scan_enabled e) then handle_channel_scan_request tlv extension mid src_mac
    else
      let radio_mac := get_on_boot_scan_radio_mac tlv in
      if bool_decide (radio_mac = ZERO_MAC) then fret false else handle_on_boot_scan_request mid src_mac radio_mac true
  | VENDOR_SPECIFIC_MESSAGE mid (Some (radio_mac, n)) => handle_vendor_specific mid radio_mac n
  | VENDOR_SPECIFIC_MESSAGE _ None => fault
  | OTHER_MESSAGE => fret false
  end.

End Task.
End channel_scan.
