(* ===== verification/ScanSafety.v ===== *)
(** * The channel scan task: requests of running scans

    [is_scan_currently_running] is set with the request; the two messages that
    set one of them alone, and that no other one does. *)

From S2P Require Import Prelude Wire Streams Channels ScanReport ChannelScan.
Import channel_scan.

(** A running scan has its request. *)
Definition pointers_ok (s : ScanTask) : Prop :=
  map_Forall (λ _ c, is_scan_currently_running c = true → cur_request c ≠ None) (m_current_scan_info s).

(** ** Loops over channels end *)

Lemma find_center_In ch b t c : find_center ch b t = Some c → ∃ row, row ∈ t ∧ map_find b row.2 = Some c.
Proof.
  induction t as [|[k bws] t IH]; cbn; [done|]. destruct (map_find b bws) as [c'|] eqn:Hm.
  - destruct (_ =? _); [intros [= ->]; exists (k, bws); split; [left|done]|intros (row & ? & ?)%IH; exists row; split; [by right|done]].
  - intros (row & ? & ?)%IH. exists row. split; [by right|done].
Qed.

Definition ranges_end (t : channels_table) : bool :=
  forallb (λ row, forallb (λ x, bool_decide (channel_range (overlap_beacon_channels_range x.2) ≠ None)) row.2) t.

Lemma map_find_In {K V} `{EqDecision K} (k : K) (l : list (K * V)) v : map_find k l = Some v → (k, v) ∈ l.
Proof. apply map_find_elem. Qed.

Lemma get_subset_20MHz_channels_ends ch cls b : is_Some (get_subset_20MHz_channels ch cls b).
Proof.
  unfold get_subset_20MHz_channels. destruct (bw_eq _ _); [done|]. destruct (_ <? _); [done|]. destruct (between _ _ _); [|done].
  assert (∀ five : bool, ranges_end (if five then channels_table_5g else channels_table_6g) = true) as Ht by (intros []; by vm_compute).
  specialize (Ht (cls <=? 130)). set (t := if cls <=? 130 then _ else _) in *.
  destruct (find_center ch b t) as [c|] eqn:Hc; [|done]. apply find_center_In in Hc as (row & Hrow & Hf%map_find_In).
  unfold ranges_end in Ht. rewrite forallb_forall in Ht. apply list_elem_of_In in Hrow, Hf. specialize (Ht _ Hrow).
  rewrite forallb_forall in Ht. specialize (Ht _ Hf). cbn [snd] in Ht. apply bool_decide_eq_true in Ht.
  destruct (channel_range _) as [l|]; [|done]. by eexists.
Qed.

Lemma mapM_ends {A B} (f : A → option B) l : (∀ x, is_Some (f x)) → is_Some (mapM f l).
Proof. intros Hf. apply mapM_is_Some. apply Forall_true. exact Hf. Qed.

Lemma channels_to_scan_ends r : is_Some (channels_to_scan r).
Proof.
  unfold channels_to_scan. rewrite fmap_is_Some. apply mapM_ends. intros [c ch]. unfold channels_of. cbn.
  destruct (bool_decide _); [done|]. destruct (_ <=? _); [|done].
  destruct (get_subset_20MHz_channels_ends (channel_number ch) (operating_class c) (bw c)) as [x ->]. done.
Qed.
Lemma create_channel_vector_ends channels cls b r : is_Some (create_channel_vector channels cls b r).
Proof.
  unfold create_channel_vector. destruct channels; [|done].
  destruct (mapM_ends (subset_entries cls b r) (operating_class_to_channel_set cls)) as [l ->]; [|done].
  intros ch. unfold subset_entries. by destruct (get_subset_20MHz_channels_ends ch cls b) as [x ->].
Qed.
Lemma store_in_class_ends r c l cache : is_Some (store_in_class r c l cache).
Proof.
  induction l as [|ch l IH]; cbn; [done|].
  destruct (get_subset_20MHz_channels_ends (channel_number ch) (operating_class c) (bw c)) as [x ->]. cbn. by destruct (in_list _ _).
Qed.
Lemma store_result_ends r l : ∀ cache, is_Some (store_result r l cache).
Proof.
  induction l as [|c l IH]; intros cache; cbn; [done|]. destruct (store_in_class_ends r c (channel_list c) cache) as [x ->]. apply IH.
Qed.

(** ** Programs that keep the invariant *)

Section Safety.
Context (e : ScanEnv).
Notation ok := (runs pointers_ok).

Definition has_request (c : sCurrentScan) : Prop := is_scan_currently_running c = true → cur_request c ≠ None.

Lemma current_ok name s : pointers_ok s → has_request (current name s).
Proof.
  intros Hs. unfold current, has_request. destruct (m_current_scan_info s !! name) as [c|] eqn:Hc; [|done]. by apply (Hs name).
Qed.

Lemma get_ok {A} (f : ScanTask → A) : ok (get f) (λ _, True).
Proof. intros s Hs. by exists (f s), s. Qed.
Lemma get_current_ok name : ok (get (current name)) has_request.
Proof. intros s Hs. exists (current name s), s. split_and!; [done..|by apply current_ok]. Qed.
Lemma ask_ok f : ok (ask f) (λ _, True).
Proof. intros s Hs. by eexists _, _. Qed.
Lemma get_now_ok : ok (get_now e) (λ _, True).
Proof. intros s Hs. by eexists _, _. Qed.
Lemma put_ok f : (∀ s, pointers_ok s → pointers_ok (f s)) → ok (put f) (λ _, True).
Proof. intros Hf s Hs. exists tt, (f s). auto. Qed.
Lemma push_ok m : ok (push m) (λ _, True).
Proof. by apply put_ok. Qed.
Lemma update_radio_ok i f : ok (update_radio i f) (λ _, True).
Proof. by apply put_ok. Qed.
Lemma get_radio_by_mac_ok mac : ok (get_radio_by_mac mac) (λ _, True).
Proof. apply get_ok. Qed.
Lemma get_radio_by_radio_mac_ok mac : ok (get_radio_by_radio_mac mac) (λ _, True).
Proof. apply get_ok. Qed.
Lemma radio_ok name : ok (radio name) (λ _, True).
Proof. apply get_ok. Qed.
Lemma set_current_scan_ok name c : has_request c → ok (set_current_scan name c) (λ _, True).
Proof. intros Hc. apply put_ok. intros s Hs. by apply map_Forall_insert_2. Qed.
Lemma move_scan_ok name running f q : ok (move_scan name running f q) (λ _, True).
Proof. eapply runs_bind; [by apply set_current_scan_ok|]. intros. by apply runs_ret. Qed.
Lemma deref_ok c : cur_request c ≠ None → ok (deref c) (λ _, True).
Proof. unfold deref. destruct (cur_request c); [|done]. intros _. by apply runs_ret. Qed.
End Safety.

Create HintDb scan_ok.
#[export] Hint Resolve get_ok get_current_ok ask_ok get_now_ok push_ok update_radio_ok get_radio_by_mac_ok
  get_radio_by_radio_mac_ok radio_ok move_scan_ok deref_ok runs_ret : scan_ok.
#[export] Hint Extern 1 (runs _ (set_current_scan _ _) _) => apply set_current_scan_ok; done : scan_ok.
#[export] Hint Extern 1 (runs _ (put _) _) => apply put_ok; done : scan_ok.

(** One step of a program: a value, a call, a choice. *)
Ltac scan_step :=
  lazymatch goal with
  | |- runs _ (fret _) _ => first [apply (runs_ret _ (λ _, True)); done | apply runs_ret; done]
  | |- runs _ (fbind _ _) _ => eapply runs_bind; [|intros ? ?]
  | |- runs _ (if ?b then _ else _) _ => destruct b eqn:?
  | |- runs _ (match ?x with _ => _ end) _ => destruct x eqn:?
  | |- runs _ _ _ => eauto with scan_ok
  end.
Ltac scan_runs := repeat scan_step.

Section Handlers.
Context (e : ScanEnv).
Notation ok := (runs pointers_ok).

Lemma abort_scan_request_ok q : ok (abort_scan_request e q) (λ _, True).
Proof. unfold abort_scan_request. scan_runs. Qed.

Lemma trigger_radio_scan_ok name scan : ok (trigger_radio_scan e name scan) (λ _, True).
Proof.
  unfold trigger_radio_scan. destruct (channels_to_scan_ends scan) as [pool Hp]. rewrite Hp. scan_runs.
Qed.
Lemma trigger_next_radio_scan_ok name q : ok (trigger_next_radio_scan e name q) (λ _, True).
Proof. unfold trigger_next_radio_scan. scan_runs. apply trigger_radio_scan_ok. Qed.

Lemma create_class_ok channels cls r : ok (create_class channels cls r) (λ _, True).
Proof.
  unfold create_class. destruct (create_channel_vector_ends channels cls (operating_class_to_bandwidth cls) r) as [l Hl]. rewrite Hl.
  unfold remember. scan_runs.
Qed.
Lemma create_fresh_operating_class_ok entries r : ok (create_fresh_operating_class entries r) (λ _, True).
Proof. induction entries as [|[cls channels] l IH]; cbn; scan_runs. apply create_class_ok. Qed.
Lemma create_on_boot_operating_classes_ok l r : ok (create_on_boot_operating_classes l r) (λ _, True).
Proof. induction l as [|cls l IH]; cbn; scan_runs. apply create_class_ok. Qed.

Lemma store_radio_scan_result_ok mac r q : ok (store_radio_scan_result mac r q) (λ _, True).
Proof.
  unfold store_radio_scan_result.
  destruct (store_result_ends r (rs_operating_classes (rq_radio_scans q)) (rs_cached_results (rq_radio_scans q))) as [c ->]. scan_runs.
Qed.
Lemma expected_scan_ok c mac st : cur_request c ≠ None → ok (expected_scan c mac st) (λ _, True).
Proof. intros Hc. unfold expected_scan. scan_runs. Qed.
End Handlers.
#[export] Hint Resolve abort_scan_request_ok trigger_next_radio_scan_ok create_fresh_operating_class_ok
  create_on_boot_operating_classes_ok store_radio_scan_result_ok expected_scan_ok : scan_ok.

(** ** The handlers *)

Section Steps.
Context (e : ScanEnv).
Notation ok := (runs pointers_ok).

Lemma on_boot_scan_ok mid src mac : ok (handle_on_boot_scan_request e mid src mac false) (λ _, True).
Proof. unfold handle_on_boot_scan_request. cbv iota. scan_runs. Qed.

Lemma results_notification_ok name src is_dump r c : cur_request c ≠ None →
  ok (handle_results_notification e name src is_dump r c) (λ _, True).
Proof. intros Hc. unfold handle_results_notification. scan_runs. Qed.

(** A notification, but for an abort response. *)
Lemma handle_notification_ok mid i name src n :
  (∀ b, n ≠ ABORT_RESPONSE b) → ok (handle_notification e mid i name src n) (λ _, True).
Proof.
  intros Hn. unfold handle_notification. eapply runs_bind; [apply get_current_ok|]. intros c Hc. cbn zeta.
  unfold has_request in Hc.
  destruct n as [mac|[]| |d r| | |[]|b|]; try (by destruct (Hn b));
    repeat first [apply on_boot_scan_ok | apply results_notification_ok; rewrite ?negb_false_iff in *; by auto
      | apply expected_scan_ok; rewrite ?negb_false_iff in *; by auto | unfold move_scan_timeout; scan_step].
Qed.

Lemma abort_response_or n : (∃ b, n = ABORT_RESPONSE b) ∨ ∀ b, n ≠ ABORT_RESPONSE b.
Proof. destruct n; eauto. Qed.

Lemma handle_vendor_specific_runs mid src n s : pointers_ok s → (handle_vendor_specific e mid src n s).1 ≠ None.
Proof.
  intros Hs. unfold handle_vendor_specific. rewrite fbind_run. cbn [fst snd get_radio_by_mac get].
  destruct (find_radio _ s) as [[i r]|]; [|done]. destruct (abort_response_or n) as [[b ->]|Hn]; [done|].
  destruct (handle_notification_ok mid i (front_iface_name r) src n Hn s Hs) as (x & s' & -> & _). done.
Qed.

Lemma apply_extension_ok b l : ∀ scan, ok (apply_extension b l scan) (λ _, True).
Proof. induction l as [|[[mac d]|] l IH]; intros scan; cbn; scan_runs. Qed.
Lemma send_ack_ok mid mac : ok (send_ack e mid mac) (λ _, True).
Proof. unfold send_ack. scan_runs. Qed.

(** Requests for a fresh scan. *)
Lemma request_radio_ok src start fresh ext n entry : fresh ≠ 0 →
  ok (request_radio e src start fresh ext n entry) (λ _, True).
Proof.
  intros Hf%Z.eqb_neq. unfold request_radio. rewrite Hf. cbn [negb].
  repeat first [apply apply_extension_ok
    | eapply runs_bind; [apply get_current_ok|intros c Hc]
    | apply deref_ok, Hc; by bool_to_prop
    | scan_step].
Qed.
Lemma request_radios_ok src start fresh ext l : fresh ≠ 0 → ∀ n, ok (request_radios e src start fresh ext n l) (λ _, True).
Proof. intros Hf. induction l as [|[entry|] l IH]; intros n; cbn; scan_runs. by apply request_radio_ok. Qed.

(** ** Every operation keeps the invariant *)

Notation keeps := (preserves pointers_ok).

Lemma runs_keeps {A} (m : faultM ScanTask A) Q : ok m Q → keeps m.
Proof. intros Hm s Hs. destruct (Hm s Hs) as (x & s' & -> & Hs' & _). done. Qed.
Lemma if_keeps {A} (b : bool) (m1 m2 : faultM ScanTask A) : keeps m1 → keeps m2 → keeps (if b then m1 else m2).
Proof. by destruct b. Qed.

Lemma send_report_keeps q : keeps (send_channel_scan_report_to_controller e q).
Proof.
  apply preserves_bind; [apply (runs_keeps _ _ (get_now_ok e))|]. intros t. destruct (get_ISO_8601_timestamp_string _ t); [by intros s|].
  apply preserves_bind; [apply (runs_keeps _ _ (get_radio_by_radio_mac_ok _))|]. intros [[i r]|]; [|by intros s].
  intros s Hs. cbv beta iota zeta. by destruct (send_channel_scan_report _ _ _ _ _).
Qed.

Lemma handle_scan_state_ok i q : ok (handle_scan_state e i q) (λ _, True).
Proof. unfold handle_scan_state. destruct (rs_current_state _); unfold check_timeout; scan_runs. Qed.

(** A turn of [work()]: whether it sends a report. *)
Definition sends_report (q : sScanRequest) : bool := negb (m_on_boot_scan_enabled e) && rq_ready_to_send_report q.

Definition running_turn (i : nat) (name : string) (q : sScanRequest) : faultM ScanTask bool :=
  t <- get_now e ;;
  _ <- (if rq_scan_start_timestamp q + SCAN_REQUEST_TIMEOUT_SEC <? t then abort_scan_request e q else fret true) ;;
  x <- handle_scan_state e i q ;;
  _ <- set_current_scan name (mkCurrentScan x.2 (Some x.1)) ;;
  if sends_report x.1 then _ <- set_current_scan name no_scan ;; send_channel_scan_report_to_controller e x.1 else fret true.
Definition idle_turn (name : string) (q : sScanRequest) : faultM ScanTask bool :=
  _ <- trigger_next_radio_scan e name q ;;
  _ <- put (λ s, s <| m_pending_requests ::= delete name |>) ;;
  fret true.

Lemma work_radio_eq i s : work_radio e i s =
  match m_radios s !! i with
  | None => (Some true, s)
  | Some r =>
    let name := front_iface_name r in
    if is_scan_currently_running (current name s)
    then match cur_request (current name s) with None => (None, s) | Some q => running_turn i name q s end
    else match m_pending_requests s !! name with None => (Some true, s) | Some q => idle_turn name q s end
  end.
Proof. reflexivity. Qed.

Lemma idle_turn_ok name q : ok (idle_turn name q) (λ _, True).
Proof. unfold idle_turn. scan_runs. Qed.
Lemma running_turn_keeps i name q : keeps (running_turn i name q).
Proof.
  repeat (apply preserves_bind; [eapply runs_keeps|intros ?]);
    [apply get_now_ok|scan_runs|apply handle_scan_state_ok|by apply set_current_scan_ok|].
  apply if_keeps; [|by intros s]. apply preserves_bind; [eapply runs_keeps; by apply set_current_scan_ok|]. intros _. apply send_report_keeps.
Qed.
Lemma work_radio_keeps i : keeps (work_radio e i).
Proof.
  intros s Hs. rewrite work_radio_eq. destruct (m_radios s !! i) as [r|]; [|done]. cbn zeta.
  destruct (is_scan_currently_running _).
  - destruct (cur_request _); [|done]. by apply running_turn_keeps.
  - destruct (m_pending_requests s !! _); [|done]. by apply (runs_keeps _ _ (idle_turn_ok _ _)).
Qed.
Lemma work_radios_keeps l : keeps (work_radios e l).
Proof.
  induction l as [|i l IH]; [by intros s|]. apply preserves_bind; [apply work_radio_keeps|]. intros []; [done|by intros s].
Qed.
Lemma work_keeps : keeps (work e).
Proof. intros s Hs. by apply work_radios_keeps. Qed.

Lemma init_results_keeps now l : keeps (init_results now l).
Proof.
  induction l as [|i l IH]; [by intros s|]. apply preserves_bind; [apply (runs_keeps _ _ (get_ok _))|]. intros [r|]; [|by intros s].
  destruct (get_channel_scan_map r); [|by intros s]. apply preserves_bind; [apply (runs_keeps _ _ (update_radio_ok _ _))|]. by intros _.
Qed.
Lemma handle_event_keeps ev : keeps (handle_event e ev).
Proof.
  destruct ev; [by intros s| |by intros s]. apply preserves_bind; [apply (runs_keeps _ _ (get_now_ok e))|]. intros now.
  apply preserves_bind; [apply (runs_keeps _ _ (get_ok _))|]. intros l. apply init_results_keeps.
Qed.

(** Requests for stored results. *)
Lemma request_radio_stored_keeps src start ext n entry : keeps (request_radio e src start 0 ext n entry).
Proof.
  unfold request_radio. rewrite andb_false_r. cbn [Z.eqb negb].
  apply preserves_bind; [apply (runs_keeps _ _ (get_radio_by_mac_ok _))|]. intros [[i r]|]; [|by intros s].
  apply preserves_bind; [apply (runs_keeps _ _ (get_ok _))|]. intros last.
  apply preserves_bind; [by destruct last; intros s|]. intros []; [|by intros s]. cbn [negb].
  apply preserves_bind; [by destruct (create_stored_operating_classes _ r); intros s|]. intros classes.
  apply preserves_bind; [apply if_keeps; [destruct ext; [apply (runs_keeps _ _ (apply_extension_ok _ _ _))|]|]; by intros s|]. intros scan.
  apply preserves_bind; [by destruct last; intros s|]. intros scan'.
  apply preserves_bind; [apply send_report_keeps|]. by intros b s.
Qed.
Lemma request_radios_keeps src start fresh ext l : ∀ n, keeps (request_radios e src start fresh ext n l).
Proof.
  destruct (decide (fresh = 0)) as [->|Hf]; [|intros n; by apply (runs_keeps _ _ (request_radios_ok _ _ _ _ _ Hf n))].
  induction l as [|[entry|] l IH]; intros n; [by intros s| |apply IH].
  apply preserves_bind; [apply request_radio_stored_keeps|]. intros [b|]; [by intros s|apply IH].
Qed.
Lemma handle_channel_scan_request_keeps tlv ext mid src : keeps (handle_channel_scan_request e tlv ext mid src).
Proof.
  apply preserves_bind; [apply (runs_keeps _ _ (get_now_ok e))|]. intros start. destruct tlv; [|by intros s].
  apply preserves_bind; [apply (runs_keeps _ _ (send_ack_ok _ _))|]. intros []; [apply request_radios_keeps|by intros s].
Qed.

(** ** Runs of the task *)

(** The messages that set the flag without the request: a positive abort
    response for a radio whose request is gone, and a request for the on boot
    results of a radio that scans. *)
Definition loses_request (m : ScanCmdu) (s : ScanTask) : Prop :=
  match m with
  | VENDOR_SPECIFIC_MESSAGE _ (Some (mac, ABORT_RESPONSE true)) =>
    ∃ i r, find_radio (has_mac mac) s = Some (i, r) ∧ cur_request (current (front_iface_name r) s) = None
  | CHANNEL_SCAN_REQUEST_MESSAGE _ _ tlv _ =>
    m_on_boot_scan_enabled e = true ∧
    ∃ i r, find_radio (has_mac (get_on_boot_scan_radio_mac tlv)) s = Some (i, r) ∧
      is_scan_currently_running (current (front_iface_name r) s) = true
  | _ => False
  end.

Inductive step : ScanTask → ScanTask → Prop :=
  | step_work s : step s (work e s).2
  | step_event s ev : step s (handle_event e ev s).2
  | step_cmdu s m : ~ loses_request m s → step s (handle_cmdu e m s).2.

Lemma on_boot_results_keeps mid src mac s : pointers_ok s →
  (∀ i r, find_radio (has_mac mac) s = Some (i, r) → is_scan_currently_running (current (front_iface_name r) s) = false) →
  pointers_ok (handle_on_boot_scan_request e mid src mac true s).2.
Proof.
  intros Hs Hr. unfold handle_on_boot_scan_request. rewrite fbind_run.
  assert (∀ f, send_ack e mid src s = f → m_current_scan_info f.2 = m_current_scan_info s ∧ m_radios f.2 = m_radios s ∧ f.1 ≠ None) as Hack.
  { intros f <-. unfold send_ack. rewrite fbind_run. cbn. destruct (create_message e _); [|done]. cbn. rewrite fbind_run. cbn.
    destruct (send_message e _); done. }
  specialize (Hack _ eq_refl). destruct (send_ack e mid src s) as [[b|] s1]; [|by destruct Hack as (_ & _ & [])]. cbn [fst snd] in *. destruct Hack as (Hc & Hm & _).
  assert (pointers_ok s1) as Hs1 by (unfold pointers_ok; by rewrite Hc). destruct b; [|done]. cbn [negb].
  rewrite fbind_run. cbn [fst snd get_now]. rewrite fbind_run. cbn [fst snd get_radio_by_mac get]. unfold find_radio in *.
  change (m_radios (s1 <| clock_reads ::= S |>)) with (m_radios s1). rewrite Hm.
  destruct (list_find _ (m_radios s)) as [[i r]|] eqn:Hf; [|exact Hs1]. specialize (Hr i r eq_refl).
  destruct (on_boot_classes _); [|exact Hs1]. rewrite fbind_run. cbn [fst snd get]. rewrite !fbind_run. cbn [fst snd get].
  apply send_report_keeps. apply map_Forall_insert_2; [|done]. cbn. unfold current in *. cbn. by rewrite Hc, Hr.
Qed.

Lemma abort_response_keeps mid mac b s : pointers_ok s →
  ~ loses_request (VENDOR_SPECIFIC_MESSAGE mid (Some (mac, ABORT_RESPONSE b))) s →
  pointers_ok (handle_vendor_specific e mid mac (ABORT_RESPONSE b) s).2.
Proof.
  intros Hs Hl. unfold handle_vendor_specific. rewrite fbind_run. cbn [fst snd get_radio_by_mac get].
  destruct (find_radio _ s) as [[i r]|] eqn:Hf; [|done]. cbn. apply map_Forall_insert_2; [|done]. cbn. intros -> Hn.
  apply Hl. by exists i, r.
Qed.

Lemma step_keeps s s' : step s s' → pointers_ok s → pointers_ok s'.
Proof.
  intros [?|? ?|? m Hl] Hs; [by apply work_keeps|by apply handle_event_keeps|].
  destruct m as [mid src tlv ext|mid [[mac n]|]|]; [| |done..]; cbn [handle_cmdu].
  - destruct (m_on_boot_scan_enabled e) eqn:Hb; cbn [negb]; [|by apply handle_channel_scan_request_keeps].
    destruct (bool_decide _); [done|]. apply on_boot_results_keeps; [done|]. intros i r Hf.
    destruct (is_scan_currently_running _) eqn:Hr; [|done]. destruct Hl. cbn. eauto.
  - destruct (abort_response_or n) as [[b ->]|Hn]; [by apply abort_response_keeps|].
    unfold handle_vendor_specific. rewrite fbind_run. cbn [fst snd get_radio_by_mac get].
    destruct (find_radio _ _) as [[i r]|]; [|done]. by apply (runs_keeps _ _ (handle_notification_ok mid i _ mac n Hn)).
Qed.

(** The scan of a request has ended, so that its turn sends the report. *)
Definition scan_ended (q : sScanRequest) : bool :=
  rq_ready_to_send_report q
  || bool_decide (rs_current_state (rq_radio_scans q) ∈ [SCAN_DONE; SCAN_ABORTED; SCAN_FAILED; SCAN_IGNORED]).

(** A turn that faults was sending a report. *)
Lemma running_turn_fault i name q s : pointers_ok s →
  (running_turn i name q s).1 = None → m_on_boot_scan_enabled e = false ∧ scan_ended q = true.
Proof.
  intros Hs. unfold running_turn.
  destruct (get_now_ok e s Hs) as (t & s1 & H1 & Hs1 & _). rewrite (fbind_ok _ _ _ _ _ H1).
  assert (∃ b s2, (if rq_scan_start_timestamp q + SCAN_REQUEST_TIMEOUT_SEC <? t then abort_scan_request e q else fret true) s1
    = (Some b, s2) ∧ pointers_ok s2) as (b & s2 & H2 & Hs2).
  { destruct (_ <? t); [|by eexists _, _]. destruct (abort_scan_request_ok e q s1 Hs1) as (b & s2 & ? & ? & _). eauto. }
  rewrite (fbind_ok _ _ _ _ _ H2). rewrite fbind_run.
  destruct (handle_scan_state_ok i q s2 Hs2) as (x & s3 & H3 & _ & _). rewrite H3. cbn [fst snd]. rewrite fbind_run. cbn [fst snd].
  assert (sends_report x.1 = true → m_on_boot_scan_enabled e = false ∧ scan_ended q = true) as Hx.
  { unfold sends_report. intros [Hb Hr]%andb_true_iff. apply negb_true_iff in Hb. split; [done|].
    unfold handle_scan_state, check_timeout, ready_unless_on_boot in H3. rewrite Hb in H3. unfold scan_ended.
    destruct (rs_current_state (rq_radio_scans q)) eqn:Hst; try (by rewrite orb_true_r);
      rewrite ?fbind_run in H3; cbn in H3; injection H3 as <- _; cbn [fst] in Hr; try (by rewrite Hr);
      destruct (_ <? _) in Hr; cbn in Hr; by rewrite Hr. }
  destruct (sends_report x.1); [by auto|done].
Qed.

(** C35: From a task that has no scan, through any work, events and messages
    but the two that lose the request of a running scan, the task never uses a
    request that is not there: a running scan has its request, no message of
    the monitor and no request for a fresh scan faults, and the turn of a radio
    in [work()] can fault only when it sends the report of a scan that ended. *)
Theorem scan_task_safe s0 s : m_current_scan_info s0 = ∅ → rtc step s0 s →
  pointers_ok s ∧
  (∀ mid mac n, (handle_vendor_specific e mid mac n s).1 ≠ None) ∧
  (∀ tlv ext mid src, perform_fresh_scan tlv ≠ 0 → (handle_channel_scan_request e (Some tlv) ext mid src s).1 ≠ None) ∧
  (∀ i, (work_radio e i s).1 = None → ∃ r q, m_radios s !! i = Some r ∧
     cur_request (current (front_iface_name r) s) = Some q ∧ m_on_boot_scan_enabled e = false ∧ scan_ended q = true).
Proof.
  intros H0 Hsteps. assert (pointers_ok s) as Hs.
  { assert (pointers_ok s0) as Hs0 by (unfold pointers_ok; by rewrite H0). clear H0. induction Hsteps; eauto using step_keeps. }
  split; [done|]. split; [intros; by apply handle_vendor_specific_runs|]. split.
  - intros tlv ext mid src Hf. unfold handle_channel_scan_request.
    destruct (get_now_ok e s Hs) as (t & s1 & H1 & Hs1 & _). rewrite (fbind_ok _ _ _ _ _ H1).
    destruct (send_ack_ok mid src s1 Hs1) as (b & s2 & H2 & Hs2 & _). rewrite (fbind_ok _ _ _ _ _ H2). destruct b; [|done].
    destruct (request_radios_ok src t _ ext (radio_list tlv) Hf 0 s2 Hs2) as (x & s3 & H3 & _). cbn [negb]. by rewrite H3.
  - intros i. rewrite work_radio_eq. destruct (m_radios s !! i) as [r|]; [|done]. cbn zeta.
    destruct (is_scan_currently_running _) eqn:Hr.
    + destruct (cur_request _) as [q|] eqn:Hq; [|by destruct (current_ok (front_iface_name r) s Hs Hr)].
      intros Hn%running_turn_fault; [|done]. exists r, q. naive_solver.
    + destruct (m_pending_requests s !! _) as [q|]; [|done].
      destruct (idle_turn_ok (front_iface_name r) q s Hs) as (x & s' & -> & _). done.
Qed.
End Steps.
