(* ===== verification/ScanFlow.v ===== *)
(** * The channel scan task: the course of a scan

    A scan from the request to the report, and a scan whose monitor falls
    silent. *)

From S2P Require Import Prelude Wire Streams Channels ScanReport ChannelScan ScanSafety.
Import channel_scan.

(** ** The stored results *)

Lemma list_filter_all {A} (P : A → Prop) `{∀ x, Decision (P x)} (l : list A) : (∀ x, x ∈ l → P x) → filter P l = l.
Proof.
  induction l as [|x l IH]; intros Hl; [done|]. rewrite filter_cons_True by (apply Hl; left). f_equal. apply IH. intros y Hy. apply Hl. by right.
Qed.

(** The results of one channel, without duplicates. *)
Definition collect (l : list sChannelScanResults) : list sChannelScanResults := foldl (λ acc r, add_result r acc) [] l.
Definition channel_numbers (classes : list ScanClass) : list Z := c ← classes; channel_number <$> channel_list c.

Lemma same_result_refl r : same_result r r = true.
Proof. unfold same_result. by rewrite bool_decide_eq_true_2, Z.eqb_refl. Qed.
Lemma add_result_idem r l : add_result r (add_result r l) = add_result r l.
Proof.
  unfold add_result. destruct (existsb _ l) eqn:Hl; rewrite ?Hl; [done|].
  by rewrite existsb_app, Hl; cbn; rewrite same_result_refl.
Qed.

Definition put_result (r : sChannelScanResults) (channels : list Z) (cache : gmap Z (list sChannelScanResults)) :=
  if bool_decide (result_channel r ∈ channels)
  then <[result_channel r := add_result r (default [] (cache !! result_channel r))]> cache else cache.

Lemma store_in_class_20 r c l cache : bw c = BANDWIDTH_20 →
  store_in_class r c l cache = Some (put_result r (channel_number <$> l) cache).
Proof.
  intros Hc. induction l as [|ch l IH]; [done|]. cbn [store_in_class]. rewrite Hc.
  change (get_subset_20MHz_channels (channel_number ch) (operating_class c) BANDWIDTH_20) with (Some (true, [channel_number ch])).
  cbn [mbind option_bind snd]. unfold in_list, put_result. cbn [fmap list_fmap].
  destruct (decide (result_channel r = channel_number ch)) as [He|He].
  - rewrite !bool_decide_eq_true_2 by (rewrite He; left). by rewrite He.
  - rewrite bool_decide_eq_false_2 by (by rewrite list_elem_of_singleton). rewrite IH. unfold put_result. f_equal.
    destruct (decide (result_channel r ∈ channel_number <$> l)).
    + by rewrite !bool_decide_eq_true_2 by (done || by right).
    + by rewrite !bool_decide_eq_false_2 by (done || by rewrite elem_of_cons; naive_solver).
Qed.

Lemma put_result_twice r l1 l2 cache : put_result r l2 (put_result r l1 cache) = put_result r (l1 ++ l2) cache.
Proof.
  unfold put_result. destruct (decide (result_channel r ∈ l1)) as [H1|H1], (decide (result_channel r ∈ l2)) as [H2|H2];
    rewrite ?(bool_decide_eq_true_2 _ H1), ?(bool_decide_eq_true_2 _ H2), ?(bool_decide_eq_false_2 _ H1), ?(bool_decide_eq_false_2 _ H2);
    rewrite ?(bool_decide_eq_true_2 (result_channel r ∈ l1 ++ l2)) by (apply elem_of_app; tauto).
  - by rewrite lookup_insert_eq, insert_insert_eq; cbn; rewrite add_result_idem.
  - done.
  - done.
  - by rewrite bool_decide_eq_false_2 by (rewrite elem_of_app; tauto).
Qed.

Lemma store_result_20 r classes : Forall (λ c, bw c = BANDWIDTH_20) classes → ∀ cache,
  store_result r classes cache = Some (put_result r (channel_numbers classes) cache).
Proof.
  induction 1 as [|c classes Hc _ IH]; intros cache; cbn [store_result]; [done|].
  rewrite (store_in_class_20 r c _ _ Hc). cbn [mbind option_bind]. rewrite IH. by rewrite put_result_twice.
Qed.

(** The cache after the results of the monitor. *)
Definition put_results (channels : list Z) (rs : list sChannelScanResults) (cache : gmap Z (list sChannelScanResults)) :=
  foldl (λ m r, put_result r channels m) cache rs.

Lemma put_results_lookup channels rs : ∀ cache ch, ch ∈ channels →
  default [] (put_results channels rs cache !! ch) =
  foldl (λ acc r, add_result r acc) (default [] (cache !! ch)) (filter (λ r, result_channel r = ch) rs).
Proof.
  induction rs as [|r rs IH]; intros cache ch Hch; [done|]. cbn [put_results foldl]. fold (put_results channels rs (put_result r channels cache)).
  rewrite IH by done. rewrite filter_cons. unfold put_result. destruct (decide (result_channel r = ch)) as [<-|Hne].
  - rewrite bool_decide_eq_true_2 by done. by rewrite lookup_insert_eq.
  - destruct (bool_decide _); [by rewrite lookup_insert_ne by done|done].
Qed.

(** What the database holds for the requested channels of a scan that is done. *)
Lemma sync_results_lookup q results ch :
  sync_results q results !! ch =
  if bool_decide (ch ∈ channel_numbers (rs_operating_classes (rq_radio_scans q)))
  then Some (SUCCESS, rq_scan_start_timestamp q, default [] (rs_cached_results (rq_radio_scans q) !! ch)) else results !! ch.
Proof.
  unfold sync_results. fold (channel_numbers (rs_operating_classes (rq_radio_scans q))).
  generalize (channel_numbers (rs_operating_classes (rq_radio_scans q))) as l. intros l.
  induction l as [|x l IH] using rev_ind; [done|]. rewrite foldl_app. cbn [foldl].
  destruct (decide (ch = x)) as [->|Hne].
  - rewrite lookup_insert_eq, bool_decide_eq_true_2; [done|]. apply elem_of_app. right. by left.
  - rewrite lookup_insert_ne by done. etrans; [exact IH|]. rewrite (bool_decide_ext (ch ∈ l) (ch ∈ l ++ [x])); [done|].
    rewrite elem_of_app, list_elem_of_singleton. tauto.
Qed.

(** The classes of a scan with one status for every channel. *)
Definition with_status (st : eScanStatus) (classes : list ScanClass) : list ScanClass :=
  (λ c, mkScanClass (operating_class c) (bw c) ((λ ch, mkScanChannel (channel_number ch) st) <$> channel_list c)) <$> classes.

Lemma requested_with_status st classes :
  requested (with_status st classes) = (λ x, (x.1, mkScanChannel (channel_number x.2) st)) <$> requested classes.
Proof.
  unfold requested, with_status. induction classes as [|c classes IH]; [done|]. cbn in *. rewrite IH, fmap_app. f_equal.
  rewrite <- !list_fmap_compose. done.
Qed.
Lemma channel_numbers_requested classes : channel_numbers classes = (λ x, channel_number x.2) <$> requested classes.
Proof.
  unfold channel_numbers, requested. induction classes as [|c classes IH]; [done|]. cbn in *. rewrite IH, fmap_app. f_equal.
  rewrite <- list_fmap_compose. done.
Qed.
Lemma channel_numbers_with_status st classes : channel_numbers (with_status st classes) = channel_numbers classes.
Proof. rewrite !channel_numbers_requested, requested_with_status, <- list_fmap_compose. done. Qed.
Lemma with_status_twice st st' classes : with_status st (with_status st' classes) = with_status st classes.
Proof.
  unfold with_status. rewrite <- list_fmap_compose. apply list_fmap_ext. intros i c _. cbn. f_equal. by rewrite <- list_fmap_compose.
Qed.

(** Every result in the list has neighbours of its channel. *)
Lemma neighbors_of_elem s l : s ∈ l → ∀ n, n ∈ ss_results s → n ∈ neighbors_of (ss_channel s) l.
Proof.
  intros Hs n Hn. unfold neighbors_of. apply list_elem_of_In, in_concat. exists (ss_results s).
  split; [|by apply list_elem_of_In]. apply list_elem_of_In, list_elem_of_fmap. exists s. split; [done|].
  by apply list_elem_of_filter.
Qed.

(** The entries of a scan that failed: every requested channel with the status
    of the failure, and no neighbour. *)
Lemma failed_results fresh ruid dwell ts st classes stored : st ≠ SUCCESS →
  let l := get_scan_results fresh ruid dwell ts (with_status st classes) stored in
  key_of <$> l = (λ x, (x.1, channel_number x.2, st)) <$> requested classes ∧ Forall (λ s, ss_status s = st ∧ ss_results s = []) l.
Proof.
  intros Hst l. destruct (scan_results_listed fresh ruid dwell ts (with_status st classes) stored) as [Hk Hn]. fold l in Hk, Hn.
  assert (key_of <$> l = (λ x, (x.1, channel_number x.2, st)) <$> requested classes) as Hkeys.
  { rewrite Hk, list_filter_all, requested_with_status, <- list_fmap_compose; [done|].
    intros x. rewrite requested_with_status. intros (y & -> & _)%list_elem_of_fmap. unfold is_listed. cbn.
    by rewrite bool_decide_eq_false_2, orb_true_r by done. }
  split; [done|]. apply Forall_forall. intros s Hs. split.
  - assert (key_of s ∈ key_of <$> l) as Hin by (by apply list_elem_of_fmap_2). rewrite Hkeys in Hin.
    apply list_elem_of_fmap in Hin as (x & Hx & _). unfold key_of in Hx. congruence.
  - destruct (ss_results s) as [|n r] eqn:Hr; [done|]. exfalso.
    assert (n ∈ neighbors_of (ss_channel s) l) as Hin by (apply neighbors_of_elem; [done|rewrite Hr; left]).
    rewrite Hn in Hin. unfold first_listed in Hin.
    destruct (head _) as [x|] eqn:Hh; [|by apply elem_of_nil in Hin]. cbn in Hin. unfold stored_neighbors in Hin.
    apply head_Some_elem_of, list_elem_of_filter in Hh as [_ Hh]. apply list_elem_of_filter in Hh as [_ Hh].
    rewrite requested_with_status in Hh. apply list_elem_of_fmap in Hh as (y & -> & _). cbn in Hin.
    rewrite bool_decide_eq_false_2 in Hin by done. by apply elem_of_nil in Hin.
Qed.

Lemma add_scan_result_timestamp fresh ruid dwell cls ch st rt t res acc :
  Forall (λ s, ss_timestamp s = t) acc.1 →
  Forall (λ s, ss_timestamp s = t) (add_scan_result fresh ruid dwell cls ch st rt t res acc).1.
Proof.
  destruct acc as [f a]. intros Hf. unfold add_scan_result. destruct (negb fresh || _ || _); [|done].
  destruct (take_spectrum res) as [sp l]. by destruct (bool_decide _); apply Forall_app; (split; [done|]); repeat constructor.
Qed.
Lemma results_timestamp fresh ruid dwell rt t classes stored :
  (∀ ch, ch ∈ channel_numbers classes → ∃ st res, stored !! ch = Some (st, t, res)) →
  Forall (λ s, ss_timestamp s = t) (get_scan_results fresh ruid dwell rt (with_status SUCCESS classes) stored).
Proof.
  rewrite get_scan_results_flat, requested_with_status, channel_numbers_requested. intros Hst.
  set (l := requested classes) in *. assert (∀ acc, Forall (λ s, ss_timestamp s = t) acc.1 →
    Forall (λ s, ss_timestamp s = t) (foldl (add_requested fresh ruid dwell rt stored) acc
      ((λ x, (x.1, mkScanChannel (channel_number x.2) SUCCESS)) <$> l)).1) as Hl; [|by apply Hl].
  induction l as [|x l IH]; intros acc Hacc; [done|]. cbn [fmap list_fmap foldl]. apply IH.
  - intros ch Hch. apply Hst. by right.
  - destruct (Hst (channel_number x.2)) as (st & res & Hx); [by left|].
    unfold add_requested, add_channel. cbn [channel_number scan_status fst snd]. rewrite bool_decide_eq_true_2 by done.
    rewrite Hx. by apply add_scan_result_timestamp.
Qed.

(** A result of the monitor that the estimates allow beside the longest time
    stamp: its name ends, and it takes at most 47 bytes of the report (with BSS
    load and a bandwidth of 20, 40 or 80 MHz, a name of up to 29 bytes). *)
Definition fits_neighbor (n : sChannelScanResults) : Prop :=
  ∃ ssid, c_string (r_ssid n) = Some ssid ∧ (neighbor_size (to_neighbor n ssid) ≤ 47)%nat.

Lemma collect_elem l : ∀ n, n ∈ collect l → n ∈ l.
Proof.
  unfold collect. induction l as [|r l IH] using rev_ind; intros n; [done|]. rewrite foldl_app. cbn [foldl]. unfold add_result at 1.
  rewrite elem_of_app. destruct (existsb _ _); [by eauto|]. rewrite elem_of_app. naive_solver.
Qed.
Lemma take_spectrum_elem l : ∀ n, n ∈ (take_spectrum l).2 → n ∈ l.
Proof.
  induction l as [|r l IH]; intros n; cbn; [done|]. destruct (negb _); [by right|]. destruct (take_spectrum l) as [s l'].
  cbn in *. rewrite !elem_of_cons. naive_solver.
Qed.

(** The entries of a scan that is done: every requested channel, with the
    results the monitor gave for it. *)
Section Done.
Context (ruid : sMacAddr) (dwell start : Z) (classes : list ScanClass) (rs : list sChannelScanResults)
  (stored : gmap Z ScanEntry).
Hypothesis Hstored : ∀ ch, ch ∈ channel_numbers classes →
  stored !! ch = Some (SUCCESS, start, collect (filter (λ r, result_channel r = ch) rs)).
Definition done_list : list sStoredScanResults :=
  get_scan_results true ruid dwell start (with_status SUCCESS classes) stored.

Definition channel_neighbors (ch : Z) : list sChannelScanResults :=
  (take_spectrum (collect (filter (λ r, result_channel r = ch) rs))).2.

Lemma done_results :
  key_of <$> done_list = (λ x, (x.1, channel_number x.2, SUCCESS)) <$> requested classes ∧
  ∀ ch, ch ∈ channel_numbers classes → neighbors_of ch done_list = channel_neighbors ch.
Proof.
  destruct (scan_results_listed true ruid dwell start (with_status SUCCESS classes) stored) as [Hk Hn]. fold done_list in Hk, Hn.
  assert (filter (λ x, is_listed true start stored x) (requested (with_status SUCCESS classes)) = requested (with_status SUCCESS classes)) as Hall.
  { apply list_filter_all. intros x. rewrite requested_with_status. intros (y & -> & Hy)%list_elem_of_fmap.
    unfold is_listed. cbn. rewrite (Hstored (channel_number y.2)), Z.eqb_refl; [by destruct (bool_decide _)|].
    rewrite channel_numbers_requested. by apply (list_elem_of_fmap_2 (λ x, channel_number x.2)). }
  split; [rewrite Hk, Hall, requested_with_status, <- list_fmap_compose; done|].
  intros ch Hch. rewrite Hn. unfold first_listed. rewrite Hall.
  rewrite channel_numbers_requested in Hch. apply list_elem_of_fmap in Hch as (x & -> & Hx).
  set (x' := (x.1, mkScanChannel (channel_number x.2) SUCCESS)).
  assert (x' ∈ filter (λ y, channel_number y.2 = channel_number x.2) (requested (with_status SUCCESS classes))) as Hin.
  { apply list_elem_of_filter. split; [done|]. rewrite requested_with_status. apply list_elem_of_fmap. by exists x. }
  destruct (filter (λ y, channel_number y.2 = channel_number x.2) _) as [|y l] eqn:Hf; [by apply elem_of_nil in Hin|]. cbn.
  assert (y ∈ y :: l) as Hy by left. rewrite <- Hf in Hy. apply list_elem_of_filter in Hy as [Hyx Hy].
  rewrite requested_with_status in Hy. apply list_elem_of_fmap in Hy as (z & -> & Hz). unfold stored_neighbors. cbn in Hyx |- *.
  rewrite (Hstored (channel_number z.2)); [unfold channel_neighbors; by rewrite Hyx|].
  rewrite channel_numbers_requested. by apply (list_elem_of_fmap_2 (λ x, channel_number x.2)).
Qed.

Lemma done_fits e : Forall fits_neighbor rs →
  get_ISO_8601_timestamp_string e start ≠ [] → (length (get_ISO_8601_timestamp_string e start) ≤ 30)%nat →
  Forall (fits_estimate e) done_list.
Proof.
  intros Hrs Hne Hlen. destruct done_results as [Hk Hn].
  assert (Forall (λ s, ss_timestamp s = start) done_list) as Hts by (apply results_timestamp; intros ch Hch; eauto).
  rewrite Forall_forall in Hts. rewrite Forall_forall in Hrs. apply Forall_forall. intros s Hs. split; [by rewrite (Hts s Hs)|].
  intros _. rewrite (Hts s Hs). apply Forall_forall. intros n Hnb.
  enough (n ∈ rs) as Hin by (destruct (Hrs n Hin) as (ssid & Hssid & Hsz); exists ssid; split_and!; [done|lia..]).
  assert (ss_channel s ∈ channel_numbers classes) as Hch.
  { assert (key_of s ∈ key_of <$> done_list) as Hin by (by apply list_elem_of_fmap_2). rewrite Hk in Hin.
    apply list_elem_of_fmap in Hin as (x & [= _ -> _] & Hx). rewrite channel_numbers_requested.
    by apply (list_elem_of_fmap_2 (λ x, channel_number x.2)). }
  pose proof (neighbors_of_elem s done_list Hs n Hnb) as Hin. rewrite Hn in Hin by done.
  apply take_spectrum_elem, collect_elem, list_elem_of_filter in Hin. tauto.
Qed.
End Done.

(** ** The radio and its scan *)

(** Requests of one radio: the radio at [i], the first with its address and
    its name; the time stamps and the buffer have the sizes the code assumes;
    the broker takes the messages. *)
Section Radio.
Context (e : ScanEnv) (i : nat) (name : string) (mac : sMacAddr).

Record located (s : ScanTask) (r : ScanRadio) : Prop := {
  loc_radio : m_radios s !! i = Some r;
  loc_name : front_iface_name r = name ∧ name ≠ ""%string;
  loc_mac : has_radio_mac mac r = true;
  loc_first j r' : m_radios s !! j = Some r' → (j < i)%nat →
    has_mac mac r' = false ∧ front_iface_name r' ≠ name ∧ back_iface_name r' ≠ name;
}.

Lemma located_find s r p : located s r → p r = true → (∀ r', has_mac mac r' = false → p r' = false) →
  find_radio p s = Some (i, r).
Proof.
  intros Hl Hp Hn. unfold find_radio. apply list_find_Some. split_and!; [apply Hl|by rewrite Hp|].
  intros j r' Hj Hlt. destruct (loc_first _ _ Hl j r' Hj Hlt) as [Hm _].
  intros Hp'. by rewrite (Hn r' Hm) in Hp'.
Qed.
Lemma located_by_mac s r : located s r → get_radio_by_mac mac s = (Some (Some (i, r)), s).
Proof.
  intros Hl. unfold get_radio_by_mac, get. rewrite (located_find s r (has_mac mac) Hl); [done| |done].
  unfold has_mac. by rewrite (loc_mac _ _ Hl).
Qed.
Lemma located_by_radio_mac s r : located s r → get_radio_by_radio_mac mac s = (Some (Some (i, r)), s).
Proof.
  intros Hl. unfold get_radio_by_radio_mac, get. rewrite (located_find s r (has_radio_mac mac) Hl); [done|apply Hl|].
  intros r'. unfold has_mac. destruct (has_radio_mac mac r'); [done|done].
Qed.
Lemma located_by_name s r : located s r → radio name s = (Some (Some (i, r)), s).
Proof.
  intros Hl. destruct (loc_name _ _ Hl) as [Hn Hne]. unfold radio, get, find_radio.
  assert (list_find (λ r', negb (bool_decide (name = ""%string)) &&
    (bool_decide (name = front_iface_name r') || bool_decide (name = back_iface_name r'))) (m_radios s) = Some (i, r)) as ->; [|done].
  apply list_find_Some. rewrite (bool_decide_eq_false_2 _ Hne). cbn [negb andb]. split_and!; [apply Hl| |].
  - by rewrite (bool_decide_eq_true_2 (name = front_iface_name r)).
  - intros j r' Hj Hlt. destruct (loc_first _ _ Hl j r' Hj Hlt) as (_ & H1 & H2).
    intros Hp. by rewrite !bool_decide_eq_false_2 in Hp by congruence.
Qed.

Lemma located_same s s' r : m_radios s' = m_radios s → located s r → located s' r.
Proof. intros Hm [H1 H2 H3 H4]. split; rewrite ?Hm; done. Qed.
Lemma located_alter s s' r f : m_radios s' = alter f i (m_radios s) →
  front_iface_name (f r) = front_iface_name r → front_iface_mac (f r) = front_iface_mac r → back_iface_mac (f r) = back_iface_mac r →
  located s r → located s' (f r).
Proof.
  intros Hm Hn Hf Hb [H1 H2 H3 H4]. split.
  - rewrite Hm, list_lookup_alter_eq, H1. done.
  - by rewrite Hn.
  - unfold has_radio_mac in *. by rewrite Hf, Hb.
  - intros j r' Hj Hlt. apply (H4 j r'); [|done]. rewrite Hm, list_lookup_alter_ne in Hj by lia. done.
Qed.
End Radio.

(** ** The report of a request *)

Definition report_message (m : sMacAddr * list ReportTlv) : ScanMessage := CHANNEL_SCAN_REPORT_MESSAGE m.1 m.2.
Definition results_of (q : sScanRequest) (r : ScanRadio) : list sStoredScanResults :=
  get_scan_results (rq_perform_fresh_scan q =? PERFORM_A_FRESH_SCAN) (rs_radio_mac (rq_radio_scans q))
    (rs_dwell_time (rq_radio_scans q)) (rq_scan_start_timestamp q) (rs_operating_classes (rq_radio_scans q)) (channel_scan_results r).

(** A clock after the epoch and dates of 20 characters, a buffer with room for
    a neighbour, and a broker that takes the messages. *)
Record report_env_ok (e : ScanEnv) : Prop := {
  re_clock n : 0 ≤ system_clock e n;
  re_dates t : length (strftime (report_env e) t) = 20%nat;
  re_buffer : (141 + reserve (report_env e) ≤ buffer_size (report_env e))%nat;
  re_width : Z.of_nat (buffer_size (report_env e)) < 2 ^ 64;
  re_broker n : broker_send (report_env e) n = true;
}.

(** A report with these results was sent after [before]. *)
Definition reported (e : ScanEnv) (dst : sMacAddr) (results : list sStoredScanResults) (before after : list ScanMessage) : Prop :=
  ∃ t msgs, after = before ++ (report_message <$> msgs) ∧
    report_sent (report_env e) dst (get_ISO_8601_timestamp_string (report_env e) t) results msgs.

Section Report.
Context (e : ScanEnv) (i : nat) (name : string) (mac : sMacAddr) (Henv : report_env_ok e).

Lemma send_report_ok s r q : located i name mac s r → rs_radio_mac (rq_radio_scans q) = mac →
  Forall (fits_estimate (report_env e)) (results_of q r) → ∃ s',
  send_channel_scan_report_to_controller e q s = (Some true, s') ∧
  m_current_scan_info s' = m_current_scan_info s ∧ m_pending_requests s' = m_pending_requests s ∧ m_radios s' = m_radios s ∧
  reported e (rq_src_mac q) (results_of q r) (sent s) (sent s').
Proof.
  intros Hl Hmac Hfit. unfold send_channel_scan_report_to_controller. rewrite fbind_run. cbn [fst snd get_now].
  set (t := system_clock e (clock_reads s)). set (s1 := s <| clock_reads ::= S |>).
  destruct (timestamp_length (report_env e) t (re_clock e Henv (clock_reads s)) (re_dates e Henv _)) as [Hne Hlen].
  destruct (get_ISO_8601_timestamp_string (report_env e) t) as [|c ts] eqn:Hts; [done|]. rewrite <- Hts in *.
  assert (located i name mac s1 r) as Hl1 by (by apply (located_same i name mac s)).
  rewrite Hmac, (fbind_ok _ _ _ _ _ (located_by_radio_mac i name mac s1 r Hl1)).
  pose proof (re_buffer e Henv) as Hb.
  destruct (send_channel_scan_report_runs (report_env e) (rq_src_mac q) t (results_of q r) (calls s1)) as (rp & Hrun & _);
    [done|done|lia|apply Henv|apply Henv|done|].
  unfold results_of in Hrun. rewrite Hmac in Hrun. cbv beta iota zeta. rewrite Hrun. eexists. split; [done|]. split_and!; [done..|].
  exists t, (rp_sent rp). split; [done|]. unfold results_of. rewrite Hmac. by eapply send_channel_scan_report_true.
Qed.
End Report.

(** ** A scan whose monitor is silent *)

Section Turns.
Context (e : ScanEnv) (i : nat) (name : string) (mac : sMacAddr) (Henv : report_env_ok e).
Context (Hboot : m_on_boot_scan_enabled e = false).

(** The same radios, scans and requests; only abort requests were sent. *)
Record only_aborts (s s' : ScanTask) : Prop := {
  oa_radios : m_radios s' = m_radios s;
  oa_current : m_current_scan_info s' = m_current_scan_info s;
  oa_pending : m_pending_requests s' = m_pending_requests s;
  oa_sent : ∃ l, sent s' = sent s ++ l ∧ Forall (λ m, ∃ a, m = ABORT_REQUEST a) l;
}.

Lemma only_aborts_refl s s' : m_radios s' = m_radios s → m_current_scan_info s' = m_current_scan_info s →
  m_pending_requests s' = m_pending_requests s → sent s' = sent s → only_aborts s s'.
Proof. intros H1 H2 H3 H4. split; [done..|]. exists []. by rewrite app_nil_r. Qed.
Lemma only_aborts_trans s1 s2 s3 : only_aborts s1 s2 → only_aborts s2 s3 → only_aborts s1 s3.
Proof.
  intros [A1 A2 A3 (l & A4 & A5)] [B1 B2 B3 (l' & B4 & B5)]. split; [congruence..|]. exists (l ++ l').
  split; [by rewrite B4, A4, app_assoc|by apply Forall_app].
Qed.

Lemma abort_scan_request_sends q s : ∃ b s', abort_scan_request e q s = (Some b, s') ∧ only_aborts s s'.
Proof.
  unfold abort_scan_request. rewrite fbind_run. cbn [fst snd get get_radio_by_radio_mac].
  destruct (find_radio _ s) as [[j r]|]; [|eexists _, _; split; [done|by apply only_aborts_refl]].
  rewrite fbind_run. cbn [fst snd ask]. destruct (agent_fd_valid e _); [|eexists _, _; split; [done|by apply only_aborts_refl]].
  cbn [negb]. rewrite fbind_run. cbn [fst snd ask]. destruct (create_message e _); [|eexists _, _; split; [done|by apply only_aborts_refl]].
  cbn [negb]. rewrite fbind_run. cbn [fst snd ask]. destruct (send_message e _); [|eexists _, _; split; [done|by apply only_aborts_refl]].
  cbn [negb]. eexists _, _. split; [done|]. split; [done..|]. exists [ABORT_REQUEST (front_iface_mac r)]. split; [done|]. repeat constructor. by eexists.
Qed.

(** The first part of a turn: the clock, and an abort after five minutes. *)
Lemma turn_prefix q s : ∃ s', only_aborts s s' ∧ ∀ {B} (k : faultM ScanTask B),
  (t <- get_now e ;;
   _ <- (if rq_scan_start_timestamp q + SCAN_REQUEST_TIMEOUT_SEC <? t then abort_scan_request e q else fret true) ;; k) s = k s'.
Proof.
  destruct (rq_scan_start_timestamp q + SCAN_REQUEST_TIMEOUT_SEC <? system_clock e (clock_reads s)) eqn:Ht.
  - destruct (abort_scan_request_sends q (s <| clock_reads ::= S |>)) as (b & s' & H & Ha). exists s'. split.
    + eapply only_aborts_trans; [|done]. by apply only_aborts_refl.
    + intros B k. rewrite fbind_run. cbn [fst snd get_now]. rewrite Ht. by rewrite (fbind_ok _ _ _ _ _ H).
  - exists (s <| clock_reads ::= S |>). split; [by apply only_aborts_refl|].
    intros B k. rewrite fbind_run. cbn [fst snd get_now]. by rewrite Ht.
Qed.

Lemma work_radio_running s r q : located i name mac s r → current name s = mkCurrentScan true (Some q) →
  work_radio e i s = running_turn e i name q s.
Proof.
  intros Hl Hc. rewrite work_radio_eq, (loc_radio _ _ _ _ _ Hl). cbn zeta. destruct (loc_name _ _ _ _ _ Hl) as [-> _].
  by rewrite Hc.
Qed.

(** The turn that finds the deadline passed. *)
Definition timed_out (q : sScanRequest) : sScanRequest :=
  with_scan (λ r, move_state SCAN_FAILED (set_radio_scan_status SCAN_NOT_COMPLETED r)) q.

Definition waiting (st : eState) : Prop :=
  st = WAIT_FOR_SCAN_TRIGGERED ∨ st = WAIT_FOR_RESULTS_READY ∨ st = WAIT_FOR_RESULTS_DUMP.

Lemma timeout_turn s r q : located i name mac s r → current name s = mkCurrentScan true (Some q) →
  waiting (rs_current_state (rq_radio_scans q)) → rq_ready_to_send_report q = false →
  (∀ n, rs_timeout (rq_radio_scans q) < system_clock e n) → ∃ s',
  work_radio e i s = (Some true, s') ∧ located i name mac s' r ∧ current name s' = mkCurrentScan true (Some (timed_out q)) ∧
  ∃ l, sent s' = sent s ++ l ∧ Forall (λ m, ∃ a, m = ABORT_REQUEST a) l.
Proof.
  intros Hl Hc Hw Hr Ht. rewrite (work_radio_running s r q Hl Hc). unfold running_turn.
  destruct (turn_prefix q s) as (s1 & [Ha1 Ha2 Ha3 Ha4] & ->). rewrite fbind_run.
  assert (handle_scan_state e i q s1 = (Some (timed_out q, true), s1 <| clock_reads ::= S |>)) as ->.
  { assert (∀ f, f = check_timeout e q → (q' <- f ;; fret (q', true)) s1 = (Some (timed_out q, true), s1 <| clock_reads ::= S |>)) as Hck.
    { intros f ->. unfold check_timeout. rewrite !fbind_run. cbn [fst snd get_now]. by rewrite (proj2 (Z.ltb_lt _ _) (Ht _)). }
    unfold handle_scan_state. destruct Hw as [-> |[-> | ->]]; by apply Hck. }
  cbn [fst snd]. rewrite fbind_run. cbn [fst snd set_current_scan put].
  assert (sends_report e (timed_out q) = false) as -> by (unfold sends_report; cbn; by rewrite Hr, andb_false_r).
  eexists. split; [done|]. split; [by apply (located_same i name mac s)|]. split; [|done].
  unfold current. cbn. by rewrite lookup_insert_eq.
Qed.

(** The end of a turn that sends the report. *)
Lemma report_turn s r q' s1 : located i name mac s r → located i name mac s1 r → rs_radio_mac (rq_radio_scans q') = mac →
  m_pending_requests s1 = m_pending_requests s → (∃ l, sent s1 = sent s ++ l ∧ Forall (λ m, ∃ a, m = ABORT_REQUEST a) l) →
  sends_report e q' = true → Forall (fits_estimate (report_env e)) (results_of q' r) → ∃ s',
  (_ <- set_current_scan name (mkCurrentScan true (Some q')) ;;
   if sends_report e q' then _ <- set_current_scan name no_scan ;; send_channel_scan_report_to_controller e q' else fret true) s1
    = (Some true, s') ∧
  current name s' = no_scan ∧ m_pending_requests s' = m_pending_requests s ∧ located i name mac s' r ∧
  ∃ l, Forall (λ m, ∃ a, m = ABORT_REQUEST a) l ∧ reported e (rq_src_mac q') (results_of q' r) (sent s ++ l) (sent s').
Proof.
  intros Hl Hl1 Hmac Hp (l & Hs1 & Hab) Hsend Hfit. rewrite Hsend. rewrite fbind_run. cbn [fst snd set_current_scan put].
  rewrite fbind_run. cbn [fst snd set_current_scan put]. set (s2 := s1 <| m_current_scan_info ::= _ |> <| m_current_scan_info ::= _ |>).
  destruct (send_report_ok e i name mac Henv s2 r q') as (s' & Hrun & Hc & Hp' & Hm & Hrep); [by apply (located_same i name mac s1)|done..|].
  exists s'. split; [done|]. split_and!.
  - unfold current. rewrite Hc. unfold s2. cbn. by rewrite lookup_insert_eq.
  - rewrite Hp'. done.
  - by apply (located_same i name mac s1).
  - exists l. split; [done|]. by rewrite <- Hs1.
Qed.

Lemma failed_turn s r q : located i name mac s r → current name s = mkCurrentScan true (Some q) →
  rs_current_state (rq_radio_scans q) = SCAN_FAILED → rs_radio_mac (rq_radio_scans q) = mac →
  Forall (fits_estimate (report_env e)) (results_of q r) → ∃ s',
  work_radio e i s = (Some true, s') ∧ current name s' = no_scan ∧
  ∃ l, Forall (λ m, ∃ a, m = ABORT_REQUEST a) l ∧ reported e (rq_src_mac q) (results_of q r) (sent s ++ l) (sent s').
Proof.
  intros Hl Hc Hst Hmac Hfit. rewrite (work_radio_running s r q Hl Hc). unfold running_turn.
  destruct (turn_prefix q s) as (s1 & [Ha1 Ha2 Ha3 Ha4] & ->). rewrite fbind_run. unfold handle_scan_state. rewrite Hst.
  cbn [fst snd]. rewrite fret_run. cbn [fst snd]. unfold ready_unless_on_boot. rewrite Hboot.
  destruct (report_turn s r (set_ready q) s1) as (s' & Hrun & Hc' & _ & _ & Hrep); [done| |done|done|done| |done|].
  { by apply (located_same i name mac s). }
  { unfold sends_report. by rewrite Hboot. }
  exists s'. split; [exact Hrun|done].
Qed.
End Turns.

(** C34: A scan whose monitor falls silent is reported: once the deadline of a
    state that waits has passed, two turns of [work()] send the controller a
    report that lists every requested channel as not completed, and free the
    radio for the next request. Messages can be built and sent, the clock is
    past the epoch and dates print in 20 characters. *)
Theorem scan_timeout_reported e i name mac s r q :
  report_env_ok e → m_on_boot_scan_enabled e = false → located i name mac s r →
  current name s = mkCurrentScan true (Some q) → rs_radio_mac (rq_radio_scans q) = mac →
  waiting (rs_current_state (rq_radio_scans q)) → rq_ready_to_send_report q = false →
  (∀ n, rs_timeout (rq_radio_scans q) < system_clock e n) → ∃ s' results l,
  (_ <- work_radio e i ;; work_radio e i) s = (Some true, s') ∧ current name s' = no_scan ∧
  Forall (λ m, ∃ a, m = ABORT_REQUEST a) l ∧ reported e (rq_src_mac q) results (sent s ++ l) (sent s') ∧
  key_of <$> results = (λ x, (x.1, channel_number x.2, SCAN_NOT_COMPLETED)) <$> requested (rs_operating_classes (rq_radio_scans q)) ∧
  Forall (λ s, ss_results s = []) results.
Proof.
  intros Henv Hboot Hl Hc Hmac Hw Hr Ht.
  destruct (timeout_turn e i name mac s r q Hl Hc Hw Hr Ht) as (s1 & H1 & Hl1 & Hc1 & l & Hs1 & Hab).
  destruct (failed_results (rq_perform_fresh_scan q =? PERFORM_A_FRESH_SCAN) mac (rs_dwell_time (rq_radio_scans q))
    (rq_scan_start_timestamp q) SCAN_NOT_COMPLETED (rs_operating_classes (rq_radio_scans q)) (channel_scan_results r)) as [Hk Hn]; [done|].
  assert (results_of (timed_out q) r = get_scan_results (rq_perform_fresh_scan q =? PERFORM_A_FRESH_SCAN) mac
    (rs_dwell_time (rq_radio_scans q)) (rq_scan_start_timestamp q)
    (with_status SCAN_NOT_COMPLETED (rs_operating_classes (rq_radio_scans q))) (channel_scan_results r)) as Hres
    by (unfold results_of; cbn; by rewrite Hmac).
  rewrite <- Hres in Hk, Hn.
  destruct (failed_turn e i name mac Henv Hboot s1 r (timed_out q) Hl1 Hc1) as (s2 & H2 & Hc2 & l' & Hab' & Hrep); [done|done| |].
  { eapply Forall_impl; [exact Hn|]. intros x [Hx1 Hx2]. split; by rewrite Hx1. }
  exists s2, (results_of (timed_out q) r), (l ++ l'). split_and!; [by rewrite (fbind_ok _ _ _ _ _ H1)|done|by apply Forall_app| |done|].
  - by rewrite app_assoc, <- Hs1.
  - eapply Forall_impl; [exact Hn|]. by intros x [_ Hx].
Qed.

(** ** A scan from the request to the report *)

Section Flow.
Context (e : ScanEnv) (i : nat) (name : string) (mac src : sMacAddr) (start dwell : Z) (classes : list ScanClass).
Context (Henv : report_env_ok e) (Hboot : m_on_boot_scan_enabled e = false).
Context (Hfd : ∀ n, agent_fd_valid e n = true) (Hcreate : ∀ n, create_message e n = true) (Hsend : ∀ n, send_message e n = true).

(** The request, in a state and with some results. *)
Definition scan_of (st : eState) (cl : list ScanClass) (timeout : Z) (cache : gmap Z (list sChannelScanResults)) : sScanRequest :=
  mkScanRequest src PERFORM_A_FRESH_SCAN start (mkRadioScan mac cl st timeout dwell cache) false.

(** The scan of the radio is in a state, and these messages were sent. *)
Definition scan_at (r : ScanRadio) (st : eState) (cl : list ScanClass) (cache : gmap Z (list sChannelScanResults))
    (pending : gmap string sScanRequest) (msgs : list ScanMessage) (s : ScanTask) : Prop :=
  located i name mac s r ∧ (∃ t, current name s = mkCurrentScan true (Some (scan_of st cl t cache))) ∧
  m_pending_requests s = pending ∧ sent s = msgs.

Lemma scan_trigger s r t pool : located i name mac s r → is_scan_currently_running (current name s) = false →
  m_pending_requests s !! name = Some (scan_of PENDING_TRIGGER classes t ∅) → dwell ≠ 0 →
  channels_to_scan (mkRadioScan mac classes PENDING_TRIGGER t dwell ∅) = Some pool → pool ≠ ∅ → ∃ s',
  work_radio e i s = (Some true, s') ∧
  scan_at r PENDING_TRIGGER classes ∅ (delete name (m_pending_requests s))
    (sent s ++ [TRIGGER_SCAN_REQUEST (front_iface_mac r) mac (u32 dwell) pool (certification_mode e)]) s'.
Proof.
  intros Hl Hrun Hpend Hd Hpool Hne. rewrite work_radio_eq, (loc_radio _ _ _ _ _ Hl). cbn zeta.
  destruct (loc_name _ _ _ _ _ Hl) as [Hname _]. rewrite Hname, Hrun, Hpend. unfold idle_turn. rewrite fbind_run.
  unfold trigger_next_radio_scan. cbn [rq_radio_scans scan_of rs_current_state]. rewrite bool_decide_eq_true_2 by done. cbn [negb andb].
  rewrite fbind_run. unfold trigger_radio_scan. rewrite fbind_run. cbn [fst snd ask]. rewrite Hfd. cbn [negb].
  set (s1 := s <| calls ::= S |>). assert (located i name mac s1 r) as Hl1 by (by apply (located_same i name mac s)).
  rewrite (fbind_ok _ _ _ _ _ (located_by_name i name mac s1 r Hl1)). rewrite fbind_run. cbn [fst snd ask]. rewrite Hcreate. cbn [negb].
  cbn [rs_dwell_time]. rewrite (proj2 (Z.eqb_neq _ _) Hd), Hpool, bool_decide_eq_false_2 by done.
  rewrite fbind_run. cbn [fst snd ask]. rewrite Hsend. cbn [negb]. rewrite !fbind_run. cbn [fst snd].
  eexists. split; [done|]. split; [by apply (located_same i name mac s)|]. split; [|done].
  exists t. unfold current. cbn. rewrite fbind_run. cbn. by rewrite lookup_insert_eq.
Qed.

Lemma scan_at_running r st cl cache pending msgs s : scan_at r st cl cache pending msgs s → ∃ t,
  ∀ mid n, handle_vendor_specific e mid mac n s = handle_notification e mid i name mac n s ∧
  current name s = mkCurrentScan true (Some (scan_of st cl t cache)).
Proof.
  intros (Hl & (t & Hc) & _). exists t. intros mid n. split; [|done]. unfold handle_vendor_specific.
  rewrite (fbind_ok _ _ _ _ _ (located_by_mac i name mac s r Hl)). by destruct (loc_name _ _ _ _ _ Hl) as [-> _].
Qed.

(** The scan in a state, as the handler of a notification finds it. *)
Lemma expected_scan_found s st cl t cache : 
  expected_scan (mkCurrentScan true (Some (scan_of st cl t cache))) mac (Some st) s = (Some (Some (scan_of st cl t cache)), s).
Proof.
  unfold expected_scan, deref. cbn [cur_request]. rewrite fbind_run, fret_run. cbn [fst snd].
  unfold matches_src, in_state. cbn [from_option scan_of rq_radio_scans rs_radio_mac rs_current_state].
  by rewrite !bool_decide_eq_true_2 by done.
Qed.

(** A notification moves the scan on. *)
Lemma scan_moved r st cl cache pending msgs s st' cl' cache' t s' : scan_at r st cl cache pending msgs s →
  m_radios s' = m_radios s → m_pending_requests s' = m_pending_requests s → sent s' = sent s →
  m_current_scan_info s' = <[name := mkCurrentScan true (Some (scan_of st' cl' t cache'))]> (m_current_scan_info s) →
  scan_at r st' cl' cache' pending msgs s'.
Proof.
  intros (Hl & _ & Hp & Hs) Hm Hp' Hs' Hc. split_and!; [by apply (located_same i name mac s)| |congruence..].
  exists t. unfold current. by rewrite Hc, lookup_insert_eq.
Qed.

(** The handler reaches the scan of the radio. *)
Ltac receive Hs :=
  let t := fresh "t" in let Hn := fresh in let Hc := fresh in
  destruct (scan_at_running _ _ _ _ _ _ _ Hs) as (t & Hn);
  lazymatch goal with |- context [handle_vendor_specific _ ?mid _ ?n _] => destruct (Hn mid n) as [-> Hc] end;
  unfold handle_notification; rewrite fbind_run; cbn [fst snd get]; rewrite Hc; cbn zeta; cbn [is_scan_currently_running negb].

Lemma trigger_response mid r cl cache pending msgs s : scan_at r PENDING_TRIGGER cl cache pending msgs s → ∃ s',
  handle_vendor_specific e mid mac (TRIGGER_SCAN_RESPONSE true) s = (Some true, s') ∧
  scan_at r WAIT_FOR_SCAN_TRIGGERED cl cache pending msgs s'.
Proof.
  intros Hs. receive Hs.
  rewrite (fbind_ok _ _ _ _ _ (expected_scan_found s _ _ _ _)). eexists. split; [done|]. by eapply scan_moved.
Qed.
Lemma triggered mid r cl cache pending msgs s : scan_at r WAIT_FOR_SCAN_TRIGGERED cl cache pending msgs s → ∃ s',
  handle_vendor_specific e mid mac TRIGGERED_NOTIFICATION s = (Some true, s') ∧
  scan_at r WAIT_FOR_RESULTS_READY cl cache pending msgs s'.
Proof.
  intros Hs. receive Hs.
  rewrite (fbind_ok _ _ _ _ _ (expected_scan_found s _ _ _ _)). eexists. split; [done|]. by eapply scan_moved.
Qed.
Lemma results_ready mid d r cl cache pending msgs s : scan_at r WAIT_FOR_RESULTS_READY cl cache pending msgs s → ∃ s',
  handle_vendor_specific e mid mac (RESULTS_NOTIFICATION false d) s = (Some true, s') ∧
  scan_at r WAIT_FOR_RESULTS_DUMP (with_status SUCCESS cl) cache pending msgs s'.
Proof.
  intros Hs. receive Hs.
  unfold handle_results_notification.
  rewrite (fbind_ok _ _ _ _ _ (expected_scan_found s _ _ _ _)). eexists. split; [done|]. by eapply scan_moved.
Qed.

Lemma result_dumped mid x r cl cache pending msgs s : Forall (λ c, bw c = BANDWIDTH_20) cl →
  scan_at r WAIT_FOR_RESULTS_DUMP cl cache pending msgs s → ∃ s',
  handle_vendor_specific e mid mac (RESULTS_NOTIFICATION true x) s = (Some true, s') ∧
  scan_at r WAIT_FOR_RESULTS_DUMP (with_status SUCCESS cl) (put_result x (channel_numbers cl) cache) pending msgs s'.
Proof.
  intros Hbw Hs. pose proof Hs as (Hl & _). receive Hs. unfold handle_results_notification.
  rewrite (fbind_ok _ _ _ _ _ (expected_scan_found s _ _ _ _)). unfold store_radio_scan_result. rewrite fbind_run.
  rewrite (fbind_ok _ _ _ _ _ (located_by_mac i name mac s r Hl)).
  cbn [scan_of rq_radio_scans rs_operating_classes rs_cached_results]. rewrite (store_result_20 x cl Hbw cache).
  rewrite fret_run. cbn [fst snd]. eexists. split; [done|]. by eapply scan_moved.
Qed.
Lemma scan_finished mid r cl cache pending msgs s : scan_at r WAIT_FOR_RESULTS_DUMP cl cache pending msgs s → ∃ s',
  handle_vendor_specific e mid mac FINISHED_NOTIFICATION s = (Some true, s') ∧
  scan_at (not_in_progress r) SCAN_DONE cl cache pending msgs s'.
Proof.
  intros Hs. pose proof Hs as (Hl & _ & Hp & Hse). receive Hs. rewrite fbind_run. cbn [fst snd update_radio put].
  rewrite (fbind_ok _ _ _ _ _ (expected_scan_found _ _ _ _ _)). eexists. split; [done|]. split.
  - by apply (located_alter i name mac s _ r not_in_progress).
  - split; [|done]. eexists. unfold current. cbn. by rewrite lookup_insert_eq.
Qed.

(** The monitor's results, one after the other. *)
Fixpoint dump_results (mid : Z) (rs : list sChannelScanResults) : faultM ScanTask bool :=
  match rs with
  | [] => fret true
  | x :: rs => _ <- handle_vendor_specific e mid mac (RESULTS_NOTIFICATION true x) ;; dump_results mid rs
  end.
Lemma with_status_bw st cl : Forall (λ c, bw c = BANDWIDTH_20) cl → Forall (λ c, bw c = BANDWIDTH_20) (with_status st cl).
Proof. intros H. apply Forall_fmap. by eapply Forall_impl. Qed.
Lemma results_dumped mid rs : ∀ r cl cache pending msgs s, Forall (λ c, bw c = BANDWIDTH_20) cl →
  scan_at r WAIT_FOR_RESULTS_DUMP (with_status SUCCESS cl) cache pending msgs s → ∃ s',
  dump_results mid rs s = (Some true, s') ∧
  scan_at r WAIT_FOR_RESULTS_DUMP (with_status SUCCESS cl) (put_results (channel_numbers cl) rs cache) pending msgs s'.
Proof.
  induction rs as [|x rs IH]; intros r cl cache pending msgs s Hbw Hs; [by exists s|]. cbn [dump_results].
  destruct (result_dumped mid x _ _ _ _ _ _ (with_status_bw SUCCESS cl Hbw) Hs) as (s1 & H1 & Hs1). rewrite (fbind_ok _ _ _ _ _ H1).
  rewrite with_status_twice, channel_numbers_with_status in Hs1. by apply (IH r cl).
Qed.

(** The turn after the scan: the results go to the database, the report to the
    controller. *)
Lemma done_turn rs r pending msgs s : 0 ≤ start → Forall fits_neighbor rs →
  scan_at r SCAN_DONE (with_status SUCCESS classes) (put_results (channel_numbers classes) rs ∅) pending msgs s → ∃ s' results l,
  work_radio e i s = (Some true, s') ∧ current name s' = no_scan ∧ m_pending_requests s' = pending ∧
  Forall (λ m, ∃ a, m = ABORT_REQUEST a) l ∧ reported e src results (msgs ++ l) (sent s') ∧
  key_of <$> results = (λ x, (x.1, channel_number x.2, SUCCESS)) <$> requested classes ∧
  ∀ ch, ch ∈ channel_numbers classes → neighbors_of ch results = channel_neighbors rs ch.
Proof.
  intros Hst Hrs (Hl & (t & Hc) & Hp & Hs).
  destruct (timestamp_length (report_env e) start Hst (re_dates e Henv _)) as [Hst1 Hst2]. set (q := scan_of _ _ _ _) in Hc.
  rewrite (work_radio_running e i name mac s r q Hl Hc). unfold running_turn.
  destruct (turn_prefix e q s) as (s1 & [Ha1 Ha2 Ha3 Ha4] & ->). rewrite fbind_run. unfold handle_scan_state.
  cbn [q scan_of rq_radio_scans rs_current_state]. rewrite fbind_run. cbn [fst snd update_radio put]. rewrite Hboot, fret_run. cbn [fst snd].
  set (s2 := s1 <| m_radios ::= _ |>). set (r' := with_results (sync_results q) r).
  assert (located i name mac s2 r') as Hl2
    by (apply (located_alter i name mac s _ r (with_results (sync_results q))); [unfold s2; cbn; by rewrite Ha1|done..]).
  assert (∀ ch, ch ∈ channel_numbers classes → channel_scan_results r' !! ch
    = Some (SUCCESS, start, collect (filter (λ r, result_channel r = ch) rs))) as Hstored.
  { intros ch Hch. unfold r'. cbn [with_results channel_scan_results]. rewrite sync_results_lookup. cbn [q scan_of rq_radio_scans rs_operating_classes].
    rewrite channel_numbers_with_status, bool_decide_eq_true_2 by done. cbn [rq_scan_start_timestamp rs_cached_results].
    rewrite put_results_lookup by done. done. }
  destruct (done_results mac dwell start classes rs (channel_scan_results r') Hstored) as [Hk Hn].
  pose proof (done_fits mac dwell start classes rs (channel_scan_results r') Hstored (report_env e) Hrs Hst1 Hst2) as Hfit.
  change (done_list mac dwell start classes (channel_scan_results r')) with (results_of (set_ready q) r') in *.
  destruct (report_turn e i name mac Henv s2 r' (set_ready q) s2) as (s' & Hrun & Hc' & Hp' & _ & l & Hab & Hrep); [done|done|done|done| | |done|].
  { exists []. by rewrite app_nil_r. }
  { unfold sends_report. by rewrite Hboot. }
  destruct Ha4 as (l0 & Hs0 & Hab0). exists s', (results_of (set_ready q) r'), (l0 ++ l). split_and!; [exact Hrun|done| | | |done|done].
  - rewrite Hp'. unfold s2. cbn. congruence.
  - by apply Forall_app.
  - unfold s2 in Hrep. cbn in Hrep. rewrite Hs0, Hs, <- app_assoc in Hrep. done.
Qed.

(** The messages of a scan that goes well, in their order. *)
Definition scan_course (mid : Z) (d : sChannelScanResults) (rs : list sChannelScanResults) : faultM ScanTask bool :=
  _ <- work_radio e i ;;
  _ <- handle_vendor_specific e mid mac (TRIGGER_SCAN_RESPONSE true) ;;
  _ <- handle_vendor_specific e mid mac TRIGGERED_NOTIFICATION ;;
  _ <- handle_vendor_specific e mid mac (RESULTS_NOTIFICATION false d) ;;
  _ <- dump_results mid rs ;;
  _ <- handle_vendor_specific e mid mac FINISHED_NOTIFICATION ;;
  work_radio e i.
End Flow.

(** C33: A pending request for a fresh scan of 20 MHz channels is carried out
    and answered: the monitor is asked for a scan of the requested channels
    that are supported; when it confirms, starts, gives its results and
    finishes, the controller gets a report with one entry for every requested
    channel, in the order of the request and with the status [SUCCESS], whose
    neighbours are the monitor's results for that channel, each access point
    once; the radio is then free. Messages can be built and sent, the clock is
    past the epoch, dates print in 20 characters as the format of the source
    has it, and a neighbour takes at most 47 bytes: the estimate of the source
    leaves that much when the fraction of a second has nine digits. *)
Theorem scan_reported e i name mac src start dwell classes s r t pool mid d rs :
  report_env_ok e → m_on_boot_scan_enabled e = false →
  (∀ n, agent_fd_valid e n = true) → (∀ n, create_message e n = true) → (∀ n, send_message e n = true) →
  located i name mac s r → is_scan_currently_running (current name s) = false →
  m_pending_requests s !! name = Some (scan_of mac src start dwell PENDING_TRIGGER classes t ∅) →
  dwell ≠ 0 → Forall (λ c, bw c = BANDWIDTH_20) classes →
  channels_to_scan (mkRadioScan mac classes PENDING_TRIGGER t dwell ∅) = Some pool → pool ≠ ∅ →
  0 ≤ start → Forall fits_neighbor rs → ∃ s' results l,
  scan_course e i mac mid d rs s = (Some true, s') ∧
  current name s' = no_scan ∧ m_pending_requests s' = delete name (m_pending_requests s) ∧
  Forall (λ m, ∃ a, m = ABORT_REQUEST a) l ∧
  reported e src results (sent s ++ TRIGGER_SCAN_REQUEST (front_iface_mac r) mac (u32 dwell) pool (certification_mode e) :: l) (sent s') ∧
  key_of <$> results = (λ x, (x.1, channel_number x.2, SUCCESS)) <$> requested classes ∧
  ∀ ch, ch ∈ channel_numbers classes → neighbors_of ch results = channel_neighbors rs ch.
Proof.
  intros Henv Hboot Hfd Hcr Hse Hl Hrun Hpend Hd Hbw Hpool Hne Hst Hrs. unfold scan_course.
  edestruct scan_trigger as (s1 & H1 & Hs1); [done..|]. rewrite (fbind_ok _ _ _ _ _ H1).
  edestruct trigger_response as (s2 & H2 & Hs2); [done..|]. rewrite (fbind_ok _ _ _ _ _ H2).
  edestruct triggered as (s3 & H3 & Hs3); [done..|]. rewrite (fbind_ok _ _ _ _ _ H3).
  edestruct results_ready as (s4 & H4 & Hs4); [done..|]. rewrite (fbind_ok _ _ _ _ _ H4).
  edestruct results_dumped as (s5 & H5 & Hs5); [done..|]. rewrite (fbind_ok _ _ _ _ _ H5).
  edestruct scan_finished as (s6 & H6 & Hs6); [done..|]. rewrite (fbind_ok _ _ _ _ _ H6).
  edestruct done_turn as (s7 & results & l & H7 & Hc & Hp & Hab & Hrep & Hk & Hn); [done..|].
  exists s7, results, l. rewrite <- app_assoc in Hrep. done.
Qed.
