(* ===== verification/Tlvf.v ===== *)
(** * TLV classes

    The framework of the TLV classes ([framework/tlvf/src]) as far as received
    messages go: [BaseClass] ([BaseClass.cpp]), the byte swapping of [swap.h],
    and [init()] of the classes generated from the TLV descriptions
    ([framework/tlvf/AutoGenerated]). All generated classes follow one scheme;
    a [Layout] is the list of the steps of [init()], and [init_parse] runs
    them on an object constructed for parsing. The host is little-endian. *)

From S2P Require Import Prelude Wire.

(** ** Swapping *)

(** [swap_16], [swap_32], [swap_64], [sVendorOUI::struct_swap]: the [w] bytes
    at [off] in reverse order. *)
Definition swap_at (off w : nat) (b : list Z) : list Z :=
  take off b ++ reverse (take w (drop off b)) ++ drop (off + w) b.

(** ** Layouts *)

(** The condition of an optional field, a test of a byte read before:
    [*m_x == value], or [m_x->bits] of a bit field. *)
Inductive Cond A :=
  | IsValue (a : A) (v : Z)
  | IsSet (a : A) (bit width : Z).
Arguments IsValue {A} a v.
Arguments IsSet {A} a bit width.

Definition cond_addr {A} (c : Cond A) : A := match c with IsValue a _ | IsSet a _ _ => a end.

(** The number of elements: [uint8_t n = *m_x], or [uint16_t] or [uint32_t]
    swapped. *)
Inductive Len := Len8 (field : string) | Len16 (field : string) | Len32 (field : string).
Definition len_field (l : Len) : string := match l with Len8 f | Len16 f | Len32 f => f end.
Definition len_width (l : Len) : nat := match l with Len8 _ => 1 | Len16 _ => 2 | Len32 _ => 4 end.

(** The steps of [init()]. [sw] are the words of a field (or of an element)
    that [class_swap] reverses, as offset and width:
    - [Fixed]: [m_x = m_buff_ptr__; buffPtrIncrementSafe(sizeof(T))];
    - [When]: the same under a condition (any of the list);
    - [Array]: a fixed number of elements;
    - [Counted], [CountedClass]: as many elements, or objects of an inner
      class, as an earlier field says;
    - [OneClass]: one object of an inner class;
    - [Rest], [RestClass]: what is left according to [m_length];
    - [Rest8]: the same where [m_length] is a byte;
    - [Tail]: what is left of the buffer. *)
Inductive Field :=
  | Fixed (name : string) (n : nat) (sw : list (nat * nat))
  | When (cs : list (Cond string)) (name : string) (n : nat) (sw : list (nat * nat))
  | Array (name : string) (count n : nat) (sw : list (nat * nat))
  | Counted (name : string) (l : Len) (n : nat) (sw : list (nat * nat))
  | CountedClass (name : string) (l : Len) (fs : list Field)
  | OneClass (name : string) (fs : list Field)
  | Rest (name : string) (n : nat) (sw : list (nat * nat))
  | Rest8 (name : string) (n : nat) (sw : list (nat * nat))
  | RestClass (name : string) (fs : list Field)
  | Tail (name : string) (n : nat) (sw : list (nat * nat)).

(** A class: its name, the value [*m_type] is compared with, its fields. *)
Record Layout := mkLayout { l_name : string; l_type : option Z; l_fields : list Field }.

Definition field_name (f : Field) : string :=
  match f with
  | Fixed n _ _ | When _ n _ _ | Array n _ _ _ | Counted n _ _ _ | CountedClass n _ _
  | OneClass n _ | Rest n _ _ | Rest8 n _ _ | RestClass n _ | Tail n _ _ => n
  end.

(** [get_initial_size()]. *)
Definition initial_size (f : Field) : nat :=
  match f with Fixed _ n _ => n | Array _ c n _ => c * n | _ => 0 end.
Definition get_initial_size (fs : list Field) : nat := sum_list_with initial_size fs.

(** ** Objects *)

(** A word [class_swap] reverses; the condition is that of the field. *)
Record Spot := mkSpot { sp_when : option (list (Cond nat)); sp_off : nat; sp_width : nat }.

Definition eval_cond (b : list Z) (c : Cond nat) : bool :=
  match c with
  | IsValue a v => at_ b a =? v
  | IsSet a bit width => negb (Z.land (Z.shiftr (at_ b a) bit) (2 ^ width - 1) =? 0)
  end.

Definition eval_when (b : list Z) (w : option (list (Cond nat))) : bool :=
  match w with None => true | Some cs => existsb (eval_cond b) cs end.
Definition active (b : list Z) (s : Spot) : bool := eval_when b (sp_when s).
Definition guards (s : Spot) : list nat :=
  match sp_when s with None => [] | Some cs => cond_addr <$> cs end.

Definition swap_spot (b : list Z) (s : Spot) : list Z :=
  if active b s then swap_at (sp_off s) (sp_width s) b else b.
Definition swap_spots (l : list Spot) (b : list Z) : list Z := foldl swap_spot b l.

(** An access of [class_swap] inside the buffer. *)
Definition spot_in_buffer (b : list Z) (s : Spot) : bool :=
  forallb (λ g, g <? length b)%nat (guards s)
  && (negb (active b s) || (sp_off s + sp_width s <=? length b)%nat).

(** [class_swap()] of an object, by the words it reverses. *)
Definition class_swap (l : list Spot) : faultM (list Z) unit := λ b,
  if forallb (spot_in_buffer b) l then (Some tt, swap_spots l b) else (None, b).

(** The words of [count] elements of size [n] from [off] on. *)
Definition spots_at (w : option (list (Cond nat))) (off : nat) (sw : list (nat * nat)) : list Spot :=
  (λ ow, mkSpot w (off + ow.1) ow.2) <$> sw.
Definition element_spots (off n count : nat) (sw : list (nat * nat)) : list Spot :=
  concat ((λ i, spots_at None (off + i * n) sw) <$> seq 0 count).

(** ** [init()] for parsing *)

(** The state of [init()]: [m_buff_ptr__], the members [m_x] set so far and
    the words to swap. *)
Record Walk := mkWalk { w_ptr : nat; w_fields : list (string * nat); w_spots : list Spot }.

Definition find_field (w : Walk) (name : string) : option nat :=
  snd <$> list_find (λ x, x.1 = name) (w_fields w) ≫= λ x, Some x.2.

Definition set_member (name : string) (spots : list Spot) (w : Walk) : Walk :=
  mkWalk (w_ptr w) ((name, w_ptr w) :: w_fields w) (w_spots w ++ spots).

(** [buffPtrIncrementSafe(n)], where the buffer ends at [fin]. *)
Definition buffPtrIncrementSafe (fin : nat) (n : Z) (w : Walk) : option Walk :=
  if Z.of_nat fin - Z.of_nat (w_ptr w) <? n then None
  else Some (mkWalk (w_ptr w + Z.to_nat n) (w_fields w) (w_spots w)).

(** The elements of a list: [m_x = m_buff_ptr__], [m_x_idx__ = count],
    [buffPtrIncrementSafe(total)]. *)
Definition take_elements (fin : nat) (name : string) (total count : Z) (n : nat)
    (sw : list (nat * nat)) (w : Walk) : option Walk :=
  if Z.of_nat fin - Z.of_nat (w_ptr w) <? total then None
  else Some (mkWalk (w_ptr w + Z.to_nat total) ((name, w_ptr w) :: w_fields w)
               (w_spots w ++ element_spots (w_ptr w) n (Z.to_nat count) sw)).

Definition read_byte (off : nat) : faultM (list Z) Z := λ b, (b !! off, b).

(** [*m_x] of a length field, in host order. *)
Definition read_len (w : Walk) (l : Len) : faultM (list Z) Z :=
  match find_field w (len_field l) with
  | None => fault
  | Some off =>
    match l with
    | Len8 _ => read_byte off
    | Len16 _ => hi <- read_byte off ;; lo <- read_byte (S off) ;; fret (be16 hi lo)
    | Len32 _ =>
      b0 <- read_byte off ;; b1 <- read_byte (S off) ;; b2 <- read_byte (S (S off)) ;; b3 <- read_byte (S (S (S off))) ;;
      fret (be32 b0 b1 b2 b3)
    end
  end.

Fixpoint resolve (w : Walk) (cs : list (Cond string)) : option (list (Cond nat)) :=
  match cs with
  | [] => Some []
  | c :: cs =>
    off ← find_field w (cond_addr c);
    cs' ← resolve w cs;
    Some (match c with IsValue _ v => IsValue off v | IsSet _ i n => IsSet off i n end :: cs')
  end.

(** [swap_len] less what was read of the TLV, a [size_t]. [sizeof( *m_type )] is
    where [m_length] is: the type is all there is before it. *)
Definition type_size (start : nat) (w : Walk) : nat := default start (find_field w "length") - start.
Definition rest_length (l : Len) (start : nat) (w : Walk) : faultM (list Z) Z :=
  len <- read_len w l ;;
  fret (u64 (len - (Z.of_nat (w_ptr w) - Z.of_nat (type_size start w) - Z.of_nat (len_width l) - Z.of_nat start))).

Section Init.
Context (walk_field : nat → nat → Field → Walk → faultM (list Z) (option Walk)).

Fixpoint walk_fields (start fin : nat) (fs : list Field) (w : Walk) : faultM (list Z) (option Walk) :=
  match fs with
  | [] => fret (Some w)
  | f :: fs =>
    r <- walk_field start fin f w ;;
    match r with Some w => walk_fields start fin fs w | None => fret None end
  end.

(** [init()] of an object at [start]. *)
Definition init_fields (start fin : nat) (fs : list Field) : faultM (list Z) (option Walk) :=
  if (fin - start <? get_initial_size fs)%nat then fret None
  else
    r <- walk_fields start fin fs (mkWalk start [] []) ;;
    match r with
    | None => fret None
    | Some w => _ <- class_swap (w_spots w) ;; fret (Some w)
    end.

Context (fin : nat) (fs : list Field).

(** [create_x()], [add_x()] and the swap back of one inner object, which
    starts at [m_buff_ptr__]; also its length. *)
Definition add_inner (w : Walk) : faultM (list Z) (option (Walk * nat)) :=
  if (fin - w_ptr w <? get_initial_size fs)%nat then fret None
  else
    r <- init_fields (w_ptr w) fin fs ;;
    match r with
    | None => fret None
    | Some inner =>
      let len := (w_ptr inner - w_ptr w)%nat in
      match buffPtrIncrementSafe fin (Z.of_nat len) w with
      | None => fret None
      | Some w' =>
        _ <- class_swap (w_spots inner) ;;
        fret (Some (mkWalk (w_ptr w') (w_fields w') (w_spots w' ++ w_spots inner), len))
      end
    end.

(** [for (i = 0; i < n; i++)] over inner objects. *)
Fixpoint add_counted (n : nat) (w : Walk) : faultM (list Z) (option Walk) :=
  match n with
  | O => fret (Some w)
  | S n =>
    r <- add_inner w ;;
    match r with Some (w, _) => add_counted n w | None => fret None end
  end.

(** [while (len > 0)] over inner objects; an exhausted fuel is a fault. *)
Fixpoint add_rest (fuel : nat) (len : Z) (w : Walk) : faultM (list Z) (option Walk) :=
  if len <=? 0 then fret (Some w)
  else if len <? Z.of_nat (get_initial_size fs) then fret None
  else
    match fuel with
    | O => fault
    | S fuel =>
      r <- add_inner w ;;
      match r with
      | Some (w, n) => add_rest fuel (u64 (len - Z.of_nat n)) w
      | None => fret None
      end
    end.

End Init.

Fixpoint walk_field (start fin : nat) (f : Field) (w : Walk) {struct f} : faultM (list Z) (option Walk) :=
  match f with
  | Fixed name n sw =>
    fret (buffPtrIncrementSafe fin (Z.of_nat n) (set_member name (spots_at None (w_ptr w) sw) w))
  | When cs name n sw =>
    match resolve w cs with
    | None => fault
    | Some cs' =>
      present <- (λ b, (if forallb (λ c, cond_addr c <? length b)%nat cs'
                        then Some (existsb (eval_cond b) cs') else None, b)) ;;
      let w := set_member name (spots_at (Some cs') (w_ptr w) sw) w in
      fret (if (present : bool) then buffPtrIncrementSafe fin (Z.of_nat n) w else Some w)
    end
  | Array name count n sw =>
    fret (take_elements fin name (Z.of_nat (count * n)) (Z.of_nat count) n sw w)
  | Counted name l n sw =>
    len <- read_len w l ;;
    fret (take_elements fin name (Z.of_nat n * len) len n sw w)
  | CountedClass name l fs =>
    len <- read_len w l ;;
    add_counted walk_field fin fs (Z.to_nat len) (set_member name [] w)
  | OneClass name fs =>
    r <- add_inner walk_field fin fs (set_member name [] w) ;; fret (fst <$> r)
  | Rest name n sw =>
    len <- rest_length (Len16 "length") start w ;;
    fret (take_elements fin name len (len / Z.of_nat n) n sw w)
  | Rest8 name n sw =>
    len <- rest_length (Len8 "length") start w ;;
    fret (take_elements fin name len (len / Z.of_nat n) n sw w)
  | RestClass name fs =>
    len <- rest_length (Len16 "length") start w ;;
    add_rest walk_field fin fs (S (fin - w_ptr w)) len (set_member name [] w)
  | Tail name n sw =>
    let len := Z.of_nat (fin - w_ptr w) in
    fret (take_elements fin name len (len / Z.of_nat n) n sw w)
  end.

(** A class's [init()] for an object at [start] in a buffer that ends at
    [fin]: the object, or nothing when [m_init_succeeded] is false. *)
Record Object := mkObject {
  o_class : string;
  o_start : nat;
  o_ptr : nat;
  o_fields : list (string * nat);
  o_spots : list Spot;
}.

Definition init_parse (L : Layout) (start fin : nat) : faultM (list Z) (option Object) :=
  r <- init_fields walk_field start fin (l_fields L) ;;
  match r with
  | None => fret None
  | Some w =>
    let o := mkObject (l_name L) start (w_ptr w) (w_fields w) (w_spots w) in
    match l_type L with
    | None => fret (Some o)
    | Some t =>
      match find_field w "type" with
      | None => fault
      | Some off => v <- read_byte off ;; fret (if v =? t then Some o else None)
      end
    end
  end.

(** ** Well-formed layouts *)

(** The words of a field are inside of it and do not overlap. *)
Fixpoint sw_ok (lo n : nat) (sw : list (nat * nat)) : bool :=
  match sw with
  | [] => (lo <=? n)%nat
  | (o, w) :: sw => (lo <=? o)%nat && sw_ok (o + w) n sw
  end.

(** What is known of the members set before: size, and whether [class_swap]
    leaves them alone. *)
Definition Ctx : Type := list (string * (nat * bool)).
Definition ctx_find (Γ : Ctx) (name : string) : option (nat * bool) :=
  snd <$> list_find (λ x, x.1 = name) Γ ≫= λ x, Some x.2.
Definition extend (Γ : Ctx) (f : Field) : Ctx :=
  match f with
  | Fixed name n sw => (name, (n, bool_decide (sw = []))) :: Γ
  | f => (field_name f, (0%nat, false)) :: Γ
  end.

Definition len_ok (Γ : Ctx) (l : Len) : bool :=
  match ctx_find Γ (len_field l) with Some (n, _) => (len_width l <=? n)%nat | None => false end.
Definition cond_ok (Γ : Ctx) (c : Cond string) : bool :=
  match ctx_find Γ (cond_addr c) with Some (n, plain) => (1 <=? n)%nat && plain | None => false end.

Section WellFormed.
Context (field_ok : Ctx → Field → bool).
Fixpoint fields_ok (Γ : Ctx) (fs : list Field) : bool :=
  match fs with
  | [] => true
  | f :: fs => field_ok Γ f && fields_ok (extend Γ f) fs
  end.
End WellFormed.

Fixpoint field_ok (Γ : Ctx) (f : Field) : bool :=
  match f with
  | Fixed _ n sw => sw_ok 0 n sw
  | When cs _ n sw => forallb (cond_ok Γ) cs && sw_ok 0 n sw
  | Array _ _ n sw => sw_ok 0 n sw
  | Counted _ l n sw => len_ok Γ l && sw_ok 0 n sw
  | CountedClass _ l fs => len_ok Γ l && fields_ok field_ok [] fs
  | OneClass _ fs => fields_ok field_ok [] fs
  | Rest _ n sw => len_ok Γ (Len16 "length") && sw_ok 0 n sw && (1 <=? n)%nat
  | Rest8 _ n sw => len_ok Γ (Len8 "length") && sw_ok 0 n sw && (1 <=? n)%nat
  | RestClass _ fs =>
    len_ok Γ (Len16 "length") && fields_ok field_ok [] fs && (1 <=? get_initial_size fs)%nat
  | Tail _ n sw => sw_ok 0 n sw && (1 <=? n)%nat
  end.

Definition layout_ok (L : Layout) : bool := fields_ok field_ok [] (l_fields L).

(** ** Swapping words *)

Lemma length_swap_at off w b : (off + w ≤ length b)%nat → length (swap_at off w b) = length b.
Proof.
  intros. unfold swap_at. rewrite !length_app, length_reverse, !length_take, !length_drop. lia.
Qed.

(** The byte of [b] that a swapped buffer has at [i]. *)
Definition mirror (off w i : nat) : nat :=
  if decide (off ≤ i < off + w)%nat then (2 * off + w - 1 - i)%nat else i.

Lemma swap_at_lookup off w b i : (off + w ≤ length b)%nat →
  swap_at off w b !! i = b !! mirror off w i.
Proof.
  intros Hl. unfold swap_at, mirror. case_decide as Hi.
  - rewrite lookup_app_r by (rewrite length_take; lia). rewrite length_take, Nat.min_l by lia.
    assert (length (take w (drop off b)) = w) as Hw by (rewrite length_take, length_drop; lia).
    rewrite lookup_app_l by (rewrite length_reverse; lia).
    rewrite reverse_lookup by lia. rewrite Hw, lookup_take_lt, lookup_drop by lia. f_equal. lia.
  - destruct (decide (i < off)%nat).
    + rewrite lookup_app_l by (rewrite length_take; lia). by rewrite lookup_take_lt.
    + rewrite lookup_app_r by (rewrite length_take; lia). rewrite length_take, Nat.min_l by lia.
      rewrite lookup_app_r by (rewrite length_reverse, length_take, length_drop; lia).
      rewrite length_reverse, length_take, length_drop, lookup_drop. f_equal. lia.
Qed.

Lemma mirror_mirror off w i : mirror off w (mirror off w i) = i.
Proof. unfold mirror. repeat case_decide; lia. Qed.
Lemma mirror_outside off w i : ¬ (off ≤ i < off + w)%nat → mirror off w i = i.
Proof. unfold mirror. by case_decide. Qed.
Lemma mirror_comm o w o' w' i : (o + w ≤ o' ∨ o' + w' ≤ o)%nat →
  mirror o w (mirror o' w' i) = mirror o' w' (mirror o w i).
Proof. unfold mirror. intros. repeat case_decide; lia. Qed.

(** Words that [class_swap] reverses independently of each other. *)
Definition covers (s : Spot) (i : nat) : Prop := (sp_off s ≤ i < sp_off s + sp_width s)%nat.
Definition apart (s t : Spot) : Prop :=
  (sp_off s + sp_width s ≤ sp_off t ∨ sp_off t + sp_width t ≤ sp_off s)%nat.

(** The spots of a range of the buffer [b]: the active ones are inside of it
    and apart, and the bytes the conditions read are in none of them. *)
Record spots_ok (b : list Z) (lo hi : nat) (l : list Spot) : Prop := {
  so_range s : s ∈ l → active b s = true → (lo ≤ sp_off s ∧ sp_off s + sp_width s ≤ hi)%nat;
  so_apart : ForallOrdPairs apart (filter (λ s, active b s = true) l);
  so_guards s g : s ∈ l → g ∈ guards s → (lo ≤ g < hi)%nat;
  so_plain s t g : s ∈ l → g ∈ guards s → t ∈ l → active b t = true → ¬ covers t g;
}.

Lemma at_lookup_eq (b b' : list Z) i j : b !! i = b' !! j → at_ b i = at_ b' j.
Proof. intros H. unfold at_. by rewrite H. Qed.

Lemma active_agree b b' s : (∀ g, g ∈ guards s → at_ b g = at_ b' g) → active b s = active b' s.
Proof.
  unfold active, guards, eval_when. destruct (sp_when s) as [cs|]; [|done]. intros Hg.
  induction cs as [|c cs IH]; [done|]. cbn. rewrite IH; [|intros; apply Hg; cbn; by right].
  specialize (Hg (cond_addr c) ltac:(cbn; by left)). destruct c; cbn in *; by rewrite Hg.
Qed.

Fixpoint mirrors (b : list Z) (l : list Spot) (i : nat) : nat :=
  match l with
  | [] => i
  | s :: l => if active b s then mirror (sp_off s) (sp_width s) (mirrors b l i) else mirrors b l i
  end.

Lemma mirrors_agree b b' l i : (∀ s, s ∈ l → active b s = active b' s) → mirrors b l i = mirrors b' l i.
Proof.
  induction l as [|s l IH]; intros H; [done|]. cbn.
  rewrite (H s) by (by left). rewrite IH; [done|]. intros. apply H. by right.
Qed.

Lemma mirrors_outside b l i : (∀ t, t ∈ l → active b t = true → ¬ covers t i) → mirrors b l i = i.
Proof.
  induction l as [|s l IH]; intros H; [done|]. cbn. rewrite IH by (intros; apply H; [by right|done]).
  destruct (active b s) eqn:Ha; [|done]. apply mirror_outside, H; [by left|done].
Qed.

(** [class_swap] as an exchange of bytes. *)
Lemma swap_spots_spec l : ∀ b,
  (∀ s, s ∈ l → active b s = true → sp_off s + sp_width s ≤ length b)%nat →
  (∀ s t g, s ∈ l → g ∈ guards s → t ∈ l → active b t = true → ¬ covers t g) →
  length (swap_spots l b) = length b ∧ ∀ i, swap_spots l b !! i = b !! mirrors b l i.
Proof.
  induction l as [|s l IH]; intros b Hr Hp; [done|]. cbn [swap_spots foldl mirrors].
  assert (length (swap_spot b s) = length b ∧ ∀ i, swap_spot b s !! i
            = b !! (if active b s then mirror (sp_off s) (sp_width s) i else i)) as [Hl Hi].
  { unfold swap_spot. destruct (active b s) eqn:Ha; [|done].
    pose proof (Hr s ltac:(by left) Ha). split; [by apply length_swap_at|].
    intros i. by apply swap_at_lookup. }
  assert (∀ t, t ∈ l → active (swap_spot b s) t = active b t) as Hag.
  { intros t Ht. apply active_agree. intros g Hg. apply at_lookup_eq. rewrite Hi.
    destruct (active b s) eqn:Ha; [|done]. rewrite mirror_outside; [done|].
    by apply (Hp t s g); [right|..|left|]. }
  destruct (IH (swap_spot b s)) as [Hl' Hi'].
  - intros t Ht Ha. rewrite Hl. apply Hr; [by right|]. by rewrite <- Hag.
  - intros t t' g Ht Hg Ht' Ha. apply (Hp t t' g); [by right|done|by right|]. by rewrite <- Hag.
  - unfold swap_spots in *. split; [lia|]. intros i. rewrite Hi', Hi, (mirrors_agree _ b) by done.
    by destruct (active b s).
Qed.

Lemma mirrors_comm b l o w i :
  Forall (λ t, o + w ≤ sp_off t ∨ sp_off t + sp_width t ≤ o)%nat (filter (λ s, active b s = true) l) →
  mirrors b l (mirror o w i) = mirror o w (mirrors b l i).
Proof.
  induction l as [|s l IH]; [done|]. rewrite filter_cons. cbn.
  destruct (active b s) eqn:Ha; [|rewrite decide_False by done; apply IH].
  rewrite decide_True by done. intros [Hs Hl]%Forall_cons. rewrite IH by done.
  apply mirror_comm. lia.
Qed.

Lemma mirrors_involutive b l i : ForallOrdPairs apart (filter (λ s, active b s = true) l) →
  mirrors b l (mirrors b l i) = i.
Proof.
  induction l as [|s l IH] in i |- *; [done|]. rewrite filter_cons. cbn.
  destruct (active b s) eqn:Ha; [|rewrite decide_False by done; apply IH].
  rewrite decide_True by done. inversion 1; subst.
  rewrite mirrors_comm by done. rewrite IH by done. apply mirror_mirror.
Qed.

Lemma spots_ok_agree b b' lo hi l : (∀ s, s ∈ l → active b s = active b' s) →
  spots_ok b lo hi l → spots_ok b' lo hi l.
Proof.
  intros Hag [Hr Ha Hg Hp]. split.
  - intros s Hs Hs'. apply Hr; [done|]. by rewrite Hag.
  - rewrite (list_filter_iff_in _ (λ s, active b s = true)); [done|].
    intros s Hs. by rewrite Hag.
  - done.
  - intros s t g Hs Hgs Ht Hat. apply (Hp s t g); [done..|]. by rewrite Hag.
Qed.

Section SwapRange.
Context (b : list Z) (lo hi : nat) (l : list Spot).
Context (Hok : spots_ok b lo hi l) (Hhi : (hi ≤ length b)%nat).

Lemma swap_spots_lookup :
  length (swap_spots l b) = length b ∧ ∀ i, swap_spots l b !! i = b !! mirrors b l i.
Proof.
  destruct Hok as [Hr Ha Hg Hp]. apply swap_spots_spec; [|done].
  intros s Hs Hs'. destruct (Hr s Hs Hs'). lia.
Qed.

(** Bytes that no word covers, in particular those out of the range, stay. *)
Lemma swap_spots_plain i : (∀ t, t ∈ l → active b t = true → ¬ covers t i) →
  swap_spots l b !! i = b !! i.
Proof. intros H. destruct swap_spots_lookup as [_ ->]. by rewrite mirrors_outside. Qed.

Lemma swap_spots_outside i : ¬ (lo ≤ i < hi)%nat → swap_spots l b !! i = b !! i.
Proof.
  intros Hi. apply swap_spots_plain. intros t Ht Hat [??].
  destruct (so_range _ _ _ _ Hok t Ht Hat). lia.
Qed.

Lemma swap_spots_active s : s ∈ l → active (swap_spots l b) s = active b s.
Proof.
  intros Hs. apply active_agree. intros g Hg. apply at_lookup_eq, swap_spots_plain.
  intros t Ht Hat. by apply (so_plain _ _ _ _ Hok s t g).
Qed.

Lemma swap_spots_ok : spots_ok (swap_spots l b) lo hi l.
Proof. eapply spots_ok_agree; [|done]. intros. by rewrite swap_spots_active. Qed.

(** Swapping twice restores the buffer. *)
Lemma swap_spots_involutive : swap_spots l (swap_spots l b) = b.
Proof.
  destruct swap_spots_lookup as [Hl Hi].
  destruct (swap_spots_spec l (swap_spots l b)) as [Hl' Hi'].
  - intros s Hs Hat. rewrite Hl. destruct (so_range _ _ _ _ swap_spots_ok s Hs Hat). lia.
  - intros s t g. apply (so_plain _ _ _ _ swap_spots_ok).
  - apply list_eq. intros i. rewrite Hi', Hi. f_equal.
    rewrite (mirrors_agree (swap_spots l b) b) by (intros; by apply swap_spots_active).
    apply mirrors_involutive, (so_apart _ _ _ _ Hok).
Qed.

Lemma class_swap_run : class_swap l b = (Some tt, swap_spots l b).
Proof.
  unfold class_swap. replace (forallb _ _) with true; [done|]. symmetry.
  apply forallb_forall. intros s Hs%list_elem_of_In. unfold spot_in_buffer.
  apply andb_true_iff. split.
  - apply forallb_forall. intros g Hg%list_elem_of_In. apply Nat.ltb_lt.
    pose proof (so_guards _ _ _ _ Hok s g Hs Hg). lia.
  - destruct (active b s) eqn:Ha; [|done]. cbn. apply Nat.leb_le.
    destruct (so_range _ _ _ _ Hok s Hs Ha). lia.
Qed.

End SwapRange.

Lemma class_swap_back b lo hi l : spots_ok b lo hi l → (hi ≤ length b)%nat →
  class_swap l (swap_spots l b) = (Some tt, b).
Proof.
  intros Hok Hhi. rewrite (class_swap_run _ lo hi).
  - by rewrite (swap_spots_involutive b lo hi).
  - by apply swap_spots_ok.
  - by rewrite (proj1 (swap_spots_lookup b lo hi l Hok Hhi)).
Qed.

(** ** Spots of consecutive ranges *)

Lemma spots_ok_nil b lo hi : spots_ok b lo hi [].
Proof. split; [by intros ? ?%elem_of_nil|apply FOP_nil| |]; intros ?? ; [by intros ?%elem_of_nil|by intros ? ?%elem_of_nil]. Qed.

Lemma spots_ok_weaken b lo hi hi' l : (hi ≤ hi')%nat → spots_ok b lo hi l → spots_ok b lo hi' l.
Proof.
  intros Hle [Hr Ha Hg Hp]. split; [|done| |done].
  - intros s Hs Hat. destruct (Hr s Hs Hat). lia.
  - intros s g Hs Hgs. pose proof (Hg s g Hs Hgs). lia.
Qed.

Lemma ForallOrdPairs_app {A} (R : A → A → Prop) l1 l2 :
  ForallOrdPairs R l1 → ForallOrdPairs R l2 → (∀ x y, x ∈ l1 → y ∈ l2 → R x y) →
  ForallOrdPairs R (l1 ++ l2).
Proof.
  induction l1 as [|x l1 IH]; intros H1 H2 H; [done|]. inversion H1; subst. cbn. constructor.
  - apply Forall_app_2; [done|]. apply Forall_forall. intros y Hy.
    apply H; [by left|done].
  - apply IH; [done..|]. intros. apply H; [by right|done].
Qed.

(** Spots behind a range, whose conditions read bytes that no spot covers. *)
Lemma spots_ok_extend b lo mid hi l new : (lo ≤ mid ≤ hi)%nat → spots_ok b lo mid l →
  (∀ s, s ∈ new → active b s = true → mid ≤ sp_off s ∧ sp_off s + sp_width s ≤ hi)%nat →
  ForallOrdPairs apart (filter (λ s, active b s = true) new) →
  (∀ s g, s ∈ new → g ∈ guards s → (lo ≤ g < hi)%nat ∧
     ∀ t, t ∈ l ++ new → active b t = true → ¬ covers t g) →
  spots_ok b lo hi (l ++ new).
Proof.
  intros Hle [Hr Ha Hg Hp] Hnr Hna Hng. split.
  - intros s [Hs|Hs]%elem_of_app Hat; [destruct (Hr s Hs Hat)|destruct (Hnr s Hs Hat)]; lia.
  - rewrite filter_app. apply ForallOrdPairs_app; [done..|].
    intros s t [Hs1 Hs2]%list_elem_of_filter [Ht1 Ht2]%list_elem_of_filter. left.
    destruct (Hr s Hs2 Hs1), (Hnr t Ht2 Ht1). lia.
  - intros s g [Hs|Hs]%elem_of_app Hgs; [|by apply (Hng s g)]. pose proof (Hg s g Hs Hgs). lia.
  - intros s t g [Hs|Hs]%elem_of_app Hgs Ht Hat; [|by apply (Hng s g)].
    apply elem_of_app in Ht as [Ht|Ht]; [by apply (Hp s t g)|].
    intros [??]. destruct (Hnr t Ht Hat). pose proof (Hg s g Hs Hgs). lia.
Qed.

Lemma spots_ok_app b lo mid hi l new : (lo ≤ mid ≤ hi)%nat →
  spots_ok b lo mid l → spots_ok b mid hi new → spots_ok b lo hi (l ++ new).
Proof.
  intros Hle Hl [Hr Ha Hg Hp]. apply (spots_ok_extend b lo mid); [done..|].
  intros s g Hs Hgs. pose proof (Hg s g Hs Hgs). split; [lia|].
  intros t [Ht|Ht]%elem_of_app Hat; [|by apply (Hp s t g)].
  intros [??]. destruct (so_range _ _ _ _ Hl t Ht Hat). lia.
Qed.

Lemma sw_ok_le lo n sw : sw_ok lo n sw = true → (lo ≤ n)%nat.
Proof.
  induction sw as [|[o w] sw IH] in lo |- *; cbn; intros H; [by apply Nat.leb_le|].
  apply andb_true_iff in H as [H1%Nat.leb_le H2%IH]. lia.
Qed.

(** The words of one field. *)
Lemma spots_at_range w off lo n sw s : sw_ok lo n sw = true → s ∈ spots_at w off sw →
  (off + lo ≤ sp_off s ∧ sp_off s + sp_width s ≤ off + n)%nat ∧ sp_when s = w.
Proof.
  induction sw as [|[o k] sw IH] in lo |- *; intros Hok; [by intros ?%elem_of_nil|].
  cbn in Hok. apply andb_true_iff in Hok as [Hlo%Nat.leb_le Hsw].
  cbn. intros [->|Hs]%elem_of_cons; cbn.
  - pose proof (sw_ok_le _ _ _ Hsw). split; [lia|done].
  - destruct (IH _ Hsw Hs). split; [lia|done].
Qed.

Lemma spots_at_apart b w off lo n sw : sw_ok lo n sw = true →
  ForallOrdPairs apart (filter (λ s, active b s = true) (spots_at w off sw)).
Proof.
  induction sw as [|[o k] sw IH] in lo |- *; intros Hok; [apply FOP_nil|].
  cbn in Hok. apply andb_true_iff in Hok as [Hlo%Nat.leb_le Hsw].
  cbn [spots_at fmap list_fmap]. rewrite filter_cons. case_decide; [|by eapply IH]. constructor; [|by eapply IH].
  apply Forall_forall. intros s [_ Hs]%list_elem_of_filter. left. cbn.
  destruct (spots_at_range w off _ _ _ _ Hsw Hs). lia.
Qed.

Lemma spots_at_ok b off n sw : sw_ok 0 n sw = true → spots_ok b off (off + n) (spots_at None off sw).
Proof.
  intros Hok. assert (∀ s g, s ∈ spots_at None off sw → g ∈ guards s → False) as Hno.
  { intros s g Hs. destruct (spots_at_range _ _ _ _ _ _ Hok Hs) as [_ Hw].
    unfold guards. rewrite Hw. by intros ?%elem_of_nil. }
  split.
  - intros s Hs _. destruct (spots_at_range _ _ _ _ _ _ Hok Hs). lia.
  - by eapply spots_at_apart.
  - intros s g Hs Hg. by destruct (Hno s g).
  - intros s t g Hs Hg. by destruct (Hno s g).
Qed.

(** The words of the elements of a list. *)
Lemma element_spots_ok b off n count sw : sw_ok 0 n sw = true →
  spots_ok b off (off + count * n) (element_spots off n count sw).
Proof.
  intros Hok. induction count as [|c IH]; [apply spots_ok_nil|].
  unfold element_spots. rewrite seq_S, fmap_app, concat_app. cbn [fmap list_fmap concat].
  rewrite app_nil_r. apply (spots_ok_app b off (off + c * n)); [lia|exact IH|].
  rewrite Nat.add_0_l. eapply spots_ok_weaken; [|by apply spots_at_ok]. lia.
Qed.

Lemma element_spots_plain off n count : element_spots off n count [] = [].
Proof. unfold element_spots. by induction (seq 0 count). Qed.

(** The order of the words does not matter. *)
Lemma ForallOrdPairs_perm {A} (R : A → A → Prop) l1 l2 : (∀ x y, R x y → R y x) → l1 ≡ₚ l2 →
  ForallOrdPairs R l1 → ForallOrdPairs R l2.
Proof.
  intros Hsym. induction 1 as [|x l1 l2 Hp IH|x y l|l1 l2 l3 _ IH1 _ IH2]; intros H; [done| | |by apply IH2, IH1].
  - inversion H; subst. constructor; [by rewrite <- Hp|by apply IH].
  - inversion H as [|? ? Hx Hl]; subst. inversion Hl; subst. apply Forall_cons in Hx as [Hxy Hx].
    constructor; [constructor; [by apply Hsym|done]|by constructor].
Qed.

Lemma spots_ok_perm b lo hi l1 l2 : l1 ≡ₚ l2 → spots_ok b lo hi l1 → spots_ok b lo hi l2.
Proof.
  intros Hp [Hr Ha Hg Hpl]. split.
  - intros s Hs. apply Hr. by rewrite Hp.
  - eapply ForallOrdPairs_perm; [|by rewrite <- Hp|exact Ha]. unfold apart. lia.
  - intros s g Hs. apply Hg. by rewrite Hp.
  - intros s t g Hs Hgs Ht. apply (Hpl s t g); [by rewrite Hp|done|by rewrite Hp].
Qed.

Lemma mirrors_perm b l1 l2 : l1 ≡ₚ l2 → ForallOrdPairs apart (filter (λ s, active b s = true) l1) →
  ∀ i, mirrors b l1 i = mirrors b l2 i.
Proof.
  induction 1 as [|x l1 l2 Hp IH|x y l|l1 l2 l3 Hp IH1 _ IH2]; intros H i; [done| | |].
  - rewrite filter_cons in H. cbn. destruct (active b x).
    + rewrite decide_True in H by done. inversion H; subst. by rewrite IH.
    + rewrite decide_False in H by done. by rewrite IH.
  - rewrite !filter_cons in H. cbn. destruct (active b x) eqn:Hx, (active b y) eqn:Hy; try done.
    rewrite !decide_True in H by done. inversion H as [|? ? Hxy]; subst. apply Forall_cons in Hxy as [Hxy _].
    unfold apart in Hxy. apply mirror_comm. lia.
  - rewrite IH1 by done. apply IH2. eapply ForallOrdPairs_perm; [|by rewrite <- Hp|exact H]. unfold apart. lia.
Qed.

Lemma swap_spots_perm b lo hi l1 l2 : l1 ≡ₚ l2 → spots_ok b lo hi l1 → (hi ≤ length b)%nat →
  swap_spots l1 b = swap_spots l2 b.
Proof.
  intros Hp Hok Hhi. apply list_eq. intros i.
  rewrite (proj2 (swap_spots_lookup b lo hi l1 Hok Hhi)), (mirrors_perm b l1 l2 Hp) by apply Hok.
  by rewrite (proj2 (swap_spots_lookup b lo hi l2 (spots_ok_perm _ _ _ _ _ Hp Hok) Hhi)).
Qed.

(** ** The invariant of [init()] *)

Record walk_ok (b : list Z) (start fin : nat) (Γ : Ctx) (w : Walk) : Prop := {
  wo_ptr : (start ≤ w_ptr w ≤ fin)%nat;
  wo_fields name n plain : ctx_find Γ name = Some (n, plain) → ∃ off,
    find_field w name = Some off ∧ (start ≤ off ∧ off + n ≤ w_ptr w)%nat ∧
    (plain = true → ∀ t i, t ∈ w_spots w → active b t = true → (off ≤ i < off + n)%nat → ¬ covers t i);
  wo_spots : spots_ok b start (w_ptr w) (w_spots w);
}.

Lemma find_field_cons ptr name name' off fields spots :
  find_field (mkWalk ptr ((name, off) :: fields) spots) name'
  = if decide (name = name') then Some off else find_field (mkWalk ptr fields spots) name'.
Proof.
  unfold find_field. cbn [w_fields list_find fst]. case_decide; [done|]. by destruct (list_find _ fields) as [[??]|].
Qed.
Lemma ctx_find_cons name x Γ name' :
  ctx_find ((name, x) :: Γ) name' = if decide (name = name') then Some x else ctx_find Γ name'.
Proof.
  unfold ctx_find. cbn [list_find fst]. case_decide; [done|]. by destruct (list_find _ Γ) as [[??]|].
Qed.

(** A step of [init()]: a member [name] at [m_buff_ptr__] with the words
    [new], and [m_buff_ptr__] moved to [ptr]. *)
Lemma walk_ok_step b start fin Γ w name n plain ptr new :
  walk_ok b start fin Γ w → (w_ptr w + n ≤ ptr ≤ fin)%nat → (plain = true → new = []) →
  spots_ok b start ptr (w_spots w ++ new) →
  (∀ t, t ∈ new → active b t = true → w_ptr w ≤ sp_off t)%nat →
  walk_ok b start fin ((name, (n, plain)) :: Γ)
    (mkWalk ptr ((name, w_ptr w) :: w_fields w) (w_spots w ++ new)).
Proof.
  intros [Hptr Hf Hs] Hle Hplain Hok Hnew. split; cbn [w_ptr w_spots]; [lia| |done].
  intros name' n' plain'. rewrite ctx_find_cons, find_field_cons. case_decide as Heq.
  - intros [= -> ->]. exists (w_ptr w). split_and!; [done|lia|lia|].
    intros Hp t i. rewrite (Hplain Hp), app_nil_r. intros Ht Hat Hi [??].
    destruct (so_range _ _ _ _ Hs t Ht Hat). lia.
  - intros (off & Hoff & Hr & Hc)%Hf. exists off. split_and!; [done|lia|lia|].
    intros Hp t i [Ht|Ht]%elem_of_app Hat Hi; [by apply Hc|].
    pose proof (Hnew t Ht Hat). intros [??]. lia.
Qed.

(** Inner objects add words but no members. *)
Lemma walk_ok_inner b start fin Γ w ptr new :
  walk_ok b start fin Γ w → (w_ptr w ≤ ptr ≤ fin)%nat → spots_ok b (w_ptr w) ptr new →
  walk_ok b start fin Γ (mkWalk ptr (w_fields w) (w_spots w ++ new)).
Proof.
  intros [Hptr Hf Hs] Hle Hok. split; cbn [w_ptr w_spots]; [lia| |].
  - intros name n plain (off & Hoff & Hr & Hc)%Hf. exists off. split_and!; [done|lia|lia|].
    intros Hp t i [Ht|Ht]%elem_of_app Hat Hi; [by apply Hc|].
    destruct (so_range _ _ _ _ Hok t Ht Hat). intros [??]. lia.
  - apply (spots_ok_app b start (w_ptr w)); [lia|done..].
Qed.

(** ** Runs of [init()] *)

(** A run without fault, with a property of its result and buffer. *)
Definition post {S A} (r : option A * S) (P : A → S → Prop) : Prop :=
  match r with (Some x, b) => P x b | (None, _) => False end.

(** A result of [init()] or one of its steps: a failure keeps only the length
    of the buffer, a success satisfies [P]. *)
Definition result {A} (b : list Z) (P : A → list Z → Prop) (r : option A) (b' : list Z) : Prop :=
  match r with Some x => P x b' | None => length b' = length b end.

Lemma post_bind {S A C} (m : faultM S A) (f : A → faultM S C) b P Q :
  post (m b) P → (∀ x b', P x b' → post (f x b') Q) → post (fbind m f b) Q.
Proof. rewrite fbind_run. destruct (m b) as [[x|] b']; cbn; [|done]. intros HP HQ. by apply HQ. Qed.

Lemma post_mono {S A} (r : option A * S) (P Q : A → S → Prop) :
  post r P → (∀ x b', P x b' → Q x b') → post r Q.
Proof. destruct r as [[x|] b']; cbn; [|done]. intros HP HQ. by apply HQ. Qed.

Lemma post_ret {S A} (x : A) (b : S) (P : A → S → Prop) : P x b → post (fret x b) P.
Proof. done. Qed.

(** After a step that may fail. *)
Lemma post_bind_result {A C} (m : faultM (list Z) (option A)) (f : option A → faultM (list Z) (option C)) b P Q :
  (∀ b', f None b' = (Some None, b')) → post (m b) (result b P) →
  (∀ x b', P x b' → post (f (Some x) b') (result b Q)) → post (fbind m f b) (result b Q).
Proof.
  intros Hn Hm Hf. eapply post_bind; [done|]. intros [x|] b' Hr; [by apply Hf|]. by rewrite Hn.
Qed.

Section Runs.
Context (b : list Z) (fin : nat) (Hfin : (fin ≤ length b)%nat) (Hb : bytes_ok b).

Lemma read_byte_post off : (off < length b)%nat → post (read_byte off b) (λ x b', b' = b ∧ byte_ok x).
Proof.
  intros Hoff. unfold read_byte. destruct (lookup_lt_is_Some_2 b off Hoff) as [x Hx]. rewrite Hx.
  cbn. split; [done|]. eapply Forall_lookup_1; [exact Hb|done].
Qed.

Lemma read_len_post Γ start w l : walk_ok b start fin Γ w → len_ok Γ l = true →
  post (read_len w l b) (λ x b', b' = b ∧ 0 ≤ x < 2 ^ 32).
Proof.
  intros Hw. unfold len_ok, read_len. destruct (ctx_find Γ _) as [[n p]|] eqn:Hf; [|done].
  destruct (wo_fields _ _ _ _ _ Hw _ _ _ Hf) as (off & -> & Hr & _).
  intros Hn%Nat.leb_le. pose proof (wo_ptr _ _ _ _ _ Hw). destruct l; cbn in Hn.
  - eapply post_mono; [apply read_byte_post; lia|]. intros x ? [-> [??]]. split; [done|lia].
  - eapply post_bind; [apply read_byte_post; lia|]. intros hi ? [-> Hhi].
    eapply post_bind; [apply read_byte_post; lia|]. intros lo ? [-> Hlo].
    apply post_ret. split; [done|]. pose proof (be16_range hi lo Hhi Hlo). lia.
  - do 4 (eapply post_bind; [apply read_byte_post; lia|]; intros ? ? [-> ?]). apply post_ret. split; [done|]. by apply be32_range.
Qed.

Lemma rest_length_post Γ l start w : walk_ok b start fin Γ w → len_ok Γ l = true →
  post (rest_length l start w b) (λ x b', b' = b ∧ 0 ≤ x < 2 ^ 64).
Proof.
  intros Hw Hl. eapply post_bind; [by eapply read_len_post|]. intros x ? [-> _].
  apply post_ret. split; [done|]. apply Z.mod_pos_bound. lia.
Qed.

(** What a step of [init()] promises. *)
Definition step_post (start : nat) (Γ : Ctx) (w : Walk) (n : nat) (w' : Walk) (b' : list Z) : Prop :=
  b' = b ∧ walk_ok b start fin Γ w' ∧ (w_ptr w + n ≤ w_ptr w')%nat.

Lemma take_elements_post start Γ w name total count n sw m : walk_ok b start fin Γ w →
  sw_ok 0 n sw = true → 0 ≤ count → count * Z.of_nat n ≤ total → (m ≤ Z.to_nat total)%nat →
  result b (step_post start ((name, (0%nat, false)) :: Γ) w m)
    (take_elements fin name total count n sw w) b.
Proof.
  intros Hw Hsw Hc Ht Hm. unfold take_elements. case_match eqn:Hlt; [done|]. bool_to_prop.
  pose proof (wo_ptr _ _ _ _ _ Hw). split_and!; [done| |cbn; lia].
  assert (spots_ok b (w_ptr w) (w_ptr w + Z.to_nat total) (element_spots (w_ptr w) n (Z.to_nat count) sw)) as Hok.
  { eapply spots_ok_weaken; [|by apply element_spots_ok]. nia. }
  apply walk_ok_step; [done|lia|done| |].
  - apply (spots_ok_app b start (w_ptr w)); [lia|apply Hw|done].
  - intros t Htt Hat. by destruct (so_range _ _ _ _ Hok t Htt Hat).
Qed.

Lemma fixed_post start Γ w name n sw : walk_ok b start fin Γ w → sw_ok 0 n sw = true →
  result b (step_post start ((name, (n, bool_decide (sw = []))) :: Γ) w n)
    (buffPtrIncrementSafe fin (Z.of_nat n) (set_member name (spots_at None (w_ptr w) sw) w)) b.
Proof.
  intros Hw Hsw. unfold buffPtrIncrementSafe. cbn [w_ptr set_member w_fields w_spots].
  case_match eqn:Hlt; [done|]. bool_to_prop.
  pose proof (wo_ptr _ _ _ _ _ Hw). rewrite Nat2Z.id. split_and!; [done| |cbn; lia].
  pose proof (spots_at_ok b (w_ptr w) n sw Hsw) as Hok.
  apply walk_ok_step; [done|lia| | |].
  - intros ->%bool_decide_eq_true. done.
  - apply (spots_ok_app b start (w_ptr w)); [lia|apply Hw|done].
  - intros t Htt Hat. by destruct (so_range _ _ _ _ Hok t Htt Hat).
Qed.

Lemma set_member_ok start Γ w name : walk_ok b start fin Γ w →
  walk_ok b start fin ((name, (0%nat, false)) :: Γ) (set_member name [] w).
Proof.
  intros Hw. pose proof (wo_ptr _ _ _ _ _ Hw). unfold set_member.
  apply walk_ok_step; [done|lia|done| |by intros ? ?%elem_of_nil].
  rewrite app_nil_r. apply Hw.
Qed.

(** Conditions are resolved to bytes that [class_swap] leaves alone. *)
Lemma resolve_ok start Γ w cs : walk_ok b start fin Γ w → forallb (cond_ok Γ) cs = true →
  ∃ cs', resolve w cs = Some cs' ∧ ∀ c, c ∈ cs' → (start ≤ cond_addr c < w_ptr w)%nat ∧
    ∀ t, t ∈ w_spots w → active b t = true → ¬ covers t (cond_addr c).
Proof.
  intros Hw. induction cs as [|c cs IH]; cbn; intros Hok.
  { exists []. split; [done|]. by intros c ?%elem_of_nil. }
  apply andb_true_iff in Hok as [Hc Hcs]. destruct (IH Hcs) as (cs' & -> & Hcs').
  unfold cond_ok in Hc. destruct (ctx_find Γ _) as [[n p]|] eqn:Hf; [|done].
  apply andb_true_iff in Hc as [Hn%Nat.leb_le Hp].
  destruct (wo_fields _ _ _ _ _ Hw _ _ _ Hf) as (off & -> & Hr & Hcov). cbn.
  eexists. split; [done|]. intros c' [->|Hc']%elem_of_cons; [|by apply Hcs'].
  assert (cond_addr (match c with IsValue _ v => IsValue off v | IsSet _ i k => IsSet off i k end) = off)
    as -> by (by destruct c).
  split; [lia|]. intros t Ht Hat. apply (Hcov Hp t off Ht Hat). lia.
Qed.

Lemma when_post start Γ w cs name n sw : walk_ok b start fin Γ w →
  forallb (cond_ok Γ) cs = true → sw_ok 0 n sw = true →
  post (walk_field start fin (When cs name n sw) w b)
    (result b (step_post start ((name, (0%nat, false)) :: Γ) w 0)).
Proof.
  intros Hw Hcs Hsw. cbn [walk_field]. destruct (resolve_ok start Γ w cs Hw Hcs) as (cs' & -> & Hcs').
  pose proof (wo_ptr _ _ _ _ _ Hw). set (spots := spots_at (Some cs') (w_ptr w) sw).
  eapply post_bind with (P := λ r b', b' = b ∧ r = existsb (eval_cond b) cs').
  { replace (forallb _ cs') with true; [done|]. symmetry. apply forallb_forall.
    intros c Hc%list_elem_of_In. destruct (Hcs' c Hc). apply Nat.ltb_lt. lia. }
  intros ? ? [-> ->]. apply post_ret.
  assert (∀ s, s ∈ spots → active b s = existsb (eval_cond b) cs' ∧ guards s = cond_addr <$> cs'
            ∧ (w_ptr w ≤ sp_off s ∧ sp_off s + sp_width s ≤ w_ptr w + n)%nat) as Hspots.
  { intros s Hs. destruct (spots_at_range _ _ _ _ _ _ Hsw Hs) as [? Hwhen].
    unfold active, guards. rewrite Hwhen. split_and!; [done..|lia|lia]. }
  assert (∀ hi, (w_ptr w ≤ hi)%nat → (existsb (eval_cond b) cs' = true → w_ptr w + n ≤ hi)%nat →
            spots_ok b start hi (w_spots w ++ spots)) as Hok.
  { intros hi Hhi Hn. apply (spots_ok_extend b start (w_ptr w)); [lia|apply Hw| | |].
    - intros s Hs Hat. destruct (Hspots s Hs) as (Ha & _ & ?). rewrite Hat in Ha.
      specialize (Hn (eq_sym Ha)). lia.
    - by eapply spots_at_apart.
    - intros s g Hs. destruct (Hspots s Hs) as (_ & -> & _).
      intros (c & -> & Hc)%list_elem_of_fmap. destruct (Hcs' c Hc) as [Hr Hcov].
      split; [lia|]. intros t [Ht|Ht]%elem_of_app Hat; [by apply Hcov|].
      intros [??]. destruct (Hspots t Ht) as (_ & _ & ?). lia. }
  destruct (existsb (eval_cond b) cs') eqn:Hp.
  - unfold buffPtrIncrementSafe. cbn [w_ptr set_member w_fields w_spots].
    case_match eqn:Hlt; [done|]. bool_to_prop. rewrite Nat2Z.id. split_and!; [done| |cbn; lia].
    apply walk_ok_step; [done|lia|done|apply Hok; lia|]. intros t Ht _. by destruct (Hspots t Ht) as (_ & _ & ? & _).
  - split_and!; [done| |cbn; lia].
    apply walk_ok_step; [done|lia|done|by apply Hok|]. intros t Ht _. by destruct (Hspots t Ht) as (_ & _ & ? & _).
Qed.

End Runs.

(** Induction over fields with the fields of their inner classes. *)
Lemma Field_nested_ind (P : Field → Prop) :
  (∀ name n sw, P (Fixed name n sw)) → (∀ cs name n sw, P (When cs name n sw)) →
  (∀ name c n sw, P (Array name c n sw)) → (∀ name l n sw, P (Counted name l n sw)) →
  (∀ name l fs, Forall P fs → P (CountedClass name l fs)) →
  (∀ name fs, Forall P fs → P (OneClass name fs)) → (∀ name n sw, P (Rest name n sw)) →
  (∀ name n sw, P (Rest8 name n sw)) →
  (∀ name fs, Forall P fs → P (RestClass name fs)) → (∀ name n sw, P (Tail name n sw)) → ∀ f, P f.
Proof.
  intros H1 H2 H3 H4 H5 H6 H7 H7' H8 H9. fix IH 1.
  intros [| | | |name l fs|name fs| | |name fs|];
    [apply H1|apply H2|apply H3|apply H4| | |apply H7|apply H7'| |apply H9].
  - apply H5. induction fs; constructor; [apply IH|done].
  - apply H6. induction fs; constructor; [apply IH|done].
  - apply H8. induction fs; constructor; [apply IH|done].
Qed.

Definition field_post (f : Field) : Prop := ∀ b fin start Γ w, (fin ≤ length b)%nat → bytes_ok b →
  field_ok Γ f = true → walk_ok b start fin Γ w →
  post (walk_field start fin f w b) (result b (step_post b fin start (extend Γ f) w (initial_size f))).

Section Inner.
Context (fs : list Field) (Hfs : Forall field_post fs).

Lemma walk_fields_post b fin start Γ w : (fin ≤ length b)%nat → bytes_ok b →
  fields_ok field_ok Γ fs = true → walk_ok b start fin Γ w →
  post (walk_fields walk_field start fin fs w b)
    (result b (step_post b fin start (foldl extend Γ fs) w (get_initial_size fs))).
Proof.
  intros Hfin Hb. revert Γ w. induction Hfs as [|f fs' Hf Hfs' IH]; intros Γ w Hok Hw.
  { apply post_ret. hnf. split_and!; [done..|]. cbn. lia. }
  cbn in Hok. apply andb_true_iff in Hok as [Hok1 Hok2]. cbn [walk_fields].
  eapply post_bind_result; [done|by eapply Hf|]. intros w' ? (-> & Hw' & Hle).
  eapply post_mono; [by apply (IH Hfs' (extend Γ f))|]. intros [w2|] b2; [|done]. intros (-> & Hw2 & Hle2).
  split_and!; [done..|]. unfold get_initial_size in *. cbn. lia.
Qed.

Lemma init_fields_post b fin start : (start ≤ fin ≤ length b)%nat → bytes_ok b →
  fields_ok field_ok [] fs = true →
  post (init_fields walk_field start fin fs b) (result b (λ w b',
    b' = swap_spots (w_spots w) b ∧ walk_ok b start fin (foldl extend [] fs) w ∧
    (start + get_initial_size fs ≤ w_ptr w)%nat)).
Proof.
  intros Hfin Hb Hok. unfold init_fields. destruct (_ <? _)%nat; [done|].
  eapply post_bind_result; [done| |].
  - apply walk_fields_post with (Γ := []); [lia|done..|].
    split; cbn; [lia|by intros ???|apply spots_ok_nil].
  - intros w ? (-> & Hw & Hle). pose proof (wo_ptr _ _ _ _ _ Hw).
    rewrite fbind_run, (class_swap_run b start (w_ptr w)); [|apply Hw|lia]. cbn. by split.
Qed.

Lemma add_inner_post b fin start Γ w : (fin ≤ length b)%nat → bytes_ok b →
  fields_ok field_ok [] fs = true → walk_ok b start fin Γ w →
  post (add_inner walk_field fin fs w b) (result b (λ '(w', n) b',
    b' = b ∧ walk_ok b start fin Γ w' ∧ w_ptr w' = (w_ptr w + n)%nat ∧ (get_initial_size fs ≤ n)%nat)).
Proof.
  intros Hfin Hb Hok Hw. unfold add_inner. destruct (_ <? _)%nat; [done|].
  pose proof (wo_ptr _ _ _ _ _ Hw) as Hptr.
  eapply post_bind_result; [done|apply init_fields_post; [lia|done..]|].
  intros inner ? (-> & Hi & Hle). pose proof (wo_ptr _ _ _ _ _ Hi).
  assert (length (swap_spots (w_spots inner) b) = length b) as Hlen.
  { by apply (swap_spots_lookup b (w_ptr w) (w_ptr inner)); [apply Hi|lia]. }
  unfold buffPtrIncrementSafe. destruct (_ <? _) eqn:Hlt; [exact Hlen|]. bool_to_prop.
  rewrite fbind_run, (class_swap_back b (w_ptr w) (w_ptr inner)); [|apply Hi|lia].
  cbn. rewrite Nat2Z.id. split_and!; [done| |done|lia].
  apply walk_ok_inner; [done|lia|]. replace (w_ptr w + _)%nat with (w_ptr inner) by lia. apply Hi.
Qed.

Lemma add_counted_post b fin start Γ n w : (fin ≤ length b)%nat → bytes_ok b →
  fields_ok field_ok [] fs = true → walk_ok b start fin Γ w →
  post (add_counted walk_field fin fs n w b) (result b (step_post b fin start Γ w 0)).
Proof.
  intros Hfin Hb Hok. revert w. induction n as [|n IH]; intros w Hw;
    [apply post_ret; hnf; split_and!; [done..|lia]|].
  cbn [add_counted]. eapply post_bind_result; [done|by eapply add_inner_post|].
  intros [w' k] ? (-> & Hw' & Hp & _). eapply post_mono; [by apply IH|].
  intros [w2|] b2; [|done]. intros (-> & ? & ?). split_and!; [done..|lia].
Qed.

(** The fuel of the loop is enough: every inner object takes bytes. *)
Lemma add_rest_post b fin start Γ fuel len w : (fin ≤ length b)%nat → bytes_ok b →
  fields_ok field_ok [] fs = true → (1 ≤ get_initial_size fs)%nat → walk_ok b start fin Γ w →
  (fin - w_ptr w < fuel)%nat →
  post (add_rest walk_field fin fs fuel len w b) (result b (step_post b fin start Γ w 0)).
Proof.
  intros Hfin Hb Hok Hsz. revert len w. induction fuel as [|fuel IH]; intros len w Hw Hfuel; [lia|].
  cbn [add_rest]. destruct (_ <=? _); [apply post_ret; hnf; split_and!; [done..|lia]|]. destruct (_ <? _); [done|].
  eapply post_bind_result; [done|by eapply add_inner_post|].
  intros [w' k] ? (-> & Hw' & Hp & Hk). pose proof (wo_ptr _ _ _ _ _ Hw').
  eapply post_mono; [apply IH; [done|lia]|].
  intros [w2|] b2; [|done]. intros (-> & ? & ?). split_and!; [done..|lia].
Qed.

End Inner.

(** The elements of a list that takes what is left. *)
Lemma rest_elements_post b fin start Γ w name n sw len : (fin ≤ length b)%nat → walk_ok b start fin Γ w → sw_ok 0 n sw = true →
  (1 <=? n)%nat = true → 0 ≤ len →
  post (fret (take_elements fin name len (len / Z.of_nat n) n sw w) b)
    (result b (step_post b fin start ((name, (0%nat, false)) :: Γ) w 0)).
Proof.
  intros Hfin Hw Hsw Hn%Nat.leb_le Hlen.
  apply post_ret, take_elements_post; [done|done|done|by apply Z.div_pos; lia| |lia].
  rewrite Z.mul_comm. apply Z.mul_div_le. lia.
Qed.

Lemma walk_field_post f : field_post f.
Proof.
  induction f as [name n sw|cs name n sw|name c n sw|name l n sw|name l fs IH|name fs IH|name n sw|name n sw|name fs IH|name n sw]
    using Field_nested_ind; intros b fin start Γ w Hfin Hb Hok Hw; cbn [field_ok] in Hok; bool_to_prop.
  - by apply fixed_post.
  - by apply when_post.
  - apply post_ret, take_elements_post; [done|done|done|cbn [initial_size]; lia..].
  - cbn [walk_field]. eapply post_bind; [by eapply read_len_post|]. intros len ? [-> Hlen].
    apply post_ret, take_elements_post; [done|done|done|cbn [initial_size]; lia..].
  - cbn [walk_field]. eapply post_bind; [by eapply read_len_post|]. intros len ? [-> Hlen].
    exact (add_counted_post fs IH b fin start _ _ _ Hfin Hb H0 (set_member_ok b fin Hfin start Γ w name Hw)).
  - cbn [walk_field]. eapply post_bind_result; [done| |].
    + eapply add_inner_post; [done..|]. by apply set_member_ok.
    + intros [w' n] ? (-> & ? & Hp & _). cbn in *. split_and!; [done..|lia].
  - cbn [walk_field]. eapply post_bind; [by eapply rest_length_post|]. intros len ? [-> Hlen].
    apply rest_elements_post; [done..|lia].
  - cbn [walk_field]. eapply post_bind; [by eapply rest_length_post|]. intros len ? [-> Hlen].
    apply rest_elements_post; [done..|lia].
  - cbn [walk_field]. eapply post_bind; [by eapply rest_length_post|]. intros len ? [-> Hlen].
    match goal with H : (1 <=? _)%nat = true |- _ => apply Nat.leb_le in H as Hsz end.
    match goal with H : fields_ok _ _ _ = true |- _ => rename H into Hfs end.
    assert (fin - w_ptr w < S (fin - w_ptr w))%nat as Hfuel by lia.
    exact (add_rest_post fs IH b fin start _ _ _ _ Hfin Hb Hfs Hsz (set_member_ok b fin Hfin start Γ w name Hw) Hfuel).
  - cbn [walk_field]. apply rest_elements_post; [done..|lia].
Qed.

(** ** Members *)

Section Members.
Context (wf : nat → nat → Field → Walk → faultM (list Z) (option Walk)) (fin : nat) (fs : list Field).

Lemma add_inner_members w b w' n b' :
  add_inner wf fin fs w b = (Some (Some (w', n)), b') → w_fields w' = w_fields w.
Proof.
  unfold add_inner. destruct (_ <? _)%nat; [done|].
  intros (r & b1 & _ & Hr)%fbind_Some. destruct r as [inner|]; [|done].
  unfold buffPtrIncrementSafe in Hr. destruct (_ <? _); [done|].
  apply fbind_Some in Hr as (? & ? & _ & Hr). rewrite fret_run in Hr. by simplify_eq.
Qed.

Lemma add_counted_members n : ∀ w b w' b',
  add_counted wf fin fs n w b = (Some (Some w'), b') → w_fields w' = w_fields w.
Proof.
  induction n as [|n IH]; intros w b w' b'; cbn [add_counted]; [rewrite fret_run; intros H; by simplify_eq|].
  intros ([[w1 k]|] & b1 & H1 & H2)%fbind_Some; [|done].
  apply IH in H2. by rewrite H2, (add_inner_members _ _ _ _ _ H1).
Qed.

Lemma add_rest_members fuel : ∀ len w b w' b',
  add_rest wf fin fs fuel len w b = (Some (Some w'), b') → w_fields w' = w_fields w.
Proof.
  induction fuel as [|fuel IH]; intros len w b w' b'; cbn [add_rest];
    (destruct (_ <=? _); [rewrite fret_run; intros ?; by simplify_eq|]); (destruct (_ <? _); [done|]); [done|].
  intros ([[w1 k]|] & b1 & H1 & H2)%fbind_Some; [|done].
  apply IH in H2. by rewrite H2, (add_inner_members _ _ _ _ _ H1).
Qed.
End Members.

(** A step sets one member, to [m_buff_ptr__]. *)
Lemma walk_field_members f start fin w b w' b' :
  walk_field start fin f w b = (Some (Some w'), b') → w_fields w' = (field_name f, w_ptr w) :: w_fields w.
Proof.
  destruct f; cbn [walk_field field_name].
  - unfold buffPtrIncrementSafe. destruct (_ <? _); [done|]. rewrite fret_run; intros ?; by simplify_eq.
  - destruct (resolve w cs); [|done]. intros (p & ? & _ & Hr)%fbind_Some. rewrite fret_run in Hr. injection Hr as Hr <-.
    destruct p; [|by simplify_eq]. unfold buffPtrIncrementSafe in Hr.
    destruct (_ <? _) in Hr; [done|]. by simplify_eq.
  - unfold take_elements. destruct (_ <? _); [done|]. rewrite fret_run; intros ?; by simplify_eq.
  - intros (? & ? & _ & Hr)%fbind_Some. unfold take_elements in Hr.
    destruct (_ <? _) in Hr; [done|]. rewrite fret_run in Hr; by injection Hr as <- <-.
  - intros (? & ? & _ & Hr)%fbind_Some. by apply add_counted_members in Hr.
  - intros ([[w1 k]|] & ? & H1 & Hr)%fbind_Some; [|done]. apply add_inner_members in H1.
    rewrite fret_run in Hr; by injection Hr as <- <-.
  - intros (? & ? & _ & Hr)%fbind_Some. unfold take_elements in Hr.
    destruct (_ <? _) in Hr; [done|]. rewrite fret_run in Hr; by injection Hr as <- <-.
  - intros (? & ? & _ & Hr)%fbind_Some. unfold take_elements in Hr.
    destruct (_ <? _) in Hr; [done|]. rewrite fret_run in Hr; by injection Hr as <- <-.
  - intros (? & ? & _ & Hr)%fbind_Some. by apply add_rest_members in Hr.
  - unfold take_elements. destruct (_ <? _); [done|]. rewrite fret_run; intros ?; by simplify_eq.
Qed.

Lemma walk_fields_keep fs start fin name : name ∉ field_name <$> fs → ∀ w b w' b',
  walk_fields walk_field start fin fs w b = (Some (Some w'), b') → find_field w' name = find_field w name.
Proof.
  induction fs as [|f fs IH]; cbn [walk_fields]; intros Hn w b w' b'; [rewrite fret_run; intros ?; by simplify_eq|].
  apply not_elem_of_cons in Hn as [Hf Hfs].
  intros ([w1|] & b1 & H1 & H2)%fbind_Some; [|done].
  apply IH in H2; [|done]. rewrite H2. apply walk_field_members in H1.
  unfold find_field. rewrite H1. cbn [list_find fst]. rewrite decide_False by done.
  by destruct (list_find _ (w_fields w)) as [[??]|].
Qed.

(** The classes whose type is checked start with it. *)
Definition type_first (L : Layout) : bool :=
  match l_type L, l_fields L with
  | None, _ => true
  | Some _, Fixed "type" 1 [] :: fs => bool_decide ("type" ∉ field_name <$> fs)
  | _, _ => false
  end.

Lemma init_fields_type fs start fin b w b' : "type" ∉ field_name <$> fs →
  init_fields walk_field start fin (Fixed "type" 1 [] :: fs) b = (Some (Some w), b') →
  find_field w "type" = Some start.
Proof.
  intros Hn. unfold init_fields. destruct (_ <? _)%nat; [done|].
  intros ([w1|] & b1 & H1 & H2)%fbind_Some; [|done].
  apply fbind_Some in H2 as (? & ? & _ & H2). rewrite fret_run in H2. injection H2 as -> _.
  cbn in H1. apply fbind_Some in H1 as ([w2|] & ? & H2 & H3); [|done].
  unfold buffPtrIncrementSafe in H2. destruct (_ <? _) in H2; [done|]. rewrite fret_run in H2. injection H2 as <- _.
  apply (walk_fields_keep _ _ _ "type") in H3; [|done]. by rewrite H3.
Qed.

Lemma ctx_find_keep fs name : name ∉ field_name <$> fs → ∀ Γ,
  ctx_find (foldl extend Γ fs) name = ctx_find Γ name.
Proof.
  induction fs as [|f fs IH]; [done|]. cbn [fmap list_fmap foldl].
  intros [Hf Hfs]%not_elem_of_cons Γ. rewrite IH by done.
  destruct f; cbn [extend field_name] in *; rewrite ctx_find_cons; by rewrite decide_False.
Qed.

(** [class_swap()] leaves the type alone. *)
Lemma type_byte_plain fs b start fin w : "type" ∉ field_name <$> fs → (fin ≤ length b)%nat →
  walk_ok b start fin (foldl extend [] (Fixed "type" 1 [] :: fs)) w → find_field w "type" = Some start →
  swap_spots (w_spots w) b !! start = b !! start.
Proof.
  intros Hn Hfin Hw Hf. pose proof (wo_ptr _ _ _ _ _ Hw).
  apply (swap_spots_plain b start (w_ptr w)); [apply Hw|lia|]. intros s Hs Hat.
  destruct (wo_fields _ _ _ _ _ Hw "type" 1%nat true) as (off & Hoff & _ & Hcov).
  { cbn [foldl]. by rewrite ctx_find_keep. }
  rewrite Hf in Hoff. injection Hoff as <-. apply (Hcov eq_refl s start Hs Hat). lia.
Qed.

(** [init()] of a well-formed class on any bytes: it accesses only the buffer
    and ends; on success the object lies inside, takes at least its initial
    size, its type is the expected one, and its words were put into host
    order, the rest of the buffer being untouched. *)
Lemma init_parse_post L b start fin : layout_ok L = true → type_first L = true →
  (start ≤ fin ≤ length b)%nat → bytes_ok b →
  post (init_parse L start fin b) (result b (λ o b',
    b' = swap_spots (o_spots o) b ∧ spots_ok b start (o_ptr o) (o_spots o) ∧
    o_start o = start ∧ o_class o = l_name L ∧
    (start + get_initial_size (l_fields L) ≤ o_ptr o ≤ fin)%nat ∧
    ∀ t, l_type L = Some t → b !! start = Some t)).
Proof.
  intros Hok Hty Hfin Hb. unfold init_parse.
  pose proof (init_fields_post (l_fields L) ltac:(apply Forall_forall; intros; apply walk_field_post)
                b fin start Hfin Hb Hok) as Hinit.
  destruct (init_fields walk_field start fin (l_fields L) b) as [[[w|]|] b1] eqn:Hrun;
    rewrite fbind_run, Hrun; cbn in Hinit; [|done|done].
  destruct Hinit as (-> & Hw & Hle). pose proof (wo_ptr _ _ _ _ _ Hw).
  assert (length (swap_spots (w_spots w) b) = length b) as Hlen.
  { by apply (swap_spots_lookup b start (w_ptr w)); [apply Hw|lia]. }
  cbn. unfold type_first in Hty. destruct (l_type L) as [t|]; [|cbn; split_and!; [done|apply Hw|done|done|lia|lia|done]].
  destruct (l_fields L) as [|[name [|[|]] [|]| | | | | | | | |] fs]; try done. all: try (by repeat case_match).
  destruct (decide (name = "type")) as [->|Hne]; [|by repeat case_match].
  cbn in Hty. apply bool_decide_eq_true in Hty. apply init_fields_type in Hrun; [|done]. rewrite Hrun.
  assert (start < length b)%nat as Hlt by (cbn in Hle; lia).
  destruct (lookup_lt_is_Some_2 (swap_spots (w_spots w) b) start) as [v Hv]; [lia|].
  rewrite fbind_run. unfold read_byte. cbn. rewrite Hv. cbn. destruct (Z.eqb_spec v t) as [->|]; [|done].
  cbn. split_and!; [done|apply Hw|done|done|cbn in Hle; lia|lia|]. intros ? [= <-].
  by rewrite <- Hv, (type_byte_plain fs b start fin w) by (done || lia).
Qed.

(** ** Reading *)

Lemma read_byte_at b off : (off < length b)%nat → read_byte off b = (Some (at_ b off), b).
Proof. intros H. unfold read_byte, at_. by destruct (lookup_lt_is_Some_2 b off H) as [x ->]. Qed.

Lemma word_at_byte b off : bytes_ok b → byte_ok (at_ b off).
Proof. intros Hb. unfold at_. destruct (b !! off) as [x|] eqn:H; [by eapply Forall_lookup_1|done]. Qed.

(** A length that is too small wraps around. *)
Lemma u64_negative n : - 65536 ≤ n < 0 → 2 ^ 63 ≤ u64 n.
Proof.
  intros H. unfold u64. change (2 ^ 64) with 18446744073709551616. change (2 ^ 63) with 9223372036854775808.
  rewrite <- (Z_mod_plus_full n 1), Z.mod_small; lia.
Qed.

(** ** Parts of spots *)

Lemma spots_ok_app_l b lo hi l1 l2 : spots_ok b lo hi (l1 ++ l2) → spots_ok b lo hi l1.
Proof.
  intros [Hr Ha Hg Hp]. split.
  - intros s Hs. apply Hr, elem_of_app. by left.
  - rewrite filter_app in Ha. induction (filter _ l1) as [|x l IH]; [apply FOP_nil|].
    inversion Ha as [|? ? Hx Hl]; subst. apply Forall_app in Hx as [Hx _]. constructor; [done|by apply IH].
  - intros s g Hs. apply Hg, elem_of_app. by left.
  - intros s t g Hs Hgs Ht. apply (Hp s t g); [by apply elem_of_app; left|done|by apply elem_of_app; left].
Qed.

Lemma spots_ok_app_r b lo hi l1 l2 : spots_ok b lo hi (l1 ++ l2) → (hi ≤ length b)%nat →
  spots_ok (swap_spots l1 b) lo hi l2.
Proof.
  intros Hok Hhi. eapply spots_ok_agree with (b := b).
  - intros s Hs. apply active_agree. intros g Hg. apply at_lookup_eq. symmetry.
    apply (swap_spots_plain b lo hi); [by eapply spots_ok_app_l|done|].
    intros t Ht Hat. apply (so_plain _ _ _ _ Hok s t g); [apply elem_of_app; by right|done|apply elem_of_app; by left|done].
  - destruct Hok as [Hr Ha Hg Hp]. split.
    + intros s Hs. apply Hr, elem_of_app. by right.
    + rewrite filter_app in Ha. induction (filter _ l1) as [|x l IH]; [done|].
      inversion Ha; subst. by apply IH.
    + intros s g Hs. apply Hg, elem_of_app. by right.
    + intros s t g Hs Hgs Ht. apply (Hp s t g); [by apply elem_of_app; right|done|by apply elem_of_app; right].
Qed.

Lemma swap_spots_app l1 l2 b : swap_spots (l1 ++ l2) b = swap_spots l2 (swap_spots l1 b).
Proof. unfold swap_spots. apply foldl_app. Qed.

Lemma swap_spots_bytes b lo hi l : spots_ok b lo hi l → (hi ≤ length b)%nat → bytes_ok b →
  bytes_ok (swap_spots l b).
Proof.
  intros Hok Hhi Hb. apply Forall_lookup_2. intros i x.
  rewrite (proj2 (swap_spots_lookup b lo hi l Hok Hhi)). intros Hx. eapply Forall_lookup_1; [exact Hb|done].
Qed.

(** ** Classes of a fixed size *)

Definition is_fixed (f : Field) : bool := match f with Fixed _ _ _ => true | _ => false end.
Definition static (L : Layout) : bool := forallb is_fixed (l_fields L).

Lemma walk_static fs start fin b : forallb is_fixed fs = true → ∀ w,
  (w_ptr w + get_initial_size fs ≤ fin)%nat → ∃ w',
  walk_fields walk_field start fin fs w b = (Some (Some w'), b) ∧
  w_ptr w' = (w_ptr w + get_initial_size fs)%nat.
Proof.
  unfold get_initial_size. induction fs as [|f fs IH]; intros Hs w Hw.
  { exists w. cbn. split; [done|lia]. }
  cbn [forallb] in Hs. apply andb_true_iff in Hs as [Hf Hs].
  destruct f as [name n sw| | | | | | | | |]; try done. cbn in Hw.
  cbn [walk_fields walk_field]. rewrite fbind_run, fret_run. unfold buffPtrIncrementSafe. cbn [fst snd w_ptr set_member].
  destruct (_ <? _) eqn:Hlt; bool_to_prop; [lia|].
  match goal with |- context [walk_fields _ _ _ _ ?w1 _] => destruct (IH Hs w1) as (w' & Hr & Hp) end; [cbn; lia|].
  exists w'. split; [exact Hr|]. rewrite Hp. cbn. lia.
Qed.

(** An object of such a class ends behind its fields, whatever its length
    field says. *)
Lemma init_parse_static L b start fin : layout_ok L = true → type_first L = true → static L = true →
  (start + get_initial_size (l_fields L) ≤ fin ≤ length b)%nat → bytes_ok b →
  (∀ t, l_type L = Some t → b !! start = Some t) → ∃ o b',
  init_parse L start fin b = (Some (Some o), b') ∧ o_ptr o = (start + get_initial_size (l_fields L))%nat.
Proof.
  intros Hok Hty Hst Hfin Hb Ht.
  pose proof (init_fields_post (l_fields L) ltac:(apply Forall_forall; intros; apply walk_field_post)
                b fin start ltac:(lia) Hb Hok) as Hinit.
  destruct (walk_static (l_fields L) start fin b Hst (mkWalk start [] [])) as (w & Hr & Hp); [cbn; lia|].
  cbn [w_ptr] in Hp. unfold init_parse.
  assert (init_fields walk_field start fin (l_fields L) b = (Some (Some w), swap_spots (w_spots w) b)
    ∧ walk_ok b start fin (foldl extend [] (l_fields L)) w) as [Hrun Hw].
  { unfold init_fields in *. destruct (_ <? _)%nat eqn:Hlt; [apply Nat.ltb_lt in Hlt; lia|].
    rewrite fbind_run, Hr in *. cbn [fst snd] in *. rewrite fbind_run in *.
    destruct (class_swap (w_spots w) b) as [[[]|] b1]; cbn in Hinit |- *; [|done].
    destruct Hinit as (-> & Hw & _). done. }
  rewrite fbind_run, Hrun. cbn [fst snd]. unfold type_first in Hty.
  destruct (l_type L) as [t|]; [|eexists _, _; split; [done|exact Hp]].
  destruct (l_fields L) as [|[name [|[|]] [|]| | | | | | | | |] fs]; try done. all: try (by repeat case_match).
  destruct (decide (name = "type")) as [->|Hne]; [|by repeat case_match].
  cbn in Hty. apply bool_decide_eq_true in Hty. pose proof Hrun as Hf.
  apply init_fields_type in Hf; [|done]. rewrite Hf, fbind_run. unfold read_byte.
  rewrite (type_byte_plain fs b start fin w), (Ht t eq_refl) by (done || lia).
  cbn [fst snd]. rewrite Z.eqb_refl. eexists _, _. split; [done|exact Hp].
Qed.
