(* ===== verification/TlvClasses1905.v ===== *)
(** * The TLV classes of IEEE 1905.1

    The steps of [init()] of the CMDU header and of the TLV classes of
    [framework/tlvf/AutoGenerated/src/tlvf/ieee_1905_1], as generated. *)

From S2P Require Import Prelude Tlvf.

#[local] Open Scope nat_scope.

Definition cCmduHeader : Layout := mkLayout "cCmduHeader" None [
    Fixed "message_version" 1 []; Fixed "reserved" 1 []; Fixed "message_type" 2 [(0, 2)];
    Fixed "message_id" 2 [(0, 2)]; Fixed "fragment_id" 1 []; Fixed "flags" 1 []].

Definition tlv1905NeighborDevice : Layout := mkLayout "tlv1905NeighborDevice" (Some 0x7%Z) [
    Fixed "type" 1 []; Fixed "length" 2 [(0, 2)]; Fixed "mac_local_iface" 6 [];
    Rest "mac_al_1905_device" 7 []].

Definition tlvAlMacAddress : Layout := mkLayout "tlvAlMacAddress" (Some 0x1%Z) [
    Fixed "type" 1 []; Fixed "length" 2 [(0, 2)]; Fixed "mac" 6 []].

Definition tlvAutoconfigFreqBand : Layout := mkLayout "tlvAutoconfigFreqBand" (Some 0xe%Z) [
    Fixed "type" 1 []; Fixed "length" 2 [(0, 2)]; Fixed "value" 1 []].

Definition cMacList : list Field := [
    Fixed "mac_list_length" 1 []; Counted "mac_list" (Len8 "mac_list_length") 6 []].

Definition tlvDeviceBridgingCapability : Layout := mkLayout "tlvDeviceBridgingCapability" (Some 0x4%Z) [
    Fixed "type" 1 []; Fixed "length" 2 [(0, 2)]; Fixed "bridging_tuples_list_length" 1 [];
    CountedClass "bridging_tuples_list" (Len8 "bridging_tuples_list_length") cMacList].

Definition cLocalInterfaceInfo : list Field := [
    Fixed "mac" 6 []; Fixed "media_type" 2 [(0, 2)]; Fixed "media_info_length" 1 [];
    Counted "media_info" (Len8 "media_info_length") 1 []].

Definition tlvDeviceInformation : Layout := mkLayout "tlvDeviceInformation" (Some 0x3%Z) [
    Fixed "type" 1 []; Fixed "length" 2 [(0, 2)]; Fixed "mac" 6 [];
    Fixed "local_interface_list_length" 1 [];
    CountedClass "local_interface_list" (Len8 "local_interface_list_length") cLocalInterfaceInfo].

Definition tlvEndOfMessage : Layout := mkLayout "tlvEndOfMessage" (Some 0x0%Z) [
    Fixed "type" 1 []; Fixed "length" 2 [(0, 2)]].

Definition tlvLinkMetricQueryAllNeighbors : Layout := mkLayout "tlvLinkMetricQueryAllNeighbors" (Some 0x8%Z) [
    Fixed "type" 1 []; Fixed "length" 2 [(0, 2)]; Fixed "neighbor_type" 1 [];
    Fixed "link_metrics_type" 1 []].

Definition tlvLinkMetricQuery : Layout := mkLayout "tlvLinkMetricQuery" (Some 0x8%Z) [
    Fixed "type" 1 []; Fixed "length" 2 [(0, 2)]; Fixed "neighbor_type" 1 [];
    Fixed "mac_al_1905_device" 6 []; Fixed "link_metrics_type" 1 []].

Definition tlvLinkMetricResultCode : Layout := mkLayout "tlvLinkMetricResultCode" (Some 0xc%Z) [
    Fixed "type" 1 []; Fixed "length" 2 [(0, 2)]; Fixed "value" 1 []].

Definition tlvMacAddress : Layout := mkLayout "tlvMacAddress" (Some 0x2%Z) [
    Fixed "type" 1 []; Fixed "length" 2 [(0, 2)]; Fixed "mac" 6 []].

Definition tlvNon1905neighborDeviceList : Layout := mkLayout "tlvNon1905neighborDeviceList" (Some 0x6%Z) [
    Fixed "type" 1 []; Fixed "length" 2 [(0, 2)]; Fixed "mac_local_iface" 6 [];
    Rest "mac_non_1905_device" 6 []].

Definition tlvPushButtonEventNotification : Layout := mkLayout "tlvPushButtonEventNotification" (Some 0x12%Z) [
    Fixed "type" 1 []; Fixed "length" 2 [(0, 2)]; Fixed "media_type_list_length" 1 [];
    Counted "media_type_list" (Len8 "media_type_list_length") 13 [(0, 2)]].

Definition tlvPushButtonJoinNotification : Layout := mkLayout "tlvPushButtonJoinNotification" (Some 0x13%Z) [
    Fixed "type" 1 []; Fixed "length" 2 [(0, 2)]; Fixed "al_mac_notification_src" 6 [];
    Fixed "mid_of_the_notification" 2 [(0, 2)];
    Fixed "transmitter_iface_mac_of_new_device_joined" 6 [];
    Fixed "iface_mac_of_new_device_joined" 6 []].

Definition tlvReceiverLinkMetric : Layout := mkLayout "tlvReceiverLinkMetric" (Some 0xa%Z) [
    Fixed "type" 1 []; Fixed "length" 2 [(0, 2)]; Fixed "reporter_al_mac" 6 [];
    Fixed "neighbor_al_mac" 6 []; Rest "interface_pair_info" 23 [(12, 2); (14, 4); (18, 4)]].

Definition tlvSearchedRole : Layout := mkLayout "tlvSearchedRole" (Some 0xd%Z) [
    Fixed "type" 1 []; Fixed "length" 2 [(0, 2)]; Fixed "value" 1 []].

Definition tlvSupportedFreqBand : Layout := mkLayout "tlvSupportedFreqBand" (Some 0x10%Z) [
    Fixed "type" 1 []; Fixed "length" 2 [(0, 2)]; Fixed "value" 1 []].

Definition tlvSupportedRole : Layout := mkLayout "tlvSupportedRole" (Some 0xf%Z) [
    Fixed "type" 1 []; Fixed "length" 2 [(0, 2)]; Fixed "value" 1 []].

Definition tlvTransmitterLinkMetric : Layout := mkLayout "tlvTransmitterLinkMetric" (Some 0x9%Z) [
    Fixed "type" 1 []; Fixed "length" 2 [(0, 2)]; Fixed "reporter_al_mac" 6 [];
    Fixed "neighbor_al_mac" 6 [];
    Rest "interface_pair_info" 29 [(12, 2); (15, 4); (19, 4); (23, 2); (25, 2); (27, 2)]].

Definition tlvUnknown : Layout := mkLayout "tlvUnknown" None [
    Fixed "type" 1 []; Fixed "length" 2 [(0, 2)]; Rest "data" 1 []].

Definition tlvVendorSpecific : Layout := mkLayout "tlvVendorSpecific" (Some 0xb%Z) [
    Fixed "type" 1 []; Fixed "length" 2 [(0, 2)]; Fixed "vendor_oui" 3 [(0, 3)];
    Rest "payload" 1 []].

Definition tlvWsc : Layout := mkLayout "tlvWsc" (Some 0x11%Z) [
    Fixed "type" 1 []; Fixed "length" 2 [(0, 2)]; Rest "payload" 1 []].
