(* ===== verification/TlvClassesMap.v ===== *)
(** * The TLV classes of Multi-AP

    The steps of [init()] of the TLV classes of
    [framework/tlvf/AutoGenerated/src/tlvf/wfa_map] and [vendor_example], as
    generated. A class without a type of its own is part of another one. *)

From S2P Require Import Prelude Tlvf.

#[local] Open Scope nat_scope.

Definition tlv1905EncapDpp : Layout := mkLayout "tlv1905EncapDpp" (Some 0xcd%Z) [
    Fixed "type" 1 []; Fixed "length" 2 [(0, 2)]; Fixed "frame_flags" 1 [];
    When [IsSet "frame_flags" 7 1] "dest_sta_mac" 6 []; Fixed "frame_type" 1 [];
    Fixed "encapsulated_frame_length" 2 [(0, 2)];
    Counted "encapsulated_frame" (Len16 "encapsulated_frame_length") 1 []].

Definition tlv1905EncapEapol : Layout := mkLayout "tlv1905EncapEapol" (Some 0xce%Z) [
    Fixed "type" 1 []; Fixed "length" 2 [(0, 2)]; Rest "payload" 1 []].

Definition tlv1905LayerSecurityCapability : Layout := mkLayout "tlv1905LayerSecurityCapability" (Some 0xa9%Z) [
    Fixed "type" 1 []; Fixed "length" 2 [(0, 2)]; Fixed "onboarding_protocol" 1 [];
    Fixed "mic_algorithm" 1 []; Fixed "encryption_algorithm" 1 []].

Definition tlvAffiliatedApMetrics : Layout := mkLayout "tlvAffiliatedApMetrics" (Some 0xe5%Z) [
    Fixed "type" 1 []; Fixed "length" 2 [(0, 2)]; Fixed "bssid" 6 [];
    Fixed "packets_sent" 4 [(0, 4)]; Fixed "packets_received" 4 [(0, 4)];
    Fixed "packets_sent_errors" 4 [(0, 4)]; Fixed "unicast_bytes_sent" 4 [(0, 4)];
    Fixed "unicast_bytes_received" 4 [(0, 4)]; Fixed "multicast_bytes_sent" 4 [(0, 4)];
    Fixed "multicast_bytes_received" 4 [(0, 4)]; Fixed "broadcast_bytes_sent" 4 [(0, 4)];
    Fixed "broadcast_bytes_received" 4 [(0, 4)]; Rest "reserved" 1 []].

Definition tlvAffiliatedStaMetrics : Layout := mkLayout "tlvAffiliatedStaMetrics" (Some 0xe4%Z) [
    Fixed "type" 1 []; Fixed "length" 2 [(0, 2)]; Fixed "sta_mac_addr" 6 [];
    Fixed "bytes_sent" 4 [(0, 4)]; Fixed "bytes_received" 4 [(0, 4)];
    Fixed "packets_sent" 4 [(0, 4)]; Fixed "packets_received" 4 [(0, 4)];
    Fixed "packets_sent_errors" 4 [(0, 4)]; Rest "reserved" 1 []].

Definition cAffiliatedAp : list Field := [
    Fixed "affiliated_ap_fields_valid" 1 []; Fixed "ruid" 6 [];
    Fixed "affiliated_ap_mac_addr" 6 []; Fixed "linkid" 1 []; Array "reserved" 18 1 []].

Definition cApMld : list Field := [
    Fixed "ap_mld_mac_addr_valid" 1 []; Fixed "ssid_length" 1 [];
    Counted "ssid" (Len8 "ssid_length") 1 []; Fixed "ap_mld_mac_addr" 6 []; Fixed "modes" 1 [];
    Array "reserved" 20 1 []; Fixed "num_affiliated_ap" 1 [];
    CountedClass "affiliated_ap" (Len8 "num_affiliated_ap") cAffiliatedAp].

Definition tlvAgentApMldConfiguration : Layout := mkLayout "tlvAgentApMldConfiguration" (Some 0xe0%Z) [
    Fixed "type" 1 []; Fixed "length" 2 [(0, 2)]; Fixed "num_ap_mld" 1 [];
    CountedClass "ap_mld" (Len8 "num_ap_mld") cApMld].

Definition tlvAgentList : Layout := mkLayout "tlvAgentList" (Some 0xd5%Z) [
    Fixed "type" 1 []; Fixed "length" 2 [(0, 2)]; Fixed "number_of_agents" 1 [];
    Counted "agents" (Len8 "number_of_agents") 8 []].

Definition tlvAkmSuiteCapabilities : Layout := mkLayout "tlvAkmSuiteCapabilities" (Some 0xcc%Z) [
    Fixed "type" 1 []; Fixed "length" 2 [(0, 2)];
    Fixed "number_of_bh_bss_akm_suite_selectors" 1 [];
    Counted "backhaul_bss_akm_suite_selectors" (Len8 "number_of_bh_bss_akm_suite_selectors") 4 [(0, 3)];
    Fixed "number_of_fh_bss_akm_suite_selectors" 1 [];
    Counted "fronthaul_bss_akm_suite_selectors" (Len8 "number_of_fh_bss_akm_suite_selectors") 4 [(0, 3)]].

Definition cAnticipatedOperatingClasses : list Field := [
    Fixed "operating_class" 1 []; Fixed "channel_list_length" 1 [];
    Counted "channel_list" (Len8 "channel_list_length") 1 []; Fixed "reserved" 4 [(0, 4)]].

Definition tlvAnticipatedChannelPreference : Layout := mkLayout "tlvAnticipatedChannelPreference" (Some 0xd6%Z) [
    Fixed "type" 1 []; Fixed "length" 2 [(0, 2)]; Fixed "operating_classes_list_length" 1 [];
    CountedClass "operating_classes_list" (Len8 "operating_classes_list_length") cAnticipatedOperatingClasses].

Definition tlvApCapability : Layout := mkLayout "tlvApCapability" (Some 0xa1%Z) [
    Fixed "type" 1 []; Fixed "length" 2 [(0, 2)]; Fixed "value" 1 []].

Definition tlvApExtendedMetrics : Layout := mkLayout "tlvApExtendedMetrics" (Some 0xc7%Z) [
    Fixed "type" 1 []; Fixed "length" 2 [(0, 2)]; Fixed "bssid" 6 [];
    Fixed "unicast_bytes_sent" 4 [(0, 4)]; Fixed "unicast_bytes_received" 4 [(0, 4)];
    Fixed "multicast_bytes_sent" 4 [(0, 4)]; Fixed "multicast_bytes_received" 4 [(0, 4)];
    Fixed "broadcast_bytes_sent" 4 [(0, 4)]; Fixed "broadcast_bytes_received" 4 [(0, 4)]].

Definition tlvApHeCapabilities : Layout := mkLayout "tlvApHeCapabilities" (Some 0x88%Z) [
    Fixed "type" 1 []; Fixed "length" 2 [(0, 2)]; Fixed "radio_uid" 6 [];
    Fixed "supported_he_mcs_length" 1 [];
    Counted "supported_he_mcs" (Len8 "supported_he_mcs_length") 1 []; Fixed "flags1" 1 [];
    Fixed "flags2" 1 []].

Definition tlvApHtCapabilities : Layout := mkLayout "tlvApHtCapabilities" (Some 0x86%Z) [
    Fixed "type" 1 []; Fixed "length" 2 [(0, 2)]; Fixed "radio_uid" 6 []; Fixed "flags" 1 []].

Definition tlvApMetricQuery : Layout := mkLayout "tlvApMetricQuery" (Some 0x93%Z) [
    Fixed "type" 1 []; Fixed "length" 2 [(0, 2)]; Fixed "bssid_list_length" 1 [];
    Counted "bssid_list" (Len8 "bssid_list_length") 6 []].

Definition tlvApMetrics : Layout := mkLayout "tlvApMetrics" (Some 0x94%Z) [
    Fixed "type" 1 []; Fixed "length" 2 [(0, 2)]; Fixed "bssid" 6 [];
    Fixed "channel_utilization" 1 []; Fixed "number_of_stas_currently_associated" 2 [(0, 2)];
    Fixed "estimated_service_parameters" 1 []; Rest "estimated_service_info_field" 1 []].

Definition cRadioBssInfo : list Field := [
    Fixed "radio_bssid" 6 []; Fixed "ssid_length" 1 []; Counted "ssid" (Len8 "ssid_length") 1 []].

Definition cRadioInfo : list Field := [
    Fixed "radio_uid" 6 []; Fixed "radio_bss_list_length" 1 [];
    CountedClass "radio_bss_list" (Len8 "radio_bss_list_length") cRadioBssInfo].

Definition tlvApOperationalBSS : Layout := mkLayout "tlvApOperationalBSS" (Some 0x83%Z) [
    Fixed "type" 1 []; Fixed "length" 2 [(0, 2)]; Fixed "radio_list_length" 1 [];
    CountedClass "radio_list" (Len8 "radio_list_length") cRadioInfo].

Definition cOperatingClassesInfo : list Field := [
    Fixed "operating_class" 1 []; Fixed "maximum_transmit_power_dbm" 1 [];
    Fixed "statically_non_operable_channels_list_length" 1 [];
    Counted "statically_non_operable_channels_list" (Len8 "statically_non_operable_channels_list_length") 1 []].

Definition tlvApRadioBasicCapabilities : Layout := mkLayout "tlvApRadioBasicCapabilities" (Some 0x85%Z) [
    Fixed "type" 1 []; Fixed "length" 2 [(0, 2)]; Fixed "radio_uid" 6 [];
    Fixed "maximum_number_of_bsss_supported" 1 []; Fixed "operating_classes_info_list_length" 1 [];
    CountedClass "operating_classes_info_list" (Len8 "operating_classes_info_list_length") cOperatingClassesInfo].

Definition tlvApRadioIdentifier : Layout := mkLayout "tlvApRadioIdentifier" (Some 0x82%Z) [
    Fixed "type" 1 []; Fixed "length" 2 [(0, 2)]; Fixed "radio_uid" 6 []].

Definition ApRadioVbssCapabilities : Layout := mkLayout "ApRadioVbssCapabilities" (Some 0xde%Z) [
    Fixed "type" 1 []; Fixed "length" 2 [(0, 2)]; Fixed "subtype" 2 [(0, 2)];
    Fixed "radio_uid" 6 []; Fixed "max_vbss" 1 []; Fixed "vbss_settings" 1 [];
    Fixed "fixed_bits_mask" 6 []; Fixed "fixed_bits_value" 6 []].

Definition tlvApVhtCapabilities : Layout := mkLayout "tlvApVhtCapabilities" (Some 0x87%Z) [
    Fixed "type" 1 []; Fixed "length" 2 [(0, 2)]; Fixed "radio_uid" 6 [];
    Fixed "supported_vht_tx_mcs" 2 [(0, 2)]; Fixed "supported_vht_rx_mcs" 2 [(0, 2)];
    Fixed "flags1" 1 []; Fixed "flags2" 1 []].

Definition cRole : list Field := [
    Fixed "flags1" 1 []; Array "mcs_nss_80" 4 1 [];
    When [IsSet "flags1" 5 1] "mcs_nss_160" 4 [(0, 4)];
    When [IsSet "flags1" 4 1] "mcs_nss_80_80" 4 [(0, 4)]; Fixed "flags2" 1 []; Fixed "flags3" 1 [];
    Fixed "max_dl_ofdma_tx" 1 []; Fixed "max_ul_ofdma_rx" 1 []; Fixed "flags4" 1 []].

Definition tlvApWifi6Capabilities : Layout := mkLayout "tlvApWifi6Capabilities" (Some 0xaa%Z) [
    Fixed "type" 1 []; Fixed "length" 2 [(0, 2)]; Fixed "radio_uid" 6 [];
    Fixed "number_of_roles" 1 []; CountedClass "role" (Len8 "number_of_roles") cRole].

Definition cClientInfo : list Field := [
    Fixed "mac" 6 []; Fixed "time_since_last_association_sec" 2 [(0, 2)]].

Definition cBssInfo : list Field := [
    Fixed "bssid" 6 []; Fixed "clients_associated_list_length" 2 [(0, 2)];
    CountedClass "clients_associated_list" (Len16 "clients_associated_list_length") cClientInfo].

Definition tlvAssociatedClients : Layout := mkLayout "tlvAssociatedClients" (Some 0x84%Z) [
    Fixed "type" 1 []; Fixed "length" 2 [(0, 2)]; Fixed "bss_list_length" 1 [];
    CountedClass "bss_list" (Len8 "bss_list_length") cBssInfo].

Definition tlvAssociatedStaExtendedLinkMetrics : Layout := mkLayout "tlvAssociatedStaExtendedLinkMetrics" (Some 0xc8%Z) [
    Fixed "type" 1 []; Fixed "length" 2 [(0, 2)]; Fixed "associated_sta" 6 [];
    Fixed "metrics_list_length" 1 [];
    Counted "metrics_list" (Len8 "metrics_list_length") 22 [(6, 4); (10, 4); (14, 4); (18, 4)]].

Definition tlvAssociatedStaLinkMetrics : Layout := mkLayout "tlvAssociatedStaLinkMetrics" (Some 0x96%Z) [
    Fixed "type" 1 []; Fixed "length" 2 [(0, 2)]; Fixed "sta_mac" 6 [];
    Fixed "bssid_info_list_length" 1 [];
    Counted "bssid_info_list" (Len8 "bssid_info_list_length") 19 [(6, 4); (10, 4); (14, 4)]].

Definition cAffiliatedSta : list Field := [
    Fixed "bssid" 6 []; Fixed "mac" 6 []; Array "reserved" 19 1 []].

Definition tlvAssociatedStaMldConfigurationReport : Layout := mkLayout "tlvAssociatedStaMldConfigurationReport" (Some 0xe2%Z) [
    Fixed "type" 1 []; Fixed "length" 2 [(0, 2)]; Fixed "sta_mld_mac_addr" 6 [];
    Fixed "ap_mld_mac_addr" 6 []; Fixed "modes" 1 []; Array "reserved" 18 1 [];
    Fixed "num_affiliated_sta" 1 [];
    CountedClass "affiliated_sta" (Len8 "num_affiliated_sta") cAffiliatedSta].

Definition tlvAssociatedStaTrafficStats : Layout := mkLayout "tlvAssociatedStaTrafficStats" (Some 0xa2%Z) [
    Fixed "type" 1 []; Fixed "length" 2 [(0, 2)]; Fixed "sta_mac" 6 [];
    Fixed "byte_sent" 4 [(0, 4)]; Fixed "byte_received" 4 [(0, 4)];
    Fixed "packets_sent" 4 [(0, 4)]; Fixed "packets_received" 4 [(0, 4)];
    Fixed "tx_packets_error" 4 [(0, 4)]; Fixed "rx_packets_error" 4 [(0, 4)];
    Fixed "retransmission_count" 4 [(0, 4)]].

Definition tlvAssociatedWiFi6StaStatusReport : Layout := mkLayout "tlvAssociatedWiFi6StaStatusReport" (Some 0xb0%Z) [
    Fixed "type" 1 []; Fixed "length" 2 [(0, 2)]; Fixed "sta_mac" 6 [];
    Fixed "tid_queue_size_list_length" 1 [];
    Counted "tid_queue_size_list" (Len8 "tid_queue_size_list_length") 2 []].

Definition tlvAvailableSpectrumInquiryRequest : Layout := mkLayout "tlvAvailableSpectrumInquiryRequest" (Some 0xe8%Z) [
    Fixed "type" 1 []; Fixed "length" 2 [(0, 2)];
    Rest "available_spectrum_inquiry_request_obj" 1 []].

Definition tlvAvailableSpectrumInquiryResponse : Layout := mkLayout "tlvAvailableSpectrumInquiryResponse" (Some 0xe9%Z) [
    Fixed "type" 1 []; Fixed "length" 2 [(0, 2)];
    Rest "available_spectrum_inquiry_response_obj" 1 []].

Definition tlvBackhaulBssConfiguration : Layout := mkLayout "tlvBackhaulBssConfiguration" (Some 0xd0%Z) [
    Fixed "type" 1 []; Fixed "length" 2 [(0, 2)]; Fixed "bssid" 6 []; Fixed "flags" 1 []].

Definition cAffiliatedBhSta : list Field := [
    Fixed "affiliated_bsta_mac_addr_valid" 1 []; Fixed "ruid" 6 [];
    Fixed "affiliated_bsta_mac_addr" 6 []; Array "reserved" 19 1 []].

Definition tlvBackhaulStaMldConfiguration : Layout := mkLayout "tlvBackhaulStaMldConfiguration" (Some 0xe1%Z) [
    Fixed "type" 1 []; Fixed "length" 2 [(0, 2)]; Fixed "addr_valid" 1 [];
    Fixed "bsta_mld_mac_addr" 6 []; Fixed "ap_mld_mac_addr" 6 []; Fixed "modes" 1 [];
    Array "reserved" 17 1 []; Fixed "num_affiliated_bsta" 1 [];
    CountedClass "affiliated_bsta" (Len8 "num_affiliated_bsta") cAffiliatedBhSta].

Definition tlvBackhaulStaRadioCapabilities : Layout := mkLayout "tlvBackhaulStaRadioCapabilities" (Some 0xcb%Z) [
    Fixed "type" 1 []; Fixed "length" 2 [(0, 2)]; Fixed "ruid" 6 []; Fixed "sta_mac_included" 1 [];
    When [IsValue "sta_mac_included" 0x80] "sta_mac" 6 []].

Definition tlvBackhaulSteeringRequest : Layout := mkLayout "tlvBackhaulSteeringRequest" (Some 0x9e%Z) [
    Fixed "type" 1 []; Fixed "length" 2 [(0, 2)]; Fixed "backhaul_station_mac" 6 [];
    Fixed "target_bssid" 6 []; Fixed "operating_class" 1 []; Fixed "target_channel_number" 1 []].

Definition tlvBackhaulSteeringResponse : Layout := mkLayout "tlvBackhaulSteeringResponse" (Some 0x9f%Z) [
    Fixed "type" 1 []; Fixed "length" 2 [(0, 2)]; Fixed "backhaul_station_mac" 6 [];
    Fixed "target_bssid" 6 []; Fixed "result_code" 1 []].

Definition cApChannelReports : list Field := [
    Fixed "ap_channel_report_list_length" 1 [];
    Counted "ap_channel_report_list" (Len8 "ap_channel_report_list_length") 1 []].

Definition tlvBeaconMetricsQuery : Layout := mkLayout "tlvBeaconMetricsQuery" (Some 0x99%Z) [
    Fixed "type" 1 []; Fixed "length" 2 [(0, 2)]; Fixed "associated_sta_mac" 6 [];
    Fixed "operating_class" 1 []; Fixed "channel_number" 1 []; Fixed "bssid" 6 [];
    Fixed "reporting_detail_value" 1 []; Fixed "ssid_length" 1 [];
    Counted "ssid" (Len8 "ssid_length") 1 []; Fixed "ap_channel_reports_list_length" 1 [];
    CountedClass "ap_channel_reports_list" (Len8 "ap_channel_reports_list_length") cApChannelReports;
    Fixed "elemnt_id_list_length" 1 [];
    Counted "elemnt_id_list" (Len8 "elemnt_id_list_length") 1 []].

Definition cMeasurementReportElement : list Field := [
    Fixed "element_id" 1 []; Fixed "length" 1 []; Fixed "measurement_token" 1 [];
    Fixed "measurement_req_mode" 1 []; Fixed "measurement_type" 1 []; Fixed "op_class" 1 [];
    Fixed "channel" 1 []; Fixed "start_time" 8 [(0, 8)]; Fixed "duration" 2 [(0, 2)];
    Fixed "phy_type" 1 []; Fixed "rcpi" 1 []; Fixed "rsni" 1 []; Fixed "bssid" 6 [];
    Fixed "antenna_id" 1 []; Fixed "parent_tsf" 4 [(0, 4)]].

Definition tlvBeaconMetricsResponse : Layout := mkLayout "tlvBeaconMetricsResponse" (Some 0x9a%Z) [
    Fixed "type" 1 []; Fixed "length" 2 [(0, 2)]; Fixed "associated_sta_mac" 6 [];
    Fixed "reserved" 1 []; Fixed "measurement_report_list_length" 1 [];
    CountedClass "measurement_report_list" (Len8 "measurement_report_list_length") cMeasurementReportElement].

Definition cBssAdvancedConfigurationBss : list Field := [
    Fixed "bssid" 6 []; Fixed "bss_index" 1 []; Fixed "bss_infos" 1 []; Array "reserved" 4 1 []].

Definition cBssAdvancedConfigurationRadio : list Field := [
    Fixed "ruid" 6 []; Fixed "num_bss" 1 [];
    CountedClass "bsss" (Len8 "num_bss") cBssAdvancedConfigurationBss].

Definition tlvBssAdvancedConfiguration : Layout := mkLayout "tlvBssAdvancedConfiguration" (Some 0xec%Z) [
    Fixed "type" 1 []; Fixed "length" 2 [(0, 2)]; Fixed "num_radio" 1 [];
    CountedClass "radios" (Len8 "num_radio") cBssAdvancedConfigurationRadio].

Definition cBssConf : list Field := [
    Fixed "bssid" 6 []; Fixed "bss_ie" 1 []; Fixed "reserved" 1 []; Fixed "ssid_length" 1 [];
    Counted "ssid" (Len8 "ssid_length") 1 []].

Definition cRadio : list Field := [
    Fixed "ruid" 6 []; Fixed "number_of_bss" 1 [];
    CountedClass "bss_info" (Len8 "number_of_bss") cBssConf].

Definition tlvBssConfigurationReport : Layout := mkLayout "tlvBssConfigurationReport" (Some 0xb7%Z) [
    Fixed "type" 1 []; Fixed "length" 2 [(0, 2)]; Fixed "number_of_reported_radios" 1 [];
    CountedClass "radios" (Len8 "number_of_reported_radios") cRadio].

Definition tlvBssConfigurationRequest : Layout := mkLayout "tlvBssConfigurationRequest" (Some 0xbb%Z) [
    Fixed "type" 1 []; Fixed "length" 2 [(0, 2)]; Rest "dpp_configuration_request_object" 1 []].

Definition tlvBssConfigurationResponse : Layout := mkLayout "tlvBssConfigurationResponse" (Some 0xbd%Z) [
    Fixed "type" 1 []; Fixed "length" 2 [(0, 2)]; Rest "dpp_configuration_object" 1 []].

Definition tlvBssid : Layout := mkLayout "tlvBssid" (Some 0xb8%Z) [
    Fixed "type" 1 []; Fixed "length" 2 [(0, 2)]; Fixed "bssid" 6 []].

Definition cPreferenceOperatingClasses : list Field := [
    Fixed "operating_class" 1 []; Fixed "channel_list_length" 1 [];
    Counted "channel_list" (Len8 "channel_list_length") 1 []; Fixed "flags" 1 []].

Definition tlvChannelPreference : Layout := mkLayout "tlvChannelPreference" (Some 0x8b%Z) [
    Fixed "type" 1 []; Fixed "length" 2 [(0, 2)]; Fixed "radio_uid" 6 [];
    Fixed "operating_classes_list_length" 1 [];
    CountedClass "operating_classes_list" (Len8 "operating_classes_list_length") cPreferenceOperatingClasses].

Definition cOperatingClasses : list Field := [
    Fixed "operating_class" 1 []; Fixed "channel_list_length" 1 [];
    Counted "channel_list" (Len8 "channel_list_length") 1 []].

Definition cRadiosWithScanCapabilities : list Field := [
    Fixed "radio_uid" 6 []; Fixed "capabilities" 1 []; Fixed "minimum_scan_interval" 4 [(0, 4)];
    Fixed "operating_classes_list_length" 1 [];
    CountedClass "operating_classes_list" (Len8 "operating_classes_list_length") cOperatingClasses].

Definition tlvChannelScanCapabilities : Layout := mkLayout "tlvChannelScanCapabilities" (Some 0xa5%Z) [
    Fixed "type" 1 []; Fixed "length" 2 [(0, 2)]; Fixed "radio_list_length" 1 [];
    CountedClass "radio_list" (Len8 "radio_list_length") cRadiosWithScanCapabilities].

Definition tlvChannelScanReportingPolicy : Layout := mkLayout "tlvChannelScanReportingPolicy" (Some 0xa4%Z) [
    Fixed "type" 1 []; Fixed "length" 2 [(0, 2)]; Fixed "report_independent_channel_scans" 1 []].

Definition tlvChannelSelectionResponse : Layout := mkLayout "tlvChannelSelectionResponse" (Some 0x8e%Z) [
    Fixed "type" 1 []; Fixed "length" 2 [(0, 2)]; Fixed "radio_uid" 6 [];
    Fixed "response_code" 1 []].

Definition tlvClientAssociationControlRequest : Layout := mkLayout "tlvClientAssociationControlRequest" (Some 0x9d%Z) [
    Fixed "type" 1 []; Fixed "length" 2 [(0, 2)]; Fixed "bssid_to_block_client" 6 [];
    Fixed "association_control" 1 []; Fixed "validity_period_sec" 2 [(0, 2)];
    Fixed "sta_list_length" 1 []; Counted "sta_list" (Len8 "sta_list_length") 6 []].

Definition tlvClientAssociationEvent : Layout := mkLayout "tlvClientAssociationEvent" (Some 0x92%Z) [
    Fixed "type" 1 []; Fixed "length" 2 [(0, 2)]; Fixed "client_mac" 6 []; Fixed "bssid" 6 [];
    Fixed "association_event" 1 []].

Definition tlvClientCapabilityReport : Layout := mkLayout "tlvClientCapabilityReport" (Some 0x91%Z) [
    Fixed "type" 1 []; Fixed "length" 2 [(0, 2)]; Fixed "result_code" 1 [];
    Rest "association_frame" 1 []].

Definition tlvClientInfo : Layout := mkLayout "tlvClientInfo" (Some 0x90%Z) [
    Fixed "type" 1 []; Fixed "length" 2 [(0, 2)]; Fixed "bssid" 6 []; Fixed "client_mac" 6 []].

Definition ClientSecurityContext : Layout := mkLayout "ClientSecurityContext" (Some 0xde%Z) [
    Fixed "type" 1 []; Fixed "length" 2 [(0, 2)]; Fixed "subtype" 2 [(0, 2)];
    Fixed "client_connected_flags" 1 []; Fixed "key_length" 2 [(0, 2)];
    Counted "ptk" (Len16 "key_length") 1 []; Fixed "tx_pn_length" 2 [(0, 2)];
    Counted "tx_packet_num" (Len16 "tx_pn_length") 1 []; Fixed "group_key_length" 2 [(0, 2)];
    Counted "gtk" (Len16 "group_key_length") 1 []; Fixed "group_tx_pn_length" 2 [(0, 2)];
    Counted "group_tx_packet_num" (Len16 "group_tx_pn_length") 1 []].

Definition tlvControllerCapability : Layout := mkLayout "tlvControllerCapability" (Some 0xdd%Z) [
    Fixed "type" 1 []; Fixed "length" 2 [(0, 2)]; Fixed "flags" 1 []; Rest "reserved" 1 []].

Definition cRadioVendorInfo : list Field := [
    Fixed "ruid" 6 []; Fixed "chipset_vendor_length" 1 [];
    Counted "chipset_vendor" (Len8 "chipset_vendor_length") 1 []].

Definition tlvDeviceInventory : Layout := mkLayout "tlvDeviceInventory" (Some 0xd4%Z) [
    Fixed "type" 1 []; Fixed "length" 2 [(0, 2)]; Fixed "serial_number_length" 1 [];
    Counted "serial_number" (Len8 "serial_number_length") 1 [];
    Fixed "software_version_length" 1 [];
    Counted "software_version" (Len8 "software_version_length") 1 [];
    Fixed "execution_environment_length" 1 [];
    Counted "execution_environment" (Len8 "execution_environment_length") 1 [];
    Fixed "number_of_radios" 1 [];
    CountedClass "radios_vendor_info" (Len8 "number_of_radios") cRadioVendorInfo].

Definition tlvDppBootstrappingUriNotification : Layout := mkLayout "tlvDppBootstrappingUriNotification" (Some 0xcf%Z) [
    Fixed "type" 1 []; Fixed "length" 2 [(0, 2)]; Fixed "ruid" 6 []; Fixed "bssid" 6 [];
    Fixed "backhaul_sta_address" 6 []; Rest "dpp_uri" 1 []].

Definition tlvDppCceIndication : Layout := mkLayout "tlvDppCceIndication" (Some 0xd2%Z) [
    Fixed "type" 1 []; Fixed "length" 2 [(0, 2)]; Fixed "advertise_cee" 1 []].

Definition tlvDppChirpValue : Layout := mkLayout "tlvDppChirpValue" (Some 0xd3%Z) [
    Fixed "type" 1 []; Fixed "length" 2 [(0, 2)]; Fixed "flags" 1 [];
    When [IsSet "flags" 7 1] "dest_sta_mac" 6 []; Fixed "hash_length" 1 [];
    Counted "hash" (Len8 "hash_length") 1 []].

Definition tlvDppMessage : Layout := mkLayout "tlvDppMessage" (Some 0xd1%Z) [
    Fixed "type" 1 []; Fixed "length" 2 [(0, 2)]; Rest "dpp_frame" 1 []].

Definition tlvDscpMappingTable : Layout := mkLayout "tlvDscpMappingTable" (Some 0xba%Z) [
    Fixed "type" 1 []; Fixed "length" 2 [(0, 2)]; Array "dscp_pcp_mapping" 64 1 []].

Definition cBssEntry : list Field := [
    Fixed "bssid" 6 []; Fixed "flags" 1 []; Fixed "basic_eht_mcs_and_nss_set" 4 [(0, 4)];
    Fixed "control" 1 []; Fixed "ccfs0" 1 []; Fixed "ccfs1" 1 [];
    Fixed "disabled_subchannel_bitmap" 2 [(0, 2)]; Array "reserved" 16 1 []].

Definition cRadioEntry : list Field := [
    Fixed "ruid" 6 []; Fixed "num_bss" 1 []; CountedClass "bss_entries" (Len8 "num_bss") cBssEntry;
    Array "reserved" 25 1 []].

Definition tlvEHTOperations : Layout := mkLayout "tlvEHTOperations" (Some 0xe7%Z) [
    Fixed "type" 1 []; Fixed "length" 2 [(0, 2)]; Array "reserved" 32 1 []; Fixed "num_radio" 1 [];
    CountedClass "radio_entries" (Len8 "num_radio") cRadioEntry].

Definition tlvEncryptedPayload : Layout := mkLayout "tlvEncryptedPayload" (Some 0xac%Z) [
    Fixed "type" 1 []; Fixed "length" 2 [(0, 2)]; Array "encryption_transmission_counter" 6 1 [];
    Fixed "source_1905_al_mac_address" 6 []; Fixed "destination_1905_al_mac_address" 6 [];
    Fixed "aes_siv_length" 2 [(0, 2)]; Counted "aes_siv" (Len16 "aes_siv_length") 1 []].

Definition tlvErrorCode : Layout := mkLayout "tlvErrorCode" (Some 0xa3%Z) [
    Fixed "type" 1 []; Fixed "length" 2 [(0, 2)]; Fixed "reason_code" 1 []; Fixed "sta_mac" 6 []].

Definition tlvHigherLayerData : Layout := mkLayout "tlvHigherLayerData" (Some 0xa0%Z) [
    Fixed "type" 1 []; Fixed "length" 2 [(0, 2)]; Fixed "protocol" 1 []; Rest "payload" 1 []].

Definition tlvMetricReportingPolicy : Layout := mkLayout "tlvMetricReportingPolicy" (Some 0x8a%Z) [
    Fixed "type" 1 []; Fixed "length" 2 [(0, 2)]; Fixed "metrics_reporting_interval_sec" 1 [];
    Fixed "metrics_reporting_conf_list_length" 1 [];
    Counted "metrics_reporting_conf_list" (Len8 "metrics_reporting_conf_list_length") 10 []].

Definition tlvMic : Layout := mkLayout "tlvMic" (Some 0xab%Z) [
    Fixed "type" 1 []; Fixed "length" 2 [(0, 2)]; Fixed "flags" 1 [];
    Array "integrity_transmission_counter" 6 1 []; Fixed "source_1905_al_mac_address" 6 [];
    Fixed "mic_length" 2 [(0, 2)]; Counted "mic" (Len16 "mic_length") 1 []].

Definition cAffiliated : list Field := [
    Fixed "affiliated_mac_addr" 6 []; Array "reserved" 26 1 []].

Definition tlvMldStructure : Layout := mkLayout "tlvMldStructure" (Some 0xe3%Z) [
    Fixed "type" 1 []; Fixed "length" 2 [(0, 2)]; Fixed "mld_mac_addr" 6 [];
    Array "reserved" 25 1 []; Fixed "num_affiliated" 1 [];
    CountedClass "affiliated" (Len8 "num_affiliated") cAffiliated].

Definition tlvOperatingChannelReport : Layout := mkLayout "tlvOperatingChannelReport" (Some 0x8f%Z) [
    Fixed "type" 1 []; Fixed "length" 2 [(0, 2)]; Fixed "radio_uid" 6 [];
    Fixed "operating_classes_list_length" 1 [];
    Counted "operating_classes_list" (Len8 "operating_classes_list_length") 2 [];
    Fixed "current_transmit_power" 1 []].

Definition tlvProfile2ApCapability : Layout := mkLayout "tlvProfile2ApCapability" (Some 0xb4%Z) [
    Fixed "type" 1 []; Fixed "length" 2 [(0, 2)]; Fixed "max_prioritization_rules" 1 [];
    Fixed "reserved" 1 []; Fixed "capabilities_bit_field" 1 [];
    Fixed "max_total_number_of_vids" 1 []].

Definition tlvProfile2ApRadioAdvancedCapabilities : Layout := mkLayout "tlvProfile2ApRadioAdvancedCapabilities" (Some 0xbe%Z) [
    Fixed "type" 1 []; Fixed "length" 2 [(0, 2)]; Fixed "radio_uid" 6 [];
    Fixed "advanced_radio_capabilities" 1 []].

Definition tlvProfile2AssociationStatusNotification : Layout := mkLayout "tlvProfile2AssociationStatusNotification" (Some 0xbf%Z) [
    Fixed "type" 1 []; Fixed "length" 2 [(0, 2)]; Fixed "bssid_status_list_length" 1 [];
    Counted "bssid_status_list" (Len8 "bssid_status_list_length") 7 []].

Definition cCacCapabilitiesOperatingClasses : list Field := [
    Fixed "operating_class" 1 []; Fixed "number_of_channels" 1 [];
    Counted "channels" (Len8 "number_of_channels") 1 []].

Definition cCacTypes : list Field := [
    Fixed "cac_method" 1 []; Array "duration" 3 1 []; Fixed "number_of_operating_classes" 1 [];
    CountedClass "operating_classes" (Len8 "number_of_operating_classes") cCacCapabilitiesOperatingClasses].

Definition cCacCapabilitiesRadio : list Field := [
    Fixed "radio_uid" 6 []; Fixed "number_of_cac_type_supported" 1 [];
    CountedClass "cac_types" (Len8 "number_of_cac_type_supported") cCacTypes].

Definition tlvProfile2CacCapabilities : Layout := mkLayout "tlvProfile2CacCapabilities" (Some 0xb2%Z) [
    Fixed "type" 1 []; Fixed "length" 2 [(0, 2)]; Array "country_code" 2 1 [];
    Fixed "number_of_cac_radios" 1 [];
    CountedClass "cac_radios" (Len8 "number_of_cac_radios") cCacCapabilitiesRadio].

Definition cCacCompletionReportRadio : list Field := [
    Fixed "radio_uid" 6 []; Fixed "operating_class" 1 []; Fixed "channel" 1 [];
    Fixed "cac_completion_status" 1 []; Fixed "number_of_detected_pairs" 1 [];
    Counted "detected_pairs" (Len8 "number_of_detected_pairs") 2 []].

Definition tlvProfile2CacCompletionReport : Layout := mkLayout "tlvProfile2CacCompletionReport" (Some 0xaf%Z) [
    Fixed "type" 1 []; Fixed "length" 2 [(0, 2)]; Fixed "number_of_cac_radios" 1 [];
    CountedClass "cac_radios" (Len8 "number_of_cac_radios") cCacCompletionReportRadio].

Definition tlvProfile2CacRequest : Layout := mkLayout "tlvProfile2CacRequest" (Some 0xad%Z) [
    Fixed "type" 1 []; Fixed "length" 2 [(0, 2)]; Fixed "number_of_cac_radios" 1 [];
    Counted "cac_radios" (Len8 "number_of_cac_radios") 9 []].

Definition tlvProfile2CacStatusReport : Layout := mkLayout "tlvProfile2CacStatusReport" (Some 0xb1%Z) [
    Fixed "type" 1 []; Fixed "length" 2 [(0, 2)]; Fixed "number_of_available_channels" 1 [];
    Counted "available_channels" (Len8 "number_of_available_channels") 4 [(2, 2)];
    Fixed "number_of_detected_pairs" 1 [];
    Counted "detected_pairs" (Len8 "number_of_detected_pairs") 4 [(2, 2)];
    Fixed "number_of_active_cac_pairs" 1 [];
    Counted "active_cac_pairs" (Len8 "number_of_active_cac_pairs") 5 []].

Definition tlvProfile2CacTermination : Layout := mkLayout "tlvProfile2CacTermination" (Some 0xae%Z) [
    Fixed "type" 1 []; Fixed "length" 2 [(0, 2)]; Fixed "number_of_cac_radios" 1 [];
    Counted "cac_radios" (Len8 "number_of_cac_radios") 8 []].

Definition cRadiosToScan : list Field := [
    Fixed "radio_uid" 6 []; Fixed "operating_classes_list_length" 1 [];
    CountedClass "operating_classes_list" (Len8 "operating_classes_list_length") cOperatingClasses].

Definition tlvProfile2ChannelScanRequest : Layout := mkLayout "tlvProfile2ChannelScanRequest" (Some 0xa6%Z) [
    Fixed "type" 1 []; Fixed "length" 2 [(0, 2)]; Fixed "perform_fresh_scan" 1 [];
    Fixed "radio_list_length" 1 [];
    CountedClass "radio_list" (Len8 "radio_list_length") cRadiosToScan].

Definition cNeighbors : list Field := [
    Fixed "bssid" 6 []; Fixed "ssid_length" 1 []; Counted "ssid" (Len8 "ssid_length") 1 [];
    Fixed "signal_strength" 1 []; Fixed "channel_bw_length" 1 [];
    Counted "channels_bw_list" (Len8 "channel_bw_length") 1 [];
    Fixed "bss_load_element_present" 1 [];
    When [IsValue "bss_load_element_present" 0x80] "channel_utilization" 1 [];
    When [IsValue "bss_load_element_present" 0x80] "station_count" 2 [(0, 2)]].

Definition cRadioScanResult : list Field := [
    Fixed "timestamp_length" 1 []; Counted "timestamp" (Len8 "timestamp_length") 1 [];
    Fixed "utilization" 1 []; Fixed "noise" 1 []; Fixed "neighbors_list_length" 2 [(0, 2)];
    CountedClass "neighbors_list" (Len16 "neighbors_list_length") cNeighbors;
    Fixed "aggregate_scan_duration" 4 [(0, 4)]; Fixed "scan_type" 1 []].

Definition tlvProfile2ChannelScanResult : Layout := mkLayout "tlvProfile2ChannelScanResult" (Some 0xa7%Z) [
    Fixed "type" 1 []; Fixed "length" 2 [(0, 2)]; Fixed "radio_uid" 6 [];
    Fixed "operating_class" 1 []; Fixed "channel" 1 []; Fixed "success" 1 [];
    RestClass "scan_result" cRadioScanResult].

Definition tlvProfile2Default802dotQSettings : Layout := mkLayout "tlvProfile2Default802dotQSettings" (Some 0xb5%Z) [
    Fixed "type" 1 []; Fixed "length" 2 [(0, 2)]; Fixed "primary_vlan_id" 2 [(0, 2)];
    Fixed "default_pcp" 1 []].

Definition tlvProfile2ErrorCode : Layout := mkLayout "tlvProfile2ErrorCode" (Some 0xbc%Z) [
    Fixed "type" 1 []; Fixed "length" 2 [(0, 2)]; Fixed "reason_code" 1 [];
    When [IsValue "reason_code" 0x3; IsValue "reason_code" 0x5] "bssid" 6 [];
    When [IsValue "reason_code" 0x1; IsValue "reason_code" 0x2] "service_prioritization_rule_id" 4 [(0, 4)]].

Definition tlvProfile2MetricCollectionInterval : Layout := mkLayout "tlvProfile2MetricCollectionInterval" (Some 0xc5%Z) [
    Fixed "type" 1 []; Fixed "length" 2 [(0, 2)]; Fixed "collection_interval" 4 [(0, 4)]].

Definition tlvProfile2MultiApProfile : Layout := mkLayout "tlvProfile2MultiApProfile" (Some 0xb3%Z) [
    Fixed "type" 1 []; Fixed "length" 2 [(0, 2)]; Fixed "profile" 1 []].

Definition tlvProfile2RadioMetrics : Layout := mkLayout "tlvProfile2RadioMetrics" (Some 0xc6%Z) [
    Fixed "type" 1 []; Fixed "length" 2 [(0, 2)]; Fixed "radio_uid" 6 []; Fixed "noise" 1 [];
    Fixed "transmit" 1 []; Fixed "receive_self" 1 []; Fixed "receive_other" 1 []].

Definition tlvProfile2ReasonCode : Layout := mkLayout "tlvProfile2ReasonCode" (Some 0xca%Z) [
    Fixed "type" 1 []; Fixed "length" 2 [(0, 2)]; Fixed "reason_code" 2 [(0, 2)]].

Definition tlvProfile2StatusCode : Layout := mkLayout "tlvProfile2StatusCode" (Some 0xc9%Z) [
    Fixed "type" 1 []; Fixed "length" 2 [(0, 2)]; Fixed "status_code" 2 [(0, 2)]].

Definition tlvProfile2SteeringRequest : Layout := mkLayout "tlvProfile2SteeringRequest" (Some 0xc3%Z) [
    Fixed "type" 1 []; Fixed "length" 2 [(0, 2)]; Fixed "bssid" 6 []; Fixed "request_flags" 1 [];
    Fixed "steering_opportunity_window_sec" 2 [(0, 2)];
    Fixed "btm_disassociation_timer_ms" 2 [(0, 2)]; Fixed "sta_list_length" 1 [];
    Counted "sta_list" (Len8 "sta_list_length") 6 []; Fixed "target_bssid_list_length" 1 [];
    Counted "target_bssid_list" (Len8 "target_bssid_list_length") 9 []].

Definition cSsidVlanId : list Field := [
    Fixed "ssid_name_length" 1 []; Counted "ssid_name" (Len8 "ssid_name_length") 1 [];
    Fixed "vlan_id" 2 [(0, 2)]].

Definition tlvProfile2TrafficSeparationPolicy : Layout := mkLayout "tlvProfile2TrafficSeparationPolicy" (Some 0xb6%Z) [
    Fixed "type" 1 []; Fixed "length" 2 [(0, 2)]; Fixed "ssids_vlan_id_list_length" 1 [];
    CountedClass "ssids_vlan_id_list" (Len8 "ssids_vlan_id_list_length") cSsidVlanId].

Definition tlvProfile2UnsuccessfulAssociationPolicy : Layout := mkLayout "tlvProfile2UnsuccessfulAssociationPolicy" (Some 0xc4%Z) [
    Fixed "type" 1 []; Fixed "length" 2 [(0, 2)]; Fixed "report_unsuccessful_associations" 1 [];
    Fixed "maximum_reporting_rate" 4 [(0, 4)]].

Definition tlvQoSManagementDescriptor : Layout := mkLayout "tlvQoSManagementDescriptor" (Some 0xdc%Z) [
    Fixed "type" 1 []; Fixed "length" 2 [(0, 2)]; Fixed "qmid" 2 [(0, 2)]; Fixed "bssid" 6 [];
    Fixed "client_mac" 6 []; Rest "descriptor_element" 1 []].

Definition tlvQoSManagementPolicy : Layout := mkLayout "tlvQoSManagementPolicy" (Some 0xdb%Z) [
    Fixed "type" 1 []; Fixed "length" 2 [(0, 2)]; Fixed "mscs_disallowed_sta_length" 1 [];
    Counted "mscs_disallowed_sta_list" (Len8 "mscs_disallowed_sta_length") 6 [];
    Fixed "scs_disallowed_sta_length" 1 [];
    Counted "scs_disallowed_sta_list" (Len8 "scs_disallowed_sta_length") 6 [];
    Array "reserved" 20 1 []].

Definition cRestrictedOperatingClasses : list Field := [
    Fixed "operating_class" 1 []; Fixed "channel_list_length" 1 [];
    Counted "channel_list" (Len8 "channel_list_length") 2 []].

Definition tlvRadioOperationRestriction : Layout := mkLayout "tlvRadioOperationRestriction" (Some 0x8c%Z) [
    Fixed "type" 1 []; Fixed "length" 2 [(0, 2)]; Fixed "radio_uid" 6 [];
    Fixed "operating_classes_list_length" 1 [];
    CountedClass "operating_classes_list" (Len8 "operating_classes_list_length") cRestrictedOperatingClasses].

Definition cRsnBss : list Field := [
    Fixed "bssid" 6 []; Fixed "bss_index" 1 []; Fixed "security_ies_length" 2 [(0, 2)];
    Counted "security_ies" (Len16 "security_ies_length") 1 []; Array "reserved" 16 1 []].

Definition cRsnRadio : list Field := [
    Fixed "ruid" 6 []; Fixed "num_bss" 1 []; CountedClass "bsss" (Len8 "num_bss") cRsnBss;
    Array "reserved" 16 1 []].

Definition tlvRsnParametersConfiguration : Layout := mkLayout "tlvRsnParametersConfiguration" (Some 0xeb%Z) [
    Fixed "type" 1 []; Fixed "length" 2 [(0, 2)]; Fixed "num_radio" 1 [];
    CountedClass "radios" (Len8 "num_radio") cRsnRadio].

Definition tlvSearchedService : Layout := mkLayout "tlvSearchedService" (Some 0x81%Z) [
    Fixed "type" 1 []; Fixed "length" 2 [(0, 2)]; Fixed "searched_service_list_length" 1 [];
    Counted "searched_service_list" (Len8 "searched_service_list_length") 1 []].

Definition tlvServicePrioritizationRule : Layout := mkLayout "tlvServicePrioritizationRule" (Some 0xb9%Z) [
    Fixed "type" 1 []; Fixed "length" 2 [(0, 2)]; Fixed "rule_params" 8 [(0, 4)]].

Definition tlvSpatialReuseConfigResponse : Layout := mkLayout "tlvSpatialReuseConfigResponse" (Some 0xda%Z) [
    Fixed "type" 1 []; Fixed "length" 2 [(0, 2)]; Fixed "radio_uid" 6 [];
    Fixed "response_code" 1 []].

Definition tlvSpatialReuseReport : Layout := mkLayout "tlvSpatialReuseReport" (Some 0xd9%Z) [
    Fixed "type" 1 []; Fixed "length" 2 [(0, 2)]; Fixed "radio_uid" 6 []; Fixed "flags1" 1 [];
    Fixed "flags2" 1 []; Fixed "non_srg_obsspd_max_offset" 1 [];
    Fixed "srg_obsspd_min_offset" 1 []; Fixed "srg_obsspd_max_offset" 1 [];
    Fixed "srg_bss_color_bitmap" 8 [(0, 8)]; Fixed "srg_partial_bssid_bitmap" 8 [(0, 8)];
    Fixed "neighbor_bss_color_in_use_bitmap" 8 [(0, 8)]; Fixed "reserved" 2 [(0, 2)]].

Definition tlvSpatialReuseRequest : Layout := mkLayout "tlvSpatialReuseRequest" (Some 0xd8%Z) [
    Fixed "type" 1 []; Fixed "length" 2 [(0, 2)]; Fixed "radio_uid" 6 []; Fixed "flags1" 1 [];
    Fixed "flags2" 1 []; Fixed "non_srg_obsspd_max_offset" 1 [];
    Fixed "srg_obsspd_min_offset" 1 []; Fixed "srg_obsspd_max_offset" 1 [];
    Fixed "srg_bss_color_bitmap" 8 [(0, 8)]; Fixed "srg_partial_bssid_bitmap" 8 [(0, 8)];
    Fixed "reserved" 2 [(0, 2)]].

Definition tlvStaMacAddressType : Layout := mkLayout "tlvStaMacAddressType" (Some 0x95%Z) [
    Fixed "type" 1 []; Fixed "length" 2 [(0, 2)]; Fixed "sta_mac" 6 []].

Definition tlvSteeringBTMReport : Layout := mkLayout "tlvSteeringBTMReport" (Some 0x9c%Z) [
    Fixed "type" 1 []; Fixed "length" 2 [(0, 2)]; Fixed "bssid" 6 []; Fixed "sta_mac" 6 [];
    Fixed "btm_status_code" 1 []; When [IsValue "btm_status_code" 0x0] "target_bssid" 6 []].

Definition tlvSteeringPolicy : Layout := mkLayout "tlvSteeringPolicy" (Some 0x89%Z) [
    Fixed "type" 1 []; Fixed "length" 2 [(0, 2)];
    Fixed "local_steering_disallowed_sta_list_length" 1 [];
    Counted "local_steering_disallowed_sta_list" (Len8 "local_steering_disallowed_sta_list_length") 6 [];
    Fixed "btm_steering_disallowed_sta_list_length" 1 [];
    Counted "btm_steering_disallowed_sta_list" (Len8 "btm_steering_disallowed_sta_list_length") 6 [];
    Fixed "radio_ap_control_policy_list_length" 1 [];
    Counted "radio_ap_control_policy_list" (Len8 "radio_ap_control_policy_list_length") 9 []].

Definition tlvSteeringRequest : Layout := mkLayout "tlvSteeringRequest" (Some 0x9b%Z) [
    Fixed "type" 1 []; Fixed "length" 2 [(0, 2)]; Fixed "bssid" 6 []; Fixed "request_flags" 1 [];
    Fixed "steering_opportunity_window_sec" 2 [(0, 2)];
    Fixed "btm_disassociation_timer_ms" 2 [(0, 2)]; Fixed "sta_list_length" 1 [];
    Counted "sta_list" (Len8 "sta_list_length") 6 []; Fixed "target_bssid_list_length" 1 [];
    Counted "target_bssid_list" (Len8 "target_bssid_list_length") 8 []].

Definition tlvSupportedService : Layout := mkLayout "tlvSupportedService" (Some 0x80%Z) [
    Fixed "type" 1 []; Fixed "length" 2 [(0, 2)]; Fixed "supported_service_list_length" 1 [];
    Counted "supported_service_list" (Len8 "supported_service_list_length") 1 []].

Definition cTidToLinkControlField : list Field := [
    Fixed "tid_to_link_control" 1 []; Fixed "link_mapping_presence_indicator" 1 [];
    Array "expected_duration" 3 1 []].

Definition cMapping : list Field := [
    Fixed "add_remove" 1 []; Fixed "sta_mld_mac_addr" 6 [];
    OneClass "tid_to_link_control_field" cTidToLinkControlField; Fixed "tid_to_link_mapping" 1 [];
    Array "reserved" 7 1 []].

Definition tlvTidToLinkMappingPolicy : Layout := mkLayout "tlvTidToLinkMappingPolicy" (Some 0xe6%Z) [
    Fixed "type" 1 []; Fixed "length" 2 [(0, 2)]; Fixed "is_bsta_config" 1 [];
    Fixed "mld_mac_addr" 6 []; Fixed "tid_to_link_mapping_negotiation" 1 [];
    Array "reserved" 22 1 []; Fixed "num_mapping" 2 [(0, 2)];
    CountedClass "mapping" (Len16 "num_mapping") cMapping].

Definition tlvTimestamp : Layout := mkLayout "tlvTimestamp" (Some 0xa8%Z) [
    Fixed "type" 1 []; Fixed "length" 2 [(0, 2)]; Fixed "timestamp_length" 1 [];
    Counted "timestamp" (Len8 "timestamp_length") 1 []].

Definition tlvTransmitPowerLimit : Layout := mkLayout "tlvTransmitPowerLimit" (Some 0x8d%Z) [
    Fixed "type" 1 []; Fixed "length" 2 [(0, 2)]; Fixed "radio_uid" 6 [];
    Fixed "transmit_power_limit_dbm" 1 []].

Definition TriggerChannelSwitchAnnouncement : Layout := mkLayout "TriggerChannelSwitchAnnouncement" (Some 0xde%Z) [
    Fixed "type" 1 []; Fixed "length" 2 [(0, 2)]; Fixed "subtype" 2 [(0, 2)];
    Fixed "csa_channel" 1 []; Fixed "opclass" 1 []].

Definition tlvTunnelledData : Layout := mkLayout "tlvTunnelledData" (Some 0xc2%Z) [
    Fixed "type" 1 []; Fixed "length" 2 [(0, 2)]; Rest "data" 1 []].

Definition tlvTunnelledProtocolType : Layout := mkLayout "tlvTunnelledProtocolType" (Some 0xc1%Z) [
    Fixed "type" 1 []; Fixed "length" 2 [(0, 2)]; Fixed "protocol_type" 1 []].

Definition tlvTunnelledSourceInfo : Layout := mkLayout "tlvTunnelledSourceInfo" (Some 0xc0%Z) [
    Fixed "type" 1 []; Fixed "length" 2 [(0, 2)]; Fixed "mac" 6 []].

Definition cChannelParameters : list Field := [
    Fixed "channel_number" 1 []; Fixed "sta_list_length" 1 [];
    Counted "sta_list" (Len8 "sta_list_length") 6 []].

Definition tlvUnassociatedStaLinkMetricsQuery : Layout := mkLayout "tlvUnassociatedStaLinkMetricsQuery" (Some 0x97%Z) [
    Fixed "type" 1 []; Fixed "length" 2 [(0, 2)]; Fixed "operating_class_of_channel_list" 1 [];
    Fixed "channel_list_length" 1 [];
    CountedClass "channel_list" (Len8 "channel_list_length") cChannelParameters].

Definition tlvUnassociatedStaLinkMetricsResponse : Layout := mkLayout "tlvUnassociatedStaLinkMetricsResponse" (Some 0x98%Z) [
    Fixed "type" 1 []; Fixed "length" 2 [(0, 2)]; Fixed "operating_class_of_channel_list" 1 [];
    Fixed "sta_list_length" 1 []; Counted "sta_list" (Len8 "sta_list_length") 12 [(7, 4)]].

Definition cVbssBssInfo : list Field := [
    Fixed "bssid" 6 []; Fixed "ssid_length" 1 []; Counted "ssid" (Len8 "ssid_length") 1 []].

Definition cVbssRadioInfo : list Field := [
    Fixed "radio_uid" 6 []; Fixed "number_bss" 1 [];
    CountedClass "bss_list" (Len8 "number_bss") cVbssBssInfo].

Definition VbssConfigurationReport : Layout := mkLayout "VbssConfigurationReport" (Some 0xde%Z) [
    Fixed "type" 1 []; Fixed "length" 2 [(0, 2)]; Fixed "subtype" 2 [(0, 2)];
    Fixed "number_of_radios" 1 [];
    CountedClass "radio_list" (Len8 "number_of_radios") cVbssRadioInfo].

Definition VirtualBssCreation : Layout := mkLayout "VirtualBssCreation" (Some 0xde%Z) [
    Fixed "type" 1 []; Fixed "length" 2 [(0, 2)]; Fixed "subtype" 2 [(0, 2)];
    Fixed "radio_uid" 6 []; Fixed "bssid" 6 []; Fixed "ssid_length" 2 [(0, 2)];
    Counted "ssid" (Len16 "ssid_length") 1 []; Fixed "authentication_type" 2 [(0, 2)];
    Fixed "pass_length" 2 [(0, 2)]; Counted "pass" (Len16 "pass_length") 1 [];
    Array "encryption_oui" 3 1 []; Fixed "encryption_suite_type" 2 [(0, 2)];
    Fixed "dpp_connector_length" 2 [(0, 2)];
    Counted "dpp_connector" (Len16 "dpp_connector_length") 1 []; Fixed "client_mac" 6 [];
    Fixed "client_assoc" 1 []; Fixed "key_length" 2 [(0, 2)];
    Counted "ptk" (Len16 "key_length") 1 []; Fixed "tx_pn_length" 2 [(0, 2)];
    Counted "tx_packet_num" (Len16 "tx_pn_length") 1 []; Fixed "group_key_length" 2 [(0, 2)];
    Counted "gtk" (Len16 "group_key_length") 1 []; Fixed "group_tx_pn_length" 2 [(0, 2)];
    Counted "group_tx_packet_num" (Len16 "group_tx_pn_length") 1 []].

Definition VirtualBssDestruction : Layout := mkLayout "VirtualBssDestruction" (Some 0xde%Z) [
    Fixed "type" 1 []; Fixed "length" 2 [(0, 2)]; Fixed "subtype" 2 [(0, 2)];
    Fixed "radio_uid" 6 []; Fixed "bssid" 6 []; Fixed "disassociate_client" 1 []].

Definition VirtualBssEvent : Layout := mkLayout "VirtualBssEvent" (Some 0xde%Z) [
    Fixed "type" 1 []; Fixed "length" 2 [(0, 2)]; Fixed "subtype" 2 [(0, 2)];
    Fixed "radio_uid" 6 []; Fixed "success" 1 []; Fixed "bssid" 6 []].

Definition cRadioConfig : list Field := [
    Fixed "ruid" 6 []; Fixed "frequency_separation" 1 []].

Definition cWifi7Capabilities : list Field := [
    Fixed "num_str_records" 1 []; CountedClass "str_config" (Len8 "num_str_records") cRadioConfig;
    Fixed "num_nstr_records" 1 [];
    CountedClass "nstr_config" (Len8 "num_nstr_records") cRadioConfig;
    Fixed "num_emlsr_records" 1 [];
    CountedClass "emlsr_config" (Len8 "num_emlsr_records") cRadioConfig;
    Fixed "num_emlmr_records" 1 [];
    CountedClass "emlmr_config" (Len8 "num_emlmr_records") cRadioConfig].

Definition cRadioWifi7Capabilities : list Field := [
    Fixed "ruid" 6 []; Array "reserved" 24 1 []; Fixed "ap_modes_support" 1 [];
    Fixed "bsta_modes_support" 1 []; OneClass "ap_wifi7_capabilities" cWifi7Capabilities;
    OneClass "bsta_wifi7_capabilities" cWifi7Capabilities].

Definition tlvWifi7AgentCapabilities : Layout := mkLayout "tlvWifi7AgentCapabilities" (Some 0xdf%Z) [
    Fixed "type" 1 []; Fixed "length" 2 [(0, 2)]; Fixed "max_num_mlds" 1 []; Fixed "flags1" 1 [];
    Fixed "flags2" 1 []; Array "reserved" 13 1 []; Fixed "num_radio" 1 [];
    CountedClass "radio_wifi7_capabilities" (Len8 "num_radio") cRadioWifi7Capabilities].

Definition tlvVendorExample : Layout := mkLayout "tlvVendorExample" (Some 0xb%Z) [
    Fixed "type" 1 []; Fixed "length" 2 [(0, 2)]; Fixed "vendor_oui" 3 [(0, 3)]].
