(* ===== verification/CmduMessage.v ===== *)
(** * Received CMDUs

    [ClassList] ([ClassList.cpp], [ClassList.h]) and [CmduMessageRx]
    ([CmduMessageRx.cpp]): how a received CMDU is taken apart into objects of
    the TLV classes. Reading outside of the buffer is a fault; [LOG(FATAL)]
    ends the process. *)

From S2P Require Import Prelude Wire Tlvf TlvClasses1905 TlvClassesMap.

(** ** Class lists *)

(** [ClassList] for parsing: [m_buff], [m_swapped], [m_class_vector]. *)
Record ClassList := mkClassList {
  m_buff : list Z;
  m_swapped : bool;
  m_class_vector : list Object;
}.

(** [prevClass()->getBuffPtr()], or the start of the buffer. *)
Definition next_ptr (m : ClassList) : nat :=
  match last (m_class_vector m) with None => 0 | Some o => o_ptr o end.

(** [addClass<T>()]: the class finds its place behind the last one; it is
    added when its [init()] succeeds. *)
Definition addClass (L : Layout) : faultM ClassList (option Object) := λ m,
  match init_parse L (next_ptr m) (length (m_buff m)) (m_buff m) with
  | (None, b) => (None, mkClassList b (m_swapped m) (m_class_vector m))
  | (Some None, b) => (Some None, mkClassList b (m_swapped m) (m_class_vector m))
  | (Some (Some o), b) => (Some (Some o), mkClassList b (m_swapped m) (m_class_vector m ++ [o]))
  end.

(** [getClass<T>()] by the name of the class: the first object. *)
Definition getClass (name : string) (m : ClassList) : option Object :=
  snd <$> list_find (λ o, o_class o = name) (m_class_vector m).

(** [reset(true)]. *)
Definition reset : faultM ClassList unit := λ m, (Some tt, mkClassList (m_buff m) false []).

(** [getMessageLength()]: the sum of the lengths of the objects. *)
Definition getLen (o : Object) : nat := o_ptr o - o_start o.
Definition getMessageLength (m : ClassList) : nat := sum_list_with getLen (m_class_vector m).

(** [swap()]: [class_swap()] of every object in turn. *)
Fixpoint swap_objects (l : list Object) : faultM (list Z) unit :=
  match l with
  | [] => fret tt
  | o :: l => _ <- class_swap (o_spots o) ;; swap_objects l
  end.
Definition swap : faultM ClassList unit := λ m,
  match swap_objects (m_class_vector m) (m_buff m) with
  | (r, b) => (r, mkClassList b (negb (m_swapped m)) (m_class_vector m))
  end.

(** ** The next TLV *)

Definition read_at (off : nat) : faultM ClassList Z := λ m, (m_buff m !! off, m).

Definition getCmduHeader : faultM ClassList (option Object) := λ m, (Some (getClass "cCmduHeader" m), m).

(** [getNextTlvType()]: the byte behind the last object; [-1] without a CMDU
    header. *)
Definition getNextTlvType : faultM ClassList Z :=
  h <- getCmduHeader ;;
  match h with None => fret (-1) | Some _ => λ m, read_at (next_ptr m) m end.

(** [getNextTlvLength()], [getNextTlvSubtype()]: the 16-bit fields behind the
    type and behind the length, in host order. *)
Definition read_be16 (ofs : nat) : faultM ClassList Z := λ m,
  (hi <- read_at (next_ptr m + ofs) ;; lo <- read_at (next_ptr m + ofs + 1) ;; fret (be16 hi lo)) m.
Definition getNextTlvLength : faultM ClassList Z :=
  h <- getCmduHeader ;; match h with None => fret 0xFFFF | Some _ => read_be16 1 end.
Definition getNextTlvSubtype : faultM ClassList Z :=
  h <- getCmduHeader ;; match h with None => fret 0xFFFF | Some _ => read_be16 3 end.

(** The enumerators with their classes, in the order of the [switch]
    statements. *)
Definition ieee1905_switch : list (Z * Layout) := [
    (0x0, tlvEndOfMessage); (0x1, tlvAlMacAddress); (0x2, tlvMacAddress);
    (0x3, tlvDeviceInformation); (0x4, tlvDeviceBridgingCapability);
    (0x6, tlvNon1905neighborDeviceList); (0x7, tlv1905NeighborDevice);
    (0x9, tlvTransmitterLinkMetric); (0xa, tlvReceiverLinkMetric); (0xb, tlvVendorSpecific);
    (0xc, tlvLinkMetricResultCode); (0xd, tlvSearchedRole); (0xe, tlvAutoconfigFreqBand);
    (0xf, tlvSupportedRole); (0x10, tlvSupportedFreqBand); (0x11, tlvWsc);
    (0x12, tlvPushButtonEventNotification); (0x13, tlvPushButtonJoinNotification)].

Definition map_switch : list (Z * Layout) := [
    (0x80, tlvSupportedService); (0x81, tlvSearchedService);
    (0xd6, tlvAnticipatedChannelPreference); (0x82, tlvApRadioIdentifier);
    (0x83, tlvApOperationalBSS); (0x84, tlvAssociatedClients); (0x85, tlvApRadioBasicCapabilities);
    (0x86, tlvApHtCapabilities); (0x87, tlvApVhtCapabilities); (0x88, tlvApHeCapabilities);
    (0x89, tlvSteeringPolicy); (0x8a, tlvMetricReportingPolicy); (0x8b, tlvChannelPreference);
    (0x8c, tlvRadioOperationRestriction); (0x8d, tlvTransmitPowerLimit);
    (0x8e, tlvChannelSelectionResponse); (0x8f, tlvOperatingChannelReport); (0x90, tlvClientInfo);
    (0x91, tlvClientCapabilityReport); (0x92, tlvClientAssociationEvent); (0x93, tlvApMetricQuery);
    (0x94, tlvApMetrics); (0x95, tlvStaMacAddressType); (0x96, tlvAssociatedStaLinkMetrics);
    (0x97, tlvUnassociatedStaLinkMetricsQuery); (0x98, tlvUnassociatedStaLinkMetricsResponse);
    (0x99, tlvBeaconMetricsQuery); (0x9a, tlvBeaconMetricsResponse); (0x9b, tlvSteeringRequest);
    (0x9c, tlvSteeringBTMReport); (0x9d, tlvClientAssociationControlRequest);
    (0x9e, tlvBackhaulSteeringRequest); (0x9f, tlvBackhaulSteeringResponse);
    (0xa0, tlvHigherLayerData); (0xa1, tlvApCapability); (0xa2, tlvAssociatedStaTrafficStats);
    (0xa3, tlvErrorCode); (0xa4, tlvChannelScanReportingPolicy);
    (0xa5, tlvChannelScanCapabilities); (0xa6, tlvProfile2ChannelScanRequest);
    (0xa7, tlvProfile2ChannelScanResult); (0xd0, tlvBackhaulBssConfiguration);
    (0xa8, tlvTimestamp); (0xad, tlvProfile2CacRequest); (0xae, tlvProfile2CacTermination);
    (0xaf, tlvProfile2CacCompletionReport); (0xb1, tlvProfile2CacStatusReport);
    (0xb2, tlvProfile2CacCapabilities); (0xb3, tlvProfile2MultiApProfile);
    (0xb4, tlvProfile2ApCapability); (0xb5, tlvProfile2Default802dotQSettings);
    (0xb6, tlvProfile2TrafficSeparationPolicy); (0xb9, tlvServicePrioritizationRule);
    (0xba, tlvDscpMappingTable); (0xbc, tlvProfile2ErrorCode);
    (0xbe, tlvProfile2ApRadioAdvancedCapabilities);
    (0xbf, tlvProfile2AssociationStatusNotification); (0xc0, tlvTunnelledSourceInfo);
    (0xc1, tlvTunnelledProtocolType); (0xc2, tlvTunnelledData); (0xc3, tlvProfile2SteeringRequest);
    (0xc4, tlvProfile2UnsuccessfulAssociationPolicy); (0xc5, tlvProfile2MetricCollectionInterval);
    (0xc6, tlvProfile2RadioMetrics); (0xc7, tlvApExtendedMetrics);
    (0xc8, tlvAssociatedStaExtendedLinkMetrics); (0xc9, tlvProfile2StatusCode);
    (0xca, tlvProfile2ReasonCode); (0xcb, tlvBackhaulStaRadioCapabilities);
    (0xd4, tlvDeviceInventory); (0xb0, tlvAssociatedWiFi6StaStatusReport);
    (0xa9, tlv1905LayerSecurityCapability); (0xab, tlvMic); (0xcc, tlvAkmSuiteCapabilities);
    (0xac, tlvEncryptedPayload); (0xcd, tlv1905EncapDpp); (0xce, tlv1905EncapEapol);
    (0xcf, tlvDppBootstrappingUriNotification); (0xb7, tlvBssConfigurationReport);
    (0xbb, tlvBssConfigurationRequest); (0xbd, tlvBssConfigurationResponse); (0xb8, tlvBssid);
    (0xd1, tlvDppMessage); (0xd2, tlvDppCceIndication); (0xd3, tlvDppChirpValue);
    (0xd5, tlvAgentList); (0xda, tlvSpatialReuseConfigResponse); (0xdb, tlvQoSManagementPolicy);
    (0xdd, tlvControllerCapability); (0xaa, tlvApWifi6Capabilities);
    (0xdc, tlvQoSManagementDescriptor); (0xd8, tlvSpatialReuseRequest);
    (0xd9, tlvSpatialReuseReport); (0xdf, tlvWifi7AgentCapabilities);
    (0xe0, tlvAgentApMldConfiguration); (0xe1, tlvBackhaulStaMldConfiguration);
    (0xe2, tlvAssociatedStaMldConfigurationReport); (0xe3, tlvMldStructure);
    (0xe5, tlvAffiliatedApMetrics); (0xe4, tlvAffiliatedStaMetrics);
    (0xe6, tlvTidToLinkMappingPolicy); (0xe7, tlvEHTOperations); (0xe8, tlvSpatialReuseReport);
    (0xe9, tlvAvailableSpectrumInquiryResponse); (0xeb, tlvRsnParametersConfiguration);
    (0xec, tlvBssAdvancedConfiguration)].

Definition vbss_switch : list (Z * Layout) := [
    (0x1, ApRadioVbssCapabilities); (0x2, VirtualBssCreation); (0x3, VirtualBssDestruction);
    (0x4, VirtualBssEvent); (0x5, ClientSecurityContext); (0x6, TriggerChannelSwitchAnnouncement);
    (0x7, VbssConfigurationReport)].

Definition TLV_END_OF_MESSAGE : Z := 0x0.
Definition TLV_LINK_METRIC_QUERY : Z := 0x8.
Definition TLV_VIRTUAL_BSS : Z := 0xde.

Definition switch (t : Z) (l : list (Z * Layout)) : option Layout :=
  snd <$> (snd <$> list_find (λ x, x.1 = t) l).

(** [eTlvTypeValidate::check], [eTlvTypeMapValidate::check] and
    [eVirtualBssSubtypeValidate::check]: the enumerators. *)
Definition eTlvType_check (t : Z) : bool :=
  bool_decide (t = TLV_LINK_METRIC_QUERY ∨ is_Some (switch t ieee1905_switch)).
Definition eTlvTypeMap_check (t : Z) : bool :=
  bool_decide (t = TLV_VIRTUAL_BSS ∨ is_Some (switch t map_switch)).
Definition eVirtualBssSubtype_check (t : Z) : bool := bool_decide (is_Some (switch t vbss_switch)).

(** What [parseNextTlv()] does: a class to be added, or the end of the
    process. *)
Inductive Next := Class (L : Layout) | Fatal.

Definition of_switch (L : option Layout) : Next := match L with Some L => Class L | None => Fatal end.

(** [parseNextTlv(eTlvType)]. *)
Definition next_ieee1905 (t : Z) : faultM ClassList Next :=
  if t =? TLV_LINK_METRIC_QUERY then
    len <- getNextTlvLength ;;
    fret (Class (if len =? 2 then tlvLinkMetricQueryAllNeighbors else tlvLinkMetricQuery))
  else fret (of_switch (switch t ieee1905_switch)).

(** [parseNextTlv(eTlvTypeMap)]. *)
Definition next_map (t : Z) : faultM ClassList Next :=
  if t =? TLV_VIRTUAL_BSS then
    subtype <- getNextTlvSubtype ;;
    if negb (eVirtualBssSubtype_check subtype) then fret Fatal
    else fret (of_switch (switch subtype vbss_switch))
  else fret (of_switch (switch t map_switch)).

(** [parseNextTlv(eVendorExampleTlvTypeMap)]; its only enumerator is also one
    of [eTlvType]. *)
Definition next_vendor_example (t : Z) : faultM ClassList Next :=
  fret (if t =? 0xb then Class tlvVendorExample else Fatal).

(** [parseNextTlv()]. [check] takes a [uint8_t]. *)
Definition next_class : faultM ClassList Next :=
  t <- getNextTlvType ;;
  if eTlvType_check (u8 t) then next_ieee1905 (u8 t)
  else if eTlvTypeMap_check (u8 t) then next_map (u8 t)
  else if u8 t =? 0xb then next_vendor_example (u8 t)
  else fret (Class tlvUnknown).

(** [parse()] returned, or [LOG(FATAL)] ended the process. *)
Inductive Outcome := Parsed (ok : bool) | Aborted.

(** The loop of [parse()]; an exhausted fuel is a fault. *)
Fixpoint parse_tlvs (fuel : nat) : faultM ClassList Outcome :=
  match fuel with
  | O => fault
  | S fuel =>
    n <- next_class ;;
    match n with
    | Fatal => fret Aborted
    | Class L =>
      o <- addClass L ;;
      match o with
      | None => fret (Parsed false)
      | Some o => if decide (o_class o = "tlvEndOfMessage") then fret (Parsed true) else parse_tlvs fuel
      end
    end
  end.

(** [CmduMessageRx::parse()]. Every TLV takes three bytes, so that the length
    of the buffer is enough fuel. *)
Definition parse : faultM ClassList Outcome :=
  _ <- reset ;;
  h <- addClass cCmduHeader ;;
  match h with
  | None => fret (Parsed false)
  | Some _ => λ m, parse_tlvs (S (length (m_buff m))) m
  end.

(** A buffer as it was received. *)
Definition received (b : list Z) : ClassList := mkClassList b false [].

(** ** Parsed prefixes *)

Definition all_spots (m : ClassList) : list Spot := concat (o_spots <$> m_class_vector m).

(** The objects lie one behind the other. *)
Fixpoint chain (p : nat) (l : list Object) : Prop :=
  match l with
  | [] => True
  | o :: l => o_start o = p ∧ (p ≤ o_ptr o)%nat ∧ chain (o_ptr o) l
  end.

(** While the message [b] is parsed: the objects cover its beginning, and
    exactly their words have been swapped. *)
Record parsed_prefix (b : list Z) (m : ClassList) : Prop := {
  pp_chain : chain 0 (m_class_vector m);
  pp_ptr : (next_ptr m ≤ length b)%nat;
  pp_spots : spots_ok b 0 (next_ptr m) (all_spots m);
  pp_objects : Forall (λ o, spots_ok b (o_start o) (o_ptr o) (o_spots o)) (m_class_vector m);
  pp_buff : m_buff m = swap_spots (all_spots m) b;
}.

Lemma chain_snoc l o p : chain p (l ++ [o]) ↔
  chain p l ∧ o_start o = default p (o_ptr <$> last l) ∧ (o_start o ≤ o_ptr o)%nat.
Proof.
  revert p. induction l as [|x l IH]; intros p; cbn [chain app].
  - cbn. split; intros H; [destruct H as (-> & ? & _)|destruct H as (_ & -> & ?)]; auto.
  - rewrite IH. rewrite last_cons. destruct (last l); cbn; tauto.
Qed.

Lemma chain_length l p : chain p l → (p ≤ default p (o_ptr <$> last l))%nat ∧
  (p + sum_list_with getLen l = default p (o_ptr <$> last l))%nat.
Proof.
  revert p. induction l as [|o l IH]; intros p; cbn [chain]; [cbn; lia|].
  intros (Hs & Hle & Hc). specialize (IH _ Hc). rewrite last_cons.
  change (sum_list_with getLen (o :: l)) with ((o_ptr o - o_start o) + sum_list_with getLen l)%nat.
  destruct (last l); cbn in *; lia.
Qed.

Lemma chain_before l p o : chain p l → o ∈ l → (o_ptr o ≤ default p (o_ptr <$> last l))%nat.
Proof.
  revert p. induction l as [|x l IH]; intros p Hc Ho; [by apply elem_of_nil in Ho|]. cbn [chain] in Hc.
  destruct Hc as (_ & _ & Hc). rewrite last_cons. destruct (chain_length _ _ Hc) as [Hle _].
  apply elem_of_cons in Ho as [->|Ho]; [by destruct (last l); cbn in *; lia|].
  specialize (IH _ Hc Ho). by destruct (last l).
Qed.

Lemma next_ptr_eq m : next_ptr m = default 0%nat (o_ptr <$> last (m_class_vector m)).
Proof. unfold next_ptr. by destruct (last _). Qed.

Lemma parsed_prefix_buff b m : parsed_prefix b m → bytes_ok b →
  length (m_buff m) = length b ∧ bytes_ok (m_buff m) ∧
  ∀ i, (next_ptr m ≤ i)%nat → m_buff m !! i = b !! i.
Proof.
  intros [Hc Hp Hs _ ->] Hb. split_and!.
  - by apply (swap_spots_lookup b 0 (next_ptr m)).
  - by apply (swap_spots_bytes b 0 (next_ptr m)).
  - intros i Hi. apply (swap_spots_outside b 0 (next_ptr m)); [done..|lia].
Qed.

(** The classes [addClass] is called with. *)
Definition class_ok (L : Layout) : bool :=
  layout_ok L && type_first L && (3 <=? get_initial_size (l_fields L))%nat.

(** [addClass] of a well-formed class keeps [parsed_prefix]. *)
Lemma addClass_prefix b L m : bytes_ok b → layout_ok L = true → type_first L = true → parsed_prefix b m →
  post (addClass L m) (λ r m', match r with
    | Some o => parsed_prefix b m' ∧ m_class_vector m' = m_class_vector m ++ [o] ∧
        o_class o = l_name L ∧ (next_ptr m + get_initial_size (l_fields L) ≤ next_ptr m')%nat ∧
        ∀ t, l_type L = Some t → b !! next_ptr m = Some t
    | None => length (m_buff m') = length b
    end).
Proof.
  intros Hb HL Htf Hm.
  destruct (parsed_prefix_buff b m Hm Hb) as (Hlen & Hbm & Hsame). pose proof (pp_ptr _ _ Hm).
  unfold addClass. pose proof (init_parse_post L (m_buff m) (next_ptr m) (length (m_buff m))) as Hi.
  specialize (Hi ltac:(done) ltac:(done) ltac:(lia) Hbm).
  destruct (init_parse L _ _ _) as [[[o|]|] b'] eqn:Hrun; cbn in Hi |- *; [|lia|done].
  destruct Hi as (-> & Hs & Hst & Hcl & Hptr & Hty). destruct Hm as [Hc Hp Hspots Hobj Hbuff].
  assert (next_ptr (mkClassList (swap_spots (o_spots o) (m_buff m)) (m_swapped m) (m_class_vector m ++ [o]))
          = o_ptr o) as Hnext by (unfold next_ptr; cbn; by rewrite last_snoc).
  rewrite Hnext. split_and!; [|done..|lia|].
  - assert (all_spots (mkClassList (swap_spots (o_spots o) (m_buff m)) (m_swapped m)
              (m_class_vector m ++ [o])) = all_spots m ++ o_spots o) as Hall.
    { unfold all_spots. cbn. rewrite fmap_app, concat_app. cbn. by rewrite app_nil_r. }
    assert (spots_ok b (next_ptr m) (o_ptr o) (o_spots o)) as Hsb.
    { eapply spots_ok_agree; [|exact Hs].
      intros s Hin. apply active_agree. intros g Hg. apply at_lookup_eq, Hsame.
      pose proof (so_guards _ _ _ _ Hs s g Hin Hg). lia. }
    split; rewrite ?Hnext, ?Hall; cbn [m_class_vector m_buff].
    + apply chain_snoc. split_and!; [done|by rewrite Hst, next_ptr_eq|lia].
    + lia.
    + apply (spots_ok_app b 0 (next_ptr m)); [lia|done..].
    + apply Forall_app. split; [done|]. constructor; [by rewrite Hst|constructor].
    + by rewrite swap_spots_app, <- Hbuff.
  - intros t Ht. rewrite <- Hsame by lia. by apply Hty.
Qed.

Lemma addClass_post b L m : bytes_ok b → class_ok L = true → parsed_prefix b m →
  post (addClass L m) (λ r m', match r with
    | Some o => parsed_prefix b m' ∧ m_class_vector m' = m_class_vector m ++ [o] ∧
        o_class o = l_name L ∧ (next_ptr m + 3 ≤ next_ptr m')%nat ∧
        ∀ t, l_type L = Some t → b !! next_ptr m = Some t
    | None => length (m_buff m') = length b
    end).
Proof.
  intros Hb HL Hm. unfold class_ok in HL. bool_to_prop.
  match goal with H : (3 <=? _)%nat = true |- _ => apply Nat.leb_le in H as H3 end.
  eapply post_mono; [by apply (addClass_prefix b L m)|]. intros [o|] m'; [|done].
  intros (? & ? & ? & ? & ?). split_and!; [done..|lia|done].
Qed.

(** ** The next class *)

(** The type of the next TLV, or a field needed to choose its class, lies
    behind the end of the message. *)
Definition header_cut_off (b : list Z) (p : nat) : Prop :=
  (length b ≤ p)%nat ∨
  (b !! p = Some TLV_LINK_METRIC_QUERY ∧ (length b < p + 3)%nat) ∨
  (b !! p = Some TLV_VIRTUAL_BSS ∧ (length b < p + 5)%nat).

(** A Virtual BSS TLV of a subtype that does not exist. *)
Definition unknown_vbss_subtype (b : list Z) (p : nat) : Prop :=
  b !! p = Some TLV_VIRTUAL_BSS ∧ (p + 5 ≤ length b)%nat ∧
  eVirtualBssSubtype_check (be16 (at_ b (p + 3)) (at_ b (p + 4))) = false.

Lemma switch_elem t l L : switch t l = Some L → (t, L) ∈ l.
Proof.
  unfold switch. destruct (list_find _ l) as [[i [t' L']]|] eqn:Hf; [|done].
  cbn. intros [= <-]. apply list_find_Some in Hf as (Hl & Ht & _). cbn in Ht. subst.
  by eapply list_elem_of_lookup_2.
Qed.

Definition switch_ok (l : list (Z * Layout)) : bool := forallb (λ x, class_ok x.2) l.

Lemma switches_ok : switch_ok ieee1905_switch = true ∧ switch_ok map_switch = true ∧ switch_ok vbss_switch = true.
Proof. by vm_compute. Qed.

Lemma other_classes_ok :
  forallb class_ok [cCmduHeader; tlvUnknown; tlvLinkMetricQuery; tlvLinkMetricQueryAllNeighbors;
                    tlvVendorExample] = true.
Proof. by vm_compute. Qed.

Lemma switch_class_ok t l L : switch_ok l = true → switch t l = Some L → class_ok L = true.
Proof.
  intros Hok Hs%switch_elem. unfold switch_ok in Hok. rewrite forallb_forall in Hok.
  apply (Hok (t, L)). by apply list_elem_of_In.
Qed.

Lemma read_be16_run b m ofs : parsed_prefix b m → bytes_ok b →
  read_be16 ofs m = if decide (next_ptr m + ofs + 1 < length b)%nat
    then (Some (be16 (at_ b (next_ptr m + ofs)) (at_ b (next_ptr m + ofs + 1))), m) else (None, m).
Proof.
  intros Hm Hb. destruct (parsed_prefix_buff b m Hm Hb) as (_ & _ & Hsame).
  unfold read_be16, read_at, at_. rewrite !fbind_run. cbn [fst snd]. rewrite !Hsame by lia.
  case_decide as Hlt.
  - destruct (lookup_lt_is_Some_2 b (next_ptr m + ofs)) as [x ->]; [lia|].
    rewrite fbind_run. cbn [fst snd]. rewrite Hsame by lia.
    by destruct (lookup_lt_is_Some_2 b _ Hlt) as [y ->].
  - destruct (b !! _); [|done]. rewrite fbind_run. cbn [fst snd]. rewrite Hsame by lia.
    by rewrite (lookup_ge_None_2 b (next_ptr m + ofs + 1)) by lia.
Qed.

Lemma next_class_spec b m : bytes_ok b → parsed_prefix b m → is_Some (getClass "cCmduHeader" m) →
  match next_class m with
  | (Some (Class L), m') => m' = m ∧ class_ok L = true ∧ (next_ptr m < length b)%nat
  | (Some Fatal, m') => m' = m ∧ unknown_vbss_subtype b (next_ptr m)
  | (None, m') => m' = m ∧ header_cut_off b (next_ptr m)
  end.
Proof.
  intros Hb Hm [h Hh]. destruct (parsed_prefix_buff b m Hm Hb) as (_ & _ & Hsame).
  pose proof other_classes_ok as Hok. cbn [forallb] in Hok. bool_to_prop.
  destruct switches_ok as (Ho1 & Ho2 & Ho3).
  assert (getNextTlvType m = (b !! next_ptr m, m)) as Ht.
  { unfold getNextTlvType, getCmduHeader. rewrite fbind_run. cbn. rewrite Hh. unfold read_at. by rewrite Hsame. }
  unfold next_class. rewrite fbind_run, Ht. cbn [fst snd].
  destruct (b !! next_ptr m) as [t|] eqn:Hbt; [|split; [done|left; by apply lookup_ge_None]].
  pose proof (lookup_lt_Some _ _ _ Hbt) as Hlt.
  assert (u8 t = t) as ->.
  { unfold u8. apply Z.mod_small. pose proof (Forall_lookup_1 _ _ _ _ Hb Hbt) as [??]. lia. }
  destruct (eTlvType_check t) eqn:Hc1; [|destruct (eTlvTypeMap_check t) eqn:Hc2].
  - unfold next_ieee1905. destruct (Z.eqb_spec t TLV_LINK_METRIC_QUERY) as [->|Hne].
    + unfold getNextTlvLength, getCmduHeader. rewrite !fbind_run. cbn [fst snd]. rewrite Hh.
      rewrite (read_be16_run b) by done. case_decide; cbn [fst snd].
      * rewrite fret_run. by destruct (_ =? 2).
      * split; [done|]. right. left. split; [done|lia].
    + unfold eTlvType_check in Hc1. apply bool_decide_eq_true in Hc1 as [?|[L HL]]; [done|].
      rewrite fret_run, HL. cbn. split_and!; [done| |done]. exact (switch_class_ok _ _ _ Ho1 HL).
  - unfold next_map. destruct (Z.eqb_spec t TLV_VIRTUAL_BSS) as [->|Hne].
    + unfold getNextTlvSubtype, getCmduHeader. rewrite !fbind_run. cbn [fst snd]. rewrite Hh.
      rewrite (read_be16_run b) by done. case_decide; cbn [fst snd].
      * replace (next_ptr m + 3 + 1)%nat with (next_ptr m + 4)%nat in * by lia.
        destruct (eVirtualBssSubtype_check _) eqn:Hv; cbn [negb]; rewrite fret_run.
        -- apply bool_decide_eq_true in Hv as [L HL]. rewrite HL. cbn [of_switch]. split_and!; [done| |done].
           exact (switch_class_ok _ _ _ Ho3 HL).
        -- split; [done|]. split_and!; [done|lia|done].
      * split; [done|]. right. right. split; [done|lia].
    + unfold eTlvTypeMap_check in Hc2. apply bool_decide_eq_true in Hc2 as [?|[L HL]]; [done|].
      rewrite fret_run, HL. cbn. split_and!; [done| |done]. exact (switch_class_ok _ _ _ Ho2 HL).
  - destruct (Z.eqb_spec t 0xb) as [->|]; [|done]. done.
Qed.

(** Choosing the next class changes nothing. *)
Lemma next_class_state m : (next_class m).2 = m.
Proof.
  unfold next_class, getNextTlvType, getCmduHeader, next_ieee1905, next_map, next_vendor_example, getNextTlvLength,
    getNextTlvSubtype, getCmduHeader, read_be16, read_at, fbind, fret, fault, mbind, stM_bind, mret, stM_ret.
  by repeat (case_match; simplify_eq/=).
Qed.

(** ** The loop *)

(** The first object is the CMDU header. *)
Definition starts_with_header (m : ClassList) : Prop :=
  ∃ h, head (m_class_vector m) = Some h ∧ o_class h = "cCmduHeader".

Lemma starts_with_header_getClass m : starts_with_header m → is_Some (getClass "cCmduHeader" m).
Proof.
  intros (h & Hh & Hn). unfold getClass. destruct (m_class_vector m); [done|]. injection Hh as ->.
  cbn. rewrite decide_True by done. cbn. eauto.
Qed.

(** How [parse] may end, in terms of the message [b]. *)
Definition parse_post (b : list Z) (r : option Outcome * ClassList) : Prop :=
  match r with
  | (Some (Parsed true), m) => parsed_prefix b m ∧ starts_with_header m ∧
      ∃ o, last (m_class_vector m) = Some o ∧ o_class o = "tlvEndOfMessage"
  | (Some (Parsed false), m) => length (m_buff m) = length b
  | (Some Aborted, m) => parsed_prefix b m ∧ unknown_vbss_subtype b (next_ptr m)
  | (None, m) => parsed_prefix b m ∧ header_cut_off b (next_ptr m)
  end.

Lemma parse_tlvs_post b fuel : bytes_ok b → ∀ m, parsed_prefix b m → starts_with_header m →
  (length b - next_ptr m < fuel)%nat → parse_post b (parse_tlvs fuel m).
Proof.
  intros Hb. induction fuel as [|fuel IH]; intros m Hm Hh Hf; [lia|].
  cbn [parse_tlvs]. pose proof (next_class_spec b m Hb Hm (starts_with_header_getClass m Hh)) as Hn.
  rewrite fbind_run. destruct (next_class m) as [[[L|]|] m1]; cbn [fst snd].
  2: { destruct Hn as [-> Hn]. by split. }
  2: { destruct Hn as [-> Hn]. by split. }
  destruct Hn as (-> & HL & Hlt). pose proof (addClass_post b L m Hb HL Hm) as Ha.
  rewrite fbind_run. destruct (addClass L m) as [[[o|]|] m1]; cbn [fst snd] in *; [|done|done].
  destruct Ha as (Hm1 & Hv & Hcl & Hp & _).
  assert (starts_with_header m1) as Hh1.
  { destruct Hh as (h & Hh & Hn). exists h. rewrite Hv. split; [|done].
    by destruct (m_class_vector m). }
  case_decide; [|apply IH; [done..|lia]].
  rewrite fret_run. split_and!; [done..|]. exists o. by rewrite Hv, last_snoc.
Qed.

Lemma parse_run b : bytes_ok b → parse_post b (parse (received b)).
Proof.
  intros Hb. unfold parse. rewrite fbind_run. cbn [fst snd reset].
  change (mkClassList (m_buff (received b)) false []) with (received b).
  pose proof other_classes_ok as Hok. cbn [forallb] in Hok. bool_to_prop.
  assert (parsed_prefix b (received b)) as Hm.
  { split; [done|cbn; lia|apply spots_ok_nil|constructor|done]. }
  pose proof (addClass_post b cCmduHeader (received b) Hb ltac:(done) Hm) as Ha. rewrite fbind_run.
  destruct (addClass cCmduHeader (received b)) as [[[h|]|] m1]; cbn [fst snd] in *; [|done|done].
  destruct Ha as (Hm1 & Hv & Hcl & Hp & _). pose proof (pp_ptr _ _ Hm1).
  destruct (parsed_prefix_buff b m1 Hm1 Hb) as (Hlen & _ & _).
  apply parse_tlvs_post; [done..| |lia]. exists h. by rewrite Hv.
Qed.

(** ** Swapping back *)

Lemma swap_objects_run l : ∀ b hi, spots_ok b 0 hi (concat (o_spots <$> l)) → (hi ≤ length b)%nat →
  swap_objects l b = (Some tt, swap_spots (concat (o_spots <$> l)) b).
Proof.
  induction l as [|o l IH]; intros b hi Hok Hhi; [done|]. cbn [swap_objects fmap list_fmap concat] in *.
  pose proof (spots_ok_app_l _ _ _ _ _ Hok) as Ho.
  rewrite fbind_run, (class_swap_run b 0 hi) by done. cbn [fst snd].
  rewrite (IH _ hi); [|by apply spots_ok_app_r|].
  - by rewrite swap_spots_app.
  - by rewrite (proj1 (swap_spots_lookup b 0 hi _ Ho Hhi)).
Qed.

Lemma swap_restores b m : parsed_prefix b m →
  swap m = (Some tt, mkClassList b (negb (m_swapped m)) (m_class_vector m)).
Proof.
  intros [Hc Hp Hs _ Hb]. unfold swap. fold (all_spots m) in *.
  destruct (swap_spots_lookup b 0 (next_ptr m) (all_spots m) Hs Hp) as [Hlen _].
  rewrite Hb, (swap_objects_run _ _ (next_ptr m)).
  - fold (all_spots m). by rewrite (swap_spots_involutive b 0 (next_ptr m)).
  - fold (all_spots m). by apply swap_spots_ok.
  - lia.
Qed.

(** ** Theorems *)

(** C23: Parsing arbitrary bytes ends, for all TLV classes. When it succeeds, the
    message starts with a CMDU header, ends with an end-of-message TLV and its
    objects lie one behind the other inside of the buffer. The only ways out
    besides [true] and [false] are a Virtual BSS TLV of an unknown subtype, on
    which [LOG(FATAL)] ends the process, and a message whose TLVs reach exactly
    to its end without an end-of-message TLV, or end in a header of a link
    metric query or Virtual BSS TLV that is cut off, on which [parseNextTlv]
    reads behind the buffer. *)
Theorem parse_outcomes b : bytes_ok b →
  match parse (received b) with
  | (Some (Parsed true), m) => chain 0 (m_class_vector m) ∧ starts_with_header m ∧
      (∃ o, last (m_class_vector m) = Some o ∧ o_class o = "tlvEndOfMessage" ∧
        getMessageLength m = o_ptr o ∧ (o_ptr o ≤ length b)%nat)
  | (Some (Parsed false), m) => length (m_buff m) = length b
  | (Some Aborted, m) => unknown_vbss_subtype b (next_ptr m)
  | (None, m) => header_cut_off b (next_ptr m)
  end.
Proof.
  intros Hb. pose proof (parse_run b Hb) as Hp.
  destruct (parse (received b)) as [[[[]|]|] m]; cbn in Hp |- *; [|done|by apply Hp..].
  destruct Hp as (Hm & Hh & o & Ho & Hn). split_and!; [apply Hm|done|].
  exists o. pose proof (chain_length _ _ (pp_chain _ _ Hm)) as [_ Hl]. pose proof (pp_ptr _ _ Hm).
  unfold next_ptr in *. rewrite Ho in *. cbn in *. unfold getMessageLength. by split_and!.
Qed.

(** Parsing is undone by [swap]: after a successful [parse] the fields are
    in host order, and [swap] puts the buffer back into the received bytes, so
    that a parsed message can be forwarded unchanged. *)
Theorem parse_swap_roundtrip b m : bytes_ok b → parse (received b) = (Some (Parsed true), m) →
  swap m = (Some tt, mkClassList b (negb (m_swapped m)) (m_class_vector m)).
Proof.
  intros Hb Hr. pose proof (parse_run b Hb) as Hp. rewrite Hr in Hp.
  destruct Hp as [Hm _]. by apply swap_restores.
Qed.


(** ** What received bytes can do *)

(** An object of a fixed size is added when its type and bytes are there. *)
Lemma addClass_static b L m : bytes_ok b → class_ok L = true → static L = true → parsed_prefix b m →
  (next_ptr m + get_initial_size (l_fields L) ≤ length b)%nat →
  (∀ t, l_type L = Some t → b !! next_ptr m = Some t) → ∃ o m',
  addClass L m = (Some (Some o), m') ∧ parsed_prefix b m' ∧
  m_class_vector m' = m_class_vector m ++ [o] ∧ o_class o = l_name L ∧
  next_ptr m' = (next_ptr m + get_initial_size (l_fields L))%nat.
Proof.
  intros Hb HL Hst Hm Hlen Ht. pose proof (addClass_post b L m Hb HL Hm) as Ha.
  destruct (parsed_prefix_buff b m Hm Hb) as (Hl & Hbm & Hsame). unfold class_ok in HL. bool_to_prop.
  destruct (init_parse_static L (m_buff m) (next_ptr m) (length (m_buff m))) as (o & b' & Hi & Hp); [done..|lia|done| |].
  { intros t Hlt. rewrite Hsame by lia. by apply Ht. }
  unfold addClass in *. rewrite Hi in *. cbn in Ha. destruct Ha as (Hm' & Hv & Hcl & _).
  eexists o, _. split_and!; [done|done|done|done|]. unfold next_ptr. cbn. by rewrite last_snoc.
Qed.

Lemma header_parsed b : bytes_ok b → (8 ≤ length b)%nat → ∃ m,
  parse (received b) = parse_tlvs (S (length b)) m ∧ parsed_prefix b m ∧
  starts_with_header m ∧ next_ptr m = 8%nat.
Proof.
  intros Hb Hl. pose proof other_classes_ok as Hok. cbn [forallb] in Hok. bool_to_prop.
  assert (parsed_prefix b (received b)) as Hm by (split; [done|cbn; lia|apply spots_ok_nil|constructor|done]).
  destruct (addClass_static b cCmduHeader (received b)) as (h & m & Hr & Hm1 & Hv & Hcl & Hp); [done..| |done|].
  { cbn. lia. }
  exists m. destruct (parsed_prefix_buff b m Hm1 Hb) as (Hlen & _). split_and!; [|done|exists h; by rewrite Hv|done].
  unfold parse. rewrite fbind_run. cbn [fst snd reset].
  change (mkClassList (m_buff (received b)) false []) with (received b).
  rewrite fbind_run, Hr. cbn [fst snd]. by rewrite Hlen.
Qed.

(** A received message can end the process: a CMDU whose first TLV is a
    Virtual BSS TLV with a subtype other than 1 to 7 makes [parse] run into
    [LOG(FATAL)], whatever else it contains. *)
Theorem unknown_vbss_subtype_aborts b : bytes_ok b → unknown_vbss_subtype b 8 →
  (parse (received b)).1 = Some Aborted.
Proof.
  intros Hb (Ht & Hl & Hsub). destruct (header_parsed b Hb) as (m & -> & Hm & Hh & Hp); [lia|].
  destruct (starts_with_header_getClass m Hh) as [h Hc].
  destruct (parsed_prefix_buff b m Hm Hb) as (_ & _ & Hsame).
  cbn [parse_tlvs]. unfold next_class, getNextTlvType, getCmduHeader. rewrite !fbind_run. cbn [fst snd].
  rewrite Hc. unfold read_at. cbn [fst snd]. rewrite Hsame, Hp, Ht by lia.
  change (u8 TLV_VIRTUAL_BSS) with TLV_VIRTUAL_BSS.
  replace (eTlvType_check TLV_VIRTUAL_BSS) with false by (by vm_compute).
  replace (eTlvTypeMap_check TLV_VIRTUAL_BSS) with true by (by vm_compute).
  unfold next_map. rewrite Z.eqb_refl. unfold getNextTlvSubtype, getCmduHeader. rewrite !fbind_run. cbn [fst snd].
  rewrite Hc, (read_be16_run b), Hp, decide_True by (done || lia). cbn [fst snd].
  change (8 + 3 + 1)%nat with (8 + 4)%nat. by rewrite Hsub.
Qed.

(** The class of the next TLV by its type, where the type alone decides. *)
Definition class_of_type (t : Z) : Layout :=
  match switch t ieee1905_switch, switch t map_switch with
  | Some L, _ | None, Some L => L
  | None, None => if t =? 0xb then tlvVendorExample else tlvUnknown
  end.

Lemma class_of_type_ok t : class_ok (class_of_type t) = true.
Proof.
  destruct switches_ok as (Ho1 & Ho2 & _). unfold class_of_type.
  destruct (switch t ieee1905_switch) eqn:H1; [exact (switch_class_ok _ _ _ Ho1 H1)|].
  destruct (switch t map_switch) eqn:H2; [exact (switch_class_ok _ _ _ Ho2 H2)|].
  by destruct (t =? 0xb).
Qed.

Lemma next_class_type m t : is_Some (getClass "cCmduHeader" m) → byte_ok t →
  m_buff m !! next_ptr m = Some t → t ≠ TLV_LINK_METRIC_QUERY → t ≠ TLV_VIRTUAL_BSS →
  next_class m = (Some (Class (class_of_type t)), m).
Proof.
  intros [h Hc] Hbt Ht Hn1 Hn2.
  unfold next_class, getNextTlvType, getCmduHeader. rewrite !fbind_run. cbn [fst snd].
  rewrite Hc. unfold read_at. cbn [fst snd]. rewrite Ht.
  assert (u8 t = t) as -> by (unfold u8, byte_ok in *; apply Z.mod_small; lia).
  unfold eTlvType_check, eTlvTypeMap_check, next_ieee1905, next_map, next_vendor_example, class_of_type.
  rewrite (proj2 (Z.eqb_neq _ _) Hn1), (proj2 (Z.eqb_neq _ _) Hn2).
  destruct (switch t ieee1905_switch) as [L|].
  { rewrite bool_decide_true by eauto. done. }
  rewrite bool_decide_false by (intros [?|[? ?]]; done).
  destruct (switch t map_switch) as [L|].
  { rewrite bool_decide_true by eauto. done. }
  rewrite bool_decide_false by (intros [?|[? ?]]; done). by destruct (t =? 0xb).
Qed.

Lemma next_class_run b m t : bytes_ok b → parsed_prefix b m → starts_with_header m →
  b !! next_ptr m = Some t → t ≠ TLV_LINK_METRIC_QUERY → t ≠ TLV_VIRTUAL_BSS →
  next_class m = (Some (Class (class_of_type t)), m).
Proof.
  intros Hb Hm Hh Ht. apply next_class_type; [by apply starts_with_header_getClass| |].
  - apply (Forall_lookup_1 _ _ _ _ Hb Ht).
  - destruct (parsed_prefix_buff b m Hm Hb) as (_ & _ & Hsame). by rewrite Hsame.
Qed.

(** An available spectrum inquiry request is never parsed: its type is
    handed to the class of the spatial reuse report, which compares the type
    with its own. *)
Theorem spectrum_inquiry_is_rejected b : bytes_ok b → b !! 8%nat = Some 0xe8 →
  (parse (received b)).1 = Some (Parsed false).
Proof.
  intros Hb Ht. pose proof (lookup_lt_Some _ _ _ Ht).
  destruct (header_parsed b Hb) as (m & -> & Hm & Hh & Hp); [lia|]. cbn [parse_tlvs].
  rewrite fbind_run, (next_class_run b m 0xe8) by (done || by rewrite Hp).
  replace (class_of_type 0xe8) with tlvSpatialReuseReport by (by vm_compute).
  cbn [fst snd]. rewrite fbind_run.
  pose proof (addClass_post b tlvSpatialReuseReport m Hb ltac:(by vm_compute) Hm) as Ha.
  destruct (addClass tlvSpatialReuseReport m) as [[[o|]|] m1]; cbn [fst snd post] in *; [|done|done].
  destruct Ha as (_ & _ & _ & _ & Hty). specialize (Hty 0xd9 eq_refl). rewrite Hp, Ht in Hty. done.
Qed.

(** Parsing a TLV of a fixed size at the front. *)
Lemma parse_static_tlv b m t L fuel : bytes_ok b → parsed_prefix b m → starts_with_header m →
  b !! next_ptr m = Some t → class_of_type t = L → t ≠ TLV_LINK_METRIC_QUERY →
  t ≠ TLV_VIRTUAL_BSS → l_type L = Some t → static L = true →
  (next_ptr m + get_initial_size (l_fields L) ≤ length b)%nat → ∃ m',
  parse_tlvs (S fuel) m = (if decide (l_name L = "tlvEndOfMessage") then fret (Parsed true) else parse_tlvs fuel) m' ∧
  parsed_prefix b m' ∧ starts_with_header m' ∧
  next_ptr m' = (next_ptr m + get_initial_size (l_fields L))%nat.
Proof.
  intros Hb Hm Hh Ht HL Hn1 Hn2 Hty Hst Hlen. pose proof (class_of_type_ok t) as Ho. rewrite HL in Ho.
  destruct (addClass_static b L m) as (o & m' & Hr & Hm' & Hv & Hcl & Hp);
    [done..|by (intros t'; rewrite Hty; intros [= <-])|].
  exists m'. split_and!; [|done| |done].
  - cbn [parse_tlvs]. rewrite fbind_run, (next_class_run b m t), HL by done. cbn [fst snd].
    rewrite fbind_run, Hr. cbn [fst snd]. rewrite Hcl. by case_decide.
  - destruct Hh as (h & Hh & Hn). exists h. rewrite Hv. split; [|done]. by destruct (m_class_vector m).
Qed.

(** The length of a TLV of a fixed size is ignored: in every message that
    starts with an AL MAC address TLV, the TLV is taken to have six bytes of
    value, whatever its length field says; when the next byte happens to be
    zero, parsing ends there successfully and the rest of the message is
    dropped. *)
Theorem fixed_tlv_ignores_length b : bytes_ok b → b !! 8%nat = Some 0x1 → b !! 17%nat = Some 0x0 →
  (20 ≤ length b)%nat → ∃ m, parse (received b) = (Some (Parsed true), m) ∧ getMessageLength m = 20%nat.
Proof.
  intros Hb H1 H2 Hl. destruct (header_parsed b Hb) as (m & -> & Hm & Hh & Hp); [lia|].
  destruct (length b) as [|n] eqn:Hlen; [lia|].
  destruct (parse_static_tlv b m 0x1 tlvAlMacAddress (S n)) as (m1 & -> & Hm1 & Hh1 & Hp1);
    [done|done|done|by rewrite Hp|by vm_compute|done|done|done|done|rewrite Hp; cbn; lia|].
  rewrite Hp in Hp1. cbn in Hp1. rewrite decide_False by done.
  destruct (parse_static_tlv b m1 0x0 tlvEndOfMessage n) as (m2 & -> & Hm2 & Hh2 & Hp2);
    [done|done|done|by rewrite Hp1|by vm_compute|done|done|done|done|rewrite Hp1; cbn; lia|].
  rewrite Hp1 in Hp2. cbn in Hp2. rewrite decide_True by done. exists m2. split; [done|].
  destruct (chain_length _ _ (pp_chain _ _ Hm2)) as [_ Hc]. rewrite <- next_ptr_eq, Hp2 in Hc. exact Hc.
Qed.

(** A message that ends with its last TLV, without the end-of-message TLV,
    makes [parse] read the type of the next TLV behind the buffer. *)
Theorem missing_end_reads_behind b : bytes_ok b → length b = 17%nat → b !! 8%nat = Some 0x1 →
  (parse (received b)).1 = None.
Proof.
  intros Hb Hlen H1. destruct (header_parsed b Hb) as (m & -> & Hm & Hh & Hp); [lia|].
  destruct (parse_static_tlv b m 0x1 tlvAlMacAddress (length b)) as (m1 & -> & Hm1 & Hh1 & Hp1);
    [done|done|done|by rewrite Hp|by vm_compute|done|done|done|done|rewrite Hp; cbn; lia|].
  rewrite Hp in Hp1. cbn in Hp1. rewrite decide_False, Hlen by done.
  destruct (starts_with_header_getClass m1 Hh1) as [h Hc].
  destruct (parsed_prefix_buff b m1 Hm1 Hb) as (_ & _ & Hsame).
  cbn [parse_tlvs]. unfold next_class, getNextTlvType, getCmduHeader. rewrite !fbind_run. cbn [fst snd].
  rewrite Hc. unfold read_at. cbn [fst snd]. rewrite Hsame, Hp1, lookup_ge_None_2 by lia. done.
Qed.
