(* ===== verification/CmduTx.v ===== *)
(** * CMDUs to be sent

    [CmduMessageTx] ([CmduMessageTx.cpp]) on a [ClassList] for building
    messages, for the classes that consist of fields of fixed sizes and at
    most a list of bytes at the end. Fields are set in host order and swapped
    when the next class is added. The theorems connect it with
    [CmduMessageRx]: what was put into a message is what the receiver gets. *)

From S2P Require Import Prelude Wire Messages Tlvf TlvClasses1905 TlvClassesMap CmduMessage.

(** ** Objects under construction *)

(** A class with the bytes [init()] writes into its members when the object is
    not constructed for parsing. *)
Record TxClass := mkTxClass { tx_layout : Layout; tx_init : list (string * list Z) }.

Record TxObject := mkTxObject {
  x_class : TxClass;
  x_start : nat;
  x_walk : Walk;
  x_idx : nat;
  x_finalized : bool;
}.
Definition x_ptr (x : TxObject) : nat := w_ptr (x_walk x).

Definition write_at (off : nat) (bs : list Z) : faultM (list Z) unit := λ b,
  if (off + length bs <=? length b)%nat
  then (Some tt, take off b ++ bs ++ drop (off + length bs) b) else (None, b).

(** Adds to the length a member [m_length] points to. *)
Definition add_length (off n : nat) : faultM (list Z) unit := λ b,
  write_at off (le16_bytes (u16 (le16 b off + Z.of_nat n))) b.

Definition initial_bytes (inits : list (string * list Z)) (name : string) : option (list Z) :=
  snd <$> (snd <$> list_find (λ x, x.1 = name) inits).

(** The steps of [init()] when not parsing. *)
Fixpoint tx_walk (inits : list (string * list Z)) (fin : nat) (fs : list Field) (w : Walk)
    : faultM (list Z) (option Walk) :=
  match fs with
  | [] => fret (Some w)
  | Fixed name n sw :: fs =>
    match buffPtrIncrementSafe fin (Z.of_nat n) (set_member name (spots_at None (w_ptr w) sw) w) with
    | None => fret None
    | Some w' =>
      _ <- match initial_bytes inits name with Some bs => write_at (w_ptr w) bs | None => fret tt end ;;
      _ <- match find_field w "length" with Some off => add_length off n | None => fret tt end ;;
      tx_walk inits fin fs w'
    end
  | Rest name n sw :: fs => tx_walk inits fin fs (set_member name [] w)
  | _ :: _ => fault
  end.

Definition tx_object_init (C : TxClass) (start fin : nat) : faultM (list Z) (option TxObject) :=
  if (fin - start <? get_initial_size (l_fields (tx_layout C)))%nat then fret None
  else
    r <- tx_walk (tx_init C) fin (l_fields (tx_layout C)) (mkWalk start [] []) ;;
    fret (match r with None => None | Some w => Some (mkTxObject C start w 0 false) end).

(** [std::copy_n(src, n, dst)] with [dst] behind [src], as [memmove]. *)
Definition move (src dst n : nat) : faultM (list Z) unit := λ b,
  write_at dst (take n (drop src b)) b.

(** [alloc_x(count)] of the byte list at the end of an object; [None] when it
    returns [false]. *)
Definition alloc (fin count : nat) (x : TxObject) : faultM (list Z) (option TxObject) :=
  match last (l_fields (tx_layout (x_class x))) with
  | Some (Rest name 1 []) =>
    match find_field (x_walk x) name, find_field (x_walk x) "length" with
    | Some list, Some length_off =>
      if (fin - x_ptr x <? count)%nat then fret None
      else
        let src := (list + x_idx x)%nat in
        _ <- move src (src + count) ((fin - src) - count) ;;
        _ <- add_length length_off count ;;
        let w := x_walk x in
        fret (Some (mkTxObject (x_class x) (x_start x)
               (mkWalk (w_ptr w + count) (w_fields w) (w_spots w)) (x_idx x + count) (x_finalized x)))
    | _, _ => fault
    end
  | _ => fault
  end.

(** [finalize()] of an object. *)
Definition finalize_object (x : TxObject) : faultM (list Z) TxObject :=
  if x_finalized x then fret x
  else
    _ <- class_swap (w_spots (x_walk x)) ;;
    fret (mkTxObject (x_class x) (x_start x) (x_walk x) (x_idx x) true).

(** ** Messages under construction *)

Record TxList := mkTxList { t_buff : list Z; t_finalized : bool; t_objects : list TxObject }.

(** Runs a method of the last object. *)
Definition on_last {A} (f : TxObject → faultM (list Z) (TxObject * A)) : faultM TxList A := λ t,
  match last (t_objects t) with
  | None => (None, t)
  | Some x =>
    match f x (t_buff t) with
    | (Some (x', a), b) =>
      (Some a, mkTxList b (t_finalized t) (removelast (t_objects t) ++ [x']))
    | (None, b) => (None, mkTxList b (t_finalized t) (t_objects t))
    end
  end.

(** [obj->x() = value], with the bytes of the value. *)
Definition set_value (name : string) (bs : list Z) : faultM TxList unit :=
  on_last (λ x, match find_field (x_walk x) name with
                | None => fault
                | Some off => _ <- write_at off bs ;; fret (x, tt)
                end).

(** [set_x(buffer, size)] of the byte list. *)
Definition set_list (bs : list Z) : faultM TxList bool := λ t,
  on_last (λ x, if negb (x_idx x =? 0)%nat then fret (x, false)
                else
                  let src := x_ptr x in
                  r <- alloc (length (t_buff t)) (length bs) x ;;
                  match r with
                  | None => fret (x, false)
                  | Some x' => _ <- write_at src bs ;; fret (x', true)
                  end) t.

(** [addClass<T>()] when not parsing: the previous object is finalized. *)
Definition tx_addClass (C : TxClass) : faultM TxList bool := λ t,
  match last (t_objects t) with
  | None =>
    match tx_object_init C 0 (length (t_buff t)) (t_buff t) with
    | (None, b) => (None, mkTxList b (t_finalized t) [])
    | (Some None, b) => (Some false, mkTxList b (t_finalized t) [])
    | (Some (Some x), b) => (Some true, mkTxList b (t_finalized t) [x])
    end
  | Some prev =>
    match finalize_object prev (t_buff t) with
    | (None, b) => (None, mkTxList b (t_finalized t) (t_objects t))
    | (Some prev', b1) =>
      let objects := removelast (t_objects t) ++ [prev'] in
      match tx_object_init C (x_ptr prev') (length b1) b1 with
      | (None, b) => (None, mkTxList b (t_finalized t) objects)
      | (Some None, b) => (Some false, mkTxList b (t_finalized t) objects)
      | (Some (Some x), b) => (Some true, mkTxList b (t_finalized t) (objects ++ [x]))
      end
    end
  end.

(** [ClassList::finalize()]. *)
Definition list_finalize : faultM TxList bool := λ t,
  match last (t_objects t) with
  | None => (Some false, t)
  | Some x =>
    if t_finalized t then (Some true, t)
    else
      match finalize_object x (t_buff t) with
      | (None, b) => (None, mkTxList b (t_finalized t) (t_objects t))
      | (Some x', b) => (Some true, mkTxList b true (removelast (t_objects t) ++ [x']))
      end
  end.

(** [reset(false)]. *)
Definition tx_reset (t : TxList) : TxList := mkTxList (replicate (length (t_buff t)) 0) false [].

(** ** Classes *)

Definition zero_mac : list Z := [0; 0; 0; 0; 0; 0].

Definition tx_header : TxClass := mkTxClass cCmduHeader
  [("message_version", [0]); ("reserved", [0]); ("message_id", [0; 0]); ("fragment_id", [0]); ("flags", [0x80])].

(** A TLV class: [*m_type] and [*m_length = 0], and the other members. *)
Definition tx_tlv (L : Layout) (inits : list (string * list Z)) : TxClass :=
  mkTxClass L (match l_type L with Some t => [("type", [t])] | None => [] end ++ ("length", [0; 0]) :: inits).

Definition tx_end_of_message : TxClass := tx_tlv tlvEndOfMessage [].
Definition tx_unknown : TxClass := tx_tlv tlvUnknown [].
Definition tx_vendor_specific : TxClass := tx_tlv tlvVendorSpecific [].
Definition tx_wsc : TxClass := tx_tlv tlvWsc [].
Definition tx_al_mac_address : TxClass := tx_tlv tlvAlMacAddress [("mac", zero_mac)].
Definition tx_mac_address : TxClass := tx_tlv tlvMacAddress [("mac", zero_mac)].
Definition tx_searched_role : TxClass := tx_tlv tlvSearchedRole [].
Definition tx_supported_role : TxClass := tx_tlv tlvSupportedRole [].
Definition tx_autoconfig_freq_band : TxClass := tx_tlv tlvAutoconfigFreqBand [].
Definition tx_supported_freq_band : TxClass := tx_tlv tlvSupportedFreqBand [].
Definition tx_link_metric_result_code : TxClass := tx_tlv tlvLinkMetricResultCode [].
Definition tx_push_button_join : TxClass := tx_tlv tlvPushButtonJoinNotification
  [("al_mac_notification_src", zero_mac); ("transmitter_iface_mac_of_new_device_joined", zero_mac);
   ("iface_mac_of_new_device_joined", zero_mac)].
Definition tx_ap_radio_identifier : TxClass := tx_tlv tlvApRadioIdentifier [("radio_uid", zero_mac)].
Definition tx_client_info : TxClass := tx_tlv tlvClientInfo [("bssid", zero_mac); ("client_mac", zero_mac)].
Definition tx_backhaul_steering_request : TxClass := tx_tlv tlvBackhaulSteeringRequest
  [("backhaul_station_mac", zero_mac); ("target_bssid", zero_mac)].
Definition tx_multi_ap_profile : TxClass := tx_tlv tlvProfile2MultiApProfile [("profile", [2])].
Definition tx_higher_layer_data : TxClass := tx_tlv tlvHigherLayerData [].

(** ** [CmduMessageTx] *)

(** The message types of [set_relay_indicator]. *)
Definition relayed_messages : list Z := [0x1; 0x7; 0xa; 0xb; 0xc].

(** [flags().relay_indicator = true]: bit 6 of the flags. *)
Definition set_relay_indicator : faultM TxList unit :=
  on_last (λ x, match find_field (x_walk x) "flags" with
                | None => fault
                | Some off => v <- read_byte off ;; _ <- write_at off [Z.lor v 0x40] ;; fret (x, tt)
                end).

(** [create(id, message_type)]. *)
Definition create (id message_type : Z) : faultM TxList bool := λ t,
  (ok <- tx_addClass tx_header ;;
   if negb ok then fret false
   else
     _ <- set_value "message_type" (le16_bytes message_type) ;;
     _ <- set_value "message_id" (le16_bytes id) ;;
     _ <- (if bool_decide (message_type ∈ relayed_messages)
           then set_relay_indicator else fret tt) ;;
     fret true) (tx_reset t).

(** [CmduMessageTx::finalize()]. *)
Definition tx_finalize : faultM TxList bool :=
  ok <- tx_addClass tx_end_of_message ;;
  if negb ok then fret false else list_finalize.

(** [getMessageLength()]. *)
Definition tx_length (t : TxList) : nat := sum_list_with (λ x, x_ptr x - x_start x)%nat (t_objects t).

(** The message as it is sent: the first [getMessageLength()] bytes. *)
Definition message (t : TxList) : list Z := take (tx_length t) (t_buff t).

(** ** Flat classes *)

(** A field of a fixed size, and classes of such fields with an optional byte
    list. *)
Record FixedField := mkFF { ff_name : string; ff_size : nat; ff_sw : list (nat * nat) }.
Definition to_field (f : FixedField) : Field := Fixed (ff_name f) (ff_size f) (ff_sw f).
Definition tail_fields (tail : option string) : list Field :=
  match tail with None => [] | Some name => [Rest name 1 []] end.

Definition ff_ok (f : FixedField) : Prop := sw_ok 0 (ff_size f) (ff_sw f) = true.
Definition total (fixed : list FixedField) : nat := sum_list_with ff_size fixed.

(** A field in network order. *)
Definition wire_value (sw : list (nat * nat)) (v : list Z) : list Z :=
  foldl (λ v ow, swap_at ow.1 ow.2 v) v sw.
Definition wire_values (fixed : list FixedField) (vals : list (list Z)) : list (list Z) :=
  zip_with (λ f v, wire_value (ff_sw f) v) fixed vals.

Definition sized (f : FixedField) (v : list Z) : Prop := length v = ff_size f.

(** The members and words after the fixed fields. *)
Fixpoint fixed_walk (w : Walk) (fixed : list FixedField) : Walk :=
  match fixed with
  | [] => w
  | f :: fixed =>
    fixed_walk (mkWalk (w_ptr w + ff_size f) ((ff_name f, w_ptr w) :: w_fields w)
                  (w_spots w ++ spots_at None (w_ptr w) (ff_sw f))) fixed
  end.

Lemma fixed_walk_ptr fixed w : w_ptr (fixed_walk w fixed) = (w_ptr w + total fixed)%nat.
Proof.
  revert w. induction fixed as [|f fixed IH]; intros w; cbn; [lia|]. rewrite IH. cbn. unfold total. lia.
Qed.

Fixpoint fixed_spots (k : nat) (fixed : list FixedField) : list Spot :=
  match fixed with
  | [] => []
  | f :: fixed => spots_at None k (ff_sw f) ++ fixed_spots (k + ff_size f) fixed
  end.

Lemma fixed_walk_spots fixed w : w_spots (fixed_walk w fixed) = w_spots w ++ fixed_spots (w_ptr w) fixed.
Proof.
  revert w. induction fixed as [|f fixed IH]; intros w; cbn; [by rewrite app_nil_r|].
  rewrite IH. cbn. by rewrite <- app_assoc.
Qed.

(** *** Swapping field by field *)

Lemma swap_at_shift pre x post o n : (o + n ≤ length x)%nat →
  swap_at (length pre + o) n (pre ++ x ++ post) = pre ++ swap_at o n x ++ post.
Proof.
  intros Hn. unfold swap_at. rewrite take_app_add, drop_app_add.
  replace (length pre + o + n)%nat with (length pre + (o + n))%nat by lia. rewrite drop_app_add.
  rewrite take_app_le by lia. rewrite (drop_app_le x post) by lia.
  rewrite take_app_le by (rewrite length_drop; lia). rewrite (drop_app_le x post) by lia.
  by rewrite <- !app_assoc.
Qed.

Lemma wire_value_length sw lo v : sw_ok lo (length v) sw = true → length (wire_value sw v) = length v.
Proof.
  revert lo v. induction sw as [|[o n] sw IH]; intros lo v; [done|]. cbn [sw_ok].
  intros [Hlo Hsw]%andb_true_iff. pose proof (sw_ok_le _ _ _ Hsw).
  change (wire_value ((o, n) :: sw) v) with (wire_value sw (swap_at o n v)).
  rewrite IH with (lo := (o + n)%nat); rewrite length_swap_at; [done|lia|done|lia].
Qed.

Lemma swap_spots_value pre v post sw lo : sw_ok lo (length v) sw = true →
  swap_spots (spots_at None (length pre) sw) (pre ++ v ++ post) = pre ++ wire_value sw v ++ post.
Proof.
  revert lo v. induction sw as [|[o n] sw IH]; intros lo v; [done|]. cbn [sw_ok].
  intros [Hlo Hsw]%andb_true_iff. pose proof (sw_ok_le _ _ _ Hsw).
  change (swap_spots (spots_at None (length pre) ((o, n) :: sw)) (pre ++ v ++ post))
    with (swap_spots (spots_at None (length pre) sw) (swap_at (length pre + o) n (pre ++ v ++ post))).
  rewrite swap_at_shift by lia. apply (IH (o + n)%nat). by rewrite length_swap_at by lia.
Qed.

Lemma swap_fixed_spots fixed vals : Forall ff_ok fixed → Forall2 sized fixed vals → ∀ pre post,
  swap_spots (fixed_spots (length pre) fixed) (pre ++ concat vals ++ post)
  = pre ++ concat (wire_values fixed vals) ++ post.
Proof.
  intros Hok Hs. revert Hok. induction Hs as [|f v fixed vals Hv _ IH]; intros Hok pre post; [done|].
  apply Forall_cons in Hok as [Hf Hok]. unfold ff_ok, sized, wire_values in *. cbn [fixed_spots concat zip_with].
  rewrite swap_spots_app, <- app_assoc, swap_spots_value with (lo := 0%nat) by (by rewrite Hv).
  replace (length pre + ff_size f)%nat with (length (pre ++ wire_value (ff_sw f) v)).
  2: { rewrite length_app, wire_value_length with (lo := 0%nat); by rewrite Hv. }
  rewrite app_assoc, IH by done. by rewrite <- !app_assoc.
Qed.

Lemma wire_values_length fixed vals : Forall ff_ok fixed → Forall2 sized fixed vals →
  length (concat (wire_values fixed vals)) = total fixed ∧ length (concat vals) = total fixed.
Proof.
  intros Hok Hs. revert Hok. unfold total. induction Hs as [|f v fixed vals Hv _ IH]; intros Hok; [done|].
  apply Forall_cons in Hok as [Hf Hok]. specialize (IH Hok).
  unfold ff_ok, sized, wire_values in *. cbn [concat zip_with sum_list_with].
  rewrite !length_app, wire_value_length with (lo := 0%nat) by (by rewrite Hv). lia.
Qed.

Lemma fixed_spots_ok fixed b k : Forall ff_ok fixed → spots_ok b k (k + total fixed) (fixed_spots k fixed).
Proof.
  revert k. unfold total. induction fixed as [|f fixed IH]; intros k Hok; cbn [fixed_spots sum_list_with].
  { apply spots_ok_nil. }
  apply Forall_cons in Hok as [Hf Hok]. apply (spots_ok_app b k (k + ff_size f)); [lia|by apply spots_at_ok|].
  replace (k + (ff_size f + sum_list_with ff_size fixed))%nat
    with (k + ff_size f + sum_list_with ff_size fixed)%nat by lia. by apply IH.
Qed.

(** The receiver's swap undoes the sender's. *)
Lemma unswap_fixed_spots fixed vals pre post : Forall ff_ok fixed → Forall2 sized fixed vals →
  swap_spots (fixed_spots (length pre) fixed) (pre ++ concat (wire_values fixed vals) ++ post)
  = pre ++ concat vals ++ post.
Proof.
  intros Hok Hs. rewrite <- swap_fixed_spots by done.
  apply (swap_spots_involutive _ (length pre) (length pre + total fixed)); [by apply fixed_spots_ok|].
  rewrite !length_app, (proj2 (wire_values_length fixed vals Hok Hs)). lia.
Qed.

(** *** The receiver *)

Lemma rx_walk_fixed fixed start fin rest b w : (w_ptr w + total fixed ≤ fin)%nat →
  walk_fields walk_field start fin ((to_field <$> fixed) ++ rest) w b
  = walk_fields walk_field start fin rest (fixed_walk w fixed) b.
Proof.
  unfold total. revert w. induction fixed as [|f fixed IH]; intros w Hle; [done|]. cbn in Hle.
  cbn [fmap list_fmap app walk_fields to_field walk_field]. rewrite fbind_run, fret_run.
  unfold buffPtrIncrementSafe. cbn [fst snd w_ptr set_member w_fields w_spots].
  destruct (_ <? _) eqn:Hlt; bool_to_prop; [lia|]. rewrite Nat2Z.id. rewrite IH; [done|cbn; lia].
Qed.

Lemma find_field_fixed_walk fixed w name : name ∉ ff_name <$> fixed →
  find_field (fixed_walk w fixed) name = find_field w name.
Proof.
  revert w. induction fixed as [|f fixed IH]; intros w; cbn [fmap list_fmap fixed_walk]; [done|].
  intros [Hf Hn]%not_elem_of_cons. rewrite IH by done. rewrite find_field_cons, decide_False by done.
  by destruct w.
Qed.

(** The fields every TLV starts with. *)
Definition ff_type : FixedField := mkFF "type" 1 [].
Definition ff_length : FixedField := mkFF "length" 2 [(0, 2)%nat].

(** A TLV class of fixed fields with a byte list at the end. *)
Record flat (L : Layout) (more : list FixedField) (tail : option string) : Prop := {
  fl_fields : l_fields L = (to_field <$> ff_type :: ff_length :: more) ++ tail_fields tail;
  fl_names : NoDup (ff_name <$> ff_type :: ff_length :: more);
  fl_tail name : tail = Some name → name ∉ ff_name <$> ff_type :: ff_length :: more;
  fl_ok : Forall ff_ok more;
}.

Definition tlv_len (more : list FixedField) (data : list Z) : Z := Z.of_nat (total more + length data).

(** The contents of a TLV: the values of its fields in host order and the
    bytes of its list. *)
Record content_ok (more : list FixedField) (tail : option string) (vals : list (list Z)) (data : list Z) : Prop := {
  co_sized : Forall2 sized more vals;
  co_bytes : bytes_ok (concat vals) ∧ bytes_ok data;
  co_tail : tail = None → data = [];
  co_length : tlv_len more data < 65536;
}.

Lemma flat_all_ok L more tail : flat L more tail → Forall ff_ok (ff_type :: ff_length :: more).
Proof. intros H. repeat constructor. apply H. Qed.

Lemma sized_all more vals t len : Forall2 sized more vals →
  Forall2 sized (ff_type :: ff_length :: more) ([t] :: le16_bytes len :: vals).
Proof. intros H. by repeat constructor. Qed.

Lemma total_tlv more : total (ff_type :: ff_length :: more) = (3 + total more)%nat.
Proof. done. Qed.

Lemma tlv_wire more vals t len :
  concat (wire_values (ff_type :: ff_length :: more) ([t] :: le16_bytes len :: vals))
  = t :: u8 (Z.shiftr len 8) :: u8 len :: concat (wire_values more vals).
Proof. done. Qed.

Lemma flat_walk_header L more tail k : flat L more tail →
  find_field (fixed_walk (mkWalk k [] []) (ff_type :: ff_length :: more)) "type" = Some k ∧
  find_field (fixed_walk (mkWalk k [] []) (ff_type :: ff_length :: more)) "length" = Some (k + 1)%nat.
Proof.
  intros Hfl. pose proof (fl_names _ _ _ Hfl) as Hnd. cbn [fmap list_fmap] in Hnd.
  apply NoDup_cons in Hnd as [Hty Hnd]. apply NoDup_cons in Hnd as [Hlen _].
  split.
  - change (ff_type :: ff_length :: more) with ([ff_type] ++ ff_length :: more).
    cbn [app fixed_walk]. rewrite find_field_fixed_walk; [done|]. intros ?. apply Hty. cbn. by right.
  - cbn [fixed_walk]. by rewrite find_field_fixed_walk.
Qed.

Lemma flat_initial_size L more tail : flat L more tail → get_initial_size (l_fields L) = (3 + total more)%nat.
Proof.
  intros H. rewrite (fl_fields _ _ _ H). unfold get_initial_size. rewrite sum_list_with_app.
  assert (sum_list_with initial_size (tail_fields tail) = 0%nat) as -> by (by destruct tail).
  rewrite Nat.add_0_r, <- total_tlv. unfold total.
  generalize (ff_type :: ff_length :: more). intros l. induction l as [|f l IH]; [done|]. cbn. by rewrite <- IH.
Qed.

(** The members of a parsed flat TLV at [k] with [n] bytes of data. *)
Definition rx_walk (k : nat) (more : list FixedField) (tail : option string) (n : nat) : Walk :=
  let w := fixed_walk (mkWalk k [] []) (ff_type :: ff_length :: more) in
  mkWalk (w_ptr w + n) (match tail with None => [] | Some name => [(name, w_ptr w)] end ++ w_fields w) (w_spots w).

Lemma rx_walk_ptr k more tail n : w_ptr (rx_walk k more tail n) = (k + 3 + total more + n)%nat.
Proof. unfold rx_walk. cbn [w_ptr]. rewrite fixed_walk_ptr, total_tlv. cbn. lia. Qed.

Lemma rx_walk_swap L more tail vals k n pre t len rest : flat L more tail → Forall2 sized more vals →
  length pre = k →
  swap_spots (w_spots (rx_walk k more tail n))
    (pre ++ (t :: u8 (Z.shiftr len 8) :: u8 len :: concat (wire_values more vals)) ++ rest)
  = pre ++ (t :: le16_bytes len ++ concat vals) ++ rest.
Proof.
  intros Hfl Hs <-. unfold rx_walk. cbn [w_spots]. rewrite fixed_walk_spots. cbn [w_spots app w_ptr].
  pose proof (unswap_fixed_spots _ _ pre rest (flat_all_ok _ _ _ Hfl) (sized_all more vals t len Hs)) as H.
  rewrite tlv_wire in H. exact H.
Qed.

(** The length of a received TLV. *)
Lemma rx_read_len L more tail k pre t len rest : flat L more tail → length pre = k → 0 ≤ len < 65536 →
  read_len (fixed_walk (mkWalk k [] []) (ff_type :: ff_length :: more)) (Len16 "length")
    (pre ++ t :: u8 (Z.shiftr len 8) :: u8 len :: rest)
  = (Some len, pre ++ t :: u8 (Z.shiftr len 8) :: u8 len :: rest).
Proof.
  intros Hfl <- Hl. unfold read_len. cbn [len_field]. rewrite (proj2 (flat_walk_header L more _ _ Hfl)).
  unfold read_byte. rewrite !fbind_run. cbn [fst snd].
  rewrite lookup_app_r by lia. replace (length pre + 1 - length pre)%nat with 1%nat by lia.
  cbn [lookup list_lookup fst snd]. rewrite fbind_run. cbn [fst snd].
  rewrite lookup_app_r by lia. replace (S (length pre + 1) - length pre)%nat with 2%nat by lia.
  cbn [lookup list_lookup fst snd]. rewrite fret_run. by rewrite be16_bytes_roundtrip.
Qed.

(** The steps of [init()] on a received flat TLV. *)
Lemma rx_flat_walk L more tail data k pre t rest fin : flat L more tail → length pre = k →
  (tail = None → data = []) → tlv_len more data < 65536 →
  (k + 3 + total more + length data ≤ fin)%nat →
  let len := tlv_len more data in let b := pre ++ t :: u8 (Z.shiftr len 8) :: u8 len :: rest in
  walk_fields walk_field k fin (l_fields L) (mkWalk k [] []) b = (Some (Some (rx_walk k more tail (length data))), b).
Proof.
  intros Hfl Hk Htl Hlen Hfin len b.
  rewrite (fl_fields _ _ _ Hfl), rx_walk_fixed by (rewrite total_tlv; cbn; lia).
  set (wf := fixed_walk _ _). assert (w_ptr wf = k + 3 + total more)%nat as Hptr.
  { unfold wf. rewrite fixed_walk_ptr, total_tlv. cbn. lia. }
  destruct tail as [name|]; cbn [tail_fields walk_fields walk_field app].
  - rewrite fbind_run. unfold rest_length. rewrite !fbind_run. unfold b, wf.
    rewrite (rx_read_len L more (Some name)) by (done || unfold len, tlv_len in *; lia).
    fold wf. cbn [fst snd]. rewrite fret_run. cbn [fst snd].
    replace (u64 _) with (Z.of_nat (length data)).
    2: { unfold type_size, wf. rewrite (proj2 (flat_walk_header L more _ _ Hfl)). fold wf. cbn [from_option id].
         rewrite Hptr. cbn [len_width]. unfold u64, len, tlv_len in *. change (2 ^ 64) with 18446744073709551616.
         rewrite Z.mod_small; lia. }
    unfold take_elements. destruct (_ <? _) eqn:Hlt; bool_to_prop; [rewrite Hptr in Hlt; lia|].
    rewrite !fret_run. cbn [fst snd]. rewrite Nat2Z.id. do 3 f_equal.
    by rewrite element_spots_plain, app_nil_r.
  - rewrite fret_run. unfold rx_walk. fold wf. rewrite (Htl eq_refl). cbn [length app]. rewrite Nat.add_0_r.
    clear. by destruct wf.
Qed.

Lemma init_parse_walk L k fin b w t rest : layout_ok L = true → (k ≤ fin ≤ length b)%nat → bytes_ok b →
  (get_initial_size (l_fields L) ≤ fin - k)%nat →
  walk_fields walk_field k fin (l_fields L) (mkWalk k [] []) b = (Some (Some w), b) →
  (l_type L = None ∨ l_type L = Some t) → find_field w "type" = Some k →
  swap_spots (w_spots w) b = rest → rest !! k = Some t →
  init_parse L k fin b = (Some (Some (mkObject (l_name L) k (w_ptr w) (w_fields w) (w_spots w))), rest).
Proof.
  intros Hok Hfin Hb Hsz Hwalk Htype Hf <- Ht.
  assert (init_fields walk_field k fin (l_fields L) b = (Some (Some w), swap_spots (w_spots w) b)) as Hi.
  { pose proof (init_fields_post (l_fields L) ltac:(apply Forall_forall; intros; apply walk_field_post)
                  b fin k Hfin Hb Hok) as Hif. unfold init_fields in Hif |- *.
    destruct (_ <? _)%nat eqn:Hlt; [apply Nat.ltb_lt in Hlt; lia|].
    rewrite fbind_run, Hwalk in Hif |- *. cbn [fst snd] in Hif |- *. rewrite fbind_run in Hif |- *.
    destruct (class_swap (w_spots w) b) as [[[]|] b1]; cbn [fst snd] in Hif |- *; [|done].
    by destruct Hif as [-> _]. }
  unfold init_parse. rewrite fbind_run, Hi. cbn [fst snd]. destruct Htype as [-> | ->]; [done|].
  rewrite Hf, fbind_run. unfold read_byte. rewrite Ht. cbn [fst snd]. by rewrite Z.eqb_refl.
Qed.

(** A flat TLV is parsed to its contents, in host order. *)
Lemma rx_flat L more tail vals data t pre post : flat L more tail → content_ok more tail vals data →
  layout_ok L = true → byte_ok t → (l_type L = None ∨ l_type L = Some t) →
  bytes_ok (pre ++ concat (wire_values more vals) ++ data ++ post) →
  let len := tlv_len more data in
  let b := pre ++ (t :: u8 (Z.shiftr len 8) :: u8 len :: concat (wire_values more vals)) ++ data ++ post in
  ∃ o, init_parse L (length pre) (length b) b
    = (Some (Some o), pre ++ (t :: le16_bytes len ++ concat vals) ++ data ++ post) ∧
    o_class o = l_name L ∧ o_ptr o = (length pre + 3 + total more + length data)%nat.
Proof.
  intros Hfl [Hs _ Htl Hlen] Hok Ht Htype Hbytes len b. set (k := length pre).
  assert (length b = k + 3 + total more + length data + length post)%nat as Hb.
  { unfold b. rewrite !length_app. cbn. rewrite (proj1 (wire_values_length more vals (fl_ok _ _ _ Hfl) Hs)). unfold k. lia. }
  assert (bytes_ok b) as Hbb.
  { unfold b, bytes_ok in *. rewrite !Forall_app in Hbytes. destruct Hbytes as (? & ? & ? & ?).
    rewrite !Forall_app, !Forall_cons. split_and!; auto with prpl. }
  eexists. split; [eapply (init_parse_walk L k _ b (rx_walk k more tail (length data)) t)|].
  - done.
  - lia.
  - done.
  - rewrite (flat_initial_size L more tail Hfl). lia.
  - apply rx_flat_walk; [done|done|done|done|lia].
  - done.
  - rewrite <- (proj1 (flat_walk_header L more tail k Hfl)). unfold rx_walk. destruct tail as [name|]; [|done].
    cbn [app]. rewrite find_field_cons, decide_False; [done|].
    intros ->. apply (fl_tail _ _ _ Hfl "type" eq_refl). cbn. by left.
  - by apply (rx_walk_swap L).
  - rewrite lookup_app_r by (unfold k; lia). unfold k. by rewrite Nat.sub_diag.
  - split; [done|]. apply rx_walk_ptr.
Qed.

(** ** Whole messages *)

(** A TLV of a message: its class, type and contents. *)
Record Tlv := mkTlv {
  tv_class : TxClass;
  tv_more : list FixedField;
  tv_tail : option string;
  tv_type : Z;
  tv_vals : list (list Z);
  tv_data : list Z;
}.
Definition tv_len (v : Tlv) : Z := tlv_len (tv_more v) (tv_data v).
Definition tv_size (v : Tlv) : nat := 3 + total (tv_more v) + length (tv_data v).

(** Its bytes in host order, and on the wire. *)
Definition tv_host (v : Tlv) : list Z :=
  (tv_type v :: le16_bytes (tv_len v) ++ concat (tv_vals v)) ++ tv_data v.
Definition tv_wire (v : Tlv) : list Z :=
  (tv_type v :: u8 (Z.shiftr (tv_len v) 8) :: u8 (tv_len v) :: concat (wire_values (tv_more v) (tv_vals v)))
  ++ tv_data v.

(** The class is the one the receiver chooses for the type. *)
Record tlv_ok (v : Tlv) : Prop := {
  to_flat : flat (tx_layout (tv_class v)) (tv_more v) (tv_tail v);
  to_content : content_ok (tv_more v) (tv_tail v) (tv_vals v) (tv_data v);
  to_type : byte_ok (tv_type v);
  to_class : class_of_type (tv_type v) = tx_layout (tv_class v);
  to_own_type : l_type (tx_layout (tv_class v)) = None ∨ l_type (tx_layout (tv_class v)) = Some (tv_type v);
  to_plain : tv_type v ≠ TLV_LINK_METRIC_QUERY ∧ tv_type v ≠ TLV_VIRTUAL_BSS;
  to_not_end : l_name (tx_layout (tv_class v)) ≠ "tlvEndOfMessage";
}.

Lemma wire_value_bytes sw v : bytes_ok v → bytes_ok (wire_value sw v).
Proof.
  revert v. induction sw as [|[o n] sw IH]; intros v Hv; [done|]. apply IH. unfold swap_at, bytes_ok in *.
  rewrite !Forall_app, Forall_reverse. split_and!; [by apply Forall_take| |by apply Forall_drop].
  by apply Forall_take, Forall_drop.
Qed.

Lemma wire_values_bytes fixed vals : bytes_ok (concat vals) → bytes_ok (concat (wire_values fixed vals)).
Proof.
  revert fixed. induction vals as [|v vals IH]; intros [|f fixed]; try done.
  { intros _. by constructor. }
  cbn. intros [Hv Hvs]%Forall_app. apply Forall_app. split; [by apply wire_value_bytes|by apply IH].
Qed.

Lemma tv_wire_ok v : tlv_ok v → length (tv_wire v) = tv_size v ∧ length (tv_host v) = tv_size v ∧ bytes_ok (tv_wire v).
Proof.
  intros [Hf [Hs [Hbv Hbd] _ _] Ht _ _ _ _]. unfold tv_wire, tv_host, tv_size.
  destruct (wire_values_length _ _ (fl_ok _ _ _ Hf) Hs) as [H1 H2].
  rewrite !length_app. cbn. rewrite ?length_app, H1, H2. split_and!; [lia|lia|].
  repeat (apply Forall_cons; split; [auto with prpl|]).
  apply Forall_app. split; [by apply wire_values_bytes|done].
Qed.

(** One TLV of a message. *)
Lemma rx_add_tlv m v pre post : tlv_ok v → m_buff m = pre ++ tv_wire v ++ post → next_ptr m = length pre →
  bytes_ok pre → bytes_ok post → ∃ o,
  addClass (tx_layout (tv_class v)) m
    = (Some (Some o), mkClassList (pre ++ tv_host v ++ post) (m_swapped m) (m_class_vector m ++ [o])) ∧
  o_class o = l_name (tx_layout (tv_class v)) ∧ o_ptr o = length (pre ++ tv_host v).
Proof.
  intros Hv Hb Hn Hpre Hpost. destruct (tv_wire_ok v Hv) as (_ & Hh & _).
  pose proof (class_of_type_ok (tv_type v)) as Hok. rewrite (to_class _ Hv) in Hok. unfold class_ok in Hok. bool_to_prop.
  pose proof (to_content _ Hv) as Hc. destruct (co_bytes _ _ _ _ Hc) as [Hbv Hbd].
  destruct (rx_flat (tx_layout (tv_class v)) (tv_more v) (tv_tail v) (tv_vals v) (tv_data v) (tv_type v) pre post)
    as (o & Hi & Hcl & Hp); [apply Hv|done|done|apply Hv|apply Hv| |].
  { unfold bytes_ok in *. rewrite !Forall_app. split_and!; [done|by apply wire_values_bytes|done..]. }
  exists o. split_and!; [|done|].
  - unfold addClass. rewrite Hb, Hn. unfold tv_wire, tv_len. rewrite <- !(app_assoc _ (tv_data v) post).
    rewrite Hi. unfold tv_host, tv_len. by rewrite <- !(app_assoc _ (tv_data v) post).
  - rewrite Hp, length_app, Hh. unfold tv_size. lia.
Qed.

Lemma addClass_end m pre post : m_buff m = pre ++ [0; 0; 0] ++ post → next_ptr m = length pre →
  bytes_ok pre → bytes_ok post → ∃ o,
  addClass tlvEndOfMessage m = (Some (Some o), mkClassList (m_buff m) (m_swapped m) (m_class_vector m ++ [o])) ∧
  o_class o = "tlvEndOfMessage" ∧ o_ptr o = (length pre + 3)%nat.
Proof.
  intros Hb Hn Hpre Hpost.
  destruct (rx_flat tlvEndOfMessage [] None [] [] 0 pre post) as (o & Hi & Hcl & Hp); [| |done..| | |].
  { split; [done|by apply (bool_decide_unpack _)|done|by apply Forall_nil]. }
  { split; [apply Forall2_nil; done|by split; apply Forall_nil|done|done]. }
  { by right. }
  { apply Forall_app. by split. }
  exists o. unfold addClass. rewrite Hb, Hn. 
  change (u8 (Z.shiftr (tlv_len [] []) 8)) with 0 in Hi. change (u8 (tlv_len [] [])) with 0 in Hi.
  change (le16_bytes (tlv_len [] [])) with [0; 0] in Hi. cbn in Hi |- *. rewrite Hi. split_and!; [done..|].
  rewrite Hp. cbn. lia.
Qed.

(** The loop of [parse] on the TLVs of a message. *)
(** Where the TLVs from [p] on and the end of message TLV end. *)
Fixpoint ends (p : nat) (l : list Tlv) : list nat :=
  match l with [] => [p + 3]%nat | v :: l => (p + tv_size v)%nat :: ends (p + tv_size v) l end.

Lemma rx_tlvs l : Forall tlv_ok l → ∀ m pre post fuel,
  m_buff m = pre ++ concat (tv_wire <$> l) ++ [0; 0; 0] ++ post → next_ptr m = length pre →
  starts_with_header m → bytes_ok pre → bytes_ok post → (length l < fuel)%nat → ∃ m',
  parse_tlvs fuel m = (Some (Parsed true), m') ∧
  m_buff m' = pre ++ concat (tv_host <$> l) ++ [0; 0; 0] ++ post ∧
  o_class <$> m_class_vector m' = (o_class <$> m_class_vector m)
    ++ ((λ v, l_name (tx_layout (tv_class v))) <$> l) ++ ["tlvEndOfMessage"] ∧
  o_ptr <$> m_class_vector m' = (o_ptr <$> m_class_vector m) ++ ends (length pre) l.
Proof.
  induction 1 as [|v l Hv Hl IH]; intros m pre post fuel Hb Hn Hh Hpre Hpost Hfuel; (destruct fuel as [|fuel]; [lia|]);
    cbn [parse_tlvs].
  - destruct (addClass_end m pre post Hb Hn Hpre Hpost) as (o & Ha & Hcl & Hp). cbn in Hb.
    rewrite fbind_run, (next_class_type m 0); [|by apply starts_with_header_getClass|done| |done..].
    2: { rewrite Hb, Hn, lookup_app_r, Nat.sub_diag by lia. done. }
    cbn [fst snd]. replace (class_of_type 0) with tlvEndOfMessage by (by vm_compute).
    rewrite fbind_run, Ha. cbn [fst snd]. rewrite decide_True by done. eexists. split; [done|]. cbn.
    split_and!; [done|by rewrite fmap_app; cbn; rewrite Hcl|]. rewrite fmap_app. cbn. by rewrite Hp.
  - destruct (tv_wire_ok v Hv) as (Hw & Hho & Hbw).
    cbn [fmap list_fmap concat] in Hb. rewrite <- app_assoc in Hb.
    destruct (rx_add_tlv m v pre (concat (tv_wire <$> l) ++ [0; 0; 0] ++ post)) as (o & Ha & Hcl & Hp); [done..| |].
    { unfold bytes_ok. rewrite !Forall_app. split_and!; [|by repeat constructor|done].
      apply Forall_concat, Forall_fmap. eapply Forall_impl; [exact Hl|]. intros v' Hv'. by apply tv_wire_ok. }
    rewrite fbind_run, (next_class_type m (tv_type v));
      [|by apply starts_with_header_getClass|apply Hv| |apply Hv|apply Hv].
    2: { rewrite Hb, Hn, lookup_app_r, Nat.sub_diag by lia. done. }
    cbn [fst snd]. rewrite (to_class _ Hv), fbind_run, Ha. cbn [fst snd].
    rewrite decide_False by (rewrite Hcl; apply Hv).
    match goal with |- context [parse_tlvs fuel ?m1] => destruct (IH m1 (pre ++ tv_host v) post fuel) as (m' & Hr & Hb' & Hc' & Hl') end.
    + cbn [m_buff]. by rewrite <- app_assoc.
    + unfold next_ptr. cbn. by rewrite last_snoc.
    + destruct Hh as (h & Hh & Hname). exists h. cbn. split; [|done]. by destruct (m_class_vector m).
    + apply Forall_app. split; [done|]. pose proof (to_content _ Hv) as Hc. destruct (co_bytes _ _ _ _ Hc).
      unfold tv_host. apply Forall_app. split; [|done]. apply Forall_cons. split; [apply Hv|].
      apply Forall_app. split; [|done]. unfold le16_bytes. repeat (apply Forall_cons; split; [auto with prpl|]). constructor.
    + done.
    + cbn in Hfuel. lia.
    + exists m'. split_and!; [done| | |].
      * rewrite Hb'. cbn [fmap list_fmap concat]. by rewrite <- !app_assoc.
      * rewrite Hc'. cbn. rewrite fmap_app. cbn. by rewrite Hcl, <- !app_assoc.
      * rewrite Hl'. cbn [m_class_vector ends]. rewrite fmap_app, <- app_assoc, length_app, Hho. cbn [fmap list_fmap app]. by rewrite Hp, length_app, Hho.
Qed.

(** *** The CMDU header *)

Definition header_fixed : list FixedField :=
  [mkFF "message_version" 1 []; mkFF "reserved" 1 []; mkFF "message_type" 2 [(0, 2)%nat];
   mkFF "message_id" 2 [(0, 2)%nat]; mkFF "fragment_id" 1 []; mkFF "flags" 1 []].

(** Version, reserved, type, identifier, fragment and flags of a message that
    is not a fragment. *)
Definition header_vals (message_type id : Z) (relay : bool) : list (list Z) :=
  [[0]; [0]; le16_bytes message_type; le16_bytes id; [0]; [if relay then 0xc0 else 0x80]].
Definition header_wire (message_type id : Z) (relay : bool) : list Z :=
  concat (wire_values header_fixed (header_vals message_type id relay)).
Definition header_host (message_type id : Z) (relay : bool) : list Z :=
  concat (header_vals message_type id relay).

Lemma header_fixed_ok : Forall ff_ok header_fixed.
Proof. by repeat constructor. Qed.
Lemma header_sized mt id r : Forall2 sized header_fixed (header_vals mt id r).
Proof. by repeat constructor. Qed.

Lemma rx_header mt id r post : ∃ o,
  addClass cCmduHeader (received (header_wire mt id r ++ post))
    = (Some (Some o), mkClassList (header_host mt id r ++ post) false [o]) ∧
  o_class o = "cCmduHeader" ∧ o_ptr o = 8%nat.
Proof.
  set (w := fixed_walk (mkWalk 0 [] []) header_fixed).
  exists (mkObject "cCmduHeader" 0 (w_ptr w) (w_fields w) (w_spots w)). split_and!; [|done..].
  unfold addClass, init_parse. change (next_ptr (received (header_wire mt id r ++ post))) with 0%nat.
  cbn [m_buff received m_class_vector m_swapped].
  change (l_fields cCmduHeader) with ((to_field <$> header_fixed) ++ []). rewrite fbind_run. unfold init_fields.
  replace (length (header_wire mt id r ++ post) - 0 <? _)%nat with false by (symmetry; apply Nat.ltb_ge; cbn; lia).
  rewrite fbind_run.
  rewrite rx_walk_fixed by (cbn; lia). cbn [walk_fields]. rewrite fret_run. cbn [fst snd]. fold w.
  assert (w_spots w = fixed_spots 0 header_fixed) as -> by done.
  rewrite fbind_run, (class_swap_run _ 0 8); [|by apply (fixed_spots_ok header_fixed), header_fixed_ok|cbn; lia].
  assert (swap_spots (fixed_spots 0 header_fixed) (header_wire mt id r ++ post) = header_host mt id r ++ post) as ->
    by exact (unswap_fixed_spots header_fixed (header_vals mt id r) [] post header_fixed_ok (header_sized mt id r)).
  done.
Qed.

(** A message of flat TLVs is parsed to its contents. *)
Lemma rx_message mt id r l post : Forall tlv_ok l → bytes_ok post → ∃ m,
  parse (received (header_wire mt id r ++ concat (tv_wire <$> l) ++ [0; 0; 0] ++ post)) = (Some (Parsed true), m) ∧
  m_buff m = header_host mt id r ++ concat (tv_host <$> l) ++ [0; 0; 0] ++ post ∧
  o_class <$> m_class_vector m
    = "cCmduHeader" :: ((λ v, l_name (tx_layout (tv_class v))) <$> l) ++ ["tlvEndOfMessage"] ∧
  o_ptr <$> m_class_vector m = 8%nat :: ends 8 l.
Proof.
  intros Hl Hpost. unfold parse. rewrite fbind_run. cbn [fst snd CmduMessage.reset].
  destruct (rx_header mt id r (concat (tv_wire <$> l) ++ [0; 0; 0] ++ post)) as (h & Ha & Hcl & Hp).
  rewrite fbind_run. cbn [fst snd]. unfold received in Ha |- *. cbn [m_buff] in Ha |- *.
  rewrite Ha. cbn [fst snd m_buff].
  match goal with |- context [parse_tlvs ?n ?m1] =>
    destruct (rx_tlvs l Hl m1 (header_host mt id r) post n) as (m & Hr & Hb & Hc & He) end.
  - done.
  - unfold next_ptr. cbn. by rewrite Hp.
  - by exists h.
  - unfold header_host, header_vals, le16_bytes. cbn. repeat (apply Forall_cons; split; [auto with prpl|]); [..|constructor].
    all: destruct r; unfold byte_ok; lia.
  - done.
  - rewrite !length_app. enough (length l ≤ length (concat (tv_wire <$> l)))%nat by lia.
    clear -Hl. induction Hl as [|v l Hv _ IH]; [done|]. cbn [fmap list_fmap concat length]. rewrite length_app.
    destruct (tv_wire_ok v Hv) as (-> & _). unfold tv_size. lia.
  - exists m. split_and!; [done..| |]; [rewrite Hc|rewrite He]; cbn; by rewrite ?Hcl, ?Hp.
Qed.

(** *** The sender *)

Lemma write_block pre old new post : length new = length old →
  write_at (length pre) new (pre ++ old ++ post) = (Some tt, pre ++ new ++ post).
Proof.
  intros Hl. unfold write_at. rewrite !length_app.
  destruct (_ <=? _)%nat eqn:Hle; [|apply Nat.leb_gt in Hle; lia].
  rewrite take_app_length, drop_app_add, Hl, drop_app_length. done.
Qed.

Lemma le16_of_bytes pre v post : 0 ≤ v < 65536 → le16 (pre ++ le16_bytes v ++ post) (length pre) = v.
Proof.
  intros Hv. unfold le16, at_, le16_bytes.
  rewrite (lookup_app_r pre _ (length pre)), (lookup_app_r pre _ (S (length pre))) by lia.
  replace (S (length pre) - length pre)%nat with 1%nat by lia.
  replace (length pre - length pre)%nat with 0%nat by lia.
  by apply be16_bytes_roundtrip.
Qed.

Lemma add_length_run pre v post n : 0 ≤ v → v + Z.of_nat n < 65536 →
  add_length (length pre) n (pre ++ le16_bytes v ++ post) = (Some tt, pre ++ le16_bytes (v + Z.of_nat n) ++ post).
Proof.
  intros H1 H2. unfold add_length. rewrite le16_of_bytes by lia.
  replace (u16 _) with (v + Z.of_nat n) by (unfold u16; rewrite Z.mod_small; lia).
  by apply write_block.
Qed.

(** What [init()] writes are bytes, as many as the member has. *)
Definition inits_ok (inits : list (string * list Z)) (fixed : list FixedField) : bool :=
  forallb (λ f, match initial_bytes inits (ff_name f) with
                | Some bs => bool_decide (length bs = ff_size f ∧ bytes_ok bs) | None => true end) fixed.

Lemma split_sizes fs bs : length bs = total fs → ∃ vals, Forall2 sized fs vals ∧ concat vals = bs.
Proof.
  unfold total. revert bs. induction fs as [|f fs IH]; intros bs Hl; cbn [sum_list_with] in Hl.
  { exists []. apply nil_length_inv in Hl as ->. split; [by apply Forall2_nil|done]. }
  destruct (IH (drop (ff_size f) bs)) as (vals & Hs & Hc); [rewrite length_drop; lia|].
  exists (take (ff_size f) bs :: vals). split; [|cbn; by rewrite Hc, take_drop].
  apply Forall2_cons. split; [|done]. unfold sized. rewrite length_take. lia.
Qed.

(** The members after [init()], when they were [olds] before. *)
Definition init_vals (inits : list (string * list Z)) (fs : list FixedField) (olds : list (list Z)) : list (list Z) :=
  zip_with (λ f old, default old (initial_bytes inits (ff_name f))) fs olds.

Lemma init_vals_cons inits f fs old : inits_ok inits (f :: fs) = true → sized f old →
  sized f (default old (initial_bytes inits (ff_name f))) ∧
  (bytes_ok old → bytes_ok (default old (initial_bytes inits (ff_name f)))) ∧ inits_ok inits fs = true ∧
  ∀ pre post, (match initial_bytes inits (ff_name f) with Some bs => write_at (length pre) bs | None => fret tt end)
    (pre ++ old ++ post) = (Some tt, pre ++ default old (initial_bytes inits (ff_name f)) ++ post).
Proof.
  unfold inits_ok. cbn [forallb]. intros [Hf Hi]%andb_prop Ho. unfold sized in *.
  destruct (initial_bytes _ _) as [bs|]; cbn; [|done].
  apply bool_decide_eq_true in Hf as [Hl Hb]. split_and!; [done|done|done|]. intros pre post. apply write_block. lia.
Qed.

Lemma init_vals_sized inits fs olds : Forall2 sized fs olds → inits_ok inits fs = true →
  Forall2 sized fs (init_vals inits fs olds) ∧ (bytes_ok (concat olds) → bytes_ok (concat (init_vals inits fs olds))).
Proof.
  induction 1 as [|f v fs olds Hv _ IH]; intros Hi; [by split; [apply Forall2_nil|]|].
  destruct (init_vals_cons inits f fs v Hi Hv) as (H1 & H2 & H3 & _). destruct (IH H3) as [H4 H5].
  cbn [init_vals zip_with concat]. split; [by apply Forall2_cons|].
  intros [Hb1 Hb2]%Forall_app. apply Forall_app. split; [by apply H2|by apply H5].
Qed.

(** [init()] on the fields behind the length. *)
Lemma tx_walk_more inits fin rest more olds : Forall2 sized more olds → inits_ok inits more = true →
  "length" ∉ ff_name <$> more → ∀ w h v dn post,
  w_ptr w = (length h + 2 + length dn)%nat →
  find_field w "length" = Some (length h) → (w_ptr w + total more ≤ fin)%nat →
  0 ≤ v → v + Z.of_nat (total more) < 65536 →
  tx_walk inits fin ((to_field <$> more) ++ rest) w (h ++ le16_bytes v ++ dn ++ concat olds ++ post)
  = tx_walk inits fin rest (fixed_walk w more)
      (h ++ le16_bytes (v + Z.of_nat (total more)) ++ dn ++ concat (init_vals inits more olds) ++ post).
Proof.
  unfold total. induction 1 as [|f old more olds Hv _ IH]; intros Hi Hn w h v dn post Hp Hf Hfin Hv0 Hlen.
  { cbn. by rewrite Z.add_0_r. }
  cbn [fmap list_fmap] in Hn. apply not_elem_of_cons in Hn as [Hnf Hn].
  destruct (init_vals_cons inits f more old Hi Hv) as (Hnew & _ & Hi' & Hw).
  cbn [fmap list_fmap app to_field tx_walk sum_list_with fixed_walk concat init_vals zip_with] in *.
  set (new := default old _) in *. unfold buffPtrIncrementSafe. cbn [w_ptr set_member w_fields w_spots].
  destruct (_ <? _) eqn:Hlt; bool_to_prop; [lia|]. rewrite Nat2Z.id, fbind_run, Hp.
  replace (length h + 2 + length dn)%nat with (length (h ++ le16_bytes v ++ dn)) by (rewrite !length_app; cbn; lia).
  replace (h ++ le16_bytes v ++ dn ++ (old ++ concat olds) ++ post)
    with ((h ++ le16_bytes v ++ dn) ++ old ++ concat olds ++ post) by (by rewrite <- !app_assoc).
  rewrite Hw. cbn [fst snd]. rewrite fbind_run, Hf, <- !app_assoc, add_length_run by lia. cbn [fst snd].
  match goal with |- context [tx_walk _ _ _ ?w1 (_ ++ le16_bytes ?v1 ++ _)] =>
    pose proof (IH Hi' Hn w1 h v1 (dn ++ new) post) as Hr end.
  rewrite <- !app_assoc in Hr. rewrite Hr; clear Hr.
  - by rewrite Nat2Z.inj_add, Z.add_assoc.
  - cbn [w_ptr]. rewrite !length_app. unfold sized in Hnew. cbn. lia.
  - cbn [w_ptr w_fields]. rewrite find_field_cons, decide_False by done. by destruct w.
  - cbn [w_ptr]. rewrite !length_app. cbn. lia.
  - lia.
  - lia.
Qed.

(** What [init()] writes into a TLV to be sent. *)
Record tx_ok (C : TxClass) (more : list FixedField) : Prop := {
  tx_more : inits_ok (tx_init C) more = true;
  tx_len : initial_bytes (tx_init C) "length" = Some [0; 0];
  tx_type : initial_bytes (tx_init C) "type" = (λ t, [t]) <$> l_type (tx_layout C);
}.

(** The members of a TLV at [k]. *)
Definition flat_walk (k : nat) (more : list FixedField) (tail : option string) : Walk :=
  let w := fixed_walk (mkWalk k [] []) (ff_type :: ff_length :: more) in
  match tail with None => w | Some name => set_member name [] w end.

Lemma flat_walk_ptr k more tail : w_ptr (flat_walk k more tail) = (k + 3 + total more)%nat.
Proof.
  unfold flat_walk. destruct tail; cbn [set_member w_ptr]; rewrite fixed_walk_ptr, total_tlv; cbn [w_ptr]; lia.
Qed.
Lemma flat_walk_spots k more tail :
  w_spots (flat_walk k more tail) = fixed_spots k (ff_type :: ff_length :: more).
Proof.
  unfold flat_walk. destruct tail; cbn [set_member w_spots]; rewrite fixed_walk_spots; [|done].
  by rewrite app_nil_r.
Qed.

Lemma tx_walk_header C fin rest pre t0 l0 post : initial_bytes (tx_init C) "length" = Some [0; 0] →
  initial_bytes (tx_init C) "type" = (λ t, [t]) <$> l_type (tx_layout C) → length l0 = 2%nat →
  (length pre + 3 ≤ fin)%nat →
  tx_walk (tx_init C) fin (to_field ff_type :: to_field ff_length :: rest) (mkWalk (length pre) [] [])
    (pre ++ [t0] ++ l0 ++ post)
  = tx_walk (tx_init C) fin rest (fixed_walk (mkWalk (length pre) [] []) [ff_type; ff_length])
      ((pre ++ [default t0 (l_type (tx_layout C))]) ++ le16_bytes 0 ++ post).
Proof.
  intros Hl Ht Hl0 Hfin. cbn [tx_walk to_field ff_type ff_length ff_name ff_size ff_sw fixed_walk].
  unfold buffPtrIncrementSafe. cbn [w_ptr set_member w_fields w_spots].
  destruct (_ <? _) eqn:Hlt1; bool_to_prop; [lia|]. rewrite fbind_run, Ht.
  set (t1 := default t0 (l_type (tx_layout C))).
  assert (∀ b, b = pre ++ [t0] ++ l0 ++ post →
    (match (λ t : Z, [t]) <$> l_type (tx_layout C) with Some bs => write_at (length pre) bs | None => fret () end) b
    = (Some tt, pre ++ [t1] ++ l0 ++ post)) as Hw.
  { intros b ->. unfold t1. destruct (l_type (tx_layout C)) as [t|]; [|done]. cbn [fmap option_fmap option_map default].
    by apply write_block. }
  rewrite (Hw _ eq_refl). cbn [fst snd]. rewrite fbind_run.
  change (find_field (mkWalk (length pre) [] []) "length") with (@None nat). cbv iota. rewrite fret_run. cbn [fst snd].
  cbn [w_ptr w_fields w_spots]. destruct (_ <? _) eqn:Hlt2; bool_to_prop; [cbn in Hlt2; lia|].
  rewrite fbind_run, Hl.
  replace (length pre + Z.to_nat (Z.of_nat 1))%nat with (length (pre ++ [t1])) by (rewrite length_app; cbn; lia).
  rewrite app_assoc. rewrite write_block by done. cbn [fst snd]. rewrite fbind_run.
  match goal with |- context [find_field ?w "length"] => change (find_field w "length") with (@None nat) end.
  cbv iota. rewrite fret_run. cbn [fst snd].
  by rewrite length_app.
Qed.

(** A new TLV in the buffer. *)
Lemma tx_init_flat C more tail pre old post : flat (tx_layout C) more tail → tx_ok C more →
  length old = (3 + total more)%nat → Z.of_nat (total more) < 65536 → ∃ t0 body,
  length body = total more ∧ (bytes_ok old → bytes_ok body) ∧ (∀ t, l_type (tx_layout C) = Some t → t0 = t) ∧
  tx_object_init C (length pre) (length (pre ++ old ++ post)) (pre ++ old ++ post)
  = (Some (Some (mkTxObject C (length pre) (flat_walk (length pre) more tail) 0 false)),
     pre ++ (t0 :: le16_bytes (Z.of_nat (total more)) ++ body) ++ post).
Proof.
  intros Hfl [Hi Hl Ht] Hold Hsz. destruct old as [|o1 [|o2 [|o3 todo]]]; try (cbn in Hold; lia).
  assert (length todo = total more) as Htodo by (cbn in Hold; lia).
  set (fin := length (pre ++ (o1 :: o2 :: o3 :: todo) ++ post)).
  assert (fin = length pre + 3 + total more + length post)%nat as Hfin.
  { unfold fin. rewrite !length_app. cbn. lia. }
  set (t0 := default o1 (l_type (tx_layout C))).
  destruct (split_sizes more todo Htodo) as (olds & Hs & <-). destruct (init_vals_sized _ _ _ Hs Hi) as [Hvs Hvb].
  set (body := concat (init_vals (tx_init C) more olds)).
  assert (length body = total more) as Hbody by apply (wire_values_length _ _ (fl_ok _ _ _ Hfl) Hvs).
  pose proof (tx_walk_more (tx_init C) fin (tail_fields tail) more olds Hs Hi) as Hrun.
  specialize (Hrun ltac:(pose proof (fl_names _ _ _ Hfl) as Hnd; cbn [fmap list_fmap] in Hnd;
    by apply NoDup_cons in Hnd as [_ [? _]%NoDup_cons])
    (fixed_walk (mkWalk (length pre) [] []) [ff_type; ff_length]) (pre ++ [t0]) 0 [] post).
  rewrite length_app in Hrun. specialize (Hrun ltac:(cbn; lia) eq_refl ltac:(cbn; lia) ltac:(lia) ltac:(lia)).
  exists t0, body. split_and!; [done| |unfold t0; by intros t ->|].
  { intros [_ [_ [_ Hb]%Forall_cons]%Forall_cons]%Forall_cons. by apply Hvb. }
  unfold tx_object_init. rewrite (flat_initial_size _ _ _ Hfl), (fl_fields _ _ _ Hfl).
  destruct (_ <? _)%nat eqn:Hlt; [apply Nat.ltb_lt in Hlt; lia|]. cbn [fmap list_fmap app]. rewrite fbind_run.
  change (pre ++ o1 :: o2 :: o3 :: concat olds ++ post) with (pre ++ [o1] ++ [o2; o3] ++ concat olds ++ post).
  rewrite tx_walk_header by (done || lia). fold t0. cbn [app] in Hrun |- *. rewrite Hrun.
  assert (∀ w b, tx_walk (tx_init C) fin (tail_fields tail) w b
            = (Some (Some (match tail with None => w | Some name => set_member name [] w end)), b)) as -> by (by destruct tail).
  cbn [fst snd]. rewrite fret_run. by rewrite <- app_assoc.
Qed.

(** *** Setting the members *)

Lemma on_last_run {A} (f : TxObject → faultM (list Z) (TxObject * A)) objs x b x' a b' :
  f x b = (Some (x', a), b') →
  on_last f (mkTxList b false (objs ++ [x])) = (Some a, mkTxList b' false (objs ++ [x'])).
Proof. intros H. unfold on_last. cbn [t_objects t_buff t_finalized]. by rewrite last_snoc, H, removelast_last. Qed.

(** The members [fs] are one after the other from [k] on. *)
Fixpoint offsets (w : Walk) (k : nat) (fs : list FixedField) : Prop :=
  match fs with
  | [] => True
  | f :: fs => find_field w (ff_name f) = Some k ∧ offsets w (k + ff_size f) fs
  end.

Lemma fixed_walk_offsets fs : NoDup (ff_name <$> fs) → ∀ w, offsets (fixed_walk w fs) (w_ptr w) fs.
Proof.
  induction fs as [|f fs IH]; intros Hnd w; [done|]. cbn [fmap list_fmap] in Hnd.
  apply NoDup_cons in Hnd as [Hf Hnd]. cbn [offsets fixed_walk]. split.
  - by rewrite find_field_fixed_walk, find_field_cons, decide_True.
  - match goal with |- offsets (fixed_walk ?w1 _) _ _ => exact (IH Hnd w1) end.
Qed.

Lemma offsets_elem w k fs f : offsets w k fs → f ∈ fs → ∃ off,
  find_field w (ff_name f) = Some off ∧ (k ≤ off)%nat ∧ (off + ff_size f ≤ k + total fs)%nat.
Proof.
  unfold total. revert k. induction fs as [|x fs IH]; intros k Ho Hf; [by apply elem_of_nil in Hf|].
  destruct Ho as [Hx Ho]. cbn [sum_list_with]. apply elem_of_cons in Hf as [->|Hf].
  - exists k. split_and!; [done|lia|lia].
  - destruct (IH _ Ho Hf) as (off & ? & ? & ?). exists off. split_and!; [done|lia|lia].
Qed.

Lemma set_member_offsets name spots w k fs : name ∉ ff_name <$> fs → offsets w k fs →
  offsets (set_member name spots w) k fs.
Proof.
  revert k. induction fs as [|f fs IH]; intros k; [done|]. intros [Hf Hn]%not_elem_of_cons [H1 H2].
  split; [|by apply IH]. unfold set_member. rewrite find_field_cons, decide_False by done. by destruct w.
Qed.

Lemma flat_walk_offsets L more tail k : flat L more tail →
  offsets (flat_walk k more tail) k (ff_type :: ff_length :: more).
Proof.
  intros Hfl. pose proof (fixed_walk_offsets _ (fl_names _ _ _ Hfl) (mkWalk k [] [])) as H.
  unfold flat_walk. destruct tail as [name|]; [|done].
  apply set_member_offsets; [|done]. by apply (fl_tail _ _ _ Hfl).
Qed.

Lemma set_value_run objs x pre old bs post name : find_field (x_walk x) name = Some (length pre) →
  length bs = length old →
  set_value name bs (mkTxList (pre ++ old ++ post) false (objs ++ [x]))
  = (Some tt, mkTxList (pre ++ bs ++ post) false (objs ++ [x])).
Proof.
  intros Hf Hl. apply on_last_run. by rewrite Hf, fbind_run, write_block.
Qed.

Fixpoint set_values (fs : list FixedField) (vals : list (list Z)) : faultM TxList unit :=
  match fs, vals with
  | f :: fs, v :: vals => _ <- set_value (ff_name f) v ;; set_values fs vals
  | _, _ => fret tt
  end.

Lemma set_values_run objs x fs vals : Forall2 sized fs vals → ∀ pre old post,
  offsets (x_walk x) (length pre) fs → length old = total fs →
  set_values fs vals (mkTxList (pre ++ old ++ post) false (objs ++ [x]))
  = (Some tt, mkTxList (pre ++ concat vals ++ post) false (objs ++ [x])).
Proof.
  unfold total. induction 1 as [|f v fs vals Hv _ IH]; intros pre old post Hoff Hold; cbn in Hold.
  { by destruct old. }
  destruct Hoff as [Hf Hoff]. cbn [set_values concat]. rewrite fbind_run.
  rewrite <- (take_drop (ff_size f) old), <- !app_assoc.
  rewrite set_value_run; [|done|rewrite length_take; unfold sized in Hv; lia]. cbn [fst snd].
  rewrite app_assoc, IH; [by rewrite <- app_assoc| |rewrite length_drop; lia].
  by rewrite length_app, Hv.
Qed.

Lemma move_block a post n : (n ≤ length post)%nat →
  move (length a) (length a + n) (length post - n) (a ++ post)
  = (Some tt, a ++ take n post ++ take (length post - n) post).
Proof.
  intros Hn. unfold move, write_at. rewrite drop_app_length, !length_app, length_take.
  destruct (_ <=? _)%nat eqn:Hle; [|apply Nat.leb_gt in Hle; lia].
  rewrite take_app_add, (drop_ge (a ++ post)) by (rewrite length_app; lia). by rewrite app_nil_r, <- app_assoc.
Qed.

(** [alloc_x()] and [set_x()] of the byte list at the end of an object: [h] are
    the bytes before its length, [body] its members behind it. *)
Record open_list (C : TxClass) (w : Walk) (h : list Z) (v : Z) (body : list Z) : Prop := {
  ol_last : ∃ name, last (l_fields (tx_layout C)) = Some (Rest name 1 []) ∧ find_field w name = Some (w_ptr w);
  ol_length : find_field w "length" = Some (length h);
  ol_ptr : w_ptr w = length (h ++ le16_bytes v ++ body);
}.

Definition grow (n : nat) (w : Walk) : Walk := mkWalk (w_ptr w + n) (w_fields w) (w_spots w).

Lemma alloc_at C start w h v body n post : open_list C w h v body → (n ≤ length post)%nat →
  0 ≤ v → v + Z.of_nat n < 65536 → let b := h ++ le16_bytes v ++ body ++ post in
  alloc (length b) n (mkTxObject C start w 0 false) b
  = (Some (Some (mkTxObject C start (grow n w) n false)),
     h ++ le16_bytes (v + Z.of_nat n) ++ body ++ take n post ++ take (length post - n) post).
Proof.
  intros [(name & Hlast & Hname) Hl Hp] Hn Hv Hlen b. unfold alloc. cbn [x_class x_walk x_idx x_start x_finalized].
  rewrite Hlast, Hname, Hl. unfold x_ptr. cbn [x_walk].
  assert (b = (h ++ le16_bytes v ++ body) ++ post) as -> by (unfold b; by rewrite <- !app_assoc).
  destruct (_ <? _)%nat eqn:Hlt; [apply Nat.ltb_lt in Hlt; rewrite (length_app _ post) in Hlt; lia|].
  rewrite fbind_run, Nat.add_0_r, Hp.
  replace (length ((h ++ le16_bytes v ++ body) ++ post) - length (h ++ le16_bytes v ++ body) - n)%nat
    with (length post - n)%nat by (rewrite (length_app _ post); lia).
  rewrite move_block by done. cbn [fst snd]. rewrite fbind_run, <- !app_assoc, add_length_run by done.
  cbn [fst snd]. rewrite fret_run. unfold grow. by rewrite Hp.
Qed.

Lemma set_list_at objs C start w h v body data post : open_list C w h v body → (length data ≤ length post)%nat →
  0 ≤ v → v + Z.of_nat (length data) < 65536 →
  set_list data (mkTxList (h ++ le16_bytes v ++ body ++ post) false (objs ++ [mkTxObject C start w 0 false]))
  = (Some true, mkTxList (h ++ le16_bytes (v + Z.of_nat (length data)) ++ body ++ data
                          ++ take (length post - length data) post) false
      (objs ++ [mkTxObject C start (grow (length data) w) (length data) false])).
Proof.
  intros Hol Hdata Hv Hlen. unfold set_list. cbn [t_buff]. apply on_last_run. cbn [x_idx negb Nat.eqb].
  rewrite fbind_run, (alloc_at C start w h v body) by done. cbn [fst snd]. rewrite fbind_run. unfold x_ptr. cbn [x_walk].
  set (h' := h ++ le16_bytes (v + Z.of_nat (length data)) ++ body).
  assert (w_ptr w = length h') as -> by (rewrite (ol_ptr _ _ _ _ _ Hol); unfold h'; by rewrite !length_app).
  assert (∀ x, h ++ le16_bytes (v + Z.of_nat (length data)) ++ body ++ x = h' ++ x) as Hx
    by (intros; unfold h'; by rewrite <- !app_assoc).
  rewrite !Hx, write_block by (rewrite length_take; lia). cbn [fst snd]. by rewrite fret_run.
Qed.

Lemma flat_open_list C more name pre t v vals : flat (tx_layout C) more (Some name) → length vals = total more →
  open_list C (flat_walk (length pre) more (Some name)) (pre ++ [t]) v vals.
Proof.
  intros Hfl Hvals. split.
  - exists name. rewrite (fl_fields _ _ _ Hfl). cbn [tail_fields]. rewrite last_snoc. split; [done|].
    unfold flat_walk, set_member. by rewrite find_field_cons, decide_True.
  - rewrite length_app. apply (flat_walk_offsets _ _ _ (length pre) Hfl).
  - rewrite flat_walk_ptr, !length_app. cbn. lia.
Qed.

Lemma alloc_run C more name pre t v vals n post : flat (tx_layout C) more (Some name) →
  length vals = total more → (n ≤ length post)%nat → 0 ≤ v → v + Z.of_nat n < 65536 →
  let w := flat_walk (length pre) more (Some name) in
  alloc (length (pre ++ (t :: le16_bytes v ++ vals) ++ post)) n (mkTxObject C (length pre) w 0 false)
    (pre ++ (t :: le16_bytes v ++ vals) ++ post)
  = (Some (Some (mkTxObject C (length pre) (grow n w) n false)),
     pre ++ (t :: le16_bytes (v + Z.of_nat n) ++ vals) ++ take n post ++ take (length post - n) post).
Proof.
  intros Hfl Hvals Hn Hv Hlen w. pose proof (alloc_at C (length pre) w (pre ++ [t]) v vals n post) as H.
  rewrite <- !(app_assoc pre [t]) in H. cbn [app] in H |- *. rewrite <- !app_assoc. apply H; [|done..].
  by apply flat_open_list.
Qed.

Lemma set_list_run objs C more name pre t v vals data post : flat (tx_layout C) more (Some name) →
  length vals = total more → (length data ≤ length post)%nat → 0 ≤ v → v + Z.of_nat (length data) < 65536 → ∃ x post',
  set_list data (mkTxList (pre ++ (t :: le16_bytes v ++ vals) ++ post) false
    (objs ++ [mkTxObject C (length pre) (flat_walk (length pre) more (Some name)) 0 false]))
  = (Some true, mkTxList (pre ++ (t :: le16_bytes (v + Z.of_nat (length data)) ++ vals) ++ data ++ post') false (objs ++ [x])) ∧
  length post' = (length post - length data)%nat ∧
  x_start x = length pre ∧ x_ptr x = (length pre + 3 + total more + length data)%nat ∧ x_finalized x = false ∧
  w_spots (x_walk x) = fixed_spots (length pre) (ff_type :: ff_length :: more).
Proof.
  intros Hfl Hvals Hdata Hv Hlen. set (w := flat_walk (length pre) more (Some name)).
  exists (mkTxObject C (length pre) (grow (length data) w) (length data) false), (take (length post - length data) post).
  split_and!; [|rewrite length_take; lia|done| |done|by apply flat_walk_spots].
  - pose proof (set_list_at objs C (length pre) w (pre ++ [t]) v vals data post) as H.
    rewrite <- !(app_assoc pre [t]) in H. cbn [app] in H |- *. rewrite <- !app_assoc. apply H; [|done..].
    by apply flat_open_list.
  - unfold x_ptr, grow. cbn [x_walk w_ptr]. unfold w. rewrite flat_walk_ptr. lia.
Qed.

(** ** Building a message *)

(** The contents of a new TLV. *)
Definition fill (v : Tlv) : faultM TxList bool :=
  _ <- (match l_type (tx_layout (tv_class v)) with
        | None => set_value "type" [tv_type v] | Some _ => fret tt end) ;;
  _ <- set_values (tv_more v) (tv_vals v) ;;
  match tv_tail v with None => fret true | Some _ => set_list (tv_data v) end.

(** Adds a TLV with its contents. *)
Definition add_tlv (v : Tlv) : faultM TxList bool :=
  ok <- tx_addClass (tv_class v) ;;
  if negb ok then fret false
  else fill v.

Fixpoint add_tlvs (l : list Tlv) : faultM TxList bool :=
  match l with
  | [] => fret true
  | v :: l => ok <- add_tlv v ;; if (ok : bool) then add_tlvs l else fret false
  end.

Definition build (id message_type : Z) (l : list Tlv) : faultM TxList bool :=
  ok <- create id message_type ;;
  if negb ok then fret false
  else
    ok <- add_tlvs l ;;
    if negb ok then fret false else tx_finalize.

(** A message whose last object is not finalized: [wires] has the finalized
    ones, [host] the bytes of the last and [wire] those it will have. *)
Record pending (t : TxList) (wires host wire post : list Z) : Prop := {
  pe_buff : t_buff t = wires ++ host ++ post;
  pe_open : t_finalized t = false;
  pe_length : tx_length t = length (wires ++ host);
  pe_size : length wire = length host;
  pe_last : ∃ objs x, t_objects t = objs ++ [x] ∧ x_ptr x = length (wires ++ host) ∧ x_finalized x = false ∧
    class_swap (w_spots (x_walk x)) (wires ++ host ++ post) = (Some tt, wires ++ wire ++ post);
}.

Lemma pending_finalize t wires host wire post : pending t wires host wire post → ∃ objs x y,
  t = mkTxList (wires ++ host ++ post) false (objs ++ [x]) ∧
  finalize_object x (wires ++ host ++ post) = (Some y, wires ++ wire ++ post) ∧
  x_ptr y = length (wires ++ wire) ∧
  tx_length (mkTxList (wires ++ wire ++ post) false (objs ++ [y])) = length (wires ++ wire).
Proof.
  intros [Hb Ho Hlen Hsz (objs & x & Hobj & Hp & Hfin & Hsw)]. exists objs, x.
  exists (mkTxObject (x_class x) (x_start x) (x_walk x) (x_idx x) true). split_and!.
  - destruct t. cbn in *. by subst.
  - unfold finalize_object. by rewrite Hfin, fbind_run, Hsw.
  - unfold x_ptr in *. cbn. rewrite Hp, !length_app. lia.
  - transitivity (tx_length t); [|rewrite Hlen, !length_app; lia].
    unfold tx_length. cbn [t_objects]. rewrite Hobj. by rewrite !sum_list_with_app.
Qed.

(** A flat TLV in host order, as its object. *)
Lemma flat_swap L more tail pre t len vals rest : flat L more tail → Forall2 sized more vals →
  class_swap (fixed_spots (length pre) (ff_type :: ff_length :: more))
    (pre ++ (t :: le16_bytes len ++ concat vals) ++ rest)
  = (Some tt, pre ++ (t :: u8 (Z.shiftr len 8) :: u8 len :: concat (wire_values more vals)) ++ rest).
Proof.
  intros Hfl Hs. pose proof (flat_all_ok _ _ _ Hfl) as Hok. pose proof (sized_all more vals t len Hs) as Hall.
  rewrite (class_swap_run _ (length pre) (length pre + total (ff_type :: ff_length :: more)));
    [|by apply fixed_spots_ok|].
  - pose proof (swap_fixed_spots _ _ Hok Hall pre rest) as H. rewrite tlv_wire in H.
    do 2 f_equal. exact H.
  - rewrite total_tlv, !length_app. cbn. rewrite (proj2 (wire_values_length _ _ (fl_ok _ _ _ Hfl) Hs)). lia.
Qed.

Lemma fill_run v objs pre t0 body post : tlv_ok v → length body = total (tv_more v) →
  (∀ t, l_type (tx_layout (tv_class v)) = Some t → t0 = t) → (length (tv_data v) ≤ length post)%nat → ∃ x post',
  fill v (mkTxList (pre ++ (t0 :: le16_bytes (Z.of_nat (total (tv_more v))) ++ body) ++ post) false
    (objs ++ [mkTxObject (tv_class v) (length pre) (flat_walk (length pre) (tv_more v) (tv_tail v)) 0 false]))
  = (Some true, mkTxList (pre ++ tv_host v ++ post') false (objs ++ [x])) ∧
  length post' = (length post - length (tv_data v))%nat ∧
  x_start x = length pre ∧ x_ptr x = (length pre + tv_size v)%nat ∧ x_finalized x = false ∧
  w_spots (x_walk x) = fixed_spots (length pre) (ff_type :: ff_length :: tv_more v).
Proof.
  intros Hv Hbody Ht0 Hpost. pose proof (to_flat _ Hv) as Hfl. destruct (to_content _ Hv) as [Hs _ Htl Hlen].
  set (len := Z.of_nat (total (tv_more v))). set (X := mkTxObject _ _ _ _ _).
  pose proof (flat_walk_offsets _ _ _ (length pre) Hfl) as Hoff.
  change (flat_walk (length pre) (tv_more v) (tv_tail v)) with (x_walk X) in Hoff. destruct Hoff as (Hty & _ & Hoff).
  unfold fill. rewrite fbind_run.
  assert ((match l_type (tx_layout (tv_class v)) with
           | None => set_value "type" [tv_type v] | Some _ => fret tt end)
    (mkTxList (pre ++ (t0 :: le16_bytes len ++ body) ++ post) false (objs ++ [X]))
    = (Some tt, mkTxList (pre ++ (tv_type v :: le16_bytes len ++ body) ++ post) false (objs ++ [X]))) as ->.
  { destruct (to_own_type _ Hv) as [Hn|Hn]; rewrite Hn.
    - exact (set_value_run objs X pre [t0] [tv_type v] _ "type" Hty eq_refl).
    - by rewrite (Ht0 _ Hn). }
  cbn [fst snd]. rewrite fbind_run.
  assert (∀ old, pre ++ (tv_type v :: le16_bytes len ++ old) ++ post
    = (pre ++ tv_type v :: le16_bytes len) ++ old ++ post) as Hassoc by (intros; by rewrite <- app_assoc).
  rewrite Hassoc, (set_values_run objs X _ _ Hs); [| |done].
  2: { rewrite length_app. cbn in Hoff |- *. by rewrite <- Nat.add_assoc in Hoff. }
  rewrite <- Hassoc. cbn [fst snd]. unfold tv_host, tv_size, tv_len, tlv_len in *.
  destruct (tv_tail v) as [name|] eqn:Htail.
  - destruct (set_list_run objs (tv_class v) (tv_more v) name pre (tv_type v) len (concat (tv_vals v)) (tv_data v) post)
      as (x & post' & Hr & Hlp & Hst & Hxp & Hxf & Hsp); [done|by apply (wire_values_length _ _ (fl_ok _ _ _ Hfl) Hs)|done|unfold len; lia|unfold len; lia|].
    exists x, post'. split_and!; [|done|done|lia|done|done]. unfold X. rewrite Hr. unfold len.
    by rewrite <- Nat2Z.inj_add, <- !app_assoc.
  - exists X, post. rewrite (Htl eq_refl). cbn [length]. rewrite fret_run, app_nil_r, Nat.add_0_r.
    split_and!; [done|lia|done| |done|by apply flat_walk_spots].
    unfold x_ptr, X. cbn [x_walk]. rewrite flat_walk_ptr. lia.
Qed.

(** A TLV added with the values [init()] gives it. *)
Lemma tx_addClass_pending C more tail t wires host wire post : flat (tx_layout C) more tail → tx_ok C more →
  pending t wires host wire post → (3 + total more ≤ length post)%nat → Z.of_nat (total more) < 65536 → ∃ t' t0 vals,
  let len := Z.of_nat (total more) in
  tx_addClass C t = (Some true, t') ∧ Forall2 sized more vals ∧ (bytes_ok post → bytes_ok (concat vals)) ∧
  (∀ t, l_type (tx_layout C) = Some t → t0 = t) ∧
  pending t' (wires ++ wire) (t0 :: le16_bytes len ++ concat vals)
    (t0 :: u8 (Z.shiftr len 8) :: u8 len :: concat (wire_values more vals)) (drop (3 + total more) post).
Proof.
  intros Hfl Htx Hpe Hsz Hlt. destruct (pending_finalize _ _ _ _ _ Hpe) as (objs & x & y & -> & Hfin & Hp & Hlen).
  set (pre := wires ++ wire) in *.
  destruct (tx_init_flat C more tail pre (take (3 + total more) post) (drop (3 + total more) post))
    as (t0 & body & Hbody & Hbb & Ht0 & Hi); [done|done|rewrite length_take; lia|done|].
  rewrite take_drop in Hi. destruct (split_sizes more body Hbody) as (vals & Hs & <-).
  destruct (wire_values_length _ _ (fl_ok _ _ _ Hfl) Hs) as [Hwl _].
  eexists _, t0, vals. split_and!; [|done|intros Hb; by apply Hbb, Forall_take|done|].
  - unfold tx_addClass. cbn [t_objects t_buff t_finalized].
    rewrite last_snoc, Hfin, removelast_last, Hp, app_assoc. fold pre. by rewrite Hi.
  - split; cbn [t_buff t_finalized]; [done|done| |cbn; lia|].
    + unfold tx_length in *. cbn [t_objects] in *. rewrite sum_list_with_app, Hlen.
      cbn [sum_list_with x_start]. unfold x_ptr. cbn [x_walk]. rewrite flat_walk_ptr, length_app. cbn. lia.
    + eexists (objs ++ [y]), _. split_and!; [done| |done|].
      * unfold x_ptr. cbn [x_walk]. rewrite flat_walk_ptr, length_app. cbn. lia.
      * cbn [x_walk]. rewrite flat_walk_spots. by eapply flat_swap.
Qed.

(** A TLV added to a message. *)
Lemma add_tlv_pending v t wires host wire post : tlv_ok v → tx_ok (tv_class v) (tv_more v) →
  pending t wires host wire post → (tv_size v ≤ length post)%nat → ∃ t' post',
  add_tlv v t = (Some true, t') ∧ pending t' (wires ++ wire) (tv_host v) (tv_wire v) post' ∧
  length post' = (length post - tv_size v)%nat.
Proof.
  intros Hv Htx Hpe Hsz. destruct (pending_finalize _ _ _ _ _ Hpe) as (objs & x & y & -> & Hfin & Hp & Hlen).
  set (pre := wires ++ wire) in *. destruct (tv_wire_ok v Hv) as (Hw & Hho & _). unfold tv_size in Hsz.
  destruct (tx_init_flat (tv_class v) (tv_more v) (tv_tail v) pre (take (3 + total (tv_more v)) post)
              (drop (3 + total (tv_more v)) post)) as (t0 & body & Hbody & _ & Ht0 & Hi).
  { apply Hv. }
  { done. }
  { rewrite length_take. lia. }
  { pose proof (co_length _ _ _ _ (to_content _ Hv)) as H. unfold tlv_len in H. lia. }
  rewrite take_drop in Hi. set (post1 := drop (3 + total (tv_more v)) post) in *.
  destruct (fill_run v (objs ++ [y]) pre t0 body post1) as (z & post' & Hf & Hlp & Hst & Hzp & Hzf & Hsp); [done..| |].
  { unfold post1. rewrite length_drop. lia. }
  eexists _, post'. split_and!; [| |rewrite Hlp; unfold post1, tv_size; rewrite length_drop; lia].
  - unfold add_tlv. rewrite fbind_run. unfold tx_addClass at 1 2 3. cbn [t_objects t_buff t_finalized].
    rewrite last_snoc, Hfin, removelast_last, Hp, app_assoc. fold pre. rewrite Hi. cbn [fst snd negb].
    exact Hf.
  - split; cbn [t_buff t_finalized]; [done|done| |lia|].
    + unfold tx_length in *. cbn [t_objects] in *. rewrite sum_list_with_app, Hlen.
      cbn [sum_list_with]. rewrite Hzp, Hst, length_app. lia.
    + exists (objs ++ [y]), z. rewrite length_app. split_and!; [done|lia|done|]. rewrite Hsp.
      unfold tv_host, tv_wire. rewrite <- !(app_assoc _ (tv_data v) post').
      eapply flat_swap; [apply Hv|apply Hv].
Qed.

Lemma add_tlvs_pending l : Forall (λ v, tlv_ok v ∧ tx_ok (tv_class v) (tv_more v)) l →
  ∀ t wires host wire post, pending t wires host wire post →
  (sum_list_with tv_size l ≤ length post)%nat → ∃ t' wires' host' wire' post',
  add_tlvs l t = (Some true, t') ∧ pending t' wires' host' wire' post' ∧
  wires' ++ wire' = wires ++ wire ++ concat (tv_wire <$> l) ∧
  length post' = (length post - sum_list_with tv_size l)%nat.
Proof.
  induction 1 as [|v l [Hv Htx] _ IH]; intros t wires host wire post Hpe Hsz; cbn [sum_list_with] in Hsz.
  { exists t, wires, host, wire, post. cbn. split_and!; [done|done|by rewrite app_nil_r|lia]. }
  destruct (add_tlv_pending v t wires host wire post Hv Htx Hpe) as (t1 & post1 & Hr1 & Hpe1 & Hl1); [lia|].
  destruct (IH t1 _ _ _ _ Hpe1) as (t' & wires' & host' & wire' & post' & Hr & Hpe' & Hw & Hl'); [lia|].
  exists t', wires', host', wire', post'. cbn [add_tlvs sum_list_with]. rewrite fbind_run, Hr1. cbn [fst snd].
  split_and!; [done|done| |lia]. rewrite Hw. cbn. by rewrite <- !app_assoc.
Qed.

(** *** The header and the end *)

(** [init()] of a class without a length. *)
Lemma tx_walk_plain inits fin fs olds : Forall2 sized fs olds → inits_ok inits fs = true →
  "length" ∉ ff_name <$> fs → ∀ w pre post, find_field w "length" = None → w_ptr w = length pre →
  (w_ptr w + total fs ≤ fin)%nat →
  tx_walk inits fin (to_field <$> fs) w (pre ++ concat olds ++ post)
  = (Some (Some (fixed_walk w fs)), pre ++ concat (init_vals inits fs olds) ++ post).
Proof.
  unfold total. induction 1 as [|f v fs olds Hv _ IH]; intros Hi Hn w pre post Hf Hp Hfin; [done|].
  cbn [fmap list_fmap sum_list_with] in Hn, Hfin. apply not_elem_of_cons in Hn as [Hnf Hn].
  unfold inits_ok in Hi. cbn [forallb] in Hi. apply andb_prop in Hi as [Hif Hi].
  cbn [fmap list_fmap to_field tx_walk fixed_walk concat init_vals zip_with]. unfold buffPtrIncrementSafe.
  cbn [w_ptr set_member w_fields w_spots]. destruct (_ <? _) eqn:Hlt; bool_to_prop; [lia|]. rewrite Nat2Z.id.
  rewrite fbind_run, Hp, <- !app_assoc. set (new := default v (initial_bytes inits (ff_name f))).
  assert (length new = ff_size f ∧
    (match initial_bytes inits (ff_name f) with Some bs => write_at (length pre) bs | None => fret tt end)
      (pre ++ v ++ concat olds ++ post) = (Some tt, pre ++ new ++ concat olds ++ post)) as [Hnew ->].
  { unfold new, sized in *. destruct (initial_bytes _ _) as [bs|]; [|done].
    apply bool_decide_eq_true in Hif as [? _]. split; [done|]. apply write_block. cbn. lia. }
  cbn [fst snd]. rewrite fbind_run, Hf, fret_run. cbn [fst snd]. rewrite app_assoc, IH.
  - by rewrite <- app_assoc.
  - done.
  - done.
  - rewrite find_field_cons, decide_False by done. by destruct w.
  - cbn [w_ptr]. rewrite length_app. lia.
  - cbn [w_ptr]. lia.
Qed.

Lemma header_init b : (8 ≤ length b)%nat → ∃ mt,
  length mt = 2%nat ∧ tx_object_init tx_header 0 (length b) b
  = (Some (Some (mkTxObject tx_header 0 (fixed_walk (mkWalk 0 [] []) header_fixed) 0 false)),
     concat [[0]; [0]; mt; [0; 0]; [0]; [0x80]] ++ drop 8 b).
Proof.
  intros Hb. destruct b as [|b0 [|b1 [|t0 [|t1 [|i0 [|i1 [|fr [|fl b]]]]]]]]; cbn in Hb; try lia.
  exists [t0; t1]. split; [done|]. unfold tx_object_init.
  destruct (_ <? _)%nat eqn:Hlt; [apply Nat.ltb_lt in Hlt; cbn in Hlt; lia|]. rewrite fbind_run.
  change (l_fields (tx_layout tx_header)) with (to_field <$> header_fixed).
  pose proof (tx_walk_plain (tx_init tx_header) (length (b0 :: b1 :: t0 :: t1 :: i0 :: i1 :: fr :: fl :: b)) header_fixed
    [[b0]; [b1]; [t0; t1]; [i0; i1]; [fr]; [fl]] ltac:(by repeat constructor) eq_refl
    ltac:(by apply (bool_decide_unpack _)) (mkWalk 0 [] []) [] b eq_refl eq_refl ltac:(cbn; lia)) as H.
  cbn [concat app] in H. rewrite H. done.
Qed.

(** [create()]. *)
Lemma create_pending id mt t : (8 ≤ length (t_buff t))%nat → ∃ t' post,
  create id mt t = (Some true, t') ∧
  pending t' [] (header_host mt id (bool_decide (mt ∈ relayed_messages)))
    (header_wire mt id (bool_decide (mt ∈ relayed_messages))) post ∧
  post = replicate (length (t_buff t) - 8) 0.
Proof.
  intros Hb. set (b0 := replicate (length (t_buff t)) 0).
  destruct (header_init b0) as (m0 & Hm0 & Hi). { unfold b0. by rewrite length_replicate. }
  set (post := drop 8 b0) in *. set (X := mkTxObject tx_header 0 (fixed_walk (mkWalk 0 [] []) header_fixed) 0 false) in *.
  set (relay := bool_decide (mt ∈ relayed_messages)).
  exists (mkTxList (header_host mt id relay ++ post) false [X]), post. split_and!.
  - unfold create. rewrite fbind_run. unfold tx_addClass at 1 2 3. unfold tx_reset. cbn [t_objects t_buff t_finalized last].
    fold b0. rewrite Hi. cbn [fst snd negb]. rewrite fbind_run.
    destruct m0 as [|a [|c [|]]]; try done. cbn [concat app].
    pose proof (set_value_run [] X [0; 0] [a; c] (le16_bytes mt) ([0; 0; 0; 0x80] ++ post) "message_type" eq_refl eq_refl) as H1.
    pose proof (set_value_run [] X ([0; 0] ++ le16_bytes mt) [0; 0] (le16_bytes id) ([0; 0x80] ++ post)
                  "message_id" eq_refl eq_refl) as H2.
    cbn [le16_bytes app] in H1, H2. cbn [le16_bytes]. rewrite H1. cbn [fst snd]. rewrite fbind_run, H2. cbn [fst snd].
    rewrite fbind_run. fold relay. by destruct relay.
  - split; cbn [t_buff t_finalized]; [done|done|done|done|]. exists [], X. split_and!; [done..|].
    change (w_spots (x_walk X)) with (fixed_spots 0 header_fixed). cbn [app].
    rewrite (class_swap_run _ 0 8); [|by apply (fixed_spots_ok header_fixed), header_fixed_ok|cbn; lia].
    done.
  - unfold post, b0. by rewrite drop_replicate.
Qed.

(** [finalize()]. *)
Lemma finalize_with objs x y b wires post : finalize_object x b = (Some y, wires ++ post) → x_ptr y = length wires →
  tx_length (mkTxList (wires ++ post) false (objs ++ [y])) = length wires → (3 ≤ length post)%nat → ∃ t',
  tx_finalize (mkTxList b false (objs ++ [x])) = (Some true, t') ∧ message t' = wires ++ [0; 0; 0] ∧
  tx_length t' = length (message t').
Proof.
  intros Hfin Hp Hlen Hpost.
  assert (flat (tx_layout tx_end_of_message) [] None) as Hfl.
  { split; [done|by apply (bool_decide_unpack _)|done|by apply Forall_nil]. }
  destruct (tx_init_flat tx_end_of_message [] None wires (take 3 post) (drop 3 post)) as (t0 & body & Hbody & _ & Ht0 & Hi).
  { done. }
  { by split. }
  { rewrite length_take. unfold total. cbn [sum_list_with]. lia. }
  { cbn. lia. }
  rewrite take_drop in Hi. apply nil_length_inv in Hbody as ->. rewrite (Ht0 0 eq_refl) in Hi.
  unfold tx_finalize. rewrite fbind_run. unfold tx_addClass at 1 2 3. cbn [t_objects t_buff t_finalized].
  rewrite last_snoc, Hfin, removelast_last, Hp, Hi. cbn [fst snd negb].
  unfold list_finalize. cbn [t_objects t_finalized t_buff]. rewrite last_snoc, removelast_last.
  unfold finalize_object. cbn [x_finalized x_walk]. rewrite fbind_run, flat_walk_spots.
  pose proof (flat_swap _ [] None wires 0 0 [] (drop 3 post) Hfl ltac:(by apply Forall2_nil)) as Hsw.
  change (le16_bytes (Z.of_nat (total []))) with (le16_bytes 0). cbn [concat] in Hsw. rewrite Hsw. cbn [fst snd].
  eexists. split; [done|]. unfold message. cbn [t_buff]. unfold tx_length in *. cbn [t_objects] in *.
  rewrite sum_list_with_app, Hlen. cbn [sum_list_with x_start]. unfold x_ptr. cbn [x_walk].
  rewrite flat_walk_ptr. cbn [wire_values zip_with concat app].
  change (0 :: u8 (Z.shiftr 0 8) :: u8 0 :: drop 3 post) with ([0; 0; 0] ++ drop 3 post).
  rewrite app_assoc, take_app_length' by (rewrite !length_app; cbn; lia).
  split; [done|]. rewrite !length_app. cbn. lia.
Qed.

Lemma finalize_pending t wires host wire post : pending t wires host wire post → (3 ≤ length post)%nat → ∃ t',
  tx_finalize t = (Some true, t') ∧ message t' = wires ++ wire ++ [0; 0; 0] ∧ tx_length t' = length (message t').
Proof.
  intros Hpe Hpost. destruct (pending_finalize _ _ _ _ _ Hpe) as (objs & x & y & -> & Hfin & Hp & Hlen).
  rewrite (app_assoc wires wire post) in Hfin, Hlen.
  destruct (finalize_with objs x y _ _ _ Hfin Hp Hlen Hpost) as (t' & Hr & Hm & Hl).
  exists t'. by rewrite Hm, <- app_assoc in *.
Qed.

(** A message for which the buffer is large enough is built, and is what the
    TLVs are on the wire. *)
Lemma build_message id mt l t : Forall (λ v, tlv_ok v ∧ tx_ok (tv_class v) (tv_more v)) l →
  (8 + sum_list_with tv_size l + 3 ≤ length (t_buff t))%nat → ∃ t',
  build id mt l t = (Some true, t') ∧
  message t' = header_wire mt id (bool_decide (mt ∈ relayed_messages)) ++ concat (tv_wire <$> l) ++ [0; 0; 0].
Proof.
  intros Hl Hsz. unfold build. rewrite fbind_run.
  destruct (create_pending id mt t) as (t1 & post1 & -> & Hpe1 & Hpo1); [lia|]. cbn [fst snd negb]. rewrite fbind_run.
  assert (length post1 = length (t_buff t) - 8)%nat as Hl1 by (by rewrite Hpo1, length_replicate).
  destruct (add_tlvs_pending l Hl _ _ _ _ _ Hpe1) as (t2 & wires & host & wire & post2 & -> & Hpe2 & Hw & Hl2); [lia|].
  cbn [fst snd negb]. destruct (finalize_pending _ _ _ _ _ Hpe2) as (t3 & -> & Hm & _); [lia|].
  exists t3. split; [done|]. rewrite Hm, app_assoc, Hw. cbn [app]. by rewrite <- app_assoc.
Qed.

(** C27: A message built with [CmduMessageTx] (create, add and fill TLVs of flat
    classes, finalize) in a buffer that is large enough is accepted by
    [CmduMessageRx::parse], which finds the same classes in the same order and
    in its buffer the contents that were set, in host order. The classes are
    those the receiver's switch picks for their type; the link metric query and
    the Virtual BSS TLVs, whose class depends on their contents, are left out. *)
Theorem cmdu_roundtrip id mt l t : Forall (λ v, tlv_ok v ∧ tx_ok (tv_class v) (tv_more v)) l →
  (8 + sum_list_with tv_size l + 3 ≤ length (t_buff t))%nat → ∃ t' m,
  build id mt l t = (Some true, t') ∧
  parse (received (message t')) = (Some (Parsed true), m) ∧
  m_buff m = header_host mt id (bool_decide (mt ∈ relayed_messages)) ++ concat (tv_host <$> l) ++ [0; 0; 0] ∧
  o_class <$> m_class_vector m
    = "cCmduHeader" :: ((λ v, l_name (tx_layout (tv_class v))) <$> l) ++ ["tlvEndOfMessage"].
Proof.
  intros Hl Hsz. destruct (build_message id mt l t Hl Hsz) as (t' & Hb & Hm). exists t'.
  destruct (rx_message mt id (bool_decide (mt ∈ relayed_messages)) l []) as (m & Hp & Hbuf & Hcl & _).
  { eapply Forall_impl; [exact Hl|]. by intros v []. }
  { constructor. }
  exists m. rewrite Hm. rewrite app_nil_r in Hp, Hbuf. done.
Qed.
