(* ===== verification/CmduUtils.v ===== *)
(** * Verification of received CMDUs

    [CmduUtils::verify_cmdu] ([beerocks_cmdu_utils.cpp]), the check every
    process makes of a CMDU before it is parsed. Vendor specific TLVs are
    looked into through an object of the generated class, which swaps their
    header in place and back. Reading outside of the CMDU, or through a null
    pointer, is a fault. *)

From S2P Require Import Prelude Wire Tlvf TlvClasses1905 CmduMessage.

(** ** Operations *)

Definition OUI_INTEL : Z := 0x470300.
Definition MESSAGE_MAGIC : Z := 0x55CDABEF.
Definition sizeof_sTlvHeader : nat := 3.
Definition cmdu_header_size : nat := get_initial_size (l_fields cCmduHeader).

(** The member [m_x] of an object. *)
Definition member (o : Object) (name : string) : option nat :=
  find_field (mkWalk (o_ptr o) (o_fields o) (o_spots o)) name.

(** [vendor_oui()] as a number: upper, middle, lower. *)
Definition vendor_oui (o : Object) : faultM (list Z) Z :=
  match member o "vendor_oui" with
  | None => fault
  | Some off =>
    upper <- read_byte off ;; middle <- read_byte (S off) ;; lower <- read_byte (S (S off)) ;;
    fret (Z.shiftl upper 16 + Z.shiftl middle 8 + lower)
  end.

(** [payload()]: a null pointer when there is none. *)
Definition vendor_payload (o : Object) : option nat :=
  off ← member o "payload"; if (o_ptr o - off =? 0)%nat then None else Some off.

(** A [uint32_t] at [p], swapped. *)
Definition read_be32 (p : nat) : faultM (list Z) Z :=
  a <- read_byte p ;; b <- read_byte (p + 1) ;; c <- read_byte (p + 2) ;; d <- read_byte (p + 3) ;;
  fret (be16 a b * 65536 + be16 c d).

(** What an iteration of the loop ends with: the end of message TLV, [break],
    or the length of the TLV to skip. *)
Inductive Iteration := Found | Broken | Continue (tlv_length : nat).

Definition verify_vendor_specific (tlv : nat) (tlv_length : nat) : faultM (list Z) Iteration :=
  o <- init_parse tlvVendorSpecific tlv (tlv + (sizeof_sTlvHeader + tlv_length)) ;;
  match o with
  | None => fret Broken
  | Some o =>
    oui <- vendor_oui o ;;
    ok <- (if oui =? OUI_INTEL then
             match vendor_payload o with
             | None => fault
             | Some p => beerocks_magic <- read_be32 p ;; fret (beerocks_magic =? MESSAGE_MAGIC)
             end
           else fret true) ;;
    if negb ok then fret Broken
    else _ <- class_swap (o_spots o) ;; fret (Continue tlv_length)
  end.

(** The type and length of the [sTlvHeader] at [tlv]. *)
Definition read_tlv_header (tlv : nat) : faultM (list Z) (Z * nat) :=
  tlv_type <- read_byte tlv ;; hi <- read_byte (tlv + 1) ;; lo <- read_byte (tlv + 2) ;;
  fret (tlv_type, Z.to_nat (be16 hi lo)).

Definition verify_tlv (tlv : nat) : faultM (list Z) Iteration :=
  h <- read_tlv_header tlv ;;
  let '(tlv_type, tlv_length) := h in
  if tlv_type =? 0xb then verify_vendor_specific tlv tlv_length
  else if ((tlv_type =? TLV_END_OF_MESSAGE) && (tlv_length =? 0)%nat)%bool then fret Found
  else fret (Continue tlv_length).

(** Behind the loop the message that there is no end reads the TLV header
    where the loop stopped. *)
Definition not_found (tlv : nat) : faultM (list Z) bool :=
  _ <- read_tlv_header tlv ;; fret false.

(** The loop; an exhausted fuel is a fault. *)
Fixpoint verify_tlvs (fuel : nat) (tlv : nat) : faultM (list Z) bool :=
  match fuel with
  | O => fault
  | S fuel =>
    r <- verify_tlv tlv ;;
    match r with
    | Found => fret true
    | Broken => not_found tlv
    | Continue tlv_length => λ b,
      let next := (tlv + (sizeof_sTlvHeader + tlv_length))%nat in
      if (next <? length b)%nat then verify_tlvs fuel next b else not_found next b
    end
  end.

Definition verify_cmdu : faultM (list Z) bool := λ b,
  if (length b <? cmdu_header_size + sizeof_sTlvHeader)%nat then (Some false, b)
  else verify_tlvs (length b) cmdu_header_size b.

Example verify_discovery :
  let b := [0; 0; 0; 4; 0x12; 0x34; 0; 0x80] ++ [0x1; 0; 6; 2; 0; 0; 0; 0; 1]
    ++ [0xb; 0; 7; 0; 3; 0x47; 0x55; 0xcd; 0xab; 0xef] ++ [0; 0; 0] in
  verify_cmdu b = (Some true, b).
Proof. by vm_compute. Qed.
Example verify_crash :
  let b := [0; 0; 0; 4; 0x12; 0x34; 0; 0x80]
    ++ [0xb; 0; 3; 0; 3; 0x47] ++ [0; 0; 0] in
  (verify_cmdu b).1 = None.
Proof. by vm_compute. Qed.

(** ** Vendor specific TLVs *)

Definition vendor_spots (k : nat) : list Spot := [mkSpot None (k + 1 + 0) 2; mkSpot None (k + 3 + 0) 3].
Definition vendor_object (k len : nat) : Object :=
  mkObject "tlvVendorSpecific" k (k + 3 + len)
    [("payload", k + 6); ("vendor_oui", k + 3); ("length", k + 1); ("type", k)]%nat (vendor_spots k).

Lemma vendor_swap pre t hi lo o1 o2 o3 post :
  swap_spots (vendor_spots (length pre)) (pre ++ t :: hi :: lo :: o1 :: o2 :: o3 :: post)
  = pre ++ t :: lo :: hi :: o3 :: o2 :: o1 :: post.
Proof.
  unfold swap_spots, swap_spot, active. cbn [vendor_spots foldl sp_when sp_off sp_width eval_when].
  unfold swap_at. rewrite <- !Nat.add_assoc, !take_app_add, !drop_app_add. cbn [Nat.add take drop].
  rewrite <- (app_assoc pre [t]). cbn [reverse rev_append app].
  rewrite !drop_app_add, !take_app_add. cbn. by rewrite <- app_assoc.
Qed.

(** Reading at the end of a known prefix. *)
Lemma lookup_behind (pre l : list Z) k i : length pre = k → (pre ++ l) !! (k + i)%nat = l !! i.
Proof. intros <-. by rewrite lookup_app_r, Nat.add_sub' by lia. Qed.

Lemma read_behind pre l i x : l !! i = Some x →
  read_byte (length pre + i) (pre ++ l) = (Some x, pre ++ l).
Proof. intros. unfold read_byte. by rewrite lookup_behind by done; f_equal. Qed.
Lemma read_bind {A} pre l i x (f : Z → faultM (list Z) A) : l !! i = Some x →
  (v <- read_byte (length pre + i) ;; f v) (pre ++ l) = f x (pre ++ l).
Proof. intros. by rewrite fbind_run, (read_behind _ _ _ x). Qed.
Lemma read_behind' pre l x : l !! 0%nat = Some x → read_byte (length pre) (pre ++ l) = (Some x, pre ++ l).
Proof. intros. rewrite <- (Nat.add_0_r (length pre)). by apply read_behind. Qed.

(** What is left of a TLV by its length field. *)
Lemma rest_length_at start w off hi lo b : find_field w "length" = Some off →
  b !! off = Some hi → b !! S off = Some lo →
  rest_length (Len16 "length") start w b
  = (Some (u64 (be16 hi lo - (Z.of_nat (w_ptr w) - Z.of_nat (off - start) - 2 - Z.of_nat start))), b).
Proof.
  intros Hf Hhi Hlo. unfold rest_length, type_size, read_len, len_field. rewrite Hf. st_run. unfold read_byte.
  cbn [fst snd]. rewrite Hhi. st_run. cbn [fst snd]. by rewrite Hlo.
Qed.

Lemma vendor_walk k len hi lo b : b !! (k + 1)%nat = Some hi → b !! (k + 2)%nat = Some lo →
  0 ≤ be16 hi lo < 65536 → len = Z.to_nat (be16 hi lo) → (3 ≤ len)%nat →
  walk_fields walk_field k (k + (3 + len)) (l_fields tlvVendorSpecific) (mkWalk k [] []) b
  = (Some (Some (mkWalk (k + 3 + len) (o_fields (vendor_object k len)) (vendor_spots k))), b).
Proof.
  intros Hhi Hlo H0 Hlen H3. cbn [walk_fields l_fields tlvVendorSpecific walk_field].
  unfold buffPtrIncrementSafe, set_member. cbn [w_ptr w_fields w_spots].
  rewrite fbind_run, (proj2 (Z.ltb_ge _ 1)), fret_run by lia. cbn [fst snd w_ptr w_fields w_spots].
  rewrite fbind_run, (proj2 (Z.ltb_ge _ 2)), fret_run by lia. cbn [fst snd w_ptr w_fields w_spots].
  rewrite fbind_run, (proj2 (Z.ltb_ge _ 3)), fret_run by lia. cbn [fst snd w_ptr w_fields w_spots].
  rewrite !fbind_run. rewrite (rest_length_at _ _ (k + 1) hi lo b) by (done || by rewrite <- Nat.add_succ_r).
  cbn [fst snd w_ptr]. rewrite Z.div_1_r.
  replace (u64 _) with (be16 hi lo - 3) by (unfold u64; rewrite Z.mod_small; lia).
  unfold take_elements. cbn [w_ptr w_fields w_spots].
  rewrite (proj2 (Z.ltb_ge _ (be16 hi lo - 3))), fret_run by lia. cbn [fst snd fret].
  rewrite element_spots_plain, fret_run, !Nat2Z.id. unfold vendor_object, vendor_spots. cbn [o_fields].
  replace (k + 1 + 2)%nat with (k + 3)%nat by lia. replace (k + 3 + 3)%nat with (k + 6)%nat by lia.
  do 4 f_equal. lia.
Qed.

Lemma vendor_spots_swap k b : class_swap (vendor_spots k) b
  = if (k + 6 <=? length b)%nat then (Some tt, swap_spots (vendor_spots k) b) else (None, b).
Proof.
  unfold class_swap, spot_in_buffer. cbn [vendor_spots forallb guards sp_when active eval_when negb orb andb sp_off sp_width].
  destruct (Nat.leb_spec (k + 6) (length b)); [by rewrite !(proj2 (Nat.leb_le _ _)) by lia|].
  rewrite (proj2 (Nat.leb_gt (k + 3 + 0 + 3) _)) by lia. by rewrite andb_false_r.
Qed.

(** [init()] of the object for a vendor specific TLV, by what follows the TLV
    header. *)
Lemma vendor_init pre hi lo rest len : byte_ok hi → byte_ok lo → len = Z.to_nat (be16 hi lo) →
  let k := length pre in
  init_parse tlvVendorSpecific k (k + (3 + len)) (pre ++ 0xb :: hi :: lo :: rest) =
    if (len <? 3)%nat then (Some None, pre ++ 0xb :: hi :: lo :: rest)
    else match rest with
         | o1 :: o2 :: o3 :: post =>
           (Some (Some (vendor_object k len)), pre ++ 0xb :: lo :: hi :: o3 :: o2 :: o1 :: post)
         | _ => (None, pre ++ 0xb :: hi :: lo :: rest)
         end.
Proof.
  intros Hhi Hlo Hlen k. pose proof (be16_range hi lo Hhi Hlo). set (b := pre ++ _ :: _).
  unfold init_parse, init_fields. rewrite fbind_run.
  change (get_initial_size (l_fields tlvVendorSpecific)) with 6%nat.
  destruct (Nat.ltb_spec len 3).
  { by rewrite (proj2 (Nat.ltb_lt (k + (3 + len) - k) _)) by lia. }
  rewrite (proj2 (Nat.ltb_ge (k + (3 + len) - k) _)) by lia.
  rewrite fbind_run, (vendor_walk k len hi lo b) by (done || by apply lookup_behind).
  cbn [fst snd]. rewrite fbind_run. cbn [w_spots]. rewrite vendor_spots_swap.
  assert (length b = k + 3 + length rest)%nat as -> by (unfold b; rewrite length_app; cbn; lia).
  destruct rest as [|o1 [|o2 [|o3 post]]]; cbn [length].
  1-3: by rewrite (proj2 (Nat.leb_gt _ _)) by lia.
  rewrite (proj2 (Nat.leb_le _ _)) by lia. unfold b, k. rewrite vendor_swap. cbn [fst snd].
  rewrite fret_run. cbn [fst snd l_type tlvVendorSpecific].
  change (find_field _ "type") with (Some (length pre)). cbv beta iota zeta.
  by rewrite fbind_run, (read_behind' _ _ 0xb).
Qed.

(** *** What a vendor specific TLV leads to *)

(** The OUI as it is on the wire. *)
Definition intel_oui : list Z := [0x00; 0x03; 0x47].
Definition magic_bytes : list Z := [0x55; 0xcd; 0xab; 0xef].

(** The iteration for a vendor specific TLV with [len] bytes of which [rest]
    and what follows are in the buffer. *)
Definition vendor_verdict (len : nat) (rest : list Z) : option Iteration :=
  if (len <? 3)%nat then Some Broken
  else if (length rest <? 3)%nat then None
  else if bool_decide (take 3 rest = intel_oui) then
    if (len =? 3)%nat then None
    else if (length rest <? 7)%nat then None
    else if bool_decide (take 4 (drop 3 rest) = magic_bytes) then Some (Continue len) else Some Broken
  else Some (Continue len).

Lemma oui_value o1 o2 o3 : byte_ok o1 → byte_ok o2 → byte_ok o3 →
  (Z.shiftl o3 16 + Z.shiftl o2 8 + o1 =? OUI_INTEL) = bool_decide ([o1; o2; o3] = intel_oui).
Proof.
  unfold byte_ok, OUI_INTEL, intel_oui. intros. rewrite !Z.shiftl_mul_pow2 by lia.
  case_bool_decide as E; [by simplify_eq|]. apply Z.eqb_neq. intros H2. apply E. repeat f_equal; lia.
Qed.

Lemma magic_value a b c d : byte_ok a → byte_ok b → byte_ok c → byte_ok d →
  (be16 a b * 65536 + be16 c d =? MESSAGE_MAGIC) = bool_decide ([a; b; c; d] = magic_bytes).
Proof.
  unfold MESSAGE_MAGIC, magic_bytes. intros. rewrite !be16_add by done. unfold byte_ok in *.
  case_bool_decide as E; [by simplify_eq|]. apply Z.eqb_neq. intros H3. apply E. repeat f_equal; lia.
Qed.

Lemma read_be32_behind pre l i : read_be32 (length pre + i) (pre ++ l)
  = match drop i l with
    | a :: b :: c :: d :: _ => (Some (be16 a b * 65536 + be16 c d), pre ++ l)
    | _ => (None, pre ++ l)
    end.
Proof.
  unfold read_be32. rewrite <- !Nat.add_assoc.
  assert (∀ j, l !! (i + j)%nat = drop i l !! j) as Hd by (intros; by rewrite lookup_drop).
  destruct (drop i l) as [|a l1] eqn:E.
  { rewrite fbind_run. unfold read_byte at 1 2 3. cbn [fst snd].
    rewrite lookup_behind by done. by rewrite <- (Nat.add_0_r i), Hd. }
  rewrite (read_bind _ _ _ a) by (by rewrite <- (Nat.add_0_r i), Hd).
  destruct l1 as [|b l1].
  { rewrite fbind_run. unfold read_byte at 1 2 3. cbn [fst snd]. by rewrite lookup_behind, Hd. }
  rewrite (read_bind _ _ _ b) by (by rewrite Hd).
  destruct l1 as [|c l1].
  { rewrite fbind_run. unfold read_byte at 1 2 3. cbn [fst snd]. by rewrite lookup_behind, Hd. }
  rewrite (read_bind _ _ _ c) by (by rewrite Hd).
  destruct l1 as [|d l1].
  { rewrite fbind_run. unfold read_byte at 1 2 3. cbn [fst snd]. by rewrite lookup_behind, Hd. }
  by rewrite (read_bind _ _ _ d) by (by rewrite Hd).
Qed.

(** The iteration, and the buffer after it when the loop goes on. *)
Lemma verify_vendor_run pre hi lo rest len : byte_ok hi → byte_ok lo → bytes_ok rest →
  len = Z.to_nat (be16 hi lo) →
  let b := pre ++ 0xb :: hi :: lo :: rest in
  ∃ b', verify_vendor_specific (length pre) len b = (vendor_verdict len rest, b') ∧ length b' = length b ∧
    (∀ n, vendor_verdict len rest = Some (Continue n) → b' = b).
Proof.
  intros Hhi Hlo Hrest Hlen b. unfold verify_vendor_specific, vendor_verdict, sizeof_sTlvHeader.
  rewrite fbind_run. unfold b at 1 2 3. rewrite vendor_init by done.
  destruct (Nat.ltb_spec len 3); [by exists b|].
  destruct rest as [|o1 [|o2 [|o3 post]]]; [by exists b..|]. cbn [fst snd length Nat.ltb Nat.leb].
  set (b1 := pre ++ _).
  assert (class_swap (vendor_spots (length pre)) b1 = (Some tt, b)) as Hback.
  { rewrite vendor_spots_swap. unfold b1 at 2. rewrite vendor_swap.
    unfold b1. rewrite length_app. cbn [length]. by rewrite (proj2 (Nat.leb_le _ _)) by lia. }
  assert (length b1 = length b) as Hl1 by (unfold b1, b; by rewrite !length_app).
  unfold bytes_ok in Hrest. rewrite !Forall_cons in Hrest. destruct Hrest as (Ho1 & Ho2 & Ho3 & Hpost).
  assert (vendor_oui (vendor_object (length pre) len) b1 = (Some (Z.shiftl o3 16 + Z.shiftl o2 8 + o1), b1)) as Houi.
  { unfold vendor_oui. change (member _ _) with (Some (length pre + 3)%nat). cbv iota beta.
    rewrite <- !(Nat.add_succ_r (length pre)). unfold b1.
    by rewrite (read_bind _ _ _ o3), (read_bind _ _ _ o2), (read_bind _ _ _ o1). }
  rewrite fbind_run, Houi. cbn [fst snd take]. rewrite fbind_run, oui_value by done.
  change (o1 :: o2 :: o3 :: take 0 post) with [o1; o2; o3]. case_bool_decide; cbn [fst snd].
  2: { rewrite fret_run. cbn [fst snd negb]. rewrite fbind_run. cbn [o_spots vendor_object].
       rewrite Hback.  by exists b. }
  unfold vendor_payload. change (member _ _) with (Some (length pre + 6)%nat). cbn [mbind option_bind o_ptr vendor_object].
  replace (length pre + 3 + len - (length pre + 6))%nat with (len - 3)%nat by lia.
  destruct (Nat.eqb_spec len 3) as [->|Hne]; [by exists b1|].
  rewrite (proj2 (Nat.eqb_neq (len - 3) 0)) by lia.
  pose proof (read_be32_behind pre (0xb :: lo :: hi :: o3 :: o2 :: o1 :: post) 6) as Hmagic.
  fold b1 in Hmagic. change (drop 6 _) with post in Hmagic. change (drop 3 _) with post.
  rewrite fbind_run. destruct post as [|m1 [|m2 [|m3 [|m4 post]]]].
  1-4: rewrite Hmagic; by exists b1.
  rewrite Hmagic. cbn [fst snd length Nat.ltb Nat.leb].
  change (take 4 _) with [m1; m2; m3; m4].
  rewrite !Forall_cons in Hpost. destruct Hpost as (? & ? & ? & ? & _). rewrite magic_value, fret_run by done.
  cbn [fst snd]. case_bool_decide; cbn [negb]; [|by exists b1].
  rewrite fbind_run. cbn [o_spots vendor_object]. rewrite Hback. by exists b.
Qed.

(** ** The loop *)

(** One iteration on the bytes from a TLV header on. *)
Definition iteration (l : list Z) : option Iteration :=
  match l with
  | t :: hi :: lo :: rest =>
    let len := Z.to_nat (be16 hi lo) in
    if t =? 0xb then vendor_verdict len rest
    else if ((t =? 0) && (len =? 0)%nat)%bool then Some Found else Some (Continue len)
  | _ => None
  end.

(** What the loop comes to, on the bytes from a TLV header on: [None] is a
    fault. *)
Inductive verdict : list Z → option bool → Prop :=
  | verdict_fault l : iteration l = None → verdict l None
  | verdict_found l : iteration l = Some Found → verdict l (Some true)
  | verdict_broken l : iteration l = Some Broken → verdict l (Some false)
  | verdict_overrun l len : iteration l = Some (Continue len) → (length l ≤ 3 + len)%nat → verdict l None
  | verdict_next l len r : iteration l = Some (Continue len) → (3 + len < length l)%nat →
      verdict (drop (3 + len) l) r → verdict l r.

Lemma read_tlv_header_cut pre l : (length l < 3)%nat →
  read_tlv_header (length pre) (pre ++ l) = (None, pre ++ l).
Proof.
  intros Hl. unfold read_tlv_header. destruct l as [|t [|hi [|lo l]]]; cbn [length] in Hl; try lia.
  - rewrite fbind_run. unfold read_byte. cbn [fst snd]. rewrite <- (Nat.add_0_r (length pre)).
    by rewrite lookup_behind.
  - rewrite fbind_run, (read_behind' _ _ t) by done. cbn [fst snd]. rewrite fbind_run. unfold read_byte.
    cbn [fst snd]. by rewrite lookup_behind.
  - rewrite fbind_run, (read_behind' _ _ t) by done. cbn [fst snd]. rewrite (read_bind _ _ _ hi) by done.
    rewrite fbind_run. unfold read_byte.
    cbn [fst snd]. by rewrite lookup_behind.
Qed.

Lemma read_tlv_header_run pre t hi lo rest :
  read_tlv_header (length pre) (pre ++ t :: hi :: lo :: rest)
  = (Some (t, Z.to_nat (be16 hi lo)), pre ++ t :: hi :: lo :: rest).
Proof.
  unfold read_tlv_header. rewrite fbind_run, (read_behind' _ _ t) by done. cbn [fst snd].
  by rewrite (read_bind _ _ _ hi), (read_bind _ _ _ lo).
Qed.

Lemma verify_tlv_run pre l : bytes_ok l → ∃ b',
  verify_tlv (length pre) (pre ++ l) = (iteration l, b') ∧ length b' = length (pre ++ l) ∧
  (∀ r, iteration l = Some r → r ≠ Broken → b' = pre ++ l).
Proof.
  intros Hl. unfold verify_tlv. rewrite fbind_run.
  destruct l as [|t [|hi [|lo rest]]].
  1-3: rewrite read_tlv_header_cut by (cbn; lia); by eexists.
  rewrite read_tlv_header_run. cbn [fst snd iteration]. unfold bytes_ok in Hl. rewrite !Forall_cons in Hl.
  destruct Hl as (Ht & Hhi & Hlo & Hrest). destruct (Z.eqb_spec t 0xb) as [->|].
  - destruct (verify_vendor_run pre hi lo rest _ Hhi Hlo Hrest eq_refl) as (b' & -> & Hlen & Hb).
    exists b'. split; [done|]. split; [done|]. intros r Hr Hne. destruct r as [| |n]; [|done|by apply (Hb n)].
    exfalso. unfold vendor_verdict in Hr. by repeat case_match.
  - unfold TLV_END_OF_MESSAGE. destruct (_ && _)%bool; by eexists.
Qed.

Lemma not_found_run b tlv : not_found tlv b
  = match (read_tlv_header tlv b).1 with Some _ => (Some false, (read_tlv_header tlv b).2)
    | None => (None, (read_tlv_header tlv b).2) end.
Proof. unfold not_found. by rewrite fbind_run. Qed.

Lemma read_tlv_header_state b tlv : (read_tlv_header tlv b).2 = b.
Proof. unfold read_tlv_header, read_byte, fbind, mbind, stM_bind. by repeat case_match; simplify_eq/=. Qed.

Lemma read_tlv_header_in b tlv : (tlv + 3 ≤ length b)%nat → is_Some (read_tlv_header tlv b).1.
Proof.
  intros H. rewrite <- (take_drop tlv b). assert (length (take tlv b) = tlv) as Hlen by (rewrite length_take; lia).
  rewrite <- Hlen at 1. destruct (drop tlv b) as [|t [|hi [|lo rest]]] eqn:E.
  1-3: apply (f_equal length) in E; rewrite length_drop in E; cbn in E; lia.
  rewrite read_tlv_header_run. done.
Qed.

Lemma verify_tlvs_verdict fuel : ∀ pre l, bytes_ok l → (length l < 3 + fuel)%nat → (0 < fuel)%nat → ∃ r b',
  verify_tlvs fuel (length pre) (pre ++ l) = (r, b') ∧ verdict l r ∧ length b' = length (pre ++ l) ∧
  (r = Some true → b' = pre ++ l).
Proof.
  induction fuel as [|fuel IH]; intros pre l Hl Hf Hpos; [lia|]. cbn [verify_tlvs]. rewrite fbind_run.
  destruct (verify_tlv_run pre l Hl) as (b' & -> & Hlen & Hb). cbn [fst snd].
  destruct (iteration l) as [r|] eqn:E; [|exists None, b'; by split; [|split; [constructor|]]].
  assert (3 ≤ length l)%nat as H3 by (destruct l as [|? [|? [|? l]]]; try done; cbn; lia).
  destruct r as [| |len].
  - rewrite (Hb Found) by done. exists (Some true), (pre ++ l). by split; [|split; [by constructor|]].
  - rewrite not_found_run, read_tlv_header_state.
    destruct (read_tlv_header_in b' (length pre)) as [x ->]; [rewrite Hlen, length_app; lia|].
    exists (Some false), b'. by split; [|split; [by constructor|]].
  - rewrite (Hb (Continue len)) by done. clear Hb Hlen. cbv zeta.
    destruct (Nat.ltb_spec (length pre + (sizeof_sTlvHeader + len)) (length (pre ++ l))) as [Hlt|Hge];
      unfold sizeof_sTlvHeader in *; rewrite length_app in *.
    + destruct (IH (pre ++ take (3 + len) l) (drop (3 + len) l)) as (r & b'' & Hr & Hv & Hlen & Hb).
      { by apply Forall_drop. } { rewrite length_drop. lia. } { lia. }
      rewrite <- app_assoc, take_drop in *. rewrite length_app, length_take, Nat.min_l in Hr by lia.
      rewrite length_app in Hlen. exists r, b''. split; [done|]. split; [|done].
      apply (verdict_next _ len); [done|lia|done].
    + rewrite not_found_run, read_tlv_header_state. unfold read_tlv_header. rewrite fbind_run. unfold read_byte.
      cbn [fst snd]. rewrite lookup_ge_None_2 by (rewrite length_app; lia).
      exists None, (pre ++ l). split; [done|]. split; [|by rewrite length_app]. by apply (verdict_overrun _ len); [|lia].
Qed.

(** ** What is accepted *)

Definition tlv_bytes (t : Z) (v : list Z) : list Z := t :: be16_bytes (Z.of_nat (length v)) ++ v.

(** A vendor specific TLV must have an OUI, and with the OUI of this vendor
    the magic number, which is read without regard to the end of the TLV. *)
Definition vendor_ok (v rest : list Z) : Prop :=
  (3 ≤ length v)%nat ∧
  (take 3 v = intel_oui → (3 < length v)%nat ∧ take 4 (drop 3 (v ++ rest)) = magic_bytes).

(** TLVs up to an end of message TLV; anything may follow it. *)
Inductive verified : list Z → Prop :=
  | verified_end rest : verified ([0; 0; 0] ++ rest)
  | verified_tlv t v rest : Z.of_nat (length v) < 65536 → (t ≠ 0 ∨ v ≠ []) →
      (t = 0xb → vendor_ok v rest) → verified rest → verified (tlv_bytes t v ++ rest).

Lemma vendor_verdict_continue len rest : (len < length rest)%nat →
  vendor_verdict len rest = Some (Continue len) ↔ vendor_ok (take len rest) (drop len rest).
Proof.
  intros Hlen. unfold vendor_verdict, vendor_ok. rewrite take_drop, length_take, Nat.min_l by lia.
  destruct (Nat.ltb_spec len 3); [split; [done|lia]|]. rewrite (proj2 (Nat.ltb_ge _ 3)) by lia.
  rewrite take_take, Nat.min_l by lia.
  case_bool_decide as Ho; [|split; [intros _; by split|done]].
  destruct (Nat.eqb_spec len 3) as [->|]; [split; [done|intros [_ Hm]; destruct (Hm Ho); lia]|].
  destruct (Nat.ltb_spec (length rest) 7).
  { split; [done|]. intros [_ Hm]. destruct (Hm Ho) as [_ E]. apply (f_equal length) in E.
    rewrite length_take, length_drop in E. change (length magic_bytes) with 4%nat in E. lia. }
  case_bool_decide as Hm; [split; [|done]; intros _; split; [done|]; intros _; split; [lia|done]|].
  split; [done|]. intros [_ E]. by destruct (E Ho).
Qed.

Lemma vendor_verdict_len len rest n : vendor_verdict len rest = Some (Continue n) → n = len.
Proof. unfold vendor_verdict. intros. by repeat case_match; simplify_eq. Qed.

Lemma tlv_split t hi lo rest len : byte_ok hi → byte_ok lo → len = Z.to_nat (be16 hi lo) → (len < length rest)%nat →
  t :: hi :: lo :: rest = tlv_bytes t (take len rest) ++ drop len rest.
Proof.
  intros Hhi Hlo -> Hlen. unfold tlv_bytes. rewrite length_take, Nat.min_l by lia.
  pose proof (be16_range hi lo Hhi Hlo). rewrite Z2Nat.id by lia. cbn [app].
  rewrite <- app_assoc, take_drop. cbn [app be16_bytes]. rewrite be16_add by done. unfold u8, byte_ok in *.
  rewrite Z.shiftr_div_pow2 by lia. change (2 ^ 8) with 256. do 3 f_equal; [|f_equal].
  - rewrite Z.div_add_l, Z.div_small, Z.mod_small by lia. lia.
  - rewrite Z.add_comm, Z.mod_add, Z.mod_small by lia. done.
Qed.

Lemma verdict_verified l : bytes_ok l → verdict l (Some true) → verified l.
Proof.
  intros Hl Hv. remember (Some true) as r eqn:E. induction Hv as [| l Hi| | |l len r Hi Hlen _ IH]; try done.
  - destruct l as [|t [|hi [|lo rest]]]; try done. cbn in Hi. unfold bytes_ok in Hl. rewrite !Forall_cons in Hl.
    destruct Hl as (_ & Hhi & Hlo & _).
    destruct (t =? 0xb). { exfalso. unfold vendor_verdict in Hi. by repeat case_match. }
    destruct (Z.eqb_spec t 0) as [->|]; [|done]. destruct (Nat.eqb_spec (Z.to_nat (be16 hi lo)) 0) as [E0|]; [|done].
    pose proof (be16_range hi lo Hhi Hlo) as Hr. assert (be16 hi lo = 0) as E1 by lia.
    rewrite be16_add in E1 by done. unfold byte_ok in *.
    assert (hi = 0) as -> by lia. assert (lo = 0) as -> by lia. apply (verified_end rest).
  - subst r. specialize (IH ltac:(by apply Forall_drop) eq_refl).
    destruct l as [|t [|hi [|lo rest]]]; try done. cbn in Hi. unfold bytes_ok in Hl. rewrite !Forall_cons in Hl.
    destruct Hl as (_ & Hhi & Hlo & _). pose proof (be16_range hi lo Hhi Hlo) as Hr.
    assert (len = Z.to_nat (be16 hi lo)) as ->.
    { destruct (t =? 0xb); [by apply vendor_verdict_len in Hi|]. by destruct (_ && _)%bool; simplify_eq. }
    cbn [length] in Hlen. change (drop (3 + _) (t :: hi :: lo :: rest)) with (drop (Z.to_nat (be16 hi lo)) rest) in IH.
    rewrite (tlv_split t hi lo rest _ Hhi Hlo eq_refl) by lia. apply verified_tlv; [| | |done].
    + rewrite length_take. lia.
    + destruct (Z.eqb_spec t 0) as [->|]; [|by left]. right. cbn in Hi.
      destruct (Nat.eqb_spec (Z.to_nat (be16 hi lo)) 0); [done|]. intros E.
      apply (f_equal length) in E. rewrite length_take in E. change (length []) with 0%nat in E. lia.
    + intros ->. cbn in Hi. by apply vendor_verdict_continue in Hi; [|lia].
Qed.

Lemma verified_length l : verified l → (3 ≤ length l)%nat.
Proof. destruct 1; cbn; lia. Qed.

Lemma verified_verdict l : verified l → verdict l (Some true).
Proof.
  induction 1 as [rest|t v rest Hlen Hend Hvend Hrest IH]; [by constructor|].
  apply verified_length in Hrest as Hpos.
  apply (verdict_next _ (length v)); cbn [tlv_bytes be16_bytes app].
  - cbn [iteration]. rewrite be16_bytes_roundtrip, Nat2Z.id by lia.
    destruct (Z.eqb_spec t 0xb) as [->|].
    + apply vendor_verdict_continue; [rewrite length_app; lia|]. rewrite take_app_length, drop_app_length. by apply Hvend.
    + destruct (Z.eqb_spec t 0) as [->|]; [|done]. destruct Hend as [|Hv]; [done|]. by destruct v.
  - cbn [length]. rewrite length_app. lia.
  - change (drop (3 + length v) _) with (drop (length v) (v ++ rest)). by rewrite drop_app_length.
Qed.

(** ** Theorems *)

Lemma verify_cmdu_verdict b : bytes_ok b → (11 ≤ length b)%nat → ∃ r b',
  verify_cmdu b = (r, b') ∧ verdict (drop 8 b) r ∧ length b' = length b ∧ (r = Some true → b' = b).
Proof.
  intros Hb Hl. unfold verify_cmdu. change cmdu_header_size with 8%nat. rewrite (proj2 (Nat.ltb_ge _ _)) by (unfold sizeof_sTlvHeader; lia).
  destruct (verify_tlvs_verdict (length b) (take 8 b) (drop 8 b)) as (r & b' & Hr & Hv & Hlen & Hbk).
  { by apply Forall_drop. } { rewrite length_drop. lia. } { lia. }
  rewrite take_drop, length_take, Nat.min_l in * by lia. eauto 10.
Qed.

Lemma verdict_det l r1 r2 : verdict l r1 → verdict l r2 → r1 = r2.
Proof. intros H1. revert r2. induction H1; intros r2; inversion 1; simplify_eq; try lia; eauto. Qed.

Lemma verify_cmdu_short b : (length b < 11)%nat → verify_cmdu b = (Some false, b).
Proof.
  intros Hs. unfold verify_cmdu. change cmdu_header_size with 8%nat.
  by rewrite (proj2 (Nat.ltb_lt _ _)) by (unfold sizeof_sTlvHeader; lia).
Qed.

Lemma verify_cmdu_verified b : bytes_ok b → (8 ≤ length b)%nat → verified (drop 8 b) → verify_cmdu b = (Some true, b).
Proof.
  intros Hb H8 Hver. pose proof (verified_length _ Hver) as H3. rewrite length_drop in H3.
  destruct (verify_cmdu_verdict b Hb) as (r & b' & -> & Hv & Hlen & Hbk); [lia|].
  apply verified_verdict in Hver. pose proof (verdict_det _ _ _ Hv Hver) as ->. by rewrite Hbk.
Qed.

(** C18: A CMDU passes [verify_cmdu] exactly when behind its header there is a
    sequence of complete TLVs up to an end of message TLV of length zero, with
    an OUI in every vendor specific TLV and the magic number behind the OUI of
    this vendor; the bytes of an accepted CMDU are left as they were, although
    vendor specific TLVs are swapped in place while they are looked into. *)
Theorem verify_cmdu_accepts b : bytes_ok b →
  (verify_cmdu b = (Some true, b) ↔ (8 ≤ length b)%nat ∧ verified (drop 8 b)) ∧
  (∀ b', verify_cmdu b = (Some true, b') → b' = b).
Proof.
  intros Hb. split; [split|].
  - intros Hv. destruct (Nat.lt_ge_cases (length b) 11) as [Hs|Hl]; [by rewrite verify_cmdu_short in Hv|].
    split; [lia|]. destruct (verify_cmdu_verdict b Hb Hl) as (r & b' & Hr & Hvd & _). rewrite Hv in Hr. injection Hr as <- <-.
    apply verdict_verified; [by apply Forall_drop|done].
  - intros [H8 Hver]. by apply verify_cmdu_verified.
  - intros b' Hv. destruct (Nat.lt_ge_cases (length b) 11) as [Hs|Hl]; [by rewrite verify_cmdu_short in Hv|].
    destruct (verify_cmdu_verdict b Hb Hl) as (r & b'' & Hr & _ & _ & Hbk). rewrite Hv in Hr. injection Hr as <- <-. by apply Hbk.
Qed.

(** A CMDU whose first TLV is vendor specific with the OUI of this vendor and
    nothing else makes [verify_cmdu] read through a null pointer: any device
    of the network can send it. *)
Theorem empty_vendor_tlv_crashes b rest : bytes_ok b → drop 8 b = tlv_bytes 0xb intel_oui ++ rest →
  (verify_cmdu b).1 = None.
Proof.
  intros Hb Hd. assert (14 ≤ length b)%nat.
  { apply (f_equal length) in Hd. rewrite length_drop in Hd. cbn in Hd. lia. }
  destruct (verify_cmdu_verdict b Hb) as (r & b' & -> & Hv & _); [lia|]. rewrite Hd in Hv.
  apply (verdict_det _ _ _ Hv). by constructor.
Qed.

(** Without an end of message TLV the TLV header behind the last TLV is read
    outside of the CMDU. *)
Theorem missing_end_of_message_overruns b t v : bytes_ok b → t ≠ 0xb → v ≠ [] → Z.of_nat (length v) < 65536 →
  drop 8 b = tlv_bytes t v → (verify_cmdu b).1 = None.
Proof.
  intros Hb Ht Hv0 Hlen Hd. pose proof (f_equal length Hd) as Hd'. rewrite length_drop in Hd'. cbn in Hd'.
  destruct (verify_cmdu_verdict b Hb) as (r & b' & -> & Hv & _); [lia|]. rewrite Hd in Hv.
  apply (verdict_det _ _ _ Hv). apply (verdict_overrun _ (length v)); [|done].
  cbn. rewrite be16_bytes_roundtrip, Nat2Z.id by lia. rewrite (proj2 (Z.eqb_neq t 11)) by done.
  destruct v; [done|]. by rewrite andb_false_r.
Qed.
