(* ===== verification/VendorMessage.v ===== *)
(** * Vendor specific messages

    [message_com] ([beerocks_message.h], [beerocks_message.cpp]) and
    [beerocks_header] ([beerocks_header.h]): the messages the processes of the
    agent and the controller exchange are classes of their own behind an action
    header, in a class list inside of the payload of a vendor specific TLV. The
    classes are in [VendorClassesAgent] and [VendorClassesController]. *)

From S2P Require Import Prelude Wire Messages Tlvf TlvClasses1905 TlvClassesMap CmduMessage CmduTx CmduUtils.

(** ** Classes *)

(** [eAction]. *)
Definition ACTION_NONE : Z := 0x0.
Definition ACTION_1905_VS : Z := 0x1.
Definition ACTION_CONTROL : Z := 0xa.
Definition ACTION_BACKHAUL : Z := 0xb.
Definition ACTION_PLATFORM : Z := 0xc.
Definition ACTION_APMANAGER : Z := 0x14.
Definition ACTION_MONITOR : Z := 0x1e.
Definition ACTION_DHCP : Z := 0x28.
Definition ACTION_CLI : Z := 0x32.
Definition ACTION_BML : Z := 0x3c.

(** A message class: the action that goes with the type of [get_action_op()],
    its value, the name and the fields of the class. *)
Record VsClass := mkVsClass { vs_action : Z; vs_op : Z; vs_name : string; vs_fields : list Field }.
Definition vs_layout (c : VsClass) : Layout := mkLayout (vs_name c) None (vs_fields c).

Definition cACTION_HEADER : Layout := mkLayout "cACTION_HEADER" None [
    Fixed "magic" 4 [(0, 4)%nat]; Fixed "version" 1 []; Fixed "action" 1 []; Fixed "action_op" 1 [];
    Fixed "direction" 1 []; Fixed "radio_mac" 6 []; Fixed "last" 1 []; Fixed "id" 2 [(0, 2)%nat];
    Fixed "length" 2 [(0, 2)%nat]].

(** ** Received messages *)

(** A [beerocks_header]: a class list in the bytes from [in_start] to [in_fin]
    of the message. *)
Record InnerList := mkInnerList { in_start : nat; in_fin : nat; in_swapped : bool; in_objects : list Object }.

(** A received CMDU with the inner class list of its first vendor specific TLV. *)
Record VsMessage := mkVsMessage { vm_cmdu : ClassList; vm_inner : option InnerList }.

Definition inner_ptr (i : InnerList) : nat :=
  match last (in_objects i) with None => in_start i | Some o => o_ptr o end.

Definition set_buff (b : list Z) (m : ClassList) : ClassList := mkClassList b (m_swapped m) (m_class_vector m).

(** [addClass<T>()] on an inner list, which shares the buffer of the CMDU. *)
Definition inner_addClass (L : Layout) (i : InnerList) : faultM (list Z) (option (Object * InnerList)) :=
  r <- init_parse L (inner_ptr i) (in_fin i) ;;
  fret (match r with
        | None => None
        | Some o => Some (o, mkInnerList (in_start i) (in_fin i) (in_swapped i) (in_objects i ++ [o]))
        end).

(** [intel_oui(tlv)]. *)
Definition has_intel_oui (o : Object) : faultM (list Z) bool := v <- vendor_oui o ;; fret (v =? OUI_INTEL).

(** [parse_intel_vs_message]; [false] is a null pointer. A null payload has the
    length zero. *)
Definition parse_intel_vs_message : faultM VsMessage bool := λ v,
  let m := vm_cmdu v in
  match getClass "tlvVendorSpecific" m with
  | None => (Some false, v)
  | Some tlv =>
    match has_intel_oui tlv (m_buff m) with
    | (None, b) => (None, mkVsMessage (set_buff b m) (vm_inner v))
    | (Some false, _) => (Some false, v)
    | (Some true, _) =>
      match vendor_payload tlv with
      | None => (Some false, v)
      | Some p =>
        match inner_addClass cACTION_HEADER (mkInnerList p (o_ptr tlv) false []) (m_buff m) with
        | (None, b) => (None, mkVsMessage (set_buff b m) (vm_inner v))
        | (Some None, b) => (Some false, mkVsMessage (set_buff b m) (vm_inner v))
        | (Some (Some (_, i)), b) => (Some true, mkVsMessage (set_buff b m) (Some i))
        end
      end
    end
  end.

(** [hdr->addClass<T>()] on the list that [parse_intel_vs_message] returned. *)
Definition vs_addClass (c : VsClass) : faultM VsMessage (option Object) := λ v,
  match vm_inner v with
  | None => (None, v)
  | Some i =>
    match inner_addClass (vs_layout c) i (m_buff (vm_cmdu v)) with
    | (None, b) => (None, mkVsMessage (set_buff b (vm_cmdu v)) (vm_inner v))
    | (Some None, b) => (Some None, mkVsMessage (set_buff b (vm_cmdu v)) (vm_inner v))
    | (Some (Some (o, i)), b) => (Some (Some o), mkVsMessage (set_buff b (vm_cmdu v)) (Some i))
    end
  end.

(** [action()], [action_op()] and [id()] of a [beerocks_header]. *)
Definition actionhdr (v : VsMessage) : option Object :=
  i ← vm_inner v; snd <$> list_find (λ o, o_class o = "cACTION_HEADER") (in_objects i).
Definition header_byte (name : string) (v : VsMessage) : Z :=
  default 0 (o ← actionhdr v; off ← member o name; m_buff (vm_cmdu v) !! off).
Definition vs_get_action (v : VsMessage) : Z := header_byte "action" v.
Definition vs_get_op (v : VsMessage) : Z := header_byte "action_op" v.
Definition vs_get_id (v : VsMessage) : Z :=
  default 0 (o ← actionhdr v; off ← member o "id"; Some (le16 (m_buff (vm_cmdu v)) off)).

(** [ClassList::swap()] of the CMDU: the inner list is swapped behind its TLV. *)
Fixpoint swap_with_inner (inner : list Object) (l : list Object) : faultM (list Z) unit :=
  match l with
  | [] => fret tt
  | o :: l =>
    _ <- class_swap (o_spots o) ;;
    if decide (o_class o = "tlvVendorSpecific") then _ <- swap_objects inner ;; swap_objects l
    else swap_with_inner inner l
  end.
Definition vs_swap : faultM VsMessage unit := λ v,
  let m := vm_cmdu v in
  match vm_inner v with
  | None => let '(r, m) := swap m in (r, mkVsMessage m None)
  | Some i =>
    let '(r, b) := swap_with_inner (in_objects i) (m_class_vector m) (m_buff m) in
    (r, mkVsMessage (mkClassList b (negb (m_swapped m)) (m_class_vector m))
          (Some (mkInnerList (in_start i) (in_fin i) (negb (in_swapped i)) (in_objects i))))
  end.

(** ** Vendor specific TLVs of a parsed message *)

Lemma vendor_parsed start fin b o b' : init_parse tlvVendorSpecific start fin b = (Some (Some o), b') →
  ∃ n, o = vendor_object start (3 + n).
Proof.
  unfold init_parse, init_fields. destruct (_ <? _)%nat; [done|].
  intros (r & b1 & H1 & H2)%fbind_Some. apply fbind_Some in H1 as (w & b2 & Hw & H1).
  destruct w as [w|]; [|rewrite fret_run in H1; injection H1 as <- <-; done].
  apply fbind_Some in H1 as (? & ? & _ & H1). rewrite fret_run in H1. injection H1 as <- <-.
  cbn [walk_fields l_fields tlvVendorSpecific walk_field] in Hw. unfold buffPtrIncrementSafe, set_member in Hw.
  apply fbind_Some in Hw as (w1 & ? & H1 & Hw). destruct (_ <? _) in H1; rewrite fret_run in H1; injection H1 as <- <-; [done|].
  apply fbind_Some in Hw as (w1 & ? & H1 & Hw). destruct (_ <? _) in H1; rewrite fret_run in H1; injection H1 as <- <-; [done|].
  apply fbind_Some in Hw as (w1 & ? & H1 & Hw). destruct (_ <? _) in H1; rewrite fret_run in H1; injection H1 as <- <-; [done|].
  apply fbind_Some in Hw as (w1 & ? & H1 & Hw). apply fbind_Some in H1 as (len & ? & _ & H1). rewrite fret_run in H1.
  unfold take_elements in H1. destruct (_ <? _) in H1; injection H1 as <- <-; [done|]. rewrite fret_run in Hw. injection Hw as <- <-.
  cbn [l_type tlvVendorSpecific] in H2. destruct (find_field _ _); [|done].
  apply fbind_Some in H2 as (v & ? & _ & H2). rewrite fret_run in H2. destruct (v =? _); [|done]. injection H2 as <- _.
  exists (Z.to_nat len). unfold vendor_object, vendor_spots. cbn [w_ptr w_fields w_spots].
  rewrite element_spots_plain. cbn [app Z.of_nat Z.to_nat Pos.of_succ_nat Pos.to_nat].
  rewrite !Nat2Z.id. replace (start + 1 + 2)%nat with (start + 3)%nat by lia. replace (start + 3 + 3)%nat with (start + 6)%nat by lia.
  by replace (start + 6 + Z.to_nat len)%nat with (start + 3 + (3 + Z.to_nat len))%nat by lia.
Qed.

(** Only one class is called so. *)
Definition vendor_named (L : Layout) : Prop := l_name L = "tlvVendorSpecific" → L = tlvVendorSpecific.

Lemma switches_vendor_named : Forall (λ x, vendor_named x.2) (ieee1905_switch ++ map_switch ++ vbss_switch).
Proof. repeat (constructor; [intros ?; first [done|discriminate]|]). constructor. Qed.

Lemma switch_vendor_named t l L : l ⊆ ieee1905_switch ++ map_switch ++ vbss_switch → switch t l = Some L → vendor_named L.
Proof.
  intros Hl Hs%switch_elem. pose proof switches_vendor_named as Hall. rewrite Forall_forall in Hall.
  exact (Hall (t, L) (Hl _ Hs)).
Qed.

Lemma next_class_named m L m' : next_class m = (Some (Class L), m') → vendor_named L.
Proof.
  assert (∀ l, l ⊆ ieee1905_switch ++ map_switch ++ vbss_switch → ∀ t s,
    fret (of_switch (switch t l)) s = (Some (Class L), m') → vendor_named L) as Hsw.
  { intros l Hl t s. destruct (switch t l) as [L'|] eqn:E; rewrite fret_run; [|done].
    intros [= <- _]. by eapply switch_vendor_named. }
  intros (t & m1 & _ & H2)%fbind_Some.
  destruct (eTlvType_check (u8 t)); [|destruct (eTlvTypeMap_check (u8 t)); [|destruct (u8 t =? 0xb)]].
  - unfold next_ieee1905 in H2. destruct (u8 t =? _); [|by eapply (Hsw ieee1905_switch); [intros ??; apply elem_of_app; by left|exact H2]].
    apply fbind_Some in H2 as (len & m2 & _ & H3). rewrite fret_run in H3. injection H3 as <- _. by destruct (len =? 2).
  - unfold next_map in H2. destruct (u8 t =? _); [|by eapply (Hsw map_switch); [intros ??; apply elem_of_app; right; apply elem_of_app; by left|exact H2]].
    apply fbind_Some in H2 as (st & m2 & _ & H3). destruct (negb _); [done|]. 
    by eapply (Hsw vbss_switch); [intros ??; apply elem_of_app; right; apply elem_of_app; by right|exact H3].
  - unfold next_vendor_example in H2. rewrite fret_run in H2. destruct (u8 t =? 0xb); [|done]. by injection H2 as <- _.
  - rewrite fret_run in H2. by injection H2 as <- _.
Qed.

(** The vendor specific TLVs of a message, as the objects they are. *)
Definition vendor_shape (m : ClassList) : Prop :=
  Forall (λ o, o_class o = "tlvVendorSpecific" → ∃ n, o = vendor_object (o_start o) (3 + n)) (m_class_vector m).

Lemma addClass_shape L m : vendor_named L → vendor_shape m → vendor_shape (addClass L m).2.
Proof.
  intros HL Hm. unfold addClass. destruct (init_parse _ _ _ _) as [[[o|]|] b] eqn:Hi; [|done..].
  unfold vendor_shape. cbn. apply Forall_app. split; [done|]. constructor; [|constructor]. intros Hc.
  assert (o_class o = l_name L) as Hn.
  { unfold init_parse in Hi. apply fbind_Some in Hi as ([w|] & ? & _ & Hi); [|done]. destruct (l_type L); [|by rewrite fret_run in Hi; injection Hi as <- _].
    destruct (find_field w "type"); [|done]. apply fbind_Some in Hi as (v & ? & _ & Hi). rewrite fret_run in Hi.
    destruct (v =? z); [|done]. by injection Hi as <- _. }
  rewrite Hc in Hn. rewrite (HL (eq_sym Hn)) in Hi. destruct (vendor_parsed _ _ _ _ _ Hi) as [n ->]. by exists n.
Qed.

Lemma parse_tlvs_shape fuel : ∀ m, vendor_shape m → vendor_shape (parse_tlvs fuel m).2.
Proof.
  induction fuel as [|fuel IH]; intros m Hm; [done|]. cbn [parse_tlvs]. rewrite fbind_run.
  pose proof (next_class_state m) as Hs. destruct (next_class m) as [[[L|]|] m1] eqn:Hn; cbn [fst snd] in *; subst; [|done..].
  apply next_class_named in Hn. pose proof (addClass_shape L m Hn Hm) as Ha. rewrite fbind_run.
  destruct (addClass L m) as [[[o|]|] m2]; cbn [fst snd] in *; try done. case_decide; [done|by apply IH].
Qed.

Lemma parse_shape b : vendor_shape (parse (received b)).2.
Proof.
  unfold parse. rewrite fbind_run. cbn [fst snd reset]. rewrite fbind_run.
  assert (vendor_shape (mkClassList (m_buff (received b)) false [])) as H0 by constructor.
  pose proof (addClass_shape cCmduHeader _ ltac:(discriminate) H0) as Ha.
  destruct (addClass cCmduHeader _) as [[[o|]|] m2]; cbn [fst snd] in *; try done. by apply parse_tlvs_shape.
Qed.

(** ** The inner list *)

Definition spots_of (l : list Object) : list Spot := concat (o_spots <$> l).

Lemma spots_of_app l1 l2 : spots_of (l1 ++ l2) = spots_of l1 ++ spots_of l2.
Proof. unfold spots_of. by rewrite fmap_app, concat_app. Qed.

Definition end_of (p : nat) (l : list Object) : nat := default p (o_ptr <$> last l).

Lemma end_of_cons p o l : end_of p (o :: l) = end_of (o_ptr o) l.
Proof. unfold end_of. rewrite last_cons. by destruct (last l). Qed.

Lemma chain_app l1 l2 : ∀ p, chain p (l1 ++ l2) ↔ chain p l1 ∧ chain (end_of p l1) l2.
Proof.
  induction l1 as [|o l1 IH]; intros p; cbn [app chain]; [tauto|]. rewrite IH, end_of_cons. tauto.
Qed.

Lemma chain_end l : ∀ p, chain p l → (p ≤ end_of p l)%nat.
Proof.
  induction l as [|o l IH]; intros p; [done|]. cbn [chain]. rewrite end_of_cons. intros (_ & Hle & Hc%IH). lia.
Qed.

Lemma chain_spots b l : ∀ p, chain p l → Forall (λ o, spots_ok b (o_start o) (o_ptr o) (o_spots o)) l →
  spots_ok b p (end_of p l) (spots_of l).
Proof.
  induction l as [|o l IH]; intros p; [intros _ _; apply spots_ok_nil|]. cbn [chain]. intros (Hs & Hle & Hc) [Ho Hl]%Forall_cons.
  rewrite end_of_cons. unfold spots_of. cbn [fmap list_fmap concat]. rewrite Hs in Ho. pose proof (chain_end _ _ Hc).
  apply (spots_ok_app b p (o_ptr o)); [lia|done|by apply IH].
Qed.

Lemma getClass_split name m o : getClass name m = Some o → ∃ pre post,
  m_class_vector m = pre ++ o :: post ∧ o_class o = name ∧ Forall (λ x, o_class x ≠ name) pre.
Proof.
  unfold getClass. destruct (list_find _ _) as [[j x]|] eqn:Hf; [|done]. cbn. intros [= ->].
  apply list_find_Some in Hf as (Hl & Hn & Hfirst). exists (take j (m_class_vector m)), (drop (S j) (m_class_vector m)).
  split; [by rewrite take_drop_middle|]. split; [done|]. apply Forall_lookup_2. intros j' x Hx.
  apply lookup_take_Some in Hx as [Hx Hj]. by eapply Hfirst.
Qed.

(** A message with an inner list in the vendor specific TLV at [k] with [n]
    bytes of payload: exactly the words of its objects have been swapped. *)
Section InnerInv.
Context (b : list Z) (pre suf : list Object) (k n hi : nat).

Definition words (objs : list Object) : list Spot :=
  spots_of pre ++ vendor_spots k ++ spots_of objs ++ spots_of suf.

Record inner_inv (i : InnerList) (buf : list Z) : Prop := {
  ii_pre : spots_ok b 0 k (spots_of pre);
  ii_post : spots_ok b (k + 6 + n) hi (spots_of suf);
  ii_hi : (k + 6 + n ≤ hi ≤ length b)%nat;
  ii_place : in_start i = (k + 6)%nat ∧ in_fin i = (k + 6 + n)%nat;
  ii_ptr : (k + 6 ≤ inner_ptr i ≤ k + 6 + n)%nat;
  ii_chain : chain (k + 6) (in_objects i);
  ii_objs : spots_ok b (k + 6) (inner_ptr i) (spots_of (in_objects i));
  ii_buff : buf = swap_spots (words (in_objects i)) b;
}.

Lemma vendor_spots_ok : spots_ok b k (k + 6) (vendor_spots k).
Proof.
  apply (spots_ok_app b k (k + 1 + 2) (k + 6) [_] [_]); [lia|..].
  - eapply spots_ok_weaken with (hi := (k + 1 + 2)%nat); [lia|].
    apply (spots_ok_app b k (k + 1) _ []); [lia|apply spots_ok_nil|]. by apply (spots_at_ok b (k + 1) 2 [(0, 2)%nat]).
  - replace (k + 6)%nat with (k + 3 + 3)%nat by lia. replace (k + 1 + 2)%nat with (k + 3)%nat by lia.
    by apply (spots_at_ok b (k + 3) 3 [(0, 3)%nat]).
Qed.

Lemma words_ok objs ptr : spots_ok b 0 k (spots_of pre) → spots_ok b (k + 6 + n) hi (spots_of suf) →
  (k + 6 + n ≤ hi)%nat → (k + 6 ≤ ptr ≤ k + 6 + n)%nat → spots_ok b (k + 6) ptr (spots_of objs) →
  spots_ok b 0 hi (words objs).
Proof.
  intros Hpre Hpost Hhi Hptr Hobjs. unfold words. apply (spots_ok_app b 0 k); [lia|done|].
  apply (spots_ok_app b k (k + 6)); [lia|apply vendor_spots_ok|]. apply (spots_ok_app b _ (k + 6 + n)); [lia| |done].
  eapply spots_ok_weaken; [|done]. lia.
Qed.

Lemma inner_inv_ok i buf : inner_inv i buf → spots_ok b 0 hi (words (in_objects i)).
Proof. intros [? ? ? ? ? ? ? ?]. by eapply words_ok; [..|lia|done|done]. Qed.

(** The bytes behind the objects of the inner list are as they were received. *)
Lemma inner_inv_rest i buf j : inner_inv i buf → (inner_ptr i ≤ j < k + 6 + n)%nat → buf !! j = b !! j.
Proof.
  intros Hi Hj. pose proof (inner_inv_ok i buf Hi) as Hok. destruct Hi as [Hpre Hpost Hhi _ Hptr _ Hobjs ->].
  apply (swap_spots_plain b 0 hi); [done|lia|]. intros t Ht Hat [H1 H2]. unfold words in Ht. rewrite !elem_of_app in Ht.
  destruct Ht as [Ht|[Ht|[Ht|Ht]]].
  - destruct (so_range _ _ _ _ Hpre t Ht Hat). lia.
  - destruct (so_range _ _ _ _ vendor_spots_ok t Ht Hat). lia.
  - destruct (so_range _ _ _ _ Hobjs t Ht Hat). lia.
  - destruct (so_range _ _ _ _ Hpost t Ht Hat). lia.
Qed.

Lemma inner_addClass_post L i buf : bytes_ok b → layout_ok L = true → type_first L = true → inner_inv i buf →
  post (inner_addClass L i buf) (λ r buf', match r with
    | None => length buf' = length b
    | Some (o, i') => inner_inv i' buf' ∧ in_objects i' = in_objects i ++ [o] ∧ o_class o = l_name L ∧ o_start o = inner_ptr i
    end).
Proof.
  intros Hb HL Hty Hi. pose proof (inner_inv_ok i buf Hi) as Hok. pose proof Hi as [Hpre Hpost Hhi [Hs Hf] Hptr Hch Hobjs Hbuf].
  assert (length buf = length b) as Hlen by (rewrite Hbuf; apply (swap_spots_lookup b 0 hi); [done|lia]).
  assert (bytes_ok buf) as Hbb by (rewrite Hbuf; apply (swap_spots_bytes b 0 hi); [done|lia|done]).
  pose proof (init_parse_post L buf (inner_ptr i) (in_fin i) HL Hty ltac:(lia) Hbb) as Hinit.
  unfold inner_addClass. rewrite fbind_run. destruct (init_parse L _ _ buf) as [[[o|]|] b1]; cbn in Hinit |- *; [|lia|done].
  destruct Hinit as (-> & Hsp & Hst & Hcl & Hp & _). split; [|done].
  assert (spots_ok b (inner_ptr i) (o_ptr o) (o_spots o)) as Hsb.
  { eapply spots_ok_agree; [|exact Hsp]. intros s Hin. apply active_agree. intros g Hg.
    pose proof (so_guards _ _ _ _ Hsp s g Hin Hg). apply at_lookup_eq, (inner_inv_rest i); [done|lia]. }
  assert (spots_of (in_objects i ++ [o]) = spots_of (in_objects i) ++ o_spots o) as Hso.
  { rewrite spots_of_app. unfold spots_of at 2. cbn. by rewrite app_nil_r. }
  assert (inner_ptr (mkInnerList (in_start i) (in_fin i) (in_swapped i) (in_objects i ++ [o])) = o_ptr o) as Hip.
  { unfold inner_ptr. cbn. by rewrite last_snoc. }
  assert (spots_ok b (k + 6) (o_ptr o) (spots_of (in_objects i ++ [o]))) as Hobjs'.
  { rewrite Hso. apply (spots_ok_app b _ (inner_ptr i)); [lia|done..]. }
  assert (end_of (k + 6) (in_objects i) = inner_ptr i) as Hend.
  { unfold end_of, inner_ptr. rewrite Hs. by destruct (last (in_objects i)). }
  split; rewrite ?Hip; cbn [in_objects in_start in_fin]; [done|done|done|done|lia| |done|].
  { apply chain_app. split; [done|]. rewrite Hend. cbn [chain]. split_and!; [done|lia|done]. }
  rewrite Hbuf, <- swap_spots_app. apply (swap_spots_perm b 0 hi); [|..|lia].
  - unfold words. rewrite Hso. solve_Permutation.
  - eapply spots_ok_perm; [|eapply (words_ok (in_objects i ++ [o]) (o_ptr o)); [done|done|lia|lia|done]].
    unfold words. rewrite Hso. solve_Permutation.
Qed.

(** Next to the message without an inner list, only bytes of the payload are
    others. *)
Lemma inner_inv_outside i i0 buf0 buf j : inner_inv i0 buf0 → in_objects i0 = [] → inner_inv i buf →
  ¬ (k + 6 ≤ j < k + 6 + n)%nat → buf !! j = buf0 !! j.
Proof.
  intros Hi0 H0 Hi Hj. pose proof (inner_inv_ok i buf Hi) as Hok.
  pose proof (ii_buff _ _ Hi0) as Hb0. rewrite H0 in Hb0.
  destruct Hi as [Hpre Hpost Hhi [Hs Hf] Hptr Hch Hobjs Hbuf].
  assert (words (in_objects i) ≡ₚ words [] ++ spots_of (in_objects i)) as Hperm.
  { unfold words, spots_of at 5. cbn [fmap list_fmap concat app]. solve_Permutation. }
  rewrite Hbuf, (swap_spots_perm b 0 hi _ _ Hperm Hok), swap_spots_app, <- Hb0 by lia.
  assert (length buf0 = length b) as Hlen.
  { rewrite Hb0. apply (swap_spots_lookup b 0 hi); [|lia]. rewrite <- H0. by apply (inner_inv_ok i0 buf0). }
  apply (swap_spots_outside buf0 (k + 6) (inner_ptr i)); [|lia|lia].
  eapply spots_ok_agree; [|exact Hobjs]. intros s Hin. apply active_agree. intros g Hg.
  pose proof (so_guards _ _ _ _ Hobjs s g Hin Hg). symmetry. apply at_lookup_eq, (inner_inv_rest i0); [done|].
  unfold inner_ptr at 1. rewrite H0. cbn [last]. rewrite (proj1 (ii_place _ _ Hi0)). lia.
Qed.
End InnerInv.

Lemma swap_objects_app l1 l2 b : swap_objects (l1 ++ l2) b = (_ <- swap_objects l1 ;; swap_objects l2) b.
Proof.
  revert b. induction l1 as [|o l1 IH]; intros b; cbn [app swap_objects]; [by rewrite fbind_run|].
  rewrite !fbind_run. destruct (class_swap (o_spots o) b) as [[[]|] b1]; cbn [fst snd]; [|done].
  rewrite IH, fbind_run. done.
Qed.

Lemma swap_with_inner_flat inner pre o suf b : Forall (λ x, o_class x ≠ "tlvVendorSpecific") pre →
  o_class o = "tlvVendorSpecific" →
  swap_with_inner inner (pre ++ o :: suf) b = swap_objects (pre ++ o :: inner ++ suf) b.
Proof.
  intros Hpre Ho. revert b. induction Hpre as [|x pre Hx _ IH]; intros b; cbn [app swap_with_inner swap_objects]; rewrite !fbind_run.
  - destruct (class_swap (o_spots o) b) as [[[]|] b1]; cbn [fst snd]; [|done].
    by rewrite decide_True, swap_objects_app by done.
  - destruct (class_swap (o_spots x) b) as [[[]|] b1]; cbn [fst snd]; [|done]. rewrite decide_False by done. apply IH.
Qed.

Lemma vs_swap_restores b pre suf k n hi i m : inner_inv b pre suf k n hi i (m_buff m) →
  m_class_vector m = pre ++ vendor_object k (3 + n) :: suf → Forall (λ x, o_class x ≠ "tlvVendorSpecific") pre →
  ∃ v, vs_swap (mkVsMessage m (Some i)) = (Some tt, v) ∧ m_buff (vm_cmdu v) = b.
Proof.
  intros Hi Hv Hpre. pose proof (inner_inv_ok _ _ _ _ _ _ _ _ Hi) as Hok. pose proof (ii_hi _ _ _ _ _ _ _ _ Hi) as Hhi.
  unfold vs_swap. cbn [vm_cmdu vm_inner]. rewrite Hv, swap_with_inner_flat by done.
  assert (spots_of (pre ++ vendor_object k (3 + n) :: in_objects i ++ suf) = words pre suf k (in_objects i)) as Hw.
  { rewrite spots_of_app. unfold spots_of at 2. cbn [fmap list_fmap concat]. fold (spots_of (in_objects i ++ suf)). by rewrite spots_of_app. }
  destruct (swap_spots_lookup b 0 hi _ Hok ltac:(lia)) as [Hlen _].
  rewrite (swap_objects_run _ _ hi); fold (spots_of (pre ++ vendor_object k (3 + n) :: in_objects i ++ suf)); rewrite ?Hw, ?(ii_buff _ _ _ _ _ _ _ _ Hi).
  - eexists. split; [done|]. cbn. apply (swap_spots_involutive b 0 hi); [done|lia].
  - apply swap_spots_ok; [done|lia].
  - lia.
Qed.

(** ** From a parsed message *)

Lemma parsed_inner b m o : parsed_prefix b m → vendor_shape m → getClass "tlvVendorSpecific" m = Some o → ∃ pre suf k n,
  o = vendor_object k (3 + n) ∧ m_class_vector m = pre ++ vendor_object k (3 + n) :: suf ∧
  Forall (λ x, o_class x ≠ "tlvVendorSpecific") pre ∧
  inner_inv b pre suf k n (next_ptr m) (mkInnerList (k + 6) (k + 6 + n) false []) (m_buff m).
Proof.
  intros Hm Hsh Hg. destruct (getClass_split _ _ _ Hg) as (pre & suf & Hv & Hc & Hpre).
  pose proof Hsh as Hsh'. unfold vendor_shape in Hsh'. rewrite Hv, Forall_app, Forall_cons in Hsh'.
  destruct Hsh' as (_ & Ho & _). destruct (Ho Hc) as [n Hn]. exists pre, suf, (o_start o), n.
  rewrite <- Hn. split; [done|]. split; [done|]. split; [done|]. destruct Hm as [Hch Hp Hs Hobj Hb].
  rewrite Hv in Hch, Hobj. apply chain_app in Hch as [Hc1 Hc2]. cbn [chain] in Hc2. destruct Hc2 as (Hst & Hle & Hc2).
  apply Forall_app in Hobj as [Ho1 [_ Ho2]%Forall_cons]. set (k := o_start o) in *.
  assert (o_ptr o = k + 6 + n)%nat as Hptr by (rewrite Hn; cbn; lia).
  assert (next_ptr m = end_of (o_ptr o) suf) as Hnp.
  { rewrite next_ptr_eq, Hv. unfold end_of. rewrite last_app, last_cons. by destruct (last suf). }
  pose proof (chain_end _ _ Hc2). rewrite Hptr in *. split; cbn [in_start in_fin in_objects inner_ptr last].
  - rewrite Hst. by apply chain_spots.
  - rewrite Hnp. by apply chain_spots.
  - lia.
  - done.
  - lia.
  - done.
  - apply spots_ok_nil.
  - rewrite Hb. f_equal. unfold all_spots. rewrite Hv. fold (spots_of (pre ++ o :: suf)). rewrite spots_of_app.
    unfold words, spots_of. cbn [fmap list_fmap concat app]. by rewrite Hn.
Qed.

(** The list that [parse_intel_vs_message] found in the vendor specific TLV of
    the parsed message [m], with objects of the given classes: one behind the
    other in the payload of the TLV, and nothing outside of it has changed. *)
Record vs_inside (m : ClassList) (names : list string) (v : VsMessage) (tlv : Object) (i : InnerList) : Prop := {
  vi_tlv : getClass "tlvVendorSpecific" m = Some tlv;
  vi_inner : vm_inner v = Some i;
  vi_names : o_class <$> in_objects i = names;
  vi_chain : chain (o_start tlv + 6) (in_objects i);
  vi_end : (inner_ptr i ≤ o_ptr tlv)%nat;
  vi_rest : ∀ j, ¬ (o_start tlv + 6 ≤ j < o_ptr tlv)%nat → m_buff (vm_cmdu v) !! j = m_buff m !! j;
}.

(** [parse_intel_vs_message] on a parsed message, and classes added to its
    list. *)
Definition vs_state (b : list Z) (m : ClassList) (names : list string) (v : VsMessage) : Prop := ∃ pre suf k n hi i,
  vm_inner v = Some i ∧ getClass "tlvVendorSpecific" m = Some (vendor_object k (3 + n)) ∧
  o_class <$> in_objects i = names ∧
  m_class_vector (vm_cmdu v) = pre ++ vendor_object k (3 + n) :: suf ∧
  Forall (λ x, o_class x ≠ "tlvVendorSpecific") pre ∧
  inner_inv b pre suf k n hi (mkInnerList (k + 6) (k + 6 + n) false []) (m_buff m) ∧
  inner_inv b pre suf k n hi i (m_buff (vm_cmdu v)).

Lemma vs_state_inside b m names v : vs_state b m names v → ∃ tlv i, vs_inside m names v tlv i.
Proof.
  intros (pre & suf & k & n & hi & i & Hin & Hg & Hn & Hv & Hpre & Hi0 & Hi).
  exists (vendor_object k (3 + n)), i. pose proof (ii_ptr _ _ _ _ _ _ _ _ Hi).
  split; [done|done|done|..]; cbn [vendor_object o_start o_ptr].
  - apply Hi.
  - lia.
  - intros j Hj. apply (inner_inv_outside _ _ _ _ _ _ _ _ _ _ _ Hi0 eq_refl Hi). lia.
Qed.

Lemma parse_intel_post b m : bytes_ok b → parsed_prefix b m → vendor_shape m →
  post (parse_intel_vs_message (mkVsMessage m None)) (λ ok v, ok = true → vs_state b m ["cACTION_HEADER"] v).
Proof.
  intros Hb Hm Hsh. unfold parse_intel_vs_message. cbn [vm_cmdu vm_inner].
  destruct (getClass _ m) as [o|] eqn:Hg; [|done].
  destruct (parsed_inner b m o Hm Hsh Hg) as (pre & suf & k & n & -> & Hv & Hpre & Hi).
  assert (length (m_buff m) = length b) as Hlen by (by apply parsed_prefix_buff).
  pose proof (ii_hi _ _ _ _ _ _ _ _ Hi) as Hhi.
  assert (∃ ok, has_intel_oui (vendor_object k (3 + n)) (m_buff m) = (Some ok, m_buff m)) as [ok ->].
  { unfold has_intel_oui, vendor_oui, member. cbn [o_fields vendor_object find_field list_find].
    change (find_field _ "vendor_oui") with (Some (k + 3)%nat). cbv beta iota.
    destruct (lookup_lt_is_Some_2 (m_buff m) (k + 3)) as [x1 H1]; [lia|].
    destruct (lookup_lt_is_Some_2 (m_buff m) (S (k + 3))) as [x2 H2]; [lia|].
    destruct (lookup_lt_is_Some_2 (m_buff m) (S (S (k + 3)))) as [x3 H3]; [lia|].
    unfold read_byte. rewrite !fbind_run. cbn [fst snd]. rewrite H1. rewrite !fbind_run. cbn [fst snd]. rewrite H2.
    rewrite !fbind_run. cbn [fst snd]. rewrite H3. by eexists. }
  destruct ok; [|done]. unfold vendor_payload, member. change (find_field _ "payload") with (Some (k + 6)%nat).
  cbn [mbind option_bind o_ptr vendor_object]. destruct (_ =? 0)%nat; [done|].
  replace (k + 3 + (3 + n))%nat with (k + 6 + n)%nat by lia.
  pose proof (inner_addClass_post b pre suf k n (next_ptr m) cACTION_HEADER _ _ Hb eq_refl eq_refl Hi) as Ha.
  destruct (inner_addClass _ _ _) as [[[[o i]|]|] b1]; cbn in Ha |- *; [|done..].
  intros _. destruct Ha as (Ha & Hobj & Hcl & _). exists pre, suf, k, n, (next_ptr m), i. split_and!; try done.
  rewrite Hobj. cbn. by rewrite Hcl.
Qed.

Lemma vs_addClass_post b m names c v : bytes_ok b → layout_ok (vs_layout c) = true → vs_state b m names v →
  post (vs_addClass c v) (λ r v', is_Some r → vs_state b m (names ++ [vs_name c]) v').
Proof.
  intros Hb HL (pre & suf & k & n & hi & i & Hin & Hg & Hn & Hv & Hpre & Hi0 & Hi). unfold vs_addClass. rewrite Hin.
  pose proof (inner_addClass_post b pre suf k n hi (vs_layout c) i _ Hb HL eq_refl Hi) as Ha.
  destruct (inner_addClass _ _ _) as [[[[o i']|]|] b1]; cbn in Ha |- *; [|by intros []|done].
  intros _. destruct Ha as (Ha & Hobj & Hcl & _). exists pre, suf, k, n, hi, i'. split_and!; try done.
  rewrite Hobj, fmap_app, Hn. cbn. by rewrite Hcl.
Qed.

(** Adding several classes: whether all of them were there. *)
Fixpoint vs_addClasses (cs : list VsClass) : faultM VsMessage bool :=
  match cs with
  | [] => fret true
  | c :: cs => o <- vs_addClass c ;; match o with None => fret false | Some _ => vs_addClasses cs end
  end.

Lemma vs_addClasses_post b m cs : bytes_ok b → Forall (λ c, layout_ok (vs_layout c) = true) cs → ∀ names v,
  vs_state b m names v → post (vs_addClasses cs v) (λ ok v', ok = true → vs_state b m (names ++ (vs_name <$> cs)) v').
Proof.
  intros Hb Hcs. induction Hcs as [|c cs Hc _ IH]; intros names v Hv; cbn [vs_addClasses].
  { cbn. by rewrite app_nil_r. }
  eapply post_bind; [by eapply (vs_addClass_post b m names c)|]. intros [o|] v'; cbn; [|done]. intros H.
  specialize (IH _ v' (H ltac:(eauto))). by rewrite <- app_assoc in IH.
Qed.

(** C22: Vendor specific messages: on any received bytes that [parse] accepts,
    [parse_intel_vs_message] and the addition of message classes end without an
    access outside of the received buffer. When they succeed, the objects, an
    action header and one for each class, lie one behind the other in the payload
    of the message's first vendor specific TLV, no byte outside of that payload
    has changed, and [swap] gives back exactly the received bytes, the inner list
    included, so that the message can be forwarded. *)
Theorem vendor_message_roundtrip b m cs : bytes_ok b → parse (received b) = (Some (Parsed true), m) →
  Forall (λ c, layout_ok (vs_layout c) = true) cs →
  ∃ ok v, parse_intel_vs_message (mkVsMessage m None) = (Some ok, v) ∧
  (ok = true → ∃ all v', vs_addClasses cs v = (Some all, v') ∧
     (all = true →
        (∃ tlv i, vs_inside m ("cACTION_HEADER" :: (vs_name <$> cs)) v' tlv i) ∧
        ∃ v'', vs_swap v' = (Some tt, v'') ∧ m_buff (vm_cmdu v'') = b)).
Proof.
  intros Hb Hp Hcs. pose proof (parse_run b Hb) as Hpost. pose proof (parse_shape b) as Hsh. rewrite Hp in Hpost, Hsh.
  destruct Hpost as (Hm & _). pose proof (parse_intel_post b m Hb Hm Hsh) as Hi.
  destruct (parse_intel_vs_message _) as [[ok|] v]; [|done]. exists ok, v. split; [done|]. intros Hok.
  pose proof (vs_addClasses_post b m cs Hb Hcs _ v (Hi Hok)) as Ha. destruct (vs_addClasses cs v) as [[all|] v']; [|done].
  exists all, v'. split; [done|]. intros Hall. specialize (Ha Hall). split; [by eapply vs_state_inside|].
  destruct Ha as (pre & suf & k & n & hi & i & Hin & _ & _ & Hv & Hpre & _ & Hinv).
  destruct v' as [m' inner]. cbn in *. subst inner. by eapply vs_swap_restores.
Qed.
