(* ===== verification/VendorClassesAgent.v ===== *)
(** * Messages inside of the agent

    The steps of [init()] of the message classes of
    [common/beerocks/tlvf/AutoGenerated/src/beerocks/tlvf], as generated:
    those of the slave with the fronthaul manager, the backhaul manager, the
    monitor and the platform manager, and the vendor TLVs on the wire.
    Each has the action and the operation code of [get_action_op()]; an inner
    class is a list of fields. *)

From S2P Require Import Prelude Tlvf VendorMessage.

#[local] Open Scope nat_scope.

Definition tlvVsClientAssociationEvent : VsClass :=
  mkVsClass ACTION_1905_VS 0xb "tlvVsClientAssociationEvent" [
    Fixed "mac" 6 []; Fixed "bssid" 6 []; Fixed "vap_id" 1 []; Fixed "capabilities" 56 [];
    Fixed "disconnect_reason" 1 []; Fixed "disconnect_source" 1 []; Fixed "disconnect_type" 1 []].

Definition tlvVsChannelScanRequestExtension : VsClass :=
  mkVsClass ACTION_1905_VS 0xb "tlvVsChannelScanRequestExtension" [
    Fixed "scan_requests_list_length" 1 [];
    Counted "scan_requests_list" (Len8 "scan_requests_list_length") 10 [(6, 4)]].

Definition tlvVsChannelScanReportDone : VsClass :=
  mkVsClass ACTION_1905_VS 0xb "tlvVsChannelScanReportDone" [
    Fixed "report_done" 1 []].

Definition tlvVsOnDemandChannelSelection : VsClass :=
  mkVsClass ACTION_1905_VS 0xb "tlvVsOnDemandChannelSelection" [
    Fixed "radio_mac" 6 []; Fixed "CSA_count" 1 []].

Definition tlvVsBssidIfaceMapping : VsClass :=
  mkVsClass ACTION_1905_VS 0xb "tlvVsBssidIfaceMapping" [
    Fixed "bssid_vap_id_map_length" 1 [];
    Counted "bssid_vap_id_map" (Len8 "bssid_vap_id_map_length") 7 []].

Definition cACTION_APMANAGER_UP_NOTIFICATION : VsClass :=
  mkVsClass ACTION_APMANAGER 0x0 "cACTION_APMANAGER_UP_NOTIFICATION" [
    Fixed "iface_name_length" 1 []; Counted "iface_name" (Len8 "iface_name_length") 1 []].

Definition cACTION_APMANAGER_CONFIGURE : VsClass :=
  mkVsClass ACTION_APMANAGER 0x1 "cACTION_APMANAGER_CONFIGURE" [
    Fixed "channel" 1 []; Fixed "certification_mode" 1 []; Fixed "multi_ap_profile" 1 []].

Definition cChannel : list Field := [
    Fixed "beacon_channel" 1 []; Fixed "tx_power_dbm" 1 []; Fixed "dfs_state" 1 [];
    Fixed "supported_bandwidths_length" 1 [];
    Counted "supported_bandwidths" (Len8 "supported_bandwidths_length") 6 [(1, 4)]].

Definition cChannelList : list Field := [
    Fixed "channels_list_length" 1 [];
    CountedClass "channels_list" (Len8 "channels_list_length") cChannel].

Definition cACTION_APMANAGER_JOINED_NOTIFICATION : VsClass :=
  mkVsClass ACTION_APMANAGER 0x2 "cACTION_APMANAGER_JOINED_NOTIFICATION" [
    Fixed "params" 216 [(67, 2); (102, 2); (104, 8)]; Fixed "cs_params" 9 [(5, 2)];
    OneClass "channel_list" cChannelList; Fixed "vap_list" 1424 []; Fixed "vap_type_list" 1120 [];
    Fixed "radio_max_bss" 1 []; Fixed "radio_rsn_override_support" 1 []].

Definition cACTION_APMANAGER_ENABLE_APS_REQUEST : VsClass :=
  mkVsClass ACTION_APMANAGER 0x3 "cACTION_APMANAGER_ENABLE_APS_REQUEST" [
    Fixed "channel" 1 []; Fixed "bandwidth" 1 []; Fixed "center_channel" 1 []].

Definition cACTION_APMANAGER_ENABLE_APS_RESPONSE : VsClass :=
  mkVsClass ACTION_APMANAGER 0x4 "cACTION_APMANAGER_ENABLE_APS_RESPONSE" [
    Fixed "success" 1 []].

Definition cACTION_APMANAGER_HOSTAP_SET_RESTRICTED_FAILSAFE_CHANNEL_REQUEST : VsClass :=
  mkVsClass ACTION_APMANAGER 0x18 "cACTION_APMANAGER_HOSTAP_SET_RESTRICTED_FAILSAFE_CHANNEL_REQUEST" [
    Fixed "params" 44 [(42, 2)]].

Definition cACTION_APMANAGER_HOSTAP_SET_RESTRICTED_FAILSAFE_CHANNEL_RESPONSE : VsClass :=
  mkVsClass ACTION_APMANAGER 0x19 "cACTION_APMANAGER_HOSTAP_SET_RESTRICTED_FAILSAFE_CHANNEL_RESPONSE" [
    Fixed "success" 1 []].

Definition cACTION_APMANAGER_HOSTAP_AP_DISABLED_NOTIFICATION : VsClass :=
  mkVsClass ACTION_APMANAGER 0x1a "cACTION_APMANAGER_HOSTAP_AP_DISABLED_NOTIFICATION" [
    Fixed "vap_id" 1 []].

Definition cACTION_APMANAGER_HOSTAP_AP_ENABLED_NOTIFICATION : VsClass :=
  mkVsClass ACTION_APMANAGER 0x1b "cACTION_APMANAGER_HOSTAP_AP_ENABLED_NOTIFICATION" [
    Fixed "vap_id" 1 []; Fixed "vap_info" 89 []].

Definition cACTION_APMANAGER_HOSTAP_VAPS_LIST_UPDATE_REQUEST : VsClass :=
  mkVsClass ACTION_APMANAGER 0x1c "cACTION_APMANAGER_HOSTAP_VAPS_LIST_UPDATE_REQUEST" [].

Definition cACTION_APMANAGER_HOSTAP_GENERATE_CLIENT_ASSOCIATION_NOTIFICATIONS_REQUEST : VsClass :=
  mkVsClass ACTION_APMANAGER 0x1e "cACTION_APMANAGER_HOSTAP_GENERATE_CLIENT_ASSOCIATION_NOTIFICATIONS_REQUEST" [].

Definition cACTION_APMANAGER_HOSTAP_VAPS_LIST_UPDATE_NOTIFICATION : VsClass :=
  mkVsClass ACTION_APMANAGER 0x1d "cACTION_APMANAGER_HOSTAP_VAPS_LIST_UPDATE_NOTIFICATION" [
    Fixed "params" 1424 []; Fixed "vap_type_list" 1120 []].

Definition cACTION_APMANAGER_HOSTAP_CHANNEL_SWITCH_ACS_START : VsClass :=
  mkVsClass ACTION_APMANAGER 0xc "cACTION_APMANAGER_HOSTAP_CHANNEL_SWITCH_ACS_START" [
    Fixed "cs_params" 9 [(5, 2)]; Fixed "sr_params" 33 [(9, 8); (17, 8); (25, 8)];
    Fixed "eo_params" 14 [(5, 4); (12, 2)]; Fixed "tx_limit" 1 []; Fixed "tx_limit_valid" 1 [];
    Fixed "spatial_reuse_valid" 1 []; Fixed "eht_operation_valid" 1 []].

Definition cExcludeList : list Field := [
    Fixed "opclass" 1 []; Fixed "exclude_channels_length" 1 [];
    Counted "exclude_channels" (Len8 "exclude_channels_length") 1 []].

Definition cACSChannelList : list Field := [
    Fixed "acs_list_length" 1 []; CountedClass "acs_list" (Len8 "acs_list_length") cExcludeList].

Definition cACTION_APMANAGER_PLATFORM_ACS : VsClass :=
  mkVsClass ACTION_APMANAGER 0xb "cACTION_APMANAGER_PLATFORM_ACS" [
    OneClass "acs_params" cACSChannelList].

Definition cACTION_APMANAGER_HOSTAP_CANCEL_ACTIVE_CAC_REQUEST : VsClass :=
  mkVsClass ACTION_APMANAGER 0x22 "cACTION_APMANAGER_HOSTAP_CANCEL_ACTIVE_CAC_REQUEST" [
    Fixed "cs_params" 9 [(5, 2)]].

Definition cACTION_APMANAGER_HOSTAP_CANCEL_ACTIVE_CAC_RESPONSE : VsClass :=
  mkVsClass ACTION_APMANAGER 0x23 "cACTION_APMANAGER_HOSTAP_CANCEL_ACTIVE_CAC_RESPONSE" [
    Fixed "success" 1 []].

Definition cACTION_APMANAGER_HOSTAP_CSA_ERROR_NOTIFICATION : VsClass :=
  mkVsClass ACTION_APMANAGER 0xd "cACTION_APMANAGER_HOSTAP_CSA_ERROR_NOTIFICATION" [
    Fixed "cs_params" 9 [(5, 2)]].

Definition cACTION_APMANAGER_HOSTAP_CSA_NOTIFICATION : VsClass :=
  mkVsClass ACTION_APMANAGER 0xe "cACTION_APMANAGER_HOSTAP_CSA_NOTIFICATION" [
    Fixed "cs_params" 9 [(5, 2)]].

Definition cACTION_APMANAGER_HOSTAP_ACS_NOTIFICATION : VsClass :=
  mkVsClass ACTION_APMANAGER 0x10 "cACTION_APMANAGER_HOSTAP_ACS_NOTIFICATION" [
    Fixed "cs_params" 9 [(5, 2)]].

Definition cACTION_APMANAGER_HOSTAP_DFS_CAC_STARTED_NOTIFICATION : VsClass :=
  mkVsClass ACTION_APMANAGER 0x13 "cACTION_APMANAGER_HOSTAP_DFS_CAC_STARTED_NOTIFICATION" [
    Fixed "params" 5 [(3, 2)]].

Definition cACTION_APMANAGER_HOSTAP_DFS_CAC_COMPLETED_NOTIFICATION : VsClass :=
  mkVsClass ACTION_APMANAGER 0x14 "cACTION_APMANAGER_HOSTAP_DFS_CAC_COMPLETED_NOTIFICATION" [
    Fixed "params" 15 [(0, 4); (4, 4); (8, 2); (10, 2)]].

Definition cACTION_APMANAGER_HOSTAP_DFS_CHANNEL_AVAILABLE_NOTIFICATION : VsClass :=
  mkVsClass ACTION_APMANAGER 0x15 "cACTION_APMANAGER_HOSTAP_DFS_CHANNEL_AVAILABLE_NOTIFICATION" [
    Fixed "params" 8 [(0, 4); (6, 2)]].

Definition cACTION_APMANAGER_HOSTAP_SET_NEIGHBOR_11K_REQUEST : VsClass :=
  mkVsClass ACTION_APMANAGER 0x11 "cACTION_APMANAGER_HOSTAP_SET_NEIGHBOR_11K_REQUEST" [
    Fixed "params" 60 [(45, 2)]].

Definition cACTION_APMANAGER_HOSTAP_REMOVE_NEIGHBOR_11K_REQUEST : VsClass :=
  mkVsClass ACTION_APMANAGER 0x12 "cACTION_APMANAGER_HOSTAP_REMOVE_NEIGHBOR_11K_REQUEST" [
    Fixed "params" 43 []].

Definition cACTION_APMANAGER_HOSTAP_ZWDFS_ANT_CHANNEL_SWITCH_REQUEST : VsClass :=
  mkVsClass ACTION_APMANAGER 0x1f "cACTION_APMANAGER_HOSTAP_ZWDFS_ANT_CHANNEL_SWITCH_REQUEST" [
    Fixed "ant_switch_on" 1 []; Fixed "channel" 1 []; Fixed "bandwidth" 1 [];
    Fixed "center_frequency" 4 [(0, 4)]; Fixed "csa_count" 1 []].

Definition cACTION_APMANAGER_HOSTAP_ZWDFS_ANT_CHANNEL_SWITCH_RESPONSE : VsClass :=
  mkVsClass ACTION_APMANAGER 0x20 "cACTION_APMANAGER_HOSTAP_ZWDFS_ANT_CHANNEL_SWITCH_RESPONSE" [
    Fixed "success" 1 []].

Definition cACTION_APMANAGER_HOSTAP_SET_PRIMARY_VLAN_ID_REQUEST : VsClass :=
  mkVsClass ACTION_APMANAGER 0x21 "cACTION_APMANAGER_HOSTAP_SET_PRIMARY_VLAN_ID_REQUEST" [
    Fixed "primary_vlan_id" 2 [(0, 2)]].

Definition cACTION_APMANAGER_HOSTAP_SERVICE_PRIO_CONFIG : VsClass :=
  mkVsClass ACTION_APMANAGER 0x24 "cACTION_APMANAGER_HOSTAP_SERVICE_PRIO_CONFIG" [
    Fixed "cs_params" 65 []].

Definition cACTION_APMANAGER_HOSTAP_SPATIAL_REUSE_REPORT_NOTIFICATION : VsClass :=
  mkVsClass ACTION_APMANAGER 0x25 "cACTION_APMANAGER_HOSTAP_SPATIAL_REUSE_REPORT_NOTIFICATION" [
    Fixed "sr_params" 33 [(9, 8); (17, 8); (25, 8)]].

Definition cAffiliatedSta : list Field := [
    Fixed "bssid" 6 []; Fixed "mac" 6 []; Array "reserved" 19 1 []].

Definition cACTION_APMANAGER_CLIENT_ASSOCIATED_NOTIFICATION : VsClass :=
  mkVsClass ACTION_APMANAGER 0x28 "cACTION_APMANAGER_CLIENT_ASSOCIATED_NOTIFICATION" [
    Fixed "mac" 6 []; Fixed "bssid" 6 []; Fixed "capabilities" 56 []; Fixed "vap_id" 1 [];
    Fixed "multi_ap_profile" 1 []; Fixed "is_mlo" 1 []; Fixed "mlo_modes" 1 [];
    Fixed "num_affiliated_sta" 1 [];
    CountedClass "affiliated_sta" (Len8 "num_affiliated_sta") cAffiliatedSta;
    Tail "association_frame" 1 []].

Definition cACTION_APMANAGER_CLIENT_DISCONNECTED_NOTIFICATION : VsClass :=
  mkVsClass ACTION_APMANAGER 0x29 "cACTION_APMANAGER_CLIENT_DISCONNECTED_NOTIFICATION" [
    Fixed "params" 16 []].

Definition cACTION_APMANAGER_CLIENT_DISCONNECT_REQUEST : VsClass :=
  mkVsClass ACTION_APMANAGER 0x2a "cACTION_APMANAGER_CLIENT_DISCONNECT_REQUEST" [
    Fixed "mac" 6 []; Fixed "vap_id" 1 []; Fixed "type" 1 []; Fixed "reason" 4 [(0, 4)];
    Fixed "src" 1 []].

Definition cACTION_APMANAGER_CLIENT_DISCONNECT_RESPONSE : VsClass :=
  mkVsClass ACTION_APMANAGER 0x2b "cACTION_APMANAGER_CLIENT_DISCONNECT_RESPONSE" [
    Fixed "params" 5 [(0, 4)]].

Definition cACTION_APMANAGER_CLIENT_DISALLOW_REQUEST : VsClass :=
  mkVsClass ACTION_APMANAGER 0x2c "cACTION_APMANAGER_CLIENT_DISALLOW_REQUEST" [
    Fixed "sta_list_size" 1 []; Counted "sta" (Len8 "sta_list_size") 7 []; Fixed "bssid" 6 [];
    Fixed "validity_period_sec" 2 [(0, 2)]].

Definition cACTION_APMANAGER_CLIENT_ALLOW_REQUEST : VsClass :=
  mkVsClass ACTION_APMANAGER 0x2d "cACTION_APMANAGER_CLIENT_ALLOW_REQUEST" [
    Fixed "mac_list_size" 1 []; Counted "mac" (Len8 "mac_list_size") 6 []; Fixed "bssid" 6 []].

Definition cACTION_APMANAGER_CLIENT_RX_RSSI_MEASUREMENT_REQUEST : VsClass :=
  mkVsClass ACTION_APMANAGER 0x2e "cACTION_APMANAGER_CLIENT_RX_RSSI_MEASUREMENT_REQUEST" [
    Fixed "params" 17 [(14, 2)]].

Definition cACTION_APMANAGER_CLIENT_RX_RSSI_MEASUREMENT_RESPONSE : VsClass :=
  mkVsClass ACTION_APMANAGER 0x2f "cACTION_APMANAGER_CLIENT_RX_RSSI_MEASUREMENT_RESPONSE" [
    Fixed "params" 17 [(8, 2); (10, 2)]].

Definition cACTION_APMANAGER_ACK : VsClass :=
  mkVsClass ACTION_APMANAGER 0x5 "cACTION_APMANAGER_ACK" [
    Fixed "reason" 1 []; Fixed "sta_mac" 6 []].

Definition cACTION_APMANAGER_CLIENT_BSS_STEER_REQUEST : VsClass :=
  mkVsClass ACTION_APMANAGER 0x30 "cACTION_APMANAGER_CLIENT_BSS_STEER_REQUEST" [
    Fixed "params" 26 [(12, 2); (24, 2)]].

Definition cACTION_APMANAGER_CLIENT_BSS_STEER_RESPONSE : VsClass :=
  mkVsClass ACTION_APMANAGER 0x31 "cACTION_APMANAGER_CLIENT_BSS_STEER_RESPONSE" [
    Fixed "params" 19 []].

Definition cACTION_APMANAGER_CLIENT_RX_RSSI_MEASUREMENT_CMD_RESPONSE : VsClass :=
  mkVsClass ACTION_APMANAGER 0x32 "cACTION_APMANAGER_CLIENT_RX_RSSI_MEASUREMENT_CMD_RESPONSE" [
    Fixed "mac" 6 []].

Definition cACTION_APMANAGER_STEERING_CLIENT_SET_REQUEST : VsClass :=
  mkVsClass ACTION_APMANAGER 0x33 "cACTION_APMANAGER_STEERING_CLIENT_SET_REQUEST" [
    Fixed "params" 49 [(0, 4); (16, 4); (20, 4); (24, 4); (28, 4); (32, 4); (36, 4); (40, 4);
      (44, 4)]].

Definition cACTION_APMANAGER_STEERING_CLIENT_SET_RESPONSE : VsClass :=
  mkVsClass ACTION_APMANAGER 0x34 "cACTION_APMANAGER_STEERING_CLIENT_SET_RESPONSE" [
    Fixed "params" 4 [(0, 4)]].

Definition cACTION_APMANAGER_STEERING_EVENT_PROBE_REQ_NOTIFICATION : VsClass :=
  mkVsClass ACTION_APMANAGER 0x35 "cACTION_APMANAGER_STEERING_EVENT_PROBE_REQ_NOTIFICATION" [
    Fixed "params" 15 []].

Definition cACTION_APMANAGER_STEERING_EVENT_AUTH_FAIL_NOTIFICATION : VsClass :=
  mkVsClass ACTION_APMANAGER 0x36 "cACTION_APMANAGER_STEERING_EVENT_AUTH_FAIL_NOTIFICATION" [
    Fixed "params" 16 []].

Definition cEncryptedSettingsPayload : list Field := [
    Fixed "ssid_type" 2 [(0, 2)]; Fixed "ssid_length" 2 [(0, 2)];
    Counted "ssid" (Len16 "ssid_length") 1 [];
    Fixed "authentication_type_attr" 6 [(0, 2); (2, 2); (4, 2)];
    Fixed "encryption_type_attr" 6 [(0, 2); (2, 2); (4, 2)]; Fixed "network_key_type" 2 [(0, 2)];
    Fixed "network_key_length" 2 [(0, 2)]; Counted "network_key" (Len16 "network_key_length") 1 [];
    Fixed "bssid_attr" 10 [(0, 2); (2, 2)]; Fixed "bss_type" 1 []; Fixed "mld_id" 1 [];
    Fixed "hidden_ssid" 1 []; Fixed "bss_index" 1 []; Fixed "additional_auth" 1 [];
    Fixed "vap_type" 1 []; Fixed "vap_label_length" 2 [(0, 2)];
    Counted "vap_label" (Len16 "vap_label_length") 1 []].

Definition cACTION_APMANAGER_WIFI_CREDENTIALS_UPDATE_REQUEST : VsClass :=
  mkVsClass ACTION_APMANAGER 0x37 "cACTION_APMANAGER_WIFI_CREDENTIALS_UPDATE_REQUEST" [
    Fixed "bridge_ifname_length" 1 []; Counted "bridge_ifname" (Len8 "bridge_ifname_length") 1 [];
    Fixed "wifi_credentials_size" 1 [];
    CountedClass "wifi_credentials" (Len8 "wifi_credentials_size") cEncryptedSettingsPayload].

Definition cACTION_APMANAGER_WIFI_CREDENTIALS_UPDATE_RESPONSE : VsClass :=
  mkVsClass ACTION_APMANAGER 0x38 "cACTION_APMANAGER_WIFI_CREDENTIALS_UPDATE_RESPONSE" [
    Fixed "number_of_bss_available" 1 []].

Definition cACTION_APMANAGER_START_WPS_PBC_REQUEST : VsClass :=
  mkVsClass ACTION_APMANAGER 0x39 "cACTION_APMANAGER_START_WPS_PBC_REQUEST" [].

Definition cACTION_APMANAGER_SET_ASSOC_DISALLOW_REQUEST : VsClass :=
  mkVsClass ACTION_APMANAGER 0x3b "cACTION_APMANAGER_SET_ASSOC_DISALLOW_REQUEST" [
    Fixed "enable" 1 []; Fixed "bssid" 6 []].

Definition cACTION_APMANAGER_RADIO_DISABLE_REQUEST : VsClass :=
  mkVsClass ACTION_APMANAGER 0x3a "cACTION_APMANAGER_RADIO_DISABLE_REQUEST" [].

Definition cACTION_APMANAGER_RADIO_ENABLE_REQUEST : VsClass :=
  mkVsClass ACTION_APMANAGER 0x3c "cACTION_APMANAGER_RADIO_ENABLE_REQUEST" [].

Definition cACTION_APMANAGER_RADIO_MODE_CONFIG_REQUEST : VsClass :=
  mkVsClass ACTION_APMANAGER 0x3d "cACTION_APMANAGER_RADIO_MODE_CONFIG_REQUEST" [
    Fixed "operating_standards" 1 []].

Definition cACTION_APMANAGER_HEARTBEAT_NOTIFICATION : VsClass :=
  mkVsClass ACTION_APMANAGER 0x46 "cACTION_APMANAGER_HEARTBEAT_NOTIFICATION" [].

Definition cACTION_APMANAGER_CHANNELS_LIST_REQUEST : VsClass :=
  mkVsClass ACTION_APMANAGER 0x47 "cACTION_APMANAGER_CHANNELS_LIST_REQUEST" [].

Definition cACTION_APMANAGER_CHANNELS_LIST_RESPONSE : VsClass :=
  mkVsClass ACTION_APMANAGER 0x48 "cACTION_APMANAGER_CHANNELS_LIST_RESPONSE" [
    OneClass "channel_list" cChannelList].

Definition cACTION_APMANAGER_SET_MAP_CONTROLLER_PROFILE : VsClass :=
  mkVsClass ACTION_APMANAGER 0x49 "cACTION_APMANAGER_SET_MAP_CONTROLLER_PROFILE" [
    Fixed "profile" 1 []].

Definition cACTION_APMANAGER_STATE_NOTIFICATION : VsClass :=
  mkVsClass ACTION_APMANAGER 0x4b "cACTION_APMANAGER_STATE_NOTIFICATION" [
    Array "curstate" 32 1 []; Array "maxstate" 32 1 []].

Definition cACTION_APMANAGER_MULTI_CHAN_BEACON_11K_REQUEST : VsClass :=
  mkVsClass ACTION_APMANAGER 0x4c "cACTION_APMANAGER_MULTI_CHAN_BEACON_11K_REQUEST" [
    Fixed "sta_mac" 6 []; Fixed "timeout" 2 [(0, 2)]].

Definition cACTION_APMANAGER_MLD_UPDATE_REQUEST : VsClass :=
  mkVsClass ACTION_APMANAGER 0x4d "cACTION_APMANAGER_MLD_UPDATE_REQUEST" [
    Array "ssid" 32 1 []; Fixed "mld_unit" 1 []; Fixed "mld_mode" 1 []].

Definition cACTION_BACKHAUL_REGISTER_REQUEST : VsClass :=
  mkVsClass ACTION_BACKHAUL 0x0 "cACTION_BACKHAUL_REGISTER_REQUEST" [].

Definition cACTION_BACKHAUL_REGISTER_RESPONSE : VsClass :=
  mkVsClass ACTION_BACKHAUL 0x1 "cACTION_BACKHAUL_REGISTER_RESPONSE" [].

Definition cACTION_BACKHAUL_ENABLE : VsClass :=
  mkVsClass ACTION_BACKHAUL 0x2 "cACTION_BACKHAUL_ENABLE" [].

Definition cACTION_BACKHAUL_CONNECTED_NOTIFICATION : VsClass :=
  mkVsClass ACTION_BACKHAUL 0x3 "cACTION_BACKHAUL_CONNECTED_NOTIFICATION" [].

Definition cACTION_BACKHAUL_DISCONNECTED_NOTIFICATION : VsClass :=
  mkVsClass ACTION_BACKHAUL 0x4 "cACTION_BACKHAUL_DISCONNECTED_NOTIFICATION" [
    Fixed "stopped" 1 []].

Definition cACTION_BACKHAUL_ENABLE_APS_REQUEST : VsClass :=
  mkVsClass ACTION_BACKHAUL 0xc "cACTION_BACKHAUL_ENABLE_APS_REQUEST" [
    Array "iface" 36 1 []; Fixed "channel" 1 []; Fixed "bandwidth" 1 []; Fixed "center_channel" 1 []].

Definition cACTION_BACKHAUL_UPDATE_STOP_ON_FAILURE_ATTEMPTS_REQUEST : VsClass :=
  mkVsClass ACTION_BACKHAUL 0x9 "cACTION_BACKHAUL_UPDATE_STOP_ON_FAILURE_ATTEMPTS_REQUEST" [
    Fixed "attempts" 4 [(0, 4)]].

Definition cACTION_BACKHAUL_AP_DISABLED_NOTIFICATION : VsClass :=
  mkVsClass ACTION_BACKHAUL 0xa "cACTION_BACKHAUL_AP_DISABLED_NOTIFICATION" [
    Array "iface" 36 1 []].

Definition cACTION_BACKHAUL_CLIENT_RX_RSSI_MEASUREMENT_REQUEST : VsClass :=
  mkVsClass ACTION_BACKHAUL 0x1e "cACTION_BACKHAUL_CLIENT_RX_RSSI_MEASUREMENT_REQUEST" [
    Fixed "params" 17 [(14, 2)]].

Definition cACTION_BACKHAUL_CLIENT_RX_RSSI_MEASUREMENT_RESPONSE : VsClass :=
  mkVsClass ACTION_BACKHAUL 0x1f "cACTION_BACKHAUL_CLIENT_RX_RSSI_MEASUREMENT_RESPONSE" [
    Fixed "params" 17 [(8, 2); (10, 2)]].

Definition cACTION_BACKHAUL_CLIENT_RX_RSSI_MEASUREMENT_CMD_RESPONSE : VsClass :=
  mkVsClass ACTION_BACKHAUL 0x20 "cACTION_BACKHAUL_CLIENT_RX_RSSI_MEASUREMENT_CMD_RESPONSE" [
    Fixed "mac" 6 []].

Definition cACTION_BACKHAUL_START_WPS_PBC_REQUEST : VsClass :=
  mkVsClass ACTION_BACKHAUL 0x11 "cACTION_BACKHAUL_START_WPS_PBC_REQUEST" [
    Array "iface" 36 1 []].

Definition cACTION_BACKHAUL_SET_ASSOC_DISALLOW_REQUEST : VsClass :=
  mkVsClass ACTION_BACKHAUL 0x14 "cACTION_BACKHAUL_SET_ASSOC_DISALLOW_REQUEST" [
    Fixed "enable" 1 []; Fixed "bssid" 6 []].

Definition cACTION_BACKHAUL_APPLY_VLAN_POLICY_REQUEST : VsClass :=
  mkVsClass ACTION_BACKHAUL 0x16 "cACTION_BACKHAUL_APPLY_VLAN_POLICY_REQUEST" [].

Definition cACTION_BACKHAUL_ZWDFS_RADIO_DETECTED : VsClass :=
  mkVsClass ACTION_BACKHAUL 0x12 "cACTION_BACKHAUL_ZWDFS_RADIO_DETECTED" [
    Array "front_iface_name" 36 1 []].

Definition cACTION_BACKHAUL_CHANNELS_LIST_REQUEST : VsClass :=
  mkVsClass ACTION_BACKHAUL 0x32 "cACTION_BACKHAUL_CHANNELS_LIST_REQUEST" [].

Definition cACTION_BACKHAUL_CHANNELS_LIST_RESPONSE : VsClass :=
  mkVsClass ACTION_BACKHAUL 0x33 "cACTION_BACKHAUL_CHANNELS_LIST_RESPONSE" [].

Definition cACTION_BACKHAUL_HOSTAP_CHANNEL_SWITCH_ACS_START : VsClass :=
  mkVsClass ACTION_BACKHAUL 0x3c "cACTION_BACKHAUL_HOSTAP_CHANNEL_SWITCH_ACS_START" [
    Fixed "cs_params" 9 [(5, 2)]; Fixed "tx_limit" 1 []; Fixed "tx_limit_valid" 1 [];
    Fixed "sr_params" 33 [(9, 8); (17, 8); (25, 8)]; Fixed "spatial_reuse_valid" 1 [];
    Fixed "eo_params" 14 [(5, 4); (12, 2)]; Fixed "eht_operation_valid" 1 []].

Definition cACTION_BACKHAUL_PLATFORM_ACS : VsClass :=
  mkVsClass ACTION_BACKHAUL 0x34 "cACTION_BACKHAUL_PLATFORM_ACS" [
    OneClass "acs_params" cACSChannelList].

Definition cACTION_BACKHAUL_HOSTAP_CANCEL_ACTIVE_CAC_REQUEST : VsClass :=
  mkVsClass ACTION_BACKHAUL 0x43 "cACTION_BACKHAUL_HOSTAP_CANCEL_ACTIVE_CAC_REQUEST" [
    Fixed "cs_params" 9 [(5, 2)]].

Definition cACTION_BACKHAUL_HOSTAP_CANCEL_ACTIVE_CAC_RESPONSE : VsClass :=
  mkVsClass ACTION_BACKHAUL 0x44 "cACTION_BACKHAUL_HOSTAP_CANCEL_ACTIVE_CAC_RESPONSE" [
    Fixed "success" 1 []].

Definition cACTION_BACKHAUL_HOSTAP_CSA_NOTIFICATION : VsClass :=
  mkVsClass ACTION_BACKHAUL 0x3d "cACTION_BACKHAUL_HOSTAP_CSA_NOTIFICATION" [
    Fixed "cs_params" 9 [(5, 2)]].

Definition cACTION_BACKHAUL_HOSTAP_CSA_ERROR_NOTIFICATION : VsClass :=
  mkVsClass ACTION_BACKHAUL 0x3e "cACTION_BACKHAUL_HOSTAP_CSA_ERROR_NOTIFICATION" [
    Fixed "cs_params" 9 [(5, 2)]].

Definition cACTION_BACKHAUL_HOSTAP_DFS_CAC_STARTED_NOTIFICATION : VsClass :=
  mkVsClass ACTION_BACKHAUL 0x3f "cACTION_BACKHAUL_HOSTAP_DFS_CAC_STARTED_NOTIFICATION" [
    Fixed "params" 5 [(3, 2)]].

Definition cACTION_BACKHAUL_HOSTAP_DFS_CAC_COMPLETED_NOTIFICATION : VsClass :=
  mkVsClass ACTION_BACKHAUL 0x40 "cACTION_BACKHAUL_HOSTAP_DFS_CAC_COMPLETED_NOTIFICATION" [
    Fixed "params" 15 [(0, 4); (4, 4); (8, 2); (10, 2)]].

Definition cACTION_BACKHAUL_HOSTAP_ZWDFS_ANT_CHANNEL_SWITCH_REQUEST : VsClass :=
  mkVsClass ACTION_BACKHAUL 0x41 "cACTION_BACKHAUL_HOSTAP_ZWDFS_ANT_CHANNEL_SWITCH_REQUEST" [
    Fixed "ant_switch_on" 1 []; Fixed "channel" 1 []; Fixed "bandwidth" 1 [];
    Fixed "center_frequency" 4 [(0, 4)]; Fixed "csa_count" 1 []].

Definition cACTION_BACKHAUL_HOSTAP_ZWDFS_ANT_CHANNEL_SWITCH_RESPONSE : VsClass :=
  mkVsClass ACTION_BACKHAUL 0x42 "cACTION_BACKHAUL_HOSTAP_ZWDFS_ANT_CHANNEL_SWITCH_RESPONSE" [
    Fixed "success" 1 []].

Definition cACTION_BACKHAUL_RADIO_DISABLE_REQUEST : VsClass :=
  mkVsClass ACTION_BACKHAUL 0x13 "cACTION_BACKHAUL_RADIO_DISABLE_REQUEST" [
    Array "iface" 36 1 []].

Definition cACTION_BACKHAUL_RADIO_TEAR_DOWN_REQUEST : VsClass :=
  mkVsClass ACTION_BACKHAUL 0x15 "cACTION_BACKHAUL_RADIO_TEAR_DOWN_REQUEST" [].

Definition cACTION_BACKHAUL_DISCONNECT_COMMAND : VsClass :=
  mkVsClass ACTION_BACKHAUL 0x50 "cACTION_BACKHAUL_DISCONNECT_COMMAND" [].

Definition cACTION_BACKHAUL_RECONNECT_COMMAND : VsClass :=
  mkVsClass ACTION_BACKHAUL 0x51 "cACTION_BACKHAUL_RECONNECT_COMMAND" [].

Definition cACTION_BACKHAUL_HOSTAP_SPATIAL_REUSE_REPORT_NOTIFICATION : VsClass :=
  mkVsClass ACTION_BACKHAUL 0x45 "cACTION_BACKHAUL_HOSTAP_SPATIAL_REUSE_REPORT_NOTIFICATION" [
    Fixed "sr_params" 33 [(9, 8); (17, 8); (25, 8)]].

Definition cACTION_BACKHAUL_WIFI_CREDENTIALS_UPDATE_REQUEST : VsClass :=
  mkVsClass ACTION_BACKHAUL 0x53 "cACTION_BACKHAUL_WIFI_CREDENTIALS_UPDATE_REQUEST" [
    Fixed "radio_mac" 6 []; OneClass "wifi_credentials" cEncryptedSettingsPayload].

Definition cACTION_BACKHAUL_WIFI_ENABLE_DISABLE_ENDPOINT : VsClass :=
  mkVsClass ACTION_BACKHAUL 0x54 "cACTION_BACKHAUL_WIFI_ENABLE_DISABLE_ENDPOINT" [
    Fixed "radio_mac" 6 []; Fixed "enable" 1 []].

Definition cACTION_BACKHAUL_MLD_UPDATE_REQUEST : VsClass :=
  mkVsClass ACTION_BACKHAUL 0x55 "cACTION_BACKHAUL_MLD_UPDATE_REQUEST" [
    Fixed "radio_mac" 6 []; Fixed "mld_unit" 1 []; Fixed "mld_mode" 1 []].

Definition cACTION_BACKHAUL_TRIGGER_ON_BOOT_SCAN : VsClass :=
  mkVsClass ACTION_BACKHAUL 0x52 "cACTION_BACKHAUL_TRIGGER_ON_BOOT_SCAN" [
    Fixed "radio_mac" 6 []].

Definition cACTION_BACKHAUL_CHANNEL_SCAN_TRIGGER_SCAN_REQUEST : VsClass :=
  mkVsClass ACTION_BACKHAUL 0x46 "cACTION_BACKHAUL_CHANNEL_SCAN_TRIGGER_SCAN_REQUEST" [
    Fixed "cert_mode" 1 []; Fixed "scan_params" 139 [(6, 4)]].

Definition cACTION_BACKHAUL_CHANNEL_SCAN_TRIGGER_SCAN_RESPONSE : VsClass :=
  mkVsClass ACTION_BACKHAUL 0x47 "cACTION_BACKHAUL_CHANNEL_SCAN_TRIGGER_SCAN_RESPONSE" [
    Fixed "success" 1 []].

Definition cACTION_BACKHAUL_CHANNEL_SCAN_DUMP_RESULTS_REQUEST : VsClass :=
  mkVsClass ACTION_BACKHAUL 0x48 "cACTION_BACKHAUL_CHANNEL_SCAN_DUMP_RESULTS_REQUEST" [].

Definition cACTION_BACKHAUL_CHANNEL_SCAN_DUMP_RESULTS_RESPONSE : VsClass :=
  mkVsClass ACTION_BACKHAUL 0x49 "cACTION_BACKHAUL_CHANNEL_SCAN_DUMP_RESULTS_RESPONSE" [
    Fixed "success" 1 []].

Definition cACTION_BACKHAUL_CHANNEL_SCAN_TRIGGERED_NOTIFICATION : VsClass :=
  mkVsClass ACTION_BACKHAUL 0x4a "cACTION_BACKHAUL_CHANNEL_SCAN_TRIGGERED_NOTIFICATION" [
    Fixed "radio_mac" 6 []].

Definition cACTION_BACKHAUL_CHANNEL_SCAN_RESULTS_NOTIFICATION : VsClass :=
  mkVsClass ACTION_BACKHAUL 0x4b "cACTION_BACKHAUL_CHANNEL_SCAN_RESULTS_NOTIFICATION" [
    Fixed "scan_results" 169 [(43, 4); (47, 4); (51, 4); (82, 4); (86, 4); (90, 4); (94, 4);

    (98, 4); (102, 4); (106, 4); (110, 4); (114, 4); (118, 4); (122, 4); (126, 4); (130, 4);
      (134, 4); (138, 4); (142, 4); (146, 4); (150, 4); (154, 4); (158, 4); (162, 2); (164, 4)];
    Fixed "radio_mac" 6 []; Fixed "is_dump" 1 []].

Definition cACTION_BACKHAUL_CHANNEL_SCAN_ABORT_REQUEST : VsClass :=
  mkVsClass ACTION_BACKHAUL 0x4c "cACTION_BACKHAUL_CHANNEL_SCAN_ABORT_REQUEST" [].

Definition cACTION_BACKHAUL_CHANNEL_SCAN_ABORT_RESPONSE : VsClass :=
  mkVsClass ACTION_BACKHAUL 0x4d "cACTION_BACKHAUL_CHANNEL_SCAN_ABORT_RESPONSE" [
    Fixed "success" 1 []].

Definition cACTION_BACKHAUL_CHANNEL_SCAN_ABORTED_NOTIFICATION : VsClass :=
  mkVsClass ACTION_BACKHAUL 0x4e "cACTION_BACKHAUL_CHANNEL_SCAN_ABORTED_NOTIFICATION" [
    Fixed "reason" 1 []; Fixed "radio_mac" 6 []].

Definition cACTION_BACKHAUL_CHANNEL_SCAN_FINISHED_NOTIFICATION : VsClass :=
  mkVsClass ACTION_BACKHAUL 0x4f "cACTION_BACKHAUL_CHANNEL_SCAN_FINISHED_NOTIFICATION" [
    Fixed "radio_mac" 6 []].

Definition cACTION_MONITOR_HOSTAP_AP_DISABLED_NOTIFICATION : VsClass :=
  mkVsClass ACTION_MONITOR 0x4 "cACTION_MONITOR_HOSTAP_AP_DISABLED_NOTIFICATION" [
    Fixed "vap_id" 1 []].

Definition cACTION_MONITOR_JOINED_NOTIFICATION : VsClass :=
  mkVsClass ACTION_MONITOR 0x0 "cACTION_MONITOR_JOINED_NOTIFICATION" [
    Fixed "iface_name_length" 1 []; Counted "iface_name" (Len8 "iface_name_length") 1 []].

Definition cACTION_MONITOR_SON_CONFIG_UPDATE : VsClass :=
  mkVsClass ACTION_MONITOR 0x1 "cACTION_MONITOR_SON_CONFIG_UPDATE" [
    Fixed "config" 20 [(8, 4); (12, 4); (16, 2)]].

Definition cACTION_MONITOR_BYTE_COUNTER_UNITS_UPDATE_NOTIFICATION : VsClass :=
  mkVsClass ACTION_MONITOR 0x5 "cACTION_MONITOR_BYTE_COUNTER_UNITS_UPDATE_NOTIFICATION" [
    Fixed "byte_counter_units" 1 []].

Definition cACTION_MONITOR_CHANGE_MODULE_LOGGING_LEVEL : VsClass :=
  mkVsClass ACTION_MONITOR 0x2 "cACTION_MONITOR_CHANGE_MODULE_LOGGING_LEVEL" [
    Fixed "params" 9 []].

Definition cACTION_MONITOR_HEARTBEAT_NOTIFICATION : VsClass :=
  mkVsClass ACTION_MONITOR 0x3 "cACTION_MONITOR_HEARTBEAT_NOTIFICATION" [].

Definition cACTION_MONITOR_CLIENT_START_MONITORING_REQUEST : VsClass :=
  mkVsClass ACTION_MONITOR 0x14 "cACTION_MONITOR_CLIENT_START_MONITORING_REQUEST" [
    Fixed "params" 17 []].

Definition cACTION_MONITOR_CLIENT_START_MONITORING_RESPONSE : VsClass :=
  mkVsClass ACTION_MONITOR 0x15 "cACTION_MONITOR_CLIENT_START_MONITORING_RESPONSE" [
    Fixed "success" 1 []].

Definition cACTION_MONITOR_CLIENT_RX_RSSI_MEASUREMENT_REQUEST : VsClass :=
  mkVsClass ACTION_MONITOR 0x17 "cACTION_MONITOR_CLIENT_RX_RSSI_MEASUREMENT_REQUEST" [
    Fixed "params" 17 [(14, 2)]].

Definition cACTION_MONITOR_CLIENT_RX_RSSI_MEASUREMENT_NOTIFICATION : VsClass :=
  mkVsClass ACTION_MONITOR 0x19 "cACTION_MONITOR_CLIENT_RX_RSSI_MEASUREMENT_NOTIFICATION" [
    Fixed "params" 17 [(8, 2); (10, 2)]].

Definition cACTION_MONITOR_CLIENT_RX_RSSI_MEASUREMENT_RESPONSE : VsClass :=
  mkVsClass ACTION_MONITOR 0x1a "cACTION_MONITOR_CLIENT_RX_RSSI_MEASUREMENT_RESPONSE" [
    Fixed "params" 17 [(8, 2); (10, 2)]].

Definition cACTION_MONITOR_CLIENT_NO_RESPONSE_NOTIFICATION : VsClass :=
  mkVsClass ACTION_MONITOR 0x1b "cACTION_MONITOR_CLIENT_NO_RESPONSE_NOTIFICATION" [
    Fixed "mac" 6 []].

Definition cACTION_MONITOR_CLIENT_RX_RSSI_MEASUREMENT_START_NOTIFICATION : VsClass :=
  mkVsClass ACTION_MONITOR 0x1c "cACTION_MONITOR_CLIENT_RX_RSSI_MEASUREMENT_START_NOTIFICATION" [
    Fixed "mac" 6 []].

Definition cACTION_MONITOR_CLIENT_RX_RSSI_MEASUREMENT_CMD_RESPONSE : VsClass :=
  mkVsClass ACTION_MONITOR 0x25 "cACTION_MONITOR_CLIENT_RX_RSSI_MEASUREMENT_CMD_RESPONSE" [
    Fixed "mac" 6 []].

Definition cACTION_MONITOR_CLIENT_NO_ACTIVITY_NOTIFICATION : VsClass :=
  mkVsClass ACTION_MONITOR 0x26 "cACTION_MONITOR_CLIENT_NO_ACTIVITY_NOTIFICATION" [
    Fixed "mac" 6 []].

Definition cACTION_MONITOR_HOSTAP_ACTIVITY_NOTIFICATION : VsClass :=
  mkVsClass ACTION_MONITOR 0x35 "cACTION_MONITOR_HOSTAP_ACTIVITY_NOTIFICATION" [
    Fixed "params" 1 []].

Definition cACTION_MONITOR_CLIENT_ASSOCIATED_STA_LINK_METRIC_REQUEST : VsClass :=
  mkVsClass ACTION_MONITOR 0x28 "cACTION_MONITOR_CLIENT_ASSOCIATED_STA_LINK_METRIC_REQUEST" [
    Fixed "sta_mac" 6 []].

Definition cACTION_MONITOR_CLIENT_ASSOCIATED_STA_LINK_METRIC_RESPONSE : VsClass :=
  mkVsClass ACTION_MONITOR 0x29 "cACTION_MONITOR_CLIENT_ASSOCIATED_STA_LINK_METRIC_RESPONSE" [
    Fixed "length" 2 [(0, 2)]; Fixed "sta_mac" 6 []; Fixed "bssid_info_list_length" 1 [];
    Counted "bssid_info_list" (Len8 "bssid_info_list_length") 19 [(6, 4); (10, 4); (14, 4)]].

Definition cACTION_MONITOR_CLIENT_UNASSOCIATED_STA_LINK_METRIC_REQUEST : VsClass :=
  mkVsClass ACTION_MONITOR 0x2a "cACTION_MONITOR_CLIENT_UNASSOCIATED_STA_LINK_METRIC_REQUEST" [
    Fixed "length" 2 [(0, 2)]; Fixed "stations_list_length" 1 [];
    Counted "stations_list" (Len8 "stations_list_length") 8 []].

Definition cACTION_MONITOR_CLIENT_UNASSOCIATED_STA_LINK_METRIC_RESPONSE : VsClass :=
  mkVsClass ACTION_MONITOR 0x2b "cACTION_MONITOR_CLIENT_UNASSOCIATED_STA_LINK_METRIC_RESPONSE" [
    Fixed "length" 2 [(0, 2)]; Fixed "stations_list_length" 1 [];
    Counted "stations_list" (Len8 "stations_list_length") 20 [(6, 4); (12, 8)]].

Definition cACTION_MONITOR_HOSTAP_STATS_MEASUREMENT_REQUEST : VsClass :=
  mkVsClass ACTION_MONITOR 0x32 "cACTION_MONITOR_HOSTAP_STATS_MEASUREMENT_REQUEST" [
    Fixed "sync" 1 []].

Definition cACTION_MONITOR_HOSTAP_STATS_MEASUREMENT_RESPONSE : VsClass :=
  mkVsClass ACTION_MONITOR 0x33 "cACTION_MONITOR_HOSTAP_STATS_MEASUREMENT_RESPONSE" [
    Fixed "ap_stats_size" 1 [];
    Counted "ap_stats" (Len8 "ap_stats_size") 36 [(0, 4); (4, 4); (8, 4); (12, 4); (16, 4);
      (20, 4); (24, 4); (34, 2)]; Fixed "sta_stats_size" 1 [];
    Counted "sta_stats" (Len8 "sta_stats_size") 36 [(6, 4); (10, 4); (14, 4); (18, 4); (22, 4);
      (26, 2); (28, 2); (32, 2)]].

Definition cACTION_MONITOR_HOSTAP_LOAD_MEASUREMENT_NOTIFICATION : VsClass :=
  mkVsClass ACTION_MONITOR 0x34 "cACTION_MONITOR_HOSTAP_LOAD_MEASUREMENT_NOTIFICATION" [
    Fixed "params" 7 [(0, 2)]].

Definition cACTION_MONITOR_CLIENT_BEACON_11K_REQUEST : VsClass :=
  mkVsClass ACTION_MONITOR 0x1d "cACTION_MONITOR_CLIENT_BEACON_11K_REQUEST" [
    Fixed "params" 331 [(2, 2); (4, 2); (6, 2); (8, 2); (318, 4); (322, 4); (326, 4)]].

Definition cACTION_MONITOR_CLIENT_BEACON_11K_RESPONSE : VsClass :=
  mkVsClass ACTION_MONITOR 0x1e "cACTION_MONITOR_CLIENT_BEACON_11K_RESPONSE" [
    Fixed "params" 49 [(10, 2); (12, 4); (16, 8); (36, 4); (40, 4); (44, 4)]].

Definition cACTION_MONITOR_CLIENT_CHANNEL_LOAD_11K_REQUEST : VsClass :=
  mkVsClass ACTION_MONITOR 0x1f "cACTION_MONITOR_CLIENT_CHANNEL_LOAD_11K_REQUEST" [
    Fixed "params" 35 [(2, 2); (4, 2); (6, 2); (23, 4); (27, 4); (31, 4)]].

Definition cACTION_MONITOR_CLIENT_CHANNEL_LOAD_11K_RESPONSE : VsClass :=
  mkVsClass ACTION_MONITOR 0x20 "cACTION_MONITOR_CLIENT_CHANNEL_LOAD_11K_RESPONSE" [
    Fixed "params" 35 [(6, 2); (8, 8); (23, 4); (27, 4); (31, 4)]].

Definition cACTION_MONITOR_CLIENT_NEW_IP_ADDRESS_NOTIFICATION : VsClass :=
  mkVsClass ACTION_MONITOR 0x27 "cACTION_MONITOR_CLIENT_NEW_IP_ADDRESS_NOTIFICATION" [
    Fixed "mac" 6 []; Fixed "ipv4" 4 []].

Definition cACTION_MONITOR_STEERING_CLIENT_SET_GROUP_REQUEST : VsClass :=
  mkVsClass ACTION_MONITOR 0x50 "cACTION_MONITOR_STEERING_CLIENT_SET_GROUP_REQUEST" [
    Fixed "params" 27 [(0, 4); (10, 4); (14, 4); (18, 4); (22, 4)]].

Definition cACTION_MONITOR_STEERING_CLIENT_SET_GROUP_RESPONSE : VsClass :=
  mkVsClass ACTION_MONITOR 0x51 "cACTION_MONITOR_STEERING_CLIENT_SET_GROUP_RESPONSE" [
    Fixed "params" 4 [(0, 4)]].

Definition cACTION_MONITOR_STEERING_CLIENT_SET_REQUEST : VsClass :=
  mkVsClass ACTION_MONITOR 0x52 "cACTION_MONITOR_STEERING_CLIENT_SET_REQUEST" [
    Fixed "params" 49 [(0, 4); (16, 4); (20, 4); (24, 4); (28, 4); (32, 4); (36, 4); (40, 4);
      (44, 4)]].

Definition cACTION_MONITOR_STEERING_CLIENT_SET_RESPONSE : VsClass :=
  mkVsClass ACTION_MONITOR 0x53 "cACTION_MONITOR_STEERING_CLIENT_SET_RESPONSE" [
    Fixed "params" 4 [(0, 4)]].

Definition cACTION_MONITOR_STEERING_EVENT_CLIENT_ACTIVITY_NOTIFICATION : VsClass :=
  mkVsClass ACTION_MONITOR 0x54 "cACTION_MONITOR_STEERING_EVENT_CLIENT_ACTIVITY_NOTIFICATION" [
    Fixed "params" 13 []].

Definition cACTION_MONITOR_STEERING_EVENT_SNR_XING_NOTIFICATION : VsClass :=
  mkVsClass ACTION_MONITOR 0x55 "cACTION_MONITOR_STEERING_EVENT_SNR_XING_NOTIFICATION" [
    Fixed "params" 19 [(12, 4)]].

Definition cACTION_MONITOR_CHANNEL_SCAN_TRIGGER_SCAN_REQUEST : VsClass :=
  mkVsClass ACTION_MONITOR 0x3c "cACTION_MONITOR_CHANNEL_SCAN_TRIGGER_SCAN_REQUEST" [
    Fixed "cert_mode" 1 []; Fixed "scan_params" 139 [(6, 4)]].

Definition cACTION_MONITOR_CHANNEL_SCAN_TRIGGER_SCAN_RESPONSE : VsClass :=
  mkVsClass ACTION_MONITOR 0x3d "cACTION_MONITOR_CHANNEL_SCAN_TRIGGER_SCAN_RESPONSE" [
    Fixed "success" 1 []].

Definition cACTION_MONITOR_CHANNEL_SCAN_DUMP_RESULTS_REQUEST : VsClass :=
  mkVsClass ACTION_MONITOR 0x3f "cACTION_MONITOR_CHANNEL_SCAN_DUMP_RESULTS_REQUEST" [].

Definition cACTION_MONITOR_CHANNEL_SCAN_DUMP_RESULTS_RESPONSE : VsClass :=
  mkVsClass ACTION_MONITOR 0x40 "cACTION_MONITOR_CHANNEL_SCAN_DUMP_RESULTS_RESPONSE" [
    Fixed "success" 1 []].

Definition cACTION_MONITOR_CHANNEL_SCAN_TRIGGERED_NOTIFICATION : VsClass :=
  mkVsClass ACTION_MONITOR 0x3e "cACTION_MONITOR_CHANNEL_SCAN_TRIGGERED_NOTIFICATION" [].

Definition cACTION_MONITOR_CHANNEL_SCAN_RESULTS_NOTIFICATION : VsClass :=
  mkVsClass ACTION_MONITOR 0x41 "cACTION_MONITOR_CHANNEL_SCAN_RESULTS_NOTIFICATION" [
    Fixed "scan_results" 169 [(43, 4); (47, 4); (51, 4); (82, 4); (86, 4); (90, 4); (94, 4);

    (98, 4); (102, 4); (106, 4); (110, 4); (114, 4); (118, 4); (122, 4); (126, 4); (130, 4);
      (134, 4); (138, 4); (142, 4); (146, 4); (150, 4); (154, 4); (158, 4); (162, 2); (164, 4)];
    Fixed "is_dump" 1 []].

Definition cACTION_MONITOR_CHANNEL_SCAN_ABORT_REQUEST : VsClass :=
  mkVsClass ACTION_MONITOR 0x42 "cACTION_MONITOR_CHANNEL_SCAN_ABORT_REQUEST" [].

Definition cACTION_MONITOR_CHANNEL_SCAN_ABORT_RESPONSE : VsClass :=
  mkVsClass ACTION_MONITOR 0x43 "cACTION_MONITOR_CHANNEL_SCAN_ABORT_RESPONSE" [
    Fixed "success" 1 []].

Definition cACTION_MONITOR_CHANNEL_SCAN_ABORTED_NOTIFICATION : VsClass :=
  mkVsClass ACTION_MONITOR 0x44 "cACTION_MONITOR_CHANNEL_SCAN_ABORTED_NOTIFICATION" [
    Fixed "reason" 1 []].

Definition cACTION_MONITOR_CHANNEL_SCAN_FINISHED_NOTIFICATION : VsClass :=
  mkVsClass ACTION_MONITOR 0x45 "cACTION_MONITOR_CHANNEL_SCAN_FINISHED_NOTIFICATION" [].

Definition cACTION_PLATFORM_SON_SLAVE_BACKHAUL_CONNECTION_COMPLETE_NOTIFICATION : VsClass :=
  mkVsClass ACTION_PLATFORM 0x36 "cACTION_PLATFORM_SON_SLAVE_BACKHAUL_CONNECTION_COMPLETE_NOTIFICATION" [].

Definition cACTION_PLATFORM_SON_SLAVE_REGISTER_REQUEST : VsClass :=
  mkVsClass ACTION_PLATFORM 0x0 "cACTION_PLATFORM_SON_SLAVE_REGISTER_REQUEST" [].

Definition cACTION_PLATFORM_SON_SLAVE_REGISTER_RESPONSE : VsClass :=
  mkVsClass ACTION_PLATFORM 0x1 "cACTION_PLATFORM_SON_SLAVE_REGISTER_RESPONSE" [].

Definition cACTION_PLATFORM_ARP_MONITOR_NOTIFICATION : VsClass :=
  mkVsClass ACTION_PLATFORM 0x4 "cACTION_PLATFORM_ARP_MONITOR_NOTIFICATION" [
    Fixed "params" 17 [(10, 4)]].

Definition cACTION_PLATFORM_WLAN_PARAMS_CHANGED_NOTIFICATION : VsClass :=
  mkVsClass ACTION_PLATFORM 0x1a "cACTION_PLATFORM_WLAN_PARAMS_CHANGED_NOTIFICATION" [
    Array "iface_name" 36 1 []; Fixed "wlan_settings" 2 []].

Definition cACTION_PLATFORM_DHCP_MONITOR_NOTIFICATION : VsClass :=
  mkVsClass ACTION_PLATFORM 0x5 "cACTION_PLATFORM_DHCP_MONITOR_NOTIFICATION" [
    Fixed "dhcp_op" 1 []; Fixed "op" 4 [(0, 4)]; Fixed "mac" 6 []; Fixed "ipv4" 4 [];
    Array "hostname" 32 1 []].

Definition cACTION_PLATFORM_CHANGE_MODULE_LOGGING_LEVEL : VsClass :=
  mkVsClass ACTION_PLATFORM 0x6 "cACTION_PLATFORM_CHANGE_MODULE_LOGGING_LEVEL" [
    Fixed "params" 9 []].

Definition cACTION_PLATFORM_ARP_QUERY_REQUEST : VsClass :=
  mkVsClass ACTION_PLATFORM 0x8 "cACTION_PLATFORM_ARP_QUERY_REQUEST" [
    Fixed "params" 10 []].

Definition cACTION_PLATFORM_ARP_QUERY_RESPONSE : VsClass :=
  mkVsClass ACTION_PLATFORM 0x9 "cACTION_PLATFORM_ARP_QUERY_RESPONSE" [
    Fixed "params" 17 [(10, 4)]].

Definition cACTION_PLATFORM_ONBOARD_QUERY_REQUEST : VsClass :=
  mkVsClass ACTION_PLATFORM 0xa "cACTION_PLATFORM_ONBOARD_QUERY_REQUEST" [].

Definition cACTION_PLATFORM_ONBOARD_QUERY_RESPONSE : VsClass :=
  mkVsClass ACTION_PLATFORM 0xb "cACTION_PLATFORM_ONBOARD_QUERY_RESPONSE" [
    Fixed "params" 1 []].

Definition cACTION_PLATFORM_ONBOARD_SET_REQUEST : VsClass :=
  mkVsClass ACTION_PLATFORM 0x24 "cACTION_PLATFORM_ONBOARD_SET_REQUEST" [
    Fixed "params" 1 []].

Definition cACTION_PLATFORM_WPS_ONBOARDING_REQUEST : VsClass :=
  mkVsClass ACTION_PLATFORM 0x25 "cACTION_PLATFORM_WPS_ONBOARDING_REQUEST" [
    Array "iface_name" 36 1 []].

Definition cACTION_PLATFORM_WIFI_CREDENTIALS_GET_REQUEST : VsClass :=
  mkVsClass ACTION_PLATFORM 0xe "cACTION_PLATFORM_WIFI_CREDENTIALS_GET_REQUEST" [
    Fixed "vap_id" 1 []].

Definition cACTION_PLATFORM_WIFI_CREDENTIALS_GET_RESPONSE : VsClass :=
  mkVsClass ACTION_PLATFORM 0xf "cACTION_PLATFORM_WIFI_CREDENTIALS_GET_RESPONSE" [
    Fixed "front_params" 109 []; Fixed "back_params" 109 []; Fixed "result" 4 [(0, 4)]].

Definition cACTION_PLATFORM_ADMIN_CREDENTIALS_GET_REQUEST : VsClass :=
  mkVsClass ACTION_PLATFORM 0x10 "cACTION_PLATFORM_ADMIN_CREDENTIALS_GET_REQUEST" [].

Definition cACTION_PLATFORM_ADMIN_CREDENTIALS_GET_RESPONSE : VsClass :=
  mkVsClass ACTION_PLATFORM 0x11 "cACTION_PLATFORM_ADMIN_CREDENTIALS_GET_RESPONSE" [
    Fixed "params" 156 [(104, 4); (108, 4); (148, 4); (152, 4)]; Fixed "result" 4 [(0, 4)]].

Definition cACTION_PLATFORM_LOCAL_MASTER_GET_REQUEST : VsClass :=
  mkVsClass ACTION_PLATFORM 0x14 "cACTION_PLATFORM_LOCAL_MASTER_GET_REQUEST" [].

Definition cACTION_PLATFORM_LOCAL_MASTER_GET_RESPONSE : VsClass :=
  mkVsClass ACTION_PLATFORM 0x15 "cACTION_PLATFORM_LOCAL_MASTER_GET_RESPONSE" [
    Fixed "local_master" 1 []].

Definition cACTION_PLATFORM_MASTER_SLAVE_VERSIONS_NOTIFICATION : VsClass :=
  mkVsClass ACTION_PLATFORM 0x35 "cACTION_PLATFORM_MASTER_SLAVE_VERSIONS_NOTIFICATION" [
    Fixed "versions" 32 []].

Definition cACTION_PLATFORM_GET_MASTER_SLAVE_VERSIONS_REQUEST : VsClass :=
  mkVsClass ACTION_PLATFORM 0x32 "cACTION_PLATFORM_GET_MASTER_SLAVE_VERSIONS_REQUEST" [].

Definition cACTION_PLATFORM_GET_MASTER_SLAVE_VERSIONS_RESPONSE : VsClass :=
  mkVsClass ACTION_PLATFORM 0x33 "cACTION_PLATFORM_GET_MASTER_SLAVE_VERSIONS_RESPONSE" [
    Fixed "versions" 32 []; Fixed "result" 4 [(0, 4)]].

Definition cACTION_PLATFORM_ERROR_NOTIFICATION : VsClass :=
  mkVsClass ACTION_PLATFORM 0x64 "cACTION_PLATFORM_ERROR_NOTIFICATION" [
    Fixed "code" 4 [(0, 4)]; Array "data" 256 1 []].

(** All message classes of this file. *)
Definition agent_classes : list VsClass := [
    tlvVsClientAssociationEvent; tlvVsChannelScanRequestExtension; tlvVsChannelScanReportDone;
    tlvVsOnDemandChannelSelection; tlvVsBssidIfaceMapping; cACTION_APMANAGER_UP_NOTIFICATION;
    cACTION_APMANAGER_CONFIGURE; cACTION_APMANAGER_JOINED_NOTIFICATION;
    cACTION_APMANAGER_ENABLE_APS_REQUEST; cACTION_APMANAGER_ENABLE_APS_RESPONSE;
    cACTION_APMANAGER_HOSTAP_SET_RESTRICTED_FAILSAFE_CHANNEL_REQUEST;
    cACTION_APMANAGER_HOSTAP_SET_RESTRICTED_FAILSAFE_CHANNEL_RESPONSE;
    cACTION_APMANAGER_HOSTAP_AP_DISABLED_NOTIFICATION;
    cACTION_APMANAGER_HOSTAP_AP_ENABLED_NOTIFICATION;
    cACTION_APMANAGER_HOSTAP_VAPS_LIST_UPDATE_REQUEST;
    cACTION_APMANAGER_HOSTAP_GENERATE_CLIENT_ASSOCIATION_NOTIFICATIONS_REQUEST;
    cACTION_APMANAGER_HOSTAP_VAPS_LIST_UPDATE_NOTIFICATION;
    cACTION_APMANAGER_HOSTAP_CHANNEL_SWITCH_ACS_START; cACTION_APMANAGER_PLATFORM_ACS;
    cACTION_APMANAGER_HOSTAP_CANCEL_ACTIVE_CAC_REQUEST;
    cACTION_APMANAGER_HOSTAP_CANCEL_ACTIVE_CAC_RESPONSE;
    cACTION_APMANAGER_HOSTAP_CSA_ERROR_NOTIFICATION; cACTION_APMANAGER_HOSTAP_CSA_NOTIFICATION;
    cACTION_APMANAGER_HOSTAP_ACS_NOTIFICATION;
    cACTION_APMANAGER_HOSTAP_DFS_CAC_STARTED_NOTIFICATION;
    cACTION_APMANAGER_HOSTAP_DFS_CAC_COMPLETED_NOTIFICATION;
    cACTION_APMANAGER_HOSTAP_DFS_CHANNEL_AVAILABLE_NOTIFICATION;
    cACTION_APMANAGER_HOSTAP_SET_NEIGHBOR_11K_REQUEST;
    cACTION_APMANAGER_HOSTAP_REMOVE_NEIGHBOR_11K_REQUEST;
    cACTION_APMANAGER_HOSTAP_ZWDFS_ANT_CHANNEL_SWITCH_REQUEST;
    cACTION_APMANAGER_HOSTAP_ZWDFS_ANT_CHANNEL_SWITCH_RESPONSE;
    cACTION_APMANAGER_HOSTAP_SET_PRIMARY_VLAN_ID_REQUEST;
    cACTION_APMANAGER_HOSTAP_SERVICE_PRIO_CONFIG;
    cACTION_APMANAGER_HOSTAP_SPATIAL_REUSE_REPORT_NOTIFICATION;
    cACTION_APMANAGER_CLIENT_ASSOCIATED_NOTIFICATION;
    cACTION_APMANAGER_CLIENT_DISCONNECTED_NOTIFICATION;
    cACTION_APMANAGER_CLIENT_DISCONNECT_REQUEST; cACTION_APMANAGER_CLIENT_DISCONNECT_RESPONSE;
    cACTION_APMANAGER_CLIENT_DISALLOW_REQUEST; cACTION_APMANAGER_CLIENT_ALLOW_REQUEST;
    cACTION_APMANAGER_CLIENT_RX_RSSI_MEASUREMENT_REQUEST;
    cACTION_APMANAGER_CLIENT_RX_RSSI_MEASUREMENT_RESPONSE; cACTION_APMANAGER_ACK;
    cACTION_APMANAGER_CLIENT_BSS_STEER_REQUEST; cACTION_APMANAGER_CLIENT_BSS_STEER_RESPONSE;
    cACTION_APMANAGER_CLIENT_RX_RSSI_MEASUREMENT_CMD_RESPONSE;
    cACTION_APMANAGER_STEERING_CLIENT_SET_REQUEST; cACTION_APMANAGER_STEERING_CLIENT_SET_RESPONSE;
    cACTION_APMANAGER_STEERING_EVENT_PROBE_REQ_NOTIFICATION;
    cACTION_APMANAGER_STEERING_EVENT_AUTH_FAIL_NOTIFICATION;
    cACTION_APMANAGER_WIFI_CREDENTIALS_UPDATE_REQUEST;
    cACTION_APMANAGER_WIFI_CREDENTIALS_UPDATE_RESPONSE; cACTION_APMANAGER_START_WPS_PBC_REQUEST;
    cACTION_APMANAGER_SET_ASSOC_DISALLOW_REQUEST; cACTION_APMANAGER_RADIO_DISABLE_REQUEST;
    cACTION_APMANAGER_RADIO_ENABLE_REQUEST; cACTION_APMANAGER_RADIO_MODE_CONFIG_REQUEST;
    cACTION_APMANAGER_HEARTBEAT_NOTIFICATION; cACTION_APMANAGER_CHANNELS_LIST_REQUEST;
    cACTION_APMANAGER_CHANNELS_LIST_RESPONSE; cACTION_APMANAGER_SET_MAP_CONTROLLER_PROFILE;
    cACTION_APMANAGER_STATE_NOTIFICATION; cACTION_APMANAGER_MULTI_CHAN_BEACON_11K_REQUEST;
    cACTION_APMANAGER_MLD_UPDATE_REQUEST; cACTION_BACKHAUL_REGISTER_REQUEST;
    cACTION_BACKHAUL_REGISTER_RESPONSE; cACTION_BACKHAUL_ENABLE;
    cACTION_BACKHAUL_CONNECTED_NOTIFICATION; cACTION_BACKHAUL_DISCONNECTED_NOTIFICATION;
    cACTION_BACKHAUL_ENABLE_APS_REQUEST; cACTION_BACKHAUL_UPDATE_STOP_ON_FAILURE_ATTEMPTS_REQUEST;
    cACTION_BACKHAUL_AP_DISABLED_NOTIFICATION; cACTION_BACKHAUL_CLIENT_RX_RSSI_MEASUREMENT_REQUEST;
    cACTION_BACKHAUL_CLIENT_RX_RSSI_MEASUREMENT_RESPONSE;
    cACTION_BACKHAUL_CLIENT_RX_RSSI_MEASUREMENT_CMD_RESPONSE;
    cACTION_BACKHAUL_START_WPS_PBC_REQUEST; cACTION_BACKHAUL_SET_ASSOC_DISALLOW_REQUEST;
    cACTION_BACKHAUL_APPLY_VLAN_POLICY_REQUEST; cACTION_BACKHAUL_ZWDFS_RADIO_DETECTED;
    cACTION_BACKHAUL_CHANNELS_LIST_REQUEST; cACTION_BACKHAUL_CHANNELS_LIST_RESPONSE;
    cACTION_BACKHAUL_HOSTAP_CHANNEL_SWITCH_ACS_START; cACTION_BACKHAUL_PLATFORM_ACS;
    cACTION_BACKHAUL_HOSTAP_CANCEL_ACTIVE_CAC_REQUEST;
    cACTION_BACKHAUL_HOSTAP_CANCEL_ACTIVE_CAC_RESPONSE; cACTION_BACKHAUL_HOSTAP_CSA_NOTIFICATION;
    cACTION_BACKHAUL_HOSTAP_CSA_ERROR_NOTIFICATION;
    cACTION_BACKHAUL_HOSTAP_DFS_CAC_STARTED_NOTIFICATION;
    cACTION_BACKHAUL_HOSTAP_DFS_CAC_COMPLETED_NOTIFICATION;
    cACTION_BACKHAUL_HOSTAP_ZWDFS_ANT_CHANNEL_SWITCH_REQUEST;
    cACTION_BACKHAUL_HOSTAP_ZWDFS_ANT_CHANNEL_SWITCH_RESPONSE;
    cACTION_BACKHAUL_RADIO_DISABLE_REQUEST; cACTION_BACKHAUL_RADIO_TEAR_DOWN_REQUEST;
    cACTION_BACKHAUL_DISCONNECT_COMMAND; cACTION_BACKHAUL_RECONNECT_COMMAND;
    cACTION_BACKHAUL_HOSTAP_SPATIAL_REUSE_REPORT_NOTIFICATION;
    cACTION_BACKHAUL_WIFI_CREDENTIALS_UPDATE_REQUEST;
    cACTION_BACKHAUL_WIFI_ENABLE_DISABLE_ENDPOINT; cACTION_BACKHAUL_MLD_UPDATE_REQUEST;
    cACTION_BACKHAUL_TRIGGER_ON_BOOT_SCAN; cACTION_BACKHAUL_CHANNEL_SCAN_TRIGGER_SCAN_REQUEST;
    cACTION_BACKHAUL_CHANNEL_SCAN_TRIGGER_SCAN_RESPONSE;
    cACTION_BACKHAUL_CHANNEL_SCAN_DUMP_RESULTS_REQUEST;
    cACTION_BACKHAUL_CHANNEL_SCAN_DUMP_RESULTS_RESPONSE;
    cACTION_BACKHAUL_CHANNEL_SCAN_TRIGGERED_NOTIFICATION;
    cACTION_BACKHAUL_CHANNEL_SCAN_RESULTS_NOTIFICATION;
    cACTION_BACKHAUL_CHANNEL_SCAN_ABORT_REQUEST; cACTION_BACKHAUL_CHANNEL_SCAN_ABORT_RESPONSE;
    cACTION_BACKHAUL_CHANNEL_SCAN_ABORTED_NOTIFICATION;
    cACTION_BACKHAUL_CHANNEL_SCAN_FINISHED_NOTIFICATION;
    cACTION_MONITOR_HOSTAP_AP_DISABLED_NOTIFICATION; cACTION_MONITOR_JOINED_NOTIFICATION;
    cACTION_MONITOR_SON_CONFIG_UPDATE; cACTION_MONITOR_BYTE_COUNTER_UNITS_UPDATE_NOTIFICATION;
    cACTION_MONITOR_CHANGE_MODULE_LOGGING_LEVEL; cACTION_MONITOR_HEARTBEAT_NOTIFICATION;
    cACTION_MONITOR_CLIENT_START_MONITORING_REQUEST;
    cACTION_MONITOR_CLIENT_START_MONITORING_RESPONSE;
    cACTION_MONITOR_CLIENT_RX_RSSI_MEASUREMENT_REQUEST;
    cACTION_MONITOR_CLIENT_RX_RSSI_MEASUREMENT_NOTIFICATION;
    cACTION_MONITOR_CLIENT_RX_RSSI_MEASUREMENT_RESPONSE;
    cACTION_MONITOR_CLIENT_NO_RESPONSE_NOTIFICATION;
    cACTION_MONITOR_CLIENT_RX_RSSI_MEASUREMENT_START_NOTIFICATION;
    cACTION_MONITOR_CLIENT_RX_RSSI_MEASUREMENT_CMD_RESPONSE;
    cACTION_MONITOR_CLIENT_NO_ACTIVITY_NOTIFICATION; cACTION_MONITOR_HOSTAP_ACTIVITY_NOTIFICATION;
    cACTION_MONITOR_CLIENT_ASSOCIATED_STA_LINK_METRIC_REQUEST;
    cACTION_MONITOR_CLIENT_ASSOCIATED_STA_LINK_METRIC_RESPONSE;
    cACTION_MONITOR_CLIENT_UNASSOCIATED_STA_LINK_METRIC_REQUEST;
    cACTION_MONITOR_CLIENT_UNASSOCIATED_STA_LINK_METRIC_RESPONSE;
    cACTION_MONITOR_HOSTAP_STATS_MEASUREMENT_REQUEST;
    cACTION_MONITOR_HOSTAP_STATS_MEASUREMENT_RESPONSE;
    cACTION_MONITOR_HOSTAP_LOAD_MEASUREMENT_NOTIFICATION;
    cACTION_MONITOR_CLIENT_BEACON_11K_REQUEST; cACTION_MONITOR_CLIENT_BEACON_11K_RESPONSE;
    cACTION_MONITOR_CLIENT_CHANNEL_LOAD_11K_REQUEST;
    cACTION_MONITOR_CLIENT_CHANNEL_LOAD_11K_RESPONSE;
    cACTION_MONITOR_CLIENT_NEW_IP_ADDRESS_NOTIFICATION;
    cACTION_MONITOR_STEERING_CLIENT_SET_GROUP_REQUEST;
    cACTION_MONITOR_STEERING_CLIENT_SET_GROUP_RESPONSE;
    cACTION_MONITOR_STEERING_CLIENT_SET_REQUEST; cACTION_MONITOR_STEERING_CLIENT_SET_RESPONSE;
    cACTION_MONITOR_STEERING_EVENT_CLIENT_ACTIVITY_NOTIFICATION;
    cACTION_MONITOR_STEERING_EVENT_SNR_XING_NOTIFICATION;
    cACTION_MONITOR_CHANNEL_SCAN_TRIGGER_SCAN_REQUEST;
    cACTION_MONITOR_CHANNEL_SCAN_TRIGGER_SCAN_RESPONSE;
    cACTION_MONITOR_CHANNEL_SCAN_DUMP_RESULTS_REQUEST;
    cACTION_MONITOR_CHANNEL_SCAN_DUMP_RESULTS_RESPONSE;
    cACTION_MONITOR_CHANNEL_SCAN_TRIGGERED_NOTIFICATION;
    cACTION_MONITOR_CHANNEL_SCAN_RESULTS_NOTIFICATION; cACTION_MONITOR_CHANNEL_SCAN_ABORT_REQUEST;
    cACTION_MONITOR_CHANNEL_SCAN_ABORT_RESPONSE; cACTION_MONITOR_CHANNEL_SCAN_ABORTED_NOTIFICATION;
    cACTION_MONITOR_CHANNEL_SCAN_FINISHED_NOTIFICATION;
    cACTION_PLATFORM_SON_SLAVE_BACKHAUL_CONNECTION_COMPLETE_NOTIFICATION;
    cACTION_PLATFORM_SON_SLAVE_REGISTER_REQUEST; cACTION_PLATFORM_SON_SLAVE_REGISTER_RESPONSE;
    cACTION_PLATFORM_ARP_MONITOR_NOTIFICATION; cACTION_PLATFORM_WLAN_PARAMS_CHANGED_NOTIFICATION;
    cACTION_PLATFORM_DHCP_MONITOR_NOTIFICATION; cACTION_PLATFORM_CHANGE_MODULE_LOGGING_LEVEL;
    cACTION_PLATFORM_ARP_QUERY_REQUEST; cACTION_PLATFORM_ARP_QUERY_RESPONSE;
    cACTION_PLATFORM_ONBOARD_QUERY_REQUEST; cACTION_PLATFORM_ONBOARD_QUERY_RESPONSE;
    cACTION_PLATFORM_ONBOARD_SET_REQUEST; cACTION_PLATFORM_WPS_ONBOARDING_REQUEST;
    cACTION_PLATFORM_WIFI_CREDENTIALS_GET_REQUEST; cACTION_PLATFORM_WIFI_CREDENTIALS_GET_RESPONSE;
    cACTION_PLATFORM_ADMIN_CREDENTIALS_GET_REQUEST;
    cACTION_PLATFORM_ADMIN_CREDENTIALS_GET_RESPONSE; cACTION_PLATFORM_LOCAL_MASTER_GET_REQUEST;
    cACTION_PLATFORM_LOCAL_MASTER_GET_RESPONSE;
    cACTION_PLATFORM_MASTER_SLAVE_VERSIONS_NOTIFICATION;
    cACTION_PLATFORM_GET_MASTER_SLAVE_VERSIONS_REQUEST;
    cACTION_PLATFORM_GET_MASTER_SLAVE_VERSIONS_RESPONSE; cACTION_PLATFORM_ERROR_NOTIFICATION].
