(* ===== verification/VendorClassesController.v ===== *)
(** * Messages of the controller

    The steps of [init()] of the message classes of
    [common/beerocks/tlvf/AutoGenerated/src/beerocks/tlvf], as generated:
    those between controller and agents, of the library for management
    clients and of the command line.
    Each has the action and the operation code of [get_action_op()]; an inner
    class is a list of fields. *)

From S2P Require Import Prelude Tlvf VendorMessage.

#[local] Open Scope nat_scope.

Definition cACTION_CONTROL_SLAVE_HANDSHAKE_REQUEST : VsClass :=
  mkVsClass ACTION_CONTROL 0x1 "cACTION_CONTROL_SLAVE_HANDSHAKE_REQUEST" [].

Definition cACTION_CONTROL_SLAVE_HANDSHAKE_RESPONSE : VsClass :=
  mkVsClass ACTION_CONTROL 0x2 "cACTION_CONTROL_SLAVE_HANDSHAKE_RESPONSE" [].

Definition cACTION_CONTROL_SLAVE_JOINED_NOTIFICATION : VsClass :=
  mkVsClass ACTION_CONTROL 0x3 "cACTION_CONTROL_SLAVE_JOINED_NOTIFICATION" [
    Array "slave_version" 16 1 []; Fixed "platform_settings" 7 []; Fixed "wlan_settings" 2 [];
    Fixed "backhaul_params" 31 []; Fixed "hostap" 146 [(67, 2); (102, 2); (104, 8)];
    Fixed "cs_params" 9 [(5, 2)]; Fixed "low_pass_filter_on" 1 []; Fixed "enable_repeater_mode" 1 []].

Definition cACTION_CONTROL_SLAVE_JOINED_RESPONSE : VsClass :=
  mkVsClass ACTION_CONTROL 0x4 "cACTION_CONTROL_SLAVE_JOINED_RESPONSE" [
    Array "master_version" 16 1 []; Fixed "err_code" 1 [];
    Fixed "config" 20 [(8, 4); (12, 4); (16, 2)]].

Definition cACTION_CONTROL_ARP_QUERY_REQUEST : VsClass :=
  mkVsClass ACTION_CONTROL 0xc "cACTION_CONTROL_ARP_QUERY_REQUEST" [
    Fixed "params" 10 []].

Definition cACTION_CONTROL_ARP_QUERY_RESPONSE : VsClass :=
  mkVsClass ACTION_CONTROL 0xd "cACTION_CONTROL_ARP_QUERY_RESPONSE" [
    Fixed "params" 17 [(10, 4)]].

Definition cACTION_CONTROL_CHANGE_MODULE_LOGGING_LEVEL : VsClass :=
  mkVsClass ACTION_CONTROL 0xb "cACTION_CONTROL_CHANGE_MODULE_LOGGING_LEVEL" [
    Fixed "params" 9 []].

Definition cACTION_CONTROL_HOSTAP_CSA_ERROR_NOTIFICATION : VsClass :=
  mkVsClass ACTION_CONTROL 0x36 "cACTION_CONTROL_HOSTAP_CSA_ERROR_NOTIFICATION" [
    Fixed "cs_params" 9 [(5, 2)]].

Definition cACTION_CONTROL_HOSTAP_CSA_NOTIFICATION : VsClass :=
  mkVsClass ACTION_CONTROL 0x37 "cACTION_CONTROL_HOSTAP_CSA_NOTIFICATION" [
    Fixed "cs_params" 9 [(5, 2)]].

Definition cACTION_CONTROL_HOSTAP_ACS_NOTIFICATION : VsClass :=
  mkVsClass ACTION_CONTROL 0x39 "cACTION_CONTROL_HOSTAP_ACS_NOTIFICATION" [
    Fixed "cs_params" 9 [(5, 2)]].

Definition cACTION_CONTROL_HOSTAP_DFS_CAC_COMPLETED_NOTIFICATION : VsClass :=
  mkVsClass ACTION_CONTROL 0x3a "cACTION_CONTROL_HOSTAP_DFS_CAC_COMPLETED_NOTIFICATION" [
    Fixed "params" 15 [(0, 4); (4, 4); (8, 2); (10, 2)]].

Definition cACTION_CONTROL_HOSTAP_DFS_CHANNEL_AVAILABLE_NOTIFICATION : VsClass :=
  mkVsClass ACTION_CONTROL 0x3b "cACTION_CONTROL_HOSTAP_DFS_CHANNEL_AVAILABLE_NOTIFICATION" [
    Fixed "params" 8 [(0, 4); (6, 2)]].

Definition cACTION_CONTROL_HOSTAP_SET_RESTRICTED_FAILSAFE_CHANNEL_REQUEST : VsClass :=
  mkVsClass ACTION_CONTROL 0x41 "cACTION_CONTROL_HOSTAP_SET_RESTRICTED_FAILSAFE_CHANNEL_REQUEST" [
    Fixed "params" 44 [(42, 2)]].

Definition cACTION_CONTROL_HOSTAP_SET_RESTRICTED_FAILSAFE_CHANNEL_RESPONSE : VsClass :=
  mkVsClass ACTION_CONTROL 0x42 "cACTION_CONTROL_HOSTAP_SET_RESTRICTED_FAILSAFE_CHANNEL_RESPONSE" [
    Fixed "success" 1 []].

Definition cACTION_CONTROL_HOSTAP_CHANNEL_SWITCH_ACS_START : VsClass :=
  mkVsClass ACTION_CONTROL 0x43 "cACTION_CONTROL_HOSTAP_CHANNEL_SWITCH_ACS_START" [
    Fixed "cs_params" 9 [(5, 2)]].

Definition cACTION_CONTROL_HOSTAP_UPDATE_STOP_ON_FAILURE_ATTEMPTS_REQUEST : VsClass :=
  mkVsClass ACTION_CONTROL 0x44 "cACTION_CONTROL_HOSTAP_UPDATE_STOP_ON_FAILURE_ATTEMPTS_REQUEST" [
    Fixed "attempts" 4 [(0, 4)]].

Definition cACTION_CONTROL_HOSTAP_STATS_MEASUREMENT_REQUEST : VsClass :=
  mkVsClass ACTION_CONTROL 0x3c "cACTION_CONTROL_HOSTAP_STATS_MEASUREMENT_REQUEST" [
    Fixed "sync" 1 []].

Definition cACTION_CONTROL_HOSTAP_STATS_MEASUREMENT_RESPONSE : VsClass :=
  mkVsClass ACTION_CONTROL 0x3d "cACTION_CONTROL_HOSTAP_STATS_MEASUREMENT_RESPONSE" [
    Fixed "ap_stats_size" 1 [];
    Counted "ap_stats" (Len8 "ap_stats_size") 36 [(0, 4); (4, 4); (8, 4); (12, 4); (16, 4);
      (20, 4); (24, 4); (34, 2)]; Fixed "sta_stats_size" 1 [];
    Counted "sta_stats" (Len8 "sta_stats_size") 36 [(6, 4); (10, 4); (14, 4); (18, 4); (22, 4);
      (26, 2); (28, 2); (32, 2)]].

Definition cACTION_CONTROL_HOSTAP_LOAD_MEASUREMENT_NOTIFICATION : VsClass :=
  mkVsClass ACTION_CONTROL 0x3e "cACTION_CONTROL_HOSTAP_LOAD_MEASUREMENT_NOTIFICATION" [
    Fixed "params" 7 [(0, 2)]].

Definition cACTION_CONTROL_HOSTAP_SET_NEIGHBOR_11K_REQUEST : VsClass :=
  mkVsClass ACTION_CONTROL 0x3f "cACTION_CONTROL_HOSTAP_SET_NEIGHBOR_11K_REQUEST" [
    Fixed "params" 60 [(45, 2)]].

Definition cACTION_CONTROL_HOSTAP_REMOVE_NEIGHBOR_11K_REQUEST : VsClass :=
  mkVsClass ACTION_CONTROL 0x40 "cACTION_CONTROL_HOSTAP_REMOVE_NEIGHBOR_11K_REQUEST" [
    Fixed "params" 43 []].

Definition cACTION_CONTROL_HOSTAP_ACTIVITY_NOTIFICATION : VsClass :=
  mkVsClass ACTION_CONTROL 0x46 "cACTION_CONTROL_HOSTAP_ACTIVITY_NOTIFICATION" [
    Fixed "params" 1 []].

Definition cACTION_CONTROL_HOSTAP_VAPS_LIST_UPDATE_NOTIFICATION : VsClass :=
  mkVsClass ACTION_CONTROL 0x47 "cACTION_CONTROL_HOSTAP_VAPS_LIST_UPDATE_NOTIFICATION" [
    Fixed "params" 1424 []].

Definition cACTION_CONTROL_HOSTAP_AP_DISABLED_NOTIFICATION : VsClass :=
  mkVsClass ACTION_CONTROL 0x48 "cACTION_CONTROL_HOSTAP_AP_DISABLED_NOTIFICATION" [
    Fixed "vap_id" 1 []].

Definition cACTION_CONTROL_HOSTAP_AP_ENABLED_NOTIFICATION : VsClass :=
  mkVsClass ACTION_CONTROL 0x49 "cACTION_CONTROL_HOSTAP_AP_ENABLED_NOTIFICATION" [
    Fixed "vap_id" 1 []; Fixed "vap_info" 89 []].

Definition cACTION_CONTROL_CLIENT_START_MONITORING_REQUEST : VsClass :=
  mkVsClass ACTION_CONTROL 0x64 "cACTION_CONTROL_CLIENT_START_MONITORING_REQUEST" [
    Fixed "params" 17 []].

Definition cACTION_CONTROL_CLIENT_START_MONITORING_RESPONSE : VsClass :=
  mkVsClass ACTION_CONTROL 0x65 "cACTION_CONTROL_CLIENT_START_MONITORING_RESPONSE" [
    Fixed "success" 1 []].

Definition cACTION_CONTROL_CLIENT_RX_RSSI_MEASUREMENT_REQUEST : VsClass :=
  mkVsClass ACTION_CONTROL 0x67 "cACTION_CONTROL_CLIENT_RX_RSSI_MEASUREMENT_REQUEST" [
    Fixed "params" 17 [(14, 2)]].

Definition cACTION_CONTROL_CLIENT_RX_RSSI_MEASUREMENT_RESPONSE : VsClass :=
  mkVsClass ACTION_CONTROL 0x68 "cACTION_CONTROL_CLIENT_RX_RSSI_MEASUREMENT_RESPONSE" [
    Fixed "params" 17 [(8, 2); (10, 2)]].

Definition cACTION_CONTROL_CLIENT_RX_RSSI_MEASUREMENT_START_NOTIFICATION : VsClass :=
  mkVsClass ACTION_CONTROL 0x69 "cACTION_CONTROL_CLIENT_RX_RSSI_MEASUREMENT_START_NOTIFICATION" [
    Fixed "mac" 6 []].

Definition cACTION_CONTROL_CLIENT_RX_RSSI_MEASUREMENT_CMD_RESPONSE : VsClass :=
  mkVsClass ACTION_CONTROL 0x7d "cACTION_CONTROL_CLIENT_RX_RSSI_MEASUREMENT_CMD_RESPONSE" [
    Fixed "mac" 6 []].

Definition cACTION_CONTROL_CLIENT_RX_RSSI_MEASUREMENT_NOTIFICATION : VsClass :=
  mkVsClass ACTION_CONTROL 0x6a "cACTION_CONTROL_CLIENT_RX_RSSI_MEASUREMENT_NOTIFICATION" [
    Fixed "params" 17 [(8, 2); (10, 2)]].

Definition cACTION_CONTROL_CLIENT_NO_ACTIVITY_NOTIFICATION : VsClass :=
  mkVsClass ACTION_CONTROL 0x7e "cACTION_CONTROL_CLIENT_NO_ACTIVITY_NOTIFICATION" [
    Fixed "mac" 6 []].

Definition cACTION_CONTROL_CLIENT_NO_RESPONSE_NOTIFICATION : VsClass :=
  mkVsClass ACTION_CONTROL 0x6b "cACTION_CONTROL_CLIENT_NO_RESPONSE_NOTIFICATION" [
    Fixed "mac" 6 []].

Definition cACTION_CONTROL_CLIENT_NEW_IP_ADDRESS_NOTIFICATION : VsClass :=
  mkVsClass ACTION_CONTROL 0x6c "cACTION_CONTROL_CLIENT_NEW_IP_ADDRESS_NOTIFICATION" [
    Fixed "mac" 6 []; Fixed "ipv4" 4 []].

Definition cACTION_CONTROL_CLIENT_DISCONNECT_REQUEST : VsClass :=
  mkVsClass ACTION_CONTROL 0x6f "cACTION_CONTROL_CLIENT_DISCONNECT_REQUEST" [
    Fixed "mac" 6 []; Fixed "vap_id" 1 []; Fixed "type" 1 []; Fixed "reason" 4 [(0, 4)];
    Fixed "src" 1 []].

Definition cACTION_CONTROL_CLIENT_DISCONNECT_RESPONSE : VsClass :=
  mkVsClass ACTION_CONTROL 0x70 "cACTION_CONTROL_CLIENT_DISCONNECT_RESPONSE" [
    Fixed "params" 5 [(0, 4)]].

Definition cACTION_CONTROL_CLIENT_DHCP_COMPLETE_NOTIFICATION : VsClass :=
  mkVsClass ACTION_CONTROL 0x73 "cACTION_CONTROL_CLIENT_DHCP_COMPLETE_NOTIFICATION" [
    Fixed "mac" 6 []; Fixed "ipv4" 4 []; Array "name" 32 1 []].

Definition cACTION_CONTROL_CLIENT_ARP_MONITOR_NOTIFICATION : VsClass :=
  mkVsClass ACTION_CONTROL 0x74 "cACTION_CONTROL_CLIENT_ARP_MONITOR_NOTIFICATION" [
    Fixed "params" 17 [(10, 4)]].

Definition cACTION_CONTROL_CLIENT_BEACON_11K_REQUEST : VsClass :=
  mkVsClass ACTION_CONTROL 0x75 "cACTION_CONTROL_CLIENT_BEACON_11K_REQUEST" [
    Fixed "params" 331 [(2, 2); (4, 2); (6, 2); (8, 2); (318, 4); (322, 4); (326, 4)]].

Definition cACTION_CONTROL_CLIENT_BEACON_11K_RESPONSE : VsClass :=
  mkVsClass ACTION_CONTROL 0x76 "cACTION_CONTROL_CLIENT_BEACON_11K_RESPONSE" [
    Fixed "params" 49 [(10, 2); (12, 4); (16, 8); (36, 4); (40, 4); (44, 4)]].

Definition cACTION_CONTROL_STEERING_CLIENT_SET_GROUP_REQUEST : VsClass :=
  mkVsClass ACTION_CONTROL 0x7f "cACTION_CONTROL_STEERING_CLIENT_SET_GROUP_REQUEST" [
    Fixed "params" 27 [(0, 4); (10, 4); (14, 4); (18, 4); (22, 4)]].

Definition cACTION_CONTROL_STEERING_CLIENT_SET_GROUP_RESPONSE : VsClass :=
  mkVsClass ACTION_CONTROL 0x80 "cACTION_CONTROL_STEERING_CLIENT_SET_GROUP_RESPONSE" [
    Fixed "params" 4 [(0, 4)]].

Definition cACTION_CONTROL_STEERING_CLIENT_SET_REQUEST : VsClass :=
  mkVsClass ACTION_CONTROL 0x81 "cACTION_CONTROL_STEERING_CLIENT_SET_REQUEST" [
    Fixed "params" 49 [(0, 4); (16, 4); (20, 4); (24, 4); (28, 4); (32, 4); (36, 4); (40, 4);
      (44, 4)]].

Definition cACTION_CONTROL_STEERING_CLIENT_SET_RESPONSE : VsClass :=
  mkVsClass ACTION_CONTROL 0x82 "cACTION_CONTROL_STEERING_CLIENT_SET_RESPONSE" [
    Fixed "params" 4 [(0, 4)]].

Definition cACTION_CONTROL_STEERING_EVENT_CLIENT_ACTIVITY_NOTIFICATION : VsClass :=
  mkVsClass ACTION_CONTROL 0x83 "cACTION_CONTROL_STEERING_EVENT_CLIENT_ACTIVITY_NOTIFICATION" [
    Fixed "params" 13 []].

Definition cACTION_CONTROL_STEERING_EVENT_SNR_XING_NOTIFICATION : VsClass :=
  mkVsClass ACTION_CONTROL 0x84 "cACTION_CONTROL_STEERING_EVENT_SNR_XING_NOTIFICATION" [
    Fixed "params" 19 [(12, 4)]].

Definition cACTION_CONTROL_STEERING_EVENT_PROBE_REQ_NOTIFICATION : VsClass :=
  mkVsClass ACTION_CONTROL 0x85 "cACTION_CONTROL_STEERING_EVENT_PROBE_REQ_NOTIFICATION" [
    Fixed "params" 15 []].

Definition cACTION_CONTROL_STEERING_EVENT_AUTH_FAIL_NOTIFICATION : VsClass :=
  mkVsClass ACTION_CONTROL 0x86 "cACTION_CONTROL_STEERING_EVENT_AUTH_FAIL_NOTIFICATION" [
    Fixed "params" 16 []].

Definition cACTION_CONTROL_CHANNEL_SCAN_TRIGGER_SCAN_REQUEST : VsClass :=
  mkVsClass ACTION_CONTROL 0x8c "cACTION_CONTROL_CHANNEL_SCAN_TRIGGER_SCAN_REQUEST" [
    Fixed "scan_params" 139 [(6, 4)]].

Definition cACTION_CONTROL_CHANNEL_SCAN_TRIGGER_SCAN_RESPONSE : VsClass :=
  mkVsClass ACTION_CONTROL 0x8d "cACTION_CONTROL_CHANNEL_SCAN_TRIGGER_SCAN_RESPONSE" [
    Fixed "success" 1 []].

Definition cACTION_CONTROL_CHANNEL_SCAN_DUMP_RESULTS_REQUEST : VsClass :=
  mkVsClass ACTION_CONTROL 0x8e "cACTION_CONTROL_CHANNEL_SCAN_DUMP_RESULTS_REQUEST" [].

Definition cACTION_CONTROL_CHANNEL_SCAN_TRIGGERED_NOTIFICATION : VsClass :=
  mkVsClass ACTION_CONTROL 0x90 "cACTION_CONTROL_CHANNEL_SCAN_TRIGGERED_NOTIFICATION" [
    Fixed "radio_mac" 6 []].

Definition cACTION_CONTROL_CHANNEL_SCAN_RESULTS_NOTIFICATION : VsClass :=
  mkVsClass ACTION_CONTROL 0x91 "cACTION_CONTROL_CHANNEL_SCAN_RESULTS_NOTIFICATION" [
    Fixed "scan_results" 169 [(43, 4); (47, 4); (51, 4); (82, 4); (86, 4); (90, 4); (94, 4);

    (98, 4); (102, 4); (106, 4); (110, 4); (114, 4); (118, 4); (122, 4); (126, 4); (130, 4);
      (134, 4); (138, 4); (142, 4); (146, 4); (150, 4); (154, 4); (158, 4); (162, 2); (164, 4)];
    Fixed "radio_mac" 6 []; Fixed "is_dump" 1 []].

Definition cACTION_CONTROL_CHANNEL_SCAN_ABORT_NOTIFICATION : VsClass :=
  mkVsClass ACTION_CONTROL 0x92 "cACTION_CONTROL_CHANNEL_SCAN_ABORT_NOTIFICATION" [
    Fixed "reason" 1 []; Fixed "radio_mac" 6 []].

Definition cACTION_CONTROL_CHANNEL_SCAN_FINISHED_NOTIFICATION : VsClass :=
  mkVsClass ACTION_CONTROL 0x93 "cACTION_CONTROL_CHANNEL_SCAN_FINISHED_NOTIFICATION" [
    Fixed "radio_mac" 6 []].

Definition cACTION_BML_PING_REQUEST : VsClass :=
  mkVsClass ACTION_BML 0x0 "cACTION_BML_PING_REQUEST" [].

Definition cACTION_BML_PING_RESPONSE : VsClass :=
  mkVsClass ACTION_BML 0x1 "cACTION_BML_PING_RESPONSE" [].

Definition cACTION_BML_NW_MAP_REQUEST : VsClass :=
  mkVsClass ACTION_BML 0x2 "cACTION_BML_NW_MAP_REQUEST" [].

Definition cACTION_BML_NW_MAP_RESPONSE : VsClass :=
  mkVsClass ACTION_BML 0x3 "cACTION_BML_NW_MAP_RESPONSE" [
    Fixed "node_num" 4 [(0, 4)]; Fixed "buffer_size" 4 [(0, 4)];
    Counted "buffer" (Len32 "buffer_size") 1 []].

Definition cACTION_BML_NW_MAP_UPDATE : VsClass :=
  mkVsClass ACTION_BML 0x1e "cACTION_BML_NW_MAP_UPDATE" [
    Fixed "node_num" 4 [(0, 4)]; Fixed "buffer_size" 4 [(0, 4)];
    Counted "buffer" (Len32 "buffer_size") 1 []].

Definition cACTION_BML_STATS_UPDATE : VsClass :=
  mkVsClass ACTION_BML 0x1f "cACTION_BML_STATS_UPDATE" [
    Fixed "num_of_stats_bulks" 4 [(0, 4)]; Fixed "buffer_size" 4 [(0, 4)];
    Counted "buffer" (Len32 "buffer_size") 1 []].

Definition cACTION_BML_EVENTS_UPDATE : VsClass :=
  mkVsClass ACTION_BML 0x20 "cACTION_BML_EVENTS_UPDATE" [
    Fixed "buffer_size" 4 [(0, 4)]; Counted "buffer" (Len32 "buffer_size") 1 []].

Definition cACTION_BML_REGISTER_TO_NW_MAP_UPDATES_REQUEST : VsClass :=
  mkVsClass ACTION_BML 0xa "cACTION_BML_REGISTER_TO_NW_MAP_UPDATES_REQUEST" [].

Definition cACTION_BML_UNREGISTER_FROM_NW_MAP_UPDATES_REQUEST : VsClass :=
  mkVsClass ACTION_BML 0xc "cACTION_BML_UNREGISTER_FROM_NW_MAP_UPDATES_REQUEST" [].

Definition cACTION_BML_SET_LEGACY_CLIENT_ROAMING_RESPONSE : VsClass :=
  mkVsClass ACTION_BML 0x39 "cACTION_BML_SET_LEGACY_CLIENT_ROAMING_RESPONSE" [].

Definition cACTION_BML_GET_LEGACY_CLIENT_ROAMING_REQUEST : VsClass :=
  mkVsClass ACTION_BML 0x3a "cACTION_BML_GET_LEGACY_CLIENT_ROAMING_REQUEST" [].

Definition cACTION_BML_REGISTER_TO_EVENTS_UPDATES_REQUEST : VsClass :=
  mkVsClass ACTION_BML 0x12 "cACTION_BML_REGISTER_TO_EVENTS_UPDATES_REQUEST" [].

Definition cACTION_BML_UNREGISTER_FROM_EVENTS_UPDATES_REQUEST : VsClass :=
  mkVsClass ACTION_BML 0x14 "cACTION_BML_UNREGISTER_FROM_EVENTS_UPDATES_REQUEST" [].

Definition cACTION_BML_REGISTER_TO_STATS_UPDATES_REQUEST : VsClass :=
  mkVsClass ACTION_BML 0xe "cACTION_BML_REGISTER_TO_STATS_UPDATES_REQUEST" [].

Definition cACTION_BML_UNREGISTER_FROM_STATS_UPDATES_REQUEST : VsClass :=
  mkVsClass ACTION_BML 0x10 "cACTION_BML_UNREGISTER_FROM_STATS_UPDATES_REQUEST" [].

Definition cACTION_BML_SET_LEGACY_CLIENT_ROAMING_REQUEST : VsClass :=
  mkVsClass ACTION_BML 0x38 "cACTION_BML_SET_LEGACY_CLIENT_ROAMING_REQUEST" [
    Fixed "isEnable" 1 []].

Definition cACTION_BML_GET_LEGACY_CLIENT_ROAMING_RESPONSE : VsClass :=
  mkVsClass ACTION_BML 0x3b "cACTION_BML_GET_LEGACY_CLIENT_ROAMING_RESPONSE" [
    Fixed "isEnable" 1 []].

Definition cACTION_BML_SET_CLIENT_ROAMING_REQUEST : VsClass :=
  mkVsClass ACTION_BML 0x3c "cACTION_BML_SET_CLIENT_ROAMING_REQUEST" [
    Fixed "isEnable" 1 []].

Definition cACTION_BML_SET_CLIENT_ROAMING_RESPONSE : VsClass :=
  mkVsClass ACTION_BML 0x3d "cACTION_BML_SET_CLIENT_ROAMING_RESPONSE" [].

Definition cACTION_BML_GET_CLIENT_ROAMING_REQUEST : VsClass :=
  mkVsClass ACTION_BML 0x3e "cACTION_BML_GET_CLIENT_ROAMING_REQUEST" [].

Definition cACTION_BML_GET_CLIENT_ROAMING_RESPONSE : VsClass :=
  mkVsClass ACTION_BML 0x3f "cACTION_BML_GET_CLIENT_ROAMING_RESPONSE" [
    Fixed "isEnable" 1 []].

Definition cACTION_BML_SET_DFS_REENTRY_REQUEST : VsClass :=
  mkVsClass ACTION_BML 0x54 "cACTION_BML_SET_DFS_REENTRY_REQUEST" [
    Fixed "isEnable" 1 []].

Definition cACTION_BML_SET_DFS_REENTRY_RESPONSE : VsClass :=
  mkVsClass ACTION_BML 0x55 "cACTION_BML_SET_DFS_REENTRY_RESPONSE" [].

Definition cACTION_BML_GET_DFS_REENTRY_REQUEST : VsClass :=
  mkVsClass ACTION_BML 0x56 "cACTION_BML_GET_DFS_REENTRY_REQUEST" [].

Definition cACTION_BML_GET_DFS_REENTRY_RESPONSE : VsClass :=
  mkVsClass ACTION_BML 0x57 "cACTION_BML_GET_DFS_REENTRY_RESPONSE" [
    Fixed "isEnable" 1 []].

Definition cACTION_BML_SET_CLIENT_ROAMING_PREFER_SIGNAL_STRENGTH_REQUEST : VsClass :=
  mkVsClass ACTION_BML 0x50 "cACTION_BML_SET_CLIENT_ROAMING_PREFER_SIGNAL_STRENGTH_REQUEST" [
    Fixed "isEnable" 1 []].

Definition cACTION_BML_SET_CLIENT_ROAMING_PREFER_SIGNAL_STRENGTH_RESPONSE : VsClass :=
  mkVsClass ACTION_BML 0x51 "cACTION_BML_SET_CLIENT_ROAMING_PREFER_SIGNAL_STRENGTH_RESPONSE" [].

Definition cACTION_BML_GET_CLIENT_ROAMING_PREFER_SIGNAL_STRENGTH_REQUEST : VsClass :=
  mkVsClass ACTION_BML 0x52 "cACTION_BML_GET_CLIENT_ROAMING_PREFER_SIGNAL_STRENGTH_REQUEST" [].

Definition cACTION_BML_GET_CLIENT_ROAMING_PREFER_SIGNAL_STRENGTH_RESPONSE : VsClass :=
  mkVsClass ACTION_BML 0x53 "cACTION_BML_GET_CLIENT_ROAMING_PREFER_SIGNAL_STRENGTH_RESPONSE" [
    Fixed "isEnable" 1 []].

Definition cACTION_BML_SET_CLIENT_BAND_STEERING_REQUEST : VsClass :=
  mkVsClass ACTION_BML 0x40 "cACTION_BML_SET_CLIENT_BAND_STEERING_REQUEST" [
    Fixed "isEnable" 1 []].

Definition cACTION_BML_SET_CLIENT_BAND_STEERING_RESPONSE : VsClass :=
  mkVsClass ACTION_BML 0x41 "cACTION_BML_SET_CLIENT_BAND_STEERING_RESPONSE" [].

Definition cACTION_BML_GET_CLIENT_BAND_STEERING_REQUEST : VsClass :=
  mkVsClass ACTION_BML 0x42 "cACTION_BML_GET_CLIENT_BAND_STEERING_REQUEST" [].

Definition cACTION_BML_GET_CLIENT_BAND_STEERING_RESPONSE : VsClass :=
  mkVsClass ACTION_BML 0x43 "cACTION_BML_GET_CLIENT_BAND_STEERING_RESPONSE" [
    Fixed "isEnable" 1 []].

Definition cACTION_BML_SET_IRE_ROAMING_REQUEST : VsClass :=
  mkVsClass ACTION_BML 0x44 "cACTION_BML_SET_IRE_ROAMING_REQUEST" [
    Fixed "isEnable" 1 []].

Definition cACTION_BML_SET_IRE_ROAMING_RESPONSE : VsClass :=
  mkVsClass ACTION_BML 0x45 "cACTION_BML_SET_IRE_ROAMING_RESPONSE" [].

Definition cACTION_BML_GET_IRE_ROAMING_REQUEST : VsClass :=
  mkVsClass ACTION_BML 0x46 "cACTION_BML_GET_IRE_ROAMING_REQUEST" [].

Definition cACTION_BML_GET_IRE_ROAMING_RESPONSE : VsClass :=
  mkVsClass ACTION_BML 0x47 "cACTION_BML_GET_IRE_ROAMING_RESPONSE" [
    Fixed "isEnable" 1 []].

Definition cACTION_BML_SET_LOAD_BALANCER_REQUEST : VsClass :=
  mkVsClass ACTION_BML 0x48 "cACTION_BML_SET_LOAD_BALANCER_REQUEST" [
    Fixed "isEnable" 1 []].

Definition cACTION_BML_SET_LOAD_BALANCER_RESPONSE : VsClass :=
  mkVsClass ACTION_BML 0x49 "cACTION_BML_SET_LOAD_BALANCER_RESPONSE" [].

Definition cACTION_BML_GET_LOAD_BALANCER_REQUEST : VsClass :=
  mkVsClass ACTION_BML 0x4a "cACTION_BML_GET_LOAD_BALANCER_REQUEST" [].

Definition cACTION_BML_GET_LOAD_BALANCER_RESPONSE : VsClass :=
  mkVsClass ACTION_BML 0x4b "cACTION_BML_GET_LOAD_BALANCER_RESPONSE" [
    Fixed "isEnable" 1 []].

Definition cACTION_BML_SET_SERVICE_FAIRNESS_REQUEST : VsClass :=
  mkVsClass ACTION_BML 0x4c "cACTION_BML_SET_SERVICE_FAIRNESS_REQUEST" [
    Fixed "isEnable" 1 []].

Definition cACTION_BML_SET_SERVICE_FAIRNESS_RESPONSE : VsClass :=
  mkVsClass ACTION_BML 0x4d "cACTION_BML_SET_SERVICE_FAIRNESS_RESPONSE" [].

Definition cACTION_BML_GET_SERVICE_FAIRNESS_REQUEST : VsClass :=
  mkVsClass ACTION_BML 0x4e "cACTION_BML_GET_SERVICE_FAIRNESS_REQUEST" [].

Definition cACTION_BML_GET_SERVICE_FAIRNESS_RESPONSE : VsClass :=
  mkVsClass ACTION_BML 0x4f "cACTION_BML_GET_SERVICE_FAIRNESS_RESPONSE" [
    Fixed "isEnable" 1 []].

Definition cACTION_BML_CHANGE_MODULE_LOGGING_LEVEL_REQUEST : VsClass :=
  mkVsClass ACTION_BML 0x8c "cACTION_BML_CHANGE_MODULE_LOGGING_LEVEL_REQUEST" [
    Fixed "params" 9 []].

Definition cACTION_BML_CHANGE_MODULE_LOGGING_LEVEL_RESPONSE : VsClass :=
  mkVsClass ACTION_BML 0x8d "cACTION_BML_CHANGE_MODULE_LOGGING_LEVEL_RESPONSE" [].

Definition cACTION_BML_WIFI_CREDENTIALS_SET_REQUEST : VsClass :=
  mkVsClass ACTION_BML 0x6e "cACTION_BML_WIFI_CREDENTIALS_SET_REQUEST" [
    Fixed "al_mac" 6 []; Fixed "authentication_type" 2 [(0, 2)];
    Fixed "encryption_type" 2 [(0, 2)]; Fixed "fronthaul" 1 []; Fixed "backhaul" 1 [];
    Fixed "ssid_size" 1 []; Counted "ssid" (Len8 "ssid_size") 1 []; Fixed "network_key_size" 1 [];
    Counted "network_key" (Len8 "network_key_size") 1 []; Fixed "operating_classes_size" 1 [];
    Counted "operating_classes" (Len8 "operating_classes_size") 1 []].

Definition cACTION_BML_WIFI_CREDENTIALS_SET_RESPONSE : VsClass :=
  mkVsClass ACTION_BML 0x6f "cACTION_BML_WIFI_CREDENTIALS_SET_RESPONSE" [
    Fixed "error_code" 4 [(0, 4)]].

Definition cACTION_BML_SET_RESTRICTED_CHANNELS_REQUEST : VsClass :=
  mkVsClass ACTION_BML 0x5c "cACTION_BML_SET_RESTRICTED_CHANNELS_REQUEST" [
    Fixed "params" 47 []].

Definition cACTION_BML_SET_RESTRICTED_CHANNELS_RESPONSE : VsClass :=
  mkVsClass ACTION_BML 0x5d "cACTION_BML_SET_RESTRICTED_CHANNELS_RESPONSE" [
    Fixed "error_code" 4 [(0, 4)]].

Definition cACTION_BML_GET_RESTRICTED_CHANNELS_REQUEST : VsClass :=
  mkVsClass ACTION_BML 0x5e "cACTION_BML_GET_RESTRICTED_CHANNELS_REQUEST" [
    Fixed "params" 47 []].

Definition cACTION_BML_GET_RESTRICTED_CHANNELS_RESPONSE : VsClass :=
  mkVsClass ACTION_BML 0x5f "cACTION_BML_GET_RESTRICTED_CHANNELS_RESPONSE" [
    Fixed "params" 47 []].

Definition cACTION_BML_SET_CERTIFICATION_MODE_REQUEST : VsClass :=
  mkVsClass ACTION_BML 0x60 "cACTION_BML_SET_CERTIFICATION_MODE_REQUEST" [
    Fixed "isEnable" 1 []].

Definition cACTION_BML_SET_CERTIFICATION_MODE_RESPONSE : VsClass :=
  mkVsClass ACTION_BML 0x61 "cACTION_BML_SET_CERTIFICATION_MODE_RESPONSE" [].

Definition cACTION_BML_GET_CERTIFICATION_MODE_REQUEST : VsClass :=
  mkVsClass ACTION_BML 0x62 "cACTION_BML_GET_CERTIFICATION_MODE_REQUEST" [].

Definition cACTION_BML_GET_CERTIFICATION_MODE_RESPONSE : VsClass :=
  mkVsClass ACTION_BML 0x63 "cACTION_BML_GET_CERTIFICATION_MODE_RESPONSE" [
    Fixed "isEnable" 1 []].

Definition cACTION_BML_SET_VAP_LIST_CREDENTIALS_REQUEST : VsClass :=
  mkVsClass ACTION_BML 0x96 "cACTION_BML_SET_VAP_LIST_CREDENTIALS_REQUEST" [
    Fixed "result" 4 [(0, 4)]; Fixed "vap_list_size" 1 [];
    Counted "vap_list" (Len8 "vap_list_size") 125 []].

Definition cACTION_BML_SET_VAP_LIST_CREDENTIALS_RESPONSE : VsClass :=
  mkVsClass ACTION_BML 0x97 "cACTION_BML_SET_VAP_LIST_CREDENTIALS_RESPONSE" [
    Fixed "result" 4 [(0, 4)]].

Definition cACTION_BML_GET_VAP_LIST_CREDENTIALS_RESPONSE : VsClass :=
  mkVsClass ACTION_BML 0x99 "cACTION_BML_GET_VAP_LIST_CREDENTIALS_RESPONSE" [
    Fixed "result" 4 [(0, 4)]; Fixed "vap_list_size" 1 [];
    Counted "vap_list" (Len8 "vap_list_size") 125 []].

Definition cACTION_BML_GET_VAP_LIST_CREDENTIALS_REQUEST : VsClass :=
  mkVsClass ACTION_BML 0x98 "cACTION_BML_GET_VAP_LIST_CREDENTIALS_REQUEST" [
    Fixed "result" 4 [(0, 4)]].

Definition cACTION_BML_STEERING_SET_GROUP_REQUEST : VsClass :=
  mkVsClass ACTION_BML 0xa3 "cACTION_BML_STEERING_SET_GROUP_REQUEST" [
    Fixed "steeringGroupIndex" 4 [(0, 4)]; Tail "ap_cfgs" 22 [(6, 4); (10, 4); (14, 4); (18, 4)]].

Definition cACTION_BML_STEERING_SET_GROUP_RESPONSE : VsClass :=
  mkVsClass ACTION_BML 0xa4 "cACTION_BML_STEERING_SET_GROUP_RESPONSE" [
    Fixed "error_code" 4 [(0, 4)]].

Definition cACTION_BML_STEERING_CLIENT_SET_REQUEST : VsClass :=
  mkVsClass ACTION_BML 0xa5 "cACTION_BML_STEERING_CLIENT_SET_REQUEST" [
    Fixed "steeringGroupIndex" 4 [(0, 4)]; Fixed "bssid" 6 []; Fixed "client_mac" 6 [];
    Fixed "config" 32 [(0, 4); (4, 4); (8, 4); (12, 4); (16, 4); (20, 4); (24, 4); (28, 4)];
    Fixed "remove" 1 []].

Definition cACTION_BML_STEERING_CLIENT_SET_RESPONSE : VsClass :=
  mkVsClass ACTION_BML 0xa6 "cACTION_BML_STEERING_CLIENT_SET_RESPONSE" [
    Fixed "error_code" 4 [(0, 4)]].

Definition cACTION_BML_STEERING_EVENT_REGISTER_UNREGISTER_REQUEST : VsClass :=
  mkVsClass ACTION_BML 0xa7 "cACTION_BML_STEERING_EVENT_REGISTER_UNREGISTER_REQUEST" [
    Fixed "unregister" 1 []].

Definition cACTION_BML_STEERING_EVENT_REGISTER_UNREGISTER_RESPONSE : VsClass :=
  mkVsClass ACTION_BML 0xa8 "cACTION_BML_STEERING_EVENT_REGISTER_UNREGISTER_RESPONSE" [
    Fixed "error_code" 4 [(0, 4)]].

Definition cACTION_BML_STEERING_CLIENT_DISCONNECT_REQUEST : VsClass :=
  mkVsClass ACTION_BML 0xa9 "cACTION_BML_STEERING_CLIENT_DISCONNECT_REQUEST" [
    Fixed "steeringGroupIndex" 4 [(0, 4)]; Fixed "bssid" 6 []; Fixed "client_mac" 6 [];
    Fixed "type" 1 []; Fixed "reason" 4 [(0, 4)]].

Definition cACTION_BML_STEERING_CLIENT_DISCONNECT_RESPONSE : VsClass :=
  mkVsClass ACTION_BML 0xaa "cACTION_BML_STEERING_CLIENT_DISCONNECT_RESPONSE" [
    Fixed "error_code" 4 [(0, 4)]].

Definition cACTION_BML_STEERING_CLIENT_MEASURE_REQUEST : VsClass :=
  mkVsClass ACTION_BML 0xab "cACTION_BML_STEERING_CLIENT_MEASURE_REQUEST" [
    Fixed "steeringGroupIndex" 4 [(0, 4)]; Fixed "bssid" 6 []; Fixed "client_mac" 6 []].

Definition cACTION_BML_STEERING_CLIENT_MEASURE_RESPONSE : VsClass :=
  mkVsClass ACTION_BML 0xac "cACTION_BML_STEERING_CLIENT_MEASURE_RESPONSE" [
    Fixed "error_code" 4 [(0, 4)]].

Definition cACTION_BML_STEERING_EVENTS_UPDATE : VsClass :=
  mkVsClass ACTION_BML 0xb9 "cACTION_BML_STEERING_EVENTS_UPDATE" [
    Fixed "buffer_size" 4 [(0, 4)]; Counted "buffer" (Len32 "buffer_size") 1 []].

Definition cACTION_BML_TRIGGER_TOPOLOGY_QUERY : VsClass :=
  mkVsClass ACTION_BML 0xbf "cACTION_BML_TRIGGER_TOPOLOGY_QUERY" [
    Fixed "al_mac" 6 []].

Definition cACTION_BML_TOPOLOGY_RESPONSE : VsClass :=
  mkVsClass ACTION_BML 0xc0 "cACTION_BML_TOPOLOGY_RESPONSE" [
    Fixed "device_data" 135 []; Fixed "result" 4 [(0, 4)]].

Definition cACTION_BML_REGISTER_TOPOLOGY_QUERY : VsClass :=
  mkVsClass ACTION_BML 0xc1 "cACTION_BML_REGISTER_TOPOLOGY_QUERY" [].

Definition cACTION_BML_UNREGISTER_TOPOLOGY_QUERY : VsClass :=
  mkVsClass ACTION_BML 0xc2 "cACTION_BML_UNREGISTER_TOPOLOGY_QUERY" [].

Definition cACTION_BML_TRIGGER_CHANNEL_SELECTION_REQUEST : VsClass :=
  mkVsClass ACTION_BML 0xc3 "cACTION_BML_TRIGGER_CHANNEL_SELECTION_REQUEST" [
    Fixed "radio_mac" 6 []; Fixed "channel" 1 []; Fixed "bandwidth" 1 []; Fixed "csa_count" 1 []].

Definition cACTION_BML_TRIGGER_CHANNEL_SELECTION_RESPONSE : VsClass :=
  mkVsClass ACTION_BML 0xc4 "cACTION_BML_TRIGGER_CHANNEL_SELECTION_RESPONSE" [
    Fixed "code" 1 []].

Definition cACTION_BML_CHANNEL_SCAN_SET_CONTINUOUS_PARAMS_REQUEST : VsClass :=
  mkVsClass ACTION_BML 0xc8 "cACTION_BML_CHANNEL_SCAN_SET_CONTINUOUS_PARAMS_REQUEST" [
    Fixed "radio_mac" 6 []; Fixed "params" 137 [(0, 4); (4, 4)]].

Definition cACTION_BML_CHANNEL_SCAN_SET_CONTINUOUS_PARAMS_RESPONSE : VsClass :=
  mkVsClass ACTION_BML 0xc9 "cACTION_BML_CHANNEL_SCAN_SET_CONTINUOUS_PARAMS_RESPONSE" [
    Fixed "op_error_code" 1 []].

Definition cACTION_BML_CHANNEL_SCAN_GET_CONTINUOUS_PARAMS_REQUEST : VsClass :=
  mkVsClass ACTION_BML 0xca "cACTION_BML_CHANNEL_SCAN_GET_CONTINUOUS_PARAMS_REQUEST" [
    Fixed "radio_mac" 6 []].

Definition cACTION_BML_CHANNEL_SCAN_GET_CONTINUOUS_PARAMS_RESPONSE : VsClass :=
  mkVsClass ACTION_BML 0xcb "cACTION_BML_CHANNEL_SCAN_GET_CONTINUOUS_PARAMS_RESPONSE" [
    Fixed "params" 137 [(0, 4); (4, 4)]].

Definition cACTION_BML_CHANNEL_SCAN_SET_CONTINUOUS_ENABLE_REQUEST : VsClass :=
  mkVsClass ACTION_BML 0xcc "cACTION_BML_CHANNEL_SCAN_SET_CONTINUOUS_ENABLE_REQUEST" [
    Fixed "radio_mac" 6 []; Fixed "isEnable" 1 []].

Definition cACTION_BML_CHANNEL_SCAN_SET_CONTINUOUS_ENABLE_RESPONSE : VsClass :=
  mkVsClass ACTION_BML 0xcd "cACTION_BML_CHANNEL_SCAN_SET_CONTINUOUS_ENABLE_RESPONSE" [
    Fixed "op_error_code" 1 []].

Definition cACTION_BML_CHANNEL_SCAN_GET_CONTINUOUS_ENABLE_REQUEST : VsClass :=
  mkVsClass ACTION_BML 0xce "cACTION_BML_CHANNEL_SCAN_GET_CONTINUOUS_ENABLE_REQUEST" [
    Fixed "radio_mac" 6 []].

Definition cACTION_BML_CHANNEL_SCAN_GET_CONTINUOUS_ENABLE_RESPONSE : VsClass :=
  mkVsClass ACTION_BML 0xcf "cACTION_BML_CHANNEL_SCAN_GET_CONTINUOUS_ENABLE_RESPONSE" [
    Fixed "isEnable" 1 []].

Definition cACTION_BML_CHANNEL_SCAN_START_SCAN_REQUEST : VsClass :=
  mkVsClass ACTION_BML 0xd0 "cACTION_BML_CHANNEL_SCAN_START_SCAN_REQUEST" [
    Fixed "scan_params" 139 [(6, 4)]].

Definition cACTION_BML_CHANNEL_SCAN_START_SCAN_RESPONSE : VsClass :=
  mkVsClass ACTION_BML 0xd1 "cACTION_BML_CHANNEL_SCAN_START_SCAN_RESPONSE" [
    Fixed "op_error_code" 1 []].

Definition cACTION_BML_CHANNEL_SCAN_GET_RESULTS_REQUEST : VsClass :=
  mkVsClass ACTION_BML 0xd2 "cACTION_BML_CHANNEL_SCAN_GET_RESULTS_REQUEST" [
    Fixed "radio_mac" 6 []; Fixed "scan_mode" 1 []].

Definition cACTION_BML_CHANNEL_SCAN_GET_RESULTS_RESPONSE : VsClass :=
  mkVsClass ACTION_BML 0xd3 "cACTION_BML_CHANNEL_SCAN_GET_RESULTS_RESPONSE" [
    Fixed "result_status" 1 []; Fixed "op_error_code" 1 []; Fixed "last" 1 [];
    Fixed "results_size" 1 [];
    Counted "results" (Len8 "results_size") 169 [(43, 4); (47, 4); (51, 4); (82, 4); (86, 4);

    (90, 4); (94, 4); (98, 4); (102, 4); (106, 4); (110, 4); (114, 4); (118, 4); (122, 4);

    (126, 4); (130, 4); (134, 4); (138, 4); (142, 4); (146, 4); (150, 4); (154, 4); (158, 4);
      (162, 2); (164, 4)]].

Definition cACTION_BML_WIFI_CREDENTIALS_UPDATE_REQUEST : VsClass :=
  mkVsClass ACTION_BML 0x70 "cACTION_BML_WIFI_CREDENTIALS_UPDATE_REQUEST" [].

Definition cACTION_BML_WIFI_CREDENTIALS_UPDATE_RESPONSE : VsClass :=
  mkVsClass ACTION_BML 0x71 "cACTION_BML_WIFI_CREDENTIALS_UPDATE_RESPONSE" [
    Fixed "error_code" 4 [(0, 4)]].

Definition cACTION_BML_WIFI_CREDENTIALS_CLEAR_REQUEST : VsClass :=
  mkVsClass ACTION_BML 0x72 "cACTION_BML_WIFI_CREDENTIALS_CLEAR_REQUEST" [
    Fixed "al_mac" 6 []].

Definition cACTION_BML_WIFI_CREDENTIALS_CLEAR_RESPONSE : VsClass :=
  mkVsClass ACTION_BML 0x73 "cACTION_BML_WIFI_CREDENTIALS_CLEAR_RESPONSE" [
    Fixed "error_code" 4 [(0, 4)]].

Definition cACTION_BML_CLIENT_GET_CLIENT_LIST_REQUEST : VsClass :=
  mkVsClass ACTION_BML 0xd7 "cACTION_BML_CLIENT_GET_CLIENT_LIST_REQUEST" [].

Definition cACTION_BML_ADD_UNASSOCIATED_STATION_STATS_REQUEST : VsClass :=
  mkVsClass ACTION_BML 0xe9 "cACTION_BML_ADD_UNASSOCIATED_STATION_STATS_REQUEST" [
    Fixed "mac_address" 6 []; Fixed "agent_mac_address" 6 []; Fixed "channel" 1 [];
    Fixed "operating_class" 1 []].

Definition cACTION_BML_REMOVE_UNASSOCIATED_STATION_STATS_REQUEST : VsClass :=
  mkVsClass ACTION_BML 0xea "cACTION_BML_REMOVE_UNASSOCIATED_STATION_STATS_REQUEST" [
    Fixed "mac_address" 6 []; Fixed "agent_mac_address" 6 []].

Definition cACTION_BML_GET_UNASSOCIATED_STATIONS_STATS_REQUEST : VsClass :=
  mkVsClass ACTION_BML 0xeb "cACTION_BML_GET_UNASSOCIATED_STATIONS_STATS_REQUEST" [].

Definition cACTION_BML_GET_UNASSOCIATED_STATIONS_STATS_RESPONSE : VsClass :=
  mkVsClass ACTION_BML 0xec "cACTION_BML_GET_UNASSOCIATED_STATIONS_STATS_RESPONSE" [
    Fixed "sta_list_length" 1 []; Counted "sta_list" (Len8 "sta_list_length") 48 []].

Definition cACTION_BML_CLIENT_GET_CLIENT_LIST_RESPONSE : VsClass :=
  mkVsClass ACTION_BML 0xd8 "cACTION_BML_CLIENT_GET_CLIENT_LIST_RESPONSE" [
    Fixed "result" 1 []; Fixed "client_list_size" 4 [(0, 4)];
    Counted "client_list" (Len32 "client_list_size") 6 []].

Definition cACTION_BML_CLIENT_SET_CLIENT_REQUEST : VsClass :=
  mkVsClass ACTION_BML 0xd9 "cACTION_BML_CLIENT_SET_CLIENT_REQUEST" [
    Fixed "sta_mac" 6 []; Fixed "client_config" 7 [(3, 4)]].

Definition cACTION_BML_CLIENT_SET_CLIENT_RESPONSE : VsClass :=
  mkVsClass ACTION_BML 0xda "cACTION_BML_CLIENT_SET_CLIENT_RESPONSE" [
    Fixed "result" 1 []].

Definition cACTION_BML_CLIENT_GET_CLIENT_REQUEST : VsClass :=
  mkVsClass ACTION_BML 0xdb "cACTION_BML_CLIENT_GET_CLIENT_REQUEST" [
    Fixed "sta_mac" 6 []].

Definition cACTION_BML_CLIENT_GET_CLIENT_RESPONSE : VsClass :=
  mkVsClass ACTION_BML 0xdc "cACTION_BML_CLIENT_GET_CLIENT_RESPONSE" [
    Fixed "result" 1 []; Fixed "client" 24 [(6, 4); (20, 4)]].

Definition cACTION_BML_CLIENT_CLEAR_CLIENT_REQUEST : VsClass :=
  mkVsClass ACTION_BML 0xdd "cACTION_BML_CLIENT_CLEAR_CLIENT_REQUEST" [
    Fixed "sta_mac" 6 []].

Definition cACTION_BML_CLIENT_CLEAR_CLIENT_RESPONSE : VsClass :=
  mkVsClass ACTION_BML 0xde "cACTION_BML_CLIENT_CLEAR_CLIENT_RESPONSE" [
    Fixed "result" 1 []].

Definition cACTION_BML_SET_CLIENT_ROAMING_11K_SUPPORT_REQUEST : VsClass :=
  mkVsClass ACTION_BML 0xe1 "cACTION_BML_SET_CLIENT_ROAMING_11K_SUPPORT_REQUEST" [
    Fixed "isEnable" 1 []].

Definition cACTION_BML_SET_CLIENT_ROAMING_11K_SUPPORT_RESPONSE : VsClass :=
  mkVsClass ACTION_BML 0xe2 "cACTION_BML_SET_CLIENT_ROAMING_11K_SUPPORT_RESPONSE" [].

Definition cACTION_BML_GET_CLIENT_ROAMING_11K_SUPPORT_REQUEST : VsClass :=
  mkVsClass ACTION_BML 0xe3 "cACTION_BML_GET_CLIENT_ROAMING_11K_SUPPORT_REQUEST" [].

Definition cACTION_BML_GET_CLIENT_ROAMING_11K_SUPPORT_RESPONSE : VsClass :=
  mkVsClass ACTION_BML 0xe4 "cACTION_BML_GET_CLIENT_ROAMING_11K_SUPPORT_RESPONSE" [
    Fixed "isEnable" 1 []].

Definition cACTION_BML_SET_SELECTION_CHANNEL_POOL_REQUEST : VsClass :=
  mkVsClass ACTION_BML 0xe5 "cACTION_BML_SET_SELECTION_CHANNEL_POOL_REQUEST" [
    Fixed "radio_mac" 6 []; Fixed "channel_pool_size" 1 []; Array "channel_pool" 128 1 []].

Definition cACTION_BML_SET_SELECTION_CHANNEL_POOL_RESPONSE : VsClass :=
  mkVsClass ACTION_BML 0xe6 "cACTION_BML_SET_SELECTION_CHANNEL_POOL_RESPONSE" [
    Fixed "success" 1 []].

Definition cACTION_BML_GET_SELECTION_CHANNEL_POOL_REQUEST : VsClass :=
  mkVsClass ACTION_BML 0xe7 "cACTION_BML_GET_SELECTION_CHANNEL_POOL_REQUEST" [
    Fixed "radio_mac" 6 []].

Definition cACTION_BML_GET_SELECTION_CHANNEL_POOL_RESPONSE : VsClass :=
  mkVsClass ACTION_BML 0xe8 "cACTION_BML_GET_SELECTION_CHANNEL_POOL_RESPONSE" [
    Fixed "success" 1 []; Fixed "channel_pool_size" 1 []; Array "channel_pool" 128 1 []].

Definition cACTION_BML_UNASSOC_STA_RCPI_QUERY_REQUEST : VsClass :=
  mkVsClass ACTION_BML 0xed "cACTION_BML_UNASSOC_STA_RCPI_QUERY_REQUEST" [
    Fixed "sta_mac" 6 []; Fixed "opclass" 2 [(0, 2)]; Fixed "channel" 1 []].

Definition cACTION_BML_UNASSOC_STA_RCPI_QUERY_RESPONSE : VsClass :=
  mkVsClass ACTION_BML 0xee "cACTION_BML_UNASSOC_STA_RCPI_QUERY_RESPONSE" [
    Fixed "op_error_code" 1 []].

Definition cACTION_BML_GET_UNASSOC_STA_QUERY_RESULT_REQUEST : VsClass :=
  mkVsClass ACTION_BML 0xef "cACTION_BML_GET_UNASSOC_STA_QUERY_RESULT_REQUEST" [
    Fixed "sta_mac" 6 []].

Definition cACTION_BML_GET_UNASSOC_STA_QUERY_RESULT_RESPONSE : VsClass :=
  mkVsClass ACTION_BML 0xf0 "cACTION_BML_GET_UNASSOC_STA_QUERY_RESULT_RESPONSE" [
    Fixed "sta_mac" 6 []; Fixed "opclass" 2 [(0, 2)]; Fixed "channel" 1 []; Fixed "rcpi" 1 [];
    Fixed "measurement_delta" 4 [(0, 4)]; Fixed "op_error_code" 1 []].

Definition cACTION_CLI_ENABLE_DIAGNOSTICS_MEASUREMENTS : VsClass :=
  mkVsClass ACTION_CLI 0x14 "cACTION_CLI_ENABLE_DIAGNOSTICS_MEASUREMENTS" [
    Fixed "isEnable" 1 []].

Definition cACTION_CLI_ENABLE_DEBUG : VsClass :=
  mkVsClass ACTION_CLI 0x3 "cACTION_CLI_ENABLE_DEBUG" [
    Fixed "isEnable" 1 []].

Definition cACTION_CLI_SET_SLAVES_STOP_ON_FAILURE_ATTEMPTS : VsClass :=
  mkVsClass ACTION_CLI 0x15 "cACTION_CLI_SET_SLAVES_STOP_ON_FAILURE_ATTEMPTS" [
    Fixed "attempts" 4 [(0, 4)]].

Definition cACTION_CLI_RESPONSE_INT : VsClass :=
  mkVsClass ACTION_CLI 0x2 "cACTION_CLI_RESPONSE_INT" [
    Fixed "isOK" 1 []; Fixed "currentValue" 1 []].

Definition cACTION_CLI_RESPONSE_STR : VsClass :=
  mkVsClass ACTION_CLI 0x1 "cACTION_CLI_RESPONSE_STR" [
    Fixed "buffer_size" 4 [(0, 4)]; Counted "buffer" (Len32 "buffer_size") 1 []].

Definition cACTION_CLI_CROSS_RX_RSSI_MEASUREMENT : VsClass :=
  mkVsClass ACTION_CLI 0x1f "cACTION_CLI_CROSS_RX_RSSI_MEASUREMENT" [
    Fixed "client_mac" 6 []; Fixed "hostap_mac" 6 []; Fixed "center_frequency" 2 [(0, 2)]].

Definition cACTION_CLI_OPTIMAL_PATH_TASK : VsClass :=
  mkVsClass ACTION_CLI 0x21 "cACTION_CLI_OPTIMAL_PATH_TASK" [
    Fixed "client_mac" 6 []].

Definition cACTION_CLI_LOAD_BALANCER_TASK : VsClass :=
  mkVsClass ACTION_CLI 0x22 "cACTION_CLI_LOAD_BALANCER_TASK" [
    Fixed "ap_mac" 6 []].

Definition cACTION_CLI_IRE_NETWORK_OPTIMIZATION_TASK : VsClass :=
  mkVsClass ACTION_CLI 0x23 "cACTION_CLI_IRE_NETWORK_OPTIMIZATION_TASK" [].

Definition cACTION_CLI_DUMP_NODE_INFO : VsClass :=
  mkVsClass ACTION_CLI 0x1e "cACTION_CLI_DUMP_NODE_INFO" [
    Fixed "mac" 6 []].

Definition cACTION_CLI_BACKHAUL_ROAM_REQUEST : VsClass :=
  mkVsClass ACTION_CLI 0x25 "cACTION_CLI_BACKHAUL_ROAM_REQUEST" [
    Fixed "slave_mac" 6 []; Fixed "bssid" 6 []].

Definition cACTION_CLI_CLIENT_ALLOW_REQUEST : VsClass :=
  mkVsClass ACTION_CLI 0x50 "cACTION_CLI_CLIENT_ALLOW_REQUEST" [
    Fixed "client_mac" 6 []; Fixed "hostap_mac" 6 []].

Definition cACTION_CLI_CLIENT_DISALLOW_REQUEST : VsClass :=
  mkVsClass ACTION_CLI 0x51 "cACTION_CLI_CLIENT_DISALLOW_REQUEST" [
    Fixed "client_mac" 6 []; Fixed "hostap_mac" 6 []].

Definition cACTION_CLI_CLIENT_DISCONNECT_REQUEST : VsClass :=
  mkVsClass ACTION_CLI 0x52 "cACTION_CLI_CLIENT_DISCONNECT_REQUEST" [
    Fixed "client_mac" 6 []; Fixed "type" 1 []; Fixed "reason" 4 [(0, 4)]].

Definition cACTION_CLI_CLIENT_BSS_STEER_REQUEST : VsClass :=
  mkVsClass ACTION_CLI 0x53 "cACTION_CLI_CLIENT_BSS_STEER_REQUEST" [
    Fixed "client_mac" 6 []; Fixed "bssid" 6 []; Fixed "disassoc_timer_ms" 4 [(0, 4)]].

Definition cACTION_CLI_CLIENT_BEACON_11K_REQUEST : VsClass :=
  mkVsClass ACTION_CLI 0x56 "cACTION_CLI_CLIENT_BEACON_11K_REQUEST" [
    Fixed "client_mac" 6 []; Fixed "bssid" 6 []; Array "ssid" 36 1 [];
    Fixed "use_optional_ssid" 1 []; Fixed "channel" 1 []; Fixed "measurement_mode" 1 [];
    Fixed "duration" 2 [(0, 2)]; Fixed "rand_ival" 2 [(0, 2)]; Fixed "repeats" 2 [(0, 2)];
    Fixed "op_class" 2 [(0, 2)]].

Definition cACTION_CLI_HOSTAP_CHANNEL_SWITCH_REQUEST : VsClass :=
  mkVsClass ACTION_CLI 0x7a "cACTION_CLI_HOSTAP_CHANNEL_SWITCH_REQUEST" [
    Fixed "mac" 6 []; Fixed "cs_params" 9 [(5, 2)]].

Definition cACTION_CLI_HOSTAP_SET_NEIGHBOR_11K_REQUEST : VsClass :=
  mkVsClass ACTION_CLI 0x7b "cACTION_CLI_HOSTAP_SET_NEIGHBOR_11K_REQUEST" [
    Fixed "ap_mac" 6 []; Fixed "bssid" 6 []; Fixed "channel" 1 []; Fixed "vap_id" 1 []].

Definition cACTION_CLI_HOSTAP_REMOVE_NEIGHBOR_11K_REQUEST : VsClass :=
  mkVsClass ACTION_CLI 0x7c "cACTION_CLI_HOSTAP_REMOVE_NEIGHBOR_11K_REQUEST" [
    Fixed "ap_mac" 6 []; Fixed "bssid" 6 []; Fixed "vap_id" 1 []].

Definition cACTION_CLI_HOSTAP_STATS_MEASUREMENT : VsClass :=
  mkVsClass ACTION_CLI 0x7d "cACTION_CLI_HOSTAP_STATS_MEASUREMENT" [
    Fixed "ap_mac" 6 []].

(** All message classes of this file. *)
Definition controller_classes : list VsClass := [
    cACTION_CONTROL_SLAVE_HANDSHAKE_REQUEST; cACTION_CONTROL_SLAVE_HANDSHAKE_RESPONSE;
    cACTION_CONTROL_SLAVE_JOINED_NOTIFICATION; cACTION_CONTROL_SLAVE_JOINED_RESPONSE;
    cACTION_CONTROL_ARP_QUERY_REQUEST; cACTION_CONTROL_ARP_QUERY_RESPONSE;
    cACTION_CONTROL_CHANGE_MODULE_LOGGING_LEVEL; cACTION_CONTROL_HOSTAP_CSA_ERROR_NOTIFICATION;
    cACTION_CONTROL_HOSTAP_CSA_NOTIFICATION; cACTION_CONTROL_HOSTAP_ACS_NOTIFICATION;
    cACTION_CONTROL_HOSTAP_DFS_CAC_COMPLETED_NOTIFICATION;
    cACTION_CONTROL_HOSTAP_DFS_CHANNEL_AVAILABLE_NOTIFICATION;
    cACTION_CONTROL_HOSTAP_SET_RESTRICTED_FAILSAFE_CHANNEL_REQUEST;
    cACTION_CONTROL_HOSTAP_SET_RESTRICTED_FAILSAFE_CHANNEL_RESPONSE;
    cACTION_CONTROL_HOSTAP_CHANNEL_SWITCH_ACS_START;
    cACTION_CONTROL_HOSTAP_UPDATE_STOP_ON_FAILURE_ATTEMPTS_REQUEST;
    cACTION_CONTROL_HOSTAP_STATS_MEASUREMENT_REQUEST;
    cACTION_CONTROL_HOSTAP_STATS_MEASUREMENT_RESPONSE;
    cACTION_CONTROL_HOSTAP_LOAD_MEASUREMENT_NOTIFICATION;
    cACTION_CONTROL_HOSTAP_SET_NEIGHBOR_11K_REQUEST;
    cACTION_CONTROL_HOSTAP_REMOVE_NEIGHBOR_11K_REQUEST;
    cACTION_CONTROL_HOSTAP_ACTIVITY_NOTIFICATION;
    cACTION_CONTROL_HOSTAP_VAPS_LIST_UPDATE_NOTIFICATION;
    cACTION_CONTROL_HOSTAP_AP_DISABLED_NOTIFICATION;
    cACTION_CONTROL_HOSTAP_AP_ENABLED_NOTIFICATION;
    cACTION_CONTROL_CLIENT_START_MONITORING_REQUEST;
    cACTION_CONTROL_CLIENT_START_MONITORING_RESPONSE;
    cACTION_CONTROL_CLIENT_RX_RSSI_MEASUREMENT_REQUEST;
    cACTION_CONTROL_CLIENT_RX_RSSI_MEASUREMENT_RESPONSE;
    cACTION_CONTROL_CLIENT_RX_RSSI_MEASUREMENT_START_NOTIFICATION;
    cACTION_CONTROL_CLIENT_RX_RSSI_MEASUREMENT_CMD_RESPONSE;
    cACTION_CONTROL_CLIENT_RX_RSSI_MEASUREMENT_NOTIFICATION;
    cACTION_CONTROL_CLIENT_NO_ACTIVITY_NOTIFICATION;
    cACTION_CONTROL_CLIENT_NO_RESPONSE_NOTIFICATION;
    cACTION_CONTROL_CLIENT_NEW_IP_ADDRESS_NOTIFICATION; cACTION_CONTROL_CLIENT_DISCONNECT_REQUEST;
    cACTION_CONTROL_CLIENT_DISCONNECT_RESPONSE; cACTION_CONTROL_CLIENT_DHCP_COMPLETE_NOTIFICATION;
    cACTION_CONTROL_CLIENT_ARP_MONITOR_NOTIFICATION; cACTION_CONTROL_CLIENT_BEACON_11K_REQUEST;
    cACTION_CONTROL_CLIENT_BEACON_11K_RESPONSE; cACTION_CONTROL_STEERING_CLIENT_SET_GROUP_REQUEST;
    cACTION_CONTROL_STEERING_CLIENT_SET_GROUP_RESPONSE;
    cACTION_CONTROL_STEERING_CLIENT_SET_REQUEST; cACTION_CONTROL_STEERING_CLIENT_SET_RESPONSE;
    cACTION_CONTROL_STEERING_EVENT_CLIENT_ACTIVITY_NOTIFICATION;
    cACTION_CONTROL_STEERING_EVENT_SNR_XING_NOTIFICATION;
    cACTION_CONTROL_STEERING_EVENT_PROBE_REQ_NOTIFICATION;
    cACTION_CONTROL_STEERING_EVENT_AUTH_FAIL_NOTIFICATION;
    cACTION_CONTROL_CHANNEL_SCAN_TRIGGER_SCAN_REQUEST;
    cACTION_CONTROL_CHANNEL_SCAN_TRIGGER_SCAN_RESPONSE;
    cACTION_CONTROL_CHANNEL_SCAN_DUMP_RESULTS_REQUEST;
    cACTION_CONTROL_CHANNEL_SCAN_TRIGGERED_NOTIFICATION;
    cACTION_CONTROL_CHANNEL_SCAN_RESULTS_NOTIFICATION;
    cACTION_CONTROL_CHANNEL_SCAN_ABORT_NOTIFICATION;
    cACTION_CONTROL_CHANNEL_SCAN_FINISHED_NOTIFICATION; cACTION_BML_PING_REQUEST;
    cACTION_BML_PING_RESPONSE; cACTION_BML_NW_MAP_REQUEST; cACTION_BML_NW_MAP_RESPONSE;
    cACTION_BML_NW_MAP_UPDATE; cACTION_BML_STATS_UPDATE; cACTION_BML_EVENTS_UPDATE;
    cACTION_BML_REGISTER_TO_NW_MAP_UPDATES_REQUEST;
    cACTION_BML_UNREGISTER_FROM_NW_MAP_UPDATES_REQUEST;
    cACTION_BML_SET_LEGACY_CLIENT_ROAMING_RESPONSE; cACTION_BML_GET_LEGACY_CLIENT_ROAMING_REQUEST;
    cACTION_BML_REGISTER_TO_EVENTS_UPDATES_REQUEST;
    cACTION_BML_UNREGISTER_FROM_EVENTS_UPDATES_REQUEST;
    cACTION_BML_REGISTER_TO_STATS_UPDATES_REQUEST;
    cACTION_BML_UNREGISTER_FROM_STATS_UPDATES_REQUEST;
    cACTION_BML_SET_LEGACY_CLIENT_ROAMING_REQUEST; cACTION_BML_GET_LEGACY_CLIENT_ROAMING_RESPONSE;
    cACTION_BML_SET_CLIENT_ROAMING_REQUEST; cACTION_BML_SET_CLIENT_ROAMING_RESPONSE;
    cACTION_BML_GET_CLIENT_ROAMING_REQUEST; cACTION_BML_GET_CLIENT_ROAMING_RESPONSE;
    cACTION_BML_SET_DFS_REENTRY_REQUEST; cACTION_BML_SET_DFS_REENTRY_RESPONSE;
    cACTION_BML_GET_DFS_REENTRY_REQUEST; cACTION_BML_GET_DFS_REENTRY_RESPONSE;
    cACTION_BML_SET_CLIENT_ROAMING_PREFER_SIGNAL_STRENGTH_REQUEST;
    cACTION_BML_SET_CLIENT_ROAMING_PREFER_SIGNAL_STRENGTH_RESPONSE;
    cACTION_BML_GET_CLIENT_ROAMING_PREFER_SIGNAL_STRENGTH_REQUEST;
    cACTION_BML_GET_CLIENT_ROAMING_PREFER_SIGNAL_STRENGTH_RESPONSE;
    cACTION_BML_SET_CLIENT_BAND_STEERING_REQUEST; cACTION_BML_SET_CLIENT_BAND_STEERING_RESPONSE;
    cACTION_BML_GET_CLIENT_BAND_STEERING_REQUEST; cACTION_BML_GET_CLIENT_BAND_STEERING_RESPONSE;
    cACTION_BML_SET_IRE_ROAMING_REQUEST; cACTION_BML_SET_IRE_ROAMING_RESPONSE;
    cACTION_BML_GET_IRE_ROAMING_REQUEST; cACTION_BML_GET_IRE_ROAMING_RESPONSE;
    cACTION_BML_SET_LOAD_BALANCER_REQUEST; cACTION_BML_SET_LOAD_BALANCER_RESPONSE;
    cACTION_BML_GET_LOAD_BALANCER_REQUEST; cACTION_BML_GET_LOAD_BALANCER_RESPONSE;
    cACTION_BML_SET_SERVICE_FAIRNESS_REQUEST; cACTION_BML_SET_SERVICE_FAIRNESS_RESPONSE;
    cACTION_BML_GET_SERVICE_FAIRNESS_REQUEST; cACTION_BML_GET_SERVICE_FAIRNESS_RESPONSE;
    cACTION_BML_CHANGE_MODULE_LOGGING_LEVEL_REQUEST;
    cACTION_BML_CHANGE_MODULE_LOGGING_LEVEL_RESPONSE; cACTION_BML_WIFI_CREDENTIALS_SET_REQUEST;
    cACTION_BML_WIFI_CREDENTIALS_SET_RESPONSE; cACTION_BML_SET_RESTRICTED_CHANNELS_REQUEST;
    cACTION_BML_SET_RESTRICTED_CHANNELS_RESPONSE; cACTION_BML_GET_RESTRICTED_CHANNELS_REQUEST;
    cACTION_BML_GET_RESTRICTED_CHANNELS_RESPONSE; cACTION_BML_SET_CERTIFICATION_MODE_REQUEST;
    cACTION_BML_SET_CERTIFICATION_MODE_RESPONSE; cACTION_BML_GET_CERTIFICATION_MODE_REQUEST;
    cACTION_BML_GET_CERTIFICATION_MODE_RESPONSE; cACTION_BML_SET_VAP_LIST_CREDENTIALS_REQUEST;
    cACTION_BML_SET_VAP_LIST_CREDENTIALS_RESPONSE; cACTION_BML_GET_VAP_LIST_CREDENTIALS_RESPONSE;
    cACTION_BML_GET_VAP_LIST_CREDENTIALS_REQUEST; cACTION_BML_STEERING_SET_GROUP_REQUEST;
    cACTION_BML_STEERING_SET_GROUP_RESPONSE; cACTION_BML_STEERING_CLIENT_SET_REQUEST;
    cACTION_BML_STEERING_CLIENT_SET_RESPONSE;
    cACTION_BML_STEERING_EVENT_REGISTER_UNREGISTER_REQUEST;
    cACTION_BML_STEERING_EVENT_REGISTER_UNREGISTER_RESPONSE;
    cACTION_BML_STEERING_CLIENT_DISCONNECT_REQUEST;
    cACTION_BML_STEERING_CLIENT_DISCONNECT_RESPONSE; cACTION_BML_STEERING_CLIENT_MEASURE_REQUEST;
    cACTION_BML_STEERING_CLIENT_MEASURE_RESPONSE; cACTION_BML_STEERING_EVENTS_UPDATE;
    cACTION_BML_TRIGGER_TOPOLOGY_QUERY; cACTION_BML_TOPOLOGY_RESPONSE;
    cACTION_BML_REGISTER_TOPOLOGY_QUERY; cACTION_BML_UNREGISTER_TOPOLOGY_QUERY;
    cACTION_BML_TRIGGER_CHANNEL_SELECTION_REQUEST; cACTION_BML_TRIGGER_CHANNEL_SELECTION_RESPONSE;
    cACTION_BML_CHANNEL_SCAN_SET_CONTINUOUS_PARAMS_REQUEST;
    cACTION_BML_CHANNEL_SCAN_SET_CONTINUOUS_PARAMS_RESPONSE;
    cACTION_BML_CHANNEL_SCAN_GET_CONTINUOUS_PARAMS_REQUEST;
    cACTION_BML_CHANNEL_SCAN_GET_CONTINUOUS_PARAMS_RESPONSE;
    cACTION_BML_CHANNEL_SCAN_SET_CONTINUOUS_ENABLE_REQUEST;
    cACTION_BML_CHANNEL_SCAN_SET_CONTINUOUS_ENABLE_RESPONSE;
    cACTION_BML_CHANNEL_SCAN_GET_CONTINUOUS_ENABLE_REQUEST;
    cACTION_BML_CHANNEL_SCAN_GET_CONTINUOUS_ENABLE_RESPONSE;
    cACTION_BML_CHANNEL_SCAN_START_SCAN_REQUEST; cACTION_BML_CHANNEL_SCAN_START_SCAN_RESPONSE;
    cACTION_BML_CHANNEL_SCAN_GET_RESULTS_REQUEST; cACTION_BML_CHANNEL_SCAN_GET_RESULTS_RESPONSE;
    cACTION_BML_WIFI_CREDENTIALS_UPDATE_REQUEST; cACTION_BML_WIFI_CREDENTIALS_UPDATE_RESPONSE;
    cACTION_BML_WIFI_CREDENTIALS_CLEAR_REQUEST; cACTION_BML_WIFI_CREDENTIALS_CLEAR_RESPONSE;
    cACTION_BML_CLIENT_GET_CLIENT_LIST_REQUEST; cACTION_BML_ADD_UNASSOCIATED_STATION_STATS_REQUEST;
    cACTION_BML_REMOVE_UNASSOCIATED_STATION_STATS_REQUEST;
    cACTION_BML_GET_UNASSOCIATED_STATIONS_STATS_REQUEST;
    cACTION_BML_GET_UNASSOCIATED_STATIONS_STATS_RESPONSE;
    cACTION_BML_CLIENT_GET_CLIENT_LIST_RESPONSE; cACTION_BML_CLIENT_SET_CLIENT_REQUEST;
    cACTION_BML_CLIENT_SET_CLIENT_RESPONSE; cACTION_BML_CLIENT_GET_CLIENT_REQUEST;
    cACTION_BML_CLIENT_GET_CLIENT_RESPONSE; cACTION_BML_CLIENT_CLEAR_CLIENT_REQUEST;
    cACTION_BML_CLIENT_CLEAR_CLIENT_RESPONSE; cACTION_BML_SET_CLIENT_ROAMING_11K_SUPPORT_REQUEST;
    cACTION_BML_SET_CLIENT_ROAMING_11K_SUPPORT_RESPONSE;
    cACTION_BML_GET_CLIENT_ROAMING_11K_SUPPORT_REQUEST;
    cACTION_BML_GET_CLIENT_ROAMING_11K_SUPPORT_RESPONSE;
    cACTION_BML_SET_SELECTION_CHANNEL_POOL_REQUEST;
    cACTION_BML_SET_SELECTION_CHANNEL_POOL_RESPONSE;
    cACTION_BML_GET_SELECTION_CHANNEL_POOL_REQUEST;
    cACTION_BML_GET_SELECTION_CHANNEL_POOL_RESPONSE; cACTION_BML_UNASSOC_STA_RCPI_QUERY_REQUEST;
    cACTION_BML_UNASSOC_STA_RCPI_QUERY_RESPONSE; cACTION_BML_GET_UNASSOC_STA_QUERY_RESULT_REQUEST;
    cACTION_BML_GET_UNASSOC_STA_QUERY_RESULT_RESPONSE; cACTION_CLI_ENABLE_DIAGNOSTICS_MEASUREMENTS;
    cACTION_CLI_ENABLE_DEBUG; cACTION_CLI_SET_SLAVES_STOP_ON_FAILURE_ATTEMPTS;
    cACTION_CLI_RESPONSE_INT; cACTION_CLI_RESPONSE_STR; cACTION_CLI_CROSS_RX_RSSI_MEASUREMENT;
    cACTION_CLI_OPTIMAL_PATH_TASK; cACTION_CLI_LOAD_BALANCER_TASK;
    cACTION_CLI_IRE_NETWORK_OPTIMIZATION_TASK; cACTION_CLI_DUMP_NODE_INFO;
    cACTION_CLI_BACKHAUL_ROAM_REQUEST; cACTION_CLI_CLIENT_ALLOW_REQUEST;
    cACTION_CLI_CLIENT_DISALLOW_REQUEST; cACTION_CLI_CLIENT_DISCONNECT_REQUEST;
    cACTION_CLI_CLIENT_BSS_STEER_REQUEST; cACTION_CLI_CLIENT_BEACON_11K_REQUEST;
    cACTION_CLI_HOSTAP_CHANNEL_SWITCH_REQUEST; cACTION_CLI_HOSTAP_SET_NEIGHBOR_11K_REQUEST;
    cACTION_CLI_HOSTAP_REMOVE_NEIGHBOR_11K_REQUEST; cACTION_CLI_HOSTAP_STATS_MEASUREMENT].
