(* ===== verification/BrokerClient.v ===== *)
(** * The client of the message broker

    [BrokerClientImpl] ([broker_client_impl.cpp]), through which the agent and
    the controller use the transport process: subscriptions, configuration,
    CMDUs to be sent, and the CMDUs received. The accessors of [CmduMessage]
    ([CmduMessage.cpp]) that it needs come first. The theorems join the client
    with the broker and the transport at the other end of the socket. *)

From S2P Require Import Prelude Wire SocketFilter Messages Broker TransportState DeDuplication.
From S2P Require Import Interfaces Fragmentation Forwarding LocalBus Strings Streams EventLoop.
From S2P Require Import Tlvf TlvClasses1905 TlvClassesMap CmduMessage CmduTx CmduUtils.

(** ** Accessors of a CMDU *)

(** What the client reads of a [CmduMessage]: [getMessageLength()],
    [getMessageBuff()], [getMessageType()], [getMessageId()]. *)
Record CmduView := mkCmduView { v_length : nat; v_buff : list Z; v_type : Z; v_id : Z }.

Definition swap_16 (v : Z) : Z := be16 (u8 v) (u8 (Z.shiftr v 8)).

(** [cmduhdr->message_type()] or [message_id()], swapped back when the header
    has been swapped. *)
Definition header_field (b : list Z) (off : nat) (swapped : bool) : Z :=
  let v := le16 b off in if swapped then swap_16 v else v.

(** Of a message under construction; a missing header is a null pointer. *)
Definition tx_header_object (t : TxList) : option TxObject :=
  snd <$> list_find (λ x, l_name (tx_layout (x_class x)) = "cCmduHeader") (t_objects t).
Definition tx_view (t : TxList) : option CmduView :=
  x ← tx_header_object t;
  ty ← find_field (x_walk x) "message_type";
  id ← find_field (x_walk x) "message_id";
  Some (mkCmduView (tx_length t) (t_buff t)
          (header_field (t_buff t) ty (x_finalized x)) (header_field (t_buff t) id (x_finalized x))).

(** Of a received message. *)
Definition rx_view (m : ClassList) : option CmduView :=
  o ← getClass "cCmduHeader" m;
  ty ← member o "message_type";
  id ← member o "message_id";
  Some (mkCmduView (getMessageLength m) (m_buff m)
          (header_field (m_buff m) ty (m_swapped m)) (header_field (m_buff m) id (m_swapped m))).

Module broker_client.

(** ** State *)

(** A CMDU handed to the observers by [notify_cmdu_received]. *)
Record Received := mkReceived {
  rc_if_index : Z; rc_dst : sMacAddr; rc_src : sMacAddr; rc_time : Z; rc_cmdu : ClassList;
}.

(** [m_connection] by its descriptor, [m_buffer], the event loop; on the
    kernel's side the bytes that wait to be read and those sent; the calls of
    the observers. *)
Record BrokerClient (H : Type) := mkBrokerClient {
  m_connection : option Z;
  m_buffer : Buffer;
  c_loop : EventLoop H;
  c_pending : list Z;
  c_sent : list Z;
  c_received : list Received;
  c_closed : nat;
}.
Arguments mkBrokerClient {H}.
Arguments m_connection {H}.
Arguments m_buffer {H}.
Arguments c_loop {H}.
Arguments c_pending {H}.
Arguments c_sent {H}.
Arguments c_received {H}.
Arguments c_closed {H}.

(** [sizeof(CmduXxMessage::Metadata) + sizeof(Message::Header) + kMaxFrameLength]. *)
Definition broker_buffer_size : nat := 40 + sizeof_Header + Z.to_nat kMaxFrameLength.

(** What the client finds outside: the kernel's tables and answers, and what
    the stack array of [handle_message] holds before it is written. *)
Record ClientEnv := mkClientEnv {
  ce_epoll : EpollEnv;
  ce_send : list Z → Z;
  ce_stack : list Z;
}.

Section Client.
Context {H : Type} (e : ClientEnv) (client_handlers : EventHandlers H).
Implicit Types c : BrokerClient H.

Definition set_connection v c := mkBrokerClient v (m_buffer c) (c_loop c) (c_pending c) (c_sent c) (c_received c) (c_closed c).
Definition set_buffer v c := mkBrokerClient (m_connection c) v (c_loop c) (c_pending c) (c_sent c) (c_received c) (c_closed c).
Definition set_loop (v : EventLoop H) c := mkBrokerClient (m_connection c) (m_buffer c) v (c_pending c) (c_sent c) (c_received c) (c_closed c).
Definition set_pending v c := mkBrokerClient (m_connection c) (m_buffer c) (c_loop c) v (c_sent c) (c_received c) (c_closed c).
Definition add_sent v c := mkBrokerClient (m_connection c) (m_buffer c) (c_loop c) (c_pending c) (c_sent c ++ v) (c_received c) (c_closed c).
Definition add_received v c := mkBrokerClient (m_connection c) (m_buffer c) (c_loop c) (c_pending c) (c_sent c) (c_received c ++ [v]) (c_closed c).
Definition notify_connection_closed c := mkBrokerClient (m_connection c) (m_buffer c) (c_loop c) (c_pending c) (c_sent c) (c_received c) (S (c_closed c)).

(** ** Construction and end *)

(** The constructor on a connected descriptor; [None] is the [FATAL] log. *)
Definition connect (fd : Z) (loop : EventLoop H) : option (BrokerClient H) :=
  let '(ok, l) := loop_register_handlers (ce_epoll e) fd client_handlers loop in
  if (ok : bool) then Some (mkBrokerClient (Some fd) (mkBuffer broker_buffer_size []) l [] [] [] 0) else None.

Definition close_connection (remove_handlers : bool) c : BrokerClient H :=
  match m_connection c with
  | None => c
  | Some fd =>
    let c := if remove_handlers then set_loop (loop_remove_handlers (ce_epoll e) fd (c_loop c)).2 c else c in
    set_connection None c
  end.

(** [~BrokerClientImpl]. *)
Definition destroy c : BrokerClient H := close_connection true c.

Definition handle_close c : BrokerClient H := notify_connection_closed (close_connection false c).

(** ** Sending *)

(** The result of [send] as a [bool]: true unless it is zero. *)
Definition send_message (m : Message) : stM (BrokerClient H) bool := λ c,
  match m_connection c with
  | None => (false, c)
  | Some _ =>
    let '(ok, b) := serialize_message m (mkBuffer broker_buffer_size []) in
    if negb ok then (false, c)
    else
      let n := ce_send e (b_data b) in
      (negb (n =? 0), add_sent (take (Z.to_nat n) (b_data b)) c)
  end.

(** The subscription of a set of message types, in its order. *)
Definition subscribe_frame (msg_types : list Z) : list Z :=
  [0; ReqType_SUBSCRIBE; Z.of_nat (length msg_types); 0]
  ++ concat ((λ t, le32_bytes (MsgType_value 0 0 t)) <$> msg_types)
  ++ replicate (4 * (MAX_SUBSCRIBE_TYPES - length msg_types)) 0.

Definition subscribe (msg_types : list Z) : stM (BrokerClient H) bool :=
  if (MAX_SUBSCRIBE_TYPES <? length msg_types)%nat then mret false
  else send_message (mkMessage Type_SubscribeMessage (subscribe_frame msg_types)).

Definition IF_NAMESIZE : nat := 16.
Definition name_field (name : list Z) : list Z :=
  default [] (string_utils.copy_string (replicate IF_NAMESIZE 0) name IF_NAMESIZE).
Definition bool_byte (v : bool) : Z := if v then 1 else 0.

Definition configure_interfaces (iface_name bridge_name : list Z) (is_bridge add : bool) : stM (BrokerClient H) bool :=
  send_message (mkMessage Type_InterfaceConfigurationRequestMessage
    ([0] ++ name_field bridge_name ++ name_field iface_name ++ [bool_byte is_bridge; bool_byte add])).

Definition configure_al_mac (al_mac : sMacAddr) : stM (BrokerClient H) bool :=
  send_message (mkMessage Type_AlMacAddressConfigurationMessage ([0] ++ al_mac)).

Definition configure_primary_vlan_id (vlan_id : Z) (add : bool) : stM (BrokerClient H) bool :=
  send_message (mkMessage Type_VlanConfigurationRequestMessage
    ([0; 0] ++ le16_bytes vlan_id ++ [bool_byte add; 0])).

(** [metadata()->length] is a [uint16_t]. *)
Definition tx_metadata (v : CmduView) (dst src : sMacAddr) (iface_index : Z) : CmduMetadata :=
  {| md_cookie := 0; md_dst := dst; md_src := src; md_ether_type := ETH_P_1905_1;
     md_msg_type := u16 (v_type v); md_relay := false; md_preset_message_id := negb (v_id v =? 0);
     md_if_type := 0; md_if_index := iface_index; md_length := u16 (Z.of_nat (v_length v));
     md_received_time := 0 |}.

Definition send_cmdu_message (v : CmduView) (dst src : sMacAddr) (iface_index : Z) : faultM (BrokerClient H) bool :=
  if bool_decide (ZERO_MAC = dst) then fret false
  else if bool_decide (ZERO_MAC = src) then fret false
  else
    let md := tx_metadata v dst src iface_index in
    let n := Z.to_nat (md_length md) in
    if (length (v_buff v) <? n)%nat then fault
    else
      ok ← send_message (mkCmduMessage Type_CmduTxMessage md (take n (v_buff v)));
      fret ok.

(** [send_cmdu]: the message under construction is an argument; it is left
    finalized. *)
Definition send_cmdu (dst src : sMacAddr) (iface_index : Z) : faultM (TxList * BrokerClient H) bool := λ s,
  let '(t, c) := s in
  let '(ok, t) := if t_finalized t then (Some true, t) else tx_finalize t in
  match ok with
  | None => (None, (t, c))
  | Some false => (Some false, (t, c))
  | Some true =>
    match tx_view t with
    | None => (None, (t, c))
    | Some v => let '(r, c) := send_cmdu_message v dst src iface_index c in (r, (t, c))
    end
  end.

(** [forward_cmdu]: swapped for the time of sending. *)
Definition forward_cmdu (dst src : sMacAddr) (iface_index : Z) : faultM (ClassList * BrokerClient H) bool := λ s,
  let '(m, c) := s in
  match swap m with
  | (None, m) => (None, (m, c))
  | (Some _, m) =>
    match rx_view m with
    | None => (None, (m, c))
    | Some v =>
      let '(r, c) := send_cmdu_message v dst src iface_index c in
      match r with
      | None => (None, (m, c))
      | Some r => let '(ok, m) := swap m in ((λ _, r) <$> ok, (m, c))
      end
    end
  end.

(** ** Receiving *)

(** The end of the process by [LOG(FATAL)] while parsing counts as a fault. *)
Definition handle_message (m : Message) : faultM (BrokerClient H) unit := λ c,
  if negb (m_type m =? Type_CmduRxMessage) then (Some tt, c)
  else
    let md := decode_cmdu_metadata (frame m) in
    let data := cmdu_data (frame m) in
    if MESSAGE_BUFFER_LENGTH <? md_length md then (Some tt, c)
    else
      match verify_cmdu data with
      | (None, _) => (None, c)
      | (Some false, _) => (Some tt, c)
      | (Some true, data) =>
        match parse (received (data ++ drop (length data) (ce_stack e))) with
        | (None, _) | (Some Aborted, _) => (None, c)
        | (Some (Parsed false), _) => (Some tt, c)
        | (Some (Parsed true), cmdu_rx) =>
          (Some tt, add_received (mkReceived (md_if_index md) (md_dst md) (md_src md) (md_received_time md) cmdu_rx) c)
        end
      end.

(** The loop of [handle_read]; a parsed message is never empty, so that the
    bytes of the buffer bound the iterations. An exhausted fuel is a fault. *)
Fixpoint handle_messages (fuel : nat) : faultM (BrokerClient H) unit := λ c,
  if (b_length (m_buffer c) =? 0)%nat then (Some tt, c)
  else
    match fuel with
    | O => (None, c)
    | S fuel =>
      match parse_message (m_buffer c) with
      | (None, b) => (Some tt, set_buffer b c)
      | (Some m, b) =>
        match handle_message m (set_buffer b c) with
        | (None, c) => (None, c)
        | (Some _, c) => handle_messages fuel c
        end
      end
    end.

(** [handle_read] where [recv] would give [n] bytes; without a connection it
    reads through a null pointer. *)
Definition handle_read (n : nat) : faultM (BrokerClient H) unit := λ c,
  match m_connection c with
  | None => (None, c)
  | Some _ =>
    let '(result, pending, b) := receive n (c_pending c) (m_buffer c) in
    let c := set_buffer b (set_pending pending c) in
    if result <=? 0 then (Some tt, c) else handle_messages (b_length b) c
  end.

(** ** Events *)

(** What happens to a client on [fd]: bytes arrive, its descriptor is readable, hung
    up or in error, it sends, it is destroyed. The loop removes the handlers
    of a descriptor that hung up before it calls [on_disconnect] or
    [on_error]. *)
Inductive client_event :=
  | EvArrive (bytes : list Z)
  | EvReadable (n : nat)
  | EvHangup
  | EvSend (m : Message)
  | EvDestroy.

Definition client_step (fd : Z) (ev : client_event) : faultM (BrokerClient H) unit := λ c,
  match ev with
  | EvArrive bytes => (Some tt, set_pending (c_pending c ++ bytes) c)
  | EvReadable n =>
    match m_fd_to_event_handlers (c_loop c) !! fd with None => (Some tt, c) | Some _ => handle_read n c end
  | EvHangup =>
    match m_fd_to_event_handlers (c_loop c) !! fd with
    | None => (Some tt, c)
    | Some _ => (Some tt, handle_close (set_loop (loop_remove_handlers (ce_epoll e) fd (c_loop c)).2 c))
    end
  | EvSend m => (Some tt, (send_message m c).2)
  | EvDestroy => (Some tt, destroy c)
  end.

End Client.
End broker_client.

Import broker_client.

(** ** Lemmas: sending *)

Section SendLemmas.
Context {H : Type} (e : ClientEnv).
Implicit Types c : BrokerClient H.

(** The kernel takes what it is given. *)
Definition takes_all (bs : list Z) : Prop := ce_send e bs = Z.of_nat (length bs).

Lemma send_message_run m c : is_Some (m_connection c) →
  (sizeof_Header + length (frame m) ≤ broker_buffer_size)%nat → takes_all (message_bytes m) →
  send_message e m c = (true, add_sent (message_bytes m) c).
Proof.
  intros [fd Hfd] Hfit Hsend. unfold send_message. rewrite Hfd, serialize_message_run by done.
  cbn [negb b_data]. unfold takes_all in Hsend. rewrite Hsend, Nat2Z.id, firstn_all.
  rewrite (proj2 (Z.eqb_neq _ 0)); [done|]. cbn. lia.
Qed.

Lemma send_message_closed m c : m_connection c = None → send_message e m c = (false, c).
Proof. intros Hc. unfold send_message. by rewrite Hc. Qed.

End SendLemmas.

(** *** The header of a message under construction *)

Definition header_walk : Walk := fixed_walk (mkWalk 0 [] []) header_fixed.

(** The first object is the CMDU header; it is finalized when another object
    follows. *)
Definition headed (t : TxList) : Prop := ∃ x l, t_objects t = x :: l ∧ x_class x = tx_header ∧
  x_walk x = header_walk ∧ (l ≠ [] → x_finalized x = true).

Ltac head_solve := split; [done|split; [congruence|split; [congruence|intros; congruence]]].

(** Methods of the last object that keep its class, its members and whether it
    is finalized, as long as it is the header. *)
Lemma on_last_headed {A} (f : TxObject → faultM (list Z) (TxObject * A)) t :
  (∀ x b x' a b', f x b = (Some (x', a), b') → x_class x = tx_header → x_walk x = header_walk →
     x_class x' = tx_header ∧ x_walk x' = header_walk) →
  headed t → headed (on_last f t).2.
Proof.
  intros Hf (x & l & Ht & Hc & Hw & Hfin). unfold on_last. destruct t as [b fl objs]. cbn [t_objects] in *. subst objs.
  destruct (last (x :: l)) as [y|] eqn:El; [|by exists x, l].
  cbn [t_buff]. destruct (f y b) as [[[y' a]|] b'] eqn:E; [|by exists x, l]. cbn [snd].
  apply last_Some in El as [l' El]. destruct l' as [|x' l']; cbn [app] in El; simplify_eq.
  - destruct (Hf _ _ _ _ _ E Hc Hw) as [Hc' Hw']. exists y', []. by cbn.
  - exists x', (l' ++ [y']). cbn [t_objects]. split; [|split_and!; [done..|intros _; apply Hfin; by destruct l']].
    rewrite app_comm_cons, removelast_last. done.
Qed.

Lemma finalize_object_keeps x b x' b' : finalize_object x b = (Some x', b') →
  x_class x' = x_class x ∧ x_walk x' = x_walk x ∧ x_finalized x' = true.
Proof.
  unfold finalize_object. destruct (x_finalized x) eqn:E; [by intros [= <- _]|]. rewrite fbind_run.
  destruct (class_swap _ _) as [[[]|] ?]; cbn; [|done]. by intros [= <- _].
Qed.

Lemma tx_addClass_headed C t : headed t → headed (tx_addClass C t).2.
Proof.
  intros (x & l & Ht & Hc & Hw & Hfin). unfold tx_addClass. destruct t as [b fl objs]. cbn [t_objects t_buff] in *. subst objs.
  destruct (last (x :: l)) as [y|] eqn:El; [|by apply last_None in El].
  destruct (finalize_object y b) as [[y'|] b1] eqn:E; [|by exists x, l].
  apply finalize_object_keeps in E as (Ec & Ew & Ef).
  apply last_Some in El as [l' El]. rewrite El, removelast_last.
  assert (∀ z, headed (mkTxList z fl (l' ++ [y'])) ∧ ∀ o, headed (mkTxList z fl ((l' ++ [y']) ++ [o]))) as Hh.
  { intros z. destruct l' as [|x' l']; cbn [app] in El; simplify_eq.
    - split; [exists y', []|intros o; exists y', [o]]; head_solve.
    - assert (x_finalized x' = true) by (apply Hfin; by destruct l').
      split; [exists x', (l' ++ [y'])|intros o; exists x', ((l' ++ [y']) ++ [o])]; head_solve. }
  destruct (tx_object_init _ _ _ _) as [[[o|]|] b2]; cbn [snd]; apply Hh.
Qed.

Lemma list_finalize_headed t : headed t → headed (list_finalize t).2.
Proof.
  intros (x & l & Ht & Hc & Hw & Hfin). unfold list_finalize. destruct t as [b fl objs]. cbn [t_objects t_buff t_finalized] in *. subst objs.
  destruct (last (x :: l)) as [y|] eqn:El; [|by apply last_None in El].
  destruct fl; [by exists x, l|].
  destruct (finalize_object y b) as [[y'|] b1] eqn:E; [|by exists x, l].
  apply finalize_object_keeps in E as (Ec & Ew & Ef). cbn [snd].
  apply last_Some in El as [l' El]. rewrite El, removelast_last.
  destruct l' as [|x' l']; cbn [app] in El; simplify_eq.
  - exists y', []. head_solve.
  - exists x', (l' ++ [y']). cbn. split_and!; try done. intros _. apply Hfin. by destruct l'.
Qed.

Lemma set_value_headed name bs : preserves headed (set_value name bs).
Proof.
  intros t Ht. apply on_last_headed; [|done]. intros x b x' a b' Hf Hc Hw. destruct (find_field _ _); [|done].
  rewrite fbind_run in Hf. destruct (write_at _ _ _) as [[[]|] ?]; cbn in Hf; [|done]. inversion Hf; by subst.
Qed.

Lemma set_list_headed bs : preserves headed (set_list bs).
Proof.
  intros t Ht. unfold set_list. apply on_last_headed; [|done]. intros x b x' a b' Hf Hc Hw.
  destruct (negb _); [inversion Hf; by subst|]. rewrite fbind_run in Hf. unfold alloc in Hf. by rewrite Hc in Hf.
Qed.

Lemma set_values_headed fs vals : preserves headed (set_values fs vals).
Proof.
  revert vals. induction fs as [|f fs IH]; intros [|v vals]; try apply preserves_ret. cbn [set_values].
  apply preserves_bind; [apply set_value_headed|intros _; apply IH].
Qed.

Lemma add_tlv_headed v : preserves headed (add_tlv v).
Proof.
  apply preserves_bind; [intros t; apply tx_addClass_headed|]. intros [|]; [|apply preserves_ret].
  apply preserves_bind; [destruct (l_type _); [apply preserves_ret|apply set_value_headed]|]. intros _.
  apply preserves_bind; [apply set_values_headed|]. intros _.
  destruct (tv_tail v); [apply set_list_headed|apply preserves_ret].
Qed.

Lemma add_tlvs_headed l : preserves headed (add_tlvs l).
Proof.
  induction l as [|v l IH]; [apply preserves_ret|]. apply preserves_bind; [apply add_tlv_headed|].
  intros [|]; [apply IH|apply preserves_ret].
Qed.

Lemma tx_finalize_headed : preserves headed tx_finalize.
Proof.
  apply preserves_bind; [intros t; apply tx_addClass_headed|]. intros [|]; [|apply preserves_ret].
  intros t. apply list_finalize_headed.
Qed.

Lemma create_headed id mt t : (8 ≤ length (t_buff t))%nat → headed (create id mt t).2.
Proof.
  intros Hb. unfold create. rewrite fbind_run. unfold tx_addClass at 1 2 3. unfold tx_reset. cbn [t_objects t_buff t_finalized last].
  destruct (header_init (replicate (length (t_buff t)) 0)) as (m0 & _ & ->); [by rewrite length_replicate|].
  cbn [fst snd negb]. match goal with |- headed (?m ?t).2 => assert (preserves headed m) as Hm; [|apply Hm] end.
  - apply preserves_bind; [apply set_value_headed|]. intros _. apply preserves_bind; [apply set_value_headed|]. intros _.
    apply preserves_bind; [|intros _; apply preserves_ret]. destruct (bool_decide _); [|apply preserves_ret].
    intros t' Ht'. apply on_last_headed; [|done]. intros x b x' a b' Hf Hc Hw. destruct (find_field _ _); [|done].
    rewrite fbind_run in Hf. destruct (read_byte _ _) as [[v|] ?]; cbn in Hf; [|done].
    rewrite fbind_run in Hf. destruct (write_at _ _ _) as [[[]|] ?]; cbn in Hf; [|done]. inversion Hf; by subst.
  - eexists _, []. cbn. by split_and!.
Qed.

(** The accessors of a message whose header is finalized read its bytes. *)
Lemma tx_view_headed t x l : t_objects t = x :: l → x_class x = tx_header → x_walk x = header_walk →
  x_finalized x = true →
  tx_view t = Some (mkCmduView (tx_length t) (t_buff t) (header_field (t_buff t) 2 true) (header_field (t_buff t) 4 true)).
Proof.
  intros Ht Hc Hw Hf. unfold tx_view, tx_header_object. rewrite Ht. cbn [list_find]. rewrite Hc, decide_True by done.
  cbn [fmap option_fmap option_map snd mbind option_bind]. by rewrite Hw, Hf.
Qed.

(** A class that was added stands behind the header. *)
Lemma tx_addClass_behind C t t' : headed t → tx_addClass C t = (Some true, t') → (2 ≤ length (t_objects t'))%nat.
Proof.
  intros (x & l & Ht & _). unfold tx_addClass. destruct (last (t_objects t)) as [y|] eqn:El.
  2: { apply last_None in El. by rewrite Ht in El. }
  destruct (finalize_object y (t_buff t)) as [[y'|] b1]; [|by intros [=]].
  destruct (tx_object_init _ _ _ _) as [[[o|]|] b2]; intros [= <-].
  cbn [t_objects]. rewrite !length_app. cbn. lia.
Qed.

Lemma list_finalize_objects t : t_objects t ≠ [] → length (t_objects (list_finalize t).2) = length (t_objects t).
Proof.
  intros Hne. unfold list_finalize. destruct (last (t_objects t)) as [y|] eqn:El; [|done].
  destruct (t_finalized t); [done|]. destruct (finalize_object y (t_buff t)) as [[y'|] b1]; [|done].
  apply last_Some in El as [l' ->]. cbn [snd t_objects]. rewrite removelast_last, !length_app. done.
Qed.

Lemma tx_finalize_behind t t' : headed t → tx_finalize t = (Some true, t') → (2 ≤ length (t_objects t'))%nat.
Proof.
  intros Hh Hf. unfold tx_finalize in Hf. rewrite fbind_run in Hf.
  destruct (tx_addClass _ t) as [[[]|] t1] eqn:Ha; cbn in Hf; [|by inversion Hf..].
  pose proof (tx_addClass_behind _ _ _ Hh Ha) as H2.
  rewrite <- list_finalize_objects, Hf in H2; [done|]. intros E. rewrite E in H2. cbn in H2. lia.
Qed.

(** *** A message composed and sent *)

Lemma swap_16_be16 a b : byte_ok a → byte_ok b → swap_16 (be16 a b) = be16 b a.
Proof.
  intros Ha Hb. unfold swap_16. rewrite !be16_add by first [done|apply u8_range]. unfold u8, byte_ok in *.
  rewrite Z.shiftr_div_pow2 by lia. change (2 ^ 8) with 256. Z.div_mod_to_equations. lia.
Qed.

Lemma header_field_wire mt id r rest : 0 ≤ mt < 65536 → 0 ≤ id < 65536 →
  header_field (header_wire mt id r ++ rest) 2 true = mt ∧ header_field (header_wire mt id r ++ rest) 4 true = id.
Proof.
  intros Hmt Hid. unfold header_field. split.
  - change (le16 _ 2) with (be16 (u8 mt) (u8 (Z.shiftr mt 8))).
    rewrite swap_16_be16 by apply u8_range. by apply be16_bytes_roundtrip.
  - change (le16 _ 4) with (be16 (u8 id) (u8 (Z.shiftr id 8))).
    rewrite swap_16_be16 by apply u8_range. by apply be16_bytes_roundtrip.
Qed.

(** [create] and the TLVs, not yet finalized. *)
Definition compose (id message_type : Z) (l : list Tlv) : faultM TxList bool :=
  ok <- create id message_type ;; if (ok : bool) then add_tlvs l else fret false.

(** The CMDU on the wire. *)
Definition wire_message (mt id : Z) (l : list Tlv) : list Z :=
  header_wire mt id (bool_decide (mt ∈ relayed_messages)) ++ concat (tv_wire <$> l) ++ [0; 0; 0].

Definition tlvs_ok (l : list Tlv) : Prop := Forall (λ v, tlv_ok v ∧ tx_ok (tv_class v) (tv_more v)) l.

Lemma wire_message_length mt id l : tlvs_ok l → length (wire_message mt id l) = (11 + sum_list_with tv_size l)%nat.
Proof.
  intros Hl. unfold wire_message. rewrite !length_app. cbn [length].
  assert (length (concat (tv_wire <$> l)) = sum_list_with tv_size l) as ->; [|cbn; lia].
  induction Hl as [|v l [Hv _] _ IH]; [done|]. cbn [fmap list_fmap concat sum_list_with]. rewrite length_app, IH.
  by destruct (tv_wire_ok v Hv) as [-> _].
Qed.

(** Finalizing a composed message gives a message whose accessors tell its
    type and identifier. *)
Lemma composed_view id mt l t : tlvs_ok l → 0 ≤ mt < 65536 → 0 ≤ id < 65536 →
  (8 + sum_list_with tv_size l + 3 ≤ length (t_buff t))%nat → ∃ t1 t2,
  compose id mt l t = (Some true, t1) ∧ t_finalized t1 = false ∧ tx_finalize t1 = (Some true, t2) ∧
  tx_view t2 = Some (mkCmduView (length (wire_message mt id l)) (t_buff t2) mt id) ∧
  (length (wire_message mt id l) ≤ length (t_buff t2))%nat ∧
  take (length (wire_message mt id l)) (t_buff t2) = wire_message mt id l.
Proof.
  intros Hl Hmt Hid Hsz. unfold compose. rewrite fbind_run.
  pose proof (create_headed id mt t ltac:(lia)) as Hhd.
  destruct (create_pending id mt t) as (t1 & post1 & Hc & Hpe1 & Hpo1); [lia|]. rewrite Hc in *. cbn [fst snd] in *.
  assert (length post1 = length (t_buff t) - 8)%nat as Hl1 by (by rewrite Hpo1, length_replicate).
  apply (add_tlvs_headed l) in Hhd.
  destruct (add_tlvs_pending l Hl _ _ _ _ _ Hpe1) as (t2 & wires & host & wire & post2 & Ha & Hpe2 & Hw & Hl2); [lia|].
  rewrite Ha in *. cbn [fst snd] in Hhd. pose proof Hhd as Hhd2. apply tx_finalize_headed in Hhd.
  destruct (finalize_pending _ _ _ _ _ Hpe2) as (t3 & Hf & Hm & Hlen); [lia|]. rewrite Hf in Hhd. cbn [fst snd] in Hhd.
  rewrite app_assoc, Hw in Hm. cbn [app] in Hm. rewrite <- app_assoc in Hm. fold (wire_message mt id l) in Hm.
  rewrite Hm in Hlen. exists t2, t3. split; [done|]. split; [apply Hpe2|]. split; [done|].
  unfold message in Hm. rewrite Hlen in Hm.
  assert (length (wire_message mt id l) ≤ length (t_buff t3))%nat as Hle.
  { apply (f_equal length) in Hm. rewrite length_take in Hm. lia. }
  split; [|done].
  destruct Hhd as (x & rest & Ho & Hc' & Hw' & Hfin).
  assert (rest ≠ []) as Hne.
  { pose proof (tx_finalize_behind _ _ Hhd2 Hf) as H2. rewrite Ho in H2. by destruct rest; [cbn in H2; lia|]. }
  rewrite (tx_view_headed t3 x rest Ho Hc' Hw' (Hfin Hne)), Hlen.
  assert (header_field (t_buff t3) 2 true = mt ∧ header_field (t_buff t3) 4 true = id) as [-> ->]; [|done].
  rewrite <- (take_drop (length (wire_message mt id l)) (t_buff t3)), Hm. unfold wire_message at 1 3.
  rewrite <- !app_assoc. by apply header_field_wire.
Qed.

(** ** Theorems *)

Section Theorems.
Context {H : Type} (e : ClientEnv).
Implicit Types c : BrokerClient H.

Lemma tx_metadata_ok v dst src i : 0 ≤ v_type v < 65536 → mac_ok dst → mac_ok src → 0 ≤ i < 2 ^ 32 →
  cmdu_metadata_ok (tx_metadata v dst src i).
Proof.
  intros Ht Hd Hs Hi. unfold cmdu_metadata_ok, tx_metadata, byte_ok, ETH_P_1905_1. cbn.
  pose proof (u16_range (v_type v)). pose proof (u16_range (Z.of_nat (v_length v))). split_and!; try lia; done.
Qed.

(** What [send_cmdu_message] sends is one message for the broker, with the CMDU
    in it. *)
Definition carries (v : CmduView) (dst src : sMacAddr) (iface_index : Z) (m : Message) : Prop :=
  m_type m = Type_CmduTxMessage ∧
  (∀ rest, Z.of_nat (length (message_bytes m ++ rest)) < 2 ^ 32 →
     read_transport_message (message_bytes m ++ rest) = ReadMsg m rest) ∧
  packet_of_cmdu_tx (frame m)
    = mkPacket 0 iface_index IF_TYPE_LOCAL_BUS 0 dst src ETH_P_1905_1 (take (v_length v) (v_buff v)) ∧
  md_msg_type (decode_cmdu_metadata (frame m)) = v_type v ∧
  md_preset_message_id (decode_cmdu_metadata (frame m)) = negb (v_id v =? 0).

Lemma send_cmdu_message_run v dst src iface_index c :
  0 ≤ v_type v < 65536 → Z.of_nat (v_length v) ≤ 8152 → (v_length v ≤ length (v_buff v))%nat →
  mac_ok dst → dst ≠ ZERO_MAC → mac_ok src → src ≠ ZERO_MAC → 0 ≤ iface_index < 2 ^ 32 →
  is_Some (m_connection c) → (∀ bs, takes_all e bs) →
  ∃ m, send_cmdu_message e v dst src iface_index c = (Some true, add_sent (message_bytes m) c) ∧
    carries v dst src iface_index m.
Proof.
  intros Ht Hmax Hle Hd Hd0 Hs Hs0 Hi Hc Hk.
  set (w := take (v_length v) (v_buff v)). set (md := tx_metadata v dst src iface_index).
  assert (length w = v_length v) as Hw by (unfold w; rewrite length_take; lia).
  assert (md_length md = Z.of_nat (v_length v)) as Hml.
  { change (md_length md) with (u16 (Z.of_nat (v_length v))). unfold u16. rewrite Z.mod_small; lia. }
  assert (cmdu_metadata_ok md) as Hmd by (by apply tx_metadata_ok).
  destruct (cmdu_metadata_roundtrip md w Hmd) as [Hdec Hdata]. rewrite Hml, Hw in Hdata. specialize (Hdata eq_refl).
  set (m := mkCmduMessage Type_CmduTxMessage md w).
  change (frame (mkCmduMessage Type_CmduRxMessage md w)) with (frame m) in *.
  assert (length (frame m) = 40 + v_length v)%nat as Hfl.
  { unfold m, mkCmduMessage. cbn [frame]. rewrite length_app, Hw. f_equal. unfold encode_cmdu_metadata, md, tx_metadata.
    cbn [md_dst md_src]. destruct Hd as [Hd _], Hs as [Hs _]. rewrite !length_app, Hd, Hs. done. }
  exists m. split.
  { unfold send_cmdu_message. rewrite !bool_decide_false by congruence. fold md. cbv zeta. rewrite Hml, Nat2Z.id.
    rewrite (proj2 (Nat.ltb_ge _ _)) by done. fold w m. rewrite stM_bind_run, send_message_run; [done|done| |done].
    rewrite Hfl. unfold broker_buffer_size, kMaxFrameLength. lia. }
  split; [done|]. split.
  { intros rest. apply read_send_roundtrip. split; [exists 40%nat; split; [done|lia]|]. unfold kMaxFrameLength. lia. }
  split; [unfold packet_of_cmdu_tx; by rewrite Hdec, Hdata|]. rewrite Hdec. split; [|done].
  change (u16 (v_type v) = v_type v). unfold u16. by rewrite Z.mod_small.
Qed.


(** A failed [send] is reported as success: the result of [send] is negative
    then, and [send_message] turns it into [true], while nothing was sent. *)
Theorem failed_send_reports_success m c : is_Some (m_connection c) →
  (sizeof_Header + length (frame m) ≤ broker_buffer_size)%nat → (∀ bs, ce_send e bs < 0) →
  (send_message e m c).1 = true ∧ c_sent (send_message e m c).2 = c_sent c.
Proof.
  intros [fd Hfd] Hfit Hsend. unfold send_message. rewrite Hfd, serialize_message_run by done. cbn [negb b_data].
  specialize (Hsend (message_bytes m)). rewrite (proj2 (Z.eqb_neq _ 0)) by lia. split; [done|].
  replace (Z.to_nat (ce_send e (message_bytes m))) with 0%nat by lia. apply app_nil_r.
Qed.

(** A CMDU of more than 8152 bytes that fits the client's buffer is sent and
    reported as sent, but the broker rejects the message and takes its frame
    for the next header. *)
Theorem long_cmdu_is_lost v dst src iface_index c m :
  8152 < Z.of_nat (v_length v) ≤ 8192 → (v_length v ≤ length (v_buff v))%nat →
  mac_ok dst → dst ≠ ZERO_MAC → mac_ok src → src ≠ ZERO_MAC → is_Some (m_connection c) →
  (∀ bs, takes_all e bs) →
  m = mkCmduMessage Type_CmduTxMessage (tx_metadata v dst src iface_index) (take (v_length v) (v_buff v)) →
  send_cmdu_message e v dst src iface_index c = (Some true, add_sent (message_bytes m) c) ∧
  read_transport_message (message_bytes m) = ReadNull (drop sizeof_Header (frame m)).
Proof.
  intros Hv Hle Hd Hd0 Hs Hs0 Hc Hk ->.
  assert (md_length (tx_metadata v dst src iface_index) = Z.of_nat (v_length v)) as Hml.
  { change (md_length _) with (u16 (Z.of_nat (v_length v))). unfold u16. rewrite Z.mod_small; lia. }
  set (m := mkCmduMessage _ _ _).
  assert (length (frame m) = 40 + v_length v)%nat as Hfl.
  { unfold m, mkCmduMessage. cbn [frame]. rewrite length_app, length_take, Nat.min_l by done. f_equal.
    unfold encode_cmdu_metadata, tx_metadata. cbn [md_dst md_src].
    destruct Hd as [Hd _], Hs as [Hs _]. rewrite !length_app, Hd, Hs. done. }
  split.
  - unfold send_cmdu_message. rewrite !bool_decide_false by congruence. cbv zeta. rewrite Hml, Nat2Z.id.
    rewrite (proj2 (Nat.ltb_ge _ _)) by done. fold m. rewrite stM_bind_run, send_message_run; [done|done| |done].
    rewrite Hfl. unfold broker_buffer_size, kMaxFrameLength. lia.
  - unfold read_transport_message, message_bytes. 
    change (take sizeof_Header (header_bytes m ++ frame m)) with (header_bytes m).
    change (drop sizeof_Header (header_bytes m ++ frame m)) with (frame m).
    change (length (header_bytes m) =? sizeof_Header)%nat with true. cbn [negb].
    change (le32 (header_bytes m) 0 =? kMessageMagic) with true. cbn [negb].
    assert (le32 (header_bytes m) 8 = Z.of_nat (length (frame m))) as -> by (apply le32_value; lia).
    rewrite length_app, length_header_bytes. unfold u32. rewrite Z.mod_small by (unfold sizeof_Header; lia).
    rewrite (proj2 (Z.leb_gt _ _)) by (unfold sizeof_Header; lia).
    rewrite (proj2 (Z.ltb_lt kMaxFrameLength _)) by (unfold kMaxFrameLength; lia). done.
Qed.

End Theorems.

(** ** Subscribing *)

Lemma le32_behind pre v post : 0 ≤ v < 2 ^ 32 → le32 (pre ++ le32_bytes v ++ post) (length pre) = v.
Proof.
  intros Hv. unfold le32, le16, at_. cbn [le32_bytes le16_bytes app].
  replace (length pre) with (length pre + 0)%nat by lia. rewrite <- !Nat.add_succ_r, !lookup_behind by done.
  cbn [lookup list_lookup default]. by apply le32_value.
Qed.

Lemma MsgType_value_range t : 0 ≤ MsgType_value 0 0 t < 2 ^ 32.
Proof.
  change (MsgType_value 0 0 t) with (Z.lor 0 (Z.shiftl (u16 t) 16)). rewrite Z.lor_0_l.
  pose proof (u16_range t). rewrite Z.shiftl_mul_pow2 by lia. change (2 ^ 16) with 65536. lia.
Qed.

Lemma le32_sequence ts i post : ∀ pre, length pre = (4 + 4 * i)%nat →
  (λ j, le32 (pre ++ concat ((λ t, le32_bytes (MsgType_value 0 0 t)) <$> ts) ++ post) (4 + 4 * j)) <$> seq i (length ts)
  = MsgType_value 0 0 <$> ts.
Proof.
  revert i. induction ts as [|t ts IH]; intros i pre Hpre; [done|]. cbn [length seq fmap list_fmap concat].
  rewrite <- app_assoc. f_equal.
  - rewrite <- Hpre. apply le32_behind, MsgType_value_range.
  - rewrite app_assoc. apply IH. rewrite length_app, Hpre. cbn. lia.
Qed.

Lemma subscribe_frame_types ts : sub_types (subscribe_frame ts) 0 (length ts) = MsgType_value 0 0 <$> ts.
Proof. unfold sub_types, subscribe_frame. by apply (le32_sequence ts 0). Qed.

Lemma length_subscribe_frame ts : (length ts ≤ 64)%nat → length (subscribe_frame ts) = 260%nat.
Proof.
  intros Hl. unfold subscribe_frame. rewrite !length_app, length_replicate. unfold MAX_SUBSCRIBE_TYPES.
  assert (length (concat ((λ t, le32_bytes (MsgType_value 0 0 t)) <$> ts)) = 4 * length ts)%nat as ->; [|cbn [length]; lia].
  clear. induction ts as [|t ts IH]; [done|]. cbn [fmap list_fmap concat length]. rewrite length_app, IH. cbn. lia.
Qed.

Lemma subscribe_loop_pending subscribe sd f n : ∀ i b b',
  subscribe_loop subscribe sd f i n b = Some b' → Broker.pending b' = Broker.pending b.
Proof.
  induction n as [|n IH]; intros i b b'; cbn [subscribe_loop]; [by intros [= <-]|].
  destruct (sub_msg_type f i); cbn; [|done]. intros Hs. apply IH in Hs. rewrite Hs.
  unfold subscribe_one. by destruct subscribe.
Qed.

(** A subscription takes effect: when the broker reads what [subscribe]
    sent for a set of message types, exactly these types are added to the
    subscriptions of the client's socket, and what was sent after it is left. *)
Theorem subscribe_takes_effect {H W} (e : ClientEnv) ts (c : BrokerClient H) sd :
  (0 < length ts ≤ MAX_SUBSCRIBE_TYPES)%nat → is_Some (m_connection c) → (∀ bs, takes_all e bs) →
  ∃ sent, subscribe e ts c = (true, add_sent sent c) ∧
  ∀ (external internal : option (MessageHandler W)) w b rest,
    broker_inv b → Broker.pending b !! sd = Some (sent ++ rest) → Z.of_nat (length (sent ++ rest)) < 2 ^ 32 →
    ∃ b', handle_msg external internal sd (w, b) = Some (true, (w, b')) ∧ broker_inv b' ∧
      Broker.pending b' !! sd = Some rest ∧
      ∀ sd' type, subscribed b' sd' type ↔
        (sd' = sd ∧ type ∈ MsgType_value 0 0 <$> ts) ∨ subscribed b sd' type.
Proof.
  unfold MAX_SUBSCRIBE_TYPES. intros Hts Hc Hk. pose proof (length_subscribe_frame ts ltac:(lia)) as Hfl.
  set (m := mkMessage Type_SubscribeMessage (subscribe_frame ts)). exists (message_bytes m). split.
  { unfold subscribe, MAX_SUBSCRIBE_TYPES. rewrite (proj2 (Nat.ltb_ge _ _)) by lia. apply send_message_run; [done| |done].
    change (frame m) with (subscribe_frame ts). rewrite Hfl. unfold broker_buffer_size, kMaxFrameLength. lia. }
  intros external internal w b rest Hb Hp Hlen. unfold handle_msg. rewrite Hp.
  change (default [] (Some (message_bytes m ++ rest))) with (message_bytes m ++ rest). cbv zeta.
  rewrite (proj2 (Nat.ltb_ge _ _)) by (unfold message_bytes; rewrite !length_app, length_header_bytes; lia).
  rewrite read_send_roundtrip; [|split; [exists 260%nat; split; [done|change (frame m) with (subscribe_frame ts); lia]|change (frame m) with (subscribe_frame ts); rewrite Hfl; unfold kMaxFrameLength; lia]|done].
  change (m_type m =? Type_SubscribeMessage) with true. cbv iota. change (frame m) with (subscribe_frame ts).
  unfold handle_subscribe. change (frame m) with (subscribe_frame ts). change (sub_type (subscribe_frame ts)) with ReqType_SUBSCRIBE.
  change (sub_msg_types_count (subscribe_frame ts)) with (Z.of_nat (length ts)).
  rewrite (proj2 (Z.eqb_neq (Z.of_nat (length ts)) 0)) by lia. rewrite Nat2Z.id.
  change (ReqType_SUBSCRIBE =? ReqType_INVALID) with false. cbv iota.
  set (b0 := b <| Broker.pending ::= _ |>).
  destruct (subscribe_loop_spec (ReqType_SUBSCRIBE =? ReqType_SUBSCRIBE) sd (subscribe_frame ts) (length ts) 0 b0) as (b' & He & Hi & Hs).
  { rewrite Hfl. lia. }
  exists b'. cbn [mbind option_bind]. rewrite He. cbn. split; [done|]. split; [by apply Hi|]. split.
  - rewrite (subscribe_loop_pending _ _ _ _ _ _ _ He). unfold b0. cbn. by rewrite lookup_insert_eq.
  - intros sd' type. specialize (Hs sd' type). cbn in Hs. by rewrite <- subscribe_frame_types.
Qed.

(** ** The life of a connection *)

Section Lifecycle.
Context {H : Type} (e : ClientEnv) (client_handlers : EventHandlers H).
Implicit Types c : BrokerClient H.

Inductive client_reachable (fd : Z) (loop : EventLoop H) : BrokerClient H → Prop :=
  | client_init c : connect e client_handlers fd loop = Some c → client_reachable fd loop c
  | client_next ev c c' : client_reachable fd loop c → client_step e fd ev c = (Some tt, c') →
      client_reachable fd loop c'.

(** What the handling of messages leaves alone. *)
Definition life c := (m_connection c, c_loop c, c_closed c).

Lemma handle_message_life m c : life (handle_message e m c).2 = life c.
Proof. unfold handle_message. by repeat case_match; simplify_eq/=. Qed.

Lemma handle_messages_life fuel : ∀ c, life (handle_messages e fuel c).2 = life c.
Proof.
  induction fuel as [|fuel IH]; intros c; cbn [handle_messages]; destruct (_ =? _)%nat; try done.
  destruct (parse_message _) as [[m|] b]; [|done]. pose proof (handle_message_life m (set_buffer b c)) as Hl.
  destruct (handle_message e m _) as [[[]|] c1]; cbn [snd] in *; [by rewrite IH|done].
Qed.

Lemma handle_read_life n c : life (handle_read e n c).2 = life c.
Proof.
  unfold handle_read. destruct (m_connection c) eqn:Ec; [|done].
  destruct (receive _ _ _) as [[r p] b]. destruct (_ <=? _); [done|]. by rewrite handle_messages_life.
Qed.

Lemma send_message_life m c : life (send_message e m c).2 = life c.
Proof. unfold send_message. destruct (m_connection c) eqn:Ec; [|done]. destruct (serialize_message _ _) as [[] b]; done. Qed.

(** Handlers are registered exactly while the connection is open, and the
    observers are told once that it was closed. *)
Definition client_inv (fd : Z) c : Prop :=
  loop_inv (c_loop c) ∧ (c_closed c ≤ 1)%nat ∧
  match m_connection c with
  | Some fd' => fd' = fd ∧ fd ≠ -1 ∧ c_closed c = 0%nat ∧ m_fd_to_event_handlers (c_loop c) !! fd = Some client_handlers
  | None => m_fd_to_event_handlers (c_loop c) !! fd = None
  end.

Lemma client_inv_life fd c c' : life c' = life c → client_inv fd c → client_inv fd c'.
Proof. destruct c, c'. unfold life, client_inv. cbn. by intros [= -> -> ->]. Qed.

Lemma loop_remove_run fd (l : EventLoop H) hs : fd ≠ -1 → m_fd_to_event_handlers l !! fd = Some hs →
  m_fd_to_event_handlers (loop_remove_handlers (ce_epoll e) fd l).2 !! fd = None.
Proof.
  intros Hne Hl. unfold loop_remove_handlers. rewrite (proj2 (Z.eqb_neq _ _)), Hl by done. cbn. apply lookup_delete_eq.
Qed.

Lemma client_step_inv fd ev c : del_works (ce_epoll e) → client_inv fd c → client_inv fd (client_step e fd ev c).2.
Proof.
  intros Hdel Hinv. destruct ev as [bytes|n| |m|]; cbn [client_step].
  - done.
  - destruct (_ !! fd); [|done]. by apply (client_inv_life fd c); [apply handle_read_life|].
  - destruct (m_fd_to_event_handlers (c_loop c) !! fd) as [hs|] eqn:Er; [|done].
    destruct Hinv as (Hl & Hcl & Hc). pose proof (loop_remove_inv (ce_epoll e) fd _ Hdel Hl) as Hl'.
    destruct (m_connection c) as [fd'|] eqn:Ec; [|congruence]. destruct Hc as (-> & Hne & H0 & Hreg).
    pose proof (loop_remove_run fd _ hs Hne Er). unfold handle_close, close_connection. cbn. rewrite Ec.
    unfold client_inv. cbn. split; [done|]. split; [lia|done].
  - by apply (client_inv_life fd c); [apply send_message_life|].
  - unfold destroy, close_connection. destruct (m_connection c) as [fd'|] eqn:Ec; [|done].
    unfold client_inv in *. rewrite Ec in Hinv. destruct Hinv as (Hl & Hcl & -> & Hne & H0 & Hreg). cbn.
    split; [by apply loop_remove_inv|]. split; [done|]. by apply (loop_remove_run fd _ client_handlers).
Qed.

Lemma connect_inv fd loop c : loop_inv loop → connect e client_handlers fd loop = Some c → client_inv fd c.
Proof.
  intros Hl. unfold connect. pose proof (loop_register_inv (ce_epoll e) fd client_handlers loop Hl) as Hl'.
  unfold loop_register_handlers in *. destruct (Z.eqb_spec fd (-1)); [done|]. case_bool_decide; [done|].
  destruct (negb _); [done|]. intros [= <-]. split; [done|]. cbn. split; [lia|]. by rewrite lookup_insert_eq.
Qed.

(** C17: Through everything that can happen to a client, its handlers are in the
    event loop exactly while its connection is open, so that a read event never
    finds the connection gone; the observers are told at most once that it was
    closed; and without a connection every message is refused and nothing is
    sent. *)
Theorem client_lifecycle fd loop c : del_works (ce_epoll e) → loop_inv loop → client_reachable fd loop c →
  loop_inv (c_loop c) ∧ (c_closed c ≤ 1)%nat ∧
  (is_Some (m_connection c) ↔ m_fd_to_event_handlers (c_loop c) !! fd = Some client_handlers) ∧
  (m_connection c = None → ∀ m, send_message e m c = (false, c)).
Proof.
  intros Hdel Hl Hr. assert (client_inv fd c) as (Hl' & Hcl & Hc).
  { induction Hr as [c Hc|ev c c' _ IH Hs]; [by eapply connect_inv|].
    pose proof (client_step_inv fd ev c Hdel IH) as Hi. by rewrite Hs in Hi. }
  split; [done|]. split; [done|]. split.
  - destruct (m_connection c); [split; [intros _; apply Hc|done]|split; [by intros []|intros E; by rewrite E in Hc]].
  - intros E m. by apply send_message_closed.
Qed.
End Lifecycle.
