(* ===== verification/ClientDelivery.v ===== *)
(** * CMDUs at the client of the broker

    Continues [BrokerClient]: what the broker publishes is received by the
    observers of a client, and what a client forwards is what it received. *)

From S2P Require Import Prelude Wire SocketFilter Messages Broker TransportState DeDuplication.
From S2P Require Import Interfaces Fragmentation Forwarding LocalBus Strings Streams EventLoop.
From S2P Require Import Tlvf TlvClasses1905 TlvClassesMap CmduMessage CmduTx CmduUtils BrokerClient.
Import broker_client.

(** ** Receiving *)

(** The value of a TLV on the wire. *)
Definition tv_value (v : Tlv) : list Z := concat (wire_values (tv_more v) (tv_vals v)) ++ tv_data v.

(** With the OUI of this vendor a vendor specific TLV has the magic number. *)
Definition vendor_tlv_ok (v : Tlv) : Prop :=
  tv_type v = 0xb → take 3 (tv_value v) = intel_oui → take 4 (drop 3 (tv_value v)) = magic_bytes.

Lemma tv_value_length v : tlv_ok v → Z.of_nat (length (tv_value v)) = tv_len v ∧ tv_len v < 65536.
Proof.
  intros Hv. split; [|apply Hv]. unfold tv_value, tv_len, tlv_len. rewrite length_app.
  destruct (wire_values_length (tv_more v) (tv_vals v)) as [-> _]; [apply (to_flat _ Hv)|apply Hv|done].
Qed.

Lemma tv_wire_tlv_bytes v : tlv_ok v → tv_wire v = tlv_bytes (tv_type v) (tv_value v).
Proof. intros Hv. unfold tlv_bytes. by destruct (tv_value_length v Hv) as [-> _]. Qed.

Lemma tlv_type_not_end v : tlv_ok v → tv_type v ≠ 0.
Proof. intros Hv E. pose proof (to_class _ Hv) as Hc. rewrite E in Hc. apply (to_not_end _ Hv). by rewrite <- Hc. Qed.

Lemma vendor_tlv_value v : tlv_ok v → tv_type v = 0xb → (3 ≤ length (tv_value v))%nat.
Proof.
  intros Hv E. pose proof (to_class _ Hv) as Hc. rewrite E in Hc.
  pose proof (flat_initial_size _ _ _ (to_flat _ Hv)) as Hs. rewrite <- Hc in Hs.
  change (get_initial_size (l_fields (class_of_type 0xb))) with 6%nat in Hs.
  destruct (tv_value_length v Hv) as [Hl _]. unfold tv_len, tlv_len in Hl. lia.
Qed.

Lemma tlvs_verified l post : tlvs_ok l → Forall vendor_tlv_ok l → verified (concat (tv_wire <$> l) ++ [0; 0; 0] ++ post).
Proof.
  intros Hl. induction Hl as [|v l [Hv _] _ IH]; intros Hve; [constructor|]. apply Forall_cons in Hve as [Hv' Hve].
  cbn [fmap list_fmap concat]. rewrite <- app_assoc, tv_wire_tlv_bytes by done.
  destruct (tv_value_length v Hv) as [Hlen Hmax]. apply verified_tlv; [lia|left; by apply tlv_type_not_end| |by apply IH].
  intros E. pose proof (vendor_tlv_value v Hv E). split; [done|]. intros Ho. specialize (Hv' E Ho).
  pose proof (f_equal length Hv') as Hl4. rewrite length_take, length_drop in Hl4. change (length magic_bytes) with 4%nat in Hl4.
  split; [lia|]. by rewrite drop_app_le, take_app_le by (rewrite ?length_drop; lia).
Qed.

Lemma wire_message_bytes mt id l : tlvs_ok l → bytes_ok (wire_message mt id l).
Proof.
  intros Hl. unfold wire_message, bytes_ok. rewrite !Forall_app. split_and!.
  - unfold header_wire. apply wire_values_bytes. unfold header_vals, le16_bytes. cbn [concat app].
    repeat (apply Forall_cons; split; [first [apply u8_range|unfold byte_ok; case_match; lia|unfold byte_ok; lia]|]). constructor.
  - induction Hl as [|v l [Hv _] _ IH]; [constructor|]. cbn [fmap list_fmap concat]. apply Forall_app. split; [|done]. apply (tv_wire_ok v Hv).
  - repeat constructor; unfold byte_ok; lia.
Qed.

Section Receiving.
Context {H : Type} (e : ClientEnv).
Implicit Types c : BrokerClient H.

(** What the observers get of a received CMDU. *)
Definition receives (mt id : Z) (l : list Tlv) (p : Packet) (now : Z) (r : Received) : Prop :=
  rc_if_index r = src_if_index p ∧ rc_dst r = dst p ∧ rc_src r = src p ∧ rc_time r = now ∧
  o_class <$> m_class_vector (rc_cmdu r)
    = "cCmduHeader" :: ((λ v, l_name (tx_layout (tv_class v))) <$> l) ++ ["tlvEndOfMessage"] ∧
  take (length (payload p)) (m_buff (rc_cmdu r))
    = header_host mt id (bool_decide (mt ∈ relayed_messages)) ++ concat (tv_host <$> l) ++ [0; 0; 0].

Lemma handle_message_rx mt id l p now c : tlvs_ok l → Forall vendor_tlv_ok l →
  payload p = wire_message mt id l → Z.of_nat (length (payload p)) ≤ 8152 →
  cmdu_metadata_ok (rx_metadata now p) → bytes_ok (ce_stack e) →
  ∃ r, receives mt id l p now r ∧ handle_message e (Forwarding.rx_message now p) c = (Some tt, add_received r c).
Proof.
  intros Hl Hve Hp Hmax Hmd Hst. unfold handle_message. unfold Forwarding.rx_message at 1. cbn [m_type mkCmduMessage].
  rewrite Z.eqb_refl. cbn [negb]. unfold Forwarding.rx_message.
  destruct (cmdu_metadata_roundtrip _ (payload p) Hmd) as [-> Hdata].
  assert (md_length (rx_metadata now p) = Z.of_nat (length (payload p))) as Hml.
  { change (md_length _) with (u16 (Z.of_nat (length (payload p)))). unfold u16. rewrite Z.mod_small; lia. }
  rewrite Hdata, Hml by done. rewrite (proj2 (Z.ltb_ge _ _)) by (unfold MESSAGE_BUFFER_LENGTH; lia).
  pose proof (wire_message_bytes mt id l Hl) as Hb. rewrite <- Hp in Hb.
  rewrite verify_cmdu_verified; [|done|..].
  2: { rewrite Hp, wire_message_length by done. lia. }
  2: { rewrite Hp. by apply (tlvs_verified l []). }
  set (post := drop (length (payload p)) (ce_stack e)).
  destruct (CmduTx.rx_message mt id (bool_decide (mt ∈ relayed_messages)) l post) as (m & Hparse & Hbuf & Hcl & _).
  { eapply Forall_impl; [exact Hl|]. by intros v []. } { by apply Forall_drop. }
  rewrite Hp. unfold wire_message at 1. rewrite <- !app_assoc, Hparse.
  eexists. split; [|done]. unfold receives. cbn. split_and!; try done. rewrite Hbuf, !app_assoc.
  rewrite take_app_length'; [done|]. rewrite Hp, wire_message_length by done. rewrite !length_app.
  assert (length (concat (tv_host <$> l)) = sum_list_with tv_size l) as ->; [|cbn; lia].
  clear -Hl. induction Hl as [|v l [Hv _] _ IH]; [done|]. cbn [fmap list_fmap concat sum_list_with]. rewrite length_app, IH.
  by destruct (tv_wire_ok v Hv) as (_ & -> & _).
Qed.
End Receiving.

Section Stream.
Context {H : Type} (e : ClientEnv).
Implicit Types c : BrokerClient H.

Fixpoint handle_all (ms : list Message) : faultM (BrokerClient H) unit :=
  match ms with [] => fret tt | m :: ms => _ <- handle_message e m ;; handle_all ms end.

(** Handling a message neither looks at the receive buffer nor changes it. *)
Lemma handle_message_frame m b p c :
  handle_message e m (set_buffer b (set_pending p c))
  = ((handle_message e m c).1, set_buffer b (set_pending p (handle_message e m c).2)).
Proof. unfold handle_message. by repeat case_match; simplify_eq/=. Qed.

Lemma handle_message_connection m c :
  m_connection (handle_message e m c).2 = m_connection c ∧ c_pending (handle_message e m c).2 = c_pending c
  ∧ m_buffer (handle_message e m c).2 = m_buffer c.
Proof. unfold handle_message. by repeat case_match; simplify_eq/=. Qed.

Lemma handle_all_app ms1 ms2 c : handle_all (ms1 ++ ms2) c = (_ <- handle_all ms1 ;; handle_all ms2) c.
Proof.
  revert c. induction ms1 as [|m ms1 IH]; intros c; cbn [app handle_all]; [by rewrite fbind_run|].
  rewrite !fbind_run. destruct (handle_message e m c) as [[[]|] c1]; cbn [fst snd]; [|done].
  rewrite IH, !fbind_run. done.
Qed.

Lemma parse_message_shrinks b m b' : parse_message b = (Some m, b') → (b_length b' < b_length b)%nat.
Proof.
  unfold parse_message, shift, b_length, sizeof_Header. repeat case_match; intros; simplify_eq/=; bool_to_prop.
  all: repeat match goal with h : (_ <? _)%nat = _ |- _ => first [apply Nat.ltb_lt in h|apply Nat.ltb_ge in h] end; try lia.
  rewrite length_drop. lia.
Qed.

Lemma handle_messages_run fuel : ∀ k c p b ms b' c', (b_length b ≤ fuel)%nat → (b_length b < k)%nat →
  drain parse_message (λ _, true) k b = (ms, b') → handle_all ms c = (Some tt, c') →
  handle_messages e fuel (set_buffer b (set_pending p c)) = (Some tt, set_buffer b' (set_pending p c')).
Proof.
  induction fuel as [|fuel IH]; intros [|k] c p b ms b' c' Hf Hk Hd Ha; try lia; cbn [drain] in Hd; cbn [handle_messages];
    change (m_buffer (set_buffer b _)) with b.
  { rewrite (proj2 (Nat.eqb_eq (b_length b) 0)) in * by lia. injection Hd as <- <-. cbn in Ha. inversion Ha. by subst. }
  destruct (b_length b =? 0)%nat; [injection Hd as <- <-; cbn in Ha; inversion Ha; by subst|].
  destruct (parse_message b) as [[m|] b1] eqn:Ep; [|injection Hd as <- <-; cbn in Ha; inversion Ha; by subst].
  cbn [negb] in Hd. destruct (drain _ _ k b1) as [ms1 b2] eqn:Ed. injection Hd as <- <-. cbn [handle_all] in Ha.
  rewrite fbind_run in Ha. apply parse_message_shrinks in Ep.
  change (set_buffer b1 (set_buffer b (set_pending p c))) with (set_buffer b1 (set_pending p c)).
  rewrite handle_message_frame. destruct (handle_message e m c) as [[[]|] c1]; cbn [fst snd] in *; [|done].
  by apply (IH k c1 p b1 ms1 b2 c'); [lia|lia|..].
Qed.

Lemma handle_read_run n c ms p' b' c' : is_Some (m_connection c) →
  Streams.handle_read parse_message (λ _, true) n (c_pending c, m_buffer c) = (ms, (p', b')) →
  handle_all ms c = (Some tt, c') →
  handle_read e n c = (Some tt, set_buffer b' (set_pending p' c')).
Proof.
  intros [fd Hfd]. unfold Streams.handle_read, handle_read. rewrite Hfd. cbn [fst snd].
  destruct (receive n (c_pending c) (m_buffer c)) as [[r p] b].
  destruct (r <=? 0); [intros [= <- <- <-] Ha; cbn in Ha; inversion Ha; by subst|].
  destruct (drain _ _ _ b) as [ms1 b1] eqn:Ed. intros [= <- <- <-] Ha. by eapply handle_messages_run; [| |done..]; lia.
Qed.

Fixpoint handle_reads (ns : list nat) : faultM (BrokerClient H) unit :=
  match ns with [] => fret tt | n :: ns => _ <- handle_read e n ;; handle_reads ns end.

Lemma handle_all_connection ms c c' : handle_all ms c = (Some tt, c') →
  m_connection c' = m_connection c ∧ c_pending c' = c_pending c ∧ m_buffer c' = m_buffer c.
Proof.
  revert c. induction ms as [|m ms IH]; intros c; cbn [handle_all]; [by intros [= <-]|]. rewrite fbind_run.
  pose proof (handle_message_connection m c) as (H1 & H2 & H3).
  destruct (handle_message e m c) as [[[]|] c1]; cbn [fst snd] in *; [|done]. intros Ha.
  destruct (IH c1 Ha) as (-> & -> & ->). done.
Qed.

Lemma handle_all_frame ms b p c c' : handle_all ms c = (Some tt, c') →
  handle_all ms (set_buffer b (set_pending p c)) = (Some tt, set_buffer b (set_pending p c')).
Proof.
  revert c. induction ms as [|m ms IH]; intros c; cbn [handle_all]; [intros Ha; inversion Ha; by subst|].
  rewrite !fbind_run, handle_message_frame.
  destruct (handle_message e m c) as [[[]|] c1]; cbn [fst snd]; [|done]. apply IH.
Qed.

Lemma handle_reads_run ns : ∀ c ms p' b' c', is_Some (m_connection c) →
  Streams.handle_reads parse_message (λ _, true) ns (c_pending c, m_buffer c) = (ms, (p', b')) →
  handle_all ms c = (Some tt, c') →
  handle_reads ns c = (Some tt, set_buffer b' (set_pending p' c')).
Proof.
  induction ns as [|n ns IH]; intros c ms p' b' c' Hc Hs Ha; cbn [Streams.handle_reads handle_reads] in *.
  { injection Hs as <- <- <-. inversion Ha; subst. by destruct c'. }
  destruct (Streams.handle_read _ _ n _) as [ms1 [p1 b1]] eqn:E1.
  destruct (Streams.handle_reads _ _ ns _) as [ms2 [p2 b2]] eqn:E2. injection Hs as <- <- <-.
  rewrite handle_all_app, fbind_run in Ha. destruct (handle_all ms1 c) as [[[]|] c1] eqn:Ea1; cbn [fst snd] in Ha; [|done].
  rewrite fbind_run, (handle_read_run n c ms1 p1 b1 c1) by done. cbn [fst snd].
  pose proof (handle_all_connection _ _ _ Ea1) as (Hc1 & _).
  rewrite (IH _ ms2 p2 b2 (set_buffer b1 (set_pending p1 c'))); [done|by cbn; rewrite Hc1|done|].
  by apply handle_all_frame.
Qed.

(** A CMDU the transport publishes: its content, the packet, the time. *)
Record Published := mkPublished { pb_type : Z; pb_id : Z; pb_tlvs : list Tlv; pb_packet : Packet; pb_time : Z }.
Definition pb_message (x : Published) : Message := Forwarding.rx_message (pb_time x) (pb_packet x).
Definition published_ok (x : Published) : Prop :=
  tlvs_ok (pb_tlvs x) ∧ Forall vendor_tlv_ok (pb_tlvs x) ∧
  payload (pb_packet x) = wire_message (pb_type x) (pb_id x) (pb_tlvs x) ∧
  Z.of_nat (length (payload (pb_packet x))) ≤ 8152 ∧ cmdu_metadata_ok (rx_metadata (pb_time x) (pb_packet x)).
Definition pb_received (x : Published) (r : Received) : Prop :=
  receives (pb_type x) (pb_id x) (pb_tlvs x) (pb_packet x) (pb_time x) r.

Lemma pb_message_ok x : published_ok x → transport_message_ok broker_buffer_size (pb_message x).
Proof.
  intros (_ & _ & _ & Hmax & _ & Hd & Hs & _). unfold transport_message_ok, pb_message, message_ok.
  assert (length (frame (Forwarding.rx_message (pb_time x) (pb_packet x))) = 40 + length (payload (pb_packet x)))%nat as Hfl.
  { unfold Forwarding.rx_message, mkCmduMessage. cbn [frame]. rewrite length_app. f_equal. unfold encode_cmdu_metadata.
    destruct Hd as [Hd _], Hs as [Hs _]. rewrite !length_app, Hd, Hs. done. }
  rewrite Hfl. split; [split; [exists 40%nat; split; [done|lia]|unfold kMaxFrameLength; lia]|].
  unfold broker_buffer_size, kMaxFrameLength. lia.
Qed.

Lemma handle_all_published xs : Forall published_ok xs → bytes_ok (ce_stack e) → ∀ c, ∃ rs c',
  handle_all (pb_message <$> xs) c = (Some tt, c') ∧ Forall2 pb_received xs rs ∧
  c_received c' = c_received c ++ rs ∧ c_sent c' = c_sent c ∧ m_connection c' = m_connection c.
Proof.
  intros Hxs Hst. induction Hxs as [|x xs (Hl & Hve & Hp & Hmax & Hmd) _ IH]; intros c.
  { exists [], c. cbn. by rewrite app_nil_r. }
  destruct (handle_message_rx e _ _ _ _ _ c Hl Hve Hp Hmax Hmd Hst) as (r & Hr & Hh).
  destruct (IH (add_received r c)) as (rs & c' & Ha & Hrs & Hrc & Hs & Hc). exists (r :: rs), c'.
  cbn [fmap list_fmap handle_all]. rewrite fbind_run. unfold pb_message at 1 2 3. rewrite Hh. cbn [fst snd].
  split; [done|]. split; [by constructor|]. split; [|done]. rewrite Hrc. cbn. by rewrite <- app_assoc.
Qed.

End Stream.

(** ** Forwarding *)

(** The header object every parsed message starts with. *)
Definition header_object : Object :=
  mkObject "cCmduHeader" 0 8 (w_fields header_walk) (w_spots header_walk).

Lemma walk_fixed start fin fixed b : ∀ w, (w_ptr w + total fixed ≤ fin)%nat →
  walk_fields walk_field start fin (to_field <$> fixed) w b = (Some (Some (fixed_walk w fixed)), b).
Proof.
  unfold total. induction fixed as [|f fixed IH]; intros w Hw; [done|]. cbn [fmap list_fmap walk_fields to_field walk_field].
  cbn [sum_list_with] in Hw. rewrite fbind_run. unfold buffPtrIncrementSafe, set_member. cbn [w_ptr w_fields w_spots].
  rewrite (proj2 (Z.ltb_ge _ _)) by lia. rewrite fret_run. cbn [fst snd]. rewrite Nat2Z.id. rewrite IH; [done|cbn; lia].
Qed.

Lemma header_object_init b : (8 ≤ length b)%nat →
  init_parse cCmduHeader 0 (length b) b = (Some (Some header_object), swap_spots (w_spots header_walk) b).
Proof.
  intros Hl. unfold init_parse, init_fields. rewrite fbind_run.
  change (get_initial_size (l_fields cCmduHeader)) with 8%nat. rewrite (proj2 (Nat.ltb_ge _ _)) by lia.
  change (l_fields cCmduHeader) with (to_field <$> header_fixed). rewrite fbind_run, walk_fixed by (cbn; lia).
  cbn [fst snd]. fold header_walk. rewrite fbind_run, (class_swap_run b 0 8); [done| |done].
  change (w_spots header_walk) with (fixed_spots 0 header_fixed).
  apply (fixed_spots_ok header_fixed b 0), header_fixed_ok.
Qed.

(** Parsing only adds objects. *)
Definition extends (m m' : ClassList) : Prop :=
  m_swapped m' = m_swapped m ∧ ∃ l, m_class_vector m' = m_class_vector m ++ l.

Lemma extends_refl m : extends m m.
Proof. split; [done|]. exists []. by rewrite app_nil_r. Qed.
Lemma extends_trans m1 m2 m3 : extends m1 m2 → extends m2 m3 → extends m1 m3.
Proof. intros [E1 [l1 H1]] [E2 [l2 H2]]. split; [congruence|]. exists (l1 ++ l2). by rewrite H2, H1, app_assoc. Qed.

Lemma addClass_extends L m : extends m (addClass L m).2.
Proof.
  unfold addClass. destruct (init_parse _ _ _ _) as [[[o|]|] b]; split; try done; cbn; [by exists [o]|exists []..];
    by rewrite app_nil_r.
Qed.

Lemma parse_tlvs_extends fuel : ∀ m, extends m (parse_tlvs fuel m).2.
Proof.
  induction fuel as [|fuel IH]; intros m; [apply extends_refl|]. cbn [parse_tlvs]. rewrite fbind_run.
  pose proof (next_class_state m) as Hn. destruct (next_class m) as [[[L|]|] m1]; cbn [fst snd] in *; subst; [|apply extends_refl..].
  rewrite fbind_run. pose proof (addClass_extends L m) as Ha. destruct (addClass L m) as [[[o|]|] m2]; cbn [fst snd] in *; [|done..].
  destruct (decide _); [done|]. by eapply extends_trans; [|apply IH].
Qed.

Lemma parsed_header b m : bytes_ok b → parse (received b) = (Some (Parsed true), m) →
  m_swapped m = false ∧ getClass "cCmduHeader" m = Some header_object.
Proof.
  intros Hb Hp. unfold parse in Hp. rewrite fbind_run in Hp. cbn [fst snd reset] in Hp. rewrite fbind_run in Hp.
  assert (8 ≤ length b)%nat as H8.
  { destruct (Nat.lt_ge_cases (length b) 8) as [Hs|]; [|done]. exfalso. revert Hp. unfold addClass, init_parse, init_fields.
    cbn [m_buff received next_ptr m_class_vector last]. rewrite fbind_run.
    change (get_initial_size (l_fields cCmduHeader)) with 8%nat. rewrite (proj2 (Nat.ltb_lt _ _)) by lia. by intros [=]. }
  unfold addClass at 1 2 3 in Hp. cbn [m_buff received next_ptr m_class_vector last] in Hp.
  rewrite header_object_init in Hp by done. cbn [fst snd app] in Hp.
  match type of Hp with parse_tlvs ?n ?m0 = _ => pose proof (parse_tlvs_extends n m0) as [Hs [l Hl]] end.
  rewrite Hp in Hs, Hl. cbn [snd m_swapped m_class_vector received app] in Hs, Hl. split; [done|].
  unfold getClass. by rewrite Hl.
Qed.

Lemma header_field_swapped b i : bytes_ok b → header_field b i true = be16 (at_ b i) (at_ b (S i)).
Proof. intros Hb. unfold header_field, le16. by apply swap_16_be16; apply at_byte. Qed.

Section Forwarding.
Context {H : Type} (e : ClientEnv).
Implicit Types c : BrokerClient H.

(** A message for the transport that holds the first [n] bytes of the CMDU [b],
    with its type, and says that the identifier is the CMDU's own. *)
Definition resends (b : list Z) (n : nat) (dst src : sMacAddr) (iface_index : Z) (msg : Message) : Prop :=
  packet_of_cmdu_tx (frame msg) = mkPacket 0 iface_index IF_TYPE_LOCAL_BUS 0 dst src ETH_P_1905_1 (take n b) ∧
  md_msg_type (decode_cmdu_metadata (frame msg)) = messageType b ∧
  md_preset_message_id (decode_cmdu_metadata (frame msg)) = negb (messageId b =? 0).

(** Forwarding a received CMDU sends the bytes that were received, with the
    type and identifier of the message, and leaves the CMDU as it was, in host
    order. *)
Theorem forward_cmdu_resends b m dst src iface_index c :
  bytes_ok b → parse (received b) = (Some (Parsed true), m) → Z.of_nat (getMessageLength m) ≤ 8152 →
  mac_ok dst → dst ≠ ZERO_MAC → mac_ok src → src ≠ ZERO_MAC → 0 ≤ iface_index < 2 ^ 32 →
  is_Some (m_connection c) → (∀ bs, takes_all e bs) →
  ∃ msg, forward_cmdu e dst src iface_index (m, c) = (Some true, (m, add_sent (message_bytes msg) c)) ∧
    resends b (getMessageLength m) dst src iface_index msg.
Proof.
  intros Hb Hp Hmax Hd Hd0 Hs Hs0 Hi Hc Hk. destruct (parsed_header b m Hb Hp) as [Hsw Hh].
  pose proof (parse_run b Hb) as Hpost. rewrite Hp in Hpost. destruct Hpost as (Hpp & _ & _).
  destruct (chain_length _ _ (pp_chain _ _ Hpp)) as [_ Hlen]. rewrite <- next_ptr_eq in Hlen. cbn [Nat.add] in Hlen.
  fold (getMessageLength m) in Hlen. pose proof (pp_ptr _ _ Hpp) as Hle. rewrite <- Hlen in Hle.
  unfold forward_cmdu. rewrite (swap_restores b m Hpp), Hsw. cbn [negb].
  set (m' := mkClassList b true (m_class_vector m)).
  set (v := mkCmduView (getMessageLength m) b (messageType b) (messageId b)).
  assert (rx_view m' = Some v) as ->.
  { unfold rx_view. change (getClass "cCmduHeader" m') with (getClass "cCmduHeader" m). rewrite Hh.
    cbn [mbind option_bind]. change (member header_object "message_type") with (Some 2%nat).
    change (member header_object "message_id") with (Some 4%nat). cbn [mbind option_bind m_buff m_swapped m'].
    unfold v. by rewrite !header_field_swapped. }
  destruct (send_cmdu_message_run e v dst src iface_index c) as (msg & Hsend & _ & _ & Hpk & Hty & Hpre); [apply be16_range; by apply at_byte|done..|].
  rewrite Hsend. exists msg. split; [|done].
  assert (swap m' = (Some tt, m)) as ->; [|done].
  unfold swap. cbn [m_class_vector m_buff m_swapped m' negb].
  rewrite (swap_objects_run _ _ (next_ptr m)); [|apply Hpp|apply Hpp]. fold (all_spots m).
  rewrite <- (pp_buff _ _ Hpp). destruct m. cbn in *. by subst.
Qed.
End Forwarding.
