(* ===== verification/VendorTx.v ===== *)
(** * Vendor specific messages that are sent

    [message_com::create_vs_message<T>], [add_vs_tlv<T>] and
    [add_intel_vs_data<T>] ([beerocks_message.h]): a CMDU with a vendor specific
    TLV whose payload is a class list of its own, the action header and the
    message; [finalize] shrinks the payload to what the list uses. The receiver
    is in [VendorMessage]. *)

From S2P Require Import Prelude Wire Messages Tlvf TlvClasses1905 TlvClassesMap CmduMessage CmduTx CmduUtils.
From S2P Require Import BrokerClient VendorMessage.

(** ** Operations *)


(** The steps of [init()] of a message class when not parsing, for classes
    whose fields have fixed sizes; unlike in a TLV there is no length to keep. *)
Fixpoint vs_walk (inits : list (string * list Z)) (fin : nat) (fs : list Field) (w : Walk)
    : faultM (list Z) (option Walk) :=
  match fs with
  | [] => fret (Some w)
  | Fixed name n sw :: fs =>
    match buffPtrIncrementSafe fin (Z.of_nat n) (set_member name (spots_at None (w_ptr w) sw) w) with
    | None => fret None
    | Some w' =>
      _ <- match initial_bytes inits name with Some bs => write_at (w_ptr w) bs | None => fret tt end ;;
      vs_walk inits fin fs w'
    end
  | _ :: _ => fault
  end.

Definition vs_object_init (C : TxClass) (start fin : nat) : faultM (list Z) (option TxObject) :=
  if (fin - start <? get_initial_size (l_fields (tx_layout C)))%nat then fret None
  else
    r <- vs_walk (tx_init C) fin (l_fields (tx_layout C)) (mkWalk start [] []) ;;
    fret (match r with None => None | Some w => Some (mkTxObject C start w 0 false) end).

(** [beerocks::MESSAGE_VERSION]. *)
Definition MESSAGE_VERSION : Z := 6.
Definition tx_action_header : TxClass := mkTxClass cACTION_HEADER
  [("magic", [0xef; 0xab; 0xcd; 0x55]); ("version", [MESSAGE_VERSION]); ("direction", [1]);
   ("radio_mac", zero_mac); ("last", [0]); ("length", [0; 0])].

(** An inner list under construction, in the last object of the CMDU. *)
Record TxInner := mkTxInner { ti_start : nat; ti_fin : nat; ti_objects : list TxObject }.
Record VsTx := mkVsTx { vt_cmdu : TxList; vt_inner : option TxInner }.

Definition ti_ptr (i : TxInner) : nat := match last (ti_objects i) with None => ti_start i | Some x => x_ptr x end.
Definition ti_length (i : TxInner) : nat := sum_list_with (λ x, x_ptr x - x_start x)%nat (ti_objects i).

(** [addClass<T>()] of an inner list. *)
Definition ti_addClass (C : TxClass) (i : TxInner) : faultM (list Z) (option TxInner) :=
  objs <- match last (ti_objects i) with
          | None => fret []
          | Some x => x' <- finalize_object x ;; fret (removelast (ti_objects i) ++ [x'])
          end ;;
  r <- vs_object_init C (ti_ptr i) (ti_fin i) ;;
  fret (match r with None => None | Some x => Some (mkTxInner (ti_start i) (ti_fin i) (objs ++ [x])) end).

(** [*m_length -= tailroom]. *)
Definition sub_length (off n : nat) : faultM (list Z) unit := λ b,
  write_at off (le16_bytes (u16 (le16 b off - Z.of_nat n))) b.

(** [finalize()] of a vendor specific TLV with an inner list: the payload
    shrinks to what the list uses. *)
Definition finalize_with_inner (x : TxObject) (i : TxInner) : faultM (list Z) (option TxObject) :=
  if x_finalized x then fret (Some x)
  else
    match last (ti_objects i) with
    | None => fret None
    | Some y =>
      _ <- finalize_object y ;;
      let tailroom := ((ti_fin i - ti_start i) - ti_length i)%nat in
      match find_field (x_walk x) "length" with
      | None => fault
      | Some off =>
        _ <- sub_length off tailroom ;;
        let w := mkWalk (x_ptr x - tailroom) (w_fields (x_walk x)) (w_spots (x_walk x)) in
        _ <- class_swap (w_spots w) ;;
        fret (Some (mkTxObject (x_class x) (x_start x) w (x_idx x) true))
      end
    end.

(** [addClass<T>()] of the CMDU, whose last object may have an inner list. *)
Definition vt_addClass (C : TxClass) : faultM VsTx bool := λ t,
  let c := vt_cmdu t in
  match vt_inner t, last (t_objects c) with
  | Some i, Some x =>
    match finalize_with_inner x i (t_buff c) with
    | (None, b) => (None, mkVsTx (mkTxList b (t_finalized c) (t_objects c)) (vt_inner t))
    | (Some None, b) => (Some false, mkVsTx (mkTxList b (t_finalized c) (t_objects c)) (vt_inner t))
    | (Some (Some x'), b) =>
      let '(r, c) := tx_addClass C (mkTxList b (t_finalized c) (removelast (t_objects c) ++ [x'])) in (r, mkVsTx c None)
    end
  | _, _ => let '(r, c) := tx_addClass C c in (r, mkVsTx c None)
  end.

Definition on_cmdu {A} (m : faultM TxList A) : faultM VsTx A := λ t,
  let '(r, c) := m (vt_cmdu t) in (r, mkVsTx c (vt_inner t)).

(** [alloc_payload(payload_length)] for all of the buffer but the end of
    message TLV, and the space it gives. *)
Definition alloc_rest : faultM TxList (option (nat * nat)) := λ t,
  on_last (λ x,
    let remaining := (length (t_buff t) - x_ptr x)%nat in
    if (remaining <? 3)%nat then fret (x, None)
    else
      r <- alloc (length (t_buff t)) (remaining - 3) x ;;
      fret (match r with
            | None => (x, None)
            | Some x' => (x', match find_field (x_walk x') "payload" with
                              | Some p => Some (p, (remaining - 3)%nat) | None => None end)
            end)) t.

(** Writing to a member of an object of the inner list. *)
Definition set_member_of (x : TxObject) (name : string) (bs : list Z) : faultM (list Z) unit :=
  match find_field (x_walk x) name with None => fault | Some off => write_at off bs end.
Definition on_buff {A} (m : faultM (list Z) A) : faultM TxList A := λ t,
  let '(r, b) := m (t_buff t) in (r, mkTxList b (t_finalized t) (t_objects t)).

(** [add_intel_vs_data<T>]: the action, its operation and the identifier are
    written into the header after [addClass<T>()] has put it into network
    order. *)
Definition add_intel_vs_data (c : VsClass) (inits : list (string * list Z)) (id : Z) : faultM VsTx bool := λ t,
  (p <- on_cmdu alloc_rest ;;
   match p with
   | None => fret false
   | Some (start, len) =>
     h <- on_cmdu (on_buff (ti_addClass tx_action_header (mkTxInner start (start + len) []))) ;;
     match h with
     | None => fret false
     | Some i =>
       r <- on_cmdu (on_buff (ti_addClass (mkTxClass (vs_layout c) inits) i)) ;;
       match r, head (ti_objects i) with
       | Some i, Some hdr =>
         if vs_action c =? ACTION_NONE then fret false
         else
           _ <- on_cmdu (on_buff (set_member_of hdr "action" [vs_action c])) ;;
           _ <- on_cmdu (on_buff (set_member_of hdr "action_op" [vs_op c])) ;;
           _ <- on_cmdu (on_buff (set_member_of hdr "id" (le16_bytes id))) ;;
           λ t, (Some true, mkVsTx (vt_cmdu t) (Some i))
       | _, _ => fret false
       end
     end
   end) t.

(** [CmduMessageTx::add_vs_tlv(OUI_INTEL)]; the OUI is stored with its upper
    byte first. *)
Definition add_vendor_tlv : faultM VsTx bool := λ t,
  match tx_header_object (vt_cmdu t) with
  | None => (Some false, t)
  | Some _ =>
    (ok <- vt_addClass tx_vendor_specific ;;
     if negb ok then fret false
     else _ <- on_cmdu (set_value "vendor_oui" [0x47; 0x03; 0x00]) ;; fret true) t
  end.

(** [add_vs_tlv<T>]. *)
Definition add_vs_tlv (c : VsClass) (inits : list (string * list Z)) (id : Z) : faultM VsTx bool :=
  ok <- add_vendor_tlv ;;
  if (ok : bool) then add_intel_vs_data c inits id else fret false.

Definition VENDOR_SPECIFIC_MESSAGE : Z := 0x4.

(** [create_vs_message<T>(cmdu_tx, id)]. *)
Definition create_vs_message (c : VsClass) (inits : list (string * list Z)) (id : Z) : faultM VsTx bool := λ t,
  (ok <- on_cmdu (create 0 VENDOR_SPECIFIC_MESSAGE) ;;
   if negb ok then fret false else add_vs_tlv c inits id) (mkVsTx (vt_cmdu t) None).

(** [message->x() = value] on the message that was created. *)
Definition vs_set_value (name : string) (bs : list Z) : faultM VsTx unit := λ t,
  match vt_inner t with
  | None => (None, t)
  | Some i => match last (ti_objects i) with
              | None => (None, t)
              | Some x => on_cmdu (on_buff (set_member_of x name bs)) t
              end
  end.

(** [CmduMessageTx::finalize()]. *)
Definition vt_finalize : faultM VsTx bool :=
  ok <- vt_addClass tx_end_of_message ;;
  if negb ok then fret false else on_cmdu list_finalize.


(** ** Classes with fields of fixed sizes *)

Lemma fixed_initial_size fs : get_initial_size (to_field <$> fs) = total fs.
Proof. unfold total. induction fs as [|f fs IH]; [done|]. cbn. by rewrite <- IH. Qed.

Lemma vs_walk_run inits fin fs olds : Forall2 sized fs olds → inits_ok inits fs = true → ∀ w pre post,
  w_ptr w = length pre → (w_ptr w + total fs ≤ fin)%nat →
  vs_walk inits fin (to_field <$> fs) w (pre ++ concat olds ++ post)
  = (Some (Some (fixed_walk w fs)), pre ++ concat (init_vals inits fs olds) ++ post).
Proof.
  unfold total. induction 1 as [|f v fs olds Hv _ IH]; intros Hi w pre post Hp Hfin; [done|].
  cbn [sum_list_with] in Hfin. unfold inits_ok in Hi. cbn [forallb] in Hi. apply andb_prop in Hi as [Hif Hi].
  cbn [fmap list_fmap to_field vs_walk fixed_walk concat init_vals zip_with]. unfold buffPtrIncrementSafe.
  cbn [w_ptr set_member w_fields w_spots]. destruct (_ <? _) eqn:Hlt; bool_to_prop; [lia|]. rewrite Nat2Z.id.
  rewrite Hp, <- !app_assoc. set (new := default v (initial_bytes inits (ff_name f))).
  assert (length new = ff_size f ∧
    (match initial_bytes inits (ff_name f) with Some bs => write_at (length pre) bs | None => fret tt end)
      (pre ++ v ++ concat olds ++ post) = (Some tt, pre ++ new ++ concat olds ++ post)) as [Hnew Hw].
  { unfold new, sized in *. destruct (initial_bytes _ _) as [bs|]; [|done].
    apply bool_decide_eq_true in Hif as [? _]. split; [done|]. apply write_block. cbn. lia. }
  rewrite (fbind_ok _ _ _ _ _ Hw), app_assoc, IH; [by rewrite <- app_assoc|done|..]; cbn [w_ptr]; rewrite ?length_app; lia.
Qed.

Lemma vs_init_run C fs olds pre post fin : l_fields (tx_layout C) = to_field <$> fs → Forall2 sized fs olds →
  inits_ok (tx_init C) fs = true → (length pre + total fs ≤ fin)%nat →
  vs_object_init C (length pre) fin (pre ++ concat olds ++ post)
  = (Some (Some (mkTxObject C (length pre) (fixed_walk (mkWalk (length pre) [] []) fs) 0 false)),
     pre ++ concat (init_vals (tx_init C) fs olds) ++ post).
Proof.
  intros Hl Hs Hi Hfin. unfold vs_object_init. rewrite Hl, fixed_initial_size.
  destruct (_ <? _)%nat eqn:Hlt; [apply Nat.ltb_lt in Hlt; lia|].
  by rewrite (fbind_ok _ _ _ _ _ (vs_walk_run _ _ _ _ Hs Hi (mkWalk (length pre) [] []) pre post eq_refl Hfin)).
Qed.

Lemma fixed_swap fs vals pre post : Forall ff_ok fs → Forall2 sized fs vals →
  class_swap (fixed_spots (length pre) fs) (pre ++ concat vals ++ post)
  = (Some tt, pre ++ concat (wire_values fs vals) ++ post).
Proof.
  intros Hok Hs. rewrite (class_swap_run _ (length pre) (length pre + total fs)); [|by apply fixed_spots_ok|].
  - by rewrite swap_fixed_spots.
  - rewrite !length_app, (proj2 (wire_values_length _ _ Hok Hs)). lia.
Qed.

(** The object of such a class, when it is sent and when it is received. *)
Definition fixed_tx (C : TxClass) (k : nat) (fs : list FixedField) : TxObject :=
  mkTxObject C k (fixed_walk (mkWalk k [] []) fs) 0 false.
Definition fixed_rx (name : string) (k : nat) (fs : list FixedField) : Object :=
  let w := fixed_walk (mkWalk k [] []) fs in mkObject name k (w_ptr w) (w_fields w) (w_spots w).

Lemma fixed_finalize C fs vals pre post : Forall ff_ok fs → Forall2 sized fs vals →
  finalize_object (fixed_tx C (length pre) fs) (pre ++ concat vals ++ post)
  = (Some (mkTxObject C (length pre) (fixed_walk (mkWalk (length pre) [] []) fs) 0 true),
     pre ++ concat (wire_values fs vals) ++ post).
Proof.
  intros Hok Hs. unfold finalize_object, fixed_tx. cbn [x_finalized x_walk x_class x_start x_idx].
  rewrite fixed_walk_spots. cbn [w_spots w_ptr app]. by rewrite (fbind_ok _ _ _ _ _ (fixed_swap fs vals pre post Hok Hs)).
Qed.

Lemma rx_fixed name fs vals pre post fin : Forall ff_ok fs → Forall2 sized fs vals →
  (length pre + total fs ≤ fin)%nat →
  init_parse (mkLayout name None (to_field <$> fs)) (length pre) fin (pre ++ concat (wire_values fs vals) ++ post)
  = (Some (Some (fixed_rx name (length pre) fs)), pre ++ concat vals ++ post).
Proof.
  intros Hok Hs Hfin. unfold init_parse, init_fields. cbn [l_fields l_type l_name]. rewrite fixed_initial_size.
  destruct (_ <? _)%nat eqn:Hlt; [apply Nat.ltb_lt in Hlt; lia|].
  rewrite fbind_run, fbind_run, <- (app_nil_r (to_field <$> fs)), rx_walk_fixed by done. cbn [walk_fields].
  rewrite fret_run. cbn [fst snd]. rewrite fbind_run, fixed_walk_spots. cbn [w_spots w_ptr app].
  rewrite (class_swap_run _ (length pre) (length pre + total fs)); [|by apply fixed_spots_ok|].
  - rewrite unswap_fixed_spots by done. cbn [fst snd]. rewrite fret_run. cbn [fst snd]. rewrite fret_run.
    unfold fixed_rx. by rewrite fixed_walk_spots.
  - rewrite !length_app, (proj1 (wire_values_length _ _ Hok Hs)). lia.
Qed.

(** ** The action header *)

Definition ah_fixed : list FixedField :=
  [mkFF "magic" 4 [(0, 4)%nat]; mkFF "version" 1 []; mkFF "action" 1 []; mkFF "action_op" 1 [];
   mkFF "direction" 1 []; mkFF "radio_mac" 6 []; mkFF "last" 1 []; mkFF "id" 2 [(0, 2)%nat]; mkFF "length" 2 [(0, 2)%nat]].

Lemma ah_layout : cACTION_HEADER = mkLayout "cACTION_HEADER" None (to_field <$> ah_fixed).
Proof. done. Qed.
Lemma ah_ok : Forall ff_ok ah_fixed.
Proof. by repeat constructor. Qed.

(** What the receiver finds in the header, and what is on the wire. *)
Definition ah_vals (action op : Z) (id : list Z) : list (list Z) :=
  [[0xef; 0xab; 0xcd; 0x55]; [MESSAGE_VERSION]; [action]; [op]; [1]; zero_mac; [0]; id; [0; 0]].
Definition ah_wire (action op : Z) (id : list Z) : list Z :=
  concat (wire_values ah_fixed (ah_vals action op id)).

Lemma ah_sized action op id : length id = 2%nat → Forall2 sized ah_fixed (ah_vals action op id).
Proof. intros H. repeat constructor. done. Qed.

(** ** The inner list *)

Lemma on_cmdu_run {A} (m : faultM TxList A) c c' r i : m c = (r, c') → on_cmdu m (mkVsTx c i) = (r, mkVsTx c' i).
Proof. unfold on_cmdu. cbn. by intros ->. Qed.

Lemma buff_run {A} (m : faultM (list Z) A) b b' r f objs i : m b = (r, b') →
  on_cmdu (on_buff m) (mkVsTx (mkTxList b f objs) i) = (r, mkVsTx (mkTxList b' f objs) i).
Proof. intros H. apply on_cmdu_run. unfold on_buff. cbn. by rewrite H. Qed.

Definition closed (x : TxObject) : TxObject := mkTxObject (x_class x) (x_start x) (x_walk x) (x_idx x) true.

Section Inner.
Context (C : TxClass) (fs : list FixedField).
Hypothesis (HC : l_fields (tx_layout C) = to_field <$> fs) (Hinit : inits_ok (tx_init C) fs = true).

Lemma ti_add_first olds pre post fin : Forall2 sized fs olds → (length pre + total fs ≤ fin)%nat →
  ti_addClass C (mkTxInner (length pre) fin []) (pre ++ concat olds ++ post)
  = (Some (Some (mkTxInner (length pre) fin [fixed_tx C (length pre) fs])),
     pre ++ concat (init_vals (tx_init C) fs olds) ++ post).
Proof.
  intros Hs Hfin. unfold ti_addClass. cbn [last ti_objects ti_start ti_fin ti_ptr]. rewrite (fbind_ok _ _ _ _ _ (fret_run _ _)).
  by rewrite (fbind_ok _ _ _ _ _ (vs_init_run C fs olds pre post fin HC Hs Hinit Hfin)).
Qed.

Lemma ti_add_next C0 fs0 vals0 olds pre post fin : Forall ff_ok fs0 → Forall2 sized fs0 vals0 → Forall2 sized fs olds →
  (length pre + total fs0 + total fs ≤ fin)%nat →
  ti_addClass C (mkTxInner (length pre) fin [fixed_tx C0 (length pre) fs0]) (pre ++ concat vals0 ++ concat olds ++ post)
  = (Some (Some (mkTxInner (length pre) fin [closed (fixed_tx C0 (length pre) fs0); fixed_tx C (length pre + total fs0) fs])),
     pre ++ concat (wire_values fs0 vals0) ++ concat (init_vals (tx_init C) fs olds) ++ post).
Proof.
  intros Hok Hs0 Hs Hfin. unfold ti_addClass. cbn [last ti_objects ti_start ti_fin ti_ptr removelast app].
  rewrite fbind_run, (fbind_ok _ _ _ _ _ (fixed_finalize C0 fs0 vals0 pre _ Hok Hs0)), fret_run. cbn [fst snd].
  unfold fixed_tx at 1, x_ptr. cbn [x_walk]. rewrite fixed_walk_ptr. cbn [w_ptr].
  destruct (wire_values_length _ _ Hok Hs0) as [Hlen _].
  replace (length pre + total fs0)%nat with (length (pre ++ concat (wire_values fs0 vals0))) in * by (rewrite length_app; lia).
  rewrite app_assoc. rewrite (fbind_ok _ _ _ _ _ (vs_init_run C fs olds _ post fin HC Hs Hinit Hfin)), fret_run.
  by rewrite <- app_assoc.
Qed.
End Inner.

(** Zeros, as the fields they are. *)
Definition zero_vals (fs : list FixedField) : list (list Z) := (λ f, replicate (ff_size f) 0) <$> fs.
Lemma zero_vals_sized fs : Forall2 sized fs (zero_vals fs).
Proof. induction fs; constructor; [apply length_replicate|done]. Qed.
Lemma zero_vals_concat fs : concat (zero_vals fs) = replicate (total fs) 0.
Proof. unfold total. induction fs as [|f fs IH]; [done|]. cbn. rewrite replicate_add. by f_equal. Qed.

Lemma set_member_of_run x name bs pre a old b post : find_field (x_walk x) name = Some (length pre + length a)%nat →
  length bs = length old →
  set_member_of x name bs (pre ++ (a ++ old ++ b) ++ post) = (Some tt, pre ++ (a ++ bs ++ b) ++ post).
Proof.
  intros Hf Hl. unfold set_member_of. rewrite Hf, <- length_app.
  replace (pre ++ (a ++ old ++ b) ++ post) with ((pre ++ a) ++ old ++ b ++ post) by by rewrite <- !app_assoc.
  rewrite write_block by done. by rewrite <- !app_assoc.
Qed.

(** The action, its operation and the identifier behind a header that was put
    into network order. *)
Lemma header_writes k pre post action op id : length pre = k →
  let hdr := fixed_tx tx_action_header k ah_fixed in
  ∃ b1 b2, set_member_of hdr "action" [action] (pre ++ ah_wire 0 0 [0; 0] ++ post) = (Some tt, b1) ∧
  set_member_of hdr "action_op" [op] b1 = (Some tt, b2) ∧
  set_member_of hdr "id" (le16_bytes id) b2 = (Some tt, pre ++ ah_wire action op (be16_bytes id) ++ post).
Proof.
  intros <- hdr. set (h := [0x55; 0xcd; 0xab; 0xef; 6]).
  exists (pre ++ (h ++ [action; 0; 1; 0; 0; 0; 0; 0; 0; 0; 0; 0; 0; 0]) ++ post),
         (pre ++ (h ++ [action; op; 1; 0; 0; 0; 0; 0; 0; 0; 0; 0; 0; 0]) ++ post).
  assert (∀ name n m, find_field (x_walk hdr) name = Some m → m = (length pre + n)%nat →
    find_field (x_walk hdr) name = Some (length pre + n)%nat) as Hf by (intros; congruence).
  split_and!.
  - apply (set_member_of_run hdr "action" [action] pre h [0] [0; 1; 0; 0; 0; 0; 0; 0; 0; 0; 0; 0; 0]); [|done].
    eapply Hf; [reflexivity|cbn; lia].
  - apply (set_member_of_run hdr "action_op" [op] pre (h ++ [action]) [0] [1; 0; 0; 0; 0; 0; 0; 0; 0; 0; 0; 0]); [|done].
    eapply Hf; [reflexivity|cbn; lia].
  - apply (set_member_of_run hdr "id" (le16_bytes id) pre (h ++ [action; op; 1; 0; 0; 0; 0; 0; 0; 0]) [0; 0] [0; 0]); [|done].
    eapply Hf; [reflexivity|cbn; lia].
Qed.

(** ** The vendor specific TLV *)

Definition vs_more : list FixedField := [mkFF "vendor_oui" 3 [(0, 3)%nat]].
Definition oui_bytes : list Z := [0x47; 0x03; 0x00].

Lemma vs_flat : flat (tx_layout tx_vendor_specific) vs_more (Some "payload").
Proof. split; [done|by apply (bool_decide_unpack _)|intros ? [= <-]; by apply (bool_decide_unpack _)|by repeat constructor]. Qed.
Lemma vs_tx_ok : tx_ok tx_vendor_specific vs_more.
Proof. by split. Qed.

(** Its object at [k] with a payload of [n] bytes. *)
Definition vendor_tx (k n : nat) : TxObject :=
  let w := flat_walk k vs_more (Some "payload") in
  mkTxObject tx_vendor_specific k (mkWalk (w_ptr w + n) (w_fields w) (w_spots w)) n false.

Lemma alloc_rest_run objs pre oui post : length oui = 3%nat → (3 ≤ length post)%nat → Z.of_nat (length post) < 65536 →
  let n := (length post - 3)%nat in
  alloc_rest (mkTxList (pre ++ (0xb :: le16_bytes 3 ++ oui) ++ post) false (objs ++ [vendor_tx (length pre) 0]))
  = (Some (Some ((length pre + 6)%nat, n)),
     mkTxList (pre ++ (0xb :: le16_bytes (3 + Z.of_nat n) ++ oui) ++ take n post ++ take 3 post) false
       (objs ++ [vendor_tx (length pre) n])).
Proof.
  intros Ho Hp Hlt n. unfold alloc_rest. apply on_last_run. cbn [t_buff].
  set (vh := 0xb :: le16_bytes 3 ++ oui). assert (length vh = 6%nat) as Hvh by (cbn; lia).
  assert (length (pre ++ vh ++ post) - x_ptr (vendor_tx (length pre) 0) = length post)%nat as ->.
  { unfold x_ptr, vendor_tx. cbn [x_walk w_ptr]. rewrite flat_walk_ptr, !length_app. cbn. lia. }
  destruct (_ <? _)%nat eqn:E; [apply Nat.ltb_lt in E; lia|]. fold n.
  pose proof (alloc_run tx_vendor_specific vs_more "payload" pre 0xb 3 oui n post vs_flat Ho ltac:(lia) ltac:(lia) ltac:(lia)) as Ha.
  assert (vendor_tx (length pre) 0 = mkTxObject tx_vendor_specific (length pre) (flat_walk (length pre) vs_more (Some "payload")) 0 false) as ->.
  { unfold vendor_tx. by rewrite Nat.add_0_r. }
  rewrite (fbind_ok _ _ _ _ _ Ha), fret_run.
  assert (length post - n = 3)%nat as -> by lia. change (find_field _ "payload") with (Some (length pre + 1 + 2 + 3)%nat).
  by replace (length pre + 1 + 2 + 3)%nat with (length pre + 6)%nat by lia.
Qed.

(** ** A message under construction *)

Section Message.
Context (c : VsClass) (inits : list (string * list Z)) (fs : list FixedField) (id : Z).
Hypothesis (Hfields : vs_fields c = to_field <$> fs) (Hok : Forall ff_ok fs) (Hnames : NoDup (ff_name <$> fs)).
Hypothesis (Hinits : inits_ok inits fs = true) (Haction : vs_action c ≠ ACTION_NONE).

Definition vs_class : TxClass := mkTxClass (vs_layout c) inits.

(** The inner list, in a payload of [n] bytes at [p]. *)
Definition vs_inner (p n : nat) : TxInner :=
  mkTxInner p (p + n) [closed (fixed_tx tx_action_header p ah_fixed); fixed_tx vs_class (p + 19) fs].

Definition tlv_header (len : nat) : list Z := 0xb :: le16_bytes (Z.of_nat len) ++ oui_bytes.

Lemma add_intel_run objs pre r : (22 + total fs ≤ r)%nat → Z.of_nat r < 65536 → ∃ vals, Forall2 sized fs vals ∧
  add_intel_vs_data c inits id
    (mkVsTx (mkTxList (pre ++ tlv_header 3 ++ replicate r 0) false (objs ++ [vendor_tx (length pre) 0])) None)
  = (Some true,
     mkVsTx (mkTxList (pre ++ tlv_header r ++ ah_wire (vs_action c) (vs_op c) (be16_bytes id)
                         ++ concat vals ++ replicate (r - 19 - total fs) 0) false (objs ++ [vendor_tx (length pre) (r - 3)]))
       (Some (vs_inner (length pre + 6) (r - 3)))).
Proof.
  intros Hr Hlt. set (rest := replicate (r - 19 - total fs) 0). set (k := length pre).
  pose proof (zero_vals_sized fs) as Hz. exists (init_vals inits fs (zero_vals fs)). split; [by apply init_vals_sized|].
  pose proof (alloc_rest_run objs pre oui_bytes (replicate r 0) eq_refl) as Ha. rewrite length_replicate in Ha.
  specialize (Ha ltac:(lia) Hlt). cbv zeta in Ha.
  rewrite !take_replicate, <- replicate_add in Ha. replace (Nat.min (r - 3) r + Nat.min 3 r)%nat with r in Ha by lia.
  replace (3 + Z.of_nat (r - 3)) with (Z.of_nat r) in Ha by lia. fold (tlv_header r) in Ha.
  change (0xb :: le16_bytes 3 ++ oui_bytes) with (tlv_header 3) in Ha.
  unfold add_intel_vs_data. rewrite (fbind_ok _ _ _ _ _ (on_cmdu_run _ _ _ _ _ Ha)).
  set (p := (k + 6)%nat). fold k p. set (b0 := pre ++ tlv_header r).
  assert (length b0 = p) as Hp by (unfold b0, p, k; rewrite length_app; done).
  assert (replicate r 0 = concat (zero_vals ah_fixed) ++ concat (zero_vals fs) ++ rest) as ->.
  { rewrite !zero_vals_concat. change (total ah_fixed) with 19%nat. unfold rest. rewrite <- !replicate_add. f_equal. lia. }
  pose proof (ti_add_first tx_action_header ah_fixed eq_refl eq_refl (zero_vals ah_fixed) b0 (concat (zero_vals fs) ++ rest)
    (p + (r - 3)) (zero_vals_sized _)) as H1.
  rewrite Hp in H1. change (total ah_fixed) with 19%nat in H1. specialize (H1 ltac:(lia)).
  unfold b0 in H1. rewrite <- !app_assoc in H1. rewrite (fbind_ok _ _ _ _ _ (buff_run _ _ _ _ _ _ _ H1)).
  change (init_vals _ ah_fixed _) with (ah_vals 0 0 [0; 0]).
  pose proof (ti_add_next vs_class fs Hfields Hinits tx_action_header ah_fixed (ah_vals 0 0 [0; 0]) (zero_vals fs) b0 rest (p + (r - 3))
    ah_ok (ah_sized 0 0 [0; 0] eq_refl) Hz) as H2.
  rewrite Hp in H2. change (total ah_fixed) with 19%nat in H2. specialize (H2 ltac:(lia)).
  unfold b0 in H2. rewrite <- !app_assoc in H2. rewrite (fbind_ok _ _ _ _ _ (buff_run _ _ _ _ _ _ _ H2)).
  cbn [ti_objects head]. destruct (vs_action c =? ACTION_NONE) eqn:E; [by apply Z.eqb_eq in E|].
  destruct (header_writes p b0 (concat (init_vals inits fs (zero_vals fs)) ++ rest) (vs_action c) (vs_op c) id Hp)
    as (b1 & b2 & W1 & W2 & W3). unfold b0 in W1, W3. rewrite <- !app_assoc in W1, W3.
  rewrite (fbind_ok _ _ _ _ _ (buff_run _ _ _ _ _ _ _ W1)), (fbind_ok _ _ _ _ _ (buff_run _ _ _ _ _ _ _ W2)),
    (fbind_ok _ _ _ _ _ (buff_run _ _ _ _ _ _ _ W3)). done.
Qed.

(** [message->x() = value] for the fields of the message. *)
Fixpoint vs_set_values (gs : list FixedField) (vals : list (list Z)) : faultM VsTx unit :=
  match gs, vals with
  | f :: gs, v :: vals => _ <- vs_set_value (ff_name f) v ;; vs_set_values gs vals
  | _, _ => fret tt
  end.

Lemma vs_set_values_run objs i y gs vals : last (ti_objects i) = Some y → Forall2 sized gs vals → ∀ pre old post,
  offsets (x_walk y) (length pre) gs → length old = total gs →
  vs_set_values gs vals (mkVsTx (mkTxList (pre ++ old ++ post) false objs) (Some i))
  = (Some tt, mkVsTx (mkTxList (pre ++ concat vals ++ post) false objs) (Some i)).
Proof.
  intros Hy. unfold total. induction 1 as [|f v gs vals Hv _ IH]; intros pre old post Hoff Hlen; cbn [vs_set_values concat].
  { by apply nil_length_inv in Hlen as ->. }
  cbn [sum_list_with offsets] in Hlen, Hoff. destruct Hoff as [Hf Hoff]. unfold sized in Hv.
  assert (vs_set_value (ff_name f) v (mkVsTx (mkTxList (pre ++ old ++ post) false objs) (Some i))
    = (Some tt, mkVsTx (mkTxList (pre ++ v ++ drop (ff_size f) old ++ post) false objs) (Some i))) as Hset.
  { unfold vs_set_value. cbn [vt_inner]. rewrite Hy. apply buff_run. unfold set_member_of. rewrite Hf.
    rewrite <- (take_drop (ff_size f) old) at 1. rewrite <- app_assoc. apply write_block. rewrite length_take. lia. }
  rewrite (fbind_ok _ _ _ _ _ Hset), app_assoc, IH.
  - by rewrite <- !app_assoc.
  - by rewrite length_app, Hv.
  - rewrite length_drop. lia.
Qed.

Definition vs_tlv_size : nat := 22 + total fs.

(** The vendor specific TLV when it has been finalized. *)
Definition vendor_wire (vals : list (list Z)) : list Z :=
  (0xb :: u8 (Z.shiftr (Z.of_nat vs_tlv_size) 8) :: u8 (Z.of_nat vs_tlv_size) :: [0x00; 0x03; 0x47])
    ++ ah_wire (vs_action c) (vs_op c) (be16_bytes id) ++ concat (wire_values fs vals).

Lemma vendor_wire_length vals : Forall2 sized fs vals → length (vendor_wire vals) = (3 + vs_tlv_size)%nat.
Proof.
  intros Hs. unfold vendor_wire, vs_tlv_size. rewrite !length_app, (proj1 (wire_values_length _ _ Hok Hs)). done.
Qed.

Lemma finalize_with_inner_run pre r vals : (vs_tlv_size ≤ r)%nat → Z.of_nat r < 65536 → Forall2 sized fs vals → ∃ x,
  x_start x = length pre ∧ x_ptr x = (length pre + 3 + vs_tlv_size)%nat ∧ x_finalized x = true ∧
  finalize_with_inner (vendor_tx (length pre) (r - 3)) (vs_inner (length pre + 6) (r - 3))
    (pre ++ tlv_header r ++ ah_wire (vs_action c) (vs_op c) (be16_bytes id) ++ concat vals
       ++ replicate (r - 19 - total fs) 0)
  = (Some (Some x), (pre ++ vendor_wire vals) ++ replicate (r - 19 - total fs) 0).
Proof.
  intros Hr Hlt Hs. set (z := replicate (r - 19 - total fs) 0). set (k := length pre). set (p := (k + 6)%nat).
  set (ah := ah_wire (vs_action c) (vs_op c) (be16_bytes id)). unfold vs_tlv_size in *.
  set (x := vendor_tx k (r - 3)). set (tail := (r - 22 - total fs)%nat).
  exists (mkTxObject (x_class x) (x_start x) (mkWalk (x_ptr x - tail) (w_fields (x_walk x)) (w_spots (x_walk x))) (x_idx x) true).
  assert (x_ptr x = k + 3 + r)%nat as Hx.
  { unfold x, vendor_tx, x_ptr. cbn [x_walk w_ptr]. rewrite flat_walk_ptr. cbn. lia. }
  split_and!; [done| |done|].
  { unfold x_ptr. cbn [x_walk w_ptr]. fold (x_ptr x). rewrite Hx. lia. }
  unfold finalize_with_inner. cbn [x_finalized vendor_tx x vs_inner ti_objects last].
  set (b0 := pre ++ tlv_header r ++ ah).
  assert (length b0 = p + 19)%nat as Hb0 by (unfold b0, p, k; rewrite !length_app; cbn; lia).
  pose proof (fixed_finalize vs_class fs vals b0 z Hok Hs) as Hf. rewrite Hb0 in Hf. unfold b0 in Hf. rewrite <- !app_assoc in Hf.
  rewrite (fbind_ok _ _ _ _ _ Hf).
  assert (p + (r - 3) - p - ti_length (vs_inner p (r - 3)) = tail)%nat as Htail.
  { unfold ti_length, vs_inner. cbn [ti_objects sum_list_with closed fixed_tx x_start]. unfold x_ptr. cbn [x_walk closed fixed_tx].
    rewrite !fixed_walk_ptr. cbn [w_ptr]. change (total ah_fixed) with 19%nat. lia. }
  change (ti_fin (vs_inner p (r - 3))) with (p + (r - 3))%nat. change (ti_start (vs_inner p (r - 3))) with p. rewrite Htail.
  change (find_field _ "length") with (Some (k + 1)%nat). cbv iota beta.
  assert (∀ rest, sub_length (k + 1) tail (pre ++ tlv_header r ++ rest) = (Some tt, pre ++ tlv_header (22 + total fs) ++ rest)) as Hsub.
  { intros rest. unfold sub_length, tlv_header. replace (k + 1)%nat with (length (pre ++ [0xb])) by (rewrite length_app; done).
    replace (pre ++ (0xb :: le16_bytes (Z.of_nat r) ++ oui_bytes) ++ rest)
      with ((pre ++ [0xb]) ++ le16_bytes (Z.of_nat r) ++ oui_bytes ++ rest) by by rewrite <- app_assoc.
    rewrite le16_of_bytes, write_block by first [lia|done].
    replace (u16 (Z.of_nat r - Z.of_nat tail)) with (Z.of_nat (22 + total fs)) by (unfold u16; rewrite Z.mod_small; lia).
    by rewrite <- app_assoc. }
  rewrite (fbind_ok _ _ _ _ _ (Hsub _)).
  pose proof (flat_swap _ vs_more (Some "payload") pre 0xb (Z.of_nat (22 + total fs)) [oui_bytes] (ah ++ concat (wire_values fs vals) ++ z)
    vs_flat ltac:(by repeat constructor)) as Hsw.
  fold k in Hsw. rewrite <- (flat_walk_spots k vs_more (Some "payload")) in Hsw. cbn [concat] in Hsw. rewrite app_nil_r in Hsw.
  cbn [w_spots]. rewrite (fbind_ok _ _ _ _ _ Hsw), fret_run. unfold vendor_wire. rewrite <- !app_assoc. done.
Qed.

(** ** The composition *)

Lemma headed_object t : headed t → is_Some (tx_header_object t).
Proof.
  intros (x & rest & Ho & Hc & _). unfold tx_header_object. rewrite Ho. cbn [list_find]. rewrite Hc, decide_True by done. by eexists.
Qed.

Lemma add_vendor_run t host wire q : headed t → pending t [] host wire (replicate q 0) → (6 ≤ q)%nat → ∃ objs,
  tx_length (mkTxList [] false objs) = length wire ∧
  add_vendor_tlv (mkVsTx t None)
  = (Some true, mkVsTx (mkTxList (wire ++ tlv_header 3 ++ replicate (q - 6) 0) false (objs ++ [vendor_tx (length wire) 0])) None).
Proof.
  intros Hh Hpe Hq. destruct (headed_object t Hh) as [h Hho].
  destruct (pending_finalize _ _ _ _ _ Hpe) as (objs & x & y & -> & Hfin & Hp & Hlen). cbn [app] in *.
  exists (objs ++ [y]). split; [done|].
  destruct (tx_init_flat tx_vendor_specific vs_more (Some "payload") wire (replicate 6 0) (replicate (q - 6) 0))
    as (t0 & body & Hbody & _ & Ht0 & Hi); [exact vs_flat|exact vs_tx_ok|done|done|].
  rewrite <- replicate_add in Hi. replace (6 + (q - 6))%nat with q in Hi by lia. rewrite (Ht0 0xb eq_refl) in Hi.
  assert (vt_addClass tx_vendor_specific (mkVsTx (mkTxList (host ++ replicate q 0) false (objs ++ [x])) None)
    = (Some true, mkVsTx (mkTxList (wire ++ (0xb :: le16_bytes 3 ++ body) ++ replicate (q - 6) 0) false
        ((objs ++ [y]) ++ [vendor_tx (length wire) 0])) None)) as Hadd.
  { unfold vt_addClass. cbn [vt_cmdu vt_inner t_objects]. unfold tx_addClass. cbn [t_objects t_buff t_finalized].
    rewrite last_snoc, Hfin, removelast_last, Hp, Hi. unfold vendor_tx. by rewrite Nat.add_0_r. }
  set (ys := objs ++ [y]) in *. unfold add_vendor_tlv. cbn [vt_cmdu]. rewrite Hho, (fbind_ok _ _ _ _ _ Hadd). cbn [negb].
  pose proof (set_value_run ys (vendor_tx (length wire) 0) (wire ++ 0xb :: le16_bytes 3) body [0x47; 0x03; 0x00]
    (replicate (q - 6) 0) "vendor_oui") as Hset.
  rewrite <- !app_assoc in Hset. cbn [app] in Hset.
  assert (wire ++ (0xb :: le16_bytes 3 ++ body) ++ replicate (q - 6) 0
    = wire ++ 0xb :: le16_bytes 3 ++ body ++ replicate (q - 6) 0) as -> by (cbn; by rewrite <- ?app_assoc).
  assert (find_field (x_walk (vendor_tx (length wire) 0)) "vendor_oui" = Some (length (wire ++ 0xb :: le16_bytes 3))) as Hf.
  { change (find_field _ _) with (Some (length wire + 1 + 2)%nat). f_equal. rewrite length_app. cbn. lia. }
  by rewrite (fbind_ok _ _ _ _ _ (on_cmdu_run _ _ _ _ _ (Hset Hf (eq_sym Hbody)))), fret_run.
Qed.

Definition vs_build (vals : list (list Z)) : faultM VsTx bool :=
  ok <- create_vs_message c inits id ;;
  if negb ok then fret false else _ <- vs_set_values fs vals ;; vt_finalize.

Definition vs_wire_message (vals : list (list Z)) : list Z :=
  header_wire VENDOR_SPECIFIC_MESSAGE 0 false ++ vendor_wire vals ++ [0; 0; 0].

Lemma vs_build_run t vals : Forall2 sized fs vals → (14 + vs_tlv_size ≤ length (t_buff (vt_cmdu t)))%nat →
  Z.of_nat (length (t_buff (vt_cmdu t))) < 65536 → ∃ t', vs_build vals t = (Some true, t') ∧
  message (vt_cmdu t') = vs_wire_message vals.
Proof.
  intros Hs Hn Hlt. set (n := length (t_buff (vt_cmdu t))) in *. set (r := (n - 14)%nat).
  pose proof (create_headed 0 VENDOR_SPECIFIC_MESSAGE (vt_cmdu t) ltac:(lia)) as Hh.
  destruct (create_pending 0 VENDOR_SPECIFIC_MESSAGE (vt_cmdu t)) as (t1 & post & Hc & Hpe & ->); [lia|]. fold n in Hpe.
  change (bool_decide _) with false in Hpe. rewrite Hc in Hh. cbn [snd] in Hh. set (hw := header_wire VENDOR_SPECIFIC_MESSAGE 0 false) in *.
  destruct (add_vendor_run t1 _ hw (n - 8) Hh Hpe) as (objs & Hobjs & Hadd); [lia|].
  replace (n - 8 - 6)%nat with r in Hadd by lia. unfold vs_tlv_size in Hn.
  destruct (add_intel_run objs hw r ltac:(lia) ltac:(lia)) as (vals0 & Hs0 & Hint).
  assert (create_vs_message c inits id t = (Some true, mkVsTx (mkTxList (hw ++ tlv_header r ++ ah_wire (vs_action c) (vs_op c) (be16_bytes id)
       ++ concat vals0 ++ replicate (r - 19 - total fs) 0) false (objs ++ [vendor_tx (length hw) (r - 3)]))
       (Some (vs_inner (length hw + 6) (r - 3))))) as Hcreate.
  { unfold create_vs_message. rewrite (fbind_ok _ _ _ _ _ (on_cmdu_run _ _ _ _ _ Hc)). cbn [negb]. unfold add_vs_tlv.
    by rewrite (fbind_ok _ _ _ _ _ Hadd). }
  unfold vs_build. rewrite (fbind_ok _ _ _ _ _ Hcreate). cbn [negb].
  set (b0 := hw ++ tlv_header r ++ ah_wire (vs_action c) (vs_op c) (be16_bytes id)).
  pose proof (vs_set_values_run (objs ++ [vendor_tx (length hw) (r - 3)]) (vs_inner (length hw + 6) (r - 3)) _ fs vals eq_refl Hs b0
    (concat vals0) (replicate (r - 19 - total fs) 0)) as Hset.
  unfold b0 in Hset. rewrite <- !app_assoc in Hset.
  rewrite (fbind_ok _ _ _ _ _ (Hset ltac:(by apply (fixed_walk_offsets fs Hnames)) (proj2 (wire_values_length _ _ Hok Hs0)))).
  destruct (finalize_with_inner_run hw r vals) as (x & Hst & Hp & Hfin & Hf); [unfold vs_tlv_size; lia|lia|done|].
  pose proof (vendor_wire_length vals Hs) as Hwl.
  destruct (finalize_with objs x x ((hw ++ vendor_wire vals) ++ replicate (r - 19 - total fs) 0) (hw ++ vendor_wire vals) (replicate (r - 19 - total fs) 0))
    as (t' & Ht' & Hm & _).
  { unfold finalize_object. by rewrite Hfin. }
  { rewrite Hp, length_app, Hwl. lia. }
  { unfold tx_length in *. cbn [t_objects] in *. rewrite sum_list_with_app, Hobjs. cbn [sum_list_with].
    rewrite Hp, Hst, length_app, Hwl. lia. }
  { rewrite length_replicate. lia. }
  exists (mkVsTx t' None). split; [|cbn [vt_cmdu]; unfold vs_wire_message; by rewrite Hm, <- app_assoc].
  unfold vt_finalize, vt_addClass. rewrite fbind_run. cbn [vt_inner vt_cmdu t_objects t_buff t_finalized].
  rewrite last_snoc, Hf, removelast_last. unfold tx_finalize in Ht'. rewrite fbind_run in Ht'.
  destruct (tx_addClass _ _) as [[[]|] c2]; cbn [fst snd negb] in Ht' |- *; [|done..].
  unfold on_cmdu. cbn [vt_cmdu vt_inner]. by rewrite Ht'.
Qed.
End Message.

(** ** The receiver *)

(** A message class whose fields have fixed sizes. *)
Record fixed_class (c : VsClass) (inits : list (string * list Z)) (fs : list FixedField) : Prop := {
  fc_fields : vs_fields c = to_field <$> fs;
  fc_ok : Forall ff_ok fs;
  fc_names : NoDup (ff_name <$> fs);
  fc_inits : inits_ok inits fs = true;
  fc_action : vs_action c ≠ ACTION_NONE;
  fc_bytes : byte_ok (vs_action c) ∧ byte_ok (vs_op c);
}.

(** The [n] bytes of the member [name] of a received object. *)
Definition value_of (o : Object) (name : string) (n : nat) (b : list Z) : option (list Z) :=
  off ← member o name; Some (take n (drop off b)).

Lemma offsets_values o b gs vals : Forall2 sized gs vals → ∀ pre post,
  offsets (mkWalk (o_ptr o) (o_fields o) (o_spots o)) (length pre) gs → b = pre ++ concat vals ++ post →
  Forall2 (λ f x, value_of o (ff_name f) (ff_size f) b = Some x) gs vals.
Proof.
  induction 1 as [|f v gs vals Hv _ IH]; intros pre post Hoff Hb; constructor; cbn [offsets] in Hoff; destruct Hoff as [Hf Hoff].
  - unfold value_of, member. rewrite Hf. cbn [mbind option_bind]. unfold sized in Hv. f_equal.
    rewrite Hb, drop_app_length. cbn [concat]. rewrite <- app_assoc, <- Hv. by rewrite take_app_length.
  - apply (IH (pre ++ v) post); [by rewrite length_app, Hv|]. rewrite Hb. cbn [concat]. by rewrite <- !app_assoc.
Qed.

Section Receive.
Context (c : VsClass) (inits : list (string * list Z)) (fs : list FixedField) (id : Z) (vals : list (list Z)).
Hypothesis (Hc : fixed_class c inits fs) (Hs : Forall2 sized fs vals) (Hb : bytes_ok (concat vals)).
Hypothesis (Hlt : Z.of_nat (vs_tlv_size fs) < 65536).

Definition vs_payload : list Z :=
  ah_wire (vs_action c) (vs_op c) (be16_bytes id) ++ concat (wire_values fs vals).
Definition vs_tlv : Tlv := mkTlv tx_vendor_specific vs_more (Some "payload") 0xb [oui_bytes] vs_payload.

Lemma vs_payload_length : length vs_payload = (19 + total fs)%nat.
Proof. unfold vs_payload. rewrite length_app, (proj1 (wire_values_length _ _ (fc_ok _ _ _ Hc) Hs)). done. Qed.

Lemma vs_tlv_ok : tlv_ok vs_tlv.
Proof.
  split; [exact vs_flat| |done|done|by right|done|done]. split; [by repeat constructor| |done|].
  - split; [by repeat constructor|]. cbn [tv_data vs_tlv]. unfold vs_payload, ah_wire. apply Forall_app. split; apply wire_values_bytes; [|done].
    destruct (fc_bytes _ _ _ Hc). unfold ah_vals, be16_bytes. cbn [concat app zero_mac].
    repeat (apply Forall_cons; split; [first [done|apply u8_range]|]). constructor.
  - cbn [tv_data vs_tlv tv_more]. unfold tlv_len, vs_tlv_size in *. rewrite vs_payload_length. change (total vs_more) with 3%nat. lia.
Qed.

Lemma vs_tlv_wire : tv_wire vs_tlv = vendor_wire c fs id vals.
Proof.
  unfold tv_wire, vendor_wire, tv_len. cbn [tv_type tv_more tv_data tv_vals vs_tlv].
  unfold tlv_len. rewrite vs_payload_length. done.
Qed.

Lemma vs_received post : bytes_ok post → ∃ m h e,
  parse (received (vs_wire_message c fs id vals ++ post)) = (Some (Parsed true), m) ∧
  m_class_vector m = [h; vendor_object 8 (vs_tlv_size fs); e] ∧ o_class h = "cCmduHeader" ∧
  m_buff m = header_host VENDOR_SPECIFIC_MESSAGE 0 false ++ tlv_header (vs_tlv_size fs) ++ vs_payload ++ [0; 0; 0] ++ post.
Proof.
  intros Hpost. pose proof vs_tlv_ok as Hok.
  destruct (rx_message VENDOR_SPECIFIC_MESSAGE 0 false [vs_tlv] post) as (m & Hp & Hbuf & Hcl & He); [by constructor|done|].
  cbn [fmap list_fmap concat] in Hp, Hbuf. rewrite app_nil_r in Hp, Hbuf. rewrite vs_tlv_wire in Hp.
  assert (tv_size vs_tlv = 3 + vs_tlv_size fs)%nat as Hsz.
  { unfold tv_size, vs_tlv_size. cbn [tv_more tv_data vs_tlv]. rewrite vs_payload_length. change (total vs_more) with 3%nat. lia. }
  set (b := vs_wire_message c fs id vals ++ post).
  assert (parse (received b) = (Some (Parsed true), m)) as Hpb.
  { unfold b, vs_wire_message. rewrite <- !app_assoc. exact Hp. }
  assert (bytes_ok b) as Hbb.
  { unfold b, vs_wire_message. rewrite <- vs_tlv_wire. unfold bytes_ok. rewrite !Forall_app.
    split_and!; [by repeat constructor|by apply tv_wire_ok|by repeat constructor|done]. }
  pose proof (parse_run b Hbb) as Hrun. pose proof (parse_shape b) as Hsh. rewrite Hpb in Hrun, Hsh. destruct Hrun as (Hpp & _).
  destruct (m_class_vector m) as [|h [|o [|e [|]]]] eqn:Hv; try done. cbn in Hcl. injection Hcl as Hh Ho Hee.
  cbn [fmap list_fmap ends] in He. injection He as He1 He2 He3. pose proof (pp_chain _ _ Hpp) as Hch. rewrite Hv in Hch.
  cbn [chain] in Hch. destruct Hch as (_ & _ & Hst & _).
  unfold vendor_shape in Hsh. cbn [snd] in Hsh. rewrite Hv in Hsh. apply Forall_cons in Hsh as [_ [Hso _]%Forall_cons].
  destruct (Hso Ho) as [n Hn]. rewrite Hst, He1 in Hn. rewrite Hn in He2. cbn [o_ptr vendor_object] in He2.
  exists m, h, e. split_and!; [done| |done|].
  - rewrite Hv, Hn. do 3 f_equal. lia.
  - rewrite Hbuf. unfold tv_host, tv_len, tlv_len, tlv_header. cbn [tv_type tv_more tv_data tv_vals vs_tlv concat].
    rewrite vs_payload_length, app_nil_r. change (total vs_more + (19 + total fs))%nat with (vs_tlv_size fs). by rewrite <- app_assoc.
Qed.

Lemma vs_class_found post m h e : m_class_vector m = [h; vendor_object 8 (vs_tlv_size fs); e] → o_class h = "cCmduHeader" →
  m_buff m = header_host VENDOR_SPECIFIC_MESSAGE 0 false ++ tlv_header (vs_tlv_size fs) ++ vs_payload ++ post → ∃ v v' o,
  parse_intel_vs_message (mkVsMessage m None) = (Some true, v) ∧
  vs_get_action v = vs_action c ∧ vs_get_op v = vs_op c ∧ vs_get_id v = swap_16 id ∧
  vs_addClass c v = (Some (Some o), v') ∧
  Forall2 (λ f x, value_of o (ff_name f) (ff_size f) (m_buff (vm_cmdu v')) = Some x) fs vals.
Proof.
  intros Hv Hh Hbuf. set (pre := header_host VENDOR_SPECIFIC_MESSAGE 0 false ++ tlv_header (vs_tlv_size fs)).
  set (fin := (14 + 19 + total fs)%nat). set (ah := concat (ah_vals (vs_action c) (vs_op c) (be16_bytes id))).
  pose proof (rx_fixed "cACTION_HEADER" ah_fixed (ah_vals (vs_action c) (vs_op c) (be16_bytes id)) pre
    (concat (wire_values fs vals) ++ post) fin ah_ok (ah_sized _ _ (be16_bytes id) eq_refl)) as H1.
  change (length pre) with 14%nat in H1. change (total ah_fixed) with 19%nat in H1. specialize (H1 ltac:(unfold fin; lia)).
  pose proof (rx_fixed (vs_name c) fs vals (pre ++ ah) post fin (fc_ok _ _ _ Hc) Hs) as H2.
  change (length (pre ++ ah)) with 33%nat in H2. specialize (H2 ltac:(unfold fin; lia)).
  set (i := mkInnerList 14 fin false [fixed_rx "cACTION_HEADER" 14 ah_fixed]).
  set (v := mkVsMessage (set_buff (pre ++ ah ++ concat (wire_values fs vals) ++ post) m) (Some i)).
  exists v. eexists _, (fixed_rx (vs_name c) 33 fs). split_and!; [|done|done|done| |].
  - unfold parse_intel_vs_message. cbn [vm_cmdu vm_inner].
    assert (getClass "tlvVendorSpecific" m = Some (vendor_object 8 (vs_tlv_size fs))) as ->.
    { unfold getClass. rewrite Hv. cbn [list_find]. rewrite Hh, decide_False by done. done. }
    assert (has_intel_oui (vendor_object 8 (vs_tlv_size fs)) (m_buff m) = (Some true, m_buff m)) as -> by (by rewrite Hbuf).
    change (vendor_payload (vendor_object 8 (vs_tlv_size fs))) with (Some 14%nat). unfold inner_addClass. rewrite fbind_run.
    change (o_ptr _) with fin. cbn [in_fin]. change (inner_ptr _) with 14%nat.
    assert (m_buff m = pre ++ concat (wire_values ah_fixed (ah_vals (vs_action c) (vs_op c) (be16_bytes id))) ++ concat (wire_values fs vals) ++ post) as ->.
    { rewrite Hbuf. unfold vs_payload, pre. by rewrite <- !app_assoc. }
    rewrite ah_layout, H1. done.
  - unfold vs_addClass. cbn [vm_inner v]. unfold inner_addClass. rewrite fbind_run. cbn [in_fin i inner_ptr in_objects last].
    unfold vs_layout. rewrite (fc_fields _ _ _ Hc). change (o_ptr _) with 33%nat. cbn [vm_cmdu v set_buff m_buff].
    rewrite app_assoc, H2. cbn [fst snd]. rewrite fret_run. done.
  - cbn [vm_cmdu set_buff m_buff]. apply (offsets_values _ _ fs vals Hs (pre ++ ah) post); [|done].
    pose proof (fixed_walk_offsets fs (fc_names _ _ _ Hc) (mkWalk 33 [] [])) as Hoff. unfold fixed_rx. cbn [o_ptr o_fields o_spots].
    by destruct (fixed_walk (mkWalk 33 [] []) fs).
Qed.
End Receive.

(** C21: Messages between the processes arrive: a message of a class with fields
    of fixed sizes, created by [create_vs_message], filled in and finalized in
    a buffer that has room for it, is found by the receiver with the action and
    the operation of its class, and every field has the value that was set. The
    identifier arrives with its two bytes exchanged. *)
Theorem vs_message_delivered c inits fs id vals t post : fixed_class c inits fs → Forall2 sized fs vals →
  bytes_ok (concat vals) → bytes_ok post → (14 + vs_tlv_size fs ≤ length (t_buff (vt_cmdu t)))%nat →
  Z.of_nat (length (t_buff (vt_cmdu t))) < 65536 → ∃ t' m v v' o,
  vs_build c inits fs id vals t = (Some true, t') ∧
  parse (received (message (vt_cmdu t') ++ post)) = (Some (Parsed true), m) ∧
  parse_intel_vs_message (mkVsMessage m None) = (Some true, v) ∧
  vs_get_action v = vs_action c ∧ vs_get_op v = vs_op c ∧ vs_get_id v = swap_16 id ∧
  vs_addClass c v = (Some (Some o), v') ∧
  Forall2 (λ f x, value_of o (ff_name f) (ff_size f) (m_buff (vm_cmdu v')) = Some x) fs vals.
Proof.
  intros Hc Hs Hb Hpost Hn Hlt. pose proof Hc as [Hfields Hok Hnames Hinits Haction Hbytes].
  destruct (vs_build_run c inits fs id Hfields Hok Hnames Hinits Haction t vals Hs Hn Hlt) as (t' & Hr & Hm).
  destruct (vs_received c inits fs id vals Hc Hs Hb ltac:(lia) post Hpost) as (m & h & e & Hp & Hv & Hh & Hbuf).
  destruct (vs_class_found c inits fs id vals Hc Hs _ m h e Hv Hh Hbuf) as (v & v' & o & H).
  exists t', m, v, v', o. rewrite Hm. tauto.
Qed.
