(* ===== verification/WscClasses.v ===== *)
(** * WSC attributes

    The classes of the attributes of Wi-Fi Simple Configuration messages
    ([framework/tlvf/AutoGenerated/src/tlvf/WSC/WSC_Attributes.cpp]). They are
    generated like the TLV classes, with a type of two bytes; an [Attr] has
    what distinguishes them. *)

From S2P Require Import Prelude Wire Messages Tlvf CmduTx.

(** ** The scheme of the classes *)

Definition word (name : string) (n : nat) : FixedField := mkFF name n [(0, n)%nat].
Definition bytes (name : string) (n : nat) : FixedField := mkFF name n [].

(** A class: its name, the type of the attribute, the members behind the
    length (an array of [n] bytes is a member of [n] bytes), the list that
    takes the rest of the attribute, the values [init()] writes when not
    parsing, and whether it compares the type when parsing. *)
Record Attr := mkAttr {
  a_name : string;
  a_type : Z;
  a_more : list FixedField;
  a_tail : option string;
  a_init : list (string * list Z);
  a_checked : bool;
}.

(** All members of fixed size: [m_type] and [m_length] first. *)
Definition attr_fixed (a : Attr) : list FixedField := word "type" 2 :: ff_length :: a_more a.

Definition attr_layout (a : Attr) : Layout :=
  mkLayout (a_name a) None ((to_field <$> attr_fixed a) ++ tail_fields (a_tail a)).

Definition attr_inits (a : Attr) : list (string * list Z) :=
  ("type", le16_bytes (a_type a)) :: ("length", [0; 0]) :: a_init a.
Definition attr_tx (a : Attr) : TxClass := mkTxClass (attr_layout a) (attr_inits a).

(** ** The classes *)

Definition cWscAttrKeyWrapAuthenticator : Attr := mkAttr "cWscAttrKeyWrapAuthenticator" 0x101e
  [bytes "data" 8] None [] false.
Definition cWscAttrVendorExtension : Attr := mkAttr "cWscAttrVendorExtension" 0x1049
  [bytes "vendor_id_0" 1; bytes "vendor_id_1" 1; bytes "vendor_id_2" 1] (Some "vendor_data")
  [("vendor_id_0", [0x0]); ("vendor_id_1", [0x37]); ("vendor_id_2", [0x2a])] false.
Definition cWscAttrEncryptedSettings : Attr := mkAttr "cWscAttrEncryptedSettings" 0x1018
  [bytes "iv" 16] (Some "encrypted_settings") [] true.
Definition cWscAttrVersion : Attr := mkAttr "cWscAttrVersion" 0x104a [bytes "data" 1] None [("data", [0x10])] false.
Definition cWscAttrMessageType : Attr := mkAttr "cWscAttrMessageType" 0x1022
  [bytes "msg_type" 1] None [("msg_type", [0xff])] false.
Definition cWscAttrEnrolleeNonce : Attr := mkAttr "cWscAttrEnrolleeNonce" 0x101a [bytes "nonce" 16] None [] false.
Definition cWscAttrPublicKey : Attr := mkAttr "cWscAttrPublicKey" 0x1032 [bytes "public_key" 192] None [] false.
Definition cWscAttrAuthenticationTypeFlags : Attr := mkAttr "cWscAttrAuthenticationTypeFlags" 0x1004
  [word "auth_type_flags" 2] None [("auth_type_flags", [0x21; 0x0])] false.
Definition cWscAttrEncryptionTypeFlags : Attr := mkAttr "cWscAttrEncryptionTypeFlags" 0x1010
  [word "encr_type_flags" 2] None [("encr_type_flags", [0x9; 0x0])] false.
Definition cWscAttrConnectionTypeFlags : Attr := mkAttr "cWscAttrConnectionTypeFlags" 0x100d
  [bytes "conn_type_flags" 1] None [("conn_type_flags", [0x1])] false.
Definition cWscAttrConfigurationMethods : Attr := mkAttr "cWscAttrConfigurationMethods" 0x1008
  [word "conf_methods" 2] None [("conf_methods", [0x80; 0x6])] false.
Definition cWscAttrManufacturer : Attr := mkAttr "cWscAttrManufacturer" 0x1021 [] (Some "manufacturer") [] false.
Definition cWscAttrModelName : Attr := mkAttr "cWscAttrModelName" 0x1023 [] (Some "model") [] false.
Definition cWscAttrModelNumber : Attr := mkAttr "cWscAttrModelNumber" 0x1024 [] (Some "model_number") [] false.
Definition cWscAttrSerialNumber : Attr := mkAttr "cWscAttrSerialNumber" 0x1042 [] (Some "serial_number") [] false.
Definition cWscAttrPrimaryDeviceType : Attr := mkAttr "cWscAttrPrimaryDeviceType" 0x1054
  [word "category_id" 2; word "oui" 4; word "sub_category_id" 2] None
  [("category_id", [0x6; 0x0]); ("oui", [0x4; 0xf2; 0x50; 0x0])] false.
Definition cWscAttrDeviceName : Attr := mkAttr "cWscAttrDeviceName" 0x1011 [] (Some "device_name") [] false.
Definition cWscAttrRfBands : Attr := mkAttr "cWscAttrRfBands" 0x103c [bytes "bands" 1] None [] false.
Definition cWscAttrAssociationState : Attr := mkAttr "cWscAttrAssociationState" 0x1002
  [word "assoc_state" 2] None [("assoc_state", [0x0; 0x0])] false.
Definition cWscAttrDevicePasswordID : Attr := mkAttr "cWscAttrDevicePasswordID" 0x1012
  [word "pw" 2] None [("pw", [0x4; 0x0])] false.
Definition cWscAttrConfigurationError : Attr := mkAttr "cWscAttrConfigurationError" 0x1009
  [word "cfg_err" 2] None [("cfg_err", [0x0; 0x0])] false.
Definition cWscAttrOsVersion : Attr := mkAttr "cWscAttrOsVersion" 0x102d
  [word "os_version" 4] None [("os_version", [0x1; 0x0; 0x0; 0x80])] false.
Definition cWscAttrMac : Attr := mkAttr "cWscAttrMac" 0x1020 [bytes "data" 6] None [("data", zero_mac)] false.
Definition cWscAttrUuidE : Attr := mkAttr "cWscAttrUuidE" 0x1047 [bytes "data" 16] None [] false.
Definition cWscAttrWscState : Attr := mkAttr "cWscAttrWscState" 0x1044
  [bytes "state" 1] None [("state", [0x1])] false.
Definition cWscAttrUuidR : Attr := mkAttr "cWscAttrUuidR" 0x1048 [bytes "data" 16] None [] false.
Definition cWscAttrAuthenticator : Attr := mkAttr "cWscAttrAuthenticator" 0x1005 [bytes "data" 8] None [] false.
Definition cWscAttrRegistrarNonce : Attr := mkAttr "cWscAttrRegistrarNonce" 0x1039 [bytes "nonce" 16] None [] false.
Definition cWscAttrSsid : Attr := mkAttr "cWscAttrSsid" 0x1045 [] (Some "ssid") [] false.
Definition cWscAttrAuthenticationType : Attr := mkAttr "cWscAttrAuthenticationType" 0x1003
  [word "data" 2] None [("data", [0x20; 0x0])] false.
Definition cWscAttrEncryptionType : Attr := mkAttr "cWscAttrEncryptionType" 0x100f
  [word "data" 2] None [("data", [0x8; 0x0])] false.
Definition cWscAttrNetworkKey : Attr := mkAttr "cWscAttrNetworkKey" 0x1027 [] (Some "key") [] false.
Definition cWscAttrBssIndex : Attr := mkAttr "cWscAttrBssIndex" 0x1bbc
  [bytes "index" 1] None [("index", [0x0])] false.

(** All of them. *)
Definition wsc_attributes : list Attr := [
    cWscAttrKeyWrapAuthenticator; cWscAttrVendorExtension; cWscAttrEncryptedSettings; cWscAttrVersion;
    cWscAttrMessageType; cWscAttrEnrolleeNonce; cWscAttrPublicKey; cWscAttrAuthenticationTypeFlags;
    cWscAttrEncryptionTypeFlags; cWscAttrConnectionTypeFlags; cWscAttrConfigurationMethods;
    cWscAttrManufacturer; cWscAttrModelName; cWscAttrModelNumber; cWscAttrSerialNumber;
    cWscAttrPrimaryDeviceType; cWscAttrDeviceName; cWscAttrRfBands; cWscAttrAssociationState;
    cWscAttrDevicePasswordID; cWscAttrConfigurationError; cWscAttrOsVersion; cWscAttrMac; cWscAttrUuidE;
    cWscAttrWscState; cWscAttrUuidR; cWscAttrAuthenticator; cWscAttrRegistrarNonce; cWscAttrSsid;
    cWscAttrAuthenticationType; cWscAttrEncryptionType; cWscAttrNetworkKey; cWscAttrBssIndex].

(** Names are distinct, words are inside of their members, and what [init()]
    writes fits. *)
Record attr_ok (a : Attr) : Prop := {
  ak_names : NoDup (ff_name <$> attr_fixed a);
  ak_tail name : a_tail a = Some name → name ∉ ff_name <$> attr_fixed a;
  ak_words : Forall ff_ok (attr_fixed a);
  ak_inits : inits_ok (attr_inits a) (a_more a) = true;
  ak_type : 0 ≤ a_type a < 65536;
  ak_size : (total (a_more a) ≤ 192)%nat;
  ak_layout : layout_ok (attr_layout a) = true;
}.

Definition attr_okb (a : Attr) : bool :=
  bool_decide (NoDup (ff_name <$> attr_fixed a)) &&
  (match a_tail a with None => true | Some name => bool_decide (name ∉ ff_name <$> attr_fixed a) end) &&
  forallb (λ f, sw_ok 0 (ff_size f) (ff_sw f)) (attr_fixed a) && inits_ok (attr_inits a) (a_more a) &&
  bool_decide (0 ≤ a_type a < 65536) && bool_decide (total (a_more a) ≤ 192)%nat && layout_ok (attr_layout a).

Lemma attr_okb_ok a : attr_okb a = true → attr_ok a.
Proof.
  unfold attr_okb. rewrite !andb_true_iff, !bool_decide_eq_true. intros ((((((H1 & H2) & H3) & H4) & H5) & H6) & H7).
  split; [done| | |done|done|done|done].
  2: { rewrite forallb_forall in H3. apply Forall_forall. intros f Hf. by apply H3, list_elem_of_In. }
  intros name Hn. rewrite Hn in H2. by apply bool_decide_eq_true in H2.
Qed.

Lemma wsc_attributes_ok a : a ∈ wsc_attributes → attr_ok a.
Proof.
  intros Ha. apply attr_okb_ok. assert (forallb attr_okb wsc_attributes = true) as H by (by vm_compute).
  rewrite forallb_forall in H. by apply H, list_elem_of_In.
Qed.
