(* ===== verification/WscAttrList.v ===== *)
(** * Received WSC messages

    [WscAttrList] ([WscAttrList.h], [AttrList.h]): how the payload of a WSC TLV
    is taken apart into attributes, and the messages [m1], [m2], [m8] and
    [EncryptedSettingsPayload] ([m1.cpp], [m1.h], ...) that are parsed with it.
    A read behind the payload is a fault, as is the use of an attribute that is
    missing. *)

From S2P Require Import Prelude Wire Messages Tlvf CmduMessage CmduTx CmduUtils WscClasses.

(** ** The list *)

(** [getRemainingBytes()]. *)
Definition getRemainingBytes (m : ClassList) : nat := length (m_buff m) - next_ptr m.

(** [getNextAttrType()], [getNextAttrLength()]: swapped to host order. *)
Definition getNextAttrType : faultM ClassList Z := read_be16 0.
Definition getNextAttrLength : faultM ClassList Z := read_be16 2.

(** The last object with another [m_buff_ptr__]. *)
Definition move_ptr (n : nat) (o : Object) : Object :=
  mkObject (o_class o) (o_start o) (o_ptr o + n) (o_fields o) (o_spots o).

(** [skipNextAttribute()]: the last object takes the attribute in. *)
Definition skipNextAttribute : faultM ClassList bool := λ m,
  match last (m_class_vector m) with
  | None => (Some false, m)
  | Some o =>
    (n <- getNextAttrLength ;;
     if Z.of_nat (getRemainingBytes m) <? 2 + 2 + n then fret false
     else λ m, (Some true, mkClassList (m_buff m) (m_swapped m)
                             (removelast (m_class_vector m) ++ [move_ptr (Z.to_nat (2 + 2 + n)) o]))) m
  end.

(** [addAttr<T>()]: [addClass<T>()] with the comparison of the type at the end
    of some [init()]. *)
Definition addAttr (a : Attr) : faultM ClassList (option Object) := λ m,
  match addClass (attr_layout a) m with
  | (Some (Some o), m') =>
    if a_checked a && negb (le16 (m_buff m') (o_start o) =? a_type a)
    then (Some None, mkClassList (m_buff m') (m_swapped m) (m_class_vector m))
    else (Some (Some o), m')
  | r => r
  end.

(** The attributes of the [switch], in its order. *)
Definition attr_switch : list (Z * Attr) := [
    (0x1002, cWscAttrAssociationState); (0x1004, cWscAttrAuthenticationTypeFlags);
    (0x1008, cWscAttrConfigurationMethods); (0x1009, cWscAttrConfigurationError);
    (0x100d, cWscAttrConnectionTypeFlags); (0x1010, cWscAttrEncryptionTypeFlags);
    (0x1011, cWscAttrDeviceName); (0x1012, cWscAttrDevicePasswordID); (0x101a, cWscAttrEnrolleeNonce);
    (0x1020, cWscAttrMac); (0x1021, cWscAttrManufacturer); (0x1022, cWscAttrMessageType);
    (0x1023, cWscAttrModelName); (0x1024, cWscAttrModelNumber); (0x102d, cWscAttrOsVersion);
    (0x1032, cWscAttrPublicKey); (0x103c, cWscAttrRfBands); (0x1042, cWscAttrSerialNumber);
    (0x1044, cWscAttrWscState); (0x1047, cWscAttrUuidE); (0x1049, cWscAttrVendorExtension);
    (0x104a, cWscAttrVersion); (0x1054, cWscAttrPrimaryDeviceType); (0x1039, cWscAttrRegistrarNonce);
    (0x1048, cWscAttrUuidR); (0x1018, cWscAttrEncryptedSettings); (0x1005, cWscAttrAuthenticator);
    (0x1045, cWscAttrSsid); (0x1003, cWscAttrAuthenticationType); (0x100f, cWscAttrEncryptionType);
    (0x1027, cWscAttrNetworkKey); (0x1bbc, cWscAttrBssIndex); (0x101e, cWscAttrKeyWrapAuthenticator)].

Definition attr_of_type (t : Z) : option Attr :=
  snd <$> (snd <$> list_find (λ x, x.1 = t) attr_switch).

Definition ATTR_KEY_WRAP_AUTH : Z := 0x101e.

(** The loop of [WscAttrList::init()]. The message logged for an unknown
    attribute reads its length. An exhausted fuel is a fault. *)
Fixpoint attrs_loop (fuel : nat) : faultM ClassList bool := λ m,
  if (getRemainingBytes m =? 0)%nat then (Some true, m)
  else
    match fuel with
    | O => (None, m)
    | S fuel =>
      (t <- getNextAttrType ;;
       match attr_of_type t with
       | Some a =>
         r <- addAttr a ;;
         match r with
         | None => fret false
         | Some _ => if t =? ATTR_KEY_WRAP_AUTH then fret true else attrs_loop fuel
         end
       | None =>
         _ <- getNextAttrLength ;;
         ok <- skipNextAttribute ;;
         if (ok : bool) then attrs_loop fuel else fret true
       end) m
    end.

(** [init()] of a list constructed for parsing. *)
Definition attrs_init : faultM ClassList bool := λ m, attrs_loop (getRemainingBytes m) m.

(** [getAttr<T>()], [getAttrList<T>()]. *)
Definition getAttr (a : Attr) (m : ClassList) : option Object := getClass (a_name a) m.
Definition getAttrList (a : Attr) (m : ClassList) : list Object :=
  filter (λ o, o_class o = a_name a) (m_class_vector m).

(** ** Members of an attribute *)

(** The [n] bytes of a member, in host order. *)
Definition attr_value (o : Object) (name : string) (n : nat) : faultM ClassList (list Z) := λ m,
  match member o name with
  | None => (None, m)
  | Some off => (if (off + n <=? length (m_buff m))%nat then Some (take n (drop off (m_buff m))) else None, m)
  end.

(** [m_x_idx__] of the list of an attribute: what [init()] found from
    [*m_length], which is in host order afterwards. *)
Definition list_length (a : Attr) (o : Object) (m : ClassList) : nat :=
  Z.to_nat (le16 (m_buff m) (o_start o + 2)) - total (a_more a).

(** The bytes of the list. *)
Definition attr_list (a : Attr) (o : Object) : faultM ClassList (list Z) := λ m,
  match a_tail a with
  | None => (None, m)
  | Some name => attr_value o name (list_length a o m) m
  end.

(** [x_str()]: up to the first null character. *)
Fixpoint until_null (s : list Z) : list Z :=
  match s with [] => [] | c :: s => if c =? 0 then [] else c :: until_null s end.
Definition attr_str (a : Attr) (o : Object) : faultM ClassList (list Z) :=
  s <- attr_list a o ;; fret (until_null s).

(** [getAttr<T>()->x()]: the object is used without a check. *)
Definition get_value (a : Attr) (name : string) (n : nat) : faultM ClassList (list Z) := λ m,
  match getAttr a m with None => (None, m) | Some o => attr_value o name n m end.
Definition get_str (a : Attr) : faultM ClassList (list Z) := λ m,
  match getAttr a m with None => (None, m) | Some o => attr_str a o m end.

(** ** The messages *)

Definition WSC_MSG_TYPE_M1 : Z := 0x4.
Definition WSC_MSG_TYPE_M2 : Z := 0x5.
Definition WSC_MSG_TYPE_M8 : Z := 0xc.

(** [msg_type()]. *)
Definition msg_type : faultM ClassList (list Z) := get_value cWscAttrMessageType "msg_type" 1.

(** [valid()]: the attributes that have to be present. *)
Definition has_all (l : list Attr) (m : ClassList) : bool :=
  forallb (λ a, match getAttr a m with Some _ => true | None => false end) l.

Definition m1_required : list Attr := [
    cWscAttrVersion; cWscAttrMessageType; cWscAttrEnrolleeNonce; cWscAttrPublicKey;
    cWscAttrAuthenticationTypeFlags; cWscAttrEncryptionTypeFlags; cWscAttrConnectionTypeFlags;
    cWscAttrConfigurationMethods; cWscAttrManufacturer; cWscAttrModelName; cWscAttrModelNumber;
    cWscAttrSerialNumber; cWscAttrPrimaryDeviceType; cWscAttrDeviceName; cWscAttrRfBands;
    cWscAttrAssociationState; cWscAttrConfigurationError; cWscAttrDevicePasswordID; cWscAttrOsVersion;
    cWscAttrUuidE; cWscAttrMac; cWscAttrVendorExtension].

Definition m2_required : list Attr := [
    cWscAttrVersion; cWscAttrMessageType; cWscAttrEnrolleeNonce; cWscAttrPublicKey;
    cWscAttrAuthenticationTypeFlags; cWscAttrEncryptionTypeFlags; cWscAttrConnectionTypeFlags;
    cWscAttrConfigurationMethods; cWscAttrManufacturer; cWscAttrModelName; cWscAttrModelNumber;
    cWscAttrSerialNumber; cWscAttrPrimaryDeviceType; cWscAttrDeviceName; cWscAttrRfBands;
    cWscAttrAssociationState; cWscAttrConfigurationError; cWscAttrDevicePasswordID; cWscAttrOsVersion;
    cWscAttrUuidR; cWscAttrRegistrarNonce; cWscAttrEncryptedSettings; cWscAttrAuthenticator].

Definition m8_required : list Attr := [
    cWscAttrVersion; cWscAttrMessageType; cWscAttrEnrolleeNonce; cWscAttrRegistrarNonce; cWscAttrPublicKey;
    cWscAttrEncryptedSettings; cWscAttrAuthenticator].

Definition settings_required : list Attr := [
    cWscAttrVendorExtension; cWscAttrSsid; cWscAttrAuthenticationType; cWscAttrEncryptionType;
    cWscAttrNetworkKey; cWscAttrMac; cWscAttrKeyWrapAuthenticator].

(** What [parse()] does with the new list: the result of [init()] is not
    looked at. *)
Definition check_valid (required : list Attr) : faultM ClassList bool := λ m, (Some (has_all required m), m).
Definition wsc_parse (t : Z) (required : list Attr) : faultM ClassList bool :=
  _ <- attrs_init ;;
  mt <- msg_type ;;
  if bool_decide (mt = [t]) then check_valid required else fret false.

(** The list works on a copy of the payload, or on the payload itself. *)
Definition on_copy (p : faultM ClassList bool) : faultM (list Z) (option ClassList) := λ b,
  match p (received b) with
  | (Some true, m) => (Some (Some m), b)
  | (Some false, _) => (Some None, b)
  | (None, _) => (None, b)
  end.
Definition in_place (p : faultM ClassList bool) : faultM (list Z) (option ClassList) := λ b,
  match p (received b) with
  | (Some true, m) => (Some (Some m), m_buff m)
  | (Some false, m) => (Some None, m_buff m)
  | (None, m) => (None, m_buff m)
  end.
Definition unless_empty (p : faultM (list Z) (option ClassList)) : faultM (list Z) (option ClassList) := λ b,
  if (length b =? 0)%nat then (Some None, b) else p b.

Definition m1_parse : faultM (list Z) (option ClassList) :=
  unless_empty (on_copy (wsc_parse WSC_MSG_TYPE_M1 m1_required)).
Definition m2_parse : faultM (list Z) (option ClassList) :=
  unless_empty (in_place (wsc_parse WSC_MSG_TYPE_M2 m2_required)).
Definition m8_parse : faultM (list Z) (option ClassList) :=
  unless_empty (in_place (wsc_parse WSC_MSG_TYPE_M8 m8_required)).
Definition settings_parse : faultM (list Z) (option ClassList) :=
  in_place (_ <- attrs_init ;; check_valid settings_required).

(** *** Getters *)

Definition manufacturer := get_str cWscAttrManufacturer.
Definition model_name := get_str cWscAttrModelName.
Definition device_name := get_str cWscAttrDeviceName.
Definition serial_number := get_str cWscAttrSerialNumber.
Definition encr_type_flags := get_value cWscAttrEncryptionTypeFlags "encr_type_flags" 2.
Definition auth_type_flags := get_value cWscAttrAuthenticationTypeFlags "auth_type_flags" 2.
Definition enrollee_nonce := get_value cWscAttrEnrolleeNonce "nonce" 16.
Definition public_key := get_value cWscAttrPublicKey "public_key" 192.
Definition rf_bands := get_value cWscAttrRfBands "bands" 1.
Definition mac_addr := get_value cWscAttrMac "data" 6.
Definition os_version := get_value cWscAttrOsVersion "os_version" 4.
Definition authenticator := get_value cWscAttrAuthenticator "data" 8.
Definition registrar_nonce := get_value cWscAttrRegistrarNonce "nonce" 16.

(** The byte list of the first attribute of a class. *)
Definition get_list (a : Attr) : faultM ClassList (list Z) := λ m,
  match getAttr a m with None => (None, m) | Some o => attr_list a o m end.
Definition encrypted_settings_iv := get_value cWscAttrEncryptedSettings "iv" 16.
Definition encrypted_settings := get_list cWscAttrEncryptedSettings.

(** With a check whether the attribute is present. *)
Definition get_or {A} (a : Attr) (d : A) (f : Object → faultM ClassList A) : faultM ClassList A := λ m,
  match getAttr a m with None => (Some d, m) | Some o => f o m end.

Definition bss_index : faultM ClassList (list Z) :=
  get_or cWscAttrBssIndex [0] (λ o, attr_value o "index" 1).
Definition ssid : faultM ClassList (list Z) := get_or cWscAttrSsid [] (attr_str cWscAttrSsid).
Definition auth_type : faultM ClassList (list Z) :=
  get_or cWscAttrAuthenticationType (le16_bytes 0xffff) (λ o, attr_value o "data" 2).
Definition encr_type : faultM ClassList (list Z) :=
  get_or cWscAttrEncryptionType (le16_bytes 0xffff) (λ o, attr_value o "data" 2).
Definition network_key : faultM ClassList (list Z) := get_or cWscAttrNetworkKey [] (attr_str cWscAttrNetworkKey).
Definition bssid : faultM ClassList (list Z) := get_or cWscAttrMac zero_mac (λ o, attr_value o "data" 6).
Definition key_wrap_authenticator : faultM ClassList (option (list Z)) :=
  get_or cWscAttrKeyWrapAuthenticator None (λ o, v <- attr_value o "data" 8 ;; fret (Some v)).

Definition key_wrap_authenticator_size : faultM ClassList nat :=
  get_or cWscAttrKeyWrapAuthenticator 0%nat (λ _, fret (get_initial_size (l_fields (attr_layout cWscAttrKeyWrapAuthenticator)))).

(** *** Vendor extensions *)

Definition WFA_ID : list Z := [0x0; 0x37; 0x2a].
Definition AIRTIES_ID : list Z := [0x88; 0x41; 0xfc].

(** [vendor_data_length()], and [vendor_data()[i]]: [vendor_data()] is a null
    pointer when there is no data. *)
Definition vendor_data_length (o : Object) (m : ClassList) : nat := list_length cWscAttrVendorExtension o m.
Definition vendor_byte (o : Object) (i : nat) : faultM ClassList Z := λ m,
  if (vendor_data_length o m =? 0)%nat then (None, m)
  else match member o "vendor_data" with None => (None, m) | Some off => read_at (off + i) m end.

(** The loops over the vendor extensions of one vendor, up to the first one [f]
    finds something in. *)
Fixpoint find_vendor {A} (id : list Z) (f : Object → faultM ClassList (option A)) (d : A) (l : list Object)
    : faultM ClassList A :=
  match l with
  | [] => fret d
  | o :: l =>
    v <- attr_value o "vendor_id_0" 3 ;;
    if bool_decide (v = id) then
      r <- f o ;;
      match r with Some x => fret x | None => find_vendor id f d l end
    else find_vendor id f d l
  end.
Definition vendor_getter {A} (id : list Z) (f : Object → faultM ClassList (option A)) (d : A) : faultM ClassList A :=
  λ m, find_vendor id f d (getAttrList cWscAttrVendorExtension m) m.

(** [hidden_ssid()]: [ENABLED] is 1, [DISABLED] 0, [UNSET] 0xff. *)
Definition hidden_ssid : faultM ClassList Z :=
  vendor_getter AIRTIES_ID (λ o,
    d0 <- vendor_byte o 0 ;;
    if d0 =? 0x02 then d1 <- vendor_byte o 1 ;; fret (Some (if d1 =? 0x80 then 1 else 0))
    else fret None) 0xff.

Definition eVapType_check (v : Z) : bool := (0 <=? v) && (v <=? 6) || (v =? 0xff).

(** [len >= 2] is tested before the data is read. *)
Definition tagged {A} (tag : Z) (f : Object → nat → faultM ClassList A) (o : Object)
    : faultM ClassList (option A) := λ m,
  if (vendor_data_length o m <? 2)%nat then (Some None, m)
  else (d0 <- vendor_byte o 0 ;;
        if d0 =? tag then x <- f o (vendor_data_length o m) ;; fret (Some x) else fret None) m.

Definition vap_type : faultM ClassList Z :=
  vendor_getter AIRTIES_ID
    (tagged 0x00 (λ o _, d1 <- vendor_byte o 1 ;; fret (if eVapType_check d1 then d1 else 0xff))) 0xff.

Definition vap_label : faultM ClassList (list Z) :=
  vendor_getter AIRTIES_ID
    (tagged 0x01 (λ o len, d <- attr_value o "vendor_data" len ;; fret (drop 1 d))) [].

(** [bss_type()]: the subelements of the WFA's extensions. *)
Fixpoint find_subelement (fuel index : nat) (o : Object) : faultM ClassList (option Z) := λ m,
  if (index + 3 <=? vendor_data_length o m)%nat then
    match fuel with
    | O => (None, m)
    | S fuel =>
      (t <- vendor_byte o index ;;
       l <- vendor_byte o (index + 1) ;;
       if (t =? 6) && (l =? 1) then v <- vendor_byte o (index + 2) ;; fret (Some v)
       else find_subelement fuel (index + 2 + Z.to_nat l) o) m
    end
  else (Some None, m).
Definition bss_type : faultM ClassList Z :=
  vendor_getter WFA_ID (λ o m, find_subelement (vendor_data_length o m) 0 o m) 0x10.

(** ** One attribute *)

(** A big-endian word of the payload. *)
Definition be16_at (b : list Z) (off : nat) : Z := be16 (at_ b off) (at_ b (S off)).

(** How many bytes the list at the end of an attribute at [start] has, unless
    the attribute does not fit into [b]. *)
Definition attr_extent (a : Attr) (b : list Z) (start : nat) : option nat :=
  if (length b - start <? 4 + total (a_more a))%nat then None
  else
    match a_tail a with
    | None => Some 0%nat
    | Some _ =>
      let n := be16_at b (start + 2) - Z.of_nat (total (a_more a)) in
      if (n <? 0) || (Z.of_nat (length b) <? Z.of_nat (start + 4 + total (a_more a)) + n) then None
      else Some (Z.to_nat n)
    end.

Definition attr_spots (a : Attr) (start : nat) : list Spot := fixed_spots start (attr_fixed a).

(** The object of an attribute at [start] with [n] bytes in its list. *)
Definition attr_object (a : Attr) (start n : nat) : Object :=
  let w := fixed_walk (mkWalk start [] []) (attr_fixed a) in
  mkObject (a_name a) start (start + 4 + total (a_more a) + n)
    (match a_tail a with None => [] | Some name => [(name, w_ptr w)] end ++ w_fields w)
    (attr_spots a start).

Lemma attr_initial_size a : get_initial_size (l_fields (attr_layout a)) = (4 + total (a_more a))%nat.
Proof.
  unfold get_initial_size, attr_layout. cbn [l_fields]. rewrite sum_list_with_app.
  assert (sum_list_with initial_size (tail_fields (a_tail a)) = 0%nat) as -> by (by destruct (a_tail a)).
  rewrite Nat.add_0_r. unfold attr_fixed. cbn. do 4 f_equal.
  unfold total. induction (a_more a) as [|f l IH]; [done|]. cbn. by rewrite <- IH.
Qed.

Lemma attr_total a : total (attr_fixed a) = (4 + total (a_more a))%nat.
Proof. done. Qed.

Lemma attr_length_at a start : attr_ok a →
  find_field (fixed_walk (mkWalk start [] []) (attr_fixed a)) "length" = Some (start + 2)%nat.
Proof. intros Ha. by destruct (fixed_walk_offsets _ (ak_names _ Ha) (mkWalk start [] [])) as (_ & H & _). Qed.

Lemma attr_rest_length a b start : attr_ok a → bytes_ok b → (start + 4 ≤ length b)%nat →
  rest_length (Len16 "length") start (fixed_walk (mkWalk start [] []) (attr_fixed a)) b
  = (Some (u64 (be16_at b (start + 2) - Z.of_nat (total (a_more a)))), b).
Proof.
  intros Ha Hb Hlen. unfold rest_length, type_size, read_len. cbn [len_field].
  rewrite (attr_length_at a start Ha), !fbind_run, read_byte_at by lia. cbn [fst snd].
  rewrite !fbind_run, read_byte_at by lia. cbn [fst snd]. rewrite !fret_run. cbn [fst snd from_option id len_width].
  rewrite fixed_walk_ptr, attr_total. cbn [w_ptr]. unfold be16_at. rewrite fret_run. do 3 f_equal. lia.
Qed.

Lemma be16_at_range b off : bytes_ok b → 0 ≤ be16_at b off < 65536.
Proof. intros Hb. apply be16_range; by apply word_at_byte. Qed.

(** [init()] of an attribute on any payload. *)
Lemma init_attr a b start : attr_ok a → bytes_ok b → Z.of_nat (length b) < 2 ^ 63 → (start ≤ length b)%nat →
  init_parse (attr_layout a) start (length b) b =
  match attr_extent a b start with
  | Some n => (Some (Some (attr_object a start n)), swap_spots (attr_spots a start) b)
  | None => (Some None, b)
  end.
Proof.
  intros Ha Hb Hmax Hst. unfold init_parse, init_fields, attr_extent. rewrite attr_initial_size, fbind_run.
  destruct (_ <? _)%nat eqn:Hlt; [done|]. apply Nat.ltb_ge in Hlt.
  assert (∀ n, (start + 4 + total (a_more a) + n ≤ length b)%nat →
    class_swap (w_spots (fixed_walk (mkWalk start [] []) (attr_fixed a))) b
    = (Some tt, swap_spots (attr_spots a start) b)) as Hswap.
  { intros n Hn. rewrite fixed_walk_spots. cbn [w_spots w_ptr app].
    apply (class_swap_run _ start (start + total (attr_fixed a))); [|rewrite attr_total; lia].
    apply fixed_spots_ok, Ha. }
  rewrite fbind_run. cbn [attr_layout l_fields l_type l_name]. rewrite rx_walk_fixed by (rewrite attr_total; cbn; lia).
  set (w := fixed_walk _ _) in *. assert (w_ptr w = start + 4 + total (a_more a))%nat as Hptr.
  { unfold w. rewrite fixed_walk_ptr, attr_total. cbn. lia. }
  assert (w_spots w = attr_spots a start) as Hspots by (unfold w; by rewrite fixed_walk_spots).
  unfold attr_object. fold w.
  destruct (a_tail a) as [name|] eqn:Htail; cbn [tail_fields walk_fields walk_field app].
  - rewrite !fbind_run. unfold w. rewrite attr_rest_length by (done || lia). fold w. cbn [fst snd].
    rewrite fret_run. cbn [fst snd]. unfold take_elements. rewrite Z.div_1_r, Hptr.
    pose proof (be16_at_range b (start + 2) Hb). set (v := be16_at b (start + 2)) in *.
    set (n := v - Z.of_nat (total (a_more a))). pose proof (ak_size _ Ha). destruct (n <? 0) eqn:Hn; cbn [orb].
    + apply Z.ltb_lt in Hn. pose proof (u64_negative n ltac:(lia)).
      rewrite (proj2 (Z.ltb_lt _ (u64 n))) by lia. done.
    + apply Z.ltb_ge in Hn. assert (u64 n = n) as -> by (unfold u64; rewrite Z.mod_small; lia).
      replace (Z.of_nat (length b) <? _) with (Z.of_nat (length b) - Z.of_nat (start + 4 + total (a_more a)) <? n)
        by (apply eq_bool_prop_intro; rewrite !Is_true_true, !Z.ltb_lt; lia).
      destruct (_ <? n) eqn:Hfit; [done|]. apply Z.ltb_ge in Hfit. rewrite element_spots_plain, app_nil_r, fret_run.
      cbn [fst snd w_spots]. rewrite fbind_run, (Hswap (Z.to_nat n)) by lia. cbn [fst snd]. rewrite fret_run. cbn [fst snd].
      cbn [w_ptr w_fields w_spots]. by rewrite Hspots, fret_run.
  - rewrite fret_run. cbn [fst snd]. rewrite fbind_run, (Hswap 0%nat) by lia. cbn [fst snd]. rewrite fret_run.
    cbn [fst snd]. by rewrite Hspots, Hptr, Nat.add_0_r.
Qed.

(** The words of an attribute after [class_swap()]. *)
Lemma swapped_words a b p : attr_ok a → (p + 4 + total (a_more a) ≤ length b)%nat → ∃ rest,
  swap_spots (attr_spots a p) b
  = take p b ++ [at_ b (p + 1); at_ b p; at_ b (p + 3); at_ b (p + 2)] ++ rest.
Proof.
  intros Ha Hlen.
  assert (∃ t1 t2 l1 l2 body post, b = take p b ++ [t1; t2] ++ [l1; l2] ++ body ++ post ∧ length body = total (a_more a))
    as (t1 & t2 & l1 & l2 & body & post & Hb & Hbody).
  { destruct (drop p b) as [|t1 [|t2 [|l1 [|l2 r]]]] eqn:Hd;
      pose proof (f_equal length Hd) as Hl; rewrite length_drop in Hl; cbn [length] in Hl; try lia.
    exists t1, t2, l1, l2, (take (total (a_more a)) r), (drop (total (a_more a)) r).
    rewrite take_drop, length_take. split; [|lia]. rewrite <- (take_drop p b) at 1. by rewrite Hd. }
  destruct (split_sizes (a_more a) body Hbody) as (vals & Hs & Hc).
  assert (length (take p b) = p) as Hp by (rewrite length_take; lia).
  assert (∀ i, at_ b (p + i) = at_ ([t1; t2] ++ [l1; l2] ++ body ++ post) i) as Hat.
  { intros i. unfold at_. rewrite Hb at 1. rewrite lookup_app_r by lia. by rewrite Hp, Nat.add_sub'. }
  rewrite !Hat, <- (Nat.add_0_r p), Hat, Nat.add_0_r. cbn [app].
  exists (concat (wire_values (a_more a) vals) ++ post).
  pose proof (swap_fixed_spots (attr_fixed a) ([t1; t2] :: [l1; l2] :: vals) (ak_words _ Ha)) as Hsw.
  rewrite Hb at 1. rewrite <- Hc. unfold attr_spots. rewrite <- Hp at 1.
  assert (Forall2 sized (attr_fixed a) ([t1; t2] :: [l1; l2] :: vals)) as Hall by (by repeat constructor).
  specialize (Hsw Hall (take p b) post). cbn [concat app] in Hsw |- *. exact Hsw.
Qed.

Lemma swapped_type a b p : attr_ok a → (p + 4 + total (a_more a) ≤ length b)%nat →
  le16 (swap_spots (attr_spots a p) b) p = be16_at b p ∧
  le16 (swap_spots (attr_spots a p) b) (p + 2) = be16_at b (p + 2).
Proof.
  intros Ha Hlen. destruct (swapped_words a b p Ha Hlen) as (rest & ->).
  assert (length (take p b) = p) as Hp by (rewrite length_take; lia).
  assert (∀ i r, at_ (take p b ++ r) (p + i) = at_ r i) as Hat.
  { intros i r. unfold at_. rewrite lookup_app_r by lia. by rewrite Hp, Nat.add_sub'. }
  pose proof (Hat 0%nat) as Hat0. rewrite Nat.add_0_r in Hat0.
  unfold le16, be16_at. rewrite <- !Nat.add_succ_r, <- !(Nat.add_1_r p), !Hat, Hat0. done.
Qed.

(** ** The list of a payload *)

Lemma at_lookup_same b b' off : b !! off = b' !! off → at_ b off = at_ b' off.
Proof. unfold at_. by intros ->. Qed.

Lemma attr_extent_same a b b' p : length b' = length b → (∀ i, (p ≤ i)%nat → b' !! i = b !! i) →
  attr_extent a b' p = attr_extent a b p.
Proof.
  intros Hl Hsame. unfold attr_extent, be16_at. rewrite Hl.
  by rewrite (at_lookup_same b' b (p + 2)), (at_lookup_same b' b (S (p + 2))) by (apply Hsame; lia).
Qed.

Lemma attr_extent_fits a b p n : attr_extent a b p = Some n →
  (p + 4 + total (a_more a) + n ≤ length b)%nat ∨ (length b ≤ p)%nat.
Proof.
  unfold attr_extent. destruct (_ <? _)%nat eqn:Hlt; [done|]. apply Nat.ltb_ge in Hlt.
  destruct (a_tail a); [|intros [= <-]; lia]. destruct (_ || _) eqn:Hf; [done|].
  apply orb_false_iff in Hf as [Hn Hf]. apply Z.ltb_ge in Hn, Hf. intros [= <-]. lia.
Qed.

(** The object [o] is the attribute [a] of the payload [b]. It ends behind the
    attribute when unknown attributes follow. *)
Record attr_of (b : list Z) (o : Object) (a : Attr) (n : nat) : Prop := {
  ao_known : attr_of_type (be16_at b (o_start o)) = Some a;
  ao_extent : attr_extent a b (o_start o) = Some n;
  ao_class : o_class o = a_name a;
  ao_fields : o_fields o = o_fields (attr_object a (o_start o) n);
  ao_spots : o_spots o = attr_spots a (o_start o);
  ao_end : (o_start o + 4 + total (a_more a) + n ≤ o_ptr o)%nat;
}.

Lemma attr_switch_ok : forallb (λ x, attr_okb x.2 && (a_type x.2 =? x.1)) attr_switch = true.
Proof. by vm_compute. Qed.

Lemma attr_of_type_ok t a : attr_of_type t = Some a → attr_ok a ∧ a_type a = t.
Proof.
  unfold attr_of_type. destruct (list_find _ _) as [[i [t' a']]|] eqn:H; [|done]. intros [= <-].
  apply list_find_Some in H as (H & Ht & _). cbn in Ht. subst t'. apply list_elem_of_lookup_2 in H.
  pose proof attr_switch_ok as Hok. rewrite forallb_forall in Hok.
  apply list_elem_of_In, Hok, andb_true_iff in H as [H1 H2]. cbn in H1, H2.
  split; [by apply attr_okb_ok|by apply Z.eqb_eq].
Qed.

(** [addAttr] in a list whose objects cover the beginning of [b]. *)
Lemma addAttr_run b m a : bytes_ok b → Z.of_nat (length b) < 2 ^ 63 → parsed_prefix b m →
  (next_ptr m < length b)%nat → attr_of_type (be16_at b (next_ptr m)) = Some a →
  match attr_extent a b (next_ptr m) with
  | None => addAttr a m = (Some None, m)
  | Some n => ∃ m', addAttr a m = (Some (Some (attr_object a (next_ptr m) n)), m') ∧
      m_class_vector m' = m_class_vector m ++ [attr_object a (next_ptr m) n] ∧ parsed_prefix b m' ∧
      attr_of b (attr_object a (next_ptr m) n) a n ∧
      le16 (m_buff m') (next_ptr m + 2) = be16_at b (next_ptr m + 2) ∧
      ∀ i, (i < next_ptr m)%nat → m_buff m' !! i = m_buff m !! i
  end.
Proof.
  intros Hb Hmax Hm Hp Ht. destruct (attr_of_type_ok _ _ Ht) as [Ha Hty].
  destruct (parsed_prefix_buff b m Hm Hb) as (Hlen & Hbm & Hsame).
  assert (be16_at (m_buff m) (next_ptr m) = be16_at b (next_ptr m)) as Hty'.
  { unfold be16_at. f_equal; apply at_lookup_same, Hsame; lia. }
  pose proof (init_attr a (m_buff m) (next_ptr m) Ha Hbm) as Hi. rewrite Hlen in Hi.
  specialize (Hi Hmax ltac:(lia)). rewrite (attr_extent_same a b _ _ Hlen Hsame) in Hi.
  assert (class_ok (attr_layout a) = true) as Hcl.
  { unfold class_ok. by rewrite (ak_layout _ Ha), attr_initial_size. }
  pose proof (addClass_post b (attr_layout a) m Hb Hcl Hm) as Hpost.
  unfold addAttr. unfold addClass in Hpost |- *. rewrite Hlen, Hi in Hpost |- *.
  destruct (attr_extent a b (next_ptr m)) as [n|] eqn:Hn; [|by destruct m].
  destruct (attr_extent_fits _ _ _ _ Hn) as [Hfit|]; [|lia]. cbn [post] in Hpost. destruct Hpost as (Hm' & Hvec & _).
  cbn [m_buff attr_object o_start]. rewrite (proj1 (swapped_type a (m_buff m) (next_ptr m) Ha ltac:(lia))).
  rewrite Hty', Hty, Z.eqb_refl, andb_false_r. eexists. split_and!; [done..| | |].
  - split; [done|done|done|done|done|cbn; lia].
  - cbn [m_buff]. rewrite (proj2 (swapped_type a (m_buff m) (next_ptr m) Ha ltac:(lia))).
    unfold be16_at. f_equal; apply at_lookup_same, Hsame; lia.
  - intros i Hi'. cbn [m_buff].
    apply (swap_spots_outside _ (next_ptr m) (next_ptr m + total (attr_fixed a)));
      [apply fixed_spots_ok, Ha|rewrite attr_total; lia|lia].
Qed.

(** What a list holds while [b] is parsed. *)
Definition attrs_ok (b : list Z) (m : ClassList) : Prop :=
  parsed_prefix b m ∧
  Forall (λ o, ∃ a n, attr_of b o a n ∧ le16 (m_buff m) (o_start o + 2) = be16_at b (o_start o + 2))
    (m_class_vector m).

Lemma attrs_ok_received b : bytes_ok b → attrs_ok b (received b).
Proof.
  intros Hb. split; [|by constructor]. split; cbn; [done|lia|apply spots_ok_nil|by constructor|done].
Qed.

Lemma read_word b m ofs : bytes_ok b → parsed_prefix b m →
  read_be16 ofs m = (if (next_ptr m + ofs + 1 <? length b)%nat then Some (be16_at b (next_ptr m + ofs)) else None, m).
Proof.
  intros Hb Hm. rewrite (read_be16_run b) by done. unfold be16_at. rewrite Nat.add_1_r.
  case_decide; [rewrite (proj2 (Nat.ltb_lt _ _)) by lia|rewrite (proj2 (Nat.ltb_ge _ _)) by lia]; done.
Qed.

(** Skipping keeps what the list holds. *)
Lemma move_last b m o k : attrs_ok b m → last (m_class_vector m) = Some o → (next_ptr m + k ≤ length b)%nat →
  let m' := mkClassList (m_buff m) (m_swapped m) (removelast (m_class_vector m) ++ [move_ptr k o]) in
  attrs_ok b m' ∧ next_ptr m' = (next_ptr m + k)%nat.
Proof.
  intros [[Hc Hp Hs Hobj Hbuf] Hall] Hlast Hk.
  assert (m_class_vector m = removelast (m_class_vector m) ++ [o]) as Hv.
  { destruct (m_class_vector m) as [|x l] eqn:Hx using rev_ind; [done|]. rewrite last_snoc in Hlast.
    injection Hlast as ->. by rewrite removelast_last. }
  unfold all_spots, next_ptr in *. rewrite Hlast in *. cbn [m_class_vector]. set (l := removelast _) in *.
  rewrite Hv in Hc, Hs, Hobj, Hbuf, Hall. rewrite last_snoc. split; [|done]. split.
  - split; unfold all_spots, next_ptr; cbn [m_class_vector m_buff]; rewrite ?last_snoc, ?fmap_app in *; cbn [fmap list_fmap o_spots move_ptr o_ptr] in *.
    + apply chain_snoc in Hc as (H1 & H2 & H3). apply chain_snoc. cbn. split_and!; [done|done|lia].
    + lia.
    + eapply spots_ok_weaken; [|exact Hs]. lia.
    + apply Forall_app in Hobj as [H1 H2]. apply Forall_app. split; [done|].
      apply Forall_cons in H2 as [H2 _]. apply Forall_cons. split; [|by constructor]. cbn. eapply spots_ok_weaken; [|exact H2]. lia.
    + done.
  - apply Forall_app in Hall as [H1 H2]. apply Forall_app. split; [done|].
    apply Forall_cons in H2 as [(a & n & [] & ?) _]. apply Forall_cons. split; [|by constructor]. exists a, n.
    split; [|done]. split; cbn [move_ptr o_start o_class o_fields o_spots o_ptr]; [done..|lia].
Qed.

(** ** Where the attributes begin *)

(** The position after the attribute at [p]: known attributes have the extent
    of their class, and an unknown one, which has to follow another attribute,
    is skipped by its length. [None] when no attribute follows. *)
Definition next_attr (b : list Z) (p : nat) : option nat :=
  match attr_of_type (be16_at b p) with
  | Some a =>
    if be16_at b p =? ATTR_KEY_WRAP_AUTH then None
    else n ← attr_extent a b p; Some (p + 4 + total (a_more a) + n)%nat
  | None =>
    if (p =? 0)%nat || (Z.of_nat (length b - p) <? 2 + 2 + be16_at b (p + 2)) then None
    else Some (p + Z.to_nat (2 + 2 + be16_at b (p + 2)))%nat
  end.

(** A field of the attribute at [p] that is read without a check, its type or
    the length of an unknown one, lies behind the payload. *)
Definition attr_cut_off (b : list Z) (p : nat) : Prop :=
  (p < length b)%nat ∧
  ((length b < p + 2)%nat ∨ (length b < p + 4)%nat ∧ attr_of_type (be16_at b p) = None).

(** The attributes that follow from [p] on run into such a one. *)
Definition cut_off_from (b : list Z) (p : nat) : Prop :=
  ∃ q, rtc (λ x y, next_attr b x = Some y) p q ∧ attr_cut_off b q.

Lemma cut_off_here b p : attr_cut_off b p → cut_off_from b p.
Proof. exists p. by split; [constructor|]. Qed.

Lemma cut_off_next b p q : next_attr b p = Some q → ¬ attr_cut_off b p → cut_off_from b p ↔ cut_off_from b q.
Proof.
  intros Hn Hc. split; intros (x & Hr & Hx).
  - inversion Hr as [|? y ? Hy Hr']; subst; [done|]. rewrite Hn in Hy. injection Hy as ->. by exists x.
  - exists x. split; [by econstructor|done].
Qed.

Lemma cut_off_last b p : next_attr b p = None → ¬ attr_cut_off b p → ¬ cut_off_from b p.
Proof. intros Hn Hc (x & Hr & Hx). inversion Hr as [|? y ? Hy Hr']; subst; [done|]. by rewrite Hn in Hy. Qed.

(** What [init()] does, from a list that is at [p]: the attributes it adds are
    inside of the payload, and it fails to end exactly when it runs into an
    attribute that is cut off. *)
Definition attrs_post (b : list Z) (p : nat) (r : option bool * ClassList) : Prop :=
  attrs_ok b r.2 ∧ (r.1 = None ↔ cut_off_from b p).

Lemma attrs_stop b p (ok : bool) m : attrs_ok b m → next_attr b p = None → ¬ attr_cut_off b p →
  attrs_post b p (Some ok, m).
Proof. intros Hm Hn Hc. split; [done|]. split; [done|]. intros H. by apply cut_off_last in H. Qed.

(** The end of the payload. *)
Lemma attrs_end b p m : attrs_ok b m → (length b ≤ p)%nat → attrs_post b p (Some true, m).
Proof.
  intros Hm Hp. split; [done|]. split; [done|]. intros (q & Hr & Hq & _). exfalso.
  assert (p ≤ q)%nat; [|lia]. clear Hq. induction Hr as [|x y z Hy _ IH]; [done|].
  unfold next_attr in Hy. repeat (case_match; simplify_option_eq); lia.
Qed.

Lemma attrs_go b p q r : next_attr b p = Some q → ¬ attr_cut_off b p → attrs_post b q r → attrs_post b p r.
Proof. intros Hn Hc [H1 H2]. split; [done|]. by rewrite H2, (cut_off_next b p q). Qed.

Lemma skip_run b m : bytes_ok b → attrs_ok b m → (next_ptr m + 4 ≤ length b)%nat →
  (m_class_vector m = [] ↔ next_ptr m = 0%nat) → attr_of_type (be16_at b (next_ptr m)) = None →
  match next_attr b (next_ptr m) with
  | None => skipNextAttribute m = (Some false, m)
  | Some q => ∃ m', skipNextAttribute m = (Some true, m') ∧ attrs_ok b m' ∧ next_ptr m' = q ∧
      (next_ptr m + 4 ≤ q)%nat ∧ m_class_vector m' ≠ []
  end.
Proof.
  intros Hb Hm Hp Hnil Hty. unfold skipNextAttribute, next_attr. rewrite Hty.
  destruct (last (m_class_vector m)) as [o|] eqn:Hl.
  2:{ apply last_None in Hl. by rewrite (proj1 Hnil Hl). }
  rewrite (proj2 (Nat.eqb_neq _ _)); [|intros H0; apply Hnil in H0; by rewrite H0 in Hl].
  unfold getNextAttrLength. rewrite fbind_run, (read_word b) by (done || apply Hm). cbn [fst snd orb].
  rewrite (proj2 (Nat.ltb_lt _ _)) by lia. pose proof (be16_at_range b (next_ptr m + 2) Hb).
  destruct (parsed_prefix_buff b m (proj1 Hm) Hb) as (Hlen & _). unfold getRemainingBytes. rewrite Hlen.
  destruct (_ <? _) eqn:Hlt; [done|]. apply Z.ltb_ge in Hlt.
  destruct (move_last b m o (Z.to_nat (2 + 2 + be16_at b (next_ptr m + 2))) Hm Hl) as [H1 H2]; [lia|].
  eexists. split_and!; [done|done|done|lia|]. cbn. by destruct (removelast _).
Qed.

Lemma attrs_loop_post b fuel : bytes_ok b → Z.of_nat (length b) < 2 ^ 63 → ∀ m, attrs_ok b m →
  (m_class_vector m = [] ↔ next_ptr m = 0%nat) →
  (getRemainingBytes m ≤ fuel)%nat → attrs_post b (next_ptr m) (attrs_loop fuel m).
Proof.
  intros Hb Hmax. induction fuel as [|fuel IH]; intros m Hm Hnil Hf; cbn [attrs_loop];
    destruct (parsed_prefix_buff b m (proj1 Hm) Hb) as (Hlen & _); unfold getRemainingBytes in *; rewrite Hlen in *;
    (destruct (_ =? 0)%nat eqn:H0; [apply Nat.eqb_eq in H0; apply attrs_end; [done|lia]|apply Nat.eqb_neq in H0]); [lia|].
  unfold getNextAttrType. rewrite fbind_run, (read_word b) by (done || apply Hm). cbn [fst snd]. rewrite Nat.add_0_r.
  destruct (_ <? _)%nat eqn:Hlt; [apply Nat.ltb_lt in Hlt|apply Nat.ltb_ge in Hlt].
  2: { split; [done|]. split; [intros _|done]. apply cut_off_here. split; [lia|left; lia]. }
  destruct (attr_of_type _) as [a|] eqn:Ha.
  - assert (¬ attr_cut_off b (next_ptr m)) as Hc by (intros (_ & [?|[_ ?]]); [lia|congruence]).
    pose proof (addAttr_run b m a Hb Hmax (proj1 Hm) ltac:(lia) Ha) as Hadd. rewrite fbind_run.
    assert (next_attr b (next_ptr m) = if be16_at b (next_ptr m) =? ATTR_KEY_WRAP_AUTH then None
      else n ← attr_extent a b (next_ptr m); Some (next_ptr m + 4 + total (a_more a) + n)%nat) as Hna
      by (unfold next_attr; by rewrite Ha).
    destruct (attr_extent a b (next_ptr m)) as [n|] eqn:Hn.
    2:{ rewrite Hadd. cbn. apply attrs_stop; [done| |done]. rewrite Hna. by destruct (_ =? _). }
    destruct Hadd as (m' & -> & Hvec & Hpp & Hao & Hw & Hold). cbn [fst snd].
    assert (attrs_ok b m') as Hm'.
    { split; [done|]. rewrite Hvec. apply Forall_app. split; [|constructor; [by exists a, n|constructor]].
      destruct Hm as [Hpm Hall]. rewrite Forall_forall in Hall |- *. intros o Ho.
      destruct (Hall o Ho) as (a0 & n0 & Ho0 & Hw0). exists a0, n0. split; [done|]. rewrite <- Hw0.
      pose proof (chain_before _ _ _ (pp_chain _ _ Hpm) Ho). pose proof (ao_end _ _ _ _ Ho0). rewrite <- next_ptr_eq in *.
      unfold le16. f_equal; apply at_lookup_same, Hold; lia. }
    destruct (_ =? _); [by apply attrs_stop|]. cbn in Hna.
    assert (next_ptr m' = next_ptr m + 4 + total (a_more a) + n)%nat as Hq.
    { rewrite next_ptr_eq, Hvec, last_snoc. cbn. unfold attr_fixed. cbn. lia. }
    apply (attrs_go b _ _ _ Hna Hc). rewrite <- Hq. apply IH; [done| |].
    + rewrite Hvec. split; [by intros [_ ?]%app_nil|lia].
    + destruct (parsed_prefix_buff b m' Hpp Hb) as (Hlen' & _). lia.
  - unfold getNextAttrLength. rewrite fbind_run, (read_word b) by (done || apply Hm). cbn [fst snd].
    destruct (_ <? _)%nat eqn:Hlt4; [apply Nat.ltb_lt in Hlt4|apply Nat.ltb_ge in Hlt4].
    2: { split; [done|]. split; [intros _|done]. apply cut_off_here. split; [lia|right; split; [lia|done]]. }
    assert (¬ attr_cut_off b (next_ptr m)) as Hc by (intros (_ & [?|[? _]]); lia).
    pose proof (skip_run b m Hb Hm ltac:(lia) Hnil Ha) as Hs. rewrite fbind_run.
    destruct (next_attr b (next_ptr m)) as [q|] eqn:Hna.
    2:{ rewrite Hs. by apply attrs_stop. }
    destruct Hs as (m' & -> & Hm' & <- & Hq & Hne). cbn [fst snd]. apply (attrs_go b _ _ _ Hna Hc). apply IH; [done| |].
    + split; [done|lia].
    + destruct (parsed_prefix_buff b m' (proj1 Hm') Hb) as (Hlen' & _). lia.
Qed.

Lemma attrs_init_post b : bytes_ok b → Z.of_nat (length b) < 2 ^ 63 → attrs_post b 0 (attrs_init (received b)).
Proof. intros Hb Hmax. apply (attrs_loop_post b _ Hb Hmax (received b)); [by apply attrs_ok_received|done|done]. Qed.

(** ** The messages *)

(** A class is known by its name. *)
Lemma attr_names_distinct : NoDup ((λ x, a_name x.2) <$> attr_switch).
Proof. apply (bool_decide_unpack _). by vm_compute. Qed.

Lemma attr_of_type_name t1 t2 a1 a2 : attr_of_type t1 = Some a1 → attr_of_type t2 = Some a2 →
  a_name a1 = a_name a2 → a1 = a2.
Proof.
  unfold attr_of_type. destruct (list_find (λ x, x.1 = t1) _) as [[i x]|] eqn:H1; [|done].
  destruct (list_find (λ x, x.1 = t2) _) as [[j y]|] eqn:H2; [|done]. intros [= <-] [= <-] Hn.
  apply list_find_Some in H1 as [H1 _], H2 as [H2 _]. enough (i = j) as -> by (rewrite H1 in H2; by injection H2 as ->).
  eapply (NoDup_lookup _ i j (a_name x.2)); [apply attr_names_distinct|rewrite list_lookup_fmap, H1; done|].
  by rewrite list_lookup_fmap, H2, Hn.
Qed.

Lemma getAttr_of b m a t o : attrs_ok b m → attr_of_type t = Some a → getAttr a m = Some o → ∃ n,
  attr_of b o a n ∧ le16 (m_buff m) (o_start o + 2) = be16_at b (o_start o + 2) ∧ (o_ptr o ≤ length b)%nat.
Proof.
  intros [Hpp Hall] Ht Hg. unfold getAttr, getClass in Hg.
  destruct (list_find _ _) as [[i x]|] eqn:Hf; [|done]. injection Hg as ->.
  apply list_find_Some in Hf as (Hi & Hcl & _). apply list_elem_of_lookup_2 in Hi.
  rewrite Forall_forall in Hall. destruct (Hall o Hi) as (a' & n & Hao & Hw).
  assert (a' = a) as ->.
  { eapply attr_of_type_name; [apply Hao|done|]. by rewrite <- Hcl, (ao_class _ _ _ _ Hao). }
  exists n. split_and!; [done|done|]. pose proof (chain_before _ _ _ (pp_chain _ _ Hpp) Hi).
  rewrite <- next_ptr_eq in *. pose proof (pp_ptr _ _ Hpp). lia.
Qed.

Lemma offsets_fields w w' k fs : w_fields w = w_fields w' → offsets w k fs → offsets w' k fs.
Proof.
  intros Hw. revert k. induction fs as [|f fs IH]; intros k; [done|]. intros [H1 H2].
  split; [|by apply IH]. unfold find_field in *. by rewrite <- Hw.
Qed.

(** Where the members of an attribute are. *)
Lemma attr_object_offsets a start n p spots : attr_ok a → let w := mkWalk p (o_fields (attr_object a start n)) spots in
  offsets w (start + 4) (a_more a) ∧
  ∀ name, a_tail a = Some name → find_field w name = Some (start + 4 + total (a_more a))%nat.
Proof.
  intros Ha. unfold attr_object. cbn [o_fields].
  pose proof (fixed_walk_offsets _ (ak_names _ Ha) (mkWalk start [] [])) as (_ & _ & Hoff).
  set (w := fixed_walk _ _) in *. assert (w_ptr w = start + 4 + total (a_more a))%nat as Hp.
  { unfold w. rewrite fixed_walk_ptr, attr_total. cbn. lia. }
  assert (offsets w (start + 4) (a_more a)) as Hoff4
    by (replace (start + 4)%nat with (start + 2 + 2)%nat by lia; exact Hoff).
  pose proof (ak_tail _ Ha) as Htail.
  destruct (a_tail a) as [name|]; cbn [app]; [|split; [by apply (offsets_fields w)|done]]. split.
  - apply (offsets_fields (set_member name [] w)); [done|]. apply set_member_offsets; [|done].
    intros Hin. apply (Htail name eq_refl). unfold attr_fixed. cbn. set_solver.
  - intros ? [= <-]. rewrite find_field_cons, decide_True by done. by rewrite Hp.
Qed.

Lemma attr_offsets b o a n : attr_of b o a n →
  offsets (mkWalk (o_ptr o) (o_fields o) (o_spots o)) (o_start o + 4) (a_more a) ∧
  ∀ name, a_tail a = Some name → member o name = Some (o_start o + 4 + total (a_more a))%nat.
Proof.
  intros Hao. unfold member. rewrite (ao_fields _ _ _ _ Hao). apply attr_object_offsets.
  by apply (attr_of_type_ok _ _ (ao_known _ _ _ _ Hao)).
Qed.

(** The members and the list of an attribute that is present can be read. *)
Definition readable (m : ClassList) (a : Attr) : Prop :=
  (∀ f, f ∈ a_more a → ∃ v, get_value a (ff_name f) (ff_size f) m = (Some v, m) ∧ length v = ff_size f) ∧
  (a_tail a ≠ None → ∃ s, get_list a m = (Some s, m)).

Lemma attr_value_run o name n m off : member o name = Some off → (off + n ≤ length (m_buff m))%nat →
  attr_value o name n m = (Some (take n (drop off (m_buff m))), m).
Proof. intros Hm Hl. unfold attr_value. by rewrite Hm, (proj2 (Nat.leb_le _ _)). Qed.

Lemma getAttr_readable b m a t o : bytes_ok b → attrs_ok b m → attr_of_type t = Some a → getAttr a m = Some o →
  readable m a.
Proof.
  intros Hb Hm Ht Hg. destruct (getAttr_of b m a t o Hm Ht Hg) as (n & Hao & Hw & Hp).
  destruct (attr_offsets _ _ _ _ Hao) as [Hoff Htail]. destruct (parsed_prefix_buff b m (proj1 Hm) Hb) as (Hlen & _).
  pose proof (ao_end _ _ _ _ Hao) as Hend. split.
  - intros f Hf. unfold get_value. rewrite Hg. destruct (offsets_elem _ _ _ _ Hoff Hf) as (off & Hfind & H1 & H2).
    eexists. rewrite (attr_value_run o _ _ m off) by (done || lia). split; [done|]. rewrite length_take, length_drop. lia.
  - intros Hne. unfold get_list, attr_list. rewrite Hg. destruct (a_tail a) as [name|] eqn:Hta; [|done].
    eexists. apply attr_value_run; [by apply Htail|]. unfold list_length. rewrite Hw.
    pose proof (ao_extent _ _ _ _ Hao) as He. unfold attr_extent in He. rewrite Hta in He.
    destruct (_ <? _)%nat; [done|]. destruct (_ || _) eqn:Hor; [done|]. apply orb_false_iff in Hor as [Hn Hfit].
    apply Z.ltb_ge in Hn, Hfit. injection He as <-. lia.
Qed.

Lemma msg_type_run b m : bytes_ok b → attrs_ok b m →
  match getAttr cWscAttrMessageType m with
  | None => msg_type m = (None, m)
  | Some _ => ∃ v, msg_type m = (Some v, m) ∧ length v = 1%nat
  end.
Proof.
  intros Hb Hm. destruct (getAttr cWscAttrMessageType m) as [o|] eqn:Hg.
  - destruct (getAttr_readable b m _ 0x1022 o Hb Hm eq_refl Hg) as [H _]. apply (H (bytes "msg_type" 1)). by left.
  - unfold msg_type, get_value. by rewrite Hg.
Qed.

(** The attributes a message needs are among those of the [switch]. *)
Definition known (a : Attr) : Prop := attr_of_type (a_type a) = Some a.

Lemma required_known : Forall known (m1_required ++ m2_required ++ m8_required ++ settings_required).
Proof. by repeat constructor. Qed.

(** The attribute list of a payload has no message type. *)
Definition without_msg_type (b : list Z) : Prop :=
  ∃ ok m, attrs_init (received b) = (Some ok, m) ∧ getAttr cWscAttrMessageType m = None.

(** What a [parse()] returns for the payload [b]. *)
Definition parse_result (t : Z) (required : list Attr) (b : list Z) (r : option (option ClassList)) : Prop :=
  (r = None ↔ b ≠ [] ∧ (cut_off_from b 0 ∨ without_msg_type b)) ∧
  ∀ m, r = Some (Some m) → msg_type m = (Some [t], m) ∧ Forall (readable m) required ∧ m_buff (swap m).2 = b.

Lemma has_all_readable b m required : bytes_ok b → attrs_ok b m → Forall known required →
  has_all required m = true → Forall (readable m) required.
Proof.
  intros Hb Hm Hk Hall. unfold has_all in Hall. rewrite forallb_forall in Hall. rewrite Forall_forall in Hk |- *.
  intros a Ha. specialize (Hall a (proj1 (list_elem_of_In _ _) Ha)). cbn in Hall.
  destruct (getAttr a m) as [o|] eqn:Hg; [|done]. by eapply getAttr_readable; [| |apply Hk|].
Qed.

Lemma wsc_parse_result t required b : bytes_ok b → Z.of_nat (length b) < 2 ^ 63 → Forall known required →
  parse_result t required b
    (if (length b =? 0)%nat then Some None
     else match wsc_parse t required (received b) with
          | (Some true, m) => Some (Some m) | (Some false, _) => Some None | (None, _) => None end).
Proof.
  intros Hb Hmax Hk. destruct (Nat.eqb_spec (length b) 0) as [H0%length_zero_iff_nil|H0].
  { subst b. split; [|done]. split; [done|]. by intros []. }
  assert (b ≠ []) as Hne by (intros ->; by apply H0).
  unfold wsc_parse. rewrite fbind_run. pose proof (attrs_init_post b Hb Hmax) as [Hm Hcut].
  destruct (attrs_init (received b)) as [[ok|] m] eqn:Hi; cbn [fst snd] in *.
  2:{ split; [|done]. split; [intros _|done]. split; [done|]. left. by apply Hcut. }
  assert (¬ cut_off_from b 0) as Hc by (intros Hc; by apply Hcut in Hc).
  pose proof (msg_type_run b m Hb Hm) as Hmt. rewrite fbind_run.
  destruct (getAttr cWscAttrMessageType m) as [o|] eqn:Hg.
  2:{ rewrite Hmt. split; [|done]. split; [intros _|done]. split; [done|]. right. by exists ok, m. }
  assert (¬ without_msg_type b) as Hw by (intros (ok' & m' & Hi' & Hg'); congruence).
  destruct Hmt as (v & Hv & _). rewrite Hv. cbn [fst snd].
  case_bool_decide as Ht; [|split; [|done]; split; [done|]; by intros [_ []]]. subst v. unfold check_valid.
  destruct (has_all required m) eqn:Hall; (split; [split; [done|]; by intros [_ []]|]); [|done].
  intros m0 [= <-]. split_and!; [done| |].
  - by apply (has_all_readable b).
  - by rewrite (swap_restores b m (proj1 Hm)).
Qed.

(** C24: The messages of Wi-Fi Simple Configuration are parsed safely, whatever
    the payload. A message that [m1::parse], [m2::parse] or [m8::parse] returns
    has the type it was parsed for, and every attribute [valid()] asks for can
    be read: each of its members has its size, and the length of its list, taken
    from the attribute, keeps inside of the payload. The buffer is the received
    payload but for the words [class_swap] turned to host order, and a second
    swap restores it; the payload [m1] was copied from is not touched. Parsing
    fails to end exactly for two kinds of payloads: when the attributes, followed
    from the start of the payload by their lengths, run into one whose type (or
    length, when it is unknown) lies behind the payload, and when the attributes
    read have no message type, which [msg_type()] uses through a null pointer.
    The decrypted settings, which have no message type, fail only on the
    former. *)
Theorem wsc_messages_parsed b : bytes_ok b → Z.of_nat (length b) < 2 ^ 63 →
  parse_result WSC_MSG_TYPE_M1 m1_required b (m1_parse b).1 ∧ (m1_parse b).2 = b ∧
  parse_result WSC_MSG_TYPE_M2 m2_required b (m2_parse b).1 ∧
  parse_result WSC_MSG_TYPE_M8 m8_required b (m8_parse b).1 ∧
  ((settings_parse b).1 = None ↔ cut_off_from b 0) ∧
  ∀ m, (settings_parse b).1 = Some (Some m) → Forall (readable m) settings_required ∧ m_buff (swap m).2 = b.
Proof.
  intros Hb Hmax. pose proof required_known as Hk. rewrite !Forall_app in Hk. destruct Hk as (K1 & K2 & K8 & KS).
  pose proof (wsc_parse_result WSC_MSG_TYPE_M1 _ b Hb Hmax K1) as H1.
  pose proof (wsc_parse_result WSC_MSG_TYPE_M2 _ b Hb Hmax K2) as H2.
  pose proof (wsc_parse_result WSC_MSG_TYPE_M8 _ b Hb Hmax K8) as H8.
  unfold m1_parse, m2_parse, m8_parse, unless_empty, on_copy, in_place. split_and!.
  - revert H1. destruct (_ =? 0)%nat; [done|]. by destruct (wsc_parse WSC_MSG_TYPE_M1 _ _) as [[[]|] ?].
  - destruct (_ =? 0)%nat; [done|]. by destruct (wsc_parse WSC_MSG_TYPE_M1 _ _) as [[[]|] ?].
  - revert H2. destruct (_ =? 0)%nat; [done|]. by destruct (wsc_parse WSC_MSG_TYPE_M2 _ _) as [[[]|] ?].
  - revert H8. destruct (_ =? 0)%nat; [done|]. by destruct (wsc_parse WSC_MSG_TYPE_M8 _ _) as [[[]|] ?].
  - unfold settings_parse, in_place. rewrite fbind_run. pose proof (attrs_init_post b Hb Hmax) as [_ Hcut].
    rewrite <- Hcut. destruct (attrs_init (received b)) as [[ok|] m]; [|done]. unfold check_valid. cbn [fst snd]. by destruct (has_all settings_required m).
  - unfold settings_parse, in_place. rewrite fbind_run. pose proof (attrs_init_post b Hb Hmax) as [Hm _].
    destruct (attrs_init (received b)) as [[ok|] m]; [|done]. cbn [fst snd] in *.
    unfold check_valid. destruct (has_all settings_required m) eqn:Hall; [|done]. intros m0 [= <-]. split.
    + by apply (has_all_readable b).
    + by rewrite (swap_restores b m (proj1 Hm)).
Qed.
