(* ===== verification/WscTx.v ===== *)
(** * WSC messages to be sent

    [m1::create], [m2::create], [m8::create] and
    [EncryptedSettingsPayload::create] ([m1.cpp], [m2.cpp], [m8.cpp],
    [EncryptedSetttingsPayload.cpp]) on a [ClassList] for building messages,
    and what the receiver gets of them. *)

From S2P Require Import Prelude Wire Messages Tlvf CmduMessage CmduTx CmduUtils WscClasses WscAttrList.

(** ** Building a list *)

(** What [init(cfg)] does with one attribute: [addAttr<T>()], the members it
    sets, and the contents of the byte list ([set_x()], or [alloc_x()] with a
    copy). Whether it returns [false] when the list cannot be allocated. *)
Record Put := mkPut {
  p_attr : Attr;
  p_sets : list (string * list Z);
  p_data : option (list Z);
  p_must : bool;
}.

Fixpoint set_members (sets : list (string * list Z)) : faultM TxList unit :=
  match sets with
  | [] => fret tt
  | (name, bs) :: sets => _ <- set_value name bs ;; set_members sets
  end.

Definition put_attr (p : Put) : faultM TxList bool :=
  ok <- tx_addClass (attr_tx (p_attr p)) ;;
  if negb ok then fret false
  else
    _ <- set_members (p_sets p) ;;
    match p_data p with
    | None => fret true
    | Some data => ok <- set_list data ;; fret (ok || negb (p_must p))
    end.

Fixpoint put_attrs (l : list Put) : faultM TxList bool :=
  match l with
  | [] => fret true
  | p :: l => ok <- put_attr p ;; if (ok : bool) then put_attrs l else fret false
  end.

(** [init(cfg)] and [finalize()]. *)
Definition create_attrs (l : list Put) : faultM TxList bool :=
  ok <- put_attrs l ;;
  if negb ok then fret false else list_finalize.

(** An attribute as its class makes it, with members set, or with its list. *)
Definition plain (a : Attr) : Put := mkPut a [] None true.
Definition setting (a : Attr) (name : string) (bs : list Z) : Put := mkPut a [(name, bs)] None true.
Definition listing (a : Attr) (data : list Z) : Put := mkPut a [] (Some data) true.

(** ** The messages *)

(** [sWscWfaVendorExtSubelementVersion2] and
    [sWscWfaVendorExtSubelementMultiApIdentifier]. *)
Definition version2 : list Z := [0x0; 0x1; 0x20].
Definition multi_ap_identifier (bss_type : Z) : list Z := [0x6; 0x1; bss_type].

(** [m1::config]; numbers are in the width of their members. *)
Record M1Config := mkM1Config {
  m1_msg_type : Z;
  m1_uuid_e : list Z;
  m1_mac : list Z;
  m1_enrollee_nonce : list Z;
  m1_pub_key : list Z;
  m1_encr_type_flags : Z;
  m1_auth_type_flags : Z;
  m1_manufacturer : list Z;
  m1_model_name : list Z;
  m1_model_number : list Z;
  m1_serial_number : list Z;
  m1_primary_dev_type_id : Z;
  m1_device_name : list Z;
  m1_bands : Z;
  m1_os_version : Z;
}.

(** [m1::init(cfg)]. *)
Definition m1_attrs (c : M1Config) : list Put := [
    plain cWscAttrVersion;
    setting cWscAttrMessageType "msg_type" [m1_msg_type c];
    setting cWscAttrUuidE "data" (replicate 16 0xff);
    setting cWscAttrMac "data" (m1_mac c);
    setting cWscAttrEnrolleeNonce "nonce" (m1_enrollee_nonce c);
    setting cWscAttrPublicKey "public_key" (m1_pub_key c);
    setting cWscAttrAuthenticationTypeFlags "auth_type_flags" (le16_bytes (m1_auth_type_flags c));
    setting cWscAttrEncryptionTypeFlags "encr_type_flags" (le16_bytes (m1_encr_type_flags c));
    plain cWscAttrConnectionTypeFlags; plain cWscAttrConfigurationMethods; plain cWscAttrWscState;
    listing cWscAttrManufacturer (m1_manufacturer c);
    listing cWscAttrModelName (m1_model_name c);
    listing cWscAttrModelNumber (m1_model_number c);
    listing cWscAttrSerialNumber (m1_serial_number c);
    setting cWscAttrPrimaryDeviceType "sub_category_id" (le16_bytes (m1_primary_dev_type_id c));
    listing cWscAttrDeviceName (m1_device_name c);
    setting cWscAttrRfBands "bands" [m1_bands c];
    plain cWscAttrAssociationState; plain cWscAttrDevicePasswordID; plain cWscAttrConfigurationError;
    plain cWscAttrOsVersion;
    listing cWscAttrVendorExtension version2].

(** [m1::create] on the payload of the TLV; [init(cfg)] tests the type once
    more. *)
Definition m1_create (c : M1Config) : faultM TxList bool :=
  if negb (m1_msg_type c =? WSC_MSG_TYPE_M1) then fret false else create_attrs (m1_attrs c).

(** [m2::config]. *)
Record M2Config := mkM2Config {
  m2_msg_type : Z;
  m2_enrollee_nonce : list Z;
  m2_registrar_nonce : list Z;
  m2_pub_key : list Z;
  m2_encr_type_flags : Z;
  m2_auth_type_flags : Z;
  m2_manufacturer : list Z;
  m2_model_name : list Z;
  m2_model_number : list Z;
  m2_serial_number : list Z;
  m2_primary_dev_type_id : Z;
  m2_device_name : list Z;
  m2_bands : Z;
  m2_encrypted_settings : list Z;
  m2_iv : list Z;
  m2_bss_index : Z;
  m2_hidden_ssid : Z;
  m2_vap_type : Z;
  m2_vap_label : list Z;
}.

(** [m2::init(cfg, bss_index_support)]. *)
Definition m2_attrs (c : M2Config) (bss_index_support : bool) : list Put := [
    plain cWscAttrVersion;
    setting cWscAttrMessageType "msg_type" [m2_msg_type c];
    setting cWscAttrEnrolleeNonce "nonce" (m2_enrollee_nonce c);
    setting cWscAttrRegistrarNonce "nonce" (m2_registrar_nonce c);
    setting cWscAttrUuidR "data" (replicate 16 0xee);
    setting cWscAttrPublicKey "public_key" (m2_pub_key c);
    setting cWscAttrAuthenticationTypeFlags "auth_type_flags" (le16_bytes (m2_auth_type_flags c));
    setting cWscAttrEncryptionTypeFlags "encr_type_flags" (le16_bytes (m2_encr_type_flags c));
    plain cWscAttrConnectionTypeFlags; plain cWscAttrConfigurationMethods;
    listing cWscAttrManufacturer (m2_manufacturer c);
    listing cWscAttrModelName (m2_model_name c);
    listing cWscAttrModelNumber (m2_model_number c);
    listing cWscAttrSerialNumber (m2_serial_number c);
    setting cWscAttrPrimaryDeviceType "sub_category_id" (le16_bytes (m2_primary_dev_type_id c));
    listing cWscAttrDeviceName (m2_device_name c);
    setting cWscAttrRfBands "bands" [m2_bands c];
    plain cWscAttrAssociationState; plain cWscAttrConfigurationError; plain cWscAttrDevicePasswordID;
    plain cWscAttrOsVersion;
    listing cWscAttrVendorExtension version2;
    mkPut cWscAttrEncryptedSettings [("iv", m2_iv c)] (Some (m2_encrypted_settings c)) false;
    mkPut cWscAttrVendorExtension [("vendor_id_0", [0x88]); ("vendor_id_1", [0x41]); ("vendor_id_2", [0xfc])]
      (Some [0x00; m2_vap_type c]) true]
  ++ (if bss_index_support then [setting cWscAttrBssIndex "index" [m2_bss_index c]] else [])
  ++ [plain cWscAttrAuthenticator].

Definition m2_create (c : M2Config) (bss_index_support : bool) : faultM TxList bool :=
  if negb (m2_msg_type c =? WSC_MSG_TYPE_M2) then fret false
  else create_attrs (m2_attrs c bss_index_support).

(** [m8::config]. *)
Record M8Config := mkM8Config {
  m8_msg_type : Z;
  m8_enrollee_nonce : list Z;
  m8_registrar_nonce : list Z;
  m8_pub_key : list Z;
  m8_encrypted_settings : list Z;
  m8_iv : list Z;
}.

(** [m8::init(cfg)]. *)
Definition m8_attrs (c : M8Config) : list Put := [
    plain cWscAttrVersion;
    setting cWscAttrMessageType "msg_type" [m8_msg_type c];
    setting cWscAttrEnrolleeNonce "nonce" (m8_enrollee_nonce c);
    setting cWscAttrRegistrarNonce "nonce" (m8_registrar_nonce c);
    setting cWscAttrPublicKey "public_key" (m8_pub_key c);
    listing cWscAttrVendorExtension version2;
    mkPut cWscAttrEncryptedSettings [("iv", m8_iv c)] (Some (m8_encrypted_settings c)) false;
    plain cWscAttrAuthenticator].

Definition m8_create (c : M8Config) : faultM TxList bool :=
  if negb (m8_msg_type c =? WSC_MSG_TYPE_M8) then fret false else create_attrs (m8_attrs c).

(** [EncryptedSettingsPayload::config]. *)
Record SettingsConfig := mkSettingsConfig {
  s_ssid : list Z;
  s_auth_type : Z;
  s_encr_type : Z;
  s_network_key : list Z;
  s_bssid : list Z;
  s_bss_type : Z;
}.

(** [EncryptedSettingsPayload::init(cfg)]. *)
Definition settings_attrs (c : SettingsConfig) : list Put := [
    listing cWscAttrSsid (s_ssid c);
    setting cWscAttrAuthenticationType "data" (le16_bytes (s_auth_type c));
    setting cWscAttrEncryptionType "data" (le16_bytes (s_encr_type c));
    listing cWscAttrNetworkKey (s_network_key c);
    setting cWscAttrMac "data" (s_bssid c);
    listing cWscAttrVendorExtension (version2 ++ multi_ap_identifier (s_bss_type c));
    plain cWscAttrKeyWrapAuthenticator].

Definition settings_create (c : SettingsConfig) : faultM TxList bool := create_attrs (settings_attrs c).

(** ** One attribute *)

(** The contents of an attribute: the values of its members in host order and
    the bytes of its list. *)
Record Content := mkContent { c_attr : Attr; c_vals : list (list Z); c_data : list Z }.

Definition c_len (c : Content) : Z := Z.of_nat (total (a_more (c_attr c)) + length (c_data c)).
Definition c_size (c : Content) : nat := 4 + total (a_more (c_attr c)) + length (c_data c).

(** The members in host order, with type and length. *)
Definition c_fixed (c : Content) : list (list Z) :=
  le16_bytes (a_type (c_attr c)) :: le16_bytes (c_len c) :: c_vals c.

(** The bytes in host order, and on the wire. *)
Definition c_host (c : Content) : list Z := concat (c_fixed c) ++ c_data c.
Definition c_wire (c : Content) : list Z := concat (wire_values (attr_fixed (c_attr c)) (c_fixed c)) ++ c_data c.

Record content_of (c : Content) : Prop := {
  cn_attr : known (c_attr c);
  cn_sized : Forall2 sized (a_more (c_attr c)) (c_vals c);
  cn_bytes : bytes_ok (concat (c_vals c)) ∧ bytes_ok (c_data c);
  cn_tail : a_tail (c_attr c) = None → c_data c = [];
  cn_length : c_len c < 65536;
}.

Lemma known_ok a : known a → attr_ok a.
Proof. intros H. by apply attr_of_type_ok in H as [? _]. Qed.

Lemma fixed_sized c : Forall2 sized (a_more (c_attr c)) (c_vals c) → Forall2 sized (attr_fixed (c_attr c)) (c_fixed c).
Proof. intros H. by repeat constructor. Qed.

Lemma content_sizes c : content_of c → length (c_host c) = c_size c ∧ length (c_wire c) = c_size c ∧
  bytes_ok (c_host c) ∧ bytes_ok (c_wire c).
Proof.
  intros [Ha Hs [Hbv Hbd] _ _]. pose proof (ak_words _ (known_ok _ Ha)) as Hw.
  destruct (wire_values_length _ _ Hw (fixed_sized c Hs)) as [H1 H2]. unfold c_host, c_wire, c_size.
  rewrite !length_app, H1, H2, attr_total. assert (bytes_ok (concat (c_fixed c))) as Hb.
  { cbn [c_fixed concat]. unfold le16_bytes, bytes_ok in *. rewrite !Forall_app.
    split_and!; [..|done]; repeat (apply Forall_cons; split; [auto with prpl|]); constructor. }
  split_and!; [lia|lia| |]; apply Forall_app; split; try done. by apply wire_values_bytes.
Qed.

(** *** [init()] *)

(** The members of a new attribute at [k]. *)
Definition attr_walk (a : Attr) (k : nat) : Walk :=
  let w := fixed_walk (mkWalk k [] []) (attr_fixed a) in
  match a_tail a with None => w | Some name => set_member name [] w end.

Lemma attr_walk_ptr a k : w_ptr (attr_walk a k) = (k + 4 + total (a_more a))%nat.
Proof. unfold attr_walk. destruct (a_tail a); cbn [set_member w_ptr]; rewrite fixed_walk_ptr, attr_total; cbn [w_ptr]; lia. Qed.
Lemma attr_walk_spots a k : w_spots (attr_walk a k) = attr_spots a k.
Proof.
  unfold attr_walk. destruct (a_tail a); cbn [set_member w_spots]; rewrite fixed_walk_spots; [|done].
  by rewrite app_nil_r.
Qed.
Lemma attr_walk_offsets a k : attr_ok a → offsets (attr_walk a k) k (attr_fixed a).
Proof.
  intros Ha. pose proof (fixed_walk_offsets _ (ak_names _ Ha) (mkWalk k [] [])) as H. pose proof (ak_tail _ Ha) as Ht.
  unfold attr_walk. destruct (a_tail a) as [name|]; [|done]. apply set_member_offsets; [by apply Ht|done].
Qed.

Lemma tx_walk_attr_header a fin rest pre t0 l0 post : length t0 = 2%nat → length l0 = 2%nat →
  (length pre + 4 ≤ fin)%nat →
  tx_walk (attr_inits a) fin (to_field (word "type" 2) :: to_field ff_length :: rest) (mkWalk (length pre) [] [])
    (pre ++ t0 ++ l0 ++ post)
  = tx_walk (attr_inits a) fin rest (fixed_walk (mkWalk (length pre) [] []) [word "type" 2; ff_length])
      ((pre ++ le16_bytes (a_type a)) ++ le16_bytes 0 ++ post).
Proof.
  intros Ht Hl Hfin. cbn [tx_walk to_field word ff_length ff_name ff_size ff_sw fixed_walk].
  unfold buffPtrIncrementSafe. cbn [w_ptr set_member w_fields w_spots].
  destruct (_ <? _) eqn:Hlt1; bool_to_prop; [lia|]. rewrite fbind_run.
  change (initial_bytes (attr_inits a) "type") with (Some (le16_bytes (a_type a))). cbv iota.
  rewrite write_block by done. cbn [fst snd]. rewrite fbind_run.
  change (find_field (mkWalk (length pre) [] []) "length") with (@None nat). cbv iota. rewrite fret_run. cbn [fst snd].
  cbn [w_ptr w_fields w_spots]. destruct (_ <? _) eqn:Hlt2; bool_to_prop; [lia|]. rewrite fbind_run.
  change (initial_bytes (attr_inits a) "length") with (Some (le16_bytes 0)). cbv iota.
  replace (length pre + Z.to_nat (Z.of_nat 2))%nat with (length (pre ++ le16_bytes (a_type a))) by (rewrite length_app; cbn; lia).
  rewrite app_assoc, write_block by done. cbn [fst snd]. rewrite fbind_run.
  match goal with |- context [find_field ?w "length"] => change (find_field w "length") with (@None nat) end.
  cbv iota. rewrite fret_run. cbn [fst snd]. by rewrite length_app.
Qed.

(** A new attribute in the buffer. *)
Lemma tx_init_attr a pre t0 l0 olds post : attr_ok a → length t0 = 2%nat → length l0 = 2%nat →
  Forall2 sized (a_more a) olds → let b := pre ++ t0 ++ l0 ++ concat olds ++ post in
  tx_object_init (attr_tx a) (length pre) (length b) b
  = (Some (Some (mkTxObject (attr_tx a) (length pre) (attr_walk a (length pre)) 0 false)),
     (pre ++ le16_bytes (a_type a)) ++ le16_bytes (Z.of_nat (total (a_more a)))
       ++ concat (init_vals (attr_inits a) (a_more a) olds) ++ post).
Proof.
  intros Ha Ht Hl Hs b. pose proof (ak_size _ Ha) as Hsz. pose proof (ak_words _ Ha) as Hw.
  assert (length (concat olds) = total (a_more a)) as Hlo
    by (apply (wire_values_length _ _ (Forall_inv_tail (Forall_inv_tail Hw)) Hs)).
  set (fin := length b). assert (fin = length pre + 4 + total (a_more a) + length post)%nat as Hfin.
  { unfold fin, b. rewrite !length_app. lia. }
  unfold tx_object_init. cbn [tx_layout tx_init attr_tx]. rewrite attr_initial_size.
  destruct (_ <? _)%nat eqn:Hlt; [apply Nat.ltb_lt in Hlt; lia|]. rewrite fbind_run.
  unfold attr_layout, attr_fixed. cbn [l_fields fmap list_fmap app]. unfold b.
  rewrite tx_walk_attr_header by (done || lia).
  pose proof (tx_walk_more (attr_inits a) fin (tail_fields (a_tail a)) (a_more a) olds Hs (ak_inits _ Ha)) as Hrun.
  specialize (Hrun ltac:(pose proof (ak_names _ Ha) as Hnd; unfold attr_fixed in Hnd; cbn [fmap list_fmap] in Hnd;
    by apply NoDup_cons in Hnd as [_ [? _]%NoDup_cons])
    (fixed_walk (mkWalk (length pre) [] []) [word "type" 2; ff_length]) (pre ++ le16_bytes (a_type a)) 0 [] post).
  rewrite length_app in Hrun. specialize (Hrun ltac:(cbn; lia) eq_refl ltac:(cbn; lia) ltac:(lia) ltac:(lia)).
  cbn [app] in Hrun. rewrite Hrun, Z.add_0_l.
  assert (∀ w b, tx_walk (attr_inits a) fin (tail_fields (a_tail a)) w b
    = (Some (Some (match a_tail a with None => w | Some name => set_member name [] w end)), b)) as -> by (by destruct (a_tail a)).
  cbn [fst snd]. by rewrite fret_run.
Qed.

(** *** Setting members *)

Definition upd (name : string) (bs : list Z) (fs : list FixedField) (vals : list (list Z)) : list (list Z) :=
  zip_with (λ f v, if decide (ff_name f = name) then bs else v) fs vals.

(** A value for a member: its name is that of a member, its size too. *)
Definition fits (fs : list FixedField) (nb : string * list Z) : Prop :=
  nb.1 ∈ ff_name <$> fs ∧ Forall (λ f, ff_name f = nb.1 → length nb.2 = ff_size f) fs ∧ bytes_ok nb.2.

(** The members have their sizes, and the values that are known. *)
Definition matches (acc : FixedField → option (list Z)) (fs : list FixedField) (vals : list (list Z)) : Prop :=
  Forall2 (λ f v, sized f v ∧ ∀ bs, acc f = Some bs → v = bs) fs vals.

Lemma matches_sized acc fs vals : matches acc fs vals → Forall2 sized fs vals.
Proof. intros H. eapply Forall2_impl; [exact H|]. by intros ? ? [? _]. Qed.

Lemma upd_other name bs fs vals : length fs = length vals → name ∉ ff_name <$> fs → upd name bs fs vals = vals.
Proof.
  revert vals. induction fs as [|f fs IH]; intros [|v vals] Hl Hn; try done. cbn in *.
  apply not_elem_of_cons in Hn as [Hne Hn]. rewrite decide_False by done. f_equal. apply IH; [lia|done].
Qed.

Lemma upd_matches acc name bs fs vals : fits fs (name, bs) → matches acc fs vals →
  matches (λ f, if decide (name = ff_name f) then Some bs else acc f) fs (upd name bs fs vals).
Proof.
  intros (_ & Hsz & _) Hm. cbn in Hsz. revert Hsz.
  induction Hm as [|f v fs vals [Hv Hacc] _ IH]; intros Hsz; [by apply Forall2_nil|].
  apply Forall_cons in Hsz as [Hf Hsz]. apply Forall2_cons. split; [|by apply IH].
  destruct (decide (ff_name f = name)) as [Hn|Hn].
  - rewrite decide_True by done. split; [by apply Hf|]. by intros ? [= <-].
  - rewrite decide_False by done. by split.
Qed.

Lemma upd_bytes name bs fs vals : bytes_ok bs → bytes_ok (concat vals) → bytes_ok (concat (upd name bs fs vals)).
Proof.
  intros Hb. revert fs. induction vals as [|v vals IH]; intros [|f fs] Hv; try by constructor.
  cbn in *. apply Forall_app in Hv as [H1 H2]. apply Forall_app. split; [by case_decide|by apply IH].
Qed.

Lemma set_value_upd objs x name bs fs vals : Forall2 sized fs vals → NoDup (ff_name <$> fs) → fits fs (name, bs) →
  ∀ pre post, offsets (x_walk x) (length pre) fs →
  set_value name bs (mkTxList (pre ++ concat vals ++ post) false (objs ++ [x]))
  = (Some tt, mkTxList (pre ++ concat (upd name bs fs vals) ++ post) false (objs ++ [x])).
Proof.
  intros Hs Hnd (Hin & Hsz & _). cbn in Hin, Hsz. revert Hnd Hin Hsz.
  induction Hs as [|f v fs vals Hv Hs IH]; intros Hnd Hin Hsz pre post Hoff; [by apply elem_of_nil in Hin|].
  cbn [fmap list_fmap] in Hnd, Hin. apply NoDup_cons in Hnd as [Hnf Hnd]. apply Forall_cons in Hsz as [Hf Hsz].
  destruct Hoff as [Hfind Hoff]. cbn [upd zip_with concat]. rewrite <- !app_assoc.
  destruct (decide (ff_name f = name)) as [<-|Hne].
  - rewrite (set_value_run objs x pre v bs _ (ff_name f)); [|done|rewrite Hf by done; done].
    fold (upd (ff_name f) bs fs vals). by rewrite upd_other by (done || by eapply Forall2_length).
  - apply elem_of_cons in Hin as [->|Hin]; [done|]. rewrite !(app_assoc pre v). apply IH; [done..|].
    by rewrite length_app, Hv.
Qed.

(** What the sets make of a known value. *)
Definition expected (sets : list (string * list Z)) (d : option (list Z)) (name : string) : option (list Z) :=
  foldl (λ acc nb, if decide (nb.1 = name) then Some nb.2 else acc) d sets.

Lemma set_members_run objs x fs sets : NoDup (ff_name <$> fs) → Forall (fits fs) sets → ∀ pre post acc vals,
  offsets (x_walk x) (length pre) fs → matches acc fs vals → bytes_ok (concat vals) → ∃ vals',
  set_members sets (mkTxList (pre ++ concat vals ++ post) false (objs ++ [x]))
  = (Some tt, mkTxList (pre ++ concat vals' ++ post) false (objs ++ [x])) ∧
  matches (λ f, expected sets (acc f) (ff_name f)) fs vals' ∧ bytes_ok (concat vals').
Proof.
  intros Hnd. induction 1 as [|[name bs] sets Hfit _ IH]; intros pre post acc vals Hoff Hm Hb; [by exists vals|].
  cbn [set_members]. rewrite fbind_run, (set_value_upd objs x name bs fs) by (done || by eapply matches_sized).
  cbn [fst snd]. apply (IH pre post (λ f, if decide (name = ff_name f) then Some bs else acc f)); [done|..].
  - by apply upd_matches.
  - apply upd_bytes; [apply Hfit|done].
Qed.

(** *** The byte list *)

Lemma attr_open_list a k h v body : attr_ok a → a_tail a ≠ None → length h = (k + 2)%nat → length body = total (a_more a) →
  open_list (attr_tx a) (attr_walk a k) h v body.
Proof.
  intros Ha Ht Hh Hb. pose proof (attr_walk_offsets a k Ha) as (_ & Hl & _). split.
  - unfold attr_tx, attr_layout, attr_walk. cbn [tx_layout l_fields].
    destruct (a_tail a) as [name|]; [|done]. exists name. cbn [tail_fields]. rewrite last_snoc. split; [done|].
    unfold set_member. by rewrite find_field_cons, decide_True.
  - by rewrite Hh.
  - rewrite attr_walk_ptr, !length_app. cbn. lia.
Qed.

(** *** An attribute of a message *)

(** The values that are known of a new attribute. *)
Definition p_value (p : Put) (f : FixedField) : option (list Z) :=
  expected (p_sets p) (initial_bytes (attr_inits (p_attr p)) (ff_name f)) (ff_name f).
Definition p_bytes (p : Put) : list Z := default [] (p_data p).
Definition p_size (p : Put) : nat := 4 + total (a_more (p_attr p)) + length (p_bytes p).

Record put_ok (p : Put) : Prop := {
  po_known : known (p_attr p);
  po_sets : Forall (fits (a_more (p_attr p))) (p_sets p);
  po_data : p_data p ≠ None → a_tail (p_attr p) ≠ None;
  po_bytes : bytes_ok (p_bytes p);
  po_length : Z.of_nat (total (a_more (p_attr p)) + length (p_bytes p)) < 65536;
}.

(** The contents are those the program gave. *)
Record put_content (p : Put) (c : Content) : Prop := {
  pc_attr : c_attr c = p_attr p;
  pc_data : c_data c = p_bytes p;
  pc_vals : matches (p_value p) (a_more (p_attr p)) (c_vals c);
  pc_ok : content_of c;
}.

(** The next object starts behind [pre], in a buffer of [pre] and [post]. *)
Definition ready (t : TxList) (pre post : list Z) : Prop := ∃ objs,
  tx_length (mkTxList (pre ++ post) false objs) = length pre ∧
  ∀ C, tx_addClass C t =
    match tx_object_init C (length pre) (length (pre ++ post)) (pre ++ post) with
    | (None, b) => (None, mkTxList b false objs)
    | (Some None, b) => (Some false, mkTxList b false objs)
    | (Some (Some x), b) => (Some true, mkTxList b false (objs ++ [x]))
    end.

Lemma ready_fresh b : ready (mkTxList b false []) [] b.
Proof. by exists []. Qed.

Lemma pending_ready t pre host wire post : pending t pre host wire post → ready t (pre ++ wire) post.
Proof.
  intros Hpe. destruct (pending_finalize _ _ _ _ _ Hpe) as (objs & x & y & -> & Hfin & Hp & Hlen).
  exists (objs ++ [y]). rewrite <- app_assoc. split; [done|]. intros C. unfold tx_addClass. cbn [t_objects t_buff t_finalized].
  by rewrite last_snoc, Hfin, removelast_last, Hp.
Qed.

Lemma init_matches inits fs olds : Forall2 sized fs olds → inits_ok inits fs = true →
  matches (λ f, initial_bytes inits (ff_name f)) fs (init_vals inits fs olds).
Proof.
  induction 1 as [|f v fs olds Hv _ IH]; intros Hi; [by apply Forall2_nil|].
  destruct (init_vals_cons inits f fs v Hi Hv) as (H1 & _ & H3 & _). apply Forall2_cons. split; [|by apply IH].
  split; [done|]. by intros bs ->.
Qed.

Lemma content_swap c pre post : content_of c →
  class_swap (attr_spots (c_attr c) (length pre)) (pre ++ c_host c ++ post) = (Some tt, pre ++ c_wire c ++ post).
Proof.
  intros Hc. pose proof (ak_words _ (known_ok _ (cn_attr _ Hc))) as Hw. pose proof (fixed_sized c (cn_sized _ Hc)) as Hs.
  destruct (content_sizes c Hc) as (Hl & _). unfold attr_spots.
  rewrite (class_swap_run _ (length pre) (length pre + total (attr_fixed (c_attr c))));
    [|by apply fixed_spots_ok|rewrite attr_total, !length_app, Hl; unfold c_size; lia].
  unfold c_host, c_wire. rewrite <- !(app_assoc _ (c_data c) post). by rewrite swap_fixed_spots.
Qed.

(** What is behind a new attribute. *)
Lemma split_post a post : (4 + total (a_more a) ≤ length post)%nat → bytes_ok post → ∃ t0 l0 olds rest,
  post = t0 ++ l0 ++ concat olds ++ rest ∧ length t0 = 2%nat ∧ length l0 = 2%nat ∧ Forall2 sized (a_more a) olds ∧
  bytes_ok (concat olds) ∧ bytes_ok rest ∧ length rest = (length post - (4 + total (a_more a)))%nat.
Proof.
  intros Hl Hb. destruct post as [|x1 [|x2 [|x3 [|x4 post]]]]; try (cbn in Hl; lia).
  destruct (split_sizes (a_more a) (take (total (a_more a)) post)) as (olds & Hs & Hc).
  { rewrite length_take. cbn in Hl. lia. }
  apply Forall_cons in Hb as [_ Hb]. apply Forall_cons in Hb as [_ Hb]. apply Forall_cons in Hb as [_ Hb].
  apply Forall_cons in Hb as [_ Hb].
  exists [x1; x2], [x3; x4], olds, (drop (total (a_more a)) post). rewrite Hc. split_and!; [by rewrite take_drop|done..| | |].
  - by apply Forall_take.
  - by apply Forall_drop.
  - rewrite length_drop. cbn. lia.
Qed.

(** The list of the attribute, after the members. *)
Lemma put_data_run objs a pre vals rest od must : attr_ok a → length (concat vals) = total (a_more a) →
  (od ≠ None → a_tail a ≠ None) → (length (default [] od) ≤ length rest)%nat →
  Z.of_nat (total (a_more a) + length (default [] od)) < 65536 → bytes_ok rest →
  let c := mkContent a vals (default [] od) in
  let x := mkTxObject (attr_tx a) (length pre) (attr_walk a (length pre)) 0 false in ∃ y rest',
  (match od with None => fret true | Some data => ok <- set_list data ;; fret (ok || negb must) end)
    (mkTxList ((pre ++ le16_bytes (a_type a)) ++ le16_bytes (Z.of_nat (total (a_more a))) ++ concat vals ++ rest)
       false (objs ++ [x]))
  = (Some true, mkTxList (pre ++ c_host c ++ rest') false (objs ++ [y])) ∧
  x_start y = length pre ∧ x_ptr y = (length pre + c_size c)%nat ∧ x_finalized y = false ∧
  w_spots (x_walk y) = attr_spots a (length pre) ∧ bytes_ok rest' ∧
  length rest' = (length rest - length (default [] od))%nat.
Proof.
  intros Ha Hlv Ht Hle Hlt Hb c x. unfold c_host, c_fixed, c_size, c_len, c. cbn [c_attr c_vals c_data concat].
  destruct od as [data|]; cbn [from_option id] in *.
  - pose proof (set_list_at objs (attr_tx a) (length pre) (attr_walk a (length pre)) (pre ++ le16_bytes (a_type a))
      (Z.of_nat (total (a_more a))) (concat vals) data rest) as Hr.
    rewrite fbind_run. unfold x. rewrite Hr; [|apply attr_open_list; [done|by apply Ht|by rewrite length_app|done]|done|lia|lia].
    cbn [fst snd]. rewrite fret_run.
    exists (mkTxObject (attr_tx a) (length pre) (grow (length data) (attr_walk a (length pre))) (length data) false),
      (take (length rest - length data) rest).
    split_and!; [|done| |done| |by apply Forall_take|rewrite length_take; lia].
    + rewrite <- !app_assoc, Nat2Z.inj_add. done.
    + unfold x_ptr, grow. cbn [x_walk w_ptr]. rewrite attr_walk_ptr. cbn. lia.
    + cbn [x_walk grow w_spots]. apply attr_walk_spots.
  - exists x, rest. cbn [length]. rewrite fret_run, Nat.add_0_r. split_and!; [|done| |done|apply attr_walk_spots|done|lia].
    + by rewrite <- !app_assoc, app_nil_l.
    + unfold x_ptr, x. cbn [x_walk]. rewrite attr_walk_ptr. lia.
Qed.

Lemma put_attr_pending p t pre post : put_ok p → ready t pre post → bytes_ok post → (p_size p ≤ length post)%nat →
  ∃ t' c post', put_attr p t = (Some true, t') ∧ put_content p c ∧ pending t' pre (c_host c) (c_wire c) post' ∧
  bytes_ok post' ∧ length post' = (length post - p_size p)%nat.
Proof.
  intros [Hk Hsets Hdata Hbytes Hlen] (objs & Hobjs & Hadd) Hb Hsz. pose proof (known_ok _ Hk) as Ha.
  set (a := p_attr p) in *. unfold p_size in Hsz. fold a in Hsz.
  destruct (split_post a post ltac:(lia) Hb) as (t0 & l0 & olds & rest & -> & Ht & Hl & Hs & Hbo & Hbr & Hrest).
  pose proof (tx_init_attr a pre t0 l0 olds rest Ha Ht Hl Hs) as Hi. cbn zeta in Hi.
  destruct (init_vals_sized _ _ _ Hs (ak_inits _ Ha)) as [Hvs Hvb].
  pose proof (init_matches _ _ _ Hs (ak_inits _ Ha)) as Hm0.
  set (x := mkTxObject (attr_tx a) (length pre) (attr_walk a (length pre)) 0 false) in *.
  set (h := pre ++ le16_bytes (a_type a)) in *. assert (length h = length pre + 2)%nat as Hh by (unfold h; rewrite length_app; done).
  set (n0 := Z.of_nat (total (a_more a))) in *.
  destruct (set_members_run objs x (a_more a) (p_sets p)) with (pre := h ++ le16_bytes n0) (post := rest)
    (acc := λ f, initial_bytes (attr_inits a) (ff_name f)) (vals := init_vals (attr_inits a) (a_more a) olds)
    as (vals & Hset & Hm & Hbv); [|done| |done|by apply Hvb|].
  { pose proof (ak_names _ Ha) as Hnd. unfold attr_fixed in Hnd. cbn [fmap list_fmap] in Hnd.
    by apply NoDup_cons in Hnd as [_ [_ ?]%NoDup_cons]. }
  { destruct (attr_walk_offsets a (length pre) Ha) as (_ & _ & Hoff). rewrite length_app, Hh. exact Hoff. }
  rewrite <- !app_assoc in Hset.
  set (c := mkContent a vals (p_bytes p)).
  assert (put_content p c) as Hc.
  { split; [done|done|exact Hm|]. split; cbn [c c_attr c_vals c_data]; [done|by eapply matches_sized|done| |done].
    intros Hn. unfold p_bytes. destruct (p_data p); [|done]. by destruct (Hdata ltac:(done)). }
  pose proof (pc_ok _ _ Hc) as Hcok. destruct (content_sizes c Hcok) as (Hch & Hcw & _).
  assert (length (concat vals) = total (a_more a)) as Hlv.
  { eapply wire_values_length; [|by eapply matches_sized]. apply (Forall_inv_tail (Forall_inv_tail (ak_words _ Ha))). }
  assert (∃ y rest', put_attr p t = (Some true, mkTxList (pre ++ c_host c ++ rest') false (objs ++ [y])) ∧
    x_start y = length pre ∧ x_ptr y = (length pre + c_size c)%nat ∧ x_finalized y = false ∧
    w_spots (x_walk y) = attr_spots a (length pre) ∧ bytes_ok rest' ∧ length rest' = (length rest - length (p_bytes p))%nat)
    as (y & rest' & Hput & Hst & Hptr & Hfin & Hsp & Hbr' & Hlr).
  { destruct (put_data_run objs a pre vals rest (p_data p) (p_must p) Ha Hlv Hdata) as (y & rest' & Hr & Hy);
      [unfold p_bytes in Hsz; lia|done|done|]. exists y, rest'. split; [|exact Hy].
    unfold put_attr. rewrite fbind_run. fold a. rewrite Hadd, Hi. cbn [fst snd negb]. rewrite fbind_run.
    fold x in Hr. fold h n0 in Hr. rewrite Hset. cbn [fst snd]. exact Hr. }
  exists (mkTxList (pre ++ c_host c ++ rest') false (objs ++ [y])), c, rest'. split_and!; [done|done| |done|].
  - split; cbn [t_buff t_finalized]; [done|done| |lia|].
    + unfold tx_length in *. cbn [t_objects] in *. rewrite sum_list_with_app, Hobjs. cbn [sum_list_with].
      rewrite Hptr, Hst, length_app. lia.
    + exists objs, y. rewrite length_app. split_and!; [done|lia|done|]. rewrite Hsp. by apply (content_swap c).
  - unfold p_size. fold a. rewrite Hlr, Hrest. lia.
Qed.

(** ** Whole messages *)

Lemma put_attrs_pending l : Forall put_ok l → l ≠ [] → ∀ t pre post, ready t pre post → bytes_ok post →
  (sum_list_with p_size l ≤ length post)%nat → ∃ t' cs wires host wire post',
  put_attrs l t = (Some true, t') ∧ Forall2 put_content l cs ∧ pending t' wires host wire post' ∧
  wires ++ wire = pre ++ concat (c_wire <$> cs).
Proof.
  induction 1 as [|p l Hp Hl IH]; intros Hne t pre post Hr Hb Hsz; [done|]. cbn [sum_list_with] in Hsz.
  destruct (put_attr_pending p t pre post Hp Hr Hb ltac:(lia)) as (t1 & c & post1 & Hr1 & Hc & Hpe & Hb1 & Hl1).
  cbn [put_attrs]. rewrite fbind_run, Hr1. cbn [fst snd].
  destruct l as [|q l].
  - exists t1, [c], pre, (c_host c), (c_wire c), post1. split_and!; [done|by constructor|done|cbn; by rewrite app_nil_r].
  - destruct (IH ltac:(done) t1 (pre ++ c_wire c) post1) as (t' & cs & wires & host & wire & post' & Hr' & Hcs & Hpe' & Hw);
      [by eapply pending_ready|done|lia|].
    exists t', (c :: cs), wires, host, wire, post'. split_and!; [done|by constructor|done|].
    rewrite Hw. cbn. by rewrite <- app_assoc.
Qed.

(** What was created is sent: the list is finalized. *)
Lemma create_attrs_run l b : Forall put_ok l → l ≠ [] → bytes_ok b → (sum_list_with p_size l ≤ length b)%nat → ∃ t cs,
  create_attrs l (mkTxList b false []) = (Some true, t) ∧ Forall2 put_content l cs ∧ message t = concat (c_wire <$> cs).
Proof.
  intros Hl Hne Hb Hsz.
  destruct (put_attrs_pending l Hl Hne _ _ _ (ready_fresh b) Hb Hsz) as (t & cs & wires & host & wire & post & Hr & Hcs & Hpe & Hw).
  destruct (pending_finalize _ _ _ _ _ Hpe) as (objs & x & y & -> & Hfin & Hp & Hlen).
  exists (mkTxList (wires ++ wire ++ post) true (objs ++ [y])), cs. split_and!; [|done|].
  - unfold create_attrs. rewrite fbind_run, Hr. cbn [fst snd negb]. unfold list_finalize. cbn [t_objects t_finalized t_buff].
    by rewrite last_snoc, Hfin, removelast_last.
  - unfold message. cbn [t_buff]. unfold tx_length in *. cbn [t_objects] in *. rewrite Hlen, app_assoc, take_app_length. done.
Qed.

(** *** The receiver *)

(** The first words of an attribute on the wire. *)
Lemma c_wire_words c : c_wire c
  = u8 (Z.shiftr (a_type (c_attr c)) 8) :: u8 (a_type (c_attr c)) :: u8 (Z.shiftr (c_len c) 8) :: u8 (c_len c)
    :: concat (wire_values (a_more (c_attr c)) (c_vals c)) ++ c_data c.
Proof. done. Qed.

Lemma wire_words c pre post : content_of c → let b := pre ++ c_wire c ++ post in
  be16_at b (length pre) = a_type (c_attr c) ∧ be16_at b (length pre + 2) = c_len c.
Proof.
  intros Hc b. assert (∀ i, at_ b (length pre + i) = at_ (c_wire c ++ post) i) as Hat.
  { intros i. unfold at_, b. rewrite lookup_app_r by lia. by rewrite Nat.add_sub'. }
  pose proof (ak_type _ (known_ok _ (cn_attr _ Hc))). pose proof (cn_length _ Hc).
  assert (0 ≤ c_len c) by (unfold c_len; lia).
  unfold be16_at. rewrite <- (Nat.add_0_r (length pre)) at 1. rewrite <- !Nat.add_succ_r.
  rewrite <- (Nat.add_1_r (length pre)), !Hat, c_wire_words. unfold at_. cbn. by rewrite !be16_bytes_roundtrip.
Qed.

Lemma rx_content c m pre post : content_of c → m_buff m = pre ++ c_wire c ++ post → next_ptr m = length pre →
  bytes_ok pre → bytes_ok post → Z.of_nat (length (m_buff m)) < 2 ^ 63 →
  let o := attr_object (c_attr c) (length pre) (length (c_data c)) in
  getNextAttrType m = (Some (a_type (c_attr c)), m) ∧
  addAttr (c_attr c) m
  = (Some (Some o), mkClassList (pre ++ c_host c ++ post) (m_swapped m) (m_class_vector m ++ [o])).
Proof.
  intros Hc Hb Hn Hpre Hpost Hmax o. pose proof (cn_attr _ Hc) as Hk. pose proof (known_ok _ Hk) as Ha.
  destruct (wire_words c pre post Hc) as [Ht Hl]. destruct (content_sizes c Hc) as (_ & Hcw & _ & Hbw).
  rewrite <- Hb in Ht, Hl. assert (length (m_buff m) = length pre + c_size c + length post)%nat as Hlen
    by (rewrite Hb, !length_app; lia). unfold c_size in Hlen.
  assert (bytes_ok (m_buff m)) as Hbm by (rewrite Hb; unfold bytes_ok in *; rewrite !Forall_app; done).
  split.
  - unfold getNextAttrType, read_be16, read_at. rewrite Hn, Nat.add_0_r, fbind_run. cbn [fst snd].
    destruct (lookup_lt_is_Some_2 (m_buff m) (length pre)) as [x1 H1]; [lia|].
    destruct (lookup_lt_is_Some_2 (m_buff m) (length pre + 1)) as [x2 H2]; [lia|].
    rewrite H1. cbn [fst snd]. rewrite fbind_run. cbn [fst snd]. rewrite H2. cbn [fst snd]. rewrite fret_run.
    unfold be16_at, at_ in Ht. rewrite H1, <- Nat.add_1_r, H2 in Ht. cbn in Ht. by rewrite Ht.
  - unfold addAttr, addClass. rewrite Hn, (init_attr (c_attr c) (m_buff m) (length pre) Ha Hbm Hmax) by lia.
    assert (attr_extent (c_attr c) (m_buff m) (length pre) = Some (length (c_data c))) as ->.
    { unfold attr_extent. rewrite (proj2 (Nat.ltb_ge _ _)) by lia. pose proof (cn_tail _ Hc) as Htl.
      destruct (a_tail (c_attr c)); [|by rewrite Htl]. rewrite Hl. unfold c_len.
      destruct (_ || _) eqn:Hor; [|f_equal; lia]. apply orb_true_iff in Hor as [Hor|Hor]; apply Z.ltb_lt in Hor; lia. }
    assert (swap_spots (attr_spots (c_attr c) (length pre)) (m_buff m) = pre ++ c_host c ++ post) as ->.
    { rewrite Hb. unfold c_wire, c_host, attr_spots. rewrite <- !(app_assoc _ (c_data c) post).
      apply unswap_fixed_spots; [apply Ha|by apply fixed_sized, Hc]. }
    cbn [m_buff]. fold o. change (o_start o) with (length pre). unfold c_host at 1. cbn [c_fixed concat]. rewrite <- !app_assoc.
    rewrite le16_of_bytes by apply Ha. rewrite Z.eqb_refl, andb_false_r. unfold c_host. cbn [c_fixed concat]. by rewrite <- !app_assoc.
Qed.

(** The objects of the attributes [cs] from [p] on. *)
Fixpoint placed (p : nat) (cs : list Content) : list Object :=
  match cs with
  | [] => []
  | c :: cs => attr_object (c_attr c) p (length (c_data c)) :: placed (p + c_size c) cs
  end.

(** The attributes [cs] as the receiver holds them. *)
Definition held (cs : list Content) : ClassList := mkClassList (concat (c_host <$> cs)) false (placed 0 cs).

Lemma contents_bytes cs : Forall content_of cs → bytes_ok (concat (c_wire <$> cs)) ∧
  length (concat (c_wire <$> cs)) = sum_list_with c_size cs ∧ (length cs ≤ sum_list_with c_size cs)%nat.
Proof.
  induction 1 as [|c cs Hc _ (H1 & H2 & H3)]; [by split_and!; [constructor|..]|].
  destruct (content_sizes c Hc) as (_ & Hl & _ & Hb). cbn [fmap list_fmap concat sum_list_with length].
  rewrite length_app. split_and!; [by apply Forall_app|lia|unfold c_size at 1; lia].
Qed.

(** The loop of [init()] over the attributes of a message, where only the last
    may be the one that ends the list. *)
Lemma rx_contents cs : Forall content_of cs → Forall (λ c, a_type (c_attr c) ≠ ATTR_KEY_WRAP_AUTH) (removelast cs) →
  ∀ m pre fuel, m_buff m = pre ++ concat (c_wire <$> cs) → next_ptr m = length pre → bytes_ok pre →
  Z.of_nat (length (m_buff m)) < 2 ^ 63 → (length cs ≤ fuel)%nat →
  attrs_loop fuel m = (Some true, mkClassList (pre ++ concat (c_host <$> cs)) (m_swapped m)
                                    (m_class_vector m ++ placed (length pre) cs)).
Proof.
  induction 1 as [|c cs Hc Hcs IH]; intros Hkw m pre fuel Hb Hn Hpre Hmax Hfuel.
  { cbn in Hb |- *. assert (getRemainingBytes m = 0%nat) as Hr by (unfold getRemainingBytes; rewrite Hb, Hn, app_nil_r; lia).
    destruct fuel; cbn [attrs_loop]; rewrite Hr; destruct m; cbn in *; by rewrite Hb, !app_nil_r. }
  destruct fuel as [|fuel]; [cbn in Hfuel; lia|]. cbn [fmap list_fmap concat] in Hb.
  destruct (content_sizes c Hc) as (Hch & Hcw & Hbh & _). destruct (contents_bytes cs Hcs) as (Hbw & Hlw & _).
  destruct (rx_content c m pre (concat (c_wire <$> cs)) Hc Hb Hn Hpre Hbw Hmax) as [Ht Hadd].
  cbn [attrs_loop]. assert (getRemainingBytes m ≠ 0%nat) as Hr.
  { unfold getRemainingBytes. rewrite Hb, Hn, !length_app. unfold c_size in *. lia. }
  rewrite (proj2 (Nat.eqb_neq _ _)) by done. rewrite fbind_run, Ht. cbn [fst snd].
  rewrite (cn_attr _ Hc), fbind_run, Hadd. cbn [fst snd].
  assert (pre ++ c_host c ++ concat (c_wire <$> cs) = (pre ++ c_host c) ++ concat (c_wire <$> cs)) as Has by (by rewrite app_assoc).
  assert (cs = [] ∨ a_type (c_attr c) ≠ ATTR_KEY_WRAP_AUTH ∧
    Forall (λ c, a_type (c_attr c) ≠ ATTR_KEY_WRAP_AUTH) (removelast cs)) as Hlast.
  { destruct cs as [|c' cs]; [by left|]. right. by apply Forall_cons in Hkw. }
  set (m' := mkClassList _ _ _). cbn [placed fmap list_fmap concat]. rewrite !app_assoc.
  destruct (_ =? _) eqn:Hend.
  - destruct Hlast as [->|[Hne _]]; [|by apply Z.eqb_eq in Hend]. rewrite fret_run. unfold m'. cbn. by rewrite !app_nil_r.
  - assert (Forall (λ c, a_type (c_attr c) ≠ ATTR_KEY_WRAP_AUTH) (removelast cs)) as Hkw'
      by (destruct Hlast as [->|[_ ?]]; [by constructor|done]).
    rewrite (IH Hkw' m' (pre ++ c_host c) fuel); [|done| | | |cbn in Hfuel; lia].
    + cbn [m' m_class_vector m_swapped]. rewrite length_app, Hch, <- !app_assoc. cbn [app]. done.
    + unfold next_ptr, m'. cbn [m_class_vector]. rewrite last_snoc, length_app, Hch. cbn [attr_object o_ptr]. unfold c_size. lia.
    + by apply Forall_app.
    + unfold m'. cbn [m_buff]. rewrite Hb in Hmax. rewrite !length_app in *. by rewrite Hch, <- Hcw.
Qed.

Lemma attrs_init_run cs : Forall content_of cs → Forall (λ c, a_type (c_attr c) ≠ ATTR_KEY_WRAP_AUTH) (removelast cs) →
  Z.of_nat (sum_list_with c_size cs) < 2 ^ 63 →
  attrs_init (received (concat (c_wire <$> cs))) = (Some true, held cs).
Proof.
  intros Hcs Hkw Hmax. destruct (contents_bytes cs Hcs) as (Hb & Hl & Hle). unfold attrs_init.
  rewrite (rx_contents cs Hcs Hkw (received (concat (c_wire <$> cs))) []); [done|done|done|by constructor| |].
  - cbn. by rewrite Hl.
  - unfold getRemainingBytes. cbn. lia.
Qed.

(** *** Reading the attributes *)

Lemma placed_app p l1 l2 : placed p (l1 ++ l2) = placed p l1 ++ placed (p + sum_list_with c_size l1) l2.
Proof.
  revert p. induction l1 as [|c l1 IH]; intros p; cbn [placed app sum_list_with]; [by rewrite Nat.add_0_r|].
  by rewrite IH, Nat.add_assoc.
Qed.

Lemma getAttr_held l1 c l2 a : Forall (λ c', a_name (c_attr c') ≠ a_name a) l1 → a_name (c_attr c) = a_name a →
  getAttr a (held (l1 ++ c :: l2))
  = Some (attr_object (c_attr c) (sum_list_with c_size l1) (length (c_data c))).
Proof.
  intros Hl1 Hc. unfold getAttr, getClass, held. cbn [m_class_vector]. rewrite placed_app, Nat.add_0_l. cbn [placed].
  set (o := attr_object _ _ _). rewrite list_find_app_r.
  - cbn [list_find]. by rewrite decide_True by exact Hc.
  - apply list_find_None. clear -Hl1. generalize 0%nat.
    induction Hl1 as [|c' l1 Hne _ IH]; intros p; constructor; [exact Hne|apply IH].
Qed.

Lemma hosts_length cs : Forall content_of cs → length (concat (c_host <$> cs)) = sum_list_with c_size cs.
Proof.
  induction 1 as [|c cs Hc _ IH]; [done|]. cbn [fmap list_fmap concat sum_list_with].
  rewrite length_app, IH. by destruct (content_sizes c Hc) as (-> & _).
Qed.

Lemma offsets_lookup w k fs i f : offsets w k fs → fs !! i = Some f →
  find_field w (ff_name f) = Some (k + total (take i fs))%nat.
Proof.
  unfold total. revert k i. induction fs as [|x fs IH]; intros k [|i] Ho Hi; try done; destruct Ho as [H1 H2]; cbn in *.
  - injection Hi as <-. by rewrite Nat.add_0_r.
  - rewrite (IH _ _ H2 Hi). f_equal. lia.
Qed.

Lemma concat_lookup fs vals i f v : Forall2 sized fs vals → fs !! i = Some f → vals !! i = Some v → ∃ l r,
  concat vals = l ++ v ++ r ∧ length l = total (take i fs) ∧ length v = ff_size f.
Proof.
  unfold total. intros Hs. revert i. induction Hs as [|f0 v0 fs vals Hv _ IH]; intros [|i] Hf Hvi; try done; cbn in *.
  - simplify_eq. by exists [], (concat vals).
  - destruct (IH i Hf Hvi) as (l & r & Hc & Hl & Hlv). exists (v0 ++ l), r. rewrite Hc, <- app_assoc, length_app, Hl, Hv. done.
Qed.

Section Held.
Context (l1 : list Content) (c : Content) (l2 : list Content).
Context (Hall : Forall content_of (l1 ++ c :: l2)).
Let o := attr_object (c_attr c) (sum_list_with c_size l1) (length (c_data c)).
Let m := held (l1 ++ c :: l2).

Local Lemma held_split : m_buff m = concat (c_host <$> l1) ++ c_host c ++ concat (c_host <$> l2) ∧
  length (concat (c_host <$> l1)) = sum_list_with c_size l1 ∧ content_of c.
Proof.
  apply Forall_app in Hall as [H1 [Hc H2]%Forall_cons]. split_and!; [|by apply hosts_length|done].
  unfold m, held. cbn [m_buff]. by rewrite fmap_app, concat_app.
Qed.

Lemma held_value i f v : a_more (c_attr c) !! i = Some f → c_vals c !! i = Some v →
  attr_value o (ff_name f) (ff_size f) m = (Some v, m).
Proof.
  intros Hf Hv. destruct held_split as (Hb & Hl & Hc). pose proof (known_ok _ (cn_attr _ Hc)) as Ha.
  destruct (concat_lookup _ _ i f v (cn_sized _ Hc) Hf Hv) as (l & r & Hcat & Hll & Hlv).
  destruct (attr_object_offsets (c_attr c) (sum_list_with c_size l1) (length (c_data c)) (o_ptr o) (o_spots o) Ha) as [Hoff _].
  set (pre := concat (c_host <$> l1) ++ le16_bytes (a_type (c_attr c)) ++ le16_bytes (c_len c) ++ l).
  assert (m_buff m = pre ++ v ++ r ++ c_data c ++ concat (c_host <$> l2)) as Hb'.
  { rewrite Hb. unfold c_host at 2. cbn [c_fixed concat]. unfold pre. by rewrite Hcat, <- !app_assoc. }
  assert (length pre = sum_list_with c_size l1 + 4 + total (take i (a_more (c_attr c))))%nat as Hpre.
  { unfold pre. rewrite !length_app, Hl, Hll. cbn. lia. }
  rewrite (attr_value_run o _ _ m (length pre)).
  - by rewrite Hb', drop_app_length, <- Hlv, take_app_length.
  - rewrite Hpre. exact (offsets_lookup _ _ _ _ _ Hoff Hf).
  - rewrite Hb', !length_app. lia.
Qed.

Lemma held_length : list_length (c_attr c) o m = length (c_data c).
Proof.
  destruct held_split as (Hb & Hl & Hc). unfold list_length. cbn [o attr_object o_start]. rewrite Hb.
  unfold c_host at 2. cbn [c_fixed concat]. rewrite <- Hl.
  replace (concat (c_host <$> l1) ++ _) with ((concat (c_host <$> l1) ++ le16_bytes (a_type (c_attr c))) ++ le16_bytes (c_len c)
    ++ (concat (c_vals c) ++ c_data c) ++ concat (c_host <$> l2)) by (by rewrite <- !app_assoc).
  replace (length (concat (c_host <$> l1)) + 2)%nat with (length (concat (c_host <$> l1) ++ le16_bytes (a_type (c_attr c))))
    by (by rewrite length_app).
  rewrite le16_of_bytes; [unfold c_len; lia|]. pose proof (cn_length _ Hc). unfold c_len in *. lia.
Qed.

Lemma held_list_at : a_tail (c_attr c) ≠ None → ∃ name off post, a_tail (c_attr c) = Some name ∧
  member o name = Some off ∧ ∃ pre, m_buff m = pre ++ c_data c ++ post ∧ length pre = off.
Proof.
  intros Ht. destruct held_split as (Hb & Hl & Hc). pose proof (known_ok _ (cn_attr _ Hc)) as Ha.
  destruct (a_tail (c_attr c)) as [name|] eqn:Hta; [|done].
  destruct (attr_object_offsets (c_attr c) (sum_list_with c_size l1) (length (c_data c)) (o_ptr o) (o_spots o) Ha) as [_ Hn].
  eexists name, _, (concat (c_host <$> l2)). split_and!; [done|by apply Hn|].
  exists (concat (c_host <$> l1) ++ concat (c_fixed c)). split.
  - rewrite Hb. unfold c_host at 2. by rewrite <- !app_assoc.
  - rewrite length_app, Hl. rewrite (proj2 (wire_values_length _ _ (ak_words _ Ha) (fixed_sized c (cn_sized _ Hc)))).
    rewrite attr_total. lia.
Qed.

Lemma held_list : a_tail (c_attr c) ≠ None → attr_list (c_attr c) o m = (Some (c_data c), m).
Proof.
  intros Ht. destruct (held_list_at Ht) as (name & off & post & Hta & Hm & pre & Hb & Hp).
  unfold attr_list. rewrite Hta, held_length, (attr_value_run o name _ m off) by (done || rewrite Hb, !length_app; lia).
  by rewrite Hb, <- Hp, drop_app_length, take_app_length.
Qed.
End Held.

(** ** What was sent is what is received *)

(** The first attribute of a class among those put into a message. *)
Definition find_put (a : Attr) (l : list Put) : option Put :=
  snd <$> list_find (λ p, a_name (p_attr p) = a_name a) l.

Lemma find_put_content a l cs p : Forall2 put_content l cs → find_put a l = Some p → ∃ l1 c l2,
  cs = l1 ++ c :: l2 ∧ put_content p c ∧ Forall (λ c', a_name (c_attr c') ≠ a_name a) l1 ∧ a_name (c_attr c) = a_name a.
Proof.
  unfold find_put. intros Hcs. induction Hcs as [|q c l cs Hq Hcs IH]; [done|]. cbn [list_find].
  destruct (decide (a_name (p_attr q) = a_name a)) as [Hn|Hn].
  - intros [= <-]. exists [], c, cs. rewrite (pc_attr _ _ Hq). by split_and!.
  - intros Hp. destruct IH as (l1 & c' & l2 & -> & H1 & H2 & H3); [by destruct (list_find _ l) as [[]|]|].
    exists (c :: l1), c', l2. split_and!; [done|done| |done]. constructor; [by rewrite (pc_attr _ _ Hq)|done].
Qed.

Lemma put_contents_ok l cs : Forall2 put_content l cs → Forall content_of cs.
Proof. induction 1 as [|p c l cs Hp _ IH]; constructor; [apply Hp|done]. Qed.

Lemma matches_lookup acc fs vals i f bs : matches acc fs vals → fs !! i = Some f → acc f = Some bs →
  vals !! i = Some bs.
Proof. intros Hm Hf Hacc. destruct (Forall2_lookup_l _ _ _ _ _ Hm Hf) as (v & Hv & _ & He). by rewrite Hv, (He bs). Qed.

Section Sent.
Context (l : list Put) (cs : list Content) (Hcs : Forall2 put_content l cs).

Lemma sent_value a p i f bs : find_put a l = Some p → p_attr p = a → a_more a !! i = Some f → p_value p f = Some bs →
  get_value a (ff_name f) (ff_size f) (held cs) = (Some bs, held cs).
Proof.
  intros Hp Ha Hf Hv. destruct (find_put_content a l cs p Hcs Hp) as (l1 & c & l2 & -> & Hc & Hl1 & Hn).
  pose proof (put_contents_ok _ _ Hcs) as Hok. assert (c_attr c = a) as Hca by (by rewrite (pc_attr _ _ Hc)).
  unfold get_value. rewrite (getAttr_held l1 c l2 a Hl1 Hn).
  apply (held_value l1 c l2 Hok i); [by rewrite Hca|]. eapply matches_lookup; [apply Hc|by rewrite Ha|done].
Qed.

Lemma sent_list a p : find_put a l = Some p → p_attr p = a → a_tail a ≠ None →
  get_list a (held cs) = (Some (p_bytes p), held cs).
Proof.
  intros Hp Ha Ht. destruct (find_put_content a l cs p Hcs Hp) as (l1 & c & l2 & -> & Hc & Hl1 & Hn).
  pose proof (put_contents_ok _ _ Hcs) as Hok. assert (c_attr c = a) as Hca by (by rewrite (pc_attr _ _ Hc)).
  unfold get_list. rewrite (getAttr_held l1 c l2 a Hl1 Hn), <- (pc_data _ _ Hc).
  rewrite <- Hca in Ht |- *. by apply held_list.
Qed.

Lemma get_str_list a m : get_str a m = match get_list a m with (Some s, m') => (Some (until_null s), m') | (None, m') => (None, m') end.
Proof.
  unfold get_str, get_list, attr_str. destruct (getAttr a m); [|done]. rewrite fbind_run.
  destruct (attr_list a _ m) as [[]]; done.
Qed.

Lemma sent_str a p : find_put a l = Some p → p_attr p = a → a_tail a ≠ None →
  get_str a (held cs) = (Some (until_null (p_bytes p)), held cs).
Proof. intros Hp Ha Ht. by rewrite get_str_list, (sent_list a p). Qed.

Lemma sent_all required : forallb (λ a, match find_put a l with Some _ => true | None => false end) required = true →
  has_all required (held cs) = true.
Proof.
  unfold has_all. rewrite !forallb_forall. intros H a Ha. specialize (H a Ha). destruct (find_put a l) as [p|] eqn:Hp; [|done].
  destruct (find_put_content a l cs p Hcs Hp) as (l1 & c & l2 & -> & _ & Hl1 & Hn). by rewrite (getAttr_held l1 c l2 a Hl1 Hn).
Qed.

Lemma sent_none a : find_put a l = None → getAttr a (held cs) = None.
Proof.
  intros Hn. unfold find_put in Hn. destruct (list_find _ l) as [[]|] eqn:Hf; [done|]. apply list_find_None in Hf.
  unfold getAttr, getClass. replace (list_find _ _) with (@None (nat * Object)); [done|]. symmetry. apply list_find_None.
  unfold held. cbn [m_class_vector]. generalize 0%nat. clear -Hcs Hf.
  induction Hcs as [|p c l' cs' Hp Hcs' IH]; intros k; [by apply Forall_nil|]. apply Forall_cons in Hf as [H1 H2].
  apply Forall_cons. split; [cbn; by rewrite (pc_attr _ _ Hp)|by apply IH].
Qed.

Lemma sent_or a d p i f bs : find_put a l = Some p → p_attr p = a → a_more a !! i = Some f → p_value p f = Some bs →
  get_or a d (λ o, attr_value o (ff_name f) (ff_size f)) (held cs) = (Some bs, held cs).
Proof.
  intros Hp Ha Hf Hv. pose proof (sent_value a p i f bs Hp Ha Hf Hv) as H. unfold get_value in H. unfold get_or.
  by destruct (getAttr a (held cs)).
Qed.

Lemma sent_or_str a p : find_put a l = Some p → p_attr p = a → a_tail a ≠ None →
  get_or a [] (attr_str a) (held cs) = (Some (until_null (p_bytes p)), held cs).
Proof.
  intros Hp Ha Ht. pose proof (sent_str a p Hp Ha Ht) as H. unfold get_str in H. unfold get_or.
  by destruct (getAttr a (held cs)).
Qed.

Lemma sent_types : Forall (λ p, a_type (p_attr p) ≠ ATTR_KEY_WRAP_AUTH) (removelast l) →
  Forall (λ c, a_type (c_attr c) ≠ ATTR_KEY_WRAP_AUTH) (removelast cs).
Proof.
  clear -Hcs. induction Hcs as [|p c l' cs' Hp Hcs' IH]; [done|].
  destruct Hcs' as [|q c' l'' cs'' Hq Hcs'']; [by constructor|]. intros [H1 H2]%Forall_cons.
  apply Forall_cons. split; [by rewrite (pc_attr _ _ Hp)|]. exact (IH ltac:(by constructor) H2).
Qed.

Lemma sent_size : sum_list_with c_size cs = sum_list_with p_size l.
Proof.
  clear -Hcs. induction Hcs as [|p c l' cs' Hp Hcs' IH]; [done|]. cbn [sum_list_with]. rewrite (IH Hcs').
  unfold c_size, p_size. by rewrite (pc_attr _ _ Hp), (pc_data _ _ Hp).
Qed.
End Sent.

(** A message the sender makes out of [l] is parsed by the receiver. *)
Lemma create_parse l b t0 required : Forall put_ok l → Forall (λ p, a_type (p_attr p) ≠ ATTR_KEY_WRAP_AUTH) (removelast l) →
  bytes_ok b → (sum_list_with p_size l ≤ length b)%nat → Z.of_nat (length b) < 2 ^ 63 →
  (∃ p, find_put cWscAttrMessageType l = Some p ∧ p_attr p = cWscAttrMessageType ∧ p_value p (bytes "msg_type" 1) = Some [t0]) →
  forallb (λ a, match find_put a l with Some _ => true | None => false end) required = true → ∃ t cs,
  create_attrs l (mkTxList b false []) = (Some true, t) ∧ Forall2 put_content l cs ∧ message t ≠ [] ∧
  wsc_parse t0 required (received (message t)) = (Some true, held cs).
Proof.
  intros Hl Hkw Hb Hsz Hmax (p & Hp & Hpa & Hpv) Hreq.
  assert (l ≠ []) as Hne by (by intros ->).
  destruct (create_attrs_run l b Hl Hne Hb Hsz) as (t & cs & Hr & Hcs & Hm). exists t, cs.
  pose proof (put_contents_ok _ _ Hcs) as Hok. pose proof (sent_size _ _ Hcs) as Hsize.
  destruct (contents_bytes cs Hok) as (_ & Hlen & _). split_and!; [done|done| |].
  - rewrite Hm. intros He. rewrite He in Hlen. destruct l as [|q l']; [done|]. rewrite Hsize in Hlen. cbn in Hlen. unfold p_size in Hlen. lia.
  - unfold wsc_parse. rewrite Hm, fbind_run, attrs_init_run; [|done|by eapply sent_types|lia]. cbn [fst snd].
    rewrite fbind_run. unfold msg_type. rewrite (sent_value l cs Hcs _ p 0 (bytes "msg_type" 1) [t0]) by done.
    cbn [fst snd]. rewrite bool_decide_eq_true_2 by done. unfold check_valid. by rewrite (sent_all l cs Hcs).
Qed.

(** *** The messages *)

(** The bytes of a member or a string of a configuration. *)
Definition value_ok (n : nat) (bs : list Z) : Prop := length bs = n ∧ bytes_ok bs.
Definition string_ok (s : list Z) : Prop := bytes_ok s ∧ Z.of_nat (length s) < 32768.

Lemma plain_ok a : known a → put_ok (plain a).
Proof.
  intros Ha. pose proof (ak_size _ (known_ok _ Ha)). split; cbn; [done|by constructor|done|by constructor|lia].
Qed.

Lemma sets_ok a sets data must : known a → Forall (fits (a_more a)) sets → a_tail a ≠ None → string_ok data →
  put_ok (mkPut a sets (Some data) must).
Proof. intros Ha Hs Ht [Hb Hl]. pose proof (ak_size _ (known_ok _ Ha)). split; cbn; [done..|lia]. Qed.

Lemma listing_ok a data : known a → a_tail a ≠ None → string_ok data → put_ok (listing a data).
Proof. intros. by apply sets_ok; [|constructor|..]. Qed.

Lemma setting_ok a name bs : known a → fits (a_more a) (name, bs) → put_ok (setting a name bs).
Proof.
  intros Ha Hf. pose proof (ak_size _ (known_ok _ Ha)). split; cbn; [done| |done|by constructor|lia].
  apply Forall_cons. split; [done|by apply Forall_nil].
Qed.

(** A value for the member [f]. *)
Lemma fits_member fs i f name bs : fs !! i = Some f → ff_name f = name → NoDup (ff_name <$> fs) →
  value_ok (ff_size f) bs → fits fs (name, bs).
Proof.
  intros Hf <- Hnd [Hl Hb]. split_and!; [| |done].
  { cbn. apply list_elem_of_fmap. exists f. split; [done|by eapply list_elem_of_lookup_2]. }
  apply Forall_lookup. intros j g Hg Hn. cbn in Hn |- *. assert (i = j) as <-; [|by simplify_eq].
  eapply NoDup_lookup; [done|by rewrite list_lookup_fmap, Hf|]. by rewrite list_lookup_fmap, Hg; cbn; rewrite Hn.
Qed.

Lemma le16_bytes_ok v : value_ok 2 (le16_bytes v).
Proof. split; [done|]. unfold le16_bytes. repeat (apply Forall_cons; split; [auto with prpl|]). constructor. Qed.
Lemma byte_field_ok v : byte_ok v → value_ok 1 [v].
Proof. intros H. split; [done|]. apply Forall_cons. split; [done|by apply Forall_nil]. Qed.
Lemma replicate_ok n v : byte_ok v → value_ok n (replicate n v).
Proof. intros H. split; [apply length_replicate|by apply Forall_replicate]. Qed.

Record m1_ok (c : M1Config) : Prop := {
  m1o_type : m1_msg_type c = WSC_MSG_TYPE_M1;
  m1o_mac : value_ok 6 (m1_mac c);
  m1o_nonce : value_ok 16 (m1_enrollee_nonce c);
  m1o_key : value_ok 192 (m1_pub_key c);
  m1o_strings : Forall string_ok [m1_manufacturer c; m1_model_name c; m1_model_number c; m1_serial_number c; m1_device_name c];
  m1o_bands : byte_ok (m1_bands c);
}.

(** The side conditions of the attributes of a message, but for what the
    configuration has to satisfy. *)
Ltac solve_fits :=
  first [ eapply (fits_member _ 0); [reflexivity|reflexivity|..] | eapply (fits_member _ 1); [reflexivity|reflexivity|..]
        | eapply (fits_member _ 2); [reflexivity|reflexivity|..] ];
  [apply (bool_decide_unpack _); reflexivity|cbn [ff_size word bytes]].
Ltac solve_put :=
  first [ apply plain_ok; reflexivity
        | apply listing_ok; [reflexivity|discriminate|]
        | apply setting_ok; [reflexivity|solve_fits]
        | apply sets_ok; [reflexivity|repeat (apply Forall_cons; split; [solve_fits|]); try exact (Forall_nil _)|discriminate|] ].
Ltac solve_puts := repeat first [apply Forall_nil; exact I | apply Forall_cons; split; [solve_put|]].


Lemma short_string s : bool_decide (bytes_ok s ∧ (length s < 100)%nat) = true → string_ok s.
Proof. intros [Hb Hl]%bool_decide_eq_true. split; [done|lia]. Qed.
Lemma version2_ok : string_ok version2.
Proof. by apply short_string. Qed.

#[local] Hint Resolve version2_ok le16_bytes_ok byte_field_ok replicate_ok : prpl.
#[local] Hint Extern 1 (byte_ok _) => (unfold byte_ok, WSC_MSG_TYPE_M1, WSC_MSG_TYPE_M2, WSC_MSG_TYPE_M8; lia) : prpl.

Lemma m1_puts c : m1_ok c → Forall put_ok (m1_attrs c).
Proof.
  intros [Ht Hmac Hn Hk Hs Hb]. repeat (apply Forall_cons in Hs as [? Hs]). unfold m1_attrs. solve_puts.
  all: rewrite ?Ht; auto with prpl.
Qed.

(** C25: The M1 an agent creates is the M1 the controller parses. With a payload
    buffer that has room for it, [m1::create] succeeds for every configuration of
    type M1, and [m1::parse] on the bytes it leaves in the TLV returns a message
    with the MAC address, the nonce, the public key, the flags of authentication
    and encryption, the RF band, and, up to their first null character, the
    manufacturer, model name, serial number and device name of the
    configuration; its version of the operating system is never sent. All
    members are written in host order, swapped when the next attribute is added
    and swapped back by the receiver, who leaves the payload as it was. *)
Theorem m1_roundtrip c b : m1_ok c → bytes_ok b → Z.of_nat (length b) < 2 ^ 63 →
  (sum_list_with p_size (m1_attrs c) ≤ length b)%nat → ∃ t m,
  m1_create c (mkTxList b false []) = (Some true, t) ∧
  m1_parse (message t) = (Some (Some m), message t) ∧
  mac_addr m = (Some (m1_mac c), m) ∧
  enrollee_nonce m = (Some (m1_enrollee_nonce c), m) ∧
  public_key m = (Some (m1_pub_key c), m) ∧
  auth_type_flags m = (Some (le16_bytes (m1_auth_type_flags c)), m) ∧
  encr_type_flags m = (Some (le16_bytes (m1_encr_type_flags c)), m) ∧
  rf_bands m = (Some [m1_bands c], m) ∧
  manufacturer m = (Some (until_null (m1_manufacturer c)), m) ∧
  model_name m = (Some (until_null (m1_model_name c)), m) ∧
  serial_number m = (Some (until_null (m1_serial_number c)), m) ∧
  device_name m = (Some (until_null (m1_device_name c)), m).
Proof.
  intros Hc Hb Hmax Hsz.
  destruct (create_parse (m1_attrs c) b WSC_MSG_TYPE_M1 m1_required (m1_puts c Hc)) as (t & cs & Hr & Hcs & Hne & Hp); [|done..| |done|].
  { by repeat constructor. }
  { eexists. split_and!; [done|done|]. cbn. by rewrite (m1o_type _ Hc). }
  exists t, (held cs). split_and!.
  - unfold m1_create. by rewrite (m1o_type _ Hc).
  - unfold m1_parse, unless_empty, on_copy. rewrite Hp. destruct (message t); done.
  - by eapply (sent_value _ _ Hcs _ _ 0 (bytes "data" 6)).
  - by eapply (sent_value _ _ Hcs _ _ 0 (bytes "nonce" 16)).
  - by eapply (sent_value _ _ Hcs _ _ 0 (bytes "public_key" 192)).
  - by eapply (sent_value _ _ Hcs _ _ 0 (word "auth_type_flags" 2)).
  - by eapply (sent_value _ _ Hcs _ _ 0 (word "encr_type_flags" 2)).
  - by eapply (sent_value _ _ Hcs _ _ 0 (bytes "bands" 1)).
  - by eapply (sent_str _ _ Hcs _ (listing cWscAttrManufacturer (m1_manufacturer c))).
  - by eapply (sent_str _ _ Hcs _ (listing cWscAttrModelName (m1_model_name c))).
  - by eapply (sent_str _ _ Hcs _ (listing cWscAttrSerialNumber (m1_serial_number c))).
  - by eapply (sent_str _ _ Hcs _ (listing cWscAttrDeviceName (m1_device_name c))).
Qed.

(** *** Vendor extensions *)

Section HeldVendor.
Context (l1 : list Content) (c : Content) (l2 : list Content).
Context (Hall : Forall content_of (l1 ++ c :: l2)) (Hve : c_attr c = cWscAttrVendorExtension).
Let o := attr_object cWscAttrVendorExtension (sum_list_with c_size l1) (length (c_data c)).
Let m := held (l1 ++ c :: l2).

Lemma held_vendor_id : attr_value o "vendor_id_0" 3 m = (Some (concat (c_vals c)), m).
Proof.
  destruct (held_split l1 c l2 Hall) as (Hb & Hl & Hc). pose proof (known_ok _ (cn_attr _ Hc)) as Ha.
  pose proof (cn_sized _ Hc) as Hs. pose proof (proj2 (wire_values_length _ _ (Forall_inv_tail (Forall_inv_tail (ak_words _ Ha))) Hs)) as Hlv.
  unfold c_host in Hb at 2. cbn [c_fixed concat] in Hb. rewrite <- !app_assoc in Hb. fold m in Hb. rewrite Hve in *.
  set (pre := concat (c_host <$> l1) ++ le16_bytes (a_type cWscAttrVendorExtension) ++ le16_bytes (c_len c)).
  assert (m_buff m = pre ++ concat (c_vals c) ++ c_data c ++ concat (c_host <$> l2)) as Hb' by (rewrite Hb; unfold pre; by rewrite <- !app_assoc).
  assert (length pre = sum_list_with c_size l1 + 4)%nat as Hp by (unfold pre; rewrite !length_app, Hl; cbn; lia).
  change (total (a_more cWscAttrVendorExtension)) with 3%nat in Hlv.
  destruct (attr_object_offsets _ (sum_list_with c_size l1) (length (c_data c)) (o_ptr o) (o_spots o) Ha) as [(H0 & _) _].
  rewrite (attr_value_run o _ _ m (length pre)).
  - rewrite Hb', drop_app_length, <- Hlv, take_app_length. done.
  - rewrite Hp. exact H0.
  - rewrite Hb', !length_app. lia.
Qed.

Lemma held_vendor_length : vendor_data_length o m = length (c_data c).
Proof. unfold vendor_data_length. pose proof (held_length l1 c l2 Hall) as H. by rewrite Hve in H. Qed.

Lemma held_byte i x : c_data c !! i = Some x → vendor_byte o i m = (Some x, m).
Proof.
  intros Hx. pose proof (lookup_lt_Some _ _ _ Hx) as Hlt. unfold vendor_byte. rewrite held_vendor_length.
  rewrite (proj2 (Nat.eqb_neq _ _)) by lia.
  pose proof (held_list_at l1 c l2 Hall) as H. rewrite Hve in H. destruct H as (name & off & post & Hn & Hm & pre & Hb & Hp); [done|].
  injection Hn as <-. fold o in Hm. rewrite Hm. unfold read_at. fold m in Hb.
  rewrite Hb, <- Hp, lookup_app_r, Nat.add_sub' by lia. by rewrite lookup_app_l, Hx.
Qed.
End HeldVendor.

Lemma expected_Some sets d name : is_Some d → is_Some (expected sets d name).
Proof. unfold expected. revert d. induction sets as [|nb sets IH]; intros d Hd; [done|]. cbn. apply IH. by case_decide. Qed.

(** The vendor of an extension. *)
Definition p_vendor (p : Put) : list Z := concat ((λ f, default [] (p_value p f)) <$> a_more cWscAttrVendorExtension).

Lemma matches_values acc fs vals : matches acc fs vals → Forall (λ f, is_Some (acc f)) fs →
  vals = (λ f, default [] (acc f)) <$> fs.
Proof.
  intros Hm Hall. induction Hm as [|f v fs vals [_ Hv] _ IH]; [done|]. apply Forall_cons in Hall as [[bs Hf] Hall].
  cbn. by rewrite Hf, (Hv bs Hf), <- IH.
Qed.

Lemma put_vendor p c : put_content p c → p_attr p = cWscAttrVendorExtension → concat (c_vals c) = p_vendor p.
Proof.
  intros Hc Hp. pose proof (pc_vals _ _ Hc) as Hm. rewrite Hp in Hm. unfold p_vendor. f_equal. apply matches_values; [done|].
  unfold p_value. rewrite Hp. by repeat (apply Forall_cons; split; [by apply expected_Some|]).
Qed.

(** What the loops over the extensions find, by what was put into the message. *)
Fixpoint find_data {A} (id : list Z) (g : list Z → option A) (d : A) (l : list Put) : A :=
  match l with
  | [] => d
  | p :: l =>
    if decide (a_name (p_attr p) = a_name cWscAttrVendorExtension) then
      if decide (p_vendor p = id)
      then match g (p_bytes p) with Some x => x | None => find_data id g d l end
      else find_data id g d l
    else find_data id g d l
  end.

Lemma known_name a b : known a → known b → a_name a = a_name b → a = b.
Proof. apply attr_of_type_name. Qed.

Section SentVendor.
Context {A : Type} (id : list Z) (f : Object → faultM ClassList (option A)) (g : list Z → option A) (d : A).

Lemma find_vendor_sent l cs : Forall2 put_content l cs → ∀ l0 cs0, Forall content_of (cs0 ++ cs) →
  (∀ l1 c l2 p, cs0 ++ cs = l1 ++ c :: l2 → p ∈ l0 ++ l → put_content p c → p_attr p = cWscAttrVendorExtension →
    p_vendor p = id → f (attr_object cWscAttrVendorExtension (sum_list_with c_size l1) (length (c_data c))) (held (cs0 ++ cs))
      = (Some (g (p_bytes p)), held (cs0 ++ cs))) →
  find_vendor id f d (filter (λ o, o_class o = a_name cWscAttrVendorExtension) (placed (sum_list_with c_size cs0) cs))
    (held (cs0 ++ cs)) = (Some (find_data id g d l), held (cs0 ++ cs)).
Proof.
  induction 1 as [|p c l cs Hc Hcs IH]; intros l0 cs0 Hall Hf; [done|]. cbn [placed find_data].
  assert (cs0 ++ c :: cs = (cs0 ++ [c]) ++ cs) as Hsh by (by rewrite <- app_assoc).
  assert (l0 ++ p :: l = (l0 ++ [p]) ++ l) as Hsl by (by rewrite <- app_assoc).
  assert (find_vendor id f d (filter (λ o, o_class o = a_name cWscAttrVendorExtension)
      (placed (sum_list_with c_size cs0 + c_size c) cs)) (held (cs0 ++ c :: cs))
    = (Some (find_data id g d l), held (cs0 ++ c :: cs))) as Hrec.
  { rewrite Hsh. pose proof (IH (l0 ++ [p]) (cs0 ++ [c])) as H. rewrite sum_list_with_app in H. cbn [sum_list_with] in H.
    rewrite Nat.add_0_r in H. apply H; [by rewrite <- Hsh|]. by rewrite <- Hsh, <- Hsl. }
  rewrite (pc_attr _ _ Hc). rewrite filter_cons. change (o_class (attr_object (p_attr p) _ _)) with (a_name (p_attr p)).
  destruct (decide (a_name (p_attr p) = a_name cWscAttrVendorExtension)) as [Hn|Hn]; [|exact Hrec].
  assert (p_attr p = cWscAttrVendorExtension) as Hp.
  { apply known_name; [|done|done]. rewrite <- (pc_attr _ _ Hc). apply Hc. }
  assert (c_attr c = cWscAttrVendorExtension) as Hca by (by rewrite (pc_attr _ _ Hc)).
  cbn [find_vendor]. rewrite Hp, fbind_run, (held_vendor_id cs0 c cs Hall Hca). cbn [fst snd].
  rewrite (put_vendor p c Hc Hp). destruct (decide (p_vendor p = id)) as [Hid|Hid].
  - rewrite bool_decide_eq_true_2 by done. rewrite fbind_run, (Hf cs0 c cs p) by (done || set_solver). cbn [fst snd].
    destruct (g (p_bytes p)); [done|exact Hrec].
  - rewrite bool_decide_eq_false_2 by done. exact Hrec.
Qed.

Lemma vendor_getter_sent l cs : Forall2 put_content l cs →
  (∀ l1 c l2 p, cs = l1 ++ c :: l2 → p ∈ l → put_content p c → p_attr p = cWscAttrVendorExtension →
    p_vendor p = id → f (attr_object cWscAttrVendorExtension (sum_list_with c_size l1) (length (c_data c))) (held cs)
      = (Some (g (p_bytes p)), held cs)) →
  vendor_getter id f d (held cs) = (Some (find_data id g d l), held cs).
Proof. intros Hcs Hf. by apply (find_vendor_sent l cs Hcs [] []); [eapply put_contents_ok|]. Qed.
End SentVendor.

(** The Airties extensions, by their data. *)
Definition hidden_of (data : list Z) : option Z :=
  match data with
  | d0 :: d1 :: _ => if d0 =? 0x02 then Some (if d1 =? 0x80 then 1 else 0) else None
  | _ => None
  end.
Definition vap_type_of (data : list Z) : option Z :=
  match data with
  | d0 :: d1 :: _ => if d0 =? 0x00 then Some (if eVapType_check d1 then d1 else 0xff) else None
  | _ => None
  end.
Definition vap_label_of (data : list Z) : option (list Z) :=
  match data with d0 :: d1 :: r => if d0 =? 0x01 then Some (d1 :: r) else None | _ => None end.

(** Airties extensions have at least two bytes. *)
Definition airties_ok (l : list Put) : Prop :=
  Forall (λ p, p_attr p = cWscAttrVendorExtension → p_vendor p = AIRTIES_ID → (2 ≤ length (p_bytes p))%nat) l.

Section Airties.
Context (l : list Put) (cs : list Content) (Hcs : Forall2 put_content l cs) (Hok : airties_ok l).

(** The first two bytes of such an extension. *)
Local Lemma airties_bytes l1 c l2 p : cs = l1 ++ c :: l2 → p ∈ l → put_content p c →
  p_attr p = cWscAttrVendorExtension → p_vendor p = AIRTIES_ID → ∃ d0 d1 r,
  let o := attr_object cWscAttrVendorExtension (sum_list_with c_size l1) (length (c_data c)) in
  p_bytes p = d0 :: d1 :: r ∧ vendor_byte o 0 (held cs) = (Some d0, held cs) ∧
  vendor_byte o 1 (held cs) = (Some d1, held cs) ∧ vendor_data_length o (held cs) = S (S (length r)) ∧
  attr_list cWscAttrVendorExtension o (held cs) = (Some (d0 :: d1 :: r), held cs).
Proof.
  intros Hs Hin Hc Hp Hv. pose proof (put_contents_ok _ _ Hcs) as Hall. subst cs.
  assert (c_attr c = cWscAttrVendorExtension) as Hca by (by rewrite (pc_attr _ _ Hc)).
  unfold airties_ok in Hok. rewrite Forall_forall in Hok. specialize (Hok p Hin Hp Hv). pose proof (pc_data _ _ Hc) as Hd.
  destruct (p_bytes p) as [|d0 [|d1 r]] eqn:Hb; try (cbn in Hok; lia). exists d0, d1, r. cbn zeta. split_and!; [done|..].
  - apply held_byte; [done|done|by rewrite Hd].
  - apply held_byte; [done|done|by rewrite Hd].
  - rewrite held_vendor_length by done. by rewrite Hd.
  - pose proof (held_list l1 c l2 Hall) as H. rewrite Hca in H. rewrite H by done. by rewrite Hd.
Qed.

Lemma hidden_ssid_sent : hidden_ssid (held cs) = (Some (find_data AIRTIES_ID hidden_of 0xff l), held cs).
Proof.
  apply vendor_getter_sent; [done|]. intros l1 c l2 p Hs Hin Hc Hp Hv.
  destruct (airties_bytes l1 c l2 p Hs Hin Hc Hp Hv) as (d0 & d1 & r & Hb & H0 & H1 & Hl & _). rewrite Hb. cbn [hidden_of].
  rewrite fbind_run, H0. cbn [fst snd]. destruct (_ =? _); [|done]. by rewrite fbind_run, H1.
Qed.

Lemma vap_type_sent : vap_type (held cs) = (Some (find_data AIRTIES_ID vap_type_of 0xff l), held cs).
Proof.
  apply vendor_getter_sent; [done|]. intros l1 c l2 p Hs Hin Hc Hp Hv.
  destruct (airties_bytes l1 c l2 p Hs Hin Hc Hp Hv) as (d0 & d1 & r & Hb & H0 & H1 & Hl & _). rewrite Hb. cbn [vap_type_of].
  unfold tagged. rewrite Hl. cbn [Nat.ltb Nat.leb]. rewrite fbind_run, H0. cbn [fst snd]. destruct (_ =? _); [|done].
  by rewrite !fbind_run, H1.
Qed.

Lemma vap_label_sent : vap_label (held cs) = (Some (find_data AIRTIES_ID vap_label_of [] l), held cs).
Proof.
  apply vendor_getter_sent; [done|]. intros l1 c l2 p Hs Hin Hc Hp Hv.
  destruct (airties_bytes l1 c l2 p Hs Hin Hc Hp Hv) as (d0 & d1 & r & Hb & H0 & _ & Hl & Ha). rewrite Hb. cbn [vap_label_of].
  unfold tagged. rewrite Hl. cbn [Nat.ltb Nat.leb]. rewrite fbind_run, H0. cbn [fst snd]. destruct (_ =? _); [|done].
  unfold attr_list in Ha. cbn [a_tail cWscAttrVendorExtension] in Ha. fold cWscAttrVendorExtension in Ha.
  unfold vendor_data_length in Hl. rewrite Hl in Ha. by rewrite !fbind_run, Ha.
Qed.
End Airties.

Record m2_ok (c : M2Config) : Prop := {
  m2o_type : m2_msg_type c = WSC_MSG_TYPE_M2;
  m2o_nonces : value_ok 16 (m2_enrollee_nonce c) ∧ value_ok 16 (m2_registrar_nonce c);
  m2o_key : value_ok 192 (m2_pub_key c);
  m2o_iv : value_ok 16 (m2_iv c);
  m2o_strings : Forall string_ok [m2_manufacturer c; m2_model_name c; m2_model_number c; m2_serial_number c;
    m2_device_name c; m2_encrypted_settings c];
  m2o_bands : byte_ok (m2_bands c) ∧ byte_ok (m2_bss_index c);
  m2o_vap_type : eVapType_check (m2_vap_type c) = true;
}.

Lemma vap_type_byte v : eVapType_check v = true → byte_ok v.
Proof. unfold eVapType_check, byte_ok. intros H. apply orb_true_iff in H as [H|H]; bool_to_prop; lia. Qed.

Lemma pair_string v w : byte_ok v → byte_ok w → string_ok [v; w].
Proof. intros H1 H2. split; [by repeat (apply Forall_cons; split; [done|])|cbn; lia]. Qed.

#[local] Hint Resolve pair_string : prpl.

Lemma m2_puts c bs : m2_ok c → Forall put_ok (m2_attrs c bs).
Proof.
  intros [Ht [Hn1 Hn2] Hk Hiv Hs [Hb1 Hb2] Hv]. apply vap_type_byte in Hv. repeat (apply Forall_cons in Hs as [? Hs]).
  unfold m2_attrs. destruct bs; cbn [app]; solve_puts.
  all: rewrite ?Ht; auto with prpl.
Qed.

(** C26: The M2 the controller creates is the M2 the agent parses, with the BSS
    index or without: nonces, public key, flags, band, strings, the
    initialization vector and the encrypted settings are those of the
    configuration, and the type of the VAP is found in the extension of the right
    vendor among several. The settings for a hidden SSID and the label of the VAP
    are not sent: the agent always gets [UNSET] and an empty label. *)
Theorem m2_roundtrip c bs b : m2_ok c → bytes_ok b → Z.of_nat (length b) < 2 ^ 63 →
  (sum_list_with p_size (m2_attrs c bs) ≤ length b)%nat → ∃ t m b',
  m2_create c bs (mkTxList b false []) = (Some true, t) ∧
  m2_parse (message t) = (Some (Some m), b') ∧
  enrollee_nonce m = (Some (m2_enrollee_nonce c), m) ∧
  registrar_nonce m = (Some (m2_registrar_nonce c), m) ∧
  public_key m = (Some (m2_pub_key c), m) ∧
  auth_type_flags m = (Some (le16_bytes (m2_auth_type_flags c)), m) ∧
  encr_type_flags m = (Some (le16_bytes (m2_encr_type_flags c)), m) ∧
  rf_bands m = (Some [m2_bands c], m) ∧
  manufacturer m = (Some (until_null (m2_manufacturer c)), m) ∧
  model_name m = (Some (until_null (m2_model_name c)), m) ∧
  serial_number m = (Some (until_null (m2_serial_number c)), m) ∧
  device_name m = (Some (until_null (m2_device_name c)), m) ∧
  encrypted_settings_iv m = (Some (m2_iv c), m) ∧
  encrypted_settings m = (Some (m2_encrypted_settings c), m) ∧
  bss_index m = (Some [if bs then m2_bss_index c else 0], m) ∧
  vap_type m = (Some (m2_vap_type c), m) ∧
  hidden_ssid m = (Some 0xff, m) ∧ vap_label m = (Some [], m).
Proof.
  intros Hc Hb Hmax Hsz.
  destruct (create_parse (m2_attrs c bs) b WSC_MSG_TYPE_M2 m2_required (m2_puts c bs Hc)) as (t & cs & Hr & Hcs & Hne & Hp); [|done..| | |].
  { destruct bs; by repeat constructor. }
  { eexists. split_and!; [done|done|]. cbn. by rewrite (m2o_type _ Hc). }
  { by destruct bs. }
  assert (airties_ok (m2_attrs c bs)) as Hair.
  { unfold airties_ok, m2_attrs. destruct bs; cbn [app]; repeat (apply Forall_cons; split); try done; try (by apply Forall_nil). all: cbn; intros; try discriminate; lia. }
  eexists t, (held cs), _. split_and!.
  - unfold m2_create. by rewrite (m2o_type _ Hc).
  - unfold m2_parse, unless_empty, in_place. rewrite Hp. destruct (message t); done.
  - by eapply (sent_value _ _ Hcs _ _ 0 (bytes "nonce" 16)).
  - by eapply (sent_value _ _ Hcs _ _ 0 (bytes "nonce" 16)).
  - by eapply (sent_value _ _ Hcs _ _ 0 (bytes "public_key" 192)).
  - by eapply (sent_value _ _ Hcs _ _ 0 (word "auth_type_flags" 2)).
  - by eapply (sent_value _ _ Hcs _ _ 0 (word "encr_type_flags" 2)).
  - by eapply (sent_value _ _ Hcs _ _ 0 (bytes "bands" 1)).
  - by eapply (sent_str _ _ Hcs _ (listing cWscAttrManufacturer (m2_manufacturer c))).
  - by eapply (sent_str _ _ Hcs _ (listing cWscAttrModelName (m2_model_name c))).
  - by eapply (sent_str _ _ Hcs _ (listing cWscAttrSerialNumber (m2_serial_number c))).
  - by eapply (sent_str _ _ Hcs _ (listing cWscAttrDeviceName (m2_device_name c))).
  - by eapply (sent_value _ _ Hcs _ _ 0 (bytes "iv" 16)).
  - by eapply (sent_list _ _ Hcs _ (mkPut _ [("iv", m2_iv c)] (Some (m2_encrypted_settings c)) false)).
  - unfold bss_index. destruct bs; [by eapply (sent_or _ _ Hcs _ _ _ 0 (bytes "index" 1))|].
    unfold get_or. by rewrite (sent_none _ _ Hcs).
  - rewrite (vap_type_sent _ _ Hcs Hair). pose proof (m2o_vap_type _ Hc) as Hv.
    assert (find_data AIRTIES_ID vap_type_of 0xff (m2_attrs c bs)
      = if eVapType_check (m2_vap_type c) then m2_vap_type c else 0xff) as -> by (by destruct bs).
    by rewrite Hv.
  - rewrite (hidden_ssid_sent _ _ Hcs Hair). by destruct bs.
  - rewrite (vap_label_sent _ _ Hcs Hair). by destruct bs.
Qed.

(** *** M8 and the settings *)

Record m8_ok (c : M8Config) : Prop := {
  m8o_type : m8_msg_type c = WSC_MSG_TYPE_M8;
  m8o_nonces : value_ok 16 (m8_enrollee_nonce c) ∧ value_ok 16 (m8_registrar_nonce c);
  m8o_key : value_ok 192 (m8_pub_key c);
  m8o_iv : value_ok 16 (m8_iv c);
  m8o_settings : string_ok (m8_encrypted_settings c);
}.

Lemma m8_puts c : m8_ok c → Forall put_ok (m8_attrs c).
Proof.
  intros [Ht [Hn1 Hn2] Hk Hiv Hs]. unfold m8_attrs. solve_puts.
  all: rewrite ?Ht; auto with prpl.
Qed.

(** An M8 is received as it was sent. *)
Theorem m8_roundtrip c b : m8_ok c → bytes_ok b → Z.of_nat (length b) < 2 ^ 63 →
  (sum_list_with p_size (m8_attrs c) ≤ length b)%nat → ∃ t m b',
  m8_create c (mkTxList b false []) = (Some true, t) ∧
  m8_parse (message t) = (Some (Some m), b') ∧
  enrollee_nonce m = (Some (m8_enrollee_nonce c), m) ∧
  registrar_nonce m = (Some (m8_registrar_nonce c), m) ∧
  public_key m = (Some (m8_pub_key c), m) ∧
  encrypted_settings_iv m = (Some (m8_iv c), m) ∧
  encrypted_settings m = (Some (m8_encrypted_settings c), m).
Proof.
  intros Hc Hb Hmax Hsz.
  destruct (create_parse (m8_attrs c) b WSC_MSG_TYPE_M8 m8_required (m8_puts c Hc)) as (t & cs & Hr & Hcs & Hne & Hp); [|done..| |done|].
  { by repeat constructor. }
  { eexists. split_and!; [done|done|]. cbn. by rewrite (m8o_type _ Hc). }
  eexists t, (held cs), _. split_and!.
  - unfold m8_create. by rewrite (m8o_type _ Hc).
  - unfold m8_parse, unless_empty, in_place. rewrite Hp. destruct (message t); done.
  - by eapply (sent_value _ _ Hcs _ _ 0 (bytes "nonce" 16)).
  - by eapply (sent_value _ _ Hcs _ _ 0 (bytes "nonce" 16)).
  - by eapply (sent_value _ _ Hcs _ _ 0 (bytes "public_key" 192)).
  - by eapply (sent_value _ _ Hcs _ _ 0 (bytes "iv" 16)).
  - by eapply (sent_list _ _ Hcs _ (mkPut _ [("iv", m8_iv c)] (Some (m8_encrypted_settings c)) false)).
Qed.

Record settings_ok (c : SettingsConfig) : Prop := {
  so_strings : string_ok (s_ssid c) ∧ string_ok (s_network_key c);
  so_bssid : value_ok 6 (s_bssid c);
  so_bss_type : byte_ok (s_bss_type c);
}.

Lemma settings_puts c : settings_ok c → Forall put_ok (settings_attrs c).
Proof.
  intros [[Hs1 Hs2] Hm Ht]. unfold settings_attrs. solve_puts.
  all: auto with prpl. split; [|cbn; lia]. cbn. repeat (apply Forall_cons; split; [auto with prpl|]). by apply Forall_nil.
Qed.

(** One step of the walk over the subelements. *)
Lemma find_subelement_step fuel index o m t l : (index + 3 ≤ vendor_data_length o m)%nat →
  vendor_byte o index m = (Some t, m) → vendor_byte o (index + 1) m = (Some l, m) →
  find_subelement (S fuel) index o m =
  if (t =? 6) && (l =? 1) then (v <- vendor_byte o (index + 2) ;; fret (Some v)) m
  else find_subelement fuel (index + 2 + Z.to_nat l) o m.
Proof.
  intros Hi H1 H2. cbn [find_subelement]. rewrite (proj2 (Nat.leb_le _ _)) by done.
  rewrite fbind_run, H1. cbn [fst snd]. rewrite fbind_run, H2. cbn [fst snd]. by destruct (_ && _).
Qed.

(** The identifier in the settings is found behind the version. *)
Lemma bss_type_sent c cs : Forall2 put_content (settings_attrs c) cs → bss_type (held cs) = (Some (s_bss_type c), held cs).
Proof.
  intros Hcs. unfold bss_type.
  rewrite (vendor_getter_sent _ _ (λ data, data !! 5%nat) _ (settings_attrs c) cs Hcs); [done|].
  intros l1 x l2 p Hs Hin Hx Hp _. pose proof (put_contents_ok _ _ Hcs) as Hall. subst cs.
  assert (c_attr x = cWscAttrVendorExtension) as Hca by (by rewrite (pc_attr _ _ Hx)).
  assert (p_bytes p = [0; 1; 0x20; 6; 1; s_bss_type c]) as Hb.
  { unfold settings_attrs in Hin. repeat (apply elem_of_cons in Hin as [->|Hin]; [try done|]). by apply elem_of_nil in Hin. }
  pose proof (pc_data _ _ Hx) as Hd. rewrite Hb in Hd |- *.
  pose proof (held_byte l1 x l2 Hall Hca) as Hby. rewrite Hd in Hby. pose proof (held_vendor_length l1 x l2 Hall Hca) as Hlen.
  rewrite Hd in Hlen. cbn [length] in Hlen. rewrite Hd. cbn [length]. rewrite Hlen.
  set (o := attr_object _ _ _) in *. set (m := held _) in *.
  rewrite (find_subelement_step 5 0 o m 0 1) by (done || lia || by apply Hby). cbn [Z.eqb andb].
  change (0 + 2 + Z.to_nat 1)%nat with 3%nat.
  rewrite (find_subelement_step 4 3 o m 6 1) by (done || lia || by apply Hby). cbn [Z.eqb andb].
  change (3 + 2)%nat with 5%nat. by rewrite fbind_run, (Hby 5%nat (s_bss_type c) eq_refl).
Qed.

(** The settings are received as they were sent. *)
Theorem settings_roundtrip c b : settings_ok c → bytes_ok b → Z.of_nat (length b) < 2 ^ 63 →
  (sum_list_with p_size (settings_attrs c) ≤ length b)%nat → ∃ t m b',
  settings_create c (mkTxList b false []) = (Some true, t) ∧
  settings_parse (message t) = (Some (Some m), b') ∧
  ssid m = (Some (until_null (s_ssid c)), m) ∧
  auth_type m = (Some (le16_bytes (s_auth_type c)), m) ∧
  encr_type m = (Some (le16_bytes (s_encr_type c)), m) ∧
  network_key m = (Some (until_null (s_network_key c)), m) ∧
  bssid m = (Some (s_bssid c), m) ∧
  bss_type m = (Some (s_bss_type c), m).
Proof.
  intros Hc Hb Hmax Hsz.
  destruct (create_attrs_run (settings_attrs c) b (settings_puts c Hc) ltac:(done) Hb Hsz) as (t & cs & Hr & Hcs & Hm).
  pose proof (put_contents_ok _ _ Hcs) as Hok. pose proof (sent_size _ _ Hcs) as Hsize.
  eexists t, (held cs), _. split_and!.
  - exact Hr.
  - unfold settings_parse, in_place. rewrite fbind_run, Hm, attrs_init_run; [|done| |lia].
    + cbn [fst snd]. unfold check_valid. by rewrite (sent_all _ _ Hcs).
    + apply (sent_types _ _ Hcs). by repeat constructor.
  - by eapply (sent_or_str _ _ Hcs _ (listing _ (s_ssid c))).
  - by eapply (sent_or _ _ Hcs _ _ _ 0 (word "data" 2)).
  - by eapply (sent_or _ _ Hcs _ _ _ 0 (word "data" 2)).
  - by eapply (sent_or_str _ _ Hcs _ (listing _ (s_network_key c))).
  - by eapply (sent_or _ _ Hcs _ _ _ 0 (bytes "data" 6)).
  - by apply bss_type_sent.
Qed.
