(* ===== verification/WscExamples.v ===== *)
(** * WSC messages: examples

    Messages the theorems of [WscAttrList] and [WscTx] apply to, and payloads on
    which the parser does what it should not. *)

From S2P Require Import Prelude Wire Messages Tlvf CmduMessage CmduTx CmduUtils WscClasses WscAttrList WscTx.

(** ** Examples *)

(** A version attribute, and a message type. *)
Definition version_attr : list Z := [0x10; 0x4a; 0; 1; 0x10].
Definition m1_type_attr : list Z := [0x10; 0x22; 0; 1; 4].

Lemma wsc_messages_parsed_witness :
  parse_result WSC_MSG_TYPE_M1 m1_required (version_attr ++ m1_type_attr) (m1_parse (version_attr ++ m1_type_attr)).1 ∧
  m1_parse (version_attr ++ m1_type_attr) = (Some None, version_attr ++ m1_type_attr).
Proof.
  split; [|by vm_compute]. apply (wsc_messages_parsed (version_attr ++ m1_type_attr)); [|done].
  apply (bool_decide_unpack _). by vm_compute.
Defined.

Definition some_m1 : M1Config :=
  mkM1Config WSC_MSG_TYPE_M1 [] [2; 0; 0; 0; 0; 1] (replicate 16 7) (replicate 192 9) 0xd 0x161 [0x70; 0x72] [0x6d] [0x31]
    [0x73] 1 [0x64; 0x65; 0x76] 2 0.

Lemma m1_roundtrip_witness : ∃ t m,
  m1_create some_m1 (mkTxList (replicate 600 0) false []) = (Some true, t) ∧
  m1_parse (message t) = (Some (Some m), message t) ∧ device_name m = (Some [0x64; 0x65; 0x76], m).
Proof.
  destruct (m1_roundtrip some_m1 (replicate 600 0)) as (t & m & Hc & Hp & _ & _ & _ & _ & _ & _ & _ & _ & _ & Hd).
  - split; [done|by apply (bool_decide_unpack _); vm_compute..| |done].
    repeat (apply Forall_cons; split; [by apply short_string|]). by apply Forall_nil.
  - by apply (bool_decide_unpack _); vm_compute.
  - rewrite length_replicate. lia.
  - rewrite length_replicate. apply Nat.leb_le. by vm_compute.
  - exists t, m. split; [exact Hc|]. split; [exact Hp|exact Hd].
Defined.

Definition some_m2 : M2Config :=
  mkM2Config WSC_MSG_TYPE_M2 (replicate 16 7) (replicate 16 8) (replicate 192 9) 0xd 0x161 [0x70; 0x72] [0x6d] [0x31]
    [0x73] 1 [0x64] 2 (replicate 48 5) (replicate 16 6) 3 1 2 [0x6c].

Lemma m2_roundtrip_witness : ∃ t m b',
  m2_create some_m2 true (mkTxList (replicate 700 0) false []) = (Some true, t) ∧
  m2_parse (message t) = (Some (Some m), b') ∧ vap_type m = (Some 2, m) ∧ hidden_ssid m = (Some 0xff, m).
Proof.
  destruct (m2_roundtrip some_m2 true (replicate 700 0))
    as (t & m & b' & Hc & Hp & _ & _ & _ & _ & _ & _ & _ & _ & _ & _ & _ & _ & _ & Hv & Hh & _).
  - split; [done|by split; apply (bool_decide_unpack _); vm_compute|by apply (bool_decide_unpack _); vm_compute..| |done|done].
    repeat (apply Forall_cons; split; [by apply short_string|]). by apply Forall_nil.
  - by apply (bool_decide_unpack _); vm_compute.
  - rewrite length_replicate. lia.
  - rewrite length_replicate. apply Nat.leb_le. by vm_compute.
  - exists t, m, b'. split; [exact Hc|]. split; [exact Hp|]. split; [exact Hv|exact Hh].
Defined.

(** ** Findings *)

(** A list without a message type, or that starts with an unknown attribute,
    which ends it, is dereferenced through a null pointer. *)
Lemma missing_msg_type_crashes :
  m1_parse version_attr = (None, version_attr) ∧
  m1_parse ([0x10; 0x01; 0; 0] ++ version_attr ++ m1_type_attr)
  = (None, [0x10; 0x01; 0; 0] ++ version_attr ++ m1_type_attr).
Proof. by vm_compute. Qed.

(** One byte behind the last attribute makes the parser read behind the
    payload. *)
Lemma trailing_byte_reads_behind : (m1_parse (version_attr ++ m1_type_attr ++ [0])).1 = None.
Proof. by vm_compute. Qed.

(** An attribute of a fixed size is not skipped by its length: the second byte
    of this version is taken for the type of the next attribute. *)
Lemma attribute_ignores_length :
  (attrs_init (received ([0x10; 0x4a; 0; 2; 0x10; 0x10] ++ m1_type_attr))).1 = Some true ∧
  getAttr cWscAttrMessageType (attrs_init (received ([0x10; 0x4a; 0; 2; 0x10; 0x10] ++ m1_type_attr))).2 = None.
Proof. by vm_compute. Qed.

(** An Airties extension without data: [hidden_ssid()] uses the null pointer
    [vendor_data()] returns; [vap_type()] tests the length first. *)
Definition empty_airties : ClassList := (attrs_init (received [0x10; 0x49; 0; 3; 0x88; 0x41; 0xfc])).2.
Lemma empty_extension_crashes : (hidden_ssid empty_airties).1 = None ∧ (vap_type empty_airties).1 = Some 0xff.
Proof. by vm_compute. Qed.

(** The version of the operating system in an M1 is not that of its
    configuration. *)
Lemma os_version_ignored : ∃ t m, m1_create some_m1 (mkTxList (replicate 600 0) false []) = (Some true, t) ∧
  m1_parse (message t) = (Some (Some m), message t) ∧ m1_os_version some_m1 = 0 ∧
  os_version m = (Some [0x01; 0; 0; 0x80], m).
Proof.
  eexists _, _. split; [by vm_compute|]. split; [by vm_compute|]. split; [done|]. by vm_compute.
Qed.
