(* ===== verification/AssocClasses.v ===== *)
(** * Fields of association frames

    The classes of the fields and information elements of (re)association
    request frames ([framework/tlvf/AutoGenerated/src/tlvf/association_frame]).
    They are generated like the TLV classes, with a type and a length of one
    byte; an [Elem] has what distinguishes them. None compares its type. *)

From S2P Require Import Prelude Wire Messages Tlvf CmduTx WscClasses.

(** ** The scheme of the classes *)

(** A member of two bytes that is there when a bit of a byte before is set. *)
Record Opt := mkOpt { opt_of : string; opt_bit : Z; opt_name : string }.

(** A class: its name, the members of fixed size (an array of [n] bytes is a
    member of [n] bytes), the optional members, and the list that takes the
    rest of the element with the size of its entries. *)
Record Elem := mkElem {
  e_name : string;
  e_fixed : list FixedField;
  e_opts : list Opt;
  e_tail : option (string * nat);
}.

Definition opt_field (o : Opt) : Field := When [IsSet (opt_of o) (opt_bit o) 1] (opt_name o) 2 [(0, 2)%nat].
Definition rest_fields (tail : option (string * nat)) : list Field :=
  match tail with None => [] | Some (name, n) => [Rest8 name n []] end.

Definition elem_layout (e : Elem) : Layout :=
  mkLayout (e_name e) None ((to_field <$> e_fixed e) ++ (opt_field <$> e_opts e) ++ rest_fields (e_tail e)).

(** [m_type] and [m_length]. *)
Definition header : list FixedField := [bytes "type" 1; bytes "length" 1].

(** ** The classes *)

Definition cCapInfoDmgSta : Elem := mkElem "cCapInfoDmgSta" [bytes "dmg_param" 1; bytes "cap_info" 1;
    word "listen_interval" 2] [] None.
Definition cSSID : Elem := mkElem "cSSID" header [] (Some ("ssid", 1%nat)).
Definition cRSN : Elem := mkElem "cRSN" (header ++ [word "version" 2]) [] (Some ("optional", 1%nat)).
Definition cSupportedOpClasses : Elem := mkElem "cSupportedOpClasses" (header ++
    [bytes "current_op_class" 1]) [] (Some ("op_classes", 1%nat)).
Definition cSupportRates : Elem := mkElem "cSupportRates" header [] (Some ("supported_rated", 1%nat)).
Definition cExtendedSupportRates : Elem := mkElem "cExtendedSupportRates" header []
    (Some ("extended_suport_rated", 1%nat)).
Definition cPowerCapability : Elem := mkElem "cPowerCapability" (header ++ [bytes "min_tx_power" 1;
    bytes "max_tx_power" 1]) [] None.
Definition cBssCoexistence20_40 : Elem := mkElem "cBssCoexistence20_40" (header ++ [bytes "info_field" 1])
    [] None.
Definition cQosTrafficCap : Elem := mkElem "cQosTrafficCap" (header ++ [bytes "flags" 1;
    bytes "ac_sta_count_list" 1]) [] None.
Definition cTimBroadcastRequest : Elem := mkElem "cTimBroadcastRequest" (header ++
    [bytes "tim_brdcast_interval" 1]) [] None.
Definition cInterworking : Elem := mkElem "cInterworking" (header ++ [bytes "ac_network_options" 1]) []
    (Some ("optional_params", 1%nat)).
Definition cMultiBand : Elem := mkElem "cMultiBand" (header ++ [bytes "multi_band_control" 1;
    bytes "band_id" 1; bytes "op_class" 1; bytes "channel_num" 1; bytes "bssid" 6; bytes "beacon_interval" 1;
    bytes "tsf_offset" 8; bytes "multi_band_con_cap" 1; bytes "fst_session_timeout" 1; bytes "optional" 1])
    [] None.
Definition cDmgCapabilities : Elem := mkElem "cDmgCapabilities" (header ++ [bytes "bssid" 6; bytes "aid" 1;
    bytes "dmg_sta_cap_info" 8; word "dmg_ap" 2; word "dmg_sta_beam_track_time_lim" 2;
    bytes "extended_sc_mcs_cap" 1; bytes "basic_amsdu_subframe_max_num" 1;
    bytes "short_amsdu_subframe_max_num" 1]) [] None.
Definition cMultipleMacSublayers : Elem := mkElem "cMultipleMacSublayers" (header ++ [bytes "mms_control" 1;
    bytes "sta_mac" 6]) [] (Some ("interface_addr", 1%nat)).
Definition cOperatingModeNotify : Elem := mkElem "cOperatingModeNotify" (header ++ [bytes "op_mode" 1]) [] None.
Definition cVendorSpecific : Elem := mkElem "cVendorSpecific" (header ++ [bytes "oui" 3;
    bytes "oui_type" 1]) [] (Some ("data", 1%nat)).
Definition cUnknownField : Elem := mkElem "cUnknownField" header [] (Some ("data", 1%nat)).
Definition cCurrentApAddress : Elem := mkElem "cCurrentApAddress" [bytes "ap_addr" 6] [] None.
Definition cFastBssTrans : Elem := mkElem "cFastBssTrans" header [] (Some ("data", 1%nat)).
Definition cFmsRequest : Elem := mkElem "cFmsRequest" (header ++ [bytes "fms_token" 1]) []
    (Some ("fms_request_subelem", 1%nat)).
Definition cDmsRequest : Elem := mkElem "cDmsRequest" header [] (Some ("dms_descrip_list", 1%nat)).
Definition cExtendedCap : Elem := mkElem "cExtendedCap" header [] (Some ("extended_cap_field", 1%nat)).
Definition cMobilityDomain : Elem := mkElem "cMobilityDomain" (header ++ [word "mdid" 2;
    bytes "ft_cap_policy" 1]) [] None.
Definition cQosCapability : Elem := mkElem "cQosCapability" (header ++ [bytes "qos_info" 1]) [] None.
Definition cRmEnabledCaps : Elem := mkElem "cRmEnabledCaps" (header ++ [bytes "data1" 4; bytes "data2" 1])
    [] None.
Definition cStaHeCapability : Elem := mkElem "cStaHeCapability" (header ++ [bytes "subtype" 1;
    bytes "mac_cap_info1" 4; bytes "mac_cap_info2" 2; bytes "supported_channel_width_set" 1;
    bytes "phy_cap_info1" 8; bytes "phy_cap_info2" 2; word "rx_mcs_le_80" 2; word "tx_mcs_le_80" 2])
    [mkOpt "supported_channel_width_set" 3 "rx_mcs_160"; mkOpt "supported_channel_width_set" 3 "tx_mcs_160";
    mkOpt "supported_channel_width_set" 4 "rx_mcs_80_80"; mkOpt "supported_channel_width_set" 4 "tx_mcs_80_80"]
    (Some ("ppe_thresholds", 1%nat)).
Definition cStaHtCapability : Elem := mkElem "cStaHtCapability" (header ++ [bytes "ht_cap_info" 2;
    bytes "a_mpdu_param" 1; bytes "ht_mcs_set" 16; word "ht_extended_caps" 2; word "tx_beamforming_caps" 4;
    bytes "asel_caps" 1]) [] None.
Definition cStaVhtCapability : Elem := mkElem "cStaVhtCapability" (header ++ [bytes "vht_cap_info" 4;
    bytes "supported_vht_mcs" 8]) [] None.
Definition cSupportedChannels : Elem := mkElem "cSupportedChannels" header []
    (Some ("supported_channel_sets", 2%nat)).

(** All of them. *)
Definition assoc_fields : list Elem := [
    cCapInfoDmgSta; cSSID; cRSN; cSupportedOpClasses; cSupportRates; cExtendedSupportRates; cPowerCapability;
    cBssCoexistence20_40; cQosTrafficCap; cTimBroadcastRequest; cInterworking; cMultiBand; cDmgCapabilities;
    cMultipleMacSublayers; cOperatingModeNotify; cVendorSpecific; cUnknownField; cCurrentApAddress;
    cFastBssTrans; cFmsRequest; cDmsRequest; cExtendedCap; cMobilityDomain; cQosCapability; cRmEnabledCaps;
    cStaHeCapability; cStaHtCapability; cStaVhtCapability; cSupportedChannels].

(** The names of the members are distinct, the bytes of the conditions are
    members of one byte, and a class with a list starts with the header. *)
Record elem_ok (e : Elem) : Prop := {
  ek_names : NoDup (ff_name <$> e_fixed e);
  ek_tail name n : e_tail e = Some (name, n) → (1 ≤ n)%nat;
  ek_list : e_tail e ≠ None → ∃ more, e_fixed e = header ++ more;
  ek_opts o : o ∈ e_opts e → opt_name o ∉ ff_name <$> e_fixed e;
  ek_others o o' : o ∈ e_opts e → o' ∈ e_opts e → opt_of o = opt_of o' ∧ bytes (opt_of o) 1 ∈ e_fixed e;
  ek_size : (2 ≤ total (e_fixed e) ≤ 40)%nat;
  ek_few : (length (e_opts e) ≤ 4)%nat;
  ek_layout : layout_ok (elem_layout e) = true;
}.

#[export] Instance FixedField_eq_dec : EqDecision FixedField.
Proof. solve_decision. Defined.

Definition elem_okb (e : Elem) : bool :=
  bool_decide (NoDup (ff_name <$> e_fixed e)) &&
  (match e_tail e with
   | None => true
   | Some (_, n) => (1 <=? n)%nat && bool_decide (take 2 (e_fixed e) = header)
   end) &&
  forallb (λ o, bool_decide (opt_name o ∉ ff_name <$> e_fixed e)) (e_opts e) &&
  forallb (λ o, forallb (λ o', bool_decide (opt_of o = opt_of o') && bool_decide (bytes (opt_of o) 1 ∈ e_fixed e))
                  (e_opts e)) (e_opts e) &&
  bool_decide (2 ≤ total (e_fixed e) ≤ 40)%nat && (length (e_opts e) <=? 4)%nat && layout_ok (elem_layout e).

Lemma elem_okb_ok e : elem_okb e = true → elem_ok e.
Proof.
  unfold elem_okb. rewrite !andb_true_iff, !bool_decide_eq_true.
  intros ((((((H1 & H2) & H3) & H4) & H5) & H6) & H7). apply Nat.leb_le in H6. rewrite forallb_forall in H3, H4.
  split; [done| | | | |done|done|done].
  - intros name n Ht. rewrite Ht in H2. apply andb_true_iff in H2 as [H2 _]. by apply Nat.leb_le.
  - intros Ht. destruct (e_tail e) as [[name n]|]; [|done]. apply andb_true_iff in H2 as [_ H2].
    apply bool_decide_eq_true in H2. exists (drop 2 (e_fixed e)). by rewrite <- H2, take_drop.
  - intros o Ho. apply list_elem_of_In, H3, bool_decide_eq_true in Ho. done.
  - intros o o' Ho Ho'. apply list_elem_of_In in Ho, Ho'. specialize (H4 o Ho). rewrite forallb_forall in H4.
    specialize (H4 o' Ho'). apply andb_true_iff in H4 as [Ha Hb]. by apply bool_decide_eq_true in Ha, Hb.
Qed.

Lemma assoc_fields_ok e : e ∈ assoc_fields → elem_ok e.
Proof.
  intros He. apply elem_okb_ok. assert (forallb elem_okb assoc_fields = true) as H by (by vm_compute).
  rewrite forallb_forall in H. by apply H, list_elem_of_In.
Qed.

(** ** One field *)

(** The optional members after the fixed ones, whose conditions are bits of
    the byte at [off]. *)
Definition opt_on (b : list Z) (off : nat) (o : Opt) : bool := eval_cond b (IsSet off (opt_bit o) 1).
Definition opt_walk (b : list Z) (off : nat) (w : Walk) (o : Opt) : Walk :=
  mkWalk (w_ptr w + if opt_on b off o then 2 else 0) ((opt_name o, w_ptr w) :: w_fields w)
    (w_spots w ++ spots_at (Some [IsSet off (opt_bit o) 1]) (w_ptr w) [(0, 2)%nat]).
Definition opts_walk (b : list Z) (off : nat) (w : Walk) (os : list Opt) : Walk := foldl (opt_walk b off) w os.

Lemma opts_walk_ptr b off os w : (w_ptr w ≤ w_ptr (opts_walk b off w os) ≤ w_ptr w + 2 * length os)%nat.
Proof.
  revert w. induction os as [|o os IH]; intros w; cbn [opts_walk foldl length]; [lia|]. specialize (IH (opt_walk b off w o)).
  unfold opts_walk in IH. cbn [opt_walk w_ptr] in IH. destruct (opt_on b off o); lia.
Qed.

Lemma opts_walk_find b off os w name : (∀ o, o ∈ os → opt_name o ≠ name) →
  find_field (opts_walk b off w os) name = find_field w name.
Proof.
  revert w. induction os as [|o os IH]; intros w Hn; [done|].
  change (opts_walk b off w (o :: os)) with (opts_walk b off (opt_walk b off w o) os).
  rewrite IH by (intros; apply Hn; by right). unfold opt_walk. rewrite find_field_cons, decide_False; [by destruct w|].
  by apply Hn; left.
Qed.

Lemma rx_walk_opts os start fin rest b off w name : (off < length b)%nat → find_field w name = Some off →
  (∀ o, o ∈ os → opt_of o = name ∧ opt_name o ≠ name) → (w_ptr w ≤ fin)%nat →
  walk_fields walk_field start fin ((opt_field <$> os) ++ rest) w b
  = if (w_ptr (opts_walk b off w os) <=? fin)%nat then walk_fields walk_field start fin rest (opts_walk b off w os) b
    else (Some None, b).
Proof.
  intros Hoff. revert w. induction os as [|o os IH]; intros w Hf Hos Hp; cbn [fmap list_fmap app].
  { cbn. by rewrite (proj2 (Nat.leb_le _ _)). }
  change (opts_walk b off w (o :: os)) with (opts_walk b off (opt_walk b off w o) os).
  destruct (Hos o ltac:(by left)) as [Hof Hne]. cbn [walk_fields]. unfold opt_field at 1. cbn [walk_field resolve cond_addr].
  rewrite Hof, Hf. cbn [mbind option_bind]. rewrite !fbind_run. cbn [forallb existsb cond_addr fst snd].
  rewrite (proj2 (Nat.ltb_lt _ _)) by done. cbn [andb fst snd]. rewrite orb_false_r. fold (opt_on b off o).
  set (w1 := set_member _ _ _). assert (opt_walk b off w o = mkWalk (w_ptr w1 + if opt_on b off o then 2 else 0) (w_fields w1) (w_spots w1)) as Hw1 by done.
  assert (find_field (opt_walk b off w o) name = Some off) as Hf'.
  { unfold opt_walk. rewrite find_field_cons, decide_False by done. by destruct w. }
  assert (∀ o', o' ∈ os → opt_of o' = name ∧ opt_name o' ≠ name) as Hos' by (intros; apply Hos; by right).
  pose proof (opts_walk_ptr b off os (opt_walk b off w o)) as [Hle _]. cbn [opt_walk w_ptr] in Hle.
  destruct (opt_on b off o) eqn:Hon.
  - unfold buffPtrIncrementSafe. change (w_ptr w1) with (w_ptr w). destruct (_ <? _) eqn:Hlt; bool_to_prop.
    + rewrite fret_run. cbn [fst snd]. by rewrite (proj2 (Nat.leb_gt _ _)) by lia.
    + rewrite fret_run. cbn [fst snd]. rewrite <- (IH (opt_walk b off w o)); [|done|done|cbn [opt_walk w_ptr]; rewrite Hon; lia].
      by rewrite Hw1.
  - rewrite fret_run. cbn [fst snd]. rewrite <- (IH (opt_walk b off w o)); [|done|done|cbn [opt_walk w_ptr]; rewrite Hon; lia].
    rewrite Hw1. by destruct w1; cbn; rewrite Nat.add_0_r.
Qed.

(** Where the byte of the conditions is, and the members and words of a field
    at [start]. *)
Definition fixed_members (e : Elem) (start : nat) : Walk := fixed_walk (mkWalk start [] []) (e_fixed e).
Definition opt_off (e : Elem) (start : nat) : nat :=
  match e_opts e with [] => start | o :: _ => default start (find_field (fixed_members e start) (opt_of o)) end.
Definition elem_walk (e : Elem) (b : list Z) (start : nat) : Walk :=
  opts_walk b (opt_off e start) (fixed_members e start) (e_opts e).

(** How many bytes the list at the end of a field at [start] has, unless the
    field does not fit into [b]. *)
Definition elem_extent (e : Elem) (b : list Z) (start : nat) : option nat :=
  let p := w_ptr (elem_walk e b start) in
  if (length b - start <? total (e_fixed e))%nat || (length b <? p)%nat then None
  else
    match e_tail e with
    | None => Some 0%nat
    | Some _ =>
      let n := at_ b (start + 1) - (Z.of_nat p - 2 - Z.of_nat start) in
      if (n <? 0) || (Z.of_nat (length b) <? Z.of_nat p + n) then None else Some (Z.to_nat n)
    end.

(** The object of a field at [start] with [n] bytes in its list. *)
Definition elem_object (e : Elem) (b : list Z) (start n : nat) : Object :=
  let w := elem_walk e b start in
  mkObject (e_name e) start (w_ptr w + n)
    (match e_tail e with None => [] | Some (name, _) => [(name, w_ptr w)] end ++ w_fields w) (w_spots w).

Lemma elem_initial_size e : get_initial_size (l_fields (elem_layout e)) = total (e_fixed e).
Proof.
  unfold get_initial_size, elem_layout, total. cbn [l_fields]. rewrite !sum_list_with_app.
  assert (sum_list_with initial_size (rest_fields (e_tail e)) = 0%nat) as -> by (by destruct (e_tail e) as [[]|]).
  assert (sum_list_with initial_size (opt_field <$> e_opts e) = 0%nat) as -> by (by induction (e_opts e)).
  rewrite !Nat.add_0_r. induction (e_fixed e) as [|f l IH]; [done|]. cbn. by rewrite <- IH.
Qed.

Lemma elem_walk_ptr e b start :
  (start + total (e_fixed e) ≤ w_ptr (elem_walk e b start) ≤ start + total (e_fixed e) + 2 * length (e_opts e))%nat.
Proof.
  pose proof (opts_walk_ptr b (opt_off e start) (e_opts e) (fixed_members e start)) as H.
  unfold fixed_members in H. rewrite fixed_walk_ptr in H. exact H.
Qed.

Lemma opt_off_spec e start o : elem_ok e → o ∈ e_opts e →
  find_field (fixed_members e start) (opt_of o) = Some (opt_off e start) ∧
  (start ≤ opt_off e start < start + total (e_fixed e))%nat.
Proof.
  intros He Ho. pose proof (ek_others _ He) as Hot. unfold opt_off. destruct (e_opts e) as [|o1 os]; [by apply elem_of_nil in Ho|].
  destruct (Hot o o1 Ho ltac:(by left)) as [-> _]. destruct (Hot o1 o1 ltac:(by left) ltac:(by left)) as [_ Hin].
  destruct (offsets_elem _ _ _ _ (fixed_walk_offsets _ (ek_names _ He) (mkWalk start [] [])) Hin) as (off & Hf & H1 & H2).
  unfold fixed_members. cbn [bytes ff_name ff_size w_ptr] in *. rewrite Hf. cbn. split; [done|lia].
Qed.

Lemma elem_length_at e b start : elem_ok e → e_tail e ≠ None →
  find_field (elem_walk e b start) "length" = Some (start + 1)%nat.
Proof.
  intros He Ht. destruct (ek_list _ He Ht) as (more & Hfix). unfold elem_walk. rewrite opts_walk_find.
  - pose proof (fixed_walk_offsets _ (ek_names _ He) (mkWalk start [] [])) as Ho. unfold fixed_members.
    rewrite Hfix in Ho |- *. by destruct Ho as (_ & Hl & _).
  - intros o Ho Heq. apply (ek_opts _ He o Ho). rewrite Heq, Hfix. set_solver.
Qed.

Lemma elem_rest_length e b start : elem_ok e → e_tail e ≠ None → (start + 2 ≤ length b)%nat →
  rest_length (Len8 "length") start (elem_walk e b start) b
  = (Some (u64 (at_ b (start + 1) - (Z.of_nat (w_ptr (elem_walk e b start)) - 2 - Z.of_nat start))), b).
Proof.
  intros He Ht Hlen. unfold rest_length, type_size, read_len. cbn [len_field].
  rewrite (elem_length_at e b start He Ht), !fbind_run, read_byte_at by lia. cbn [fst snd from_option id len_width].
  rewrite fret_run. do 3 f_equal. lia.
Qed.

(** The steps of [init()] up to the list. *)
Lemma elem_walk_run e b start rest : elem_ok e → (start + total (e_fixed e) ≤ length b)%nat →
  walk_fields walk_field start (length b) ((to_field <$> e_fixed e) ++ (opt_field <$> e_opts e) ++ rest) (mkWalk start [] []) b
  = if (w_ptr (elem_walk e b start) <=? length b)%nat
    then walk_fields walk_field start (length b) rest (elem_walk e b start) b else (Some None, b).
Proof.
  intros He Hlen. rewrite rx_walk_fixed by (cbn; lia). fold (fixed_members e start). unfold elem_walk.
  assert (w_ptr (fixed_members e start) = start + total (e_fixed e))%nat as Hp.
  { unfold fixed_members. by rewrite fixed_walk_ptr. }
  pose proof (opt_off_spec e start) as Hs. pose proof (ek_others _ He) as Hot. pose proof (ek_opts _ He) as Hn.
  destruct (e_opts e) as [|o os]; [cbn [opts_walk foldl fmap list_fmap app]; by rewrite (proj2 (Nat.leb_le _ _)) by lia|].
  destruct (Hs o He ltac:(by left)) as [Hf Hr].
  apply (rx_walk_opts (o :: os) start (length b) rest b (opt_off e start) _ (opt_of o)); [lia|done| |lia].
  intros o' Ho'. destruct (Hot o o' ltac:(by left) Ho') as [-> Hin]. split; [done|].
  intros Heq. apply (Hn o' Ho'). rewrite Heq. by apply (list_elem_of_fmap_2' ff_name _ _ _ Hin).
Qed.

(** The steps of [init()] on any bytes. *)
Lemma elem_fields_run e b start : elem_ok e → bytes_ok b → Z.of_nat (length b) < 2 ^ 63 →
  (start + total (e_fixed e) ≤ length b)%nat →
  walk_fields walk_field start (length b) (l_fields (elem_layout e)) (mkWalk start [] []) b =
  match elem_extent e b start with
  | Some n => let o := elem_object e b start n in (Some (Some (mkWalk (o_ptr o) (o_fields o) (o_spots o))), b)
  | None => (Some None, b)
  end.
Proof.
  intros He Hb Hmax Hlen. cbn [elem_layout l_fields]. rewrite elem_walk_run by done. unfold elem_extent, elem_object.
  pose proof (elem_walk_ptr e b start) as Hp. pose proof (ek_size _ He). pose proof (ek_few _ He).
  pose proof (elem_rest_length e b start He) as Hrest. pose proof (ek_tail _ He) as Htn.
  set (w := elem_walk e b start) in *. cbv zeta.
  rewrite (proj2 (Nat.ltb_ge (length b - start) _)) by lia. cbn [orb]. rewrite Nat.ltb_antisym.
  destruct (w_ptr w <=? length b)%nat eqn:Hfit; [|done]. cbn [negb]. apply Nat.leb_le in Hfit.
  destruct (e_tail e) as [[name k]|]; cbn [rest_fields walk_fields walk_field app o_ptr o_fields o_spots];
    [|rewrite fret_run, Nat.add_0_r; by destruct w].
  rewrite !fbind_run, Hrest by (done || lia). cbn [fst snd]. unfold take_elements.
  set (n := at_ b (start + 1) - (Z.of_nat (w_ptr w) - 2 - Z.of_nat start)).
  assert (- 65536 ≤ n < 256) as Hn by (pose proof (word_at_byte b (start + 1) Hb) as [??]; lia).
  destruct (n <? 0) eqn:Hneg; cbn [orb].
  - apply Z.ltb_lt in Hneg. pose proof (u64_negative n ltac:(lia)).
    by rewrite (proj2 (Z.ltb_lt _ (u64 n))), fret_run by lia.
  - apply Z.ltb_ge in Hneg. assert (u64 n = n) as -> by (unfold u64; rewrite Z.mod_small; lia).
    replace (Z.of_nat (length b) <? _) with (Z.of_nat (length b) - Z.of_nat (w_ptr w) <? n)
      by (apply eq_bool_prop_intro; rewrite !Is_true_true, !Z.ltb_lt; lia).
    rewrite fret_run. cbn [fst snd]. destruct (_ <? n); [done|]. by rewrite element_spots_plain, app_nil_r.
Qed.

(** [init()] of a field on any bytes. *)
Lemma init_elem e b start : elem_ok e → bytes_ok b → Z.of_nat (length b) < 2 ^ 63 → (start ≤ length b)%nat →
  init_parse (elem_layout e) start (length b) b =
  match elem_extent e b start with
  | Some n => (Some (Some (elem_object e b start n)), swap_spots (w_spots (elem_walk e b start)) b)
  | None => (Some None, b)
  end.
Proof.
  intros He Hb Hmax Hst.
  pose proof (init_parse_post (elem_layout e) b start (length b) (ek_layout _ He) eq_refl ltac:(lia) Hb) as Hpost.
  revert Hpost. unfold init_parse, init_fields. rewrite elem_initial_size, !fbind_run.
  destruct (_ <? _)%nat eqn:Hlt.
  { unfold elem_extent. by rewrite Hlt. }
  apply Nat.ltb_ge in Hlt. rewrite !fbind_run, elem_fields_run by (done || lia).
  destruct (elem_extent e b start) as [n|]; [|done]. cbv zeta. cbn [fst snd].
  rewrite !fbind_run. cbn [w_spots elem_object o_spots].
  destruct (class_swap (w_spots (elem_walk e b start)) b) as [[[]|] b'] eqn:Hsw; [|done].
  cbn [fst snd]. rewrite fret_run. cbn [fst snd elem_layout l_type l_name]. rewrite fret_run. intros _.
  unfold class_swap in Hsw. destruct (forallb _ _); [|done]. by injection Hsw as <-.
Qed.
