(* ===== verification/AssocFrame.v ===== *)
(** * Association request frames

    [AssocReqFrame] ([AssocReqFrame.cpp], [AssocReqFrame.h]): how the body of a
    (re)association request is taken apart into fields. The frames are those
    stations send; they come from the driver or in messages of other devices.
    A read behind the buffer is a fault. *)

From stdpp Require Import gmap.
From S2P Require Import Prelude Wire Messages Tlvf CmduMessage CmduTx CmduUtils WscClasses WscAttrList AssocClasses.

(** ** The frame *)

(** [eFrameType]. *)
Definition ASSOCIATION_REQUEST : Z := 0.
Definition REASSOCIATION_REQUEST : Z := 1.
Definition UNKNOWN_FRAME : Z := 0xff.

(** [AssocReqFrame]: the list of fields, the type, and the bits of
    [fields_present] that are set. *)
Record AssocReqFrame := mkFrame { f_list : ClassList; f_type : Z; f_present : gset string }.

Definition on_list {A} (c : faultM ClassList A) : faultM AssocReqFrame A := λ f,
  match c (f_list f) with (r, m) => (r, mkFrame m (f_type f) (f_present f)) end.

Definition set_type (t : Z) : faultM AssocReqFrame unit := λ f, (Some tt, mkFrame (f_list f) t (f_present f)).
Definition set_present (flag : string) : faultM AssocReqFrame unit := λ f,
  (Some tt, mkFrame (f_list f) (f_type f) ({[flag]} ∪ f_present f)).

Definition remaining : faultM AssocReqFrame nat := λ f, (Some (getRemainingBytes (f_list f)), f).

(** [addAttr<T>()], and whether it succeeded. *)
Definition add_field (e : Elem) : faultM AssocReqFrame bool :=
  r <- on_list (addClass (elem_layout e)) ;; fret (match r with Some _ => true | None => false end).

(** [getNextAttrType()] and [getNextAttrHdr()->data()[0]]: the bytes at 0 and 2
    of the next field. *)
Definition next_byte (i : nat) : faultM AssocReqFrame Z := on_list (λ m, read_at (next_ptr m + i) m).

(** ** The first fields *)

Definition ID_SSID : Z := 0x0.

(** [add_ssid_field()]. *)
Definition add_ssid_field : faultM AssocReqFrame bool :=
  n <- remaining ;;
  if (n =? 0)%nat then fret false
  else
    t <- next_byte 0 ;;
    if negb (t =? ID_SSID) then fret false else add_field cSSID.

(** What [init_assoc_frame()] and [init_reassoc_frame()] start with. *)
Definition add_capabilities : faultM AssocReqFrame bool :=
  _ <- on_list reset ;;
  n <- remaining ;;
  ok <- (if (0 <? n)%nat then add_field cCapInfoDmgSta else fret true) ;;
  if negb (ok : bool) then fret false
  else n <- remaining ;; fret (negb (n =? 0)%nat).

Definition init_assoc_frame : faultM AssocReqFrame bool :=
  ok <- add_capabilities ;; if (ok : bool) then add_ssid_field else fret false.

Definition init_reassoc_frame : faultM AssocReqFrame bool :=
  ok <- add_capabilities ;;
  if (ok : bool) then
    ok <- add_field cCurrentApAddress ;; if (ok : bool) then add_ssid_field else fret false
  else fret false.

(** ** The other fields *)

(** The elements of the [switch] in [init()]: identifier, class and bit of
    [fields_present]. *)
Definition field_switch : list (Z * (Elem * string)) := [
    (0x01, (cSupportRates, "supported_rates")); (0x32, (cExtendedSupportRates, "extended_sup_rates"));
    (0x21, (cPowerCapability, "power_capability")); (0x24, (cSupportedChannels, "supported_channels"));
    (0x30, (cRSN, "rsn")); (0x2e, (cQosCapability, "qos_capability"));
    (0x46, (cRmEnabledCaps, "rm_enabled_caps")); (0x36, (cMobilityDomain, "mobility_domain"));
    (0x3b, (cSupportedOpClasses, "sup_op_classes")); (0x2d, (cStaHtCapability, "ht_capability"));
    (0x48, (cBssCoexistence20_40, "bss_coexistence20_49")); (0x7f, (cExtendedCap, "extended_cap"));
    (0x59, (cQosTrafficCap, "qos_traffic_cap")); (0x5e, (cTimBroadcastRequest, "tim_broadcast_request"));
    (0x6b, (cInterworking, "interworking")); (0x9e, (cMultiBand, "multi_band"));
    (0xc2, (cDmgCapabilities, "dmg_capability")); (0xaa, (cMultipleMacSublayers, "mms"));
    (0xbf, (cStaVhtCapability, "vht_capability")); (0xc7, (cOperatingModeNotify, "op_mode_notification"));
    (0x37, (cFastBssTrans, "fast_bss_trans")); (0x57, (cFmsRequest, "fms_request"));
    (0x63, (cDmsRequest, "dms_request")); (0xdd, (cVendorSpecific, "vendor_specific"))].

Definition known_field (t : Z) : option (Elem * string) :=
  snd <$> (snd <$> list_find (λ x, x.1 = t) field_switch).

Definition ID_EID_EXTENSION : Z := 0xff.
Definition EXTID_HE_CAPABILITIES : Z := 0x23.

(** The class of an element with an extended identifier. *)
Definition extension_field (e : Z) : Elem * option string :=
  if e =? EXTID_HE_CAPABILITIES then (cStaHeCapability, Some "he_capability") else (cUnknownField, None).

Definition mark (flag : option string) : faultM AssocReqFrame unit :=
  match flag with Some flag => set_present flag | None => fret tt end.

(** The loop of [init()]. An exhausted fuel is a fault. *)
Fixpoint init_loop (fuel : nat) : faultM AssocReqFrame bool :=
  n <- remaining ;;
  if (n =? 0)%nat then fret true
  else
    match fuel with
    | O => fault
    | S fuel =>
      t <- next_byte 0 ;;
      match known_field t with
      | Some (e, flag) =>
        ok <- add_field e ;;
        if (ok : bool) then _ <- set_present flag ;; init_loop fuel else fret false
      | None =>
        if t =? ID_EID_EXTENSION then
          x <- next_byte 2 ;;
          ok <- add_field (extension_field x).1 ;;
          if (ok : bool) then _ <- mark (extension_field x).2 ;; init_loop fuel else fret false
        else
          ok <- add_field cUnknownField ;;
          if (ok : bool) then init_loop fuel else fret true
      end
    end.

Definition init : faultM AssocReqFrame bool := λ f,
  init_loop (getRemainingBytes (f_list f)) (mkFrame (f_list f) (f_type f) ∅).

(** ** The whole frame *)

Definition getField (e : Elem) (f : AssocReqFrame) : option Object := getClass (e_name e) (f_list f).
Definition has_field (e : Elem) (f : AssocReqFrame) : bool :=
  match getField e f with Some _ => true | None => false end.

(** What [valid()] asks for, in its order. *)
Definition checked_fields : list (string * Elem) := [
    ("supported_rates", cSupportRates); ("power_capability", cPowerCapability);
    ("supported_channels", cSupportedChannels); ("rsn", cRSN); ("qos_capability", cQosTrafficCap);
    ("rm_enabled_caps", cRmEnabledCaps); ("mobility_domain", cMobilityDomain);
    ("sup_op_classes", cSupportedOpClasses); ("ht_capability", cStaHtCapability);
    ("bss_coexistence20_49", cBssCoexistence20_40); ("tim_broadcast_request", cTimBroadcastRequest);
    ("interworking", cInterworking); ("multi_band", cMultiBand); ("dmg_capability", cDmgCapabilities);
    ("mms", cMultipleMacSublayers); ("vht_capability", cStaVhtCapability); ("fast_bss_trans", cFastBssTrans);
    ("fms_request", cFmsRequest); ("dms_request", cDmsRequest); ("op_mode_notification", cOperatingModeNotify);
    ("vendor_specific", cVendorSpecific); ("he_capability", cStaHeCapability)].

Definition valid (f : AssocReqFrame) : bool :=
  has_field cCapInfoDmgSta f && has_field cSSID f &&
  forallb (λ x, negb (bool_decide (x.1 ∈ f_present f)) || has_field x.2 f) checked_fields.

(** The fields up to the SSID, as the type of the frame says, or as they can
    be read. *)
Definition init_first_fields : faultM AssocReqFrame bool := λ f,
  (if f_type f =? ASSOCIATION_REQUEST then init_assoc_frame
   else if f_type f =? REASSOCIATION_REQUEST then init_reassoc_frame
   else
     ok <- init_assoc_frame ;;
     if (ok : bool) then _ <- set_type ASSOCIATION_REQUEST ;; fret true
     else
       ok <- init_reassoc_frame ;;
       if (ok : bool) then _ <- set_type REASSOCIATION_REQUEST ;; fret true else fret false) f.

Definition swap_once : faultM AssocReqFrame unit := λ f,
  if m_swapped (f_list f) then (Some tt, f) else on_list swap f.

Definition parse_frame : faultM AssocReqFrame bool :=
  ok <- init_first_fields ;;
  if negb (ok : bool) then fret false
  else
    ok <- init ;;
    if negb (ok : bool) then fret false
    else
      ok <- (λ f, (Some (valid f), f)) ;;
      if negb (ok : bool) then fret false else _ <- swap_once ;; fret true.

(** [AssocReqFrame::parse()] on a buffer: the frame, if any, and what it
    leaves in the buffer. *)
Definition assoc_parse (type : Z) (b : list Z) : option (option AssocReqFrame) * list Z :=
  if (length b =? 0)%nat then (Some None, b)
  else
    match parse_frame (mkFrame (received b) type ∅) with
    | (None, f) => (None, m_buff (f_list f))
    | (Some true, f) => (Some (Some f), m_buff (f_list f))
    | (Some false, f) => (Some None, m_buff (f_list f))
    end.

(** [finalize()] of a frame that is not parsed is not used by the program. *)

(** ** Getters *)

(** The [n] bytes of a member of a field. *)
Definition field_value (e : Elem) (name : string) (n : nat) (f : AssocReqFrame) : option (list Z) :=
  o ← getField e f; (attr_value o name n (f_list f)).1.

(** [m_length] of a field with a list, and how many entries the list has. *)
Definition field_list (e : Elem) (f : AssocReqFrame) : option (list Z) :=
  o ← getField e f;
  nt ← e_tail e;
  off ← member o nt.1;
  (attr_value o nt.1 (o_ptr o - off) (f_list f)).1.

Definition listen_interval (f : AssocReqFrame) : option Z :=
  v ← field_value cCapInfoDmgSta "listen_interval" 2 f; Some (le16 v 0).
Definition sta_ssid (f : AssocReqFrame) : option (list Z) := until_null <$> field_list cSSID f.

(** ** One field of a frame *)

Lemma elem_walk_same e b b' p : elem_ok e → (∀ i, (p ≤ i)%nat → b' !! i = b !! i) →
  elem_walk e b' p = elem_walk e b p.
Proof.
  intros He Hsame. unfold elem_walk, opts_walk. pose proof (opt_off_spec e p) as Hoff.
  assert (∀ o, o ∈ e_opts e → opt_on b' (opt_off e p) o = opt_on b (opt_off e p) o) as Hon.
  { intros o Ho. unfold opt_on. cbn [eval_cond]. rewrite (at_lookup_same b' b); [done|].
    apply Hsame. destruct (Hoff o He Ho) as [_ ?]. lia. }
  clear Hoff. revert Hon. generalize (fixed_members e p). induction (e_opts e) as [|o os IH]; intros w Hon; [done|]. cbn.
  unfold opt_walk at 2 4. rewrite Hon by (by left). apply IH. intros. apply Hon. by right.
Qed.

Lemma elem_extent_same e b b' p : elem_ok e → length b' = length b → (∀ i, (p ≤ i)%nat → b' !! i = b !! i) →
  elem_extent e b' p = elem_extent e b p.
Proof.
  intros He Hl Hsame. unfold elem_extent. rewrite (elem_walk_same e b b' p He Hsame), Hl.
  by rewrite (at_lookup_same b' b (p + 1)) by (apply Hsame; lia).
Qed.

Lemma elem_object_same e b b' p n : elem_ok e → (∀ i, (p ≤ i)%nat → b' !! i = b !! i) →
  elem_object e b' p n = elem_object e b p n.
Proof. intros He Hsame. unfold elem_object. by rewrite (elem_walk_same e b b' p He Hsame). Qed.

Lemma elem_extent_fits e b p n : elem_extent e b p = Some n → (w_ptr (elem_walk e b p) + n ≤ length b)%nat.
Proof.
  unfold elem_extent. destruct (_ || _) eqn:Hlt; [done|]. apply orb_false_iff in Hlt as [_ Hlt%Nat.ltb_ge].
  destruct (e_tail e); [|intros [= <-]; lia]. destruct (_ || _) eqn:Hf; [done|].
  apply orb_false_iff in Hf as [Hn Hf]. apply Z.ltb_ge in Hn, Hf. intros [= <-]. lia.
Qed.

(** The object [o] is a field of the frame [b]. *)
Definition field_of (b : list Z) (o : Object) : Prop := ∃ e n,
  e ∈ assoc_fields ∧ elem_extent e b (o_start o) = Some n ∧ o = elem_object e b (o_start o) n.

(** While the frame [b] is parsed: its fields are those of [b], and their
    words are swapped. *)
Record frame_ok (b : list Z) (f : AssocReqFrame) : Prop := {
  fk_prefix : parsed_prefix b (f_list f);
  fk_fields : Forall (field_of b) (m_class_vector (f_list f));
  fk_swapped : m_swapped (f_list f) = false;
}.

Definition fields_of (f : AssocReqFrame) : list Object := m_class_vector (f_list f).

(** The frame with one more field. *)
Definition with_field (e : Elem) (b : list Z) (n : nat) (f : AssocReqFrame) : AssocReqFrame :=
  let p := next_ptr (f_list f) in
  mkFrame (mkClassList (swap_spots (w_spots (elem_walk e b p)) (m_buff (f_list f))) (m_swapped (f_list f))
             (fields_of f ++ [elem_object e b p n])) (f_type f) (f_present f).

(** [addAttr] in a frame whose fields cover the beginning of [b]. *)
Lemma add_field_run b f e : bytes_ok b → Z.of_nat (length b) < 2 ^ 63 → frame_ok b f → e ∈ assoc_fields →
  match elem_extent e b (next_ptr (f_list f)) with
  | None => add_field e f = (Some false, f)
  | Some n => add_field e f = (Some true, with_field e b n f) ∧ frame_ok b (with_field e b n f)
  end.
Proof.
  intros Hb Hmax [Hm Hall Hsw] Hin. pose proof (assoc_fields_ok e Hin) as He.
  destruct (parsed_prefix_buff b _ Hm Hb) as (Hlen & Hbm & Hsame). set (m := f_list f) in *.
  pose proof (init_elem e (m_buff m) (next_ptr m) He Hbm) as Hi. rewrite Hlen in Hi.
  specialize (Hi Hmax (pp_ptr _ _ Hm)).
  rewrite (elem_extent_same e b _ _ He Hlen Hsame), (elem_walk_same e b _ _ He Hsame) in Hi.
  pose proof (addClass_prefix b (elem_layout e) m Hb (ek_layout _ He) eq_refl Hm) as Hpost.
  unfold add_field, on_list. rewrite fbind_run. fold m. unfold addClass in Hpost |- *. rewrite Hlen, Hi in Hpost |- *.
  destruct (elem_extent e b (next_ptr m)) as [n|] eqn:Hn; cbn [fst snd].
  - rewrite (elem_object_same e b _ _ n He Hsame) in Hpost |- *. rewrite fret_run. split; [done|].
    destruct Hpost as (Hm' & _). split; [done| |done]. unfold with_field. cbn [f_list m_class_vector]. fold m.
    apply Forall_app. split; [done|]. constructor; [|constructor]. by exists e, n.
  - rewrite fret_run. cbn [fst snd]. destruct f as [[]]; done.
Qed.

Lemma with_field_next e b n f :
  next_ptr (f_list (with_field e b n f)) = (w_ptr (elem_walk e b (next_ptr (f_list f))) + n)%nat.
Proof. unfold next_ptr at 1, with_field. cbn [f_list m_class_vector]. by rewrite last_snoc. Qed.

Lemma remaining_run b f : bytes_ok b → frame_ok b f →
  remaining f = (Some (length b - next_ptr (f_list f))%nat, f).
Proof.
  intros Hb [Hm _ _]. unfold remaining, getRemainingBytes. by rewrite (proj1 (parsed_prefix_buff b _ Hm Hb)).
Qed.

Lemma next_byte_run b f i : bytes_ok b → frame_ok b f →
  next_byte i f = (b !! (next_ptr (f_list f) + i)%nat, f).
Proof.
  intros Hb [Hm _ _]. unfold next_byte, on_list, read_at.
  rewrite (proj2 (proj2 (parsed_prefix_buff b _ Hm Hb))) by lia. by destruct f.
Qed.

(** ** The loop over the elements *)

(** The bits of [fields_present] with their classes. *)
Definition flag_fields : list (string * Elem) :=
  ((λ x, (x.2.2, x.2.1)) <$> field_switch) ++ [("he_capability", cStaHeCapability)].

(** A bit is set only for a field that is there. *)
Definition present_ok (f : AssocReqFrame) : Prop :=
  ∀ flag e, (flag, e) ∈ flag_fields → flag ∈ f_present f → has_field e f = true.

Lemma flags_distinct : NoDup flag_fields.*1.
Proof. apply (bool_decide_unpack _). by vm_compute. Qed.

Lemma flag_field_unique flag e e' : (flag, e) ∈ flag_fields → (flag, e') ∈ flag_fields → e = e'.
Proof.
  intros [i Hi]%list_elem_of_lookup_1 [j Hj]%list_elem_of_lookup_1.
  enough (i = j) as -> by (rewrite Hi in Hj; by injection Hj as ->).
  eapply (NoDup_lookup _ i j flag); [apply flags_distinct|by rewrite list_lookup_fmap, Hi|by rewrite list_lookup_fmap, Hj].
Qed.

Lemma has_field_elem e f : has_field e f = true ↔ ∃ o, o ∈ fields_of f ∧ o_class o = e_name e.
Proof.
  unfold has_field, getField, getClass, fields_of. split.
  - destruct (list_find _ _) as [[i o]|] eqn:H; [|done]. intros _. apply list_find_Some in H as (H & Hc & _).
    exists o. split; [by eapply list_elem_of_lookup_2|done].
  - intros (o & Ho & Hc). destruct (list_find_elem_of (λ o, o_class o = e_name e) _ o Ho Hc) as [[i x] ->]. done.
Qed.

Lemma has_field_grows e f f' : fields_of f `prefix_of` fields_of f' → has_field e f = true → has_field e f' = true.
Proof.
  rewrite !has_field_elem. intros [k Hk] (o & Ho & Hc). exists o. rewrite Hk. split; [|done]. apply elem_of_app. by left.
Qed.

Lemma with_field_has e b n f : has_field e (with_field e b n f) = true.
Proof. apply has_field_elem. exists (elem_object e b (next_ptr (f_list f)) n). split; [|done]. cbn. set_solver. Qed.

Lemma with_field_grows e b n f : fields_of f `prefix_of` fields_of (with_field e b n f).
Proof. by eexists. Qed.

Lemma with_field_present e b n f : present_ok f → present_ok (with_field e b n f).
Proof. intros Hp flag e' Hin Hf. eapply has_field_grows; [apply with_field_grows|]. by eapply Hp. Qed.

Definition marked (flag : string) (f : AssocReqFrame) : AssocReqFrame :=
  mkFrame (f_list f) (f_type f) ({[flag]} ∪ f_present f).

Lemma marked_present flag e f : (flag, e) ∈ flag_fields → has_field e f = true → present_ok f →
  present_ok (marked flag f).
Proof.
  intros Hin He Hp flag' e' Hin' [->%elem_of_singleton|Hf]%elem_of_union; [|by eapply Hp].
  by rewrite (flag_field_unique _ _ _ Hin' Hin).
Qed.

Lemma frame_ok_marked b flag f : frame_ok b f → frame_ok b (marked flag f).
Proof. by intros []. Qed.

Lemma known_field_elem t e flag : known_field t = Some (e, flag) → (t, (e, flag)) ∈ field_switch.
Proof.
  unfold known_field. destruct (list_find _ _) as [[i [t' x]]|] eqn:H; [|done]. cbn. intros [= ->].
  apply list_find_Some in H as (H & Ht & _). cbn in Ht. subst. by eapply list_elem_of_lookup_2.
Qed.

Lemma known_field_ok t e flag : known_field t = Some (e, flag) → e ∈ assoc_fields ∧ (flag, e) ∈ flag_fields.
Proof.
  intros H%known_field_elem. split.
  - assert (Forall (λ x, x.2.1 ∈ assoc_fields) field_switch) as Hall.
    { repeat (apply Forall_cons; split; [cbn [fst snd]; unfold assoc_fields; repeat (apply elem_of_cons; first [by left|right])|]). constructor. }
    rewrite Forall_forall in Hall. exact (Hall _ H).
  - unfold flag_fields. apply elem_of_app. left. exact (list_elem_of_fmap_2 (λ x, (x.2.2, x.2.1)) _ _ H).
Qed.

Lemma unknown_known : cUnknownField ∈ assoc_fields ∧ cStaHeCapability ∈ assoc_fields ∧ cSSID ∈ assoc_fields ∧
  cCapInfoDmgSta ∈ assoc_fields ∧ cCurrentApAddress ∈ assoc_fields.
Proof. unfold assoc_fields. split_and!; repeat (apply elem_of_cons; first [by left|right]). Qed.

Lemma extension_field_ok x : (extension_field x).1 ∈ assoc_fields ∧
  match (extension_field x).2 with Some flag => (flag, (extension_field x).1) ∈ flag_fields | None => True end.
Proof.
  unfold extension_field. destruct (_ =? _); split; [apply unknown_known| |apply unknown_known|done].
  unfold flag_fields. apply elem_of_app. right. by left.
Qed.

(** Where the identifier of an extended element lies behind the frame. *)
Definition extension_cut_off (b : list Z) : Prop :=
  ∃ p, (4 ≤ p)%nat ∧ b !! p = Some ID_EID_EXTENSION ∧ (length b ≤ p + 2)%nat.

(** What a loop over the elements of [b] keeps. *)
Record grown (b : list Z) (f f' : AssocReqFrame) : Prop := {
  gr_ok : frame_ok b f';
  gr_present : present_ok f';
  gr_type : f_type f' = f_type f;
  gr_fields : fields_of f `prefix_of` fields_of f';
}.

Lemma grown_trans b f1 f2 f3 : grown b f1 f2 → grown b f2 f3 → grown b f1 f3.
Proof. intros [???H1] [???H2]. split; [done..|congruence|by etrans]. Qed.

Lemma grown_field b n e f : frame_ok b (with_field e b n f) → present_ok f → grown b f (with_field e b n f).
Proof. intros H1 H2. split; [done|by apply with_field_present|done|apply with_field_grows]. Qed.

Lemma grown_marked b flag e f : (flag, e) ∈ flag_fields → has_field e f = true → frame_ok b f → present_ok f →
  grown b f (marked flag f).
Proof. intros. split; [by apply frame_ok_marked|by eapply marked_present|done|done]. Qed.

Definition loop_post (b : list Z) (f : AssocReqFrame) (r : option bool * AssocReqFrame) : Prop :=
  match r.1 with None => extension_cut_off b | Some _ => grown b f r.2 end.

Lemma loop_post_grown b f f' r : grown b f f' → loop_post b f' r → loop_post b f r.
Proof. unfold loop_post. destruct r as [[|] f'']; cbn; [|done]. apply grown_trans. Qed.

Lemma loop_post_end b f (r : bool) : frame_ok b f → present_ok f → loop_post b f (Some r, f).
Proof. by split. Qed.

(** One element: the loop goes on behind it. *)
Lemma add_field_step b f e : bytes_ok b → Z.of_nat (length b) < 2 ^ 63 → frame_ok b f → present_ok f →
  e ∈ assoc_fields →
  add_field e f = (Some false, f) ∨
  ∃ f', add_field e f = (Some true, f') ∧ grown b f f' ∧ has_field e f' = true ∧
    (next_ptr (f_list f) + 2 ≤ next_ptr (f_list f'))%nat.
Proof.
  intros Hb Hmax Hf Hp Hin. pose proof (add_field_run b f e Hb Hmax Hf Hin) as H.
  destruct (elem_extent e b _) as [n|]; [|by left]. destruct H as [Hr Hok]. right. eexists. split_and!; [done| | |].
  - by apply grown_field.
  - apply with_field_has.
  - rewrite with_field_next. pose proof (elem_walk_ptr e b (next_ptr (f_list f))).
    pose proof (ek_size _ (assoc_fields_ok e Hin)). lia.
Qed.

Lemma init_loop_post b fuel : bytes_ok b → Z.of_nat (length b) < 2 ^ 63 → ∀ f, frame_ok b f → present_ok f →
  (4 ≤ next_ptr (f_list f))%nat → (length b - next_ptr (f_list f) ≤ fuel)%nat → loop_post b f (init_loop fuel f).
Proof.
  intros Hb Hmax. induction fuel as [|fuel IH]; intros f Hf Hp H4 Hfuel; cbn [init_loop];
    rewrite fbind_run, (remaining_run b) by done; cbn [fst snd].
  { rewrite (proj2 (Nat.eqb_eq _ _)) by lia. by apply loop_post_end. }
  destruct (_ =? 0)%nat eqn:H0; [by apply loop_post_end|]. apply Nat.eqb_neq in H0.
  rewrite fbind_run, (next_byte_run b) by done. rewrite Nat.add_0_r.
  destruct (b !! next_ptr (f_list f)) as [t|] eqn:Ht; [|apply lookup_ge_None in Ht; lia]. cbn [fst snd].
  assert (∀ f', grown b f f' → (next_ptr (f_list f) + 2 ≤ next_ptr (f_list f'))%nat →
    loop_post b f (init_loop fuel f')) as Hgo.
  { intros f' Hg H2. eapply loop_post_grown; [exact Hg|]. apply IH; [apply Hg|apply Hg|lia..]. }
  destruct (known_field t) as [[e flag]|] eqn:Hk; [|destruct (t =? ID_EID_EXTENSION) eqn:Hx].
  - destruct (known_field_ok _ _ _ Hk) as [He Hfl]. rewrite fbind_run.
    destruct (add_field_step b f e Hb Hmax Hf Hp He) as [->|(f' & -> & Hg & Hh & H2)]; cbn [fst snd]; [by apply loop_post_end|].
    rewrite fbind_run. cbn [set_present fst snd]. apply (Hgo (marked flag f')); [|done].
    eapply grown_trans; [exact Hg|]. eapply grown_marked; [done|done|apply Hg|apply Hg].
  - apply Z.eqb_eq in Hx. subst t. rewrite fbind_run, (next_byte_run b) by done.
    destruct (b !! (next_ptr (f_list f) + 2)%nat) as [x|] eqn:Hx; cbn [fst snd]; [|apply lookup_ge_None in Hx; change (extension_cut_off b); exists (next_ptr (f_list f)); split_and!; [done..|lia]].
    destruct (extension_field_ok x) as [He Hfl]. rewrite fbind_run.
    destruct (add_field_step b f _ Hb Hmax Hf Hp He) as [->|(f' & -> & Hg & Hh & H2)]; cbn [fst snd]; [by apply loop_post_end|].
    rewrite fbind_run. destruct (extension_field x) as [e [flag|]]; cbn [fst snd mark] in *; [|by apply (Hgo f')].
    cbn [set_present fst snd]. apply (Hgo (marked flag f')); [|done].
    eapply grown_trans; [exact Hg|]. eapply grown_marked; [done|done|apply Hg|apply Hg].
  - rewrite fbind_run.
    destruct (add_field_step b f _ Hb Hmax Hf Hp (proj1 unknown_known)) as [->|(f' & -> & Hg & _ & H2)];
      cbn [fst snd]; [by apply loop_post_end|by apply Hgo].
Qed.

(** ** The first fields *)

(** The frame after [reset()], and with the capabilities. *)
Definition fresh (b : list Z) (f : AssocReqFrame) : AssocReqFrame := mkFrame (received b) (f_type f) (f_present f).
Definition cap_frame (b : list Z) (f : AssocReqFrame) : AssocReqFrame := with_field cCapInfoDmgSta b 0 (fresh b f).

Lemma frame_ok_fresh b f : bytes_ok b → frame_ok b (fresh b f).
Proof. intros Hb. split; [apply (attrs_ok_received b Hb)|by constructor|done]. Qed.

Lemma cap_extent b : elem_extent cCapInfoDmgSta b 0 = if (length b <? 4)%nat then None else Some 0%nat.
Proof.
  unfold elem_extent. change (w_ptr (elem_walk cCapInfoDmgSta b 0)) with 4%nat.
  change (total (e_fixed cCapInfoDmgSta)) with 4%nat. rewrite Nat.sub_0_r. by destruct (_ <? _)%nat.
Qed.

Lemma cap_frame_buff b f : m_buff (f_list (cap_frame b f)) = swap_at 2 2 b.
Proof. done. Qed.

Lemma add_capabilities_run b f : m_buff (f_list f) = b → bytes_ok b → Z.of_nat (length b) < 2 ^ 63 → (0 < length b)%nat →
  add_capabilities f =
  if (length b <? 4)%nat then (Some false, fresh b f) else (Some (negb (length b =? 4)%nat), cap_frame b f).
Proof.
  intros Hm Hb Hmax H0. unfold add_capabilities. rewrite fbind_run. unfold on_list, reset. cbn [fst snd]. rewrite Hm.
  fold (received b) (fresh b f). pose proof (frame_ok_fresh b f Hb) as Hf.
  rewrite fbind_run, (remaining_run b) by done. change (next_ptr (f_list (fresh b f))) with 0%nat.
  cbn [fst snd]. rewrite Nat.sub_0_r, (proj2 (Nat.ltb_lt 0 _)) by done. rewrite fbind_run.
  pose proof (add_field_run b (fresh b f) cCapInfoDmgSta Hb Hmax Hf ltac:(apply unknown_known)) as Ha.
  change (next_ptr (f_list (fresh b f))) with 0%nat in Ha. rewrite cap_extent in Ha.
  destruct (length b <? 4)%nat eqn:H4; [by rewrite Ha|]. apply Nat.ltb_ge in H4. destruct Ha as [-> Hok]. fold (cap_frame b f) in *.
  cbn [fst snd negb]. rewrite fbind_run, (remaining_run b) by done. cbn [fst snd]. rewrite fret_run.
  unfold cap_frame. rewrite with_field_next. change (w_ptr (elem_walk cCapInfoDmgSta b _) + 0)%nat with 4%nat.
  do 3 f_equal. apply eq_bool_prop_intro. rewrite !Is_true_true, !Nat.eqb_eq. lia.
Qed.

Lemma cap_frame_ok b f : bytes_ok b → Z.of_nat (length b) < 2 ^ 63 → (4 ≤ length b)%nat → frame_ok b (cap_frame b f).
Proof.
  intros Hb Hmax H4. pose proof (add_field_run b (fresh b f) cCapInfoDmgSta Hb Hmax (frame_ok_fresh b f Hb) ltac:(apply unknown_known)) as Ha.
  change (next_ptr (f_list (fresh b f))) with 0%nat in Ha. rewrite cap_extent, (proj2 (Nat.ltb_ge _ _)) in Ha by done. apply Ha.
Qed.

(** [add_ssid_field()] adds the field, or nothing. *)
Lemma add_ssid_run b f : bytes_ok b → Z.of_nat (length b) < 2 ^ 63 → frame_ok b f →
  add_ssid_field f = (Some false, f) ∨
  ∃ n, add_ssid_field f = (Some true, with_field cSSID b n f) ∧ frame_ok b (with_field cSSID b n f).
Proof.
  intros Hb Hmax Hf. unfold add_ssid_field. rewrite fbind_run, (remaining_run b) by done. cbn [fst snd].
  destruct (_ =? 0)%nat eqn:H0; [by left|]. apply Nat.eqb_neq in H0.
  rewrite fbind_run, (next_byte_run b) by done. rewrite Nat.add_0_r.
  destruct (b !! next_ptr (f_list f)) as [t|] eqn:Ht; [|apply lookup_ge_None in Ht; lia]. cbn [fst snd].
  destruct (negb _); [by left|]. pose proof (add_field_run b f cSSID Hb Hmax Hf ltac:(apply unknown_known)) as Ha.
  destruct (elem_extent _ _ _) as [n|]; [right; by exists n|by left].
Qed.

(** What the first fields leave: the capabilities first, the SSID last. *)
Definition cap_object (b : list Z) : Object := elem_object cCapInfoDmgSta b 0 0.

Record first_fields (b : list Z) (f : AssocReqFrame) : Prop := {
  ff_frame : frame_ok b f;
  ff_grown : [cap_object b] `prefix_of` fields_of f;
  ff_ssid : has_field cSSID f = true;
  ff_length : (4 ≤ length b)%nat;
}.

Lemma init_assoc_run b f : m_buff (f_list f) = b → bytes_ok b → Z.of_nat (length b) < 2 ^ 63 → (0 < length b)%nat →
  ∃ ok f', init_assoc_frame f = (Some ok, f') ∧ f_type f' = f_type f ∧
    (if ok then first_fields b f' else m_buff (f_list f') = if (length b <? 4)%nat then b else swap_at 2 2 b).
Proof.
  intros Hm Hb Hmax H0. unfold init_assoc_frame. rewrite fbind_run, (add_capabilities_run b) by done.
  destruct (length b <? 4)%nat eqn:H4; cbn [fst snd].
  { exists false, (fresh b f). split_and!; [done|done|done]. }
  destruct (negb _); cbn [fst snd]; [|exists false, (cap_frame b f); by split_and!].
  apply Nat.ltb_ge in H4. pose proof (cap_frame_ok b f Hb Hmax H4) as Hc.
  destruct (add_ssid_run b (cap_frame b f) Hb Hmax Hc) as [->|(n & -> & Hok)].
  - exists false, (cap_frame b f). by split_and!.
  - eexists true, _. split_and!; [done|done|]. split; [done|apply (with_field_grows cSSID b n (cap_frame b f))|apply with_field_has|done].
Qed.

Lemma init_reassoc_run b f : m_buff (f_list f) = b → bytes_ok b → Z.of_nat (length b) < 2 ^ 63 → (0 < length b)%nat →
  ∃ ok f', init_reassoc_frame f = (Some ok, f') ∧ f_type f' = f_type f ∧
    (if ok then first_fields b f' else length (m_buff (f_list f')) = length b).
Proof.
  intros Hm Hb Hmax H0. unfold init_reassoc_frame. rewrite fbind_run, (add_capabilities_run b) by done.
  destruct (length b <? 4)%nat eqn:H4; cbn [fst snd].
  { exists false, (fresh b f). by split_and!. }
  apply Nat.ltb_ge in H4. pose proof (cap_frame_ok b f Hb Hmax H4) as Hc.
  assert (∀ f1, frame_ok b f1 → length (m_buff (f_list f1)) = length b) as Hlen.
  { intros f1 [H _ _]. apply (parsed_prefix_buff b _ H Hb). }
  destruct (negb _); cbn [fst snd]; [|exists false, (cap_frame b f); split_and!; [done|done|by apply Hlen]].
  rewrite fbind_run. pose proof (add_field_run b _ cCurrentApAddress Hb Hmax Hc ltac:(apply unknown_known)) as Ha.
  destruct (elem_extent _ _ _) as [n|]; [|rewrite Ha; exists false, (cap_frame b f); split_and!; [done|done|by apply Hlen]].
  destruct Ha as [-> Hap]. cbn [fst snd].
  destruct (add_ssid_run b _ Hb Hmax Hap) as [->|(k & -> & Hok)].
  - eexists false, _. split_and!; [done|done|by apply Hlen].
  - eexists true, _. split_and!; [done|done|]. split; [done| |apply with_field_has|done].
    etrans; [|apply with_field_grows]. apply (with_field_grows cCurrentApAddress b n (cap_frame b f)).
Qed.

Lemma first_fields_type b f t : first_fields b f → first_fields b (mkFrame (f_list f) t (f_present f)).
Proof. by intros [[]]. Qed.

(** The fields of a frame of unknown type were first read as those of an
    association request, in place. *)
Definition retried (type : Z) (f : AssocReqFrame) : bool :=
  negb (type =? ASSOCIATION_REQUEST) && negb (type =? REASSOCIATION_REQUEST) && (f_type f =? REASSOCIATION_REQUEST).
Definition frame_bytes (type : Z) (b : list Z) (f : AssocReqFrame) : list Z :=
  if retried type f then swap_at 2 2 b else b.

Lemma init_first_run type b : bytes_ok b → Z.of_nat (length b) < 2 ^ 63 → (0 < length b)%nat →
  ∃ ok f, init_first_fields (mkFrame (received b) type ∅) = (Some ok, f) ∧
    (if ok then first_fields (frame_bytes type b f) f else length (m_buff (f_list f)) = length b).
Proof.
  intros Hb Hmax H0. unfold init_first_fields, frame_bytes, retried. cbn [f_type].
  set (f := mkFrame _ _ _).
  assert (length (if (length b <? 4)%nat then b else swap_at 2 2 b) = length b) as Hsl.
  { destruct (_ <? _)%nat eqn:H; [done|]. apply Nat.ltb_ge in H. apply length_swap_at. lia. }
  destruct (init_assoc_run b f eq_refl Hb Hmax H0) as (ok1 & f1 & H1 & Ht1 & Hr1).
  destruct (init_reassoc_run b f eq_refl Hb Hmax H0) as (ok2 & f2 & H2 & Ht2 & Hr2).
  destruct (type =? ASSOCIATION_REQUEST) eqn:Ta; cbn [negb andb].
  { exists ok1, f1. split; [done|]. destruct ok1; [done|]. by rewrite Hr1. }
  destruct (type =? REASSOCIATION_REQUEST) eqn:Tr; cbn [negb andb]; [by exists ok2, f2|].
  rewrite fbind_run, H1. cbn [fst snd]. destruct ok1.
  { rewrite fbind_run. cbn [set_type fst snd]. eexists true, _. split; [done|]. by apply first_fields_type. }
  rewrite fbind_run. set (b1 := m_buff (f_list f1)) in *.
  assert (length b1 = length b) as Hl1 by (by rewrite Hr1).
  assert (bytes_ok b1) as Hb1.
  { rewrite Hr1. destruct (_ <? _)%nat eqn:H; [done|]. apply Nat.ltb_ge in H. apply Forall_lookup_2. intros i x.
    rewrite swap_at_lookup by lia. by apply Forall_lookup_1. }
  destruct (init_reassoc_run b1 f1 eq_refl Hb1) as (ok3 & f3 & H3 & Ht3 & Hr3); [lia..|]. rewrite H3. cbn [fst snd].
  destruct ok3; [|exists false, f3; split; [done|by rewrite Hr3]].
  rewrite fbind_run. cbn [set_type fst snd]. eexists true, _. split; [done|]. cbn [f_type Z.eqb REASSOCIATION_REQUEST].
  apply first_fields_type. replace (swap_at 2 2 b) with b1; [done|]. rewrite Hr1.
  pose proof (ff_length _ _ Hr3). by rewrite (proj2 (Nat.ltb_ge _ _)) by lia.
Qed.

(** ** Reading a parsed frame *)

(** A frame [parse()] returned: its fields are those of the bytes [b], which
    are as they were received. *)
Record frame_readable (b : list Z) (f : AssocReqFrame) : Prop := {
  fr_buff : m_buff (f_list f) = b;
  fr_chain : chain 0 (fields_of f);
  fr_end : (next_ptr (f_list f) ≤ length b)%nat;
  fr_fields : Forall (field_of b) (fields_of f);
  fr_present : present_ok f;
  fr_valid : valid f = true;
}.

Lemma assoc_names_distinct : NoDup (e_name <$> assoc_fields).
Proof. apply (bool_decide_unpack _). by vm_compute. Qed.

Lemma elem_name_unique e e' : e ∈ assoc_fields → e' ∈ assoc_fields → e_name e = e_name e' → e = e'.
Proof.
  intros [i Hi]%list_elem_of_lookup_1 [j Hj]%list_elem_of_lookup_1 Hn.
  enough (i = j) as -> by (rewrite Hi in Hj; by injection Hj as ->).
  eapply (NoDup_lookup _ i j (e_name e)); [apply assoc_names_distinct|by rewrite list_lookup_fmap, Hi|].
  by rewrite list_lookup_fmap, Hj, Hn.
Qed.

(** A field that is found is where its class says. *)
Lemma getField_of b f e o : frame_readable b f → e ∈ assoc_fields → getField e f = Some o → ∃ n,
  elem_extent e b (o_start o) = Some n ∧ o = elem_object e b (o_start o) n ∧ (o_ptr o ≤ length b)%nat.
Proof.
  intros Hf He Hg. unfold getField, getClass in Hg. fold (fields_of f) in Hg.
  destruct (list_find _ _) as [[i x]|] eqn:Hfind; [|done]. injection Hg as ->.
  apply list_find_Some in Hfind as (Hi & Hcl & _). apply list_elem_of_lookup_2 in Hi.
  pose proof (fr_fields _ _ Hf) as Hall. rewrite Forall_forall in Hall. destruct (Hall o Hi) as (e' & n & He' & Hx & Ho).
  assert (e' = e) as ->.
  { apply elem_name_unique; [done|done|]. rewrite <- Hcl. by rewrite Ho. }
  exists n. split_and!; [done|done|]. pose proof (elem_extent_fits _ _ _ _ Hx). rewrite Ho. cbn. lia.
Qed.

Lemma elem_members e b start n : elem_ok e → let o := elem_object e b start n in
  (∀ x, x ∈ e_fixed e → (∀ t, e_tail e = Some t → t.1 ≠ ff_name x) → ∃ off,
     member o (ff_name x) = Some off ∧ (start ≤ off)%nat ∧ (off + ff_size x ≤ w_ptr (elem_walk e b start))%nat) ∧
  (∀ t, e_tail e = Some t → member o t.1 = Some (w_ptr (elem_walk e b start))).
Proof.
  intros He o. unfold member. cbn [elem_object o o_ptr o_fields o_spots]. split.
  - intros x Hx Ht. destruct (offsets_elem _ _ _ _ (fixed_walk_offsets _ (ek_names _ He) (mkWalk start [] [])) Hx) as (off & Hf & H1 & H2).
    pose proof (elem_walk_ptr e b start). exists off. cbn [w_ptr] in *. split_and!; [|done|lia].
    assert (find_field (elem_walk e b start) (ff_name x) = Some off) as Hw.
    { unfold elem_walk. rewrite opts_walk_find; [done|]. intros o' Ho' Heq. apply (ek_opts _ He o' Ho'). rewrite Heq.
      by apply list_elem_of_fmap_2. }
    destruct (e_tail e) as [[name k]|]; cbn [app]; [|by destruct (elem_walk e b start)].
    rewrite find_field_cons, decide_False by (exact (Ht _ eq_refl)). by destruct (elem_walk e b start).
  - intros [name k] Ht. rewrite Ht. cbn [app fst]. by rewrite find_field_cons, decide_True.
Qed.

(** The members of a field that is there can be read, and its list. *)
Lemma fixed_readable b f e o x : frame_readable b f → e ∈ assoc_fields → getField e f = Some o → x ∈ e_fixed e →
  (∀ t, e_tail e = Some t → t.1 ≠ ff_name x) → ∃ off, field_value e (ff_name x) (ff_size x) f = Some (take (ff_size x) (drop off b)) ∧
    (o_start o ≤ off)%nat ∧ (off + ff_size x ≤ length b)%nat.
Proof.
  intros Hf He Hg Hx Ht. destruct (getField_of b f e o Hf He Hg) as (n & Hext & Ho & Hp).
  destruct (elem_members e b (o_start o) n (assoc_fields_ok e He)) as [Hfix _].
  destruct (Hfix x Hx Ht) as (off & Hm & H1 & H2). pose proof (elem_extent_fits _ _ _ _ Hext). exists off.
  unfold field_value. rewrite Hg. cbn [mbind option_bind]. rewrite <- Ho in Hm.
  rewrite (attr_value_run o _ _ _ off); [|done|rewrite (fr_buff _ _ Hf); lia]. cbn [fst].
  rewrite (fr_buff _ _ Hf). split_and!; [done|done|lia].
Qed.

Lemma list_readable b f e o t : frame_readable b f → e ∈ assoc_fields → getField e f = Some o → e_tail e = Some t →
  ∃ off n, field_list e f = Some (take n (drop off b)) ∧ (off + n ≤ length b)%nat ∧ elem_extent e b (o_start o) = Some n ∧
    off = w_ptr (elem_walk e b (o_start o)).
Proof.
  intros Hf He Hg Ht. destruct (getField_of b f e o Hf He Hg) as (n & Hext & Ho & Hp).
  destruct (elem_members e b (o_start o) n (assoc_fields_ok e He)) as [_ Htail].
  specialize (Htail t Ht). rewrite <- Ho in Htail. pose proof (elem_extent_fits _ _ _ _ Hext).
  eexists _, n. unfold field_list. rewrite Hg. cbn [mbind option_bind]. rewrite Ht. cbn [mbind option_bind]. rewrite Htail.
  cbn [mbind option_bind]. assert (o_ptr o = w_ptr (elem_walk e b (o_start o)) + n)%nat as -> by (by rewrite Ho at 1).
  rewrite Nat.add_sub'. rewrite (attr_value_run o _ _ _ _ Htail) by (rewrite (fr_buff _ _ Hf); lia). cbn [fst].
  rewrite (fr_buff _ _ Hf). split_and!; [done|lia|done|done].
Qed.

Lemma getField_present e f : has_field e f = true → ∃ o, getField e f = Some o.
Proof. unfold has_field. destruct (getField e f) as [o|]; [by exists o|done]. Qed.

Lemma listen_interval_run b f : m_buff (f_list f) = b → [cap_object b] `prefix_of` fields_of f → (4 ≤ length b)%nat →
  listen_interval f = Some (le16 b 2).
Proof.
  intros Hb [l Hl] H4. unfold listen_interval, field_value, getField, getClass. fold (fields_of f). rewrite Hl.
  cbn [app list_find fmap option_fmap option_map]. rewrite decide_True by done. cbn [fmap option_fmap option_map snd mbind option_bind].
  rewrite (attr_value_run (cap_object b) "listen_interval" 2 (f_list f) 2) by (done || (rewrite Hb; lia)).
  cbn [fst mbind option_bind]. rewrite Hb. destruct b as [|? [|? [|? [|? ?]]]]; cbn in H4; [lia..|done].
Qed.

Lemma swap_at_Permutation off w b : swap_at off w b ≡ₚ b.
Proof.
  unfold swap_at. rewrite reverse_Permutation. rewrite <- (take_drop off b) at 4. f_equiv.
  rewrite <- (take_drop w (drop off b)) at 2. by rewrite drop_drop.
Qed.

Lemma frame_bytes_ok type b f : bytes_ok b → length (frame_bytes type b f) = length b ∧ bytes_ok (frame_bytes type b f).
Proof.
  intros Hb. unfold frame_bytes. destruct (retried type f); [|done]. pose proof (swap_at_Permutation 2 2 b) as Hp.
  split; [by rewrite Hp|unfold bytes_ok; by rewrite Hp].
Qed.

Lemma frame_bytes_behind type b f p : (4 ≤ p)%nat → frame_bytes type b f !! p = b !! p.
Proof.
  intros H4. unfold frame_bytes. destruct (retried type f); [|done].
  destruct (decide (4 ≤ length b)%nat); [rewrite swap_at_lookup, mirror_outside by lia; done|].
  rewrite !lookup_ge_None_2; [done|lia|]. rewrite swap_at_Permutation. lia.
Qed.

Lemma extension_cut_off_behind type b f : bytes_ok b → extension_cut_off (frame_bytes type b f) → extension_cut_off b.
Proof.
  intros Hb (p & H4 & Hp & Hl). exists p. rewrite frame_bytes_behind in Hp by done.
  by rewrite (proj1 (frame_bytes_ok type b f Hb)) in Hl.
Qed.

Lemma valid_swapped f m : m_class_vector m = fields_of f → valid (mkFrame m (f_type f) (f_present f)) = valid f.
Proof.
  intros Hm. unfold valid, has_field, getField, getClass. cbn [f_list f_present]. rewrite Hm. done.
Qed.

(** [parse_frame] on the bytes of a frame. *)
Lemma parse_frame_post type b : bytes_ok b → Z.of_nat (length b) < 2 ^ 63 → (0 < length b)%nat →
  match parse_frame (mkFrame (received b) type ∅) with
  | (None, _) => extension_cut_off b
  | (Some false, f) => length (m_buff (f_list f)) = length b
  | (Some true, f) => frame_readable (frame_bytes type b f) f ∧
      [cap_object (frame_bytes type b f)] `prefix_of` fields_of f ∧ (4 ≤ length b)%nat
  end.
Proof.
  intros Hb Hmax H0. unfold parse_frame. destruct (init_first_run type b Hb Hmax H0) as (ok & f & H1 & Hr).
  rewrite fbind_run, H1. cbn [fst snd]. destruct ok; [|done]. cbn [negb].
  destruct (frame_bytes_ok type b f Hb) as [Hl1 Hb1]. pose proof (extension_cut_off_behind type b f Hb) as Hcut.
  set (b1 := frame_bytes type b f) in *. destruct Hr as [Hok Hcap Hssid H4].
  assert (4 ≤ next_ptr (f_list f))%nat as Hp4.
  { pose proof (chain_before _ _ (cap_object b1) (pp_chain _ _ (fk_prefix _ _ Hok))) as Hle. rewrite <- next_ptr_eq in Hle.
    apply Hle. destruct Hcap as [l Hl]. fold (fields_of f). rewrite Hl. by left. }
  set (f0 := mkFrame (f_list f) (f_type f) ∅).
  pose proof (init_loop_post b1 (length b1 - next_ptr (f_list f)) Hb1 ltac:(lia) f0) as Hloop.
  assert (frame_ok b1 f0) as Hok0 by (by destruct Hok).
  specialize (Hloop Hok0 ltac:(intros flag e _ Hin; set_solver) Hp4 ltac:(done)).
  assert (init f = init_loop (length b1 - next_ptr (f_list f)) f0) as Hinit.
  { unfold init, getRemainingBytes. by rewrite (proj1 (parsed_prefix_buff b1 _ (fk_prefix _ _ Hok) Hb1)). }
  rewrite fbind_run, Hinit. unfold loop_post in Hloop.
  destruct (init_loop _ f0) as [[ok|] f2]; cbn [fst snd] in Hloop |- *; [|by apply Hcut].
  destruct Hloop as [Hok2 Hpr2 Hty2 Hgr2].
  assert (length (m_buff (f_list f2)) = length b) as Hl2.
  { rewrite <- Hl1. apply (parsed_prefix_buff b1 _ (fk_prefix _ _ Hok2) Hb1). }
  destruct ok; [|exact Hl2]. cbn [negb]. rewrite fbind_run. cbn [fst snd]. destruct (valid f2) eqn:Hv; [|exact Hl2]. cbn [negb].
  rewrite fbind_run. unfold swap_once. rewrite (fk_swapped _ _ Hok2). unfold on_list.
  rewrite (swap_restores b1 _ (fk_prefix _ _ Hok2)). cbn [fst snd]. set (f3 := mkFrame _ _ _).
  assert (frame_bytes type b f3 = b1) as Hsame by (unfold b1, frame_bytes, retried, f3; cbn [f_type]; by rewrite Hty2).
  hnf. rewrite Hsame. split_and!; [|exact (transitivity Hcap Hgr2)|lia].
  split; [done|exact (pp_chain _ _ (fk_prefix _ _ Hok2))|exact (pp_ptr _ _ (fk_prefix _ _ Hok2))|exact (fk_fields _ _ Hok2)|exact Hpr2|].
  unfold f3. by rewrite valid_swapped.
Qed.

(** Association frames are parsed safely, whatever a station sends. A frame
    [parse()] returns consists of fields that follow each other inside of the
    buffer, each complete by its class; every bit of [fields_present] has its
    field, the listen interval and the SSID can be read, and the buffer is as it
    was received. With one exception: a reassociation request whose type the
    caller does not know is first parsed as an association request, in place, so
    that the listen interval is returned with its bytes exchanged. The only
    other ends are a result of null and an element with an extended identifier
    at the end of the buffer, whose identifier is read behind it. *)
Theorem assoc_frame_parsed type b : bytes_ok b → Z.of_nat (length b) < 2 ^ 63 →
  match assoc_parse type b with
  | (None, _) => extension_cut_off b
  | (Some None, b') => length b' = length b
  | (Some (Some f), b') =>
    frame_readable b' f ∧ (∃ s, sta_ssid f = Some s) ∧
    if retried type f then b' = swap_at 2 2 b ∧ listen_interval f = Some (be16 (at_ b 2) (at_ b 3))
    else b' = b ∧ listen_interval f = Some (le16 b 2)
  end.
Proof.
  intros Hb Hmax. unfold assoc_parse. destruct (length b =? 0)%nat eqn:H0; [done|]. apply Nat.eqb_neq in H0.
  pose proof (parse_frame_post type b Hb Hmax ltac:(lia)) as Hpost.
  destruct (parse_frame _) as [[[|]|] f]; [|done|done]. destruct Hpost as (Hf & Hcap & H4).
  pose proof (fr_buff _ _ Hf) as Hbuff. pose proof (fr_valid _ _ Hf) as Hv. unfold valid in Hv.
  apply andb_true_iff in Hv as [[_ Hssid]%andb_true_iff _]. destruct (getField_present _ _ Hssid) as [o Ho].
  destruct (list_readable _ f cSSID o _ Hf ltac:(apply unknown_known) Ho eq_refl) as (off & n & Hlist & _).
  pose proof (listen_interval_run _ f Hbuff Hcap) as Hli. rewrite (proj1 (frame_bytes_ok type b f Hb)) in Hli.
  specialize (Hli H4). rewrite Hbuff. split_and!; [done|unfold sta_ssid; rewrite Hlist; by eexists|].
  unfold frame_bytes in *. destruct (retried type f); [|done]. split; [done|]. rewrite Hli. f_equal.
  destruct b as [|? [|? [|? [|? ?]]]]; cbn in H4; [lia..|done].
Qed.

(** ** Frames as they are composed *)

(** An element: its identifier and its contents. *)
Definition element_bytes (x : Z * list Z) : list Z := x.1 :: Z.of_nat (length x.2) :: x.2.

(** The body of an association request, or with the address of the current
    access point of a reassociation request. *)
Definition frame_of (cap : list Z) (ap : option (list Z)) (ssid : list Z) (els : list (Z * list Z)) : list Z :=
  cap ++ default [] ap ++ element_bytes (ID_SSID, ssid) ++ concat (element_bytes <$> els).

(** The class of an element and its bit. *)
Definition class_for (x : Z * list Z) : Elem * option string :=
  match known_field x.1 with
  | Some (e, flag) => (e, Some flag)
  | None => if x.1 =? ID_EID_EXTENSION then extension_field (at_ x.2 0) else (cUnknownField, None)
  end.

(** The contents are those of the class: they fill its members, and only a
    list takes more. *)
Definition fills (e : Elem) (bs : list Z) : bool :=
  match e_tail e with
  | None => (w_ptr (elem_walk e bs 0) =? length bs)%nat
  | Some _ => (w_ptr (elem_walk e bs 0) <=? length bs)%nat
  end.

Record fits (x : Z * list Z) : Prop := {
  fi_bytes : bytes_ok (element_bytes x);
  fi_extension : x.1 = ID_EID_EXTENSION → x.2 ≠ [];
  fi_fills : fills (class_for x).1 (element_bytes x) = true;
}.

(** *** A field further behind *)

Definition shift (p : nat) (x : string * nat) : string * nat := (x.1, (p + x.2)%nat).

Lemma fixed_walk_shift p fs k l s s' :
  w_fields (fixed_walk (mkWalk (p + k) (shift p <$> l) s) fs) = shift p <$> w_fields (fixed_walk (mkWalk k l s') fs).
Proof.
  revert k l s s'. induction fs as [|f fs IH]; intros k l s s'; [done|]. cbn [fixed_walk w_ptr w_fields w_spots].
  rewrite <- Nat.add_assoc. exact (IH (k + ff_size f)%nat ((ff_name f, k) :: l) _ _).
Qed.

Lemma find_field_shift p w w' name : w_fields w' = shift p <$> w_fields w →
  find_field w' name = (λ i, (p + i)%nat) <$> find_field w name.
Proof.
  unfold find_field. intros ->. induction (w_fields w) as [|[n i] l IH]; [done|]. cbn [fmap list_fmap list_find shift fst].
  case_decide; [done|]. cbn in IH. destruct (list_find (λ x, x.1 = name) l) as [[j y]|] eqn:H1; cbn in *.
  - destruct (list_find (λ x, x.1 = name) (shift p <$> l)) as [[j' y']|] eqn:H2; cbn in *; congruence.
  - destruct (list_find (λ x, x.1 = name) (shift p <$> l)) as [[j' y']|] eqn:H2; cbn in *; congruence.
Qed.

Lemma opt_off_shift e p : elem_ok e → e_opts e ≠ [] → opt_off e p = (p + opt_off e 0)%nat.
Proof.
  intros He Hne. pose proof (opt_off_spec e 0) as H0. pose proof (opt_off_spec e p) as Hp. destruct (e_opts e) as [|o os] eqn:Ho; [done|].
  destruct (H0 o He ltac:(by left)) as [F0 _], (Hp o He ltac:(by left)) as [Fp _].
  rewrite (find_field_shift p (fixed_members e 0)) in Fp.
  - rewrite F0 in Fp. cbn in Fp. by injection Fp as <-.
  - unfold fixed_members. pose proof (fixed_walk_shift p (e_fixed e) 0 [] [] []) as H. by rewrite Nat.add_0_r in H.
Qed.

Lemma opts_walk_shift b b' off off' os : (∀ o, o ∈ os → opt_on b' off' o = opt_on b off o) → ∀ p w w',
  w_ptr w' = (p + w_ptr w)%nat → w_ptr (opts_walk b' off' w' os) = (p + w_ptr (opts_walk b off w os))%nat.
Proof.
  intros Hon p. induction os as [|o os IH]; intros w w' Hw; [done|].
  change (opts_walk b' off' w' (o :: os)) with (opts_walk b' off' (opt_walk b' off' w' o) os).
  change (opts_walk b off w (o :: os)) with (opts_walk b off (opt_walk b off w o) os).
  apply IH; [intros; apply Hon; by right|]. cbn [opt_walk w_ptr]. rewrite Hon by (by left). lia.
Qed.

Lemma at_in_middle pre bs post i : (i < length bs)%nat → at_ (pre ++ bs ++ post) (length pre + i) = at_ bs i.
Proof.
  intros Hi. unfold at_. rewrite lookup_app_r by lia. rewrite Nat.add_sub', lookup_app_l by done. done.
Qed.

Lemma elem_walk_shift e pre bs post : elem_ok e → (total (e_fixed e) ≤ length bs)%nat →
  w_ptr (elem_walk e (pre ++ bs ++ post) (length pre)) = (length pre + w_ptr (elem_walk e bs 0))%nat.
Proof.
  intros He Hl. unfold elem_walk. apply opts_walk_shift.
  - intros o Ho. unfold opt_on. cbn [eval_cond].
    rewrite (opt_off_shift e (length pre)) by (done || by intros Hn; rewrite Hn in Ho; apply elem_of_nil in Ho).
    rewrite at_in_middle; [done|]. destruct (opt_off_spec e 0 o He Ho). lia.
  - unfold fixed_members. rewrite !fixed_walk_ptr. cbn. lia.
Qed.

(** An element whose contents are those of its class is taken as a whole. *)
Lemma extent_fills e x pre post : elem_ok e → bytes_ok (element_bytes x) → fills e (element_bytes x) = true →
  let b := pre ++ element_bytes x ++ post in ∃ n,
  elem_extent e b (length pre) = Some n ∧
  (w_ptr (elem_walk e b (length pre)) + n = length pre + length (element_bytes x))%nat.
Proof.
  intros He Hb Hf b. unfold fills in Hf. pose proof (elem_walk_ptr e (element_bytes x) 0) as Hp.
  assert (w_ptr (elem_walk e (element_bytes x) 0) ≤ length (element_bytes x))%nat as Hle.
  { destruct (e_tail e); [by apply Nat.leb_le|]. apply Nat.eqb_eq in Hf. lia. }
  pose proof (elem_walk_shift e pre (element_bytes x) post He ltac:(lia)) as Hsh. fold b in Hsh.
  assert (length b = length pre + length (element_bytes x) + length post)%nat as Hlen.
  { unfold b. rewrite !length_app. lia. }
  unfold elem_extent. rewrite Hsh.
  rewrite (proj2 (Nat.ltb_ge (length b - length pre) _)) by lia.
  rewrite (proj2 (Nat.ltb_ge (length b) _)) by lia. cbn [orb].
  destruct (e_tail e) as [t|] eqn:Ht; [|apply Nat.eqb_eq in Hf; exists 0%nat; split; [done|]; rewrite Hf; lia].
  assert (at_ b (length pre + 1) = Z.of_nat (length x.2)) as -> by (unfold b; by rewrite at_in_middle by (cbn; lia)).
  assert (length (element_bytes x) = 2 + length x.2)%nat as Hex by done.
  apply Nat.leb_le in Hf. rewrite (proj2 (Z.ltb_ge _ 0)), (proj2 (Z.ltb_ge (Z.of_nat (length b)) _)) by lia. cbn [orb].
  eexists. split; [done|]. lia.
Qed.

(** *** The loop over composed elements *)

Lemma class_for_ok x : (class_for x).1 ∈ assoc_fields ∧
  match (class_for x).2 with Some flag => (flag, (class_for x).1) ∈ flag_fields | None => True end.
Proof.
  unfold class_for. destruct (known_field x.1) as [[e flag]|] eqn:Hk; [by apply (known_field_ok x.1)|].
  destruct (_ =? _); [apply extension_field_ok|]. split; [apply unknown_known|done].
Qed.

(** The object [o] is that of the element [x], and takes exactly its bytes. *)
Record element_at (b : list Z) (x : Z * list Z) (o : Object) : Prop := {
  ea_class : o_class o = e_name (class_for x).1;
  ea_end : o_ptr o = (o_start o + length (element_bytes x))%nat;
  ea_bytes : take (length (element_bytes x)) (drop (o_start o) b) = element_bytes x;
}.

Definition marked_by (flag : option string) (f : AssocReqFrame) : AssocReqFrame :=
  match flag with Some flag => marked flag f | None => f end.

(** One turn of the loop. *)
Lemma init_loop_step b fuel f x pre post : bytes_ok b → Z.of_nat (length b) < 2 ^ 63 → frame_ok b f →
  b = pre ++ element_bytes x ++ post → next_ptr (f_list f) = length pre → fits x → ∃ n,
  let f' := marked_by (class_for x).2 (with_field (class_for x).1 b n f) in
  init_loop (S fuel) f = init_loop fuel f' ∧ frame_ok b f' ∧ next_ptr (f_list f') = length (pre ++ element_bytes x).
Proof.
  intros Hb Hmax Hf Hsplit Hp [Hxb Hext Hfill]. destruct (class_for_ok x) as [Hin _].
  destruct (extent_fills _ x pre post (assoc_fields_ok _ Hin) Hxb Hfill) as (n & Hn & Hend). rewrite <- Hsplit in Hn, Hend.
  assert (length b = length pre + (2 + length x.2) + length post)%nat as Hlen by (rewrite Hsplit, !length_app; cbn; lia).
  pose proof (add_field_run b f _ Hb Hmax Hf Hin) as Hadd. rewrite Hp, Hn in Hadd. destruct Hadd as [Hadd Hok].
  exists n. cbv zeta. split_and!; cycle 1.
  { destruct (class_for x).2; [by apply frame_ok_marked|done]. }
  { assert (∀ flag g, next_ptr (f_list (marked_by flag g)) = next_ptr (f_list g)) as -> by (by intros []).
    rewrite with_field_next, Hp, Hend, length_app. done. }
  cbn [init_loop]. rewrite fbind_run, (remaining_run b) by done. cbn [fst snd]. rewrite Hp, (proj2 (Nat.eqb_neq _ _)) by lia.
  rewrite fbind_run, (next_byte_run b) by done. rewrite Hp, Nat.add_0_r.
  assert (b !! length pre = Some x.1) as ->.
  { rewrite Hsplit, lookup_app_r, Nat.sub_diag by done. done. }
  cbn [fst snd]. revert Hadd. unfold class_for in *. destruct (known_field x.1) as [[e flag]|] eqn:Hk; cbn [fst snd marked_by].
  { intros Hadd. rewrite fbind_run, Hadd. cbn [fst snd]. by rewrite fbind_run. }
  destruct (x.1 =? ID_EID_EXTENSION) eqn:Hx.
  - apply Z.eqb_eq in Hx. specialize (Hext Hx). rewrite fbind_run, (next_byte_run b) by done. rewrite Hp.
    assert (b !! (length pre + 2)%nat = Some (at_ x.2 0)) as ->.
    { rewrite Hsplit, lookup_app_r by lia. rewrite Nat.add_sub'. cbn. unfold at_. by destruct x.2. }
    cbn [fst snd]. intros Hadd. rewrite fbind_run, Hadd. cbn [fst snd]. rewrite fbind_run.
    by destruct (extension_field (at_ x.2 0)) as [e [flag|]].
  - cbn [fst snd]. intros Hadd. by rewrite fbind_run, Hadd.
Qed.

Lemma init_loop_run b els : bytes_ok b → Z.of_nat (length b) < 2 ^ 63 → Forall fits els → ∀ fuel pre f,
  frame_ok b f → b = pre ++ concat (element_bytes <$> els) → next_ptr (f_list f) = length pre →
  (length b - length pre ≤ fuel)%nat → ∃ f' objs,
  init_loop fuel f = (Some true, f') ∧ fields_of f' = fields_of f ++ objs ∧ Forall2 (element_at b) els objs ∧
  ∀ flag, flag ∈ f_present f' ↔ flag ∈ f_present f ∨ ∃ x, x ∈ els ∧ (class_for x).2 = Some flag.
Proof.
  intros Hb Hmax Hall. induction Hall as [|x els Hx Hall IH]; intros fuel pre f Hf Hsplit Hp Hfuel; cbn [fmap list_fmap concat] in Hsplit.
  - exists f, []. rewrite app_nil_r in Hsplit. subst pre. split_and!; [|by rewrite app_nil_r|constructor|].
    + destruct fuel; cbn [init_loop]; rewrite fbind_run, (remaining_run b) by done; cbn [fst snd]; by rewrite Hp, Nat.sub_diag.
    + intros flag. split; [by left|]. intros [|(x & Hx & _)]; [done|by apply elem_of_nil in Hx].
  - assert (length b = length pre + (2 + length x.2) + length (concat (element_bytes <$> els)))%nat as Hlen
      by (rewrite Hsplit, !length_app; cbn; lia).
    destruct fuel as [|fuel]; [lia|].
    destruct (init_loop_step b fuel f x pre _ Hb Hmax Hf Hsplit Hp Hx) as (n & Hstep & Hok & Hnext). cbv zeta in *.
    set (f1 := marked_by _ _) in *.
    destruct (IH fuel (pre ++ element_bytes x) f1 Hok) as (f' & objs & Hrun & Hfields & Hobjs & Hflags).
    { by rewrite <- app_assoc. } { done. } { rewrite length_app. cbn. lia. }
    exists f', (elem_object (class_for x).1 b (length pre) n :: objs). split_and!.
    + by rewrite Hstep.
    + rewrite Hfields. unfold f1. assert (∀ flag g, fields_of (marked_by flag g) = fields_of g) as -> by (by intros []).
      unfold with_field. cbn [fields_of f_list m_class_vector]. rewrite Hp, <- app_assoc. done.
    + constructor; [|done]. split; [done| |].
      * cbn [elem_object o_ptr o_start]. unfold f1 in Hnext.
        assert (∀ flag g, next_ptr (f_list (marked_by flag g)) = next_ptr (f_list g)) as Hm by (by intros []).
        rewrite Hm, with_field_next, Hp, length_app in Hnext. done.
      * cbn [elem_object o_start]. rewrite Hsplit, drop_app_length. apply take_app_length.
    + intros flag. rewrite Hflags. unfold f1. destruct (class_for x).2 as [fl|] eqn:Hc; cbn [marked_by marked f_present with_field].
      * rewrite elem_of_union, elem_of_singleton. split.
        -- intros [[->|H]|(y & Hy & Hyf)]; [right; exists x; split; [by left|done]|by left|right; exists y; split; [by right|done]].
        -- intros [H|(y & [->|Hy]%elem_of_cons & Hyf)]; [by left; right|left; left; congruence|right; by exists y].
      * split.
        -- intros [H|(y & Hy & Hyf)]; [by left|right; exists y; split; [by right|done]].
        -- intros [H|(y & [->|Hy]%elem_of_cons & Hyf)]; [by left|congruence|right; by exists y].
Qed.

(** *** The first fields of a composed frame *)

Lemma add_ssid_found b f pre ssid post : bytes_ok b → Z.of_nat (length b) < 2 ^ 63 → frame_ok b f →
  b = pre ++ element_bytes (ID_SSID, ssid) ++ post → next_ptr (f_list f) = length pre →
  add_ssid_field f = (Some true, with_field cSSID b (length ssid) f) ∧ frame_ok b (with_field cSSID b (length ssid) f).
Proof.
  intros Hb Hmax Hf Hsplit Hp.
  assert (length b = length pre + (2 + length ssid) + length post)%nat as Hlen by (rewrite Hsplit, !length_app; cbn; lia).
  assert (bytes_ok (element_bytes (ID_SSID, ssid))) as Hxb.
  { rewrite Hsplit in Hb. by apply Forall_app in Hb as [_ [Hb _]%Forall_app]. }
  destruct (extent_fills cSSID (ID_SSID, ssid) pre post (assoc_fields_ok cSSID ltac:(apply unknown_known)) Hxb) as (n & Hn & Hend).
  { unfold fills. cbn [e_tail cSSID]. change (w_ptr (elem_walk cSSID _ 0)) with 2%nat. apply Nat.leb_le. cbn. lia. }
  rewrite <- Hsplit in Hn, Hend. change (w_ptr (elem_walk cSSID b (length pre))) with (length pre + 1 + 1)%nat in Hend.
  cbn [element_bytes length fst snd] in Hend. assert (n = length ssid) as -> by lia.
  pose proof (add_field_run b f cSSID Hb Hmax Hf ltac:(apply unknown_known)) as Hadd. rewrite Hp, Hn in Hadd.
  destruct Hadd as [Hadd Hok]. split; [|done]. unfold add_ssid_field.
  rewrite fbind_run, (remaining_run b) by done. cbn [fst snd]. rewrite Hp, (proj2 (Nat.eqb_neq _ _)) by lia.
  rewrite fbind_run, (next_byte_run b) by done. rewrite Hp, Nat.add_0_r.
  assert (b !! length pre = Some ID_SSID) as ->; [by rewrite Hsplit, lookup_app_r, Nat.sub_diag by done|done].
Qed.

(** The objects of the first fields. *)
Definition first_objects (b : list Z) (ap : option (list Z)) (ssid : list Z) : list Object :=
  [cap_object b] ++
  match ap with None => [] | Some _ => [elem_object cCurrentApAddress b 4 0] end ++
  [elem_object cSSID b (match ap with None => 4 | Some _ => 10 end) (length ssid)].

Definition frame_type (ap : option (list Z)) : Z :=
  match ap with None => ASSOCIATION_REQUEST | Some _ => REASSOCIATION_REQUEST end.

(** The caller's type is that of the frame, or not known when the frame is an
    association request. *)
Definition type_agrees (type : Z) (ap : option (list Z)) : Prop :=
  match ap with None => type ≠ REASSOCIATION_REQUEST | Some a => type = REASSOCIATION_REQUEST ∧ length a = 6%nat end.

Lemma ap_extent b : (10 ≤ length b)%nat → elem_extent cCurrentApAddress b 4 = Some 0%nat.
Proof.
  intros Hl. unfold elem_extent. change (w_ptr (elem_walk cCurrentApAddress b 4)) with 10%nat.
  change (total (e_fixed cCurrentApAddress)) with 6%nat. by rewrite !(proj2 (Nat.ltb_ge _ _)) by lia.
Qed.

Lemma init_first_found type cap ap ssid els : let b := frame_of cap ap ssid els in
  bytes_ok b → Z.of_nat (length b) < 2 ^ 63 → length cap = 4%nat → type_agrees type ap → ∃ f,
  init_first_fields (mkFrame (received b) type ∅) = (Some true, f) ∧ frame_ok b f ∧ f_type f = frame_type ap ∧
  fields_of f = first_objects b ap ssid ∧
  next_ptr (f_list f) = length (cap ++ default [] ap ++ element_bytes (ID_SSID, ssid)).
Proof.
  intros b Hb Hmax Hcap Hty. set (f0 := mkFrame (received b) type ∅).
  assert (length b = 4 + length (default [] ap) + (2 + length ssid) + length (concat (element_bytes <$> els)))%nat as Hlen.
  { unfold b, frame_of. rewrite !length_app, Hcap. cbn. lia. }
  assert (4 < length b)%nat as H4 by lia. pose proof (add_capabilities_run b f0 eq_refl Hb Hmax ltac:(lia)) as Hadd.
  rewrite (proj2 (Nat.ltb_ge _ _)), (proj2 (Nat.eqb_neq _ _)) in Hadd by lia. cbn [negb] in Hadd.
  pose proof (cap_frame_ok b f0 Hb Hmax ltac:(lia)) as Hc. unfold init_first_fields. fold f0. cbn [f_type f0].
  destruct ap as [a|]; cbn [type_agrees default frame_type first_objects] in *.
  - destruct Hty as [-> Ha]. change (REASSOCIATION_REQUEST =? ASSOCIATION_REQUEST) with false.
    change (REASSOCIATION_REQUEST =? REASSOCIATION_REQUEST) with true. cbv iota. unfold init_reassoc_frame.
    rewrite fbind_run, Hadd. cbn [fst snd].
    pose proof (add_field_run b (cap_frame b f0) cCurrentApAddress Hb Hmax Hc ltac:(apply unknown_known)) as Hap.
    change (next_ptr (f_list (cap_frame b f0))) with 4%nat in Hap. cbn [from_option id] in Hlen.
    rewrite ap_extent in Hap by lia. destruct Hap as [Hap Hok]. rewrite fbind_run, Hap. cbn [fst snd].
    destruct (add_ssid_found b _ (cap ++ a) ssid (concat (element_bytes <$> els)) Hb Hmax Hok) as [Hs Hok2].
    { unfold b, frame_of. cbn. by rewrite <- !app_assoc. } { rewrite length_app, Hcap, Ha. done. }
    eexists. split_and!; [exact Hs|done|done|done|]. rewrite with_field_next, !length_app, Hcap. cbn [from_option id]. rewrite Ha. done.
  - assert (∀ t, ∃ f, (init_assoc_frame (mkFrame (received b) t ∅)) = (Some true, f) ∧ frame_ok b f ∧ f_type f = t ∧
      fields_of f = first_objects b None ssid ∧ next_ptr (f_list f) = length (cap ++ [] ++ element_bytes (ID_SSID, ssid))) as Hassoc.
    { intros t. unfold init_assoc_frame. set (ft := mkFrame _ t _). rewrite fbind_run.
      pose proof (add_capabilities_run b ft eq_refl Hb Hmax ltac:(lia)) as ->.
      rewrite (proj2 (Nat.ltb_ge _ _)), (proj2 (Nat.eqb_neq _ _)) by lia. cbn [negb fst snd].
      destruct (add_ssid_found b (cap_frame b ft) cap ssid (concat (element_bytes <$> els)) Hb Hmax) as [Hs Hok2].
      { by apply cap_frame_ok; [..|lia]. } { done. } { by rewrite Hcap. }
      eexists. split_and!; [exact Hs|done|done|done|]. rewrite with_field_next, !length_app, Hcap. done. }
    destruct (Hassoc type) as (f & Hrun & Hok & Hft & Hfs & Hn).
    destruct (type =? ASSOCIATION_REQUEST) eqn:Ta; [apply Z.eqb_eq in Ta; exists f; split_and!; [done|done|congruence|done|done]|].
    rewrite (proj2 (Z.eqb_neq _ _)) by done. rewrite fbind_run. unfold f0. rewrite Hrun. cbn [fst snd]. rewrite fbind_run. cbn [set_type fst snd].
    eexists. split_and!; [done|by destruct Hok|done|done|done].
Qed.

(** *** Validity of a composed frame *)

Definition ID_QOS_CAPABILITY : Z := 0x2e.
Definition ID_QOS_TRAFFIC_CAP : Z := 0x59.

(** [valid()] looks for the QoS traffic capability when there is a QoS
    capability. *)
Definition qos_complete (els : list (Z * list Z)) : bool :=
  negb (existsb (λ x, x.1 =? ID_QOS_CAPABILITY) els) || existsb (λ x, x.1 =? ID_QOS_TRAFFIC_CAP) els.

Lemma class_for_qos x :
  bool_decide (e_name (class_for x).1 = "cQosTrafficCap") = (x.1 =? ID_QOS_TRAFFIC_CAP) ∧
  bool_decide ((class_for x).2 = Some "qos_capability") = (x.1 =? ID_QOS_CAPABILITY).
Proof.
  unfold class_for. destruct (known_field x.1) as [[e flag]|] eqn:Hk.
  - apply known_field_elem in Hk. cbn [fst snd].
    assert (forallb (λ y, Bool.eqb (bool_decide (e_name y.2.1 = "cQosTrafficCap")) (y.1 =? ID_QOS_TRAFFIC_CAP) &&
      Bool.eqb (bool_decide (Some y.2.2 = Some "qos_capability")) (y.1 =? ID_QOS_CAPABILITY)) field_switch = true) as Hall by (by vm_compute).
    rewrite forallb_forall in Hall. apply list_elem_of_In, Hall, andb_true_iff in Hk as [H1%Bool.eqb_prop H2%Bool.eqb_prop]. done.
  - assert (x.1 ≠ ID_QOS_TRAFFIC_CAP ∧ x.1 ≠ ID_QOS_CAPABILITY) as [H1 H2] by (split; intros Hx; rewrite Hx in Hk; by vm_compute in Hk).
    rewrite (proj2 (Z.eqb_neq _ ID_QOS_TRAFFIC_CAP)), (proj2 (Z.eqb_neq _ ID_QOS_CAPABILITY)) by done. destruct (x.1 =? ID_EID_EXTENSION); [|split; by vm_compute].
    unfold extension_field. destruct (_ =? EXTID_HE_CAPABILITIES); split; by vm_compute.
Qed.

Section Found.
Context (b : list Z) (first objs : list Object) (els : list (Z * list Z)) (f : AssocReqFrame).
Context (Hfields : fields_of f = first ++ objs) (Hobjs : Forall2 (element_at b) els objs).
Context (Hflags : ∀ flag, flag ∈ f_present f ↔ ∃ x, x ∈ els ∧ (class_for x).2 = Some flag).

Lemma element_has_field x : x ∈ els → has_field (class_for x).1 f = true.
Proof using Hfields Hobjs.
  intros [i Hi]%list_elem_of_lookup_1. destruct (Forall2_lookup_l _ _ _ _ _ Hobjs Hi) as (o & Ho & He).
  apply has_field_elem. exists o. rewrite Hfields. split; [|by apply He]. apply elem_of_app. right. by eapply list_elem_of_lookup_2.
Qed.

Lemma found_present : present_ok f.
Proof using Hfields Hobjs Hflags.
  intros flag e Hin (x & Hx & Hfl)%Hflags. destruct (class_for_ok x) as [_ Hc]. rewrite Hfl in Hc.
  rewrite (flag_field_unique _ _ _ Hin Hc). by apply element_has_field.
Qed.

Lemma qos_flag : bool_decide ("qos_capability" ∈ f_present f) = existsb (λ x, x.1 =? ID_QOS_CAPABILITY) els.
Proof using Hflags.
  apply eq_bool_prop_intro. rewrite !Is_true_true, bool_decide_eq_true, Hflags, existsb_exists. setoid_rewrite <- list_elem_of_In.
  split; intros (x & Hx & H); exists x; (split; [done|]); destruct (class_for_qos x) as [_ Hq].
  - by rewrite <- Hq, bool_decide_eq_true.
  - by rewrite <- Hq, bool_decide_eq_true in H.
Qed.

Lemma qos_field : Forall (λ o, o_class o ≠ "cQosTrafficCap") first →
  has_field cQosTrafficCap f = existsb (λ x, x.1 =? ID_QOS_TRAFFIC_CAP) els.
Proof using Hfields Hobjs.
  intros Hfirst. apply eq_bool_prop_intro. rewrite !Is_true_true, has_field_elem, existsb_exists. setoid_rewrite <- list_elem_of_In.
  rewrite Hfields. split.
  - intros (o & [Ho|Ho]%elem_of_app & Hc); [rewrite Forall_forall in Hfirst; by destruct (Hfirst o Ho)|].
    apply list_elem_of_lookup_1 in Ho as [i Hi]. destruct (Forall2_lookup_r _ _ _ _ _ Hobjs Hi) as (x & Hx & He).
    exists x. split; [by eapply list_elem_of_lookup_2|]. rewrite <- (proj1 (class_for_qos x)). apply bool_decide_eq_true.
    rewrite <- (ea_class _ _ _ He). exact Hc.
  - intros (x & Hx & Hq). rewrite <- (proj1 (class_for_qos x)) in Hq. apply bool_decide_eq_true in Hq.
    pose proof (element_has_field x Hx) as Hh. apply has_field_elem in Hh as (o & Ho & Hc). exists o. rewrite Hfields in Ho.
    split; [done|]. by rewrite Hc.
Qed.

Lemma valid_found : has_field cCapInfoDmgSta f = true → has_field cSSID f = true →
  Forall (λ o, o_class o ≠ "cQosTrafficCap") first → valid f = qos_complete els.
Proof using Hfields Hobjs Hflags.
  intros Hc Hs Hfirst. unfold valid, qos_complete. rewrite Hc, Hs. cbn [andb].
  rewrite <- qos_flag, <- qos_field by done.
  assert (∀ flag e, (flag, e) ∈ flag_fields → negb (bool_decide (flag ∈ f_present f)) || has_field e f = true) as Hall.
  { intros flag e Hin. case_bool_decide as Hp; [|done]. cbn. by eapply found_present. }
  assert (Forall (λ x, x.1 ≠ "qos_capability" → x ∈ flag_fields) checked_fields) as Hsub.
  { unfold checked_fields. repeat (apply Forall_cons; split; [intros ?; try done; unfold flag_fields, field_switch; cbn;
      repeat (apply elem_of_cons; first [by left|right])|]). constructor. }
  apply eq_bool_prop_intro. rewrite !Is_true_true, forallb_forall. split.
  - intros H. apply (H ("qos_capability", cQosTrafficCap)). unfold checked_fields. cbn. auto 10.
  - intros H [flag e] Hin%list_elem_of_In. rewrite Forall_forall in Hsub. cbn [fst snd].
    destruct (decide (flag = "qos_capability")) as [->|Hne]; [|apply Hall, (Hsub _ Hin); done].
    assert (e = cQosTrafficCap) as ->; [|done].
    unfold checked_fields in Hin. repeat (apply elem_of_cons in Hin as [Hin|Hin]; [by simplify_eq|]). by apply elem_of_nil in Hin.
Qed.
End Found.

(** What [parse()] found of a composed frame. *)
Record frame_found (cap : list Z) (ap : option (list Z)) (ssid : list Z) (els : list (Z * list Z)) (b : list Z)
    (f : AssocReqFrame) : Prop := {
  fo_type : f_type f = frame_type ap;
  fo_interval : listen_interval f = Some (le16 cap 2);
  fo_ssid : sta_ssid f = Some (until_null ssid);
  fo_elements : ∃ objs, fields_of f = first_objects b ap ssid ++ objs ∧ Forall2 (element_at b) els objs;
  fo_flags : ∀ flag, flag ∈ f_present f ↔ ∃ x, x ∈ els ∧ (class_for x).2 = Some flag;
}.

Lemma first_has b ap ssid objs f : fields_of f = first_objects b ap ssid ++ objs →
  has_field cCapInfoDmgSta f = true ∧ has_field cSSID f = true ∧
  Forall (λ o, o_class o ≠ "cQosTrafficCap") (first_objects b ap ssid).
Proof.
  intros Hf. split_and!.
  - apply has_field_elem. exists (cap_object b). rewrite Hf. split; [by left|done].
  - apply has_field_elem. rewrite Hf. unfold first_objects.
    exists (elem_object cSSID b (match ap with None => 4 | Some _ => 10 end) (length ssid)). split; [set_solver|done].
  - unfold first_objects. destruct ap; by repeat constructor.
Qed.

(** The SSID of a composed frame. *)
Lemma found_ssid b f cap ap ssid els objs : b = frame_of cap ap ssid els → m_buff (f_list f) = b →
  length (cap ++ default [] ap) = (match ap with None => 4 | Some _ => 10 end)%nat →
  fields_of f = first_objects b ap ssid ++ objs → sta_ssid f = Some (until_null ssid).
Proof.
  intros Hb Hm Hlen Hf. set (p := (match ap with None => 4 | Some _ => 10 end)%nat) in *.
  assert (getField cSSID f = Some (elem_object cSSID b p (length ssid))) as Hg.
  { unfold getField, getClass. fold (fields_of f). rewrite Hf. unfold first_objects, p. destruct ap; reflexivity. }
  assert (b = (cap ++ default [] ap) ++ (ID_SSID :: Z.of_nat (length ssid) :: ssid) ++ concat (element_bytes <$> els)) as Hsplit.
  { rewrite Hb. unfold frame_of. by rewrite <- app_assoc. }
  assert (length b = p + (2 + length ssid) + length (concat (element_bytes <$> els)))%nat as Hl.
  { rewrite Hsplit, !length_app, <- length_app, Hlen. cbn. lia. }
  unfold sta_ssid, field_list. rewrite Hg. cbn [mbind option_bind e_tail cSSID fst].
  change (member (elem_object cSSID b p (length ssid)) "ssid") with (Some (p + 1 + 1)%nat). cbn [mbind option_bind].
  change (o_ptr (elem_object cSSID b p (length ssid))) with (p + 1 + 1 + length ssid)%nat. rewrite Nat.add_sub'.
  rewrite (attr_value_run _ "ssid" (length ssid) (f_list f) (p + 1 + 1)) by (done || (rewrite Hm; lia)). cbn [fst fmap option_fmap option_map].
  do 2 f_equal. rewrite Hm, Hsplit, <- !drop_drop, <- Hlen, drop_app_length. cbn [drop app]. apply take_app_length.
Qed.

(** [parse_frame] on a composed frame. *)
Lemma parse_frame_found type cap ap ssid els : let b := frame_of cap ap ssid els in
  bytes_ok b → Z.of_nat (length b) < 2 ^ 63 → length cap = 4%nat → type_agrees type ap → Forall fits els → ∃ f objs,
  parse_frame (mkFrame (received b) type ∅) = (Some (qos_complete els), f) ∧
  (qos_complete els = true → m_buff (f_list f) = b) ∧
  f_type f = frame_type ap ∧ fields_of f = first_objects b ap ssid ++ objs ∧ Forall2 (element_at b) els objs ∧
  (∀ flag, flag ∈ f_present f ↔ ∃ x, x ∈ els ∧ (class_for x).2 = Some flag).
Proof.
  intros b Hb Hmax Hcap Hty Hfit. destruct (init_first_found type cap ap ssid els Hb Hmax Hcap Hty) as (f & Hfirst & Hok & Hft & Hfs & Hn).
  fold b in Hfirst, Hok, Hfs. set (pre := cap ++ _) in Hn. set (f0 := mkFrame (f_list f) (f_type f) ∅).
  assert (frame_ok b f0) as Hok0 by (by destruct Hok).
  assert (b = pre ++ concat (element_bytes <$> els)) as Hsplit by (unfold b, frame_of, pre; by rewrite <- !app_assoc).
  assert (getRemainingBytes (f_list f) = length b - length pre)%nat as Hrem.
  { unfold getRemainingBytes. by rewrite Hn, (proj1 (parsed_prefix_buff b _ (fk_prefix _ _ Hok) Hb)). }
  pose proof (init_loop_post b (getRemainingBytes (f_list f)) Hb Hmax f0 Hok0) as Hpost.
  destruct (init_loop_run b els Hb Hmax Hfit (getRemainingBytes (f_list f)) pre f0 Hok0 Hsplit Hn) as (f2 & objs & Hrun & Hfields & Hobjs & Hflags).
  { by rewrite Hrem. }
  rewrite Hrun in Hpost. destruct Hpost as [Hok2 _ Hty2 _]; cbn [fst snd] in *.
  { intros flag e _ Hin. set_solver. }
  { cbn [f0 f_list]. rewrite Hn. unfold pre. rewrite length_app, Hcap. lia. }
  { cbn [f0 f_list]. by rewrite Hrem, Hn. }
  assert (fields_of f2 = first_objects b ap ssid ++ objs) as Hf2 by (by rewrite Hfields, <- Hfs).
  assert (∀ flag, flag ∈ f_present f2 ↔ ∃ x, x ∈ els ∧ (class_for x).2 = Some flag) as Hfl2.
  { intros flag. rewrite Hflags. cbn [f0 f_present]. set_solver. }
  destruct (first_has b ap ssid objs f2 Hf2) as (Hc & Hs & Hq).
  pose proof (valid_found b _ objs els f2 Hf2 Hobjs Hfl2 Hc Hs Hq) as Hv.
  unfold parse_frame. rewrite fbind_run, Hfirst. cbn [fst snd negb]. assert (init f = (Some true, f2)) as Hinit by exact Hrun.
  rewrite fbind_run, Hinit. cbn [fst snd negb]. rewrite fbind_run. cbn [fst snd]. rewrite Hv. destruct (qos_complete els); cbn [negb].
  - rewrite fbind_run. unfold swap_once. rewrite (fk_swapped _ _ Hok2). unfold on_list.
    rewrite (swap_restores b _ (fk_prefix _ _ Hok2)). cbn [fst snd]. rewrite fret_run.
    eexists _, objs. split_and!; [done|done|by rewrite <- Hft|done|done|done].
  - rewrite fret_run. exists f2, objs. split_and!; [done|done|by rewrite Hty2|done|done|done].
Qed.

