(* ===== verification/PhyRates.v ===== *)
(** * Rates

    The rate tables of [son_wireless_utils.cpp] and what is computed from them:
    the modulation of a rate, and the estimates of signal strength and rate of a
    station. An index outside of a table and [at()] of a missing key are faults.
    Rates are in 100 kbit/s, signal strengths of the table in 0.1 dBm; a
    rate that is handed over in floating point is taken as an integer, and the
    results in floating point are integers. *)

From S2P Require Import Prelude Channels.

(** ** Capabilities of a station *)

(** The members of [message::sRadioCapabilities]. *)
Module Cap.
Inductive t :=
  | ht_mcs | vht_mcs | he_mcs | ht_ss | vht_ss | he_ss | ht_bw | vht_bw | he_bw | ht_low_bw_short_gi
  | ht_high_bw_short_gi | vht_low_bw_short_gi | vht_high_bw_short_gi | ht_sm_power_save | ant_num | wifi_standard
  | default_short_gi | default_mcs | btm_supported | nr_enabled | cell_capa | valid | rrm_supported
  | band_2g_capable | band_5g_capable | band_6g_capable | max_ch_width | phy_mode | max_mcs | max_tx_power
  | link_meas | beacon_report_passive | beacon_report_active | beacon_report_table | lci_meas | fmt_range_report
  | mumimo_supported | max_streams | vht_su_beamformer | vht_mu_beamformer | he_su_beamformer | he_su_beamformee
  | he_mu_beamformer | he_beamformee_sts_less_80mhz | he_beamformee_sts_great_80mhz | ul_mu_mimo
  | ul_mu_mimo_max_users | dl_mu_mimo_max_users | ul_mu_mimo_ofdma | dl_mu_mimo_ofdma | ul_ofdma | dl_ofdma
  | ul_ofdma_max_users | dl_ofdma_max_users | twt_requester | twt_responder.
#[global] Instance t_eq_dec : EqDecision t.
Proof. solve_decision. Defined.
End Cap.

(** The values of the members, and those of a new object. *)
Definition sRadioCapabilities : Type := Cap.t → Z.
Definition no_capabilities : sRadioCapabilities := λ _, 0.
Definition set (m : Cap.t) (v : Z) (c : sRadioCapabilities) : sRadioCapabilities :=
  λ m', if decide (m' = m) then v else c m'.

Definition STANDARD_A : Z := 0x01.
Definition STANDARD_B : Z := 0x02.
Definition STANDARD_G : Z := 0x04.
Definition STANDARD_N : Z := 0x08.
Definition STANDARD_AC : Z := 0x10.
Definition STANDARD_AX : Z := 0x20.

(** ** The tables *)

Record sPhyRateTableValues := mkValues { gi_long_rate : Z; gi_short_rate : Z; rssi : Z }.
Record sPhyRateTableEntry := mkEntry { tx_power_2_4 : Z; tx_power_5 : Z; bw_values : list (Z * sPhyRateTableValues) }.

(** An entry with its values for 20, 40, 80 and 160 MHz. *)
Definition entry (tx24 tx5 : Z) (v20 v40 v80 v160 : Z * Z * Z) : sPhyRateTableEntry :=
  let v x := mkValues x.1.1 x.1.2 x.2 in
  mkEntry tx24 tx5 [(bw_val BANDWIDTH_20, v v20); (bw_val BANDWIDTH_40, v v40); (bw_val BANDWIDTH_80, v v80);
                    (bw_val BANDWIDTH_160, v v160)].

(** By antenna mode and MCS. *)
Definition phy_rate_table : list (list sPhyRateTableEntry) := [
    [ entry 18 16 (65, 72, -892) (135, 150, -860) (293, 325, -824) (585, 650, -794);
      entry 18 16 (130, 144, -865) (270, 300, -841) (585, 650, -805) (1170, 1300, -775);
      entry 17 15 (195, 217, -808) (405, 450, -787) (878, 975, -756) (1175, 1950, -726);
      entry 17 15 (260, 289, -811) (540, 600, -790) (1170, 1300, -753) (2340, 2600, -723);
      entry 17 15 (390, 433, -755) (810, 900, -727) (1755, 1950, -698) (3510, 3900, -668);
      entry 17 15 (520, 578, -717) (1080, 1200, -686) (2340, 2600, -656) (4680, 5200, -626);
      entry 17 14 (585, 650, -698) (1215, 1350, -672) (2633, 2925, -641) (5265, 5850, -611);
      entry 16 13 (650, 722, -673) (1350, 1500, -647) (2925, 3250, -632) (5850, 6500, -602);
      entry 0 10 (780, 867, -644) (1620, 1800, -619) (3510, 3900, -587) (7020, 7800, -557);
      entry 0 8 (0, 0, 0) (1800, 2000, -599) (3900, 4333, -558) (7800, 8667, -528) ];
    [ entry 18 16 (65, 72, -912) (135, 150, -894) (293, 325, -855) (585, 650, -825);
      entry 18 16 (130, 144, -900) (270, 300, -879) (585, 650, -840) (1170, 1300, -810);
      entry 17 15 (195, 217, -869) (405, 450, -843) (878, 975, -805) (1175, 1950, -775);
      entry 17 15 (260, 289, -858) (540, 600, -831) (1170, 1300, -792) (2340, 2600, -762);
      entry 17 15 (390, 433, -810) (810, 900, -785) (1755, 1950, -748) (3510, 3900, -718);
      entry 17 15 (520, 578, -773) (1080, 1200, -742) (2340, 2600, -704) (4680, 5200, -674);
      entry 17 14 (585, 650, -756) (1215, 1350, -729) (2633, 2925, -692) (5265, 5850, -662);
      entry 16 13 (650, 722, -735) (1350, 1500, -709) (2925, 3250, -684) (5850, 6500, -654);
      entry 0 10 (780, 867, -699) (1620, 1800, -674) (3510, 3900, -637) (7020, 7800, -607);
      entry 0 8 (0, 0, 0) (1800, 2000, -659) (3900, 4333, -614) (7800, 8667, -584) ];
    [ entry 18 16 (130, 144, -890) (270, 300, -861) (585, 650, -834) (1170, 1300, -804);
      entry 18 16 (260, 288, -855) (540, 600, -828) (1170, 1300, -795) (2340, 2600, -765);
      entry 17 15 (390, 434, -815) (810, 900, -784) (1755, 1950, -756) (3510, 3900, -726);
      entry 17 15 (520, 578, -774) (1080, 1200, -755) (2340, 2600, -718) (4680, 5200, -688);
      entry 17 15 (780, 866, -720) (1620, 1800, -699) (3510, 3900, -669) (7020, 7800, -639);
      entry 17 15 (1040, 1156, -657) (2160, 2400, -640) (4680, 5200, -604) (9360, 10400, -574);
      entry 17 14 (1170, 1300, -648) (2430, 2700, -628) (5265, 5850, -594) (10530, 11700, -564);
      entry 16 13 (1300, 1444, -634) (2700, 3000, -617) (5850, 6500, -574) (11700, 13000, -544);
      entry 0 10 (1560, 1733, -581) (3240, 3600, -584) (7020, 7800, -525) (14040, 15600, -495);
      entry 0 8 (0, 0, 0) (3600, 4000, -556) (7800, 8666, -497) (15600, 17333, -467) ] ].

Definition ANT_MODE_1X1_SS1 : nat := 0.
Definition ANT_MODE_2X2_SS2 : nat := 2.

(** [phy_rate_table[ant_mode][mcs]], and [bw_values.find(bw)] of it. *)
Definition table_entry (ant_mode mcs : nat) : option sPhyRateTableEntry := phy_rate_table !! ant_mode ≫= (.!! mcs).
Definition find_bw (bw : Z) (e : sPhyRateTableEntry) : option sPhyRateTableValues :=
  snd <$> (snd <$> list_find (λ x, x.1 = bw) (bw_values e)).

(** ** The modulation of a rate *)

(** What the loop of [get_mcs_from_rate] keeps: [nearest_diff], [mcs] and
    [short_gi]. *)
Record Nearest := mkNearest { nearest_diff : Z; n_mcs : Z; n_short_gi : Z }.

Definition nearer (rate r mcs short_gi : Z) (n : Nearest) : Nearest :=
  let diff := u16 (Z.abs (rate - r)) in
  if diff <? nearest_diff n then mkNearest diff mcs short_gi else n.

(** The loop over [mcs_idx] from [i] on; the result of the function with what
    it assigned. *)
Fixpoint mcs_loop (count i : nat) (rate : Z) (ant_mode : nat) (bw : Z) (n : Nearest) : option (bool * Nearest) :=
  match count with
  | O => Some (false, n)
  | S count =>
    e ← table_entry ant_mode i;
    match find_bw bw e with
    | None => mcs_loop count (S i) rate ant_mode bw n
    | Some v =>
      if gi_short_rate v =? rate then Some (true, mkNearest (nearest_diff n) (Z.of_nat i) 1)
      else if gi_long_rate v =? rate then Some (true, mkNearest (nearest_diff n) (Z.of_nat i) 0)
      else
        mcs_loop count (S i) rate ant_mode bw
          (nearer rate (gi_long_rate v) (Z.of_nat i) 0 (nearer rate (gi_short_rate v) (Z.of_nat i) 1 n))
    end
  end.

Definition get_mcs_from_rate (rate : Z) (ant_mode : nat) (bw mcs short_gi : Z) : option (bool * Nearest) :=
  mcs_loop 8 0 rate ant_mode bw (mkNearest 0xFFFF mcs short_gi).

(** ** Estimates *)

Definition ANT_1X1 : Z := 1.
Definition ANT_3X3 : Z := 3.
Definition ANT_4X4 : Z := 4.

(** [int(ceil(x / 10.0))]. *)
Definition ceil_div10 (x : Z) : Z := - (- x / 10).

Inductive eEstimationStatus := ESTIMATION_SUCCESS | ESTIMATION_FAILURE_BELOW_RANGE | ESTIMATION_FAILURE_INVALID_RSSI.
Record sPhyUlParams := mkUlParams { ul_tx_power : Z; ul_rssi : Z; ul_status : eEstimationStatus }.

(** The limits both estimates start with. *)
Definition max_ant_mode (c : sRadioCapabilities) : nat :=
  if c Cap.ant_num =? ANT_1X1 then ANT_MODE_1X1_SS1 else ANT_MODE_2X2_SS2.
Definition uses_ac (c : sRadioCapabilities) (is_5ghz : bool) : bool :=
  is_5ghz && negb (Z.land (c Cap.wifi_standard) STANDARD_AC =? 0).
Definition max_mcs_of (c : sRadioCapabilities) (is_5ghz : bool) : Z :=
  if uses_ac c is_5ghz then c Cap.vht_mcs else c Cap.ht_mcs.
Definition max_bw_of (c : sRadioCapabilities) (ap_bw : Z) (is_5ghz : bool) : Z :=
  let max_bw := if uses_ac c is_5ghz then c Cap.vht_bw else c Cap.ht_bw in
  let max_bw := if (ap_bw <? max_bw) || (max_bw =? bw_val BANDWIDTH_UNKNOWN) then ap_bw else max_bw in
  if bw_val BANDWIDTH_80 <? max_bw then bw_val BANDWIDTH_160 else max_bw.

Definition tx_power_of (is_5ghz : bool) (e : sPhyRateTableEntry) : Z := if is_5ghz then tx_power_5 e else tx_power_2_4 e.

(** [bw_values.at(bw)]. *)
Definition values_at (ant_mode mcs : nat) (bw : Z) : option sPhyRateTableValues :=
  e ← table_entry ant_mode mcs; find_bw bw e.

(** One turn of the inner loop of [estimate_ul_params]: the smallest delta and
    the estimation so far. *)
Definition ul_turn (ul_rssi_lut rate : Z) (is_5ghz : bool) (ant_mode mcs : nat) (bw : Z)
    (s : Z * sPhyUlParams) : option (Z * sPhyUlParams) :=
  e ← table_entry ant_mode mcs;
  v ← find_bw bw e;
  let update lut :=
    let delta := Z.abs (ul_rssi_lut - lut) in
    if delta <=? s.1 then (delta, mkUlParams (tx_power_of is_5ghz e) (ceil_div10 lut) (ul_status s.2)) else s in
  if (gi_long_rate v <=? rate) && (rate <=? gi_short_rate v) then Some (update (rssi v))
  else
    match mcs with
    | O => Some s
    | S below =>
      w ← values_at ant_mode below bw;
      if (rate <=? gi_long_rate v) && (gi_short_rate w <=? rate) then Some (update (Z.quot (rssi v + rssi w) 2))
      else Some s
    end.

(** [for (x = n - 1; x > -1; x--)]. *)
Fixpoint down {S} (body : nat → S → option S) (n : nat) (s : S) : option S :=
  match n with O => Some s | S n => s ← body n s; down body n s end.

Definition estimate_ul_params (ul_rssi' rate : Z) (c : sRadioCapabilities) (ap_bw : Z) (is_5ghz : bool)
    : option sPhyUlParams :=
  let max_mcs := Z.to_nat (max_mcs_of c is_5ghz) in
  let max_bw := max_bw_of c ap_bw is_5ghz in
  let estimation := mkUlParams 0 RSSI_INVALID ESTIMATION_FAILURE_INVALID_RSSI in
  if ul_rssi' =? RSSI_INVALID then Some estimation
  else
    e0 ← table_entry 0 0;
    v0 ← snd <$> head (bw_values e0);
    if rate <? gi_long_rate v0 then
      Some (mkUlParams (tx_power_of is_5ghz e0) (ceil_div10 (rssi v0)) ESTIMATION_FAILURE_BELOW_RANGE)
    else
      e ← table_entry (max_ant_mode c) max_mcs;
      match find_bw max_bw e with
      | None => Some estimation
      | Some v =>
        if gi_short_rate v <? rate then
          Some (mkUlParams (tx_power_of is_5ghz e) (ceil_div10 (rssi v)) ESTIMATION_SUCCESS)
        else
          s ← down (λ ant_mode s,
                 e ← table_entry ant_mode max_mcs;
                 down (λ k s,
                   let bw := Z.of_nat k + 1 in
                   match find_bw bw e with
                   | None => Some s
                   | Some _ => down (λ mcs, ul_turn (ul_rssi' * 10) rate is_5ghz ant_mode mcs bw) (S max_mcs) s
                   end) (Z.to_nat max_bw) s) (S (max_ant_mode c)) (120 * 10, estimation);
          Some (mkUlParams (ul_tx_power s.2) (ul_rssi s.2) ESTIMATION_SUCCESS)
      end.

(** The parameters of an access point. *)
Record sPhyApParams := mkApParams { ap_is_5ghz : bool; ap_ant_num : Z; ap_ant_gain : Z; ap_tx_power : Z }.

Definition NOISE_FIGURE : Z := 8.
Definition ant_factor (ant_num : Z) : Z := if ant_num =? ANT_4X4 then 3 else if ant_num =? ANT_3X3 then 2 else 0.

Definition estimate_dl_rssi (ul_rssi' tx_power : Z) (ap : sPhyApParams) : Z :=
  let eirp_ap := ap_ant_gain ap + ap_tx_power ap in
  let pathloss := tx_power - (ul_rssi' - ant_factor (ap_ant_num ap) - ap_ant_gain ap) in
  let pathloss := if ap_is_5ghz ap then pathloss + NOISE_FIGURE else pathloss in
  eirp_ap - pathloss.

(** The inner loop of [estimate_ap_tx_phy_rate]: the rate of the highest MCS
    whose signal strength is reached, or 0. *)
Fixpoint first_reached (lut : Z) (ant_mode : nat) (bw : Z) (n : nat) : option Z :=
  match n with
  | O => Some 0
  | S mcs => v ← values_at ant_mode mcs bw; if rssi v <=? lut then Some (gi_short_rate v) else first_reached lut ant_mode bw mcs
  end.

(** [for (x = n - 1; x > -1; x--)] that ends when the rate is not 0. *)
Fixpoint first_rate (body : nat → option Z) (n : nat) : option Z :=
  match n with
  | O => Some 0
  | S n => r ← body n; if r =? 0 then first_rate body n else Some r
  end.

Definition estimate_ap_tx_phy_rate (dl_rssi : Z) (c : sRadioCapabilities) (ap_bw : Z) (is_5ghz : bool) : option Z :=
  let max_mcs := Z.to_nat (max_mcs_of c is_5ghz) in
  let max_bw := max_bw_of c ap_bw is_5ghz in
  r ← first_rate (λ ant_mode, first_rate (λ k,
        let bw := Z.of_nat k + 1 in
        e ← table_entry ant_mode max_mcs;
        match find_bw bw e with
        | None => Some 0
        | Some _ => first_reached (dl_rssi * 10) ant_mode bw (S max_mcs)
        end) (Z.to_nat max_bw)) (S (max_ant_mode c));
  e0 ← table_entry 0 0;
  v0 ← snd <$> head (bw_values e0);
  Some (100000 * if r =? 0 then gi_short_rate v0 else r).

(** [bit_rate_max_table_mbps]. *)
Definition bit_rate_max_table_mbps : list (Z * Z) := [
    (65, 3); (130, 86); (135, 71); (195, 89); (234, 107); (260, 92); (270, 125); (293, 129); (390, 133); (405, 139);
    (520, 140); (540, 141); (585, 146); (650, 147); (780, 148); (810, 151); (878, 151); (1040, 161); (1080, 172);
    (1170, 182); (1215, 156); (1300, 189); (1350, 157); (1560, 196); (1620, 202); (1755, 208); (1800, 161);
    (2160, 213); (2340, 241); (2430, 220); (2633, 169); (2700, 232); (2925, 189); (3240, 237); (3510, 251);
    (3600, 246); (3900, 328); (4680, 251); (5265, 253); (5850, 261); (7020, 266); (7800, 266)].

(** The index of the first entry above the rate, or the size of the table. *)
Definition rate_index (rate : Z) : nat :=
  match list_find (λ x, rate < x.1) bit_rate_max_table_mbps with
  | Some (i, _) => i
  | None => length bit_rate_max_table_mbps
  end.

(** [percentage] is an [int]. *)
Definition get_load_max_bit_rate_mbps (rate : Z) : option Z :=
  let i := rate_index rate in
  let size := length bit_rate_max_table_mbps in
  if (i =? 0)%nat || (i =? size)%nat then
    snd <$> bit_rate_max_table_mbps !! (if (i =? size)%nat then (i - 1)%nat else i)
  else
    hi ← bit_rate_max_table_mbps !! i;
    lo ← bit_rate_max_table_mbps !! (i - 1)%nat;
    let percentage := if hi.1 - lo.1 =? 0 then 0 else Z.quot (rate - lo.1) (hi.1 - lo.1) in
    Some (lo.2 + (hi.2 - lo.2) * percentage).

(** ** The tables *)

Definition table_bws : list Z := [1; 2; 3; 5].

Lemma table_entry_some a m : (a < 3)%nat → (m < 10)%nat → ∃ e, table_entry a m = Some e ∧
  ∀ bw, is_Some (find_bw bw e) ↔ bw ∈ table_bws.
Proof.
  intros Ha Hm.
  assert (forallb (λ a, forallb (λ m, match table_entry a m with
    | Some e => bool_decide ((bw_values e).*1 = table_bws) | None => false end) (seq 0 10)) (seq 0 3) = true) as H by (by vm_compute).
  rewrite forallb_forall in H. specialize (H a ltac:(apply in_seq; lia)). rewrite forallb_forall in H.
  specialize (H m ltac:(apply in_seq; lia)). destruct (table_entry a m) as [e|]; [|done]. exists e. split; [done|].
  apply bool_decide_eq_true in H. intros bw. rewrite <- H. unfold find_bw. split.
  - intros [v Hv]. destruct (list_find _ _) as [[i x]|] eqn:Hf; [|done]. apply list_find_Some in Hf as (Hx & Hbw & _).
    rewrite <- Hbw. apply list_elem_of_fmap_2. by eapply list_elem_of_lookup_2.
  - intros (x & -> & Hx)%list_elem_of_fmap_1. destruct (list_find_elem_of (λ y, y.1 = x.1) _ x Hx eq_refl) as [[i y] ->]. by eexists.
Qed.

Lemma values_at_some a m bw : (a < 3)%nat → (m < 10)%nat → bw ∈ table_bws → ∃ v, values_at a m bw = Some v.
Proof.
  intros Ha Hm Hbw. destruct (table_entry_some a m Ha Hm) as (e & He & Hb). destruct (proj2 (Hb bw) Hbw) as [v Hv].
  exists v. unfold values_at. rewrite He. done.
Qed.

(** ** The nearest rate *)

(** The rate [r] of the table for an MCS and guard interval. *)
Definition rate_of (a : nat) (bw : Z) (mcs : nat) (short_gi r : Z) : Prop :=
  ∃ v, values_at a mcs bw = Some v ∧ (short_gi = 1 ∧ r = gi_short_rate v ∨ short_gi = 0 ∧ r = gi_long_rate v).

Lemma rate_of_range a bw mcs gi r : (a < 3)%nat → (mcs < 8)%nat → rate_of a bw mcs gi r → 0 < r < 20000.
Proof.
  intros Ha Hm (v & Hv & Hr). unfold values_at in Hv.
  assert (forallb (λ a, forallb (λ m, match table_entry a m with
    | Some e => forallb (λ x, (0 <? gi_short_rate x.2) && (0 <? gi_long_rate x.2) && (gi_short_rate x.2 <? 20000) && (gi_long_rate x.2 <? 20000)) (bw_values e)
    | None => false end) (seq 0 8)) (seq 0 3) = true) as H by (by vm_compute).
  rewrite forallb_forall in H. specialize (H a ltac:(apply in_seq; lia)). rewrite forallb_forall in H.
  specialize (H mcs ltac:(apply in_seq; lia)). destruct (table_entry a mcs) as [e|]; [|done]. cbn in Hv. unfold find_bw in Hv.
  destruct (list_find _ _) as [[i x]|] eqn:Hf; [|done]. apply list_find_Some in Hf as (Hx & _). injection Hv as <-.
  apply list_elem_of_lookup_2, list_elem_of_In in Hx. rewrite forallb_forall in H. specialize (H x Hx).
  rewrite !andb_true_iff, !Z.ltb_lt in H. destruct Hr as [[_ ->]|[_ ->]]; lia.
Qed.

(** The nearest of the rates below MCS [i]. *)
Record nearest_of (rate : Z) (a : nat) (bw : Z) (i : nat) (n : Nearest) : Prop := {
  no_least j g r : (j < i)%nat → rate_of a bw j g r → nearest_diff n ≤ Z.abs (rate - r);
  no_some : (0 < i)%nat → ∃ j r, (j < i)%nat ∧ n_mcs n = Z.of_nat j ∧ rate_of a bw j (n_short_gi n) r ∧
    nearest_diff n = Z.abs (rate - r);
}.

Lemma nearer_diff rate r mcs gi n : 0 ≤ rate < 65536 → 0 < r < 20000 →
  nearest_diff (nearer rate r mcs gi n) = Z.min (Z.abs (rate - r)) (nearest_diff n) ∧
  (nearer rate r mcs gi n = n ∨ nearer rate r mcs gi n = mkNearest (Z.abs (rate - r)) mcs gi).
Proof.
  intros H1 H2. unfold nearer, u16. rewrite Z.mod_small by lia. destruct (_ <? _) eqn:H; cbn [nearest_diff].
  - apply Z.ltb_lt in H. split; [lia|by right].
  - apply Z.ltb_ge in H. split; [lia|by left].
Qed.

Lemma nearest_step rate a bw i v n : 0 ≤ rate < 65536 → (a < 3)%nat → (i < 8)%nat → values_at a i bw = Some v →
  nearest_of rate a bw i n → (i = 0%nat → nearest_diff n = 0xFFFF) →
  nearest_of rate a bw (S i)
    (nearer rate (gi_long_rate v) (Z.of_nat i) 0 (nearer rate (gi_short_rate v) (Z.of_nat i) 1 n)).
Proof.
  intros Hr Ha Hi Hv [Hl Hs] H0.
  assert (rate_of a bw i 1 (gi_short_rate v)) as Rs by (exists v; split; [done|by left]).
  assert (rate_of a bw i 0 (gi_long_rate v)) as Rl by (exists v; split; [done|by right]).
  pose proof (rate_of_range _ _ _ _ _ Ha Hi Rs) as Bs. pose proof (rate_of_range _ _ _ _ _ Ha Hi Rl) as Bl.
  destruct (nearer_diff rate _ (Z.of_nat i) 1 n Hr Bs) as [D1 E1]. set (n1 := nearer rate (gi_short_rate v) _ 1 n) in *.
  destruct (nearer_diff rate _ (Z.of_nat i) 0 n1 Hr Bl) as [D2 E2]. set (n2 := nearer rate (gi_long_rate v) _ 0 n1) in *.
  split.
  - intros j g r Hj Hjr. destruct (decide (j = i)) as [->|Hne].
    + destruct Hjr as (v' & Hv' & Hc). rewrite Hv in Hv'. injection Hv' as <-. destruct Hc as [[-> ->]|[-> ->]]; lia.
    + specialize (Hl j g r ltac:(lia) Hjr). lia.
  - intros _. destruct E2 as [->| ->]; [|exists i, (gi_long_rate v); split_and!; [lia|done|done|done]].
    destruct E1 as [->| ->]; [|exists i, (gi_short_rate v); split_and!; [lia|done|done|done]].
    destruct (decide (i = 0%nat)) as [Hz|Hz]; [specialize (H0 Hz); lia|].
    destruct (Hs ltac:(lia)) as (j & r & ? & ? & ? & ?). exists j, r. split_and!; [lia|done..].
Qed.

(** What [get_mcs_from_rate] finds. *)
Record mcs_found (rate : Z) (a : nat) (bw : Z) (ok : bool) (mcs short_gi : Z) : Prop := {
  mf_rate : ∃ j r, (j < 8)%nat ∧ mcs = Z.of_nat j ∧ rate_of a bw j short_gi r ∧
    ∀ j' g' r', (j' < 8)%nat → rate_of a bw j' g' r' → Z.abs (rate - r) ≤ Z.abs (rate - r');
  mf_exact : ok = true ↔ ∃ j g, (j < 8)%nat ∧ rate_of a bw j g rate;
}.

Lemma mcs_loop_found rate a bw count : 0 ≤ rate < 65536 → (a < 3)%nat → bw ∈ table_bws → ∀ i n,
  (i + count = 8)%nat → nearest_of rate a bw i n → (i = 0%nat → nearest_diff n = 0xFFFF) →
  (∀ j g, (j < i)%nat → ¬ rate_of a bw j g rate) →
  ∃ ok n', mcs_loop count i rate a bw n = Some (ok, n') ∧ mcs_found rate a bw ok (n_mcs n') (n_short_gi n').
Proof.
  intros Hr Ha Hbw. induction count as [|count IH]; intros i n Hi Hn H0 Hno; cbn [mcs_loop].
  - exists false, n. split; [done|]. replace i with 8%nat in * by lia. destruct Hn as [Hl Hs].
    destruct (Hs ltac:(lia)) as (j & r & Hj & Hm & Hjr & Hd). split.
    + exists j, r. split_and!; [done..|]. intros j' g' r' Hj' Hr'. rewrite <- Hd. by eapply Hl.
    + split; [done|]. intros (j' & g & Hj' & Hr'). by destruct (Hno j' g Hj').
  - destruct (values_at_some a i bw Ha ltac:(lia) Hbw) as [v Hv]. pose proof Hv as Hv'. unfold values_at in Hv'.
    destruct (table_entry a i) as [e|]; [|done]. cbn in Hv' |- *. rewrite Hv'.
    assert (rate_of a bw i 1 (gi_short_rate v)) as Rs by (exists v; split; [done|by left]).
    assert (rate_of a bw i 0 (gi_long_rate v)) as Rl by (exists v; split; [done|by right]).
    destruct (gi_short_rate v =? rate) eqn:Es; [apply Z.eqb_eq in Es|apply Z.eqb_neq in Es; destruct (gi_long_rate v =? rate) eqn:El; [apply Z.eqb_eq in El|apply Z.eqb_neq in El]].
    + eexists true, _. split; [done|]. split; cbn [n_mcs n_short_gi].
      * exists i, (gi_short_rate v). split_and!; [lia|done|done|]. intros. rewrite Es. lia.
      * split; [|done]. intros _. exists i, 1. rewrite <- Es. split; [lia|done].
    + eexists true, _. split; [done|]. split; cbn [n_mcs n_short_gi].
      * exists i, (gi_long_rate v). split_and!; [lia|done|done|]. intros. rewrite El. lia.
      * split; [|done]. intros _. exists i, 0. rewrite <- El. split; [lia|done].
    + apply IH; [lia|by apply nearest_step; [..|lia|done|done|done]|lia|].
      intros j g Hj Hjr. destruct (decide (j = i)) as [->|Hne]; [|by apply (Hno j g ltac:(lia))].
      destruct Hjr as (v2 & Hv2 & Hc). rewrite Hv in Hv2. injection Hv2 as <-. destruct Hc as [[_ ?]|[_ ?]]; congruence.
Qed.

(** The modulation of a rate is that of the nearest rate in the table. For
    every antenna mode and bandwidth of the table, [get_mcs_from_rate] returns
    true exactly when the rate is in the table, and always sets an MCS and a
    guard interval whose rate is not further from the given one than any other
    of the first eight. *)
Theorem mcs_of_rate_nearest rate a bw mcs gi : 0 ≤ rate < 65536 → (a < 3)%nat → bw ∈ table_bws → ∃ ok n,
  get_mcs_from_rate rate a bw mcs gi = Some (ok, n) ∧ mcs_found rate a bw ok (n_mcs n) (n_short_gi n).
Proof.
  intros Hr Ha Hbw. apply mcs_loop_found; [done..|lia| |done|].
  - split; [intros; lia|lia].
  - intros. lia.
Qed.

(** ** Loads and estimates *)

(** [percentage] is truncated to 0, so that the entry below the rate is
    returned and nothing interpolated. *)
Lemma bit_rate_not_interpolated rate :
  get_load_max_bit_rate_mbps rate = snd <$> bit_rate_max_table_mbps !! (rate_index rate - 1)%nat.
Proof.
  unfold get_load_max_bit_rate_mbps. set (i := rate_index rate) in *. set (size := length bit_rate_max_table_mbps).
  assert (i ≤ size)%nat as Hsize.
  { unfold i, rate_index. destruct (list_find _ _) as [[k x]|] eqn:Hf; [|done]. apply list_find_Some in Hf as (Hk & _).
    apply lookup_lt_Some in Hk. unfold size. lia. }
  destruct (i =? size)%nat eqn:Es; [by rewrite orb_true_r|]. apply Nat.eqb_neq in Es.
  destruct (i =? 0)%nat eqn:Ez; [apply Nat.eqb_eq in Ez; by rewrite Ez|]. apply Nat.eqb_neq in Ez. cbn [orb].
  unfold i, rate_index in *. destruct (list_find _ _) as [[k hi]|] eqn:Hf; [|done]. apply list_find_Some in Hf as (Hk & Hhi & Hlow).
  rewrite Hk. cbn [mbind option_bind]. destruct (lookup_lt_is_Some_2 bit_rate_max_table_mbps (k - 1)) as [lo Hlo]; [unfold size in *; lia|].
  rewrite Hlo. cbn [mbind option_bind fmap option_fmap option_map]. specialize (Hlow _ _ Hlo ltac:(lia)). f_equal.
  destruct (_ =? 0); [lia|]. rewrite Z.quot_small by lia. lia.
Qed.

(** The rate of MCS 2 at 160 MHz has two digits exchanged (1755), and is below
    that of MCS 1. *)
Lemma rate_table_dip : ∃ v1 v2, values_at 0 1 5 = Some v1 ∧ values_at 0 2 5 = Some v2 ∧
  gi_long_rate v2 = 1175 ∧ gi_short_rate v1 = 1300.
Proof. by vm_compute; eauto 10. Qed.

(** The limits of a station lie in the table. *)
Definition limits_ok (c : sRadioCapabilities) : Prop := 0 ≤ c Cap.ht_mcs < 10 ∧ 0 ≤ c Cap.vht_mcs < 10.

Lemma limits_mcs c is_5ghz : limits_ok c → (Z.to_nat (max_mcs_of c is_5ghz) < 10)%nat.
Proof. intros [??]. unfold max_mcs_of. destruct (uses_ac c is_5ghz); lia. Qed.

Lemma max_ant_mode_lt c : (max_ant_mode c < 3)%nat.
Proof. unfold max_ant_mode, ANT_MODE_1X1_SS1, ANT_MODE_2X2_SS2. destruct (_ =? _); lia. Qed.

(** The highest MCS whose signal strength is reached. *)
Lemma first_reached_spec lut a bw n : (a < 3)%nat → bw ∈ table_bws → (n ≤ 10)%nat → ∃ r, first_reached lut a bw n = Some r ∧
  ((∃ m v, (m < n)%nat ∧ values_at a m bw = Some v ∧ rssi v ≤ lut ∧ r = gi_short_rate v ∧
      ∀ m' v', (m < m' < n)%nat → values_at a m' bw = Some v' → lut < rssi v') ∨
   (r = 0 ∧ ∀ m v, (m < n)%nat → values_at a m bw = Some v → lut < rssi v)).
Proof.
  intros Ha Hbw. induction n as [|n IH]; intros Hn; cbn [first_reached]; [exists 0; split; [done|]; right; split; [done|lia]|].
  destruct (values_at_some a n bw Ha ltac:(lia) Hbw) as [v Hv]. rewrite Hv. cbn [mbind option_bind].
  destruct (_ <=? _) eqn:Hle.
  - apply Z.leb_le in Hle. eexists. split; [done|]. left. exists n, v. split_and!; [lia|done|done|done|]. intros; lia.
  - apply Z.leb_gt in Hle. destruct (IH ltac:(lia)) as (r & Hr & Hc). exists r. split; [done|].
    destruct Hc as [(m & w & Hm & Hw & Hl & -> & Hall)|[-> Hall]]; [left; exists m, w; split_and!; [lia|done|done|done|]|right; split; [done|]];
      intros m' v' Hm' Hv'; (destruct (decide (m' = n)) as [->|]; [congruence|]).
    + apply (Hall m'); [lia|done].
    + apply (Hall m'); [lia|done].
Qed.

Lemma first_rate_spec body n (P : nat → Z → Prop) : (∀ k, (k < n)%nat → ∃ r, body k = Some r ∧ P k r) → ∃ r,
  first_rate body n = Some r ∧
  ((∃ k, (k < n)%nat ∧ P k r ∧ r ≠ 0) ∨ (r = 0 ∧ ∀ k, (k < n)%nat → P k 0)).
Proof.
  induction n as [|n IH]; intros Hb; cbn [first_rate]; [exists 0; split; [done|right; split; [done|lia]]|].
  destruct (Hb n ltac:(lia)) as (r & Hr & HP). rewrite Hr. cbn [mbind option_bind].
  destruct (r =? 0) eqn:Hz; [apply Z.eqb_eq in Hz; subst r|apply Z.eqb_neq in Hz; exists r; split; [done|]; left; exists n; by split_and!; [lia|..]].
  destruct IH as (r & Hr' & Hc); [intros; apply Hb; lia|]. exists r. split; [done|].
  destruct Hc as [(k & Hk & HPk & Hz)|[-> Hall]]; [left; exists k; by split_and!; [lia|..]|right; split; [done|]].
  intros k Hk. destruct (decide (k = n)) as [->|]; [done|apply Hall; lia].
Qed.
