(* ===== verification/AssocExamples.v ===== *)
(** * Association frames and rates: examples

    The frame of the source's unit test, to which the theorems of [AssocFrame]
    apply, and frames that the parser does not take as they are meant. *)

From stdpp Require Import gmap.
From S2P Require Import Prelude Wire Messages Tlvf CmduMessage CmduUtils WscAttrList AssocClasses AssocFrame PhyRates.

Ltac computed := apply (bool_decide_unpack _); vm_compute; exact I.

(** ** The frame of the unit test *)

(** Capabilities and a listen interval of 10. *)
Definition test_cap : list Z := [17; 17; 10; 0].
Definition test_ssid : list Z := [98; 100; 107; 95; 49; 50; 51; 52].
Definition test_elements : list (Z * list Z) := [
  (0x01, [140; 18; 152; 36; 176; 72; 96; 108]);
  (0x21, [247; 17]);
  (0x24, [36; 4; 52; 4; 100; 11; 149; 4; 165; 1]);
  (0x30, [1; 0; 0; 15; 172; 4; 1; 0; 0; 15; 172; 4; 1; 0; 0; 15; 172; 2; 128; 0]);
  (0x46, [113; 8; 1; 0; 0]);
  (0x3b, [128; 112; 115; 116; 117; 124; 125; 126; 127; 128; 129; 130; 118; 119; 120; 121; 122; 123; 81; 83; 84]);
  (0x2d, [111; 0; 27; 255; 255] ++ replicate 21 0);
  (0x7f, [0; 0; 8; 128; 0; 0; 0; 64; 0; 32]);
  (0xbf, [50; 120; 145; 15; 250; 255; 0; 0; 250; 255; 0; 0]);
  (0xdd, [0; 0; 240; 34; 0; 1; 4; 0; 0; 0; 3])].
Definition test_frame : list Z := frame_of test_cap None test_ssid test_elements.

Lemma test_elements_fit : Forall fits test_elements.
Proof. repeat (apply Forall_cons; split; [split; [computed|done|vm_compute; reflexivity]|]). by apply Forall_nil. Qed.


(** ** Frames that are not taken as they are meant *)

(** A station with a QoS capability and no QoS traffic capability is refused. *)
Lemma qos_capability_rejected :
  (assoc_parse ASSOCIATION_REQUEST (frame_of test_cap None test_ssid [(0x2e, [0])])).1 = Some None.
Proof. by vm_compute. Qed.

(** A reassociation request whose type is not known, as in the capability
    reports: its listen interval of 10 is returned with its bytes exchanged. *)
Definition reassociation (ap : list Z) : list Z := frame_of test_cap (Some ap) test_ssid [].
Lemma unknown_reassociation_interval :
  let r := assoc_parse UNKNOWN_FRAME (reassociation [2; 0; 0; 0; 0; 9]) in
  (f ← default None r.1; listen_interval f) = Some 2560 ∧ f_type <$> default None r.1 = Some REASSOCIATION_REQUEST.
Proof. by vm_compute. Qed.

(** The request to an access point whose address begins with a zero is taken as
    an association request, with bytes of the address as its SSID. *)
Lemma unknown_reassociation_taken_as_association :
  let r := assoc_parse UNKNOWN_FRAME (reassociation [0; 4; 65; 66; 67; 68]) in
  f_type <$> default None r.1 = Some ASSOCIATION_REQUEST ∧
  (f ← default None r.1; sta_ssid f) = Some [65; 66; 67; 68].
Proof. by vm_compute. Qed.

(** The extended identifier of an empty element at the end of the frame is read
    behind the buffer. *)
Lemma extended_identifier_overread :
  (assoc_parse ASSOCIATION_REQUEST (frame_of test_cap None test_ssid [(0xff, [])])).1 = None.
Proof. by vm_compute. Qed.

(** ** Rates *)

(** 70 Mbit/s over 20 MHz with one antenna is nearest to MCS 7 with the short
    guard interval. *)
Lemma mcs_of_rate_nearest_witness : ∃ ok n,
  get_mcs_from_rate 700 0 1 0 0 = Some (ok, n) ∧ n = mkNearest 22 7 1 ∧
  mcs_found 700 0 1 ok (n_mcs n) (n_short_gi n).
Proof.
  destruct (mcs_of_rate_nearest 700 0 1 0 0) as (ok & n & Hg & Hf); [lia|lia|computed|].
  exists ok, n. split; [exact Hg|]. split; [|exact Hf]. vm_compute in Hg. by injection Hg as _ <-.
Defined.
