(* ===== verification/VendorClasses.v ===== *)
(** * The vendor message classes as a whole

    What the dispatch on the action and the operation, and the transmit buffers
    of the processes, rely on, for all the message classes of
    [VendorClassesAgent] and [VendorClassesController]. *)

From S2P Require Import Prelude Wire Messages Streams Tlvf CmduTx VendorMessage VendorClassesAgent VendorClassesController VendorTx.

Definition message_classes : list VsClass := agent_classes ++ controller_classes.

(** The fields of a class all of whose fields have fixed sizes. *)
Fixpoint fixed_fields (l : list Field) : option (list FixedField) :=
  match l with
  | [] => Some []
  | Fixed name n sw :: l => fs ← fixed_fields l; Some (mkFF name n sw :: fs)
  | _ => None
  end.

Lemma fixed_fields_eq l : ∀ fs, fixed_fields l = Some fs → l = to_field <$> fs.
Proof.
  induction l as [|f l IH]; intros fs; [|destruct f]; cbn [fixed_fields]; try done; [by intros [= <-]|].
  destruct (fixed_fields l) as [gs|]; [|done]. intros [= <-]. cbn. by rewrite (IH gs).
Qed.

(** The checks on a class, as a program. *)
Definition class_check (c : VsClass) : bool :=
  layout_ok (vs_layout c)
  && bool_decide (byte_ok (vs_action c)) && bool_decide (byte_ok (vs_op c)) && negb (vs_action c =? ACTION_NONE)
  && match fixed_fields (vs_fields c) with
     | None => true
     | Some fs =>
       forallb (λ f, sw_ok 0 (ff_size f) (ff_sw f)) fs && bool_decide (NoDup (ff_name <$> fs))
       && (Z.of_nat (14 + vs_tlv_size fs) <=? MESSAGE_BUFFER_LENGTH)
     end.

Lemma classes_checked : forallb class_check message_classes = true.
Proof. vm_compute. reflexivity. Qed.

Lemma inits_ok_nil fs : inits_ok [] fs = true.
Proof. by induction fs. Qed.

Lemma class_check_fixed c fs : class_check c = true → fixed_fields (vs_fields c) = Some fs →
  fixed_class c [] fs ∧ Z.of_nat (14 + vs_tlv_size fs) ≤ MESSAGE_BUFFER_LENGTH.
Proof.
  unfold class_check. intros Hc Hf. rewrite Hf in Hc. rewrite !andb_true_iff in Hc.
  destruct Hc as ((((_ & Ha) & Ho) & Hn) & (Hok & Hnd) & Hsz).
  apply bool_decide_eq_true in Ha, Ho, Hnd. apply Z.leb_le in Hsz. apply negb_true_iff, Z.eqb_neq in Hn.
  split; [|done]. split; [by apply fixed_fields_eq| |done|apply inits_ok_nil|done|done].
  apply Forall_forall. intros f Hin%list_elem_of_In. by eapply forallb_forall in Hok.
Qed.

(** Every message class of the agent and of the controller is well-formed:
    [init()] swaps each word of the class once and inside of it; its action
    and operation fit the bytes of the action header; a class of fixed size
    can be composed and fits the transmit buffers of the processes; and no two
    classes have the same action and operation, except for the vendor TLVs on
    the wire, so that a receiver can tell the class from the header. *)
Theorem message_classes_well_formed :
  Forall (λ c, layout_ok (vs_layout c) = true ∧ byte_ok (vs_action c) ∧ byte_ok (vs_op c) ∧
    ∀ fs, fixed_fields (vs_fields c) = Some fs →
      fixed_class c [] fs ∧ Z.of_nat (14 + vs_tlv_size fs) ≤ MESSAGE_BUFFER_LENGTH) message_classes ∧
  NoDup ((λ c, (vs_action c, vs_op c)) <$> filter (λ c, vs_action c ≠ ACTION_1905_VS) message_classes).
Proof.
  split.
  - apply Forall_forall. intros c Hin%list_elem_of_In. pose proof classes_checked as Hall.
    eapply forallb_forall in Hall; [|exact Hin]. pose proof Hall as Hc. unfold class_check in Hc. rewrite !andb_true_iff in Hc.
    destruct Hc as ((((? & Ha) & Ho) & _) & _). apply bool_decide_eq_true in Ha, Ho.
    split_and!; [done..|]. intros fs. by apply class_check_fixed.
  - apply (bool_decide_unpack _). vm_compute. exact I.
Qed.
