(* ===== verification/ControllerConnectivity.v ===== *)
(** * The agent's watch over the controller

    [ControllerConnectivityTask] of the agent
    ([agent/.../tasks/controller_connectivity_task.cpp]): after the backhaul is
    connected it waits for the controller's discovery, then for the
    controller's messages, asks for a sign of life with heartbeats, and finally
    tells the backhaul manager to reconnect or to disconnect. Times are
    nanoseconds of the steady clock; a call of a method sees one time. *)

From S2P Require Import Prelude Wire Messages Tlvf TlvClassesMap CmduMessage CmduTx AgentEnv.

Module connectivity.

(** ** Data *)

Inductive eState :=
  | INIT
  | WAIT_FOR_CONTROLLER_DISCOVERY
  | CONTROLLER_MONITORING
  | WAIT_RESPONSE_FROM_CONTROLLER
  | CONNECTION_TIMEOUT
  | BACKHAUL_LINK_DISCONNECTED
  | RECONNECTION
  | WAIT_FOR_RECONNECT.
#[export] Instance eState_eq_dec : EqDecision eState.
Proof. solve_decision. Defined.

Inductive eEvent :=
  | INIT_TASK
  | BACKHAUL_MANAGER_CONNECTED
  | BACKHAUL_DISCONNECTED_NOTIFICATION
  | CONTROLLER_DISCOVERED.

Inductive eConnectionType := Conn_Invalid | Conn_Wired | Conn_Wireless.
#[export] Instance eConnectionType_eq_dec : EqDecision eConnectionType.
Proof. solve_decision. Defined.

Inductive WiFiSec := Sec_Invalid | WPA_PSK | WPA2_PSK.
Definition WSC_AUTH_WPAPSK : Z := 0x2.
Definition WSC_AUTH_WPA2PSK : Z := 0x20.

Definition wsc_to_bwl_authentication (authtype : Z) : WiFiSec :=
  if authtype =? WSC_AUTH_WPAPSK then WPA_PSK
  else if authtype =? WSC_AUTH_WPA2PSK then WPA2_PSK
  else Sec_Invalid.

(** The credentials of a BSS and a link to the controller ([AgentDB]). *)
Record credential := mkCred { cred_ssid : string; cred_network_key : string; cred_auth_type : Z }.
Record sBackhaulLink := mkLink {
  link_connection_type : eConnectionType; link_iface_name : string; link_credentials : list credential }.

(** The members of [AgentDB] the task uses: configuration (timeouts in
    seconds), what is known of the controller, and the backhaul. *)
Record sDeviceConf := mkConf {
  certification_mode : bool;
  local_controller : bool;
  check_connectivity_to_controller_enable : bool;
  check_indirect_connectivity_to_controller_enable : bool;
  controller_discovery_timeout_seconds : Z;
  controller_message_timeout_seconds : Z;
  controller_heartbeat_state_timeout_seconds : Z;
}.
Record sBackRadio := mkBackRadio { back_ssid : string; back_pass : string; back_security_type : WiFiSec }.
Record DB := mkDB {
  device_conf : sDeviceConf;
  back_radio : sBackRadio;
  bridge_mac : sMacAddr;
  direct_link_to_controller : bool;
  last_controller_contact_time : Z;
  connection_type : eConnectionType;
  selected_iface_name : string;
  backhaul_links : list sBackhaulLink;
}.

(** The members of the task. *)
Record Members := mkMembers {
  m_task_is_active : bool;
  m_task_state : eState;
  m_direct_link_to_controller : bool;
  m_backhaul_connected_time : Z;
  m_count_heartbeat_message : Z;
  m_controller_waiting_response_state_time : Z;
  m_last_heartbeat_send_time : Z;
  reconnect_timeout : Z;
}.

(** What was handed to [send_cmdu_to_controller] and to the backhaul manager's
    client, with the time. *)
Inductive sent_msg :=
  | HEARTBEAT (t : Z) (m : TxList)
  | BACKHAUL_RECONNECT_COMMAND (t : Z)
  | BACKHAUL_DISCONNECT_COMMAND (t : Z).

Record Conn := mkConn { mem : Members; db : DB; m_cmdu_tx : TxList; sent : list sent_msg }.

(** The time, whether the client of the backhaul manager exists, and what
    building a vendor specific message makes of the transmit buffer. *)
Record ConnEnv := mkConnEnv {
  clock : Z;
  backhaul_manager_cmdu_client : bool;
  build_vs_message : TxList → option TxList;
}.

Definition HEARTBEAT_SENDING_PERIOD_SEC : Z := 2.
Definition MAX_HEARTBEAT_COUNT : Z := 8.
Definition INDIRECT_TIMEOUT_MULTIPLIER : Z := 3.
Definition RECONNECT_TIMEOUT_SEC : Z := 120.
Definition HIGHER_LAYER_DATA_MESSAGE : Z := 0x8018.

(** ** Updates *)

Definition on_mem (f : Members → Members) (c : Conn) : Conn := mkConn (f (mem c)) (db c) (m_cmdu_tx c) (sent c).
Definition on_db (f : DB → DB) (c : Conn) : Conn := mkConn (mem c) (f (db c)) (m_cmdu_tx c) (sent c).
Definition push_sent (m : sent_msg) (c : Conn) : Conn := mkConn (mem c) (db c) (m_cmdu_tx c) (sent c ++ [m]).
Definition set_tx (t : TxList) (c : Conn) : Conn := mkConn (mem c) (db c) t (sent c).

(** [FSM_MOVE_STATE]. *)
Definition move_state (s : eState) : Conn → Conn := on_mem (λ m,
  mkMembers (m_task_is_active m) s (m_direct_link_to_controller m) (m_backhaul_connected_time m)
    (m_count_heartbeat_message m) (m_controller_waiting_response_state_time m)
    (m_last_heartbeat_send_time m) (reconnect_timeout m)).
Definition set_active (b : bool) : Conn → Conn := on_mem (λ m,
  mkMembers b (m_task_state m) (m_direct_link_to_controller m) (m_backhaul_connected_time m)
    (m_count_heartbeat_message m) (m_controller_waiting_response_state_time m)
    (m_last_heartbeat_send_time m) (reconnect_timeout m)).
Definition set_direct (b : bool) : Conn → Conn := on_mem (λ m,
  mkMembers (m_task_is_active m) (m_task_state m) b (m_backhaul_connected_time m)
    (m_count_heartbeat_message m) (m_controller_waiting_response_state_time m)
    (m_last_heartbeat_send_time m) (reconnect_timeout m)).
Definition set_connected_time (t : Z) : Conn → Conn := on_mem (λ m,
  mkMembers (m_task_is_active m) (m_task_state m) (m_direct_link_to_controller m) t
    (m_count_heartbeat_message m) (m_controller_waiting_response_state_time m)
    (m_last_heartbeat_send_time m) (reconnect_timeout m)).
Definition set_heartbeats (n waiting last : Z) : Conn → Conn := on_mem (λ m,
  mkMembers (m_task_is_active m) (m_task_state m) (m_direct_link_to_controller m)
    (m_backhaul_connected_time m) n waiting last (reconnect_timeout m)).
Definition set_reconnect_timeout (t : Z) : Conn → Conn := on_mem (λ m,
  mkMembers (m_task_is_active m) (m_task_state m) (m_direct_link_to_controller m)
    (m_backhaul_connected_time m) (m_count_heartbeat_message m)
    (m_controller_waiting_response_state_time m) (m_last_heartbeat_send_time m) t).

(** ** Timeouts *)

(** [duration_cast<seconds>(now - t)]. *)
Definition elapsed_sec (now t : Z) : Z := (now - t) ÷ seconds 1.

(** A timeout, three times as long on an indirect link. *)
Definition link_timeout (c : Conn) (t : Z) : Z :=
  if m_direct_link_to_controller (mem c) then t else t * INDIRECT_TIMEOUT_MULTIPLIER.

Definition check_controller_message_timeout (now : Z) (c : Conn) : bool :=
  if negb (m_direct_link_to_controller (mem c))
     && negb (check_indirect_connectivity_to_controller_enable (device_conf (db c)))
  then false
  else link_timeout c (controller_message_timeout_seconds (device_conf (db c)))
       <? elapsed_sec now (last_controller_contact_time (db c)).

Definition check_controller_response_timeout (now : Z) (c : Conn) : bool :=
  link_timeout c (controller_heartbeat_state_timeout_seconds (device_conf (db c)))
  <? elapsed_sec now (m_controller_waiting_response_state_time (mem c)).

Definition check_controller_discovery_timeout (now : Z) (c : Conn) : bool :=
  controller_discovery_timeout_seconds (device_conf (db c))
  <? elapsed_sec now (m_backhaul_connected_time (mem c)).

Definition clear_heartbeat_counters (now : Z) : Conn → Conn := set_heartbeats 0 now now.

(** ** Messages *)

(** A failure to build or to send is only logged. *)
Definition send_hle_to_controller (now : Z) (c : Conn) : option Conn :=
  match create 0 HIGHER_LAYER_DATA_MESSAGE (m_cmdu_tx c) with
  | (None, _) => None
  | (Some false, t) => Some (set_tx t c)
  | (Some true, t) =>
    match tx_addClass tx_higher_layer_data t with
    | (None, _) => None
    | (Some false, t) => Some (set_tx t c)
    | (Some true, t) => Some (push_sent (HEARTBEAT now t) (set_tx t c))
    end
  end.

Definition check_heartbeat_status (now : Z) (c : Conn) : option Conn :=
  if (m_count_heartbeat_message (mem c) <? MAX_HEARTBEAT_COUNT)
     && (HEARTBEAT_SENDING_PERIOD_SEC <? elapsed_sec now (m_last_heartbeat_send_time (mem c)))
  then
    c ← send_hle_to_controller now c;
    Some (set_heartbeats (u8 (m_count_heartbeat_message (mem c) + 1))
            (m_controller_waiting_response_state_time (mem c)) now c)
  else Some c.

Definition send_to_backhaul_manager (e : ConnEnv) (m : sent_msg) (c : Conn) : Conn :=
  match build_vs_message e (m_cmdu_tx c) with
  | None => c
  | Some t => let c := set_tx t c in if backhaul_manager_cmdu_client e then push_sent m c else c
  end.
Definition send_reconnect_to_backhaul_manager (e : ConnEnv) : Conn → Conn :=
  send_to_backhaul_manager e (BACKHAUL_RECONNECT_COMMAND (clock e)).
Definition send_disconnect_to_backhaul_manager (e : ConnEnv) : Conn → Conn :=
  send_to_backhaul_manager e (BACKHAUL_DISCONNECT_COMMAND (clock e)).

Definition init_task_configuration (c : Conn) : Conn :=
  let conf := device_conf (db c) in
  set_active (negb (certification_mode conf || local_controller conf
                    || negb (check_connectivity_to_controller_enable conf))) c.

(** ** [work()] *)

(** The first wireless link, its name and credentials taken over for the next
    connection. [front()] of an empty list is undefined. *)
Definition connection_timeout (e : ConnEnv) (c : Conn) : option Conn :=
  match list_find (λ l, link_connection_type l = Conn_Wireless) (backhaul_links (db c)) with
  | None => Some (send_disconnect_to_backhaul_manager e c)
  | Some (_, l) =>
    match link_credentials l with
    | [] => None
    | cr :: _ =>
      Some (move_state RECONNECTION (on_db (λ d,
        mkDB (device_conf d)
          (mkBackRadio (cred_ssid cr) (cred_network_key cr) (wsc_to_bwl_authentication (cred_auth_type cr)))
          (bridge_mac d) (direct_link_to_controller d) (last_controller_contact_time d)
          Conn_Wireless (link_iface_name l) (backhaul_links d)) c))
    end
  end.

Definition work (e : ConnEnv) (c : Conn) : option Conn :=
  let now := clock e in
  if negb (m_task_is_active (mem c)) then Some c
  else
    match m_task_state (mem c) with
    | INIT => Some c
    | WAIT_FOR_CONTROLLER_DISCOVERY =>
      Some (if check_controller_discovery_timeout now c then move_state CONNECTION_TIMEOUT c else c)
    | CONTROLLER_MONITORING =>
      Some (if check_controller_message_timeout now c
            then move_state WAIT_RESPONSE_FROM_CONTROLLER (clear_heartbeat_counters now c) else c)
    | WAIT_RESPONSE_FROM_CONTROLLER =>
      if negb (check_controller_message_timeout now c) then Some (move_state CONTROLLER_MONITORING c)
      else if check_controller_response_timeout now c then Some (move_state CONNECTION_TIMEOUT c)
      else check_heartbeat_status now c
    | CONNECTION_TIMEOUT => connection_timeout e c
    | BACKHAUL_LINK_DISCONNECTED => Some c
    | RECONNECTION =>
      Some (move_state WAIT_FOR_RECONNECT (set_reconnect_timeout (now + seconds RECONNECT_TIMEOUT_SEC)
              (send_reconnect_to_backhaul_manager e c)))
    | WAIT_FOR_RECONNECT =>
      Some (if reconnect_timeout (mem c) <? now then move_state RECONNECTION c else c)
    end.

(** ** Events and messages *)

Definition handle_event (now : Z) (ev : eEvent) (c : Conn) : Conn :=
  match ev with
  | INIT_TASK => init_task_configuration c
  | BACKHAUL_MANAGER_CONNECTED =>
    move_state WAIT_FOR_CONTROLLER_DISCOVERY (set_connected_time now
      (on_db (λ d, mkDB (device_conf d) (back_radio d) (bridge_mac d) false (last_controller_contact_time d)
                     (connection_type d) (selected_iface_name d) (backhaul_links d)) (set_direct false c)))
  | BACKHAUL_DISCONNECTED_NOTIFICATION => move_state BACKHAUL_LINK_DISCONNECTED c
  | CONTROLLER_DISCOVERED => move_state CONTROLLER_MONITORING c
  end.

(** A topology discovery message, which is left to other tasks. *)
Definition handle_cmdu (src_mac : sMacAddr) (c : Conn) : Conn :=
  if bool_decide (m_task_state (mem c) = CONTROLLER_MONITORING) && bool_decide (src_mac = bridge_mac (db c))
  then set_direct true c else c.

(** What the agent does with every CMDU before: the time of the controller's
    last message. *)
Definition update_contact_time (now : Z) (src_mac : sMacAddr) (c : Conn) : Conn :=
  if bool_decide (bridge_mac (db c) = src_mac)
  then on_db (λ d, mkDB (device_conf d) (back_radio d) (bridge_mac d) (direct_link_to_controller d) now
                     (connection_type d) (selected_iface_name d) (backhaul_links d)) c
  else c.

Inductive input :=
  | Work (e : ConnEnv)
  | Event (now : Z) (ev : eEvent)
  | Discovery (now : Z) (src_mac : sMacAddr)
  | Message (now : Z) (src_mac : sMacAddr).

Definition step (i : input) (c : Conn) : option Conn :=
  match i with
  | Work e => work e c
  | Event now ev => Some (handle_event now ev c)
  | Discovery now src => Some (handle_cmdu src (update_contact_time now src c))
  | Message now src => Some (update_contact_time now src c)
  end.

Fixpoint run (l : list input) (c : Conn) : option Conn :=
  match l with
  | [] => Some c
  | i :: l => c ← step i c; run l c
  end.

(** ** A controller that answers *)

(** The controller's last message is at most [d] seconds old at every [work()],
    and the backhaul stays connected. *)
Fixpoint fresh (controller : sMacAddr) (d contact : Z) (l : list input) : Prop :=
  match l with
  | [] => True
  | Work e :: l => elapsed_sec (clock e) contact ≤ d ∧ fresh controller d contact l
  | Event _ ev :: l => (ev = INIT_TASK ∨ ev = CONTROLLER_DISCOVERED) ∧ fresh controller d contact l
  | (Discovery now src | Message now src) :: l =>
    fresh controller d (if bool_decide (controller = src) then now else contact) l
  end.

Definition watching (c : Conn) : Prop :=
  m_task_state (mem c) = CONTROLLER_MONITORING ∨ m_task_state (mem c) = WAIT_RESPONSE_FROM_CONTROLLER.

Lemma fresh_no_timeout now c : 0 ≤ controller_message_timeout_seconds (device_conf (db c)) →
  elapsed_sec now (last_controller_contact_time (db c)) ≤ controller_message_timeout_seconds (device_conf (db c)) →
  check_controller_message_timeout now c = false.
Proof.
  intros Hd Hf. unfold check_controller_message_timeout, link_timeout, INDIRECT_TIMEOUT_MULTIPLIER.
  destruct (_ && _); [done|]. apply Z.ltb_ge. destruct (m_direct_link_to_controller (mem c)); lia.
Qed.

(** C29: As long as the controller's messages arrive within the message timeout and
    the backhaul is not reported as lost, the task neither sends heartbeats nor
    commands to the backhaul manager, and it keeps watching. *)
Theorem responsive_controller_is_kept l c : watching c →
  0 ≤ controller_message_timeout_seconds (device_conf (db c)) →
  fresh (bridge_mac (db c)) (controller_message_timeout_seconds (device_conf (db c)))
    (last_controller_contact_time (db c)) l →
  ∃ c', run l c = Some c' ∧ watching c' ∧ sent c' = sent c.
Proof.
  revert c. induction l as [|i l IH]; intros c Hw Hd Hf; [by exists c|]. cbn [run].
  assert (∃ c1, step i c = Some c1 ∧ watching c1 ∧ sent c1 = sent c ∧ device_conf (db c1) = device_conf (db c) ∧
    bridge_mac (db c1) = bridge_mac (db c) ∧
    fresh (bridge_mac (db c)) (controller_message_timeout_seconds (device_conf (db c)))
      (last_controller_contact_time (db c1)) l) as (c1 & Hs & Hw1 & Hsent & Hconf & Hbr & Hf1).
  { destruct i as [e|now ev|now src|now src]; cbn [step fresh] in *.
    - destruct Hf as [He Hf]. unfold work.
      destruct (negb (m_task_is_active (mem c))); [by exists c|].
      destruct Hw as [Hw|Hw]; rewrite Hw, fresh_no_timeout by done; eexists; (split; [done|]).
      + by split; [left|].
      + by split; [left|].
    - destruct Hf as [[-> | ->] Hf]; eexists; (split; [done|]); cbn; [|by split; [left|]].
      by split; [destruct Hw; [left|right]|].
    - eexists. split; [done|]. unfold handle_cmdu, update_contact_time, watching.
      repeat case_bool_decide; cbn in *; try done; by split_and!.
    - eexists. split; [done|]. unfold update_contact_time, watching.
      repeat case_bool_decide; cbn in *; try done; by split_and!. }
  rewrite Hs. cbn. destruct (IH c1 Hw1) as (c' & Hr & Hw' & Hs'); [by rewrite Hconf|by rewrite Hconf, Hbr|].
  exists c'. split_and!; [done|done|]. by rewrite Hs'.
Qed.

(** ** Heartbeats *)

Definition ff_protocol : list FixedField := [mkFF "protocol" 1 []].

Lemma hle_flat : flat (tx_layout tx_higher_layer_data) ff_protocol (Some "payload").
Proof.
  split; [done|by apply (bool_decide_unpack _)|intros ? [= <-]; by apply (bool_decide_unpack _)|by repeat constructor].
Qed.
Lemma hle_tx_ok : tx_ok tx_higher_layer_data ff_protocol.
Proof. by split. Qed.

(** A heartbeat is sent when the buffer has room for it. *)
Lemma send_hle_ready now c : (15 ≤ length (t_buff (m_cmdu_tx c)))%nat → ∃ t vals post,
  send_hle_to_controller now c = Some (push_sent (HEARTBEAT now t) (set_tx t c)) ∧
  Forall2 sized ff_protocol vals ∧ bytes_ok (concat vals) ∧
  pending t (header_wire HIGHER_LAYER_DATA_MESSAGE 0 false)
    (0xa0 :: le16_bytes 1 ++ concat vals) (0xa0 :: 0 :: 1 :: concat (wire_values ff_protocol vals)) post ∧
  (3 ≤ length post)%nat.
Proof.
  intros Hl. unfold send_hle_to_controller.
  destruct (create_pending 0 HIGHER_LAYER_DATA_MESSAGE (m_cmdu_tx c)) as (t1 & post & -> & Hpe & ->); [lia|].
  destruct (tx_addClass_pending tx_higher_layer_data ff_protocol (Some "payload") t1 _ _ _ _ hle_flat hle_tx_ok Hpe)
    as (t2 & t0 & vals & -> & Hs & Hb & Ht & Hpe2); [rewrite length_replicate; cbn; lia|done|].
  rewrite (Ht 0xa0 eq_refl) in Hpe2. eexists t2, vals, _. split_and!; [done|done| |exact Hpe2|].
  - apply Hb, Forall_replicate. unfold byte_ok. lia.
  - rewrite length_drop, length_replicate. cbn. lia.
Qed.

(** A heartbeat is a higher layer data message that the receiver parses: the
    task builds it in its transmit buffer, and after [finalize] the bytes are
    accepted by [CmduMessageRx::parse] with the one TLV expected. *)
Theorem heartbeat_is_received now c : (15 ≤ length (t_buff (m_cmdu_tx c)))%nat → ∃ c' t t' m,
  send_hle_to_controller now c = Some c' ∧ sent c' = sent c ++ [HEARTBEAT now t] ∧
  tx_finalize t = (Some true, t') ∧ parse (received (message t')) = (Some (Parsed true), m) ∧
  take 8 (m_buff m) = header_host HIGHER_LAYER_DATA_MESSAGE 0 false ∧
  o_class <$> m_class_vector m = ["cCmduHeader"; "tlvHigherLayerData"; "tlvEndOfMessage"].
Proof.
  intros Hl. destruct (send_hle_ready now c Hl) as (t & vals & post & Hr & Hs & Hb & Hpe & Hpost).
  destruct (finalize_pending _ _ _ _ _ Hpe Hpost) as (t' & Hf & Hm & _).
  set (v := mkTlv tx_higher_layer_data ff_protocol (Some "payload") 0xa0 vals []).
  assert (tlv_ok v) as Hv.
  { split; [exact hle_flat| |unfold byte_ok; cbn; lia|by vm_compute|by right|done|done].
    split; [exact Hs|split; [exact Hb|constructor]|done|done]. }
  destruct (rx_message HIGHER_LAYER_DATA_MESSAGE 0 false [v] []) as (m & Hp & Hbuf & Hcl & _); [by constructor|constructor|].
  eexists _, t, t', m. split_and!; [exact Hr|done|exact Hf| | |exact Hcl].
  - rewrite Hm. rewrite app_nil_r in Hp. rewrite <- Hp. do 3 f_equal. unfold tv_wire. cbn.
    by rewrite !app_nil_r.
  - by rewrite Hbuf.
Qed.

(** Building a heartbeat is defined for every buffer. *)
Lemma send_hle_total now c : ∃ t, send_hle_to_controller now c = Some (set_tx t c) ∨
  send_hle_to_controller now c = Some (push_sent (HEARTBEAT now t) (set_tx t c)).
Proof.
  unfold send_hle_to_controller. destruct (decide (8 ≤ length (t_buff (m_cmdu_tx c)))%nat) as [Hl|Hl].
  - destruct (create_pending 0 HIGHER_LAYER_DATA_MESSAGE (m_cmdu_tx c) Hl) as (t1 & post & -> & Hpe & Hpost).
    destruct (decide (4 ≤ length post)%nat) as [H4|H4].
    + destruct (tx_addClass_pending tx_higher_layer_data ff_protocol (Some "payload") t1 _ _ _ _ hle_flat hle_tx_ok Hpe)
        as (t2 & t0 & vals & -> & _); [done|done|]. exists t2. by right.
    + destruct (pending_finalize _ _ _ _ _ Hpe) as (objs & x & y & -> & Hfin & Hp & _).
      eexists. left. unfold tx_addClass. cbn [t_objects t_buff t_finalized].
      rewrite last_snoc, Hfin, Hp. unfold tx_object_init.
      destruct (_ <? _)%nat eqn:Hlt; [done|]. apply Nat.ltb_ge in Hlt. rewrite !length_app in Hlt. cbn in Hlt. lia.
  - eexists. left. unfold create. rewrite fbind_run. unfold tx_addClass at 1 2 3, tx_reset.
    cbn [t_objects t_buff t_finalized last]. unfold tx_object_init. rewrite length_replicate.
    destruct (_ <? _)%nat eqn:Hlt; [done|]. apply Nat.ltb_ge in Hlt. cbn in Hlt. lia.
Qed.

(** What [check_heartbeat_status] does. *)
Lemma check_heartbeat_total now c : ∃ c', check_heartbeat_status now c = Some c' ∧
  m_task_state (mem c') = m_task_state (mem c) ∧ m_task_is_active (mem c') = m_task_is_active (mem c) ∧
  m_direct_link_to_controller (mem c') = m_direct_link_to_controller (mem c) ∧
  m_controller_waiting_response_state_time (mem c') = m_controller_waiting_response_state_time (mem c) ∧
  db c' = db c ∧
  ((m_count_heartbeat_message (mem c') = m_count_heartbeat_message (mem c) ∧
    m_last_heartbeat_send_time (mem c') = m_last_heartbeat_send_time (mem c) ∧ sent c' = sent c) ∨
   (m_count_heartbeat_message (mem c) < MAX_HEARTBEAT_COUNT ∧
    HEARTBEAT_SENDING_PERIOD_SEC < elapsed_sec now (m_last_heartbeat_send_time (mem c)) ∧
    m_count_heartbeat_message (mem c') = u8 (m_count_heartbeat_message (mem c) + 1) ∧
    m_last_heartbeat_send_time (mem c') = now ∧
    (sent c' = sent c ∨ ∃ t, sent c' = sent c ++ [HEARTBEAT now t]))).
Proof.
  unfold check_heartbeat_status. destruct (_ && _) eqn:Hb; bool_to_prop.
  - destruct (send_hle_total now c) as [t [-> | ->]]; (eexists; split; [done|]; cbn; split_and!; [done..|]; right);
      split_and!; [done..| |done|done|done|done|]; [by left|right; by exists t].
  - exists c. split_and!; [done..|]. by left.
Qed.

(** The clock does not go back. *)
Definition input_time (i : input) : Z :=
  match i with Work e => clock e | Event now _ | Discovery now _ | Message now _ => now end.
Fixpoint ordered (t : Z) (l : list input) : Prop :=
  match l with [] => True | i :: l => t ≤ input_time i ∧ ordered (input_time i) l end.

(** When heartbeats were sent. *)
Definition heartbeat_times (l : list sent_msg) : list Z :=
  omap (λ m, match m with HEARTBEAT t _ => Some t | _ => None end) l.

(** Successive times are at least [d] apart. *)
Fixpoint spaced (d : Z) (l : list Z) : Prop :=
  match l with
  | a :: (b :: _) as l' => a + d ≤ b ∧ spaced d l'
  | _ => True
  end.

Lemma spaced_snoc d l x : spaced d l → (∀ y, last l = Some y → y + d ≤ x) → spaced d (l ++ [x]).
Proof.
  induction l as [|a [|b l] IH]; cbn [app spaced]; intros Hs Hx; [done|split; [by apply Hx|done]|].
  destruct Hs as [Hab Hs]. split; [done|]. by apply IH.
Qed.

(** After any inputs up to time [t]. *)
Record heartbeats_ok (t : Z) (c : Conn) : Prop := {
  hb_count : 0 ≤ m_count_heartbeat_message (mem c) ≤ MAX_HEARTBEAT_COUNT;
  hb_last : m_last_heartbeat_send_time (mem c) ≤ t;
  hb_before : Forall (λ x, x ≤ m_last_heartbeat_send_time (mem c)) (heartbeat_times (sent c));
  hb_spaced : spaced (seconds 3) (heartbeat_times (sent c));
  hb_recent : Z.of_nat (length (filter (λ x, m_controller_waiting_response_state_time (mem c) < x)
                                  (heartbeat_times (sent c)))) ≤ m_count_heartbeat_message (mem c);
}.

(** The parts of the state that pacing depends on. *)
Definition pacing (c : Conn) : Z * Z * Z * list Z :=
  (m_count_heartbeat_message (mem c), m_last_heartbeat_send_time (mem c),
   m_controller_waiting_response_state_time (mem c), heartbeat_times (sent c)).

Lemma heartbeats_ok_pacing t t' c c' : pacing c' = pacing c → t ≤ t' → heartbeats_ok t c → heartbeats_ok t' c'.
Proof.
  intros [= H1 H2 H3 H4] Ht [Hc Hl Hb Hs Hr].
  split; rewrite ?H1, ?H2, ?H4; [done|lia|done|done|]. by rewrite H3.
Qed.

Lemma heartbeat_times_command l m : (∀ t tx, m ≠ HEARTBEAT t tx) → heartbeat_times (l ++ [m]) = heartbeat_times l.
Proof.
  intros Hm. unfold heartbeat_times. rewrite omap_app. destruct m as [t tx| |]; cbn; rewrite ?app_nil_r; [|done..].
  by destruct (Hm t tx).
Qed.

Lemma backhaul_command_pacing e m c : (∀ t tx, m ≠ HEARTBEAT t tx) →
  pacing (send_to_backhaul_manager e m c) = pacing c.
Proof.
  intros Hm. unfold send_to_backhaul_manager. destruct (build_vs_message _ _); [|done].
  destruct (backhaul_manager_cmdu_client e); [|done]. unfold pacing. cbn. by rewrite heartbeat_times_command.
Qed.

Lemma none_in_filter {A} (P : A → Prop) `{∀ x, Decision (P x)} (l : list A) : Forall (λ x, ¬ P x) l → filter P l = [].
Proof. induction 1 as [|x l Hx _ IH]; [done|]. by rewrite filter_cons_False. Qed.

Lemma clear_heartbeats_ok t now c : heartbeats_ok t c → t ≤ now →
  heartbeats_ok now (move_state WAIT_RESPONSE_FROM_CONTROLLER (clear_heartbeat_counters now c)).
Proof.
  intros [Hc Hl Hb Hs Hr] Ht. split; cbn; [unfold MAX_HEARTBEAT_COUNT; lia|lia| |done|].
  - eapply Forall_impl; [exact Hb|]. cbn. intros. lia.
  - match goal with |- context [length ?l] => enough (l = []) as -> by done end.
    apply none_in_filter. eapply Forall_impl; [exact Hb|]. cbn. intros. lia.
Qed.

Lemma check_heartbeat_ok t now c c' : heartbeats_ok t c → t ≤ now → check_heartbeat_status now c = Some c' →
  heartbeats_ok now c'.
Proof.
  intros Hok Ht Hr. destruct (check_heartbeat_total now c) as (c1 & Hr1 & _ & _ & _ & Hw & _ & Hcase).
  rewrite Hr in Hr1. injection Hr1 as <-. destruct Hcase as [(H1 & H2 & H3)|(Hlt & Hel & Hc & Hl & Hsent)].
  { eapply heartbeats_ok_pacing; [|exact Ht|exact Hok]. unfold pacing. congruence. }
  destruct Hok as [Hcnt Hlast Hb Hs Hrec].
  assert (u8 (m_count_heartbeat_message (mem c) + 1) = m_count_heartbeat_message (mem c) + 1) as Hu.
  { unfold u8, MAX_HEARTBEAT_COUNT in *. change (2 ^ 8) with 256. rewrite Z.mod_small; lia. }
  assert (m_last_heartbeat_send_time (mem c) + seconds 3 ≤ now) as Hgap.
  { unfold elapsed_sec, HEARTBEAT_SENDING_PERIOD_SEC, seconds in *.
    rewrite Z.quot_div_nonneg in Hel by lia. pose proof (Z.mul_div_le (now - m_last_heartbeat_send_time (mem c)) (1 * 1000000000)).
    lia. }
  unfold seconds in Hgap. split; rewrite ?Hc, ?Hl, ?Hu.
  - unfold MAX_HEARTBEAT_COUNT in *. lia.
  - lia.
  - destruct Hsent as [-> | [tx ->]]; [|unfold heartbeat_times; rewrite omap_app, Forall_app; split; [|by repeat constructor]];
      (eapply Forall_impl; [exact Hb|]; cbn; intros; lia).
  - destruct Hsent as [-> | [tx ->]]; [done|]. unfold heartbeat_times. rewrite omap_app. apply spaced_snoc; [done|].
    intros y Hy. apply last_Some_elem_of in Hy. rewrite Forall_forall in Hb. apply Hb in Hy. unfold seconds. lia.
  - rewrite Hw. destruct Hsent as [-> | [tx ->]]; [lia|]. unfold heartbeat_times. rewrite omap_app, filter_app, length_app.
    fold (heartbeat_times (sent c)). cbn [omap list_omap]. pose proof (length_filter (λ x, m_controller_waiting_response_state_time (mem c) < x) [now]).
    cbn [length] in *. lia.
Qed.

Lemma work_heartbeats t e c c' : heartbeats_ok t c → t ≤ clock e → work e c = Some c' →
  heartbeats_ok (clock e) c'.
Proof.
  intros Hok Ht. assert (∀ c1, pacing c1 = pacing c → heartbeats_ok (clock e) c1) as Hp.
  { intros c1 H1. by eapply heartbeats_ok_pacing. }
  unfold work. destruct (negb _); [intros [= <-]; by apply Hp|].
  destruct (m_task_state (mem c)).
  - intros [= <-]. by apply Hp.
  - intros [= <-]. destruct (check_controller_discovery_timeout _ _); by apply Hp.
  - intros [= <-]. destruct (check_controller_message_timeout _ _); [by eapply clear_heartbeats_ok|by apply Hp].
  - destruct (negb _); [intros [= <-]; by apply Hp|].
    destruct (check_controller_response_timeout _ _); [intros [= <-]; by apply Hp|]. by eapply check_heartbeat_ok.
  - unfold connection_timeout. destruct (list_find _ _) as [[k l]|].
    + destruct (link_credentials l); [done|]. intros [= <-]. by apply Hp.
    + intros [= <-]. apply Hp. by apply backhaul_command_pacing.
  - intros [= <-]. by apply Hp.
  - intros [= <-]. apply Hp.
    exact (backhaul_command_pacing e (BACKHAUL_RECONNECT_COMMAND (clock e)) c ltac:(done)).
  - intros [= <-]. destruct (_ <? _); by apply Hp.
Qed.

Lemma step_heartbeats t i c c' : heartbeats_ok t c → t ≤ input_time i → step i c = Some c' →
  heartbeats_ok (input_time i) c'.
Proof.
  intros Hok Ht. destruct i as [e|now ev|now src|now src]; cbn [step input_time] in *.
  - intros Hr. by eapply work_heartbeats.
  - intros [= <-]. eapply heartbeats_ok_pacing; [|exact Ht|exact Hok]. by destruct ev.
  - intros [= <-]. eapply heartbeats_ok_pacing; [|exact Ht|exact Hok].
    unfold handle_cmdu, update_contact_time. by repeat case_bool_decide.
  - intros [= <-]. eapply heartbeats_ok_pacing; [|exact Ht|exact Hok].
    unfold update_contact_time. by case_bool_decide.
Qed.

(** Heartbeats are paced: whatever events, messages and periodic calls come in
    whatever order, two heartbeats are at least three seconds apart, and at
    most eight were sent since the task last started to wait for a response;
    the counter does not overflow. *)
Theorem heartbeats_paced l t c c' : sent c = [] → m_count_heartbeat_message (mem c) = 0 →
  m_last_heartbeat_send_time (mem c) ≤ t → ordered t l → run l c = Some c' →
  spaced (seconds 3) (heartbeat_times (sent c')) ∧
  (length (filter (λ x, m_controller_waiting_response_state_time (mem c') < x)%Z (heartbeat_times (sent c'))) ≤ 8)%nat ∧
  0 ≤ m_count_heartbeat_message (mem c') ≤ 8.
Proof.
  intros Hs Hc Hl Ho Hr. assert (heartbeats_ok t c) as Hok.
  { split; rewrite ?Hs, ?Hc; [unfold MAX_HEARTBEAT_COUNT; lia|done|constructor|done|done]. }
  assert (∃ t', heartbeats_ok t' c') as [t' [H1 _ _ H4 H5]].
  { clear Hs Hc Hl. revert t c Hok Ho Hr. induction l as [|i l IH]; intros t c Hok Ho Hr.
    - injection Hr as <-. by exists t.
    - destruct Ho as [Ht Ho]. cbn in Hr. destruct (step i c) as [c1|] eqn:Hstep; [|done].
      eapply IH; [|exact Ho|exact Hr]. by eapply step_heartbeats. }
  unfold MAX_HEARTBEAT_COUNT in H1. split_and!; [done|lia|lia|lia].
Qed.

(** ** A controller that is silent *)

(** Nothing comes from the controller and the backhaul manager is quiet. *)
Fixpoint silent (controller : sMacAddr) (l : list input) : Prop :=
  match l with
  | [] => True
  | Work _ :: l => silent controller l
  | Event _ _ :: _ => False
  | (Discovery _ src | Message _ src) :: l => src ≠ controller ∧ silent controller l
  end.

(** Every wireless link was stored with credentials. *)
Definition credentials_known (d : DB) : Prop :=
  Forall (λ l, link_connection_type l = Conn_Wireless → link_credentials l ≠ []) (backhaul_links d).

Definition lost (s : eState) : Prop := s = CONNECTION_TIMEOUT ∨ s = RECONNECTION ∨ s = WAIT_FOR_RECONNECT.

(** What silence keeps. *)
Record silence (c0 c : Conn) : Prop := {
  si_active : m_task_is_active (mem c) = true;
  si_direct : m_direct_link_to_controller (mem c) = m_direct_link_to_controller (mem c0);
  si_conf : device_conf (db c) = device_conf (db c0);
  si_bridge : bridge_mac (db c) = bridge_mac (db c0);
  si_contact : last_controller_contact_time (db c) = last_controller_contact_time (db c0);
  si_links : backhaul_links (db c) = backhaul_links (db c0);
}.

Lemma silence_backhaul_command c0 e m c : silence c0 c → silence c0 (send_to_backhaul_manager e m c).
Proof.
  intros [? ? ? ? ? ?]. unfold send_to_backhaul_manager. destruct (build_vs_message _ _); [|done].
  destruct (backhaul_manager_cmdu_client e); by split.
Qed.

Lemma send_to_backhaul_manager_mem e m c : mem (send_to_backhaul_manager e m c) = mem c.
Proof.
  unfold send_to_backhaul_manager. destruct (build_vs_message _ _); [|done].
  by destruct (backhaul_manager_cmdu_client e).
Qed.

Lemma silence_message_timeout c0 c t : silence c0 c →
  check_controller_message_timeout t c = check_controller_message_timeout t c0.
Proof. intros [_ H2 H3 _ H5 _]. unfold check_controller_message_timeout, link_timeout. by rewrite H2, H3, H5. Qed.

Lemma elapsed_mono t t' t0 t0' : t ≤ t' → t0' ≤ t0 → elapsed_sec t t0 ≤ elapsed_sec t' t0'.
Proof. intros. unfold elapsed_sec. apply Z.quot_le_mono; unfold seconds; lia. Qed.

Lemma message_timeout_mono t t' c : t ≤ t' →
  check_controller_message_timeout t c = true → check_controller_message_timeout t' c = true.
Proof.
  intros Ht. unfold check_controller_message_timeout. destruct (_ && _); [done|].
  rewrite !Z.ltb_lt. pose proof (elapsed_mono t t' (last_controller_contact_time (db c)) (last_controller_contact_time (db c))). lia.
Qed.

(** A periodic call while the controller is silent. *)
Lemma silent_work c0 e c : silence c0 c → credentials_known (db c0) → watching c ∨ lost (m_task_state (mem c)) → ∃ c',
  work e c = Some c' ∧ silence c0 c' ∧
  (lost (m_task_state (mem c)) → lost (m_task_state (mem c'))) ∧
  (m_task_state (mem c) = CONTROLLER_MONITORING →
     if check_controller_message_timeout (clock e) c0
     then m_task_state (mem c') = WAIT_RESPONSE_FROM_CONTROLLER ∧
          m_controller_waiting_response_state_time (mem c') = clock e
     else m_task_state (mem c') = CONTROLLER_MONITORING) ∧
  (m_task_state (mem c) = WAIT_RESPONSE_FROM_CONTROLLER →
     if check_controller_message_timeout (clock e) c0
     then if check_controller_response_timeout (clock e) c then lost (m_task_state (mem c'))
          else m_task_state (mem c') = WAIT_RESPONSE_FROM_CONTROLLER ∧
               m_controller_waiting_response_state_time (mem c') = m_controller_waiting_response_state_time (mem c)
     else m_task_state (mem c') = CONTROLLER_MONITORING).
Proof.
  intros Hsi Hcr Hst. unfold work. rewrite (si_active _ _ Hsi). cbn [negb].
  rewrite (silence_message_timeout c0 c (clock e) Hsi). pose proof Hsi as [H1 H2 H3 H4 H5 H6].
  destruct Hst as [[Hs|Hs]|[Hs|[Hs|Hs]]]; rewrite Hs.
  - eexists. split; [done|]. destruct (check_controller_message_timeout (clock e) c0); cbn;
      (split; [by split|]); split_and!; try done; (intros [?|[?|?]]; congruence).
  - destruct (check_controller_message_timeout (clock e) c0); cbn [negb].
    2: { eexists. split; [done|]. split; [by split|]. split_and!; [by intros [?|[?|?]]|done|done]. }
    destruct (check_controller_response_timeout (clock e) c).
    { eexists. split; [done|]. split; [by split|]. split_and!; [by intros [?|[?|?]]|done|]. intros _. by left. }
    destruct (check_heartbeat_total (clock e) c) as (c' & -> & E1 & E2 & E3 & E4 & E5 & _). exists c'.
    split; [done|]. split; [split; congruence|]. rewrite E1, E4, Hs. split_and!; [by intros [?|[?|?]]|done|done].
  - unfold connection_timeout. destruct (list_find _ _) as [[k l]|] eqn:Hf.
    + apply list_find_Some in Hf as (Hl & Hw & _). rewrite H6 in Hl.
      unfold credentials_known in Hcr. rewrite Forall_lookup in Hcr. specialize (Hcr k l Hl Hw).
      destruct (link_credentials l) as [|cr crs]; [done|]. eexists. split; [done|]. split; [by split|].
      split_and!; [|done|done]. intros _. right. by left.
    + eexists. split; [done|]. split; [by apply silence_backhaul_command|].
      unfold send_disconnect_to_backhaul_manager. rewrite send_to_backhaul_manager_mem, Hs.
      by split_and!.
  - eexists. split; [done|]. split; [|split_and!; [|done|done]; intros _; right; by right].
    pose proof (silence_backhaul_command c0 e (BACKHAUL_RECONNECT_COMMAND (clock e)) c Hsi) as [? ? ? ? ? ?]. by split.
  - eexists. split; [done|]. destruct (_ <? _); (split; [by split|]); (split_and!; [|congruence|congruence]); intros _;
      [right; by left|by right; right].
Qed.

Definition last_time (t : Z) (l : list input) : Z := foldl (λ _ i, input_time i) t l.

Lemma ordered_app t l1 l2 : ordered t (l1 ++ l2) ↔ ordered t l1 ∧ ordered (last_time t l1) l2.
Proof. revert t. induction l1 as [|i l1 IH]; intros t; cbn; [tauto|]. rewrite IH. unfold last_time. cbn. tauto. Qed.
Lemma silent_app m l1 l2 : silent m (l1 ++ l2) ↔ silent m l1 ∧ silent m l2.
Proof. induction l1 as [|[] l1 IH]; cbn; rewrite ?IH; tauto. Qed.
Lemma run_app l1 l2 c : run (l1 ++ l2) c = run l1 c ≫= run l2.
Proof. revert c. induction l1 as [|i l1 IH]; intros c; cbn; [done|].
  destruct (step i c); cbn; [apply IH|done]. Qed.

(** Messages of others change nothing. *)
Lemma silent_step c0 i l c : silence c0 c → silent (bridge_mac (db c0)) (i :: l) →
  silent (bridge_mac (db c0)) l ∧ (step i c = Some c ∨ ∃ e, i = Work e).
Proof.
  intros [_ _ _ H _ _]. destruct i as [e|now ev|now src|now src]; cbn.
  - intros Hs. split; [done|]. right. by exists e.
  - done.
  - intros [Hne Hs]. split; [done|]. left. unfold handle_cmdu, update_contact_time.
    rewrite H, (bool_decide_eq_false_2 (_ = src)) by congruence.
    cbv iota. rewrite H, (bool_decide_eq_false_2 (src = _)) by congruence. by rewrite andb_false_r.
  - intros [Hne Hs]. split; [done|]. left. unfold update_contact_time. by rewrite H, bool_decide_eq_false_2 by congruence.
Qed.

(** Any calls: the wait for a response started in the past. *)
Definition waits_since (t : Z) (c : Conn) : Prop :=
  (watching c ∨ lost (m_task_state (mem c))) ∧
  (m_task_state (mem c) = WAIT_RESPONSE_FROM_CONTROLLER → m_controller_waiting_response_state_time (mem c) ≤ t).

Lemma silent_work_waits c0 t e c : silence c0 c → credentials_known (db c0) → waits_since t c → t ≤ clock e → ∃ c',
  work e c = Some c' ∧ silence c0 c' ∧ waits_since (clock e) c'.
Proof.
  intros Hsi Hcr [Hst Hw] Ht. destruct (silent_work c0 e c Hsi Hcr Hst) as (c' & Hr & Hsi' & Hl & Hm & Hwt).
  exists c'. split_and!; [done|done|].
  destruct Hst as [[Hs|Hs]|Hlost].
  - specialize (Hm Hs). destruct (check_controller_message_timeout _ _).
    + destruct Hm as [Hm1 Hm2]. split; [left; by right|]. intros _. lia.
    + split; [left; by left|]. congruence.
  - specialize (Hwt Hs). specialize (Hw Hs). destruct (check_controller_message_timeout _ _); [|split; [left; by left|congruence]].
    destruct (check_controller_response_timeout _ _).
    + split; [by right|]. destruct Hwt as [?|[?|?]]; congruence.
    + destruct Hwt as [Hm1 Hm2]. split; [left; by right|]. intros _. lia.
  - specialize (Hl Hlost). split; [by right|]. destruct Hl as [?|[?|?]]; congruence.
Qed.

Lemma silent_run c0 l : credentials_known (db c0) → ∀ t c, silence c0 c → waits_since t c → silent (bridge_mac (db c0)) l →
  ordered t l → ∃ c', run l c = Some c' ∧ silence c0 c' ∧ waits_since (last_time t l) c'.
Proof.
  intros Hcr. induction l as [|i l IH]; intros t c Hsi Hw Hsil Hord; [by exists c|].
  destruct (silent_step c0 i l c Hsi Hsil) as [Hsil' Hi]. destruct Hord as [Ht Hord]. cbn [run].
  destruct Hi as [-> | [e ->]].
  - cbn. apply (IH (input_time i)); [done| |done|done]. destruct Hw as [H1 H2]. split; [done|]. intros H. specialize (H2 H). lia.
  - cbn [step input_time] in *. destruct (silent_work_waits c0 t e c Hsi Hcr Hw Ht) as (c1 & -> & Hsi1 & Hw1).
    by apply (IH (clock e)).
Qed.

(** Calls after the message timeout: the wait goes on or ends with the loss. *)
Definition waits_or_lost (t : Z) (c : Conn) : Prop :=
  lost (m_task_state (mem c)) ∨
  (m_task_state (mem c) = WAIT_RESPONSE_FROM_CONTROLLER ∧ m_controller_waiting_response_state_time (mem c) ≤ t).

Lemma silent_work_late c0 t e c : silence c0 c → credentials_known (db c0) → waits_or_lost t c →
  check_controller_message_timeout (clock e) c0 = true → ∃ c',
  work e c = Some c' ∧ silence c0 c' ∧ waits_or_lost t c' ∧
  (link_timeout c0 (controller_heartbeat_state_timeout_seconds (device_conf (db c0))) < elapsed_sec (clock e) t →
   lost (m_task_state (mem c'))).
Proof.
  intros Hsi Hcr Hst Hto.
  destruct (silent_work c0 e c Hsi Hcr) as (c' & Hr & Hsi' & Hl & _ & Hwt).
  { destruct Hst as [?|[? _]]; [by right|left; by right]. }
  exists c'. split; [done|]. split; [done|]. destruct Hst as [Hlost|[Hs Hw]].
  { specialize (Hl Hlost). split; [by left|done]. }
  specialize (Hwt Hs). rewrite Hto in Hwt. destruct (check_controller_response_timeout (clock e) c) eqn:Hrt.
  { split; [by left|done]. }
  destruct Hwt as [Hm1 Hm2]. split; [right; split; [done|lia]|]. intros Hel. exfalso.
  unfold check_controller_response_timeout in Hrt. apply Z.ltb_ge in Hrt. unfold link_timeout in *.
  rewrite (si_direct _ _ Hsi), (si_conf _ _ Hsi) in Hrt.
  pose proof (elapsed_mono (clock e) (clock e) t (m_controller_waiting_response_state_time (mem c))). lia.
Qed.

Lemma silent_run_late c0 t l : credentials_known (db c0) → check_controller_message_timeout t c0 = true → ∀ c,
  silence c0 c → waits_or_lost t c → silent (bridge_mac (db c0)) l → (∀ i, i ∈ l → t ≤ input_time i) →
  ∃ c', run l c = Some c' ∧ silence c0 c' ∧ waits_or_lost t c'.
Proof.
  intros Hcr Hto. induction l as [|i l IH]; intros c Hsi Hw Hsil Hord; [by exists c|].
  destruct (silent_step c0 i l c Hsi Hsil) as [Hsil' Hi]. cbn [run].
  assert (∀ j, j ∈ l → t ≤ input_time j) as Hord' by (intros; apply Hord; by right).
  destruct Hi as [-> | [e ->]]; [cbn; by apply IH|].
  cbn [step]. destruct (silent_work_late c0 t e c) as (c1 & -> & Hsi1 & Hw1 & _); [done|done|done| |by apply IH].
  eapply message_timeout_mono; [|exact Hto]. apply (Hord (Work e)). by left.
Qed.

Lemma ordered_le t l : ordered t l → ∀ i, i ∈ l → t ≤ input_time i.
Proof.
  revert t. induction l as [|j l IH]; intros t Ho i; [by intros ?%elem_of_nil|]. destruct Ho as [Ht Ho].
  intros [->|Hi]%elem_of_cons; [done|]. specialize (IH _ Ho i Hi). lia.
Qed.

(** C28: The loss of the controller is noticed by an active task that monitors
    it and whose wireless links have credentials. While the inputs are periodic
    calls and messages of others, with no event of a task and nothing from the
    controller, one periodic call after the message timeout and another one
    after a further response timeout are enough for the task to give the
    connection up. *)
Theorem silent_controller_is_noticed c l1 e1 l2 e2 t :
  m_task_is_active (mem c) = true → m_task_state (mem c) = CONTROLLER_MONITORING → credentials_known (db c) →
  let l := l1 ++ [Work e1] ++ l2 ++ [Work e2] in
  silent (bridge_mac (db c)) l → ordered t l →
  check_controller_message_timeout (clock e1) c = true →
  link_timeout c (controller_heartbeat_state_timeout_seconds (device_conf (db c))) < elapsed_sec (clock e2) (clock e1) →
  ∃ c', run l c = Some c' ∧ lost (m_task_state (mem c')).
Proof.
  intros Hact Hs Hcr l Hsil Hord Hto Hel. unfold l in *.
  apply silent_app in Hsil as [Hs1 Hsil]. apply silent_app in Hsil as [_ Hsil]. apply silent_app in Hsil as [Hs2 _].
  apply ordered_app in Hord as [Ho1 Hord]. apply ordered_app in Hord as [[Ht1 _] Hord].
  apply ordered_app in Hord as [Ho2 [Ht2 _]]. cbn in Ht1, Ho2.
  assert (silence c c) as Hsi by (by split).
  destruct (silent_run c l1 Hcr t c Hsi) as (c1 & Hr1 & Hsi1 & Hw1); [|done|done|].
  { split; [left; by left|congruence]. }
  destruct (silent_work c e1 c1 Hsi1 Hcr (proj1 Hw1)) as (c2 & Hr2 & Hsi2 & Hl2 & Hm2 & Hwt2).
  assert (waits_or_lost (clock e1) c2) as Hw2.
  { rewrite Hto in Hm2, Hwt2. destruct Hw1 as [[[H|H]|H] Hw1].
    - destruct (Hm2 H) as [? ?]. right. split; [done|lia].
    - specialize (Hwt2 H). specialize (Hw1 H). destruct (check_controller_response_timeout _ _); [by left|].
      destruct Hwt2. right. split; [done|lia].
    - left. by apply Hl2. }
  destruct (silent_run_late c (clock e1) l2 Hcr Hto c2 Hsi2 Hw2 Hs2 (ordered_le _ _ Ho2)) as (c3 & Hr3 & Hsi3 & Hw3).
  assert (clock e1 ≤ clock e2) as Hle.
  { assert (clock e1 ≤ last_time (clock e1) l2); [|cbn in Ht2; unfold last_time in *; lia].
    clear -Ho2. revert Ho2. generalize (clock e1). induction l2 as [|i l IH]; intros t; cbn; [lia|].
    intros [? H]. specialize (IH _ H). unfold last_time in *. lia. }
  destruct (silent_work_late c (clock e1) e2 c3 Hsi3 Hcr Hw3) as (c4 & Hr4 & _ & _ & Hlost).
  { by eapply message_timeout_mono. }
  exists c4. split; [|by apply Hlost]. rewrite run_app, Hr1. cbn. rewrite Hr2. cbn. rewrite run_app, Hr3. cbn. by rewrite Hr4.
Qed.

(** ** Giving the connection up *)

Definition first_wireless (c : Conn) : option sBackhaulLink :=
  snd <$> list_find (λ l, link_connection_type l = Conn_Wireless) (backhaul_links (db c)).

Definition can_send (e : ConnEnv) : Prop :=
  backhaul_manager_cmdu_client e = true ∧ ∀ t, is_Some (build_vs_message e t).

Lemma send_to_backhaul_manager_ok e m c : can_send e →
  ∃ t, send_to_backhaul_manager e m c = push_sent m (set_tx t c).
Proof.
  intros [Hc Hb]. unfold send_to_backhaul_manager. destruct (Hb (m_cmdu_tx c)) as [t ->]. rewrite Hc. by exists t.
Qed.

(** What the task does once the connection is given up. With a wireless link in
    the database the next two calls take over its interface and first
    credentials and send the reconnect command, after which the task waits for
    120 seconds; without one every call sends the disconnect command. *)
Theorem lost_connection_flow c e1 e2 : m_task_is_active (mem c) = true →
  m_task_state (mem c) = CONNECTION_TIMEOUT → can_send e1 → can_send e2 →
  match first_wireless c with
  | None => ∃ c', work e1 c = Some c' ∧ mem c' = mem c ∧ sent c' = sent c ++ [BACKHAUL_DISCONNECT_COMMAND (clock e1)]
  | Some l =>
    ∀ cr crs, link_credentials l = cr :: crs → ∃ c', run [Work e1; Work e2] c = Some c' ∧
      sent c' = sent c ++ [BACKHAUL_RECONNECT_COMMAND (clock e2)] ∧
      m_task_state (mem c') = WAIT_FOR_RECONNECT ∧ reconnect_timeout (mem c') = clock e2 + seconds 120 ∧
      connection_type (db c') = Conn_Wireless ∧ selected_iface_name (db c') = link_iface_name l ∧
      back_radio (db c') = mkBackRadio (cred_ssid cr) (cred_network_key cr) (wsc_to_bwl_authentication (cred_auth_type cr))
  end.
Proof.
  intros Hact Hs He1 He2. unfold first_wireless. destruct (list_find _ _) as [[k l]|] eqn:Hf; cbn [fmap option_fmap option_map].
  - intros cr crs Hcr. cbn [run step]. cbn in Hcr.
    destruct (work e1 c) as [c1|] eqn:H1; unfold work in H1; rewrite Hact, Hs in H1; cbn [negb] in H1;
      unfold connection_timeout in H1; rewrite Hf, Hcr in H1; [|done]. injection H1 as <-.
    cbn. unfold work. cbn. rewrite Hact. cbn.
    match goal with |- context [send_reconnect_to_backhaul_manager e2 ?c1] =>
      destruct (send_to_backhaul_manager_ok e2 (BACKHAUL_RECONNECT_COMMAND (clock e2)) c1 He2) as [t Ht] end.
    unfold send_reconnect_to_backhaul_manager. rewrite Ht. eexists. split; [done|]. by cbn.
  - destruct (send_to_backhaul_manager_ok e1 (BACKHAUL_DISCONNECT_COMMAND (clock e1)) c He1) as [t Ht].
    unfold work. rewrite Hact, Hs. cbn [negb]. unfold connection_timeout, send_disconnect_to_backhaul_manager.
    rewrite Hf, Ht. by eexists.
Qed.

(** The periodic call is undefined only when a connection is given up for a
    wireless link that was stored without credentials ([front()] of an empty
    list). *)
Theorem work_faults_iff e c : work e c = None ↔
  m_task_is_active (mem c) = true ∧ m_task_state (mem c) = CONNECTION_TIMEOUT ∧
  ∃ l, first_wireless c = Some l ∧ link_credentials l = [].
Proof.
  unfold work, first_wireless. destruct (m_task_is_active (mem c)); cbn [negb]; [|naive_solver].
  destruct (m_task_state (mem c)) eqn:Hs; try naive_solver.
  - destruct (negb _); [naive_solver|]. destruct (check_controller_response_timeout _ _); [naive_solver|].
    destruct (check_heartbeat_total (clock e) c) as (c' & -> & _). naive_solver.
  - unfold connection_timeout. destruct (list_find _ _) as [[k l]|]; cbn; [|naive_solver].
    destruct (link_credentials l) eqn:Hl; (split; [try done|]).
    + intros _. split_and!; [done|done|]. by exists l.
    + done.
    + intros (_ & _ & l' & [= <-] & Hl'). congruence.
Qed.

End connectivity.
