(* ===== verification/ControllerTask.v ===== *)
(** * The controller's tasks

    The base class [son::task] of the controller's tasks
    ([controller/src/beerocks/master/tasks/task.cpp]) and the [task_pool] that
    runs them ([task_pool.cpp]). A task waits for a time, for responses, for
    events or for another task, each with a timeout; its virtual methods are
    programs that call the protected methods of the base class and the public
    ones of the pool, and that may read the clock. Times are nanoseconds; every
    call of [steady_clock::now()] reads the clock anew. *)

From S2P Require Import Prelude.

Module son.

(** ** Programs of derived classes *)

Section Tasks.
(** The derived classes and the type of their own members. *)
Context {C U : Type}.

(** What a method of a derived class can call. *)
Inductive op :=
  | add_pending_macs (macs : list string) (action_op : Z)
  | add_pending_mac (mac : string) (action_op : Z)
  | clear_pending_macs
  | wait_for (ms : Z)
  | wait_for_event (event : Z)
  | wait_for_task_end (task_id ms : Z)
  | clear_pending_events
  | set_task_timeout (ms : Z)
  | set_responses_timeout (ms : Z)
  | set_events_timeout (ms : Z)
  | finish
  | set_own (u : U)
  | pool_add_task (c : C) (u : U)
  | pool_kill_task (id : Z)
  | pool_push_event (id event_type obj : Z).

Inductive prog :=
  | Return
  | Call (o : op) (k : prog)
  | Now (k : Z → prog)
  | IsTaskRunning (id : Z) (k : bool → prog).

(** The virtual methods, on the members of the object. *)
Record virtuals := mkVirtuals {
  work : U → prog;
  handle_event : Z → Z → U → prog;
  handle_response : string → Z → Z → U → prog;
  handle_events_timeout : list Z → U → prog;
  handle_responses_timeout : list (string * Z) → U → prog;
  handle_pending_task_timeout : Z → U → prog;
  handle_pending_task_ended : Z → U → prog;
  handle_task_end : U → prog;
  handle_ieee1905_1_msg : Z → Z → U → prog;
}.
Context (vt : C → virtuals).

(** ** State *)

Record task := mkTask {
  t_id : Z;
  t_class : C;
  t_own : U;
  done : bool;
  pending_macs : list (string * Z);
  waiting : bool;
  responses_timeout_set : bool;
  waiting_for_responses : bool;
  responses_timeout : Z;
  task_timeout_set : bool;
  events_timeout : Z;
  pending_events : list Z;
  events_timeout_set : bool;
  waiting_for_events : bool;
  pending_task_timeout : Z;
  pending_task_id : Z;
  waiting_for_pending_task : bool;
  task_timeout : Z;
  next_action_time : Z;
  last_exec_time : Z;
}.

Definition new_task (id : Z) (c : C) (u : U) : task :=
  mkTask id c u false [] false false false 0 false 0 [] false false 0 (-1) false 0 0 0.

(** What happened, in order. *)
Inductive happened := Executed (id : Z) | Worked (id : Z) | Erased (id : Z).

(** The pool: the tasks in the order of their identifiers, the next
    identifier, the start of the iteration, the clock's readings so far, and
    what happened. *)
Record Pool := mkPool {
  m_scheduled_tasks : list task;
  latest_id : Z;
  m_exec_iteration_start_time : Z;
  m_exec_iteration_slots : Z;
  reads : nat;
  history : list happened;
}.
Context (clk : nat → Z).

Definition TIME_MAX : Z := 2 ^ 63 - 1.
Definition milliseconds (ms : Z) : Z := ms * 1000000.

Definition with_tasks (l : list task) (s : Pool) : Pool :=
  mkPool l (latest_id s) (m_exec_iteration_start_time s) (m_exec_iteration_slots s) (reads s) (history s).
Definition note (h : happened) (s : Pool) : Pool :=
  mkPool (m_scheduled_tasks s) (latest_id s) (m_exec_iteration_start_time s) (m_exec_iteration_slots s)
    (reads s) (history s ++ [h]).
(** [steady_clock::now()]. *)
Definition tick (s : Pool) : Z * Pool :=
  (clk (reads s), mkPool (m_scheduled_tasks s) (latest_id s) (m_exec_iteration_start_time s)
                    (m_exec_iteration_slots s) (S (reads s)) (history s)).

Definition find (id : Z) (s : Pool) : option task :=
  snd <$> list_find (λ t, t_id t = id) (m_scheduled_tasks s).
(** A method of the task [id] that changes its members. *)
Definition on_task (id : Z) (f : task → task) (s : Pool) : Pool :=
  with_tasks ((λ t, if bool_decide (t_id t = id) then f t else t) <$> m_scheduled_tasks s) s.

(** [std::map::insert]. *)
Fixpoint map_insert (t : task) (l : list task) : list task :=
  match l with
  | [] => [t]
  | t' :: l' => if t_id t <? t_id t' then t :: l else if t_id t =? t_id t' then l else t' :: map_insert t l'
  end.

(** ** The protected methods *)

Definition upd_macs (l : list (string * Z)) (t : task) : task :=
  mkTask (t_id t) (t_class t) (t_own t) (done t) l (waiting t) (responses_timeout_set t)
    (waiting_for_responses t) (responses_timeout t) (task_timeout_set t) (events_timeout t) (pending_events t)
    (events_timeout_set t) (waiting_for_events t) (pending_task_timeout t) (pending_task_id t)
    (waiting_for_pending_task t) (task_timeout t) (next_action_time t) (last_exec_time t).
Definition upd_waiting (b : bool) (t : task) : task :=
  mkTask (t_id t) (t_class t) (t_own t) (done t) (pending_macs t) b (responses_timeout_set t)
    (waiting_for_responses t) (responses_timeout t) (task_timeout_set t) (events_timeout t) (pending_events t)
    (events_timeout_set t) (waiting_for_events t) (pending_task_timeout t) (pending_task_id t)
    (waiting_for_pending_task t) (task_timeout t) (next_action_time t) (last_exec_time t).
Definition upd_responses (set wait : bool) (deadline : Z) (t : task) : task :=
  mkTask (t_id t) (t_class t) (t_own t) (done t) (pending_macs t) (waiting t) set
    wait deadline (task_timeout_set t) (events_timeout t) (pending_events t)
    (events_timeout_set t) (waiting_for_events t) (pending_task_timeout t) (pending_task_id t)
    (waiting_for_pending_task t) (task_timeout t) (next_action_time t) (last_exec_time t).
Definition upd_events (l : list Z) (set wait : bool) (deadline : Z) (t : task) : task :=
  mkTask (t_id t) (t_class t) (t_own t) (done t) (pending_macs t) (waiting t) (responses_timeout_set t)
    (waiting_for_responses t) (responses_timeout t) (task_timeout_set t) deadline l
    set wait (pending_task_timeout t) (pending_task_id t)
    (waiting_for_pending_task t) (task_timeout t) (next_action_time t) (last_exec_time t).
Definition upd_pending_task (deadline id : Z) (wait : bool) (t : task) : task :=
  mkTask (t_id t) (t_class t) (t_own t) (done t) (pending_macs t) (waiting t) (responses_timeout_set t)
    (waiting_for_responses t) (responses_timeout t) (task_timeout_set t) (events_timeout t) (pending_events t)
    (events_timeout_set t) (waiting_for_events t) deadline id
    wait (task_timeout t) (next_action_time t) (last_exec_time t).
Definition upd_timeout (set : bool) (deadline : Z) (t : task) : task :=
  mkTask (t_id t) (t_class t) (t_own t) (done t) (pending_macs t) (waiting t) (responses_timeout_set t)
    (waiting_for_responses t) (responses_timeout t) set (events_timeout t) (pending_events t)
    (events_timeout_set t) (waiting_for_events t) (pending_task_timeout t) (pending_task_id t)
    (waiting_for_pending_task t) deadline (next_action_time t) (last_exec_time t).
Definition upd_next (time : Z) (t : task) : task :=
  mkTask (t_id t) (t_class t) (t_own t) (done t) (pending_macs t) (waiting t) (responses_timeout_set t)
    (waiting_for_responses t) (responses_timeout t) (task_timeout_set t) (events_timeout t) (pending_events t)
    (events_timeout_set t) (waiting_for_events t) (pending_task_timeout t) (pending_task_id t)
    (waiting_for_pending_task t) (task_timeout t) time (last_exec_time t).
Definition upd_last_exec (time : Z) (t : task) : task :=
  mkTask (t_id t) (t_class t) (t_own t) (done t) (pending_macs t) (waiting t) (responses_timeout_set t)
    (waiting_for_responses t) (responses_timeout t) (task_timeout_set t) (events_timeout t) (pending_events t)
    (events_timeout_set t) (waiting_for_events t) (pending_task_timeout t) (pending_task_id t)
    (waiting_for_pending_task t) (task_timeout t) (next_action_time t) time.
Definition upd_own (u : U) (t : task) : task :=
  mkTask (t_id t) (t_class t) u (done t) (pending_macs t) (waiting t) (responses_timeout_set t)
    (waiting_for_responses t) (responses_timeout t) (task_timeout_set t) (events_timeout t) (pending_events t)
    (events_timeout_set t) (waiting_for_events t) (pending_task_timeout t) (pending_task_id t)
    (waiting_for_pending_task t) (task_timeout t) (next_action_time t) (last_exec_time t).
Definition upd_done (t : task) : task :=
  mkTask (t_id t) (t_class t) (t_own t) true (pending_macs t) (waiting t) (responses_timeout_set t)
    (waiting_for_responses t) (responses_timeout t) (task_timeout_set t) (events_timeout t) (pending_events t)
    (events_timeout_set t) (waiting_for_events t) (pending_task_timeout t) (pending_task_id t)
    (waiting_for_pending_task t) (task_timeout t) (next_action_time t) (last_exec_time t).

(** The methods that only set members; [now] is the reading of the clock where
    the method takes one. *)
Definition base_op (now : Z) (o : op) (t : task) : task :=
  match o with
  | add_pending_macs macs action_op =>
    upd_waiting true (upd_responses (responses_timeout_set t) true (responses_timeout t)
      (upd_macs (pending_macs t ++ ((λ m, (m, action_op)) <$> macs)) t))
  | add_pending_mac mac action_op =>
    upd_waiting true (upd_responses (responses_timeout_set t) true (responses_timeout t)
      (upd_macs (pending_macs t ++ [(mac, action_op)]) t))
  | clear_pending_macs => upd_macs [] t
  | wait_for ms => upd_waiting true (upd_next (now + milliseconds ms) t)
  | wait_for_event event =>
    upd_waiting true (upd_events (pending_events t ++ [event]) (events_timeout_set t) true (events_timeout t) t)
  | wait_for_task_end task_id ms =>
    upd_waiting true (upd_pending_task (now + milliseconds ms) task_id true t)
  | clear_pending_events => upd_events [] (events_timeout_set t) (waiting_for_events t) (events_timeout t) t
  | set_task_timeout ms => upd_timeout true (now + milliseconds ms) t
  | set_responses_timeout ms => upd_responses true (waiting_for_responses t) (now + milliseconds ms) t
  | set_events_timeout ms => upd_events (pending_events t) true (waiting_for_events t) (now + milliseconds ms) t
  | set_own u => upd_own u t
  | _ => t
  end.
Definition reads_clock (o : op) : bool :=
  match o with
  | wait_for _ | wait_for_task_end _ _ | set_task_timeout _ | set_responses_timeout _ | set_events_timeout _ => true
  | _ => false
  end.

(** ** Running the methods of derived classes *)

(** [add_task(std::make_shared<...>(...))]. *)
Definition add_task (c : C) (u : U) (s : Pool) : Pool :=
  mkPool (map_insert (new_task (latest_id s) c u) (m_scheduled_tasks s)) (latest_id s + 1)
    (m_exec_iteration_start_time s) (m_exec_iteration_slots s) (reads s) (history s).

Definition is_task_running (id : Z) (s : Pool) : bool :=
  match find id s with Some t => negb (done t) | None => false end.

(** [pending_events.erase(it)] of one event, if it is there. *)
Fixpoint erase_one {A} `{EqDecision A} (x : A) (l : list A) : list A :=
  match l with [] => [] | y :: l' => if decide (x = y) then l' else y :: erase_one x l' end.

(** The program [p] of the task [id]. Calls of other tasks' methods nest; [d]
    bounds their depth, and an exhausted stack gives [None]. *)
Fixpoint exec (d : nat) : Z → prog → Pool → option Pool :=
  match d with
  | O => λ _ _ _, None
  | S d =>
    let finish_task (id : Z) (s : Pool) : option Pool :=
      match find id s with
      | None => Some s
      | Some t => exec d id (handle_task_end (vt (t_class t)) (t_own t)) (on_task id upd_done s)
      end in
    let push (id ev obj : Z) (s : Pool) : option Pool :=
      match find id s with
      | None => Some s
      | Some t =>
        exec d id (handle_event (vt (t_class t)) ev obj (t_own t))
          (on_task id (λ t, upd_events (erase_one ev (pending_events t)) (events_timeout_set t)
                              (waiting_for_events t) (events_timeout t) t) s)
      end in
    let do_op (id : Z) (o : op) (s : Pool) : option Pool :=
      match o with
      | finish => finish_task id s
      | pool_kill_task j => finish_task j s
      | pool_push_event j ev obj => push j ev obj s
      | pool_add_task c u => Some (add_task c u s)
      | _ =>
        if reads_clock o then let '(now, s) := tick s in Some (on_task id (base_op now o) s)
        else Some (on_task id (base_op 0 o) s)
      end in
    fix go (id : Z) (p : prog) (s : Pool) : option Pool :=
      match p with
      | Return => Some s
      | Now k => let '(now, s) := tick s in go id (k now) s
      | IsTaskRunning j k => go id (k (is_task_running j s)) s
      | Call o k => s ← do_op id o s; go id k s
      end
  end.

(** A virtual method of the task [id]. *)
Definition call (d : nat) (id : Z) (h : virtuals → U → prog) (s : Pool) : option Pool :=
  match find id s with
  | None => Some s
  | Some t => exec d id (h (vt (t_class t)) (t_own t)) s
  end.

Definition finish_ (d : nat) (id : Z) (s : Pool) : option Pool :=
  call d id handle_task_end (on_task id upd_done s).
Definition kill_task (d : nat) (id : Z) (s : Pool) : option Pool :=
  match find id s with None => Some s | Some _ => finish_ d id s end.
Definition push_event (d : nat) (id ev obj : Z) (s : Pool) : option Pool :=
  call d id (λ v, handle_event v ev obj)
    (on_task id (λ t, upd_events (erase_one ev (pending_events t)) (events_timeout_set t)
                        (waiting_for_events t) (events_timeout t) t) s).
Definition response_received (d : nat) (id : Z) (mac : string) (action_op obj : Z) (s : Pool) : option Pool :=
  call d id (λ v, handle_response v mac action_op obj)
    (on_task id (λ t, upd_macs (erase_one (mac, action_op) (pending_macs t)) t) s).

(** [pending_task_ended(task_id)] of one task, and of all tasks of the pool in
    turn. *)
Definition pending_task_ended_one (d : nat) (ended id : Z) (s : Pool) : option Pool :=
  match find id s with
  | None => Some s
  | Some t =>
    if ended =? pending_task_id t
    then call d id (λ v, handle_pending_task_ended v ended)
           (on_task id (λ t, upd_pending_task (pending_task_timeout t) (pending_task_id t) false t) s)
    else Some s
  end.

(** The element after [k] in a map. *)
Definition next_after (k : Z) (s : Pool) : option Z :=
  t_id ∘ snd <$> list_find (λ t, k < t_id t) (m_scheduled_tasks s).

(** A range-based [for] over the map, whose body may insert. *)
Fixpoint for_tasks (fuel : nat) (body : Z → Pool → option Pool) (k : Z) (s : Pool) : option Pool :=
  match fuel with
  | O => None
  | S fuel =>
    match next_after k s with
    | None => Some s
    | Some id => s ← body id s; for_tasks fuel body id s
    end
  end.

(** [task_pool::pending_task_ended(task_id)]. *)
Definition pending_task_ended (fuel d : nat) (ended : Z) (s : Pool) : option Pool :=
  for_tasks fuel (pending_task_ended_one d ended) 0 s.

(** [task_pool::handle_ieee1905_1_msg()]: every task gets the message, of type
    [message_type] and with the contents [obj]. *)
Definition VENDOR_SPECIFIC_MESSAGE : Z := 0x4.
Definition pool_handle_msg (fuel d : nat) (message_type obj : Z) (s : Pool) : option Pool :=
  if message_type =? VENDOR_SPECIFIC_MESSAGE then Some s
  else for_tasks fuel (λ id, call d id (λ v, handle_ieee1905_1_msg v message_type obj)) 0 s.

(** ** [task::execute()] *)

Definition when (id : Z) (cond : task → bool) (act : task → Pool → option Pool) (s : Pool) : option Pool :=
  match find id s with Some t => if cond t then act t s else Some s | None => Some s end.

Definition nothing_awaited (t : task) : bool :=
  negb (responses_timeout_set t) && negb (waiting_for_events t) && negb (waiting_for_responses t)
  && negb (waiting_for_pending_task t).

Definition is_empty {A} (l : list A) : bool := match l with [] => true | _ => false end.

(** The branch of a waiting task whose time has come. *)
Definition check_waits (d : nat) (now id : Z) (s : Pool) : option Pool :=
  s ← when id (λ t, waiting_for_pending_task t && (pending_task_timeout t <=? now))
        (λ t s, call d id (λ v, handle_pending_task_timeout v (pending_task_id t))
           (on_task id (λ t, upd_pending_task (pending_task_timeout t) (pending_task_id t) false t) s)) s;
  s ← when id (λ t, events_timeout_set t && waiting_for_events t && (events_timeout t <=? now))
        (λ t s, s ← call d id (λ v, handle_events_timeout v (pending_events t)) s;
                Some (on_task id (λ t, upd_events [] false (waiting_for_events t) (events_timeout t) t) s)) s;
  s ← when id (λ t, waiting_for_responses t && is_empty (pending_macs t))
        (λ _ s, Some (on_task id (λ t, upd_responses false false (responses_timeout t) t) s)) s;
  s ← when id (λ t, responses_timeout_set t && (responses_timeout t <=? now))
        (λ t s, s ← call d id (λ v, handle_responses_timeout v (pending_macs t)) s;
                Some (on_task id (λ t, upd_macs [] (upd_responses false (waiting_for_responses t)
                                                      (responses_timeout t) t)) s)) s;
  s ← when id (λ t, waiting_for_events t && is_empty (pending_events t))
        (λ _ s, Some (on_task id (λ t, upd_events (pending_events t) false false (events_timeout t) t) s)) s;
  when id nothing_awaited (λ _ s, Some (on_task id (upd_waiting false) s)) s.

Definition try_work (d : nat) (id : Z) (s : Pool) : option Pool :=
  when id (λ t, negb (waiting t) && negb (done t)) (λ _ s, call d id work (note (Worked id) s)) s.

Definition execute (d : nat) (id : Z) (s : Pool) : option Pool :=
  let '(now, s) := tick (note (Executed id) s) in
  match find id s with
  | None => Some s
  | Some t =>
    if task_timeout_set t && (task_timeout t <=? now) then s ← finish_ d id s; try_work d id s
    else if waiting t then
      if now <? next_action_time t then Some s
      else s ← check_waits d now id s; try_work d id s
    else try_work d id s
  end.

(** ** [task_pool::run_tasks()] *)

Definition erase (id : Z) (s : Pool) : Pool :=
  note (Erased id) (with_tasks (filter (λ t, t_id t ≠ id) (m_scheduled_tasks s)) s).

Definition set_iteration (start slots : Z) (s : Pool) : Pool :=
  mkPool (m_scheduled_tasks s) (latest_id s) start slots (reads s) (history s).

(** The loop from the element after [k] on: whether it came to the end. *)
Fixpoint run_loop (fuel d : nat) (deadline k : Z) (s : Pool) : option (bool * Pool) :=
  match fuel with
  | O => None
  | S fuel =>
    match next_after k s with
    | None => Some (true, s)
    | Some id =>
      let '(now, s) := tick s in
      if deadline <=? now
      then Some (false, set_iteration (m_exec_iteration_start_time s) (m_exec_iteration_slots s + 1) s)
      else if bool_decide (last_exec_time <$> find id s = Some (m_exec_iteration_start_time s))
      then run_loop fuel d deadline id s
      else
        s ← execute d id s;
        let s := on_task id (upd_last_exec (m_exec_iteration_start_time s)) s in
        s ← when id done (λ _ s, s ← pending_task_ended fuel d id s; Some (erase id s)) s;
        run_loop fuel d deadline id s
    end
  end.

(** [run_tasks(max_exec_duration_ms)]; the deadline of a duration of zero
    overflows. *)
Definition run_tasks (fuel d : nat) (max_exec_duration_ms : Z) (s : Pool) : option Pool :=
  let '(now, s) := tick s in
  let s := if now <? m_exec_iteration_start_time s
           then let '(now, s) := tick s in set_iteration now 0 s else s in
  if max_exec_duration_ms =? 0 then None
  else
    let '(now, s) := tick s in
    r ← run_loop fuel d (now + milliseconds max_exec_duration_ms) 0 s;
    let '(complete, s) := (r : bool * Pool) in
    Some (if complete then set_iteration TIME_MAX (m_exec_iteration_slots s) s else s).

(** ** What calls leave alone *)

Definition executed (h : list happened) : list Z :=
  omap (λ x, match x with Executed i => Some i | _ => None end) h.

(** When a task was last run by the pool. *)
Definition lex (id : Z) (s : Pool) : option Z := last_exec_time <$> find id s.
Definition ids (s : Pool) : list Z := t_id <$> m_scheduled_tasks s.

(** The identifiers are in the order of the map, and were handed out. *)
Record wf (s : Pool) : Prop := {
  wf_sorted : StronglySorted Z.lt (ids s);
  wf_ids : Forall (λ id, 0 < id < latest_id s) (ids s);
  wf_latest : 0 < latest_id s;
}.

(** Calls may add tasks that were never run; of the tasks that are there the
    pool's mark stays, and nothing is erased. *)
Record ext (s s' : Pool) : Prop := {
  ext_wf : wf s';
  ext_latest : latest_id s ≤ latest_id s';
  ext_start : m_exec_iteration_start_time s' = m_exec_iteration_start_time s;
  ext_old id : id < latest_id s → lex id s' = lex id s;
  ext_new id v : latest_id s ≤ id → lex id s' = Some v → v = 0;
  ext_executed : executed (history s') = executed (history s);
  ext_reads : (reads s ≤ reads s')%nat;
  ext_history : history s `prefix_of` history s';
}.

Lemma lex_elem id s v : lex id s = Some v → id ∈ ids s.
Proof.
  unfold lex, find. intros H. apply fmap_Some in H as (t & H & _). apply fmap_Some in H as ([k t'] & H & ->).
  apply list_find_Some in H as (Hl & Ht & _). cbn in *. unfold ids. apply list_elem_of_fmap. exists t'.
  split; [done|]. by eapply list_elem_of_lookup_2.
Qed.

Lemma lex_fresh id s : wf s → latest_id s ≤ id → lex id s = None.
Proof.
  intros Hw Hid. destruct (lex id s) as [v|] eqn:Hl; [|done]. apply lex_elem in Hl.
  pose proof (wf_ids _ Hw) as Hi. rewrite Forall_forall in Hi. apply Hi in Hl. lia.
Qed.

Lemma ext_refl s : wf s → ext s s.
Proof. intros Hw. split; [done|lia|done|done| |done|lia|done]. intros id v Hid Hv. by rewrite lex_fresh in Hv. Qed.

Lemma ext_trans s1 s2 s3 : wf s1 → ext s1 s2 → ext s2 s3 → ext s1 s3.
Proof.
  intros Hw [W1 L1 S1 O1 N1 E1 R1 P1] [W2 L2 S2 O2 N2 E2 R2 P2]. split; [done|lia|congruence| | |congruence|lia|by etransitivity].
  - intros id Hid. rewrite O2 by lia. by apply O1.
  - intros id v Hid Hv. destruct (Z.lt_ge_cases id (latest_id s2)).
    + rewrite O2 in Hv by done. by eapply N1.
    + by eapply N2.
Qed.

(** *** Single steps *)

Lemma on_task_list id f s : m_scheduled_tasks (on_task id f s)
  = (λ t, if bool_decide (t_id t = id) then f t else t) <$> m_scheduled_tasks s.
Proof. done. Qed.

Lemma list_find_fmap_same {A} (P : A → Prop) `{∀ x, Decision (P x)} (f : A → A) (l : list A) :
  (∀ x, P (f x) ↔ P x) → list_find P (f <$> l) = prod_map id f <$> list_find P l.
Proof.
  intros Hf. induction l as [|x l IH]; cbn; [done|].
  destruct (decide (P (f x))), (decide (P x)); try (exfalso; naive_solver); [done|].
  fold (f <$> l). rewrite IH. by destruct (list_find P l) as [[]|].
Qed.

Lemma find_on_task id id' f s : (∀ t, t_id (f t) = t_id t) →
  find id' (on_task id f s) = (λ t, if bool_decide (t_id t = id) then f t else t) <$> find id' s.
Proof.
  intros Hf. unfold find. rewrite on_task_list, list_find_fmap_same.
  - by destruct (list_find _ (m_scheduled_tasks s)) as [[]|].
  - intros t. case_bool_decide; [by rewrite Hf|done].
Qed.

Lemma ids_on_task id f s : (∀ t, t_id (f t) = t_id t) → ids (on_task id f s) = ids s.
Proof.
  intros Hf. unfold ids. rewrite on_task_list, <- list_fmap_compose. apply list_fmap_ext. intros k t _. cbn.
  case_bool_decide; [by rewrite Hf|done].
Qed.

Lemma wf_on_task id f s : (∀ t, t_id (f t) = t_id t) → wf s → wf (on_task id f s).
Proof. intros Hf [H1 H2 H3]. split; rewrite ?ids_on_task by done; done. Qed.

Lemma ext_on_task id f s : wf s → (∀ t, t_id (f t) = t_id t ∧ last_exec_time (f t) = last_exec_time t) →
  ext s (on_task id f s).
Proof.
  intros Hw Hf. assert (∀ j, lex j (on_task id f s) = lex j s) as Hl.
  { intros j. unfold lex. rewrite find_on_task by apply Hf. destruct (find j s) as [t|]; [|done]. cbn.
    case_bool_decide; [by rewrite (proj2 (Hf t))|done]. }
  split; [apply wf_on_task; [apply Hf|done]|done|done|done| |done|done|done].
  intros j v Hj Hv. rewrite Hl in Hv. by rewrite lex_fresh in Hv.
Qed.

Lemma ext_tick s : wf s → ext s (tick s).2.
Proof.
  intros Hw. destruct (ext_refl s Hw) as [[] H2 H3 H4 H5 H6 H7 H8].
  split; [by split|done|done|exact H4|exact H5|done|cbn; lia|done].
Qed.

Lemma ext_note h s : wf s → (∀ i, h ≠ Executed i) → ext s (note h s).
Proof.
  intros Hw Hh. destruct (ext_refl s Hw) as [[] H2 H3 H4 H5 H6 H7 H8].
  split; [by split|done|done|exact H4|exact H5| |done|by apply prefix_app_r]. cbn. unfold executed. rewrite omap_app. destruct h as [i| |]; cbn; rewrite ?app_nil_r; [|done..]. by destruct (Hh i).
Qed.

Lemma base_op_frame now o t : t_id (base_op now o t) = t_id t ∧ last_exec_time (base_op now o t) = last_exec_time t.
Proof. by destruct o. Qed.

Lemma map_insert_last t l : Forall (λ id, id < t_id t) (t_id <$> l) → map_insert t l = l ++ [t].
Proof.
  induction l as [|t' l IH]; cbn; [done|]. intros [Ht Hl]%Forall_cons.
  destruct (_ <? _) eqn:H1; bool_to_prop; [lia|]. destruct (_ =? _) eqn:H2; bool_to_prop; [lia|]. by rewrite IH.
Qed.

Lemma add_task_list c u s : wf s →
  m_scheduled_tasks (add_task c u s) = m_scheduled_tasks s ++ [new_task (latest_id s) c u].
Proof.
  intros Hw. apply map_insert_last. eapply Forall_impl; [apply (wf_ids _ Hw)|]. cbn. intros. lia.
Qed.

Lemma find_app id l1 l2 : snd <$> list_find (λ t, t_id t = id) (l1 ++ l2)
  = match snd <$> list_find (λ t, t_id t = id) l1 with
    | Some t => Some t
    | None => snd <$> list_find (λ t : task, t_id t = id) l2
    end.
Proof.
  destruct (list_find _ l1) as [[k t]|] eqn:H1.
  - by rewrite (list_find_app_l _ _ _ _ _ H1).
  - rewrite (list_find_app_r _ _ _ H1). by destruct (list_find _ l2) as [[]|].
Qed.

Lemma ext_add_task c u s : wf s → ext s (add_task c u s).
Proof.
  intros Hw. pose proof (add_task_list c u s Hw) as Hl. pose proof Hw as [Hs Hi H0].
  assert (∀ id, lex id (add_task c u s) = match lex id s with Some v => Some v | None => if decide (latest_id s = id) then Some 0 else None end) as Hlex.
  { intros id. unfold lex, find. rewrite Hl, find_app. destruct (snd <$> _); [done|]. cbn.
    by destruct (decide (latest_id s = id)). }
  split; [|cbn; lia|done| | |done|done|done].
  - split; [| |cbn; lia]; unfold ids in *; rewrite Hl, fmap_app.
    + apply StronglySorted_app_2; [|done|by repeat constructor]. intros x y Hx Hy.
      rewrite Forall_forall in Hi. apply Hi in Hx. cbn in Hy. apply list_elem_of_singleton in Hy as ->. lia.
    + apply Forall_app. split; [|apply Forall_singleton; cbn; lia].
      eapply Forall_impl; [exact Hi|]. cbn. intros. lia.
  - intros id Hid. rewrite Hlex. destruct (lex id s); [done|]. by rewrite decide_False by lia.
  - intros id v Hid Hv. rewrite Hlex in Hv. rewrite lex_fresh in Hv by done. by destruct (decide _); simplify_eq.
Qed.

(** *** Programs *)

Definition total_ext (f : Pool → option Pool) : Prop := ∀ s s', wf s → f s = Some s' → ext s s'.

Lemma total_ext_bind f g s s' : wf s → total_ext f → (∀ s1, ext s s1 → g s1 = Some s' → ext s1 s') →
  (f s ≫= g) = Some s' → ext s s'.
Proof.
  intros Hw Hf Hg H. apply bind_Some in H as (s1 & H1 & H2). pose proof (Hf _ _ Hw H1) as He.
  eapply ext_trans; [done|exact He|]. by apply Hg.
Qed.

Lemma upd_events_frame l b1 b2 x t : t_id (upd_events l b1 b2 x t) = t_id t ∧ last_exec_time (upd_events l b1 b2 x t) = last_exec_time t.
Proof. done. Qed.

Lemma exec_ext d : ∀ id p, total_ext (exec d id p).
Proof.
  induction d as [|d IH]; intros id p; [intros s s' _; done|].
  assert (∀ s s1 s' j q, wf s → ext s s1 → exec d j q s1 = Some s' → ext s s') as Hnest.
  { intros s s1 s' j q Hw He Hr. eapply ext_trans; [done|exact He|]. eapply IH; [apply He|exact Hr]. }
  induction p as [|o p IHp|k IHp|j k IHp]; intros s s' Hw Hr.
  - cbn in Hr. injection Hr as <-. by apply ext_refl.
  - cbn [exec] in Hr. apply bind_Some in Hr as (s1 & H1 & H2).
    enough (ext s s1) as He by (eapply ext_trans; [done|exact He|]; apply (IHp s1 s'); [apply He|exact H2]). clear H2.
    destruct o; cbn in H1; try (injection H1 as <-).
    all: try (apply ext_on_task; [done|intros; apply base_op_frame]).
    all: try (eapply ext_trans; [done|apply ext_tick; done|]; apply ext_on_task; [by apply ext_tick|done]).
    all: try (by apply ext_add_task).
    all: destruct (find _ s) as [t|]; [|injection H1 as <-; by apply ext_refl].
    all: eapply Hnest; [done| |exact H1]; by apply ext_on_task.
  - cbn [exec] in Hr. eapply ext_trans; [done|by apply ext_tick|]. eapply IHp; [by apply ext_tick|exact Hr].
  - cbn [exec] in Hr. by eapply IHp.
Qed.

Lemma call_ext d id h : total_ext (call d id h).
Proof.
  intros s s' Hw. unfold call. destruct (find id s); [by apply exec_ext|]. intros [= <-]. by apply ext_refl.
Qed.

Lemma when_ext id cond act : (∀ t, total_ext (act t)) → total_ext (when id cond act).
Proof.
  intros Ha s s' Hw. unfold when. destruct (find id s) as [t|]; [destruct (cond t)|].
  - by apply Ha.
  - intros [= <-]. by apply ext_refl.
  - intros [= <-]. by apply ext_refl.
Qed.

Lemma on_task_ext id f : (∀ t, t_id (f t) = t_id t ∧ last_exec_time (f t) = last_exec_time t) →
  total_ext (λ s, Some (on_task id f s)).
Proof. intros Hf s s' Hw [= <-]. by apply ext_on_task. Qed.

Lemma bind_ext f g : total_ext f → total_ext g → total_ext (λ s, f s ≫= g).
Proof.
  intros Hf Hg s s' Hw Hr. apply bind_Some in Hr as (s1 & H1 & H2).
  pose proof (Hf _ _ Hw H1) as He. eapply ext_trans; [done|exact He|]. eapply Hg; [apply He|exact H2].
Qed.

Lemma after_on_task_ext id f g : (∀ t, t_id (f t) = t_id t ∧ last_exec_time (f t) = last_exec_time t) →
  total_ext g → total_ext (λ s, g (on_task id f s)).
Proof.
  intros Hf Hg s s' Hw Hr. eapply ext_trans; [done|by apply (ext_on_task id f)|]. eapply Hg; [|exact Hr].
  by apply ext_on_task.
Qed.

Lemma check_waits_ext d now id : total_ext (check_waits d now id).
Proof.
  apply (bind_ext _ (λ s, _)); [apply when_ext; intros; by apply (after_on_task_ext id _ (call d id _)), call_ext|].
  apply (bind_ext _ (λ s, _)); [apply when_ext; intros; by apply bind_ext; [apply call_ext|apply on_task_ext]|].
  apply (bind_ext _ (λ s, _)); [apply when_ext; intros; by apply on_task_ext|].
  apply (bind_ext _ (λ s, _)); [apply when_ext; intros; by apply bind_ext; [apply call_ext|apply on_task_ext]|].
  apply (bind_ext _ (λ s, _)); [apply when_ext; intros; by apply on_task_ext|].
  apply when_ext. intros. by apply on_task_ext.
Qed.

Lemma try_work_ext d id : total_ext (try_work d id).
Proof.
  apply when_ext. intros _ s s' Hw Hr. eapply ext_trans; [done|by apply (ext_note (Worked id))|].
  eapply call_ext; [|exact Hr]. by apply ext_note.
Qed.

Lemma finish_ext d id : total_ext (finish_ d id).
Proof. by apply (after_on_task_ext id upd_done (call d id _)), call_ext. Qed.

Lemma wf_note h s : wf s → wf (note h s).
Proof. intros []. by split. Qed.

Lemma execute_ext d id s s' : wf s → execute d id s = Some s' → ext (note (Executed id) s) s'.
Proof.
  intros Hw. unfold execute. pose proof (wf_note (Executed id) s Hw) as Hn.
  pose proof (ext_tick _ Hn) as Ht. destruct (tick (note (Executed id) s)) as [now s1]. cbn [snd] in Ht.
  intros Hr. eapply ext_trans; [done|exact Ht|]. pose proof (ext_wf _ _ Ht) as Hw1.
  destruct (find id s1) as [t|]; [|injection Hr as <-; by apply ext_refl].
  destruct (_ && _).
  { eapply (bind_ext _ _ (finish_ext d id) (try_work_ext d id)); [done|exact Hr]. }
  destruct (waiting t); [|by eapply try_work_ext].
  destruct (_ <? _); [injection Hr as <-; by apply ext_refl|].
  eapply (bind_ext _ _ (check_waits_ext d now id) (try_work_ext d id)); [done|exact Hr].
Qed.

Lemma pending_task_ended_ext fuel d ended : total_ext (pending_task_ended fuel d ended).
Proof.
  unfold pending_task_ended. generalize 0. induction fuel as [|fuel IH]; intros k s s' Hw; [done|]. cbn.
  destruct (next_after k s) as [id|]; [|intros [= <-]; by apply ext_refl]. intros Hr.
  apply bind_Some in Hr as (s1 & H1 & H2).
  assert (ext s s1) as He.
  { unfold pending_task_ended_one in H1. destruct (find id s) as [t|]; [|injection H1 as <-; by apply ext_refl].
    destruct (_ =? _); [|injection H1 as <-; by apply ext_refl].
    by eapply (after_on_task_ext id _ (call d id _)); [|apply call_ext|done|exact H1]. }
  eapply ext_trans; [done|exact He|]. eapply IH; [apply He|exact H2].
Qed.

(** ** Once per iteration *)

Lemma next_after_elem k s id : next_after k s = Some id → k < id ∧ id ∈ ids s.
Proof.
  unfold next_after. destruct (list_find _ _) as [[i t]|] eqn:Hf; [|done]. intros [= <-]. cbn.
  apply list_find_Some in Hf as (Hl & Hk & _). split; [done|]. unfold ids. apply list_elem_of_fmap.
  exists t. split; [done|]. by eapply list_elem_of_lookup_2.
Qed.

Lemma next_after_none k s : next_after k s = None → ∀ id, id ∈ ids s → id ≤ k.
Proof.
  unfold next_after. destruct (list_find _ _) as [|] eqn:Hf; [done|]. intros _ id Hid.
  apply list_find_None in Hf. unfold ids in Hid. apply list_elem_of_fmap in Hid as (t & -> & Ht).
  rewrite Forall_forall in Hf. apply Hf in Ht. lia.
Qed.

Lemma sorted_lookup l i j x y : StronglySorted Z.lt l → l !! i = Some x → l !! j = Some y → (i < j)%nat → x < y.
Proof.
  intros Hs Hx Hy Hij. rewrite <- (take_drop (S i) l) in Hs.
  eapply (StronglySorted_app_1_elem_of Z.lt _ _ x y Hs).
  - apply (list_elem_of_lookup_2 _ i). by rewrite lookup_take_lt by lia.
  - apply (list_elem_of_lookup_2 _ (j - S i)). rewrite lookup_drop. by replace (S i + (j - S i))%nat with j by lia.
Qed.

Lemma next_after_least k s id : wf s → next_after k s = Some id → ∀ j, j ∈ ids s → k < j → id ≤ j.
Proof.
  intros Hw. unfold next_after. destruct (list_find _ _) as [[i t]|] eqn:Hf; [|done]. intros [= <-] j Hj Hk. cbn.
  apply list_find_Some in Hf as (Hl & Hkt & Hmin). unfold ids in Hj. apply list_elem_of_fmap in Hj as (t' & -> & Ht').
  apply list_elem_of_lookup in Ht' as [i' Hi'].
  destruct (Nat.lt_trichotomy i i') as [Hlt|[->|Hlt]].
  - apply Z.lt_le_incl. apply (sorted_lookup (ids s) i i'); [apply Hw| | |done]; unfold ids; rewrite list_lookup_fmap.
    + by rewrite Hl.
    + by rewrite Hi'.
  - rewrite Hl in Hi'. by simplify_eq.
  - exfalso. eapply Hmin; [exact Hi'|done|done].
Qed.

(** The mark of a task that was run, and its erasure. *)
Lemma lex_upd id j v s : lex j (on_task id (upd_last_exec v) s) = if decide (j = id) then (λ _, v) <$> lex j s else lex j s.
Proof.
  unfold lex. rewrite find_on_task by done. destruct (find j s) as [t|] eqn:Hf; [|by destruct (decide _)]. cbn.
  assert (t_id t = j) as Ht.
  { unfold find in Hf. apply fmap_Some in Hf as ([? t'] & Hf & ->). by apply list_find_Some in Hf as (_ & ? & _). }
  rewrite Ht. case_bool_decide; [by rewrite decide_True|by rewrite decide_False].
Qed.

Lemma find_filter id j s : snd <$> list_find (λ t, t_id t = j) (filter (λ t, t_id t ≠ id) (m_scheduled_tasks s))
  = if decide (j = id) then None else find j s.
Proof.
  unfold find. induction (m_scheduled_tasks s) as [|t l IH]; [by destruct (decide _)|].
  rewrite filter_cons. destruct (decide (t_id t ≠ id)) as [Ht|Ht]; cbn.
  - destruct (decide (t_id t = j)) as [Hj|Hj]; [by rewrite decide_False by congruence|].
    revert IH. destruct (list_find _ (filter _ l)) as [[]|], (list_find _ l) as [[]|]; done.
  - apply dec_stable in Ht. rewrite IH. destruct (decide (j = id)) as [->|Hj]; [done|].
    rewrite (decide_False _ _ (P := t_id t = j)) by congruence. by destruct (list_find _ l) as [[]|].
Qed.

Lemma lex_erase id j s : lex j (erase id s) = if decide (j = id) then None else lex j s.
Proof. unfold lex, erase, find. cbn. rewrite find_filter. by destruct (decide _). Qed.

Lemma Forall_filter {A} (P Q : A → Prop) `{∀ x, Decision (P x)} l : Forall Q l → Forall Q (filter P l).
Proof. induction 1 as [|x l Hx _ IH]; [done|]. rewrite filter_cons. case_decide; [by constructor|done]. Qed.

Lemma wf_erase id s : wf s → wf (erase id s).
Proof.
  intros [Hs Hi H0]. split; [| |done]; unfold ids, erase in *; cbn.
  - induction (m_scheduled_tasks s) as [|t l IH]; [done|]. rewrite filter_cons. cbn in Hs, Hi.
    apply Forall_cons in Hi as [_ Hi]. inversion Hs as [|? ? Hs' Hf]; subst. destruct (decide _); [|by apply IH].
    cbn. constructor; [by apply IH|]. apply Forall_fmap, Forall_filter. by apply Forall_fmap.
  - apply Forall_fmap, Forall_filter. by apply Forall_fmap.
Qed.

(** One slot: the tasks it ran, in order. *)
Record slot (k : Z) (s : Pool) (b : bool) (s' : Pool) (l : list Z) : Prop := {
  sl_wf : wf s';
  sl_latest : latest_id s ≤ latest_id s';
  sl_start : m_exec_iteration_start_time s' = m_exec_iteration_start_time s;
  sl_executed : executed (history s') = executed (history s) ++ l;
  sl_sorted : StronglySorted Z.lt l;
  sl_after : Forall (λ id, k < id < latest_id s') l;
  sl_unmarked id : id ∈ l → lex id s ≠ Some (m_exec_iteration_start_time s) ∧ (id < latest_id s → id ∈ ids s);
  sl_marked id : id ∈ l → lex id s' = Some (m_exec_iteration_start_time s) ∨ lex id s' = None;
  sl_others id : id < latest_id s → id ∉ l → lex id s' = lex id s;
  sl_complete : b = true → ∀ id, k < id → id ∈ ids s → id ∈ l ∨ lex id s = Some (m_exec_iteration_start_time s);
  sl_reads : (reads s ≤ reads s')%nat;
}.

Lemma elem_ids_lex id s : id ∈ ids s → is_Some (lex id s).
Proof.
  intros (t & -> & Ht)%list_elem_of_fmap. unfold lex, find.
  destruct (list_find _ _) as [[]|] eqn:Hf; [done|]. apply list_find_None in Hf. rewrite Forall_forall in Hf.
  by destruct (Hf t Ht).
Qed.

Lemma ids_lex id s : is_Some (lex id s) → id ∈ ids s.
Proof. intros [v Hv]. by eapply lex_elem. Qed.

(** The execution of one task, with its mark and erasure. *)
Definition run_one (fuel d : nat) (id : Z) (s : Pool) : option Pool :=
  s ← execute d id s;
  let s := on_task id (upd_last_exec (m_exec_iteration_start_time s)) s in
  when id done (λ _ s, s ← pending_task_ended fuel d id s; Some (erase id s)) s.

Lemma run_one_slot fuel d id s s' : wf s → 0 < m_exec_iteration_start_time s → id ∈ ids s →
  lex id s ≠ Some (m_exec_iteration_start_time s) → run_one fuel d id s = Some s' → slot (id - 1) s false s' [id].
Proof.
  intros Hw Hst Hid Hlex Hr. unfold run_one in Hr. apply bind_Some in Hr as (s1 & H1 & H2).
  pose proof (execute_ext d id s s1 Hw H1) as [W1 L1 S1 O1 N1 E1 R1 _]. cbn [note latest_id m_exec_iteration_start_time] in *.
  change (lex ?i (note _ s)) with (lex i s) in O1. rewrite S1 in H2.
  set (s2 := on_task id (upd_last_exec (m_exec_iteration_start_time s)) s1) in *.
  assert (wf s2) as W2 by (by apply wf_on_task).
  assert (id < latest_id s) as Hlt. { pose proof (wf_ids _ Hw) as Hi. rewrite Forall_forall in Hi. apply Hi in Hid. lia. }
  assert (ext s2 s' ∨ ∃ s3, ext s2 s3 ∧ s' = erase id s3) as Hcase.
  { unfold when in H2. destruct (find id s2) as [t|]; [|injection H2 as <-; left; by apply ext_refl].
    destruct (done t); [|injection H2 as <-; left; by apply ext_refl].
    apply bind_Some in H2 as (s3 & H2 & H3). injection H3 as <-. right. exists s3. split; [|done].
    by eapply pending_task_ended_ext. }
  assert (∀ j, lex j s2 = if decide (j = id) then (λ _, m_exec_iteration_start_time s) <$> lex j s1 else lex j s1) as Hl2
    by (intros; apply lex_upd).
  assert (executed (history s2) = executed (history s) ++ [id]) as He2.
  { change (history s2) with (history s1). rewrite E1. unfold executed. cbn [note history]. by rewrite omap_app. }
  assert (lex id s1 = lex id s) as Hls by (apply O1; lia).
  assert (∃ s3, ext s2 s3 ∧ wf s' ∧ latest_id s' = latest_id s3 ∧ m_exec_iteration_start_time s' = m_exec_iteration_start_time s3 ∧
    executed (history s') = executed (history s3) ∧ reads s' = reads s3 ∧
    (∀ j, j ≠ id → lex j s' = lex j s3) ∧ (lex id s' = lex id s3 ∨ lex id s' = None)) as (s3 & [W3 L3 S3 O3 N3 E3 R3 _] & W' & L' & S' & E' & R' & Hj & Hi).
  { destruct Hcase as [He|(s3 & He & ->)]; [exists s'; split_and!; [done|apply He|done..|by left]|].
    exists s3. split_and!; [done|apply wf_erase; apply He|done|done| |done| |].
    - cbn. unfold executed. rewrite omap_app. cbn. by rewrite app_nil_r.
    - intros j Hj. by rewrite lex_erase, decide_False.
    - right. by rewrite lex_erase, decide_True. }
  change (latest_id s2) with (latest_id s1) in *. change (m_exec_iteration_start_time s2) with (m_exec_iteration_start_time s1) in *.
  split; [done|lia|congruence|congruence|by repeat constructor| | | | |done|].
  - apply Forall_singleton. lia.
  - intros j ->%list_elem_of_singleton. by split.
  - intros j ->%list_elem_of_singleton. destruct Hi as [Hi|Hi]; [|by right]. left.
    rewrite Hi, O3 by lia. rewrite Hl2, decide_True by done. rewrite Hls. by destruct (elem_ids_lex id s Hid) as [v ->].
  - intros j Hjl Hjn. rewrite list_elem_of_singleton in Hjn. rewrite Hj by done. rewrite O3 by lia.
    rewrite Hl2, decide_False by done. by apply O1.
  - change (reads s2) with (reads s1) in *. cbn in R1. lia.
Qed.

Lemma slot_nil k s : wf s → (∀ id, id ∈ ids s → id ≤ k) → slot k s true s [].
Proof.
  intros Hw Hk. split; [done|lia|done|by rewrite app_nil_r|constructor|constructor| | |done| |lia].
  - by intros ? ?%elem_of_nil.
  - by intros ? ?%elem_of_nil.
  - intros _ id Hid Hin. apply Hk in Hin. lia.
Qed.

(** A slot goes on behind the tasks it ran. *)
Lemma slot_cons k id s s1 b s2 l : wf s → k < id → (∀ j, j ∈ ids s → k < j → id ≤ j) →
  slot (id - 1) s false s1 [id] → slot id s1 b s2 l → slot k s b s2 (id :: l).
Proof.
  intros Hw Hk Hleast [W1 L1 S1 E1 _ A1 U1 M1 O1 _ R1] [W2 L2 S2 E2 So2 A2 U2 M2 O2 C2 R2].
  apply Forall_singleton in A1 as [_ A1]. assert (id ∉ l) as Hnl.
  { intros Hin. rewrite Forall_forall in A2. apply A2 in Hin. lia. }
  split; [done|lia|congruence| | | | | | | |lia].
  - rewrite E2, E1. by rewrite <- app_assoc.
  - constructor; [done|]. eapply Forall_impl; [exact A2|]. cbn. lia.
  - apply Forall_cons. split; [lia|]. eapply Forall_impl; [exact A2|]. cbn. lia.
  - intros j [->|Hj]%elem_of_cons; [apply U1; by left|]. destruct (U2 j Hj) as [Hu Hin]. rewrite S1 in Hu.
    assert (j ≠ id) as Hne by congruence.
    destruct (Z.lt_ge_cases j (latest_id s)) as [Hlt|Hge].
    + rewrite O1 in Hu by (done || by rewrite list_elem_of_singleton). split; [done|]. intros _.
      apply ids_lex. rewrite <- (O1 j) by (done || by rewrite list_elem_of_singleton). apply elem_ids_lex, Hin. lia.
    + rewrite lex_fresh by done. split; [done|]. lia.
  - intros j [->|Hj]%elem_of_cons; [|rewrite <- S1; by apply M2].
    rewrite O2 by (done || lia). apply M1. by left.
  - intros j Hj [Hne Hnl']%not_elem_of_cons. rewrite O2 by (done || lia). apply O1; [done|by rewrite list_elem_of_singleton].
  - intros -> j Hj Hin. destruct (decide (j = id)) as [->|Hne]; [left; by left|]. specialize (Hleast j Hin Hj).
    assert (lex j s1 = lex j s) as Hl.
    { apply O1; [|by rewrite list_elem_of_singleton]. pose proof (wf_ids _ Hw) as Hi. rewrite Forall_forall in Hi. apply Hi in Hin. lia. }
    destruct (C2 eq_refl j) as [?|Hm]; [lia|apply ids_lex; rewrite Hl; by apply elem_ids_lex|left; by right|].
    right. congruence.
Qed.

Lemma slot_skip k id s b s2 l : k < id → (∀ j, j ∈ ids s → k < j → id ≤ j) →
  lex id s = Some (m_exec_iteration_start_time s) → slot id s b s2 l → slot k s b s2 l.
Proof.
  intros Hk Hleast Hm [W2 L2 S2 E2 So2 A2 U2 M2 O2 C2 R2]. split; try done.
  - eapply Forall_impl; [exact A2|]. cbn. lia.
  - intros Hb j Hj Hin. destruct (decide (j = id)) as [->|Hne]; [by right|]. apply C2; [done| |done].
    specialize (Hleast j Hin Hj). lia.
Qed.

Lemma slot_tick k s b s2 l : slot k (tick s).2 b s2 l → slot k s b s2 l.
Proof.
  intros [W2 L2 S2 E2 So2 A2 U2 M2 O2 C2 R2]. split; try done. cbn in R2. lia.
Qed.

Lemma run_loop_slot fuel d deadline : ∀ k s b s', wf s → 0 < m_exec_iteration_start_time s →
  run_loop fuel d deadline k s = Some (b, s') → ∃ l, slot k s b s' l.
Proof.
  induction fuel as [|fuel IH]; intros k s b s' Hw Hst; [done|]. cbn [run_loop].
  destruct (next_after k s) as [id|] eqn:Hn.
  2: { intros [= <- <-]. exists []. apply slot_nil; [done|]. by apply next_after_none. }
  pose proof (next_after_elem _ _ _ Hn) as [Hk Hin]. pose proof (next_after_least _ _ _ Hw Hn) as Hleast.
  assert (∀ b s2 l, slot k (tick s).2 b s2 l → slot k s b s2 l) as Htk by (intros ? ? ?; apply slot_tick).
  pose proof (ext_wf _ _ (ext_tick s Hw)) as Hw1. assert (tick s = (clk (reads s), (tick s).2)) as Hts by done.
  revert Hts Hw1 Htk. assert (id ∈ ids (tick s).2 ∧ (∀ j, j ∈ ids (tick s).2 → k < j → id ≤ j) ∧
    0 < m_exec_iteration_start_time (tick s).2) as (Hin1 & Hleast1 & Hst1) by done.
  revert Hin1 Hleast1 Hst1. generalize (tick s).2. intros s1 Hin1 Hleast1 Hst1 Hts Hw1 Htk. rewrite Hts.
  destruct (_ <=? _).
  { intros [= <- <-]. exists []. apply Htk. destruct Hw1 as [? ? ?].
    split; [by split|cbn; lia|done|by rewrite app_nil_r|constructor|constructor|by intros ? ?%elem_of_nil|
            by intros ? ?%elem_of_nil|done|done|cbn; lia]. }
  case_bool_decide as Hm.
  { intros Hr. destruct (IH id s1 b s' Hw1 Hst1 Hr) as [l Hl]. exists l. apply Htk. by apply (slot_skip k id). }
  intros Hr. apply bind_Some in Hr as (s2 & H1 & Hr). apply bind_Some in Hr as (s3 & H2 & Hr).
  assert (run_one fuel d id s1 = Some s3) as Hone by (unfold run_one; rewrite H1; exact H2).
  pose proof (run_one_slot fuel d id s1 s3 Hw1 Hst1 Hin1 Hm Hone) as Hsl.
  destruct (IH id s3 b s' (sl_wf _ _ _ _ _ Hsl)) as [l Hl]; [by rewrite (sl_start _ _ _ _ _ Hsl)|done|].
  exists (id :: l). apply Htk. by apply (slot_cons k id s1 s3).
Qed.

Lemma sorted_NoDup (l : list Z) : StronglySorted Z.lt l → NoDup l.
Proof.
  induction 1 as [|x l Hs IH Hx]; [constructor|]. constructor; [|done]. intros Hin.
  rewrite Forall_forall in Hx. apply Hx in Hin. lia.
Qed.

(** The slots of one iteration. *)
Fixpoint slots (fuel d n : nat) (ms : Z) (s : Pool) : option Pool :=
  match n with
  | O => Some s
  | S n =>
    s ← run_tasks fuel d ms s;
    if decide (m_exec_iteration_start_time s = TIME_MAX) then Some s else slots fuel d n ms s
  end.

(** An iteration that started in [s0] at [st] and ran the tasks [l] so far. *)
Record iteration (s0 : Pool) (st : Z) (s : Pool) (l : list Z) : Prop := {
  it_wf : wf s;
  it_latest : latest_id s0 ≤ latest_id s;
  it_executed : executed (history s) = executed (history s0) ++ l;
  it_nodup : NoDup l;
  it_ids : Forall (λ id, id < latest_id s) l;
  it_marked id : id ∈ l → lex id s = Some st ∨ lex id s = None;
  it_others id : id < latest_id s0 → id ∉ l → lex id s = lex id s0;
}.

Lemma iteration_slot s0 st s l b s' l' : iteration s0 st s l → m_exec_iteration_start_time s = st →
  slot 0 s b s' l' → iteration s0 st s' (l ++ l').
Proof.
  intros [W1 L1 E1 N1 I1 M1 O1] Hst [W2 L2 S2 E2 So2 A2 U2 M2 O2 _ _]. rewrite Hst in *.
  assert (∀ id, id ∈ l → id ∉ l') as Hdisj.
  { intros id Hl Hl'. destruct (U2 id Hl') as [Hu Hin]. rewrite Forall_forall in I1. specialize (I1 id Hl).
    destruct (M1 id Hl) as [Hm|Hm]; [done|]. destruct (elem_ids_lex id s (Hin I1)) as [v Hv]. congruence. }
  split; [done|lia| | | | |].
  - rewrite E2, E1. by rewrite <- app_assoc.
  - apply NoDup_app. split_and!; [done|done|]. by apply sorted_NoDup.
  - apply Forall_app. split; (eapply Forall_impl; [eassumption|]; cbn; intros; lia).
  - intros id [Hl|Hl]%elem_of_app; [|by apply M2]. rewrite Forall_forall in I1.
    rewrite O2; [by apply M1|by apply I1|by apply Hdisj].
  - intros id Hid [Hl Hl']%not_elem_of_app. rewrite O2; [by apply O1|lia|done].
Qed.

Lemma iteration_complete s0 st s l s' l' : iteration s0 st s l → m_exec_iteration_start_time s = st → wf s0 →
  slot 0 s true s' l' → (∀ id, lex id s0 ≠ Some st) → ∀ id, id ∈ ids s0 → id ∈ l ++ l'.
Proof.
  intros [W1 L1 E1 N1 I1 M1 O1] Hst Hw0 Hsl Hnew id Hid. pose proof (wf_ids _ Hw0) as Hi. rewrite Forall_forall in Hi.
  specialize (Hi id Hid). apply elem_of_app. destruct (decide (id ∈ l)) as [?|Hnl]; [by left|]. right.
  specialize (O1 id ltac:(lia) Hnl).
  destruct (sl_complete _ _ _ _ _ Hsl eq_refl id) as [?|Hm]; [lia| |done|].
  - apply ids_lex. rewrite O1. by apply elem_ids_lex.
  - rewrite Hst, O1 in Hm. by destruct (Hnew id).
Qed.

Lemma iteration_frame s0 st s s' l : iteration s0 st s l → m_scheduled_tasks s' = m_scheduled_tasks s →
  latest_id s' = latest_id s → history s' = history s → iteration s0 st s' l.
Proof.
  intros [[W1 W2 W3] L1 E1 N1 I1 M1 O1] Hm Hl Hh.
  assert (∀ id, lex id s' = lex id s) as Hlex by (intros; unfold lex, find; by rewrite Hm).
  split; rewrite ?Hl, ?Hh; [split; unfold ids in *; rewrite ?Hm, ?Hl; done|done|done|done|done| |].
  - intros id Hid. rewrite Hlex. by apply M1.
  - intros id H1 H2. rewrite Hlex. by apply O1.
Qed.

(** One call of [run_tasks] is a slot of the iteration it is in, or starts one. *)
Lemma run_tasks_slot fuel d ms s s' : wf s → (∀ n, 0 < clk n < TIME_MAX) → 0 < m_exec_iteration_start_time s →
  run_tasks fuel d ms s = Some s' → ∃ s1 b s2 l,
  slot 0 s1 b s2 l ∧ m_scheduled_tasks s1 = m_scheduled_tasks s ∧ latest_id s1 = latest_id s ∧ history s1 = history s ∧
  m_exec_iteration_start_time s1
    = (if clk (reads s) <? m_exec_iteration_start_time s then clk (S (reads s)) else m_exec_iteration_start_time s) ∧
  (reads s < reads s1)%nat ∧ (clk (reads s) < m_exec_iteration_start_time s → (S (reads s) < reads s1)%nat) ∧
  m_scheduled_tasks s' = m_scheduled_tasks s2 ∧ latest_id s' = latest_id s2 ∧ history s' = history s2 ∧
  reads s' = reads s2 ∧
  m_exec_iteration_start_time s' = (if b then TIME_MAX else m_exec_iteration_start_time s1).
Proof.
  intros [W1 W2 W3] Hclk Hst. unfold run_tasks. cbn [tick].
  set (s1 := if clk (reads s) <? _ then _ else _). destruct (ms =? 0); [done|].
  intros Hr. apply bind_Some in Hr as ([b s2] & Hr & Hs'). injection Hs' as <-.
  match type of Hr with run_loop _ _ _ _ ?x = _ => set (s1' := x) in * end.
  assert (m_scheduled_tasks s1' = m_scheduled_tasks s ∧ latest_id s1' = latest_id s ∧ history s1' = history s ∧
    m_exec_iteration_start_time s1' = (if clk (reads s) <? m_exec_iteration_start_time s then clk (S (reads s))
                                       else m_exec_iteration_start_time s) ∧
    (reads s < reads s1')%nat ∧ (clk (reads s) < m_exec_iteration_start_time s → (S (reads s) < reads s1')%nat))
    as (H1 & H2 & H3 & H4 & H5 & H6).
  { unfold s1', s1. cbn. destruct (_ <? _) eqn:Hlt; cbn; split_and!; try done; try lia; bool_to_prop; lia. }
  assert (wf s1') as Hw1 by (by unfold ids in *; split; unfold ids; rewrite ?H1, ?H2).
  assert (0 < m_exec_iteration_start_time s1') as Hp1 by (rewrite H4; destruct (_ <? _); [apply Hclk|done]).
  destruct (run_loop_slot _ _ _ _ _ _ _ Hw1 Hp1 Hr) as [l Hl].
  exists s1', b, s2, l. split_and!; try done; destruct b; try done. by rewrite (sl_start _ _ _ _ _ Hl).
Qed.

Section Iterations.
Hypothesis clk_range : ∀ n, 0 < clk n < TIME_MAX.
Hypothesis clk_mono : ∀ i j, (i ≤ j)%nat → clk i ≤ clk j.

Lemma iteration_run s0 st t l fuel d ms t' : wf s0 → (∀ id, lex id s0 ≠ Some st) → iteration s0 st t l →
  0 < m_exec_iteration_start_time t →
  (if clk (reads t) <? m_exec_iteration_start_time t then clk (S (reads t)) else m_exec_iteration_start_time t) = st →
  run_tasks fuel d ms t = Some t' → ∃ l', iteration s0 st t' (l ++ l') ∧
  (m_exec_iteration_start_time t' = TIME_MAX → st ≠ TIME_MAX → ∀ id, id ∈ ids s0 → id ∈ l ++ l') ∧
  (m_exec_iteration_start_time t' = TIME_MAX ∨ m_exec_iteration_start_time t' = st) ∧
  (reads t < reads t')%nat ∧ (clk (reads t) < m_exec_iteration_start_time t → (S (reads t) < reads t')%nat).
Proof.
  intros Hw0 Hnew Hit Hpos Hst Hr.
  destruct (run_tasks_slot fuel d ms t t' (it_wf _ _ _ _ Hit) clk_range Hpos Hr)
    as (s1 & b & s2 & l' & Hsl & H1 & H2 & H3 & H4 & H5 & H6 & H7 & H8 & H9 & H10 & H11). rewrite Hst in H4.
  pose proof (iteration_frame _ _ _ s1 _ Hit H1 H2 H3) as Hit1.
  pose proof (iteration_slot _ _ _ _ _ _ _ Hit1 H4 Hsl) as Hit2. pose proof (sl_reads _ _ _ _ _ Hsl) as Hrd.
  exists l'. split_and!.
  - by eapply iteration_frame.
  - intros Hmax Hne. destruct b; [by eapply iteration_complete|]. by rewrite H11, H4 in Hmax.
  - rewrite H11, H4. destruct b; [by left|by right].
  - lia.
  - intros Hlt. specialize (H6 Hlt). lia.
Qed.

Lemma slots_iteration s0 r0 fuel d ms n : wf s0 → (∀ id, lex id s0 ≠ Some (clk r0)) → ∀ t l t',
  iteration s0 (clk r0) t l → m_exec_iteration_start_time t = clk r0 → (r0 < reads t)%nat →
  slots fuel d n ms t = Some t' → ∃ l', iteration s0 (clk r0) t' l' ∧
  (m_exec_iteration_start_time t' = TIME_MAX → ∀ id, id ∈ ids s0 → id ∈ l').
Proof.
  intros Hw0 Hnew. pose proof (clk_range r0) as Hr0. induction n as [|n IH]; intros t l t' Hit Hst Hrd; cbn [slots].
  { intros [= <-]. exists l. split; [done|]. rewrite Hst. lia. }
  intros Hr. apply bind_Some in Hr as (t1 & H1 & Hr). pose proof (clk_mono r0 (reads t) ltac:(lia)) as Hm.
  destruct (iteration_run s0 (clk r0) t l fuel d ms t1 Hw0 Hnew Hit) as (l' & Hit' & Hc & Hs & Hlt & _); [lia| |done|].
  { destruct (_ <? _) eqn:Hlt; bool_to_prop; [lia|done]. }
  destruct (decide _) as [Hmax|Hmax].
  - injection Hr as <-. exists (l ++ l'). split; [done|]. intros _. apply Hc; [done|lia].
  - destruct Hs as [?|Hs]; [done|]. by eapply IH; [exact Hit'|exact Hs|lia|].
Qed.

(** C31: A pool runs its tasks fairly: however many slots an iteration takes because
    of the deadline, and whatever the tasks do (events, kills, new tasks), no
    task is executed twice in it, and when it is complete every task that was in
    the pool at its start has been executed. *)
Theorem once_per_iteration fuel d n ms s s' : wf s → m_exec_iteration_start_time s = TIME_MAX →
  (∀ id v, lex id s = Some v → v < clk (S (reads s))) → slots fuel d n ms s = Some s' → ∃ l,
  executed (history s') = executed (history s) ++ l ∧ NoDup l ∧
  (n ≠ 0%nat → m_exec_iteration_start_time s' = TIME_MAX → ∀ id, id ∈ ids s → id ∈ l).
Proof.
  intros Hw Hst Hlex. destruct n as [|n]; cbn [slots].
  { intros [= <-]. exists []. rewrite app_nil_r. split_and!; [done|constructor|done]. }
  intros Hr. apply bind_Some in Hr as (s1 & H1 & Hr).
  assert (∀ id, lex id s ≠ Some (clk (S (reads s)))) as Hnew by (intros id Hv; apply Hlex in Hv; lia).
  assert (iteration s (clk (S (reads s))) s []) as Hit.
  { split; [done|lia|by rewrite app_nil_r|constructor|constructor|by intros ? ?%elem_of_nil|done]. }
  pose proof (clk_range (reads s)) as Hc0. pose proof (clk_range (S (reads s))) as Hc1.
  destruct (iteration_run s _ s [] fuel d ms s1 Hw Hnew Hit) as (l & Hit1 & Hc & Hs & _ & Hlt); [rewrite Hst; lia| |done|].
  { rewrite Hst. destruct (_ <? _) eqn:Hlt; bool_to_prop; [done|lia]. }
  destruct (decide _) as [Hmax|Hmax].
  - injection Hr as <-. exists l. split_and!; [apply Hit1|apply Hit1|]. intros _ _. apply Hc; [done|lia].
  - destruct Hs as [?|Hs]; [done|]. rewrite Hst in Hlt.
    destruct (slots_iteration s (S (reads s)) fuel d ms n Hw Hnew s1 l s' Hit1 Hs) as (l' & Hit' & Hc'); [apply Hlt; lia|done|].
    exists l'. split_and!; [apply Hit'|apply Hit'|]. by intros _.
Qed.

End Iterations.
(** ** The slots end *)

(** The calls of a program. *)
Fixpoint uses (f : op → bool) (p : prog) : Prop :=
  match p with
  | Return => True
  | Call o k => f o = true ∧ uses f k
  | Now k => ∀ n, uses f (k n)
  | IsTaskRunning _ k => ∀ b, uses f (k b)
  end.

(** Calls that stay in the task; calls that run no other task's events. *)
Definition own_op (o : op) : bool :=
  match o with finish | pool_add_task _ _ | pool_kill_task _ | pool_push_event _ _ _ => false | _ => true end.
Definition own_or_finish (o : op) : bool := match o with finish => true | o => own_op o end.
Definition no_push (o : op) : bool := match o with pool_push_event _ _ _ => false | _ => true end.

(** Classes whose methods do not call each other in circles: the end of a task
    is handled by the task alone, the end of an awaited task by the task alone
    up to finishing it, and events do not push further events. *)
Record tame : Prop := {
  tame_end c u : uses own_op (handle_task_end (vt c) u);
  tame_ended c id u : uses own_or_finish (handle_pending_task_ended (vt c) id u);
  tame_event c ev obj u : uses no_push (handle_event (vt c) ev obj u);
}.

Definition returns (m : option Pool) (P : Pool → Prop) : Prop := ∃ s, m = Some s ∧ P s.

Lemma base_op_id now o t : t_id (base_op now o t) = t_id t.
Proof. apply base_op_frame. Qed.

Lemma exec_own d id p s : uses own_op p → returns (exec (S d) id p s) (λ s', ids s' = ids s).
Proof.
  revert s. induction p as [|o p IHp|k IHp|j k IHp]; intros s Hu; cbn in Hu.
  - by exists s.
  - destruct Hu as [Ho Hu]. cbn [exec]. destruct o; try done; cbn;
      (match goal with |- returns (_ id p ?s1) _ => destruct (IHp s1 Hu) as (s' & Hr & Hi) end;
       exists s'; split; [exact Hr|]; rewrite Hi, ids_on_task; [done|intros; apply base_op_id]).
  - cbn [exec]. destruct (IHp (clk (reads s)) (tick s).2 (Hu _)) as (s' & Hr & Hi). by exists s'.
  - cbn [exec]. destruct (IHp (is_task_running j s) s (Hu _)) as (s' & Hr & Hi). by exists s'.
Qed.

Section Tame.
Hypothesis Ht : tame.

Lemma exec_finish d id p s : uses own_or_finish p → returns (exec (S (S d)) id p s) (λ s', ids s' = ids s).
Proof.
  revert s. induction p as [|o p IHp|k IHp|j k IHp]; intros s Hu; cbn in Hu.
  - by exists s.
  - destruct Hu as [Ho Hu]. remember (S d) as d1. cbn [exec]. destruct o; try done; cbn;
      try (match goal with |- returns (_ id p ?s1) _ => destruct (IHp s1 Hu) as (s' & Hr & Hi) end;
         exists s'; split; [exact Hr|]; rewrite Hi, ids_on_task; [done|intros; apply base_op_id]).
    destruct (find id s) as [t|]; [|by apply IHp]. subst d1.
    destruct (exec_own d id (handle_task_end (vt (t_class t)) (t_own t)) (on_task id upd_done s)) as (s1 & -> & Hi1);
      [apply Ht|]. cbn. destruct (IHp s1 Hu) as (s' & Hr & Hi). exists s'. split; [exact Hr|].
    by rewrite Hi, Hi1, ids_on_task.
  - cbn [exec]. destruct (IHp (clk (reads s)) (tick s).2 (Hu _)) as (s' & Hr & Hi). by exists s'.
  - cbn [exec]. destruct (IHp (is_task_running j s) s (Hu _)) as (s' & Hr & Hi). by exists s'.
Qed.

(** [finish()] of any task ends. *)
Lemma end_returns d id t s : is_Some (exec (S d) id (handle_task_end (vt (t_class t)) (t_own t)) s).
Proof. destruct (exec_own d id _ s (tame_end Ht (t_class t) (t_own t))) as (s' & Hr & _). by exists s'. Qed.

Lemma exec_no_push d id p s : uses no_push p → is_Some (exec (S (S d)) id p s).
Proof.
  revert s. induction p as [|o p IHp|k IHp|j k IHp]; intros s Hu; cbn in Hu.
  - by exists s.
  - destruct Hu as [Ho Hu]. remember (S d) as d1. cbn [exec]. destruct o; try done; cbn; try (by apply IHp);
      (destruct (find _ s) as [t|]; [|by apply IHp]); subst d1;
      (match goal with |- context [exec (S d) ?i _ ?s0] => destruct (end_returns d i t s0) as [s1 ->] end; by apply IHp).
  - cbn [exec]. by apply (IHp (clk (reads s)) (tick s).2).
  - cbn [exec]. by apply IHp.
Qed.

Lemma exec_any d id p s : is_Some (exec (S (S (S d))) id p s).
Proof.
  revert s. induction p as [|o p IHp|k IHp|j k IHp]; intros s.
  - by exists s.
  - remember (S (S d)) as d1. cbn [exec]. destruct o; cbn; try (by apply IHp);
      (destruct (find _ s) as [t|]; [|by apply IHp]); subst d1;
      try (match goal with |- context [exec (S (S d)) ?i (handle_task_end _ _) ?s0] =>
             destruct (end_returns (S d) i t s0) as [s1 ->] end; by apply IHp).
    match goal with |- context [exec (S (S d)) ?i (handle_event _ ?ev ?ob _) ?s0] =>
      destruct (exec_no_push d i _ s0 (tame_event Ht (t_class t) ev ob (t_own t))) as [s1 ->] end. by apply IHp.
  - cbn [exec]. by apply (IHp (clk (reads s)) (tick s).2).
  - cbn [exec]. by apply IHp.
Qed.

Lemma call_any d id h s : is_Some (call (S (S (S d))) id h s).
Proof. unfold call. destruct (find id s); [apply exec_any|by eexists]. Qed.

Lemma when_returns id cond act s : (∀ t s, is_Some (act t s)) → is_Some (when id cond act s).
Proof. intros Ha. unfold when. destruct (find id s) as [t|]; [destruct (cond t)|]; [apply Ha|by eexists..]. Qed.

Lemma bind_returns (m : option Pool) (f : Pool → option Pool) :
  is_Some m → (∀ s, is_Some (f s)) → is_Some (m ≫= f).
Proof. intros [s ->] Hf. apply Hf. Qed.

Lemma execute_returns d id s : is_Some (execute (S (S (S d))) id s).
Proof.
  assert (∀ s, is_Some (try_work (S (S (S d))) id s)) as Hwork.
  { intros s1. apply when_returns. intros. apply call_any. }
  unfold execute. destruct (tick _) as [now s1]. destruct (find id s1) as [t|]; [|by eexists].
  destruct (_ && _); [apply bind_returns; [apply call_any|done]|].
  destruct (waiting t); [|done]. destruct (_ <? _); [by eexists|]. apply bind_returns; [|done]. unfold check_waits.
  repeat (apply bind_returns; [apply when_returns; intros|intros]); try (by eexists); try apply call_any.
  1, 2: apply bind_returns; [apply call_any|by eexists].
  apply when_returns. by eexists.
Qed.

(** *** Telling all tasks that one has ended *)

Lemma for_tasks_mono body k s s' f f' : for_tasks f body k s = Some s' → (f ≤ f')%nat → for_tasks f' body k s = Some s'.
Proof.
  revert f' k s. induction f as [|f IH]; intros f' k s Hr Hf; [done|]. destruct f' as [|f']; [lia|]. cbn in *.
  destruct (next_after k s); [|done]. apply bind_Some in Hr as (s1 & -> & Hr). cbn. apply IH; [done|lia].
Qed.

Lemma pending_one_returns d ended id s :
  returns (pending_task_ended_one (S (S (S d))) ended id s) (λ s', ids s' = ids s).
Proof.
  unfold pending_task_ended_one. destruct (find id s) as [t|]; [|by eexists]. destruct (_ =? _); [|by eexists].
  unfold call. rewrite find_on_task by done. destruct (find id s) as [t1|]; cbn [fmap option_fmap option_map];
    [|eexists; split; [done|by rewrite ids_on_task]]. cbv beta.
  match goal with |- returns (exec _ _ (handle_pending_task_ended (vt ?c) _ ?u) ?s1) _ =>
    destruct (exec_finish (S d) id _ s1 (tame_ended Ht c ended u)) as (s' & Hr & Hi) end.
  exists s'. split; [exact Hr|]. by rewrite Hi, ids_on_task.
Qed.

Lemma for_tasks_returns body : (∀ id s, returns (body id s) (λ s', ids s' = ids s)) → ∀ fuel k s,
  (length (filter (λ j, k < j)%Z (ids s)) < fuel)%nat → is_Some (for_tasks fuel body k s).
Proof.
  intros Hb. induction fuel as [|fuel IH]; intros k s Hf; [lia|]. cbn.
  destruct (next_after k s) as [id|] eqn:Hn; [|by eexists]. apply next_after_elem in Hn as [Hk Hin].
  destruct (Hb id s) as (s1 & -> & Hi). cbn. apply IH. rewrite Hi.
  enough (length (filter (λ j, id < j)%Z (ids s)) < length (filter (λ j, k < j)%Z (ids s)))%nat by lia.
  clear -Hk Hin. induction (ids s) as [|j l IHl]; [by apply elem_of_nil in Hin|].
  assert (length (filter (λ j, id < j)%Z l) ≤ length (filter (λ j, k < j)%Z l))%nat as Hle.
  { clear -Hk. induction l as [|j l IHl]; [done|]. rewrite !filter_cons. repeat case_decide; cbn; lia. }
  rewrite !filter_cons. apply elem_of_cons in Hin as [->|Hin].
  - rewrite decide_False by lia. rewrite decide_True by done. cbn. lia.
  - specialize (IHl Hin). repeat case_decide; cbn; lia.
Qed.

(** *** The loop *)

Lemma run_loop_mono d deadline : ∀ f f' k s r, run_loop f d deadline k s = Some r → (f ≤ f')%nat →
  run_loop f' d deadline k s = Some r.
Proof.
  induction f as [|f IH]; intros f' k s r Hr Hf; [done|]. destruct f' as [|f']; [lia|]. cbn [run_loop] in *.
  destruct (next_after k s) as [id|]; [|done]. destruct (tick s) as [now s1]. destruct (_ <=? _); [done|].
  case_bool_decide; [apply (IH f'); [done|lia]|]. apply bind_Some in Hr as (s2 & -> & Hr). cbn in *.
  apply bind_Some in Hr as (s3 & H3 & Hr). enough (when id done (λ _ s, s ← pending_task_ended f' d id s; Some (erase id s))
    (on_task id (upd_last_exec (m_exec_iteration_start_time s2)) s2) = Some s3) as ->.
  { cbn. apply (IH f'); [done|lia]. }
  unfold when in *. destruct (find _ _) as [t|]; [|done]. destruct (done t); [|done].
  apply bind_Some in H3 as (s4 & H4 & H3). unfold pending_task_ended in *.
  rewrite (for_tasks_mono _ _ _ _ _ f' H4) by lia. exact H3.
Qed.

Lemma run_one_returns d id s : ∃ f s', ∀ f', (f ≤ f')%nat → run_one f' (S (S (S d))) id s = Some s'.
Proof.
  unfold run_one. destruct (execute_returns d id s) as [s1 ->]. cbn [mbind option_bind].
  set (s2 := on_task _ _ s1). unfold when. destruct (find id s2) as [t|]; [|by exists 0%nat; eexists].
  destruct (done t); [|by exists 0%nat; eexists].
  destruct (for_tasks_returns (pending_task_ended_one (S (S (S d))) id) ltac:(intros; apply pending_one_returns)
              (S (length (filter (λ j, 0 < j)%Z (ids s2)))) 0 s2) as [s3 H3]; [lia|].
  exists (S (length (filter (λ j, 0 < j)%Z (ids s2)))), (erase id s3). intros f' Hf. unfold pending_task_ended.
  by rewrite (for_tasks_mono _ _ _ _ _ f' H3 Hf).
Qed.

Lemma run_loop_returns d deadline R : (∀ i j, (i ≤ j)%nat → clk i ≤ clk j) → deadline ≤ clk R → ∀ n k s,
  wf s → 0 < m_exec_iteration_start_time s → (R < reads s + n)%nat → ∃ f r, run_loop f (S (S (S d))) deadline k s = Some r.
Proof.
  intros Hmono HR. induction n as [|n IH]; intros k s Hw Hst Hn.
  { exists 1%nat. cbn [run_loop]. destruct (next_after k s); [|by eexists]. cbn [tick].
    rewrite (proj2 (Z.leb_le _ _)); [by eexists|]. specialize (Hmono R (reads s)). lia. }
  destruct (next_after k s) as [id|] eqn:Hna; [|exists 1%nat; cbn [run_loop]; rewrite Hna; by eexists].
  pose proof (ext_wf _ _ (ext_tick s Hw)) as Hw1. set (s1 := (tick s).2) in *.
  assert (tick s = (clk (reads s), s1)) as Hts by done.
  assert (id ∈ ids s1) as Hin by (by apply next_after_elem in Hna as [_ ?]).
  destruct (deadline <=? clk (reads s)) eqn:Hd.
  { exists 1%nat. cbn [run_loop]. rewrite Hna, Hts, Hd. by eexists. }
  destruct (decide (last_exec_time <$> find id s1 = Some (m_exec_iteration_start_time s1))) as [Hm|Hm].
  { destruct (IH id s1 Hw1 Hst) as (f & r & Hr); [cbn; lia|]. exists (S f), r.
    cbn [run_loop]. rewrite Hna, Hts, Hd. by rewrite bool_decide_eq_true_2. }
  destruct (run_one_returns d id s1) as (f1 & s3 & Hone).
  pose proof (run_one_slot f1 _ id s1 s3 Hw1 Hst Hin Hm (Hone f1 (Nat.le_refl _))) as Hsl.
  destruct (IH id s3 (sl_wf _ _ _ _ _ Hsl)) as (f2 & r & Hr).
  { by rewrite (sl_start _ _ _ _ _ Hsl). }
  { pose proof (sl_reads _ _ _ _ _ Hsl). cbn in *. lia. }
  exists (S (f1 + f2)), r. cbn [run_loop]. rewrite Hna, Hts, Hd, bool_decide_eq_false_2 by done.
  specialize (Hone (f1 + f2)%nat ltac:(lia)). unfold run_one in Hone. apply bind_Some in Hone as (s2 & -> & H2).
  cbn [mbind option_bind]. rewrite H2. cbn [mbind option_bind]. apply (run_loop_mono _ _ f2); [done|lia].
Qed.

(** C32: A slot ends: when the clock reaches the deadline, [run_tasks] returns,
    whatever the tasks do, provided that [handle_task_end] uses only operations
    of its own task, [handle_pending_task_ended] those and [finish], and
    [handle_event] pushes no event ([tame], which keeps methods from calling
    each other in circles); tasks that add tasks do not keep it busy beyond the
    deadline. *)
Theorem run_tasks_ends d ms s R : wf s → 0 < m_exec_iteration_start_time s → ms ≠ 0 →
  (∀ n, 0 < clk n) → (∀ i j, (i ≤ j)%nat → clk i ≤ clk j) →
  clk (S (S (reads s))) + milliseconds ms ≤ clk R →
  ∃ fuel s', ∀ fuel', (fuel ≤ fuel')%nat → run_tasks fuel' (S (S (S d))) ms s = Some s'.
Proof.
  intros Hw Hst Hms Hpos Hmono HR. unfold run_tasks. cbn [tick].
  rewrite (proj2 (Z.eqb_neq ms 0) Hms).
  match goal with |- context [run_loop _ _ ?dl 0 ?x] => set (deadline := dl); set (s1 := x) end.
  assert (wf s1 ∧ 0 < m_exec_iteration_start_time s1 ∧ deadline ≤ clk R) as (Hw1 & Hst1 & Hd).
  { destruct Hw as [W1 W2 W3]. unfold s1, deadline. cbn. pose proof (Hmono (S (reads s)) (S (S (reads s))) ltac:(lia)).
    destruct (_ <? _); cbn; (split; [by split|]); (split; [by try apply Hpos|lia]). }
  destruct (run_loop_returns d deadline R Hmono Hd (S R) 0 s1 Hw1 Hst1) as (f & [b s2] & Hr); [lia|].
  exists f. eexists. intros f' Hf. rewrite (run_loop_mono _ _ f f' _ _ _ Hr Hf). done.
Qed.

End Tame.

(** ** A waiting task goes on *)

(** The base class's empty timeout handlers. *)
Definition default_timeouts (v : virtuals) : Prop :=
  (∀ l u, handle_events_timeout v l u = Return) ∧ (∀ l u, handle_responses_timeout v l u = Return) ∧
  (∀ i u, handle_pending_task_timeout v i u = Return).

(** The branch of [execute()] for a waiting task, on its members. *)
Definition waits1 (now : Z) (t : task) : task :=
  if waiting_for_pending_task t && (pending_task_timeout t <=? now)
  then upd_pending_task (pending_task_timeout t) (pending_task_id t) false t else t.
Definition waits2 (now : Z) (t : task) : task :=
  if events_timeout_set t && waiting_for_events t && (events_timeout t <=? now)
  then upd_events [] false (waiting_for_events t) (events_timeout t) t else t.
Definition waits3 (t : task) : task :=
  if waiting_for_responses t && is_empty (pending_macs t) then upd_responses false false (responses_timeout t) t else t.
Definition waits4 (now : Z) (t : task) : task :=
  if responses_timeout_set t && (responses_timeout t <=? now)
  then upd_macs [] (upd_responses false (waiting_for_responses t) (responses_timeout t) t) else t.
Definition waits5 (t : task) : task :=
  if waiting_for_events t && is_empty (pending_events t)
  then upd_events (pending_events t) false false (events_timeout t) t else t.
Definition waits6 (t : task) : task := if nothing_awaited t then upd_waiting false t else t.
Definition waits (now : Z) (t : task) : task := waits6 (waits5 (waits4 now (waits3 (waits2 now (waits1 now t))))).

(** A step of [execute()] that changes the task [id] from [t] to [t']. *)
Definition turns (id : Z) (f : Pool → option Pool) (t t' : task) : Prop :=
  ∀ s, find id s = Some t → ∃ s', f s = Some s' ∧ find id s' = Some t' ∧ history s' = history s ∧ reads s' = reads s.

Lemma find_id id s t : find id s = Some t → t_id t = id.
Proof. intros H. apply fmap_Some in H as ([? t'] & H & ->). by apply list_find_Some in H as (_ & ? & _). Qed.

Lemma find_self id f s t : (∀ t, t_id (f t) = t_id t) → find id s = Some t → find id (on_task id f s) = Some (f t).
Proof.
  intros Hf Ht. rewrite find_on_task, Ht by done. cbn. by rewrite bool_decide_eq_true_2 by (by eapply find_id).
Qed.

Lemma turns_bind id f g t1 t2 t3 : turns id f t1 t2 → turns id g t2 t3 → turns id (λ s, f s ≫= g) t1 t3.
Proof.
  intros Hf Hg s Hs. destruct (Hf s Hs) as (s1 & -> & H1 & H2 & H3). destruct (Hg s1 H1) as (s2 & Hr & ? & ? & ?).
  exists s2. split_and!; [done|done|congruence|congruence].
Qed.

(** A handler that does nothing, around an update. *)
Lemma turns_call d id f h t : (∀ t, t_id (f t) = t_id t ∧ t_class (f t) = t_class t) →
  (∀ u, h (vt (t_class t)) u = Return) → turns id (λ s, call (S d) id h (on_task id f s)) t (f t).
Proof.
  intros Hf Hh s Hs. pose proof (find_self id f s t ltac:(apply Hf) Hs) as Hs'.
  exists (on_task id f s). unfold call. by rewrite Hs', (proj2 (Hf t)), Hh.
Qed.

Lemma turns_call_then d id f h t : (∀ t, t_id (f t) = t_id t) →
  (∀ u, h (vt (t_class t)) u = Return) → turns id (λ s, s ← call (S d) id h s; Some (on_task id f s)) t (f t).
Proof.
  intros Hf Hh s Hs. exists (on_task id f s). unfold call. rewrite Hs, Hh. split; [done|].
  split; [by apply find_self|done].
Qed.

Lemma turns_set id f t : (∀ t, t_id (f t) = t_id t) → turns id (λ s, Some (on_task id f s)) t (f t).
Proof. intros Hf s Hs. eexists. split; [done|]. split; [by apply find_self|done]. Qed.

Lemma turns_when id cond act t t' : (cond t = true → turns id (act t) t t') → (cond t = false → t' = t) →
  turns id (when id cond act) t t'.
Proof.
  intros H1 H2 s Hs. unfold when. rewrite Hs. destruct (cond t); [by apply H1|]. rewrite H2 by done. by exists s.
Qed.

Lemma check_waits_turns d now id t : default_timeouts (vt (t_class t)) →
  turns id (check_waits (S d) now id) t (waits now t).
Proof.
  intros (He & Hr & Hp). unfold check_waits.
  assert (∀ t, t_class (waits1 now t) = t_class t) as C1 by (intros; unfold waits1; by case_match).
  assert (∀ t, t_class (waits2 now t) = t_class t) as C2 by (intros; unfold waits2; by case_match).
  assert (∀ t, t_class (waits3 t) = t_class t) as C3 by (intros; unfold waits3; by case_match).
  apply (turns_bind id _ _ t (waits1 now t)).
  { apply turns_when; unfold waits1; intros ->; [|done].
    exact (turns_call d id (λ t, upd_pending_task (pending_task_timeout t) (pending_task_id t) false t) _ t ltac:(done) (Hp _)). }
  apply (turns_bind id _ _ _ (waits2 now (waits1 now t))).
  { generalize (waits1 now t) (C1 t). intros t1 Hc. apply turns_when; unfold waits2; intros ->; [|done].
    refine (turns_call_then d id (λ t, upd_events [] false (waiting_for_events t) (events_timeout t) t) _ t1 ltac:(done) _).
    rewrite Hc. apply He. }
  apply (turns_bind id _ _ _ (waits3 (waits2 now (waits1 now t)))).
  { generalize (waits2 now (waits1 now t)). intros t1. apply turns_when; unfold waits3; intros ->; [|done].
    exact (turns_set id (λ t, upd_responses false false (responses_timeout t) t) t1 ltac:(done)). }
  apply (turns_bind id _ _ _ (waits4 now (waits3 (waits2 now (waits1 now t))))).
  { assert (t_class (waits3 (waits2 now (waits1 now t))) = t_class t) as Hc by (by rewrite C3, C2, C1).
    revert Hc. generalize (waits3 (waits2 now (waits1 now t))). intros t1 Hc. apply turns_when; unfold waits4; intros ->; [|done].
    refine (turns_call_then d id (λ t, upd_macs [] (upd_responses false (waiting_for_responses t) (responses_timeout t) t)) _ t1 ltac:(done) _).
    rewrite Hc. apply Hr. }
  apply (turns_bind id _ _ _ (waits5 (waits4 now (waits3 (waits2 now (waits1 now t)))))).
  { generalize (waits4 now (waits3 (waits2 now (waits1 now t)))). intros t1. apply turns_when; unfold waits5; intros ->; [|done].
    exact (turns_set id (λ t, upd_events (pending_events t) false false (events_timeout t) t) t1 ltac:(done)). }
  unfold waits. generalize (waits5 (waits4 now (waits3 (waits2 now (waits1 now t))))). intros t1.
  apply turns_when; unfold waits6; intros ->; [|done]. exact (turns_set id (upd_waiting false) t1 ltac:(done)).
Qed.

(** At [now], everything the task waits for has arrived or is late. *)
Record overdue (now : Z) (t : task) : Prop := {
  ov_next : next_action_time t ≤ now;
  ov_task : waiting_for_pending_task t = true → pending_task_timeout t ≤ now;
  ov_events : waiting_for_events t = true → pending_events t = [] ∨ (events_timeout_set t = true ∧ events_timeout t ≤ now);
  ov_responses : waiting_for_responses t = true → pending_macs t = [] ∨ responses_timeout_set t = true;
  ov_responses_timeout : responses_timeout_set t = true → responses_timeout t ≤ now;
}.

Lemma waits_overdue now t : overdue now t →
  (waiting (waits now t) = false ∨
   (pending_macs (waits now t) = [] ∧ responses_timeout_set (waits now t) = false ∧
    waiting_for_events (waits now t) = false ∧ waiting_for_pending_task (waits now t) = false)) ∧
  done (waits now t) = done t ∧ next_action_time (waits now t) = next_action_time t ∧
  task_timeout_set (waits now t) = task_timeout_set t ∧ t_class (waits now t) = t_class t.
Proof.
  intros [H1 H2 H3 H4 H5]. destruct t as [i c u dn macs w rts wr rt tts et ev ets we ptt pti wp tt nat let_]. cbn in *.
  unfold waits.
  assert (waits1 now (mkTask i c u dn macs w rts wr rt tts et ev ets we ptt pti wp tt nat let_)
    = mkTask i c u dn macs w rts wr rt tts et ev ets we ptt pti false tt nat let_) as ->.
  { unfold waits1. cbn. destruct wp; [|done]. cbn. by rewrite (proj2 (Z.leb_le _ _)) by auto. }
  assert (∃ ev' ets', waits2 now (mkTask i c u dn macs w rts wr rt tts et ev ets we ptt pti false tt nat let_)
    = mkTask i c u dn macs w rts wr rt tts et ev' ets' we ptt pti false tt nat let_ ∧ (we = true → ev' = [])) as (ev' & ets' & -> & Hev).
  { unfold waits2. cbn. destruct (ets && we && (et <=? now)) eqn:Hb; cbn; [by eexists _, _|].
    exists ev, ets. split; [done|]. intros ->. destruct (H3 eq_refl) as [?|[-> ?]]; [done|]. cbn in Hb. apply Z.leb_gt in Hb. lia. }
  assert (∃ rts' wr', waits3 (mkTask i c u dn macs w rts wr rt tts et ev' ets' we ptt pti false tt nat let_)
    = mkTask i c u dn macs w rts' wr' rt tts et ev' ets' we ptt pti false tt nat let_ ∧
      (wr' = true → rts' = true) ∧ (rts' = true → rt ≤ now)) as (rts' & wr' & -> & Hwr & Hrt).
  { unfold waits3. cbn. destruct (wr && is_empty macs) eqn:Hb; cbn; [by exists false, false|].
    exists rts, wr. split_and!; [done| |done]. intros ->. destruct (H4 eq_refl) as [->|?]; [done|done]. }
  unfold waits4. cbn. destruct rts'; cbn.
  - rewrite (proj2 (Z.leb_le _ _)) by auto. cbn. unfold waits5. cbn. destruct we; cbn.
    + rewrite (Hev eq_refl). cbn. unfold waits6, nothing_awaited. cbn. destruct wr'; cbn; auto 10.
    + unfold waits6, nothing_awaited. cbn. destruct wr'; cbn; auto 10.
  - destruct wr'; [by specialize (Hwr eq_refl)|]. unfold waits5. cbn. destruct we; cbn.
    + rewrite (Hev eq_refl). cbn. auto 10.
    + auto 10.
Qed.

(** [execute()] of a waiting task without a task timeout. *)
Lemma execute_waiting d id s t : wf s → find id s = Some t → waiting t = true → task_timeout_set t = false →
  next_action_time t ≤ clk (reads s) → default_timeouts (vt (t_class t)) → ∃ s1,
  execute (S d) id s = try_work (S d) id s1 ∧ find id s1 = Some (waits (clk (reads s)) t) ∧
  history s1 = history s ++ [Executed id] ∧ reads s1 = S (reads s) ∧ wf s1.
Proof.
  intros Hwf Hf Hw Htt Hn Hd. destruct (check_waits_turns d (clk (reads s)) id t Hd (tick (note (Executed id) s)).2) as (s1 & H1 & H2 & H3 & H4).
  { exact Hf. }
  assert (wf s1) as Hw1.
  { pose proof (check_waits_ext (S d) (clk (reads s)) id _ _ (ext_wf _ _ (ext_tick _ (wf_note (Executed id) s Hwf))) H1) as He.
    apply He. }
  exists s1. split_and!; [|done|done|done|done]. unfold execute.
  change (tick (note (Executed id) s)) with (clk (reads s), (tick (note (Executed id) s)).2).
  cbv iota beta. change (find id (tick (note (Executed id) s)).2) with (find id s). rewrite Hf, Htt, Hw. cbn [andb]. rewrite (proj2 (Z.ltb_ge _ _)) by done.
  by rewrite H1.
Qed.

Lemma waits_almost now t : pending_macs t = [] → responses_timeout_set t = false → waiting_for_events t = false →
  waiting_for_pending_task t = false → waiting (waits now t) = false ∧ done (waits now t) = done t.
Proof.
  destruct t as [i c u dn macs w rts wr rt tts et ev ets we ptt pti wp tt nat let_]. cbn. intros -> -> -> ->.
  unfold waits, waits1, waits2. cbn. rewrite andb_false_r. cbn. unfold waits3. cbn. destruct wr; done.
Qed.

(** A task that is ready does its work. *)
Lemma try_work_ready d id s s' t : wf s → find id s = Some t → waiting t = false → done t = false →
  try_work d id s = Some s' → wf s' ∧ history s ++ [Worked id] `prefix_of` history s'.
Proof.
  intros Hw Hf Hwt Hd. unfold try_work, when. rewrite Hf, Hwt, Hd. cbn [negb andb]. intros Hr.
  pose proof (call_ext d id _ _ _ (wf_note (Worked id) s Hw) Hr) as He. split; [apply He|]. apply (ext_history _ _ He).
Qed.

Lemma worked_in_prefix id h1 h2 h3 : h1 ++ h2 ++ [Worked id] `prefix_of` h3 → Worked id ∈ drop (length h1) h3.
Proof.
  intros [l ->]. rewrite <- app_assoc, drop_app_length. apply elem_of_app. left. apply elem_of_app. right. by left.
Qed.

(** A waiting task goes on: when everything it waits for has arrived or is
    past its timeout, at most two executions lead to [work()]. *)
Theorem waiting_task_resumes d id s t : tame → wf s → (∀ i j, (i ≤ j)%nat → clk i ≤ clk j) →
  find id s = Some t → waiting t = true → done t = false → task_timeout_set t = false →
  default_timeouts (vt (t_class t)) → overdue (clk (reads s)) t → ∃ s1 s2,
  execute (S (S (S d))) id s = Some s1 ∧ execute (S (S (S d))) id s1 = Some s2 ∧
  Worked id ∈ drop (length (history s)) (history s2).
Proof.
  intros Ht Hwf Hmono Hf Hw Hd Htt Hdt Hov.
  destruct (execute_returns Ht d id s) as [s1 H1]. destruct (execute_returns Ht d id s1) as [s2 H2].
  exists s1, s2. split_and!; [done|done|].
  destruct (execute_waiting (S (S d)) id s t Hwf Hf Hw Htt (ov_next _ _ Hov) Hdt) as (s1' & E1 & F1 & Hh1 & R1 & W1).
  rewrite H1 in E1. symmetry in E1. destruct (waits_overdue _ _ Hov) as (Hcase & Hd1 & Hn1 & Htt1 & Hc1).
  set (t1 := waits (clk (reads s)) t) in *.
  destruct (waiting t1) eqn:Hw1.
  - (* the responses timed out: the second execution finds none pending *)
    destruct Hcase as [?|(A1 & A2 & A3 & A4)]; [done|].
    unfold try_work, when in E1. rewrite F1, Hw1 in E1. cbn in E1. injection E1 as ->.
    destruct (execute_waiting (S (S d)) id s1 t1 W1 F1 Hw1) as (s2' & E2 & F2 & Hh2 & R2 & W2).
    { congruence. }
    { rewrite Hn1, R1. pose proof (Hmono (reads s) (S (reads s)) ltac:(lia)). pose proof (ov_next _ _ Hov). lia. }
    { by rewrite Hc1. }
    destruct (waits_almost (clk (reads s1)) t1 A1 A2 A3 A4) as [B1 B2]. rewrite H2 in E2. symmetry in E2.
    destruct (try_work_ready _ _ _ _ _ W2 F2 B1 ltac:(congruence) E2) as [_ Hp].
    apply (worked_in_prefix id _ [Executed id; Executed id]). rewrite Hh2, Hh1, <- !app_assoc in Hp. done.
  - destruct (try_work_ready _ _ _ _ _ W1 F1 Hw1 ltac:(congruence) E1) as [W1' Hp].
    pose proof (ext_history _ _ (execute_ext _ _ _ _ W1' H2)) as Hp2. cbn in Hp2.
    apply (worked_in_prefix id _ [Executed id]). rewrite Hh1, <- app_assoc in Hp.
    etransitivity; [exact Hp|]. etransitivity; [|exact Hp2]. by apply prefix_app_r.
Qed.

(** Something the task waits for has neither arrived nor timed out. *)
Definition blocked (now : Z) (t : task) : Prop :=
  now < next_action_time t ∨
  (waiting_for_pending_task t = true ∧ now < pending_task_timeout t) ∨
  (waiting_for_events t = true ∧ pending_events t ≠ [] ∧ (events_timeout_set t = true → now < events_timeout t)) ∨
  (waiting_for_responses t = true ∧ pending_macs t ≠ []).

Lemma waits_blocked now t : blocked now t → next_action_time t ≤ now → waiting t = true → waiting (waits now t) = true.
Proof.
  intros Hb Hn Hw. destruct t as [i c u dn macs w rts wr rt tts et ev ets we ptt pti wp tt nat let_].
  unfold blocked in Hb. cbn in *. subst w.
  destruct Hb as [?|[[-> Hp]|[(-> & He & Hl)|[-> Hm]]]]; [cbn in *; lia|..]; cbn in *.
  - unfold waits, waits1. cbn. rewrite (proj2 (Z.leb_gt _ _)) by done. cbn.
    unfold waits2, waits3, waits4, waits5, waits6, nothing_awaited. cbn. repeat (case_match; cbn); try done; bool_to_prop; done.
  - assert (ets && (et <=? now) = false) as Hlate by (destruct ets; [cbn; apply Z.leb_gt; auto|done]).
    unfold waits, waits1. cbn. destruct (wp && (ptt <=? now)); cbn; unfold waits2; cbn; rewrite andb_true_r, Hlate; cbn;
      unfold waits3; cbn; (destruct (wr && is_empty macs); cbn); unfold waits4; cbn;
      repeat (match goal with |- context [if ?x then _ else _] => destruct x end; cbn);
      unfold waits5; cbn; (destruct ev; [done|]); cbn; unfold waits6, nothing_awaited; cbn; rewrite ?andb_false_r; done.
  - unfold waits, waits1. cbn. destruct (wp && (ptt <=? now)); cbn; unfold waits2; cbn;
      (destruct (ets && we && (et <=? now)); cbn); unfold waits3; cbn; (destruct macs; [done|]); cbn; unfold waits4; cbn;
      (destruct (rts && (rt <=? now)); cbn); unfold waits5; cbn;
      repeat (match goal with |- context [if ?x then _ else _] => destruct x eqn:? end; cbn in *; try done);
      unfold waits6, nothing_awaited in *; cbn in *; rewrite ?andb_false_r in *; done.
Qed.

(** A waiting task is left alone: while a response, an event or a task it waits
    for is missing and not late, or its time has not come, executing it does
    not call [work()]. *)
Theorem waiting_task_is_left_alone d id s t : wf s → find id s = Some t → waiting t = true →
  task_timeout_set t = false → default_timeouts (vt (t_class t)) → blocked (clk (reads s)) t → ∃ s1,
  execute (S d) id s = Some s1 ∧ history s1 = history s ++ [Executed id].
Proof.
  intros Hwf Hf Hw Htt Hdt Hb. destruct (Z.lt_ge_cases (clk (reads s)) (next_action_time t)) as [Hlt|Hge].
  - eexists. unfold execute. change (tick (note (Executed id) s)) with (clk (reads s), (tick (note (Executed id) s)).2).
    cbv iota beta. change (find id (tick (note (Executed id) s)).2) with (find id s). rewrite Hf, Htt, Hw. cbn [andb].
    rewrite (proj2 (Z.ltb_lt _ _)) by done. done.
  - destruct (execute_waiting d id s t Hwf Hf Hw Htt Hge Hdt) as (s1 & -> & F1 & Hh1 & _). exists s1.
    unfold try_work, when. rewrite F1, waits_blocked by done. done.
Qed.

End Tasks.
End son.
