(* ===== verification/Examples.v ===== *)
(** * Worked examples

    A concrete device and concrete inputs: every theorem with hypotheses is
    applied at an input where they hold. The device has a bridge with two
    ports, an open socket on each, one known neighbour, and a kernel that
    answers every call. *)

From S2P Require Import Prelude Wire SocketFilter Messages Broker TransportState DeDuplication.
From S2P Require Import Interfaces Fragmentation Forwarding LocalBus Strings Streams EventLoop.
From S2P Require Import Hostapd.

(** Decides a closed proposition by evaluation. *)
Ltac decided := apply (bool_decide_unpack _); vm_compute; exact I.

(** ** The device *)

Definition next_fd (fds : gset Z) : Z := foldr Z.max 2 (elements fds) + 1.

Definition ex_env : Env := {|
  clock := λ _, 5 * one_second;
  wall_clock := λ _, 0;
  if_nametoindex := λ n, if bool_decide (n = "br-lan"%string) then 1
                         else if bool_decide (n = "eth0"%string) then 2
                         else if bool_decide (n = "wlan0"%string) then 3 else 0;
  if_indextoname := λ i, if i =? 1 then Some "br-lan"%string else if i =? 2 then Some "eth0"%string
                         else if i =? 3 then Some "wlan0"%string else None;
  writev := λ _ _ frame, Z.of_nat (length frame);
  socket_call := next_fd;
  setsockopt_call := λ _ _, true;
  bind_call := λ _ _, true;
  epoll_ctl_add := λ _, true;
  ioctl_hwaddr := λ _, Some example_if;
  interface_read_state := λ _, Some true;
  bridge_read_state := λ _, Some {["eth0"%string; "wlan0"%string]};
  management_mode_not_multiap := false;
|}.

#[local] Instance ex_publisher : Publisher BrokerServer :=
  broker_publisher (λ _ bytes, Z.of_nat (length bytes)).

Definition ex_bridge : NetworkInterface :=
  mkNetworkInterface (Some 3) example_al "br-lan" "" true.
Definition ex_eth0 : NetworkInterface :=
  mkNetworkInterface (Some 4) example_if "eth0" "br-lan" false.
Definition ex_wlan0 : NetworkInterface :=
  mkNetworkInterface (Some 5) example_if2 "wlan0" "br-lan" false.

Definition ex_neighbour : sMacAddr := [0x00; 0x50; 0x43; 0x01; 0x02; 0x03].

Definition ex_interfaces : gmap string NetworkInterface :=
  <["br-lan"%string := ex_bridge]> (<["eth0"%string := ex_eth0]> {["wlan0"%string := ex_wlan0]}).

Definition ex_device : Transport BrokerServer :=
  mkTransport ex_interfaces [] 0 example_al 0 false "br-lan" ∅
    {[ex_neighbour := mkNeighbor ex_neighbour 2 (4 * one_second)]} 0 ∅ ∅ broker_init
    {[4; 5]} {[3; 4; 5]} ∅ [] 0.

Lemma next_fd_fresh fds : next_fd fds ∉ fds.
Proof.
  unfold next_fd. intros Hin. apply elem_of_elements in Hin.
  assert (∀ l x, x ∈ l → x ≤ foldr Z.max 2 l) as Hmax.
  { induction l as [|y l IH]; [by intros ? ?%not_elem_of_nil|].
    intros x [->|Hx]%elem_of_cons; cbn; [lia|]. specialize (IH x Hx). lia. }
  apply Hmax in Hin. lia.
Qed.

Lemma ex_env_fresh : fresh_sockets ex_env.
Proof. intros fds. apply next_fd_fresh. Qed.

Lemma ex_env_names : kernel_names ex_env.
Proof.
  split; [done|]. intros name. cbn. repeat case_bool_decide; try done; by subst.
Qed.

Lemma ex_lookup name i : ex_interfaces !! name = Some i →
  (name = "br-lan"%string ∧ i = ex_bridge) ∨ (name = "eth0"%string ∧ i = ex_eth0)
  ∨ (name = "wlan0"%string ∧ i = ex_wlan0).
Proof.
  unfold ex_interfaces. rewrite !lookup_insert_Some, lookup_singleton_Some. naive_solver.
Qed.

Lemma ex_device_iface : iface_inv ex_device.
Proof.
  split.
  - intros name i H%ex_lookup. naive_solver.
  - intros name i f H%ex_lookup. naive_solver (cbn in *; simplify_eq; set_solver).
  - intros n1 n2 i1 i2 f H1%ex_lookup H2%ex_lookup. naive_solver.
Qed.

Lemma ex_device_inv : transport_inv ex_device.
Proof. split; [apply ex_device_iface| |done]. split; [done|]. intros ???. by simplify_map_eq. Qed.

Lemma ex_names_resolve : names_resolve ex_env ex_device.
Proof. intros name i [[-> ->]|[[-> ->]|[-> ->]]]%ex_lookup _; done. Qed.

(** A message: header with type, id, fragment and flags, and TLVs. *)
Definition ex_header (type id frag flags : Z) : list Z :=
  [0; 0] ++ be16_bytes type ++ be16_bytes id ++ [frag; flags].
Definition ex_payload (type id flags : Z) : list Z :=
  ex_header type id 0 flags ++ tlv_bytes (mkTlv 0x0b (replicate 6 7)) ++ [0; 0; 0].

Definition TOPOLOGY_NOTIFICATION : Z := 1.

Definition ex_packet (from : Z) (ifindex : Z) (d : sMacAddr) (bytes : list Z) : Packet :=
  mkPacket IF_TYPE_NONE 0 from ifindex d ex_neighbour ETH_P_1905_1 bytes.

(** ** Transport *)

Lemma transport_safe_witness :
  let frame := ieee1905_multicast_addr ++ ex_neighbour ++ [0x89; 0x3a]
                 ++ ex_payload TOPOLOGY_NOTIFICATION 9 0xc0 in
  let s := (transport_step ex_env (EvFrame 4 (Some (2, frame)))
              (Transport_init broker_init 0)).2 in
  transport_inv s
  ∧ ∀ e ev, fresh_sockets e → event_ok ev →
      (transport_step e ev s).1 = Some tt ∧ ¬ fatal_event ev
      ∨ (transport_step e ev s).1 = None ∧ fatal_event ev.
Proof.
  intros frame s. apply (transport_safe broker_init 0 s).
  apply tr_step; [apply tr_init|apply ex_env_fresh|exact I|vm_compute; reflexivity].
Defined.

(** An interface name that fills its field and is followed by the two flags
    is read past the end of the message. *)
Example endless_interface_name :
  let m := create_transport_message Type_InterfaceConfigurationRequestMessage
             (replicate 17 0 ++ replicate 16 101 ++ [1; 1]) in
  event_ok (EvBrokerMessage m)
  ∧ (transport_step ex_env (EvBrokerMessage m) (Transport_init broker_init 0)).1 = None.
Proof.
  split; [|vm_compute; reflexivity]. split; [|done].
  apply Forall_forall. intros x Hx. vm_compute in Hx.
  unfold byte_ok. repeat (apply elem_of_cons in Hx as [->|Hx]; [lia|]). by apply elem_of_nil in Hx.
Qed.

Lemma interfaces_own_their_sockets_witness :
  iface_inv (iface_step ex_env (EvConfigure {["eth0"%string := configured "eth0" "br-lan" false]} ∅)
               (Transport_init broker_init 0)).
Proof.
  apply (interfaces_own_their_sockets broker_init 0).
  apply ir_step; [apply ir_init|apply ex_env_fresh].
Defined.

Lemma received_frame_never_loops_back_witness :
  let frame := ieee1905_multicast_addr ++ ex_neighbour ++ [0x89; 0x3a]
                 ++ ex_payload TOPOLOGY_NOTIFICATION 9 0xc0 in
  ∃ new, wire (handle_interface_pollin_event ex_env 4 (Some (2, frame)) ex_device).2
         = wire ex_device ++ new
    ∧ Forall (λ fr : Z * list Z, ∃ name i, network_interfaces_ ex_device !! name = Some i
        ∧ fd i = Some fr.1 ∧ if_nametoindex ex_env name ≠ 2) new.
Proof.
  intros frame.
  destruct (received_frame_never_loops_back ex_env 4 2 frame ex_device ex_env_names ex_device_iface)
    as (new & Hw & Hnew).
  exists new. split; [exact Hw|]. eapply Forall_impl; [exact Hnew|].
  intros fr (_ & _ & name & i & Hi & Hf & _ & Hne). exists name, i.
  split; [exact Hi|]. split; [exact Hf|exact Hne].
Defined.

Lemma ex_the_bridge : the_bridge ex_device "br-lan" ex_bridge.
Proof.
  split; [done|]. split; [done|]. split; [by eexists|].
  intros name i [[-> ->]|[[-> ->]|[-> ->]]]%ex_lookup; done.
Qed.

Lemma ex_neighbours_remote : Forall (remote ex_device) (map_to_list (neighbors_map_ ex_device)).*2.
Proof.
  cbn [neighbors_map_ ex_device]. rewrite map_to_list_singleton. apply Forall_singleton. split; [done|]. split; [done|].
  intros name i [[-> ->]|[[-> ->]|[-> ->]]]%ex_lookup; done.
Qed.

Definition ex_multicast (from ifindex : Z) : Packet :=
  ex_packet from ifindex ieee1905_multicast_addr (ex_payload TOPOLOGY_NOTIFICATION 9 0xc0).

Lemma reliable_multicast_reaches_neighbours_witness :
  let r := forward_packet ex_env (ex_multicast IF_TYPE_LOCAL_BUS 0) ex_device in
  fst <$> r.1 = Some true ∧ (wire r.2).*1 = [4; 5; 3].
Proof.
  intros r.
  destruct (reliable_multicast_reaches_neighbours ex_env (ex_multicast IF_TYPE_LOCAL_BUS 0) ex_device
              "br-lan" ex_bridge ex_env_names (λ _ _ _, eq_refl) ex_device_inv ex_names_resolve
              ex_the_bridge ex_neighbours_remote eq_refl eq_refl eq_refl eq_refl eq_refl
              ltac:(discriminate) eq_refl ltac:(split; decided)) as [H1 H2].
  split; [exact H1|]. unfold r. rewrite H2. vm_compute. reflexivity.
Defined.

Lemma relayed_multicast_floods_witness :
  let r := forward_packet ex_env (ex_multicast IF_TYPE_NET 2) ex_device in
  r.1 = Some (true, ex_multicast IF_TYPE_NET 2) ∧ (wire r.2).*1 = [5].
Proof.
  intros r.
  destruct (relayed_multicast_floods ex_env (ex_multicast IF_TYPE_NET 2) ex_device ex_env_names
              (λ _ _ _, eq_refl) ex_device_inv ex_names_resolve eq_refl eq_refl eq_refl eq_refl eq_refl
              eq_refl ltac:(split; decided)) as [H1 H2].
  split; [exact H1|]. unfold r. rewrite H2. vm_compute. reflexivity.
Defined.

Lemma de_duplicate_at_most_once_witness :
  let p := ex_multicast IF_TYPE_NET 2 in
  let p' := ex_packet IF_TYPE_NET 3 example_al (ex_payload TOPOLOGY_NOTIFICATION 9 0x80) in
  (de_duplicate_packet ex_env p'
     (de_duplicate_all ex_env [ex_multicast IF_TYPE_LOCAL_BUS 0]
        (de_duplicate_packet ex_env p ex_device).2)).1 = false.
Proof.
  intros p p'.
  apply (de_duplicate_at_most_once ex_env p p' [ex_multicast IF_TYPE_LOCAL_BUS 0] ex_device).
  - reflexivity.
  - reflexivity.
  - reflexivity.
  - do 4 (split; [reflexivity|]). right. split; [reflexivity|]. split; [reflexivity|].
    left. split; reflexivity.
  - intros i _. cbn. unfold kMaximumDeDuplicationAge, one_second. lia.
  - vm_compute. reflexivity.
Defined.

Lemma de_duplicate_accepts_iff_witness :
  (de_duplicate_packet ex_env (ex_multicast IF_TYPE_NET 2) ex_device).1 = true ↔
    (∀ k t, k ∈ lookup_keys example_al (ex_multicast IF_TYPE_NET 2) →
            (∅ : gmap DeDuplicationKey Z) !! k = Some t →
            t + kMaximumDeDuplicationAge < 5 * one_second)
    ∧ Z.of_nat (size (dedup_aged (5 * one_second) ∅)) < kMaximumDeDuplicationThreads.
Proof. exact (de_duplicate_accepts_iff ex_env (ex_multicast IF_TYPE_NET 2) ex_device eq_refl). Defined.

Lemma update_neighbours_correct_witness :
  ∃ n, neighbors_map_ (update_neighbours ex_env (ex_multicast IF_TYPE_NET 2) ex_device).2
         !! ex_neighbour = Some n ∧ last_seen n = 5 * one_second ∧ if_index n = 2.
Proof.
  exact (proj1 (update_neighbours_correct ex_env (ex_multicast IF_TYPE_NET 2) ex_device eq_refl eq_refl)).
Defined.

(** *** Fragmentation *)

Definition ex_tlvs : list tlv :=
  [mkTlv 0x0b (replicate 700 1); mkTlv 0x0c (replicate 700 2); mkTlv 0x0d (replicate 700 3)].

Lemma ex_link_up : link_up ex_env ex_device 2 4.
Proof. split; [done|done|]. by intros. Qed.

Lemma fragment_reassemble_witness :
  let hdr := ex_header 2 77 0 0x80 in
  let packet := ex_packet IF_TYPE_LOCAL_BUS 0 example_al (cmdu_bytes hdr ex_tlvs) in
  let receiver := Transport_init broker_init 0 in
  ∃ frags,
    (fragment_and_send_packet_to_network_interface ex_env 2 packet ex_device).1 = Some true
    ∧ last (de_fragment_all ex_env (received packet 3 <$> frags) receiver).1
      = Some (Some (true, received packet 3 (cmdu_bytes (fragment_header 0 true hdr) ex_tlvs))).
Proof.
  intros hdr packet receiver.
  destruct (fragment_reassemble ex_env ex_env ex_device receiver 2 4 3 packet hdr ex_tlvs)
    as (frags & H1 & _ & _ & _ & H2).
  - exact ex_link_up.
  - reflexivity.
  - reflexivity.
  - reflexivity.
  - reflexivity.
  - repeat (apply Forall_cons; split; [split; [discriminate|unfold tlv_len; decided]|]). apply Forall_nil_2.
  - vm_compute. split; reflexivity.
  - split; [done|reflexivity].
  - intros n. cbn. unfold kMaximumDeFragmentationAge, one_second. lia.
  - exists frags. split; [exact H1|]. rewrite H2. by rewrite last_snoc.
Defined.

Lemma de_fragment_bounded_witness :
  defrag_inv (de_fragment_all ex_env [ex_multicast IF_TYPE_NET 2; ex_multicast IF_TYPE_NET 3] ex_device).2.
Proof. apply (de_fragment_bounded ex_env ex_device), ex_device_inv. Defined.

Lemma tlv_walks_in_bounds_witness :
  is_Some (de_fragment_packet ex_env (ex_multicast IF_TYPE_NET 2) ex_device).1
  ∧ is_Some (fragment_and_send_packet_to_network_interface ex_env 2 (ex_multicast IF_TYPE_NET 2) ex_device).1.
Proof. apply (tlv_walks_in_bounds ex_env ex_device 2 (ex_multicast IF_TYPE_NET 2)). reflexivity. Defined.

Lemma full_size_tlv_is_never_sent_witness :
  let hdr := ex_header 2 77 0 0x80 in
  let t := mkTlv 0x0b (replicate 1489 1) in
  let packet := ex_packet IF_TYPE_LOCAL_BUS 0 example_al (hdr ++ tlv_bytes t ++ [0; 0; 0]) in
  let r := fragment_and_send_packet_to_network_interface ex_env 2 packet ex_device in
  r.1 = Some true ∧ length (wire r.2) = 256%nat.
Proof.
  intros hdr t packet r.
  destruct (full_size_tlv_is_never_sent ex_env ex_device 2 4 packet hdr t [0; 0; 0])
    as [H1 H2]; [exact ex_link_up|reflexivity|reflexivity|reflexivity|reflexivity|discriminate
      |reflexivity|discriminate|].
  split; [exact H1|]. unfold r. rewrite H2. reflexivity.
Defined.

(** *** Failures *)

(** The same device when nothing can be written. *)
Definition ex_env_down : Env := {|
  clock := clock ex_env; wall_clock := wall_clock ex_env;
  if_nametoindex := if_nametoindex ex_env; if_indextoname := if_indextoname ex_env;
  writev := λ _ _ _, -1;
  socket_call := next_fd; setsockopt_call := setsockopt_call ex_env;
  bind_call := bind_call ex_env; epoll_ctl_add := epoll_ctl_add ex_env;
  ioctl_hwaddr := ioctl_hwaddr ex_env; interface_read_state := interface_read_state ex_env;
  bridge_read_state := bridge_read_state ex_env; management_mode_not_multiap := false;
|}.

Definition ex_unicast : Packet :=
  ex_packet IF_TYPE_LOCAL_BUS 0 ex_neighbour (ex_payload 2 9 0x80).

Lemma failed_forward_is_forgotten_witness :
  de_duplication_map_ (handle_packet ex_env_down ex_unicast ex_device).2 !! dedup_key ex_unicast = None.
Proof.
  apply (failed_forward_is_forgotten ex_env_down ex_unicast ex_device ex_device_inv);
    vm_compute; reflexivity.
Defined.

Lemma failed_reliable_multicast_is_lost_witness :
  (admission ex_env_down (ex_multicast IF_TYPE_NET 2)
     (handle_packet ex_env_down (ex_multicast IF_TYPE_NET 2) ex_device).2).1 = false.
Proof.
  apply (failed_reliable_multicast_is_lost ex_env_down (ex_multicast IF_TYPE_NET 2) ex_device ex_device_inv).
  - vm_compute. reflexivity.
  - reflexivity.
  - vm_compute. reflexivity.
  - vm_compute. reflexivity.
  - reflexivity.
  - reflexivity.
  - discriminate.
  - vm_compute. reflexivity.
  - vm_compute. reflexivity.
  - intros i j. cbn. unfold kMaximumDeDuplicationAge, one_second. lia.
Defined.

Lemma reconfiguration_leaks_socket_witness :
  let s' := (update_network_interfaces ex_env ∅ {["eth0"%string := ex_eth0]} ex_device).2 in
  network_interfaces_ s' = delete "eth0"%string ex_interfaces
  ∧ open_fds s' = open_fds ex_device ∧ 4 ∈ open_fds s' ∧ 4 ∉ handlers s'.
Proof.
  apply (reconfiguration_leaks_socket ex_env ex_device "eth0" ex_eth0 4 ex_device_iface);
    [reflexivity|reflexivity|lia].
Defined.

Lemma message_ids_distinct_witness :
  NoDup (draw_ids 1000 ex_device) ∧ Forall (λ i, 0 ≤ i < 65536) (draw_ids 1000 ex_device).
Proof. apply (message_ids_distinct ex_device 1000); [cbn; lia|lia]. Defined.

(** ** Packet filter *)

Lemma example_al_ok : mac_ok example_al.
Proof. split; [done|]. unfold bytes_ok, byte_ok. decided. Qed.
Lemma example_if_ok : mac_ok example_if.
Proof. split; [done|]. unfold bytes_ok, byte_ok. decided. Qed.
Lemma example_if2_ok : mac_ok example_if2.
Proof. split; [done|]. unfold bytes_ok, byte_ok. decided. Qed.

Lemma filter_sound_witness : filter_spec example_al example_if2 (example_frame example_al).
Proof.
  apply (filter_sound example_al example_if2 (example_frame example_al) example_al_ok example_if2_ok).
  - decided.
  - unfold bytes_ok, byte_ok. decided.
  - vm_compute. reflexivity.
Defined.

Lemma filter_complete_witness :
  filter_accepts example_al example_if2 (example_frame example_if2) = true.
Proof.
  apply (filter_complete example_al example_if2 (example_frame example_if2) example_al_ok example_if2_ok).
  - decided.
  - unfold bytes_ok, byte_ok. decided.
  - discriminate.
  - discriminate.
  - discriminate.
  - left. split; [reflexivity|]. right. right. reflexivity.
Defined.

Lemma filter_shared_tail_rejects_witness :
  filter_spec example_al example_if (example_frame example_if)
  ∧ filter_accepts example_al example_if (example_frame example_if) = false.
Proof.
  apply (filter_shared_tail_rejects example_al example_if (example_frame example_if)
           example_al_ok example_if_ok).
  - decided.
  - unfold bytes_ok, byte_ok. decided.
  - discriminate.
  - reflexivity.
  - discriminate.
  - reflexivity.
  - reflexivity.
Defined.

(** ** Messages and broker *)

Definition ex_vlan : Message := mkMessage Type_VlanConfigurationRequestMessage [0; 0; 10; 0; 1; 0].

Lemma ex_vlan_ok : message_ok ex_vlan.
Proof. split; [|done]. exists 6%nat. split; [reflexivity|decided]. Qed.

Lemma read_send_roundtrip_witness :
  read_transport_message (message_bytes ex_vlan ++ [1; 2; 3]) = ReadMsg ex_vlan [1; 2; 3].
Proof. apply (read_send_roundtrip ex_vlan [1; 2; 3] ex_vlan_ok). vm_compute. reflexivity. Defined.

Lemma read_partial_loses_header_witness :
  read_transport_message (take 15 (message_bytes ex_vlan)) = ReadNull [].
Proof. apply (read_partial_loses_header ex_vlan 15 ex_vlan_ok). cbn. lia. Defined.

Definition ex_metadata : CmduMetadata :=
  mkCmduMetadata 7 example_al ex_neighbour ETH_P_1905_1 2 true false IF_TYPE_NET 2 3 1700000000.

Lemma cmdu_metadata_roundtrip_witness :
  decode_cmdu_metadata (frame (mkCmduMessage Type_CmduRxMessage ex_metadata [1; 2; 3])) = ex_metadata
  ∧ cmdu_data (frame (mkCmduMessage Type_CmduRxMessage ex_metadata [1; 2; 3])) = [1; 2; 3].
Proof.
  destruct (cmdu_metadata_roundtrip ex_metadata [1; 2; 3]) as [H1 H2].
  - unfold cmdu_metadata_ok, mac_ok, bytes_ok, byte_ok. decided.
  - split; [exact H1|]. by apply H2.
Defined.

(** A request of socket 7 to receive topology notifications. *)
Definition ex_subscribe : Message :=
  mkMessage Type_SubscribeMessage
    ([0; ReqType_SUBSCRIBE; 1; 0] ++ le32_bytes (MsgType_value 0 0 TOPOLOGY_NOTIFICATION) ++ replicate 252 0).

Definition ex_subscribed : BrokerServer :=
  match handle_subscribe 7 ex_subscribe broker_init with Some (_, b) => b | None => broker_init end.

Lemma ex_subscribed_step : broker_step (λ _ bytes, Z.of_nat (length bytes)) broker_init ex_subscribed.
Proof. apply (step_subscribe _ 7 ex_subscribe _ true). reflexivity. Qed.

Lemma broker_init_inv : broker_inv broker_init.
Proof. by intros ??. Qed.

Lemma ex_subscribed_inv : broker_inv ex_subscribed.
Proof.
  apply (handle_subscribe_inv 7 ex_subscribe broker_init true); [reflexivity|apply broker_init_inv].
Qed.

Lemma handle_subscribe_refines_witness :
  ∃ b', handle_subscribe 7 ex_subscribe broker_init = Some (true, b') ∧ broker_inv b'
    ∧ subscribed b' 7 (MsgType_value 0 0 TOPOLOGY_NOTIFICATION).
Proof.
  destruct (handle_subscribe_refines 7 ex_subscribe broker_init broker_init_inv)
    as (b' & H1 & H2 & H3).
  - decided.
  - discriminate.
  - vm_compute. split; [reflexivity|discriminate].
  - exists b'. split; [exact H1|]. split; [exact H2|]. apply H3. cbv iota. left.
    split; [reflexivity|]. decided.
Defined.

Lemma handle_subscribe_overread_witness :
  handle_subscribe 7 (mkMessage Type_SubscribeMessage ([0; ReqType_SUBSCRIBE; 200; 0] ++ replicate 256 0))
    broker_init = None.
Proof.
  apply (handle_subscribe_overread 7
           (mkMessage Type_SubscribeMessage ([0; ReqType_SUBSCRIBE; 200; 0] ++ replicate 256 0)) broker_init);
    [reflexivity|discriminate|reflexivity].
Defined.

Definition ex_notification : Message :=
  mkCmduMessage Type_CmduRxMessage
    (mkCmduMetadata 0 example_al ex_neighbour ETH_P_1905_1 TOPOLOGY_NOTIFICATION false false
       IF_TYPE_NET 2 3 0) [1; 2; 3].

Lemma publish_reaches_subscribers_witness :
  ∃ deliveries,
    sent (broker_publish (λ _ bytes, Z.of_nat (length bytes)) ex_notification ex_subscribed).2 = deliveries
    ∧ (7, message_bytes ex_notification) ∈ deliveries.
Proof.
  destruct (publish_reaches_subscribers (λ _ bytes, Z.of_nat (length bytes)) ex_notification ex_subscribed
              ex_subscribed_inv) as (deliveries & H1 & _ & H2 & _).
  exists deliveries. split; [exact H1|]. apply H2. split; [|split; [lia|]].
  - unfold subscribed. decided.
  - by rewrite Nat2Z.id, firstn_all.
Defined.

(** A short write leaves a part of the message on the socket, and counts as
    success. *)
Example short_write_cuts_message :
  let r := broker_publish (λ _ _, 5) ex_notification ex_subscribed in
  r.1 = true ∧ sent r.2 = [(7, take 5 (message_bytes ex_notification))].
Proof. vm_compute. done. Qed.

Lemma disconnected_gets_nothing_witness :
  ∃ deliveries,
    sent (broker_publish (λ _ bytes, Z.of_nat (length bytes)) ex_notification
            (socket_disconnected 7 ex_subscribed).2).2 = deliveries
    ∧ ∀ soc bytes, (soc, bytes) ∈ deliveries → soc ≠ 7.
Proof.
  destruct (disconnected_gets_nothing (λ _ bytes, Z.of_nat (length bytes)) ex_subscribed 7 ex_notification
              (rtc_once _ _ ex_subscribed_step)) as (deliveries & H1 & H2).
  exists deliveries. split; [exact H1|]. intros soc bytes H. by apply (H2 soc bytes).
Defined.

(** ** Strings *)

Lemma mac_string_roundtrip_witness :
  tlvf.mac_from_string_buf (tlvf.mac_to_string example_al) = (true, example_al).
Proof. apply (mac_string_roundtrip example_al example_al_ok). Defined.

Lemma str_split_join_witness :
  join 44 (string_utils.str_split (str "ap,,sta") 44) = str "ap,,sta"
  ∧ Forall (λ item, 44 ∉ item) (string_utils.str_split (str "ap,,sta") 44).
Proof. apply (str_split_join (str "ap,,sta") 44). vm_compute. discriminate. Defined.

Lemma copy_string_terminates_witness :
  ∃ d, string_utils.copy_string (replicate 4 9) (str "wlan0") 4 = Some d ∧ length d = 4%nat
    ∧ string_utils.c_prefix 4 d = str "wla".
Proof. apply (copy_string_terminates (replicate 4 9) (str "wlan0") 3). reflexivity. Defined.

(** ** Streams *)

Lemma ucc_stream_delivers_witness :
  handle_reads parse_command (λ _, true) (replicate 12 1%nat)
    (encode_all command_bytes [str "ca"; str "dev_get"], mkBuffer 64 [])
  = ([str "ca"; str "dev_get"], ([], mkBuffer 64 [])).
Proof.
  apply (ucc_stream_delivers 64 [str "ca"; str "dev_get"] (replicate 12 1%nat)).
  - unfold command_ok. decided.
  - decided.
  - decided.
Defined.

Definition ex_uds : UdsCmdu := mkUdsCmdu 2 example_al ex_neighbour (ex_payload 2 9 0x80).

(** A receiver that accepts a CMDU by its length alone. *)
Definition ex_accepts (bytes : list Z) : bool := (8 <=? length bytes)%nat.

Lemma cmdu_stream_delivers_witness :
  handle_reads (parse_cmdu ex_accepts ex_accepts) (λ _, true) (replicate 90 7%nat)
    (encode_all uds_bytes [ex_uds; ex_uds], mkBuffer 64 []) = ([ex_uds; ex_uds], ([], mkBuffer 64 [])).
Proof.
  apply (cmdu_stream_delivers ex_accepts ex_accepts 64 [ex_uds; ex_uds] (replicate 90 7%nat)).
  - unfold uds_ok. decided.
  - apply Forall_cons. split; [discriminate|]. apply Forall_cons. split; [discriminate|].
    apply Forall_nil_2.
  - decided.
  - decided.
Defined.

Lemma message_stream_delivers_witness :
  handle_reads parse_message (λ _, true) (replicate 60 5%nat)
    (encode_all message_bytes [ex_vlan; ex_vlan], mkBuffer 64 []) = ([ex_vlan; ex_vlan], ([], mkBuffer 64 [])).
Proof.
  apply (message_stream_delivers 64 [ex_vlan; ex_vlan] (replicate 60 5%nat)).
  - repeat (apply Forall_cons; split; [split; [apply ex_vlan_ok|decided]|]). apply Forall_nil_2.
  - decided.
  - decided.
Defined.

Definition ex_long : Packet :=
  ex_packet IF_TYPE_NET 2 example_al (replicate (Z.to_nat 8153) 0).

Lemma long_cmdu_desynchronises_client_witness :
  let m := rx_message 0 ex_long in
  parse_message (mkBuffer 100 (message_bytes m ++ [1])) = (None, mkBuffer 100 (frame m ++ [1])).
Proof.
  apply (long_cmdu_desynchronises_client 100 0 ex_long [1]); [|reflexivity|reflexivity].
  unfold ex_long, ex_packet. cbn [payload]. rewrite length_replicate. lia.
Defined.

Lemma rejected_cmdu_delays_followers_witness :
  let bad := mkUdsCmdu 2 example_al ex_neighbour [1; 2; 3] in
  handle_read (parse_cmdu ex_accepts ex_accepts) (λ _, true) 80
    (uds_bytes bad ++ uds_bytes ex_uds, mkBuffer 80 []) = ([], ([], mkBuffer 80 (uds_bytes ex_uds))).
Proof.
  intros bad. apply (rejected_cmdu_delays_followers ex_accepts ex_accepts 80 bad ex_uds 80).
  - unfold uds_ok. decided.
  - unfold uds_ok. decided.
  - reflexivity.
  - decided.
  - decided.
Defined.

(** ** Event loop *)

Definition ex_epoll : EpollEnv := mkEpollEnv (λ _, true) (λ _, true).

(** Callbacks are numbers: 0 closes the descriptor it is called on. *)
Definition ex_invoke (h : nat) (fd : Z) (w : unit) : list (@loop_op nat) * unit * bool :=
  (if bool_decide (h = 0%nat) then [OpRemove fd] else [], w, true).
Definition ex_handlers : EventHandlers nat := mkEventHandlers "ex" (Some 0%nat) None (Some 1%nat) None.
Definition ex_loop : EventLoop nat := (loop_register_handlers ex_epoll 5 ex_handlers (mkEventLoop ∅ ∅)).2.
Definition ex_loop_state : @LoopState nat unit := mkLoopState ex_loop tt [].

Lemma ex_del_works : del_works ex_epoll.
Proof. done. Qed.
Lemma ex_empty_loop_inv : loop_inv (mkEventLoop ∅ ∅ : EventLoop nat).
Proof. split; [done|]. intros fd. done. Qed.
Lemma ex_loop_inv : loop_inv ex_loop.
Proof. apply loop_register_inv, ex_empty_loop_inv. Qed.

Lemma run_keeps_epoll_consistent_witness :
  loop_inv (ls_loop (run ex_epoll ex_invoke (WaitEvents [(5, EPOLLIN); (5, EPOLLHUP)]) ex_loop_state).2).
Proof.
  apply (run_keeps_epoll_consistent ex_epoll ex_invoke (WaitEvents [(5, EPOLLIN); (5, EPOLLHUP)])
           ex_loop_state ex_del_works ex_loop_inv).
Defined.

Lemma removed_descriptor_is_not_called_witness :
  let s' := (for_until (dispatch ex_epoll ex_invoke) [(6, EPOLLIN); (5, EPOLLIN)] ex_loop_state).2 in
  m_fd_to_event_handlers (ls_loop s') !! 6 = None ∧ 6 ∉ (ls_calls s').*1.
Proof.
  apply (removed_descriptor_is_not_called ex_epoll ex_invoke [(6, EPOLLIN); (5, EPOLLIN)] 6 ex_loop_state).
  - intros h fd' w hs. unfold ex_invoke. case_bool_decide; cbn; set_solver.
  - reflexivity.
Defined.

Definition ex_timers : TimerManager := @mkTimerManager nat ∅ (mkEventLoop ∅ ∅) ∅.

Lemma ex_timers_inv : timers_inv ex_timers.
Proof. split; [apply ex_empty_loop_inv|]. split; [done|]. split; [done|]. by intros. Qed.

Lemma add_timer_all_or_nothing_witness :
  timers_inv (add_timer ex_epoll id "t" (Some 9) true 1%nat ex_timers).2.
Proof.
  refine (proj1 (add_timer_all_or_nothing ex_epoll id "t" (Some 9) true 1%nat ex_timers
                   ex_del_works ex_timers_inv _)).
  intros H. by apply not_elem_of_empty in H.
Defined.

Definition ex_one_timer : TimerManager := @mkTimerManager nat {[5]} ex_loop {[5]}.

Lemma ex_one_timer_inv : timers_inv ex_one_timer.
Proof.
  split; [apply ex_loop_inv|]. split; [done|]. split; [cbn; set_solver|].
  cbn [m_timers ex_one_timer]. intros fd ->%elem_of_singleton. by eexists.
Qed.

Lemma remove_timer_correct_witness :
  (remove_timer ex_epoll 5 ex_one_timer).1 = (true, invalid_descriptor)
  ∧ 5 ∉ timer_fds (remove_timer ex_epoll 5 ex_one_timer).2.
Proof.
  destruct (remove_timer_correct ex_epoll 5 ex_one_timer ex_del_works ex_one_timer_inv) as (_ & H & _).
  rewrite decide_True in H by decided. split; apply H.
Defined.

Definition ex_server : CmduServer := @mkCmduServer nat ∅ (mkEventLoop ∅ ∅) [].

Lemma server_connections_consistent_witness :
  ∃ s', foldl (λ os ev, s ← os; server_step ex_epoll ex_handlers ev s) (Some ex_server)
          [EvAccept (Some 5); EvAccept (Some 6); EvHangup 5; EvDisconnect 6] = Some s'
    ∧ server_inv ex_handlers s'.
Proof.
  apply (server_connections_consistent ex_epoll ex_handlers
           [EvAccept (Some 5); EvAccept (Some 6); EvHangup 5; EvDisconnect 6] ex_server ex_del_works).
  split; [apply ex_empty_loop_inv|]. split; [done|]. by intros.
Defined.

(** ** hostapd configuration *)

Definition ex_configuration : Configuration :=
  mkConfiguration true false [str "driver=nl80211"; str "channel=6"]
    [(str "wlan0", [str "bss=wlan0"; str "ssid=a"]); (str "wlan1", [str "bss=wlan1"; str "#x=1"])].

Lemma store_load_roundtrip_witness :
  ∃ bytes, load [str "bss="] bytes false
      = Some (mkConfiguration true false (m_hostapd_config_head ex_configuration)
                (m_hostapd_config_vaps ex_configuration)).
Proof.
  destruct (store_load_roundtrip (λ _, None) [str "bss="] ex_configuration) as (bytes & _ & H).
  - split; [|split; [|discriminate]].
    + repeat (apply Forall_cons; split;
        [split; [decided|split; [reflexivity|eexists; split; [reflexivity|decided]]]|]). apply Forall_nil_2.
    + apply Forall_cons. split; [|apply Forall_cons; split; [|apply Forall_nil_2]].
      all: eexists _, _; split; [reflexivity|]; split;
        [split; [decided|split; [reflexivity|split; [eexists; split; [reflexivity|decided]|reflexivity]]]|].
      all: split; [|decided]; repeat (apply Forall_cons; split;
        [split; [decided|split; [reflexivity|eexists; split; [reflexivity|decided]]]|]); apply Forall_nil_2.
  - exists bytes. exact H.
Defined.

Lemma set_then_get_vap_value_witness :
  ∃ c', set_create_vap_value (str "wlan1") (str "ssid") (str "b") ex_configuration = Some (true, c')
    ∧ (get_vap_value (str "wlan1") (str "ssid") c').1 = str "b".
Proof.
  destruct (set_then_get_vap_value (str "wlan1") (str "ssid") (str "b") ex_configuration 1
              (str "wlan1") (str "bss=wlan1") [str "#x=1"]) as (c' & H1 & H2 & _).
  - reflexivity.
  - reflexivity.
  - unfold key_once. decided.
  - decided.
  - reflexivity.
  - exists c'. split; [exact H1|exact H2].
Defined.
