(* ===== verification/AgentExamples.v ===== *)
(** * Worked examples of the channel tasks

    A radio on channel 36 with 80 MHz, and concrete inputs at which the
    theorems on channels and on the channel tasks are applied. *)

From S2P Require Import Prelude Wire Messages Fsm Channels WifiChannel TaskPool AgentEnv.
From S2P Require Import SwitchChannel CoordinatedCac AgentTasks.
From S2P Require Import Tlvf CmduMessage CmduTx ControllerConnectivity.

(** Decides a closed proposition by evaluation. *)
Ltac decided := apply (bool_decide_unpack _); vm_compute; exact I.

(** ** A coordinated CAC *)

Definition ex_wc : WifiChannel := default initialize_empty_wifi_channel_members
  (WifiChannel_of_band 36 FREQ_5G BANDWIDTH_80 false).
Definition ex_radio_mac : sMacAddr := [0x02; 0x10; 0x20; 0x30; 0x40; 0x50].
Definition ex_radio : sRadio := mkRadio "wlan2" ex_radio_mac [36; 40; 44; 48; 52; 100] ex_wc.
Definition agent_at (t : Z) : AgentEnv := mkAgentEnv (seconds t) true true true
  (λ n, if bool_decide (n = "wlan2"%string) then Some ex_radio else None)
  (λ m, if bool_decide (m = ex_radio_mac) then Some ex_radio else None).

(** The controller asks for a CAC on channel 100 with 20 MHz (class 121). *)
Definition ex_cac_request (action : Z) : coordinated_cac.cmdu_rx :=
  coordinated_cac.CAC_REQUEST_MESSAGE 7
    (Some [coordinated_cac.mkCacRequestRadio ex_radio_mac 121 100 coordinated_cac.CONTINUOUS_CAC action]).
Definition ex_cac_started : event_obj := ObjCacStarted (mkCacStarted "wlan2" 60).
Definition ex_cac_completed : event_obj := ObjCacCompleted (mkCacCompleted "wlan2" 1).
Definition ex_csa : event_obj := ObjNotification (mkNotification "wlan2" [] true).

(** A coordinated CAC from end to end through both tasks and the queue:
    the request of the controller switches the radio to channel 100, the
    completed CAC makes the agent report its preferences and switch back to
    channel 36 with 80 MHz, and after the announcement of that switch both
    machines are [IDLE]. *)
Theorem coordinated_cac_end_to_end :
  match agent_run [Cmdu (agent_at 0) (ex_cac_request coordinated_cac.RETURN_PREVIOUS_CHANNEL);
                   Run (agent_at 0); Event CAC_STARTED_NOTIFICATION ex_cac_started; Run (agent_at 1);
                   Event CAC_COMPLETED_NOTIFICATION ex_cac_completed; Run (agent_at 62);
                   Event SWITCH_CHANNEL_NOTIFICATION_EVENT ex_csa; Run (agent_at 63)] new_agent with
  | Emptied a =>
      m_curr_state (a_cac a) = coordinated_cac.IDLE ∧
      m_curr_state <$> a_fsms a !! "wlan2"%string = Some switch_channel.IDLE ∧
      bus_driver (a_bus a) =
        [ACK_TO_CONTROLLER 7;
         HOSTAP_CHANNEL_SWITCH_ACS_START ex_radio_mac (mkCsParams 100 BANDWIDTH_20 5500 0);
         CHANNELS_LIST_REQUEST ex_radio_mac;
         HOSTAP_CHANNEL_SWITCH_ACS_START ex_radio_mac (mkCsParams 36 BANDWIDTH_80 5210 0)]
  | _ => False
  end.
Proof. by vm_compute. Qed.

(** A CAC that never completes ends in undefined behaviour: both machines
    time out, the CAC machine is [IDLE] again when the report of the switch
    channel machine arrives, and that report has no notification to take the
    interface from. *)
Theorem cac_without_completion_crashes :
  match agent_run [Cmdu (agent_at 0) (ex_cac_request coordinated_cac.REMAIN_ON_CHANNEL);
                   Run (agent_at 0); Event CAC_STARTED_NOTIFICATION ex_cac_started; Run (agent_at 1);
                   Run (agent_at 74); Run (agent_at 75); Run (agent_at 76)] new_agent with
  | Faulted a => m_curr_state (a_cac a) = coordinated_cac.IDLE
  | _ => False
  end.
Proof. by vm_compute. Qed.

(** ** Witnesses *)

Lemma beacon_channels_agree_witness :
  get_overlapping_beacon_channels 36 FREQ_5G BANDWIDTH_80
    = Some (center_channel_to_beacon_channels 42 BANDWIDTH_80 FREQ_5G).
Proof.
  exact (proj1 (beacon_channels_agree FREQ_5G channels_table_5g 36 BANDWIDTH_80
    (mkChannel 42 (36, 48)) eq_refl ltac:(decided) ltac:(vm_compute; reflexivity))).
Defined.

Lemma WifiChannel_of_band_correct_witness : ∃ wc,
  WifiChannel_of_band 100 FREQ_5G BANDWIDTH_160 false = Some wc ∧ m_channel wc = 100.
Proof.
  destruct (WifiChannel_of_band_correct FREQ_5G 100 BANDWIDTH_160 false ltac:(unfold byte_ok; lia)
    ltac:(discriminate)) as (wc & Hwc & Hc & _).
  exists wc. split; [exact Hwc|].
  exact (proj1 (Hc channels_table_5g (mkChannel 114 (100, 128)) eq_refl ltac:(decided))).
Defined.

Lemma operating_class_roundtrip_witness :
  which_freq_op_cls (get_operating_class_by_channel ex_wc) = FREQ_5G.
Proof.
  exact (proj1 (operating_class_roundtrip FREQ_5G channels_table_5g 36 BANDWIDTH_80
    (mkChannel 42 (36, 48)) false ex_wc eq_refl ltac:(decided) ltac:(vm_compute; reflexivity))).
Defined.

Definition ex_request : sSwitchChannelRequest := mkRequest "wlan2" 100 FREQ_5G BANDWIDTH_20.
Definition ex_members : switch_channel.Members :=
  fsm_obj (switch_channel.new_fsm "wlan2").
Definition ex_bus : Bus := mkBus [] [] ∅.

(** A request that the driver carries out with a CAC of 60 seconds. *)
Definition ex_switch_run : list (AgentEnv * switch_channel.fsm_event * switch_channel.fsm_args) :=
  [(agent_at 1, switch_channel.SWITCH_CHANNEL_REQUEST, switch_channel.ArgRequest (Some ex_request));
   (agent_at 2, switch_channel.CAC_STARTED, switch_channel.ArgCacStarted (Some (mkCacStarted "wlan2" 60)));
   (agent_at 3, switch_channel.PERIODIC, switch_channel.NoArgs);
   (agent_at 63, switch_channel.CAC_COMPLETED, switch_channel.ArgCacCompleted (Some (mkCacCompleted "wlan2" 1)))].

Lemma switches_are_reported_witness :
  let h := switch_channel.history ex_switch_run (switch_channel.new_machine "wlan2") in
  (switch_channel.st_sent <$> h) =
    [[HOSTAP_CHANNEL_SWITCH_ACS_START ex_radio_mac (mkCsParams 100 BANDWIDTH_20 5500 0)]; []; []; []] ∧
  ∃ j, switch_channel.settled_at (drop 1 h) j.
Proof.
  intros h. split; [by vm_compute|].
  destruct (switch_channel.run_events ex_switch_run (switch_channel.new_machine "wlan2")) as [f|] eqn:Hrun;
    [|by vm_compute in Hrun].
  destruct (h !! 0%nat) as [s|] eqn:Hs; [|by vm_compute in Hs].
  destruct (switch_channel.switches_are_reported ex_switch_run "wlan2" f 0 s Hrun Hs) as [_ [Hj|[Hq _]]].
  - vm_compute in Hs. by injection Hs as <-.
  - exact Hj.
  - destruct Hq. vm_compute in Hrun. by injection Hrun as <-.
Defined.

Lemma switch_with_cac_witness : ∃ f,
  switch_channel.run_events
    [(agent_at 1, switch_channel.SWITCH_CHANNEL_REQUEST, switch_channel.ArgRequest (Some ex_request));
     (agent_at 2, switch_channel.CAC_STARTED, switch_channel.ArgCacStarted (Some (mkCacStarted "wlan2" 60)));
     (agent_at 63, switch_channel.CAC_COMPLETED, switch_channel.ArgCacCompleted (Some (mkCacCompleted "wlan2" 1)))]
    (mkFsm switch_channel.IDLE true (switch_channel.mkObj ex_members ex_bus)) = Some f.
Proof.
  destruct (switch_channel.switch_with_cac (agent_at 1) (agent_at 2) (agent_at 63) ex_request
    channels_table_5g (mkChannel 100 (100, 100)) ex_radio ex_members ex_bus
    (mkCacStarted "wlan2" 60) (mkCacCompleted "wlan2" 1) eq_refl ltac:(decided)
    eq_refl eq_refl eq_refl eq_refl ltac:(cbn; lia)) as (m' & Hrun & _).
  eexists. exact Hrun.
Defined.

Lemma cac_times_out_witness : ∃ m',
  coordinated_cac.run_events [(agent_at 60, coordinated_cac.PERIODIC, coordinated_cac.NoArgs);
                              (agent_at 61, coordinated_cac.PERIODIC, coordinated_cac.NoArgs)]
    (mkFsm coordinated_cac.WAIT_FOR_CAC_TERMINATION true
       (coordinated_cac.mkObj (fsm_obj coordinated_cac.new_fsm) ex_bus))
  = Some (mkFsm coordinated_cac.IDLE true (coordinated_cac.mkObj m' ex_bus)).
Proof.
  destruct (coordinated_cac.cac_times_out (agent_at 60) (agent_at 61)
    coordinated_cac.WAIT_FOR_CAC_TERMINATION (fsm_obj coordinated_cac.new_fsm) ex_bus
    (conj eq_refl eq_refl)) as (m' & Hrun & _).
  exists m'. exact Hrun.
Defined.

Lemma cac_request_flow_witness : ∃ f,
  coordinated_cac.run_events
    [(agent_at 0, coordinated_cac.CAC_REQUEST, coordinated_cac.ArgCacRequest
        (Some [coordinated_cac.mkCacRequestRadio ex_radio_mac 121 100 0 1]));
     (agent_at 62, coordinated_cac.SWITCH_CHANNEL_REPORT, coordinated_cac.ArgReport
        (mkReport true None None None (Some (mkCacCompleted "wlan2" 1)) NOT_COMPUTED))]
    (mkFsm coordinated_cac.IDLE true (coordinated_cac.mkObj (fsm_obj coordinated_cac.new_fsm) ex_bus))
  = Some f.
Proof.
  destruct (coordinated_cac.cac_request_flow (agent_at 0) (agent_at 62)
    (coordinated_cac.mkCacRequestRadio ex_radio_mac 121 100 0 1) ex_radio ex_radio
    (fsm_obj coordinated_cac.new_fsm) ex_bus
    (mkReport true None None None (Some (mkCacCompleted "wlan2" 1)) NOT_COMPUTED)
    eq_refl eq_refl eq_refl ltac:(vm_compute; reflexivity) (or_intror eq_refl)
    eq_refl eq_refl eq_refl eq_refl) as (m' & Hrun).
  eexists. exact Hrun.
Defined.

(** The agent with a notification in its queue; and one that is [IDLE] with the
    report of a timed out CAC. *)
Definition ex_agent (q : list queued) : Agent :=
  mkAgent ∅ coordinated_cac.new_fsm (mkBus q [] ∅).
Definition ex_null_report : event_obj :=
  ObjReport (mkReport false None None (Some (mkCacStarted "wlan2" 60)) None NOT_COMPUTED).

Lemma ex_agent_inv q : Forall typed q → agent_inv (ex_agent q).
Proof. intros Hq. split; [apply map_Forall_empty|]. split; [reflexivity|exact Hq]. Qed.



(** ** The watch over the controller *)

Definition ex_conf : connectivity.sDeviceConf := connectivity.mkConf false false true false 60 75 20.
Definition ex_controller : sMacAddr := [2; 0; 0; 0; 0; 1].
Definition ex_conn : connectivity.Conn := connectivity.mkConn
  (connectivity.mkMembers true connectivity.CONTROLLER_MONITORING true 0 0 0 0 0)
  (connectivity.mkDB ex_conf (connectivity.mkBackRadio EmptyString EmptyString connectivity.Sec_Invalid) ex_controller true 0
     connectivity.Conn_Wired EmptyString
     [connectivity.mkLink connectivity.Conn_Wireless "wlan1" [connectivity.mkCred "backhaul" "secret" 0x20]])
  (mkTxList (replicate 1500 0) false []) [].
Definition ex_conn_env (t : Z) : connectivity.ConnEnv := connectivity.mkConnEnv (seconds t) true (λ t, Some t).

Lemma responsive_controller_is_kept_witness : ∃ c',
  connectivity.run [connectivity.Work (ex_conn_env 60); connectivity.Message (seconds 70) ex_controller;
                    connectivity.Work (ex_conn_env 140)] ex_conn = Some c' ∧
  connectivity.watching c' ∧ connectivity.sent c' = connectivity.sent ex_conn.
Proof.
  apply (connectivity.responsive_controller_is_kept _ ex_conn); [by left|done|].
  split; [by vm_compute|]. split; [by vm_compute|done].
Defined.

Lemma silent_controller_is_noticed_witness : ∃ c',
  connectivity.run ([] ++ [connectivity.Work (ex_conn_env 76)] ++ [connectivity.Work (ex_conn_env 80)]
                    ++ [connectivity.Work (ex_conn_env 97)]) ex_conn = Some c' ∧
  connectivity.lost (connectivity.m_task_state (connectivity.mem c')).
Proof.
  apply (connectivity.silent_controller_is_noticed ex_conn [] (ex_conn_env 76) [connectivity.Work (ex_conn_env 80)]
           (ex_conn_env 97) 0); [done|done|by repeat constructor|done| |by vm_compute|by vm_compute].
  cbn. unfold seconds. lia.
Defined.

Lemma heartbeats_paced_witness : ∃ c',
  connectivity.run (connectivity.Work <$> (ex_conn_env <$> [76; 80; 84; 88])) ex_conn = Some c' ∧
  connectivity.spaced (seconds 3) (connectivity.heartbeat_times (connectivity.sent c')) ∧
  connectivity.heartbeat_times (connectivity.sent c') = seconds <$> [80; 84; 88].
Proof.
  eexists. split; [by vm_compute|]. split; [|by vm_compute].
  eapply (connectivity.heartbeats_paced (connectivity.Work <$> (ex_conn_env <$> [76; 80; 84; 88])) 0 ex_conn);
    [done|done|done| |by vm_compute]. cbn. unfold seconds. lia.
Defined.

Lemma lost_connection_flow_witness : ∃ c',
  connectivity.run [connectivity.Work (ex_conn_env 97); connectivity.Work (ex_conn_env 98)]
    (connectivity.move_state connectivity.CONNECTION_TIMEOUT ex_conn) = Some c' ∧
  connectivity.sent c' = [connectivity.BACKHAUL_RECONNECT_COMMAND (seconds 98)] ∧
  connectivity.m_task_state (connectivity.mem c') = connectivity.WAIT_FOR_RECONNECT.
Proof.
  assert (∀ t, connectivity.can_send (ex_conn_env t)) as Hs by (intros t; split; [done|intros x; by exists x]).
  destruct (connectivity.lost_connection_flow (connectivity.move_state connectivity.CONNECTION_TIMEOUT ex_conn)
    (ex_conn_env 97) (ex_conn_env 98) eq_refl eq_refl (Hs 97) (Hs 98) _ _ eq_refl) as (c' & Hr & Hsent & Hst & _).
  by exists c'.
Defined.

Lemma heartbeat_is_received_witness : ∃ c' t t' m,
  connectivity.send_hle_to_controller 5 ex_conn = Some c' ∧
  connectivity.sent c' = connectivity.sent ex_conn ++ [connectivity.HEARTBEAT 5 t] ∧
  tx_finalize t = (Some true, t') ∧ parse (received (message t')) = (Some (Parsed true), m) ∧
  take 8 (m_buff m) = header_host connectivity.HIGHER_LAYER_DATA_MESSAGE 0 false ∧
  o_class <$> m_class_vector m = ["cCmduHeader"; "tlvHigherLayerData"; "tlvEndOfMessage"].
Proof. apply (connectivity.heartbeat_is_received 5 ex_conn). cbn. lia. Defined.
