(* ===== verification/TlvExamples.v ===== *)
(** * Worked examples of CMDU messages

    Concrete messages at which the theorems on [CmduMessageRx] and
    [CmduMessageTx] are applied. *)

From S2P Require Import Prelude Wire Messages Tlvf TlvClasses1905 TlvClassesMap CmduMessage CmduTx.

Ltac decided := apply (bool_decide_unpack _); vm_compute; exact I.

(** A topology discovery message with the AL MAC and MAC address TLVs. *)
Definition ex_discovery : list Z :=
  [0; 0; 0; 0; 0x12; 0x34; 0; 0x80] ++ [0x01; 0; 6; 2; 0; 0; 0; 0; 1]
  ++ [0x02; 0; 6; 2; 0; 0; 0; 0; 2] ++ [0; 0; 0].

Lemma parse_outcomes_witness :
  match parse (received ex_discovery) with
  | (Some (Parsed true), m) => chain 0 (m_class_vector m) ∧ starts_with_header m ∧
      (∃ o, last (m_class_vector m) = Some o ∧ o_class o = "tlvEndOfMessage" ∧
        getMessageLength m = o_ptr o ∧ (o_ptr o ≤ length ex_discovery)%nat)
  | (Some (Parsed false), m) => length (m_buff m) = length ex_discovery
  | (Some Aborted, m) => unknown_vbss_subtype ex_discovery (next_ptr m)
  | (None, m) => header_cut_off ex_discovery (next_ptr m)
  end.
Proof. apply (parse_outcomes ex_discovery). decided. Defined.

Lemma parse_swap_roundtrip_witness : let m := (parse (received ex_discovery)).2 in
  swap m = (Some tt, mkClassList ex_discovery (negb (m_swapped m)) (m_class_vector m)).
Proof. apply (parse_swap_roundtrip ex_discovery); [decided|by vm_compute]. Defined.

(** A vendor specific message with a TLV of an unknown type. *)
Definition ex_tlvs : list Tlv :=
  [mkTlv tx_al_mac_address [mkFF "mac" 6 []] None 0x1 [[2; 0; 0; 0; 0; 1]] [];
   mkTlv tx_vendor_specific [mkFF "vendor_oui" 3 [(0, 3)%nat]] (Some "payload") 0xb [[0x32; 0x33; 0x26]] [1; 2; 3; 4];
   mkTlv tx_unknown [] (Some "data") 0xf0 [] [9; 8; 7]].
Definition ex_buffer : TxList := mkTxList (replicate 64 0xaa) false [].

Lemma ex_tlvs_ok : Forall (λ v, tlv_ok v ∧ tx_ok (tv_class v) (tv_more v)) ex_tlvs.
Proof.
  repeat (apply Forall_cons; split); [..|by apply Forall_nil].
  all: split; [split|split; try by vm_compute].
  all: try (by vm_compute).
  all: try (split; [done|decided|intros ? [= <-]; decided|by repeat constructor]).
  all: try (split; [by repeat constructor|split; decided|done|done]).
  all: try (by right).
  all: try (by left).
  all: try (by split).
Qed.

Lemma cmdu_roundtrip_witness : ∃ t' m,
  build 0x1234 0x4 ex_tlvs ex_buffer = (Some true, t') ∧
  parse (received (message t')) = (Some (Parsed true), m) ∧
  m_buff m = header_host 0x4 0x1234 (bool_decide (0x4 ∈ relayed_messages)) ++ concat (tv_host <$> ex_tlvs) ++ [0; 0; 0] ∧
  o_class <$> m_class_vector m
    = "cCmduHeader" :: ((λ v, l_name (tx_layout (tv_class v))) <$> ex_tlvs) ++ ["tlvEndOfMessage"].
Proof. apply (cmdu_roundtrip 0x1234 0x4 ex_tlvs ex_buffer); [exact ex_tlvs_ok|vm_compute; lia]. Defined.

(** The bytes that are sent. *)
Example ex_message :
  message (build 0x1234 0x4 ex_tlvs ex_buffer).2
  = [0; 0; 0; 4; 0x12; 0x34; 0; 0x80] ++ [0x1; 0; 6; 2; 0; 0; 0; 0; 1]
    ++ [0xb; 0; 7; 0x26; 0x33; 0x32; 1; 2; 3; 4] ++ [0xf0; 0; 3; 9; 8; 7] ++ [0; 0; 0].
Proof. by vm_compute. Qed.
