(* ===== verification/ControllerExamples.v ===== *)
(** * Worked examples of the controller's tasks

    A pool with three tasks that do a little work and wait, on a clock of which
    every reading is 400 microseconds later, so that an iteration takes several
    slots of one millisecond. *)

From S2P Require Import Prelude ControllerTask.
Import son.

Ltac decided := apply (bool_decide_unpack _); vm_compute; exact I.

(** A task that counts its work and then waits for 100 ms, and one that
    finishes at once. *)
Inductive ex_class := Counter | Brief.
Definition ex_virtuals (c : ex_class) : @virtuals ex_class Z := mkVirtuals
  (λ n, match c with
        | Counter => Call (set_own (n + 1)) (Call (wait_for 100) Return)
        | Brief => Call finish Return
        end)
  (λ _ _ _, Return) (λ _ _ _ _, Return) (λ _ _, Return) (λ _ _, Return) (λ _ _, Return) (λ _ _, Return) (λ _, Return) (λ _ _ _, Return).

Definition ex_clk (n : nat) : Z := Z.min (1 + Z.of_nat n * 400000) (TIME_MAX - 1).
Definition ex_pool : @Pool ex_class Z :=
  add_task Counter 0 (add_task Brief 0 (add_task Counter 0 (mkPool [] 1 TIME_MAX 0 0 []))).

Lemma ex_tame : tame ex_virtuals.
Proof. split; intros [] *; done. Qed.
Lemma ex_wf : wf ex_pool.
Proof. split; [|decided|done]. cbn. by repeat constructor. Qed.
Lemma ex_clk_range n : 0 < ex_clk n < TIME_MAX.
Proof. unfold ex_clk, TIME_MAX. lia. Qed.
Lemma ex_clk_mono i j : (i ≤ j)%nat → ex_clk i ≤ ex_clk j.
Proof. unfold ex_clk. lia. Qed.

Definition ex_after (slots_taken : nat) : Pool :=
  default ex_pool (slots ex_virtuals ex_clk 10 3 slots_taken 1 ex_pool).

(** The iteration is not complete after two slots, and is after three. *)
Example ex_slots :
  m_exec_iteration_start_time (ex_after 2) ≠ TIME_MAX ∧ m_exec_iteration_start_time (ex_after 3) = TIME_MAX ∧
  history (ex_after 3) = [Executed 1; Worked 1; Executed 2; Worked 2; Erased 2; Executed 3; Worked 3].
Proof. by vm_compute. Qed.

Lemma once_per_iteration_witness : ∃ l,
  executed (history (ex_after 3)) = executed (history ex_pool) ++ l ∧ NoDup l ∧
  (3%nat ≠ 0%nat → m_exec_iteration_start_time (ex_after 3) = TIME_MAX → ∀ id, id ∈ ids ex_pool → id ∈ l).
Proof.
  apply (once_per_iteration ex_virtuals ex_clk ex_clk_range ex_clk_mono 10 3 3 1 ex_pool);
    [exact ex_wf|done| |by vm_compute].
  intros id v Hv. assert (v = 0) as ->; [|pose proof (ex_clk_range (S (reads ex_pool))); lia].
  unfold lex, find in Hv. apply fmap_Some in Hv as (t & Ht & ->). apply fmap_Some in Ht as ([k t'] & Ht & ->).
  apply list_find_Some in Ht as (Hl & _). apply list_elem_of_lookup_2 in Hl. cbn in Hl.
  repeat (apply elem_of_cons in Hl as [->|Hl]; [done|]). by apply elem_of_nil in Hl.
Defined.

Lemma run_tasks_ends_witness : ∃ fuel s', ∀ fuel', (fuel ≤ fuel')%nat →
  run_tasks ex_virtuals ex_clk fuel' 3 1 ex_pool = Some s'.
Proof.
  apply (run_tasks_ends ex_virtuals ex_clk ex_tame 0 1 ex_pool 10);
    [exact ex_wf|done|done|intros; apply ex_clk_range|exact ex_clk_mono|by vm_compute].
Defined.

(** A task that waits for a response that is late. *)
Definition ex_waiting : @task ex_class Z :=
  mkTask 1 Counter 0 false [("02:00:00:00:00:01", 7)] true true true 0 false 0 [] false false 0 (-1) false 0 0 0.
Definition ex_waiting_pool : @Pool ex_class Z := mkPool [ex_waiting] 2 TIME_MAX 0 0 [].

Lemma ex_waiting_wf : wf ex_waiting_pool.
Proof. split; [|decided|done]. cbn. by repeat constructor. Qed.

Lemma waiting_task_resumes_witness : ∃ s1 s2,
  execute ex_virtuals ex_clk 3 1 ex_waiting_pool = Some s1 ∧ execute ex_virtuals ex_clk 3 1 s1 = Some s2 ∧
  Worked 1 ∈ drop (length (history ex_waiting_pool)) (history s2).
Proof.
  apply (waiting_task_resumes ex_virtuals ex_clk 0 1 ex_waiting_pool ex_waiting);
    [exact ex_tame|exact ex_waiting_wf|exact ex_clk_mono|done|done|done|done|done|].
  split; [by vm_compute|done|done|by right|by vm_compute].
Defined.

Lemma waiting_task_is_left_alone_witness : ∃ s1,
  execute ex_virtuals ex_clk 1 1 (on_task 1 (base_op 0 (wait_for 100)) ex_waiting_pool) = Some s1 ∧
  history s1 = [Executed 1].
Proof.
  apply (waiting_task_is_left_alone ex_virtuals ex_clk 0 1 (on_task 1 (base_op 0 (wait_for 100)) ex_waiting_pool)
           (base_op 0 (wait_for 100) ex_waiting)); [|done|done|done|done|left; by vm_compute].
  apply wf_on_task; [done|exact ex_waiting_wf].
Defined.
