(* ===== verification/ClientExamples.v ===== *)
(** * Worked examples of the client of the broker

    Concrete messages and clients at which the theorems on [verify_cmdu], on the
    client of the broker and on the CAC report are applied. *)

From S2P Require Import Prelude Wire SocketFilter Messages Broker TransportState DeDuplication.
From S2P Require Import Interfaces Fragmentation Forwarding LocalBus Strings Streams EventLoop Channels WifiChannel CacDatabase.
From S2P Require Import Tlvf TlvClasses1905 TlvClassesMap CmduMessage CmduTx CmduUtils BrokerClient ClientDelivery TlvExamples.
Import broker_client.

(** ** Verification of a CMDU *)

(** A topology discovery with a vendor specific TLV of another vendor. *)
Definition ex_vendor_cmdu : list Z :=
  [0; 0; 0; 4; 0x12; 0x34; 0; 0x80] ++ [0x0b; 0; 4; 1; 2; 3; 4] ++ [0; 0; 0].

Lemma verify_cmdu_accepts_witness :
  (verify_cmdu ex_vendor_cmdu = (Some true, ex_vendor_cmdu) ↔
     (8 ≤ length ex_vendor_cmdu)%nat ∧ verified (drop 8 ex_vendor_cmdu)) ∧
  (∀ b', verify_cmdu ex_vendor_cmdu = (Some true, b') → b' = ex_vendor_cmdu) ∧
  verify_cmdu ex_vendor_cmdu = (Some true, ex_vendor_cmdu).
Proof.
  assert (bytes_ok ex_vendor_cmdu) as Hb by decided.
  split; [apply (verify_cmdu_accepts ex_vendor_cmdu Hb)|split; [apply (verify_cmdu_accepts ex_vendor_cmdu Hb)|by vm_compute]].
Defined.

(** ** A client *)

Definition ex_env : ClientEnv :=
  mkClientEnv (mkEpollEnv (λ _, true) (λ _, true)) (λ bs, Z.of_nat (length bs)) [].
Definition ex_handlers : EventHandlers unit := mkEventHandlers "broker" (Some tt) None (Some tt) (Some tt).
Definition ex_loop : EventLoop unit := mkEventLoop ∅ ∅.
Definition ex_client : BrokerClient unit :=
  default (mkBrokerClient None (mkBuffer 0 []) ex_loop [] [] [] 0) (connect ex_env ex_handlers 5 ex_loop).
Definition ex_al_mac : sMacAddr := [2; 0; 0; 0; 0; 1].
Definition ex_agent_mac : sMacAddr := [2; 0; 0; 0; 0; 2].

(** After the broker hung up. *)
Definition ex_hung_up : BrokerClient unit := (client_step ex_env 5 EvHangup ex_client).2.

Lemma ex_client_loop_inv : loop_inv ex_loop.
Proof. by split. Qed.

Lemma ex_connected : is_Some (m_connection ex_client).
Proof. by exists 5. Qed.

Lemma client_lifecycle_witness :
  loop_inv (c_loop ex_hung_up) ∧
  (c_closed ex_hung_up ≤ 1)%nat ∧
  (is_Some (m_connection ex_hung_up)
     ↔ m_fd_to_event_handlers (c_loop ex_hung_up) !! 5 = Some ex_handlers) ∧
  (m_connection ex_hung_up = None →
     ∀ m, send_message ex_env m ex_hung_up = (false, ex_hung_up)).
Proof.
  apply (client_lifecycle ex_env ex_handlers 5 ex_loop); [done|exact ex_client_loop_inv|].
  apply (client_next _ _ _ _ EvHangup ex_client); [by apply client_init|by vm_compute].
Defined.


Lemma subscribe_takes_effect_witness : ∃ sent, subscribe ex_env [0x4; 0x8001] ex_client = (true, add_sent sent ex_client) ∧
  ∀ (external internal : option (MessageHandler unit)) w b rest,
    broker_inv b → Broker.pending b !! 5 = Some (sent ++ rest) → Z.of_nat (length (sent ++ rest)) < 2 ^ 32 →
    ∃ b', handle_msg external internal 5 (w, b) = Some (true, (w, b')) ∧ broker_inv b' ∧
      Broker.pending b' !! 5 = Some rest ∧
      ∀ sd' type, subscribed b' sd' type ↔
        (sd' = 5 ∧ type ∈ MsgType_value 0 0 <$> [0x4; 0x8001]) ∨ subscribed b sd' type.
Proof.
  apply (subscribe_takes_effect ex_env [0x4; 0x8001] ex_client 5); [unfold MAX_SUBSCRIBE_TYPES; cbn; lia|exact ex_connected|done].
Defined.

(** ** Delivery *)

Definition ex_packet : Packet :=
  mkPacket IF_TYPE_LOCAL_BUS 0 0 7 ex_al_mac ex_agent_mac ETH_P_1905_1 (wire_message 0x4 0x1234 ex_tlvs).
Definition ex_published : list Published := [mkPublished 0x4 0x1234 ex_tlvs ex_packet 99].
Definition ex_waiting : BrokerClient unit :=
  set_pending (encode_all message_bytes (pb_message <$> ex_published)) ex_client.


Lemma forward_cmdu_resends_witness : let m := (parse (received ex_discovery)).2 in
  ∃ msg, forward_cmdu ex_env ex_al_mac ex_agent_mac 7 (m, ex_client) = (Some true, (m, add_sent (message_bytes msg) ex_client)) ∧
    resends ex_discovery (getMessageLength m) ex_al_mac ex_agent_mac 7 msg.
Proof.
  intros m. apply (forward_cmdu_resends ex_env ex_discovery m ex_al_mac ex_agent_mac 7 ex_client);
    [decided|by vm_compute|by vm_compute|split; [done|decided]|done|split; [done|decided]|done|lia|exact ex_connected|done].
Defined.

(** ** A CAC report *)

(** A radio on channel 36 with a channel in each state; channel 100 is checked
    for another minute. *)
Definition ex_radio : cac.sRadio :=
  cac.mkRadio ex_al_mac (initialize_empty_wifi_channel_members)
    [(36, cac.mkChannelInfo [BANDWIDTH_20; BANDWIDTH_40] cac.AVAILABLE);
     (52, cac.mkChannelInfo [BANDWIDTH_20] cac.UNAVAILABLE);
     (100, cac.mkChannelInfo [BANDWIDTH_20; BANDWIDTH_80] cac.USABLE);
     (149, cac.mkChannelInfo [BANDWIDTH_20] cac.NOT_DFS)] 60000000000 None.

Lemma cac_report_complete_witness : ∃ report,
  cac.create_cac_status_report_tlv (λ _, 0) (λ _, Some ex_radio) [ex_al_mac] 100
    = (Some (negb (bool_decide (in_state cac.AVAILABLE ex_radio ++ in_state cac.UNAVAILABLE ex_radio
                                ++ in_state cac.USABLE ex_radio = []))), report) ∧
  entry_pairs (cac.sr_available report) ≡ₚ in_state cac.AVAILABLE ex_radio ∧
  entry_pairs (cac.sr_detected report) ≡ₚ in_state cac.UNAVAILABLE ex_radio ∧
  entry_pairs (cac.sr_active report) ≡ₚ in_state cac.USABLE ex_radio ∧ cac.wire_count (cac.sr_active report) = 2.
Proof.
  destruct (cac_report_complete (λ _, 0) (λ _, Some ex_radio) ex_al_mac ex_radio 100)
    as (report & Hr & Ha & Hn & Hc & _ & _ & Hu);
    [done|unfold channels_ok; cbn; repeat constructor; cbn; lia|intros k; cbn; lia|vm_compute; lia..|].
  exists report. split_and!; [done..|]. by rewrite Hu; vm_compute.
Defined.
