(* ===== verification/VendorExamples.v ===== *)
(** * Worked examples of vendor specific messages

    Concrete messages at which the theorems on vendor specific messages are
    applied. *)

From S2P Require Import Prelude Wire Messages Tlvf TlvClasses1905 TlvClassesMap CmduMessage CmduTx CmduUtils.
From S2P Require Import BrokerClient VendorMessage VendorClassesAgent VendorClassesController VendorTx VendorClasses.

Ltac decided := apply (bool_decide_unpack _); vm_compute; exact I.

(** A request of the slave to its fronthaul: a station, and a timeout in host
    order. *)
Definition ex_fields : list FixedField := [mkFF "sta_mac" 6 []; mkFF "timeout" 2 [(0, 2)%nat]].
Definition ex_values : list (list Z) := [[2; 0; 0; 0; 0; 1]; [0x34; 0x12]].
Definition ex_tx : VsTx := mkVsTx (mkTxList (replicate 100 0xff) false []) None.

Lemma ex_fixed : fixed_class cACTION_APMANAGER_MULTI_CHAN_BEACON_11K_REQUEST [] ex_fields.
Proof. split; [done|by repeat constructor|decided|done|done|decided]. Qed.

Lemma vs_message_delivered_witness : ∃ t' m v v' o,
  vs_build cACTION_APMANAGER_MULTI_CHAN_BEACON_11K_REQUEST [] ex_fields 0x0102 ex_values ex_tx = (Some true, t') ∧
  parse (received (message (vt_cmdu t') ++ [1; 2; 3])) = (Some (Parsed true), m) ∧
  parse_intel_vs_message (mkVsMessage m None) = (Some true, v) ∧
  vs_get_action v = vs_action cACTION_APMANAGER_MULTI_CHAN_BEACON_11K_REQUEST ∧ vs_get_op v = vs_op cACTION_APMANAGER_MULTI_CHAN_BEACON_11K_REQUEST ∧
  vs_get_id v = swap_16 0x0102 ∧
  vs_addClass cACTION_APMANAGER_MULTI_CHAN_BEACON_11K_REQUEST v = (Some (Some o), v') ∧
  Forall2 (λ f x, value_of o (ff_name f) (ff_size f) (m_buff (vm_cmdu v')) = Some x) ex_fields ex_values.
Proof.
  apply (vs_message_delivered cACTION_APMANAGER_MULTI_CHAN_BEACON_11K_REQUEST [] ex_fields 0x0102 ex_values ex_tx [1; 2; 3]).
  - exact ex_fixed.
  - by repeat constructor.
  - decided.
  - decided.
  - vm_compute. lia.
  - vm_compute. reflexivity.
Defined.

(** The bytes of that message. *)
Definition ex_vs_message : list Z :=
  [0; 0; 0; 4; 0; 0; 0; 0x80] ++ [0xb; 0; 30; 0x00; 0x03; 0x47]
  ++ [0x55; 0xcd; 0xab; 0xef; 6; 0x14; 0x4c; 1; 0; 0; 0; 0; 0; 0; 0; 0x02; 0x01; 0; 0] ++ [2; 0; 0; 0; 0; 1; 0x12; 0x34] ++ [0; 0; 0].

Example ex_vs_sent :
  message (vt_cmdu (vs_build cACTION_APMANAGER_MULTI_CHAN_BEACON_11K_REQUEST [] ex_fields 0x0102 ex_values ex_tx).2) = ex_vs_message.
Proof. vm_compute. reflexivity. Qed.

Example ex_vs_id :
  vs_get_id (parse_intel_vs_message (mkVsMessage (parse (received ex_vs_message)).2 None)).2 = 0x0201.
Proof. vm_compute. reflexivity. Qed.

Lemma vendor_message_roundtrip_witness : ∃ ok v,
  parse_intel_vs_message (mkVsMessage (parse (received ex_vs_message)).2 None) = (Some ok, v) ∧
  (ok = true → ∃ all v', vs_addClasses [cACTION_APMANAGER_MULTI_CHAN_BEACON_11K_REQUEST] v = (Some all, v') ∧
     (all = true →
        (∃ tlv i, vs_inside (parse (received ex_vs_message)).2
           ["cACTION_HEADER"; "cACTION_APMANAGER_MULTI_CHAN_BEACON_11K_REQUEST"] v' tlv i) ∧
        ∃ v'', vs_swap v' = (Some tt, v'') ∧ m_buff (vm_cmdu v'') = ex_vs_message)).
Proof.
  apply (vendor_message_roundtrip ex_vs_message (parse (received ex_vs_message)).2 [cACTION_APMANAGER_MULTI_CHAN_BEACON_11K_REQUEST]).
  - decided.
  - vm_compute. reflexivity.
  - by repeat constructor.
Defined.
