(* ===== verification/ScanExamples.v ===== *)
(** * Channel scans: examples

    Concrete scans: the theorems applied to them, and the courses in which the
    task faults or gives no answer. *)

From S2P Require Import Prelude Wire Streams Channels ScanReport ChannelScan ScanSafety ScanFlow.
Import channel_scan.

(** ** A radio, a request and an environment *)

Definition second (n : Z) : Z := n * 1000000000.
Definition scan_stamp : list Z := [50; 48; 50; 52; 45; 48; 49; 45; 48; 49; 84; 48; 48; 58; 48; 48; 58; 48; 48; 46].
Definition scan_report_env : ReportEnv := mkReportEnv 1500 true (λ _, true) (λ _, scan_stamp).
Definition scan_env (on_boot : bool) (clock : nat → Z) : ScanEnv :=
  mkScanEnv scan_report_env on_boot 103 0 clock (λ _, true) (λ _, true) (λ _, true).
(** Clocks that are read at no whole second. *)
Definition ticking (n : nat) : Z := second (1000 + Z.of_nat n) + 987654321.
Definition late (n : nat) : Z := second 9000 + 123456789 * Z.of_nat n.

Definition radio_mac : sMacAddr := [2; 0; 0; 0; 0; 1].
Definition radio_bssid : sMacAddr := [2; 0; 0; 0; 0; 9].
Definition second_mac : sMacAddr := [2; 0; 0; 0; 1; 1].
Definition controller_mac : sMacAddr := [2; 0; 0; 0; 0; 7].
Definition radio24 : ScanRadio := mkScanRadio "wlan0" "wlan1" radio_mac radio_mac [radio_bssid] [] FREQ_24G
  (list_to_map [(1, [BANDWIDTH_20]); (6, [BANDWIDTH_20]); (11, [BANDWIDTH_20])]) ∅ true.
Definition radio5 : ScanRadio := mkScanRadio "wlan2" "wlan3" second_mac second_mac [] [] FREQ_5G
  (list_to_map [(36, [BANDWIDTH_20; BANDWIDTH_80]); (40, [BANDWIDTH_20; BANDWIDTH_80]); (44, [BANDWIDTH_20; BANDWIDTH_80]);
    (48, [BANDWIDTH_20; BANDWIDTH_80])]) ∅ false.

Definition neighbor (ch last : Z) : sChannelScanResults :=
  mkScanResults ([110; 101; 116] ++ replicate 33 0) [2; 2; 2; 2; 2; last] ch 0 (-60) 1 (-90) 5 3 1 0.
Definition scan_classes : list ScanClass := [mkScanClass 81 BANDWIDTH_20 [mkScanChannel 1 SUCCESS; mkScanChannel 6 SUCCESS; mkScanChannel 3 SCAN_NOT_SUPPORTED]].
Definition scan_request (st : eState) (timeout : Z) : sScanRequest :=
  scan_of radio_mac controller_mac (second 1000 + 765432198) 103 st scan_classes timeout ∅.

Definition task (current : gmap string sCurrentScan) (pending : gmap string sScanRequest) : ScanTask :=
  mkScanTask [radio24; radio5] [0%nat; 1%nat] ∅ ∅ current pending 0 0 [].
Definition scanning (st : eState) (timeout : Z) : ScanTask :=
  task {["wlan0"%string := mkCurrentScan true (Some (scan_request st timeout))]} ∅.

Lemma scan_env_ok on_boot clock : (∀ n, 0 ≤ clock n) → report_env_ok (scan_env on_boot clock).
Proof. intros Hc. split; [exact Hc|done|by vm_compute; lia|done|done]. Qed.

Lemma located24 current pending : located 0 "wlan0" radio_mac (task current pending) radio24.
Proof. split; [done|done|done|]. intros j r' _ Hj. lia. Qed.

(** ** The theorems at work *)

Definition scan_flow_results : list sChannelScanResults := [neighbor 1 1; neighbor 6 2; neighbor 1 1; neighbor 6 3].
Lemma scan_results_fit : Forall fits_neighbor scan_flow_results.
Proof. repeat constructor; eexists; (split; [reflexivity|vm_compute; lia]). Qed.

(** A scan of channels 1 and 6: the report has one neighbour of channel 1 and
    two of channel 6. *)
Lemma scan_reported_witness :
  let s := task ∅ {["wlan0"%string := scan_request PENDING_TRIGGER 0]} in
  ∃ s' results l, scan_course (scan_env false ticking) 0 radio_mac 1 (neighbor 1 1) scan_flow_results s = (Some true, s') ∧
  current "wlan0" s' = no_scan ∧
  reported (scan_env false ticking) controller_mac results
    (TRIGGER_SCAN_REQUEST radio_mac radio_mac 103 {[1; 6]} 0 :: l) (sent s') ∧
  neighbors_of 1 results = [neighbor 1 1] ∧ neighbors_of 6 results = [neighbor 6 2; neighbor 6 3].
Proof.
  intros s. destruct (scan_reported (scan_env false ticking) 0 "wlan0" radio_mac controller_mac (second 1000 + 765432198) 103 scan_classes s
    radio24 0 {[1; 6]} 1 (neighbor 1 1) scan_flow_results) as (s' & results & l & H1 & H2 & _ & _ & H3 & _ & H4).
  - apply scan_env_ok. intros n. unfold ticking, second. lia.
  - done.
  - done.
  - done.
  - done.
  - apply located24.
  - done.
  - done.
  - done.
  - by repeat constructor.
  - by vm_compute.
  - set_solver.
  - by vm_compute.
  - apply scan_results_fit.
  - exists s', results, l. split_and!; [done..| |].
    + rewrite H4 by (apply (bool_decide_unpack _); by vm_compute). by vm_compute.
    + rewrite H4 by (apply (bool_decide_unpack _); by vm_compute). by vm_compute.
Defined.

(** The monitor confirms the scan and is silent for longer than it may. *)
Lemma scan_timeout_reported_witness :
  ∃ s' results l, (_ <- work_radio (scan_env false late) 0 ;; work_radio (scan_env false late) 0)
    (scanning WAIT_FOR_SCAN_TRIGGERED (second 1020)) = (Some true, s') ∧ current "wlan0" s' = no_scan ∧
  reported (scan_env false late) controller_mac results l (sent s') ∧
  key_of <$> results = [(81, 1, SCAN_NOT_COMPLETED); (81, 6, SCAN_NOT_COMPLETED); (81, 3, SCAN_NOT_COMPLETED)].
Proof.
  destruct (scan_timeout_reported (scan_env false late) 0 "wlan0" radio_mac (scanning WAIT_FOR_SCAN_TRIGGERED (second 1020)) radio24
    (scan_request WAIT_FOR_SCAN_TRIGGERED (second 1020))) as (s' & results & l & H1 & H2 & _ & H3 & H4 & _).
  - apply scan_env_ok. intros n. unfold late, second. lia.
  - done.
  - apply located24.
  - done.
  - done.
  - by left.
  - done.
  - intros n. cbn. unfold late, second. lia.
  - exists s', results, l. done.
Defined.

(** A report that does not fit in one CMDU. *)
Definition many_results : list sStoredScanResults :=
  [mkStored radio_mac 81 1 SUCCESS (second 1 + 999999999) 103 0 0 (neighbor 1 <$> (Z.of_nat <$> seq 0 60));
   mkStored radio_mac 81 3 SCAN_NOT_SUPPORTED time_point_min 103 0 0 []].
Lemma scan_report_complete_witness : ∃ r',
  send_channel_scan_report scan_report_env controller_mac (second 5 + 123456789) many_results (mkReport [] [] 0) = (Some true, r') ∧
  report_sent scan_report_env controller_mac (get_ISO_8601_timestamp_string scan_report_env (second 5 + 123456789)) many_results (rp_sent r') ∧
  Forall (λ m, short_tlvs m.2) (rp_sent r').
Proof.
  apply scan_report_complete.
  - done.
  - by vm_compute; lia.
  - by vm_compute; lia.
  - done.
  - done.
  - constructor; [|constructor; [|done]]; split.
    + intros _. split; [done|]. vm_compute. lia.
    + intros _. apply Forall_fmap, Forall_true. intros n. exists [110; 101; 116]. split; [done|]. vm_compute. lia.
    + done.
    + done.
Defined.

(** From a task with a pending request, through the work that starts the scan
    and the monitor's confirmation. *)
Definition pending_task : ScanTask := task ∅ {["wlan0"%string := scan_request PENDING_TRIGGER 0]}.
Definition confirmed : ScanTask :=
  (handle_cmdu (scan_env false ticking) (VENDOR_SPECIFIC_MESSAGE 1 (Some (radio_mac, TRIGGER_SCAN_RESPONSE true)))
     (work (scan_env false ticking) pending_task).2).2.
Lemma scan_task_safe_witness :
  is_scan_currently_running (current "wlan0" confirmed) = true ∧ pointers_ok confirmed ∧
  (∀ mid mac n, (handle_vendor_specific (scan_env false ticking) mid mac n confirmed).1 ≠ None).
Proof.
  split; [by vm_compute|]. destruct (scan_task_safe (scan_env false ticking) pending_task confirmed) as (H1 & H2 & _); [done| |by split].
  eapply rtc_l; [apply step_work|]. apply rtc_once. apply (step_cmdu _ _ (VENDOR_SPECIFIC_MESSAGE 1 (Some (radio_mac, TRIGGER_SCAN_RESPONSE true)))).
  by intros [].
Defined.

(** ** Courses that go wrong *)

(** An abort response that comes after the scan was reported marks a scan as
    running that has no request: the next work dereferences a null pointer. *)
Lemma late_abort_response_faults :
  let s := (handle_cmdu (scan_env false late) (VENDOR_SPECIFIC_MESSAGE 1 (Some (radio_mac, ABORT_RESPONSE true))) (task ∅ ∅)).2 in
  (work (scan_env false late) s).1 = None.
Proof. by vm_compute. Qed.

(** The on boot results are requested while the on boot scan runs. *)
Lemma on_boot_results_during_scan_fault :
  let m := CHANNEL_SCAN_REQUEST_MESSAGE 1 controller_mac (Some (mkRequestTlv 0 [Some (mkRadioEntry radio_mac [])])) None in
  let s := (handle_cmdu (scan_env true late) m (scanning WAIT_FOR_RESULTS_DUMP (second 10000))).2 in
  (work (scan_env true late) s).1 = None.
Proof. by vm_compute. Qed.

(** A request that names a BSSID of the radio finds the radio; the report then
    looks for a radio with that address and uses the null pointer it gets. *)
Lemma bssid_request_faults :
  let m := CHANNEL_SCAN_REQUEST_MESSAGE 1 controller_mac (Some (mkRequestTlv 0 [Some (mkRadioEntry radio_bssid [])])) None in
  (handle_cmdu (scan_env false ticking) m (task ∅ ∅)).1 = None.
Proof. by vm_compute. Qed.

(** A scan that the monitor refuses is never reported: the scan no longer runs
    and no work looks at it. *)
Lemma refused_scan_unreported :
  let s := (handle_cmdu (scan_env false late) (VENDOR_SPECIFIC_MESSAGE 1 (Some (radio_mac, TRIGGER_SCAN_RESPONSE false)))
              (scanning PENDING_TRIGGER 0)).2 in
  rs_current_state <$> (rq_radio_scans <$> cur_request (current "wlan0" s)) = Some SCAN_FAILED ∧
  is_scan_currently_running (current "wlan0" s) = false ∧ sent (work (scan_env false late) s).2 = [].
Proof. by vm_compute. Qed.

(** A monitor that does not answer the trigger request blocks the radio: work
    only sends another abort request. *)
Lemma unanswered_trigger_blocks :
  let s := (work (scan_env false late) (scanning PENDING_TRIGGER 0)).2 in
  m_current_scan_info s = m_current_scan_info (scanning PENDING_TRIGGER 0) ∧ sent s = [ABORT_REQUEST radio_mac] ∧
  m_current_scan_info (work (scan_env false late) s).2 = m_current_scan_info s ∧
  sent (work (scan_env false late) s).2 = [ABORT_REQUEST radio_mac; ABORT_REQUEST radio_mac].
Proof. by vm_compute. Qed.

(** A fresh scan that comes too soon after the last one is still triggered. *)
Lemma ignored_request_triggers :
  let s := (work (scan_env false ticking) (task ∅ {["wlan0"%string := scan_request SCAN_IGNORED 0]})).2 in
  sent s = [TRIGGER_SCAN_REQUEST radio_mac radio_mac 103 {[1; 6]} 0].
Proof. by vm_compute. Qed.

(** The dwell time of a request for two radios: the second gets the bytes in
    the other order. *)
Definition two_radios : ScanCmdu :=
  CHANNEL_SCAN_REQUEST_MESSAGE 1 controller_mac
    (Some (mkRequestTlv 128 [Some (mkRadioEntry radio_mac [Some (81, [1])]); Some (mkRadioEntry second_mac [Some (115, [36])])]))
    (Some [Some (radio_mac, 50); Some (second_mac, 50)]).
Lemma second_dwell_time_swapped :
  let s := (handle_cmdu (scan_env false ticking) two_radios (task ∅ ∅)).2 in
  rs_dwell_time <$> (rq_radio_scans <$> m_pending_requests s !! "wlan0"%string) = Some 50 ∧
  rs_dwell_time <$> (rq_radio_scans <$> m_pending_requests s !! "wlan2"%string) = Some 838860800.
Proof. by vm_compute. Qed.

(** A second request replaces one that is pending, which is never answered. *)
Definition request_from (src : sMacAddr) : ScanCmdu :=
  CHANNEL_SCAN_REQUEST_MESSAGE 1 src (Some (mkRequestTlv 128 [Some (mkRadioEntry radio_mac [Some (81, [1])])])) None.
Lemma pending_request_replaced :
  let s1 := (handle_cmdu (scan_env false ticking) (request_from controller_mac) (task ∅ ∅)).2 in
  let s2 := (handle_cmdu (scan_env false ticking) (request_from second_mac) s1).2 in
  rq_src_mac <$> m_pending_requests s1 !! "wlan0"%string = Some controller_mac ∧
  rq_src_mac <$> m_pending_requests s2 !! "wlan0"%string = Some second_mac ∧ size (m_pending_requests s2) = 1%nat.
Proof. by vm_compute. Qed.

(** A radio that supports channels 36 to 48 with 80 MHz: the classes of 80 MHz
    are looked up by their centre channel, so that every channel is marked as
    not supported. *)
Lemma wide_class_not_supported : ∃ l, create_channel_vector [] 128 BANDWIDTH_80 radio5 = Some l ∧
  channel_number <$> take 4 l = [36; 40; 44; 48] ∧ Forall (λ ch, scan_status ch = SCAN_NOT_SUPPORTED) l.
Proof. eexists. split; [by vm_compute|]. by vm_compute; repeat constructor. Qed.

(** The longest neighbour is longer than the estimate. *)
Definition long_neighbor : sChannelScanResults := mkScanResults (replicate 32 65 ++ [0; 0; 0; 0]) radio_bssid 1 0 0 5 0 0 0 1 0.
Lemma long_neighbor_size : ∃ ssid, c_string (r_ssid long_neighbor) = Some ssid ∧ neighbor_size (to_neighbor long_neighbor ssid) = 53%nat.
Proof. by eexists. Qed.

(** Neighbours and a time stamp of the sizes that do occur: the report of three
    neighbours of 50 bytes with a time stamp of 30 is not sent, since it leaves
    no room for the end of the message. *)
Definition wide_neighbor : sChannelScanResults := mkScanResults (replicate 32 65 ++ [0; 0; 0; 0]) radio_bssid 1 0 0 1 0 0 0 1 0.
Lemma full_estimate_not_sent :
  let e := mkReportEnv 270 true (λ _, true) (λ _, scan_stamp) in
  let t := second 5 + 123456789 in
  let results := [mkStored radio_mac 81 1 SUCCESS t 103 0 0 (replicate 3 wide_neighbor)] in
  length (get_ISO_8601_timestamp_string e t) = 30%nat ∧
  (send_channel_scan_report e controller_mac t results (mkReport [] [] 0)).1 = Some false.
Proof. by vm_compute. Qed.

(** The nanoseconds are not padded: five milliseconds read as half a second. *)
Lemma fraction_not_padded : ∃ date,
  get_ISO_8601_timestamp_string scan_report_env (second 5 + 5000000) = date ++ [53; 48; 48; 48; 48; 48; 48; 90].
Proof. exists scan_stamp. by vm_compute. Qed.

(** An on boot scan that fails stays the running scan. *)
Lemma failed_on_boot_scan_runs :
  let s := scanning SCAN_FAILED 0 in
  m_current_scan_info (work (scan_env true ticking) s).2 = m_current_scan_info s ∧ sent (work (scan_env true ticking) s).2 = [].
Proof. by vm_compute. Qed.
